(* ===== verification/_CoqProject ===== *)
-Q . S2P
Prelude.v
LinkedList.v
Mbuf.v
Fmt.v
Base64.v
Print.v
MbufPrint.v
Regex.v
Uri.v
Hash.v
Dname.v
DnsRr.v
DnsList.v
Sip.v
SipSafe.v
SipVal.v
SipHead.v
SipLines.v
SipMsg.v
SipPrint.v
Trans.v
Reply.v
Strans.v
StransLife.v
StransTable.v
Ctrans.v
CtransCopy.v
CtransLife.v
CtransTable.v
Dialog.v
SdpMedia.v
SdpMsg.v
SdpSafe.v
SdpText.v
SdpLines.v
SdpRound.v
Tmr.v
Telev.v
Rtp.v
Source.v
Jbuf.v
Db.v
App.v
Call.v
Campaign.v
Pull.v
