(* ===== verification/Prelude.v ===== *)
(** * A verification library for the autodialer and the libre code it runs on

    The autodialer (src/src/) takes campaigns, destinations, gateways and key
    actions from a MySQL database, calls the destinations through SIP gateways,
    plays an audio file to whoever answers, reacts to the keys they press and
    writes what happened back to the database.  It runs on libre (src/re/), an
    event-driven SIP, SDP and RTP stack.  This library models the dialer and the
    parts of libre its behaviour rests on, from the linked list upwards.

    ** The parts and how they interact

    The main thread runs libre's event loop: timers (tmr.c) call
    [campaign_service_handler] and [on_call_end] of main.c, which start and end
    calls through call.c; the SIP stack calls the handlers of call.c back; RTP
    packets arrive at [rtp_recv_handler].  A database thread runs [DbThread]
    (main.c), which reads the tables ([pull_groups]) and executes the SQL text
    the main thread queued (db.c).  Every call has a playing thread
    ([rtpThread] of call.c).  Underneath, SIP messages are decoded by msg.c and
    its helpers, requests are repeated by the client transactions of ctrans.c,
    answered by the replies of reply.c and held by the server transactions of
    strans.c, and the requests of a call are written from its dialog (dialog.c).
    The offers and answers they carry are read and printed by sdp/, which settles
    the codecs of a call.  Everything is built on memory buffers (mbuf.c), formatted
    printing (print.c), regular expressions (regex.c), URIs (uri/), hash tables
    (hash/) and linked lists (list.c).

    ** Files

    Each file models one component; operations carry the names of their C
    functions, and a record carries the fields of its C struct with a prefix.

    - Prelude.v (this file): the [outcome] of a C function (a value, or a
      [fault] for undefined behaviour), the state monad [prog] over it, machine
      integers as [Z] with their wraps, bytes and C strings, tactics and hints.
    - LinkedList.v (list/list.c): elements and list headers on a heap with
      pointers; [is_list] relates them to the sequence they represent.  Other
      files use that sequence.
    - Mbuf.v (mbuf/mbuf.c, re_mbuf.h): buffers, with every copy checked against
      the allocation; [allocator] decides which requests are granted.
      MbufPrint.v: printing into a buffer.
    - Fmt.v (fmt/pl.c, str.c, ch.c), Print.v (fmt/print.c), Regex.v
      (fmt/regex.c), Base64.v (base64/b64.c), Hash.v (hash/func.c, hash.c),
      Uri.v (uri/uri.c, ucmp.c, uric.c).
    - Dname.v (dns/dname.c): names in DNS messages and their compression.
      DnsRr.v (dns/hdr.c, cstr.c, rr.c): message headers and resource records in
      both directions.  DnsList.v (dns/rrlist.c): lists of records, sorted, and
      searched along their aliases.
    - Sip.v (sip/msg.c, via.c, addr.c, cseq.c, param.c, msg/param.c, ctype.c):
      the definitions of the message decoder.  SipSafe.v: its memory safety.
      SipVal.v: values of Via, To, From and CSeq and their parameters against
      their grammar.  SipHead.v, SipLines.v, SipMsg.v: header names, header
      lines and whole messages against theirs.  SipPrint.v: printing messages line by line.
    - Trans.v: what client and server transactions share: a handler runs on one
      transaction ([trun]), the hash table of all transactions of a stack
      ([table], [on], its invariant [tab_in]), sending (sip_send of sip/sip.c)
      and the schedule of repetitions.
    - Reply.v (sip/reply.c): the text of a reply and its destination.
    - Strans.v (sip/strans.c): server transactions, first as handlers that run on
      one transaction ([run], [exec]), then as operations on the table.
      StransLife.v: the life of one transaction, as a step relation.
      StransTable.v: what becomes of requests and replies, and the table.
    - Ctrans.v (sip/ctrans.c): client transactions, in the same way.
      CtransCopy.v: the text of the ACK and the CANCEL.  CtransLife.v: the life
      of one transaction.  CtransTable.v: the table.
    - Dialog.v (sip/dialog.c): the dialog of a call, as the texts it holds and
      the place its route points to.
    - SdpMedia.v (sdp/str.c, attr.c, format.c, media.c): attributes, formats and
      media lines, and the negotiation of the formats.  SdpMsg.v (sdp/session.c,
      msg.c): sessions, the reader and the printer of descriptions.  SdpSafe.v:
      the reader on any text.  SdpText.v: the lines that are printed.
      SdpLines.v: the reader on lines of the printer's shapes.  SdpRound.v: what
      one side prints and the other reads.
    - Tmr.v (tmr/tmr.c), Telev.v (telev/telev.c), Rtp.v (rtp/rtp.c, ntp.c),
      Source.v (rtp/source.c): what a receiver counts of a sender, Jbuf.v
      (jbuf/jbuf.c): the jitter buffer.
    - Db.v (src/db.c): the queue of SQL text and the connection.
    - App.v (call.h, db.h): the objects of the dialer by address, the [Store]
      interface through which they are read and written, and [env], what is
      outside the dialer.  Call.v (src/call.c): calls, the pool of RTP sessions,
      the SIP callbacks, received and played media.  Campaign.v (src/main.c):
      campaigns, dialling, supervision and the database refresh.  Pull.v: what
      becomes of a row of the gateway table.

    ** What the theorems show

    - The dialling loop (Campaign): which destinations are taken, in which order
      and how often, what starts a call, what each end of a call reports, retries
      and frees, and that the calls, the sessions and their pool keep their
      invariant.  The refresh (Campaign, Pull): what a row creates or changes,
      and the bounds of every setting.
    - Calls (Call): every error path of [call_alloc], every answer, the bytes of
      received packets, the stream of packets of an audio file, and the release
      of sessions; the database queue (Db) hands every statement to the server
      once and in order across reconnections, and drops those that are refused.
    - SIP (SipSafe, SipVal, SipMsg, SipHead): the decoder is memory safe on any
      bytes, and what the grammar allows is accepted, read back and taken apart
      into the common headers.  Client transactions: one final report
      in any order of events, bounded repetition, the schedule of the
      repetitions, and responses reach the transaction they belong to.  Server
      transactions: what becomes of every request, the text and the effect of
      every reply, bounded repetition of a refusal and none after its ACK.
      Dialogs (Dialog): how they are opened, completed and retargeted, and the
      headers and sequence numbers of their requests.
    - Session descriptions: the reader is safe on any text (SdpSafe); what is
      printed (SdpText) is read by the other side into the lines, formats,
      directions and addresses that were meant (SdpRound); and an offer or answer
      settles which formats are supported, in whose order (SdpMedia).
    - Received media: the counts of a source agree with the packets' full
      sequence numbers, and its losses and jitter with their definitions
      (Source); the jitter buffer refines a sorted queue of bounded size and
      balances its references (Jbuf).
    - libre's data structures and codecs: termination and functional
      specification of sorting and of the timer queue, agreement with reference
      definitions (Regex, Rtp, SipHead, Telev), round trips (Uri, Base64, Rtp,
      Dname, DnsRr, SipMsg), bounds of the printers (Print) and of the decoders
      of names and records (Dname, DnsRr), and the search along aliases, which
      ends on any list (DnsList).

    ** Conventions

    Integers are [Z] with the wrap of their width at each store ([u8] ... [s32]);
    [size_t] is [u64].  Memory that a function reads is represented with its
    bounds, so that a read outside is [Fault OutOfBounds]; NULL is [None] or a
    [Fault NullDeref]; a freed object is absent from its map and its use is a
    [Fault UseAfterFree].  Theorems that a function "returns" say that its
    outcome is a [Ret].

    Fuel is used where the recursion is not structural, and every use is proved
    sufficient: the list loops get the length of the list and fewer than its
    inversions rounds of sorting (LinkedList, Campaign [sort_loop]); [tmr_poll]
    as many rounds as timers are due; [valid_shift] 32 shifts of a word; the
    parameter loops of a URI its length; [dns_dname_decode] 600 turns, of which
    at most 256 follow pointers and 255 add to the name; the search along aliases
    17 levels, the bound of the code; the formats of an [m=] line one turn more
    than it has bytes; [destroy_call] one turn
    per call, since a forwarded leg has no leg of its own.

    ** Assumptions

    What is outside src/ or below the modelled layer is a parameter, with its
    documented behaviour as named hypotheses: the MySQL client library (class
    [mysql] of Db.v); the results of the SIP session and SDP functions, of
    sockets, threads and files ([env] of App.v); the address a text denotes
    ([inet], [sa_set]); the result of each transmission ([send] of Trans.v);
    the allocator ([allocator], and one decision per struct allocation, which for
    the lines, formats and attributes of a description may depend on the text they
    come from); the random numbers of dialogs and sessions.  Letter
    case and character classes are those of the C locale.  The clock is at most
    2^62 milliseconds.  Threads are interleaved at the granularity of the
    functions modelled.  The response handler of a client transaction and the
    cancel handler of a server transaction are the last thing a step does; what
    they ask of the transaction is the next step.

    ** Not modelled

    main() and the start-up of the stack; in_call.c, whose only entry is called
    from a comment; the event loop, the allocator and the message queue
    (main/, mem/, mqueue/); the sockets (udp/, tcp/, tls/, net/) and, of sa/, all
    but the setters the models use; SIP request routing, authentication and
    transports (sip/request.c, auth.c, transp.c); SIP sessions (sipsess/), which
    the dialer's model takes as an environment, as it does the descriptions of
    sdp/; the DNS client (dns/client.c); RTCP (rtp/sess.c and its helpers); and
    what the dialer does not use: STUN, TURN, ICE, BFCP, HTTP, SRTP,
    cryptography.  Floating point (%f, [pl_float]) and the debug printers are left
    out. *)
From stdpp Require Import base tactics list numbers strings option gmap fin_maps.

#[global] Open Scope Z_scope.

(** ** C faults and the outcome monad

    A C function of the program either returns or runs into undefined
    behaviour.  [Fault] values are never caught: once a model reaches one, the
    rest of the run is a [Fault]. *)
Inductive fault :=
  | NullDeref
  | UseAfterFree
  | OutOfBounds
  | VarArg
  | Uninit
  | BadShift
  | Overflow
  | NoFuel.

Inductive outcome (A : Type) :=
  | Ret (a : A)
  | Fault (f : fault).
Arguments Ret {A} a.
Arguments Fault {A} f.

#[export] Instance fault_eq_dec : EqDecision fault.
Proof. solve_decision. Defined.

#[export] Instance outcome_ret : MRet outcome := λ A a, Ret a.
#[export] Instance outcome_bind : MBind outcome := λ A B k m,
  match m with Ret a => k a | Fault f => Fault f end.
#[export] Instance outcome_fmap : FMap outcome := λ A B g m,
  match m with Ret a => Ret (g a) | Fault f => Fault f end.

(** Reading through a pointer: absent memory is a fault of the given kind. *)
Definition of_option {A} (f : fault) (o : option A) : outcome A :=
  match o with Some a => Ret a | None => Fault f end.

Definition is_Ret {A} (m : outcome A) : Prop := ∃ a, m = Ret a.

(** ** A state monad over outcomes *)
Definition prog (S A : Type) := S → outcome (A * S).

#[export] Instance prog_ret {S} : MRet (prog S) := λ A a s, Ret (a, s).
#[export] Instance prog_bind {S} : MBind (prog S) := λ A B k m s,
  match m s with Ret (a, s') => k a s' | Fault f => Fault f end.

Definition get {S} : prog S S := λ s, Ret (s, s).
Definition put {S} (s : S) : prog S unit := λ _, Ret (tt, s).
Definition modify {S} (f : S → S) : prog S unit := λ s, Ret (tt, f s).
Definition gets {S A} (f : S → A) : prog S A := λ s, Ret (f s, s).
Definition crash {S A} (f : fault) : prog S A := λ _, Fault f.
Definition deref_opt {S A} (f : fault) (o : option A) : prog S A :=
  λ s, match o with Some a => Ret (a, s) | None => Fault f end.
Definition skip {S} : prog S unit := λ s, Ret (tt, s).

(** ** Field updates

    [setter p] is the function that replaces the field [p] of a record whose
    eta expansion is an instance of [Eta]. *)
Class Eta (R : Type) := eta : R → R.

Ltac setter p :=
  lazymatch type of p with
  | ?R → ?T =>
      let i := constr:(_ : Eta R) in
      exact (λ (v : T) (r : R),
        ltac:(let e := eval hnf in (i r) in
              let e := eval pattern (p r) in e in
              lazymatch e with ?f _ => let g := eval cbv beta in (f v) in exact g end))
  end.

(** ** Machine integers

    An unsigned C integer of width [w] is a [Z] in [[0, 2^w)]; each store into
    one goes through the wrap of its width. *)
Definition u8 (z : Z) : Z := z `mod` 256.
Definition u16 (z : Z) : Z := z `mod` 65536.
Definition u32 (z : Z) : Z := z `mod` 4294967296.
Definition u64 (z : Z) : Z := z `mod` 18446744073709551616.
Definition s16 (z : Z) : Z := (z + 32768) `mod` 65536 - 32768.
Definition s32 (z : Z) : Z := (z + 2147483648) `mod` 4294967296 - 2147483648.

Definition b2z (b : bool) : Z := if b then 1 else 0.

Definition is_byte (b : Z) : Prop := 0 ≤ b < 256.
Definition bytes_ok (l : list Z) : Prop := Forall is_byte l.

#[export] Instance is_byte_dec b : Decision (is_byte b).
Proof. unfold is_byte. apply _. Defined.
#[export] Instance bytes_ok_dec l : Decision (bytes_ok l).
Proof. unfold bytes_ok. apply _. Defined.

(** The error numbers of the C library that the program returns (Linux). *)
Definition ENOENT : Z := 2.
Definition ENOMEM : Z := 12.
Definition EINVAL : Z := 22.
Definition ERANGE : Z := 34.
Definition ENOSYS : Z := 38.
Definition ENODATA : Z := 61.
Definition EPROTO : Z := 71.
Definition EBADMSG : Z := 74.
Definition EOVERFLOW : Z := 75.
Definition EPROTONOSUPPORT : Z := 93.
Definition ECONNABORTED : Z := 103.
Definition ETIMEDOUT : Z := 110.
Definition EALREADY : Z := 114.

(** C strings, as byte lists without their terminator. *)
Definition char_of (c : Ascii.ascii) : Z := Z.of_N (Ascii.N_of_ascii c).
Fixpoint bytes_of (s : string) : list Z :=
  match s with
  | EmptyString => []
  | String c s' => char_of c :: bytes_of s'
  end.
Fixpoint string_of (l : list Z) : string :=
  match l with
  | [] => EmptyString
  | b :: l' => String (Ascii.ascii_of_N (Z.to_N b)) (string_of l')
  end.

(** ** Automation *)
Create HintDb re discriminated.
#[export] Hint Constants Opaque : re.

Ltac wraps := unfold u8, u16, u32, u64, s16, s32 in *.

(** Splits every [match] on an outcome in the hypotheses. *)
Ltac outcome_inv :=
  repeat match goal with
  | H : Ret _ = Ret _ |- _ => injection H as H; subst
  | H : Fault _ = Ret _ |- _ => discriminate H
  | H : Ret _ = Fault _ |- _ => discriminate H
  | H : (_, _) = (_, _) |- _ => injection H as H; subst
  end; simplify_eq.

(** Evaluates the [bool_decide]s of the goal that arithmetic settles. *)
Ltac decide_bools :=
  repeat first [ rewrite bool_decide_eq_true_2 by lia | rewrite bool_decide_eq_false_2 by lia ].

(** ** Lemmas on outcomes *)
Section outcome_lemmas.
Context {A B : Type}.

Lemma bind_Ret_inv (m : outcome A) (k : A → outcome B) b :
  m ≫= k = Ret b → ∃ a, m = Ret a ∧ k a = Ret b.
Proof. destruct m as [a|f]; [eauto | done]. Qed.

Lemma of_option_Ret f (o : option A) a : of_option f o = Ret a ↔ o = Some a.
Proof. destruct o; simpl; split; congruence. Qed.
End outcome_lemmas.

Lemma prog_bind_Ret {S A B} (m : prog S A) (k : A → prog S B) s b s2 :
  (m ≫= k) s = Ret (b, s2) → ∃ a s1, m s = Ret (a, s1) ∧ k a s1 = Ret (b, s2).
Proof. unfold mbind, prog_bind. destruct (m s) as [[a s1]|f]; [eauto | done]. Qed.

Lemma prog_bind_step {S A B} (m : prog S A) (k : A → prog S B) s a s1 :
  m s = Ret (a, s1) → (m ≫= k) s = k a s1.
Proof. intros H. unfold mbind, prog_bind. by rewrite H. Qed.

(** ** Lemmas on machine integers *)
Lemma u8_range z : 0 ≤ u8 z < 256.
Proof. unfold u8. apply Z.mod_pos_bound. lia. Qed.
Lemma u16_range z : 0 ≤ u16 z < 65536.
Proof. unfold u16. apply Z.mod_pos_bound. lia. Qed.
Lemma u32_range z : 0 ≤ u32 z < 4294967296.
Proof. unfold u32. apply Z.mod_pos_bound. lia. Qed.
Lemma u64_range z : 0 ≤ u64 z < 18446744073709551616.
Proof. unfold u64. apply Z.mod_pos_bound. lia. Qed.
Lemma u8_id z : 0 ≤ z < 256 → u8 z = z.
Proof. apply Z.mod_small. Qed.
Lemma u16_id z : 0 ≤ z < 65536 → u16 z = z.
Proof. apply Z.mod_small. Qed.
Lemma u32_id z : 0 ≤ z < 4294967296 → u32 z = z.
Proof. apply Z.mod_small. Qed.
Lemma u64_id z : 0 ≤ z < 18446744073709551616 → u64 z = z.
Proof. apply Z.mod_small. Qed.
Lemma u8_is_byte z : is_byte (u8 z).
Proof. apply u8_range. Qed.
#[export] Hint Resolve u8_range u16_range u32_range u64_range u8_is_byte : re.

Lemma char_of_byte c : is_byte (char_of c).
Proof.
  unfold is_byte, char_of. pose proof (Ascii.N_ascii_bounded c). lia.
Qed.

Lemma bytes_of_ok s : bytes_ok (bytes_of s).
Proof. induction s; constructor; [apply char_of_byte | done]. Qed.
#[export] Hint Resolve char_of_byte bytes_of_ok : re.

Lemma string_of_bytes_of s : string_of (bytes_of s) = s.
Proof.
  induction s as [|c s IH]; [done|]. simpl. rewrite IH. f_equal.
  unfold char_of. rewrite N2Z.id. apply Ascii.ascii_N_embedding.
Qed.

Lemma bytes_of_length s : length (bytes_of s) = String.length s.
Proof. induction s; simpl; congruence. Qed.

(** ** Big-endian and little-endian byte splits *)

(** The [n] low bytes of [v], least significant first: the memory image of an
    integer of [n] bytes on the little-endian hosts the program runs on. *)
Fixpoint le_bytes (n : nat) (v : Z) : list Z :=
  match n with
  | O => []
  | S n' => v `mod` 256 :: le_bytes n' (v / 256)
  end.

Fixpoint le_value (l : list Z) : Z :=
  match l with
  | [] => 0
  | b :: l' => b + 256 * le_value l'
  end.

Lemma le_bytes_length n v : length (le_bytes n v) = n.
Proof. revert v. induction n; intros; simpl; auto. Qed.

Lemma le_bytes_ok n v : bytes_ok (le_bytes n v).
Proof.
  revert v. induction n as [|n IH]; intros v; simpl; [constructor|].
  constructor; [apply Z.mod_pos_bound; lia | apply IH].
Qed.
#[export] Hint Resolve le_bytes_ok : re.

Lemma le_value_bytes n v : 0 ≤ v < 256 ^ Z.of_nat n → le_value (le_bytes n v) = v.
Proof.
  revert v. induction n as [|n IH]; intros v Hv; cbn [le_bytes le_value].
  - change (256 ^ Z.of_nat 0) with 1 in Hv. lia.
  - rewrite Nat2Z.inj_succ, Z.pow_succ_r in Hv by lia.
    rewrite IH.
    + pose proof (Z.div_mod v 256). lia.
    + split; [apply Z.div_pos; lia | apply Z.div_lt_upper_bound; lia].
Qed.

Lemma le_value_range l : bytes_ok l → 0 ≤ le_value l < 256 ^ Z.of_nat (length l).
Proof.
  induction 1 as [|b l Hb _ IH]; cbn [le_value length].
  - change (256 ^ Z.of_nat 0) with 1. lia.
  - rewrite Nat2Z.inj_succ, Z.pow_succ_r by lia. unfold is_byte in Hb. lia.
Qed.

Lemma le_bytes_value l : bytes_ok l → le_bytes (length l) (le_value l) = l.
Proof.
  induction 1 as [|b l Hb _ IH]; [done|]. cbn [le_value length le_bytes].
  unfold is_byte in Hb.
  rewrite (Z.mul_comm 256), Z.mod_add, Z.mod_small by lia.
  rewrite Z.div_add, Z.div_small, Z.add_0_l by lia. by rewrite IH.
Qed.

Lemma filter_none {A} (P : A → Prop) `{!∀ a, Decision (P a)} l : Forall (λ a, ¬ P a) l → filter P l = [].
Proof. induction 1 as [|a l Ha _ IH]; [done|]. by rewrite filter_cons, decide_False. Qed.

Lemma filter_all {A} (P : A → Prop) `{!∀ a, Decision (P a)} l : Forall P l → filter P l = l.
Proof. induction 1 as [|a l Ha _ IH]; [done|]. rewrite filter_cons, decide_True by done. by f_equal. Qed.

Lemma filter_keeps {A} (P : A → Prop) `{!∀ a, Decision (P a)} l : Forall P (filter P l).
Proof. induction l as [|a l IH]; [constructor|]. rewrite filter_cons. case_decide; [by constructor|done]. Qed.

(** ** Bit operations as arithmetic *)

Lemma lor_disjoint_add k a b :
  0 ≤ k → a `mod` 2 ^ k = 0 → 0 ≤ b < 2 ^ k → Z.lor a b = a + b.
Proof.
  intros Hk Ha Hb. assert (Hl : Z.land a b = 0).
  { apply Z.bits_inj'. intros n Hn. rewrite Z.land_spec, Z.bits_0.
    destruct (decide (n < k)) as [Hlt|Hge].
    - apply andb_false_iff. left. apply Z.div_exact in Ha; [|lia].
      rewrite Ha, Z.mul_comm. by apply Z.mul_pow2_bits_low.
    - apply andb_false_iff. right. rewrite <- (Z.mod_small b (2 ^ k)) by done.
      apply Z.mod_pow2_bits_high. lia. }
  pose proof (Z.add_lor_land a b). lia.
Qed.

Lemma land_ones_mod n a : 0 ≤ n → Z.land a (2 ^ n - 1) = a `mod` 2 ^ n.
Proof. intros. rewrite <- Z.land_ones, Z.ones_equiv by done. f_equal. Qed.

(** Turns the masks and shifts of the goal into [mod], [/] and [*]. *)
Ltac bits_to_arith :=
  repeat first
  [ rewrite Z.shiftr_div_pow2 by lia
  | rewrite Z.shiftl_mul_pow2 by lia
  | rewrite (land_ones_mod 1 _ ltac:(lia)) | rewrite (land_ones_mod 2 _ ltac:(lia))
  | rewrite (land_ones_mod 4 _ ltac:(lia)) | rewrite (land_ones_mod 6 _ ltac:(lia))
  | rewrite (land_ones_mod 7 _ ltac:(lia)) | rewrite (land_ones_mod 8 _ ltac:(lia))
  | rewrite (land_ones_mod 16 _ ltac:(lia)) ];
  change (2 ^ 0) with 1 in *; change (2 ^ 1) with 2 in *; change (2 ^ 2) with 4 in *;
  change (2 ^ 4) with 16 in *; change (2 ^ 5) with 32 in *; change (2 ^ 6) with 64 in *;
  change (2 ^ 7) with 128 in *;
  change (2 ^ 8) with 256 in *; change (2 ^ 12) with 4096 in *; change (2 ^ 16) with 65536 in *;
  change (2 ^ 18) with 262144 in *; change (2 ^ 24) with 16777216 in *.

Lemma land_bit_testbit w k :
  0 ≤ k → bool_decide (Z.land w (Z.shiftl 1 k) = 0) = negb (Z.testbit w k).
Proof.
  intros Hk. destruct (Z.testbit w k) eqn:E; simpl.
  - apply bool_decide_eq_false_2. intros H.
    assert (Hb : Z.testbit (Z.land w (Z.shiftl 1 k)) k = true).
    { rewrite Z.land_spec, E, Z.shiftl_spec, Z.sub_diag by lia. done. }
    rewrite H, Z.bits_0 in Hb. done.
  - apply bool_decide_eq_true_2. apply Z.bits_inj'. intros n Hn.
    rewrite Z.land_spec, Z.bits_0, Z.shiftl_spec by lia.
    destruct (decide (n = k)) as [->|Hne]; [by rewrite E|].
    apply andb_false_iff. right. destruct (decide (n < k)).
    + apply Z.testbit_neg_r. lia.
    + apply Z.bits_above_log2; [lia|]. simpl. lia.
Qed.

Lemma testbit_div w k : 0 ≤ k → Z.testbit w k = Z.odd (w / 2 ^ k).
Proof. intros. by rewrite Z.testbit_odd, Z.shiftr_div_pow2. Qed.
