(* ===== verification/LinkedList.v ===== *)
(** * Linked lists (re/src/list/list.c, re/include/re_list.h)

    The intrusive doubly linked list every component is built on.  A [heap]
    holds the list elements ([struct le]) and the list headers ([struct list])
    by address; each function of list.c is a program over that heap with the
    reads and writes of the source, in its order.  [is_list h l xs] says that
    header [l] represents the sequence [xs] of (element, user data) pairs; the
    lemmas show that each operation implements its sequence operation, leaves
    every other list alone, and never touches memory that is not allocated. *)
From stdpp Require Import base tactics list numbers option gmap fin_maps sorting.
From S2P Require Import Prelude.

(** ** Data *)

Definition addr := positive.
Bind Scope positive_scope with addr.
(** A C pointer: [None] is NULL. *)
Definition ptr := option addr.

Record le := Le {
  le_prev : ptr;
  le_next : ptr;
  le_list : ptr;
  le_data : ptr
}.

Record clist := CList { l_head : ptr; l_tail : ptr }.

Record heap := Heap {
  les : gmap addr le;
  lists : gmap addr clist
}.

(** ** Memory accesses *)

Definition load_le (e : addr) : prog heap le :=
  λ h, match les h !! e with Some c => Ret (c, h) | None => Fault UseAfterFree end.
Definition store_le (e : addr) (c : le) : prog heap unit :=
  λ h, match les h !! e with
       | Some _ => Ret (tt, Heap (<[e := c]> (les h)) (lists h))
       | None => Fault UseAfterFree
       end.
Definition load_list (l : addr) : prog heap clist :=
  λ h, match lists h !! l with Some c => Ret (c, h) | None => Fault UseAfterFree end.
Definition store_list (l : addr) (c : clist) : prog heap unit :=
  λ h, match lists h !! l with
       | Some _ => Ret (tt, Heap (les h) (<[l := c]> (lists h)))
       | None => Fault UseAfterFree
       end.

Definition set_next (e : addr) (p : ptr) : prog heap unit :=
  c ← load_le e; store_le e (Le (le_prev c) p (le_list c) (le_data c)).
Definition set_prev (e : addr) (p : ptr) : prog heap unit :=
  c ← load_le e; store_le e (Le p (le_next c) (le_list c) (le_data c)).
Definition set_head (l : addr) (p : ptr) : prog heap unit :=
  c ← load_list l; store_list l (CList p (l_tail c)).
Definition set_tail (l : addr) (p : ptr) : prog heap unit :=
  c ← load_list l; store_list l (CList (l_head c) p).

(** ** Operations *)

Definition list_init (l : ptr) : prog heap unit :=
  match l with
  | None => skip
  | Some l => store_list l (CList None None)
  end.

Definition list_append (l e d : ptr) : prog heap unit :=
  match l, e with
  | Some l, Some e =>
      c ← load_le e;
      match le_list c with
      | Some _ => skip
      | None =>
          L ← load_list l;
          store_le e (Le (l_tail L) None (Some l) d);;
          (match l_head L with None => set_head l (Some e) | Some _ => skip end);;
          (match l_tail L with Some t => set_next t (Some e) | None => skip end);;
          set_tail l (Some e)
      end
  | _, _ => skip
  end.

Definition list_prepend (l e d : ptr) : prog heap unit :=
  match l, e with
  | Some l, Some e =>
      c ← load_le e;
      match le_list c with
      | Some _ => skip
      | None =>
          L ← load_list l;
          store_le e (Le None (l_head L) (Some l) d);;
          (match l_head L with Some t => set_prev t (Some e) | None => skip end);;
          (match l_tail L with None => set_tail l (Some e) | Some _ => skip end);;
          set_head l (Some e)
      end
  | _, _ => skip
  end.

Definition list_insert_before (l e ile d : ptr) : prog heap unit :=
  match l, e, ile with
  | Some l, Some e, Some i =>
      ci ← load_le i;
      match le_list ci with
      | Some _ => skip
      | None =>
          c ← load_le e;
          (match le_prev c with
           | Some p => set_next p (Some i)
           | None =>
               L ← load_list l;
               if bool_decide (l_head L = Some e) then set_head l (Some i) else skip
           end);;
          store_le i (Le (le_prev c) (Some e) (Some l) d);;
          set_prev e (Some i)
      end
  | _, _, _ => skip
  end.

Definition list_insert_after (l e ile d : ptr) : prog heap unit :=
  match l, e, ile with
  | Some l, Some e, Some i =>
      ci ← load_le i;
      match le_list ci with
      | Some _ => skip
      | None =>
          c ← load_le e;
          (match le_next c with
           | Some n => set_prev n (Some i)
           | None =>
               L ← load_list l;
               if bool_decide (l_tail L = Some e) then set_tail l (Some i) else skip
           end);;
          store_le i (Le (Some e) (le_next c) (Some l) d);;
          set_next e (Some i)
      end
  | _, _, _ => skip
  end.

Definition list_unlink (e : ptr) : prog heap unit :=
  match e with
  | None => skip
  | Some e =>
      c ← load_le e;
      match le_list c with
      | None => skip
      | Some l =>
          (match le_prev c with
           | Some p => set_next p (le_next c)
           | None => set_head l (le_next c)
           end);;
          (match le_next c with
           | Some n => set_prev n (le_prev c)
           | None => set_tail l (le_prev c)
           end);;
          c' ← load_le e;
          store_le e (Le None None None (le_data c'))
      end
  end.

(** [list_flush]: [deref] is the [mem_deref] of the element's user data, which
    runs the destructor of the object the element is embedded in. *)
Fixpoint flush_loop (deref : ptr → prog heap unit) (fuel : nat) (e : ptr) : prog heap unit :=
  match e with
  | None => skip
  | Some a =>
      match fuel with
      | O => crash NoFuel
      | S fuel' =>
          c ← load_le a;
          store_le a (Le None None None None);;
          deref (le_data c);;
          flush_loop deref fuel' (le_next c)
      end
  end.

Definition list_flush (deref : ptr → prog heap unit) (fuel : nat) (l : ptr) : prog heap unit :=
  match l with
  | None => skip
  | Some a =>
      L ← load_list a;
      flush_loop deref fuel (l_head L);;
      list_init (Some a)
  end.

(** One pass of the [while] loop of [list_sort]; the result is the flag
    [sort]. *)
Fixpoint sort_pass (sh : addr → addr → bool) (l : addr) (fuel : nat) (e : ptr) (sorted : bool) :
    prog heap bool :=
  match e with
  | None => mret sorted
  | Some a =>
      match fuel with
      | O => crash NoFuel
      | S fuel' =>
          c ← load_le a;
          match le_next c with
          | None => mret sorted
          | Some n =>
              if sh a n then sort_pass sh l fuel' (Some n) sorted
              else
                list_unlink (Some a);;
                c' ← load_le a;
                list_insert_after (Some l) (Some n) (Some a) (le_data c');;
                sort_pass sh l fuel' (Some a) true
          end
      end
  end.

Fixpoint list_sort_loop (sh : addr → addr → bool) (l : addr) (ifuel fuel : nat) : prog heap unit :=
  match fuel with
  | O => crash NoFuel
  | S fuel' =>
      L ← load_list l;
      again ← sort_pass sh l ifuel (l_head L) false;
      (if again : bool then list_sort_loop sh l ifuel fuel' else skip)
  end.

Definition list_sort (sh : option (addr → addr → bool)) (ifuel fuel : nat) (l : ptr) : prog heap unit :=
  match l, sh with
  | Some l, Some sh => list_sort_loop sh l ifuel fuel
  | _, _ => skip
  end.

Fixpoint apply_loop (ah : addr → prog heap bool) (fwd : bool) (fuel : nat) (e : ptr) : prog heap ptr :=
  match e with
  | None => mret None
  | Some cur =>
      match fuel with
      | O => crash NoFuel
      | S fuel' =>
          c ← load_le cur;
          r ← ah cur;
          if r : bool then mret (Some cur)
          else apply_loop ah fwd fuel' (if fwd then le_next c else le_prev c)
      end
  end.

Definition list_apply (l : ptr) (fwd : bool) (ah : option (addr → prog heap bool)) (fuel : nat) :
    prog heap ptr :=
  match l, ah with
  | Some l, Some ah =>
      L ← load_list l;
      apply_loop ah fwd fuel (if fwd then l_head L else l_tail L)
  | _, _ => mret None
  end.

Definition list_head (l : ptr) : prog heap ptr :=
  match l with None => mret None | Some l => L ← load_list l; mret (l_head L) end.

Definition list_tail (l : ptr) : prog heap ptr :=
  match l with None => mret None | Some l => L ← load_list l; mret (l_tail L) end.

Fixpoint count_loop (fuel : nat) (e : ptr) (n : Z) : prog heap Z :=
  match e with
  | None => mret n
  | Some a =>
      match fuel with
      | O => crash NoFuel
      | S fuel' => c ← load_le a; count_loop fuel' (le_next c) (u32 (n + 1))
      end
  end.

Definition list_count (l : ptr) (fuel : nat) : prog heap Z :=
  match l with
  | None => mret 0
  | Some l => L ← load_list l; count_loop fuel (l_head L) 0
  end.

Definition list_ledata (e : ptr) : prog heap ptr :=
  match e with None => mret None | Some e => c ← load_le e; mret (le_data c) end.

(** ** Representation of a sequence *)

Abbreviation item := (addr * ptr)%type.

Definition first (xs : list item) (n : ptr) : ptr :=
  match xs with [] => n | (x, _) :: _ => Some x end.
Fixpoint lastp (p : ptr) (xs : list item) : ptr :=
  match xs with [] => p | (x, _) :: xs' => lastp (Some x) xs' end.

(** A doubly linked segment of list [l]: [p] precedes it and [n] follows. *)
Fixpoint dseg (m : gmap addr le) (l : addr) (p : ptr) (xs : list item) (n : ptr) : Prop :=
  match xs with
  | [] => True
  | (x, d) :: xs' =>
      m !! x = Some (Le p (first xs' n) (Some l) d) ∧ dseg m l (Some x) xs' n
  end.

Definition is_list (h : heap) (l : addr) (xs : list item) : Prop :=
  lists h !! l = Some (CList (first xs None) (lastp None xs)) ∧
  dseg (les h) l None xs None ∧
  NoDup xs.*1 ∧
  (∀ x c, les h !! x = Some c → le_list c = Some l → x ∈ xs.*1).

(** Every list other than [l] is untouched. *)
Definition others_kept (l : addr) (h h' : heap) : Prop :=
  ∀ l', l' ≠ l →
    lists h' !! l' = lists h !! l' ∧
    ∀ x c, le_list c = Some l' → (les h' !! x = Some c ↔ les h !! x = Some c).

#[export] Instance others_kept_preorder l : PreOrder (others_kept l).
Proof.
  split; [intros h l' _; done|].
  intros h1 h2 h3 H12 H23 l' Hl'. destruct (H12 l' Hl') as [E1 K1], (H23 l' Hl') as [E2 K2].
  split; [congruence|]. intros x c Hc. by rewrite (K2 x c Hc), (K1 x c Hc).
Qed.

Lemma first_app xs ys n : first (xs ++ ys) n = first xs (first ys n).
Proof. by destruct xs as [|[x d] xs]. Qed.

Lemma lastp_app p xs ys : lastp p (xs ++ ys) = lastp (lastp p xs) ys.
Proof. revert p. induction xs as [|[x d] xs IH]; intros p; simpl; auto. Qed.

Lemma lastp_elem xs p t : lastp p xs = Some t → p = Some t ∨ t ∈ xs.*1.
Proof.
  revert p. induction xs as [|[x d] xs IH]; intros p H; simpl in *; [by left|].
  right. destruct (IH _ H) as [[= ->]|?]; set_solver.
Qed.

Lemma first_elem xs t : first xs None = Some t → t ∈ xs.*1.
Proof. destruct xs as [|[x d] xs]; simpl; [done|]. intros [= ->]. set_solver. Qed.

Lemma dseg_app m l p xs ys n :
  dseg m l p (xs ++ ys) n ↔ dseg m l p xs (first ys n) ∧ dseg m l (lastp p xs) ys n.
Proof.
  revert p. induction xs as [|[x d] xs IH]; intros p; simpl; [naive_solver|].
  rewrite IH, first_app. naive_solver.
Qed.

Lemma dseg_frame m m' l p xs n :
  (∀ x, x ∈ xs.*1 → m' !! x = m !! x) → dseg m l p xs n → dseg m' l p xs n.
Proof.
  revert p. induction xs as [|[x d] xs IH]; intros p Hx; simpl; [done|].
  intros [H1 H2]. split; [|apply IH; [|done]]; [rewrite Hx|intros; apply Hx]; set_solver.
Qed.

Lemma dseg_lookup m l p xs n x :
  dseg m l p xs n → x ∈ xs.*1 → ∃ c, m !! x = Some c ∧ le_list c = Some l.
Proof.
  revert p. induction xs as [|[y d] xs IH]; intros p; simpl; [set_solver|].
  intros [H1 H2] [->|Hx]%elem_of_cons; eauto.
Qed.

(** ** Fixing the two neighbours of a position *)

Definition with_next (v : ptr) (c : le) : le := Le (le_prev c) v (le_list c) (le_data c).
Definition with_prev (v : ptr) (c : le) : le := Le v (le_next c) (le_list c) (le_data c).
Definition fix_next (m : gmap addr le) (p : ptr) (v : ptr) : gmap addr le :=
  match p with Some t => alter (with_next v) t m | None => m end.
Definition fix_prev (m : gmap addr le) (p : ptr) (v : ptr) : gmap addr le :=
  match p with Some t => alter (with_prev v) t m | None => m end.

Lemma fix_next_ne m p v x : p ≠ Some x → fix_next m p v !! x = m !! x.
Proof. destruct p as [t|]; simpl; [|done]. intros. rewrite lookup_alter_ne; congruence. Qed.
Lemma fix_prev_ne m p v x : p ≠ Some x → fix_prev m p v !! x = m !! x.
Proof. destruct p as [t|]; simpl; [|done]. intros. rewrite lookup_alter_ne; congruence. Qed.

Lemma dseg_fix_next m l p xs n v :
  NoDup xs.*1 → (∀ t, p = Some t → t ∉ xs.*1) →
  dseg m l p xs n →
  dseg (match xs with [] => m | _ => fix_next m (lastp p xs) v end) l p xs v.
Proof.
  induction xs as [|[x d] xs _] using rev_ind; intros Hnd Hp Hs; [done|].
  rewrite fmap_app in *. simpl in *. apply NoDup_app in Hnd as (Hnd & Hx & _).
  replace (match xs ++ [(x, d)] with [] => m | _ :: _ => fix_next m (lastp p (xs ++ [(x, d)])) v end)
    with (fix_next m (Some x) v) by (rewrite lastp_app; by destruct xs).
  apply dseg_app in Hs as [Hs1 [Hs2 _]]. apply dseg_app. simpl in *. split.
  - eapply dseg_frame, Hs1. intros y Hy. rewrite lookup_alter_ne; [done|].
    intros ->. apply (Hx y Hy). set_solver.
  - rewrite lookup_alter_eq, Hs2. done.
Qed.

Lemma dseg_fix_prev m l p ys n v :
  NoDup ys.*1 → dseg m l p ys n →
  dseg (match ys with [] => m | _ => fix_prev m (first ys n) v end) l v ys n.
Proof.
  destruct ys as [|[x d] ys]; intros Hnd Hs; [done|]. simpl in *.
  destruct Hs as [Hs1 Hs2]. apply NoDup_cons in Hnd as [Hx Hnd]. split.
  - by rewrite lookup_alter_eq, Hs1.
  - eapply dseg_frame, Hs2. intros y Hy. rewrite lookup_alter_ne; [done|]. by intros ->.
Qed.

Lemma dseg_fix_next_None m l xs n v :
  NoDup xs.*1 → dseg m l None xs n → dseg (fix_next m (lastp None xs) v) l None xs v.
Proof.
  intros Hnd Hs. eapply (dseg_fix_next _ _ _ _ _ v) in Hs; [|done..]. by destruct xs.
Qed.

Lemma dseg_fix_prev_None m l p ys v :
  NoDup ys.*1 → dseg m l p ys None → dseg (fix_prev m (first ys None) v) l v ys None.
Proof.
  intros Hnd Hs. eapply (dseg_fix_prev _ _ _ _ _ v) in Hs; [|done..]. by destruct ys.
Qed.

(** ** Frame lemmas *)

Definition les_kept (l : addr) (m m' : gmap addr le) : Prop :=
  ∀ l' x c, l' ≠ l → le_list c = Some l' → (m' !! x = Some c ↔ m !! x = Some c).

Lemma les_kept_trans l m1 m2 m3 : les_kept l m1 m2 → les_kept l m2 m3 → les_kept l m1 m3.
Proof. intros H1 H2 l' x c Hl Hc. by rewrite (H2 l' x c Hl Hc), (H1 l' x c Hl Hc). Qed.

Lemma les_kept_insert l m e c' :
  (∀ c, m !! e = Some c → le_list c = None ∨ le_list c = Some l) →
  le_list c' = None ∨ le_list c' = Some l →
  les_kept l m (<[e := c']> m).
Proof.
  intros Hc Hc' l' x c Hl Hx. destruct (decide (e = x)) as [<-|?].
  - rewrite lookup_insert_eq. split; [intros [= ->]|intros H; destruct (Hc _ H)];
      destruct Hc'; congruence.
  - by rewrite lookup_insert_ne.
Qed.

Definition owned (l : addr) (m : gmap addr le) (p : ptr) : Prop :=
  ∀ t, p = Some t → ∃ c, m !! t = Some c ∧ le_list c = Some l.

Lemma les_kept_fix_next l m p v : owned l m p → les_kept l m (fix_next m p v).
Proof.
  destruct p as [t|]; [|done]. intros Ho. destruct (Ho t eq_refl) as (c & E & Hc). simpl.
  replace (alter (with_next v) t m) with (<[t := with_next v c]> m).
  - apply les_kept_insert; [intros ? ?; simplify_eq; auto | by right].
  - apply map_eq. intros i. destruct (decide (t = i)) as [<-|?].
    + by rewrite lookup_insert_eq, lookup_alter_eq, E.
    + by rewrite lookup_insert_ne, lookup_alter_ne.
Qed.

Lemma les_kept_fix_prev l m p v : owned l m p → les_kept l m (fix_prev m p v).
Proof.
  destruct p as [t|]; [|done]. intros Ho. destruct (Ho t eq_refl) as (c & E & Hc). simpl.
  replace (alter (with_prev v) t m) with (<[t := with_prev v c]> m).
  - apply les_kept_insert; [intros ? ?; simplify_eq; auto | by right].
  - apply map_eq. intros i. destruct (decide (t = i)) as [<-|?].
    + by rewrite lookup_insert_eq, lookup_alter_eq, E.
    + by rewrite lookup_insert_ne, lookup_alter_ne.
Qed.

Lemma others_kept_heap l h m' L' :
  les_kept l (les h) m' → others_kept l h (Heap m' (<[l := L']> (lists h))).
Proof.
  intros Hm l' Hl. simpl. rewrite lookup_insert_ne by done. split; [done|].
  intros x c Hc. by apply (Hm l').
Qed.

(** A list other than [l] keeps representing its sequence. *)
Lemma is_list_frame l h h' l' ys :
  others_kept l h h' → l' ≠ l → is_list h l' ys → is_list h' l' ys.
Proof.
  intros Hk Hne (HL & Hs & Hnd & Ho). destruct (Hk l' Hne) as [E K].
  split_and!; [congruence| |done|].
  - eapply dseg_frame, Hs. intros x Hx.
    destruct (dseg_lookup _ _ _ _ _ _ Hs Hx) as (c & Hc & Hl). rewrite Hc. by apply K.
  - intros x c Hx Hl. apply (Ho x c); [by apply K|done].
Qed.

(** ** Linking and unlinking at a position *)

Definition link (m : gmap addr le) (l : addr) (xs ys : list item) (e : addr) (d : ptr) : gmap addr le :=
  fix_prev (fix_next (<[e := Le (lastp None xs) (first ys None) (Some l) d]> m)
                     (lastp None xs) (Some e)) (first ys None) (Some e).

Definition cut (m : gmap addr le) (xs ys : list item) (e : addr) (d : ptr) : gmap addr le :=
  <[e := Le None None None d]>
    (fix_prev (fix_next m (lastp None xs) (first ys None)) (first ys None) (lastp None xs)).

Definition header (xs : list item) : clist := CList (first xs None) (lastp None xs).

Lemma lastp_None_elem xs t : lastp None xs = Some t → t ∈ xs.*1.
Proof. intros H. by destruct (lastp_elem _ _ _ H). Qed.

Lemma fix_next_notin m xs v x : x ∉ xs.*1 → fix_next m (lastp None xs) v !! x = m !! x.
Proof. intros H. apply fix_next_ne. intros E. by apply H, lastp_None_elem. Qed.
Lemma fix_prev_notin m ys v x : x ∉ ys.*1 → fix_prev m (first ys None) v !! x = m !! x.
Proof. intros H. apply fix_prev_ne. intros E. by apply H, first_elem. Qed.

(** What a well-formed list says about one of its positions. *)
Lemma is_list_at h l xs e d ys :
  is_list h l (xs ++ (e, d) :: ys) →
  les h !! e = Some (Le (lastp None xs) (first ys None) (Some l) d) ∧
  dseg (les h) l None xs (Some e) ∧ dseg (les h) l (Some e) ys None ∧
  NoDup xs.*1 ∧ NoDup ys.*1 ∧ e ∉ xs.*1 ∧ e ∉ ys.*1 ∧ (∀ x, x ∈ xs.*1 → x ∉ ys.*1).
Proof.
  intros (_ & Hs & Hnd & _). apply dseg_app in Hs as [H1 [H2 H3]]. simpl in *.
  rewrite fmap_app in Hnd. apply NoDup_app in Hnd as (N1 & N2 & N3). simpl in N3.
  apply NoDup_cons in N3 as [N3 N4].
  assert (e ∉ xs.*1) by (intros H; apply (N2 e H); left).
  assert (∀ x, x ∈ xs.*1 → x ∉ ys.*1) by (intros x H4 H5; apply (N2 x H4); by right).
  split_and!; done.
Qed.

Lemma is_list_split h l xs ys :
  is_list h l (xs ++ ys) →
  dseg (les h) l None xs (first ys None) ∧ dseg (les h) l (lastp None xs) ys None ∧
  NoDup xs.*1 ∧ NoDup ys.*1 ∧ (∀ x, x ∈ xs.*1 → x ∉ ys.*1).
Proof.
  intros (_ & Hs & Hnd & _). apply dseg_app in Hs as [H1 H2].
  rewrite fmap_app in Hnd. apply NoDup_app in Hnd as (N1 & N2 & N3). split_and!; done.
Qed.

Lemma is_list_owned_last h l xs ys : is_list h l (xs ++ ys) → owned l (les h) (lastp None xs).
Proof.
  intros H t Ht. apply is_list_split in H as (Hs & _).
  eapply dseg_lookup; [done|]. by apply lastp_None_elem.
Qed.
Lemma is_list_owned_first h l xs ys : is_list h l (xs ++ ys) → owned l (les h) (first ys None).
Proof.
  intros H t Ht. apply is_list_split in H as (_ & Hs & _).
  eapply dseg_lookup; [done|]. by apply first_elem.
Qed.

Lemma is_list_header h l xs : is_list h l xs → lists h !! l = Some (header xs).
Proof. by intros (H & _). Qed.

Lemma is_list_fresh h l xs e c :
  is_list h l xs → les h !! e = Some c → le_list c = None → e ∉ xs.*1.
Proof.
  intros (_ & Hs & _) He Hc Hin. destruct (dseg_lookup _ _ _ _ _ _ Hs Hin) as (c' & ? & ?).
  congruence.
Qed.

Lemma owned_frame l m m' p : (∀ t, p = Some t → m' !! t = m !! t) → owned l m p → owned l m' p.
Proof. intros H Ho t Ht. destruct (Ho t Ht) as (c & Hc & Hl). exists c. by rewrite H. Qed.

Section link_cut.
Context (h : heap) (l : addr) (xs ys : list item) (e : addr) (d : ptr).

Lemma link_is_list c :
  is_list h l (xs ++ ys) → les h !! e = Some c → le_list c = None →
  let h' := Heap (link (les h) l xs ys e d) (<[l := header (xs ++ (e, d) :: ys)]> (lists h)) in
  is_list h' l (xs ++ (e, d) :: ys) ∧ others_kept l h h'.
Proof.
  intros Hl He Hc h'. pose proof (is_list_split _ _ _ _ Hl) as (S1 & S2 & N1 & N2 & Nd).
  assert (Hex : e ∉ (xs ++ ys).*1) by (by eapply is_list_fresh).
  rewrite fmap_app, elem_of_app in Hex.
  assert (e ∉ xs.*1 ∧ e ∉ ys.*1) as [Ex Ey] by tauto. clear Hex.
  set (m1 := <[e := Le (lastp None xs) (first ys None) (Some l) d]> (les h)).
  assert (Hm1 : ∀ x, x ≠ e → m1 !! x = les h !! x) by (intros; by apply lookup_insert_ne).
  split.
  - split_and!; simpl.
    + apply lookup_insert_eq.
    + apply dseg_app. simpl. unfold link. fold m1. split_and!.
      * eapply dseg_frame; [|eapply dseg_fix_next_None; [done|eapply dseg_frame, S1]].
        { intros x Hx. apply fix_prev_notin. by apply Nd. }
        { intros x Hx. apply Hm1. by intros ->. }
      * rewrite fix_prev_notin, fix_next_notin by done. apply lookup_insert_eq.
      * eapply dseg_fix_prev_None; [done|]. eapply dseg_frame, S2.
        intros x Hx. rewrite fix_next_notin by (intros Hx'; by apply (Nd x)).
        apply Hm1. by intros ->.
    + rewrite fmap_app. simpl. apply NoDup_app. split_and!; [done| |by constructor].
      intros x Hx. rewrite not_elem_of_cons. split; [by intros ->|by apply Nd].
    + intros x c' Hx Hlx. rewrite fmap_app, elem_of_app. simpl. rewrite elem_of_cons.
      destruct (decide (x = e)) as [->|Hne]; [by right; left|].
      destruct (decide (x ∈ xs.*1)); [by left|].
      destruct (decide (x ∈ ys.*1)); [by right; right|]. exfalso.
      unfold link in Hx. fold m1 in Hx.
      rewrite fix_prev_notin, fix_next_notin, Hm1 in Hx by done.
      destruct Hl as (_ & _ & _ & Ho). pose proof (Ho _ _ Hx Hlx) as Hin.
      rewrite fmap_app, elem_of_app in Hin. tauto.
  - apply others_kept_heap. unfold link. fold m1.
    eapply les_kept_trans; [|eapply les_kept_trans]; [|apply les_kept_fix_next|apply les_kept_fix_prev].
    + apply les_kept_insert; [intros; simplify_eq; auto|by right].
    + eapply owned_frame, is_list_owned_last, Hl. intros t Ht. apply Hm1. intros ->.
      by apply Ex, lastp_None_elem.
    + eapply owned_frame, is_list_owned_first, Hl. intros t Ht%first_elem.
      rewrite fix_next_notin by (intros Hx'; by apply (Nd t)). apply Hm1. by intros ->.
Qed.

Lemma cut_is_list :
  is_list h l (xs ++ (e, d) :: ys) →
  let h' := Heap (cut (les h) xs ys e d) (<[l := header (xs ++ ys)]> (lists h)) in
  is_list h' l (xs ++ ys) ∧ others_kept l h h'.
Proof.
  intros Hl h'. pose proof (is_list_at _ _ _ _ _ _ Hl) as (He & S1 & S2 & N1 & N2 & Ex & Ey & Nd).
  assert (Hm : ∀ x, x ≠ e → les h' !! x =
    fix_prev (fix_next (les h) (lastp None xs) (first ys None)) (first ys None) (lastp None xs) !! x)
    by (intros; by apply lookup_insert_ne).
  split.
  - split_and!; simpl.
    + apply lookup_insert_eq.
    + apply dseg_app. split.
      * eapply dseg_frame; [|eapply dseg_fix_next_None; [done|apply S1]].
        intros x Hx. unfold h', cut in Hm. simpl in Hm. rewrite Hm by (by intros ->).
        apply fix_prev_notin. by apply Nd.
      * eapply dseg_frame; [|eapply (dseg_fix_prev_None (les h)); [done|apply S2]].
        intros x Hx. unfold h', cut in Hm. simpl in Hm. rewrite Hm by (by intros ->).
        destruct (first ys None) as [t|]; simpl;
          [destruct (decide (t = x)) as [->|Hne]; [rewrite !lookup_alter_eq|rewrite !lookup_alter_ne by done]|];
          rewrite fix_next_notin; try done; intros Hx'; by apply (Nd x).
    + rewrite fmap_app. apply NoDup_app. done.
    + intros x c Hx Hlx. destruct (decide (x = e)) as [->|Hne].
      { unfold cut in Hx. rewrite lookup_insert_eq in Hx. by simplify_eq. }
      rewrite fmap_app, elem_of_app.
      destruct (decide (x ∈ xs.*1)); [by left|]. destruct (decide (x ∈ ys.*1)); [by right|].
      exfalso. unfold h' in Hm. simpl in Hm.
      rewrite Hm, fix_prev_notin, fix_next_notin in Hx by done.
      destruct Hl as (_ & _ & _ & Ho). pose proof (Ho _ _ Hx Hlx) as Hin.
      rewrite fmap_app, elem_of_app in Hin. simpl in Hin. rewrite elem_of_cons in Hin. tauto.
  - apply others_kept_heap. unfold cut.
    assert (owned l (les h) (lastp None xs)) by (by eapply is_list_owned_last).
    assert (Hof : owned l (les h) (first ys None)).
    { replace (xs ++ (e, d) :: ys) with ((xs ++ [(e, d)]) ++ ys) in Hl by (by rewrite <- app_assoc).
      by eapply is_list_owned_first. }
    eapply (les_kept_trans _ _ (fix_next (les h) (lastp None xs) (first ys None)));
      [by apply les_kept_fix_next|].
    eapply les_kept_trans; [apply les_kept_fix_prev|apply les_kept_insert; [|by left]].
    + eapply owned_frame, Hof. intros t Ht%first_elem. apply fix_next_notin. intros ?. by apply (Nd t).
    + intros c. rewrite fix_prev_notin, fix_next_notin, He by done. intros [= <-]. by right.
Qed.
End link_cut.

(** ** Running the accessors *)

Lemma alter_as_insert (f : le → le) t (m : gmap addr le) c : m !! t = Some c → alter f t m = <[t := f c]> m.
Proof.
  intros E. apply map_eq. intros i. destruct (decide (t = i)) as [<-|?].
  - by rewrite lookup_insert_eq, lookup_alter_eq, E.
  - by rewrite lookup_insert_ne, lookup_alter_ne.
Qed.

Lemma load_le_run h e c : les h !! e = Some c → load_le e h = Ret (c, h).
Proof. intros E. unfold load_le. by rewrite E. Qed.
Lemma load_list_run h l c : lists h !! l = Some c → load_list l h = Ret (c, h).
Proof. intros E. unfold load_list. by rewrite E. Qed.
Lemma store_le_run h e c c' :
  les h !! e = Some c → store_le e c' h = Ret (tt, Heap (<[e := c']> (les h)) (lists h)).
Proof. intros E. unfold store_le. by rewrite E. Qed.
Lemma store_list_run h l c c' :
  lists h !! l = Some c → store_list l c' h = Ret (tt, Heap (les h) (<[l := c']> (lists h))).
Proof. intros E. unfold store_list. by rewrite E. Qed.
Lemma set_head_run h l c p :
  lists h !! l = Some c →
  set_head l p h = Ret (tt, Heap (les h) (<[l := CList p (l_tail c)]> (lists h))).
Proof.
  intros E. unfold set_head. erewrite prog_bind_step by (by apply load_list_run).
  by eapply store_list_run.
Qed.
Lemma set_tail_run h l c p :
  lists h !! l = Some c →
  set_tail l p h = Ret (tt, Heap (les h) (<[l := CList (l_head c) p]> (lists h))).
Proof.
  intros E. unfold set_tail. erewrite prog_bind_step by (by apply load_list_run).
  by eapply store_list_run.
Qed.
Lemma set_next_run h t c v :
  les h !! t = Some c → set_next t v h = Ret (tt, Heap (fix_next (les h) (Some t) v) (lists h)).
Proof.
  intros E. unfold set_next. erewrite prog_bind_step by (by apply load_le_run).
  simpl. erewrite alter_as_insert by done. by eapply store_le_run.
Qed.
Lemma set_prev_run h t c v :
  les h !! t = Some c → set_prev t v h = Ret (tt, Heap (fix_prev (les h) (Some t) v) (lists h)).
Proof.
  intros E. unfold set_prev. erewrite prog_bind_step by (by apply load_le_run).
  simpl. erewrite alter_as_insert by done. by eapply store_le_run.
Qed.

(** One program step: the run lemma of the accessor at the head. *)
Ltac prun :=
  erewrite prog_bind_step by
    (first [ reflexivity | eapply load_le_run | eapply load_list_run | eapply store_le_run
           | eapply set_next_run | eapply set_prev_run | eapply set_head_run | eapply set_tail_run ];
     simpl; eauto); simpl.

Lemma first_None xs : first xs None = None → xs = [].
Proof. by destruct xs as [|[x d] xs]. Qed.
Lemma first_Some xs f n : first xs None = Some f → first xs n = Some f.
Proof. by destruct xs as [|[x d] xs]. Qed.
Lemma lastp_None xs : lastp None xs = None → xs = [].
Proof.
  destruct xs as [|[x d] xs] using rev_ind; [done|]. by rewrite lastp_app.
Qed.
Lemma lastp_cons_eq p p' x d xs : lastp p ((x, d) :: xs) = lastp p' ((x, d) :: xs).
Proof. done. Qed.

Lemma lastp_snoc p xs e d : lastp p (xs ++ [(e, d)]) = Some e.
Proof. by rewrite lastp_app. Qed.

(** ** The operations implement the sequence operations *)

Section op_specs.
Context (h : heap) (l : addr) (e : addr) (c : le) (d : ptr).
Context (He : les h !! e = Some c) (Hc : le_list c = None).

Lemma list_append_run xs :
  is_list h l xs →
  list_append (Some l) (Some e) d h =
    Ret (tt, Heap (link (les h) l xs [] e d) (<[l := header (xs ++ [(e, d)])]> (lists h))).
Proof.
  intros Hl. pose proof (is_list_header _ _ _ Hl) as HL.
  pose proof (is_list_fresh _ _ _ _ _ Hl He Hc) as Hx.
  unfold list_append. prun. rewrite Hc. prun. prun.
  destruct (lastp None xs) as [t|] eqn:Et.
  - destruct (first xs None) as [f|] eqn:Ef; [|by rewrite (first_None _ Ef) in Et].
    prun.
    assert (∃ ct, <[e:=Le (Some t) None (Some l) d]> (les h) !! t = Some ct) as [ct Hct].
    { pose proof (lastp_None_elem _ _ Et). destruct Hl as (_ & Hs & _).
      destruct (dseg_lookup _ _ _ _ _ _ Hs H) as (ct & ? & _).
      exists ct. rewrite lookup_insert_ne; [done|]. by intros ->. }
    prun. erewrite set_tail_run by done. simpl.
    unfold link, header. rewrite first_app, lastp_snoc, Et. simpl.
    by rewrite (first_Some _ _ (Some e) Ef), Ef.
  - apply lastp_None in Et as ->. simpl in *. prun. prun.
    erewrite set_tail_run by (simpl; apply lookup_insert_eq). simpl.
    by rewrite insert_insert_eq.
Qed.

Lemma list_prepend_run xs :
  is_list h l xs →
  list_prepend (Some l) (Some e) d h =
    Ret (tt, Heap (link (les h) l [] xs e d) (<[l := header ((e, d) :: xs)]> (lists h))).
Proof.
  intros Hl. pose proof (is_list_header _ _ _ Hl) as HL.
  pose proof (is_list_fresh _ _ _ _ _ Hl He Hc) as Hx.
  unfold list_prepend. prun. rewrite Hc. prun. prun.
  destruct (first xs None) as [t|] eqn:Et.
  - destruct (lastp None xs) as [f|] eqn:Ef; [|by rewrite (lastp_None _ Ef) in Et].
    assert (∃ ct, <[e:=Le None (Some t) (Some l) d]> (les h) !! t = Some ct) as [ct Hct].
    { pose proof (first_elem _ _ Et). destruct Hl as (_ & Hs & _).
      destruct (dseg_lookup _ _ _ _ _ _ Hs H) as (ct & ? & _).
      exists ct. rewrite lookup_insert_ne; [done|]. by intros ->. }
    prun. prun. erewrite set_head_run by done. simpl.
    unfold link, header. simpl. rewrite Et. simpl.
    by destruct xs as [|[x dx] xs].
  - apply first_None in Et as ->. simpl in *. prun. prun.
    erewrite set_head_run by (simpl; apply lookup_insert_eq). simpl.
    by rewrite insert_insert_eq.
Qed.

Lemma list_insert_after_run xs a da ys :
  is_list h l (xs ++ (a, da) :: ys) →
  list_insert_after (Some l) (Some a) (Some e) d h =
    Ret (tt, Heap (link (les h) l (xs ++ [(a, da)]) ys e d)
                  (<[l := header ((xs ++ [(a, da)]) ++ (e, d) :: ys)]> (lists h))).
Proof.
  intros Hl. pose proof (is_list_header _ _ _ Hl) as HL.
  pose proof (is_list_fresh _ _ _ _ _ Hl He Hc) as Hx.
  pose proof (is_list_at _ _ _ _ _ _ Hl) as (Ha & _ & S2 & _ & _ & _ & Ea & _).
  rewrite fmap_app, elem_of_app in Hx. simpl in Hx. rewrite elem_of_cons in Hx.
  assert (Hae : a ≠ e) by (intros ->; tauto).
  unfold list_insert_after. prun. rewrite Hc. prun.
  unfold link, header. rewrite first_app, !lastp_app. simpl.
  destruct (first ys None) as [t|] eqn:Et.
  - pose proof (first_elem _ _ Et) as Hty.
    assert (t ≠ e ∧ t ≠ a) as [Hte Hta] by (split; intros ->; tauto).
    destruct (dseg_lookup _ _ _ _ _ _ S2 Hty) as (ct & Hct & _).
    prun.
    erewrite prog_bind_step by (eapply store_le_run; simpl; rewrite lookup_alter_ne by congruence; done).
    simpl. erewrite set_next_run.
    2:{ simpl. rewrite lookup_insert_ne, lookup_alter_ne by congruence. done. }
    simpl. f_equal. f_equal. f_equal.
    + rewrite <- alter_insert_ne by congruence.
      by apply alter_alter_ne.
    + symmetry. apply insert_id. rewrite HL. unfold header.
      rewrite first_app, lastp_app. simpl. destruct ys as [|[y dy] ys]; [done|]. by destruct xs.
  - apply first_None in Et as ->. simpl.
    erewrite prog_bind_step.
    2:{ erewrite prog_bind_step by (by eapply load_list_run). simpl.
        rewrite lastp_app. simpl. rewrite bool_decide_eq_true_2 by done.
        by eapply set_tail_run. }
    prun. erewrite set_next_run.
    2:{ simpl. by rewrite lookup_insert_ne by congruence. }
    simpl. unfold header. rewrite !first_app. simpl. by destruct xs.
Qed.

Lemma list_insert_before_run xs a da ys :
  is_list h l (xs ++ (a, da) :: ys) →
  list_insert_before (Some l) (Some a) (Some e) d h =
    Ret (tt, Heap (link (les h) l xs ((a, da) :: ys) e d)
                  (<[l := header (xs ++ (e, d) :: (a, da) :: ys)]> (lists h))).
Proof.
  intros Hl. pose proof (is_list_header _ _ _ Hl) as HL.
  pose proof (is_list_fresh _ _ _ _ _ Hl He Hc) as Hx.
  pose proof (is_list_at _ _ _ _ _ _ Hl) as (Ha & S1 & _ & _ & _ & Ea & _).
  rewrite fmap_app, elem_of_app in Hx. simpl in Hx. rewrite elem_of_cons in Hx.
  assert (Hae : a ≠ e) by (intros ->; tauto).
  unfold list_insert_before. prun. rewrite Hc. prun.
  unfold link, header. rewrite first_app, !lastp_app. simpl.
  destruct (lastp None xs) as [t|] eqn:Et.
  - pose proof (lastp_None_elem _ _ Et) as Htx.
    assert (t ≠ e ∧ t ≠ a) as [Hte Hta] by (split; intros ->; tauto).
    destruct (dseg_lookup _ _ _ _ _ _ S1 Htx) as (ct & Hct & _).
    prun.
    erewrite prog_bind_step by (eapply store_le_run; simpl; rewrite lookup_alter_ne by congruence; done).
    simpl. erewrite set_prev_run.
    2:{ simpl. rewrite lookup_insert_ne, lookup_alter_ne by congruence. done. }
    simpl. f_equal. f_equal. f_equal.
    + by rewrite <- alter_insert_ne by congruence.
    + symmetry. apply insert_id. rewrite HL. unfold header.
      rewrite first_app, lastp_app. simpl. destruct xs as [|[y dy] xs]; [done|]. done.
  - apply lastp_None in Et as ->. simpl in *.
    erewrite prog_bind_step.
    2:{ erewrite prog_bind_step by (by eapply load_list_run). simpl.
        rewrite bool_decide_eq_true_2 by done. by eapply set_head_run. }
    prun. erewrite set_prev_run.
    2:{ simpl. by rewrite lookup_insert_ne by congruence. }
    done.
Qed.
End op_specs.

Lemma list_unlink_run h l xs e d ys :
  is_list h l (xs ++ (e, d) :: ys) →
  list_unlink (Some e) h =
    Ret (tt, Heap (cut (les h) xs ys e d) (<[l := header (xs ++ ys)]> (lists h))).
Proof.
  intros Hl. pose proof (is_list_header _ _ _ Hl) as HL.
  pose proof (is_list_at _ _ _ _ _ _ Hl) as (Ha & S1 & S2 & _ & _ & Ex & Ey & Nd).
  unfold list_unlink. prun. unfold cut, header. rewrite first_app, lastp_app.
  set (v := first ys None) in *. set (p := lastp None xs) in *.
  set (h1 := Heap (fix_next (les h) p v)
                  (if p then lists h else <[l := CList v (l_tail (header (xs ++ (e,d) :: ys)))]> (lists h))).
  erewrite (prog_bind_step _ _ h tt h1).
  2:{ unfold h1. destruct p as [t|] eqn:Et.
      - destruct (dseg_lookup _ _ _ _ _ _ S1 (lastp_None_elem _ _ Et)) as (ct & Hct & _).
        by eapply set_next_run.
      - by eapply set_head_run. }
  assert (HL1 : lists h1 !! l = Some (CList (first xs v) (lastp (Some e) ys))).
  { subst h1. simpl. destruct p as [t|] eqn:Et; simpl.
    - rewrite HL. unfold header. rewrite first_app, lastp_app. simpl.
      destruct xs as [|[x dx] xs]; [done|done].
    - apply lastp_None in Et as ->. simpl in *. by rewrite lookup_insert_eq. }
  set (h2 := Heap (fix_prev (les h1) v p) (<[l := CList (first xs v) (lastp p ys)]> (lists h1))).
  erewrite (prog_bind_step _ _ h1 tt h2).
  2:{ unfold h2. destruct v as [n|] eqn:Ev; simpl.
      - pose proof (first_elem _ _ Ev) as Hn.
        destruct (dseg_lookup _ _ _ _ _ _ S2 Hn) as (cn & Hcn & _).
        rewrite set_prev_run with (c := cn).
        2:{ subst h1; simpl. unfold p. rewrite fix_next_notin; [done|]. intros ?. by apply (Nd n). }
        do 3 f_equal. symmetry. apply insert_id. rewrite HL1.
        by destruct ys as [|[y dy] ys].
      - apply first_None in Ev as ->. simpl. erewrite set_tail_run by done. done. }
  assert (He2 : les h2 !! e = les h !! e).
  { subst h2 h1. simpl. unfold p, v. by rewrite fix_prev_notin, fix_next_notin by done. }
  erewrite prog_bind_step by (eapply load_le_run; by rewrite He2, Ha). simpl.
  erewrite store_le_run by (by rewrite He2, Ha). subst h2 h1. simpl. do 3 f_equal.
  destruct p; [done|]. by rewrite insert_insert_eq.
Qed.

(** ** Traversals *)

Lemma dseg_snoc_inv m l xs x d n :
  dseg m l None (xs ++ [(x, d)]) n → m !! x = Some (Le (lastp None xs) n (Some l) d).
Proof. intros [_ [H _]]%dseg_app. done. Qed.

Definition pure_handler (f : addr → bool) : addr → prog heap bool := λ a h, Ret (f a, h).

Lemma apply_loop_fwd f h l p xs fuel :
  dseg (les h) l p xs None → (length xs ≤ fuel)%nat →
  apply_loop (pure_handler f) true fuel (first xs None) h =
    Ret (head (filter (λ a, f a = true) xs.*1), h).
Proof.
  revert p fuel. induction xs as [|[x d] xs IH]; intros p fuel Hs Hf; simpl in *; [by destruct fuel|].
  destruct Hs as [Hx Hs]. destruct fuel as [|fuel]; simpl in *; [lia|].
  prun. unfold mbind, prog_bind, pure_handler. rewrite filter_cons.
  case_decide as E; [by rewrite E|]. apply not_true_is_false in E. rewrite E.
  eapply IH; [done|lia].
Qed.

Lemma apply_loop_bwd f h l n xs fuel :
  dseg (les h) l None xs n → (length xs ≤ fuel)%nat →
  apply_loop (pure_handler f) false fuel (lastp None xs) h =
    Ret (head (filter (λ a, f a = true) (reverse xs.*1)), h).
Proof.
  revert n fuel. induction xs as [|[x d] xs IH] using rev_ind; intros n fuel Hs Hf;
    [by destruct fuel|].
  pose proof (dseg_snoc_inv _ _ _ _ _ _ Hs) as Hx. apply dseg_app in Hs as [Hs _].
  rewrite length_app in Hf. simpl in Hf. rewrite lastp_snoc, fmap_app, reverse_app. simpl.
  destruct fuel as [|fuel]; simpl in *; [lia|].
  prun. unfold mbind, prog_bind, pure_handler. rewrite filter_cons.
  case_decide as E; [by rewrite E|]. apply not_true_is_false in E. rewrite E.
  eapply IH; [done|lia].
Qed.

Lemma list_apply_run h l xs fwd f fuel :
  is_list h l xs → (length xs ≤ fuel)%nat →
  list_apply (Some l) fwd (Some (pure_handler f)) fuel h =
    Ret (head (filter (λ a, f a = true) (if fwd then xs.*1 else reverse xs.*1)), h).
Proof.
  intros (HL & Hs & _) Hf. unfold list_apply. prun.
  destruct fwd; [by eapply apply_loop_fwd|by eapply apply_loop_bwd].
Qed.

Lemma count_loop_run h l p xs n fuel :
  dseg (les h) l p xs None → (length xs ≤ fuel)%nat →
  count_loop fuel (first xs None) (u32 n) h = Ret (u32 (n + Z.of_nat (length xs)), h).
Proof.
  revert p n fuel. induction xs as [|[x d] xs IH]; intros p n fuel Hs Hf; simpl in *.
  { rewrite Z.add_0_r. by destruct fuel. }
  destruct Hs as [Hx Hs]. destruct fuel as [|fuel]; simpl in *; [lia|].
  prun. replace (u32 (u32 n + 1)) with (u32 (n + 1)) by (unfold u32; by rewrite Zplus_mod_idemp_l).
  rewrite (IH _ (n + 1)) by (done || lia). do 3 f_equal. lia.
Qed.

Lemma list_count_run h l xs fuel :
  is_list h l xs → (length xs ≤ fuel)%nat →
  list_count (Some l) fuel h = Ret (u32 (Z.of_nat (length xs)), h).
Proof.
  intros (HL & Hs & _) Hf. unfold list_count. prun.
  change 0 with (u32 0). rewrite (count_loop_run _ _ _ _ _ _ Hs Hf). done.
Qed.

(** ** Flushing

    [deref] may free the object it is given and whatever that object owns, but
    not the header of the list nor the elements that are still linked in it. *)
Definition deref_keeps (deref : ptr → prog heap unit) (l : addr) : Prop :=
  ∀ d h, ∃ h', deref d h = Ret (tt, h') ∧ lists h' !! l = lists h !! l ∧
    ∀ x c, le_list c = Some l → (les h' !! x = Some c ↔ les h !! x = Some c).

Lemma flush_loop_run deref l h p xs fuel :
  deref_keeps deref l →
  dseg (les h) l p xs None → NoDup xs.*1 →
  (∀ x c, les h !! x = Some c → le_list c = Some l → x ∈ xs.*1) →
  (length xs ≤ fuel)%nat →
  ∃ h', flush_loop deref fuel (first xs None) h = Ret (tt, h') ∧
    lists h' !! l = lists h !! l ∧
    (∀ x c, les h' !! x = Some c → le_list c ≠ Some l).
Proof.
  intros Hd. revert h p fuel. induction xs as [|[x d] xs IH]; intros h p fuel Hs Hnd Ho Hf; simpl in *.
  { exists h. split_and!; [by destruct fuel|done|]. intros x c Hx Hc. set_solver. }
  destruct Hs as [Hx Hs]. apply NoDup_cons in Hnd as [Hxn Hnd].
  destruct fuel as [|fuel]; simpl in *; [lia|].
  prun. prun.
  set (h1 := Heap (<[x:=Le None None None None]> (les h)) (lists h)).
  destruct (Hd d h1) as (h2 & E2 & HL2 & K2).
  erewrite prog_bind_step by exact E2.
  destruct (IH h2 (Some x) fuel) as (h3 & E3 & HL3 & K3).
  - assert (Hs1 : dseg (les h1) l (Some x) xs None).
    { eapply dseg_frame, Hs. intros y Hy. simpl. rewrite lookup_insert_ne; [done|]. by intros ->. }
    clear -Hs1 K2. generalize dependent (Some x). clear -K2.
    induction xs as [|[y dy] xs IH]; intros p; simpl; [done|].
    intros [H1 H2]. split; [by apply K2|by apply IH].
  - done.
  - intros y c Hy Hc. apply (K2 y c Hc) in Hy. simpl in Hy.
    destruct (decide (y = x)) as [->|Hne]; [rewrite lookup_insert_eq in Hy; by simplify_eq|].
    rewrite lookup_insert_ne in Hy by done. pose proof (Ho y c Hy Hc). set_solver.
  - lia.
  - exists h3. split_and!; [done|by rewrite HL3, HL2|done].
Qed.

Lemma list_flush_run deref h l xs fuel :
  deref_keeps deref l → is_list h l xs → (length xs ≤ fuel)%nat →
  ∃ h', list_flush deref fuel (Some l) h = Ret (tt, h') ∧ is_list h' l [].
Proof.
  intros Hd (HL & Hs & Hnd & Ho) Hf. unfold list_flush. prun.
  destruct (flush_loop_run deref l h None xs fuel) as (h1 & E1 & HL1 & K1); [done..|].
  erewrite prog_bind_step by exact E1. simpl. unfold list_init.
  rewrite (store_list_run _ _ (header xs)) by (by rewrite HL1).
  eexists; split; [done|]. split_and!; simpl; [apply lookup_insert_eq|done|constructor|].
  intros x c Hx Hc. exfalso. by eapply K1.
Qed.

(** ** Sorting *)

Section bubble.
Context {A : Type} (sh : A → A → bool).

(** One pass of the loop, with the current element in hand. *)
Fixpoint bubble (x : A) (xs : list A) : list A * bool :=
  match xs with
  | [] => ([x], false)
  | y :: r =>
      if sh x y then let '(r', b) := bubble y r in (x :: r', b)
      else let '(r', b) := bubble x r in (y :: r', true)
  end.

(** The pairs that are out of order. *)
Fixpoint inversions (xs : list A) : nat :=
  match xs with
  | [] => 0
  | x :: r => length (filter (λ y, sh x y = false) r) + inversions r
  end.

Lemma bubble_perm x xs : (bubble x xs).1 ≡ₚ x :: xs.
Proof.
  revert x. induction xs as [|y r IH]; intros x; simpl; [done|].
  destruct (sh x y).
  - pose proof (IH y). destruct (bubble y r). simpl in *. by f_equiv.
  - pose proof (IH x). destruct (bubble x r). simpl in *. rewrite H. apply Permutation_swap.
Qed.

Context (sh_total : ∀ x y, sh x y = false → sh y x = true).

Lemma length_filter_perm (P : A → Prop) `{∀ a, Decision (P a)} (xs ys : list A) :
  xs ≡ₚ ys → length (filter P xs) = length (filter P ys).
Proof. intros E. by rewrite E. Qed.

Lemma bubble_inversions x xs :
  (inversions (bubble x xs).1 + (if (bubble x xs).2 then 1 else 0) ≤ inversions (x :: xs))%nat.
Proof.
  revert x. induction xs as [|y r IH]; intros x; simpl; [lia|].
  destruct (sh x y) eqn:E.
  - pose proof (IH y). pose proof (bubble_perm y r) as Hp. destruct (bubble y r) as [r' b].
    simpl in *. rewrite (length_filter_perm _ _ _ Hp). destruct b; lia.
  - pose proof (IH x). pose proof (bubble_perm x r) as Hp. destruct (bubble x r) as [r' b].
    simpl in *. rewrite (length_filter_perm _ _ _ Hp). rewrite !filter_cons, E.
    rewrite (decide_False (P := sh y x = false)) by (by rewrite (sh_total _ _ E)).
    rewrite decide_True by done. simpl. destruct b; lia.
Qed.

Lemma bubble_sorted_flag x xs : (bubble x xs).2 = false → (bubble x xs).1 = x :: xs ∧ Sorted (λ a b, sh a b = true) (x :: xs).
Proof.
  revert x. induction xs as [|y r IH]; intros x; simpl; [by repeat constructor|].
  destruct (sh x y) eqn:E.
  - pose proof (IH y). destruct (bubble y r) as [r' b]. simpl in *. intros ->.
    destruct H as [-> Hs]; [done|]. split; [done|]. constructor; [done|]. by constructor.
  - destruct (bubble x r). done.
Qed.

(** Elements that compare equal keep their order. *)
Lemma bubble_stable (P : A → Prop) `{∀ a, Decision (P a)} x xs :
  (∀ a b, P a → P b → sh a b = true) → filter P (bubble x xs).1 = filter P (x :: xs).
Proof.
  intros HP. revert x. induction xs as [|y r IH]; intros x; simpl; [done|].
  destruct (sh x y) eqn:E.
  - pose proof (IH y) as H1. destruct (bubble y r). simpl in *.
    by rewrite !(filter_cons _ x), H1.
  - pose proof (IH x) as H1. destruct (bubble x r). simpl in *.
    rewrite filter_cons, H1, !filter_cons.
    repeat case_decide; try done. by rewrite (HP x y) in E.
Qed.

Lemma inversions_bound xs : (inversions xs ≤ length xs * length xs)%nat.
Proof.
  induction xs as [|x r IH]; simpl; [lia|].
  pose proof (length_filter (λ y, sh x y = false) r). lia.
Qed.
End bubble.

Section sorting.
Context (sh : addr → addr → bool) (l : addr).
Let ish (x y : item) : bool := sh x.1 y.1.

Lemma sort_pass_run fuel post : ∀ a da pre h sorted,
  is_list h l (pre ++ (a, da) :: post) → (length post < fuel)%nat →
  ∃ h', sort_pass sh l fuel (Some a) sorted h =
          Ret (sorted || (bubble ish (a, da) post).2, h') ∧
        is_list h' l (pre ++ (bubble ish (a, da) post).1) ∧ others_kept l h h'.
Proof.
  revert post. induction fuel as [|fuel IH]; intros post a da pre h sorted Hl Hf; [lia|].
  pose proof (is_list_at _ _ _ _ _ _ Hl) as (Ha & _). simpl. prun.
  destruct post as [|[n dn] post]; simpl in *.
  { exists h. rewrite orb_false_r. done. }
  change (ish (a, da) (n, dn)) with (sh a n). destruct (sh a n).
  - replace (pre ++ (a, da) :: (n, dn) :: post) with ((pre ++ [(a, da)]) ++ (n, dn) :: post)
      in Hl by (by rewrite <- app_assoc).
    destruct (IH post n dn _ h sorted Hl) as (h' & E & Hl' & Hk); [lia|].
    exists h'. destruct (bubble ish (n, dn) post) as [r' b]. simpl in *.
    rewrite <- app_assoc in Hl'. done.
  - erewrite prog_bind_step by (by eapply list_unlink_run).
    set (h1 := Heap _ _).
    destruct (cut_is_list h l pre ((n, dn) :: post) a da Hl) as [Hl1 Hk1]. fold h1 in Hl1, Hk1.
    assert (Ha1 : les h1 !! a = Some (Le None None None da)) by (apply lookup_insert_eq).
    erewrite prog_bind_step by (by eapply load_le_run). simpl.
    erewrite prog_bind_step by (by eapply list_insert_after_run).
    set (h2 := Heap _ _).
    destruct (link_is_list h1 l (pre ++ [(n, dn)]) post a da (Le None None None da)) as [Hl2 Hk2];
      [by rewrite <- app_assoc|done|done|]. fold h2 in Hl2, Hk2.
    destruct (IH post a da _ h2 true Hl2) as (h' & E & Hl' & Hk); [lia|].
    exists h'. destruct (bubble ish (a, da) post) as [r' b]. simpl in *.
    rewrite <- app_assoc in Hl'. split_and!; [by rewrite E, orb_true_r|done|].
    by do 2 (etrans; [done|]).
Qed.

Context (sh_total : ∀ x y, sh x y = false → sh y x = true).

Lemma list_sort_loop_run xs : ∀ ifuel fuel h,
  is_list h l xs → (length xs ≤ ifuel)%nat → (inversions ish xs < fuel)%nat →
  ∃ h' ys, list_sort_loop sh l ifuel fuel h = Ret (tt, h') ∧ is_list h' l ys ∧
    others_kept l h h' ∧ ys ≡ₚ xs ∧ Sorted (λ x y, ish x y = true) ys ∧
    ∀ (P : item → Prop) `{∀ a, Decision (P a)},
      (∀ a b, P a → P b → ish a b = true) → filter P ys = filter P xs.
Proof.
  intros ifuel fuel h. revert h xs.
  induction fuel as [|fuel IH]; intros h xs Hl Hi Hf; [lia|]. simpl.
  pose proof (is_list_header _ _ _ Hl) as HL. prun.
  destruct xs as [|[a da] post].
  { exists h, []. assert (Hp : sort_pass sh l ifuel None false h = Ret (false, h)) by (by destruct ifuel).
    simpl. erewrite prog_bind_step by exact Hp.
    split_and!; try done; constructor. }
  simpl in *.
  destruct (sort_pass_run ifuel post a da [] h false Hl) as (h1 & E1 & Hl1 & Hk1); [lia|].
  erewrite prog_bind_step by exact E1. simpl in *.
  assert (Htot : ∀ x y, ish x y = false → ish y x = true) by (intros [] []; apply sh_total).
  pose proof (bubble_perm ish (a, da) post) as Hp.
  pose proof (bubble_inversions ish Htot (a, da) post) as Hv.
  pose proof (bubble_sorted_flag ish (a, da) post) as Hs.
  destruct (bubble ish (a, da) post) as [r' b] eqn:Eb. simpl in *.
  assert (Hst : ∀ (P : item → Prop) `{∀ a, Decision (P a)},
    (∀ a b, P a → P b → ish a b = true) → filter P r' = filter P ((a, da) :: post)).
  { intros P ? HP. rewrite <- (bubble_stable ish P (a, da) post HP), Eb. done. }
  destruct b.
  - destruct (IH h1 r' Hl1) as (h2 & ys & E2 & Hl2 & Hk2 & Hp2 & Hs2 & Hst2).
    { rewrite Hp. done. }
    { lia. }
    exists h2, ys. split_and!; [done|done|by etrans|by rewrite Hp2|done|].
    intros P ? HP. by rewrite Hst2, Hst.
  - destruct (Hs eq_refl) as [-> Hs']. exists h1, ((a, da) :: post). split_and!; done.
Qed.
End sorting.

(** ** Well-formedness is decidable, so concrete heaps are checked by computation *)

#[export] Instance le_eq_dec : EqDecision le.
Proof. solve_decision. Defined.
#[export] Instance clist_eq_dec : EqDecision clist.
Proof. solve_decision. Defined.

#[export] Instance dseg_dec m l p xs n : Decision (dseg m l p xs n).
Proof.
  revert p. induction xs as [|[x d] xs IH]; intros p; simpl; [by left|].
  apply and_dec; [apply _|apply IH].
Defined.

#[export] Instance is_list_dec h l xs : Decision (is_list h l xs).
Proof.
  unfold is_list. do 3 (apply and_dec; [apply _|]).
  change (Decision (map_Forall (λ x c, le_list c = Some l → x ∈ xs.*1) (les h))). apply _.
Defined.

(** ** Properties *)

(** The four insertions (list_append, list_prepend, list_insert_after and
    list_insert_before) applied to an unlinked element return without a memory
    fault, put the element with its user data at the end, at the front, right
    after or right before the given element of the sequence the list
    represents, and leave every other list of the heap unchanged. *)
Theorem list_insert_spec h l e c d xs a da ys :
  les h !! e = Some c → le_list c = None → is_list h l (xs ++ (a, da) :: ys) →
  (∃ h', list_append (Some l) (Some e) d h = Ret (tt, h') ∧
         is_list h' l (xs ++ (a, da) :: ys ++ [(e, d)]) ∧ others_kept l h h') ∧
  (∃ h', list_prepend (Some l) (Some e) d h = Ret (tt, h') ∧
         is_list h' l ((e, d) :: xs ++ (a, da) :: ys) ∧ others_kept l h h') ∧
  (∃ h', list_insert_after (Some l) (Some a) (Some e) d h = Ret (tt, h') ∧
         is_list h' l (xs ++ (a, da) :: (e, d) :: ys) ∧ others_kept l h h') ∧
  (∃ h', list_insert_before (Some l) (Some a) (Some e) d h = Ret (tt, h') ∧
         is_list h' l (xs ++ (e, d) :: (a, da) :: ys) ∧ others_kept l h h').
Proof.
  intros He Hc Hl. split_and!.
  - erewrite list_append_run by done. eexists; split; [done|].
    replace (xs ++ (a, da) :: ys ++ [(e, d)]) with ((xs ++ (a, da) :: ys) ++ [(e, d)])
      by (by rewrite <- app_assoc).
    eapply link_is_list; [by rewrite app_nil_r|done..].
  - erewrite list_prepend_run by done. eexists; split; [done|].
    eapply (link_is_list _ _ []); done.
  - erewrite list_insert_after_run by done. eexists; split; [done|].
    replace (xs ++ (a, da) :: (e, d) :: ys) with ((xs ++ [(a, da)]) ++ (e, d) :: ys)
      by (by rewrite <- app_assoc).
    eapply link_is_list; [by rewrite <- app_assoc|done..].
  - erewrite list_insert_before_run by done. eexists; split; [done|].
    eapply link_is_list; done.
Qed.

(** List_unlink removes exactly the given element from the list it is
    linked in, whichever that list is, clears its links so that a second
    unlink does nothing, and leaves every other list unchanged. *)
Theorem list_unlink_spec h l xs e d ys :
  is_list h l (xs ++ (e, d) :: ys) →
  ∃ h', list_unlink (Some e) h = Ret (tt, h') ∧ is_list h' l (xs ++ ys) ∧
        others_kept l h h' ∧ les h' !! e = Some (Le None None None d) ∧
        list_unlink (Some e) h' = Ret (tt, h').
Proof.
  intros Hl. erewrite list_unlink_run by done. eexists; split; [done|].
  destruct (cut_is_list _ _ _ _ _ _ Hl) as [H1 H2]. split_and!; [done|done| |].
  - simpl. apply lookup_insert_eq.
  - unfold list_unlink. erewrite prog_bind_step by (eapply load_le_run; apply lookup_insert_eq). done.
Qed.

(** List_sort with a total handler (if it says two elements are out of
    order, it says they are in order when swapped) terminates within
    length^2 + 1 passes, never faults, and leaves the list holding the same
    elements, adjacent ones in handler order (all pairs, when the handler is
    transitive), with elements that compare equal in their original order;
    other lists are unchanged. *)
Theorem list_sort_spec sh h l xs fuel :
  (∀ x y, sh x y = false → sh y x = true) →
  is_list h l xs → (length xs * length xs < fuel)%nat →
  ∃ h' ys, list_sort (Some sh) fuel fuel (Some l) h = Ret (tt, h') ∧
    is_list h' l ys ∧ others_kept l h h' ∧ ys ≡ₚ xs ∧
    Sorted (λ x y, sh x y = true) ys.*1 ∧
    ((∀ x y z, sh x y = true → sh y z = true → sh x z = true) →
     StronglySorted (λ x y, sh x y = true) ys.*1) ∧
    ∀ (P : item → Prop) `{∀ a, Decision (P a)},
      (∀ a b, P a → P b → sh a.1 b.1 = true) → filter P ys = filter P xs.
Proof.
  intros Ht Hl Hf. pose proof (inversions_bound (λ x y : item, sh x.1 y.1) xs).
  destruct (list_sort_loop_run sh l Ht xs fuel fuel h) as (h' & ys & E & Hl' & Hk & Hp & Hs & Hst);
    [done|nia|lia|].
  assert (Hs1 : Sorted (λ x y, sh x y = true) ys.*1).
  { clear -Hs. induction Hs as [|x xs Hs IH Hh]; simpl; constructor; [done|].
    destruct Hh; simpl; by constructor. }
  exists h', ys. split_and!; try done. intros Htr.
  apply Sorted_StronglySorted; [|done]. intros x y z. apply Htr.
Qed.

(** List_apply in either direction visits the elements in list order (or in
    reverse), returns the first one the handler accepts, NULL when there is
    none, and changes nothing; list_count is the length modulo 2^32. *)
Theorem list_apply_spec h l xs fwd f fuel :
  is_list h l xs → (length xs ≤ fuel)%nat →
  list_apply (Some l) fwd (Some (pure_handler f)) fuel h =
    Ret (head (filter (λ a, f a = true) (if fwd then xs.*1 else reverse xs.*1)), h) ∧
  list_count (Some l) fuel h = Ret (Z.of_nat (length xs) `mod` 2 ^ 32, h).
Proof.
  intros Hl Hf. split; [by apply list_apply_run|by eapply list_count_run].
Qed.

(** List_flush empties the list whatever the destructors of the elements'
    objects do, provided they neither touch the list header nor the elements
    still linked in the list; in particular a destructor that unlinks or frees
    its own element is safe. *)
Theorem list_flush_spec deref h l xs fuel :
  deref_keeps deref l → is_list h l xs → (length xs ≤ fuel)%nat →
  ∃ h', list_flush deref fuel (Some l) h = Ret (tt, h') ∧ is_list h' l [].
Proof. apply list_flush_run. Qed.

(** *** Witnesses: a heap with elements 1 and 2 in list 10, 3 unlinked, 4 in list 11 *)

Definition demo : heap := Heap
  (list_to_map [(1%positive, Le None (Some 2%positive) (Some 10%positive) (Some 21%positive));
                (2%positive, Le (Some 1%positive) None (Some 10%positive) (Some 22%positive));
                (3%positive, Le None None None None);
                (4%positive, Le None None (Some 11%positive) None)])
  (list_to_map [(10%positive, CList (Some 1%positive) (Some 2%positive));
                (11%positive, CList (Some 4%positive) (Some 4%positive))]).
Definition demo_xs : list item := [(1%positive, Some 21%positive); (2%positive, Some 22%positive)].

Lemma demo_list : is_list demo 10 demo_xs.
Proof. apply (bool_decide_eq_true_1 _). vm_compute. reflexivity. Qed.

Lemma list_insert_spec_witness :
  is_list demo 10 demo_xs ∧
  ∃ h', list_insert_after (Some 10%positive) (Some 1%positive) (Some 3%positive) None demo = Ret (tt, h') ∧
    is_list h' 10 [(1%positive, Some 21%positive); (3%positive, None); (2%positive, Some 22%positive)].
Proof.
  split; [apply demo_list|].
  destruct (list_insert_spec demo 10 3 (Le None None None None) None
              [] 1 (Some 21%positive) [(2%positive, Some 22%positive)]) as (_ & _ & (h' & E & H & _) & _);
    [reflexivity|reflexivity|exact demo_list|].
  exists h'. split; [exact E|exact H].
Defined.

Lemma list_unlink_spec_witness :
  ∃ h', list_unlink (Some 1%positive) demo = Ret (tt, h') ∧ is_list h' 10 [(2%positive, Some 22%positive)].
Proof.
  destruct (list_unlink_spec demo 10 [] 1 (Some 21%positive) [(2%positive, Some 22%positive)] demo_list)
    as (h' & E & H & _).
  exists h'. split; [exact E|exact H].
Defined.

(** The witness sorts by descending address. *)
Lemma list_sort_spec_witness :
  ∃ h' ys, list_sort (Some (λ x y, (y <=? x)%positive)) 5 5 (Some 10%positive) demo = Ret (tt, h') ∧
    is_list h' 10 ys ∧ ys.*1 = [2%positive; 1%positive].
Proof.
  destruct (list_sort_spec (λ x y, (y <=? x)%positive) demo 10 demo_xs 5) as (h' & ys & E & Hl & _ & Hp & Hs & _);
    [intros x y H; apply Pos.leb_gt in H; apply Pos.leb_le; lia | exact demo_list | simpl; lia |].
  exists h', ys. split; [exact E|split; [exact Hl|]].
  assert (Hp1 : ys.*1 ≡ₚ [1%positive; 2%positive]) by (by rewrite Hp).
  apply Permutation_sym, Permutation_length_2_inv in Hp1 as [E1|E1]; [|done].
  rewrite E1 in Hs. inversion Hs as [|? ? _ Hh]. inversion Hh as [|? ? Hb]. discriminate Hb.
Defined.

Lemma list_apply_spec_witness :
  list_apply (Some 10%positive) false (Some (pure_handler (λ a, (a <=? 2)%positive))) 2 demo =
    Ret (Some 2%positive, demo) ∧
  list_count (Some 10%positive) 2 demo = Ret (2, demo).
Proof.
  exact (list_apply_spec demo 10 demo_xs false (λ a, (a <=? 2)%positive) 2 demo_list (le_n 2)).
Defined.

(** A destructor that frees the element its object embeds: object [d] embeds
    element [d - 20]. *)
Definition free_own (d : ptr) : prog heap unit := λ h,
  match d with
  | Some a => match les h !! (a - 20)%positive with
              | Some c => match le_list c with
                          | None => Ret (tt, Heap (delete (a - 20)%positive (les h)) (lists h))
                          | Some _ => Ret (tt, h)
                          end
              | None => Ret (tt, h)
              end
  | None => Ret (tt, h)
  end.

Lemma list_flush_spec_witness :
  ∃ h', list_flush free_own 2 (Some 10%positive) demo = Ret (tt, h') ∧ is_list h' 10 [].
Proof.
  apply (list_flush_spec free_own demo 10 demo_xs 2); [|exact demo_list|simpl; lia].
  intros d h. unfold free_own. destruct d as [a|]; [|by exists h].
  destruct (les h !! (a - 20)%positive) as [c|] eqn:E; [|by exists h].
  destruct (le_list c) eqn:Ec; [by exists h|].
  eexists; split_and!; [done|done|]. intros x c' Hc'. simpl.
  destruct (decide (x = (a - 20)%positive)) as [->|Hne].
  - rewrite lookup_delete_eq. split; [done|]. intros E'.
    pose proof (eq_trans (eq_sym E) E'). congruence.
  - by rewrite lookup_delete_ne by congruence.
Defined.
