(* ===== verification/Mbuf.v ===== *)
(** * Memory buffers (re/src/mbuf/mbuf.c, re/include/re_mbuf.h)

    [struct mbuf] with its position, end and allocated bytes.  Every [memcpy]
    is checked against the allocation, [size_t] arithmetic wraps at 2^64, and
    the allocator is a parameter that may refuse any request.  The struct
    pointer guards ([!mb]) are not represented: the model takes the struct
    itself.  Data pointers that callers do pass as NULL are options. *)
From stdpp Require Import base tactics list numbers strings option.
From S2P Require Import Prelude.

(** The C allocator: whether a request for that many bytes succeeds, and what
    fresh memory holds. *)
Record allocator := Allocator { alloc_ok : Z → bool; junk : Z }.

Record mbuf := Mb {
  mb_buf : option (list Z);
  mb_size : Z;
  mb_pos : Z;
  mb_end : Z
}.

Definition DEFAULT_SIZE : Z := 512.

(** ** memcpy *)

Definition memcpy_to (dst : option (list Z)) (off : Z) (src : list Z) : outcome (option (list Z)) :=
  match src with
  | [] => Ret dst
  | _ =>
      match dst with
      | None => Fault NullDeref
      | Some b =>
          if bool_decide (0 ≤ off ∧ off + Z.of_nat (length src) ≤ Z.of_nat (length b)) then
            Ret (Some (take (Z.to_nat off) b ++ src ++ drop (Z.to_nat off + length src) b))
          else Fault OutOfBounds
      end
  end.

Definition memcpy_from (src : option (list Z)) (off n : Z) : outcome (list Z) :=
  if bool_decide (n = 0) then Ret [] else
  match src with
  | None => Fault NullDeref
  | Some b =>
      if bool_decide (0 ≤ off ∧ 0 ≤ n ∧ off + n ≤ Z.of_nat (length b)) then
        Ret (take (Z.to_nat n) (drop (Z.to_nat off) b))
      else Fault OutOfBounds
  end.

(** [realloc] to [n] bytes keeps the common prefix. *)
Definition realloc_bytes (g : Z) (b : list Z) (n : Z) : list Z := resize (Z.to_nat n) g b.

(** ** Operations *)
Section ops.
Context (A : allocator).

Definition mbuf_init : mbuf := Mb None 0 0 0.

Definition mbuf_resize (mb : mbuf) (n : Z) : Z * mbuf :=
  if alloc_ok A n then
    (0, Mb (Some (realloc_bytes (junk A) (default [] (mb_buf mb)) n)) n (mb_pos mb) (mb_end mb))
  else (ENOMEM, mb).

(** [mem_zalloc] of the struct is one request, the buffer another. *)
Definition mbuf_alloc (n : Z) : option mbuf :=
  if alloc_ok A 32 then
    let '(err, mb) := mbuf_resize mbuf_init (if bool_decide (n = 0) then DEFAULT_SIZE else n) in
    if bool_decide (err = 0) then Some mb else None
  else None.

Definition mbuf_reset (mb : mbuf) : mbuf := mbuf_init.

Definition mbuf_trim (mb : mbuf) : mbuf :=
  if bool_decide (mb_end mb = 0) || bool_decide (mb_end mb = mb_size mb) then mb
  else snd (mbuf_resize mb (mb_end mb)).

Definition mbuf_write_mem (mb : mbuf) (src : option (list Z)) : outcome (Z * mbuf) :=
  match src with
  | None => Ret (EINVAL, mb)
  | Some bs =>
      let n := Z.of_nat (length bs) in
      let rsize := u64 (mb_pos mb + n) in
      let '(err, mb1) :=
        if bool_decide (rsize > mb_size mb) then
          let dsize := if bool_decide (mb_size mb = 0) then DEFAULT_SIZE else u64 (mb_size mb * 2) in
          mbuf_resize mb (Z.max rsize dsize)
        else (0, mb) in
      if bool_decide (err = 0) then
        b ← memcpy_to (mb_buf mb1) (mb_pos mb1) bs;
        let p := u64 (mb_pos mb1 + n) in
        Ret (0, Mb b (mb_size mb1) p (Z.max (mb_end mb1) p))
      else Ret (err, mb1)
  end.

Definition mbuf_write_u8 (mb : mbuf) (v : Z) := mbuf_write_mem mb (Some (le_bytes 1 v)).
Definition mbuf_write_u16 (mb : mbuf) (v : Z) := mbuf_write_mem mb (Some (le_bytes 2 v)).
Definition mbuf_write_u32 (mb : mbuf) (v : Z) := mbuf_write_mem mb (Some (le_bytes 4 v)).
Definition mbuf_write_u64 (mb : mbuf) (v : Z) := mbuf_write_mem mb (Some (le_bytes 8 v)).
Definition mbuf_write_str (mb : mbuf) (s : option string) : outcome (Z * mbuf) :=
  match s with
  | None => Ret (EINVAL, mb)
  | Some s => mbuf_write_mem mb (Some (bytes_of s))
  end.

(** [mbuf_write_pl]: the pointer of the [pl] may be NULL. *)
Definition mbuf_write_pl (mb : mbuf) (pl : option (list Z)) : outcome (Z * mbuf) :=
  mbuf_write_mem mb pl.

(** [mbuf_write_pl_skip]: [pl] is a byte range and [skip] the range
    [so, so + sl) given by its offset from the start of [pl] in the same
    memory. *)
Definition mbuf_write_pl_skip (mb : mbuf) (pl : list Z) (so sl : Z) : outcome (Z * mbuf) :=
  if bool_decide (0 > so) || bool_decide (so + sl > Z.of_nat (length pl)) then Ret (ERANGE, mb)
  else
    r ← mbuf_write_mem mb (Some (take (Z.to_nat so) pl));
    let '(err, mb1) := r in
    if bool_decide (err = 0) then mbuf_write_mem mb1 (Some (drop (Z.to_nat (so + sl)) pl))
    else Ret (err, mb1).
End ops.

Definition mbuf_get_left (mb : mbuf) : Z := u64 (mb_end mb - mb_pos mb).
Definition mbuf_get_space (mb : mbuf) : Z := u64 (mb_size mb - mb_pos mb).
Definition mbuf_set_pos (mb : mbuf) (p : Z) : mbuf := Mb (mb_buf mb) (mb_size mb) p (mb_end mb).
Definition mbuf_set_end (mb : mbuf) (e : Z) : mbuf := Mb (mb_buf mb) (mb_size mb) (mb_pos mb) e.
Definition mbuf_advance (mb : mbuf) (n : Z) : mbuf := mbuf_set_pos mb (u64 (mb_pos mb + n)).
Definition mbuf_rewind (mb : mbuf) : mbuf := Mb (mb_buf mb) (mb_size mb) 0 0.
Definition mbuf_skip_to_end (mb : mbuf) : mbuf := mbuf_set_pos mb (mb_end mb).

Definition mbuf_read_mem (mb : mbuf) (n : Z) : outcome (Z * list Z * mbuf) :=
  if bool_decide (n > mbuf_get_left mb) then Ret (EOVERFLOW, [], mb)
  else
    bs ← memcpy_from (mb_buf mb) (mb_pos mb) n;
    Ret (0, bs, mbuf_set_pos mb (u64 (mb_pos mb + n))).

Definition mbuf_read_int (n : nat) (mb : mbuf) : outcome (Z * mbuf) :=
  r ← mbuf_read_mem mb (Z.of_nat n);
  let '(err, bs, mb1) := r in
  Ret (if bool_decide (err = 0) then le_value bs else 0, mb1).

Definition mbuf_read_u8 : mbuf → outcome (Z * mbuf) := mbuf_read_int 1.
Definition mbuf_read_u16 : mbuf → outcome (Z * mbuf) := mbuf_read_int 2.
Definition mbuf_read_u32 : mbuf → outcome (Z * mbuf) := mbuf_read_int 4.
Definition mbuf_read_u64 : mbuf → outcome (Z * mbuf) := mbuf_read_int 8.

(** [mbuf_read_str]: the bytes stored into the caller's buffer of [n] bytes. *)
Fixpoint mbuf_read_str (mb : mbuf) (n : nat) : outcome (list Z * mbuf) :=
  match n with
  | O => Ret ([], mb)
  | S n' =>
      r ← mbuf_read_u8 mb;
      let '(c, mb1) := r in
      if bool_decide (c = 0) then Ret ([c], mb1)
      else
        r ← mbuf_read_str mb1 n';
        let '(cs, mb2) := r in
        Ret (c :: cs, mb2)
  end.

(** [mbuf_strdup]: the duplicated string is returned on success. *)
Definition mbuf_strdup (A : allocator) (mb : mbuf) (len : Z) : outcome (Z * option (list Z) * mbuf) :=
  if alloc_ok A (u64 (len + 1)) then
    r ← mbuf_read_mem mb len;
    let '(err, bs, mb1) := r in
    Ret (if bool_decide (err = 0) then (0, Some (bs ++ [0]), mb1) else (err, None, mb1))
  else Ret (ENOMEM, None, mb).

(** Byte order conversions of the C library on a little-endian host. *)
Definition htons (v : Z) : Z := Z.lor (Z.shiftl (Z.land v 255) 8) (Z.shiftr (u16 v) 8).
Definition htonl (v : Z) : Z := le_value (reverse (le_bytes 4 v)).
Definition ntohs := htons.
Definition ntohl := htonl.

(** ** Invariants *)

(** The largest request the C library grants ([PTRDIFF_MAX] and far below). *)
Definition max_alloc : Z := 2 ^ 62.

Class allocator_ok (A : allocator) : Prop := {
  alloc_bounded n : alloc_ok A n = true → 0 ≤ n < max_alloc;
  junk_byte : is_byte (junk A)
}.

(** A buffer whose end is inside its allocation; the position is anywhere, as
    after a direct store to [mb->pos]. *)
Definition mbuf_inv (mb : mbuf) : Prop :=
  mb_size mb = Z.of_nat (length (default [] (mb_buf mb))) ∧ mb_size mb < max_alloc ∧
  0 ≤ mb_end mb ≤ mb_size mb ∧ 0 ≤ mb_pos mb < max_alloc ∧ bytes_ok (default [] (mb_buf mb)).

Definition mbuf_wf (mb : mbuf) : Prop := mbuf_inv mb ∧ mb_pos mb ≤ mb_end mb.

#[export] Instance mbuf_inv_dec mb : Decision (mbuf_inv mb).
Proof. unfold mbuf_inv. apply _. Defined.
#[export] Instance mbuf_wf_dec mb : Decision (mbuf_wf mb).
Proof. unfold mbuf_wf. apply _. Defined.

(** The bytes between position and end: what a reader sees. *)
Definition payload (mb : mbuf) : list Z :=
  take (Z.to_nat (mb_end mb - mb_pos mb)) (drop (Z.to_nat (mb_pos mb)) (default [] (mb_buf mb))).

Definition data (mb : mbuf) : list Z := default [] (mb_buf mb).

(** [bytes_at mb i n]: the [n] bytes of the allocation from offset [i]. *)
Definition bytes_at (mb : mbuf) (i n : Z) : list Z := take (Z.to_nat n) (drop (Z.to_nat i) (data mb)).

#[global] Arguments memcpy_to : simpl never.
#[global] Arguments memcpy_from : simpl never.

Lemma memcpy_to_run b off src :
  0 ≤ off → off + Z.of_nat (length src) ≤ Z.of_nat (length b) →
  memcpy_to (Some b) off src = Ret (Some (take (Z.to_nat off) b ++ src ++ drop (Z.to_nat off + length src) b)).
Proof.
  intros H1 H2. destruct src as [|x src].
  - simpl. by rewrite Nat.add_0_r, take_drop.
  - unfold memcpy_to. by rewrite bool_decide_eq_true_2.
Qed.

Lemma memcpy_from_run b off n :
  0 ≤ off → 0 ≤ n → off + n ≤ Z.of_nat (length b) →
  memcpy_from (Some b) off n = Ret (take (Z.to_nat n) (drop (Z.to_nat off) b)).
Proof.
  intros. unfold memcpy_from. case_bool_decide; [by subst|].
  by rewrite bool_decide_eq_true_2.
Qed.

Lemma bytes_ok_app l1 l2 : bytes_ok (l1 ++ l2) ↔ bytes_ok l1 ∧ bytes_ok l2.
Proof. apply Forall_app. Qed.
Lemma bytes_ok_take n l : bytes_ok l → bytes_ok (take n l).
Proof. apply Forall_take. Qed.
Lemma bytes_ok_drop n l : bytes_ok l → bytes_ok (drop n l).
Proof. apply Forall_drop. Qed.
#[export] Hint Resolve bytes_ok_take bytes_ok_drop : re.

Section write.
Context (A : allocator) `{!allocator_ok A}.

(** What the buffer holds after [n] bytes [bs] were stored at [mb_pos mb]. *)
Definition written (mb : mbuf) (bs : list Z) (mb' : mbuf) : Prop :=
  let n := Z.of_nat (length bs) in
  mb_pos mb' = mb_pos mb + n ∧ mb_end mb' = Z.max (mb_end mb) (mb_pos mb + n) ∧
  mb_size mb ≤ mb_size mb' ∧
  bytes_at mb' (mb_pos mb) n = bs ∧
  ∀ i k, 0 ≤ i → 0 ≤ k → i + k ≤ mb_size mb → i + k ≤ mb_pos mb ∨ mb_pos mb + n ≤ i →
    bytes_at mb' i k = bytes_at mb i k.

Lemma mbuf_resize_run mb n :
  mbuf_inv mb → mb_size mb ≤ n →
  mbuf_resize A mb n = (ENOMEM, mb) ∨
  n < max_alloc ∧
  mbuf_resize A mb n =
    (0, Mb (Some (data mb ++ replicate (Z.to_nat n - length (data mb)) (junk A))) n (mb_pos mb) (mb_end mb)).
Proof.
  intros (Hs & _) Hn. unfold mbuf_resize. destruct (alloc_ok A n) eqn:E; [right|by left].
  split; [by apply alloc_bounded|]. do 3 f_equal. unfold realloc_bytes, data in *.
  rewrite resize_spec, take_ge by lia. done.
Qed.

(** Storing into a buffer that is large enough. *)
Lemma write_in_place b sz p e bs :
  sz = Z.of_nat (length b) → 0 ≤ p → p + Z.of_nat (length bs) ≤ sz → sz < max_alloc →
  0 ≤ e ≤ sz → bytes_ok b → bytes_ok bs →
  ∃ b', memcpy_to (Some b) p bs = Ret (Some b') ∧
    let n := Z.of_nat (length bs) in
    let mb' := Mb (Some b') sz (u64 (p + n)) (Z.max e (u64 (p + n))) in
    mbuf_wf mb' ∧ written (Mb (Some b) sz p e) bs mb'.
Proof.
  intros Hsz Hp Hb Hm He Hok Hbs. rewrite memcpy_to_run by lia. eexists; split; [done|].
  assert (max_alloc = 4611686018427387904) as Hmax by reflexivity.
  simpl. rewrite u64_id by lia. split.
  - split; [|simpl; lia]. split_and!; simpl; try lia.
    + rewrite !length_app, length_take, length_drop. lia.
    + apply bytes_ok_app; split; [auto with re|]. apply bytes_ok_app; auto with re.
  - unfold written, bytes_at, data. simpl. split_and!; try lia.
    + rewrite drop_app_length', take_app_length' by (rewrite ?length_take; lia). done.
    + intros i k Hi Hk Hle [Hlo|Hhi].
      * rewrite take_drop_commute, take_app_le by (rewrite length_take; lia).
        rewrite <- take_drop_commute, take_drop_commute. rewrite take_take, Nat.min_l by lia.
        by rewrite <- take_drop_commute.
      * rewrite app_assoc.
        rewrite drop_app_ge by (rewrite length_app, length_take; lia).
        rewrite drop_drop, length_app, length_take. do 2 f_equal. lia.
Qed.

Lemma mbuf_write_mem_run mb bs :
  mbuf_inv mb → Z.of_nat (length bs) < max_alloc → bytes_ok bs →
  mbuf_write_mem A mb (Some bs) = Ret (ENOMEM, mb) ∨
  ∃ mb', mbuf_write_mem A mb (Some bs) = Ret (0, mb') ∧
    (bs ≠ [] ∨ mb_pos mb ≤ mb_size mb → mbuf_wf mb' ∧ written mb bs mb').
Proof.
  intros Hinv Hlen Hbs. pose proof Hinv as (Hs & Hm & He & Hp & Hok).
  assert (max_alloc = 4611686018427387904) as Hmax by reflexivity.
  unfold mbuf_write_mem. rewrite (u64_id (mb_pos mb + _)) by lia.
  case_bool_decide as Hgt.
  - rewrite (u64_id (mb_size mb * 2)) by lia.
    set (n := Z.max _ _).
    assert (mb_size mb ≤ n ∧ mb_pos mb + Z.of_nat (length bs) ≤ n) by (subst n; lia).
    destruct (mbuf_resize_run mb n Hinv) as [->|[Hn ->]]; [lia|by left|].
    right. rewrite bool_decide_eq_true_2 by done. cbn [mb_buf mb_pos mb_end mb_size].
    set (b1 := data mb ++ _).
    assert (Hb1 : Z.of_nat (length b1) = n).
    { subst b1. rewrite length_app, length_replicate. unfold data. lia. }
    destruct (write_in_place b1 n (mb_pos mb) (mb_end mb) bs) as (b' & -> & Hwf & Hw);
      try lia; try done.
    { subst b1. apply bytes_ok_app. split; [done|]. apply Forall_replicate, junk_byte. }
    simpl. eexists; split; [done|]. intros _. split; [done|].
    destruct Hw as (W1 & W2 & W3 & W4 & W5). unfold written. simpl in *. split_and!; try done; try lia.
    intros i k Hi Hk Hle Hor. rewrite W5 by (done || lia).
    unfold bytes_at, data. simpl. subst b1. unfold data.
    rewrite take_drop_commute, take_app_le by lia. by rewrite <- take_drop_commute.
  - right. rewrite bool_decide_eq_true_2 by done.
    destruct (mb_buf mb) as [b|] eqn:Eb.
    + destruct (write_in_place b (mb_size mb) (mb_pos mb) (mb_end mb) bs) as (b' & -> & Hwf & Hw);
        simpl in *; try lia; try done.
      eexists; split; [done|]. intros _. destruct mb; simpl in *. by subst.
    + simpl in *. assert (bs = []) as -> by (apply length_zero_iff_nil; lia). simpl.
      eexists; split; [done|]. intros _.
      rewrite Z.add_0_r, u64_id, Z.max_l by lia.
      destruct mb; simpl in *. subst. split.
      * split; [|simpl; lia]. unfold mbuf_inv. simpl. split_and!; try lia; done.
      * unfold written, bytes_at, data. simpl. split_and!; try lia; done.
Qed.
End write.

(** ** Reading *)

Lemma payload_bytes_at mb : payload mb = bytes_at mb (mb_pos mb) (mb_end mb - mb_pos mb).
Proof. done. Qed.

Lemma bytes_at_split mb i n m :
  0 ≤ i → 0 ≤ n → 0 ≤ m → bytes_at mb i (n + m) = bytes_at mb i n ++ bytes_at mb (i + n) m.
Proof.
  intros. unfold bytes_at. rewrite !Z2Nat.inj_add by lia.
  rewrite <- drop_drop. by rewrite take_take_drop.
Qed.

Lemma bytes_at_length mb i n :
  0 ≤ i → 0 ≤ n → i + n ≤ Z.of_nat (length (data mb)) → length (bytes_at mb i n) = Z.to_nat n.
Proof. intros. unfold bytes_at. rewrite length_take, length_drop. lia. Qed.

Lemma bytes_at_ok mb i n : bytes_ok (data mb) → bytes_ok (bytes_at mb i n).
Proof. intros. unfold bytes_at. auto with re. Qed.

Section reads.
Context (mb : mbuf) (Hwf : mbuf_wf mb).

Lemma mbuf_get_left_wf : mbuf_get_left mb = mb_end mb - mb_pos mb.
Proof.
  destruct Hwf as [(Hs & Hm & He & Hp & Hok) Hpe].
  assert (max_alloc = 4611686018427387904) by reflexivity.
  unfold mbuf_get_left. apply u64_id. lia.
Qed.

Lemma payload_length : Z.of_nat (length (payload mb)) = mb_end mb - mb_pos mb.
Proof.
  destruct Hwf as [(Hs & Hm & He & Hp & Hok) Hpe].
  rewrite payload_bytes_at, bytes_at_length; unfold data; lia.
Qed.

Lemma payload_ok : bytes_ok (payload mb).
Proof. destruct Hwf as [(Hs & Hm & He & Hp & Hok) Hpe]. by apply bytes_at_ok. Qed.

Lemma set_pos_wf p : 0 ≤ p → p ≤ mb_end mb → mbuf_wf (mbuf_set_pos mb p).
Proof.
  destruct Hwf as [(Hs & Hm & He & Hp & Hok) Hpe]. intros H1 H2.
  split; [|done]. split_and!; simpl; try done; lia.
Qed.

Lemma mbuf_read_mem_short n :
  mb_end mb - mb_pos mb < n → mbuf_read_mem mb n = Ret (EOVERFLOW, [], mb).
Proof.
  intros. unfold mbuf_read_mem. rewrite mbuf_get_left_wf. by rewrite bool_decide_eq_true_2 by lia.
Qed.

Lemma mbuf_read_mem_run n :
  0 ≤ n ≤ mb_end mb - mb_pos mb →
  mbuf_read_mem mb n = Ret (0, bytes_at mb (mb_pos mb) n, mbuf_set_pos mb (mb_pos mb + n)).
Proof.
  intros Hn. pose proof Hwf as [(Hs & Hm & He & Hp & Hok) Hpe].
  assert (max_alloc = 4611686018427387904) by reflexivity.
  unfold mbuf_read_mem. rewrite mbuf_get_left_wf, bool_decide_eq_false_2, u64_id by lia.
  unfold bytes_at, data. destruct (mb_buf mb) as [b|]; simpl in *.
  - rewrite memcpy_from_run by lia. done.
  - assert (n = 0) as -> by lia. simpl. by rewrite drop_nil.
Qed.

Lemma payload_read bs rest :
  payload mb = bs ++ rest →
  let mb' := mbuf_set_pos mb (mb_pos mb + Z.of_nat (length bs)) in
  mbuf_read_mem mb (Z.of_nat (length bs)) = Ret (0, bs, mb') ∧ mbuf_wf mb' ∧ payload mb' = rest.
Proof.
  intros E mb'. pose proof payload_length as Hl. rewrite E, length_app in Hl.
  pose proof Hwf as [(_ & _ & _ & Hp & _) _].
  assert (Hb : bytes_at mb (mb_pos mb) (Z.of_nat (length bs)) = bs ∧
               bytes_at mb (mb_pos mb + Z.of_nat (length bs)) (Z.of_nat (length rest)) = rest).
  { rewrite payload_bytes_at in E.
    replace (mb_end mb - mb_pos mb) with (Z.of_nat (length bs) + Z.of_nat (length rest)) in E by lia.
    rewrite bytes_at_split in E by lia. apply app_inj_1 in E; [done|].
    rewrite bytes_at_length; [lia..|].
    pose proof Hwf as [(Hs & _ & He & _) _]. unfold data. lia. }
  destruct Hb as [E1 E2]. split_and!.
  - rewrite mbuf_read_mem_run by lia. by rewrite E1.
  - apply set_pos_wf; lia.
  - unfold mb'. rewrite payload_bytes_at. simpl. etrans; [|exact E2]. unfold bytes_at, data. simpl.
    do 2 f_equal. lia.
Qed.
End reads.

Lemma payload_read_int mb n bs rest :
  mbuf_wf mb → payload mb = bs ++ rest → length bs = n →
  let mb' := mbuf_set_pos mb (mb_pos mb + Z.of_nat n) in
  mbuf_read_int n mb = Ret (le_value bs, mb') ∧ mbuf_wf mb' ∧ payload mb' = rest.
Proof.
  intros Hwf E <-. destruct (payload_read mb Hwf bs rest E) as (E1 & E2 & E3).
  split_and!; [|done..]. unfold mbuf_read_int. by rewrite E1.
Qed.

Lemma written_payload mb bs mb' :
  mbuf_wf mb → mbuf_wf mb' → written mb bs mb' →
  mbuf_wf (mbuf_set_pos mb' (mb_pos mb)) ∧
  payload (mbuf_set_pos mb' (mb_pos mb)) = bs ++ drop (length bs) (payload mb).
Proof.
  intros Hwf Hwf' (W1 & W2 & W3 & W4 & W5).
  pose proof Hwf as [(Hs & Hm & He & Hp & Hok) Hpe].
  split; [apply set_pos_wf; [done|lia..]|].
  rewrite !payload_bytes_at. simpl. rewrite W2.
  set (n := Z.of_nat (length bs)) in *.
  set (m := Z.max (mb_end mb) (mb_pos mb + n) - (mb_pos mb + n)).
  replace (Z.max _ _ - mb_pos mb) with (n + m) by lia.
  change (bytes_at (mbuf_set_pos mb' (mb_pos mb))) with (bytes_at mb').
  rewrite bytes_at_split, W4 by lia. f_equal.
  destruct (decide (m = 0)) as [Hm0|Hm0].
  - rewrite Hm0, drop_ge; [by unfold bytes_at|].
    rewrite bytes_at_length by (unfold data; lia). lia.
  - rewrite W5 by lia. unfold bytes_at.
    rewrite skipn_firstn_comm, drop_drop. do 2 f_equal; lia.
Qed.

(** A store that fits the allocation needs no memory and cannot fail. *)
Lemma mbuf_write_room (A : allocator) `{!allocator_ok A} mb bs :
  mbuf_inv mb → mb_pos mb + Z.of_nat (length bs) ≤ mb_size mb → bytes_ok bs →
  ∃ mb', mbuf_write_mem A mb (Some bs) = Ret (0, mb') ∧ mbuf_wf mb' ∧ written mb bs mb'.
Proof.
  intros Hinv Hroom Hok. pose proof Hinv as (Hs & Hm & He & Hp & Hb).
  destruct (mbuf_write_mem_run A mb bs) as [E|(mb' & E & H)]; [done|lia|done| |].
  - exfalso. unfold mbuf_write_mem in E.
    rewrite u64_id, bool_decide_eq_false_2 in E by (unfold max_alloc in *; lia). cbn in E.
    destruct (memcpy_to _ _ _); simplify_eq.
  - exists mb'. split; [done|]. apply H. right. lia.
Qed.

(** An allocator that grants every request of up to four gigabytes. *)
Definition plenty (A : allocator) : Prop := ∀ n, 0 ≤ n ≤ 2 ^ 32 → alloc_ok A n = true.

Lemma mbuf_write_plenty (A : allocator) `{!allocator_ok A} mb bs :
  plenty A → mbuf_inv mb → bytes_ok bs →
  mb_size mb ≤ 2 ^ 31 → mb_pos mb + Z.of_nat (length bs) ≤ 2 ^ 32 → bs ≠ [] →
  ∃ mb', mbuf_write_mem A mb (Some bs) = Ret (0, mb') ∧ mbuf_wf mb' ∧ written mb bs mb'.
Proof.
  intros HA Hinv Hok Hs Hp Hne. pose proof Hinv as (Hsz & Hm & He & Hp0 & Hb).
  assert (Hmax : max_alloc = 4611686018427387904) by reflexivity.
  destruct (mbuf_write_mem_run A mb bs) as [E|(mb' & E & H)]; [done|lia|done| |].
  - exfalso. unfold mbuf_write_mem, mbuf_resize in E. rewrite !u64_id in E by lia.
    rewrite HA in E by (unfold DEFAULT_SIZE; destruct (bool_decide (mb_size mb = 0)); lia).
    destruct (bool_decide (_ > _)); cbn in E; destruct (memcpy_to _ _ _); simplify_eq.
  - exists mb'. split; [done|]. apply H. by left.
Qed.

Lemma mbuf_alloc_plenty (A : allocator) `{!allocator_ok A} n :
  plenty A → 0 < n ≤ 2 ^ 31 →
  ∃ mb, mbuf_alloc A n = Some mb ∧ mbuf_wf mb ∧ mb_size mb = n ∧ mb_pos mb = 0 ∧ mb_end mb = 0.
Proof.
  intros HA Hn. unfold mbuf_alloc. rewrite HA by lia. rewrite (bool_decide_eq_false_2 (n = 0)) by lia.
  destruct (mbuf_resize_run A mbuf_init n) as [E|[Hm ->]].
  - apply (bool_decide_eq_true_1 _). vm_compute. done.
  - simpl. lia.
  - unfold mbuf_resize in E. rewrite HA in E by lia. simplify_eq.
  - rewrite bool_decide_eq_true_2 by done. eexists. split; [done|]. simpl. split_and!; try done.
    split; [|simpl; lia]. split_and!; simpl; try lia; try done.
    + rewrite length_replicate. lia.
    + apply Forall_replicate, junk_byte.
Qed.

Lemma written_pos mb bs mb' : written mb bs mb' → mb_pos mb' = mb_pos mb + Z.of_nat (length bs).
Proof. by intros (? & _). Qed.
Lemma written_size mb bs mb' : written mb bs mb' → mb_size mb ≤ mb_size mb'.
Proof. by intros (_ & _ & ? & _). Qed.

(** Consecutive stores are one store of the concatenation. *)
Lemma written_trans mb bs1 mb1 bs2 mb2 :
  mbuf_inv mb → mbuf_wf mb1 → written mb bs1 mb1 → written mb1 bs2 mb2 → written mb (bs1 ++ bs2) mb2.
Proof.
  intros (_ & _ & _ & Hp & _) [(_ & _ & He1 & _) Hpe1] (P1 & E1 & S1 & B1 & K1) (P2 & E2 & S2 & B2 & K2).
  unfold written. rewrite length_app, Nat2Z.inj_add. split_and!; [lia|lia|lia| |].
  - rewrite bytes_at_split by lia. f_equal; [|by rewrite <- P1].
    rewrite K2; [done|lia..].
  - intros i k Hi Hk Hik Hor. rewrite K2 by lia. apply K1; lia.
Qed.

(** What a reader sees after a store at the position [p]. *)
Lemma written_read mb bs mb' :
  mbuf_inv mb → mbuf_wf mb' → written mb bs mb' → mb_pos mb + Z.of_nat (length bs) ≤ mb_end mb →
  mbuf_wf (mbuf_set_pos mb' (mb_pos mb)) ∧
  payload (mbuf_set_pos mb' (mb_pos mb)) =
    bs ++ bytes_at mb (mb_pos mb + Z.of_nat (length bs)) (mb_end mb - mb_pos mb - Z.of_nat (length bs)).
Proof.
  intros (Hs & _ & He & Hp & _) Hwf' (W1 & W2 & W3 & W4 & W5) Hle.
  split; [apply set_pos_wf; (done || lia)|].
  rewrite payload_bytes_at. cbn [mbuf_set_pos mb_end mb_pos]. rewrite W2.
  change (bytes_at (mbuf_set_pos mb' (mb_pos mb))) with (bytes_at mb').
  replace (Z.max _ _ - mb_pos mb)
    with (Z.of_nat (length bs) + (mb_end mb - mb_pos mb - Z.of_nat (length bs))) by lia.
  rewrite bytes_at_split, W4 by lia. f_equal. apply W5; lia.
Qed.

Lemma htons_bytes a b : is_byte a → is_byte b → htons (a + 256 * b) = 256 * a + b.
Proof.
  unfold is_byte, htons. intros Ha Hb. rewrite u16_id by lia.
  change 255 with (2 ^ 8 - 1). bits_to_arith.
  replace ((a + 256 * b) `mod` 256) with a by (rewrite (Z.mul_comm 256), Z.mod_add, Z.mod_small; lia).
  replace ((a + 256 * b) / 256) with b
    by (rewrite (Z.mul_comm 256), Z.div_add, Z.div_small by lia; lia).
  rewrite (lor_disjoint_add 8); [lia|lia| |].
  - change (2 ^ 8) with 256. apply Z.mod_mul. lia.
  - change (2 ^ 8) with 256. lia.
Qed.

Lemma le_bytes_htons v : le_bytes 2 (htons v) = [u16 v / 256; u16 v `mod` 256].
Proof.
  pose proof (u16_range v). set (b := u16 v / 256). set (a := u16 v `mod` 256).
  assert (Ha : is_byte a) by (apply Z.mod_pos_bound; lia).
  assert (Hb : is_byte b).
  { split; [by apply Z.div_pos; lia|]. apply Z.div_lt_upper_bound; lia. }
  assert (Hv : htons v = b + 256 * a).
  { unfold htons. change 255 with (2 ^ 8 - 1). bits_to_arith.
    replace (v `mod` 256) with a by (unfold a, u16; apply Z.mod_mod_divide; by exists 256).
    change (u16 v / 256) with b. unfold is_byte in *.
    rewrite (lor_disjoint_add 8); [lia|lia|apply Z.mod_mul; lia|change (2 ^ 8) with 256; lia]. }
  rewrite Hv. cbn [le_bytes]. unfold is_byte in *.
  rewrite (Z.mul_comm 256), Z.mod_add, Z.mod_small by lia.
  rewrite Z.div_add, Z.div_small, Z.add_0_l by lia. by rewrite Z.mod_small by lia.
Qed.

(** Big-endian bytes, the order on the wire. *)
Definition be (n : nat) (v : Z) : list Z := reverse (le_bytes n v).
Definition be_value (l : list Z) : Z := le_value (reverse l).

#[global] Arguments be n v : simpl never.
#[global] Arguments be_value l : simpl never.

Lemma be_length n v : length (be n v) = n.
Proof. unfold be. by rewrite length_reverse, le_bytes_length. Qed.
Lemma be_ok n v : bytes_ok (be n v).
Proof. unfold be. apply Forall_reverse, le_bytes_ok. Qed.

Lemma be_value_be n v : 0 ≤ v < 256 ^ Z.of_nat n → be_value (be n v) = v.
Proof. intros. unfold be_value, be. rewrite reverse_involutive. by apply le_value_bytes. Qed.

Lemma htons_be v : le_bytes 2 (htons v) = be 2 (u16 v).
Proof.
  rewrite le_bytes_htons. pose proof (u16_range v). unfold be. cbn.
  rewrite (Z.mod_small (u16 v / 256)); [done|]. split; [by apply Z.div_pos; lia|].
  apply Z.div_lt_upper_bound; lia.
Qed.

Lemma ntohs_be bs : bytes_ok bs → length bs = 2%nat → ntohs (le_value bs) = be_value bs.
Proof.
  intros Hok Hl. destruct bs as [|a [|b [|]]]; try done.
  apply List.Forall_cons_iff in Hok as [Ha Hok]. apply List.Forall_cons_iff in Hok as [Hb _].
  unfold be_value. cbn. unfold ntohs. rewrite !Z.mul_0_r, !Z.add_0_r, htons_bytes by done. lia.
Qed.

Lemma htonl_be v : le_bytes 4 (htonl v) = be 4 v.
Proof.
  unfold htonl. change 4%nat with (length (reverse (le_bytes 4 v))) at 1.
  apply le_bytes_value. apply Forall_reverse, le_bytes_ok.
Qed.

Lemma ntohl_be bs : bytes_ok bs → length bs = 4%nat → ntohl (le_value bs) = be_value bs.
Proof. intros Hok Hl. unfold ntohl, htonl, be_value. by rewrite <- Hl, le_bytes_value. Qed.

(** ** Properties *)

(** Mbuf_write_mem on any buffer whose end lies in its allocation, at any
    position (also beyond the end, as after a direct store to mb->pos), never
    writes outside the allocation: it either fails with ENOMEM and leaves the
    buffer as it was, or stores exactly the given bytes at the position, keeps
    every other byte that was allocated, moves the position past them and the
    end with it, and leaves a well-formed buffer. *)
Theorem mbuf_write_mem_spec (A : allocator) `{!allocator_ok A} mb bs :
  mbuf_inv mb → bs ≠ [] → Z.of_nat (length bs) < max_alloc → bytes_ok bs →
  mbuf_write_mem A mb (Some bs) = Ret (ENOMEM, mb) ∨
  ∃ mb', mbuf_write_mem A mb (Some bs) = Ret (0, mb') ∧ mbuf_wf mb' ∧ written mb bs mb'.
Proof.
  intros Hinv Hne Hlen Hok.
  destruct (mbuf_write_mem_run A mb bs Hinv Hlen Hok) as [?|(mb' & E & H)]; [by left|].
  right. exists mb'. split; [done|]. apply H. by left.
Qed.

(** Mbuf_read_mem on a well-formed buffer never reads outside the allocation:
    a request for more than the bytes left fails with EOVERFLOW and leaves the
    buffer as it was, any other returns the next bytes in order, advances the
    position past them, leaves the rest to be read, and keeps the buffer
    well-formed. *)
Theorem mbuf_read_mem_spec mb n :
  mbuf_wf mb → 0 ≤ n →
  if decide (n ≤ mb_end mb - mb_pos mb) then
    ∃ bs mb', mbuf_read_mem mb n = Ret (0, bs, mb') ∧ mbuf_wf mb' ∧
      payload mb = bs ++ payload mb' ∧ Z.of_nat (length bs) = n
  else mbuf_read_mem mb n = Ret (EOVERFLOW, [], mb).
Proof.
  intros Hwf Hn. case_decide as Hle; [|by apply mbuf_read_mem_short; [|lia]].
  pose proof (payload_length mb Hwf) as Hl.
  set (bs := take (Z.to_nat n) (payload mb)).
  assert (Hbs : Z.of_nat (length bs) = n) by (subst bs; rewrite length_take; lia).
  destruct (payload_read mb Hwf bs (drop (Z.to_nat n) (payload mb))) as (E1 & E2 & E3).
  { unfold bs. by rewrite take_drop. }
  rewrite Hbs in *. eexists bs, _. rewrite E3. split_and!; [done|done| |done].
  unfold bs. by rewrite take_drop.
Qed.

(** A typed store, and the matching read. *)
Inductive wop := W8 (v : Z) | W16 (v : Z) | W32 (v : Z) | W64 (v : Z).
Definition wop_size (o : wop) : nat :=
  match o with W8 _ => 1 | W16 _ => 2 | W32 _ => 4 | W64 _ => 8 end%nat.
Definition wop_val (o : wop) : Z := match o with W8 v | W16 v | W32 v | W64 v => v end.
Definition wop_write (A : allocator) (o : wop) (mb : mbuf) : outcome (Z * mbuf) :=
  match o with
  | W8 v => mbuf_write_u8 A mb v
  | W16 v => mbuf_write_u16 A mb v
  | W32 v => mbuf_write_u32 A mb v
  | W64 v => mbuf_write_u64 A mb v
  end.
Definition wop_read (o : wop) : mbuf → outcome (Z * mbuf) :=
  match o with
  | W8 _ => mbuf_read_u8
  | W16 _ => mbuf_read_u16
  | W32 _ => mbuf_read_u32
  | W64 _ => mbuf_read_u64
  end.

Fixpoint write_all (A : allocator) (os : list wop) (mb : mbuf) : outcome (Z * mbuf) :=
  match os with
  | [] => Ret (0, mb)
  | o :: os' =>
      r ← wop_write A o mb;
      let '(err, mb1) := r in
      if bool_decide (err = 0) then write_all A os' mb1 else Ret (err, mb1)
  end.

Fixpoint read_all (os : list wop) (mb : mbuf) : outcome (list Z * mbuf) :=
  match os with
  | [] => Ret ([], mb)
  | o :: os' =>
      r ← wop_read o mb;
      let '(v, mb1) := r in
      r ← read_all os' mb1;
      let '(vs, mb2) := r in
      Ret (v :: vs, mb2)
  end.

Definition image (o : wop) : list Z := le_bytes (wop_size o) (wop_val o).

Lemma wop_write_image A o mb : wop_write A o mb = mbuf_write_mem A mb (Some (image o)).
Proof. by destruct o. Qed.
Lemma wop_read_int o : wop_read o = mbuf_read_int (wop_size o).
Proof. by destruct o. Qed.

Lemma le_value_bytes_wrap n v : le_value (le_bytes n v) = v `mod` 256 ^ Z.of_nat n.
Proof.
  revert v. induction n as [|n IH]; intros v; cbn [le_bytes le_value].
  - change (256 ^ Z.of_nat 0) with 1. by rewrite Z.mod_1_r.
  - rewrite IH, Nat2Z.inj_succ, Z.pow_succ_r by lia.
    rewrite Z.rem_mul_r by lia. done.
Qed.

Lemma read_all_run os mb rest :
  mbuf_wf mb → payload mb = concat (image <$> os) ++ rest →
  ∃ mb', read_all os mb = Ret ((λ o, wop_val o `mod` 256 ^ Z.of_nat (wop_size o)) <$> os, mb') ∧
         mbuf_wf mb' ∧ payload mb' = rest.
Proof.
  revert mb. induction os as [|o os IH]; intros mb Hwf E; cbn in *; [by exists mb|].
  rewrite <- app_assoc in E.
  destruct (payload_read_int mb (wop_size o) _ _ Hwf E) as (E1 & Hwf1 & E2);
    [apply le_bytes_length|].
  rewrite wop_read_int, E1. simpl.
  destruct (IH _ Hwf1 E2) as (mb' & E3 & Hwf' & E4). rewrite E3. simpl.
  exists mb'. split_and!; [|done..]. unfold image. by rewrite le_value_bytes_wrap.
Qed.

Lemma write_all_run (A : allocator) `{!allocator_ok A} os mb err mb' p :
  mbuf_wf mb → mb_pos mb = mb_end mb → 0 ≤ p ≤ mb_pos mb →
  write_all A os mb = Ret (err, mb') → err = 0 →
  mbuf_wf mb' ∧ mb_pos mb' = mb_end mb' ∧ p ≤ mb_pos mb' ∧
  payload (mbuf_set_pos mb' p) = payload (mbuf_set_pos mb p) ++ concat (image <$> os).
Proof.
  revert mb. induction os as [|o os IH]; intros mb Hwf Hpe Hp E Herr; cbn in *.
  { simplify_eq. rewrite app_nil_r. split_and!; try done; lia. }
  rewrite wop_write_image in E.
  destruct (mbuf_write_mem_spec A mb (image o)) as [E1|(mb1 & E1 & Hwf1 & Hw)];
    [by destruct Hwf|by destruct o| |apply le_bytes_ok|rewrite E1 in E; cbn in E; simplify_eq; done|].
  { unfold image. rewrite le_bytes_length. by destruct o. }
  rewrite E1 in E. cbn in E.
  pose proof Hw as (W1 & W2 & W3 & W4 & W5).
  pose proof Hwf as [(Hs & Hm & He & Hpp & Hok) _].
  destruct (IH mb1) as (H1 & H2 & H3 & H4); [done|lia|lia|done|done|].
  split_and!; [done..|]. rewrite H4, app_assoc. f_equal.
  rewrite !payload_bytes_at. simpl. rewrite W2.
  rewrite Z.max_r by lia.
  replace (mb_pos mb + Z.of_nat (length (image o)) - p)
    with ((mb_pos mb - p) + Z.of_nat (length (image o))) by lia.
  change (bytes_at (mbuf_set_pos mb1 p)) with (bytes_at mb1).
  change (bytes_at (mbuf_set_pos mb p)) with (bytes_at mb).
  rewrite bytes_at_split, W5 by lia. replace (p + (mb_pos mb - p)) with (mb_pos mb) by lia.
  by rewrite W4, Hpe.
Qed.

(** Any sequence of 8, 16, 32 and 64-bit integers appended to a well-formed
    buffer (and not refused by the allocator) is read back, from the position
    where writing started, as the same sequence of values, each modulo its
    width; the read never fails and consumes exactly what was written. *)
Theorem mbuf_ints_roundtrip (A : allocator) `{!allocator_ok A} os mb mb' :
  mbuf_wf mb → mb_pos mb = mb_end mb →
  write_all A os mb = Ret (0, mb') →
  ∃ mb'', read_all os (mbuf_set_pos mb' (mb_pos mb)) =
            Ret ((λ o, wop_val o `mod` 256 ^ Z.of_nat (wop_size o)) <$> os, mb'') ∧
          payload mb'' = [].
Proof.
  intros Hwf Hpe E. pose proof Hwf as [(_ & _ & _ & Hp & _) _].
  destruct (write_all_run A os mb 0 mb' (mb_pos mb)) as (H1 & H2 & H3 & H4); [done|done|lia|done|done|].
  destruct (read_all_run os (mbuf_set_pos mb' (mb_pos mb)) []) as (mb'' & E1 & _ & E2).
  - apply set_pos_wf; [done|lia..].
  - rewrite H4, app_nil_r. rewrite payload_bytes_at. simpl. rewrite Hpe, Z.sub_diag. done.
  - by exists mb''.
Qed.

(** *** Witnesses *)

Definition small_alloc : allocator := Allocator (λ n, bool_decide (0 ≤ n ≤ 4096)) 165.

#[export] Instance small_alloc_ok : allocator_ok small_alloc.
Proof.
  split; [|by vm_compute].
  intros n H. apply bool_decide_eq_true_1 in H. unfold max_alloc. lia.
Qed.

Definition big_alloc : allocator := Allocator (λ n, bool_decide (0 ≤ n ≤ 2 ^ 32)) 165.

#[export] Instance big_alloc_ok : allocator_ok big_alloc.
Proof. split; [|by split]. intros n. simpl. rewrite bool_decide_eq_true. unfold max_alloc. lia. Qed.

Lemma big_alloc_plenty : plenty big_alloc.
Proof. intros n Hn. by apply bool_decide_eq_true_2. Qed.

(** The state [rtpThread] writes from: position 12 in a buffer that was reset. *)
Lemma mbuf_write_mem_spec_witness :
  mbuf_write_mem small_alloc (mbuf_set_pos mbuf_init 12) (Some [1; 2; 3]) =
    Ret (ENOMEM, mbuf_set_pos mbuf_init 12) ∨
  ∃ mb', mbuf_write_mem small_alloc (mbuf_set_pos mbuf_init 12) (Some [1; 2; 3]) = Ret (0, mb') ∧
    mbuf_wf mb' ∧ written (mbuf_set_pos mbuf_init 12) [1; 2; 3] mb'.
Proof.
  apply (mbuf_write_mem_spec small_alloc);
    [by apply (bool_decide_eq_true_1 _); vm_compute|done|by vm_compute|by apply (bool_decide_eq_true_1 _); vm_compute].
Defined.

Lemma mbuf_read_mem_spec_witness :
  ∃ bs mb', mbuf_read_mem (Mb (Some [7; 8; 9; 0]) 4 1 3) 2 = Ret (0, bs, mb') ∧ mbuf_wf mb' ∧
    payload (Mb (Some [7; 8; 9; 0]) 4 1 3) = bs ++ payload mb' ∧ Z.of_nat (length bs) = 2.
Proof.
  apply (mbuf_read_mem_spec (Mb (Some [7; 8; 9; 0]) 4 1 3) 2);
    [by apply (bool_decide_eq_true_1 _); vm_compute|lia].
Defined.

Lemma mbuf_ints_roundtrip_witness :
  ∃ mb mb'', write_all small_alloc [W8 300; W16 513; W32 7] mbuf_init = Ret (0, mb) ∧
    read_all [W8 300; W16 513; W32 7] (mbuf_set_pos mb 0) = Ret ([44; 513; 7], mb'').
Proof.
  destruct (write_all small_alloc [W8 300; W16 513; W32 7] mbuf_init) as [[err mb]|] eqn:E;
    [|by vm_compute in E].
  assert (err = 0) as -> by (by vm_compute in E; simplify_eq).
  destruct (mbuf_ints_roundtrip small_alloc [W8 300; W16 513; W32 7] mbuf_init mb) as (mb'' & H & _);
    [by apply (bool_decide_eq_true_1 _); vm_compute|done|exact E|].
  exists mb, mb''. split; [done|exact H].
Defined.
