(* ===== verification/Fmt.v ===== *)
(** * Strings and pointer-length objects (re/src/fmt/pl.c, ch.c, str.c)

    A [struct pl] points into memory that may extend beyond its length, so the
    model keeps the bytes from the pointer to the end of the object it points
    into: a length that runs past them is an out-of-bounds read.  C strings are
    byte lists without their terminator; [None] is NULL.  The NULL guards on
    the [struct pl] pointer itself are not represented. *)
From stdpp Require Import base tactics list numbers strings option.
From S2P Require Import Prelude Mbuf.

Record pl := Pl { pl_p : option (list Z); pl_l : Z }.

Definition pl_null : pl := Pl None 0.

(** The bytes a [pl] denotes. *)
Definition pl_bytes (p : pl) : outcome (list Z) := memcpy_from (pl_p p) 0 (pl_l p).

(** ** pl.c *)

Definition pl_set_str (p : pl) (s : option (list Z)) : pl :=
  match s with None => p | Some s => Pl (Some s) (Z.of_nat (length s)) end.

Definition pl_set_mbuf (mb : mbuf) : pl :=
  Pl (drop (Z.to_nat (mb_pos mb)) <$> mb_buf mb) (mbuf_get_left mb).

(** The digit loop shared by the four conversions: [w] wraps the accumulator,
    the bytes come last to first. *)
Fixpoint num_loop (w : Z → Z) (base : Z) (dig : Z → option Z) (rbs : list Z) (v mul : Z) : Z :=
  match rbs with
  | [] => v
  | b :: rest =>
      match dig b with
      | None => 0
      | Some c => num_loop w base dig rest (w (v + w (mul * c))) (w (mul * base))
      end
  end.

Definition dec_digit (b : Z) : option Z :=
  let c := u8 (b - 48) in if bool_decide (c > 9) then None else Some c.

Definition hex_digit (ch : Z) : option Z :=
  if bool_decide (48 ≤ ch ∧ ch ≤ 57) then Some (ch - 48)
  else if bool_decide (65 ≤ ch ∧ ch ≤ 70) then Some (ch - 65 + 10)
  else if bool_decide (97 ≤ ch ∧ ch ≤ 102) then Some (ch - 97 + 10)
  else None.

Definition pl_num (w : Z → Z) (base : Z) (dig : Z → option Z) (p : pl) : outcome Z :=
  match pl_p p with
  | None => Ret 0
  | Some _ => bs ← pl_bytes p; Ret (num_loop w base dig (reverse bs) 0 1)
  end.

Definition pl_u32 : pl → outcome Z := pl_num u32 10 dec_digit.
Definition pl_x32 : pl → outcome Z := pl_num u32 16 hex_digit.
Definition pl_u64 : pl → outcome Z := pl_num u64 10 dec_digit.
Definition pl_x64 : pl → outcome Z := pl_num u64 16 hex_digit.

Definition pl_isset (p : pl) : bool :=
  match pl_p p with Some _ => negb (bool_decide (pl_l p = 0)) | None => false end.

(** [pl_strcpy] into a buffer of [size] bytes: the bytes stored. *)
Definition pl_strcpy (p : pl) (size : Z) : outcome (Z * list Z) :=
  match pl_p p with
  | None => Ret (EINVAL, [])
  | Some _ =>
      if bool_decide (size = 0) then Ret (EINVAL, [])
      else
        bs ← memcpy_from (pl_p p) 0 (Z.min (pl_l p) (size - 1));
        Ret (0, bs ++ [0])
  end.

Definition pl_strdup (A : allocator) (p : pl) : outcome (Z * option (list Z)) :=
  match pl_p p with
  | None => Ret (EINVAL, None)
  | Some _ =>
      if alloc_ok A (u64 (pl_l p + 1)) then bs ← pl_bytes p; Ret (0, Some bs)
      else Ret (ENOMEM, None)
  end.

Definition pl_dup (A : allocator) (p : pl) : outcome (Z * option pl) :=
  match pl_p p with
  | None => Ret (EINVAL, None)
  | Some _ =>
      if alloc_ok A (pl_l p) then bs ← pl_bytes p; Ret (0, Some (Pl (Some bs) (pl_l p)))
      else Ret (ENOMEM, None)
  end.

Definition tolower (b : Z) : Z := if bool_decide (65 ≤ b ∧ b ≤ 90) then b + 32 else b.

(** [pl_cmp]: equal pointers are represented by both being NULL; for equal
    pointers into the same object [memcmp] gives the same answer. *)
Definition pl_cmp_with (key : Z → Z) (p1 p2 : pl) : outcome Z :=
  if negb (bool_decide (pl_l p1 = pl_l p2)) then Ret EINVAL
  else if bool_decide (pl_l p1 = 0) then Ret 0
  else match pl_p p1, pl_p p2 with
  | None, None => Ret 0
  | _, _ =>
      b1 ← pl_bytes p1;
      b2 ← pl_bytes p2;
      Ret (if bool_decide (map key b1 = map key b2) then 0 else EINVAL)
  end.

Definition pl_cmp : pl → pl → outcome Z := pl_cmp_with id.
Definition pl_casecmp : pl → pl → outcome Z := pl_cmp_with tolower.

Definition pl_strcmp (p : pl) (s : option (list Z)) : outcome Z :=
  match s with None => Ret EINVAL | Some _ => pl_cmp p (pl_set_str pl_null s) end.
Definition pl_strcasecmp (p : pl) (s : option (list Z)) : outcome Z :=
  match s with None => Ret EINVAL | Some _ => pl_casecmp p (pl_set_str pl_null s) end.

(** [pl_strchr]: the offset of the first occurrence from the pointer. *)
Fixpoint find_byte (c : Z) (bs : list Z) (i : Z) : option Z :=
  match bs with
  | [] => None
  | b :: r => if bool_decide (b = c) then Some i else find_byte c r (i + 1)
  end.

Definition pl_strchr (p : pl) (c : Z) : outcome (option Z) :=
  match pl_p p with
  | None => if bool_decide (pl_l p = 0) then Ret None else Fault NullDeref
  | Some mem =>
      match find_byte c (take (Z.to_nat (pl_l p)) mem) 0 with
      | Some i => Ret (Some i)
      | None => if bool_decide (pl_l p ≤ Z.of_nat (length mem)) then Ret None else Fault OutOfBounds
      end
  end.

(** ** ch.c and str.c *)

Definition ch_hex (ch : Z) : Z := default 0 (hex_digit ch).

Fixpoint str_hex_loop (s : list Z) : list Z :=
  match s with
  | a :: b :: r => u8 (u8 (Z.shiftl (ch_hex a) 4) + ch_hex b) :: str_hex_loop r
  | _ => []
  end.

Definition str_hex (len : Z) (s : option (list Z)) : Z * list Z :=
  match s with
  | None => (EINVAL, [])
  | Some s =>
      if bool_decide (Z.of_nat (length s) ≠ 2 * len) then (EINVAL, []) else (0, str_hex_loop s)
  end.

(** [str_ncpy]: the [n] bytes of the destination afterwards ([strncpy] pads
    with zeros). *)
Definition str_ncpy (dst : list Z) (src : option (list Z)) (n : nat) : list Z :=
  match src, n with
  | None, _ | _, O => dst
  | Some s, S m => resize m 0 s ++ [0]
  end.

Definition str_dup (A : allocator) (s : option (list Z)) : Z * option (list Z) :=
  match s with
  | None => (EINVAL, None)
  | Some s => if alloc_ok A (Z.of_nat (length s) + 1) then (0, Some s) else (ENOMEM, None)
  end.

(** [strcasecmp] of the C library. *)
Fixpoint strcasecmp (a b : list Z) : Z :=
  match a, b with
  | [], [] => 0
  | [], y :: _ => - tolower y
  | x :: _, [] => tolower x
  | x :: a', y :: b' =>
      if bool_decide (tolower x = tolower y) then strcasecmp a' b' else tolower x - tolower y
  end.

Definition str_casecmp (s1 s2 : option (list Z)) : Z :=
  match s1, s2 with
  | None, None => 0
  | Some a, Some b => strcasecmp a b
  | _, _ => 1
  end.

Definition str_len (s : option (list Z)) : Z :=
  match s with None => 0 | Some s => Z.of_nat (length s) end.

(** ** Number conversion *)

(** The value of digits given most significant first. *)
Definition digits_value (base : Z) (ds : list Z) : Z := foldl (λ v d, v * base + d) 0 ds.

Section num.
Context (m : Z) (Hm : 0 < m) (base : Z) (dig : Z → option Z).
Let w z := z `mod` m.

Lemma num_loop_value rbs : ∀ v mul ds,
  mapM dig rbs = Some ds →
  num_loop w base dig rbs (w v) (w mul) =
    w (v + mul * foldr (λ d acc, d + base * acc) 0 ds).
Proof.
  intros v mul ds E%mapM_Some. revert v mul.
  induction E as [|b c rbs ds Hb _ IH]; intros v mul; cbn.
  { by rewrite Z.mul_0_r, Z.add_0_r. }
  rewrite Hb.
  replace (w (w v + w (w mul * c))) with (w (v + mul * c))
    by (unfold w; by rewrite Zmult_mod_idemp_l, Zplus_mod_idemp_l, Zplus_mod_idemp_r).
  replace (w (w mul * base)) with (w (mul * base)) by (unfold w; by rewrite Zmult_mod_idemp_l).
  rewrite IH. f_equal. ring.
Qed.

Lemma num_loop_bad rbs v mul :
  mapM dig rbs = None → num_loop w base dig rbs v mul = 0.
Proof.
  rewrite mapM_None. intros E. revert v mul.
  induction E as [b rbs Hb|b rbs _ IH]; intros v mul; cbn; [by rewrite Hb|].
  by destruct (dig b).
Qed.
End num.

Lemma foldr_digits_value base ds :
  foldr (λ d acc, d + base * acc) 0 (reverse ds) = digits_value base ds.
Proof.
  unfold digits_value. induction ds as [|d ds IH] using rev_ind; [done|].
  rewrite reverse_app, foldl_app. cbn. rewrite IH. ring.
Qed.

Lemma mapM_reverse (dig : Z → option Z) bs ds :
  mapM dig bs = Some ds → mapM dig (reverse bs) = Some (reverse ds).
Proof.
  rewrite !mapM_Some. apply Forall2_reverse.
Qed.

Lemma mapM_reverse_None (dig : Z → option Z) bs :
  mapM dig bs = None → mapM dig (reverse bs) = None.
Proof.
  intros E. destruct (mapM dig (reverse bs)) as [ds|] eqn:E'; [|done].
  apply mapM_reverse in E'. rewrite reverse_involutive in E'. congruence.
Qed.

Lemma pl_bytes_run bs rest :
  pl_bytes (Pl (Some (bs ++ rest)) (Z.of_nat (length bs))) = Ret bs.
Proof.
  unfold pl_bytes. simpl. rewrite memcpy_from_run by (rewrite ?length_app; lia).
  rewrite drop_0, Nat2Z.id, take_app_length. done.
Qed.

Lemma pl_num_run m base dig bs rest :
  1 < m →
  pl_num (λ z, z `mod` m) base dig (Pl (Some (bs ++ rest)) (Z.of_nat (length bs))) =
  Ret (match mapM dig bs with Some ds => digits_value base ds `mod` m | None => 0 end).
Proof.
  intros Hm. unfold pl_num. simpl. rewrite pl_bytes_run. simpl. f_equal.
  destruct (mapM dig bs) as [ds|] eqn:E.
  - pose proof (num_loop_value m base dig _ 0 1 _ (mapM_reverse _ _ _ E)) as H.
    rewrite foldr_digits_value, Z.mul_1_l, Z.add_0_l, (Z.mod_small 1), Z.mod_0_l in H by lia.
    exact H.
  - by apply num_loop_bad, mapM_reverse_None.
Qed.

(** A pointer compared with a string. *)
Lemma strcmp_known z r s : ∃ e, pl_strcmp (Pl (Some (z ++ r)) (Z.of_nat (length z))) (Some s) = Ret e ∧ (e = 0 ↔ z = s).
Proof.
  unfold pl_strcmp, pl_cmp, pl_cmp_with. cbn [pl_set_str pl_p pl_l].
  assert (Hs : pl_bytes (Pl (Some s) (Z.of_nat (length s))) = Ret s).
  { pose proof (pl_bytes_run s []) as Hb. by rewrite app_nil_r in Hb. }
  case_bool_decide as H1; cbn [negb].
  2: { eexists. split; [done|]. split; [done|]. intros ->. by destruct H1. }
  case_bool_decide as H2.
  { eexists. split; [done|]. split; [|done]. intros _. destruct z, s; simpl in *; (done || lia). }
  rewrite pl_bytes_run, Hs. cbn [mbind outcome_bind]. eexists. split; [done|]. rewrite !map_id. by case_bool_decide.
Qed.

(** The [pl] of a string literal. *)
Definition pl_of (s : string) : pl := Pl (Some (bytes_of s)) (Z.of_nat (String.length s)).

(** A [pl] that denotes [bs]. *)
Definition views (p : pl) (bs : list Z) : Prop := ∃ rest, p = Pl (Some (bs ++ rest)) (Z.of_nat (length bs)).

(** ** Properties *)

(** The four numeric conversions of a pointer-length object that lies in
    its memory return the value of its digits, most significant first, modulo
    2^32 or 2^64, and 0 as soon as one byte is not a digit of the base
    (the empty string is 0); no byte outside the object is read. *)
Theorem pl_num_spec bs rest :
  let p := Pl (Some (bs ++ rest)) (Z.of_nat (length bs)) in
  let value base dig m :=
    match mapM dig bs with Some ds => digits_value base ds `mod` m | None => 0 end in
  pl_u32 p = Ret (value 10 dec_digit (2 ^ 32)) ∧
  pl_u64 p = Ret (value 10 dec_digit (2 ^ 64)) ∧
  pl_x32 p = Ret (value 16 hex_digit (2 ^ 32)) ∧
  pl_x64 p = Ret (value 16 hex_digit (2 ^ 64)).
Proof. split_and!; apply pl_num_run; lia. Qed.

(** A pointer-length object inside its memory. *)
Definition pl_wf (p : pl) : Prop :=
  match pl_p p with
  | None => pl_l p = 0
  | Some mem => 0 ≤ pl_l p ≤ Z.of_nat (length mem)
  end.

(** Pl_strcpy never reads outside the source nor writes more than the
    destination's size: it copies the longest prefix that leaves room for the
    terminator, and always terminates the string; a NULL source or an empty
    destination is refused with EINVAL. *)
Theorem pl_strcpy_spec p size :
  pl_wf p → 0 ≤ size →
  ∃ err out, pl_strcpy p size = Ret (err, out) ∧ Z.of_nat (length out) ≤ size ∧
    (err = EINVAL ∧ out = [] ∧ (pl_p p = None ∨ size = 0) ∨
     err = 0 ∧ out = take (Z.to_nat (Z.min (pl_l p) (size - 1))) (default [] (pl_p p)) ++ [0]).
Proof.
  unfold pl_wf, pl_strcpy. intros Hwf Hs. destruct (pl_p p) as [mem|].
  - case_bool_decide; [subst; eexists _, _; split_and!; [done|done|]; left; auto|].
    rewrite memcpy_from_run by lia. simpl. eexists _, _; split_and!; [done| |by right; rewrite drop_0].
    rewrite drop_0, length_app, length_take. simpl. lia.
  - eexists _, _; split_and!; [done|done|]. left. auto.
Qed.

Lemma pl_strcpy_spec_witness :
  ∃ err out, pl_strcpy (Pl (Some [104; 101; 108; 108; 111]) 5) 4 = Ret (err, out) ∧
    Z.of_nat (length out) ≤ 4 ∧
    (err = EINVAL ∧ out = [] ∧ (Some [104; 101; 108; 108; 111] = None ∨ 4 = 0) ∨
     err = 0 ∧ out = [104; 101; 108; 0]).
Proof. apply (pl_strcpy_spec (Pl (Some [104; 101; 108; 108; 111]) 5) 4); [unfold pl_wf; simpl; lia | lia]. Defined.
