(* ===== verification/Base64.v ===== *)
(** * Base-64 (re/src/base64/b64.c)

    The encoder and the decoder with the buffer each writes into: storing past
    the [*olen] bytes the caller gave, or reading past the [ilen] bytes of the
    input, is a fault.  The NULL guards are not represented. *)
From stdpp Require Import base tactics list numbers strings option.
From S2P Require Import Prelude.

Definition b64_table : list Z :=
  bytes_of "ABCDEFGHIJKLMNOPQRSTUVWXYZabcdefghijklmnopqrstuvwxyz0123456789+/"%string.

Definition b64_char (i : Z) : Z := default 0 (b64_table !! Z.to_nat i).

Definition equals_sign : Z := 61.

(** One iteration of the encoder on the 24-bit word [v]. *)
Definition enc_group (v pad : Z) : list Z :=
  [ b64_char (Z.land (Z.shiftr v 18) 63);
    b64_char (Z.land (Z.shiftr v 12) 63);
    if bool_decide (2 ≤ pad) then equals_sign else b64_char (Z.land (Z.shiftr v 6) 63);
    if bool_decide (1 ≤ pad) then equals_sign else b64_char (Z.land (Z.shiftr v 0) 63) ].

Fixpoint enc_loop (bs : list Z) : list Z :=
  match bs with
  | [] => []
  | [a] => enc_group (Z.shiftl a 16) 2
  | [a; b] => enc_group (Z.lor (Z.shiftl a 16) (Z.shiftl b 8)) 1
  | a :: b :: c :: r => enc_group (Z.lor (Z.lor (Z.shiftl a 16) (Z.shiftl b 8)) c) 0 ++ enc_loop r
  end.

(** The caller's buffer has [olen] bytes. *)
Definition store_out (olen : Z) (out : list Z) : outcome (Z * list Z) :=
  if bool_decide (Z.of_nat (length out) ≤ olen) then Ret (0, out) else Fault OutOfBounds.

Definition base64_encode (inp : list Z) (olen : Z) : outcome (Z * list Z) :=
  if bool_decide (olen < u64 (Z.of_nat (length inp) * 4) / 3) then Ret (EOVERFLOW, [])
  else store_out olen (enc_loop inp).

Definition b64val (c : Z) : Z :=
  if bool_decide (65 ≤ c ∧ c ≤ 90) then c - 65 + 0
  else if bool_decide (97 ≤ c ∧ c ≤ 122) then c - 97 + 26
  else if bool_decide (48 ≤ c ∧ c ≤ 57) then c - 48 + 52
  else if bool_decide (43 = c) then 62
  else if bool_decide (47 = c) then 63
  else if bool_decide (61 = c) then Z.shiftl 1 24
  else 0.

(** One iteration of the decoder on its four characters. *)
Definition dec_group (c1 c2 c3 c4 : Z) : list Z :=
  let v := Z.lor (Z.lor (Z.lor (u32 (Z.shiftl (b64val c1) 18)) (u32 (Z.shiftl (b64val c2) 12)))
                        (u32 (Z.shiftl (b64val c3) 6))) (b64val c4) in
  u8 (Z.shiftr v 16) ::
  (if bool_decide (Z.land v (Z.shiftl 1 30) = 0) then [Z.land (Z.shiftr v 8) 255] else []) ++
  (if bool_decide (Z.land v (Z.shiftl 1 24) = 0) then [Z.land (Z.shiftr v 0) 255] else []).

(** The four [*in++] of an iteration read past the end of an input whose
    length is not a multiple of four. *)
Fixpoint dec_loop (cs : list Z) : outcome (list Z) :=
  match cs with
  | [] => Ret []
  | c1 :: c2 :: c3 :: c4 :: r => rest ← dec_loop r; Ret (dec_group c1 c2 c3 c4 ++ rest)
  | _ => Fault OutOfBounds
  end.

Definition base64_decode (inp : list Z) (olen : Z) : outcome (Z * list Z) :=
  if bool_decide (olen < u64 (Z.of_nat (length inp) * 3) / 4) then Ret (EOVERFLOW, [])
  else out ← dec_loop inp; store_out olen out.

(** ** Lemmas *)

Lemma b64val_char i : 0 ≤ i < 64 → b64val (b64_char i) = i.
Proof.
  intros Hi.
  assert (H : Forall (λ i, b64val (b64_char i) = i) (seqZ 0 64)).
  { apply (bool_decide_eq_true_1 _). vm_compute. reflexivity. }
  rewrite List.Forall_forall in H. apply H, list_elem_of_In, elem_of_seqZ. lia.
Qed.

Lemma land63_range v : 0 ≤ Z.land v 63 < 64.
Proof. change 63 with (Z.ones 6). rewrite Z.land_ones by lia. apply Z.mod_pos_bound. lia. Qed.

Lemma b64val_enc v : b64val (b64_char (Z.land v 63)) = Z.land v 63.
Proof. apply b64val_char, land63_range. Qed.

Lemma byte_bits a : is_byte a → a = Z.land a 255.
Proof. intros H. change 255 with (Z.ones 8). rewrite Z.land_ones, Z.mod_small; unfold is_byte in H; lia. Qed.

Lemma u32_shift_small v k : 0 ≤ v < 64 → 0 ≤ k ≤ 18 → u32 (Z.shiftl v k) = Z.shiftl v k.
Proof.
  intros Hv Hk. rewrite Z.shiftl_mul_pow2 by lia. apply u32_id.
  assert (2 ^ k ≤ 2 ^ 18) by (apply Z.pow_le_mono_r; lia).
  assert (0 < 2 ^ k) by (apply Z.pow_pos_nonneg; lia). change (2 ^ 18) with 262144 in *. nia.
Qed.

(** The four sextets of a 24-bit word put it together again. *)
Lemma sextets v : 0 ≤ v < 2 ^ 24 →
  Z.lor (Z.lor (Z.lor (Z.shiftl (Z.land (Z.shiftr v 18) 63) 18) (Z.shiftl (Z.land (Z.shiftr v 12) 63) 12))
               (Z.shiftl (Z.land (Z.shiftr v 6) 63) 6)) (Z.land (Z.shiftr v 0) 63) = v.
Proof.
  intros Hv. change 63 with (2 ^ 6 - 1). bits_to_arith.
  rewrite (lor_disjoint_add 18 (_ * 262144)), (lor_disjoint_add 12 (_ + _)), (lor_disjoint_add 6 (_ + _));
    change (2 ^ 18) with 262144; change (2 ^ 12) with 4096; change (2 ^ 6) with 64;
    Z.div_mod_to_equations; lia.
Qed.

Lemma b64val_equals : b64val equals_sign = 2 ^ 24.
Proof. reflexivity. Qed.

Ltac sextet_args := rewrite ?u32_shift_small by (first [apply land63_range | lia]).

Lemma dec_group_word v flags :
  0 ≤ v < 2 ^ 24 → flags = 0 ∨ flags = 2 ^ 24 ∨ flags = 2 ^ 30 + 2 ^ 24 →
  let w := Z.lor v flags in
  u8 (Z.shiftr w 16) = v / 65536 ∧ Z.land (Z.shiftr w 8) 255 = (v / 256) `mod` 256 ∧
  Z.land (Z.shiftr w 0) 255 = v `mod` 256 ∧
  Z.testbit w 30 = Z.odd (flags / 2 ^ 30) ∧ Z.testbit w 24 = Z.odd (flags / 2 ^ 24).
Proof.
  intros Hv Hf w. assert (Hw : w = flags + v).
  { unfold w. rewrite Z.lor_comm. apply (lor_disjoint_add 24); [lia| |done].
    by destruct Hf as [->|[->| ->]]. }
  rewrite !testbit_div, Hw by lia. change 255 with (2 ^ 8 - 1). bits_to_arith. unfold u8.
  change (2 ^ 30) with 1073741824 in *.
  split_and!; try (destruct Hf as [->|[->| ->]]; Z.div_mod_to_equations; lia).
  - f_equal. destruct Hf as [->|[->| ->]]; Z.div_mod_to_equations; lia.
  - f_equal. destruct Hf as [->|[->| ->]]; Z.div_mod_to_equations; lia.
Qed.

(** A group of the decoder undoes a group of the encoder. *)
Lemma dec_enc_group v pad :
  0 ≤ v < 2 ^ 24 → pad = 0 ∨ pad = 1 ∧ v `mod` 256 = 0 ∨ pad = 2 ∧ v `mod` 65536 = 0 →
  let flags := if bool_decide (1 ≤ pad) then (if bool_decide (2 ≤ pad) then 2 ^ 30 + 2 ^ 24 else 2 ^ 24) else 0 in
  match enc_group v pad with
  | [c1; c2; c3; c4] =>
      Z.lor (Z.lor (Z.lor (u32 (Z.shiftl (b64val c1) 18)) (u32 (Z.shiftl (b64val c2) 12)))
                   (u32 (Z.shiftl (b64val c3) 6))) (b64val c4) = Z.lor v flags
  | _ => False
  end.
Proof.
  intros Hv Hp. unfold enc_group. pose proof (sextets v Hv) as Hs.
  assert (H0 : 1 ≤ pad → Z.land (Z.shiftr v 0) 63 = 0).
  { intros Hpad. change 63 with (2 ^ 6 - 1). bits_to_arith. Z.div_mod_to_equations; lia. }
  assert (H6 : 2 ≤ pad → Z.land (Z.shiftr v 6) 63 = 0).
  { intros Hpad. change 63 with (2 ^ 6 - 1). bits_to_arith. Z.div_mod_to_equations; lia. }
  destruct Hp as [->|[[-> _]|[-> _]]]; cbn zeta; decide_bools;
    rewrite ?b64val_equals, !b64val_enc, ?u32_shift_small by (first [apply land63_range | lia]).
  - by rewrite Hs, Z.lor_0_r.
  - rewrite H0, Z.lor_0_r in Hs by lia. by rewrite Hs.
  - rewrite H0, H6, Z.shiftl_0_l, !Z.lor_0_r in Hs by lia. rewrite Hs, <- Z.lor_assoc. done.
Qed.

Lemma dec_loop_enc_group v pad r :
  0 ≤ v < 2 ^ 24 → pad = 0 ∨ pad = 1 ∧ v `mod` 256 = 0 ∨ pad = 2 ∧ v `mod` 65536 = 0 →
  dec_loop (enc_group v pad ++ r) =
    (rest ← dec_loop r;
     Ret ((v / 65536 :: (if bool_decide (2 ≤ pad) then [] else [(v / 256) `mod` 256]) ++
           (if bool_decide (1 ≤ pad) then [] else [v `mod` 256])) ++ rest)).
Proof.
  intros Hv Hp. pose proof (dec_enc_group v pad Hv Hp) as Hg.
  destruct (enc_group v pad) as [|c1 [|c2 [|c3 [|c4 [|]]]]]; try done.
  cbn [app dec_loop]. unfold dec_group. cbn zeta. rewrite Hg, !land_bit_testbit by lia.
  set (flags := if bool_decide (1 ≤ pad) then (if bool_decide (2 ≤ pad) then 2 ^ 30 + 2 ^ 24 else 2 ^ 24) else 0).
  destruct (dec_group_word v flags Hv) as (E1 & E2 & E3 & E4 & E5).
  { unfold flags. repeat case_bool_decide; auto. }
  rewrite E1, E2, E3, E4, E5. unfold flags.
  destruct Hp as [->|[[-> _]|[-> _]]]; done.
Qed.

Lemma enc_word_range a b c :
  is_byte a → is_byte b → is_byte c →
  Z.lor (Z.lor (Z.shiftl a 16) (Z.shiftl b 8)) c = a * 65536 + b * 256 + c.
Proof.
  unfold is_byte. intros. bits_to_arith.
  rewrite (lor_disjoint_add 16 (a * 65536)), (lor_disjoint_add 8 (_ + _));
    change (2 ^ 16) with 65536; change (2 ^ 8) with 256; Z.div_mod_to_equations; lia.
Qed.

(** Recursion by groups of three bytes. *)
Lemma list_ind3 {A} (P : list A → Prop) :
  P [] → (∀ a, P [a]) → (∀ a b, P [a; b]) → (∀ a b c r, P r → P (a :: b :: c :: r)) → ∀ l, P l.
Proof.
  intros H0 H1 H2 H3.
  fix IH 1. intros [|a [|b [|c r]]]; [apply H0|apply H1|apply H2|apply H3, IH].
Qed.

Lemma dec_loop_enc_loop bs : bytes_ok bs → dec_loop (enc_loop bs) = Ret bs.
Proof.
  induction bs as [|a|a b|a b c r IH] using list_ind3; intros Hok; [done|..];
    unfold bytes_ok in *; repeat match goal with
      H : Forall is_byte (_ :: _) |- _ => apply List.Forall_cons_iff in H as [? H] end.
  - change (enc_loop [a]) with (enc_group (Z.shiftl a 16) 2).
    pose proof (enc_word_range a 0 0) as Hw. rewrite Z.shiftl_0_l, !Z.lor_0_r in Hw.
    rewrite Hw by (done || by vm_compute). unfold is_byte in *.
    rewrite <- (app_nil_r (enc_group _ _)), dec_loop_enc_group by (change (2 ^ 24) with 16777216; Z.div_mod_to_equations; lia).
    decide_bools. cbn -[Z.div Z.modulo]. repeat f_equal; Z.div_mod_to_equations; lia.
  - change (enc_loop [a; b]) with (enc_group (Z.lor (Z.shiftl a 16) (Z.shiftl b 8)) 1).
    pose proof (enc_word_range a b 0) as Hw. rewrite Z.lor_0_r in Hw.
    rewrite Hw by (done || by vm_compute). unfold is_byte in *.
    rewrite <- (app_nil_r (enc_group _ _)), dec_loop_enc_group by (change (2 ^ 24) with 16777216; Z.div_mod_to_equations; lia).
    decide_bools. cbn -[Z.div Z.modulo]. repeat f_equal; Z.div_mod_to_equations; lia.
  - cbn [enc_loop]. rewrite enc_word_range by done. unfold is_byte in *.
    rewrite dec_loop_enc_group by (change (2 ^ 24) with 16777216; Z.div_mod_to_equations; lia).
    rewrite IH by done. decide_bools. cbn -[Z.div Z.modulo].
    repeat f_equal; Z.div_mod_to_equations; lia.
Qed.

Lemma enc_loop_length bs : Z.of_nat (length (enc_loop bs)) = 4 * ((Z.of_nat (length bs) + 2) / 3).
Proof.
  induction bs as [|a|a b|a b c r IH] using list_ind3; [done..|].
  cbn [enc_loop]. rewrite length_app, Nat2Z.inj_add, IH. cbn [length enc_group].
  replace (Z.of_nat (S (S (S (length r)))) + 2) with (1 * 3 + (Z.of_nat (length r) + 2)) by lia.
  rewrite Z.div_add_l by lia. lia.
Qed.

(** ** Properties *)

(** With an output buffer of four characters per started group of three
    bytes, base64_encode succeeds, writes exactly that many characters, and
    base64_decode with room for the original bytes returns them unchanged. *)
Theorem base64_roundtrip bs olen olen' :
  bytes_ok bs → Z.of_nat (length bs) < 2 ^ 60 →
  4 * ((Z.of_nat (length bs) + 2) / 3) ≤ olen →
  3 * ((Z.of_nat (length bs) + 2) / 3) ≤ olen' →
  ∃ cs, base64_encode bs olen = Ret (0, cs) ∧
    Z.of_nat (length cs) = 4 * ((Z.of_nat (length bs) + 2) / 3) ∧
    base64_decode cs olen' = Ret (0, bs).
Proof.
  intros Hok Hlen H1 H2. change (2 ^ 60) with 1152921504606846976 in Hlen.
  exists (enc_loop bs). pose proof (enc_loop_length bs) as Hl.
  unfold base64_encode, base64_decode, store_out.
  rewrite (u64_id (Z.of_nat (length bs) * 4)), (u64_id (_ * 3)) by (Z.div_mod_to_equations; lia).
  rewrite !bool_decide_eq_false_2 by (Z.div_mod_to_equations; lia).
  rewrite bool_decide_eq_true_2 by lia. split_and!; [done|done|].
  rewrite dec_loop_enc_loop by done. simpl. unfold store_out.
  by rewrite bool_decide_eq_false_2, bool_decide_eq_true_2 by (Z.div_mod_to_equations; lia).
Qed.

Lemma base64_roundtrip_witness :
  ∃ cs, base64_encode [77; 97; 110; 33] 8 = Ret (0, cs) ∧ Z.of_nat (length cs) = 8 ∧
    base64_decode cs 6 = Ret (0, [77; 97; 110; 33]).
Proof.
  apply (base64_roundtrip [77; 97; 110; 33] 8 6);
    [by apply (bool_decide_eq_true_1 _); vm_compute|by vm_compute|by vm_compute|by vm_compute].
Defined.

(** The encoder's size check (olen at least 4/3 of the input length, rounded
    down) is too weak: for every input whose length is not a multiple of three
    and an output buffer of exactly the size the check asks for, the encoder
    passes the check and stores past the end of the buffer. *)
Theorem base64_encode_overflow bs :
  Z.of_nat (length bs) < 2 ^ 60 → Z.of_nat (length bs) `mod` 3 ≠ 0 →
  base64_encode bs (Z.of_nat (length bs) * 4 / 3) = Fault OutOfBounds.
Proof.
  intros Hlen Hm. change (2 ^ 60) with 1152921504606846976 in Hlen.
  unfold base64_encode, store_out. rewrite u64_id by lia.
  rewrite bool_decide_eq_false_2 by lia. rewrite enc_loop_length, bool_decide_eq_false_2; [done|].
  Z.div_mod_to_equations; lia.
Qed.

Lemma base64_encode_overflow_witness : base64_encode [77] 1 = Fault OutOfBounds.
Proof. apply (base64_encode_overflow [77]); [by vm_compute|by vm_compute]. Defined.
