(* ===== verification/Print.v ===== *)
(** * Formatted printing (re/src/fmt/print.c)

    [re_vhprintf] interprets a format over a list of variadic arguments and
    hands the text to a print handler, chunk by chunk; the two handlers are the
    bounded buffer of [re_snprintf] and the growing buffer of [re_sdprintf].
    A conversion whose argument is missing or of another kind is the [VarArg]
    fault.  The floating-point conversions (%f, %F) are not modelled: a format
    that uses them is the [VarArg] fault as well. *)
From stdpp Require Import base tactics list numbers strings option pretty.
From S2P Require Import Prelude Mbuf Fmt.

(** What printing a socket address needs: the text [sa_ntop] yields (or its
    failure), the port and the family. *)
Record sockaddr := SockAddr { sa_text : option (list Z); sa_port : Z; sa_v6 : bool }.

(** A variadic argument.  [VHandler] is a print handler with its argument,
    named by a number the section's [ph] interprets. *)
Inductive varg :=
  | VInt (z : Z)
  | VStr (s : option (list Z))
  | VPl (p : option pl)
  | VPtr (z : Z)
  | VSa (s : option sockaddr)
  | VHandler (h : option positive)
  | VList (args : option (list varg)).

Definition chr (s : string) : Z := match s with String c _ => char_of c | EmptyString => 0 end.

(** ** local_itoa *)

Definition NUM_SIZE : nat := 64.

Definition digit_char (uc : bool) (c : Z) : Z :=
  if bool_decide (c < 10) then chr "0" + c else (if uc then chr "A" else chr "a") + (c - 10).

(** Fills the buffer backwards; [room] bytes are left before its start. *)
Fixpoint itoa_loop (room : nat) (n base : Z) (uc : bool) (acc : list Z) : outcome (list Z) :=
  match room with
  | O => Fault OutOfBounds
  | S room' =>
      let dv := n / base in
      let acc' := digit_char uc (n - dv * base) :: acc in
      if bool_decide (dv = 0) then Ret acc' else itoa_loop room' dv base uc acc'
  end.

Definition local_itoa (n base : Z) (uc : bool) : outcome (list Z) :=
  itoa_loop (NUM_SIZE - 1) n base uc [].

Definition prfx_neg : list Z := bytes_of "-".
Definition prfx_hex : list Z := bytes_of "0x".
Definition str_nil : list Z := bytes_of "(nil)".

(** The conversion state between two characters of a format. *)
Record pst := Pst { fm : bool; plr : bool; pch : Z; pad : Z; lenmod : Z; uc : bool }.

Definition pst_init : pst := Pst false false (chr " ") 0 0 false.
Definition pst_start : pst := Pst true false (chr " ") 0 0 false.
Definition pst_done (s : pst) : pst := Pst false (plr s) (pch s) (pad s) (lenmod s) (uc s).

Definition lift {K A} (m : outcome A) : prog K A :=
  λ k, match m with Ret a => Ret (a, k) | Fault f => Fault f end.

Section vhprintf.
Context {K : Type} (vph : list Z → prog K Z) (ph : positive → prog K Z).

Fixpoint pad_loop (n : nat) (c : Z) : prog K Z :=
  match n with
  | O => mret 0
  | S n' => e ← vph [c]; e' ← pad_loop n' c; mret (Z.lor e e')
  end.

Definition write_padded (p : option (list Z)) (sz pad c : Z) (plr : bool) (prfx : option (list Z)) :
    prog K Z :=
  let prfx_len := str_len prfx in
  let pad := pad - Z.min pad prfx_len in
  let n := Z.to_nat (pad - sz) in
  e1 ← match prfx with
       | Some x => if bool_decide (c = chr "0") then vph x else mret 0
       | None => mret 0
       end;
  e2 ← (if plr then mret 0 else pad_loop n c);
  e3 ← match prfx with
       | Some x => if bool_decide (c ≠ chr "0") then vph x else mret 0
       | None => mret 0
       end;
  e4 ← match p with
       | Some _ => if bool_decide (sz = 0) then mret 0 else bs ← lift (memcpy_from p 0 sz); vph bs
       | None => mret 0
       end;
  e5 ← (if plr then pad_loop n c else mret 0);
  mret (Z.lor (Z.lor (Z.lor (Z.lor e1 e2) e3) e4) e5).

Definition write_text (s : list Z) (pad c : Z) (plr : bool) (prfx : option (list Z)) : prog K Z :=
  write_padded (Some s) (Z.of_nat (length s)) pad c plr prfx.

Definition pop (args : list varg) : prog K (varg * list varg) :=
  match args with [] => crash VarArg | a :: r => mret (a, r) end.
Definition pop_int (args : list varg) : prog K (Z * list varg) :=
  match args with VInt z :: r => mret (z, r) | _ => crash VarArg end.
Definition pop_str (args : list varg) : prog K (option (list Z) * list varg) :=
  match args with VStr s :: r => mret (s, r) | _ => crash VarArg end.

(** The integer read for a length modifier: signed and unsigned. *)
Definition read_signed (lm z : Z) : Z :=
  if bool_decide (lm = 0) then s32 z else u64 (z + 2 ^ 63) - 2 ^ 63.
Definition read_unsigned (lm z : Z) : Z := if bool_decide (lm = 0) then u32 z else u64 z.

(** The field padding character of the numeric conversions. *)
Definition num_pch (s : pst) : Z := if plr s then chr " " else pch s.

Definition conv_signed (s : pst) (args : list varg) : prog K (Z * pst * list varg) :=
  r ← pop_int args;
  let '(z, args') := r in
  let sn := read_signed (lenmod s) z in
  num ← lift (local_itoa (u64 (if bool_decide (sn < 0) then - sn else sn)) 10 false);
  e ← write_text num (pad s) (num_pch s) (plr s) (if bool_decide (sn < 0) then Some prfx_neg else None);
  mret (e, pst_done s, args').

Definition conv_unsigned (base : Z) (up : bool) (s : pst) (args : list varg) :
    prog K (Z * pst * list varg) :=
  r ← pop_int args;
  let '(z, args') := r in
  num ← lift (local_itoa (read_unsigned (lenmod s) z) base up);
  e ← write_text num (pad s) (num_pch s) (plr s) None;
  mret (e, Pst false (plr s) (pch s) (pad s) (lenmod s) up, args').

Fixpoint hex_bytes (up : bool) (bs : list Z) : prog K Z :=
  match bs with
  | [] => mret 0
  | b :: r =>
      num ← lift (local_itoa b 16 up);
      e ← write_text num 2 (chr "0") false None;
      e' ← hex_bytes up r;
      mret (Z.lor e e')
  end.

(** [%w] and [%W]. *)
Definition conv_hex (up : bool) (s : pst) (args : list varg) : prog K (Z * pst * list varg) :=
  r ← pop_str args;
  let '(p, args1) := r in
  r ← pop_int args1;
  let '(l, args2) := r in
  let len := match p with Some _ => u64 l | None => 0 end in
  let c := num_pch s in
  let n := Z.to_nat (pad s - len * 2) in
  e1 ← (if plr s then mret 0 else pad_loop n c);
  bs ← lift (memcpy_from p 0 len);
  e2 ← hex_bytes up bs;
  e3 ← (if plr s then pad_loop n c else mret 0);
  mret (Z.lor (Z.lor e1 e2) e3, Pst false (plr s) c (pad s) (lenmod s) up, args2).

Definition conv_sa (with_port : bool) (s : pst) (args : list varg) : prog K (Z * pst * list varg) :=
  r ← pop args;
  match r with
  | (VSa None, args') => mret (0, pst_done s, args')
  | (VSa (Some sa), args') =>
      match sa_text sa with
      | None =>
          e ← write_text (bytes_of "?") (pad s) (chr " ") (plr s) None;
          mret (e, pst_done s, args')
      | Some addr =>
          if with_port then
            e1 ← (if sa_v6 sa then vph [chr "["] else mret 0);
            e2 ← write_text addr (pad s) (chr " ") (plr s) None;
            e3 ← (if sa_v6 sa then vph [chr "]"] else mret 0);
            e4 ← vph [chr ":"];
            num ← lift (local_itoa (sa_port sa) 10 false);
            e5 ← write_text num (pad s) (num_pch s) (plr s) None;
            mret (Z.lor (Z.lor (Z.lor (Z.lor e1 e2) e3) e4) e5, pst_done s, args')
          else
            e ← write_text addr (pad s) (chr " ") (plr s) None;
            mret (e, pst_done s, args')
      end
  | _ => crash VarArg
  end.

Definition conv_ptr (s : pst) (args : list varg) : prog K (Z * pst * list varg) :=
  r ← pop args;
  match r with
  | (VPtr z, args') =>
      e ← (if bool_decide (z = 0) then write_text str_nil (pad s) (chr " ") (plr s) None
           else num ← lift (local_itoa (u64 z) 16 false);
                write_text num (pad s) (num_pch s) (plr s) (Some prfx_hex));
      mret (e, pst_done s, args')
  | _ => crash VarArg
  end.

(** The [switch] on the character after [%].  [rec] prints a nested format. *)
Definition conv (rec : list Z → list varg → prog K Z) (c : Z) (s : pst) (args : list varg) :
    prog K (Z * pst * list varg) :=
  if bool_decide (c = chr "-") then mret (0, Pst true true (pch s) (pad s) (lenmod s) (uc s), args)
  else if bool_decide (c = chr ".") then mret (0, Pst true (plr s) (pch s) 0 (lenmod s) (uc s), args)
  else if bool_decide (c = chr "%") then e ← vph [chr "%"]; mret (e, pst_done s, args)
  else if bool_decide (c = chr "b") then
    r ← pop_str args;
    let '(p, args1) := r in
    r ← pop_int args1;
    let '(l, args2) := r in
    e ← write_padded p (match p with Some _ => u64 l | None => 0 end) (pad s) (chr " ") (plr s) None;
    mret (e, pst_done s, args2)
  else if bool_decide (c = chr "c") then
    r ← pop_int args;
    let '(z, args') := r in
    e ← write_text [u8 z] (pad s) (chr " ") (plr s) None;
    mret (e, pst_done s, args')
  else if bool_decide (c = chr "d") || bool_decide (c = chr "i") then conv_signed s args
  else if bool_decide (c = chr "H") then
    r ← pop args;
    match r with
    | (VHandler None, args') => mret (0, pst_done s, args')
    | (VHandler (Some h), args') => e ← ph h; mret (e, pst_done s, args')
    | _ => crash VarArg
    end
  else if bool_decide (c = chr "l") then mret (0, Pst true (plr s) (pch s) (pad s) (lenmod s + 1) (uc s), args)
  else if bool_decide (c = chr "p") then conv_ptr s args
  else if bool_decide (c = chr "r") then
    r ← pop args;
    match r with
    | (VPl p, args') =>
        e ← match p with
            | None => write_padded None 0 (pad s) (chr " ") (plr s) None
            | Some p => write_padded (pl_p p) (match pl_p p with Some _ => pl_l p | None => 0 end)
                          (pad s) (chr " ") (plr s) None
            end;
        mret (e, pst_done s, args')
    | _ => crash VarArg
    end
  else if bool_decide (c = chr "s") then
    r ← pop_str args;
    let '(p, args') := r in
    e ← write_padded p (str_len p) (pad s) (chr " ") (plr s) None;
    mret (e, pst_done s, args')
  else if bool_decide (c = chr "X") then conv_unsigned 16 true s args
  else if bool_decide (c = chr "x") then conv_unsigned 16 (uc s) s args
  else if bool_decide (c = chr "u") then conv_unsigned 10 (uc s) s args
  else if bool_decide (c = chr "v") then
    r ← pop_str args;
    let '(p, args1) := r in
    r ← pop args1;
    match p, r with
    | Some f, (VList (Some l), args2) => e ← rec f l; mret (e, pst_done s, args2)
    | None, (VList _, args2) | Some _, (VList None, args2) => mret (0, pst_done s, args2)
    | _, _ => crash VarArg
    end
  else if bool_decide (c = chr "W") then conv_hex true s args
  else if bool_decide (c = chr "w") then conv_hex (uc s) s args
  else if bool_decide (c = chr "z") then mret (0, Pst true (plr s) (pch s) (pad s) 42 (uc s), args)
  else if bool_decide (c = chr "j") then conv_sa false s args
  else if bool_decide (c = chr "J") then conv_sa true s args
  else if bool_decide (c = chr "f") || bool_decide (c = chr "F") then crash VarArg
  else if bool_decide (48 ≤ c ∧ c ≤ 57) then
    if bool_decide (pad s = 0) && bool_decide (c = chr "0") then
      mret (0, Pst true (plr s) (chr "0") (pad s) (lenmod s) (uc s), args)
    else mret (0, Pst true (plr s) (pch s) (u64 (u64 (pad s * 10) + (c - 48))) (lenmod s) (uc s), args)
  else e ← vph [chr "?"]; mret (e, pst_done s, args).

(** The [for] loop: [lit] holds the literal run [p0 .. p), last byte first. *)
Fixpoint vhprintf_loop (rec : list Z → list varg → prog K Z) (fmt : list Z) (s : pst) (lit : list Z)
    (args : list varg) : prog K Z :=
  match fmt with
  | [] => if fm s then mret 0 else match lit with [] => mret 0 | _ => vph (reverse lit) end
  | c :: r =>
      if fm s then
        q ← conv rec c s args;
        let '(e, s', args') := q in
        if bool_decide (e = 0) then vhprintf_loop rec r s' [] args' else mret e
      else if bool_decide (c = chr "%") then
        e ← match lit with [] => mret 0 | _ => vph (reverse lit) end;
        if bool_decide (e = 0) then vhprintf_loop rec r pst_start [] args else mret e
      else vhprintf_loop rec r s (c :: lit) args
  end.

(** [depth] bounds the nesting of [%v]. *)
Fixpoint re_vhprintf (depth : nat) (fmt : list Z) (args : list varg) : prog K Z :=
  match depth with
  | O => crash NoFuel
  | S d => vhprintf_loop (re_vhprintf d) fmt pst_init [] args
  end.
End vhprintf.

(** ** The print handlers *)

(** [print_handler]: the bytes stored so far and the room that is left. *)
Record outbuf := OutBuf { ob_bytes : list Z; ob_left : Z }.

Definition print_handler (bs : list Z) : prog outbuf Z := λ b,
  if bool_decide (Z.of_nat (length bs) > ob_left b) then Ret (ENOMEM, b)
  else Ret (0, OutBuf (ob_bytes b ++ bs) (ob_left b - Z.of_nat (length bs))).

(** [re_vsnprintf] into a buffer of [size] bytes: the return value and the
    bytes stored from the start of the buffer. *)
Definition re_vsnprintf (ph : positive → prog outbuf Z) (depth : nat) (size : Z) (fmt : list Z)
    (args : list varg) : outcome (Z * list Z) :=
  if bool_decide (size = 0) then Ret (-1, [])
  else
    match re_vhprintf print_handler ph depth fmt args (OutBuf [] (size - 1)) with
    | Fault f => Fault f
    | Ret (err, b) =>
        let n := size - ob_left b - 1 in
        if bool_decide (0 ≤ n < size) then
          Ret (if bool_decide (err = 0) then s32 n else -1, take (Z.to_nat n) (ob_bytes b) ++ [0])
        else Fault OutOfBounds
    end.

(** [struct dyn_print]: the allocation, the write offset [dp->p - dp->str],
    the room left and the size. *)
Record dynbuf := DynBuf { d_str : list Z; d_off : Z; d_l : Z; d_size : Z }.

Definition dyn_grow (A : allocator) (n : Z) (d : dynbuf) : option dynbuf :=
  if bool_decide (n > u64 (d_l d - 1)) then
    let new_size := Z.max (u64 (d_size d + n)) (u64 (d_size d * 2)) in
    if alloc_ok A new_size then
      let l := u64 (d_l d + u64 (new_size - d_size d)) in
      Some (DynBuf (realloc_bytes (junk A) (d_str d) new_size) (u64 (new_size - l)) l new_size)
    else None
  else Some d.

Definition print_handler_dyn (A : allocator) (bs : list Z) : prog dynbuf Z := λ d,
  match dyn_grow A (Z.of_nat (length bs)) d with
  | None => Ret (ENOMEM, d)
  | Some d1 =>
      match memcpy_to (Some (d_str d1)) (d_off d1) bs with
      | Ret m => Ret (0, DynBuf (default [] m) (d_off d1 + Z.of_nat (length bs))
                            (u64 (d_l d1 - Z.of_nat (length bs))) (d_size d1))
      | Fault f => Fault f
      end
  end.

(** [re_vsdprintf]: the allocated string on success. *)
Definition re_vsdprintf (A : allocator) (ph : positive → prog dynbuf Z) (depth : nat) (fmt : list Z)
    (args : list varg) : outcome (Z * option (list Z)) :=
  if alloc_ok A 16 then
    match re_vhprintf (print_handler_dyn A) ph depth fmt args
            (DynBuf (replicate 16 (junk A)) 0 16 16) with
    | Fault f => Fault f
    | Ret (err, d) =>
        if bool_decide (err = 0) then
          m ← memcpy_to (Some (d_str d)) (d_off d) [0];
          Ret (0, Some (take (Z.to_nat (d_off d)) (default [] m)))
        else Ret (err, None)
    end
  else Ret (ENOMEM, None).

(** ** Decimal and hexadecimal text *)

Lemma div_pow_small n b k : 0 < b → 0 ≤ n < b ^ (k + 1) → 0 ≤ k → 0 ≤ n / b < b ^ k.
Proof.
  intros Hb Hn Hk. split; [by apply Z.div_pos; lia|].
  apply Z.div_lt_upper_bound; [done|]. replace (b * b ^ k) with (b ^ (k + 1)); [lia|].
  rewrite Z.pow_add_r by lia. lia.
Qed.

(** The loop writes the digits of [n], one per step, and stops at the first
    zero quotient. *)
Lemma itoa_loop_run base uc room : ∀ n acc k,
  2 ≤ base → (k < room)%nat → 0 ≤ n < base ^ Z.of_nat (S k) →
  ∃ ds, itoa_loop room n base uc acc = Ret (map (digit_char uc) ds ++ acc) ∧
    Forall (λ d, 0 ≤ d < base) ds ∧ digits_value base ds = n ∧ (1 ≤ length ds ≤ S k)%nat ∧
    (n ≠ 0 → head ds ≠ Some 0).
Proof.
  induction room as [|room IH]; intros n acc k Hb Hk Hn; [lia|]. cbn [itoa_loop].
  replace (n - n / base * base) with (n `mod` base) by (rewrite Z.mod_eq by lia; ring).
  pose proof (Z.mod_pos_bound n base). case_bool_decide as Hz.
  - assert (Hm : n `mod` base = n) by (rewrite Z.mod_eq, Hz by lia; ring).
    exists [n `mod` base]. rewrite Hm in *. split; [done|].
    split; [repeat constructor; lia|]. split; [done|]. split; [simpl; lia|].
    intros Hne [= He]. lia.
  - destruct k as [|k]; [rewrite Z.pow_1_r in Hn; rewrite Z.div_small in Hz by lia; lia|].
    destruct (IH (n / base) (digit_char uc (n `mod` base) :: acc) k)
      as (ds & E & Hds & Hv & Hl & Hh); [done|lia| |].
    { apply div_pow_small; lia. }
    exists (ds ++ [n `mod` base]). rewrite E. split; [by rewrite map_app, <- app_assoc|].
    split; [apply Forall_app; split; [done|]; repeat constructor; lia|].
    split; [|split; [rewrite length_app; simpl; lia|]].
    + unfold digits_value in *. rewrite foldl_app. simpl. rewrite Hv, Z.mod_eq by lia. ring.
    + intros _. destruct ds; [simpl in Hl; lia|]. apply Hh. lia.
Qed.

Lemma digit_char_hex up d : 0 ≤ d < 16 → hex_digit (digit_char up d) = Some d.
Proof.
  intros. assert (∃ k, d = Z.of_nat k ∧ (k < 16)%nat) as (k & -> & Hk) by (exists (Z.to_nat d); lia).
  do 16 (destruct k as [|k]; [by destruct up|]). lia.
Qed.

Lemma digit_char_dec up d : 0 ≤ d < 10 → dec_digit (digit_char up d) = Some d.
Proof.
  intros. assert (∃ k, d = Z.of_nat k ∧ (k < 10)%nat) as (k & -> & Hk) by (exists (Z.to_nat d); lia).
  do 10 (destruct k as [|k]; [by destruct up|]). lia.
Qed.

Lemma mapM_digits (dig : Z → option Z) up base ds :
  (∀ d, 0 ≤ d < base → dig (digit_char up d) = Some d) →
  Forall (λ d, 0 ≤ d < base) ds → mapM dig (map (digit_char up) ds) = Some ds.
Proof.
  intros Hd. induction 1 as [|d ds H _ IH]; [done|]. cbn. rewrite Hd by lia. simpl. by rewrite IH.
Qed.

(** What [local_itoa] writes, against stdpp's decimal printer. *)
Lemma pretty_char_digit up n : 0 ≤ n < 10 → char_of (pretty.pretty_N_char (Z.to_N n)) = digit_char up n.
Proof.
  intros. assert (∃ k, n = Z.of_nat k ∧ (k < 10)%nat) as (k & -> & Hk) by (exists (Z.to_nat n); lia).
  do 10 (destruct k as [|k]; [by destruct up|]). lia.
Qed.

Lemma itoa_loop_pretty room : ∀ n s up k,
  (k < room)%nat → 0 < n < 10 ^ Z.of_nat (S k) →
  itoa_loop room n 10 up (bytes_of s) = Ret (bytes_of (pretty.pretty_N_go (Z.to_N n) s)).
Proof.
  induction room as [|room IH]; intros n s up k Hk Hn; [lia|]. cbn [itoa_loop].
  replace (n - n / 10 * 10) with (n `mod` 10) by (rewrite Z.mod_eq by lia; ring).
  pose proof (Z.mod_pos_bound n 10).
  rewrite pretty.pretty_N_go_step by lia.
  rewrite <- (pretty_char_digit up) by lia.
  change (N.div (Z.to_N n) 10) with (N.div (Z.to_N n) (Z.to_N 10)).
  change (N.modulo (Z.to_N n) 10) with (N.modulo (Z.to_N n) (Z.to_N 10)).
  rewrite <- Z2N.inj_div, <- Z2N.inj_mod by lia.
  case_bool_decide as Hz.
  - rewrite Hz. by rewrite pretty.pretty_N_go_0.
  - destruct k as [|k]; [rewrite Z.pow_1_r in Hn; rewrite Z.div_small in Hz by lia; lia|].
    rewrite <- (IH _ _ up k); [done|lia|].
    assert (0 ≤ n / 10 < 10 ^ Z.of_nat (S k)); [|lia].
    apply div_pow_small; lia.
Qed.

(** The decimal text of a number. *)
Definition dec_text (n : Z) : list Z := bytes_of (pretty.pretty (Z.to_N n)).

Lemma local_itoa_dec n up : 0 ≤ n < 2 ^ 64 → local_itoa n 10 up = Ret (dec_text n).
Proof.
  intros Hn. unfold local_itoa, dec_text, pretty.pretty, pretty.pretty_N.
  destruct (decide (n = 0)) as [->|]; [done|]. rewrite decide_False by lia.
  change [] with (bytes_of EmptyString). apply (itoa_loop_pretty _ n _ up 19); unfold NUM_SIZE; simpl; lia.
Qed.

(** The hexadecimal text of a number, as [local_itoa] gives it. *)
Definition hex_text (up : bool) (n : Z) : list Z := match local_itoa n 16 up with Ret l => l | Fault _ => [] end.

Lemma local_itoa_digits n base up :
  2 ≤ base → 0 ≤ n < 2 ^ 62 ∨ (10 ≤ base ∧ 0 ≤ n < 2 ^ 64) →
  ∃ ds, local_itoa n base up = Ret (map (digit_char up) ds) ∧
    Forall (λ d, 0 ≤ d < base) ds ∧ digits_value base ds = n ∧ (1 ≤ length ds ≤ 62)%nat ∧
    (n ≠ 0 → head ds ≠ Some 0).
Proof.
  intros Hb Hn. unfold local_itoa, NUM_SIZE.
  destruct (itoa_loop_run base up 63 n [] 61) as (ds & E & H); [done|lia| |].
  { destruct Hn as [Hn|[Hb' Hn]]; (split; [lia|]).
    - apply Z.lt_le_trans with (2 ^ 62); [lia|]. by apply Z.pow_le_mono_l.
    - apply Z.lt_le_trans with (10 ^ 62); [lia|]. apply Z.pow_le_mono_l. lia. }
  exists ds. by rewrite app_nil_r in E.
Qed.

Lemma dec_text_length n : 0 ≤ n < 2 ^ 64 → (length (dec_text n) ≤ 62)%nat.
Proof.
  intros Hn. destruct (local_itoa_digits n 10 false) as (ds & E & _ & _ & Hl & _); [lia|lia|].
  rewrite local_itoa_dec in E by lia. injection E as ->. rewrite length_map. lia.
Qed.

(** The digits that local_itoa writes for an unsigned 64-bit number in base
    10 or 16 fit the buffer (at most 20 of 63), have no leading zero, and read
    back as the number through pl_u64 and pl_x64; the decimal text is the
    canonical one. *)
Theorem local_itoa_roundtrip n up rest :
  0 ≤ n < 2 ^ 64 →
  (∃ t, local_itoa n 10 up = Ret t ∧ t = dec_text n ∧
     pl_u64 (Pl (Some (t ++ rest)) (Z.of_nat (length t))) = Ret n) ∧
  (∃ t, local_itoa n 16 up = Ret t ∧ (head t = Some (chr "0") → n = 0) ∧ (length t ≤ 62)%nat ∧
     pl_x64 (Pl (Some (t ++ rest)) (Z.of_nat (length t))) = Ret n).
Proof.
  intros Hn. split.
  - exists (dec_text n). split_and!; [by apply local_itoa_dec|done|].
    destruct (local_itoa_digits n 10 up) as (ds & E & Hds & Hv & _); [lia|lia|].
    rewrite local_itoa_dec in E by lia. injection E as ->.
    unfold pl_u64, u64. rewrite pl_num_run by lia.
    rewrite (mapM_digits _ up 10), Hv by (done || apply digit_char_dec). by rewrite Z.mod_small.
  - destruct (local_itoa_digits n 16 up) as (ds & E & Hds & Hv & Hl & Hh); [lia|lia|].
    exists (map (digit_char up) ds). split_and!; [done| |rewrite length_map; lia|].
    + destruct (decide (n = 0)); [done|]. specialize (Hh ltac:(done)).
      inversion Hds as [|d ds' Hd _]; subst; [done|]. intros [= Hc]. exfalso. apply Hh. simpl. f_equal.
      assert (Some d = Some 0) as [=]; [|done]. rewrite <- (digit_char_hex up) by lia. by rewrite Hc.
    + unfold pl_x64, u64. rewrite pl_num_run by lia.
      rewrite (mapM_digits _ up 16), Hv by (done || apply digit_char_hex). by rewrite Z.mod_small.
Qed.

Lemma local_itoa_roundtrip_witness :
  0 ≤ 48879 < 2 ^ 64 ∧
  (∃ t, local_itoa 48879 16 true = Ret t ∧ (head t = Some (chr "0") → 48879 = 0) ∧ (length t ≤ 62)%nat ∧
     pl_x64 (Pl (Some (t ++ [])) (Z.of_nat (length t))) = Ret 48879).
Proof. split; [lia|]. apply (local_itoa_roundtrip 48879 true []). lia. Defined.

(** ** Simulations between print handlers

    [sim ok R m1 m2]: whenever [m1] returns in a state that is [ok], it started
    in one, and [m2] returns the same value from every related state, in a
    related state. *)
Section sim.
Context {K1 K2 : Type} (ok : K1 → Prop) (R : K1 → K2 → Prop).

Definition sim {A} (m1 : prog K1 A) (m2 : prog K2 A) : Prop :=
  ∀ k1 a k1', m1 k1 = Ret (a, k1') → ok k1' →
    ok k1 ∧ ∀ k2, R k1 k2 → ∃ k2', m2 k2 = Ret (a, k2') ∧ R k1' k2'.

Lemma sim_ret {A} (a : A) : sim (mret a) (mret a).
Proof. intros k1 b k1' [= <- <-] Hok. split; [done|]. intros k2 HR. by exists k2. Qed.

Lemma sim_bind {A B} (m1 : prog K1 A) (m2 : prog K2 A) (f1 : A → prog K1 B) (f2 : A → prog K2 B) :
  sim m1 m2 → (∀ a, sim (f1 a) (f2 a)) → sim (m1 ≫= f1) (m2 ≫= f2).
Proof.
  intros Hm Hf k1 b k1' E Hok. apply prog_bind_Ret in E as (a & k & E1 & E2).
  destruct (Hf a _ _ _ E2 Hok) as [Hokk Hr2]. destruct (Hm _ _ _ E1 Hokk) as [Hok1 Hr1].
  split; [done|]. intros k2 HR. destruct (Hr1 _ HR) as (k2' & Ek2 & HR').
  destruct (Hr2 _ HR') as (k2'' & Ek3 & HR''). exists k2''. split; [|done].
  by rewrite (prog_bind_step _ _ _ _ _ Ek2).
Qed.

Lemma sim_crash {A} f (m2 : prog K2 A) : sim (crash f) m2.
Proof. intros k1 a k1' [=]. Qed.

Lemma sim_lift {A} (m : outcome A) : sim (lift m) (lift m).
Proof.
  unfold sim, lift. intros k1 a k1' E Hok. destruct m; simplify_eq. split; [done|]. intros k2 HR. by exists k2.
Qed.
End sim.

(** Splits a simulation goal along the structure of the two programs. *)
Ltac sims :=
  repeat first
    [ done
    | match goal with H : ∀ _, sim _ _ _ _ |- _ => apply H end
    | match goal with H : ∀ _ _, sim _ _ _ _ |- _ => apply H end
    | apply sim_ret | apply sim_crash | apply sim_lift
    | apply sim_bind; [|intros ?]
    | match goal with |- sim _ _ (match ?x with _ => _ end) _ => destruct x end
    | match goal with |- sim _ _ (match ?x with _ => _ end _) _ => destruct x end ].

Section vhprintf_sim.
Context {K1 K2 : Type} (ok : K1 → Prop) (R : K1 → K2 → Prop).
Context (vph1 : list Z → prog K1 Z) (vph2 : list Z → prog K2 Z)
        (ph1 : positive → prog K1 Z) (ph2 : positive → prog K2 Z).
Hypothesis (Hv : ∀ bs, sim ok R (vph1 bs) (vph2 bs)) (Hp : ∀ h, sim ok R (ph1 h) (ph2 h)).

Lemma pad_loop_sim n c : sim ok R (pad_loop vph1 n c) (pad_loop vph2 n c).
Proof. induction n; simpl; sims. Qed.
Local Hint Resolve pad_loop_sim : core.

Lemma write_padded_sim p sz pd c plr prfx :
  sim ok R (write_padded vph1 p sz pd c plr prfx) (write_padded vph2 p sz pd c plr prfx).
Proof. pose proof pad_loop_sim. unfold write_padded. sims. Qed.

Lemma write_text_sim s pd c plr prfx :
  sim ok R (write_text vph1 s pd c plr prfx) (write_text vph2 s pd c plr prfx).
Proof. apply write_padded_sim. Qed.

Lemma hex_bytes_sim up bs : sim ok R (hex_bytes vph1 up bs) (hex_bytes vph2 up bs).
Proof. induction bs; simpl; sims; apply write_text_sim. Qed.

Lemma conv_sim rec1 rec2 c s args :
  (∀ f l, sim ok R (rec1 f l) (rec2 f l)) →
  sim ok R (conv vph1 ph1 rec1 c s args) (conv vph2 ph2 rec2 c s args).
Proof.
  intros Hr. unfold conv, conv_signed, conv_unsigned, conv_hex, conv_sa, conv_ptr, pop, pop_int, pop_str.
  repeat first [ apply write_padded_sim | apply write_text_sim | apply pad_loop_sim
               | apply hex_bytes_sim | progress sims ].
Qed.

Lemma vhprintf_loop_sim rec1 rec2 fmt :
  (∀ f l, sim ok R (rec1 f l) (rec2 f l)) →
  ∀ s lit args, sim ok R (vhprintf_loop vph1 ph1 rec1 fmt s lit args) (vhprintf_loop vph2 ph2 rec2 fmt s lit args).
Proof.
  intros Hr. induction fmt as [|c fmt IH]; intros s lit args; cbn [vhprintf_loop]; [sims|].
  destruct (fm s).
  - apply sim_bind; [by apply conv_sim|]. intros [[e s'] args']. case_bool_decide; [apply IH | apply sim_ret].
  - case_bool_decide; [|apply IH]. apply sim_bind; [sims|]. intros e.
    case_bool_decide; [apply IH | apply sim_ret].
Qed.

Lemma re_vhprintf_sim depth fmt args :
  sim ok R (re_vhprintf vph1 ph1 depth fmt args) (re_vhprintf vph2 ph2 depth fmt args).
Proof.
  revert fmt args. induction depth as [|d IH]; intros fmt args; simpl; [apply sim_crash|].
  by apply vhprintf_loop_sim.
Qed.
End vhprintf_sim.

(** ** The reference sink: text that grows without bound *)

Definition append (bs : list Z) : prog (list Z) Z := λ k, Ret (0, k ++ bs).

(** A print handler that prints nothing. *)
Definition no_handler {K} (h : positive) : prog K Z := mret 0.

(** A format as a sequence of pieces: literal text and the conversions the
    program uses most; [PNul] is %r with an empty [pl] that points nowhere,
    [PNoStr] is %s with a NULL pointer and [PIntI] is %i. *)
Inductive piece :=
  | PLit (l : list Z)
  | PPercent
  | PStr (s : list Z)
  | PPl (bs rest : list Z)
  | PInt (z : Z)
  | PLong (z : Z)
  | PUns (z : Z)
  | PHex0 (up : bool) (w z : Z)
  | PPadStr (lf : bool) (w : Z) (s : list Z)
  | PAddr (addr : list Z) (port : Z)
  | PNul
  | PTag (z : Z)
  | PIp (sa : sockaddr)
  | PNoStr
  | PIntI (z : Z).

Definition piece_fmt (p : piece) : list Z :=
  match p with
  | PLit l => l
  | PPercent => bytes_of "%%"
  | PStr _ => bytes_of "%s"
  | PPl _ _ => bytes_of "%r"
  | PInt _ => bytes_of "%d"
  | PLong _ => bytes_of "%ld"
  | PUns _ => bytes_of "%u"
  | PHex0 up w _ => bytes_of "%0" ++ [48 + w; if up then chr "X" else chr "x"]
  | PPadStr lf w _ => bytes_of (if lf then "%-" else "%") ++ [48 + w; chr "s"]
  | PAddr _ _ => bytes_of "%J"
  | PNul => bytes_of "%r"
  | PTag _ => bytes_of "%016llx"
  | PIp _ => bytes_of "%j"
  | PNoStr => bytes_of "%s"
  | PIntI _ => bytes_of "%i"
  end.

Definition piece_args (p : piece) : list varg :=
  match p with
  | PLit _ | PPercent => []
  | PStr s | PPadStr _ _ s => [VStr (Some s)]
  | PPl bs rest => [VPl (Some (Pl (Some (bs ++ rest)) (Z.of_nat (length bs))))]
  | PInt z | PLong z | PUns z | PHex0 _ _ z | PTag z | PIntI z => [VInt z]
  | PAddr addr port => [VSa (Some (SockAddr (Some addr) port false))]
  | PNul => [VPl (Some pl_null)]
  | PIp sa => [VSa (Some sa)]
  | PNoStr => [VStr None]
  end.

Definition padding (w : Z) (s : list Z) (c : Z) : list Z := replicate (Z.to_nat (w - Z.of_nat (length s))) c.

Lemma padding_0 s c : padding 0 s c = [].
Proof. unfold padding. by replace (Z.to_nat _) with O by lia. Qed.

Definition int_text (z : Z) : list Z := if bool_decide (z < 0) then prfx_neg ++ dec_text (- z) else dec_text z.

Lemma int_text_length z : - 2 ^ 63 < z < 2 ^ 63 → (length (int_text z) ≤ 63)%nat.
Proof.
  intros. unfold int_text. case_bool_decide.
  - pose proof (dec_text_length (- z)). simpl. lia.
  - pose proof (dec_text_length z). lia.
Qed.

Definition piece_text (p : piece) : list Z :=
  match p with
  | PLit l => l
  | PPercent => bytes_of "%"
  | PStr s => s
  | PPl bs _ => bs
  | PInt z | PLong z | PIntI z => int_text z
  | PUns z => dec_text z
  | PHex0 up w z => padding w (hex_text up z) (chr "0") ++ hex_text up z
  | PPadStr lf w s =>
      if lf then s ++ padding w s (chr " ") else padding w s (chr " ") ++ s
  | PAddr addr port => addr ++ bytes_of ":" ++ dec_text port
  | PNul | PNoStr => []
  | PTag z => padding 16 (hex_text false z) (chr "0") ++ hex_text false z
  | PIp sa => default (bytes_of "?") (sa_text sa)
  end.

Definition piece_ok (p : piece) : Prop :=
  match p with
  | PLit l => Forall (λ b, b ≠ chr "%") l
  | PInt z | PIntI z => - 2 ^ 31 ≤ z < 2 ^ 31
  | PLong z => - 2 ^ 63 < z < 2 ^ 63
  | PUns z => 0 ≤ z < 2 ^ 32
  | PHex0 _ w z => 1 ≤ w ≤ 9 ∧ 0 ≤ z < 2 ^ 32
  | PPadStr _ w s => 1 ≤ w ≤ 9
  | PAddr _ port => 0 ≤ port < 65536
  | PTag z => 0 ≤ z < 2 ^ 64
  | _ => True
  end.

#[export] Instance piece_ok_dec p : Decision (piece_ok p).
Proof. destruct p; simpl; apply _. Defined.

Definition fmt_of (ps : list piece) : list Z := concat (map piece_fmt ps).
Definition args_of (ps : list piece) : list varg := concat (map piece_args ps).
Definition text_of (ps : list piece) : list Z := concat (map piece_text ps).

Lemma pad_loop_append n c k : pad_loop append n c k = Ret (0, k ++ replicate n c).
Proof.
  revert k. induction n as [|n IH]; intros k; simpl; [by rewrite app_nil_r|].
  unfold mbind, prog_bind, append at 1. rewrite IH. by rewrite <- app_assoc.
Qed.

Lemma chunk_append s k :
  (if bool_decide (Z.of_nat (length s) = 0) then mret 0
   else bs ← lift (memcpy_from (Some s) 0 (Z.of_nat (length s))); append bs) k = Ret (0, k ++ s).
Proof.
  case_bool_decide as Hl.
  - destruct s; [|simpl in Hl; lia]. by rewrite app_nil_r.
  - rewrite memcpy_from_run by lia. rewrite drop_0, Nat2Z.id, firstn_all. done.
Qed.

Ltac psteps :=
  repeat first
  [ erewrite prog_bind_step by apply chunk_append
  | erewrite prog_bind_step by apply pad_loop_append
  | erewrite prog_bind_step by done ].

Lemma write_text_append s pd c lf k :
  write_text append s pd c lf None k =
  Ret (0, k ++ (if lf then s ++ padding pd s c else padding pd s c ++ s)).
Proof.
  unfold write_text, write_padded, padding. cbn [str_len].
  replace (pd - Z.min pd 0 - Z.of_nat (length s)) with (Z.max pd 0 - Z.of_nat (length s)) by lia.
  replace (Z.to_nat (Z.max pd 0 - Z.of_nat (length s))) with (Z.to_nat (pd - Z.of_nat (length s))) by lia.
  destruct lf; psteps; by rewrite <- app_assoc.
Qed.

Lemma write_text_append_neg s c k :
  write_text append s 0 c false (Some prfx_neg) k = Ret (0, k ++ prfx_neg ++ s).
Proof.
  unfold write_text, write_padded. cbn [str_len].
  replace (Z.to_nat (0 - Z.min 0 (Z.of_nat (length prfx_neg)) - Z.of_nat (length s))) with O
    by (unfold prfx_neg; simpl; lia).
  destruct (decide (c = chr "0")).
  - rewrite (bool_decide_eq_true_2 (c = _)), (bool_decide_eq_false_2 (c ≠ _)) by (done || naive_solver).
    psteps. simpl.
    by rewrite app_nil_r, <- app_assoc.
  - rewrite (bool_decide_eq_false_2 (c = _)), (bool_decide_eq_true_2 (c ≠ _)) by done. psteps. simpl.
    by rewrite app_nil_r, <- app_assoc.
Qed.

Lemma write_padded_append bs rest pd c lf k :
  write_padded append (Some (bs ++ rest)) (Z.of_nat (length bs)) pd c lf None k =
  write_text append bs pd c lf None k.
Proof.
  unfold write_text, write_padded.
  replace (memcpy_from (Some (bs ++ rest)) 0 (Z.of_nat (length bs)))
    with (memcpy_from (Some bs) 0 (Z.of_nat (length bs))); [done|].
  rewrite !memcpy_from_run by (rewrite ?length_app; lia).
  by rewrite !drop_0, Nat2Z.id, firstn_all, take_app_length.
Qed.

(** Evaluates the character constants and the tests of [conv] on one of them. *)
Ltac chars :=
  repeat match goal with
  | |- context [chr ?s] => let v := eval vm_compute in (chr s) in change (chr s) with v
  end.
Ltac eval_conv :=
  unfold conv; chars; cbn [pst_start pad plr pch lenmod uc fm]; decide_bools; cbn [orb andb].

Section loop.
Context (ph : positive → prog (list Z) Z) (rec : list Z → list varg → prog (list Z) Z).
Local Notation loop := (vhprintf_loop append ph rec).

Lemma loop_lit l fmt s lit args k :
  fm s = false → Forall (λ b, b ≠ chr "%") l →
  loop (l ++ fmt) s lit args k = loop fmt s (reverse l ++ lit) args k.
Proof.
  intros Hs Hl. revert lit. induction Hl as [|b l Hb _ IH]; intros lit; [done|].
  cbn [app vhprintf_loop]. rewrite Hs, bool_decide_eq_false_2 by done. rewrite IH.
  by rewrite reverse_cons, <- app_assoc.
Qed.

Lemma loop_percent fmt s lit args k :
  fm s = false → loop (37 :: fmt) s lit args k = loop fmt pst_start [] args (k ++ reverse lit).
Proof.
  intros Hs. cbn [vhprintf_loop]. rewrite Hs. chars. decide_bools.
  destruct lit as [|b lit]; erewrite prog_bind_step by done; decide_bools; [|done].
  by rewrite app_nil_r.
Qed.

Lemma loop_conv c fmt s s' lit args args' k k' :
  fm s = true → conv append ph rec c s args k = Ret (0, s', args', k') →
  loop (c :: fmt) s lit args k = loop fmt s' [] args' k'.
Proof. intros Hs E. cbn [vhprintf_loop]. rewrite Hs. by erewrite prog_bind_step by apply E. Qed.

Lemma lift_Ret {K A} (m : outcome A) a (k : K) : m = Ret a → lift m k = Ret (a, k).
Proof. by intros ->. Qed.

(** The numeric conversions in the reference sink. *)
Lemma conv_signed_append s z args k :
  read_signed (lenmod s) z = z → - 2 ^ 63 < z < 2 ^ 63 → pad s = 0 → plr s = false →
  conv_signed append s (VInt z :: args) k = Ret (0, pst_done s, args, k ++ int_text z).
Proof.
  intros Hl Hz Hp Hr. unfold conv_signed. erewrite prog_bind_step by done. cbn beta iota. rewrite Hl.
  erewrite prog_bind_step by (apply lift_Ret, local_itoa_dec, u64_range).
  rewrite u64_id by (case_bool_decide; lia). unfold int_text. rewrite Hr, Hp. case_bool_decide as Hn.
  - by erewrite prog_bind_step by apply write_text_append_neg.
  - erewrite prog_bind_step by apply write_text_append. by rewrite padding_0.
Qed.

Lemma read_signed_int z : - 2 ^ 31 ≤ z < 2 ^ 31 → read_signed 0 z = z.
Proof. intros. unfold read_signed. simpl. unfold s32. rewrite Z.mod_small by lia. lia. Qed.
Lemma read_signed_long z : - 2 ^ 63 < z < 2 ^ 63 → read_signed 1 z = z.
Proof. intros. unfold read_signed. simpl. rewrite u64_id by lia. lia. Qed.

Lemma conv_unsigned_append s base z num up args k :
  0 ≤ z < 2 ^ 32 → lenmod s = 0 → plr s = false → local_itoa z base up = Ret num →
  conv_unsigned append base up s (VInt z :: args) k =
    Ret (0, Pst false false (pch s) (pad s) 0 up, args, k ++ padding (pad s) num (pch s) ++ num).
Proof.
  intros Hz Hl Hr Hnum. unfold conv_unsigned. erewrite prog_bind_step by done. cbn beta iota.
  unfold read_unsigned. rewrite Hl, (bool_decide_eq_true_2 (0 = 0)), u32_id by done.
  erewrite prog_bind_step by (by apply lift_Ret). rewrite Hr. unfold num_pch. rewrite Hr.
  by erewrite prog_bind_step by apply write_text_append.
Qed.

Lemma conv_unsigned_long s base z num up args k :
  0 ≤ z < 2 ^ 64 → lenmod s ≠ 0 → plr s = false → local_itoa z base up = Ret num →
  conv_unsigned append base up s (VInt z :: args) k =
    Ret (0, Pst false false (pch s) (pad s) (lenmod s) up, args, k ++ padding (pad s) num (pch s) ++ num).
Proof.
  intros Hz Hl Hr Hnum. unfold conv_unsigned. erewrite prog_bind_step by done. cbn beta iota.
  unfold read_unsigned. rewrite (bool_decide_eq_false_2 (lenmod s = 0)), u64_id by done.
  erewrite prog_bind_step by (by apply lift_Ret). rewrite Hr. unfold num_pch. rewrite Hr.
  by erewrite prog_bind_step by apply write_text_append.
Qed.

Lemma loop_piece p fmt s lit args k :
  fm s = false → piece_ok p →
  ∃ s' lit' k', fm s' = false ∧ k' ++ reverse lit' = k ++ reverse lit ++ piece_text p ∧
    loop (piece_fmt p ++ fmt) s lit (piece_args p ++ args) k = loop fmt s' lit' args k'.
Proof.
  intros Hs Hp. destruct p as [l| |t|bs rest|z|z|z|up w z|lf w t|addr port| |z|sa| |z]; simpl in Hp.
  { exists s, (reverse l ++ lit), k. split_and!; [done| |by apply loop_lit].
    by rewrite reverse_app, reverse_involutive. }
  all: eexists _, [], ((k ++ reverse lit) ++ piece_text _);
    (split_and!; revgoals; [|by rewrite app_nil_r, <- app_assoc|]).
  - etrans; [by apply (loop_percent (37 :: fmt))|]. by apply loop_conv.
  - done.
  - etrans; [by apply (loop_percent (115 :: fmt))|]. apply loop_conv; [done|]. eval_conv.
    erewrite prog_bind_step by done. cbn beta iota.
    erewrite prog_bind_step by apply (write_text_append t). by rewrite padding_0.
  - done.
  - etrans; [by apply (loop_percent (114 :: fmt))|]. apply loop_conv; [done|]. eval_conv.
    erewrite prog_bind_step by done. cbn beta iota.
    erewrite prog_bind_step; [|etrans; [apply write_padded_append|apply write_text_append]].
    by rewrite padding_0.
  - done.
  - etrans; [by apply (loop_percent (100 :: fmt))|]. apply loop_conv; [done|]. eval_conv.
    apply conv_signed_append; (done || (by apply read_signed_int) || lia).
  - done.
  - etrans; [by apply (loop_percent (108 :: 100 :: fmt))|]. etrans; [by apply loop_conv|].
    apply loop_conv; [done|]. eval_conv.
    apply conv_signed_append; (done || by apply read_signed_long).
  - done.
  - etrans; [by apply (loop_percent (117 :: fmt))|]. apply loop_conv; [done|]. eval_conv.
    etrans; [apply conv_unsigned_append; (done || apply local_itoa_dec; lia)|]. by rewrite padding_0.
  - done.
  - etrans; [by apply (loop_percent (48 :: 48 + w :: (if up then 88 else 120) :: fmt))|].
    destruct (local_itoa_digits z 16 up) as (ds & E & _); [lia|lia|].
    etrans; [by apply loop_conv|].
    etrans; [apply loop_conv; [done|]; eval_conv; done|].
    destruct up; apply loop_conv; (try done); eval_conv;
      (etrans; [apply conv_unsigned_append; (done || lia)|]); cbn [pad pch piece_text];
      unfold hex_text; rewrite E; do 6 f_equal; rewrite (u64_id (0 * 10)) by lia; rewrite u64_id by lia; lia.
  - done.
  - assert (Hw : ∀ plr k, loop (48 + w :: 115 :: fmt) (Pst true plr 32 0 0 false) [] (VStr (Some t) :: args) k =
      loop fmt (pst_done (Pst true plr 32 w 0 false)) [] args
        (k ++ (if plr then t ++ padding w t 32 else padding w t 32 ++ t))).
    { intros lf' k'. etrans; [apply loop_conv; [done|]; eval_conv; done|].
      apply loop_conv; [done|]. eval_conv. erewrite prog_bind_step by done. cbn beta iota.
      erewrite prog_bind_step by apply (write_text_append t). unfold mret, prog_ret, pst_done.
      cbn [plr pch pad lenmod uc]. rewrite (u64_id (0 * 10)) by lia. rewrite u64_id by lia.
      by replace (0 * 10 + (48 + w - 48)) with w by lia. }
    destruct lf.
    + etrans; [by apply (loop_percent (45 :: 48 + w :: 115 :: fmt))|].
      etrans; [by apply loop_conv|]. apply Hw.
    + etrans; [by apply (loop_percent (48 + w :: 115 :: fmt))|]. apply Hw.
  - by destruct lf.
  - etrans; [by apply (loop_percent (74 :: fmt))|]. apply loop_conv; [done|]. eval_conv.
    unfold conv_sa. erewrite prog_bind_step by done. cbn [sa_text sa_v6 sa_port].
    erewrite prog_bind_step by done. erewrite prog_bind_step by apply write_text_append.
    erewrite prog_bind_step by done. erewrite prog_bind_step by done.
    erewrite prog_bind_step by (apply lift_Ret, local_itoa_dec; lia).
    erewrite prog_bind_step by apply write_text_append. cbn [pst_start pad plr].
    rewrite !padding_0. cbn [app]. by rewrite <- !app_assoc.
  - done.
  - etrans; [by apply (loop_percent (114 :: fmt))|]. apply loop_conv; [done|]. eval_conv.
    erewrite prog_bind_step by done. cbn. by rewrite app_nil_r.
  - done.
  - etrans; [by apply (loop_percent (48 :: 49 :: 54 :: 108 :: 108 :: 120 :: fmt))|].
    destruct (local_itoa_digits z 16 false) as (ds & E & _); [lia|right; lia|].
    do 5 (etrans; [apply loop_conv; [done|]; eval_conv; done|]). apply loop_conv; [done|]. eval_conv.
    etrans; [apply conv_unsigned_long; done|]. cbn [piece_text]. unfold hex_text. rewrite E. done.
  - done.
  - etrans; [by apply (loop_percent (106 :: fmt))|]. apply loop_conv; [done|]. eval_conv.
    unfold conv_sa. erewrite prog_bind_step by done. cbn [piece_text]. destruct (sa_text sa) as [t|]; cbn [default id];
      (erewrite prog_bind_step by apply write_text_append); by rewrite padding_0.
  - done.
  - etrans; [by apply (loop_percent (115 :: fmt))|]. apply loop_conv; [done|]. eval_conv.
    erewrite prog_bind_step by done. cbn. by rewrite app_nil_r.
  - done.
  - etrans; [by apply (loop_percent (105 :: fmt))|]. apply loop_conv; [done|]. eval_conv.
    apply conv_signed_append; (done || (by apply read_signed_int) || lia).
  - done.
Qed.

Lemma loop_pieces ps : ∀ s lit k,
  fm s = false → Forall piece_ok ps →
  loop (fmt_of ps) s lit (args_of ps) k = Ret (0, k ++ reverse lit ++ text_of ps).
Proof.
  induction ps as [|p ps IH]; intros s lit k Hs Hps; cbn [fmt_of args_of text_of map concat].
  - cbn [vhprintf_loop]. rewrite Hs. destruct lit; [by rewrite !app_nil_r|].
    unfold append. by rewrite app_nil_r.
  - inversion Hps; subst. fold (fmt_of ps) (args_of ps) (text_of ps).
    destruct (loop_piece p (fmt_of ps) s lit (args_of ps) k) as (s' & lit' & k' & Hs' & Hk & ->); [done..|].
    rewrite IH by done. by rewrite app_assoc, Hk, <- !app_assoc.
Qed.
End loop.

Lemma re_vhprintf_pieces ph d ps k :
  Forall piece_ok ps → re_vhprintf append ph (S d) (fmt_of ps) (args_of ps) k = Ret (0, k ++ text_of ps).
Proof. intros H. by apply loop_pieces. Qed.

(** A format built from literal text, %%, %s, %r, %d, %ld, %u, %0<w>x, %0<w>X,
    %[-]<w>s, %016llx, %j and %J (IPv4) with arguments of the right kinds prints, without error, the
    concatenation of the texts of its pieces: decimal numbers in canonical form
    with a minus sign where negative, hexadecimal ones and strings padded on
    the side the format asks for. *)
Theorem re_vhprintf_text ph d ps k :
  Forall piece_ok ps →
  re_vhprintf append ph (S d) (fmt_of ps) (args_of ps) k = Ret (0, k ++ text_of ps).
Proof. intros H. by apply loop_pieces. Qed.

Lemma re_vhprintf_text_witness :
  let ps := [PLit (bytes_of "id="); PInt (-42); PLit (bytes_of ";"); PPadStr true 4 (bytes_of "ab"); PHex0 false 4 255] in
  re_vhprintf append no_handler 1 (bytes_of "id=%d;%-4s%04x") (args_of ps) [] =
    Ret (0, bytes_of "id=-42;ab  00ff").
Proof.
  pose proof (re_vhprintf_text no_handler 0
    [PLit (bytes_of "id="); PInt (-42); PLit (bytes_of ";"); PPadStr true 4 (bytes_of "ab"); PHex0 false 4 255] []) as H.
  cbv zeta. apply H. apply (bool_decide_eq_true_1 _). vm_compute. reflexivity.
Defined.


(** ** The two buffers refine the reference sink *)

Definition fits (n : Z) (k : list Z) : Prop := Z.of_nat (length k) ≤ n.

(** The bounded buffer holds the text so far and knows the room left. *)
Definition bounded_rel (size : Z) (k : list Z) (b : outbuf) : Prop :=
  b = OutBuf k (size - 1 - Z.of_nat (length k)).

Lemma print_handler_sim size bs : sim (fits (size - 1)) (bounded_rel size) (append bs) (print_handler bs).
Proof.
  intros k e k' [= <- <-] Hf. unfold fits, bounded_rel in *. rewrite length_app in Hf.
  split; [lia|]. intros b ->. unfold print_handler. cbn [ob_left ob_bytes].
  rewrite bool_decide_eq_false_2 by lia. eexists; split; [done|]. rewrite length_app. f_equal. lia.
Qed.

(** The growing buffer holds the text so far at the start of its allocation,
    keeps a byte for the terminator, and is at most twice as large as needed. *)
Definition dyn_rel (k : list Z) (d : dynbuf) : Prop :=
  Z.of_nat (length (d_str d)) = d_size d ∧ d_off d = Z.of_nat (length k) ∧
  d_l d = d_size d - d_off d ∧ 1 ≤ d_l d ∧ d_size d ≤ Z.max 16 (2 * d_off d) ∧
  take (length k) (d_str d) = k.

Section dyn.
Context (A : allocator) (lim : Z).
Hypothesis (Hlim : lim < 2 ^ 62) (Halloc : ∀ n, 0 ≤ n ≤ Z.max 16 (2 * lim) → alloc_ok A n = true).

Lemma dyn_grow_run k d n :
  dyn_rel k d → 0 ≤ n → d_off d + n ≤ lim →
  ∃ d', dyn_grow A n d = Some d' ∧ d_off d' = d_off d ∧ Z.of_nat (length (d_str d')) = d_size d' ∧
    d_l d' = d_size d' - d_off d' ∧ n < d_l d' ∧ d_size d' ≤ Z.max 16 (2 * (d_off d + n)) ∧
    take (length k) (d_str d') = k.
Proof.
  intros (Hlen & Hoff & Hl & H1 & Hsz & Hk) Hn Hb. unfold dyn_grow.
  rewrite u64_id by lia. case_bool_decide as Hgt; [|exists d; split_and!; done || lia].
  rewrite (u64_id (_ + n)), (u64_id (_ * 2)) by lia. set (N := Z.max (d_size d + n) (d_size d * 2)).
  rewrite Halloc, (u64_id (N - d_size d)), (u64_id (d_l d + _)), u64_id by lia.
  eexists; split; [done|]. cbn [d_off d_str d_l d_size].
  unfold realloc_bytes. rewrite length_resize. split_and!; try lia.
  rewrite resize_spec, firstn_app, take_take, Nat.min_l, Hk by lia.
  rewrite (nil_length_inv (take _ (replicate _ _))); [by rewrite app_nil_r|].
  rewrite length_take, length_take, length_replicate. lia.
Qed.

Lemma print_handler_dyn_sim bs : sim (fits lim) dyn_rel (append bs) (print_handler_dyn A bs).
Proof.
  intros k e k' [= <- <-] Hf. unfold fits in *. rewrite length_app in Hf. split; [lia|].
  intros d Hd. assert (Hok : d_off d = Z.of_nat (length k)) by apply Hd.
  destruct (dyn_grow_run k d (Z.of_nat (length bs)) Hd) as
    (d' & E & Hoff & Hlen & Hl & Hroom & Hsz & Hk); [lia..|].
  unfold print_handler_dyn. rewrite E, memcpy_to_run by lia. eexists; split; [done|].
  unfold dyn_rel. cbn [d_str d_off d_l d_size default from_option].
  unfold id. rewrite u64_id by lia. replace (Z.to_nat (d_off d')) with (length k) by lia. rewrite Hk.
  split_and!; [rewrite !length_app, length_drop; lia|rewrite length_app; lia|lia..|].
  rewrite app_assoc. apply take_app_length.
Qed.
End dyn.

Lemma vsnprintf_run ph0 ph1 d fmt args text size :
  re_vhprintf append ph0 d fmt args [] = Ret (0, text) →
  Z.of_nat (length text) < size ≤ 2 ^ 31 →
  (∀ h, sim (fits (size - 1)) (bounded_rel size) (ph0 h) (ph1 h)) →
  re_vsnprintf ph1 d size fmt args = Ret (Z.of_nat (length text), text ++ [0]).
Proof.
  intros E Hsz Hp1. unfold re_vsnprintf. rewrite bool_decide_eq_false_2 by lia.
  destruct (re_vhprintf_sim _ _ _ _ _ _ (print_handler_sim size) Hp1 d fmt args _ _ _ E) as [_ Hr].
  { unfold fits. lia. }
  destruct (Hr (OutBuf [] (size - 1))) as (b & -> & ->).
  { unfold bounded_rel. simpl. f_equal. lia. }
  cbn [ob_left ob_bytes]. rewrite bool_decide_eq_true_2 by lia. rewrite bool_decide_eq_true_2 by done.
  replace (size - _ - 1) with (Z.of_nat (length text)) by lia.
  do 2 f_equal; [unfold s32; rewrite Z.mod_small; lia|]. by rewrite Nat2Z.id, firstn_all.
Qed.

Lemma vsdprintf_run A ph0 ph2 d fmt args text lim :
  re_vhprintf append ph0 d fmt args [] = Ret (0, text) →
  Z.of_nat (length text) ≤ lim < 2 ^ 62 →
  (∀ h, sim (fits lim) dyn_rel (ph0 h) (ph2 h)) →
  (∀ n, 0 ≤ n ≤ Z.max 16 (2 * lim) → alloc_ok A n = true) →
  re_vsdprintf A ph2 d fmt args = Ret (0, Some text).
Proof.
  intros E Hsz Hp2 HA. unfold re_vsdprintf. rewrite HA by lia.
  destruct (re_vhprintf_sim _ _ _ _ _ _ (print_handler_dyn_sim A lim ltac:(lia) HA) Hp2
    d fmt args _ _ _ E) as [_ Hr].
  { unfold fits. lia. }
  destruct (Hr (DynBuf (replicate 16 (junk A)) 0 16 16)) as (b & -> & Hlen & Hoff & Hl & H1 & _ & Hk).
  { unfold dyn_rel. simpl. split_and!; done || lia. }
  rewrite bool_decide_eq_true_2 by done. rewrite memcpy_to_run by (simpl; lia). simpl.
  replace (Z.to_nat (d_off b)) with (length text) by lia. rewrite Hk.
  by rewrite take_app_length.
Qed.

Lemma vsdprintf_pieces A ps :
  plenty A → Forall piece_ok ps → Z.of_nat (length (text_of ps)) < 2 ^ 31 →
  re_vsdprintf A no_handler 1 (fmt_of ps) (args_of ps) = Ret (0, Some (text_of ps)).
Proof.
  intros HA Hps Hl. eapply (vsdprintf_run A no_handler) with (lim := 2 ^ 31 - 1).
  - by apply (loop_pieces no_handler _ ps pst_init [] []).
  - lia.
  - intros h. apply sim_ret.
  - intros n Hn. apply HA. lia.
Qed.

(** C36: the bounded and the growing buffer implement the reference sink.  If a
    format prints [text] without error then re_snprintf into a buffer with room
    for it and the terminator stores exactly that text, zero-terminated, and
    returns its length; and re_sdprintf, when memory up to twice the text's
    length is available, returns exactly that string, its buffer growing as
    needed without a write outside the allocation. *)
Theorem print_buffers_refine A ph0 ph1 ph2 d fmt args text size :
  re_vhprintf append ph0 d fmt args [] = Ret (0, text) →
  Z.of_nat (length text) < size ≤ 2 ^ 31 →
  (∀ h, sim (fits (size - 1)) (bounded_rel size) (ph0 h) (ph1 h)) →
  (∀ h, sim (fits (size - 1)) dyn_rel (ph0 h) (ph2 h)) →
  (∀ n, 0 ≤ n ≤ Z.max 16 (2 * (size - 1)) → alloc_ok A n = true) →
  re_vsnprintf ph1 d size fmt args = Ret (Z.of_nat (length text), text ++ [0]) ∧
  re_vsdprintf A ph2 d fmt args = Ret (0, Some text).
Proof.
  intros E Hsz Hp1 Hp2 HA. split; [by eapply vsnprintf_run|].
  eapply (vsdprintf_run A ph0 ph2) with (lim := size - 1); (done || lia).
Qed.

Lemma print_buffers_refine_witness :
  let fmt := bytes_of "%s:%u" in
  let args := [VStr (Some (bytes_of "host")); VInt 5060] in
  re_vhprintf append no_handler 1 fmt args [] = Ret (0, bytes_of "host:5060") ∧
  re_vsnprintf no_handler 1 64 fmt args = Ret (9, bytes_of "host:5060" ++ [0]) ∧
  re_vsdprintf small_alloc no_handler 1 fmt args = Ret (0, Some (bytes_of "host:5060")).
Proof.
  cbv zeta. split; [vm_compute; reflexivity|].
  apply (print_buffers_refine small_alloc no_handler no_handler no_handler 1 _ _ (bytes_of "host:5060") 64).
  - vm_compute. reflexivity.
  - simpl. lia.
  - intros h. apply sim_ret.
  - intros h. apply sim_ret.
  - intros n Hn. simpl. apply bool_decide_eq_true_2. lia.
Defined.

(** Re_snprintf never writes outside its buffer: whatever the format and the
    arguments, if it returns it has stored at most [size] bytes, the last of
    them the terminator, and its result is the length of the string, or -1 when
    the text did not fit; a buffer of size 0 is left alone. *)
Theorem re_vsnprintf_bounds ph d size fmt args n out :
  (∀ h b e b', ph h b = Ret (e, b') →
     Z.of_nat (length (ob_bytes b)) + ob_left b = size - 1 → 0 ≤ ob_left b →
     Z.of_nat (length (ob_bytes b')) + ob_left b' = size - 1 ∧ 0 ≤ ob_left b') →
  0 ≤ size ≤ 2 ^ 31 →
  re_vsnprintf ph d size fmt args = Ret (n, out) →
  if bool_decide (size = 0) then n = -1 ∧ out = []
  else ∃ s, out = s ++ [0] ∧ Z.of_nat (length s) < size ∧ (n = -1 ∨ n = Z.of_nat (length s)).
Proof.
  intros Hph Hsz E. unfold re_vsnprintf in E. case_bool_decide; [by injection E as <- <-|].
  destruct (re_vhprintf print_handler ph d fmt args (OutBuf [] (size - 1))) as [[e b]|] eqn:Eh; [|done].
  set (I b := Z.of_nat (length (ob_bytes b)) + ob_left b = size - 1 ∧ 0 ≤ ob_left b).
  destruct (re_vhprintf_sim (λ _, True) (λ b1 b2, b1 = b2 ∧ I b1) print_handler print_handler ph ph)
    with (depth := d) (fmt := fmt) (args := args) (k1 := OutBuf [] (size - 1)) (a := e) (k1' := b) as [_ Hr];
    [| |done|done|].
  - intros bs b1 e1 b1' E1 _. split; [done|]. intros b2 [<- [HI1 HI2]]. exists b1'. split; [done|].
    split; [done|]. unfold print_handler in E1. case_bool_decide; simplify_eq; [done|].
    unfold I. simpl. rewrite length_app. lia.
  - intros h b1 e1 b1' E1 _. split; [done|]. intros b2 [<- [HI1 HI2]]. exists b1'. split; [done|].
    split; [done|]. by apply (Hph _ _ _ _ E1).
  - destruct (Hr (OutBuf [] (size - 1))) as (b' & E' & <- & HI1 & HI2); [split; [done|]; unfold I; simpl; lia|].
    rewrite bool_decide_eq_true_2 in E by lia. injection E as <- <-.
    replace (size - ob_left b - 1) with (Z.of_nat (length (ob_bytes b))) by lia.
    exists (ob_bytes b). rewrite Nat2Z.id, firstn_all. split_and!; [done|lia|].
    case_bool_decide; [right|by left]. unfold s32. rewrite Z.mod_small; lia.
Qed.

Lemma re_vsnprintf_bounds_witness :
  re_vsnprintf no_handler 1 6 (bytes_of "%s:%u") [VStr (Some (bytes_of "host")); VInt 5060] =
    Ret (-1, bytes_of "host:" ++ [0]) ∧
  ∃ s, bytes_of "host:" ++ [0] = s ++ [0] ∧ Z.of_nat (length s) < 6 ∧ (-1 = -1 ∨ -1 = Z.of_nat (length s)).
Proof.
  split; [vm_compute; reflexivity|].
  apply (re_vsnprintf_bounds no_handler 1 6 (bytes_of "%s:%u") [VStr (Some (bytes_of "host")); VInt 5060]).
  - intros h b e b' [= <- <-] H1 H2. auto.
  - lia.
  - vm_compute. reflexivity.
Defined.
