(* ===== verification/MbufPrint.v ===== *)
(** * Printing into a memory buffer (src/re/src/mbuf/mbuf.c)

    [mbuf_vprintf] and [mbuf_printf]: the formatter with a buffer as its sink,
    and what a sequence of prints leaves there. *)
From stdpp Require Import base tactics list numbers strings option.
From S2P Require Import Prelude Mbuf Fmt Print.

Section printf.
Context (A : allocator).

(** The handler of the formatter; a piece of text is never a NULL pointer. *)
Definition vprintf_handler (bs : list Z) : prog mbuf Z := λ mb, mbuf_write_mem A mb (Some bs).

Definition mbuf_vprintf (fmt : list Z) (args : list varg) : prog mbuf Z :=
  re_vhprintf vprintf_handler no_handler 1 fmt args.
Definition mbuf_printf (fmt : list Z) (args : list varg) : prog mbuf Z := mbuf_vprintf fmt args.
End printf.

(** A buffer that was filled from its start with the text [k]. *)
Definition filled (k : list Z) (mb : mbuf) : Prop :=
  mbuf_wf mb ∧ mb_pos mb = Z.of_nat (length k) ∧ mb_end mb = Z.of_nat (length k) ∧
  take (length k) (data mb) = k ∧ mb_size mb ≤ Z.max 4096 (2 * Z.of_nat (length k)).

(** Text of bytes, within the bounds of the model. *)
Definition text_ok (k : list Z) : Prop := bytes_ok k ∧ Z.of_nat (length k) ≤ 2 ^ 30.

Section printed.
Context (A : allocator) `{!allocator_ok A} (HA : plenty A).

Lemma write_size mb bs mb' :
  mbuf_inv mb → Z.of_nat (length bs) ≤ 2 ^ 30 → mb_size mb ≤ 2 ^ 31 → mb_pos mb ≤ 2 ^ 30 →
  mbuf_write_mem A mb (Some bs) = Ret (0, mb') →
  mb_size mb' = mb_size mb ∨ mb_size mb' ≤ Z.max 512 (2 * (mb_pos mb + Z.of_nat (length bs))).
Proof using HA.
  intros (Hsz & Hm & He & Hp & Hb) Hl Hs Hpos. unfold mbuf_write_mem. rewrite !u64_id by lia.
  case_bool_decide as Hgt.
  - unfold mbuf_resize. set (n := Z.max _ _).
    assert (Hn : n ≤ Z.max 512 (2 * (mb_pos mb + Z.of_nat (length bs)))).
    { subst n. unfold DEFAULT_SIZE. case_bool_decide; lia. }
    destruct (alloc_ok A n); cbn [bool_decide]; [|by intros [=]].
    rewrite (bool_decide_eq_true_2 (0 = 0)) by done. intros (b & E1 & E2)%bind_Ret_inv. injection E2 as <-. by right.
  - rewrite (bool_decide_eq_true_2 (0 = 0)) by done. intros (b & E1 & E2)%bind_Ret_inv. injection E2 as <-. by left.
Qed.

(** Appending to a filled buffer. *)
Lemma filled_write k bs mb : filled k mb → text_ok (k ++ bs) →
  ∃ mb', mbuf_write_mem A mb (Some bs) = Ret (0, mb') ∧ filled (k ++ bs) mb'.
Proof using HA allocator_ok0.
  intros (Hwf & Hp & He & Hk & Hs) [Hb Hl]. rewrite length_app in Hl. apply bytes_ok_app in Hb as [Hbk Hb].
  pose proof Hwf as [Hinv Hpe]. pose proof Hinv as (Hsz & Hm & He' & Hp' & Hbs).
  destruct (decide (bs = [])) as [->|Hne].
  - exists mb. split; [|by rewrite app_nil_r]. unfold mbuf_write_mem. cbn [length Z.of_nat]. rewrite Z.add_0_r, u64_id by lia.
    rewrite bool_decide_eq_false_2 by lia. rewrite (bool_decide_eq_true_2 (0 = 0)) by done. unfold memcpy_to. cbn [mbind outcome_bind].
    rewrite Z.add_0_r, u64_id by lia. destruct mb as [b z p e]; cbn in *. do 3 f_equal. lia.
  - destruct (mbuf_write_plenty A mb bs HA Hinv Hb) as (mb' & E & Hwf' & Hw); [lia|lia|done|].
    exists mb'. split; [done|]. pose proof Hw as (W1 & W2 & W3 & W4 & W5).
    split; [done|]. rewrite length_app. split; [lia|]. split; [lia|]. split.
    + assert (H5 : bytes_at mb' 0 (Z.of_nat (length k)) = bytes_at mb 0 (Z.of_nat (length k))) by (apply W5; lia).
      unfold bytes_at in *. rewrite !drop_0, !Nat2Z.id in H5. rewrite Hp, !Nat2Z.id in W4.
      rewrite <- take_take_drop, H5, W4, Hk. done.
    + destruct (write_size mb bs mb') as [Ez|Ez]; [done|lia|lia|lia|done|lia|lia].
Qed.

(** The formatter on a filled buffer: the text it prints is appended. *)
Lemma vprintf_sim bs : sim text_ok filled (append bs) (vprintf_handler A bs).
Proof using HA allocator_ok0.
  intros k e k' [= <- <-] Hok. split.
  - destruct Hok as [Hb Hl]. apply bytes_ok_app in Hb as [Hb _]. rewrite length_app in Hl. split; [done|lia].
  - intros mb Hf. exact (filled_write k bs mb Hf Hok).
Qed.

Lemma mbuf_printf_run ps k mb :
  filled k mb → Forall piece_ok ps → text_ok (k ++ text_of ps) →
  ∃ mb', mbuf_printf A (fmt_of ps) (args_of ps) mb = Ret (0, mb') ∧ filled (k ++ text_of ps) mb'.
Proof using HA allocator_ok0.
  intros Hf Hps Hok. pose proof (re_vhprintf_pieces no_handler 0 ps k Hps) as E.
  destruct (re_vhprintf_sim text_ok filled append (vprintf_handler A) no_handler no_handler vprintf_sim
    (λ h, sim_ret _ _ 0) 1 _ _ _ _ _ E Hok) as [_ Hr].
  exact (Hr mb Hf).
Qed.

Lemma mbuf_write_str_run s k mb : filled k mb → text_ok (k ++ bytes_of s) →
  ∃ mb', mbuf_write_str A mb (Some s) = Ret (0, mb') ∧ filled (k ++ bytes_of s) mb'.
Proof using HA allocator_ok0. apply filled_write. Qed.

(** A fresh buffer is filled with nothing. *)
Lemma mbuf_alloc_filled n : 0 < n ≤ 4096 → ∃ mb, mbuf_alloc A n = Some mb ∧ filled [] mb.
Proof using HA allocator_ok0.
  intros Hn. destruct (mbuf_alloc_plenty A n HA) as (mb & E & Hwf & Hs & Hp & He); [lia|].
  exists mb. split; [done|]. split; [done|]. cbn. split_and!; [done|done|done|lia].
Qed.
End printed.

(** ** Without any assumption on memory

    A print into a well-formed buffer returns, and leaves a well-formed buffer,
    whichever of its allocations fail. *)
Section keeps.
Context {K : Type} (I : K → Prop).

Definition keeps {A} (m : prog K A) : Prop := ∀ k, I k → ∃ a k', m k = Ret (a, k') ∧ I k'.

Lemma keeps_ret {A} (a : A) : keeps (mret a).
Proof. intros k Hk. by exists a, k. Qed.

Lemma keeps_bind {A B} (m : prog K A) (f : A → prog K B) : keeps m → (∀ a, keeps (f a)) → keeps (m ≫= f).
Proof.
  intros Hm Hf k Hk. destruct (Hm k Hk) as (a & k1 & E1 & Hk1). destruct (Hf a k1 Hk1) as (b & k2 & E2 & Hk2).
  exists b, k2. split; [|done]. by rewrite (prog_bind_step _ _ _ _ _ E1).
Qed.

Lemma keeps_lift {A} (m : outcome A) a : m = Ret a → keeps (lift m).
Proof. intros -> k Hk. by exists a, k. Qed.

Context (vph : list Z → prog K Z) (ph : positive → prog K Z) (P : list Z → Prop).
Hypothesis Hv : ∀ bs, P bs → keeps (vph bs).

Lemma write_padded_keeps bs rest c plr :
  P bs → keeps (write_padded vph (Some (bs ++ rest)) (Z.of_nat (length bs)) 0 c plr None).
Proof.
  intros Hbs. unfold write_padded. cbn [str_len]. replace (Z.to_nat (0 - Z.min 0 0 - Z.of_nat (length bs))) with O by lia.
  cbn [pad_loop]. apply keeps_bind; [apply keeps_ret|intros e1]. apply keeps_bind; [destruct plr; apply keeps_ret|intros e2].
  apply keeps_bind; [apply keeps_ret|intros e3]. apply keeps_bind.
  - case_bool_decide; [apply keeps_ret|]. rewrite memcpy_from_run by (rewrite ?length_app; lia).
    rewrite drop_0, Nat2Z.id, take_app_length. intros k Hk. by apply Hv.
  - intros e4. apply keeps_bind; [destruct plr; apply keeps_ret|intros e5; apply keeps_ret].
Qed.

Lemma write_text_keeps bs c plr : P bs → keeps (write_text vph bs 0 c plr None).
Proof. intros Hbs. pose proof (write_padded_keeps bs [] c plr Hbs) as H. by rewrite app_nil_r in H. Qed.

(** The pieces that the program prints into buffers. *)
Definition plain_piece (p : piece) : Prop :=
  match p with
  | PLit l => Forall (λ b, b ≠ chr "%") l
  | PStr s => P s
  | PPl bs _ => P bs
  | PUns z => 0 ≤ z < 2 ^ 32 ∧ P (dec_text z)
  | PNul => True
  | PTag z => 0 ≤ z < 2 ^ 64 ∧ P (bytes_of "0") ∧ P (hex_text false z)
  | PIp sa => P (default (bytes_of "?") (sa_text sa))
  | PNoStr => True
  | _ => False
  end.

Variable rec : list Z → list varg → prog K Z.

(** The conversion of a plain piece that is not literal. *)
Definition conversion (p : piece) (c : Z) (args : list varg) : Prop :=
  match p with
  | PStr s => c = chr "s" ∧ args = [VStr (Some s)]
  | PPl bs r => c = chr "r" ∧ args = [VPl (Some (Pl (Some (bs ++ r)) (Z.of_nat (length bs))))]
  | PUns z => c = chr "u" ∧ args = [VInt z]
  | PNul => c = chr "r" ∧ args = [VPl (Some pl_null)]
  | PIp sa => c = chr "j" ∧ args = [VSa (Some sa)]
  | PNoStr => c = chr "s" ∧ args = [VStr None]
  | _ => False
  end.

Lemma conv_keeps p c args rest :
  conversion p c args → plain_piece p → ∀ k, I k →
  ∃ e s' k', conv vph ph rec c pst_start (args ++ rest) k = Ret (e, s', rest, k') ∧ fm s' = false ∧ I k'.
Proof.
  intros Hin Hp k Hk. destruct p as [l| |s|bs r|z|z|z|up w z|lf w t|addr port| |z|sa| |z]; cbn [plain_piece] in Hp; try done;
    destruct Hin as [-> ->]; cbn [Datatypes.app]; eval_conv;
    try (erewrite prog_bind_step by done; cbn beta iota).
  - destruct (write_text_keeps s (chr " ") false Hp k Hk) as (e & k' & E & Hk'). eexists e, _, k'. split; [by erewrite prog_bind_step by exact E|by split].
  - destruct (write_padded_keeps bs r (chr " ") false Hp k Hk) as (e & k' & E & Hk'). eexists e, _, k'. split; [by erewrite prog_bind_step by exact E|by split].
  - destruct Hp as [Hz Hp]. destruct (write_text_keeps (dec_text z) (chr " ") false Hp k Hk) as (e & k' & E & Hk'). eexists e, _, k'. split; [|split; [|exact Hk']].
    unfold conv_unsigned. erewrite prog_bind_step by done. cbn beta iota. unfold read_unsigned. cbn [lenmod pst_start].
    rewrite (bool_decide_eq_true_2 (0 = 0)), u32_id by (done || lia).
    erewrite prog_bind_step by (apply lift_Ret, local_itoa_dec; lia). by erewrite prog_bind_step by exact E.
    done.
  - by eexists 0, _, k.
  - unfold conv_sa. erewrite prog_bind_step by done. destruct sa as [[t|] port v6]; cbn [sa_text default id] in *;
      destruct (write_text_keeps _ (chr " ") false Hp k Hk) as (e & k' & E & Hk'); eexists e, _, k';
      (split; [cbn beta iota; by erewrite prog_bind_step by exact E|by split]).
  - by eexists 0, _, k.
Qed.

Hypothesis Psub : ∀ a b, P (a ++ b) → P a ∧ P b.
Local Notation loop := (vhprintf_loop vph ph rec).

(** A conversion: the text before it is printed first. *)
Lemma percent_keeps p c args rest lit fmt :
  conversion p c args → plain_piece p → P (reverse lit) → ∀ s, fm s = false →
  (∀ s', fm s' = false → keeps (loop fmt s' [] rest)) → keeps (loop (chr "%" :: c :: fmt) s lit (args ++ rest)).
Proof.
  intros Hc Hp Hlit s Hs Hr k Hk. cbn [vhprintf_loop]. rewrite Hs. rewrite bool_decide_eq_true_2 by done.
  assert (Hl : keeps (match lit with [] => mret 0 | _ => vph (reverse lit) end)) by (destruct lit; [apply keeps_ret|by apply Hv]).
  destruct (Hl k Hk) as (e & k1 & E & Hk1). rewrite (prog_bind_step _ _ _ _ _ E).
  case_bool_decide; [|by exists e, k1]. cbn [fm pst_start].
  destruct (conv_keeps p c args rest Hc Hp k1 Hk1) as (e2 & s' & k2 & E2 & Hs' & Hk2). rewrite (prog_bind_step _ _ _ _ _ E2).
  cbn beta iota. case_bool_decide; [by apply Hr|by exists e2, k2].
Qed.

(** [%016llx]: the padding is printed digit by digit. *)
Lemma pad_loop_keeps n c : P [c] → keeps (pad_loop vph n c).
Proof.
  intros Hc. induction n as [|n IH]; [apply keeps_ret|]. cbn [pad_loop]. apply keeps_bind; [by apply Hv|intros e].
  apply keeps_bind; [done|intros e'; apply keeps_ret].
Qed.

Lemma write_text_pad_keeps bs pd c : P [c] → P bs → keeps (write_text vph bs pd c false None).
Proof.
  intros Hc Hbs. unfold write_text, write_padded. apply keeps_bind; [apply keeps_ret|intros e1].
  apply keeps_bind; [by apply pad_loop_keeps|intros e2]. apply keeps_bind; [apply keeps_ret|intros e3]. apply keeps_bind.
  - case_bool_decide; [apply keeps_ret|]. rewrite memcpy_from_run by lia. rewrite drop_0, Nat2Z.id, firstn_all. intros k Hk. by apply Hv.
  - intros e4. apply keeps_bind; [apply keeps_ret|intros e5; apply keeps_ret].
Qed.

Lemma tag_keeps z rest lit fmt : plain_piece (PTag z) → P (reverse lit) → ∀ s, fm s = false →
  (∀ s', fm s' = false → keeps (loop fmt s' [] rest)) → keeps (loop (bytes_of "%016llx" ++ fmt) s lit (VInt z :: rest)).
Proof.
  intros (Hz & H0 & Hx) Hlit s Hs Hr k Hk. change (bytes_of "%016llx" ++ fmt) with (37 :: 48 :: 49 :: 54 :: 108 :: 108 :: 120 :: fmt).
  cbn [vhprintf_loop]. rewrite Hs. chars. decide_bools.
  assert (Hl : keeps (match lit with [] => mret 0 | _ => vph (reverse lit) end)) by (destruct lit; [apply keeps_ret|by apply Hv]).
  destruct (Hl k Hk) as (e & k1 & E & Hk1). rewrite (prog_bind_step _ _ _ _ _ E).
  case_bool_decide; [|by exists e, k1]. cbn [fm pst_start].
  do 5 (erewrite prog_bind_step by (eval_conv; done); cbn beta iota; rewrite (bool_decide_eq_true_2 (0 = 0)) by done; cbn [fm]).
  destruct (local_itoa_digits z 16 false) as (ds & Ed & _); [lia|right; lia|].
  assert (Ex : local_itoa z 16 false = Ret (hex_text false z)) by (unfold hex_text; by rewrite Ed).
  destruct (write_text_pad_keeps (hex_text false z) 16 48 H0 Hx k1 Hk1) as (e2 & k2 & E2 & Hk2).
  erewrite prog_bind_step.
  2: { eval_conv. unfold conv_unsigned. erewrite prog_bind_step by done. cbn beta iota. cbn [lenmod]. unfold read_unsigned.
       rewrite bool_decide_eq_false_2, (u64_id z) by (exact Hz || lia).
       rewrite (prog_bind_step _ _ _ (hex_text false z) k1) by (by apply lift_Ret).
       erewrite prog_bind_step by exact E2. done. }
  cbn beta iota. case_bool_decide; [by apply Hr|by exists e2, k2].
Qed.

Lemma loop_lit_keeps l fmt s lit args k :
  fm s = false → Forall (λ b, b ≠ chr "%") l → loop (l ++ fmt) s lit args k = loop fmt s (reverse l ++ lit) args k.
Proof.
  clear Hv Psub. intros Hs Hl. revert lit. induction Hl as [|b l Hb _ IH]; intros lit; [done|].
  cbn [Datatypes.app vhprintf_loop]. rewrite Hs, bool_decide_eq_false_2 by done. rewrite IH.
  by rewrite reverse_cons, <- app_assoc.
Qed.

Lemma loop_keeps ps : Forall plain_piece ps → ∀ s lit, fm s = false → P (reverse lit ++ fmt_of ps) →
  keeps (loop (fmt_of ps) s lit (args_of ps)).
Proof.
  induction 1 as [|p ps Hp _ IH]; intros s lit Hs HP.
  - cbn [fmt_of map concat vhprintf_loop]. rewrite Hs. rewrite app_nil_r in HP. destruct lit; [apply keeps_ret|by apply Hv].
  - change (fmt_of (p :: ps)) with (piece_fmt p ++ fmt_of ps) in *. change (args_of (p :: ps)) with (piece_args p ++ args_of ps).
    pose proof (Psub _ _ HP) as [Hlit HP2]. apply Psub in HP2 as [_ HP2].
    assert (Hnext : ∀ s', fm s' = false → keeps (loop (fmt_of ps) s' [] (args_of ps))) by (intros s' Hs'; by apply IH).
    destruct p as [l| |t|bs r|z|z|z|up w z|lf w t|addr port| |z|sa| |z]; cbn [plain_piece] in Hp; try done.
    + intros k Hk. rewrite loop_lit_keeps by done. apply IH; [done| |done]. by rewrite reverse_app, reverse_involutive, <- app_assoc.
    + by apply (percent_keeps (PStr t)).
    + by apply (percent_keeps (PPl bs r)).
    + by apply (percent_keeps (PUns z)).
    + by apply (percent_keeps PNul).
    + by apply tag_keeps.
    + by apply (percent_keeps (PIp sa)).
    + by apply (percent_keeps PNoStr).
Qed.
End keeps.

(** A run of bytes that fits an address space. *)
Definition short (bs : list Z) : Prop := bytes_ok bs ∧ Z.of_nat (length bs) < max_alloc.

Lemma short_app a b : short (a ++ b) → short a ∧ short b.
Proof. intros [[Ha Hb]%bytes_ok_app Hl]. rewrite length_app in Hl. unfold short. split; (split; [done|lia]). Qed.

Section mbuf_keeps.
Context (A : allocator) `{!allocator_ok A}.

Lemma mbuf_write_keeps bs : short bs → keeps mbuf_wf (λ mb, mbuf_write_mem A mb (Some bs)).
Proof using allocator_ok0.
  intros [Hb Hl] mb [Hinv Hle]. pose proof Hinv as (_ & _ & He & _).
  destruct (mbuf_write_mem_run A mb bs Hinv Hl Hb) as [->|(mb' & -> & H)]; [by eexists _, _|].
  eexists _, _. split; [done|]. apply H. right. lia.
Qed.

Lemma mbuf_printf_keeps ps : Forall (plain_piece short) ps → short (fmt_of ps) → keeps mbuf_wf (mbuf_printf A (fmt_of ps) (args_of ps)).
Proof using allocator_ok0.
  intros Hps Hf mb Hmb. unfold mbuf_printf, mbuf_vprintf. cbn [re_vhprintf].
  apply (loop_keeps mbuf_wf (vprintf_handler A) no_handler short); [|exact short_app|done|done|done|done].
  intros bs Hbs. by apply mbuf_write_keeps.
Qed.

Lemma mbuf_alloc_keeps n mb : 0 < n < max_alloc → mbuf_alloc A n = Some mb → mbuf_wf mb.
Proof using allocator_ok0.
  intros Hn. unfold mbuf_alloc. destruct (alloc_ok A _); [|done]. rewrite (bool_decide_eq_false_2 (n = 0)) by lia.
  destruct (mbuf_resize_run A mbuf_init n) as [->|[Hm ->]].
  - apply (bool_decide_eq_true_1 _). vm_compute. done.
  - simpl. lia.
  - rewrite bool_decide_eq_false_2 by done. done.
  - rewrite bool_decide_eq_true_2 by done. intros [= <-]. split; [|simpl; lia]. split_and!; simpl; try lia; try done.
    + rewrite length_replicate. lia.
    + apply Forall_replicate, junk_byte.
Qed.
End mbuf_keeps.
