(* ===== verification/Regex.v ===== *)
(** * Basic regular expressions (src/re/src/fmt/regex.c)

    [re_regex] searches a string for an expression of literal characters and
    quantified character classes, and stores the parts the classes match.  The
    model follows its single loop over the expression, flag by flag; the
    reference semantics is a greedy matcher on a parsed expression. *)
From stdpp Require Import base tactics list numbers strings option.
From S2P Require Import Prelude Mbuf Fmt Print.

(** ** The definitions of regex.c *)

(** [struct chr] *)
Record chr_range := ChrRange { chr_min : Z; chr_max : Z }.

Definition CHRV_SIZE : nat := 64.

Definition expr_match (chrv : list chr_range) (c : Z) (neg : bool) : bool :=
  let found := existsb (λ r, bool_decide (chr_min r ≤ c) && bool_decide (c ≤ chr_max r)) chrv in
  if neg then negb found else found.

(** The local variables of an attempt.  [rx_range] holds the minimum of the
    character that a pending range overwrites. *)
Record rx := Rx {
  rx_fm : bool;
  rx_ec : bool;
  rx_neg : bool;
  rx_qesc : bool;
  rx_eesc : bool;
  rx_range : option Z;
  rx_chrv : list chr_range
}.

Definition rx_init : rx := Rx false false false false false None [].
Definition rx_literal : rx := rx_init.
(** At the start of a character class. *)
Definition rx_class : rx := Rx true false false false false None [].

Definition set_eesc (b : bool) (s : rx) : rx :=
  Rx (rx_fm s) (rx_ec s) (rx_neg s) (rx_qesc s) b (rx_range s) (rx_chrv s).
Definition set_ec (s : rx) : rx := Rx (rx_fm s) true (rx_neg s) (rx_qesc s) (rx_eesc s) (rx_range s) (rx_chrv s).
Definition set_neg (q : bool) (s : rx) : rx :=
  Rx (rx_fm s) (rx_ec s) true (q || rx_qesc s) (rx_eesc s) (rx_range s) (rx_chrv s).
Definition set_range (r : option Z) (l : list chr_range) (s : rx) : rx :=
  Rx (rx_fm s) (rx_ec s) (rx_neg s) (rx_qesc s) (rx_eesc s) r l.

(** The label [chr]: the store into [chrv[n]] is outside the array when it is
    full. *)
Definition add_chr (ch : Z) (s : rx) : outcome rx :=
  if bool_decide (CHRV_SIZE ≤ length (rx_chrv s))%nat then Fault OutOfBounds
  else
    let c := tolower ch in
    let r := match rx_range s with Some m => ChrRange m c | None => ChrRange c c end in
    Ret (set_range None (rx_chrv s ++ [r]) s).

(** The quantifier of a class: least and greatest number of characters. *)
Definition quantifier (ch : Z) : option (Z * Z) :=
  if bool_decide (ch = chr "*") then Some (0, 4294967295)
  else if bool_decide (ch = chr "+") then Some (1, 4294967295)
  else if bool_decide (chr "1" ≤ ch) && bool_decide (ch ≤ chr "9") then Some (ch - chr "0", ch - chr "0")
  else None.

Definition backslash : Z := 92.
Definition dquote : Z := 34.

(** The loop over the characters a class matches; the result is their number. *)
Fixpoint class_loop (s : rx) (nmax : Z) (l : nat) (p : list Z) (nm : Z) (quote esc : bool) : outcome Z :=
  match l with
  | O => Ret nm
  | S l' =>
      if bool_decide (nmax ≤ nm) then Ret nm
      else
        match p with
        | [] => Fault OutOfBounds
        | c :: p' =>
            if rx_qesc s && esc then class_loop s nmax l' p' (nm + 1) quote false
            else if rx_qesc s && bool_decide (c = backslash) then class_loop s nmax l' p' (nm + 1) quote true
            else if rx_qesc s && bool_decide (c = dquote) then class_loop s nmax l' p' (nm + 1) (negb quote) esc
            else if rx_qesc s && quote then class_loop s nmax l' p' (nm + 1) quote esc
            else if expr_match (rx_chrv s) (tolower c) (rx_neg s) then class_loop s nmax l' p' (nm + 1) quote esc
            else Ret nm
        end
  end.

(** Quotes around the match are not part of it. *)
Definition strip_quotes (s : rx) (p : list Z) (nm : Z) : pl * Z :=
  if rx_qesc s && bool_decide (nm > 1) && bool_decide (p !! 0%nat = Some dquote) &&
     bool_decide (p !! Z.to_nat (nm - 1) = Some dquote)
  then (Pl (Some (tail p)) (nm - 2), nm - 2)
  else (Pl (Some p) nm, nm).

(** How an attempt at one position ends: [goto again], or [out]. *)
Inductive rx_result := Again (caps : list (option pl)) | Out (err : Z) (caps : list (option pl)).

(** The loop over the expression; [i] counts the calls of [va_arg]. *)
Fixpoint rx_run (ep : list Z) (s : rx) (p : list Z) (l : nat) (i : nat) (caps : list (option pl)) : outcome rx_result :=
  match ep with
  | [] => Ret (Out (if rx_fm s then EINVAL else 0) caps)
  | ch :: ep' =>
      if bool_decide (ch = backslash) && negb (rx_eesc s) then rx_run ep' (set_eesc true s) p l i caps
      else if negb (rx_fm s) then
        if bool_decide (ch = chr "[") && negb (rx_eesc s) then rx_run ep' rx_class p l i caps
        else
          match l, p with
          | O, _ => Ret (Out ENOENT caps)
          | S _, [] => Fault OutOfBounds
          | S l', c :: p' =>
              if bool_decide (tolower ch ≠ tolower c) then Ret (Again caps)
              else rx_run ep' (set_eesc false s) p' l' i caps
          end
      else if rx_ec s then
        if bool_decide (length caps ≤ i)%nat then Fault VarArg
        else
          match quantifier ch with
          | None => Ret (Out EINVAL caps)
          | Some (nmin, nmax) =>
              nm ← class_loop s nmax l p 0 false false;
              let '(lpl, n) := strip_quotes s p nm in
              if bool_decide (n < nmin) || bool_decide (nmax < n) then Ret (Again caps)
              else rx_run ep' rx_literal (drop (Z.to_nat nm) p) (l - Z.to_nat nm) (S i) (<[i := Some lpl]> caps)
          end
      else if rx_eesc s then s' ← add_chr ch (set_eesc false s); rx_run ep' s' p l i caps
      else if bool_decide (ch = chr "]") then rx_run ep' (set_ec s) p l i caps
      else if bool_decide (ch = chr "~") && bool_decide (rx_chrv s = []) then rx_run ep' (set_neg true s) p l i caps
      else if bool_decide (ch = chr "^") && bool_decide (rx_chrv s = []) then rx_run ep' (set_neg false s) p l i caps
      else
        match bool_decide (ch = chr "-"), rx_range s, list.last (rx_chrv s) with
        | true, None, Some r =>
            rx_run ep' (set_range (Some (chr_min r)) (take (length (rx_chrv s) - 1) (rx_chrv s)) s) p l i caps
        | _, _, _ => s' ← add_chr ch s; rx_run ep' s' p l i caps
        end
  end.

(** The label [again]: one attempt per position that is left. *)
Fixpoint rx_search (expr : list Z) (len : nat) (p : list Z) (caps : list (option pl)) : outcome (Z * list (option pl)) :=
  match len with
  | O => Ret (match expr with [] => 0 | _ => ENOENT end, caps)
  | S len' =>
      r ← rx_run expr rx_init p len 0 caps;
      match r with
      | Out err caps => Ret (err, caps)
      | Again caps => rx_search expr len' (tail p) caps
      end
  end.

(** [re_regex] with [n] result arguments: the error, and what was stored
    through each of them. *)
Definition re_regex (p : pl) (expr : list Z) (n : nat) : outcome (Z * list (option pl)) :=
  match pl_p p with
  | None => Ret (EINVAL, replicate n None)
  | Some m => rx_search expr (Z.to_nat (pl_l p)) m (replicate n None)
  end.

(** ** Safety *)

(** A part of the first [len] bytes of [m]. *)
Definition within (m : list Z) (len : nat) (q : pl) : Prop :=
  ∃ i n, q = Pl (Some (drop i m)) (Z.of_nat n) ∧ (i + n ≤ len)%nat.

Definition caps_within (m : list Z) (len : nat) (caps : list (option pl)) : Prop :=
  Forall (λ c, match c with Some q => within m len q | None => True end) caps.

(** What an expression does whatever the string: the number of results it
    stores, unless one of its classes has more than 64 entries; [n] bounds the
    entries of the class so far. *)
Fixpoint scan (ep : list Z) (fm ec eesc : bool) (n : nat) : option nat :=
  match ep with
  | [] => Some O
  | ch :: ep' =>
      if bool_decide (ch = backslash) && negb eesc then scan ep' fm ec true n
      else if negb fm then
        if bool_decide (ch = chr "[") && negb eesc then scan ep' true false false O else scan ep' false ec false n
      else if ec then S <$> scan ep' false false false O
      else if negb eesc && bool_decide (ch = chr "]") then scan ep' fm true false n
      else if bool_decide (n < 64)%nat then scan ep' fm ec false (S n) else None
  end.

Definition scan_expr (expr : list Z) : option nat := scan expr false false false O.

Lemma class_loop_run s nmax l : ∀ p nm quote esc, (l ≤ length p)%nat →
  ∃ k, class_loop s nmax l p nm quote esc = Ret (nm + Z.of_nat k) ∧ (k ≤ l)%nat.
Proof.
  induction l as [|l IH]; intros p nm quote esc Hl; cbn [class_loop].
  { exists O. split; [|lia]. f_equal. lia. }
  destruct p as [|c p]; cbn [length] in Hl; [lia|].
  assert (Hstop : ∃ k, Ret nm = Ret (nm + Z.of_nat k) ∧ (k ≤ S l)%nat) by (exists O; split; [f_equal; lia|lia]).
  assert (Hgo : ∀ quote esc, ∃ k, class_loop s nmax l p (nm + 1) quote esc = Ret (nm + Z.of_nat k) ∧ (k ≤ S l)%nat).
  { intros q e. destruct (IH p (nm + 1) q e) as (k & -> & Hk); [lia|]. exists (S k). split; [f_equal; lia|lia]. }
  case_bool_decide; [done|]. repeat case_match; auto.
Qed.

Lemma strip_quotes_within s m len k l nm : (k + l ≤ len)%nat → (nm ≤ l)%nat →
  ∃ q n, strip_quotes s (drop k m) (Z.of_nat nm) = (q, n) ∧ within m len q.
Proof.
  intros Hk Hn. unfold strip_quotes. case_match eqn:E; eexists _, _; (split; [done|]).
  - rewrite !andb_true_iff, !bool_decide_eq_true in E. destruct E as [[[_ E] _] _].
    exists (S k), (nm - 2)%nat. split; [|lia].
    assert (Ht : ∀ x : list Z, tail x = drop 1 x) by (intros []; done). rewrite Ht, drop_drop, Nat.add_1_r. f_equal. lia.
  - exists k, nm. split; [done|lia].
Qed.

Lemma add_chr_run ch s : (length (rx_chrv s) < 64)%nat →
  ∃ s', add_chr ch s = Ret s' ∧ length (rx_chrv s') = S (length (rx_chrv s)) ∧ rx_fm s' = rx_fm s ∧
    rx_ec s' = rx_ec s ∧ rx_eesc s' = rx_eesc s.
Proof.
  intros Hl. unfold add_chr, CHRV_SIZE. rewrite bool_decide_eq_false_2 by lia. eexists. split_and!; [done| |done..].
  cbn. rewrite length_app. simpl. lia.
Qed.

Definition captured (caps : list (option pl)) (i : nat) : Prop := ∃ q, caps !! i = Some (Some q).

(** A result: what is stored lies in the string, and a match stores the results
    from [i] to [i + c]. *)
Definition good_result (m : list Z) (len n i c : nat) (r : rx_result) : Prop :=
  match r with
  | Again caps => length caps = n ∧ caps_within m len caps
  | Out err caps => length caps = n ∧ caps_within m len caps ∧ (err = 0 ∨ err = ENOENT ∨ err = EINVAL) ∧
      (err = 0 → ∀ j, (i ≤ j < i + c)%nat → captured caps j)
  end.

Lemma rx_run_keeps ep : ∀ s p l i caps err caps' j,
  rx_run ep s p l i caps = Ret (Out err caps') → (j < i)%nat → caps' !! j = caps !! j.
Proof.
  induction ep as [|ch ep IH]; intros s p l i caps err caps' j E Hj; cbn [rx_run] in E; [by injection E as _ <-|].
  assert (Hadd : ∀ s', (s' ← add_chr ch s'; rx_run ep s' p l i caps) = Ret (Out err caps') → caps' !! j = caps !! j).
  { intros s' E'. apply bind_Ret_inv in E' as (s2 & _ & E'). by eapply IH. }
  destruct (bool_decide (ch = backslash) && negb (rx_eesc s)); [by eapply IH|].
  destruct (negb (rx_fm s)).
  { destruct (bool_decide (ch = chr "[") && negb (rx_eesc s)); [by eapply IH|].
    destruct l, p; try done; [by injection E as _ <-..|]. destruct (bool_decide _); [done|by eapply IH]. }
  destruct (rx_ec s).
  { destruct (bool_decide _); [done|]. destruct (quantifier ch) as [[nmin nmax]|]; [|by injection E as _ <-].
    apply bind_Ret_inv in E as (nm & _ & E). destruct (strip_quotes s p nm) as [q n]. destruct (_ || _); [done|].
    apply (IH _ _ _ _ _ _ _ j) in E; [|lia]. rewrite E. apply list_lookup_insert_ne. lia. }
  destruct (rx_eesc s); [by eapply Hadd|].
  do 3 (match type of E with (if ?b then _ else _) = _ => destruct b; [by eapply IH|] end).
  destruct (bool_decide (ch = chr "-")), (rx_range s), (list.last (rx_chrv s)); try (by eapply Hadd). by eapply IH.
Qed.

Lemma rx_run_safe m len ep : ∀ s k l i caps n c,
  (k + l ≤ len)%nat → (len ≤ length m)%nat → scan ep (rx_fm s) (rx_ec s) (rx_eesc s) n = Some c →
  (length (rx_chrv s) ≤ n)%nat → (i + c ≤ length caps)%nat → caps_within m len caps →
  ∃ r, rx_run ep s (drop k m) l i caps = Ret r ∧ good_result m len (length caps) i c r.
Proof.
  induction ep as [|ch ep IH]; intros s k l i caps n c Hk Hm Hc Hn Hi Hw; cbn [rx_run scan] in *.
  { injection Hc as <-. eexists. split; [done|]. split_and!; [done|done|destruct (rx_fm s); auto|lia]. }
  assert (Hadd : ∀ s', rx_chrv s' = rx_chrv s → rx_fm s' = rx_fm s → rx_ec s' = rx_ec s → rx_eesc s' = false →
    (if bool_decide (n < 64)%nat then scan ep (rx_fm s) (rx_ec s) false (S n) else None) = Some c →
    ∃ r, (s' ← add_chr ch s'; rx_run ep s' (drop k m) l i caps) = Ret r ∧ good_result m len (length caps) i c r).
  { intros s' Es Ef Ee Eq Hc'. case_bool_decide; [|done].
    destruct (add_chr_run ch s') as (s2 & E & Hl2 & Hf2 & He2 & Hq2); [rewrite Es; lia|]. rewrite E. simpl.
    eapply IH; [done|done| | |done|done].
    - rewrite Hf2, He2, Hq2, Ef, Ee, Eq. exact Hc'.
    - rewrite Hl2, Es. lia. }
  destruct (bool_decide (ch = backslash) && negb (rx_eesc s)).
  { eapply IH; [done|done|exact Hc|done|done|done]. }
  destruct (rx_fm s) eqn:Ef; cbn [negb] in Hc |- *.
  2: { destruct (bool_decide (ch = chr "[") && negb (rx_eesc s)) eqn:Eb.
    - eapply IH; [done|done|exact Hc|cbn; lia|done|done].
    - destruct l as [|l]; [eexists; split; [done|]; split_and!; auto; done|].
      destruct (drop k m) as [|b p] eqn:Ep; [apply (f_equal length) in Ep; rewrite length_drop in Ep; simpl in Ep; lia|].
      destruct (bool_decide (tolower ch ≠ tolower b)); [eexists; split; [done|by split]|].
      assert (Hp : p = drop (S k) m) by (by rewrite <- Nat.add_1_r, <- drop_drop, Ep). rewrite Hp.
      eapply IH; [lia|done| |done|done|done]. cbn. by rewrite Ef. }
  destruct (rx_ec s) eqn:Ee.
  { destruct (scan ep false false false 0) as [c'|] eqn:Es; [|done]. injection Hc as <-.
    rewrite bool_decide_eq_false_2 by lia. destruct (quantifier ch) as [[nmin nmax]|].
    2: { eexists. split; [done|]. split_and!; auto. done. }
    destruct (class_loop_run s nmax l (drop k m) 0 false false) as (nm & -> & Hnm); [rewrite length_drop; lia|].
    rewrite Z.add_0_l. simpl. destruct (strip_quotes_within s m len k l nm) as (q & x & -> & Hq); [done|done|].
    destruct (_ || _); [eexists; split; [done|by split]|].
    rewrite Nat2Z.id, drop_drop.
    destruct (IH rx_literal (k + nm)%nat (l - nm)%nat (S i) (<[i := Some q]> caps) O c') as (r & E & Hr);
      [lia|done|exact Es|cbn; lia|rewrite length_insert; lia|by apply Forall_insert|].
    exists r. split; [exact E|]. rewrite length_insert in Hr. destruct r as [caps'|err caps']; [exact Hr|].
    destruct Hr as (H1 & H2 & H3 & H4). split_and!; [done|done|done|]. intros He j Hj.
    destruct (decide (j = i)) as [->|Hne]; [|apply H4; [done|lia]]. exists q.
    rewrite (rx_run_keeps _ _ _ _ _ _ _ _ i E) by lia. apply list_lookup_insert_eq. lia. }
  destruct (rx_eesc s) eqn:Eq; cbn [negb andb] in Hc; [by apply Hadd|].
  destruct (bool_decide (ch = chr "]")) eqn:Er.
  { eapply IH; [done|done| |done|done|done]. cbn. by rewrite Ef, Eq. }
  assert (Hc' : ∀ s', rx_fm s' = true → rx_ec s' = false → rx_eesc s' = false → (length (rx_chrv s') ≤ n)%nat →
    ∃ r, rx_run ep s' (drop k m) l i caps = Ret r ∧ good_result m len (length caps) i c r).
  { intros s' E1 E2 E3 Hl'. case_bool_decide; [|done]. eapply IH; [done|done|rewrite E1, E2, E3; exact Hc|lia|done|done]. }
  do 2 (match goal with |- context [if ?b then _ else _] => destruct b; [apply Hc'; cbn [rx_fm rx_ec rx_eesc rx_chrv set_neg]; done|] end).
  destruct (bool_decide (ch = chr "-")), (rx_range s), (list.last (rx_chrv s)); try (by apply Hadd).
  apply Hc'; cbn [rx_fm rx_ec rx_eesc rx_chrv set_range]; [done..|]. rewrite length_take. lia.
Qed.

Lemma rx_search_safe m len expr l c : ∀ k caps,
  (k + l ≤ len)%nat → (len ≤ length m)%nat → scan_expr expr = Some c → (c ≤ length caps)%nat → caps_within m len caps →
  ∃ err caps', rx_search expr l (drop k m) caps = Ret (err, caps') ∧ length caps' = length caps ∧
    caps_within m len caps' ∧ (err = 0 ∨ err = ENOENT ∨ err = EINVAL) ∧
    (err = 0 → ∀ j, (j < c)%nat → captured caps' j).
Proof.
  induction l as [|l IH]; intros k caps Hk Hm He Hb Hw; cbn [rx_search].
  { eexists _, _. split; [done|]. split_and!; [done|done|destruct expr; auto|].
    destruct expr as [|ch expr]; [|done]. unfold scan_expr in He. cbn in He. injection He as <-. lia. }
  destruct (rx_run_safe m len expr rx_init k (S l) 0 caps O c) as (r & -> & Hr); try done; [cbn; lia..|].
  simpl. destruct r as [caps'|err caps'].
  - destruct Hr as [Hl Hw']. assert (Ht : tail (drop k m) = drop (S k) m).
    { rewrite <- Nat.add_1_r, <- drop_drop. by destruct (drop k m). }
    rewrite Ht, <- Hl. apply IH; (done || lia).
  - destruct Hr as (H1 & H2 & H3 & H4). eexists _, _. split; [done|]. split_and!; try done. intros He0 j Hj. apply H4; [done|lia].
Qed.

Lemma re_regex_run m len expr n c :
  0 ≤ len ≤ Z.of_nat (length m) → scan_expr expr = Some c → (c ≤ n)%nat →
  ∃ err caps, re_regex (Pl (Some m) len) expr n = Ret (err, caps) ∧ (err = 0 ∨ err = ENOENT ∨ err = EINVAL) ∧
    length caps = n ∧ caps_within m (Z.to_nat len) caps ∧ (err = 0 → ∀ j, (j < c)%nat → captured caps j).
Proof.
  intros Hl He Hb. unfold re_regex. cbn [pl_p pl_l].
  destruct (rx_search_safe m (Z.to_nat len) expr (Z.to_nat len) c 0 (replicate n None)) as (err & caps & E & H1 & H2 & H3 & H4).
  - lia.
  - lia.
  - done.
  - by rewrite length_replicate.
  - by apply Forall_replicate.
  - exists err, caps. rewrite drop_0 in E. rewrite length_replicate in H1. done.
Qed.

(** Re_regex on any string inside its memory, for an expression whose
    classes have at most 64 entries, and with as many results as it stores, always
    returns: with 0, ENOENT or EINVAL; it reads nothing outside the string,
    whatever it stores in a result, also when it fails, lies inside the
    string, and a match stores every result. *)
Theorem re_regex_safe m len expr n c :
  0 ≤ len ≤ Z.of_nat (length m) → scan_expr expr = Some c → (c ≤ n)%nat →
  ∃ err caps, re_regex (Pl (Some m) len) expr n = Ret (err, caps) ∧ (err = 0 ∨ err = ENOENT ∨ err = EINVAL) ∧
    length caps = n ∧ caps_within m (Z.to_nat len) caps ∧ (err = 0 → ∀ j, (j < c)%nat → captured caps j).
Proof. intros. by apply re_regex_run. Qed.

Lemma re_regex_safe_witness :
  ∃ err caps, re_regex (Pl (Some (bytes_of "foo 42 bar")) 10) (bytes_of "[0-9]+") 1 = Ret (err, caps) ∧
    caps_within (bytes_of "foo 42 bar") 10 caps.
Proof.
  destruct (re_regex_safe (bytes_of "foo 42 bar") 10 (bytes_of "[0-9]+") 1 1) as (err & caps & E & _ & _ & H & _).
  - vm_compute. split; congruence.
  - reflexivity.
  - lia.
  - exists err, caps. split; [exact E|exact H].
Defined.

(** ** The reference matcher *)

(** A character of a class: itself, a range, or escaped by a backslash. *)
Inductive cls := One (c : Z) | Range (a b : Z) | Esc (c : Z).

(** A literal character, a class with its quantifier, or the negation of one
    that knows quotes. *)
Inductive item := Lit (c : Z) | Class (neg : bool) (cs : list cls) (q : Z) | Quoted (cs : list cls) (q : Z).

Definition plain (c : Z) : bool :=
  negb (bool_decide (c ∈ [backslash; chr "]"; chr "-"; chr "~"; chr "^"])).

Definition cls_ok (c : cls) : bool :=
  match c with One c => plain c | Range a b => plain a && plain b | Esc _ => true end.

Definition item_ok (it : item) : bool :=
  match it with
  | Lit c => true
  | Class _ cs q | Quoted cs q => forallb cls_ok cs && bool_decide (length cs ≤ 64)%nat && bool_decide (is_Some (quantifier q))
  end.

Definition cls_text (c : cls) : list Z :=
  match c with One c => [c] | Range a b => [a; chr "-"; b] | Esc c => [backslash; c] end.

Definition item_text (it : item) : list Z :=
  match it with
  | Lit c => if bool_decide (c = backslash ∨ c = chr "[" ∨ c = chr "]") then [backslash; c] else [c]
  | Class neg cs q => [chr "["] ++ (if neg : bool then [chr "^"] else []) ++ concat (map cls_text cs) ++ [chr "]"; q]
  | Quoted cs q => [chr "["] ++ [chr "~"] ++ concat (map cls_text cs) ++ [chr "]"; q]
  end.

Definition expr_of (its : list item) : list Z := concat (map item_text its).

Definition cls_range (c : cls) : chr_range :=
  match c with
  | One c | Esc c => ChrRange (tolower c) (tolower c)
  | Range a b => ChrRange (tolower a) (tolower b)
  end.

Definition in_class (neg : bool) (cs : list cls) (c : Z) : bool := expr_match (map cls_range cs) (tolower c) neg.

(** The longest prefix of characters of the class, up to a number. *)
Fixpoint run_of (f : Z → bool) (n : nat) (bs : list Z) : nat :=
  match n, bs with
  | S n', b :: r => if f b then S (run_of f n' r) else O
  | _, _ => O
  end.

(** The same where quotes are known: within quotes, and behind a backslash,
    every character belongs to the prefix. *)
Fixpoint quoted_run (f : Z → bool) (n : nat) (bs : list Z) (quote esc : bool) : nat :=
  match n, bs with
  | S n', b :: r =>
      if esc : bool then S (quoted_run f n' r quote false)
      else if bool_decide (b = backslash) then S (quoted_run f n' r quote true)
      else if bool_decide (b = dquote) then S (quoted_run f n' r (negb quote) false)
      else if (quote : bool) || f b then S (quoted_run f n' r quote false)
      else O
  | _, _ => O
  end.

(** A prefix of [n] characters and what follows it; quotes around the prefix
    are not part of it. *)
Definition unquoted (bs : list Z) (n : nat) : list Z * list Z :=
  if bool_decide (1 < n)%nat && bool_decide (bs !! 0%nat = Some dquote) && bool_decide (bs !! (n - 1)%nat = Some dquote)
  then (take (n - 2) (drop 1 bs), drop (n - 1) bs)
  else (take n bs, drop n bs).

(** The result of the reference matcher at one position: the parts the classes
    match, each with what follows it; a literal that finds the end of the string
    ends the whole search. *)
Inductive verdict := Matched (parts : list (list Z * list Z)) | Mismatch | Exhausted.

Fixpoint greedy (its : list item) (bs : list Z) : verdict :=
  match its with
  | [] => Matched []
  | Lit c :: rest =>
      match bs with
      | [] => Exhausted
      | b :: bs' => if bool_decide (tolower c = tolower b) then greedy rest bs' else Mismatch
      end
  | Class neg cs q :: rest =>
      let '(nmin, nmax) := default (0, 0) (quantifier q) in
      let n := run_of (in_class neg cs) (Z.to_nat (Z.min nmax (Z.of_nat (length bs)))) bs in
      if bool_decide (Z.of_nat n < nmin) then Mismatch
      else match greedy rest (drop n bs) with
           | Matched parts => Matched ((take n bs, drop n bs) :: parts)
           | v => v
           end
  | Quoted cs q :: rest =>
      let '(nmin, nmax) := default (0, 0) (quantifier q) in
      let n := quoted_run (in_class true cs) (Z.to_nat (Z.min nmax (Z.of_nat (length bs)))) bs false false in
      let part := unquoted bs n in
      if bool_decide (Z.of_nat (length (fst part)) < nmin) then Mismatch
      else match greedy rest (drop n bs) with Matched parts => Matched (part :: parts) | v => v end
  end.

(** The first position at which the items match. *)
Fixpoint search (its : list item) (bs : list Z) : option (list (list Z * list Z)) :=
  match bs with
  | [] => None
  | _ :: rest =>
      match greedy its bs with
      | Matched parts => Some parts
      | Mismatch => search its rest
      | Exhausted => None
      end
  end.

(** A part as a pointer into the string, whose memory goes on with [rest]. *)
Definition part_pl (rest : list Z) (x : list Z * list Z) : pl :=
  Pl (Some (fst x ++ snd x ++ rest)) (Z.of_nat (length (fst x))).

Fixpoint classes (its : list item) : nat :=
  match its with [] => O | Lit _ :: r => classes r | Class _ _ _ :: r | Quoted _ _ :: r => S (classes r) end.

Lemma rx_class_chars cs : ∀ ep s p l i caps,
  forallb cls_ok cs = true → rx_fm s = true → rx_ec s = false → rx_eesc s = false → rx_range s = None →
  (length (rx_chrv s) + length cs ≤ 64)%nat →
  rx_run (concat (map cls_text cs) ++ ep) s p l i caps =
    rx_run ep (set_range None (rx_chrv s ++ map cls_range cs) s) p l i caps.
Proof.
  assert (Hplain : ∀ c, plain c = true → c ≠ backslash ∧ c ≠ chr "]" ∧ c ≠ chr "-" ∧ c ≠ chr "~" ∧ c ≠ chr "^").
  { intros c Hc%negb_true_iff%bool_decide_eq_false_1. rewrite !not_elem_of_cons in Hc. tauto. }
  assert (Hadd : ∀ c s, (length (rx_chrv s) < 64)%nat → add_chr c s = Ret (set_range None (rx_chrv s ++
      [match rx_range s with Some m => ChrRange m (tolower c) | None => ChrRange (tolower c) (tolower c) end]) s)).
  { intros c s Hs. unfold add_chr, CHRV_SIZE. by rewrite bool_decide_eq_false_2 by lia. }
  assert (Hone : ∀ c ep s p l i caps, plain c = true → rx_fm s = true → rx_ec s = false → rx_eesc s = false →
    (length (rx_chrv s) < 64)%nat → rx_run (c :: ep) s p l i caps = rx_run ep (set_range None (rx_chrv s ++
      [match rx_range s with Some m => ChrRange m (tolower c) | None => ChrRange (tolower c) (tolower c) end]) s) p l i caps).
  { intros c ep s p l i caps (H1 & H2 & H3 & H4 & H5)%Hplain Hf He Hs Hl. cbn [rx_run].
    rewrite (bool_decide_eq_false_2 (c = backslash)) by done. rewrite Hf, He, Hs. cbn [negb andb].
    rewrite !(bool_decide_eq_false_2 (c = _)) by done. cbn [andb]. by rewrite Hadd. }
  induction cs as [|c cs IH]; intros ep s p l i caps Hok Hf He Hs Hr Hl; cbn [map concat Datatypes.app].
  { rewrite app_nil_r. f_equal. destruct s; cbn in *. by subst. }
  cbn [forallb length] in Hok, Hl. apply andb_true_iff in Hok as [Hc Hok].
  assert (Hgo : rx_run (concat (map cls_text cs) ++ ep) (set_range None (rx_chrv s ++ [cls_range c]) s) p l i caps =
    rx_run ep (set_range None (rx_chrv s ++ cls_range c :: map cls_range cs) s) p l i caps).
  { rewrite IH; [|done..|cbn; rewrite length_app; simpl; lia]. cbn. by rewrite <- app_assoc. }
  rewrite <- app_assoc, <- Hgo. destruct c as [c|a b|c]; cbn [cls_text Datatypes.app cls_ok] in *.
  - rewrite Hone by (done || lia). by rewrite Hr.
  - apply andb_true_iff in Hc as [Ha Hb]. rewrite Hone by (done || lia). rewrite Hr.
    set (s1 := set_range None _ s).
    assert (Hdash : ∀ ep', rx_run (chr "-" :: ep') s1 p l i caps =
      rx_run ep' (set_range (Some (tolower a)) (rx_chrv s) s) p l i caps).
    { intros ep'. cbn [rx_run]. rewrite (bool_decide_eq_false_2 (chr "-" = backslash)) by done.
      change (rx_fm s1) with (rx_fm s). change (rx_ec s1) with (rx_ec s). change (rx_eesc s1) with (rx_eesc s).
      rewrite Hf, He, Hs. cbn [negb andb]. rewrite !(bool_decide_eq_false_2 (chr "-" = _)) by done. cbn [andb].
      rewrite bool_decide_eq_true_2 by done. change (rx_range s1) with (@None Z). cbn [rx_chrv s1 set_range].
      rewrite last_snoc, length_app. cbn [length chr_min]. rewrite Nat.add_sub, take_app_length. done. }
    rewrite Hdash, Hone; [done|done|done|done|done|cbn; lia].
  - cbn [rx_run]. rewrite (bool_decide_eq_true_2 (backslash = backslash)) by done. rewrite Hs. cbn [negb andb].
    set (s1 := set_eesc true s). destruct (bool_decide (c = backslash)); change (rx_eesc s1) with true; cbn [negb andb];
      change (rx_fm s1) with (rx_fm s); change (rx_ec s1) with (rx_ec s); rewrite Hf, He; cbn [negb];
      (rewrite Hadd by (cbn; lia)); cbn; rewrite Hr; destruct s; cbn in *; by subst.
Qed.

Lemma class_loop_run_of s neg cs nmax bs rest : rx_qesc s = false → rx_neg s = neg → rx_chrv s = map cls_range cs →
  ∀ nm, 0 ≤ nm → class_loop s nmax (length bs) (bs ++ rest) nm false false =
    Ret (nm + Z.of_nat (run_of (in_class neg cs) (Z.to_nat (Z.min (nmax - nm) (Z.of_nat (length bs)))) bs)).
Proof.
  intros Hq Hn Hc. induction bs as [|b bs IH]; intros nm Hnm; cbn [class_loop length Datatypes.app].
  { rewrite Z.min_comm. destruct (Z.to_nat _); simpl; f_equal; lia. }
  case_bool_decide.
  { replace (Z.to_nat _) with O by lia. simpl. f_equal. lia. }
  rewrite Hq, Hn, Hc. cbn [andb].
  replace (Z.to_nat (Z.min (nmax - nm) (Z.of_nat (S (length bs))))) with
    (S (Z.to_nat (Z.min (nmax - (nm + 1)) (Z.of_nat (length bs))))) by lia.
  cbn [run_of]. fold (in_class neg cs b). destruct (in_class neg cs b).
  - rewrite IH by lia. f_equal. lia.
  - f_equal. lia.
Qed.

Lemma class_loop_quoted s cs nmax bs rest : rx_qesc s = true → rx_neg s = true → rx_chrv s = map cls_range cs →
  ∀ nm quote esc, 0 ≤ nm → class_loop s nmax (length bs) (bs ++ rest) nm quote esc =
    Ret (nm + Z.of_nat (quoted_run (in_class true cs) (Z.to_nat (Z.min (nmax - nm) (Z.of_nat (length bs)))) bs quote esc)).
Proof.
  intros Hq Hn Hc. induction bs as [|b bs IH]; intros nm quote esc Hnm; cbn [class_loop length Datatypes.app].
  { rewrite Z.min_comm. destruct (Z.to_nat _); simpl; f_equal; lia. }
  case_bool_decide.
  { replace (Z.to_nat _) with O by lia. simpl. f_equal. lia. }
  rewrite Hq, Hn, Hc. cbn [andb].
  replace (Z.to_nat (Z.min (nmax - nm) (Z.of_nat (S (length bs))))) with
    (S (Z.to_nat (Z.min (nmax - (nm + 1)) (Z.of_nat (length bs))))) by lia.
  cbn [quoted_run]. fold (in_class true cs b).
  assert (Hgo : ∀ k, Ret (nm + 1 + Z.of_nat k) = Ret (nm + Z.of_nat (S k))) by (intros k; f_equal; lia).
  destruct esc; [by rewrite IH, Hgo by lia|]. destruct (bool_decide (b = backslash)) eqn:Eb.
  { apply bool_decide_eq_true in Eb as ->. by rewrite IH, Hgo by lia. }
  destruct (bool_decide (b = dquote)); [by rewrite IH, Hgo by lia|].
  destruct quote; cbn [orb]; [by rewrite IH, Hgo by lia|].
  destruct (in_class true cs b); [by rewrite IH, Hgo by lia|]. f_equal. lia.
Qed.

(** What a match stores, from the result [i] on. *)
Fixpoint store_parts (rest : list Z) (i : nat) (parts : list (list Z * list Z)) (caps : list (option pl)) : list (option pl) :=
  match parts with
  | [] => caps
  | x :: r => store_parts rest (S i) r (<[i := Some (part_pl rest x)]> caps)
  end.

Lemma run_of_le f n bs : (run_of f n bs ≤ length bs)%nat.
Proof. revert bs. induction n as [|n IH]; intros [|b bs]; cbn [run_of length]; try lia. destruct (f b); [|lia]. specialize (IH bs). lia. Qed.

Lemma run_of_bound f n bs : (run_of f n bs ≤ n)%nat.
Proof. revert bs. induction n as [|n IH]; intros [|b bs]; cbn [run_of]; try lia. destruct (f b); [|lia]. specialize (IH bs). lia. Qed.

Lemma quoted_run_le f n bs : ∀ quote esc, (quoted_run f n bs quote esc ≤ length bs)%nat ∧ (quoted_run f n bs quote esc ≤ n)%nat.
Proof.
  revert bs. induction n as [|n IH]; intros [|b bs] quote esc; cbn [quoted_run length]; try (split; lia).
  assert (H : ∀ q e, (S (quoted_run f n bs q e) ≤ S (length bs))%nat ∧ (S (quoted_run f n bs q e) ≤ S n)%nat).
  { intros q e. destruct (IH bs q e). lia. }
  destruct esc; [apply H|]. destruct (bool_decide _); [apply H|]. destruct (bool_decide _); [apply H|].
  destruct (_ || _); [apply H|lia].
Qed.

Lemma quantifier_range q nmin nmax : quantifier q = Some (nmin, nmax) → 0 ≤ nmax.
Proof.
  unfold quantifier. case_bool_decide; [intros [= <- <-]; lia|]. case_bool_decide; [intros [= <- <-]; lia|].
  destruct (bool_decide (chr "1" ≤ q)) eqn:E1; [|done]. apply bool_decide_eq_true_1 in E1.
  destruct (bool_decide (q ≤ chr "9")); [|done]. intros [= <- <-]. revert E1. unfold chr, char_of. simpl. lia.
Qed.

(** The text of a class, behind [pre], which says what kind of class it is. *)
Lemma rx_run_class_start pre s1 cs q ep s0 p l i caps :
  (∀ ep', rx_run (pre ++ ep') rx_class p l i caps = rx_run ep' s1 p l i caps) →
  rx_fm s1 = true → rx_ec s1 = false → rx_eesc s1 = false → rx_range s1 = None → rx_chrv s1 = [] →
  forallb cls_ok cs = true → (length cs ≤ 64)%nat → rx_fm s0 = false → rx_eesc s0 = false →
  ∃ s, rx_chrv s = map cls_range cs ∧ rx_neg s = rx_neg s1 ∧ rx_qesc s = rx_qesc s1 ∧ rx_fm s = true ∧ rx_ec s = true ∧
    rx_eesc s = false ∧
    rx_run (([chr "["] ++ pre ++ concat (map cls_text cs) ++ [chr "]"; q]) ++ ep) s0 p l i caps = rx_run (q :: ep) s p l i caps.
Proof.
  intros E1 Hf1 Hc1 He1 Hr1 Hv1 Hok Hl Hf He.
  exists (set_ec (set_range None (map cls_range cs) s1)). split_and!; try done.
  cbn [Datatypes.app rx_run]. rewrite (bool_decide_eq_false_2 (chr "[" = backslash)) by done.
  rewrite Hf, He, (bool_decide_eq_true_2 (chr "[" = chr "[")) by done. cbn [andb negb].
  rewrite <- !app_assoc, E1. rewrite rx_class_chars by (done || rewrite Hv1; simpl; lia).
  rewrite Hv1. cbn [Datatypes.app].
  set (s2 := set_range None (map cls_range cs) s1). cbn [rx_run].
  rewrite (bool_decide_eq_false_2 (chr "]" = backslash)) by done. cbn [andb].
  change (rx_fm s2) with (rx_fm s1). change (rx_ec s2) with (rx_ec s1). change (rx_eesc s2) with (rx_eesc s1).
  by rewrite Hf1, Hc1, He1, (bool_decide_eq_true_2 (chr "]" = chr "]")) by done.
Qed.

(** What the quotes around a match are to the model. *)
Lemma strip_quotes_run s bs rest n : rx_qesc s = true → (n ≤ length bs)%nat →
  strip_quotes s (bs ++ rest) (Z.of_nat n) =
    (part_pl rest (unquoted bs n), Z.of_nat (length (fst (unquoted bs n)))).
Proof.
  intros Hq Hn. unfold strip_quotes, unquoted. rewrite Hq. cbn [andb].
  assert (E0 : ∀ k, (k < length bs)%nat → (bs ++ rest) !! k = bs !! k) by (intros; by rewrite lookup_app_l).
  destruct (decide (1 < n)%nat) as [H1|H1].
  - rewrite (bool_decide_eq_true_2 (1 < n)%nat), (bool_decide_eq_true_2 (Z.of_nat n > 1)) by lia. cbn [andb].
    replace (Z.to_nat (Z.of_nat n - 1)) with (n - 1)%nat by lia. rewrite !E0 by lia.
    destruct (bool_decide (bs !! 0%nat = _) && bool_decide (bs !! (n - 1)%nat = _)) eqn:E.
    + apply andb_true_iff in E as [E1 _]. apply bool_decide_eq_true in E1. destruct bs as [|b bs]; [done|].
      cbn [Datatypes.app tail drop length] in *. unfold part_pl. cbn [fst snd]. rewrite length_take.
      rewrite drop_0, Nat.min_l by lia. replace (n - 1)%nat with (S (n - 2)) by lia. cbn [drop]. rewrite app_assoc, take_drop.
      by replace (Z.of_nat n - 2) with (Z.of_nat (n - 2)) by lia.
    + unfold part_pl. cbn [fst snd]. by rewrite length_take, Nat.min_l, app_assoc, take_drop by lia.
  - rewrite (bool_decide_eq_false_2 (1 < n)%nat), (bool_decide_eq_false_2 (Z.of_nat n > 1)) by lia. cbn [andb].
    unfold part_pl. cbn [fst snd]. by rewrite length_take, Nat.min_l, app_assoc, take_drop by lia.
Qed.

(** The quantifier of a class. *)
Lemma rx_run_class_end q ep nmin nmax s p l i caps :
  quantifier q = Some (nmin, nmax) → rx_fm s = true → rx_ec s = true → rx_eesc s = false → (i < length caps)%nat →
  rx_run (q :: ep) s p l i caps =
    (nm ← class_loop s nmax l p 0 false false;
     let '(lpl, n) := strip_quotes s p nm in
     if bool_decide (n < nmin) || bool_decide (nmax < n) then Ret (Again caps)
     else rx_run ep rx_literal (drop (Z.to_nat nm) p) (l - Z.to_nat nm) (S i) (<[i := Some lpl]> caps)).
Proof.
  intros Hq Hf He Hes Hi. assert (Hqb : q ≠ backslash) by (intros ->; discriminate Hq). cbn [rx_run]. rewrite Hes, Hf, He. cbn [negb].
  rewrite (bool_decide_eq_false_2 (q = backslash)) by done. cbn [andb]. rewrite bool_decide_eq_false_2 by lia. by rewrite Hq.
Qed.

Lemma rx_run_items its rest : ∀ bs i caps,
  forallb item_ok its = true → (i + classes its ≤ length caps)%nat →
  ∃ caps', length caps' = length caps ∧ rx_run (expr_of its) rx_init (bs ++ rest) (length bs) i caps =
    Ret (match greedy its bs with
         | Matched parts => Out 0 (store_parts rest i parts caps)
         | Mismatch => Again caps'
         | Exhausted => Out ENOENT caps'
         end).
Proof.
  induction its as [|it its IH]; intros bs i caps Hok Hi; cbn [expr_of map concat greedy]; [by exists caps|].
  cbn [forallb] in Hok. apply andb_true_iff in Hok as [Hit Hok]. fold (expr_of its). destruct it as [c|neg cs q|cs q].
  - cbn [classes item_text] in *.
    assert (Hlit : ∀ ep, rx_run ((if bool_decide (c = backslash ∨ c = chr "[" ∨ c = chr "]") then [backslash; c] else [c]) ++ ep)
        rx_init (bs ++ rest) (length bs) i caps =
      match bs with
      | [] => Ret (Out ENOENT caps)
      | b :: bs' => if bool_decide (tolower c = tolower b) then rx_run ep rx_init (bs' ++ rest) (length bs') i caps
                    else Ret (Again caps)
      end).
    { intros ep. assert (Hne : ∀ b, bool_decide (tolower c ≠ tolower b) = negb (bool_decide (tolower c = tolower b))).
      { intros b. do 2 case_bool_decide; done. }
      destruct (decide (c = backslash ∨ c = chr "[" ∨ c = chr "]")) as [Hs|Hs].
      - rewrite bool_decide_eq_true_2 by done. cbn [Datatypes.app rx_run].
        rewrite (bool_decide_eq_true_2 (backslash = backslash)) by done. cbn [andb negb rx_eesc rx_init set_eesc rx_fm].
        rewrite !andb_false_r. destruct bs as [|b bs]; [done|]. cbn [Datatypes.app length]. rewrite Hne.
        by destruct (bool_decide (tolower c = tolower b)).
      - rewrite bool_decide_eq_false_2 by done. cbn [Datatypes.app rx_run].
        rewrite (bool_decide_eq_false_2 (c = backslash)), (bool_decide_eq_false_2 (c = chr "[")) by tauto.
        cbn [andb negb rx_init rx_fm]. destruct bs as [|b bs]; [done|]. cbn [Datatypes.app length]. rewrite Hne.
        by destruct (bool_decide (tolower c = tolower b)). }
    rewrite Hlit. destruct bs as [|b bs]; [by exists caps|].
    destruct (bool_decide (tolower c = tolower b)); [by apply IH|by exists caps].
  - cbn [item_ok classes] in *. rewrite !andb_true_iff, !bool_decide_eq_true in Hit.
    destruct Hit as [[Hcs Hl] [[nmin nmax] Hq]]. rewrite Hq. cbn [from_option default id]. cbv beta iota.
    set (s1 := if neg then set_neg false rx_class else rx_class).
    destruct (rx_run_class_start (if neg then [chr "^"] else []) s1 cs q (expr_of its) rx_init (bs ++ rest) (length bs) i caps)
      as (s & Hc & Hn & Hqe & Hf & He & Hes & E0); try (by destruct neg).
    cbn [item_text]. rewrite E0. clear E0. replace (rx_neg s1) with neg in Hn by (by destruct neg).
    replace (rx_qesc s1) with false in Hqe by (by destruct neg). clear s1.
    assert (Hqb : q ≠ backslash) by (intros ->; discriminate Hq).
    rewrite (rx_run_class_end _ _ nmin nmax) by (done || lia).
    rewrite (class_loop_run_of s neg cs nmax bs rest) by (done || lia). rewrite Z.sub_0_r, Z.add_0_l.
    cbn [mbind outcome_bind].
    set (n := run_of _ _ bs). assert (Hnl : (n ≤ length bs)%nat) by apply run_of_le.
    assert (Hb : (n ≤ Z.to_nat (Z.min nmax (Z.of_nat (length bs))))%nat) by apply run_of_bound.
    pose proof (quantifier_range q nmin nmax Hq).
    unfold strip_quotes. rewrite Hqe. cbn [andb].
    rewrite (bool_decide_eq_false_2 (nmax < Z.of_nat n)), orb_false_r by lia.
    destruct (bool_decide (Z.of_nat n < nmin)); [by exists caps|].
    rewrite Nat2Z.id, drop_app_le by done. rewrite <- length_drop.
    destruct (IH (drop n bs) (S i) (<[i := Some (Pl (Some (bs ++ rest)) (Z.of_nat n))]> caps)) as (caps' & Hl' & E);
      [done|rewrite length_insert; lia|].
    rewrite length_insert in Hl'. exists caps'. split; [done|]. change rx_literal with rx_init. rewrite E.
    destruct (greedy its (drop n bs)); try done. cbn [store_parts]. do 3 f_equal. f_equal.
    unfold part_pl. cbn [fst snd]. rewrite length_take, app_assoc, take_drop. f_equal. f_equal. lia.
  - cbn [item_ok classes] in *. rewrite !andb_true_iff, !bool_decide_eq_true in Hit.
    destruct Hit as [[Hcs Hl] [[nmin nmax] Hq]]. rewrite Hq. cbn [from_option default id]. cbv beta iota.
    destruct (rx_run_class_start [chr "~"] (set_neg true rx_class) cs q (expr_of its) rx_init (bs ++ rest) (length bs) i caps)
      as (s & Hc & Hn & Hqe & Hf & He & Hes & E0); try done.
    cbn [item_text]. rewrite E0. clear E0. cbn [rx_neg rx_qesc set_neg orb] in Hn, Hqe.
    rewrite (rx_run_class_end _ _ nmin nmax) by (done || lia).
    rewrite (class_loop_quoted s cs nmax bs rest) by (done || lia). rewrite Z.sub_0_r, Z.add_0_l.
    cbn [mbind outcome_bind].
    set (n := quoted_run _ _ bs false false).
    assert (Hnl : (n ≤ length bs)%nat ∧ (n ≤ Z.to_nat (Z.min nmax (Z.of_nat (length bs))))%nat) by apply quoted_run_le.
    destruct Hnl as [Hnl Hb]. pose proof (quantifier_range q nmin nmax Hq).
    rewrite strip_quotes_run by done. assert (Hu : (length (fst (unquoted bs n)) ≤ n)%nat).
    { unfold unquoted. destruct (_ && _); cbn [fst]; rewrite length_take; lia. }
    rewrite (bool_decide_eq_false_2 (nmax < Z.of_nat _)), orb_false_r by lia.
    destruct (bool_decide (Z.of_nat (length (fst (unquoted bs n))) < nmin)); [by exists caps|].
    rewrite Nat2Z.id, drop_app_le by done. rewrite <- length_drop.
    destruct (IH (drop n bs) (S i) (<[i := Some (part_pl rest (unquoted bs n))]> caps)) as (caps' & Hl' & E);
      [done|rewrite length_insert; lia|].
    rewrite length_insert in Hl'. exists caps'. split; [done|]. change rx_literal with rx_init. rewrite E.
    by destruct (greedy its (drop n bs)).
Qed.

Lemma greedy_parts its : ∀ bs parts, greedy its bs = Matched parts → length parts = classes its.
Proof.
  induction its as [|[c|neg cs q|cs q] its IH]; intros bs parts E; cbn [greedy classes] in *.
  - by injection E as <-.
  - destruct bs as [|b bs]; [done|]. destruct (bool_decide _); [by eapply IH|done].
  - destruct (default (0, 0) (quantifier q)) as [nmin nmax]. destruct (bool_decide _); [done|].
    destruct (greedy its _) eqn:E1; [|done..]. injection E as <-. cbn [length]. f_equal. by eapply IH.
  - destruct (default (0, 0) (quantifier q)) as [nmin nmax]. destruct (bool_decide _); [done|].
    destruct (greedy its _) eqn:E1; [|done..]. injection E as <-. cbn [length]. f_equal. by eapply IH.
Qed.

Lemma store_parts_all rest parts : ∀ i caps, length caps = (i + length parts)%nat →
  store_parts rest i parts caps = take i caps ++ map (λ x, Some (part_pl rest x)) parts.
Proof.
  induction parts as [|x parts IH]; intros i caps Hl; cbn [store_parts length map] in *.
  - rewrite take_ge by lia. by rewrite app_nil_r.
  - rewrite IH by (rewrite length_insert; lia).
    rewrite (take_S_r _ _ (Some (part_pl rest x))) by (apply list_lookup_insert_eq; lia).
    rewrite take_insert_ge by lia. by rewrite <- app_assoc.
Qed.

Lemma expr_of_cons it its : expr_of (it :: its) = item_text it ++ expr_of its.
Proof. done. Qed.

Lemma rx_search_items its rest bs : ∀ caps,
  its ≠ [] → forallb item_ok its = true → length caps = classes its →
  match search its bs with
  | Some parts => rx_search (expr_of its) (length bs) (bs ++ rest) caps =
      Ret (0, map (λ x, Some (part_pl rest x)) parts)
  | None => ∃ caps', rx_search (expr_of its) (length bs) (bs ++ rest) caps = Ret (ENOENT, caps')
  end.
Proof.
  intros caps Hne Hok. revert caps. induction bs as [|b bs IH]; intros caps Hl; cbn [search length Datatypes.app rx_search].
  - destruct its as [|it its]; [done|]. rewrite expr_of_cons.
    assert (item_text it ≠ []) by (destruct it; cbn; [case_bool_decide|..]; done).
    destruct (item_text it); [done|]. by exists caps.
  - destruct (rx_run_items its rest (b :: bs) 0 caps Hok) as (caps' & Hl' & E); [lia|].
    cbn [Datatypes.app length] in E. rewrite E. cbn [mbind outcome_bind].
    destruct (greedy its (b :: bs)) as [parts| |] eqn:Eg.
    + rewrite store_parts_all; [done|]. rewrite (greedy_parts _ _ _ Eg). done.
    + apply IH. congruence.
    + by exists caps'.
Qed.

(** C27: for every expression made of literal characters and character classes
    (negated or not, with ranges and escaped characters, or negated with
    quotes kept together and left out, each with a quantifier), re_regex on a
    string agrees with the reference matcher: it
    succeeds at the first position where the classes, each taking as much as it
    can, are followed by the rest of the expression, and stores exactly the parts
    they match; otherwise, also when a literal runs into the end of the string
    before a later position was tried, it fails with ENOENT. *)
Theorem re_regex_spec its bs rest :
  its ≠ [] → forallb item_ok its = true →
  let p := Pl (Some (bs ++ rest)) (Z.of_nat (length bs)) in
  match search its bs with
  | Some parts => re_regex p (expr_of its) (classes its) = Ret (0, map (λ x, Some (part_pl rest x)) parts)
  | None => ∃ caps, re_regex p (expr_of its) (classes its) = Ret (ENOENT, caps)
  end.
Proof.
  intros Hne Hok p. unfold re_regex, p. cbn [pl_p pl_l]. rewrite Nat2Z.id.
  apply rx_search_items; [done|done|by rewrite length_replicate].
Qed.

Definition digits_item : item := Class false [Range (chr "0") (chr "9")] (chr "+").

Lemma re_regex_spec_witness :
  re_regex (Pl (Some (bytes_of "foo 42 bar" ++ [0])) 10) (bytes_of "[0-9]+") 1 =
    Ret (0, [Some (Pl (Some (bytes_of "42 bar" ++ [0])) 2)]).
Proof.
  exact (re_regex_spec [digits_item] (bytes_of "foo 42 bar") [0] ltac:(done) eq_refl).
Defined.

(** The reference matcher in use: for a match at the first position. *)
Lemma regex_match its expr bs rest parts :
  expr = expr_of its → its ≠ [] → forallb item_ok its = true → bs ≠ [] → greedy its bs = Matched parts →
  re_regex (Pl (Some (bs ++ rest)) (Z.of_nat (length bs))) expr (classes its) =
    Ret (0, map (λ x, Some (part_pl rest x)) parts).
Proof.
  intros -> Hne Hok Hbs Hg. pose proof (rx_search_items its rest bs (replicate (classes its) None) Hne Hok) as H.
  rewrite length_replicate in H. specialize (H eq_refl). destruct bs as [|b bs]; [done|].
  cbn [search] in H. rewrite Hg in H. unfold re_regex. cbn [pl_p pl_l]. by rewrite Nat2Z.id.
Qed.

Lemma regex_none its bs rest :
  its ≠ [] → forallb item_ok its = true → search its bs = None →
  ∃ caps, re_regex (Pl (Some (bs ++ rest)) (Z.of_nat (length bs))) (expr_of its) (classes its) = Ret (ENOENT, caps).
Proof.
  intros Hne Hok Hs. pose proof (rx_search_items its rest bs (replicate (classes its) None) Hne Hok) as H.
  rewrite length_replicate in H. specialize (H eq_refl). rewrite Hs in H. unfold re_regex. cbn [pl_p pl_l].
  by rewrite Nat2Z.id.
Qed.

Lemma regex_some its bs rest parts :
  its ≠ [] → forallb item_ok its = true → search its bs = Some parts →
  re_regex (Pl (Some (bs ++ rest)) (Z.of_nat (length bs))) (expr_of its) (classes its) = Ret (0, map (λ x, Some (part_pl rest x)) parts).
Proof.
  intros Hne Hok Hs. pose proof (rx_search_items its rest bs (replicate (classes its) None) Hne Hok) as H.
  rewrite length_replicate in H. specialize (H eq_refl). rewrite Hs in H. unfold re_regex. cbn [pl_p pl_l].
  by rewrite Nat2Z.id.
Qed.

Lemma search_parts its bs parts : search its bs = Some parts → length parts = classes its.
Proof.
  revert parts. induction bs as [|b bs IH]; intros parts; cbn [search]; [done|].
  destruct (greedy its (b :: bs)) eqn:E; [intros [= <-]; by eapply greedy_parts|apply IH|done].
Qed.

(** A run of a class up to a character that is not in it. *)
Lemma run_of_app f n u v : (length u ≤ n)%nat → forallb f u = true →
  match v with [] => True | b :: _ => f b = false end → run_of f n (u ++ v) = length u.
Proof.
  revert n. induction u as [|b u IH]; intros n Hn Hu Hv; cbn [forallb Datatypes.app length] in *.
  - destruct n, v; cbn [run_of]; try done. by rewrite Hv.
  - apply andb_true_iff in Hu as [Hb Hu]. destruct n as [|n]; [lia|]. cbn [run_of]. rewrite Hb. f_equal. apply IH; (done || lia).
Qed.

(** A class that is followed by the end of the string or a character outside. *)
Lemma greedy_class neg cs q its u v nmin nmax :
  quantifier q = Some (nmin, nmax) → nmin ≤ Z.of_nat (length u) ≤ nmax → forallb (in_class neg cs) u = true →
  match v with [] => True | b :: _ => in_class neg cs b = false end →
  greedy (Class neg cs q :: its) (u ++ v) =
    match greedy its v with Matched parts => Matched ((u, v) :: parts) | w => w end.
Proof.
  intros Hq Hn Hu Hv. cbn [greedy]. rewrite Hq. cbn [from_option default id]. cbv beta iota.
  rewrite run_of_app by (try done; rewrite length_app; lia). rewrite bool_decide_eq_false_2 by lia.
  by rewrite drop_app_length, take_app_length.
Qed.

(** A literal character of an expression. *)
Lemma greedy_lit c its v : greedy (Lit c :: its) (c :: v) = greedy its v.
Proof. cbn [greedy]. by rewrite bool_decide_eq_true_2. Qed.

(** The inside of a quoted string: quotes only behind a backslash. *)
Fixpoint quoted_body (l : list Z) (esc : bool) : bool :=
  match l with
  | [] => negb esc
  | c :: r =>
      if esc then quoted_body r false
      else if bool_decide (c = backslash) then quoted_body r true
      else negb (bool_decide (c = dquote)) && quoted_body r false
  end.

(** What ends a run of a class that knows quotes. *)
Definition breaks (cs : list cls) (v : list Z) : Prop :=
  match v with [] => True | b :: _ => in_class true cs b = false ∧ b ≠ dquote ∧ b ≠ backslash end.

Definition unquoted_char (c : Z) : bool := negb (bool_decide (c = dquote ∨ c = backslash)).

Lemma quoted_run_breaks cs n v : breaks cs v → quoted_run (in_class true cs) n v false false = O.
Proof.
  destruct n as [|n], v as [|b v]; try done. intros (Hb & H1 & H2). cbn [quoted_run].
  by rewrite !bool_decide_eq_false_2, Hb by done.
Qed.

Lemma quoted_run_plain cs u v : forallb (in_class true cs) u = true → forallb unquoted_char u = true → breaks cs v →
  ∀ n, (length u ≤ n)%nat → quoted_run (in_class true cs) n (u ++ v) false false = length u.
Proof.
  intros Hu Hq Hv. induction u as [|b u IH]; intros n Hn; cbn [Datatypes.app length] in *; [by apply quoted_run_breaks|].
  cbn [forallb] in *. apply andb_true_iff in Hu as [Hb Hu]. apply andb_true_iff in Hq as [Hbq Hq].
  apply negb_true_iff, bool_decide_eq_false in Hbq. destruct n as [|n]; [lia|]. cbn [quoted_run].
  rewrite !bool_decide_eq_false_2 by tauto. rewrite Hb. cbn [orb]. by rewrite IH by (done || lia).
Qed.

Lemma quoted_run_body f b v : ∀ n esc, quoted_body b esc = true → (length b < n)%nat →
  quoted_run f n (b ++ dquote :: v) true esc = (length b + 1 + quoted_run f (n - length b - 1) v false false)%nat.
Proof.
  induction b as [|c b IH]; intros n esc Hb Hn; (destruct n as [|n]; [simpl in *; lia|]); cbn [Datatypes.app length quoted_body] in *.
  - destruct esc; [done|]. cbn [quoted_run]. rewrite bool_decide_eq_false_2, bool_decide_eq_true_2 by done.
    cbn [negb]. by replace (S n - 0 - 1)%nat with n by lia.
  - assert (Hgo : ∀ e, quoted_body b e = true →
      S (quoted_run f n (b ++ dquote :: v) true e) = (S (length b) + 1 + quoted_run f (S n - S (length b) - 1) v false false)%nat).
    { intros e He. rewrite (IH n e He) by lia. by replace (S n - S (length b) - 1)%nat with (n - length b - 1)%nat by lia. }
    cbn [quoted_run]. destruct esc; [by apply Hgo|]. destruct (bool_decide (c = backslash)); [by apply Hgo|].
    apply andb_true_iff in Hb as [Hc Hb]. apply negb_true_iff in Hc. rewrite Hc. cbn [orb]. by apply Hgo.
Qed.

(** A class that knows quotes on a text without them, and on a quoted string. *)
Lemma greedy_unquoted cs q its u v nmin nmax :
  quantifier q = Some (nmin, nmax) → nmin ≤ Z.of_nat (length u) ≤ nmax →
  forallb (in_class true cs) u = true → forallb unquoted_char u = true → breaks cs v →
  greedy (Quoted cs q :: its) (u ++ v) = match greedy its v with Matched parts => Matched ((u, v) :: parts) | w => w end.
Proof.
  intros Hq Hn Hu Huq Hv. cbn [greedy]. rewrite Hq. cbn [from_option default id]. cbv beta iota.
  rewrite quoted_run_plain by (try done; rewrite length_app; lia).
  assert (E : unquoted (u ++ v) (length u) = (u, v)).
  { unfold unquoted. rewrite (take_app_length u v), (drop_app_length u v).
    destruct (decide (1 < length u)%nat) as [H1|H1]; [|by rewrite bool_decide_eq_false_2].
    destruct u as [|c u]; [done|]. cbn [forallb Datatypes.app] in *. apply andb_true_iff in Huq as [Hc _].
    apply negb_true_iff, bool_decide_eq_false in Hc. rewrite (bool_decide_eq_false_2 ((c :: u ++ v) !! 0%nat = Some dquote)); [by rewrite andb_false_r|].
    cbn. intros [= ->]. tauto. }
  rewrite E. cbn [fst]. rewrite bool_decide_eq_false_2 by lia. by rewrite drop_app_length.
Qed.

Lemma greedy_quoted cs q its b v nmin nmax :
  quantifier q = Some (nmin, nmax) → nmin ≤ Z.of_nat (length b) → Z.of_nat (length b) + 2 ≤ nmax →
  quoted_body b false = true → breaks cs v →
  greedy (Quoted cs q :: its) (dquote :: b ++ dquote :: v) =
    match greedy its v with Matched parts => Matched ((b, dquote :: v) :: parts) | w => w end.
Proof.
  intros Hq Hmin Hmax Hb Hv. cbn [greedy]. rewrite Hq. cbn [from_option default id]. cbv beta iota.
  set (N := Z.to_nat _). assert (HN : (length b + 2 ≤ N)%nat).
  { unfold N. cbn [length]. rewrite length_app. cbn [length]. lia. }
  assert (Er : quoted_run (in_class true cs) N (dquote :: b ++ dquote :: v) false false = (length b + 2)%nat).
  { destruct N as [|N']; [lia|]. cbn [quoted_run]. rewrite bool_decide_eq_false_2, bool_decide_eq_true_2 by done. cbn [negb].
    rewrite quoted_run_body, quoted_run_breaks by (done || lia). lia. }
  rewrite Er. assert (Ed : ∀ k, drop (length b + k) (b ++ dquote :: v) = drop k (dquote :: v)) by (intros k; by rewrite <- drop_drop, drop_app_length).
  assert (E : unquoted (dquote :: b ++ dquote :: v) (length b + 2) = (b, dquote :: v)).
  { unfold unquoted. rewrite (bool_decide_eq_true_2 (1 < _)%nat) by lia.
    rewrite (bool_decide_eq_true_2 ((dquote :: b ++ dquote :: v) !! 0%nat = Some dquote)) by done.
    replace (length b + 2 - 1)%nat with (S (length b + 0)) by lia.
    assert (El : (dquote :: b ++ dquote :: v) !! S (length b + 0) = Some dquote).
    { change ((b ++ dquote :: v) !! (length b + 0)%nat = Some dquote). rewrite lookup_app_r by lia.
      by replace (length b + 0 - length b)%nat with 0%nat by lia. }
    rewrite El, (bool_decide_eq_true_2 (Some dquote = Some dquote)) by done. cbn [drop andb].
    rewrite Ed. replace (length b + 2 - 2)%nat with (length b) by lia. by rewrite !drop_0, take_app_length. }
  rewrite E. cbn [fst]. rewrite bool_decide_eq_false_2 by lia.
  replace (length b + 2)%nat with (S (length b + 1)) by lia. cbn [drop]. by rewrite Ed.
Qed.

(** An expression with a literal that the text does not contain. *)
Lemma greedy_absent c its bs : Lit c ∈ its → (∀ b, b ∈ bs → tolower c ≠ tolower b) → ∀ parts, greedy its bs ≠ Matched parts.
Proof.
  intros Hin. induction its as [|it its IH] in Hin, bs |- *; [by apply elem_of_nil in Hin|]. intros Hc parts.
  apply elem_of_cons in Hin as [<-|Hin].
  - cbn [greedy]. destruct bs as [|b bs]; [done|]. rewrite bool_decide_eq_false_2; [done|]. apply Hc. by left.
  - assert (Hd : ∀ n b, b ∈ drop n bs → tolower c ≠ tolower b).
    { intros n b Hb. apply Hc. rewrite <- (take_drop n bs). apply elem_of_app. by right. }
    destruct it as [d|neg cs q|cs q]; cbn [greedy].
    + destruct bs as [|b bs]; [done|]. case_bool_decide; [|done]. apply (IH bs Hin). intros b' Hb'. apply Hc. by right.
    + destruct (default (0, 0) (quantifier q)) as [nmin nmax]. destruct (bool_decide _); [done|].
      specialize (IH (drop (run_of (in_class neg cs) (Z.to_nat (Z.min nmax (Z.of_nat (length bs)))) bs) bs) Hin (Hd _)). destruct (greedy its _) as [p| |]; [by destruct (IH p)|done|done].
    + destruct (default (0, 0) (quantifier q)) as [nmin nmax]. destruct (bool_decide _); [done|].
      match goal with |- context [greedy its (drop ?n bs)] => specialize (IH (drop n bs) Hin (Hd n)) end. destruct (greedy its _) as [p| |]; [by destruct (IH p)|done|done].
Qed.

Lemma search_absent c its bs : Lit c ∈ its → (∀ b, b ∈ bs → tolower c ≠ tolower b) → search its bs = None.
Proof.
  intros Hin. induction bs as [|b bs IH]; [done|]. intros Hc. cbn [search].
  pose proof (greedy_absent c its (b :: bs) Hin Hc) as Hg. destruct (greedy its (b :: bs)) as [parts| |]; [by destruct (Hg parts)| |done].
  apply IH. intros b' Hb'. apply Hc. by right.
Qed.
