(* ===== verification/Uri.v ===== *)
(** * Uniform Resource Identifiers (src/re/src/uri/)

    Decoding and encoding of SIP URIs, their parameters and headers (uri.c),
    comparison (ucmp.c) and escaping of components (uric.c), on top of the
    regular expressions and the formatter.  The address family of a host is
    what [sa_set] says of its text, which is a parameter. *)
From stdpp Require Import base tactics list numbers strings option.
From S2P Require Import Prelude Mbuf Fmt Print Regex.

(** [struct uri] *)
Record uri := Uri {
  u_scheme : pl;
  u_user : pl;
  u_password : pl;
  u_host : pl;
  u_af : Z;
  u_port : Z;
  u_params : pl;
  u_headers : pl
}.

Definition uri_zero : uri := Uri pl_null pl_null pl_null pl_null 0 0 pl_null pl_null.

(** The address family of an IP address, 0 for any other text. *)
Class inet := { addr_family : list Z → Z }.

(** What is stored through the [i]th result of [re_regex] over [old]. *)
Definition capture (caps : list (option pl)) (i : nat) (old : pl) : pl := default old (default None (caps !! i)).

Definition pl_advance (p : pl) (n : Z) : pl := Pl (drop (Z.to_nat n) <$> pl_p p) (pl_l p - n).

(** The C string in a buffer. *)
Fixpoint c_string (l : list Z) : list Z :=
  match l with [] => [] | b :: r => if bool_decide (b = 0) then [] else b :: c_string r end.

(** ** uri.c: decoding *)

Definition ipv6_host_expr : list Z := bytes_of "\[[0-9a-f:]+\][:]*[0-9]*".
Definition host_expr : list Z := bytes_of "[^:]+[:]*[0-9]*".
Definition user_expr : list Z := bytes_of "[^:]+:[^@:]*[:]*[^@]*@[^;? ]+[^?]*[^]*".
Definition plain_expr : list Z := bytes_of "[^:]+:[^;? ]+[^?]*[^]*".

(** The error, and what [host] and [port] hold afterwards. *)
Definition decode_hostport (hostport host port : pl) : outcome (Z * pl * pl) :=
  q ← re_regex hostport ipv6_host_expr 3;
  let '(err, caps) := q in
  let host := capture caps 0 host in
  let port := capture caps 2 port in
  if bool_decide (err = 0) then Ret (0, host, port)
  else
    q ← re_regex hostport host_expr 3;
    let '(err, caps) := q in
    Ret (err, capture caps 0 host, capture caps 2 port).

Section decode.
Context `{inet}.

(** The label [out] of [uri_decode]. *)
Definition uri_finish (u : uri) (host port : pl) : outcome (Z * uri) :=
  h ← pl_bytes host;
  n ← (if pl_isset port then pl_u32 port else Ret 0);
  Ret (0, Uri (u_scheme u) (u_user u) (u_password u) host (addr_family h) (u16 n) (u_params u) (u_headers u)).

(** [uri_decode]: the error, and the URI, which a failure leaves partly set. *)
Definition uri_decode (p : pl) : outcome (Z * uri) :=
  q ← re_regex p user_expr 7;
  let '(err, caps) := q in
  let u := Uri (capture caps 0 pl_null) (capture caps 1 pl_null) (capture caps 3 pl_null) pl_null 0 0
             (capture caps 5 pl_null) (capture caps 6 pl_null) in
  let hostport := capture caps 4 pl_null in
  q ← (if bool_decide (err = 0) then decode_hostport hostport pl_null pl_null else Ret (err, pl_null, pl_null));
  let '(err, host, port) := q in
  if bool_decide (err = 0) then uri_finish u host port
  else
    q ← re_regex p plain_expr 4;
    let '(err, caps) := q in
    let u := Uri (capture caps 0 pl_null) pl_null pl_null pl_null 0 0 (capture caps 2 pl_null) (capture caps 3 pl_null) in
    if bool_decide (err ≠ 0) then Ret (err, u)
    else
      q ← decode_hostport (capture caps 1 hostport) pl_null port;
      let '(err, host, port) := q in
      if bool_decide (err = 0) then uri_finish u host port
      else Ret (err, Uri (u_scheme u) pl_null pl_null host 0 0 (u_params u) (u_headers u)).
End decode.

(** ** uri.c: parameters and headers *)

(** [re_snprintf(expr, sizeof(expr), fmt, pname)] *)
Definition name_expr (fmt : list Z) (pname : pl) : outcome (list Z) :=
  q ← re_vsnprintf no_handler 1 128 fmt [VPl (Some pname)];
  Ret (c_string (snd q)).

(** The error, and what is stored through [pvalue]. *)
Definition uri_param_get (p pname : pl) : outcome (Z * option pl) :=
  expr ← name_expr (bytes_of ";%r[=]*[^;]*") pname;
  q ← re_regex p expr 2;
  Ret (fst q, default None (snd q !! 1%nat)).

Definition uri_header_get (p hname : pl) : outcome (Z * option pl) :=
  expr ← name_expr (bytes_of "[?&]1%r=[^&]+") hname;
  q ← re_regex p expr 2;
  Ret (fst q, default None (snd q !! 1%nat)).

(** The loops of [uri_params_apply] and [uri_headers_apply] with the handler
    [ah]; every turn takes at least two bytes off [plr]. *)
Fixpoint params_loop (ah : pl → pl → outcome Z) (fuel : nat) (plr : pl) : outcome Z :=
  if bool_decide (pl_l plr ≤ 0) then Ret 0
  else
    match fuel with
    | O => Fault NoFuel
    | S fuel' =>
        q ← re_regex plr (bytes_of ";[^;=]+[=]*[^;]*") 3;
        let '(err, caps) := q in
        if bool_decide (err ≠ 0) then Ret err
        else
          let pname := capture caps 0 pl_null in
          let eq := capture caps 1 pl_null in
          let pvalue := capture caps 2 pl_null in
          e ← ah pname pvalue;
          if bool_decide (e ≠ 0) then Ret e
          else params_loop ah fuel' (pl_advance plr (1 + pl_l pname + pl_l eq + pl_l pvalue))
    end.

Definition uri_params_apply (ah : pl → pl → outcome Z) (p : pl) : outcome Z := params_loop ah (Z.to_nat (pl_l p)) p.

Fixpoint headers_loop (ah : pl → pl → outcome Z) (fuel : nat) (plr : pl) : outcome Z :=
  if bool_decide (pl_l plr ≤ 0) then Ret 0
  else
    match fuel with
    | O => Fault NoFuel
    | S fuel' =>
        q ← re_regex plr (bytes_of "[?&]1[^=]+=[^&]+") 3;
        let '(err, caps) := q in
        if bool_decide (err ≠ 0) then Ret err
        else
          let sep := capture caps 0 pl_null in
          let hname := capture caps 1 pl_null in
          let hvalue := capture caps 2 pl_null in
          e ← ah hname hvalue;
          if bool_decide (e ≠ 0) then Ret e
          else headers_loop ah fuel' (pl_advance plr (pl_l sep + pl_l hname + 1 + pl_l hvalue))
    end.

Definition uri_headers_apply (ah : pl → pl → outcome Z) (p : pl) : outcome Z := headers_loop ah (Z.to_nat (pl_l p)) p.

(** ** ucmp.c *)

(** The parameters that must be in both URIs or in neither. *)
Definition both_params : list (list Z) :=
  [bytes_of "user"; bytes_of "ttl"; bytes_of "method"; bytes_of "maddr"; bytes_of "transport"].

Fixpoint named_in (pname : pl) (l : list (list Z)) : outcome bool :=
  match l with
  | [] => Ret false
  | s :: r => e ← pl_strcmp pname (Some s); if bool_decide (e = 0) then Ret true else named_in pname r
  end.

Definition param_handler (other : pl) (pname pvalue : pl) : outcome Z :=
  both ← named_in pname both_params;
  q ← uri_param_get other pname;
  if bool_decide (fst q ≠ 0) then Ret (if both : bool then ENOENT else 0)
  else pl_casecmp pvalue (default pl_null (snd q)).

Definition header_handler (other : pl) (hname hvalue : pl) : outcome Z :=
  q ← uri_header_get other hname;
  if bool_decide (fst q ≠ 0) then Ret (fst q)
  else pl_casecmp hvalue (default pl_null (snd q)).

(** Goes on with [k] when a comparison yields 0. *)
Definition when_same (c : outcome Z) (k : outcome bool) : outcome bool :=
  e ← c; if bool_decide (e ≠ 0) then Ret false else k.

Definition uri_cmp (l r : uri) : outcome bool :=
  when_same (pl_casecmp (u_scheme l) (u_scheme r))
  (when_same (pl_cmp (u_user l) (u_user r))
  (when_same (pl_cmp (u_password l) (u_password r))
  (when_same (pl_casecmp (u_host l) (u_host r))
  (if bool_decide (u_af l ≠ u_af r) then Ret false
   else if bool_decide (u_port l ≠ u_port r) then Ret false
   else
     when_same (uri_params_apply (param_handler (u_params r)) (u_params l))
     (when_same (uri_params_apply (param_handler (u_params l)) (u_params r))
     (when_same (uri_headers_apply (header_handler (u_headers r)) (u_headers l))
     (when_same (uri_headers_apply (header_handler (u_headers l)) (u_headers r))
     (Ret true)))))))).

(** ** uri.c: encoding *)

Section encode.
Context {K : Type} (vph : list Z → prog K Z) (ph : positive → prog K Z).

Definition re_hprintf (fmt : string) (args : list varg) : prog K Z := re_vhprintf vph ph 1 (bytes_of fmt) args.

Definition AF_INET6 : Z := 10.

(** [user[:password]@], when there is a user. *)
Definition encode_userinfo (u : uri) : prog K Z :=
  if pl_isset (u_user u) then
    err ← re_hprintf "%r" [VPl (Some (u_user u))];
    err ← (if pl_isset (u_password u) then e ← re_hprintf ":%r" [VPl (Some (u_password u))]; mret (Z.lor err e)
           else mret err);
    e ← vph (bytes_of "@");
    mret (Z.lor err e)
  else mret 0.

Definition uri_encode (u : uri) : prog K Z :=
  if negb (pl_isset (u_scheme u)) || negb (pl_isset (u_host u)) then mret EINVAL
  else
    err ← re_hprintf "%r:" [VPl (Some (u_scheme u))];
    if bool_decide (err ≠ 0) then mret err
    else
      err ← encode_userinfo u;
      if bool_decide (err ≠ 0) then mret err
      else
        err ← re_hprintf (if bool_decide (u_af u = AF_INET6) then "[%r]" else "%r") [VPl (Some (u_host u))];
        if bool_decide (err ≠ 0) then mret err
        else
          err ← (if bool_decide (u_port u ≠ 0) then re_hprintf ":%u" [VInt (u_port u)] else mret err);
          e ← re_hprintf "%r%r" [VPl (Some (u_params u)); VPl (Some (u_headers u))];
          mret (Z.lor err e).

(** ** uric.c *)

Definition isalnum (c : Z) : bool :=
  bool_decide (48 ≤ c ≤ 57) || bool_decide (65 ≤ c ≤ 90) || bool_decide (97 ≤ c ≤ 122).

Definition one_of (s : string) (c : Z) : bool := bool_decide (c ∈ bytes_of s).

Definition is_mark : Z → bool := one_of "-_.!~*'()".
Definition is_unreserved (c : Z) : bool := isalnum c || is_mark c.
Definition is_user_unreserved : Z → bool := one_of "&=+$,;?/".
Definition is_hnv_unreserved : Z → bool := one_of "[]/?:+$".
Definition is_user (c : Z) : bool := is_unreserved c || is_user_unreserved c.
Definition is_password (c : Z) : bool := one_of "&=+$," c || is_unreserved c.
Definition is_param_unreserved : Z → bool := one_of "[]/:&+$".
Definition is_paramchar (c : Z) : bool := is_param_unreserved c || is_unreserved c.
Definition is_hvalue (c : Z) : bool := is_hnv_unreserved c || is_unreserved c.

(** A [char] promoted to [int]. *)
Definition schar (c : Z) : Z := if bool_decide (c < 128) then c else c - 256.

(** The loop of [comp_escape] over the bytes of the component. *)
Fixpoint escape_loop (eh : Z → bool) (bs : list Z) : prog K Z :=
  match bs with
  | [] => mret 0
  | c :: r =>
      e ← (if eh c then vph [c] else re_hprintf "%%%02X" [VInt (schar c)]);
      if bool_decide (e ≠ 0) then mret e else escape_loop eh r
  end.

Definition comp_escape (eh : Z → bool) (p : pl) : prog K Z := bs ← lift (pl_bytes p); escape_loop eh bs.

(** The loop of [comp_unescape]: [m] is the memory of the component from its
    next byte, [left] the number of bytes left and [i] the index, which is
    compared with [pl->l - 2] as a [size_t]. *)
Fixpoint unescape_loop (eh : Z → bool) (l : Z) (fuel : nat) (i : Z) (m : list Z) : prog K Z :=
  if bool_decide (l ≤ i) then mret 0
  else
    match fuel with
    | O => crash NoFuel
    | S fuel' =>
        c ← deref_opt OutOfBounds (head m);
        if eh c then
          e ← vph [c];
          if bool_decide (e ≠ 0) then mret e else unescape_loop eh l fuel' (i + 1) (tail m)
        else if bool_decide (c = chr "%") then
          if bool_decide (i < u64 (l - 2)) then
            hi ← deref_opt OutOfBounds (m !! 1%nat);
            lo ← deref_opt OutOfBounds (m !! 2%nat);
            e ← vph [u8 (Z.lor (Z.shiftl (ch_hex hi) 4) (ch_hex lo))];
            if bool_decide (e ≠ 0) then mret e else unescape_loop eh l fuel' (i + 3) (drop 3 m)
          else mret EBADMSG
        else mret EINVAL
    end.

Definition comp_unescape (eh : Z → bool) (p : pl) : prog K Z :=
  unescape_loop eh (pl_l p) (Z.to_nat (pl_l p)) 0 (default [] (pl_p p)).

Definition uri_user_escape : pl → prog K Z := comp_escape is_user.
Definition uri_user_unescape : pl → prog K Z := comp_unescape is_user.
Definition uri_password_escape : pl → prog K Z := comp_escape is_password.
Definition uri_password_unescape : pl → prog K Z := comp_unescape is_password.
Definition uri_param_escape : pl → prog K Z := comp_escape is_paramchar.
Definition uri_param_unescape : pl → prog K Z := comp_unescape is_paramchar.
Definition uri_header_escape : pl → prog K Z := comp_escape is_hvalue.
Definition uri_header_unescape : pl → prog K Z := comp_unescape is_hvalue.
End encode.

(** ** The expressions as items of the reference matcher *)

Definition bracket (neg : bool) (s : string) (q : string) : item := Class neg (map One (bytes_of s)) (chr q).

Definition user_items : list item :=
  [bracket true ":" "+"; Lit (chr ":"); bracket true "@:" "*"; bracket false ":" "*"; bracket true "@" "*"; Lit (chr "@");
   bracket true ";? " "+"; bracket true "?" "*"; bracket true "" "*"].
Definition plain_items : list item :=
  [bracket true ":" "+"; Lit (chr ":"); bracket true ";? " "+"; bracket true "?" "*"; bracket true "" "*"].
Definition host_items : list item :=
  [bracket true ":" "+"; bracket false ":" "*"; Class false [Range (chr "0") (chr "9")] (chr "*")].
Definition ipv6_items : list item :=
  [Lit (chr "["); Class false [Range (chr "0") (chr "9"); Range (chr "a") (chr "f"); One (chr ":")] (chr "+"); Lit (chr "]");
   bracket false ":" "*"; Class false [Range (chr "0") (chr "9")] (chr "*")].

Lemma user_expr_items : user_expr = expr_of user_items. Proof. reflexivity. Qed.
Lemma plain_expr_items : plain_expr = expr_of plain_items. Proof. reflexivity. Qed.
Lemma host_expr_items : host_expr = expr_of host_items. Proof. reflexivity. Qed.
Lemma ipv6_expr_items : ipv6_host_expr = expr_of ipv6_items. Proof. reflexivity. Qed.

(** A character that has no other case. *)
Definition caseless (d : Z) : bool :=
  negb (bool_decide (65 ≤ d ≤ 90)) && negb (bool_decide (97 ≤ d ≤ 122)).

Lemma tolower_caseless d c : caseless d = true → tolower d = tolower c ↔ d = c.
Proof.
  unfold caseless, tolower. rewrite andb_true_iff, !negb_true_iff, !bool_decide_eq_false.
  intros [H1 H2]. repeat case_bool_decide; lia.
Qed.

Lemma in_class_set neg s c : forallb caseless (bytes_of s) = true →
  in_class neg (map One (bytes_of s)) c = (if neg then negb (one_of s c) else one_of s c).
Proof.
  intros Hs. unfold in_class, expr_match, one_of.
  assert (E : existsb (λ r, bool_decide (chr_min r ≤ tolower c) && bool_decide (tolower c ≤ chr_max r))
    (map cls_range (map One (bytes_of s))) = bool_decide (c ∈ bytes_of s)); [|by rewrite E].
  induction (bytes_of s) as [|d l IH]; [done|]. cbn [forallb map existsb cls_range chr_min chr_max] in *.
  apply andb_true_iff in Hs as [Hd Hl]. rewrite IH by done. pose proof (tolower_caseless d c Hd) as Hdc.
  destruct (decide (d = c)) as [->|Hne].
  - rewrite (bool_decide_eq_true_2 (c ∈ c :: l)) by (by left). by rewrite (bool_decide_eq_true_2 (tolower c ≤ tolower c)) by lia.
  - rewrite (bool_decide_ext (c ∈ d :: l) (c ∈ l)) by (rewrite elem_of_cons; naive_solver).
    destruct (bool_decide (c ∈ l)); [by rewrite orb_true_r|]. rewrite orb_false_r.
    assert (tolower d ≠ tolower c) by naive_solver.
    destruct (bool_decide (tolower d ≤ tolower c)) eqn:E1; [|done]. apply bool_decide_eq_true_1 in E1.
    simpl. apply bool_decide_eq_false_2. lia.
Qed.

(** No byte of [l] is one of the characters of [s]. *)
Definition free_of (s : string) (l : list Z) : bool := forallb (λ c, negb (one_of s c)) l.

Lemma free_of_class s l : forallb caseless (bytes_of s) = true → free_of s l = true →
  forallb (in_class true (map One (bytes_of s))) l = true.
Proof.
  intros Hs Hl. unfold free_of in Hl. induction l as [|c l IH]; [done|]. cbn [forallb] in *.
  apply andb_true_iff in Hl as [Hc Hl]. by rewrite (in_class_set true), Hc, IH.
Qed.

(** What may follow a run of [[^s]]: nothing, or one of the characters. *)
Definition stops (s : string) (v : list Z) : bool := match v with [] => true | c :: _ => one_of s c end.
(** What may follow a run of [[s]]. *)
Definition starts_free (s : string) (v : list Z) : bool := match v with [] => true | c :: _ => negb (one_of s c) end.

Lemma greedy_not s q its u v nmin nmax :
  forallb caseless (bytes_of s) = true → quantifier (chr q) = Some (nmin, nmax) →
  nmin ≤ Z.of_nat (length u) ≤ nmax → free_of s u = true → stops s v = true →
  greedy (bracket true s q :: its) (u ++ v) =
    match greedy its v with Matched parts => Matched ((u, v) :: parts) | w => w end.
Proof.
  intros Hs Hq Hn Hu Hv. apply (greedy_class true _ (chr q) its u v nmin nmax Hq Hn); [by apply free_of_class|].
  destruct v as [|c v]; [done|]. cbn [stops] in Hv. by rewrite (in_class_set true), Hv.
Qed.

Lemma greedy_of s its u v : forallb caseless (bytes_of s) = true →
  Z.of_nat (length u) ≤ 4294967295 → forallb (one_of s) u = true → starts_free s v = true →
  greedy (bracket false s "*" :: its) (u ++ v) =
    match greedy its v with Matched parts => Matched ((u, v) :: parts) | w => w end.
Proof.
  intros Hs Hn Hu Hv. apply (greedy_class false _ (chr "*") its u v 0 4294967295 eq_refl); [lia| |].
  - clear -Hs Hu. induction u as [|c u IH]; [done|]. cbn [forallb] in *. apply andb_true_iff in Hu as [Hc Hu].
    by rewrite (in_class_set false), Hc, IH.
  - destruct v as [|c v]; [done|]. rewrite (in_class_set false) by done. by apply negb_true_iff.
Qed.

Definition all_digits (l : list Z) : bool := forallb (λ c, bool_decide (48 ≤ c ≤ 57)) l.

Lemma in_digits c : in_class false [Range (chr "0") (chr "9")] c = bool_decide (48 ≤ c ≤ 57).
Proof.
  unfold in_class, expr_match. cbn [map existsb cls_range chr_min chr_max].
  change (tolower (chr "0")) with 48. change (tolower (chr "9")) with 57. rewrite orb_false_r.
  unfold tolower. case_bool_decide as H1; case_bool_decide as H2; try case_bool_decide; try case_bool_decide; try done; lia.
Qed.

Lemma greedy_digits its u : Z.of_nat (length u) ≤ 4294967295 → all_digits u = true →
  greedy (Class false [Range (chr "0") (chr "9")] (chr "*") :: its) u =
    match greedy its [] with Matched parts => Matched ((u, []) :: parts) | w => w end.
Proof.
  intros Hn Hu. rewrite <- (app_nil_r u) at 1.
  apply (greedy_class false _ (chr "*") its u [] 0 4294967295 eq_refl); [lia| |done].
  unfold all_digits in Hu. clear -Hu. induction u as [|c u IH]; [done|]. cbn [forallb] in *.
  apply andb_true_iff in Hu as [Hc Hu]. by rewrite in_digits, Hc, IH.
Qed.

(** ** URIs as text *)

(** The components of a URI; no port is 0. *)
Record parts := Parts {
  p_scheme : list Z;
  p_user : list Z;
  p_pass : list Z;
  p_host : list Z;
  p_port : Z;
  p_params : list Z;
  p_headers : list Z
}.

Definition port_text (n : Z) : list Z := if bool_decide (n = 0) then [] else dec_text n.
Definition colon_text (l : list Z) : list Z := match l with [] => [] | _ => chr ":" :: l end.

Definition userinfo_text (x : parts) : list Z :=
  match p_user x with [] => [] | _ => p_user x ++ colon_text (p_pass x) ++ [chr "@"] end.
Definition hostport_text (x : parts) : list Z := p_host x ++ colon_text (port_text (p_port x)).
Definition uri_text (x : parts) : list Z :=
  p_scheme x ++ chr ":" :: userinfo_text x ++ hostport_text x ++ p_params x ++ p_headers x.

(** Components that cannot be taken for one another. *)
Record parts_ok (x : parts) : Prop := {
  po_scheme : p_scheme x ≠ [] ∧ free_of ":" (p_scheme x) = true;
  po_user : free_of "@:" (p_user x) = true;
  po_pass : free_of "@" (p_pass x) = true ∧ starts_free ":" (p_pass x) = true;
  po_host : p_host x ≠ [] ∧ free_of ":;? [@" (p_host x) = true;
  po_port : 0 ≤ p_port x < 65536;
  po_params : stops ";" (p_params x) = true ∧ free_of "?" (p_params x) = true;
  po_headers : stops "?" (p_headers x) = true;
  po_nouser : p_user x = [] → p_pass x = [] ∧ free_of "@" (p_params x ++ p_headers x) = true;
  po_size : Z.of_nat (length (uri_text x)) ≤ 4294967295
}.

Lemma free_of_app s u v : free_of s (u ++ v) = free_of s u && free_of s v.
Proof. unfold free_of. apply forallb_app. Qed.

Lemma free_of_weaken s s' l : (∀ c, one_of s c = true → one_of s' c = true) → free_of s' l = true → free_of s l = true.
Proof.
  intros Hs. unfold free_of. induction l as [|c l IH]; [done|]. cbn [forallb]. rewrite !andb_true_iff.
  intros [Hc Hl]. split; [|by apply IH]. destruct (one_of s c) eqn:E; [by rewrite (Hs c E) in Hc|done].
Qed.

(** Inclusion of character sets, by computation. *)
Lemma one_of_incl s s' : forallb (one_of s') (bytes_of s) = true → ∀ c, one_of s c = true → one_of s' c = true.
Proof.
  rewrite forallb_forall. intros Hs c Hc. apply Hs, list_elem_of_In. by apply bool_decide_eq_true_1 in Hc.
Qed.

Ltac free_weaken :=
  match goal with H : free_of ?s' ?l = true |- free_of ?s ?l = true =>
    exact (free_of_weaken s s' l (one_of_incl s s' eq_refl) H) end.

Lemma digits_dec n : 0 ≤ n < 2 ^ 64 → all_digits (dec_text n) = true ∧ dec_text n ≠ [] ∧
  ∀ rest, pl_u32 (Pl (Some (dec_text n ++ rest)) (Z.of_nat (length (dec_text n)))) = Ret (n `mod` 2 ^ 32).
Proof.
  intros Hn. destruct (local_itoa_digits n 10 false) as (ds & E & Hds & Hv & Hl & _); [lia|lia|].
  rewrite local_itoa_dec in E by lia. injection E as ->. split_and!.
  - unfold all_digits. clear -Hds. induction Hds as [|d ds Hd _ IH]; [done|]. cbn [map forallb]. rewrite IH.
    assert (∃ k, d = Z.of_nat k ∧ (k < 10)%nat) as (k & -> & Hk) by (exists (Z.to_nat d); lia).
    do 10 (destruct k as [|k]; [done|]). lia.
  - intros E. apply (f_equal length) in E. rewrite length_map in E. simpl in E. lia.
  - intros rest. unfold pl_u32, u32. rewrite pl_num_run by lia.
    by rewrite (mapM_digits _ false 10), Hv by (done || apply digit_char_dec).
Qed.

(** [re_hprintf] of a format made of pieces, into the reference sink. *)
Lemma hprintf_pieces ps fmt args k :
  bytes_of fmt = fmt_of ps → args = args_of ps → Forall piece_ok ps →
  re_hprintf append no_handler fmt args k = Ret (0, k ++ text_of ps).
Proof. intros E -> H. unfold re_hprintf. rewrite E. by apply loop_pieces. Qed.

(** ** Decoding a text *)

Lemma search_no_lit c its bs : caseless c = true → c ∉ bs → search (Lit c :: its) bs = None.
Proof.
  intros Hc. induction bs as [|b bs IH]; [done|]. intros [Hne Hin]%not_elem_of_cons. cbn [search greedy].
  rewrite bool_decide_eq_false_2; [by apply IH|]. rewrite tolower_caseless by done. done.
Qed.

Lemma free_of_notin s c l : one_of s c = true → free_of s l = true → c ∉ l.
Proof.
  intros Hs Hl Hin. unfold free_of in Hl. rewrite forallb_forall in Hl. apply list_elem_of_In, Hl in Hin. by rewrite Hs in Hin.
Qed.

Lemma stops_app s u v : stops s u = true → stops s v = true → stops s (u ++ v) = true.
Proof. by destruct u. Qed.

Lemma stops_weaken s s' v : (∀ c, one_of s c = true → one_of s' c = true) → stops s v = true → stops s' v = true.
Proof. destruct v; cbn; auto. Qed.

Ltac stops_weaken :=
  match goal with H : stops ?s ?l = true |- stops ?s' ?l = true =>
    exact (stops_weaken s s' l (one_of_incl s s' eq_refl) H) end.

Definition host_ok (h : list Z) : Prop := h ≠ [] ∧ free_of ":[" h = true.

(** A colon before a port that is there. *)
Definition colon_of (l : list Z) : list Z := match l with [] => [] | _ => [chr ":"] end.

Lemma colon_text_split l : colon_text l = colon_of l ++ l.
Proof. by destruct l. Qed.

Lemma port_digits n : 0 ≤ n < 65536 → all_digits (port_text n) = true.
Proof. intros Hn. destruct (digits_dec n ltac:(lia)) as (Hd & _). unfold port_text. by case_bool_decide. Qed.

Lemma digits_free s l : forallb (λ c, negb (bool_decide (48 ≤ c ≤ 57))) (bytes_of s) = true → all_digits l = true → free_of s l = true.
Proof.
  intros Hs. unfold all_digits, free_of. induction l as [|c l IH]; [done|]. cbn [forallb]. rewrite !andb_true_iff.
  intros [Hc Hl]. split; [|by apply IH]. apply negb_true_iff, bool_decide_eq_false_2. intros Hin.
  rewrite forallb_forall in Hs. apply list_elem_of_In, Hs in Hin. by rewrite Hc in Hin.
Qed.

Lemma decode_hostport_run h n rest host port : host_ok h → 0 ≤ n < 65536 →
  let hp := h ++ colon_text (port_text n) in
  Z.of_nat (length hp) ≤ 4294967295 →
  decode_hostport (Pl (Some (hp ++ rest)) (Z.of_nat (length hp))) host port =
    Ret (0, Pl (Some (hp ++ rest)) (Z.of_nat (length h)),
         Pl (Some (port_text n ++ rest)) (Z.of_nat (length (port_text n)))).
Proof.
  intros [Hne Hfree] Hn hp Hl. set (pd := port_text n) in *. pose proof (port_digits n Hn) as Hpd. fold pd in Hpd.
  assert (Hhp : hp ≠ []) by (unfold hp; by destruct h).
  assert (Hbr : free_of "[" hp = true).
  { unfold hp. rewrite free_of_app, colon_text_split, free_of_app. rewrite (digits_free "[" pd) by done.
    assert (free_of "[" h = true) as -> by free_weaken. by destruct pd. }
  unfold decode_hostport. rewrite ipv6_expr_items, host_expr_items.
  assert (Hs6 : search ipv6_items hp = None) by (apply search_no_lit; [done|by apply (free_of_notin "[")]).
  destruct (regex_none ipv6_items hp rest ltac:(done) eq_refl Hs6) as [caps H6].
  change (classes ipv6_items) with 3%nat in H6. rewrite H6.
  cbn [mbind outcome_bind]. rewrite bool_decide_eq_false_2 by done.
  assert (Hlen : Z.of_nat (length h + length (colon_of pd) + length pd) ≤ 4294967295).
  { unfold hp in Hl. rewrite length_app, colon_text_split, length_app in Hl. lia. }
  assert (Hg : greedy host_items hp = Matched [(h, colon_of pd ++ pd); (colon_of pd, pd); (pd, [])]).
  { unfold hp, host_items. rewrite colon_text_split.
    rewrite (greedy_not ":" "+" _ h _ 1 4294967295); [|done|done| |free_weaken|by destruct pd].
    2: { destruct h; [done|]. cbn [length] in *. lia. }
    rewrite (greedy_of ":"); [|done|lia|by destruct pd|].
    2: { pose proof (digits_free ":" pd ltac:(done) Hpd) as Hf. destruct pd; [done|]. cbn in Hf |- *.
      by apply andb_true_iff in Hf as [? _]. }
    rewrite greedy_digits by (done || lia). done. }
  pose proof (regex_match host_items (expr_of host_items) hp rest _ eq_refl ltac:(done) eq_refl Hhp Hg) as Hr.
  change (classes host_items) with 3%nat in Hr. rewrite Hr. cbn [mbind outcome_bind map capture part_pl fst snd].
  unfold capture, hp. cbn. rewrite colon_text_split, <- !app_assoc. unfold part_pl. cbn [fst snd]. by rewrite <- !app_assoc.
Qed.

(** The components a decoded URI points to: in the text, or nowhere when they
    are missing. *)
Definition denotes (p : pl) (bs : list Z) : Prop := views p bs ∨ (bs = [] ∧ p = pl_null).

Record uri_is (u : uri) (x : parts) (af : Z) : Prop := {
  ui_scheme : views (u_scheme u) (p_scheme x);
  ui_user : denotes (u_user u) (p_user x);
  ui_pass : denotes (u_password u) (p_pass x);
  ui_host : views (u_host u) (p_host x);
  ui_params : views (u_params u) (p_params x);
  ui_headers : views (u_headers u) (p_headers x);
  ui_port : u_port u = p_port x;
  ui_af : u_af u = af
}.

Section decode_text.
Context `{inet}.

Lemma uri_finish_run u x rest1 rest2 :
  0 ≤ p_port x < 65536 → p_host x ≠ [] →
  uri_finish u (Pl (Some (p_host x ++ rest1)) (Z.of_nat (length (p_host x))))
    (Pl (Some (port_text (p_port x) ++ rest2)) (Z.of_nat (length (port_text (p_port x))))) =
  Ret (0, Uri (u_scheme u) (u_user u) (u_password u) (Pl (Some (p_host x ++ rest1)) (Z.of_nat (length (p_host x))))
    (addr_family (p_host x)) (p_port x) (u_params u) (u_headers u)).
Proof.
  intros Hn Hh. unfold uri_finish. rewrite pl_bytes_run. cbn [mbind outcome_bind].
  destruct (digits_dec (p_port x) ltac:(lia)) as (_ & Hd & Hp). unfold port_text, pl_isset. cbn [pl_p pl_l].
  destruct (decide (p_port x = 0)) as [E|E].
  - rewrite (bool_decide_eq_true_2 (p_port x = 0)) by done. cbn. by rewrite E.
  - rewrite (bool_decide_eq_false_2 (p_port x = 0)) by done. rewrite Hp.
    rewrite bool_decide_eq_false_2 by (destruct (dec_text (p_port x)); [done|simpl; lia]). cbn.
    by rewrite Z.mod_small, u16_id by lia.
Qed.

(** A text without an at-sign does not match the expression with a user. *)
Lemma user_expr_none s r rest :
  s ≠ [] → free_of ":" s = true → free_of "@" r = true →
  Z.of_nat (length (s ++ chr ":" :: r)) ≤ 4294967295 →
  let t := s ++ chr ":" :: r in
  ∃ caps, re_regex (Pl (Some (t ++ rest)) (Z.of_nat (length t))) user_expr 7 = Ret (ENOENT, caps).
Proof.
  intros Hne Hs Hr Hl t. rewrite user_expr_items. apply (regex_none user_items t rest ltac:(done) eq_refl).
  assert (Hg : greedy user_items t = Exhausted).
  { unfold t, user_items. rewrite (greedy_not ":" "+" _ s _ 1 4294967295); [|done|done| |done|done].
    2: { rewrite length_app in Hl. destruct s; [done|]. cbn [length] in *. lia. }
    rewrite greedy_lit. rewrite length_app in Hl. cbn [length] in Hl.
    assert (Hdrop : ∀ n, free_of "@" (drop n r) = true ∧ (length (drop n r) ≤ length r)%nat).
    { intros n. split; [|rewrite length_drop; lia]. rewrite <- (take_drop n r), free_of_app in Hr.
      by apply andb_true_iff in Hr as [_ ?]. }
    assert (Hstar : ∀ neg set its bs, (∀ n, greedy its (drop n bs) = Exhausted) →
      greedy (bracket neg set "*" :: its) bs = Exhausted).
    { intros neg set its bs Hx. cbn [greedy bracket]. change (quantifier (chr "*")) with (Some (0, 4294967295)).
      cbn [from_option default id]. cbv beta iota. rewrite bool_decide_eq_false_2 by lia. by rewrite Hx. }
    rewrite Hstar; [done|]. intros n. apply Hstar. intros m. destruct (Hdrop n) as [Hn Hnl].
    rewrite drop_drop. destruct (Hdrop (n + m)%nat) as [Hnm Hnml].
    rewrite <- (app_nil_r (drop (n + m) r)).
    rewrite (greedy_not "@" "*" _ _ [] 0 4294967295); [done|done|done|lia|done|done]. }
  destruct t as [|b t'] eqn:Et; [by destruct s|]. cbn [search]. by rewrite Hg.
Qed.

(** The URI that [uri_finish] completes. *)
Definition finished (u : uri) (x : parts) (rest : list Z) : uri :=
  Uri (u_scheme u) (u_user u) (u_password u) (Pl (Some (hostport_text x ++ rest)) (Z.of_nat (length (p_host x))))
    (addr_family (p_host x)) (p_port x) (u_params u) (u_headers u).

(** The host and port of a match of either expression. *)
Lemma decode_finish x tl rest host port : parts_ok x →
  ∃ h n, decode_hostport (part_pl rest (hostport_text x, tl)) host port = Ret (0, h, n) ∧
    ∀ u, uri_finish u h n = Ret (0, finished u x (tl ++ rest)).
Proof.
  unfold part_pl. cbn [fst snd]. generalize (tl ++ rest). clear rest. intros rest.
  intros [Hs Hu Hp [Hh Hhf] Hn Hpa Hhe Hno Hsz]. unfold finished, hostport_text.
  rewrite decode_hostport_run; [|split; [done|free_weaken]|done|].
  2: { unfold uri_text in Hsz. rewrite !length_app in Hsz. cbn [length] in Hsz. rewrite !length_app in Hsz.
    unfold hostport_text in Hsz. lia. }
  eexists _, _. split; [done|]. intros u. rewrite <- app_assoc. by apply uri_finish_run.
Qed.

Lemma hostport_free x : parts_ok x → free_of ";? @" (hostport_text x) = true ∧ hostport_text x ≠ [].
Proof.
  intros [_ _ _ [Hh Hhf] Hn _ _ _ _]. unfold hostport_text. split; [|by destruct (p_host x)].
  pose proof (port_digits _ Hn) as Hpd. rewrite free_of_app, colon_text_split, free_of_app.
  rewrite (digits_free ";? @" _ eq_refl Hpd).
  assert (free_of ";? @" (p_host x) = true) as -> by free_weaken. by destruct (port_text (p_port x)).
Qed.

Lemma free_of_nil l : free_of "" l = true.
Proof. unfold free_of. induction l as [|c l IH]; [done|]. done. Qed.

(** The greedy match of the part behind the user. *)
Lemma greedy_tail x : parts_ok x →
  greedy [bracket true ";? " "+"; bracket true "?" "*"; bracket true "" "*"]
    (hostport_text x ++ p_params x ++ p_headers x) =
  Matched [(hostport_text x, p_params x ++ p_headers x); (p_params x, p_headers x); (p_headers x, [])].
Proof.
  intros Hok. destruct (hostport_free x Hok) as [Hf Hne]. destruct Hok as [_ _ _ _ _ [Hps Hpf] Hhe _ Hsz].
  unfold uri_text in Hsz. rewrite !length_app in Hsz. cbn [length] in Hsz. rewrite !length_app in Hsz.
  rewrite (greedy_not ";? " "+" _ (hostport_text x) _ 1 4294967295); [|done|done| |free_weaken|].
  2: { destruct (hostport_text x); [done|]. cbn [length] in *. lia. }
  2: { apply stops_app; stops_weaken. }
  rewrite (greedy_not "?" "*" _ (p_params x) _ 0 4294967295); [|done|done|lia|done|done].
  rewrite <- (app_nil_r (p_headers x)) at 1.
  rewrite (greedy_not "" "*" _ (p_headers x) [] 0 4294967295); [done|done|done|lia|apply free_of_nil|done].
Qed.

(** The greedy match of a text with a user. *)
Lemma greedy_user x : parts_ok x → p_user x ≠ [] →
  let R := hostport_text x ++ p_params x ++ p_headers x in
  greedy user_items (uri_text x) =
  Matched [(p_scheme x, chr ":" :: userinfo_text x ++ R);
    (p_user x, colon_of (p_pass x) ++ p_pass x ++ chr "@" :: R);
    (colon_of (p_pass x), p_pass x ++ chr "@" :: R); (p_pass x, chr "@" :: R);
    (hostport_text x, p_params x ++ p_headers x); (p_params x, p_headers x); (p_headers x, [])].
Proof.
  intros Hok Hue R. pose proof Hok as [[Hs Hsf] Hu [Hpf Hps] _ _ _ _ _ Hsz].
  assert (Ei : userinfo_text x = p_user x ++ colon_of (p_pass x) ++ p_pass x ++ [chr "@"]).
  { unfold userinfo_text. rewrite colon_text_split, <- app_assoc. by destruct (p_user x). }
  unfold uri_text in Hsz |- *. fold R in Hsz |- *. rewrite Ei in Hsz |- *.
  rewrite !length_app in Hsz. cbn [length] in Hsz. rewrite !length_app in Hsz. unfold user_items.
  rewrite (greedy_not ":" "+" _ (p_scheme x) _ 1 4294967295); [|done|done| |done|done].
  2: { destruct (p_scheme x); [done|]. cbn [length] in *. lia. }
  rewrite greedy_lit, <- !app_assoc.
  rewrite (greedy_not "@:" "*" _ (p_user x) _ 0 4294967295); [|done|done|lia|done|].
  2: { destruct (p_pass x) as [|c w]; done. }
  rewrite (greedy_of ":"); [|done|destruct (p_pass x); simpl; lia|by destruct (p_pass x)|].
  2: { destruct (p_pass x); done. }
  rewrite (greedy_not "@" "*" _ (p_pass x) _ 0 4294967295); [|done|done|lia|done|done].
  cbn [Datatypes.app]. rewrite greedy_lit. unfold R. by rewrite greedy_tail.
Qed.

Lemma views_part rest x : views (part_pl rest x) x.1.
Proof. exists (x.2 ++ rest). unfold part_pl. by rewrite app_assoc. Qed.

Lemma views_host x rest : views (Pl (Some (hostport_text x ++ rest)) (Z.of_nat (length (p_host x)))) (p_host x).
Proof. exists (colon_text (port_text (p_port x)) ++ rest). unfold hostport_text. by rewrite <- app_assoc. Qed.

(** [uri_decode] of the text of components, on either branch. *)
Lemma uri_decode_run x rest :
  parts_ok x →
  ∃ u, uri_decode (Pl (Some (uri_text x ++ rest)) (Z.of_nat (length (uri_text x)))) = Ret (0, u) ∧
    uri_is u x (addr_family (p_host x)).
Proof.
  intros Hok. pose proof Hok as [[Hs Hsf] Hu [Hpf Hps] _ _ _ _ Hno Hsz]. unfold uri_decode.
  destruct (decide (p_user x = [])) as [Eu|Hue].
  - destruct (Hno Eu) as [Hp Hat].
    set (R := hostport_text x ++ p_params x ++ p_headers x).
    assert (Et : uri_text x = p_scheme x ++ chr ":" :: R) by (unfold uri_text, userinfo_text; by rewrite Eu).
    rewrite Et in *. assert (Hrf : free_of "@" R = true).
    { destruct (hostport_free x Hok) as [Hf _]. unfold R. rewrite free_of_app.
      assert (free_of "@" (hostport_text x) = true) as -> by free_weaken. done. }
    destruct (user_expr_none (p_scheme x) R rest Hs Hsf Hrf Hsz) as [caps E1]. rewrite E1. cbn [mbind outcome_bind].
    rewrite !(bool_decide_eq_false_2 (ENOENT = 0)) by done. cbn [mbind outcome_bind].
    rewrite (bool_decide_eq_false_2 (ENOENT = 0)) by done.
    assert (Hg : greedy plain_items (p_scheme x ++ chr ":" :: R) = Matched [(p_scheme x, chr ":" :: R);
      (hostport_text x, p_params x ++ p_headers x); (p_params x, p_headers x); (p_headers x, [])]).
    { unfold plain_items. rewrite (greedy_not ":" "+" _ (p_scheme x) _ 1 4294967295); [|done|done| |done|done].
      2: { rewrite length_app in Hsz. destruct (p_scheme x); [done|]. cbn [length] in *. lia. }
      rewrite greedy_lit. unfold R. by rewrite greedy_tail. }
    rewrite plain_expr_items.
    pose proof (regex_match plain_items _ (p_scheme x ++ chr ":" :: R) rest _ eq_refl ltac:(done) eq_refl
      ltac:(by destruct (p_scheme x)) Hg) as Hr.
    change (classes plain_items) with 4%nat in Hr. rewrite Hr. cbn [mbind outcome_bind].
    rewrite (bool_decide_eq_false_2 (0 ≠ 0)) by (by intros []).
    unfold capture. cbn [map lookup list_lookup default from_option id].
    match goal with |- context [decode_hostport _ ?h ?q] =>
      destruct (decode_finish x (p_params x ++ p_headers x) rest h q Hok) as (hh & n & -> & Hfin) end.
    cbn [mbind outcome_bind]. rewrite bool_decide_eq_true_2, Hfin by done.
    eexists. split; [done|]. unfold finished. split; cbn; rewrite ?Eu, ?Hp; try apply views_part; try (by right); try done.
    apply views_host.
  - rewrite user_expr_items.
    pose proof (regex_match user_items _ (uri_text x) rest _ eq_refl ltac:(done) eq_refl
      ltac:(unfold uri_text; by destruct (p_scheme x)) (greedy_user x Hok Hue)) as Hr.
    change (classes user_items) with 7%nat in Hr. rewrite Hr. cbn [mbind outcome_bind].
    rewrite (bool_decide_eq_true_2 (0 = 0)) by done.
    unfold capture. cbn [map lookup list_lookup default from_option id].
    match goal with |- context [decode_hostport _ ?h ?q] =>
      destruct (decode_finish x (p_params x ++ p_headers x) rest h q Hok) as (hh & n & -> & Hfin) end.
    cbn [mbind outcome_bind]. rewrite bool_decide_eq_true_2, Hfin by done.
    eexists. split; [done|]. unfold finished. split; cbn; try apply views_part; try (left; apply views_part); try done.
    apply views_host.
Qed.

End decode_text.

(** ** Encoding components *)

Lemma isset_views p bs : views p bs → pl_isset p = negb (bool_decide (bs = [])).
Proof. intros [rest ->]. unfold pl_isset. cbn. f_equal. apply bool_decide_ext. destruct bs; simpl; split; (done || lia). Qed.

Lemma isset_denotes p bs : denotes p bs → pl_isset p = negb (bool_decide (bs = [])).
Proof. intros [H|[-> ->]]; [by apply isset_views|done]. Qed.

Lemma denotes_views p bs : denotes p bs → bs ≠ [] → views p bs.
Proof. intros [H|[-> _]]; done. Qed.

(** One %r between literals. *)
Lemma hprintf_pl (pre post : string) p bs k : views p bs →
  Forall (λ b, b ≠ chr "%") (bytes_of pre) → Forall (λ b, b ≠ chr "%") (bytes_of post) →
  ∀ fmt, bytes_of fmt = bytes_of pre ++ bytes_of "%r" ++ bytes_of post →
  re_hprintf append no_handler fmt [VPl (Some p)] k = Ret (0, k ++ bytes_of pre ++ bs ++ bytes_of post).
Proof.
  intros [rest ->] H1 H2 fmt E. erewrite (hprintf_pieces [PLit (bytes_of pre); PPl bs rest; PLit (bytes_of post)]).
  - unfold text_of. cbn [map concat piece_text]. by rewrite app_nil_r.
  - rewrite E. unfold fmt_of. cbn [map concat piece_fmt]. by rewrite app_nil_r.
  - done.
  - by repeat constructor.
Qed.

Lemma encode_userinfo_run u x af k : uri_is u x af → (p_user x = [] → p_pass x = []) →
  encode_userinfo append no_handler u k = Ret (0, k ++ userinfo_text x).
Proof.
  intros [_ Hu Hp _ _ _ _ _] Hno. unfold encode_userinfo, userinfo_text. rewrite (isset_denotes _ _ Hu).
  destruct (decide (p_user x = [])) as [E|E].
  - rewrite bool_decide_eq_true_2 by done. cbn. by rewrite E, app_nil_r.
  - rewrite bool_decide_eq_false_2 by done. cbn [negb]. apply (denotes_views _ _ Hu) in E as Hu'.
    rewrite (prog_bind_step _ _ _ _ _ (hprintf_pl "" "" _ _ k Hu' ltac:(constructor) ltac:(constructor) "%r" eq_refl)).
    rewrite app_nil_r. change (bytes_of "" ++ p_user x) with (p_user x).
    assert (Hpw : ∀ k', (if pl_isset (u_password u)
      then e ← re_hprintf append no_handler ":%r" [VPl (Some (u_password u))]; mret (Z.lor 0 e) else mret 0) k' =
      Ret (0, k' ++ colon_text (p_pass x))).
    { intros k'. rewrite (isset_denotes _ _ Hp). destruct (decide (p_pass x = [])) as [E'|E'].
      - rewrite bool_decide_eq_true_2 by done. rewrite E'. cbn. by rewrite app_nil_r.
      - rewrite bool_decide_eq_false_2 by done. cbn [negb]. apply (denotes_views _ _ Hp) in E' as Hp'.
        rewrite (prog_bind_step _ _ _ _ _ (hprintf_pl ":" "" _ _ k' Hp' ltac:(by repeat constructor) ltac:(constructor) ":%r" eq_refl)).
        rewrite app_nil_r. by destruct (p_pass x). }
    rewrite (prog_bind_step _ _ _ _ _ (Hpw _)), (prog_bind_step _ _ _ _ _ eq_refl).
    destruct (p_user x); [done|]. by rewrite <- !app_assoc.
Qed.

Lemma uri_encode_run u x af k : uri_is u x af → parts_ok x → af ≠ AF_INET6 →
  uri_encode append no_handler u k = Ret (0, k ++ uri_text x).
Proof.
  intros Hui Hok Haf. pose proof Hui as [Hs Hu Hp Hh Hpa Hhe Hport Haf']. destruct Hok as [[Hsn _] _ _ [Hhn _] Hn _ _ Hno _].
  unfold uri_encode. rewrite (isset_views _ _ Hs), (isset_views _ _ Hh), !bool_decide_eq_false_2 by done. cbn [negb orb].
  erewrite prog_bind_step by exact (hprintf_pl "" ":" _ _ k Hs ltac:(constructor) ltac:(by repeat constructor) "%r:" eq_refl).
  rewrite bool_decide_eq_false_2 by (by intros []).
  erewrite prog_bind_step by (apply (encode_userinfo_run u x af _ Hui); naive_solver).
  rewrite bool_decide_eq_false_2 by (by intros []). rewrite (bool_decide_eq_false_2 (u_af u = AF_INET6)) by (unfold AF_INET6 in *; lia).
  erewrite prog_bind_step by exact (hprintf_pl "" "" _ _ _ Hh ltac:(constructor) ltac:(constructor) "%r" eq_refl).
  rewrite bool_decide_eq_false_2 by (by intros []).
  assert (Hpt : ∀ k', (if bool_decide (u_port u ≠ 0) then re_hprintf append no_handler ":%u" [VInt (u_port u)] else mret 0) k' =
    Ret (0, k' ++ colon_text (port_text (p_port x)))).
  { intros k'. rewrite Hport. unfold port_text. destruct (decide (p_port x = 0)) as [E|E].
    - rewrite (bool_decide_eq_true_2 (p_port x = 0)), (bool_decide_eq_false_2 (p_port x ≠ 0)) by (done || naive_solver).
      cbn. by rewrite app_nil_r.
    - rewrite (bool_decide_eq_false_2 (p_port x = 0)), (bool_decide_eq_true_2 (p_port x ≠ 0)) by done.
      erewrite (hprintf_pieces [PLit (bytes_of ":"); PUns (p_port x)]).
      + unfold text_of. cbn [map concat piece_text]. rewrite app_nil_r.
        destruct (digits_dec (p_port x) ltac:(lia)) as (_ & Hd & _). by destruct (dec_text (p_port x)).
      + done.
      + done.
      + repeat constructor; simpl; [done|lia..]. }
  erewrite prog_bind_step by apply Hpt. destruct Hpa as [r1 ->], Hhe as [r2 ->].
  erewrite prog_bind_step.
  2: { erewrite (hprintf_pieces [PPl (p_params x) r1; PPl (p_headers x) r2]); [reflexivity|done|done|by repeat constructor]. }
  unfold text_of, uri_text, hostport_text. cbn [map concat piece_text]. cbn. rewrite !app_nil_r, <- !app_assoc. by cbn [Datatypes.app].
Qed.

(** ** Parameters *)

(** Parameters as text, one segment each. *)
Definition params_text (segs : list (list Z)) : list Z := concat (map (cons (chr ";")) segs).

Fixpoint lower_prefix (name t : list Z) : bool :=
  match name, t with
  | [], _ => true
  | c :: n, b :: t' => bool_decide (tolower c = tolower b) && lower_prefix n t'
  | _ :: _, [] => false
  end.

Fixpoint drop_equals (t : list Z) : list Z :=
  match t with c :: r => if bool_decide (c = chr "=") then drop_equals r else t | [] => [] end.

Definition name_ok (name : list Z) : Prop := forallb isalnum name = true ∧ Z.of_nat (length name) ≤ 64.

Definition param_items (name : list Z) : list item :=
  Lit (chr ";") :: map Lit name ++ [bracket false "=" "*"; bracket true ";" "*"].

Lemma isalnum_ne c d : isalnum c = true → isalnum d = false → c ≠ d.
Proof. by intros H1 H2 ->; rewrite H1 in H2. Qed.

Lemma lits_text name : forallb isalnum name = true → expr_of (map Lit name) = name.
Proof.
  induction name as [|c name IH]; [done|]. cbn [forallb]. intros [Hc Hn]%andb_true_iff.
  unfold expr_of in *. cbn [map concat item_text]. rewrite IH by done. rewrite bool_decide_eq_false_2; [done|].
  intros [E|[E|E]]; revert E; by apply isalnum_ne.
Qed.

Lemma c_string_alnum name more : forallb isalnum name = true → c_string (name ++ more) = name ++ c_string more.
Proof.
  induction name as [|c name IH]; [done|]. cbn [forallb Datatypes.app c_string]. intros [Hc Hn]%andb_true_iff.
  rewrite bool_decide_eq_false_2 by by apply isalnum_ne. by rewrite IH.
Qed.

Lemma param_expr_run name rest : name_ok name →
  name_expr (bytes_of ";%r[=]*[^;]*") (Pl (Some (name ++ rest)) (Z.of_nat (length name))) = Ret (expr_of (param_items name)).
Proof.
  intros [Hn Hl]. unfold name_expr.
  assert (E : text_of [PLit (bytes_of ";"); PPl name rest; PLit (bytes_of "[=]*[^;]*")] = bytes_of ";" ++ name ++ bytes_of "[=]*[^;]*")
    by (unfold text_of; cbn [map concat piece_text]; by rewrite app_nil_r).
  erewrite vsnprintf_run; [|apply (hprintf_pieces [PLit (bytes_of ";"); PPl name rest; PLit (bytes_of "[=]*[^;]*")]
    ";%r[=]*[^;]*"); [done|done|]|..].
  2: { repeat constructor; try done; apply (bool_decide_eq_true_1 _); vm_compute; done. }
  - cbn [mbind outcome_bind snd]. rewrite E, <- !app_assoc. f_equal.
    unfold expr_of, param_items. cbn [map concat]. rewrite map_app, concat_app.
    fold (expr_of (map Lit name)). rewrite lits_text by done.
    change ([] ++ bytes_of ";" ++ ?x) with (chr ";" :: x). cbn [c_string]. rewrite bool_decide_eq_false_2 by done.
    by rewrite c_string_alnum.
  - rewrite E, !length_app. cbn. lia.
  - intros h. apply sim_ret.
Qed.

(** Literals match a text they begin, up to case, and otherwise fail; they only
    run into the end of a text that is too short. *)
Lemma greedy_lits its name bs :
  if lower_prefix name bs then greedy (map Lit name ++ its) bs = greedy its (drop (length name) bs)
  else greedy (map Lit name ++ its) bs = Mismatch ∨
    greedy (map Lit name ++ its) bs = Exhausted ∧ (length bs < length name)%nat.
Proof.
  revert bs. induction name as [|c name IH]; intros bs; [done|]. destruct bs as [|b bs]; [right; split; [done|simpl; lia]|].
  cbn [lower_prefix map Datatypes.app greedy length drop]. case_bool_decide; [|by left]. cbn [andb].
  specialize (IH bs). destruct (lower_prefix name bs); [done|]. destruct IH as [?|[? ?]]; [by left|right; split; [done|lia]].
Qed.

Lemma lower_prefix_stop name t tl : forallb isalnum name = true → stops ";" tl = true →
  lower_prefix name (t ++ tl) = lower_prefix name t.
Proof.
  intros Hn Ht. revert t. induction name as [|c name IH]; intros t; [done|]. cbn [forallb] in Hn.
  apply andb_true_iff in Hn as [Hc Hn]. destruct t as [|b t]; cbn [Datatypes.app lower_prefix]; [|by rewrite IH].
  destruct tl as [|d tl]; [done|]. cbn [stops] in Ht. apply bool_decide_eq_true_1, list_elem_of_singleton in Ht as ->.
  apply andb_false_iff. left. apply bool_decide_eq_false_2. intros E. symmetry in E. apply (proj1 (tolower_caseless (chr ";") _ eq_refl)) in E.
  exact (isalnum_ne c (chr ";") Hc eq_refl (eq_sym E)).
Qed.

Lemma lower_prefix_length name t : lower_prefix name t = true → (length name ≤ length t)%nat.
Proof.
  revert t. induction name as [|c name IH]; intros [|b t]; cbn; try done; [lia..|].
  intros [_ H]%andb_true_iff. apply IH in H. lia.
Qed.

Lemma params_text_stops segs : stops ";" (params_text segs) = true.
Proof. by destruct segs. Qed.

Lemma search_params its t segs : free_of ";" t = true →
  search (Lit (chr ";") :: its) (t ++ params_text segs) = search (Lit (chr ";") :: its) (params_text segs).
Proof.
  induction t as [|c t IH]; [done|]. cbn [free_of forallb Datatypes.app]. intros [Hc Ht]%andb_true_iff. cbn [search greedy].
  rewrite bool_decide_eq_false_2; [by apply IH|]. rewrite tolower_caseless by done. intros <-. done.
Qed.

Lemma drop_equals_split t : ∃ n, t = replicate n (chr "=") ++ drop_equals t.
Proof.
  induction t as [|c t [n IH]]; [by exists O|]. cbn [drop_equals]. case_bool_decide as E; [|by exists O].
  exists (S n). cbn [replicate Datatypes.app]. by rewrite E, <- IH.
Qed.

Lemma drop_equals_free t : starts_free "=" (drop_equals t) = true.
Proof.
  induction t as [|c t IH]; [done|]. cbn [drop_equals]. case_bool_decide as E; [done|]. cbn [starts_free].
  apply negb_true_iff, bool_decide_eq_false_2. intros ?%list_elem_of_singleton. by subst.
Qed.

(** What the expression finds: the first parameter the name begins. *)
Lemma search_param_items name segs :
  forallb isalnum name = true → Forall (λ t, free_of ";" t = true) segs →
  Z.of_nat (length (params_text segs)) ≤ 4294967295 →
  match find (lower_prefix name) segs with
  | Some t => ∃ tl n, search (param_items name) (params_text segs) =
      Some [(replicate n (chr "="), drop_equals (drop (length name) t) ++ tl); (drop_equals (drop (length name) t), tl)]
  | None => search (param_items name) (params_text segs) = None
  end.
Proof.
  intros Hn. induction segs as [|t segs IH]; intros Hs Hl; [done|]. apply Forall_cons_1 in Hs as [Ht Hs].
  unfold params_text in Hl |- *. cbn [map concat] in Hl |- *. fold (params_text segs) in *. rewrite length_app in Hl. cbn [length] in Hl.
  specialize (IH Hs ltac:(lia)). unfold param_items in *. cbn [find Datatypes.app search]. rewrite greedy_lit.
  pose proof (greedy_lits [bracket false "=" "*"; bracket true ";" "*"] name (t ++ params_text segs)) as Hg.
  rewrite lower_prefix_stop in Hg by (done || apply params_text_stops). destruct (lower_prefix name t) eqn:Ep.
  - apply lower_prefix_length in Ep as Hlen. rewrite Hg, drop_app_le by done.
    assert (Hdf : free_of ";" (drop (length name) t) = true).
    { rewrite <- (take_drop (length name) t), free_of_app in Ht. by apply andb_true_iff in Ht as [_ ?]. }
    pose proof (length_drop t (length name)) as Hdl.
    destruct (drop_equals_split (drop (length name) t)) as [n En]. set (v := drop_equals _) in *. rewrite En in *.
    rewrite length_app, length_replicate in Hdl. rewrite free_of_app in Hdf. apply andb_true_iff in Hdf as [_ Hvf].
    exists (params_text segs), n. rewrite <- app_assoc.
    rewrite (greedy_of "="); [|done|rewrite length_replicate; lia|by apply forallb_forall; intros x ->%list_elem_of_In%elem_of_replicate_inv|].
    2: { pose proof (drop_equals_free (drop (length name) t)) as Hf. fold v in Hf. destruct v; [|done].
      cbn [Datatypes.app]. by destruct segs. }
    rewrite (greedy_not ";" "*" _ v _ 0 4294967295); [done|done|done|lia|done|apply params_text_stops].
  - destruct Hg as [Hg|[Hg Hshort]]; rewrite Hg.
    + rewrite search_params by done. exact IH.
    + rewrite length_app in Hshort. destruct (find (lower_prefix name) segs) as [t'|] eqn:Ef; [|done]. exfalso.
      apply find_some in Ef as [Hin Hp%lower_prefix_length]. apply list_elem_of_In, list_elem_of_split in Hin as (l1 & l2 & ->).
      unfold params_text in Hshort. rewrite map_app, concat_app, length_app in Hshort. cbn in Hshort. rewrite length_app in Hshort. lia.
Qed.

Lemma param_items_ok name : forallb item_ok (param_items name) = true ∧ classes (param_items name) = 2%nat.
Proof.
  unfold param_items. split.
  - cbn [forallb item_ok]. rewrite forallb_app. by induction name.
  - cbn [classes]. by induction name.
Qed.

Lemma uri_param_get_run name nrest segs rest :
  name_ok name → Forall (λ t, free_of ";" t = true) segs → Z.of_nat (length (params_text segs)) ≤ 4294967295 →
  ∃ err v, uri_param_get (Pl (Some (params_text segs ++ rest)) (Z.of_nat (length (params_text segs))))
      (Pl (Some (name ++ nrest)) (Z.of_nat (length name))) = Ret (err, v) ∧
    match find (lower_prefix name) segs with
    | Some t => err = 0 ∧ ∃ p, v = Some p ∧ views p (drop_equals (drop (length name) t))
    | None => err = ENOENT
    end.
Proof.
  intros Hn Hs Hl. unfold uri_param_get. rewrite param_expr_run by done. cbn [mbind outcome_bind].
  pose proof (search_param_items name segs (proj1 Hn) Hs Hl) as Hsearch.
  destruct (param_items_ok name) as [Hok Hc].
  pose proof (rx_search_items (param_items name) rest (params_text segs) (replicate 2 None) ltac:(done) Hok) as Hr.
  rewrite Hc in Hr. specialize (Hr eq_refl). unfold re_regex. cbn [pl_p pl_l]. rewrite Nat2Z.id.
  destruct (find (lower_prefix name) segs) as [t|].
  - destruct Hsearch as (tl & n & Hsearch). rewrite Hsearch in Hr. rewrite Hr. cbn [mbind outcome_bind fst snd].
    eexists _, _. split; [done|]. split; [done|]. eexists. split; [done|]. apply (views_part rest (_, _)).
  - rewrite Hsearch in Hr. destruct Hr as [caps Hr]. rewrite Hr. cbn [mbind outcome_bind fst snd]. by eexists _, _.
Qed.

(** Uri_param_get finds a parameter by name: of parameters written one
    after the other, each behind a semicolon, it returns the value of the first
    whose text begins with the name, whatever the case, and ENOENT when
    there is none; the name %r and the value may lie anywhere in memory.  The
    value is what follows the name and any equals signs, so that a longer name
    that begins with the one asked for is taken for it. *)
Theorem uri_param_get_spec name nrest segs rest :
  name_ok name → Forall (λ t, free_of ";" t = true) segs → Z.of_nat (length (params_text segs)) ≤ 4294967295 →
  ∃ err v, uri_param_get (Pl (Some (params_text segs ++ rest)) (Z.of_nat (length (params_text segs))))
      (Pl (Some (name ++ nrest)) (Z.of_nat (length name))) = Ret (err, v) ∧
    match find (lower_prefix name) segs with
    | Some t => err = 0 ∧ ∃ p, v = Some p ∧ views p (drop_equals (drop (length name) t))
    | None => err = ENOENT
    end.
Proof. intros Hn Hs Hl. by apply uri_param_get_run. Qed.

(** ** Escaping *)

Definition hex2 (c : Z) : list Z := [digit_char true (c / 16); digit_char true (c `mod` 16)].
Definition escape_text (eh : Z → bool) (c : Z) : list Z := if eh c then [c] else chr "%" :: hex2 c.
Definition escaped (eh : Z → bool) (bs : list Z) : list Z := concat (map (escape_text eh) bs).

Lemma hex2_text c : 0 ≤ c < 256 → padding 2 (hex_text true c) (chr "0") ++ hex_text true c = hex2 c.
Proof.
  intros Hc. assert (H : Forall (λ c, padding 2 (hex_text true c) (chr "0") ++ hex_text true c = hex2 c) (seqZ 0 256))
    by (apply (bool_decide_eq_true_1 _); vm_compute; reflexivity).
  rewrite Forall_forall in H. apply H, list_elem_of_In, elem_of_seqZ. lia.
Qed.

Lemma hex2_value c : 0 ≤ c < 256 → u8 (Z.lor (Z.shiftl (ch_hex (digit_char true (c / 16))) 4) (ch_hex (digit_char true (c `mod` 16)))) = c.
Proof.
  intros Hc. assert (H : Forall (λ c, u8 (Z.lor (Z.shiftl (ch_hex (digit_char true (c / 16))) 4)
    (ch_hex (digit_char true (c `mod` 16)))) = c) (seqZ 0 256)) by (apply (bool_decide_eq_true_1 _); vm_compute; reflexivity).
  rewrite Forall_forall in H. apply H, list_elem_of_In, elem_of_seqZ. lia.
Qed.

Lemma escape_loop_run eh bs : ∀ k, Forall (λ c, 0 ≤ c < 128) bs →
  escape_loop append no_handler eh bs k = Ret (0, k ++ escaped eh bs).
Proof.
  induction bs as [|c bs IH]; intros k Hb; cbn [escape_loop]; [by rewrite app_nil_r|].
  apply Forall_cons_1 in Hb as [Hc Hb].
  erewrite (prog_bind_step _ _ _ 0 (k ++ escape_text eh c)).
  - rewrite bool_decide_eq_false_2 by (by intros []). rewrite IH by done. by rewrite <- app_assoc.
  - unfold escape_text. destruct (eh c); [done|]. unfold schar. rewrite bool_decide_eq_true_2 by lia.
    rewrite (hprintf_pieces [PPercent; PHex0 true 2 c]); [|done|done|].
    + unfold text_of. cbn [map concat piece_text]. by rewrite app_nil_r, hex2_text by lia.
    + repeat apply Forall_cons_2; simpl; [done|lia|by apply Forall_nil_2].
Qed.

Lemma unescape_loop_run eh : eh (chr "%") = false → ∀ bs l fuel i rest k,
  Forall (λ c, 0 ≤ c < 256) bs → 0 ≤ i → l = i + Z.of_nat (length (escaped eh bs)) → l < 2 ^ 64 →
  (length (escaped eh bs) ≤ fuel)%nat →
  unescape_loop append eh l fuel i (escaped eh bs ++ rest) k = Ret (0, k ++ bs).
Proof.
  intros Hpc. induction bs as [|c bs IH]; intros l fuel i rest k Hb Hi Hl Hsz Hf.
  { cbn in Hl. destruct fuel; cbn [unescape_loop]; rewrite bool_decide_eq_true_2 by lia; by rewrite app_nil_r. }
  apply Forall_cons_1 in Hb as [Hc Hb]. unfold escaped in *. cbn [map concat] in *. fold (escaped eh bs) in *.
  rewrite length_app in Hl, Hf. unfold escape_text in *. destruct (eh c) eqn:Ec; cbn [length] in Hl, Hf.
  - destruct fuel as [|fuel]; [lia|]. cbn [unescape_loop]. rewrite bool_decide_eq_false_2 by lia.
    erewrite prog_bind_step by done. rewrite Ec. erewrite prog_bind_step by done.
    rewrite bool_decide_eq_false_2 by (by intros []). cbn [Datatypes.app tail].
    rewrite IH by (done || lia). by rewrite <- app_assoc.
  - destruct fuel as [|fuel]; [lia|]. cbn [unescape_loop]. rewrite bool_decide_eq_false_2 by lia.
    erewrite prog_bind_step by done. rewrite Hpc, (bool_decide_eq_true_2 (chr "%" = chr "%")) by done.
    rewrite u64_id by (simpl in Hl; lia). rewrite bool_decide_eq_true_2 by (simpl in Hl; lia).
    erewrite prog_bind_step by done. erewrite prog_bind_step by done. rewrite hex2_value by done.
    erewrite prog_bind_step by done. rewrite bool_decide_eq_false_2 by (by intros []).
    change (drop 3 _) with (escaped eh bs ++ rest). rewrite IH by (done || simpl in Hl, Hf; lia). by rewrite <- app_assoc.
Qed.

(** What [escape] prints for [bs] is given back by [unescape]. *)
Definition escapes (escape : pl → prog (list Z) Z) (unescape : pl → prog (list Z) Z) (bs : list Z) : Prop :=
  ∀ p k, views p bs → ∃ t, escape p k = Ret (0, k ++ t) ∧
    ∀ rest k', unescape (Pl (Some (t ++ rest)) (Z.of_nat (length t))) k' = Ret (0, k' ++ bs).

Lemma comp_escape_run eh bs :
  eh (chr "%") = false → Forall (λ c, 0 ≤ c < 128) bs → Z.of_nat (length (escaped eh bs)) < 2 ^ 64 →
  escapes (comp_escape append no_handler eh) (comp_unescape append eh) bs.
Proof.
  intros Hpc Hb Hsz p k [rest ->]. exists (escaped eh bs). split.
  - unfold comp_escape. erewrite prog_bind_step by (unfold lift; by rewrite pl_bytes_run). by apply escape_loop_run.
  - intros rest' k'. unfold comp_unescape. cbn [pl_l pl_p default from_option]. rewrite Nat2Z.id.
    apply (unescape_loop_run eh Hpc); [|done|lia|done|done].
    eapply Forall_impl; [|exact Hb]. simpl. lia.
Qed.

Lemma escaped_length eh bs : (length (escaped eh bs) ≤ 3 * length bs)%nat.
Proof.
  induction bs as [|c bs IH]; [done|]. unfold escaped in *. cbn [map concat length]. rewrite length_app.
  assert (length (escape_text eh c) ≤ 3)%nat by (unfold escape_text, hex2; destruct (eh c); simpl; lia). lia.
Qed.

(** Escaping and unescaping of URI users, passwords, parameters and
    headers are inverse on ASCII text: whatever the text, the escape prints
    without error a text from which the unescape gives back the original,
    whatever follows in memory. *)
Theorem uri_escape_roundtrip bs :
  Forall (λ c, 0 ≤ c < 128) bs → Z.of_nat (length bs) < 2 ^ 62 →
  escapes (uri_user_escape append no_handler) (uri_user_unescape append) bs ∧
  escapes (uri_password_escape append no_handler) (uri_password_unescape append) bs ∧
  escapes (uri_param_escape append no_handler) (uri_param_unescape append) bs ∧
  escapes (uri_header_escape append no_handler) (uri_header_unescape append) bs.
Proof.
  intros Hb Hl. assert (Hesc : ∀ eh, Z.of_nat (length (escaped eh bs)) < 2 ^ 64).
  { intros eh. pose proof (escaped_length eh bs). lia. }
  split_and!; by apply comp_escape_run.
Qed.

(** A byte outside ASCII is printed as the eight digits of a negative [int], and
    a percent sign at the end of a one-byte component reads past its end, since
    [pl->l - 2] wraps. *)
Lemma comp_escape_high :
  comp_escape append no_handler is_user (Pl (Some [233]) 1) [] = Ret (0, bytes_of "%FFFFFFE9").
Proof. vm_compute. reflexivity. Qed.

Lemma comp_unescape_overrun eh k : eh (chr "%") = false → comp_unescape append eh (pl_of "%") k = Fault OutOfBounds.
Proof.
  intros H. unfold comp_unescape. change (pl_of "%") with (Pl (Some [chr "%"]) 1). cbn [pl_l pl_p default from_option].
  change (Z.to_nat 1) with 1%nat. cbn [unescape_loop]. rewrite (bool_decide_eq_false_2 (1 ≤ 0)) by lia. erewrite prog_bind_step by done. by rewrite H.
Qed.

(** The name asked for becomes part of the expression: with brackets in it,
    re_regex runs out of results and stores through arguments that were never
    passed.  The names of one URI's parameters are looked up in the other's. *)
Lemma uri_param_get_injection : uri_param_get (pl_of ";abc") (pl_of "[a]*[b]*[c]*") = Fault VarArg.
Proof. vm_compute. reflexivity. Qed.

Lemma uri_cmp_injection :
  let u params := Uri (pl_of "sip") (pl_of "a") pl_null (pl_of "b") 0 0 (pl_of params) (pl_of "") in
  uri_cmp (u ";[a]*[b]*[c]*"%string) (u ";abc"%string) = Fault VarArg.
Proof. vm_compute. reflexivity. Qed.

Section roundtrip.
Context `{inet}.

(** C28: printing a URI and decoding the text gives back the same URI: for any
    components that cannot be taken for one another (scheme, host, and,
    where present, user, password, port, parameters and headers), uri_encode of a URI
    whose host is not an IPv6 address prints their text without error, and
    uri_decode of this text, whatever follows it in memory, succeeds with
    exactly these components, each pointing into the text, and with
    the address family of the host. *)
Theorem uri_roundtrip u x af k rest :
  uri_is u x af → parts_ok x → af ≠ AF_INET6 →
  uri_encode append no_handler u k = Ret (0, k ++ uri_text x) ∧
  ∃ u', uri_decode (Pl (Some (uri_text x ++ rest)) (Z.of_nat (length (uri_text x)))) = Ret (0, u') ∧
    uri_is u' x (addr_family (p_host x)).
Proof.
  intros Hui Hok Haf. split; [by apply (uri_encode_run u x af)|by apply uri_decode_run].
Qed.
End roundtrip.

(** ** Witnesses *)

(** Dotted quads are IPv4 addresses (family 2), other texts are not. *)
Definition digits_only : inet := {| addr_family := λ h, if forallb (one_of "0123456789.") h then 2 else 0 |}.

Definition demo_parts : parts :=
  Parts (bytes_of "sip") (bytes_of "bob") (bytes_of "pw") (bytes_of "10.0.0.1") 5060 (bytes_of ";prefix=9") (bytes_of "?a=b").

Lemma demo_parts_ok : parts_ok demo_parts.
Proof. by split. Qed.

Definition demo_parsed : uri :=
  Uri (pl_of "sip") (pl_of "bob") (pl_of "pw") (pl_of "10.0.0.1") 2 5060 (pl_of ";prefix=9") (pl_of "?a=b").

Lemma uri_roundtrip_witness :
  uri_encode append no_handler demo_parsed [] = Ret (0, bytes_of "sip:bob:pw@10.0.0.1:5060;prefix=9?a=b") ∧
  ∃ u', @uri_decode digits_only (pl_of "sip:bob:pw@10.0.0.1:5060;prefix=9?a=b") = Ret (0, u') ∧ uri_is u' demo_parts 2.
Proof.
  apply (@uri_roundtrip digits_only demo_parsed demo_parts 2 [] []); [|apply demo_parts_ok|done].
  by split; try left; try (by exists []).
Defined.

Lemma uri_param_get_spec_witness :
  ∃ p, uri_param_get (pl_of ";prefixes=5;prefix=9") (pl_of "prefix") = Ret (0, Some p) ∧ views p (bytes_of "es=5").
Proof.
  destruct (uri_param_get_spec (bytes_of "prefix") [] [bytes_of "prefixes=5"; bytes_of "prefix=9"] [])
    as (err & v & E & -> & p & -> & Hp); [by split|by repeat constructor|vm_compute; congruence|].
  exists p. split; [exact E|exact Hp].
Defined.

Lemma uri_escape_roundtrip_witness :
  escapes (uri_user_escape append no_handler) (uri_user_unescape append) (bytes_of "a b%c").
Proof.
  apply (uri_escape_roundtrip (bytes_of "a b%c")); [|vm_compute; reflexivity].
  apply (bool_decide_eq_true_1 _). vm_compute. reflexivity.
Defined.
