(* ===== verification/Hash.v ===== *)
(** * Hash tables (src/re/src/hash/)

    Bob Jenkins' one-at-a-time hash in its six variants (func.c) and the table
    of lists indexed by it (hash.c).  A bucket is the sequence its list
    represents. *)
From stdpp Require Import base tactics list numbers strings option.
From S2P Require Import Prelude Mbuf Fmt.

(** ** func.c *)

(** A [char] promoted to [int]. *)
Definition char_int (c : Z) : Z := if bool_decide (c < 128) then c else c - 256.

(** One turn of the loop, on a [uint32_t]. *)
Definition joaat_step (hash c : Z) : Z :=
  let hash := u32 (hash + c) in
  let hash := u32 (hash + u32 (Z.shiftl hash 10)) in
  Z.lxor hash (Z.shiftr hash 6).

Definition joaat_end (hash : Z) : Z :=
  let hash := u32 (hash + u32 (Z.shiftl hash 3)) in
  let hash := Z.lxor hash (Z.shiftr hash 11) in
  u32 (hash + u32 (Z.shiftl hash 15)).

Definition hash_joaat (key : list Z) : Z := joaat_end (foldl joaat_step 0 key).
Definition hash_joaat_ci (str : list Z) : Z := joaat_end (foldl (λ h c, joaat_step h (char_int (tolower c))) 0 str).
Definition hash_joaat_str (str : list Z) : Z := joaat_end (foldl (λ h c, joaat_step h (char_int c)) 0 str).
Definition hash_joaat_str_ci (str : list Z) : Z := hash_joaat_ci str.
Definition hash_joaat_pl (p : option pl) : outcome Z :=
  match p with Some p => bs ← pl_bytes p; Ret (hash_joaat bs) | None => Ret 0 end.
Definition hash_joaat_pl_ci (p : option pl) : outcome Z :=
  match p with Some p => bs ← pl_bytes p; Ret (hash_joaat_ci bs) | None => Ret 0 end.

(** [hash_valid_size] *)
Fixpoint valid_shift (fuel : nat) (x size : Z) : Z :=
  match fuel with
  | O => x
  | S fuel' => if bool_decide (Z.shiftl 1 x < size) && bool_decide (x < 31) then valid_shift fuel' (x + 1) size else x
  end.
Definition hash_valid_size (size : Z) : Z := u32 (s32 (Z.shiftl 1 (valid_shift 32 0 size))).

(** ** hash.c *)

Section table.
Context {A : Type}.

(** [struct hash]: as many buckets as [bsize]. *)
Local Abbreviation hash := (list (list A)).

Definition hash_bsize (h : hash) : Z := Z.of_nat (length h).

Definition hash_alloc (ok : bool) (bsize : Z) : Z * option hash :=
  if bool_decide (bsize = 0) then (EINVAL, None)
  else if bool_decide (Z.land bsize (bsize - 1) ≠ 0) then (EINVAL, None)
  else if ok then (0, Some (replicate (Z.to_nat bsize) [])) else (ENOMEM, None).

Definition bucket (h : hash) (key : Z) : nat := Z.to_nat (Z.land key (u32 (hash_bsize h - 1))).

Definition hash_list (h : hash) (key : Z) : outcome (list A) := of_option OutOfBounds (h !! bucket h key).

Definition hash_append (h : hash) (key : Z) (x : A) : outcome hash :=
  l ← hash_list h key; Ret (<[bucket h key := l ++ [x]]> h).

Definition hash_lookup (h : hash) (key : Z) (ah : A → bool) : outcome (option A) :=
  l ← hash_list h key; Ret (List.find ah l).

Definition hash_apply (h : hash) (ah : A → bool) : option A := List.find ah (concat h).

Definition hash_flush (h : hash) : hash := map (λ _, []) h.

(** Buckets counted by a power of two. *)
Definition table_ok (h : hash) : Prop := ∃ k, 0 ≤ k < 32 ∧ hash_bsize h = 2 ^ k.

Lemma bucket_mod h key : table_ok h → bucket h key = Z.to_nat (key `mod` hash_bsize h).
Proof.
  intros (k & Hk & E). unfold bucket. rewrite E.
  assert (Hp : 0 < 2 ^ k ≤ 2 ^ 31) by (split; [apply Z.pow_pos_nonneg; lia|apply Z.pow_le_mono_r; lia]).
  rewrite u32_id by lia. replace (2 ^ k - 1) with (Z.ones k) by (rewrite Z.ones_equiv; lia).
  by rewrite Z.land_ones by lia.
Qed.

Lemma bucket_lt h key : table_ok h → (bucket h key < length h)%nat.
Proof.
  intros Hok. rewrite bucket_mod by done. destruct Hok as (k & Hk & E). unfold hash_bsize in *.
  assert (Hp : 0 < 2 ^ k) by (apply Z.pow_pos_nonneg; lia).
  pose proof (Z.mod_pos_bound key (Z.of_nat (length h)) ltac:(lia)). lia.
Qed.

Lemma hash_list_run h key : table_ok h → ∃ l, hash_list h key = Ret l ∧ h !! bucket h key = Some l.
Proof.
  intros Hok. destruct (lookup_lt_is_Some_2 h (bucket h key) (bucket_lt h key Hok)) as [l Hl].
  exists l. unfold hash_list. by rewrite Hl.
Qed.

Lemma hash_append_run h key x : table_ok h →
  ∃ h', hash_append h key x = Ret h' ∧ table_ok h' ∧ hash_bsize h' = hash_bsize h ∧
    ∀ key', hash_list h' key' =
      l ← hash_list h key'; Ret (if bool_decide (key `mod` hash_bsize h = key' `mod` hash_bsize h) then l ++ [x] else l).
Proof.
  intros Hok. destruct (hash_list_run h key Hok) as (l & E & Hl). unfold hash_append. rewrite E. cbn [mbind outcome_bind].
  set (h' := <[_ := _]> h). assert (Hs : hash_bsize h' = hash_bsize h) by (unfold hash_bsize, h'; by rewrite length_insert).
  assert (Hok' : table_ok h') by (destruct Hok as (k & Hk & Ek); exists k; by rewrite Hs).
  exists h'. split; [done|]. split; [done|]. split; [done|]. intros key'.
  destruct (hash_list_run h key' Hok) as (l' & E' & Hl'). rewrite E'. cbn [mbind outcome_bind].
  unfold hash_list. assert (Eb : bucket h' key' = bucket h key') by (rewrite !bucket_mod by done; by rewrite Hs). rewrite Eb.
  pose proof (bucket_lt h key Hok). unfold h'.
  assert (Hpos : 0 < hash_bsize h) by (destruct Hok as (k & Hk & ->); apply Z.pow_pos_nonneg; lia).
  pose proof (Z.mod_pos_bound key _ Hpos). pose proof (Z.mod_pos_bound key' _ Hpos).
  case_bool_decide as Hb.
  - assert (Ek : bucket h key' = bucket h key) by (rewrite !bucket_mod by done; by rewrite Hb).
    rewrite Ek in Hl' |- *. rewrite list_lookup_insert_eq by done. simpl. congruence.
  - rewrite list_lookup_insert_ne; [by rewrite Hl'|]. rewrite !bucket_mod by done. lia.
Qed.
End table.

(** ** Properties *)

Section spec.
Context {A : Type}.

Fixpoint append_all (h : list (list A)) (l : list (Z * A)) : outcome (list (list A)) :=
  match l with [] => Ret h | (key, x) :: r => h' ← hash_append h key x; append_all h' r end.

(** What a bucket holds of the elements appended. *)
Definition in_bucket (bsize key : Z) (l : list (Z * A)) : list A :=
  map snd (filter (λ kx : Z * A, kx.1 `mod` bsize = key `mod` bsize) l).

Lemma append_all_run l : ∀ h, table_ok h →
  ∃ h', append_all h l = Ret h' ∧ table_ok h' ∧ hash_bsize h' = hash_bsize h ∧
    ∀ key, hash_list h' key = l0 ← hash_list h key; Ret (l0 ++ in_bucket (hash_bsize h) key l).
Proof.
  induction l as [|[key x] l IH]; intros h Hok; cbn [append_all].
  { exists h. split_and!; [done..|]. intros key. destruct (hash_list h key); simpl; by rewrite ?app_nil_r. }
  destruct (hash_append_run h key x Hok) as (h1 & E & Hok1 & Hs1 & Hl1). rewrite E. cbn [mbind outcome_bind].
  destruct (IH h1 Hok1) as (h2 & E2 & Hok2 & Hs2 & Hl2). exists h2. rewrite Hs2. split_and!; [done|done|done|].
  intros key'. rewrite Hl2, Hl1, Hs1. destruct (hash_list h key') as [l0|]; [|done]. cbn [mbind outcome_bind].
  unfold in_bucket. rewrite filter_cons. cbn [fst]. case_bool_decide as Hb.
  - rewrite decide_True by done. cbn [map snd]. by rewrite <- app_assoc.
  - by rewrite decide_False by done.
Qed.

Lemma table_alloc k : 0 ≤ k < 32 →
  ∃ h, hash_alloc (A := A) true (2 ^ k) = (0, Some h) ∧ table_ok h ∧ hash_bsize h = 2 ^ k ∧ ∀ key, hash_list h key = Ret [].
Proof.
  intros Hk. assert (Hp : 0 < 2 ^ k) by (apply Z.pow_pos_nonneg; lia). unfold hash_alloc.
  rewrite bool_decide_eq_false_2 by lia. rewrite bool_decide_eq_false_2.
  2: { intros H. apply H. replace (2 ^ k - 1) with (Z.ones k) by (rewrite Z.ones_equiv; lia).
    rewrite Z.land_ones by lia. apply Z_mod_same_full. }
  eexists. split; [done|]. assert (Hs : hash_bsize (replicate (Z.to_nat (2 ^ k)) (@nil A)) = 2 ^ k).
  { unfold hash_bsize. rewrite length_replicate. lia. }
  assert (Hok : table_ok (replicate (Z.to_nat (2 ^ k)) (@nil A))) by (exists k; done).
  split_and!; [done|done|]. intros key. unfold hash_list. pose proof (bucket_lt _ key Hok) as Hb.
  rewrite length_replicate in Hb. by rewrite (lookup_replicate_2 _ _ _ Hb).
Qed.

(** A hash table of any size that is a power of two implements the sequence
    of what was appended, filtered by bucket: after any appends, the list of a
    key holds the elements whose keys are congruent to it modulo the size, in
    the order of insertion, and a lookup finds the first of them that the
    handler accepts; nothing is read or written outside the table. *)
Theorem hash_table_spec k l : 0 ≤ k < 32 →
  ∃ h0 h, hash_alloc true (2 ^ k) = (0, Some h0) ∧ append_all h0 l = Ret h ∧
    ∀ key, hash_list h key = Ret (in_bucket (2 ^ k) key l) ∧
      ∀ ah, hash_lookup h key ah = Ret (List.find ah (in_bucket (2 ^ k) key l)).
Proof.
  intros Hk. destruct (table_alloc k Hk) as (h0 & E0 & Hok & Hs & Hn).
  destruct (append_all_run l h0 Hok) as (h & E & _ & _ & Hl). exists h0, h. split; [done|]. split; [done|]. intros key.
  assert (Hlist : hash_list h key = Ret (in_bucket (2 ^ k) key l)) by (rewrite Hl, Hn; cbn; by rewrite Hs).
  split; [done|]. intros ah. unfold hash_lookup. by rewrite Hlist.
Qed.
End spec.

Lemma hash_table_spec_witness :
  ∃ h0 h, hash_alloc true 4 = (0, Some h0) ∧ append_all h0 [(1, 10); (2, 20); (5, 50)] = Ret h ∧
    hash_lookup h 9 (λ x, bool_decide (x > 10)) = Ret (Some 50).
Proof.
  destruct (hash_table_spec 2 [(1, 10); (2, 20); (5, 50)]) as (h0 & h & E0 & E & H); [lia|].
  exists h0, h. split; [exact E0|]. split; [exact E|]. destruct (H 9) as [_ H2]. rewrite H2. vm_compute. reflexivity.
Defined.

Lemma valid_shift_run fuel : ∀ x size, 0 ≤ x ≤ 31 → 31 - x < Z.of_nat fuel → (0 < x → 2 ^ (x - 1) < size) →
  let y := valid_shift fuel x size in x ≤ y ≤ 31 ∧ (size ≤ 2 ^ y ∨ y = 31) ∧ (0 < y → 2 ^ (y - 1) < size).
Proof.
  induction fuel as [|fuel IH]; intros x size Hx Hf Hlow; cbn [valid_shift]; [lia|].
  rewrite Z.shiftl_1_l. destruct (bool_decide (2 ^ x < size) && bool_decide (x < 31)) eqn:E.
  - apply andb_true_iff in E as [E1%bool_decide_eq_true_1 E2%bool_decide_eq_true_1].
    destruct (IH (x + 1) size) as (H1 & H2 & H3); [lia|lia|by rewrite Z.add_simpl_r|]. split_and!; (done || lia).
  - apply andb_false_iff in E as [E|E]; apply bool_decide_eq_false_1 in E; split_and!; (done || lia).
Qed.

(** Hash_valid_size turns any requested size into one hash_alloc accepts: a
    power of two, the smallest that is not below the request, or 2^31 when there
    is none. *)
Theorem hash_valid_size_spec size :
  0 ≤ size < 2 ^ 32 →
  ∃ k, 0 ≤ k ≤ 31 ∧ hash_valid_size size = 2 ^ k ∧ (size ≤ 2 ^ k ∨ k = 31) ∧ (0 < k → 2 ^ (k - 1) < size).
Proof.
  intros Hsz. destruct (valid_shift_run 32 0 size) as (H1 & H2 & H3); [lia|lia|lia|].
  exists (valid_shift 32 0 size). split; [lia|]. split; [|done]. unfold hash_valid_size. rewrite Z.shiftl_1_l.
  set (y := valid_shift 32 0 size) in *. assert (Hp : 0 < 2 ^ y ≤ 2 ^ 31) by (split; [apply Z.pow_pos_nonneg; lia|apply Z.pow_le_mono_r; lia]).
  unfold u32, s32. destruct (decide (2 ^ y = 2 ^ 31)) as [E|E]; [by rewrite E|].
  rewrite (Z.mod_small (2 ^ y + 2147483648)) by lia. rewrite Z.mod_small by lia. lia.
Qed.

Lemma hash_valid_size_spec_witness : ∃ k, 0 ≤ k ≤ 31 ∧ hash_valid_size 100 = 2 ^ k.
Proof. destruct (hash_valid_size_spec 100) as (k & Hk & E & _); [lia|]. exists k. split; [exact Hk|exact E]. Defined.
