(* ===== verification/Dname.v ===== *)
(** * Domain names in DNS messages (src/re/src/dns/dname.c)

    Names are written label by label; a suffix that was written before can be
    replaced by a pointer to it, found through a hash table of the names and
    suffixes written so far.  The decoder follows the pointers. *)
From stdpp Require Import base tactics list numbers strings option.
From S2P Require Import Prelude Mbuf Fmt Print Uri Hash.

Definition COMP_MASK : Z := 192.
Definition OFFSET_MASK : Z := 16383.
Definition COMP_LOOP : Z := 255.

(** [struct dname], without its list element. *)
Record dname := Dname { dn_name : list Z; dn_pos : Z }.

(** The table of an encoder; there may be none. *)
Definition dtable : Type := option (list (list dname)).

(** [mb->buf[p]], read and written. *)
Definition byte_at (mb : mbuf) (p : Z) : outcome Z :=
  b ← of_option NullDeref (mb_buf mb);
  if bool_decide (0 ≤ p) then of_option OutOfBounds (b !! Z.to_nat p) else Fault OutOfBounds.

Definition poke (mb : mbuf) (p v : Z) : outcome mbuf :=
  b ← of_option NullDeref (mb_buf mb);
  if bool_decide (0 ≤ p < Z.of_nat (length b)) then Ret (Mb (Some (<[Z.to_nat p := v]> b)) (mb_size mb) (mb_pos mb) (mb_end mb))
  else Fault OutOfBounds.

Section dname.
Context (A : allocator).

(** Whether the entry of a name can be allocated. *)
Variable dn_mem : list Z → bool.

Definition dname_append (ht : dtable) (name : list Z) (pos : Z) : outcome dtable :=
  match ht with
  | None => Ret None
  | Some h =>
      if bool_decide (pos > OFFSET_MASK) || bool_decide (name = []) then Ret ht
      else if negb (dn_mem name) then Ret ht
      else h' ← hash_append h (hash_joaat_str_ci name) (Dname name pos); Ret (Some h')
  end.

Definition lookup_handler (name : list Z) (dn : dname) : bool :=
  bool_decide (0 = str_casecmp (Some (dn_name dn)) (Some name)).

Definition dname_lookup (ht : dtable) (name : list Z) : outcome (option dname) :=
  match ht with
  | None => Ret None
  | Some h => hash_lookup h (hash_joaat_str_ci name) (lookup_handler name)
  end.

Definition dname_encode_pointer (mb : mbuf) (pos : Z) : outcome (Z * mbuf) :=
  mbuf_write_u16 A mb (htons (Z.lor pos (Z.shiftl COMP_MASK 8))).

(** The loop of [dns_dname_encode] over the characters that are left; the byte
    at [pos] is the place of the length of the current label. *)
Fixpoint encode_loop (start : Z) (comp : bool) (name : list Z) (pos : Z) (mb : mbuf) (ht : dtable) :
    outcome (Z * mbuf * dtable) :=
  let lablen := u64 (u64 (mb_pos mb - pos) - 1) in
  match name with
  | [] =>
      if bool_decide (lablen = 0) then Ret (0, mb, ht)
      else mb ← poke mb pos (u8 lablen); r ← mbuf_write_u8 A mb 0; Ret (r, ht)
  | c :: rest =>
      if bool_decide (c = chr ".") then
        if bool_decide (lablen = 0) then Ret (EINVAL, mb, ht)
        else
          mb ← poke mb pos (u8 lablen);
          dn ← dname_lookup ht rest;
          match dn, comp with
          | Some dn, true => r ← dname_encode_pointer mb (dn_pos dn); Ret (r, ht)
          | _, _ =>
              let pos := mb_pos mb in
              ht ← match dn with Some _ => Ret ht | None => dname_append ht rest (u64 (pos - start)) end;
              r ← mbuf_write_u8 A mb 0;
              if bool_decide (fst r = 0) then encode_loop start comp rest pos (snd r) ht else Ret (r, ht)
          end
      else
        r ← mbuf_write_u8 A mb c;
        if bool_decide (fst r = 0) then encode_loop start comp rest pos (snd r) ht else Ret (r, ht)
  end.

Definition dns_dname_encode (mb : mbuf) (name : option (list Z)) (ht : dtable) (start : Z) (comp : bool) :
    outcome (Z * mbuf * dtable) :=
  match name with
  | None => Ret (EINVAL, mb, ht)
  | Some name =>
      dn ← dname_lookup ht name;
      match dn, comp with
      | Some dn, true => r ← dname_encode_pointer mb (dn_pos dn); Ret (r, ht)
      | _, _ =>
          let pos := mb_pos mb in
          ht ← match dn with Some _ => Ret ht | None => dname_append ht name (u64 (pos - start)) end;
          r ← mbuf_write_u8 A mb 0;
          if bool_decide (name = [chr "."]) then Ret (r, ht)
          else if bool_decide (fst r = 0) then encode_loop start comp name pos (snd r) ht else Ret (r, ht)
      end
  end.

(** ** Decoding

    [buf] is what was stored so far into the buffer of 256 bytes, [comp] the
    position to go back to. *)
Definition NAME_SIZE : Z := 256.

Fixpoint decode_loop (fuel : nat) (start : Z) (mb : mbuf) (buf : list Z) (loopc : Z) (comp : option Z) :
    outcome (Z * option (list Z) * mbuf) :=
  match fuel with
  | O => Fault NoFuel
  | S fuel =>
      if bool_decide (mb_pos mb < mb_end mb) then
        len ← byte_at mb (mb_pos mb);
        let here := mb_pos mb in
        let i := Z.of_nat (length buf) in
        let mb := mbuf_set_pos mb (here + 1) in
        if bool_decide (len = 0) then
          let mb := match comp with Some pos => mbuf_set_pos mb pos | None => mb end in
          if bool_decide (i < NAME_SIZE) then
            if alloc_ok A (i + 1) then Ret (0, Some (c_string buf), mb) else Ret (ENOMEM, None, mb)
          else Fault OutOfBounds
        else if bool_decide (Z.land len COMP_MASK = COMP_MASK) then
          if bool_decide (loopc > COMP_LOOP) then Ret (EINVAL, None, mb)
          else
            r ← mbuf_read_u16 (mbuf_set_pos mb here);
            let '(v, mb) := r in
            let offset := Z.land (ntohs v) OFFSET_MASK in
            let comp := match comp with None => Some (mb_pos mb) | Some _ => comp end in
            decode_loop fuel start (mbuf_set_pos mb (u64 (offset + start))) buf (loopc + 1) comp
        else if bool_decide (len > mbuf_get_left mb) then Ret (EINVAL, None, mb)
        else if bool_decide (len > u64 (NAME_SIZE - i - 2)) then Ret (EINVAL, None, mb)
        else
          bs ← memcpy_from (mb_buf mb) (mb_pos mb) len;
          let buf := (if bool_decide (i > 0) then buf ++ [chr "."] else buf) ++ bs in
          if bool_decide (Z.of_nat (length buf) ≤ NAME_SIZE) then
            decode_loop fuel start (mbuf_set_pos mb (mb_pos mb + len)) buf loopc comp
          else Fault OutOfBounds
      else Ret (EINVAL, None, mb)
  end.

(** Each turn follows one of at most 256 pointers or adds to the name. *)
Definition decode_fuel : nat := 600.

Definition dns_dname_decode (mb : mbuf) (start : Z) : outcome (Z * option (list Z) * mbuf) :=
  decode_loop decode_fuel start mb [] 0 None.
End dname.

(** ** What a message says at a position

    From [p] on, following [j] pointers, come the labels [ls] up to [q]; [o] is
    the position behind the first pointer.  The decoder is [lenient]: it takes
    a pointer that the end of the message cuts short for one to offset 0. *)
Section walks.
Variables (lenient : bool) (d : list Z) (start : nat).

Inductive walks : nat → nat → list (list Z) → option nat → nat → Prop :=
| walk_here p : walks p 0 [] None p
| walk_label p l j ls o q :
    l ≠ [] → Z.of_nat (length l) < COMP_MASK → d !! p = Some (Z.of_nat (length l)) →
    take (length l) (drop (S p) d) = l → walks (S p + length l) j ls o q → walks p j (l :: ls) o q
| walk_pointer p h lo j ls o q :
    d !! p = Some h → COMP_MASK ≤ h < 256 → d !! S p = Some lo → 0 ≤ lo < 256 →
    walks (start + Z.to_nat ((h - COMP_MASK) * 256 + lo)) j ls o q → walks p (S j) ls (Some (p + 2)%nat) q
| walk_cut p h j ls o q :
    lenient = true → d !! p = Some h → COMP_MASK ≤ h < 256 → d !! S p = None →
    walks start j ls o q → walks p (S j) ls (Some p) q.

(** A whole name: a walk up to the empty label. *)
Definition name_at (p j : nat) (ls : list (list Z)) (e : nat) : Prop :=
  ∃ o q, walks p j ls o q ∧ d !! q = Some 0 ∧ e = default (S q) o.
End walks.

(** The text of labels, after [buf]. *)
Definition add_label (buf l : list Z) : list Z := match buf with [] => l | _ => buf ++ chr "." :: l end.
Definition add_labels (buf : list Z) (ls : list (list Z)) : list Z := foldl add_label buf ls.

Lemma add_label_length buf l : (length buf ≤ length (add_label buf l))%nat.
Proof. unfold add_label. destruct buf as [|b buf]; [simpl; lia|]. rewrite length_app. lia. Qed.

Lemma add_labels_length ls : ∀ buf, (length buf ≤ length (add_labels buf ls))%nat.
Proof. induction ls as [|l ls IH]; intros buf; [done|]. cbn [add_labels foldl]. etrans; [apply (add_label_length buf l)|apply IH]. Qed.

Lemma compressed len : 0 ≤ len < 256 → bool_decide (Z.land len COMP_MASK = COMP_MASK) = bool_decide (COMP_MASK ≤ len).
Proof.
  intros Hlen. assert (Hall : Forall (λ n, bool_decide (Z.land n COMP_MASK = COMP_MASK) = bool_decide (COMP_MASK ≤ n)) (seqZ 0 256)).
  { apply (bool_decide_eq_true_1 _). vm_compute. reflexivity. }
  rewrite Forall_forall in Hall. apply Hall. apply list_elem_of_In, elem_of_seqZ. lia.
Qed.

Section decode.
Context (A : allocator).
Variables (mb : mbuf) (b : list Z) (start : nat).
Hypotheses (Hwf : mbuf_inv mb) (Hb : mb_buf mb = Some b) (Hstart : Z.of_nat start < 2 ^ 62).

(** The bytes of the message. *)
Local Abbreviation d := (take (Z.to_nat (mb_end mb)) b).
Local Abbreviation at_ p := (mbuf_set_pos mb (Z.of_nat p)).

Lemma d_length : length d = Z.to_nat (mb_end mb).
Proof using Hwf Hb Hstart. destruct Hwf as (Hs & _ & He & _). rewrite Hb in Hs. cbn [default id] in Hs. rewrite length_take. lia. Qed.

Lemma end_bound : 0 ≤ mb_end mb < 2 ^ 62.
Proof using Hwf Hb Hstart. destruct Hwf as (Hs & Hm & He & _). unfold max_alloc in Hm. lia. Qed.

Lemma d_byte p x : d !! p = Some x → 0 ≤ x < 256 ∧ Z.of_nat p < mb_end mb ∧ byte_at (at_ p) (Z.of_nat p) = Ret x ∧ b !! p = Some x.
Proof using Hwf Hb Hstart.
  intros Hp. pose proof (lookup_lt_Some _ _ _ Hp) as Hlt. rewrite d_length in Hlt.
  pose proof Hwf as (_ & _ & _ & _ & Hok). rewrite Hb in Hok. apply lookup_take_Some in Hp as [Hp _].
  split; [|split; [lia|split; [|done]]].
  - eapply (Forall_lookup_1 is_byte); [exact Hok|exact Hp].
  - unfold byte_at. cbn. rewrite Hb. cbn. rewrite bool_decide_eq_true_2, Nat2Z.id by lia. by rewrite Hp.
Qed.

Lemma d_none p : d !! p = None → mb_end mb ≤ Z.of_nat p.
Proof using Hwf Hb Hstart. intros Hp. apply lookup_ge_None_1 in Hp. rewrite d_length in Hp. lia. Qed.

Lemma left_at p : Z.of_nat p ≤ mb_end mb → mbuf_get_left (at_ p) = mb_end mb - Z.of_nat p.
Proof using Hwf Hb Hstart. intros Hp. unfold mbuf_get_left. cbn. pose proof end_bound. rewrite u64_id by lia. done. Qed.

(** A pointer, whole or cut short by the end of the message. *)
Lemma read_pointer p h lo : d !! p = Some h → d !! S p = Some lo →
  mbuf_read_u16 (at_ p) = Ret (le_value [h; lo], at_ (p + 2)) ∧ ntohs (le_value [h; lo]) = 256 * h + lo.
Proof using Hwf Hb Hstart.
  intros Hh Hlo. destruct (d_byte p h Hh) as (Hh1 & Hh2 & _ & Hh3). destruct (d_byte (S p) lo Hlo) as (Hl1 & Hl2 & _ & Hl3).
  pose proof end_bound. unfold mbuf_read_u16, mbuf_read_int, mbuf_read_mem. rewrite left_at by lia.
  rewrite bool_decide_eq_false_2 by lia. cbn [mb_buf mb_pos mbuf_set_pos]. rewrite Hb.
  assert (Hlen : (S p < length b)%nat) by (by eapply lookup_lt_Some).
  rewrite memcpy_from_run by lia. cbn [mbind outcome_bind]. rewrite !Nat2Z.id.
  rewrite (drop_S b h p Hh3), (drop_S b lo (S p) Hl3). cbn [take]. rewrite (bool_decide_eq_true_2 (0 = 0)) by done.
  rewrite u64_id by lia. replace (Z.of_nat p + Z.of_nat 2) with (Z.of_nat (p + 2)) by lia. split; [done|].
  cbn [le_value]. rewrite Z.mul_0_r, Z.add_0_r. rewrite <- (htons_bytes h lo) by done. done.
Qed.

Lemma offset_of h lo : COMP_MASK ≤ h < 256 → 0 ≤ lo < 256 → Z.land (256 * h + lo) OFFSET_MASK = (h - COMP_MASK) * 256 + lo.
Proof using.
  clear. unfold COMP_MASK, OFFSET_MASK. intros Hh Hl. change 16383 with (2 ^ 14 - 1). rewrite land_ones_mod by lia.
  change (2 ^ 14) with 16384. replace (256 * h + lo) with ((h - 192) * 256 + lo + 3 * 16384) by lia.
  rewrite Z.mod_add by lia. apply Z.mod_small. lia.
Qed.

(** A label at [q] that the message holds whole. *)
Definition next_label (q : nat) (l : list Z) : Prop :=
  l ≠ [] ∧ Z.of_nat (length l) < COMP_MASK ∧ d !! q = Some (Z.of_nat (length l)) ∧ take (length l) (drop (S q) d) = l.

#[local] Instance next_label_dec q l : Decision (next_label q l).
Proof. unfold next_label. apply _. Defined.

Lemma label_head f q l buf loopc comp : next_label q l →
  decode_loop A (S f) (Z.of_nat start) (at_ q) buf loopc comp =
    if bool_decide (Z.of_nat (length l) > u64 (NAME_SIZE - Z.of_nat (length buf) - 2)) then Ret (EINVAL, None, at_ (S q))
    else if bool_decide (Z.of_nat (length (add_label buf l)) ≤ NAME_SIZE) then
      decode_loop A f (Z.of_nat start) (at_ (S q + length l)) (add_label buf l) loopc comp
    else Fault OutOfBounds.
Proof using Hwf Hb Hstart.
  intros (Hne & Hlen & Hd & Hl). destruct (d_byte q _ Hd) as (Hx & Hp & Hbyte & _). pose proof end_bound.
  assert (Hpos : 0 < Z.of_nat (length l)) by (destruct l; [done|simpl; lia]).
  assert (Hleft : (S q + length l ≤ length d)%nat).
  { pose proof (f_equal length Hl) as Hll. rewrite length_take, length_drop in Hll. lia. }
  rewrite d_length in Hleft.
  cbn [decode_loop]. rewrite bool_decide_eq_true_2 by (cbn; lia). cbn [mb_pos mbuf_set_pos].
  change (mb_pos (at_ q)) with (Z.of_nat q). rewrite Hbyte. cbn [mbind outcome_bind].
  rewrite bool_decide_eq_false_2 by lia. rewrite compressed by lia. rewrite bool_decide_eq_false_2 by lia.
  change (mbuf_set_pos (at_ q) (Z.of_nat q + 1)) with (mbuf_set_pos mb (Z.of_nat q + 1)).
  replace (Z.of_nat q + 1) with (Z.of_nat (S q)) by lia. rewrite left_at by lia. rewrite bool_decide_eq_false_2 by lia.
  destruct (bool_decide (_ > u64 _)); [done|]. cbn [mb_buf mb_pos mbuf_set_pos]. rewrite Hb.
  assert (Hlb : (S q + length l ≤ length b)%nat).
  { destruct Hwf as (Hs & _ & He & _). rewrite Hb in Hs. cbn in Hs. lia. }
  rewrite memcpy_from_run by lia. cbn [mbind outcome_bind]. rewrite !Nat2Z.id.
  assert (Ebs : take (length l) (drop (S q) b) = l).
  { rewrite <- Hl at 2. rewrite take_drop_commute, (take_drop_commute d), take_take. do 2 f_equal. lia. }
  rewrite Ebs.
  assert (Ebuf : (if bool_decide (Z.of_nat (length buf) > 0) then buf ++ [chr "."] else buf) ++ l = add_label buf l).
  { unfold add_label. destruct buf; [done|]. rewrite bool_decide_eq_true_2 by (simpl; lia). by rewrite <- app_assoc. }
  rewrite Ebuf. destruct (bool_decide (_ ≤ NAME_SIZE)); [|done]. f_equal. unfold mbuf_set_pos. cbn. f_equal. lia.
Qed.

Lemma add_label_len buf l : (length l ≤ length (add_label buf l))%nat ∧ (l ≠ [] → length buf < length (add_label buf l))%nat ∧
  (length (add_label buf l) ≤ length buf + 1 + length l)%nat ∧ (buf ≠ [] → length (add_label buf l) = length buf + 1 + length l)%nat.
Proof using.
  clear. unfold add_label. destruct buf as [|x buf]; [cbn [length]; split_and!; [lia| |lia|done]; destruct l; [done|simpl; lia]|].
  rewrite length_app. cbn [length]. split_and!; intros; lia.
Qed.

(** One label that fits the name. *)
Lemma label_turn f q l buf loopc comp : next_label q l → Z.of_nat (length (add_label buf l)) ≤ 255 →
  decode_loop A (S f) (Z.of_nat start) (at_ q) buf loopc comp =
    decode_loop A f (Z.of_nat start) (at_ (S q + length l)) (add_label buf l) loopc comp.
Proof using Hwf Hb Hstart.
  intros Hl Hbuf. rewrite (label_head f q l) by done. destruct Hl as (Hne & Hlen & _).
  destruct (add_label_len buf l) as (_ & _ & _ & H). unfold NAME_SIZE, COMP_MASK in *.
  rewrite (bool_decide_eq_true_2 (_ ≤ 256)) by lia. rewrite bool_decide_eq_false_2; [done|].
  destruct buf; [cbn [length]; rewrite u64_id; lia|]. specialize (H ltac:(done)). rewrite u64_id; lia.
Qed.

(** The test [len > sizeof(buf) - i - 2] wraps when 255 characters are stored:
    the next label goes past the end of the buffer. *)
Lemma fault_turn f q l buf loopc comp : next_label q l → length buf = 255%nat →
  decode_loop A (S f) (Z.of_nat start) (at_ q) buf loopc comp = Fault OutOfBounds.
Proof using Hwf Hb Hstart.
  intros Hl Hbuf. rewrite (label_head f q l) by done. destruct Hl as (Hne & Hlen & _).
  destruct (add_label_len buf l) as (_ & H & _ & H2). unfold NAME_SIZE, COMP_MASK in *. rewrite Hbuf in *.
  change (u64 (256 - Z.of_nat 255 - 2)) with 18446744073709551615. rewrite bool_decide_eq_false_2 by lia.
  rewrite bool_decide_eq_false_2; [done|]. rewrite H2; [|by destruct buf]. destruct l; [done|]. cbn [length]. lia.
Qed.

(** One pointer. *)
Lemma pointer_turn f p h lo buf loopc comp :
  d !! p = Some h → COMP_MASK ≤ h < 256 → d !! S p = Some lo → 0 ≤ lo < 256 → loopc ≤ COMP_LOOP →
  decode_loop A (S f) (Z.of_nat start) (at_ p) buf loopc comp =
    decode_loop A f (Z.of_nat start) (at_ (start + Z.to_nat ((h - COMP_MASK) * 256 + lo))) buf (loopc + 1)
      (match comp with None => Some (Z.of_nat (p + 2)) | Some _ => comp end).
Proof using Hwf Hb Hstart.
  intros Hh Hm Hlo Hlo' Hloop. destruct (d_byte p _ Hh) as (Hx & Hp & Hbyte & _). destruct (read_pointer p h lo Hh Hlo) as [Er En].
  cbn [decode_loop]. rewrite bool_decide_eq_true_2 by (cbn; lia).
  change (mb_pos (at_ p)) with (Z.of_nat p). rewrite Hbyte. cbn [mbind outcome_bind].
  rewrite bool_decide_eq_false_2 by (unfold COMP_MASK in *; lia). rewrite compressed by lia. rewrite bool_decide_eq_true_2 by lia.
  rewrite bool_decide_eq_false_2 by lia.
  change (mbuf_set_pos (mbuf_set_pos (at_ p) (Z.of_nat p + 1)) (Z.of_nat p)) with (at_ p). rewrite Er. cbn [mbind outcome_bind].
  rewrite En, offset_of by done. unfold COMP_MASK in *. rewrite u64_id by lia.
  f_equal. unfold mbuf_set_pos. cbn. f_equal. lia.
Qed.

(** A pointer without its second byte. *)
Lemma cut_turn f p h buf loopc comp :
  d !! p = Some h → COMP_MASK ≤ h < 256 → d !! S p = None → loopc ≤ COMP_LOOP →
  decode_loop A (S f) (Z.of_nat start) (at_ p) buf loopc comp =
    decode_loop A f (Z.of_nat start) (at_ start) buf (loopc + 1) (match comp with None => Some (Z.of_nat p) | Some _ => comp end).
Proof using Hwf Hb Hstart.
  intros Hh Hm Hlo Hloop. destruct (d_byte p _ Hh) as (Hx & Hp & Hbyte & _). apply d_none in Hlo.
  cbn [decode_loop]. rewrite bool_decide_eq_true_2 by (cbn; lia).
  change (mb_pos (at_ p)) with (Z.of_nat p). rewrite Hbyte. cbn [mbind outcome_bind].
  rewrite bool_decide_eq_false_2 by (unfold COMP_MASK in *; lia). rewrite compressed by lia. rewrite bool_decide_eq_true_2 by lia.
  rewrite bool_decide_eq_false_2 by lia.
  change (mbuf_set_pos (mbuf_set_pos (at_ p) (Z.of_nat p + 1)) (Z.of_nat p)) with (at_ p).
  unfold mbuf_read_u16, mbuf_read_int, mbuf_read_mem. rewrite left_at by lia. rewrite (bool_decide_eq_true_2 (_ > _)) by lia.
  cbn [mbind outcome_bind]. rewrite (bool_decide_eq_false_2 (EOVERFLOW = 0)) by done.
  change (Z.land (ntohs 0) OFFSET_MASK) with 0. rewrite Z.add_0_l, u64_id by lia. done.
Qed.

Lemma walk_run p j ls o q : walks true d start p j ls o q → ∀ f buf loopc comp,
  loopc + Z.of_nat j ≤ COMP_LOOP + 1 → Z.of_nat (length (add_labels buf ls)) ≤ 255 →
  decode_loop A (j + length ls + f) (Z.of_nat start) (at_ p) buf loopc comp =
    decode_loop A f (Z.of_nat start) (at_ q) (add_labels buf ls) (loopc + Z.of_nat j)
      (match comp with None => Z.of_nat <$> o | Some _ => comp end).
Proof using Hwf Hb Hstart.
  induction 1 as [p|p l j ls o q Hne Hlen Hd Hl _ IH|p h lo j ls o q Hh Hm Hlo Hlo' _ IH|p h j ls o q _ Hh Hm Hlo _ IH]; intros f buf loopc comp Hj Hbuf.
  - cbn [Nat.add length add_labels foldl fmap option_fmap option_map Z.of_nat]. rewrite Z.add_0_r. by destruct comp.
  - cbn [length]. rewrite Nat.add_succ_r. cbn [Nat.add]. cbn [add_labels foldl] in *.
    assert (Hl1 : Z.of_nat (length (add_label buf l)) ≤ 255) by (pose proof (add_labels_length ls (add_label buf l)); unfold add_labels in *; lia).
    rewrite (label_turn _ p l) by done. by apply IH.
  - cbn [Nat.add]. rewrite (pointer_turn _ p h lo) by (done || lia). rewrite IH by (done || lia).
    replace (loopc + 1 + Z.of_nat j) with (loopc + Z.of_nat (S j)) by lia. f_equal. by destruct comp.
  - cbn [Nat.add]. rewrite (cut_turn _ p h) by (done || lia). rewrite IH by (done || lia).
    replace (loopc + 1 + Z.of_nat j) with (loopc + Z.of_nat (S j)) by lia. f_equal. by destruct comp.
Qed.

Lemma walks_snoc p j ls o q l : walks true d start p j ls o q → next_label q l → walks true d start p j (ls ++ [l]) o (S q + length l).
Proof using.
  clear. intros Hw (Hne & Hlen & Hd & Hl). induction Hw; cbn [Datatypes.app].
  - eapply walk_label; [done..|constructor].
  - eapply walk_label; [done..|by apply IHHw].
  - eapply walk_pointer; [done..|by apply IHHw].
  - eapply walk_cut; [done..|by apply IHHw].
Qed.

Definition back_to (o : option nat) (p : nat) : option nat := match o with None => Some p | Some _ => o end.

Lemma walks_jump p j ls o q : walks true d start p j ls o q →
  (∀ h lo, d !! q = Some h → COMP_MASK ≤ h < 256 → d !! S q = Some lo → 0 ≤ lo < 256 →
    walks true d start p (S j) ls (back_to o (q + 2)) (start + Z.to_nat ((h - COMP_MASK) * 256 + lo))) ∧
  (∀ h, d !! q = Some h → COMP_MASK ≤ h < 256 → d !! S q = None → walks true d start p (S j) ls (back_to o q) start).
Proof using.
  clear. induction 1 as [p|p l j ls o q ? ? ? ? _ [IH1 IH2]|p h0 lo0 j ls o q ? ? ? ? _ [IH1 IH2]|p h0 j ls o q ? ? ? ? _ [IH1 IH2]];
    (split; [intros h lo Hh Hm Hlo Hlo'|intros h Hh Hm Hlo]); cbn [back_to].
  - eapply walk_pointer; [done..|constructor].
  - eapply walk_cut; [done..|constructor].
  - eapply walk_label; [done..|]. by eapply IH1.
  - eapply walk_label; [done..|]. by eapply IH2.
  - eapply (walk_pointer _ _ _ p h0 lo0); [done..|]. by eapply IH1.
  - eapply (walk_pointer _ _ _ p h0 lo0); [done..|]. by eapply IH2.
  - eapply (walk_cut _ _ _ p h0); [done..|]. by eapply IH1.
  - eapply (walk_cut _ _ _ p h0); [done..|]. by eapply IH2.
Qed.

Lemma add_labels_snoc buf ls l : add_labels buf (ls ++ [l]) = add_label (add_labels buf ls) l.
Proof using. clear. unfold add_labels. by rewrite foldl_app. Qed.

Lemma end_turn f q buf loopc comp : d !! q = Some 0 → (length buf ≤ 255)%nat →
  decode_loop A (S f) (Z.of_nat start) (at_ q) buf loopc comp =
    let mb' := mbuf_set_pos mb (default (Z.of_nat (S q)) comp) in
    if alloc_ok A (Z.of_nat (length buf) + 1) then Ret (0, Some (c_string buf), mb') else Ret (ENOMEM, None, mb').
Proof using Hwf Hb Hstart.
  intros Hd Hlen. destruct (d_byte q _ Hd) as (Hx & Hp & Hbyte & _).
  cbn [decode_loop]. rewrite bool_decide_eq_true_2 by (cbn; lia). change (mb_pos (at_ q)) with (Z.of_nat q).
  rewrite Hbyte. cbn [mbind outcome_bind]. rewrite bool_decide_eq_true_2 by done.
  rewrite bool_decide_eq_true_2 by (unfold NAME_SIZE; lia). replace (Z.of_nat (S q)) with (Z.of_nat q + 1) by lia. by destruct comp.
Qed.

(** Every other turn ends in [EINVAL]. *)
Lemma other_turn f q buf loopc comp : (length buf ≤ 255)%nat → 0 ≤ loopc →
  d !! q ≠ Some 0 →
  (∀ h, d !! q = Some h → COMP_MASK ≤ h → COMP_LOOP < loopc) →
  (∀ l, next_label q l → 255 < Z.of_nat (length (add_label buf l)) ∧ length buf ≠ 255%nat) →
  ∃ mb', decode_loop A (S f) (Z.of_nat start) (at_ q) buf loopc comp = Ret (EINVAL, None, mb').
Proof using Hwf Hb Hstart.
  intros Hbuf Hloop H0 Hptr Hlab. cbn [decode_loop].
  destruct (d !! q) as [len|] eqn:Hd.
  2: { apply d_none in Hd. rewrite bool_decide_eq_false_2 by (cbn; lia). by eexists. }
  destruct (d_byte q _ Hd) as (Hx & Hp & Hbyte & _). pose proof end_bound.
  destruct (decide (COMP_MASK ≤ len)) as [Hc|Hc].
  { specialize (Hptr len ltac:(done) Hc). rewrite bool_decide_eq_true_2 by (cbn; lia). change (mb_pos (at_ q)) with (Z.of_nat q).
    rewrite Hbyte. cbn [mbind outcome_bind]. rewrite bool_decide_eq_false_2 by (unfold COMP_MASK in *; lia). rewrite compressed by lia.
    rewrite !bool_decide_eq_true_2 by lia. by eexists. }
  destruct (decide (len > mb_end mb - Z.of_nat (S q))) as [Hs|Hs].
  { rewrite bool_decide_eq_true_2 by (cbn; lia). change (mb_pos (at_ q)) with (Z.of_nat q).
    rewrite Hbyte. cbn [mbind outcome_bind]. rewrite bool_decide_eq_false_2 by congruence. rewrite compressed by lia.
    rewrite bool_decide_eq_false_2 by lia. change (mbuf_set_pos (at_ q) (Z.of_nat q + 1)) with (mbuf_set_pos mb (Z.of_nat q + 1)).
    replace (Z.of_nat q + 1) with (Z.of_nat (S q)) by lia. rewrite left_at by lia. rewrite bool_decide_eq_true_2 by lia. by eexists. }
  assert (Hnl : next_label q (take (Z.to_nat len) (drop (S q) d)) ∧ length (take (Z.to_nat len) (drop (S q) d)) = Z.to_nat len).
  { assert (El : length (take (Z.to_nat len) (drop (S q) d)) = Z.to_nat len) by (rewrite length_take, length_drop, d_length; lia).
    split; [|done]. unfold next_label. rewrite El. split_and!; [|lia|rewrite Hd; f_equal; lia|done].
    intros E. rewrite E in El. simpl in El. assert (len ≠ 0) by congruence. lia. }
  destruct Hnl as [Hnl El]. destruct (Hlab _ Hnl) as [Hbig H255]. pose proof (label_head f q _ buf loopc comp Hnl) as E.
  cbn [decode_loop] in E. rewrite E. clear E. rewrite El. rewrite bool_decide_eq_true_2; [by eexists|].
  pose proof (add_label_len buf (take (Z.to_nat len) (drop (S q) d))) as (_ & _ & Hle & _). rewrite El in Hle.
  unfold NAME_SIZE, COMP_MASK in *. rewrite u64_id; lia.
Qed.

(** The walk from [p0] comes to 255 characters and another label. *)
Definition overruns (p0 : nat) : Prop :=
  ∃ j ls o q l, walks true d start p0 j ls o q ∧ (j ≤ 256)%nat ∧ length (add_labels [] ls) = 255%nat ∧ next_label q l.

Definition decoded (p0 : nat) (r : outcome (Z * option (list Z) * mbuf)) : Prop :=
  match r with
  | Ret (0, name, mb') => ∃ j ls e, name_at true d start p0 j ls e ∧ (j ≤ 256)%nat ∧ (length (add_labels [] ls) ≤ 255)%nat ∧
      name = Some (c_string (add_labels [] ls)) ∧ mb' = at_ e
  | Ret (e, name, _) => (e = EINVAL ∨ e = ENOMEM) ∧ name = None
  | Fault f => f = OutOfBounds ∧ overruns p0
  end.

Lemma default_back o (q : nat) : default (Z.of_nat q) (Z.of_nat <$> o) = Z.of_nat (default q o).
Proof using. by destruct o. Qed.

Lemma decode_all f : ∀ p0 j ls o q, walks true d start p0 j ls o q → (j ≤ 256)%nat → (length (add_labels [] ls) ≤ 255)%nat →
  (257 - j + (256 - length (add_labels [] ls)) ≤ f)%nat →
  decoded p0 (decode_loop A f (Z.of_nat start) (at_ q) (add_labels [] ls) (Z.of_nat j) (Z.of_nat <$> o)).
Proof using Hwf Hb Hstart.
  induction f as [|f IH]; intros p0 j ls o q Hw Hj Hls Hf; [lia|].
  destruct (decide (d !! q = Some 0)) as [H0|H0].
  { rewrite end_turn by done. cbv zeta. destruct (alloc_ok A _); [|by split; [right|]].
    cbn. exists j, ls, (default (S q) o). split; [by exists o, q|]. split; [done|]. split; [done|]. split; [done|].
    by rewrite default_back. }
  destruct (d !! q) as [h|] eqn:Hq.
  2: { destruct (other_turn f q (add_labels [] ls) (Z.of_nat j) (Z.of_nat <$> o)) as [mb' ->]; [done|lia|by rewrite Hq|by rewrite Hq| |by split; [left|]].
    intros l (_ & _ & Hd & _). congruence. }
  destruct (d_byte q h Hq) as (Hh & _).
  destruct (decide (COMP_MASK ≤ h)) as [Hc|Hc].
  - destruct (decide (Z.of_nat j ≤ COMP_LOOP)) as [Hjl|Hjl].
    2: { destruct (other_turn f q (add_labels [] ls) (Z.of_nat j) (Z.of_nat <$> o)) as [mb' ->]; [done|lia|congruence|intros; lia| |by split; [left|]].
      intros l (_ & Hlt & Hd & _). simplify_eq. lia. }
    assert (Hj255 : Z.of_nat j ≤ 255) by exact Hjl. destruct (walks_jump p0 j ls o q Hw) as [J1 J2].
    replace (Z.of_nat j + 1) with (Z.of_nat (S j)) in * by lia.
    assert (Hgo : ∀ q' x, walks true d start p0 (S j) ls (back_to o x) q' →
      decoded p0 (decode_loop A f (Z.of_nat start) (at_ q') (add_labels [] ls) (Z.of_nat j + 1) (match Z.of_nat <$> o with None => Some (Z.of_nat x) | Some _ => Z.of_nat <$> o end))).
    { intros q' x Hw'. replace (match Z.of_nat <$> o with None => _ | Some _ => _ end) with (Z.of_nat <$> back_to o x) by (by destruct o).
      replace (Z.of_nat j + 1) with (Z.of_nat (S j)) by lia. apply IH; [done|lia..]. }
    destruct (d !! S q) as [lo|] eqn:Hlo.
    + destruct (d_byte (S q) lo Hlo) as (Hlo' & _). rewrite (pointer_turn f q h lo) by (done || lia). apply Hgo, J1; (done || lia).
    + rewrite (cut_turn f q h) by (done || lia). eapply Hgo, J2; (done || lia).
  - set (l := take (Z.to_nat h) (drop (S q) d)).
    assert (Huniq : ∀ l', next_label q l' → l' = l).
    { intros l' (_ & _ & Hd & Hl'). simplify_eq. rewrite <- Hl'. unfold l. by rewrite Nat2Z.id. }
    assert (Hother : (next_label q l → 255 < Z.of_nat (length (add_label (add_labels [] ls) l)) ∧ length (add_labels [] ls) ≠ 255%nat) →
      decoded p0 (decode_loop A (S f) (Z.of_nat start) (at_ q) (add_labels [] ls) (Z.of_nat j) (Z.of_nat <$> o))).
    { intros Hl. destruct (other_turn f q (add_labels [] ls) (Z.of_nat j) (Z.of_nat <$> o)) as [mb' ->];
        [done|lia|congruence|intros h' E; simplify_eq; lia| |by split; [left|]].
      intros l' Hl'. pose proof (Huniq _ Hl') as ->. by apply Hl. }
    destruct (decide (next_label q l)) as [Hl|Hl]; [|by apply Hother].
    destruct (decide (length (add_labels [] ls) = 255%nat)) as [H255|H255].
    { rewrite (fault_turn f q l) by done. split; [done|]. by exists j, ls, o, q, l. }
    destruct (decide (Z.of_nat (length (add_label (add_labels [] ls) l)) ≤ 255)) as [Hfit|Hfit]; [|apply Hother; intros _; split; [lia|done]].
    rewrite (label_turn f q l) by done. rewrite <- add_labels_snoc in *.
    pose proof (add_label_len (add_labels [] ls) l) as (_ & Hgrow & _). rewrite <- add_labels_snoc in Hgrow.
    specialize (Hgrow (proj1 Hl)). apply IH; [by apply walks_snoc|lia..].
Qed.

End decode.

(** [overrun_at mb start]: the name at the position of [mb] leads past the
    buffer; [decodes mb start r]: [r] is what its decoding may come to. *)
Definition overrun_at (mb : mbuf) (start : nat) : Prop := overruns mb (data mb) start (Z.to_nat (mb_pos mb)).
Definition decodes (mb : mbuf) (start : nat) : outcome (Z * option (list Z) * mbuf) → Prop :=
  decoded mb (data mb) start (Z.to_nat (mb_pos mb)).

(** The bytes of a message. *)
Definition message (mb : mbuf) : list Z := take (Z.to_nat (mb_end mb)) (data mb).

Lemma decode_fuel_room k : (k ≤ 600)%nat → ∃ f, decode_fuel = (k + f)%nat.
Proof. intros Hk. exists (600 - k)%nat. unfold decode_fuel. lia. Qed.

Section decode_facts.
Context (A : allocator) (mb : mbuf) (start : nat).
Hypotheses (Hwf : mbuf_inv mb) (Hstart : Z.of_nat start < 2 ^ 62).

Lemma at_own_pos : mbuf_set_pos mb (Z.of_nat (Z.to_nat (mb_pos mb))) = mb.
Proof using Hwf start. destruct Hwf as (_ & _ & _ & Hp & _), mb. unfold mbuf_set_pos. cbn in *. f_equal. lia. Qed.

Lemma message_empty : mb_buf mb = None → mb_end mb = 0 ∧ message mb = [].
Proof using Hwf start.
  intros Hn. destruct Hwf as (Hs & _ & He & _). unfold message, data. rewrite Hn in *. cbn in *. split; [lia|]. by rewrite take_nil.
Qed.

Lemma buffer_data b : mb_buf mb = Some b → data mb = b.
Proof using. unfold data. by intros ->. Qed.

Lemma decode_sound : decodes mb start (dns_dname_decode A mb (Z.of_nat start)).
Proof using Hwf Hstart.
  unfold decodes, dns_dname_decode. destruct (mb_buf mb) as [b|] eqn:Hb.
  - rewrite (buffer_data b Hb). rewrite <- at_own_pos at 3.
    apply (decode_all A mb b start Hwf Hb Hstart decode_fuel (Z.to_nat (mb_pos mb)) 0 [] None); [constructor|lia|simpl; lia|simpl; unfold decode_fuel; lia].
  - destruct (message_empty Hb) as [He _]. destruct Hwf as (_ & _ & _ & Hp & _).
    destruct (decode_fuel_room 1) as [f ->]; [lia|]. cbn [Nat.add]. cbn [decode_loop].
    rewrite bool_decide_eq_false_2 by lia. by split; [left|].
Qed.

Lemma labels_count ls : Forall (λ l : list Z, l ≠ []) ls → (length ls ≤ length (add_labels [] ls))%nat.
Proof using.
  clear. induction ls as [|l ls IH] using rev_ind; [done|]. intros [Hls Hl]%Forall_app. rewrite add_labels_snoc, length_app. cbn [length].
  apply Forall_inv in Hl. destruct (add_label_len (add_labels [] ls) l) as (_ & Hgrow & _). specialize (IH Hls). specialize (Hgrow Hl). lia.
Qed.

Lemma walks_nonempty lenient d s p j ls o q : walks lenient d s p j ls o q → Forall (λ l : list Z, l ≠ []) ls.
Proof using. clear. induction 1; [constructor|by constructor|done|done]. Qed.

Lemma decode_name p j ls e : name_at true (message mb) start p j ls e → (j ≤ 256)%nat →
  (length (add_labels [] ls) ≤ 255)%nat → alloc_ok A (Z.of_nat (length (add_labels [] ls)) + 1) = true →
  dns_dname_decode A (mbuf_set_pos mb (Z.of_nat p)) (Z.of_nat start) =
    Ret (0, Some (c_string (add_labels [] ls)), mbuf_set_pos mb (Z.of_nat e)).
Proof using Hwf Hstart.
  intros (o & q & Hw & H0 & ->) Hj Hls Halloc. destruct (mb_buf mb) as [b|] eqn:Hb.
  2: { destruct (message_empty Hb) as [_ Hm]. by rewrite Hm in H0. }
  unfold message in *. rewrite (buffer_data b Hb) in *. unfold dns_dname_decode.
  pose proof (labels_count ls (walks_nonempty _ _ _ _ _ _ _ _ Hw)).
  destruct (decode_fuel_room (j + length ls + 1)) as [f ->]; [lia|]. replace (j + length ls + 1 + f)%nat with (j + length ls + S f)%nat by lia.
  rewrite (walk_run A mb b start Hwf Hb Hstart p j ls o q Hw) by (unfold COMP_LOOP; lia).
  rewrite (end_turn A mb b start Hwf Hb Hstart) by done. cbv zeta. rewrite Halloc. do 3 f_equal. by destruct o.
Qed.

Lemma decode_overrun : overrun_at mb start → dns_dname_decode A mb (Z.of_nat start) = Fault OutOfBounds.
Proof using Hwf Hstart.
  intros (j & ls & o & q & l & Hw & Hj & Hls & Hl). destruct (mb_buf mb) as [b|] eqn:Hb.
  2: { destruct Hl as (_ & _ & Hd & _). destruct (message_empty Hb) as [_ Hm]. unfold message in Hm. by rewrite Hm in Hd. }
  rewrite (buffer_data b Hb) in *. unfold dns_dname_decode.
  pose proof (labels_count ls (walks_nonempty _ _ _ _ _ _ _ _ Hw)).
  destruct (decode_fuel_room (j + length ls + 1)) as [f ->]; [lia|]. replace (j + length ls + 1 + f)%nat with (j + length ls + S f)%nat by lia. rewrite <- at_own_pos at 1.
  rewrite (walk_run A mb b start Hwf Hb Hstart _ j ls o q Hw) by (unfold COMP_LOOP; lia).
  by apply (fault_turn A mb b start Hwf Hb Hstart _ q l).
Qed.
End decode_facts.

(** ** Encoding *)

(** What has been encoded so far is the message before the position. *)
Definition at_end (mb : mbuf) : Prop := mbuf_inv mb ∧ mb_pos mb = mb_end mb.

(** The text of a list of labels, with or without a dot at the end. *)
Definition join (ls : list (list Z)) : list Z :=
  match ls with [] => [] | l :: ls => l ++ concat (map (cons (chr ".")) ls) end.
Definition text (dot : bool) (ls : list (list Z)) : list Z := join ls ++ (if dot then [chr "."] else []).

(** A name without the dot at its end, and without case. *)
Fixpoint strip (name : list Z) : list Z :=
  match name with
  | [] => []
  | c :: rest => match rest with [] => if bool_decide (c = chr ".") then [] else [c] | _ => c :: strip rest end
  end.
Definition plain (name : list Z) : list Z := map tolower name.

(** A label that can be written: its length fits the low six bits. *)
Definition good_label (l : list Z) : Prop :=
  l ≠ [] ∧ Z.of_nat (length l) < 64 ∧ Forall (λ c, is_byte c ∧ c ≠ 0 ∧ c ≠ chr ".") l.

#[export] Instance good_label_dec l : Decision (good_label l).
Proof. unfold good_label. apply _. Defined.

(** The names of the table are where the table says; a name follows fewer
    pointers than it has labels. *)
Definition entries (ht : dtable) : list dname := match ht with None => [] | Some h => concat h end.

Definition entry_ok (d : list Z) (start : nat) (dn : dname) : Prop :=
  dn_name dn ≠ [] ∧ 0 ≤ dn_pos dn ≤ OFFSET_MASK ∧
  ∃ j ls e, name_at false d start (start + Z.to_nat (dn_pos dn)) j ls e ∧
    plain (strip (dn_name dn)) = plain (add_labels [] ls) ∧ (j ≤ length ls - 1)%nat.

Definition table_shape (ht : dtable) : Prop := match ht with None => True | Some h => table_ok h end.

Lemma strcasecmp_plain a : ∀ b, Forall (λ c, 0 < c) a → Forall (λ c, 0 < c) b → strcasecmp a b = 0 ↔ plain a = plain b.
Proof.
  assert (Hpos : ∀ x, 0 < x → 0 < tolower x) by (intros x; unfold tolower; case_bool_decide; lia).
  induction a as [|x a IH]; intros [|y b] Ha Hb; cbn [strcasecmp plain map]; [done|..].
  - apply Forall_inv, Hpos in Hb. split; [lia|done].
  - apply Forall_inv, Hpos in Ha. split; [lia|done].
  - case_bool_decide as E; [|split; [lia|congruence]]. rewrite E. unfold plain in IH. rewrite IH; [|by inversion Ha|by inversion Hb].
    split; [by intros ->|congruence].
Qed.

Lemma plain_length a b : plain a = plain b → length a = length b.
Proof. intros E. apply (f_equal length) in E. unfold plain in E. by rewrite !length_map in E. Qed.

Lemma plain_app a b : plain (a ++ b) = plain a ++ plain b.
Proof. apply map_app. Qed.

Lemma strip_snoc l : strip (l ++ [chr "."]) = l.
Proof. induction l as [|x l IH]; [done|]. cbn [Datatypes.app strip]. rewrite IH. by destruct l. Qed.

Lemma strip_other l c : c ≠ chr "." → strip (l ++ [c]) = l ++ [c].
Proof.
  intros Hc. induction l as [|x l IH]; cbn [Datatypes.app strip]; [by rewrite bool_decide_eq_false_2|].
  rewrite IH. by destruct l.
Qed.

Lemma plain_strip a : ∀ b, plain a = plain b → plain (strip a) = plain (strip b).
Proof.
  assert (Hdot : ∀ x y, tolower x = tolower y → bool_decide (x = chr ".") = bool_decide (y = chr ".")).
  { intros x y. unfold tolower. change (chr ".") with 46. repeat case_bool_decide; try done; lia. }
  induction a as [|x a IH]; intros [|y b] E; try done. injection E as Exy Eab.
  pose proof (plain_length a b Eab). cbn [strip].
  destruct a, b; try done; [|cbn [plain map]; f_equal; [done|by apply IH]].
  rewrite (Hdot x y Exy). case_bool_decide; [done|]. cbn. by rewrite Exy.
Qed.

Lemma add_labels_buf ls : ∀ buf, buf ≠ [] → add_labels buf ls = buf ++ concat (map (cons (chr ".")) ls).
Proof.
  induction ls as [|l ls IH]; intros buf Hbuf; [cbn; by rewrite app_nil_r|]. cbn [add_labels foldl map concat].
  change (foldl add_label (add_label buf l) ls) with (add_labels (add_label buf l) ls).
  assert (E : add_label buf l = buf ++ chr "." :: l) by (by destruct buf). rewrite IH, E; [by rewrite <- app_assoc|]. rewrite E. by destruct buf.
Qed.

Lemma add_labels_join ls : Forall (λ l : list Z, l ≠ []) ls → add_labels [] ls = join ls.
Proof.
  intros Hls. destruct Hls as [|l ls Hl _]; [done|]. cbn [join]. by apply (add_labels_buf ls l).
Qed.

Lemma text_cons dot l l2 ls : text dot (l :: l2 :: ls) = l ++ chr "." :: text dot (l2 :: ls).
Proof. unfold text. cbn [join map concat]. rewrite <- !app_assoc. cbn [Datatypes.app]. by rewrite <- ?app_assoc. Qed.

Lemma strip_join ls l : Forall good_label (ls ++ [l]) → strip (join (ls ++ [l])) = join (ls ++ [l]).
Proof.
  intros [_ (Hl & _ & Hc)%Forall_inv]%Forall_app. destruct l as [|c l _] using rev_ind; [done|].
  apply Forall_app in Hc as [_ (_ & _ & Hc)%Forall_inv].
  assert (E : ∃ pre, join (ls ++ [l ++ [c]]) = pre ++ [c]).
  { destruct ls as [|l0 ls]; cbn [Datatypes.app join]; [exists l; cbn; by rewrite app_nil_r|].
    rewrite map_app, concat_app. cbn. rewrite app_nil_r. eexists. rewrite !app_assoc, app_comm_cons, app_assoc. done. }
  destruct E as [pre ->]. by apply strip_other.
Qed.

Lemma strip_text dot ls : ls ≠ [] → Forall good_label ls → strip (text dot ls) = join ls.
Proof.
  intros Hne Hls. unfold text. destruct dot; [apply strip_snoc|]. rewrite app_nil_r.
  destruct ls as [|l ls _] using rev_ind; [done|]. by apply strip_join.
Qed.

Lemma message_length mb : mbuf_inv mb → length (message mb) = Z.to_nat (mb_end mb).
Proof. intros (Hs & _ & He & _). unfold message, data. rewrite length_take. lia. Qed.

(** An append either stores the bytes or finds no memory for a larger buffer. *)
Lemma append_run (A : allocator) `{!allocator_ok A} mb bs :
  at_end mb → bytes_ok bs → bs ≠ [] → Z.of_nat (length bs) < max_alloc →
  (mbuf_write_mem A mb (Some bs) = Ret (ENOMEM, mb) ∧ mb_size mb < mb_end mb + Z.of_nat (length bs)) ∨
  ∃ mb', mbuf_write_mem A mb (Some bs) = Ret (0, mb') ∧ at_end mb' ∧ message mb' = message mb ++ bs ∧ mb_size mb ≤ mb_size mb'.
Proof.
  intros [Hinv Hpe] Hbs Hne Hlen.
  assert (Hok : ∀ mb', mbuf_wf mb' → written mb bs mb' → at_end mb' ∧ message mb' = message mb ++ bs ∧ mb_size mb ≤ mb_size mb').
  { intros mb' [Hinv' Hwf'] (P & E & S & B & K). pose proof Hinv as (Hs & _ & He & Hp & _).
    split; [split; [done|lia]|]. split; [|done].
    assert (Em : ∀ m, message m = bytes_at m 0 (mb_end m)) by (intros m; unfold message, bytes_at; by rewrite drop_0).
    rewrite !Em, E. replace (Z.max _ _) with (mb_end mb + Z.of_nat (length bs)) by lia.
    rewrite bytes_at_split by lia. rewrite Z.add_0_l. f_equal; [apply K; lia|]. by rewrite <- Hpe. }
  destruct (decide (mb_pos mb + Z.of_nat (length bs) ≤ mb_size mb)) as [Hroom|Hroom].
  - right. destruct (mbuf_write_room A mb bs) as (mb' & E & Hwf' & Hw); [done..|]. exists mb'. split; [done|]. by apply Hok.
  - destruct (mbuf_write_mem_run A mb bs) as [E|(mb' & E & H)]; [done..|left; split; [done|lia]|].
    right. exists mb'. split; [done|]. destruct H as [Hwf' Hw]; [by left|]. by apply Hok.
Qed.

Lemma poke_run mb p v : at_end mb → (p < length (message mb))%nat → is_byte v →
  ∃ mb', poke mb (Z.of_nat p) v = Ret mb' ∧ at_end mb' ∧ message mb' = <[p := v]> (message mb) ∧
    mb_size mb' = mb_size mb ∧ mb_pos mb' = mb_pos mb.
Proof.
  intros [Hinv Hpe] Hp Hv. rewrite message_length in Hp by done. pose proof Hinv as (Hs & Hm & He & Hp0 & Hok).
  unfold poke, message, data in *. destruct (mb_buf mb) as [b|]; cbn [default id] in *; [|simpl in *; lia].
  cbn [of_option mbind outcome_bind]. rewrite bool_decide_eq_true_2 by lia. eexists. split; [done|]. cbn. rewrite Nat2Z.id.
  split; [|split; [by rewrite take_insert_lt by lia|done]].
  split; [|done]. split_and!; cbn; try done; try lia; [by rewrite length_insert|].
  by apply Forall_insert.
Qed.

(** The table. *)
Lemma dname_lookup_run ht name : table_shape ht →
  ∃ r, dname_lookup ht name = Ret r ∧ ∀ dn, r = Some dn → dn ∈ entries ht ∧ strcasecmp (dn_name dn) name = 0.
Proof.
  destruct ht as [h|]; [|intros _; by exists None]. intros Hok. cbn [dname_lookup table_shape entries] in *.
  destruct (hash_list_run h (hash_joaat_str_ci name) Hok) as (l & E & Hl). unfold hash_lookup. rewrite E. cbn [mbind outcome_bind].
  eexists. split; [done|]. intros dn Hf. apply find_some in Hf as [Hin Hd]. split.
  - apply list_elem_of_In, in_concat. exists l. split; [|done]. apply list_elem_of_In. by eapply list_elem_of_lookup_2.
  - unfold lookup_handler in Hd. apply bool_decide_eq_true in Hd. by cbn in Hd.
Qed.

Lemma table_append_run mem ht name pos : table_shape ht →
  ∃ ht', dname_append mem ht name pos = Ret ht' ∧ table_shape ht' ∧
    ∀ dn, dn ∈ entries ht' → dn ∈ entries ht ∨ (dn = Dname name pos ∧ pos ≤ OFFSET_MASK ∧ name ≠ []).
Proof.
  destruct ht as [h|]; [|intros _; exists None; split_and!; [done|done|by left]]. intros Hok. cbn [dname_append table_shape entries] in *.
  destruct (bool_decide (pos > OFFSET_MASK)) eqn:E1; cbn [orb]; [exists (Some h); split_and!; [done|done|by left]|].
  destruct (bool_decide (name = [])) eqn:E2; [exists (Some h); split_and!; [done|done|by left]|].
  destruct (mem name); cbn [negb]; [|exists (Some h); split_and!; [done|done|by left]].
  apply bool_decide_eq_false in E1, E2.
  set (key := hash_joaat_str_ci name). destruct (hash_append_run h key (Dname name pos) Hok) as (h' & E & Hok' & _ & _).
  rewrite E. cbn [mbind outcome_bind]. exists (Some h'). split; [done|]. split; [done|]. cbn [entries].
  unfold hash_append in E. destruct (hash_list_run h key Hok) as (l & El & Hl). rewrite El in E. cbn [mbind outcome_bind] in E.
  injection E as <-. intros dn Hdn. apply list_elem_of_In, in_concat in Hdn as (l' & Hl' & Hin).
  apply list_elem_of_In, list_elem_of_lookup in Hl' as [i Hi]. apply list_lookup_insert_Some in Hi as [(_ & <- & _)|[_ Hi]].
  - apply in_app_or in Hin as [Hin|[<-|[]]]; [left|right; split_and!; [done|lia|done]].
    apply list_elem_of_In, in_concat. exists l. split; [|done]. apply list_elem_of_In. by eapply list_elem_of_lookup_2.
  - left. apply list_elem_of_In, in_concat. exists l'. split; [|done]. apply list_elem_of_In. by eapply list_elem_of_lookup_2.
Qed.

(** Walks in a message that grows. *)
Lemma walks_grow d d' start p j ls o q : d `prefix_of` d' → walks false d start p j ls o q → walks false d' start p j ls o q.
Proof.
  intros [x ->]. induction 1 as [p|p l j ls o q Hne Hlen Hd Hl _ IH|p h lo j ls o q Hh Hm Hlo Hlo' _ IH|]; [constructor| | |done].
  - assert (Hroom : (S p + length l ≤ length d)%nat).
    { pose proof (f_equal length Hl) as Hll. rewrite length_take, length_drop in Hll.
      assert (length l ≠ 0%nat) by (by destruct l). lia. }
    apply walk_label; [done|done|by apply lookup_app_l_Some| |done].
    rewrite drop_app_le, take_app_le by (rewrite ?length_drop; lia). done.
  - eapply walk_pointer; [by apply lookup_app_l_Some|done|by apply lookup_app_l_Some|done|done].
Qed.

Lemma name_at_grow d d' start p j ls e : d `prefix_of` d' → name_at false d start p j ls e → name_at false d' start p j ls e.
Proof.
  intros Hp (o & q & Hw & H0 & He). exists o, q. split; [by eapply walks_grow|]. split; [|done].
  destruct Hp as [x ->]. by apply lookup_app_l_Some.
Qed.

Lemma entry_grow d d' start dn : d `prefix_of` d' → entry_ok d start dn → entry_ok d' start dn.
Proof.
  intros Hp (Hn & Hpos & j & ls & e & Hw & E). split; [done|]. split; [done|]. exists j, ls, e. split; [|done]. by eapply name_at_grow.
Qed.

Lemma walks_lenient d start p j ls o q : walks false d start p j ls o q → walks true d start p j ls o q.
Proof.
  induction 1; [constructor|by apply walk_label|by eapply walk_pointer|done].
Qed.

(** A label at the end of [m]. *)
Lemma walk_written m l x start j ls o q : good_label l →
  walks false (m ++ Z.of_nat (length l) :: l ++ x) start (length m + S (length l)) j ls o q →
  walks false (m ++ Z.of_nat (length l) :: l ++ x) start (length m) j (l :: ls) o q.
Proof.
  intros (Hne & Hlen & _) Hw. apply walk_label; [done|unfold COMP_MASK; lia|by rewrite lookup_app_r, Nat.sub_diag by lia| |].
  - rewrite cons_middle, app_assoc, drop_app_ge by (rewrite length_app; simpl; lia). rewrite length_app. cbn [length].
    replace (S (length m) - (length m + 1))%nat with 0%nat by lia. rewrite drop_0. by rewrite take_app_length.
  - by replace (S (length m) + length l)%nat with (length m + S (length l))%nat by lia.
Qed.

Section encode.
Context (A : allocator) `{!allocator_ok A}.
Variables (dn_mem : list Z → bool) (start : nat) (comp : bool).

Local Abbreviation loop := (encode_loop A dn_mem (Z.of_nat start) comp).

Lemma chars_run l rest pos ht : Forall (λ c, is_byte c ∧ c ≠ 0 ∧ c ≠ chr ".") l → ∀ mb, at_end mb →
  (∃ mb', loop (l ++ rest) pos mb ht = Ret (ENOMEM, mb', ht) ∧ mb_size mb < mb_end mb + Z.of_nat (length l)) ∨
  ∃ mb', loop (l ++ rest) pos mb ht = loop rest pos mb' ht ∧ at_end mb' ∧ message mb' = message mb ++ l ∧ mb_size mb ≤ mb_size mb'.
Proof using All.
  induction 1 as [|c l (Hc & _ & Hdot) _ IH]; intros mb Hmb.
  { right. exists mb. cbn. rewrite app_nil_r. split_and!; [done|done|done|lia]. }
  cbn [Datatypes.app encode_loop]. rewrite bool_decide_eq_false_2 by done. unfold mbuf_write_u8.
  assert (Ec : le_bytes 1 c = [c]) by (cbn [le_bytes]; by rewrite Z.mod_small by done). rewrite Ec.
  destruct (append_run A mb [c]) as [[E Hs]|(mb1 & E & Hmb1 & M1 & S1)]; [done|by constructor|done|done|..]; rewrite E; cbn [mbind outcome_bind fst snd].
  { left. rewrite bool_decide_eq_false_2 by done. exists mb. split; [done|]. cbn [length] in *. lia. }
  rewrite bool_decide_eq_true_2 by done.
  assert (He : mb_end mb1 = mb_end mb + 1).
  { pose proof (f_equal length M1) as L. rewrite length_app, !message_length in L by apply Hmb1 || apply Hmb.
    destruct Hmb as [(_ & _ & ? & _) _], Hmb1 as [(_ & _ & ? & _) _]. simpl in L. lia. }
  destruct (IH mb1 Hmb1) as [(mb' & E' & Hs)|(mb' & E' & Hmb' & M' & S')]; rewrite E'.
  - left. exists mb'. split; [done|]. cbn [length]. lia.
  - right. exists mb'. split; [done|]. split; [done|]. rewrite M', M1, <- app_assoc. split; [done|lia].
Qed.

Lemma end_of_message mb : at_end mb → mb_pos mb = Z.of_nat (length (message mb)) ∧ mb_end mb = Z.of_nat (length (message mb)).
Proof using. intros [Hinv Hp]. rewrite message_length by done. destruct Hinv as (_ & _ & ? & _). lia. Qed.

Lemma message_small mb : at_end mb → Z.of_nat (length (message mb)) < 2 ^ 62.
Proof using. intros Hmb. destruct (end_of_message mb Hmb) as [_ <-]. destruct Hmb as [(_ & Hm & ? & _) _]. unfold max_alloc in Hm. lia. Qed.

(** The label is complete: its length is what the loop computes, and goes to its place. *)
Lemma close_run mb m l : at_end mb → message mb = m ++ 0 :: l → good_label l →
  u64 (u64 (mb_pos mb - Z.of_nat (length m)) - 1) = Z.of_nat (length l) ∧ u8 (Z.of_nat (length l)) = Z.of_nat (length l) ∧
  ∃ mb', poke mb (Z.of_nat (length m)) (Z.of_nat (length l)) = Ret mb' ∧ at_end mb' ∧
    message mb' = m ++ Z.of_nat (length l) :: l ∧ mb_size mb' = mb_size mb.
Proof using.
  intros Hmb M (Hne & Hlen & _). destruct (end_of_message mb Hmb) as [Hp He]. pose proof (message_small mb Hmb) as Hsm.
  rewrite Hp. rewrite M in *. rewrite length_app in *. cbn [length] in *.
  replace (Z.of_nat (length m + S (length l)) - Z.of_nat (length m)) with (Z.of_nat (length l) + 1) by lia.
  split; [rewrite (u64_id (Z.of_nat (length l) + 1)), u64_id by lia; lia|].
  split; [unfold u8; rewrite Z.mod_small by lia; done|].
  destruct (poke_run mb (length m) (Z.of_nat (length l))) as (mb' & E & Hmb' & M' & S' & _);
    [done|rewrite M, length_app; cbn [length]; lia|unfold is_byte; lia|].
  exists mb'. split; [done|]. split; [done|]. split; [|done]. rewrite M', M. rewrite insert_app_r_alt by lia. by rewrite Nat.sub_diag.
Qed.

Lemma zero_byte : le_bytes 1 0 = [0].
Proof using. done. Qed.

(** What is at the end of [m], once the labels [ls] were written. *)
Definition placed (m : list Z) (ls : list (list Z)) (mb' : mbuf) : Prop :=
  ∃ j ls', name_at false (message mb') start (length m) j ls' (length (message mb')) ∧
    plain (add_labels [] ls') = plain (join ls) ∧ (j ≤ length ls' - 1)%nat.

Lemma good_nonempty ls : Forall good_label ls → Forall (λ l : list Z, l ≠ []) ls.
Proof using. apply Forall_impl. by intros l [? _]. Qed.

Lemma text_positive dot ls : Forall good_label ls → Forall (λ c, 0 < c) (text dot ls).
Proof using.
  intros Hls. assert (Hl : ∀ l, good_label l → Forall (λ c, 0 < c) l).
  { intros l (_ & _ & H). eapply Forall_impl; [|exact H]. intros c (Hc & Hc0 & _). unfold is_byte in Hc. lia. }
  unfold text. apply Forall_app. split; [|by destruct dot; repeat constructor].
  destruct Hls as [|l ls Hl0 Hls]; [constructor|]. cbn [join]. apply Forall_app. split; [by apply Hl|].
  induction Hls as [|l1 ls Hl1 _ IH]; [constructor|]. cbn [map concat]. constructor; [done|]. apply Forall_app. split; [by apply Hl|done].
Qed.

Lemma text_length_pos dot ls : ls ≠ [] → Forall good_label ls → (1 ≤ length (text dot ls))%nat.
Proof using.
  intros Hne Hls. destruct Hls as [|l ls (Hl & _) _]; [done|]. unfold text. cbn [join]. rewrite !length_app. destruct l; [done|]. simpl. lia.
Qed.

(** What the table may hold while labels are written at the end of [m]: names
    that are complete, and the longer names that are being written. *)
Definition table_during (m : list Z) (n : nat) (ht : dtable) : Prop :=
  table_shape ht ∧ ∀ dn, dn ∈ entries ht → Forall (λ c, 0 < c) (dn_name dn) ∧ (entry_ok m start dn ∨ (n ≤ length (dn_name dn))%nat).

(** A name that is found, and is shorter than those being written, can be pointed to. *)
Lemma found_entry m n ht name dn : table_during m n ht → dn ∈ entries ht → strcasecmp (dn_name dn) name = 0 →
  Forall (λ c, 0 < c) name → (length name < n)%nat → entry_ok m start dn ∧ plain (dn_name dn) = plain name.
Proof using.
  intros [_ Ht] Hdn Hcmp Hpos Hlen. destruct (Ht dn Hdn) as [Hpos' Hor].
  apply strcasecmp_plain in Hcmp; [|done..]. split; [|done]. destruct Hor as [?|Hn]; [done|].
  apply plain_length in Hcmp. lia.
Qed.

(** A pointer to an entry, written at [p] of the message. *)
Lemma pointer_walk d p dn ls : entry_ok d start dn → plain (dn_name dn) = plain (text false ls) ∨ plain (dn_name dn) = plain (text true ls) →
  ls ≠ [] → Forall good_label ls →
  d !! p = Some (COMP_MASK + dn_pos dn / 256) → d !! S p = Some (dn_pos dn `mod` 256) →
  ∃ j ls' q, walks false d start p (S j) ls' (Some (p + 2)%nat) q ∧ d !! q = Some 0 ∧
    plain (add_labels [] ls') = plain (join ls) ∧ (j ≤ length ls' - 1)%nat ∧ ls' ≠ [].
Proof using.
  intros (Hn & Hpos & j & ls' & e & (o & q & Hw & H0 & _) & Hplain & Hj) Hname Hne Hls Hhi Hlo.
  unfold OFFSET_MASK in Hpos.
  assert (Hstrip : plain (strip (dn_name dn)) = plain (join ls)).
  { destruct Hname as [E|E]; apply plain_strip in E; by rewrite strip_text in E. }
  exists j, ls', q. split; [|split; [done|split; [congruence|split; [done|]]]].
  - pose proof (Z.div_mod (dn_pos dn) 256 ltac:(lia)). pose proof (Z.mod_pos_bound (dn_pos dn) 256 ltac:(lia)).
    eapply walk_pointer; [exact Hhi|unfold COMP_MASK; lia|exact Hlo|lia|].
    replace ((COMP_MASK + dn_pos dn / 256 - COMP_MASK) * 256 + dn_pos dn `mod` 256) with (dn_pos dn) by lia. exact Hw.
  - intros ->. rewrite Hstrip in Hplain. pose proof (text_length_pos false ls Hne Hls) as Hl.
    apply plain_length in Hplain. unfold text in Hl. rewrite app_nil_r in Hl. simpl in Hplain. lia.
Qed.

Lemma pointer_bytes pos : 0 ≤ pos ≤ OFFSET_MASK →
  le_bytes 2 (htons (Z.lor pos (Z.shiftl COMP_MASK 8))) = [COMP_MASK + pos / 256; pos `mod` 256] ∧
  bytes_ok [COMP_MASK + pos / 256; pos `mod` 256].
Proof using.
  unfold OFFSET_MASK, COMP_MASK. intros Hpos. rewrite le_bytes_htons. change (Z.shiftl 192 8) with (3 * 2 ^ 14).
  rewrite Z.lor_comm, (lor_disjoint_add 14) by (done || (change (2 ^ 14) with 16384; lia)).
  change (3 * 2 ^ 14) with (192 * 256). unfold u16. rewrite (Z.mod_small _ 65536) by lia.
  rewrite (Z.add_comm (192 * 256)), Z.div_add, Z.mod_add by lia.
  pose proof (Z.div_mod pos 256 ltac:(lia)). pose proof (Z.mod_pos_bound pos 256 ltac:(lia)).
  rewrite (Z.add_comm (pos / 256)). split; [done|]. constructor; [unfold is_byte; lia|]. constructor; [unfold is_byte; lia|constructor].
Qed.

Lemma placed_last m l mb : good_label l → message mb = m ++ Z.of_nat (length l) :: l ++ [0] → placed m [l] mb.
Proof using.
  intros Hl M. exists 0%nat, [l]. unfold name_at. rewrite M. split; [|split; [|simpl; lia]].
  - exists None, (length m + S (length l))%nat. split; [apply walk_written; [done|constructor]|].
    rewrite !length_app. cbn [length default]. rewrite length_app. cbn [length]. split; [|lia].
    rewrite lookup_app_r by lia. replace (length m + S (length l) - length m)%nat with (S (length l)) by lia. 
    change ((Z.of_nat (length l) :: l ++ [0]) !! S (length l)) with ((l ++ [0]) !! length l). by rewrite list_lookup_middle.
  - rewrite add_labels_join; [done|]. repeat constructor. apply Hl.
Qed.

(** One more label before a name, or before the pointer to one. *)
Lemma placed_cons m l ls ls' mb j o q x :
  good_label l → ls ≠ [] → ls' ≠ [] → message mb = m ++ Z.of_nat (length l) :: l ++ x →
  walks false (message mb) start (length m + S (length l)) j ls' o q → message mb !! q = Some 0 → default (S q) o = length (message mb) →
  plain (add_labels [] ls') = plain (join ls) → (j ≤ length ls')%nat → Forall (λ l : list Z, l ≠ []) ls → placed m (l :: ls) mb.
Proof using.
  intros Hl Hne Hne' M Hw H0 He Hplain Hj Hls. exists j, (l :: ls'). split; [|split; [|simpl; lia]].
  - exists o, q. split; [|by split]. rewrite M in *. by apply walk_written.
  - pose proof (walks_nonempty _ _ _ _ _ _ _ _ Hw) as Hw'. rewrite add_labels_join in Hplain by done.
    rewrite add_labels_join by (constructor; [apply Hl|done]).
    destruct ls as [|l1 ls]; [done|]. destruct ls' as [|l1' ls']; [done|]. cbn [join map concat] in *.
    rewrite !plain_app. f_equal. change (plain (chr "." :: ?x)) with (tolower (chr ".") :: plain x). cbn [Datatypes.app].
    rewrite !plain_app in Hplain. by rewrite Hplain.
Qed.

(** The loop from the place of a length on. *)
Lemma labels_run dot ls : ∀ m mb ht, ls ≠ [] → Forall good_label ls → at_end mb → message mb = m ++ [0] →
  (start ≤ length m)%nat → table_during m (length (text dot ls)) ht →
  (∃ mb' ht', loop (text dot ls) (Z.of_nat (length m)) mb ht = Ret (ENOMEM, mb', ht') ∧
    mb_size mb < mb_end mb + Z.of_nat (length (text dot ls)) + 1) ∨
  ∃ mb' ht', loop (text dot ls) (Z.of_nat (length m)) mb ht = Ret (0, mb', ht') ∧ at_end mb' ∧ m `prefix_of` message mb' ∧
    placed m ls mb' ∧ table_shape ht' ∧ (∀ dn, dn ∈ entries ht' → dn ∈ entries ht ∨ entry_ok (message mb') start dn ∧ Forall (λ c, 0 < c) (dn_name dn)).
Proof using All.
  induction ls as [|l ls IH]; intros m mb ht Hne Hls Hmb M Hstart Ht; [done|]. clear Hne.
  pose proof (Forall_inv Hls) as Hl. apply Forall_inv_tail in Hls.
  assert (E0 : ∃ rest, text dot (l :: ls) = l ++ rest ∧
    match ls with [] => rest = if dot then [chr "."] else [] | _ => rest = chr "." :: text dot ls end).
  { destruct ls as [|l2 ls]; [exists (if dot then [chr "."] else []); unfold text; cbn; by rewrite app_nil_r|].
    rewrite text_cons. by eexists. }
  destruct E0 as (rest & Etext & Hrest). rewrite Etext in *.
  destruct (chars_run l rest (Z.of_nat (length m)) ht (proj2 (proj2 Hl)) mb Hmb) as [(mb1 & E1 & Hs)|(mb1 & E1 & Hmb1 & M1 & S1)]; rewrite E1.
  { left. exists mb1, ht. split; [done|]. rewrite length_app. lia. }
  rewrite M, <- app_assoc in M1. cbn [Datatypes.app] in M1.
  destruct (close_run mb1 m l Hmb1 M1 Hl) as (Hlab & Hu8 & mb2 & E2 & Hmb2 & M2 & S2).
  assert (Hl0 : Z.of_nat (length l) ≠ 0) by (destruct Hl as [Hl _]; destruct l; [done|simpl; lia]).
  destruct (end_of_message mb Hmb) as [_ He]. destruct (end_of_message mb2 Hmb2) as [Hp2 He2].
  rewrite M, length_app in He. rewrite M2, length_app in Hp2, He2. cbn [length] in He, Hp2, He2.
  destruct ls as [|l2 ls].
  - (* the last label *)
    assert (Hnil : ∃ ht', (rest = [] → ht' = ht) ∧ (rest = [chr "."] →
        dname_lookup ht [] = Ret None ∧ dname_append dn_mem ht [] (u64 (mb_pos mb2 - Z.of_nat start)) = Ret ht') ∧
        table_shape ht' ∧ ∀ dn, dn ∈ entries ht' → dn ∈ entries ht).
    { destruct dot; subst rest; [|exists ht; by split_and!; [| |apply Ht|]].
      destruct (dname_lookup_run ht [] (proj1 Ht)) as (r & Er & Hr).
      destruct (table_append_run dn_mem ht [] (u64 (mb_pos mb2 - Z.of_nat start)) (proj1 Ht)) as (ht' & Eh & Hs' & Hin').
      exists ht'. split_and!; [done| |done|intros dn Hdn; destruct (Hin' dn Hdn) as [?|(_ & _ & ?)]; done].
      intros _. split; [|done]. destruct r as [dn|]; [|done]. destruct (Hr dn eq_refl) as [Hin Hcmp].
      destruct (found_entry m _ ht [] dn Ht Hin Hcmp) as [(Hn & _) Hp]; [constructor|rewrite length_app; simpl; lia|].
      apply plain_length in Hp. by destruct (dn_name dn). }
    destruct Hnil as (ht' & Hh1 & Hh2 & Hs' & Hin').
    assert (Eloop : loop rest (Z.of_nat (length m)) mb1 ht =
        (r ← mbuf_write_u8 A mb2 0;
         if bool_decide (rest = [chr "."]) && bool_decide (fst r = 0) then loop [] (mb_pos mb2) (snd r) ht' else Ret (r, ht'))).
    { destruct dot; subst rest; cbn [encode_loop]; rewrite Hlab, Hu8, E2; rewrite (bool_decide_eq_false_2 (Z.of_nat (length l) = 0)) by done.
      - rewrite bool_decide_eq_true_2 by done. cbn [mbind outcome_bind]. destruct (Hh2 eq_refl) as [-> ->]. by destruct comp.
      - cbn [mbind outcome_bind]. by rewrite Hh1 by done. }
    rewrite Eloop. unfold mbuf_write_u8. rewrite zero_byte.
    destruct (append_run A mb2 [0] Hmb2) as [[E4 S4]|(mb4 & E4 & Hmb4 & M4 & S4)]; [by repeat constructor|done|done|..]; rewrite E4; cbn [mbind outcome_bind fst snd].
    + left. exists mb2, ht'. rewrite (bool_decide_eq_false_2 (ENOMEM = 0)), andb_false_r by done. split; [done|].
      rewrite length_app. cbn [length] in S4. lia.
    + right. rewrite M2, <- app_assoc in M4. cbn [Datatypes.app] in M4. exists mb4, ht'.
      split; [|split; [done|split; [by eexists|split; [by apply placed_last|split; [done|intros dn Hdn; left; by apply Hin']]]]].
      rewrite (bool_decide_eq_true_2 (0 = 0)), andb_true_r by done. case_bool_decide; [|done]. cbn [encode_loop].
      destruct (end_of_message mb4 Hmb4) as [Hp4 _]. rewrite M4, length_app in Hp4. cbn [length] in Hp4. rewrite length_app in Hp4. cbn [length] in Hp4.
      assert (E5 : mb_pos mb4 - mb_pos mb2 = 1) by lia. by rewrite E5.
  - (* a label and the dot before the next *)
    subst rest. set (name := text dot (l2 :: ls)) in *. assert (Hnext : Forall (λ c, 0 < c) name) by (by apply text_positive).
    assert (Hlen1 : (1 ≤ length name)%nat) by (by apply text_length_pos).
    cbn [encode_loop]. rewrite (bool_decide_eq_true_2 (chr "." = chr ".")) by done.
    rewrite Hlab, Hu8, E2. rewrite (bool_decide_eq_false_2 (Z.of_nat (length l) = 0)) by done. cbn [mbind outcome_bind].
    destruct (dname_lookup_run ht name (proj1 Ht)) as (r & Er & Hr). rewrite Er. cbn [mbind outcome_bind].
    rewrite length_app in *. cbn [length] in *.
    assert (Hfound : ∀ dn, r = Some dn → entry_ok m start dn ∧ plain (dn_name dn) = plain name).
    { intros dn ->. destruct (Hr dn eq_refl) as [Hin Hcmp]. eapply found_entry; [exact Ht|done|done|done|lia]. }
    destruct (decide (is_Some r ∧ comp = true)) as [[[dn ->] Hc]|Hgo].
    + (* a pointer to what was written before *)
      rewrite Hc. destruct (Hfound dn eq_refl) as [Hok Hplain]. pose proof Hok as (_ & Hpos & _).
      destruct (pointer_bytes (dn_pos dn) Hpos) as [Eb Hbok]. unfold dname_encode_pointer, mbuf_write_u16. rewrite Eb.
      destruct (append_run A mb2 _ Hmb2 Hbok) as [[E4 S4]|(mb4 & E4 & Hmb4 & M4 & S4)]; [done|done|..]; rewrite E4; cbn [mbind outcome_bind].
      * left. exists mb2, ht. split; [done|]. cbn [length] in S4. lia.
      * right. rewrite M2, <- app_assoc in M4. cbn [Datatypes.app] in M4. exists mb4, ht.
        split; [done|]. split; [done|]. split; [by eexists|]. split; [|split; [apply Ht|by left]].
        assert (Hp : m `prefix_of` message mb4) by (by eexists).
        destruct (pointer_walk (message mb4) (length m + S (length l)) dn (l2 :: ls)) as (j & ls' & q & Hw & H0 & Hpl & Hj & Hne');
          [by eapply entry_grow|destruct dot; [by right|by left]|done|done|..].
        { rewrite M4, lookup_app_r by lia. replace (length m + S (length l) - length m)%nat with (S (length l)) by lia.
          change ((?a :: ?b) !! S ?k) with (b !! k). by rewrite list_lookup_middle. }
        { rewrite M4, lookup_app_r by lia. replace (S (length m + S (length l)) - length m)%nat with (S (S (length l))) by lia.
          change ((?a :: ?b) !! S ?k) with (b !! k). rewrite lookup_app_r by lia. by replace (S (length l) - length l)%nat with 1%nat by lia. }
        eapply (placed_cons m l (l2 :: ls) ls' mb4 (S j)); [done|done|done|exact M4|exact Hw|done| |done| |by apply good_nonempty].
        -- rewrite M4, !length_app. cbn [default length id]. rewrite length_app. cbn [length]. lia.
        -- destruct ls'; [done|]. cbn [length] in *. lia.
    + (* the next label, in place *)
      set (m2 := m ++ Z.of_nat (length l) :: l) in *.
      assert (Hm2 : mb_pos mb2 = Z.of_nat (length m2)) by (unfold m2; rewrite length_app; exact Hp2).
      destruct (table_append_run dn_mem ht name (u64 (mb_pos mb2 - Z.of_nat start)) (proj1 Ht)) as (hta & Eh & Hsa & Hina).
      assert (Hht : ∃ ht1, match r with Some _ => Ret ht | None => Ret hta end = Ret ht1 ∧ table_shape ht1 ∧
          ∀ dn, dn ∈ entries ht1 → dn ∈ entries ht ∨ dn = Dname name (Z.of_nat (length m2 - start)) ∧ (Z.of_nat (length m2 - start)) ≤ OFFSET_MASK).
      { destruct r; [exists ht; split_and!; [done|apply Ht|by left]|]. exists hta. split; [done|]. split; [done|]. intros dn Hdn.
        destruct (Hina dn Hdn) as [?|(-> & Hp & _)]; [by left|right]. pose proof (message_small mb2 Hmb2) as Hsm. rewrite M2 in Hsm.
        assert (length m ≤ length m2)%nat by (unfold m2; rewrite length_app; lia).
        rewrite Hm2 in Hp |- *. rewrite u64_id in Hp |- * by lia. rewrite Nat2Z.inj_sub by lia. done. }
      destruct Hht as (ht1 & Eht1 & Hs1 & Hin1).
      assert (Eloop : (match r, comp with
          | Some dn, true => r ← dname_encode_pointer A mb2 (dn_pos dn); Ret (r, ht)
          | _, _ => ht ← match r with Some _ => Ret ht | None => dname_append dn_mem ht name (u64 (mb_pos mb2 - Z.of_nat start)) end;
              r ← mbuf_write_u8 A mb2 0; if bool_decide (fst r = 0) then loop name (mb_pos mb2) (snd r) ht else Ret (r, ht) end) =
          (r ← mbuf_write_u8 A mb2 0; if bool_decide (fst r = 0) then loop name (mb_pos mb2) (snd r) ht1 else Ret (r, ht1))).
      { rewrite Eh. destruct r as [dn|]; [|by rewrite Eht1]. destruct comp; [exfalso; by apply Hgo|]. injection Eht1 as ->. done. }
      cbv zeta. rewrite Eloop. unfold mbuf_write_u8. rewrite zero_byte.
      destruct (append_run A mb2 [0] Hmb2) as [[E4 S4]|(mb4 & E4 & Hmb4 & M4 & S4)]; [by repeat constructor|done|done|..];
        rewrite E4; cbn [mbind outcome_bind fst snd].
      { left. exists mb2, ht1. rewrite (bool_decide_eq_false_2 (ENOMEM = 0)) by done. split; [done|]. cbn [length] in S4. lia. }
      rewrite (bool_decide_eq_true_2 (0 = 0)) by done. rewrite M2 in M4. rewrite Hm2.
      assert (Hgrow : ∀ d, m2 `prefix_of` d → m `prefix_of` d) by (intros d Hd; etrans; [|exact Hd]; by eexists).
      destruct (IH m2 mb4 ht1) as [(mb5 & ht5 & E5 & S5)|(mb5 & ht5 & E5 & Hmb5 & Hpre & Hpl & Hs5 & Hin5)];
        [done|done|done|done|unfold m2; rewrite length_app; lia| | |].
      * split; [done|]. intros dn Hdn. destruct (Hin1 dn Hdn) as [Hin|[-> _]]; [|cbn [dn_name]; split; [done|by right]].
        destruct (proj2 Ht dn Hin) as [Hpos [Hok|Hlong]]; split; [done|left|done|right; lia]. eapply entry_grow; [|exact Hok]. by eexists.
      * left. exists mb5, ht5. split; [exact E5|]. destruct (end_of_message mb4 Hmb4) as [_ He4]. rewrite M4, length_app in He4. cbn [length] in He4.
        unfold m2 in He4. rewrite length_app in He4. cbn [length] in He4. lia.
      * right. exists mb5, ht5. split; [exact E5|]. split; [done|]. split; [by apply Hgrow|].
        destruct Hpl as (j & ls' & (o & q & Hw & H0 & He5) & Hplain & Hj).
        assert (Hm2l : length m2 = (length m + S (length l))%nat) by (unfold m2; by rewrite length_app).
        assert (Hne' : ls' ≠ []).
        { intros ->. apply plain_length in Hplain. rewrite <- (strip_text dot) in Hplain by done.
          pose proof (text_length_pos false (l2 :: ls) ltac:(done) Hls) as Hp. rewrite strip_text in Hplain by done.
          unfold text in Hp. rewrite app_nil_r in Hp. simpl in Hplain, Hp. lia. }
        destruct Hpre as [x M5]. pose proof M5 as M5'. unfold m2 in M5'. rewrite <- app_assoc in M5'. cbn [Datatypes.app] in M5'.
        split; [|split; [done|]].
        -- eapply (placed_cons m l (l2 :: ls) ls' mb5 j o q x); [done..|by rewrite <- Hm2l|done|by rewrite He5|done|lia|by apply good_nonempty].
        -- intros dn Hdn. destruct (Hin5 dn Hdn) as [Hin|[Hok Hpos]]; [|by right].
           destruct (Hin1 dn Hin) as [?|[-> Hle]]; [by left|right]. split; [|done]. split; [intros E; cbn [dn_name] in E; rewrite E in Hlen1; simpl in Hlen1; lia|].
           split; [cbn; lia|]. exists j, ls', (length (message mb5)). split; [|split; [|done]].
           ++ cbn [dn_pos]. replace (start + Z.to_nat (Z.of_nat (length m2 - start)))%nat with (length m2) by lia. by exists o, q.
           ++ cbn [dn_name]. unfold name. by rewrite strip_text.
Qed.

(** Between two calls every name of the table is complete. *)
Definition table_good (d : list Z) (ht : dtable) : Prop :=
  table_shape ht ∧ ∀ dn, dn ∈ entries ht → Forall (λ c, 0 < c) (dn_name dn) ∧ entry_ok d start dn.

Definition stands (m : list Z) (ls : list (list Z)) (mb' : mbuf) : Prop :=
  ∃ j ls', name_at false (message mb') start (length m) j ls' (length (message mb')) ∧
    plain (add_labels [] ls') = plain (join ls) ∧ (j ≤ length ls')%nat.

Lemma table_good_grow d d' ht : d `prefix_of` d' → table_good d ht → table_good d' ht.
Proof using. intros Hp [Hs Ht]. split; [done|]. intros dn Hdn. destruct (Ht dn Hdn) as [Hpos Hok]. split; [done|]. by eapply entry_grow. Qed.

Lemma text_no_dot dot ls : ls ≠ [] → Forall good_label ls → text dot ls ≠ [chr "."].
Proof using.
  intros Hne Hls E. destruct Hls as [|l ls (Hl & _ & Hc) _]; [done|]. destruct Hc as [|c l (_ & _ & Hdot) _]; [done|].
  unfold text in E. cbn [join Datatypes.app] in E. by injection E.
Qed.

Lemma encode_run dot ls mb ht : ls ≠ [] → Forall good_label ls → at_end mb → (start ≤ length (message mb))%nat →
  table_good (message mb) ht →
  (∃ mb' ht', dns_dname_encode A dn_mem mb (Some (text dot ls)) ht (Z.of_nat start) comp = Ret (ENOMEM, mb', ht') ∧
    mb_size mb < mb_end mb + Z.of_nat (length (text dot ls)) + 2) ∨
  ∃ mb' ht', dns_dname_encode A dn_mem mb (Some (text dot ls)) ht (Z.of_nat start) comp = Ret (0, mb', ht') ∧ at_end mb' ∧
    message mb `prefix_of` message mb' ∧ stands (message mb) ls mb' ∧ table_good (message mb') ht'.
Proof using All.
  intros Hne Hls Hmb Hstart Ht. set (name := text dot ls). set (m := message mb) in *.
  assert (Hpos : Forall (λ c, 0 < c) name) by (by apply text_positive).
  assert (Hdur : table_during m (S (length name)) ht).
  { split; [apply Ht|]. intros dn Hdn. destruct (proj2 Ht dn Hdn). split; [done|by left]. }
  destruct (end_of_message mb Hmb) as [Hp He]. fold m in Hp, He. pose proof (message_small mb Hmb) as Hsm. fold m in Hsm.
  cbn [dns_dname_encode]. destruct (dname_lookup_run ht name (proj1 Ht)) as (r & Er & Hr). rewrite Er. cbn [mbind outcome_bind].
  destruct (decide (is_Some r ∧ comp = true)) as [[[dn ->] Hc]|Hgo].
  - rewrite Hc. destruct (Hr dn eq_refl) as [Hin Hcmp].
    destruct (found_entry m _ ht name dn Hdur Hin Hcmp) as [Hok Hplain]; [done|lia|]. pose proof Hok as (_ & Hdp & _).
    destruct (pointer_bytes (dn_pos dn) Hdp) as [Eb Hbok]. unfold dname_encode_pointer, mbuf_write_u16. rewrite Eb.
    destruct (append_run A mb _ Hmb Hbok) as [[E4 S4]|(mb4 & E4 & Hmb4 & M4 & S4)]; [done|done|..]; rewrite E4; cbn [mbind outcome_bind].
    { left. exists mb, ht. split; [done|]. cbn [length] in S4. lia. }
    right. exists mb4, ht. fold m in M4. assert (Hpre : m `prefix_of` message mb4) by (by eexists).
    split; [done|]. split; [done|]. split; [done|]. split; [|by eapply table_good_grow].
    destruct (pointer_walk (message mb4) (length m) dn ls) as (j & ls' & q & Hw & H0 & Hpl & Hj & Hne');
      [by eapply entry_grow|destruct dot; [by right|by left]|done|done| | |].
    { rewrite M4, lookup_app_r, Nat.sub_diag by lia. done. }
    { rewrite M4, lookup_app_r by lia. by replace (S (length m) - length m)%nat with 1%nat by lia. }
    exists (S j), ls'. split; [|split; [done|destruct ls'; [done|cbn [length] in *; lia]]].
    exists (Some (length m + 2)%nat), q. split; [done|]. split; [done|]. rewrite M4, length_app. done.
  - destruct (table_append_run dn_mem ht name (u64 (mb_pos mb - Z.of_nat start)) (proj1 Ht)) as (hta & Eh & Hsa & Hina).
    rewrite Hp in Eh, Hina. rewrite u64_id in Eh, Hina by lia.
    assert (Hht : ∃ ht1, match r with Some _ => Ret ht | None => Ret hta end = Ret ht1 ∧ table_shape ht1 ∧
        ∀ dn, dn ∈ entries ht1 → dn ∈ entries ht ∨ dn = Dname name (Z.of_nat (length m) - Z.of_nat start) ∧ Z.of_nat (length m) - Z.of_nat start ≤ OFFSET_MASK).
    { destruct r; [exists ht; split_and!; [done|apply Ht|by left]|]. exists hta. split; [done|]. split; [done|]. intros dn Hdn.
      destruct (Hina dn Hdn) as [?|(? & ? & _)]; [by left|by right]. }
    destruct Hht as (ht1 & Eht1 & Hs1 & Hin1).
    assert (Eloop : (match r, comp with
        | Some dn, true => r ← dname_encode_pointer A mb (dn_pos dn); Ret (r, ht)
        | _, _ => ht ← match r with Some _ => Ret ht | None => dname_append dn_mem ht name (u64 (mb_pos mb - Z.of_nat start)) end;
            r ← mbuf_write_u8 A mb 0; if bool_decide (name = [chr "."]) then Ret (r, ht) else
            if bool_decide (fst r = 0) then loop name (mb_pos mb) (snd r) ht else Ret (r, ht) end) =
        (r ← mbuf_write_u8 A mb 0; if bool_decide (fst r = 0) then loop name (mb_pos mb) (snd r) ht1 else Ret (r, ht1))).
    { rewrite Hp, u64_id by lia. rewrite Eh. rewrite (bool_decide_eq_false_2 (name = [chr "."])) by (by apply text_no_dot).
      destruct r as [dn|]; [|by rewrite Eht1]. destruct comp; [exfalso; by apply Hgo|]. injection Eht1 as ->. done. }
    cbv zeta. rewrite Eloop. unfold mbuf_write_u8. rewrite zero_byte.
    destruct (append_run A mb [0] Hmb) as [[E4 S4]|(mb4 & E4 & Hmb4 & M4 & S4)]; [by repeat constructor|done|done|..];
      rewrite E4; cbn [mbind outcome_bind fst snd].
    { left. exists mb, ht1. rewrite (bool_decide_eq_false_2 (ENOMEM = 0)) by done. split; [done|]. cbn [length] in S4. lia. }
    rewrite (bool_decide_eq_true_2 (0 = 0)) by done. fold m in M4. rewrite Hp.
    destruct (labels_run dot ls m mb4 ht1) as [(mb5 & ht5 & E5 & S5)|(mb5 & ht5 & E5 & Hmb5 & Hpre & Hpl & Hs5 & Hin5)]; [done..| | |].
    + split; [done|]. intros dn Hdn. destruct (Hin1 dn Hdn) as [Hin|[-> _]]; [|cbn [dn_name]; split; [done|by right]].
      destruct (proj2 Ht dn Hin). split; [done|by left].
    + left. exists mb5, ht5. split; [exact E5|]. destruct (end_of_message mb4 Hmb4) as [_ He4]. rewrite M4, length_app in He4.
      cbn [length] in He4. fold name in S5. lia.
    + right. exists mb5, ht5. split; [exact E5|]. split; [done|]. split; [done|]. destruct Hpl as (j & ls' & Hw & Hplain & Hj).
      split; [exists j, ls'; split; [done|split; [done|lia]]|]. split; [done|]. intros dn Hdn.
      destruct (Hin5 dn Hdn) as [Hin|[? ?]]; [|done]. destruct (Hin1 dn Hin) as [Hin'|[-> Hle]].
      { destruct (proj2 Ht dn Hin'). split; [done|]. by eapply entry_grow. }
      split; [done|]. pose proof (text_length_pos dot ls Hne Hls) as Hl1. fold name in Hl1.
      split; [intros E; cbn [dn_name] in E; rewrite E in Hl1; simpl in Hl1; lia|]. split; [cbn; lia|].
      exists j, ls', (length (message mb5)). split; [|split; [|lia]].
      * cbn [dn_pos]. by replace (start + Z.to_nat (Z.of_nat (length m) - Z.of_nat start))%nat with (length m) by lia.
      * cbn [dn_name]. unfold name. by rewrite strip_text.
Qed.
End encode.

(** ** What an encoder does to any buffer

    Every step appends; how much room a name needs at most. *)
Section encode_bounds.
Context (A : allocator) `{!allocator_ok A}.
Variables (dn_mem : list Z → bool) (start : Z) (comp : bool).

Definition within (mb mb' : mbuf) (n : nat) : Prop :=
  at_end mb' ∧ mb_size mb ≤ mb_size mb' ∧ mb_end mb' ≤ mb_end mb + Z.of_nat n.

Lemma within_trans mb1 mb2 mb3 m n k : within mb1 mb2 m → within mb2 mb3 n → (m + n ≤ k)%nat → within mb1 mb3 k.
Proof using. intros (_ & ? & ?) (? & ? & ?) ?. split; [done|lia]. Qed.

Lemma within_refl mb n : at_end mb → within mb mb n.
Proof using. split; [done|lia]. Qed.

Lemma append_within mb bs e mb' : at_end mb → bytes_ok bs → bs ≠ [] → Z.of_nat (length bs) < max_alloc →
  mbuf_write_mem A mb (Some bs) = Ret (e, mb') → within mb mb' (length bs).
Proof using All.
  intros Hmb Hbs Hne Hlen E. destruct (append_run A mb bs Hmb Hbs Hne Hlen) as [[E' _]|(mb1 & E' & Hmb1 & M1 & S1)];
    rewrite E' in E; injection E as <- <-; [by apply within_refl|].
  split; [done|]. split; [done|]. destruct (end_of_message mb Hmb) as [_ ->]. destruct (end_of_message mb1 Hmb1) as [_ ->].
  rewrite M1, length_app. lia.
Qed.

Lemma poke_within mb p v mb' : at_end mb → is_byte v → poke mb p v = Ret mb' → within mb mb' 0.
Proof using.
  intros [(Hs & Hm & He & Hp & Hok) Hpe] Hv E. unfold poke in E. destruct (mb_buf mb) as [b|] eqn:Hb; [|done].
  cbn [of_option mbind outcome_bind] in E. case_bool_decide; [|done]. injection E as <-. cbn in *.
  split; [|cbn; lia]. split; [|done]. split_and!; cbn; try done; try lia; [by rewrite length_insert|by apply Forall_insert].
Qed.

Lemma byte_within mb c e mb' : at_end mb → mbuf_write_u8 A mb c = Ret (e, mb') → within mb mb' 1.
Proof using All.
  intros Hmb E. pose proof (le_bytes_length 1 c) as Hl. rewrite <- Hl. eapply append_within; [done|apply le_bytes_ok|done|rewrite Hl; done|exact E].
Qed.

Lemma pointer_within mb p e mb' : at_end mb → dname_encode_pointer A mb p = Ret (e, mb') → within mb mb' 2.
Proof using All.
  intros Hmb E. unfold dname_encode_pointer, mbuf_write_u16 in E. set (v := htons _) in E. pose proof (le_bytes_length 2 v) as Hl.
  rewrite <- Hl. eapply append_within; [done|apply le_bytes_ok|done|rewrite Hl; done|exact E].
Qed.

Lemma loop_within name : ∀ pos mb ht e mb' ht', at_end mb →
  encode_loop A dn_mem start comp name pos mb ht = Ret (e, mb', ht') → within mb mb' (length name + 1).
Proof using All.
  assert (Hgo : ∀ rest pos mb c ht e mb' ht' n, at_end mb →
    (∀ pos mb ht e mb' ht', at_end mb → encode_loop A dn_mem start comp rest pos mb ht = Ret (e, mb', ht') → within mb mb' n) →
    (r ← mbuf_write_u8 A mb c; if bool_decide (fst r = 0) then encode_loop A dn_mem start comp rest pos (snd r) ht else Ret (r, ht)) =
      Ret (e, mb', ht') → within mb mb' (n + 1)).
  { intros rest pos mb c ht e mb' ht' n Hmb Hrest E. apply bind_Ret_inv in E as ([e1 mb1] & E1 & E). cbn [fst snd] in E.
    pose proof (byte_within mb c e1 mb1 Hmb E1) as Hw. pose proof Hw as [Hmb1 _].
    case_bool_decide; [eapply within_trans; [exact Hw|by eapply Hrest|lia]|].
    injection E as _ <- _. eapply within_trans; [exact Hw|by apply (within_refl _ 0)|lia]. }
  induction name as [|c rest IH]; intros pos mb ht e mb' ht' Hmb E; cbn [encode_loop] in E.
  - case_bool_decide; [injection E as _ <- _; by apply within_refl|]. apply bind_Ret_inv in E as (mb1 & E1 & E).
    pose proof (poke_within _ _ _ _ Hmb (u8_is_byte _) E1) as Hw. apply bind_Ret_inv in E as ([e2 mb2] & E2 & E). injection E as _ <- _.
    pose proof (byte_within _ _ _ _ (proj1 Hw) E2) as Hw2. eapply within_trans; [exact Hw|exact Hw2|simpl; lia].
  - case_bool_decide.
    2: { replace (length (c :: rest) + 1)%nat with (length rest + 1 + 1)%nat by (simpl; lia). by eapply Hgo. }
    case_bool_decide; [injection E as _ <- _; by apply within_refl|]. apply bind_Ret_inv in E as (mb1 & E1 & E).
    pose proof (poke_within _ _ _ _ Hmb (u8_is_byte _) E1) as Hw. apply bind_Ret_inv in E as (dn & _ & E).
    assert (Hcase : (∃ p, (r ← dname_encode_pointer A mb1 p; Ret (r, ht)) = Ret (e, mb', ht')) ∨
      ∃ ht1, (r ← mbuf_write_u8 A mb1 0; if bool_decide (fst r = 0) then encode_loop A dn_mem start comp rest (mb_pos mb1) (snd r) ht1 else Ret (r, ht1)) =
        Ret (e, mb', ht')).
    { destruct dn as [dn|], comp; try (left; by eexists); right; apply bind_Ret_inv in E as (ht1 & _ & E); by exists ht1. }
    destruct Hcase as [[p E3]|[ht1 E3]].
    + apply bind_Ret_inv in E3 as ([e3 mb3] & E3 & E'). injection E' as _ <- _.
      pose proof (pointer_within _ _ _ _ (proj1 Hw) E3) as Hw3. eapply within_trans; [exact Hw|exact Hw3|simpl; lia].
    + eapply within_trans; [exact Hw|eapply Hgo; [apply Hw|exact IH|exact E3]|simpl; lia].
Qed.

Lemma encode_within mb name ht e mb' ht' : at_end mb →
  dns_dname_encode A dn_mem mb (Some name) ht start comp = Ret (e, mb', ht') → within mb mb' (length name + 2).
Proof using All.
  intros Hmb E. cbn [dns_dname_encode] in E. apply bind_Ret_inv in E as (dn & _ & E).
  assert (Hcase : (∃ p, (r ← dname_encode_pointer A mb p; Ret (r, ht)) = Ret (e, mb', ht')) ∨
    ∃ ht1, (r ← mbuf_write_u8 A mb 0; if bool_decide (name = [chr "."]) then Ret (r, ht1) else
        if bool_decide (fst r = 0) then encode_loop A dn_mem start comp name (mb_pos mb) (snd r) ht1 else Ret (r, ht1)) = Ret (e, mb', ht')).
  { destruct dn as [dn|], comp; try (left; by eexists); right; apply bind_Ret_inv in E as (ht1 & _ & E); by exists ht1. }
  destruct Hcase as [[p E3]|[ht1 E3]].
  - apply bind_Ret_inv in E3 as ([e3 mb3] & E3 & E'). injection E' as _ <- _.
    eapply within_trans; [by eapply pointer_within|by apply (within_refl _ 0), (pointer_within _ _ _ _ Hmb E3)|lia].
  - apply bind_Ret_inv in E3 as ([e1 mb1] & E1 & E3). pose proof (byte_within mb 0 e1 mb1 Hmb E1) as Hw. cbn [fst snd] in E3.
    repeat case_bool_decide.
    + injection E3 as _ <- _. eapply within_trans; [exact Hw|by apply (within_refl _ 0), Hw|lia].
    + eapply within_trans; [exact Hw|by eapply loop_within; [apply Hw|]|lia].
    + injection E3 as _ <- _. eapply within_trans; [exact Hw|by apply (within_refl _ 0), Hw|lia].
Qed.
End encode_bounds.

(** ** Two buffers that differ in one place

    An encoder never looks at what was written before: it does the same to
    buffers that agree but for the bytes from [lo] to [hi]. *)
Section alike.
Variables (lo hi : nat).

Definition agree (b1 b2 : list Z) : Prop :=
  length b1 = length b2 ∧ ∀ i, (i < lo ∨ hi ≤ i)%nat → b1 !! i = b2 !! i.

Definition alike (mb1 mb2 : mbuf) : Prop :=
  mb_size mb1 = mb_size mb2 ∧ mb_pos mb1 = mb_pos mb2 ∧ mb_end mb1 = mb_end mb2 ∧
  option_Forall2 agree (mb_buf mb1) (mb_buf mb2).

(** The same fault, or related results. *)
Definition both {X Y} (R : X → Y → Prop) (m1 : outcome X) (m2 : outcome Y) : Prop :=
  match m1, m2 with Ret x, Ret y => R x y | Fault f, Fault g => f = g | _, _ => False end.

Lemma both_bind {X Y U V} (R : X → Y → Prop) (S : U → V → Prop) m1 m2 k1 k2 :
  both R m1 m2 → (∀ x y, R x y → both S (k1 x) (k2 y)) → both S (m1 ≫= k1) (m2 ≫= k2).
Proof using. destruct m1, m2; cbn; try done. auto. Qed.

Lemma both_eq {X} (m : outcome X) : both eq m m.
Proof using. by destruct m. Qed.

Lemma splice_lookup (b src : list Z) n i : (n + length src ≤ length b)%nat →
  (take n b ++ src ++ drop (n + length src) b) !! i = if decide (n ≤ i < n + length src)%nat then src !! (i - n)%nat else b !! i.
Proof using.
  intros Hn. case_decide as Hi.
  - rewrite lookup_app_r by (rewrite length_take; lia). rewrite length_take, Nat.min_l by lia. by rewrite lookup_app_l by lia.
  - destruct (decide (i < n)%nat).
    + rewrite lookup_app_l by (rewrite length_take; lia). by rewrite lookup_take_lt.
    + rewrite !lookup_app_r by (rewrite ?length_take; lia). rewrite length_take, lookup_drop. f_equal. lia.
Qed.

Lemma resize_alike b1 b2 n g : agree b1 b2 → agree (realloc_bytes g b1 n) (realloc_bytes g b2 n).
Proof using.
  intros [Hl Hb]. unfold realloc_bytes. split; [by rewrite !length_resize|]. intros i Hi.
  destruct (decide (i < Z.to_nat n)%nat) as [Hn|Hn].
  - destruct (decide (i < length b1)%nat); [rewrite !lookup_resize by lia; by apply Hb|]. by rewrite !lookup_resize_new by lia.
  - by rewrite !lookup_resize_old by lia.
Qed.

Lemma agree_refl b : agree b b.
Proof using. done. Qed.

Lemma splice_alike b1 b2 n src : agree b1 b2 → (n + length src ≤ length b1)%nat →
  agree (take n b1 ++ src ++ drop (n + length src) b1) (take n b2 ++ src ++ drop (n + length src) b2).
Proof using.
  intros [Hl Hb] Hn. split; [rewrite !length_app, !length_take, !length_drop; lia|].
  intros i Hi. rewrite !splice_lookup by lia. case_decide; [done|by apply Hb].
Qed.

Definition written_alike (r1 r2 : Z * mbuf) : Prop := fst r1 = fst r2 ∧ alike (snd r1) (snd r2).

Lemma memcpy_alike o1 o2 off src : option_Forall2 agree o1 o2 →
  both (option_Forall2 agree) (memcpy_to o1 off src) (memcpy_to o2 off src).
Proof using.
  intros Ho. unfold memcpy_to. destruct src as [|x src]; [done|]. destruct Ho as [b1 b2 Hb|]; [|done].
  pose proof Hb as [Hl _]. rewrite Hl. case_bool_decide; [|done]. cbn [both]. constructor. apply splice_alike; [done|]. lia.
Qed.

Lemma write_alike (A : allocator) mb1 mb2 src : alike mb1 mb2 →
  both written_alike (mbuf_write_mem A mb1 src) (mbuf_write_mem A mb2 src).
Proof using.
  intros (Hs & Hp & He & Hb). unfold mbuf_write_mem. destruct src as [bs|]; [|by split; [|split_and!]]. rewrite Hp, Hs.
  assert (Hgo : ∀ e m1 m2, alike m1 m2 → both written_alike
    (if bool_decide (e = 0) then b ← memcpy_to (mb_buf m1) (mb_pos m1) bs;
       Ret (0, Mb b (mb_size m1) (u64 (mb_pos m1 + Z.of_nat (length bs))) (Z.max (mb_end m1) (u64 (mb_pos m1 + Z.of_nat (length bs)))))
     else Ret (e, m1))
    (if bool_decide (e = 0) then b ← memcpy_to (mb_buf m2) (mb_pos m2) bs;
       Ret (0, Mb b (mb_size m2) (u64 (mb_pos m2 + Z.of_nat (length bs))) (Z.max (mb_end m2) (u64 (mb_pos m2 + Z.of_nat (length bs)))))
     else Ret (e, m2))).
  { intros e m1 m2 (Hs' & Hp' & He' & Hb'). case_bool_decide; [|by split; [|split_and!]]. rewrite <- Hp'.
    eapply both_bind; [by apply memcpy_alike|]. intros b1 b2 Hbb. split; [done|]. split_and!; cbn; [done|done|by rewrite He'|done]. }
  case_bool_decide; [|by apply Hgo]. unfold mbuf_resize. destruct (alloc_ok A _); [|by apply Hgo].
  apply Hgo. split_and!; cbn; [done|done|done|]. constructor. apply resize_alike. destruct Hb; [done|apply agree_refl].
Qed.

Lemma poke_alike mb1 mb2 p v : alike mb1 mb2 → both alike (poke mb1 p v) (poke mb2 p v).
Proof using.
  intros (Hs & Hp & He & Hb). unfold poke. destruct Hb as [b1 b2 Hb|]; [|done]. cbn. pose proof Hb as [Hl Hi]. rewrite Hl.
  case_bool_decide; [|done]. cbn. split_and!; cbn; [done..|]. constructor. split; [by rewrite !length_insert|]. intros i Hlt.
  destruct (decide (i = Z.to_nat p)) as [->|Hne]; [rewrite !list_lookup_insert_eq by lia; done|].
  rewrite !list_lookup_insert_ne by done. by apply Hi.
Qed.

Definition encoded_alike (r1 r2 : Z * mbuf * dtable) : Prop := written_alike (fst r1) (fst r2) ∧ snd r1 = snd r2.

Lemma with_table_alike (m1 m2 : outcome (Z * mbuf)) ht : both written_alike m1 m2 →
  both encoded_alike (r ← m1; Ret (r, ht)) (r ← m2; Ret (r, ht)).
Proof using. intros Hm. eapply both_bind; [exact Hm|]. intros r1 r2 Hr. by split. Qed.

Lemma loop_alike (A : allocator) dn_mem start comp name : ∀ pos mb1 mb2 ht, alike mb1 mb2 →
  both encoded_alike (encode_loop A dn_mem start comp name pos mb1 ht) (encode_loop A dn_mem start comp name pos mb2 ht).
Proof using.
  assert (Hgo : ∀ rest pos c mb1 mb2 ht, alike mb1 mb2 →
    (∀ pos mb1 mb2 ht, alike mb1 mb2 → both encoded_alike (encode_loop A dn_mem start comp rest pos mb1 ht) (encode_loop A dn_mem start comp rest pos mb2 ht)) →
    both encoded_alike
      (r ← mbuf_write_u8 A mb1 c; if bool_decide (fst r = 0) then encode_loop A dn_mem start comp rest pos (snd r) ht else Ret (r, ht))
      (r ← mbuf_write_u8 A mb2 c; if bool_decide (fst r = 0) then encode_loop A dn_mem start comp rest pos (snd r) ht else Ret (r, ht))).
  { intros rest pos c mb1 mb2 ht Hmb Hrest. eapply both_bind; [by apply write_alike|]. intros [e1 m1] [e2 m2] [E Hm]. cbn in E, Hm. subst e2.
    cbn [fst snd]. case_bool_decide; [by apply Hrest|]. by split; [split|]. }
  induction name as [|c rest IH]; intros pos mb1 mb2 ht Hmb; cbn [encode_loop]; pose proof Hmb as (_ & Hp & _); rewrite Hp.
  - case_bool_decide; [by split; [split|]|]. eapply both_bind; [by apply poke_alike|]. intros m1 m2 Hm. by apply with_table_alike, write_alike.
  - case_bool_decide; [|by apply Hgo]. case_bool_decide; [by split; [split|]|].
    eapply both_bind; [by apply poke_alike|]. intros m1 m2 Hm. eapply both_bind; [apply both_eq|]. intros dn ? <-.
    assert (Hrest : both encoded_alike
      (let pos := mb_pos m1 in ht ← match dn with Some _ => Ret ht | None => dname_append dn_mem ht rest (u64 (pos - start)) end;
       r ← mbuf_write_u8 A m1 0; if bool_decide (fst r = 0) then encode_loop A dn_mem start comp rest pos (snd r) ht else Ret (r, ht))
      (let pos := mb_pos m2 in ht ← match dn with Some _ => Ret ht | None => dname_append dn_mem ht rest (u64 (pos - start)) end;
       r ← mbuf_write_u8 A m2 0; if bool_decide (fst r = 0) then encode_loop A dn_mem start comp rest pos (snd r) ht else Ret (r, ht))).
    { cbv zeta. replace (mb_pos m2) with (mb_pos m1) by apply Hm. eapply both_bind; [apply both_eq|]. intros ht1 ? <-. by apply Hgo. }
    destruct dn as [dn|]; [|exact Hrest]. destruct comp; [|exact Hrest]. by apply with_table_alike, write_alike.
Qed.

Lemma encode_alike (A : allocator) dn_mem mb1 mb2 name ht start comp : alike mb1 mb2 →
  both encoded_alike (dns_dname_encode A dn_mem mb1 name ht start comp) (dns_dname_encode A dn_mem mb2 name ht start comp).
Proof using.
  intros Hmb. destruct name as [name|]; [|by split; [split|]]. cbn [dns_dname_encode]. eapply both_bind; [apply both_eq|]. intros dn ? <-.
  pose proof Hmb as (_ & Hp & _). rewrite Hp.
  assert (Hrest : both encoded_alike
    (let pos := mb_pos mb2 in ht ← match dn with Some _ => Ret ht | None => dname_append dn_mem ht name (u64 (pos - start)) end;
     r ← mbuf_write_u8 A mb1 0; if bool_decide (name = [chr "."]) then Ret (r, ht) else
     if bool_decide (fst r = 0) then encode_loop A dn_mem start comp name pos (snd r) ht else Ret (r, ht))
    (let pos := mb_pos mb2 in ht ← match dn with Some _ => Ret ht | None => dname_append dn_mem ht name (u64 (pos - start)) end;
     r ← mbuf_write_u8 A mb2 0; if bool_decide (name = [chr "."]) then Ret (r, ht) else
     if bool_decide (fst r = 0) then encode_loop A dn_mem start comp name pos (snd r) ht else Ret (r, ht))).
  { cbv zeta. eapply both_bind; [apply both_eq|]. intros ht1 ? <-. eapply both_bind; [by apply write_alike|].
    intros [e1 m1] [e2 m2] [E Hm]. cbn in E, Hm. subst e2. cbn [fst snd]. repeat case_bool_decide; try by split; [split|]. by apply loop_alike. }
  destruct dn as [dn|]; [|exact Hrest]. destruct comp; [|exact Hrest]. by apply with_table_alike, write_alike.
Qed.
End alike.

(** ** Properties *)

Lemma plain_positive a : ∀ b, plain a = plain b → Forall (λ c, 0 < c) b → Forall (λ c, 0 < c) a.
Proof.
  induction a as [|x a IH]; intros [|y b] E Hb; try done. injection E as Exy Eab. pose proof (Forall_inv Hb) as Hy.
  apply Forall_inv_tail in Hb. constructor; [|by eapply IH]. cbn beta in *. unfold tolower in Exy. repeat case_bool_decide; lia.
Qed.

Lemma c_string_positive a : Forall (λ c, 0 < c) a → c_string a = a.
Proof. induction 1 as [|x a Hx _ IH]; [done|]. cbn [c_string]. by rewrite bool_decide_eq_false_2, IH by lia. Qed.

(** [dns_dname_decode] returns for every message, start and position, or
    writes past its buffer of 256 characters.  When it returns 0, the name is
    the labels found by following at most 256 pointers, joined by dots and at
    most 255 characters long, and the position is the one behind the name's
    first pointer or its empty label; every other return is an error without a
    name.  Conversely such a name is decoded whenever it can be allocated. *)
Theorem dns_dname_decode_spec A mb start :
  mbuf_inv mb → Z.of_nat start < 2 ^ 62 →
  decodes mb start (dns_dname_decode A mb (Z.of_nat start)) ∧
  ∀ j ls e, name_at true (message mb) start (Z.to_nat (mb_pos mb)) j ls e → (j ≤ 256)%nat →
    (length (add_labels [] ls) ≤ 255)%nat → alloc_ok A (Z.of_nat (length (add_labels [] ls)) + 1) = true →
    dns_dname_decode A mb (Z.of_nat start) = Ret (0, Some (c_string (add_labels [] ls)), mbuf_set_pos mb (Z.of_nat e)).
Proof.
  intros Hwf Hstart. split; [by apply decode_sound|]. intros j ls e Hn Hj Hls Halloc.
  rewrite <- (decode_name A mb start Hwf Hstart _ j ls e Hn Hj Hls Halloc). by rewrite at_own_pos.
Qed.

(** The decoder writes past its buffer exactly when 255 characters are
    followed by one more label: the room left, [256 - i - 2], is computed
    without a sign and wraps. *)
Theorem dns_dname_decode_overflow A mb start f :
  mbuf_inv mb → Z.of_nat start < 2 ^ 62 →
  dns_dname_decode A mb (Z.of_nat start) = Fault f ↔ f = OutOfBounds ∧ overrun_at mb start.
Proof.
  intros Hwf Hstart. split; [|by intros [-> Ho]; apply decode_overrun].
  intros E. pose proof (decode_sound A mb start Hwf Hstart) as Hd. rewrite E in Hd. exact Hd.
Qed.

(** C37: a name of labels of 1 to 63 characters, at most 255 in all, that is
    encoded at the end of a message is decoded again from there, up to the case
    of its letters and a dot at its end, whichever of its suffixes were
    replaced by pointers; the position comes out behind it.  The table stays
    good for the longer message, and the only error is a lack of memory for a
    buffer that has to grow. *)
Theorem dns_dname_roundtrip A `{!allocator_ok A} dn_mem start comp dot ls mb ht :
  ls ≠ [] → Forall good_label ls → (length (join ls) ≤ 255)%nat → at_end mb →
  (start ≤ length (message mb))%nat → table_good start (message mb) ht →
  (∃ mb' ht', dns_dname_encode A dn_mem mb (Some (text dot ls)) ht (Z.of_nat start) comp = Ret (ENOMEM, mb', ht') ∧
    mb_size mb < mb_end mb + Z.of_nat (length (text dot ls)) + 2) ∨
  ∃ mb' ht' name, dns_dname_encode A dn_mem mb (Some (text dot ls)) ht (Z.of_nat start) comp = Ret (0, mb', ht') ∧
    at_end mb' ∧ message mb `prefix_of` message mb' ∧ table_good start (message mb') ht' ∧
    strcasecmp name (join ls) = 0 ∧
    ∀ A', alloc_ok A' (Z.of_nat (length name) + 1) = true →
      dns_dname_decode A' (mbuf_set_pos mb' (mb_end mb)) (Z.of_nat start) = Ret (0, Some name, mb').
Proof.
  intros Hne Hls Hlen Hmb Hstart Ht.
  destruct (encode_run A dn_mem start comp dot ls mb ht) as [?|(mb' & ht' & E & Hmb' & Hpre & Hst & Ht')]; [done..|by left|right].
  destruct Hst as (j & ls' & (o & q & Hw & H0 & He) & Hplain & Hj).
  assert (Hpos : Forall (λ c, 0 < c) (join ls)).
  { pose proof (text_positive false ls Hls) as Hp. unfold text in Hp. by rewrite app_nil_r in Hp. }
  pose proof (plain_positive _ _ Hplain Hpos) as Hpos'. pose proof (plain_length _ _ Hplain) as El.
  exists mb', ht', (add_labels [] ls'). split; [done|]. split; [done|]. split; [done|]. split; [done|].
  split; [by apply strcasecmp_plain|]. intros A' Halloc.
  destruct (end_of_message mb Hmb) as [_ He0]. destruct (end_of_message mb' Hmb') as [Hp' _]. pose proof (message_small mb Hmb) as Hsm.
  pose proof (labels_count ls' (walks_nonempty _ _ _ _ _ _ _ _ Hw)).
  rewrite He0, (decode_name A' mb' start (proj1 Hmb') ltac:(lia) (length (message mb)) j ls' (length (message mb')));
    [|exists o, q; by split_and!; [apply walks_lenient| |]|lia|lia|done].
  rewrite c_string_positive, <- Hp' by done. by destruct mb'.
Qed.

(** ** Concrete runs *)

(** [www.a] with a second name [b] that ends in a pointer to [a]. *)
Definition demo_message : list Z := [3; 119; 119; 119; 1; 97; 0; 1; 98; 192; 4].
Definition demo_mb (p : Z) : mbuf := Mb (Some demo_message) 11 p 11.

Lemma dns_dname_decode_spec_witness :
  mbuf_inv (demo_mb 7) ∧
  dns_dname_decode big_alloc (demo_mb 7) 0 = Ret (0, Some (bytes_of "b.a"), demo_mb 11).
Proof.
  assert (Hwf : mbuf_inv (demo_mb 7)) by (apply (bool_decide_eq_true_1 _); vm_compute; reflexivity). split; [exact Hwf|].
  apply (proj2 (dns_dname_decode_spec big_alloc (demo_mb 7) 0 Hwf eq_refl) 1%nat [[98]; [97]] 11%nat); [|lia|simpl; lia|done].
  exists (Some 11%nat), 6%nat. split; [|done]. apply walk_label; [done|done|done|done|].
  change (walks true (message (demo_mb 7)) 0 9 1 [[97]] (Some (9 + 2)%nat) 6). eapply (walk_pointer _ _ _ _ 192 4); [done|done|done|done|]. apply walk_label; [done|done|done|done|constructor].
Defined.

(** Labels of 190 and 64 characters, then one more. *)
Definition long_message : list Z := 190 :: replicate 190 97 ++ 64 :: replicate 64 98 ++ [1; 99; 0].
Definition long_mb : mbuf := Mb (Some long_message) 259 0 259.

Lemma dns_dname_decode_overflow_witness : mbuf_inv long_mb ∧ overrun_at long_mb 0.
Proof.
  assert (Hwf : mbuf_inv long_mb) by (apply (bool_decide_eq_true_1 _); vm_compute; reflexivity). split; [exact Hwf|].
  apply (proj1 (dns_dname_decode_overflow big_alloc long_mb 0 OutOfBounds Hwf eq_refl)). vm_compute. reflexivity.
Defined.

Definition demo_table : dtable := Some [[]; []; []; []].

Lemma demo_table_good : table_good 0 [] demo_table.
Proof. split; [by exists 2|]. intros dn Hdn. by apply elem_of_nil in Hdn. Qed.

Lemma dns_dname_roundtrip_witness :
  let ls := [bytes_of "www"; bytes_of "www"] in
  ∃ mb' ht' name, dns_dname_encode small_alloc (λ _, true) mbuf_init (Some (bytes_of "www.www.")) demo_table 0 true = Ret (0, mb', ht') ∧
    strcasecmp name (bytes_of "www.www") = 0 ∧
    ∀ A', alloc_ok A' (Z.of_nat (length name) + 1) = true →
      dns_dname_decode A' (mbuf_set_pos mb' 0) 0 = Ret (0, Some name, mb').
Proof.
  intros ls.
  destruct (dns_dname_roundtrip small_alloc (λ _, true) 0 true true ls mbuf_init demo_table) as [(mb' & ht' & E & _)|(mb' & ht' & name & E & _ & _ & _ & Hn & Hd)].
  - done.
  - apply (bool_decide_eq_true_1 _). vm_compute. reflexivity.
  - simpl. lia.
  - split; [|done]. apply (bool_decide_eq_true_1 _). vm_compute. reflexivity.
  - simpl. lia.
  - exact demo_table_good.
  - vm_compute in E. discriminate E.
  - exists mb', ht', name. split; [exact E|]. split; [exact Hn|exact Hd].
Defined.

(** The second name is a label and a pointer to the first. *)
Example compressed_run :
  (r ← dns_dname_encode small_alloc (λ _, true) mbuf_init (Some (bytes_of "a.bc")) demo_table 0 true;
   let '(_, mb, ht) := r in
   r ← dns_dname_encode small_alloc (λ _, true) mb (Some (bytes_of "x.BC")) ht 0 true;
   Ret (fst (fst r), message (snd (fst r)))) =
  Ret (0, [1; 97; 2; 98; 99; 0; 1; 120; 192; 2]).
Proof. vm_compute. reflexivity. Qed.
