(* ===== verification/DnsRr.v ===== *)
(** * DNS messages: header and resource records
    (src/re/src/dns/hdr.c, cstr.c, rr.c, src/re/include/re_dns.h)

    The header and its flags, character strings, and the resource records with
    their data by type, encoded at the end of a message and decoded from any
    position of one.  A writer accumulates errors and goes on, as the code does
    with [err |=]; a reader stops at its first error. *)
From stdpp Require Import base tactics list numbers strings option.
From S2P Require Import Prelude Mbuf Fmt Print Uri Hash Dname.

(** ** Data *)

Definition DNS_HEADER_SIZE : Z := 12.

Definition DNS_TYPE_A : Z := 1.
Definition DNS_TYPE_NS : Z := 2.
Definition DNS_TYPE_CNAME : Z := 5.
Definition DNS_TYPE_SOA : Z := 6.
Definition DNS_TYPE_PTR : Z := 12.
Definition DNS_TYPE_MX : Z := 15.
Definition DNS_TYPE_AAAA : Z := 28.
Definition DNS_TYPE_SRV : Z := 33.
Definition DNS_TYPE_NAPTR : Z := 35.
Definition DNS_QTYPE_IXFR : Z := 251.
Definition DNS_QTYPE_AXFR : Z := 252.
Definition DNS_QTYPE_ANY : Z := 255.
Definition DNS_CLASS_IN : Z := 1.
Definition DNS_QCLASS_ANY : Z := 255.

Record dnshdr := DnsHdr {
  dh_id : Z;
  dh_qr : bool;
  dh_opcode : Z;
  dh_aa : bool;
  dh_tc : bool;
  dh_rd : bool;
  dh_ra : bool;
  dh_z : Z;
  dh_rcode : Z;
  dh_nq : Z;
  dh_nans : Z;
  dh_nauth : Z;
  dh_nadd : Z
}.

(** The union [rdata], with the type that selects its member.  A string that
    was never set is [None]. *)
Definition cstr : Type := option (list Z).

Inductive rdata :=
  | RdA (addr : Z)
  | RdNs (nsdname : cstr)
  | RdCname (cname : cstr)
  | RdSoa (mname rname : cstr) (serial refresh retry expire ttlmin : Z)
  | RdPtr (ptrdname : cstr)
  | RdMx (pref : Z) (exchange : cstr)
  | RdAaaa (addr : list Z)
  | RdSrv (pri weight port : Z) (target : cstr)
  | RdNaptr (order pref : Z) (flags services regexp replace : cstr)
  | RdOther (type : Z).

(** [struct dnsrr], without its list elements. *)
Record dnsrr := DnsRr {
  rr_name : cstr;
  rr_dnsclass : Z;
  rr_ttl : Z;
  rr_rdlen : Z;
  rr_rdata : rdata
}.

Definition rdata_type (d : rdata) : Z :=
  match d with
  | RdA _ => DNS_TYPE_A
  | RdNs _ => DNS_TYPE_NS
  | RdCname _ => DNS_TYPE_CNAME
  | RdSoa _ _ _ _ _ _ _ => DNS_TYPE_SOA
  | RdPtr _ => DNS_TYPE_PTR
  | RdMx _ _ => DNS_TYPE_MX
  | RdAaaa _ => DNS_TYPE_AAAA
  | RdSrv _ _ _ _ => DNS_TYPE_SRV
  | RdNaptr _ _ _ _ _ _ => DNS_TYPE_NAPTR
  | RdOther t => t
  end.
Definition rr_type (rr : dnsrr) : Z := rdata_type (rr_rdata rr).

(** The types that have a member of their own. *)
Definition known_types : list Z :=
  [DNS_TYPE_A; DNS_TYPE_NS; DNS_TYPE_CNAME; DNS_TYPE_SOA; DNS_TYPE_PTR; DNS_TYPE_MX; DNS_TYPE_AAAA; DNS_TYPE_SRV; DNS_TYPE_NAPTR].

#[export] Instance rdata_eq_dec : EqDecision rdata.
Proof. solve_decision. Defined.
#[export] Instance dnsrr_eq_dec : EqDecision dnsrr.
Proof. solve_decision. Defined.
#[export] Instance dnshdr_eq_dec : EqDecision dnshdr.
Proof. solve_decision. Defined.

(** ** Writers: what is appended, and the errors so far *)

Definition writer : Type := mbuf → dtable → outcome (Z * mbuf * dtable).

Definition also (w1 w2 : writer) : writer := λ mb ht,
  r ← w1 mb ht;
  let '(e1, mb, ht) := r in
  r ← w2 mb ht;
  let '(e2, mb, ht) := r in
  Ret (Z.lor e1 e2, mb, ht).
Infix "|;" := also (at level 60, right associativity).

Definition plain_write (f : mbuf → outcome (Z * mbuf)) : writer := λ mb ht, r ← f mb; Ret (r, ht).

(** ** Readers: a value, or the error that ends the decoding *)

Definition reader (T : Type) : Type := mbuf → outcome ((Z + T) * mbuf).

#[export] Instance reader_ret : MRet reader := λ T x mb, Ret (inr x, mb).
#[export] Instance reader_bind : MBind reader := λ T U k m mb,
  r ← m mb;
  match r with
  | (inl e, mb) => Ret (inl e, mb)
  | (inr x, mb) => k x mb
  end.

Definition rret {T} (x : T) : reader T := mret x.

Lemma reader_step {T U} (m : reader T) (k : T → reader U) mb x mb1 : m mb = Ret (inr x, mb1) → (m ≫= k) mb = k x mb1.
Proof. intros E. unfold mbind, reader_bind. by rewrite E. Qed.

(** [goto fmerr] unless [n] bytes are left. *)
Definition left_or_fmerr (n : Z) : reader unit := λ mb,
  Ret (if bool_decide (mbuf_get_left mb < n) then inl EINVAL else inr tt, mb).
Definition fmerr_if (b : bool) : reader unit := λ mb, Ret (if b then inl EINVAL else inr tt, mb).

Definition read_int (f : mbuf → outcome (Z * mbuf)) : reader Z := λ mb,
  r ← f mb; Ret (inr (fst r), snd r).
(** [err = mbuf_read_mem(...); if (err) goto error]. *)
Definition rmem (n : Z) : reader (list Z) := λ mb,
  r ← mbuf_read_mem mb n;
  let '(e, bs, mb) := r in
  Ret (if bool_decide (e = 0) then inr bs else inl e, mb).
Definition skip_over (n : Z) : reader unit := λ mb, Ret (inr tt, mbuf_set_pos mb (u64 (mb_pos mb + n))).
(** A function that returns an error and fills in a string. *)
Definition read_cstr (f : mbuf → outcome (Z * cstr * mbuf)) : reader cstr := λ mb,
  r ← f mb;
  let '(e, s, mb) := r in
  Ret (if bool_decide (e = 0) then inr s else inl e, mb).

Section codec.
Context (A : allocator).
(** Whether a name of the table, and whether a record, can be allocated. *)
Variables (dn_mem : list Z → bool) (rr_mem : bool).

Definition w16 (v : Z) : writer := plain_write (λ mb, mbuf_write_u16 A mb (htons v)).
Definition w32 (v : Z) : writer := plain_write (λ mb, mbuf_write_u32 A mb (htonl v)).
Definition wmem (bs : list Z) : writer := plain_write (λ mb, mbuf_write_mem A mb (Some bs)).
Definition r16 : reader Z := v ← read_int mbuf_read_u16; rret (ntohs v).
Definition r32 : reader Z := v ← read_int mbuf_read_u32; rret (ntohl v).

(** ** hdr.c *)

Definition hdr_flags (h : dnshdr) : Z :=
  u16 (Z.lor (Z.lor (Z.lor (Z.lor (Z.lor (Z.lor (Z.lor (Z.shiftl (b2z (dh_qr h)) 15) (Z.shiftl (dh_opcode h) 11))
    (Z.shiftl (b2z (dh_aa h)) 10)) (Z.shiftl (b2z (dh_tc h)) 9)) (Z.shiftl (b2z (dh_rd h)) 8))
    (Z.shiftl (b2z (dh_ra h)) 7)) (Z.shiftl (dh_z h) 4)) (dh_rcode h)).

Definition hdr_writer (h : dnshdr) : writer :=
  w16 (dh_id h) |; w16 (hdr_flags h) |; w16 (dh_nq h) |; w16 (dh_nans h) |; w16 (dh_nauth h) |; w16 (dh_nadd h).

Definition dns_hdr_encode (mb : mbuf) (h : dnshdr) : outcome (Z * mbuf) :=
  r ← hdr_writer h mb None; Ret (fst r).

(** The field of [n] bits of the flags, from bit [k] on. *)
Definition flag_bits (flags k mask : Z) : Z := Z.land mask (Z.shiftr flags k).

(** The header a reader makes of its fields. *)
Definition hdr_of (id flags nq nans nauth nadd : Z) : dnshdr :=
  DnsHdr id (negb (bool_decide (flag_bits flags 15 1 = 0))) (flag_bits flags 11 15)
    (negb (bool_decide (flag_bits flags 10 1 = 0))) (negb (bool_decide (flag_bits flags 9 1 = 0)))
    (negb (bool_decide (flag_bits flags 8 1 = 0))) (negb (bool_decide (flag_bits flags 7 1 = 0)))
    (flag_bits flags 4 7) (flag_bits flags 0 15) nq nans nauth nadd.

Definition hdr_reader : reader dnshdr :=
  left_or_fmerr DNS_HEADER_SIZE;;
  id ← r16;
  flags ← r16;
  nq ← r16;
  nans ← r16;
  nauth ← r16;
  nadd ← r16;
  rret (hdr_of id flags nq nans nauth nadd).

Definition dns_hdr_decode : mbuf → outcome ((Z + dnshdr) * mbuf) := hdr_reader.

(** ** cstr.c *)

Definition dns_cstr_encode (mb : mbuf) (str : cstr) : outcome (Z * mbuf) :=
  match str with
  | None => Ret (EINVAL, mb)
  | Some s =>
      let len := u8 (Z.of_nat (length s)) in
      r ← mbuf_write_u8 A mb len;
      let '(e1, mb) := r in
      r ← mbuf_write_mem A mb (Some (take (Z.to_nat len) s));
      let '(e2, mb) := r in
      Ret (Z.lor e1 e2, mb)
  end.

Definition dns_cstr_decode (mb : mbuf) : outcome (Z * cstr * mbuf) :=
  if bool_decide (mbuf_get_left mb < 1) then Ret (EINVAL, None, mb)
  else
    r ← mbuf_read_u8 mb;
    let '(len, mb) := r in
    if bool_decide (mbuf_get_left mb < len) then Ret (EBADMSG, None, mb)
    else
      r ← mbuf_strdup A mb len;
      let '(e, s, mb) := r in
      Ret (e, option_map c_string s, mb).

(** ** rr.c *)

Section encode.
Variables (start : Z).

Definition wname (name : cstr) (comp : bool) : writer := λ mb ht, dns_dname_encode A dn_mem mb name ht start comp.
Definition wcstr (s : cstr) : writer := plain_write (λ mb, dns_cstr_encode mb s).

(** The switch over the type. *)
Definition rdata_writer (d : rdata) : writer :=
  match d with
  | RdA addr => w32 addr
  | RdNs n | RdCname n | RdPtr n => wname n true
  | RdSoa m r serial refresh retry expire ttlmin =>
      wname m true |; wname r true |; w32 serial |; w32 refresh |; w32 retry |; w32 expire |; w32 ttlmin
  | RdMx pref n => w16 pref |; wname n true
  | RdAaaa a => wmem a
  | RdSrv pri weight port n => w16 pri |; w16 weight |; w16 port |; wname n false
  | RdNaptr order pref f s x n => w16 order |; w16 pref |; wcstr f |; wcstr s |; wcstr x |; wname n false
  | RdOther _ => λ mb ht, Ret (EINVAL, mb, ht)
  end.

(** The fields before the length of the data. *)
Definition head_writer (rr : dnsrr) (ttl : Z) : writer :=
  wname (rr_name rr) true |; w16 (rr_type rr) |; w16 (rr_dnsclass rr) |; w32 ttl.

Definition dns_rr_encode (mb : mbuf) (rr : dnsrr) (ttl_offs : Z) (ht : dtable) : outcome (Z * mbuf * dtable) :=
  let ttl := u32 (if bool_decide (rr_ttl rr > ttl_offs) then rr_ttl rr - ttl_offs else 0) in
  r ← (head_writer rr ttl |; w16 (rr_rdlen rr)) mb ht;
  let '(e1, mb, ht) := r in
  let start_rdata := mb_pos mb in
  r ← rdata_writer (rr_rdata rr) mb ht;
  let '(e2, mb, ht) := r in
  let err := if bool_decide (rr_type rr ∈ known_types) then Z.lor e1 e2 else e2 in
  let len := u16 (mb_pos mb - start_rdata) in
  r ← mbuf_write_u16 A (mbuf_set_pos mb (u64 (start_rdata - 2))) (htons len);
  let '(e3, mb) := r in
  Ret (Z.lor err e3, mbuf_set_pos mb (u64 (mb_pos mb + len)), ht).

Definition rname : reader cstr := read_cstr (λ mb, dns_dname_decode A mb start).
Definition rcstr : reader cstr := read_cstr dns_cstr_decode.

(** The switch over the type, and the case without one. *)
Definition rdata_reader (type rdlen : Z) : reader rdata :=
  if bool_decide (type = DNS_TYPE_A) then
    fmerr_if (negb (bool_decide (rdlen = 4)));; a ← r32; rret (RdA a)
  else if bool_decide (type = DNS_TYPE_NS) then n ← rname; rret (RdNs n)
  else if bool_decide (type = DNS_TYPE_CNAME) then n ← rname; rret (RdCname n)
  else if bool_decide (type = DNS_TYPE_SOA) then
    m ← rname; r ← rname; left_or_fmerr 20;;
    serial ← r32; refresh ← r32; retry ← r32; expire ← r32; ttlmin ← r32;
    rret (RdSoa m r serial refresh retry expire ttlmin)
  else if bool_decide (type = DNS_TYPE_PTR) then n ← rname; rret (RdPtr n)
  else if bool_decide (type = DNS_TYPE_MX) then
    left_or_fmerr 2;; pref ← r16; n ← rname; rret (RdMx pref n)
  else if bool_decide (type = DNS_TYPE_AAAA) then
    fmerr_if (negb (bool_decide (rdlen = 16)));; a ← rmem 16; rret (RdAaaa a)
  else if bool_decide (type = DNS_TYPE_SRV) then
    left_or_fmerr 6;; pri ← r16; weight ← r16; port ← r16; n ← rname; rret (RdSrv pri weight port n)
  else if bool_decide (type = DNS_TYPE_NAPTR) then
    left_or_fmerr 4;; order ← r16; pref ← r16;
    f ← rcstr; s ← rcstr; x ← rcstr; n ← rname; rret (RdNaptr order pref f s x n)
  else skip_over rdlen;; rret (RdOther type).

(** The fields up to the length of the data. *)
Definition head_reader : reader (cstr * Z * Z * Z * Z) :=
  name ← rname;
  left_or_fmerr 10;;
  type ← r16;
  dnsclass ← r16;
  ttl ← r32;
  rdlen ← r16;
  rret (name, type, dnsclass, ttl, rdlen).

Definition rr_reader : reader dnsrr :=
  h ← head_reader;
  let '(name, type, dnsclass, ttl, rdlen) := h in
  left_or_fmerr rdlen;;
  d ← rdata_reader type rdlen;
  rret (DnsRr name dnsclass ttl rdlen d).

Definition dns_rr_decode (mb : mbuf) : outcome ((Z + dnsrr) * mbuf) :=
  if rr_mem then rr_reader mb else Ret (inl ENOMEM, mb).
End encode.
End codec.

(** [dns_rr_cmp]; [same] is whether the two are one object. *)
Definition rdata_cmp (d1 d2 : rdata) : bool :=
  let eq (a b : cstr) := bool_decide (str_casecmp a b = 0) in
  match d1, d2 with
  | RdA a1, RdA a2 => bool_decide (a1 = a2)
  | RdNs n1, RdNs n2 | RdCname n1, RdCname n2 | RdPtr n1, RdPtr n2 => eq n1 n2
  | RdSoa m1 r1 s1 f1 t1 e1 l1, RdSoa m2 r2 s2 f2 t2 e2 l2 =>
      eq m1 m2 && eq r1 r2 && bool_decide (s1 = s2) && bool_decide (f1 = f2) && bool_decide (t1 = t2)
      && bool_decide (e1 = e2) && bool_decide (l1 = l2)
  | RdMx p1 n1, RdMx p2 n2 => bool_decide (p1 = p2) && eq n1 n2
  | RdAaaa a1, RdAaaa a2 => bool_decide (a1 = a2)
  | RdSrv p1 w1 o1 n1, RdSrv p2 w2 o2 n2 =>
      bool_decide (p1 = p2) && bool_decide (w1 = w2) && bool_decide (o1 = o2) && eq n1 n2
  | RdNaptr o1 p1 f1 s1 x1 n1, RdNaptr o2 p2 f2 s2 x2 n2 =>
      bool_decide (o1 = o2) && bool_decide (p1 = p2) && eq f1 f2 && eq s1 s2 && eq x1 x2 && eq n1 n2
  | _, _ => false
  end.

Definition dns_rr_cmp (same : bool) (rr1 rr2 : option dnsrr) (rdata : bool) : bool :=
  match rr1, rr2 with
  | Some rr1, Some rr2 =>
      same ||
      (bool_decide (rr_type rr1 = rr_type rr2) && bool_decide (rr_dnsclass rr1 = rr_dnsclass rr2) &&
       bool_decide (str_casecmp (rr_name rr1) (rr_name rr2) = 0) &&
       (negb rdata || rdata_cmp (rr_rdata rr1) (rr_rdata rr2)))
  | _, _ => false
  end.

(** The names of types and classes. *)
Definition dns_rr_typename (type : Z) : string :=
  if bool_decide (type = DNS_TYPE_A) then "A"
  else if bool_decide (type = DNS_TYPE_NS) then "NS"
  else if bool_decide (type = DNS_TYPE_CNAME) then "CNAME"
  else if bool_decide (type = DNS_TYPE_SOA) then "SOA"
  else if bool_decide (type = DNS_TYPE_PTR) then "PTR"
  else if bool_decide (type = DNS_TYPE_MX) then "MX"
  else if bool_decide (type = DNS_TYPE_AAAA) then "AAAA"
  else if bool_decide (type = DNS_TYPE_SRV) then "SRV"
  else if bool_decide (type = DNS_TYPE_NAPTR) then "NAPTR"
  else if bool_decide (type = DNS_QTYPE_IXFR) then "IXFR"
  else if bool_decide (type = DNS_QTYPE_AXFR) then "AXFR"
  else if bool_decide (type = DNS_QTYPE_ANY) then "ANY"
  else "??".

Definition dns_rr_classname (dnsclass : Z) : string :=
  if bool_decide (dnsclass = DNS_CLASS_IN) then "IN"
  else if bool_decide (dnsclass = DNS_QCLASS_ANY) then "ANY"
  else "??".

(** ** Writing and reading back

    [codes m n w r P]: whenever the buffer has room for [n] more bytes, [w]
    appends at least [m] and at most [n] of them without an error, and [r]
    reads there, in every longer message, a value with property [P]. *)
Section codes.
Context (A A' : allocator) `{!allocator_ok A}.
Variables (dn_mem : list Z → bool) (start : nat).
Hypothesis HA' : ∀ n, 0 ≤ n ≤ 256 → alloc_ok A' n = true.

Definition good_state (mb : mbuf) (ht : dtable) : Prop :=
  at_end mb ∧ (start ≤ length (message mb))%nat ∧ table_good start (message mb) ht.

Definition appended (m n : nat) (mb : mbuf) (mb' : mbuf) (ht' : dtable) : Prop :=
  good_state mb' ht' ∧ message mb `prefix_of` message mb' ∧ mb_size mb ≤ mb_size mb' ∧
  mb_end mb + Z.of_nat m ≤ mb_end mb' ≤ mb_end mb + Z.of_nat n.

Definition reads {T} (r : reader T) (mb mb' : mbuf) (x : T) : Prop :=
  ∀ big, mbuf_inv big → message mb' `prefix_of` message big →
    r (mbuf_set_pos big (mb_end mb)) = Ret (inr x, mbuf_set_pos big (mb_end mb')).

Definition codes {T} (m n : nat) (w : writer) (r : reader T) (P : T → Prop) : Prop :=
  ∀ mb ht, good_state mb ht → mb_end mb + Z.of_nat n ≤ mb_size mb →
  ∃ mb' ht' x, w mb ht = Ret (0, mb', ht') ∧ appended m n mb mb' ht' ∧ P x ∧ reads r mb mb' x.

Lemma codes_also {T U} m1 n1 m2 n2 w1 w2 (r1 : reader T) (k : T → reader U) P Q :
  codes m1 n1 w1 r1 P → (∀ x, P x → codes m2 n2 w2 (k x) Q) → codes (m1 + m2) (n1 + n2) (w1 |; w2) (x ← r1; k x) Q.
Proof using.
  intros H1 H2 mb ht Hg Hroom. destruct (H1 mb ht Hg) as (mb1 & ht1 & x1 & E1 & (Hg1 & Hp1 & Hs1 & Hl1) & Px & R1); [lia|].
  destruct (H2 x1 Px mb1 ht1 Hg1) as (mb2 & ht2 & x2 & E2 & (Hg2 & Hp2 & Hs2 & Hl2) & Qx & R2); [lia|].
  exists mb2, ht2, x2. split; [unfold also; by rewrite E1; cbn; rewrite E2|]. split.
  { split; [done|]. split; [by etrans|]. split; lia. }
  split; [done|]. intros big Hbig Hpre. unfold mbind, reader_bind. rewrite R1 by (done || by etrans). cbn. by apply R2.
Qed.

Lemma codes_map {T U} m n w (r : reader T) (f : T → U) P Q :
  codes m n w r P → (∀ x, P x → Q (f x)) → codes m n w (x ← r; rret (f x)) Q.
Proof using.
  intros H Hf mb ht Hg Hroom. destruct (H mb ht Hg Hroom) as (mb1 & ht1 & x & E & Ha & Px & R).
  exists mb1, ht1, (f x). split; [done|]. split; [done|]. split; [by apply Hf|]. intros big Hbig Hpre.
  unfold mbind, reader_bind. by rewrite R.
Qed.

Lemma message_end mb : mbuf_inv mb → mb_end mb = Z.of_nat (length (message mb)).
Proof using. intros Hi. rewrite message_length by done. destruct Hi as (_ & _ & ? & _). lia. Qed.

Lemma big_left big p : mbuf_inv big → 0 ≤ p ≤ mb_end big → mbuf_get_left (mbuf_set_pos big p) = mb_end big - p.
Proof using. intros (Hs & Hm & He & _) Hp. unfold mbuf_get_left, max_alloc in *. cbn. by rewrite u64_id by lia. Qed.

Lemma prefix_end mb big : mbuf_inv mb → mbuf_inv big → message mb `prefix_of` message big → mb_end mb ≤ mb_end big.
Proof using. intros H1 H2 Hp%prefix_length. rewrite (message_end mb), (message_end big) by done. lia. Qed.

Lemma codes_left {T} k m n w (r : reader T) P : k ≤ Z.of_nat m → codes m n w r P → codes m n w (left_or_fmerr k;; r) P.
Proof using.
  intros Hk H mb ht Hg Hroom. destruct (H mb ht Hg Hroom) as (mb1 & ht1 & x & E & Ha & Px & R).
  exists mb1, ht1, x. split; [done|]. split; [done|]. split; [done|]. intros big Hbig Hpre.
  pose proof Ha as (((Hi1 & _) & _) & _ & _ & Hl). pose proof (prefix_end mb1 big Hi1 Hbig Hpre).
  pose proof Hg as (((_ & _ & He & _) & _) & _). unfold mbind, reader_bind, left_or_fmerr. rewrite big_left by (done || lia).
  rewrite bool_decide_eq_false_2 by lia. cbn. by apply R.
Qed.

Lemma codes_if {T} m n w (r : reader T) P : codes m n w r P → codes m n w (fmerr_if false;; r) P.
Proof using. done. Qed.

Lemma codes_ext {T} m n w w' (r : reader T) P : (∀ mb ht, w' mb ht = w mb ht) → codes m n w r P → codes m n w' r P.
Proof using. intros E H mb ht Hg Hroom. rewrite E. by apply H. Qed.

Lemma codes_weaken {T} m n m' n' w (r : reader T) P : codes m n w r P → (m' ≤ m)%nat → (n ≤ n')%nat → codes m' n' w r P.
Proof using.
  intros H Hm Hn mb ht Hg Hroom. destruct (H mb ht Hg) as (mb1 & ht1 & x & E & (Hg1 & Hp1 & Hs1 & Hl1) & Px & R); [lia|].
  exists mb1, ht1, x. split; [done|]. split; [|done]. split; [done|]. split; [done|]. split; [done|lia].
Qed.

(** Reading the bytes that stand in a message. *)
Lemma read_at big p bs : mbuf_inv big → 0 ≤ p → take (length bs) (drop (Z.to_nat p) (message big)) = bs → p + Z.of_nat (length bs) ≤ mb_end big →
  mbuf_read_mem (mbuf_set_pos big p) (Z.of_nat (length bs)) = Ret (0, bs, mbuf_set_pos big (p + Z.of_nat (length bs))).
Proof using.
  intros Hbig Hp Hbs Hle. assert (Hwf : mbuf_wf (mbuf_set_pos big p)).
  { destruct Hbig as (? & ? & ? & ? & ?). split; [split_and!; cbn; try done; lia|]. cbn. lia. }
  rewrite (mbuf_read_mem_run _ Hwf) by (cbn; lia). cbn [mbuf_set_pos mb_pos]. do 3 f_equal.
  etrans; [|exact Hbs]. unfold message, bytes_at. rewrite skipn_firstn_comm, take_take. cbn [data mb_buf mbuf_set_pos]. f_equal. lia.
Qed.

Lemma appended_bytes mb mb1 big bs : at_end mb → at_end mb1 → message mb1 = message mb ++ bs → mbuf_inv big → message mb1 `prefix_of` message big →
  mb_end mb1 = mb_end mb + Z.of_nat (length bs) ∧
  mbuf_read_mem (mbuf_set_pos big (mb_end mb)) (Z.of_nat (length bs)) = Ret (0, bs, mbuf_set_pos big (mb_end mb1)).
Proof using.
  intros Hmb Hmb1 M Hbig Hpre. destruct (end_of_message mb Hmb) as [_ He]. destruct (end_of_message mb1 Hmb1) as [_ He1].
  pose proof (prefix_end mb1 big (proj1 Hmb1) Hbig Hpre) as Hle. rewrite M, length_app in He1.
  assert (E : mb_end mb1 = mb_end mb + Z.of_nat (length bs)) by lia. split; [done|]. rewrite E. apply read_at; [done|lia| |lia].
  destruct Hpre as [x Hx]. rewrite Hx, M, <- app_assoc, He, Nat2Z.id, drop_app_length, take_app_length. done.
Qed.

Lemma appended_state mb mb1 ht bs n : good_state mb ht → at_end mb1 → message mb1 = message mb ++ bs → mb_size mb ≤ mb_size mb1 → length bs = n →
  appended n n mb mb1 ht.
Proof using.
  intros (Hmb & Hs & Ht) Hmb1 M Hsz <-. assert (Hp : message mb `prefix_of` message mb1) by (by eexists).
  destruct (end_of_message mb Hmb) as [_ He]. destruct (end_of_message mb1 Hmb1) as [_ He1]. rewrite M, length_app in He1.
  split; [|split; [done|split; [done|lia]]]. split; [done|]. split; [rewrite M, length_app; lia|]. by eapply table_good_grow.
Qed.

(** The pieces. *)
Lemma bytes_codes bs : bytes_ok bs → bs ≠ [] → Z.of_nat (length bs) < max_alloc →
  ∀ mb ht, good_state mb ht → mb_end mb + Z.of_nat (length bs) ≤ mb_size mb →
  ∃ mb', mbuf_write_mem A mb (Some bs) = Ret (0, mb') ∧ appended (length bs) (length bs) mb mb' ht ∧ message mb' = message mb ++ bs ∧
    ∀ big, mbuf_inv big → message mb' `prefix_of` message big →
      mbuf_read_mem (mbuf_set_pos big (mb_end mb)) (Z.of_nat (length bs)) = Ret (0, bs, mbuf_set_pos big (mb_end mb')).
Proof using A allocator_ok0 start.
  intros Hbs Hne Hlen mb ht Hg Hroom. pose proof Hg as (Hmb & _).
  destruct (append_run A mb bs Hmb Hbs Hne Hlen) as [[_ ?]|(mb1 & E & Hmb1 & M & S)]; [lia|].
  exists mb1. split; [done|]. split; [by eapply appended_state|]. split; [done|]. intros big Hbig Hpre.
  by destruct (appended_bytes mb mb1 big bs Hmb Hmb1 M Hbig Hpre).
Qed.

Lemma w16_codes v : codes 2 2 (w16 A v) r16 (λ x, x = u16 v).
Proof using A allocator_ok0 start.
  intros mb ht Hg Hroom. destruct (bytes_codes (be 2 (u16 v)) (be_ok _ _) ltac:(done) ltac:(done) mb ht Hg Hroom) as (mb1 & E & Ha & M & R).
  exists mb1, ht, (u16 v). unfold w16, plain_write, mbuf_write_u16. rewrite htons_be, E. split; [done|]. split; [done|]. split; [done|].
  intros big Hbig Hpre. unfold r16. erewrite reader_step; [|unfold read_int, mbuf_read_u16, mbuf_read_int;
    change (Z.of_nat 2) with (Z.of_nat (length (be 2 (u16 v)))); rewrite R by done; reflexivity].
  rewrite (bool_decide_eq_true_2 (0 = 0)) by done. cbn [fst snd].
  rewrite ntohs_be by (apply be_ok || done). rewrite be_value_be; [done|]. apply u16_range.
Qed.

Lemma w32_codes v : codes 4 4 (w32 A v) r32 (λ x, x = u32 v).
Proof using A allocator_ok0 start.
  intros mb ht Hg Hroom. assert (Eu : be 4 v = be 4 (u32 v)).
  { unfold be. f_equal. pose proof (le_bytes_value (le_bytes 4 v) (le_bytes_ok _ _)) as El.
    rewrite le_value_bytes_wrap, le_bytes_length in El. by rewrite <- El. }
  destruct (bytes_codes (be 4 (u32 v)) (be_ok _ _) ltac:(done) ltac:(done) mb ht Hg Hroom) as (mb1 & E & Ha & M & R).
  exists mb1, ht, (u32 v). unfold w32, plain_write, mbuf_write_u32. rewrite htonl_be, Eu, E. split; [done|]. split; [done|]. split; [done|].
  intros big Hbig Hpre. unfold r32. erewrite reader_step; [|unfold read_int, mbuf_read_u32, mbuf_read_int;
    change (Z.of_nat 4) with (Z.of_nat (length (be 4 (u32 v)))); rewrite R by done; reflexivity].
  rewrite (bool_decide_eq_true_2 (0 = 0)) by done. cbn [fst snd].
  rewrite ntohl_be by (apply be_ok || done). rewrite be_value_be; [done|]. apply u32_range.
Qed.

Lemma wmem_codes bs : bytes_ok bs → bs ≠ [] → Z.of_nat (length bs) < max_alloc →
  codes (length bs) (length bs) (wmem A bs) (rmem (Z.of_nat (length bs))) (λ x, x = bs).
Proof using A allocator_ok0 start.
  intros Hbs Hne Hlen mb ht Hg Hroom. destruct (bytes_codes bs Hbs Hne Hlen mb ht Hg Hroom) as (mb1 & E & Ha & M & R).
  exists mb1, ht, bs. unfold wmem, plain_write. rewrite E. split; [done|]. split; [done|]. split; [done|].
  intros big Hbig Hpre. unfold rmem. rewrite R by done. cbn. done.
Qed.

(** A character string of at most 255 characters. *)
Definition cstr_ok (c : cstr) : Prop := ∃ s, c = Some s ∧ (length s ≤ 255)%nat ∧ Forall (λ x, is_byte x ∧ x ≠ 0) s.

Lemma cstr_piece s mb ht : (length s ≤ 255)%nat → Forall (λ x, is_byte x ∧ x ≠ 0) s → good_state mb ht →
  mb_end mb + Z.of_nat (1 + length s) ≤ mb_size mb →
  ∃ mb', dns_cstr_encode A mb (Some s) = Ret (0, mb') ∧ appended (1 + length s) (1 + length s) mb mb' ht ∧ message mb' = message mb ++ Z.of_nat (length s) :: s.
Proof using A allocator_ok0 start.
  intros Hs Hc Hg Hroom. unfold dns_cstr_encode. rewrite u8_id by lia. unfold mbuf_write_u8.
  assert (E1 : le_bytes 1 (Z.of_nat (length s)) = [Z.of_nat (length s)]) by (cbn [le_bytes]; by rewrite Z.mod_small by lia). rewrite E1.
  destruct (bytes_codes [Z.of_nat (length s)]) with (mb := mb) (ht := ht) as (mb1 & W1 & Ha1 & M1 & _);
    [constructor; [unfold is_byte; lia|constructor]|done|done|done|cbn [length]; lia|]. rewrite W1. cbn [mbind outcome_bind].
  rewrite Nat2Z.id, firstn_all. pose proof Ha1 as (Hg1 & Hp1 & Hz1 & Hl1). cbn [length] in Hl1.
  assert (Hsb : bytes_ok s) by (eapply Forall_impl; [|exact Hc]; by intros x [? _]).
  destruct (decide (s = [])) as [->|Hne].
  - pose proof Hg1 as ((Hi1 & Hpe1) & _). pose proof Hi1 as (HS & HM & HE & _). exists mb1. split.
    + unfold mbuf_write_mem. cbn [length]. change (Z.of_nat 0) with 0. rewrite !Z.add_0_r, !u64_id by (unfold max_alloc in *; lia).
      rewrite bool_decide_eq_false_2 by lia. rewrite bool_decide_eq_true_2 by done. unfold memcpy_to. cbn.
      rewrite ?Z.add_0_r, ?u64_id, Z.max_l by (unfold max_alloc in *; lia). by destruct mb1.
    + split; [|done]. split; [done|]. split; [done|]. split; [done|cbn [length]; lia].
  - destruct (bytes_codes s Hsb Hne) with (mb := mb1) (ht := ht) as (mb2 & W2 & Ha2 & M2 & _); [unfold max_alloc; lia|done|lia|].
    exists mb2. rewrite W2. split; [done|]. pose proof Ha2 as (Hg2 & Hp2 & Hz2 & Hl2). split; [|by rewrite M2, M1, <- app_assoc].
    split; [done|]. split; [by etrans|]. split; [lia|]. lia.
Qed.

Lemma c_string_terminated s : Forall (λ x, is_byte x ∧ x ≠ 0) s → c_string (s ++ [0]) = s.
Proof using. clear. induction 1 as [|x s [_ Hx] _ IH]; [done|]. cbn [Datatypes.app c_string]. by rewrite bool_decide_eq_false_2, IH. Qed.

Lemma wcstr_codes c s : c = Some s → (length s ≤ 255)%nat → Forall (λ x, is_byte x ∧ x ≠ 0) s →
  codes (1 + length s) (1 + length s) (wcstr A c) (rcstr A') (λ x, x = c).
Proof using A A' allocator_ok0 start HA'.
  intros -> Hs Hc mb ht Hg Hroom. destruct (cstr_piece s mb ht Hs Hc Hg Hroom) as (mb1 & E & Ha & M).
  exists mb1, ht, (Some s). unfold wcstr, plain_write. rewrite E. split; [done|]. split; [done|]. split; [done|].
  intros big Hbig Hpre. pose proof Hg as (Hmb & _). pose proof Ha as ((Hmb1 & _) & _ & _ & Hl).
  destruct (end_of_message mb Hmb) as [_ He]. destruct (end_of_message mb1 Hmb1) as [_ He1].
  pose proof (prefix_end mb1 big (proj1 Hmb1) Hbig Hpre) as Hle. rewrite M, length_app in He1. cbn [length] in He1.
  assert (Hd : drop (Z.to_nat (mb_end mb)) (message big) = Z.of_nat (length s) :: s ++ drop (Z.to_nat (mb_end mb1)) (message big)).
  { destruct Hpre as [x Hx]. assert (Ex : drop (Z.to_nat (mb_end mb1)) (message big) = x).
    { rewrite Hx. apply drop_app_length'. rewrite M, length_app. cbn [length]. lia. }
    rewrite Ex, Hx, M, <- app_assoc, He, Nat2Z.id, drop_app_length. done. }
  unfold rcstr, read_cstr, dns_cstr_decode. rewrite big_left by (done || lia). rewrite bool_decide_eq_false_2 by lia.
  unfold mbuf_read_u8, mbuf_read_int. change (Z.of_nat 1) with (Z.of_nat (length [Z.of_nat (length s)])).
  rewrite (read_at big (mb_end mb) [_]) by (done || lia || by rewrite Hd || (cbn [length]; lia)). cbn [mbind outcome_bind length].
  rewrite (bool_decide_eq_true_2 (0 = 0)) by done. cbn [le_value]. rewrite Z.mul_0_r, Z.add_0_r. change (Z.of_nat 1) with 1.
  rewrite big_left by (done || lia). rewrite bool_decide_eq_false_2 by lia. unfold mbuf_strdup. rewrite u64_id, HA' by lia.
  rewrite read_at; [|done|lia| |lia].
  2: { replace (Z.to_nat (mb_end mb + 1)) with (Z.to_nat (mb_end mb) + 1)%nat by lia. rewrite <- drop_drop, Hd, skipn_cons, drop_0. apply take_app_length. }
  cbn [mbind outcome_bind option_map]. rewrite (bool_decide_eq_true_2 (0 = 0)) by done. cbn [option_map].
  rewrite c_string_terminated, ?(bool_decide_eq_true_2 (0 = 0)) by done.
  by replace (mb_end mb1) with (mb_end mb + 1 + Z.of_nat (length s)) by lia.
Qed.

(** A name of labels that can be written. *)
Definition name_ok (c : cstr) : Prop :=
  ∃ dot ls, c = Some (text dot ls) ∧ ls ≠ [] ∧ Forall good_label ls ∧ (length (join ls) ≤ 255)%nat.

(** The same name, up to case and the dot at the end of the first. *)
Definition same_name (c : cstr) (x : cstr) : Prop := str_casecmp x (option_map strip c) = 0.

Lemma wname_codes c comp : name_ok c → codes 0 258 (wname A dn_mem (Z.of_nat start) c comp) (rname A' (Z.of_nat start)) (same_name c).
Proof using All.
  intros (dot & ls & -> & Hne & Hls & Hlen) mb ht Hg Hroom. pose proof Hg as (Hmb & Hst & Ht).
  assert (Htl : (length (text dot ls) ≤ 256)%nat) by (unfold text; rewrite length_app; destruct dot; simpl; lia).
  destruct (encode_run A dn_mem start comp dot ls mb ht) as [(mb1 & ht1 & E & Hs)|(mb1 & ht1 & E & Hmb1 & Hpre1 & Hstand & Ht1)]; [done..|exfalso; lia|].
  destruct Hstand as (j & ls' & (o & q & Hw & H0 & He) & Hplain & Hj).
  pose proof (encode_within A dn_mem (Z.of_nat start) comp mb _ ht _ _ _ Hmb E) as (_ & Hsz & Hend).
  assert (Hpos : Forall (λ c, 0 < c) (join ls)).
  { pose proof (text_positive false ls Hls) as Hp. unfold text in Hp. by rewrite app_nil_r in Hp. }
  pose proof (plain_positive _ _ Hplain Hpos) as Hpos'. pose proof (plain_length _ _ Hplain) as El.
  exists mb1, ht1, (Some (add_labels [] ls')). split; [exact E|]. split.
  { split; [|split; [done|split; [done|]]].
    - split; [done|]. split; [|done]. apply prefix_length in Hpre1. lia.
    - pose proof (prefix_end mb mb1 (proj1 Hmb) (proj1 Hmb1) Hpre1). lia. }
  split.
  { unfold same_name. cbn [option_map str_casecmp]. rewrite strip_text by done. by apply strcasecmp_plain. }
  intros big Hbig Hpre. destruct (end_of_message mb Hmb) as [_ He0]. destruct (end_of_message mb1 Hmb1) as [_ He1]. pose proof (message_small mb Hmb) as Hsm.
  pose proof (labels_count ls' (walks_nonempty _ _ _ _ _ _ _ _ Hw)).
  assert (Hn : name_at true (message big) start (length (message mb)) j ls' (length (message mb1))).
  { destruct (name_at_grow (message mb1) (message big) start (length (message mb)) j ls' (length (message mb1)) Hpre) as (o' & q' & Hw' & H0' & He');
      [by exists o, q|]. exists o', q'. split; [by apply walks_lenient|done]. }
  unfold rname, read_cstr. rewrite He0, (decode_name A' big start Hbig ltac:(lia) _ j ls' _ Hn) by (lia || apply HA'; lia).
  cbn [mbind outcome_bind]. rewrite (bool_decide_eq_true_2 (0 = 0)) by done. rewrite c_string_positive by done. by rewrite He1.
Qed.
End codes.

(** ** Records that can be written *)

Definition is_u16 (v : Z) : Prop := 0 ≤ v < 65536.
Definition is_u32 (v : Z) : Prop := 0 ≤ v < 4294967296.

Definition rdata_ok (d : rdata) : Prop :=
  match d with
  | RdA a => is_u32 a
  | RdNs n | RdCname n | RdPtr n => name_ok n
  | RdSoa m r s f t e l => name_ok m ∧ name_ok r ∧ is_u32 s ∧ is_u32 f ∧ is_u32 t ∧ is_u32 e ∧ is_u32 l
  | RdMx p n => is_u16 p ∧ name_ok n
  | RdAaaa a => bytes_ok a ∧ length a = 16%nat
  | RdSrv p w o n => is_u16 p ∧ is_u16 w ∧ is_u16 o ∧ name_ok n
  | RdNaptr o p f s x n => is_u16 o ∧ is_u16 p ∧ cstr_ok f ∧ cstr_ok s ∧ cstr_ok x ∧ name_ok n
  | RdOther _ => False
  end.

Definition rr_ok (rr : dnsrr) : Prop := name_ok (rr_name rr) ∧ is_u16 (rr_dnsclass rr) ∧ rdata_ok (rr_rdata rr).

(** The record with the dots at the ends of its names removed. *)
Definition undot (c : cstr) : cstr := option_map strip c.
Definition undot_rdata (d : rdata) : rdata :=
  match d with
  | RdA a => RdA a
  | RdNs n => RdNs (undot n)
  | RdCname n => RdCname (undot n)
  | RdSoa m r s f t e l => RdSoa (undot m) (undot r) s f t e l
  | RdPtr n => RdPtr (undot n)
  | RdMx p n => RdMx p (undot n)
  | RdAaaa a => RdAaaa a
  | RdSrv p w o n => RdSrv p w o (undot n)
  | RdNaptr o p f s x n => RdNaptr o p f s x (undot n)
  | RdOther t => RdOther t
  end.
Definition undot_rr (rr : dnsrr) : dnsrr := DnsRr (undot (rr_name rr)) (rr_dnsclass rr) (rr_ttl rr) (rr_rdlen rr) (undot_rdata (rr_rdata rr)).

(** What a record takes at most. *)
Definition RR_ROOM : nat := 1300.

Lemma u16_of v : is_u16 v → u16 v = v.
Proof. apply u16_id. Qed.
Lemma u32_of v : is_u32 v → u32 v = v.
Proof. apply u32_id. Qed.
Lemma casecmp_refl c : str_casecmp c c = 0.
Proof. destruct c as [s|]; [|done]. cbn. induction s as [|x s IH]; [done|]. cbn [strcasecmp]. by rewrite bool_decide_eq_true_2. Qed.
Lemma same_name_eq c x : same_name c x → bool_decide (str_casecmp x (undot c) = 0) = true.
Proof. intros H. by apply bool_decide_eq_true_2. Qed.

Section records.
Context (A A' : allocator) `{!allocator_ok A}.
Variables (dn_mem : list Z → bool) (start : nat).
Hypothesis HA' : ∀ n, 0 ≤ n ≤ 256 → alloc_ok A' n = true.

Local Abbreviation coded := (codes start).
Local Abbreviation name_codes := (wname_codes A A' dn_mem start HA').

Definition rdata_coded (d : rdata) (m n : nat) : Prop :=
  ∀ rdlen, Z.of_nat m ≤ rdlen ≤ Z.of_nat n →
    coded m n (rdata_writer A dn_mem (Z.of_nat start) d) (rdata_reader A' (Z.of_nat start) (rdata_type d) rdlen) (λ x, rdata_cmp x (undot_rdata d) = true).

Lemma rdata_codes d : rdata_ok d → ∃ m n, (m ≤ n ≤ 1032)%nat ∧ rdata_coded d m n.
Proof using All.
  destruct d as [a|c|c|m r s f t e l|c|p c|a|p w o c|o p f s x c|t]; cbn [rdata_ok]; [| | | | | | | | |done].
  - intros Ha. exists 4%nat, 4%nat. split; [lia|]. intros rdlen Hl. assert (rdlen = 4) as -> by lia.
    change (coded 4 4 (w32 A a) (fmerr_if false;; (v ← r32; rret (RdA v))) (λ x, rdata_cmp x (RdA a) = true)).
    apply codes_if. eapply codes_map; [by apply w32_codes|]. intros v ->. rewrite u32_of by done. by apply bool_decide_eq_true_2.
  - intros Hc. exists 0%nat, 258%nat. split; [lia|]. intros rdlen _.
    change (coded 0 258 (wname A dn_mem (Z.of_nat start) c true) (n ← rname A' (Z.of_nat start); rret (RdNs n)) (λ x, rdata_cmp x (RdNs (undot c)) = true)).
    eapply codes_map; [by apply name_codes|]. intros v Hv. by apply same_name_eq.
  - intros Hc. exists 0%nat, 258%nat. split; [lia|]. intros rdlen _.
    change (coded 0 258 (wname A dn_mem (Z.of_nat start) c true) (n ← rname A' (Z.of_nat start); rret (RdCname n)) (λ x, rdata_cmp x (RdCname (undot c)) = true)).
    eapply codes_map; [by apply name_codes|]. intros v Hv. by apply same_name_eq.
  - intros (Hm & Hr & Hs & Hf & Ht & He & Hl). exists 20%nat, (258 + (258 + 20))%nat. split; [lia|]. intros rdlen _.
    change (coded (0 + (0 + (4 + (4 + (4 + (4 + 4)))))) (258 + (258 + (4 + (4 + (4 + (4 + 4))))))
      (rdata_writer A dn_mem (Z.of_nat start) (RdSoa m r s f t e l))
      (m ← rname A' (Z.of_nat start); r ← rname A' (Z.of_nat start); left_or_fmerr 20;;
       s ← r32; f ← r32; t ← r32; e ← r32; l ← r32; rret (RdSoa m r s f t e l))
      (λ x, rdata_cmp x (undot_rdata (RdSoa m r s f t e l)) = true)).
    eapply codes_also; [by apply name_codes|]. intros m' Hm'. eapply codes_also; [by apply name_codes|]. intros r' Hr'.
    apply codes_left; [lia|].
    eapply codes_also; [by apply w32_codes|]. intros ? ->. eapply codes_also; [by apply w32_codes|]. intros ? ->.
    eapply codes_also; [by apply w32_codes|]. intros ? ->. eapply codes_also; [by apply w32_codes|]. intros ? ->.
    eapply codes_map; [by apply w32_codes|]. intros ? ->. rewrite !u32_of by done.
    cbn [rdata_cmp undot_rdata]. rewrite !same_name_eq by done. by rewrite !bool_decide_eq_true_2.
  - intros Hc. exists 0%nat, 258%nat. split; [lia|]. intros rdlen _.
    change (coded 0 258 (wname A dn_mem (Z.of_nat start) c true) (n ← rname A' (Z.of_nat start); rret (RdPtr n)) (λ x, rdata_cmp x (RdPtr (undot c)) = true)).
    eapply codes_map; [by apply name_codes|]. intros v Hv. by apply same_name_eq.
  - intros [Hp Hc]. exists 2%nat, 260%nat. split; [lia|]. intros rdlen _.
    change (coded (2 + 0) (2 + 258) (w16 A p |; wname A dn_mem (Z.of_nat start) c true)
      (left_or_fmerr 2;; (p ← r16; n ← rname A' (Z.of_nat start); rret (RdMx p n))) (λ x, rdata_cmp x (RdMx p (undot c)) = true)).
    apply codes_left; [lia|]. eapply codes_also; [by apply w16_codes|]. intros ? ->. eapply codes_map; [by apply name_codes|].
    intros n Hn. rewrite u16_of by done. cbn [rdata_cmp]. rewrite same_name_eq by done. by rewrite bool_decide_eq_true_2.
  - intros [Ha Hlen]. exists 16%nat, 16%nat. split; [lia|]. intros rdlen Hl. assert (rdlen = 16) as -> by lia.
    change (coded 16 16 (wmem A a) (fmerr_if false;; (v ← rmem 16; rret (RdAaaa v))) (λ x, rdata_cmp x (RdAaaa a) = true)).
    apply codes_if. change 16 with (Z.of_nat 16). rewrite <- Hlen. assert (Hne : a ≠ []) by (by intros ->).
    assert (Hsm : Z.of_nat (length a) < max_alloc) by (rewrite Hlen; done).
    eapply codes_map; [exact (wmem_codes A start a Ha Hne Hsm)|]. intros v ->. by apply bool_decide_eq_true_2.
  - intros (Hp & Hw & Ho & Hc). exists 6%nat, 264%nat. split; [lia|]. intros rdlen _.
    change (coded (2 + (2 + (2 + 0))) (2 + (2 + (2 + 258))) (rdata_writer A dn_mem (Z.of_nat start) (RdSrv p w o c))
      (left_or_fmerr 6;; (p ← r16; w ← r16; o ← r16; n ← rname A' (Z.of_nat start); rret (RdSrv p w o n)))
      (λ x, rdata_cmp x (RdSrv p w o (undot c)) = true)).
    apply codes_left; [lia|]. eapply codes_also; [by apply w16_codes|]. intros ? ->. eapply codes_also; [by apply w16_codes|]. intros ? ->.
    eapply codes_also; [by apply w16_codes|]. intros ? ->. eapply codes_map; [by apply name_codes|].
    intros n Hn. rewrite !u16_of by done. cbn [rdata_cmp]. rewrite same_name_eq by done. by rewrite !bool_decide_eq_true_2.
  - intros (Ho & Hp & (fs & -> & Hf1 & Hf2) & (ss & -> & Hs1 & Hs2) & (xs & -> & Hx1 & Hx2) & Hc).
    set (m := (2 + (2 + ((1 + length fs) + ((1 + length ss) + ((1 + length xs) + 0)))))%nat).
    set (n := (2 + (2 + ((1 + length fs) + ((1 + length ss) + ((1 + length xs) + 258)))))%nat).
    exists m, n. split; [lia|]. intros rdlen _.
    change (coded m n (rdata_writer A dn_mem (Z.of_nat start) (RdNaptr o p (Some fs) (Some ss) (Some xs) c))
      (left_or_fmerr 4;; (o ← r16; p ← r16; f ← rcstr A'; s ← rcstr A'; x ← rcstr A'; n ← rname A' (Z.of_nat start); rret (RdNaptr o p f s x n)))
      (λ y, rdata_cmp y (RdNaptr o p (Some fs) (Some ss) (Some xs) (undot c)) = true)).
    apply codes_left; [lia|]. eapply codes_also; [by apply w16_codes|]. intros ? ->. eapply codes_also; [by apply w16_codes|]. intros ? ->.
    eapply codes_also; [by apply wcstr_codes|]. intros ? ->. eapply codes_also; [by apply wcstr_codes|]. intros ? ->.
    eapply codes_also; [by apply wcstr_codes|]. intros ? ->. eapply codes_map; [by apply name_codes|].
    intros y Hy. rewrite !u16_of by done. cbn [rdata_cmp]. rewrite same_name_eq by done. rewrite !casecmp_refl. by rewrite !bool_decide_eq_true_2.
Qed.

(** The data written behind any other length is the same. *)
Definition blind (w : writer) : Prop :=
  ∀ lo hi mb1 mb2 ht, alike lo hi mb1 mb2 → both (encoded_alike lo hi) (w mb1 ht) (w mb2 ht).

Lemma blind_also w1 w2 : blind w1 → blind w2 → blind (w1 |; w2).
Proof using.
  intros H1 H2 lo hi mb1 mb2 ht Hmb. eapply both_bind; [by apply H1|]. intros [[e1 m1] t1] [[e2 m2] t2] [[Ee Hm] Et]. cbn in Ee, Hm, Et. subst e2 t2.
  eapply both_bind; [by apply H2|]. intros [[e1' m1'] t1'] [[e2' m2'] t2'] [[Ee' Hm'] Et']. cbn in Ee', Hm', Et'. subst e2' t2'. by split; [split|].
Qed.

Lemma blind_mem (f : mbuf → outcome (Z * mbuf)) : (∀ lo hi mb1 mb2, alike lo hi mb1 mb2 → both (written_alike lo hi) (f mb1) (f mb2)) → blind (plain_write f).
Proof using. intros Hf lo hi mb1 mb2 ht Hmb. by apply with_table_alike, Hf. Qed.

Lemma blind_name c comp : blind (wname A dn_mem (Z.of_nat start) c comp).
Proof using. intros lo hi mb1 mb2 ht Hmb. by apply encode_alike. Qed.

Lemma blind_cstr c : blind (wcstr A c).
Proof using.
  apply blind_mem. intros lo hi mb1 mb2 Hmb. destruct c as [s|]; [|by split].
  unfold dns_cstr_encode. eapply both_bind; [by apply write_alike|]. intros [e1 m1] [e2 m2] [Ee Hm]. cbn in Ee, Hm. subst e2.
  eapply both_bind; [by apply write_alike|]. intros [e1' m1'] [e2' m2'] [Ee' Hm']. cbn in Ee', Hm'. subst e2'. by split.
Qed.

Lemma rdata_blind d : blind (rdata_writer A dn_mem (Z.of_nat start) d).
Proof using.
  assert (H16 : ∀ v, blind (w16 A v)) by (intros v; apply blind_mem; intros; by apply write_alike).
  assert (H32 : ∀ v, blind (w32 A v)) by (intros v; apply blind_mem; intros; by apply write_alike).
  assert (Hm : ∀ v, blind (wmem A v)) by (intros v; apply blind_mem; intros; by apply write_alike).
  destruct d; cbn [rdata_writer]; repeat apply blind_also;
    try first [apply H16|apply H32|apply Hm|apply blind_name|apply blind_cstr].
  intros lo hi mb1 mb2 ht Hmb. by split; [split|].
Qed.

Lemma write_differ mb bs1 bs2 : length bs1 = length bs2 → mbuf_inv mb →
  both (written_alike (Z.to_nat (mb_pos mb)) (Z.to_nat (mb_pos mb) + length bs1)) (mbuf_write_mem A mb (Some bs1)) (mbuf_write_mem A mb (Some bs2)).
Proof using.
  intros Hlen Hinv. unfold mbuf_write_mem. rewrite <- Hlen. set (p := Z.to_nat (mb_pos mb)).
  assert (Hr : ∀ m, alike p (p + length bs1) m m).
  { intros m. split_and!; [done..|]. destruct (mb_buf m); constructor. done. }
  assert (Hgo : ∀ e m, mb_pos m = mb_pos mb → both (written_alike p (p + length bs1))
    (if bool_decide (e = 0) then b ← memcpy_to (mb_buf m) (mb_pos m) bs1;
       Ret (0, Mb b (mb_size m) (u64 (mb_pos m + Z.of_nat (length bs1))) (Z.max (mb_end m) (u64 (mb_pos m + Z.of_nat (length bs1)))))
     else Ret (e, m))
    (if bool_decide (e = 0) then b ← memcpy_to (mb_buf m) (mb_pos m) bs2;
       Ret (0, Mb b (mb_size m) (u64 (mb_pos m + Z.of_nat (length bs1))) (Z.max (mb_end m) (u64 (mb_pos m + Z.of_nat (length bs1)))))
     else Ret (e, m))).
  { intros e m Hm. case_bool_decide; [|by split]. rewrite Hm.
    assert (Hc : both (option_Forall2 (agree p (p + length bs1))) (memcpy_to (mb_buf m) (mb_pos mb) bs1) (memcpy_to (mb_buf m) (mb_pos mb) bs2)).
    { unfold memcpy_to. destruct bs1 as [|x bs1], bs2 as [|y bs2]; try done; [cbn; destruct (mb_buf m); by constructor|].
      destruct (mb_buf m) as [b|]; [|done]. rewrite Hlen. case_bool_decide as Hin; [|done]. cbn [both]. constructor. fold p.
      rewrite <- Hlen in Hin. assert (Hb : (p + length (x :: bs1) ≤ length b)%nat) by lia. split.
      - rewrite !length_app, !length_take, !length_drop. lia.
      - intros i Hi. rewrite <- Hlen at 1. rewrite !splice_lookup by lia. rewrite !decide_False by lia. done. }
    eapply both_bind; [exact Hc|]. intros b1 b2 Hb. split; [done|]. by split_and!. }
  case_bool_decide; [|by apply Hgo]. unfold mbuf_resize. destruct (alloc_ok A _); by apply Hgo.
Qed.

(** Bytes written over a part of the message. *)
Lemma overwrite mb p bs : mbuf_inv mb → bs ≠ [] → (p + length bs ≤ length (message mb))%nat → bytes_ok bs →
  ∃ mb', mbuf_write_mem A (mbuf_set_pos mb (Z.of_nat p)) (Some bs) = Ret (0, mb') ∧ mbuf_inv mb' ∧
    mb_pos mb' = Z.of_nat (p + length bs) ∧ mb_end mb' = mb_end mb ∧ mb_size mb' = mb_size mb ∧
    length (message mb') = length (message mb) ∧
    ∀ i, message mb' !! i = if decide (p ≤ i < p + length bs)%nat then bs !! (i - p)%nat else message mb !! i.
Proof using.
  intros Hinv Hne Hp Hbs. pose proof Hinv as (Hs & Hm & He & Hp0 & Hok). rewrite message_length in Hp by done.
  assert (Hmax : max_alloc = 4611686018427387904) by reflexivity.
  unfold mbuf_write_mem. cbn [mb_pos mb_size mb_end mb_buf mbuf_set_pos]. rewrite u64_id by lia. rewrite bool_decide_eq_false_2 by lia.
  rewrite bool_decide_eq_true_2 by done. cbn [mb_pos mb_size mb_end mb_buf mbuf_set_pos]. destruct (mb_buf mb) as [b|] eqn:Hb; [|cbn in Hs; destruct bs; [done|simpl in *; lia]]. cbn in Hs, Hok.
  rewrite memcpy_to_run by lia. cbn [mbind outcome_bind mb_pos mb_size mb_end mbuf_set_pos]. rewrite Nat2Z.id, u64_id, Z.max_l by lia.
  set (b' := take p b ++ bs ++ drop (p + length bs) b).
  assert (Hl : length b' = length b) by (subst b'; rewrite !length_app, length_take, length_drop; lia).
  eexists. split; [done|]. cbn [mb_pos mb_end mb_size].
  assert (Hinv' : mbuf_inv (Mb (Some b') (mb_size mb) (Z.of_nat p + Z.of_nat (length bs)) (mb_end mb))).
  { split_and!; cbn; try lia. subst b'. apply bytes_ok_app. split; [auto with re|]. apply bytes_ok_app. auto with re. }
  split; [done|]. split; [lia|]. split; [done|]. split; [done|]. split; [by rewrite !message_length|].
  intros i. unfold message, data. cbn [mb_buf mb_end]. rewrite Hb. cbn [default id].
  destruct (decide (i < Z.to_nat (mb_end mb))%nat) as [Hi|Hi].
  - rewrite !lookup_take_lt by done. subst b'. by rewrite splice_lookup by lia.
  - rewrite !lookup_take_ge by lia. by rewrite decide_False by lia.
Qed.

Lemma also_assoc w1 w2 w3 mb ht : ((w1 |; w2) |; w3) mb ht = (w1 |; (w2 |; w3)) mb ht.
Proof using.
  unfold also. destruct (w1 mb ht) as [[[e1 m1] t1]|f]; [|done]. cbn. destruct (w2 m1 t1) as [[[e2 m2] t2]|f]; [|done]. cbn.
  destruct (w3 m2 t2) as [[[e3 m3] t3]|f]; [|done]. cbn. by rewrite Z.lor_assoc.
Qed.

Lemma also_ext w1 w2 w2' mb ht : (∀ mb ht, w2 mb ht = w2' mb ht) → (w1 |; w2) mb ht = (w1 |; w2') mb ht.
Proof using. intros E. unfold also. destruct (w1 mb ht) as [[[e1 m1] t1]|f]; [|done]. cbn. by rewrite E. Qed.

(** The fields before the data, with any length. *)
Lemma head_codes rr ttl v : rr_ok rr →
  coded 10 268 (head_writer A dn_mem (Z.of_nat start) rr ttl |; w16 A v) (head_reader A' (Z.of_nat start))
    (λ h, ∃ x, h = (x, rr_type rr, rr_dnsclass rr, u32 ttl, u16 v) ∧ same_name (rr_name rr) x).
Proof using All.
  intros (Hn & Hc & Hd). assert (Ht : is_u16 (rr_type rr)) by (unfold is_u16, rr_type; destruct (rr_rdata rr); cbn in *; done || lia).
  eapply codes_ext.
  { intros mb ht. unfold head_writer. rewrite also_assoc. apply also_ext. intros mb1 ht1. rewrite also_assoc. apply also_ext.
    intros mb2 ht2. rewrite also_assoc. reflexivity. }
  eapply (codes_weaken _ (0 + (2 + (2 + (4 + 2)))) (258 + (2 + (2 + (4 + 2))))); [|lia..]. unfold head_reader.
  eapply codes_also; [by apply name_codes|]. intros x Hx. apply codes_left; [lia|].
  eapply codes_also; [by apply w16_codes|]. intros ? ->. eapply codes_also; [by apply w16_codes|]. intros ? ->.
  eapply codes_also; [by apply w32_codes|]. intros ? ->. eapply codes_map; [by apply w16_codes|]. intros ? ->.
  rewrite !u16_of by done. by exists x.
Qed.

(** The fields before the length, on the way to any length. *)
Lemma head_state rr ttl mb ht : rr_ok rr → good_state start mb ht → mb_end mb + 268 ≤ mb_size mb →
  ∃ mb1 ht1, mbuf_inv mb1 ∧ mb_pos mb1 = Z.of_nat (length (message mb1)) ∧ ∀ v, ∃ mbv h,
    mbuf_write_u16 A mb1 (htons v) = Ret (0, mbv) ∧ message mbv = message mb1 ++ be 2 (u16 v) ∧
    (head_writer A dn_mem (Z.of_nat start) rr ttl |; w16 A v) mb ht = Ret (0, mbv, ht1) ∧ appended start 10 268 mb mbv ht1 ∧
    (∃ x, h = (x, rr_type rr, rr_dnsclass rr, u32 ttl, u16 v) ∧ same_name (rr_name rr) x) ∧ reads (head_reader A' (Z.of_nat start)) mb mbv h.
Proof using All.
  intros Hrr Hg Hroom. destruct (head_codes rr ttl 0 Hrr mb ht Hg Hroom) as (mb0 & ht0 & _ & E0 & _).
  unfold also in E0. apply bind_Ret_inv in E0 as ([[e1 mb1] ht1] & E1 & _). exists mb1, ht1.
  assert (Hw1 : at_end mb1).
  { assert (Hcore : ∃ n, coded 0 n (head_writer A dn_mem (Z.of_nat start) rr ttl)
      (x ← rname A' (Z.of_nat start); a ← r16; b ← r16; c ← r32; rret (x, a, b, c)) (λ _, True) ∧ (n ≤ 268)%nat).
    { destruct Hrr as (Hn & _). exists (258 + (2 + (2 + 4)))%nat. split; [|lia].
      eapply (codes_weaken _ (0 + (2 + (2 + 4))) (258 + (2 + (2 + 4)))); [|lia..].
      eapply codes_also; [by apply name_codes|]. intros x _. eapply codes_also; [by apply w16_codes|]. intros a _.
      eapply codes_also; [by apply w16_codes|]. intros b _. eapply codes_map; [by apply w32_codes|]. done. }
    destruct Hcore as (n & Hcore & Hn). destruct (Hcore mb ht Hg ltac:(lia)) as (mb1' & ht1' & _ & E1' & ((H & _) & _) & _).
    rewrite E1 in E1'. by injection E1' as _ -> _. }
  split; [apply Hw1|]. destruct (end_of_message mb1 Hw1) as [Hp1 _]. split; [done|]. intros v.
  destruct (head_codes rr ttl v Hrr mb ht Hg Hroom) as (mbv & htv & h & Ev & Ha & Hh & Hr). pose proof Ev as Ev'.
  unfold also in Ev'. rewrite E1 in Ev'. cbn [mbind outcome_bind] in Ev'. unfold w16, plain_write in Ev'.
  apply bind_Ret_inv in Ev' as ([[e2 mb2] ht2] & E2 & E3). injection E3 as He -> ->. apply Z.lor_eq_0_iff in He as [-> ->].
  apply bind_Ret_inv in E2 as ([e3 mb3] & E2 & E3). injection E3 as Ee Em Eh. subst e3 mb3 ht1. exists mbv, h. split; [done|]. split; [|by split_and!].
  unfold mbuf_write_u16 in E2. rewrite htons_be in E2.
  destruct (append_run A mb1 (be 2 (u16 v)) Hw1 (be_ok _ _)) as [[E _]|(mb4 & E & _ & M & _)]; [done|done|..]; rewrite E in E2; [discriminate E2|by injection E2 as <-].
Qed.

(** What is decoded: the record, up to the case of its names. *)
Definition decoded_rr (rr : dnsrr) (ttl_offs : Z) (rr' : dnsrr) : Prop :=
  dns_rr_cmp false (Some rr') (Some (undot_rr rr)) true = true ∧
  rr_ttl rr' = u32 (if bool_decide (rr_ttl rr > ttl_offs) then rr_ttl rr - ttl_offs else 0).

Lemma known_type rr : rdata_ok (rr_rdata rr) → rr_type rr ∈ known_types.
Proof using. unfold rr_type. destruct (rr_rdata rr); intros Hd; try done; apply (bool_decide_eq_true_1 _); reflexivity. Qed.

Lemma undot_type d : rdata_type (undot_rdata d) = rdata_type d.
Proof using. by destruct d. Qed.

Lemma cmp_type d1 d2 : rdata_cmp d1 d2 = true → rdata_type d1 = rdata_type d2.
Proof using. by destruct d1, d2. Qed.

Lemma alike_message lo hi mb1 mb2 i : alike lo hi mb1 mb2 → (i < lo ∨ hi ≤ i)%nat → message mb1 !! i = message mb2 !! i.
Proof using.
  intros (_ & _ & He & Hb) Hi. unfold message. rewrite He. destruct (decide (i < Z.to_nat (mb_end mb2))%nat) as [Hlt|Hge].
  - rewrite !lookup_take_lt by done. unfold data. destruct Hb as [b1 b2 [_ Hb]|]; [|done]. by apply Hb.
  - by rewrite !lookup_take_ge by lia.
Qed.

Lemma patched_message pre bs mb1 mb2 mb3 : alike (length pre) (length pre + length bs) mb1 mb2 → (pre ++ bs) `prefix_of` message mb2 →
  (∀ i, message mb3 !! i = if decide (length pre ≤ i < length pre + length bs)%nat then bs !! (i - length pre)%nat else message mb1 !! i) →
  message mb3 = message mb2.
Proof using.
  intros Ha [x Hx] H3. apply list_eq. intros i. rewrite H3. case_decide as Hi; [|by apply (alike_message _ _ _ _ _ Ha); lia].
  rewrite Hx, <- app_assoc, lookup_app_r by lia. by rewrite lookup_app_l by lia.
Qed.

Lemma rr_run rr mb ht ttl_offs : rr_ok rr → good_state start mb ht → mb_end mb + Z.of_nat RR_ROOM ≤ mb_size mb →
  ∃ mb' ht' rr', dns_rr_encode A dn_mem (Z.of_nat start) mb rr ttl_offs ht = Ret (0, mb', ht') ∧
    good_state start mb' ht' ∧ message mb `prefix_of` message mb' ∧ mb_end mb' ≤ mb_end mb + Z.of_nat RR_ROOM ∧ decoded_rr rr ttl_offs rr' ∧
    reads (rr_reader A' (Z.of_nat start)) mb mb' rr'.
Proof using All.
  intros Hrr Hg Hroom. unfold RR_ROOM in *. pose proof Hrr as (Hn & Hc & Hd).
  set (ttl := u32 (if bool_decide (rr_ttl rr > ttl_offs) then rr_ttl rr - ttl_offs else 0)).
  destruct (head_state rr ttl mb ht Hrr Hg ltac:(lia)) as (mb1 & ht1 & Hi1 & Hp1 & Hhead). set (lo := length (message mb1)) in *.
  destruct (rdata_codes (rr_rdata rr) Hd) as (m & n & Hmn & Hdata).
  (* the data behind the length of the caller, then behind the right one *)
  destruct (Hhead (rr_rdlen rr)) as (mbA & _ & WA & MA & EA & (HgA & HpA & HsA & HlA) & _).
  destruct (Hdata (Z.of_nat m) ltac:(lia) mbA ht1 HgA ltac:(lia)) as (mbA' & htA & _ & EA' & (HgA' & HpA' & HsA' & HlA') & _).
  set (L := mb_end mbA' - mb_end mbA). assert (HL : Z.of_nat m ≤ L ≤ Z.of_nat n) by lia.
  destruct (Hhead L) as (mbB & h & WB & MB & EB & (HgB & HpB & HsB & HlB) & (x & -> & Hx) & RB).
  destruct (Hdata L HL mbB ht1 HgB ltac:(lia)) as (mbB' & htB & d & EB' & (HgB' & HpB' & HsB' & HlB') & Pd & RB').
  assert (HuL : u16 L = L) by (apply u16_id; lia).
  assert (HAB : alike lo (lo + 2) mbA mbB).
  { pose proof (write_differ mb1 (be 2 (u16 (rr_rdlen rr))) (be 2 (u16 L)) eq_refl Hi1) as H. rewrite <- !htons_be in H.
    unfold mbuf_write_u16 in WA, WB. rewrite WA, WB, Hp1, Nat2Z.id in H. by destruct H. }
  assert (HAB' : alike lo (lo + 2) mbA' mbB' ∧ htA = htB).
  { pose proof (rdata_blind (rr_rdata rr) _ _ mbA mbB ht1 HAB) as H. rewrite EA', EB' in H. by destruct H as [[_ H] ?]. }
  destruct HAB' as [HAB' ->].
  pose proof HgA as (HeA & _). pose proof HgA' as (HeA' & _). pose proof HgB' as (HeB' & Hst' & Ht').
  destruct (end_of_message mbA HeA) as [HposA HendA]. rewrite MA, length_app in HposA, HendA. fold lo in HposA, HendA. rewrite be_length in HposA, HendA.
  destruct (end_of_message mbA' HeA') as [HposA' HendA']. pose proof (message_small mbA' HeA') as Hsm.
  destruct (overwrite mbA' lo (be 2 (u16 L)) (proj1 HeA') ltac:(done)) as (mb2 & E2 & Hi2 & Hp2 & Hend2 & Hs2 & Hl2 & M2);
    [rewrite be_length; lia|apply be_ok|].
  assert (M : message mb2 = message mbB').
  { apply (patched_message (message mb1) (be 2 (u16 L)) mbA' mbB'); [exact HAB'|by rewrite <- MB|exact M2]. }
  exists (mbuf_set_pos mb2 (mb_end mb2)), htB, (DnsRr x (rr_dnsclass rr) (u32 ttl) (u16 L) d).
  assert (Hpre : message mb `prefix_of` message mb2) by (rewrite M; by etrans).
  split.
  { unfold dns_rr_encode. fold ttl. rewrite EA. cbn [mbind outcome_bind]. rewrite EA'. cbn [mbind outcome_bind].
    assert (Epos : mb_pos mbA' - mb_pos mbA = L) by lia. rewrite Epos, HuL.
    replace (mb_pos mbA - 2) with (Z.of_nat lo) by lia. rewrite u64_id by lia. unfold mbuf_write_u16. rewrite htons_be, E2. cbn [mbind outcome_bind].
    rewrite Hp2, be_length. rewrite u64_id by lia. rewrite (bool_decide_eq_true_2 (rr_type rr ∈ known_types)) by by apply known_type.
    by replace (mb_end mb2) with (Z.of_nat (lo + 2) + L) by lia. }
  split.
  { split; [|split; [change (message (mbuf_set_pos mb2 _)) with (message mb2); by rewrite M|
      change (message (mbuf_set_pos mb2 _)) with (message mb2); by rewrite M]].
    split; [|done]. destruct Hi2 as (? & ? & ? & ? & ?). split_and!; cbn; try done; lia. }
  split; [done|]. split; [cbn; lia|]. split.
  { split; [|cbn; by rewrite u32_id by apply u32_range]. unfold dns_rr_cmp, rr_type. cbn [orb negb undot_rr rr_name rr_dnsclass rr_rdata].
    rewrite Pd, (cmp_type d _ Pd), undot_type. rewrite !bool_decide_eq_true_2; [done|exact Hx|done|done]. }
  intros big Hbig Hpb. change (message (mbuf_set_pos mb2 _)) with (message mb2) in Hpb. rewrite M in Hpb.
  pose proof (prefix_end mbB' big (proj1 HeB') Hbig Hpb) as Hle. pose proof HAB' as (_ & _ & HendB & _). pose proof HgB as (HeB & _).
  pose proof HeB as [(_ & _ & ? & _) _]. pose proof HAB as (_ & _ & HendAB & _).
  unfold rr_reader. erewrite reader_step by (apply RB; [done|by etrans]). cbv iota beta.
  erewrite reader_step.
  2: { unfold left_or_fmerr. rewrite big_left, bool_decide_eq_false_2 by (done || lia). reflexivity. }
  erewrite reader_step by (rewrite HuL; by apply RB'). unfold rret. cbn. rewrite Hend2, HendB. done.
Qed.
End records.

(** ** The flags of the header *)

Definition hdr_ok (h : dnshdr) : Prop :=
  is_u16 (dh_id h) ∧ 0 ≤ dh_opcode h < 16 ∧ 0 ≤ dh_z h < 8 ∧ 0 ≤ dh_rcode h < 16 ∧
  is_u16 (dh_nq h) ∧ is_u16 (dh_nans h) ∧ is_u16 (dh_nauth h) ∧ is_u16 (dh_nadd h).

#[export] Instance hdr_ok_dec h : Decision (hdr_ok h).
Proof. unfold hdr_ok, is_u16. apply _. Defined.

Lemma flag_bits_arith f k n : 0 ≤ k → 0 ≤ n → flag_bits f k (2 ^ n - 1) = (f / 2 ^ k) `mod` 2 ^ n.
Proof. intros Hk Hn. unfold flag_bits. by rewrite Z.land_comm, land_ones_mod, Z.shiftr_div_pow2. Qed.

Lemma b2z_range b : 0 ≤ b2z b ≤ 1.
Proof. by destruct b. Qed.

Lemma hdr_flags_sum h : 0 ≤ dh_opcode h < 16 → 0 ≤ dh_z h < 8 → 0 ≤ dh_rcode h < 16 →
  hdr_flags h = b2z (dh_qr h) * 32768 + dh_opcode h * 2048 + b2z (dh_aa h) * 1024 + b2z (dh_tc h) * 512 +
    b2z (dh_rd h) * 256 + b2z (dh_ra h) * 128 + dh_z h * 16 + dh_rcode h.
Proof.
  intros Ho Hz Hr. unfold hdr_flags.
  pose proof (b2z_range (dh_qr h)). pose proof (b2z_range (dh_aa h)). pose proof (b2z_range (dh_tc h)).
  pose proof (b2z_range (dh_rd h)). pose proof (b2z_range (dh_ra h)).
  rewrite !Z.shiftl_mul_pow2 by lia.
  change (2 ^ 15) with 32768; change (2 ^ 11) with 2048; change (2 ^ 10) with 1024; change (2 ^ 9) with 512;
  change (2 ^ 8) with 256; change (2 ^ 7) with 128; change (2 ^ 4) with 16.
  set (q := b2z (dh_qr h)) in *. set (a := b2z (dh_aa h)) in *. set (t := b2z (dh_tc h)) in *.
  set (r := b2z (dh_rd h)) in *. set (ra := b2z (dh_ra h)) in *.
  rewrite (lor_disjoint_add 15 (q * 32768)) by (change (2 ^ 15) with 32768; Z.div_mod_to_equations; lia).
  rewrite (lor_disjoint_add 11 _ (a * 1024)) by (change (2 ^ 11) with 2048; Z.div_mod_to_equations; lia).
  rewrite (lor_disjoint_add 10 _ (t * 512)) by (change (2 ^ 10) with 1024; Z.div_mod_to_equations; lia).
  rewrite (lor_disjoint_add 9 _ (r * 256)) by (change (2 ^ 9) with 512; Z.div_mod_to_equations; lia).
  rewrite (lor_disjoint_add 8 _ (ra * 128)) by (change (2 ^ 8) with 256; Z.div_mod_to_equations; lia).
  rewrite (lor_disjoint_add 7 _ (dh_z h * 16)) by (change (2 ^ 7) with 128; Z.div_mod_to_equations; lia).
  rewrite (lor_disjoint_add 4 _ (dh_rcode h)) by (change (2 ^ 4) with 16; Z.div_mod_to_equations; lia).
  apply u16_id. lia.
Qed.

Lemma bit_flag f k b : flag_bits f k 1 = b2z b → negb (bool_decide (flag_bits f k 1 = 0)) = b.
Proof. intros ->. by destruct b. Qed.

Lemma hdr_of_flags h : hdr_ok h → hdr_of (dh_id h) (hdr_flags h) (dh_nq h) (dh_nans h) (dh_nauth h) (dh_nadd h) = h.
Proof.
  intros (_ & Ho & Hz & Hr & _). pose proof (hdr_flags_sum h Ho Hz Hr) as Hs.
  pose proof (b2z_range (dh_qr h)). pose proof (b2z_range (dh_aa h)). pose proof (b2z_range (dh_tc h)).
  pose proof (b2z_range (dh_rd h)). pose proof (b2z_range (dh_ra h)).
  pose proof (λ k n, flag_bits_arith (hdr_flags h) k n) as Hf.
  pose proof (Hf 15 1) as F15. pose proof (Hf 11 4) as F11. pose proof (Hf 10 1) as F10. pose proof (Hf 9 1) as F9.
  pose proof (Hf 8 1) as F8. pose proof (Hf 7 1) as F7. pose proof (Hf 4 3) as F4. pose proof (Hf 0 4) as F0. clear Hf.
  repeat match goal with H : 0 ≤ _ → 0 ≤ _ → _ |- _ => specialize (H ltac:(lia) ltac:(lia)) end.
  change (2 ^ 15) with 32768 in *; change (2 ^ 11) with 2048 in *; change (2 ^ 10) with 1024 in *; change (2 ^ 9) with 512 in *;
  change (2 ^ 8) with 256 in *; change (2 ^ 7) with 128 in *; change (2 ^ 4) with 16 in *; change (2 ^ 3) with 8 in *;
  change (2 ^ 1) with 2 in *; change (2 ^ 0) with 1 in *.
  change (2 - 1) with 1 in *; change (16 - 1) with 15 in *; change (8 - 1) with 7 in *.
  unfold hdr_of. rewrite (bit_flag _ 15 (dh_qr h)), (bit_flag _ 10 (dh_aa h)), (bit_flag _ 9 (dh_tc h)), (bit_flag _ 8 (dh_rd h)), (bit_flag _ 7 (dh_ra h))
    by (rewrite ?F15, ?F10, ?F9, ?F8, ?F7, Hs; Z.div_mod_to_equations; lia).
  rewrite F11, F4, F0, Hs. destruct h. cbn [dh_id dh_qr dh_opcode dh_aa dh_tc dh_rd dh_ra dh_z dh_rcode dh_nq dh_nans dh_nauth dh_nadd] in *. f_equal; Z.div_mod_to_equations; lia.
Qed.

Lemma hdr_flags_of f id nq nans nauth nadd : is_u16 f → hdr_flags (hdr_of id f nq nans nauth nadd) = f.
Proof.
  intros Hf. pose proof (λ k n, flag_bits_arith f k n) as H.
  pose proof (H 15 1) as F15. pose proof (H 11 4) as F11. pose proof (H 10 1) as F10. pose proof (H 9 1) as F9.
  pose proof (H 8 1) as F8. pose proof (H 7 1) as F7. pose proof (H 4 3) as F4. pose proof (H 0 4) as F0. clear H.
  repeat match goal with H : 0 ≤ _ → 0 ≤ _ → _ |- _ => specialize (H ltac:(lia) ltac:(lia)) end.
  change (2 ^ 15) with 32768 in *; change (2 ^ 11) with 2048 in *; change (2 ^ 10) with 1024 in *; change (2 ^ 9) with 512 in *;
  change (2 ^ 8) with 256 in *; change (2 ^ 7) with 128 in *; change (2 ^ 4) with 16 in *; change (2 ^ 3) with 8 in *;
  change (2 ^ 1) with 2 in *; change (2 ^ 0) with 1 in *; change (2 - 1) with 1 in *; change (16 - 1) with 15 in *; change (8 - 1) with 7 in *.
  assert (Hb : ∀ k m, flag_bits f k 1 = m `mod` 2 → b2z (negb (bool_decide (flag_bits f k 1 = 0))) = flag_bits f k 1).
  { intros k m E. case_bool_decide; cbn [negb b2z]; [done|]. pose proof (Z.mod_pos_bound m 2). lia. }
  rewrite hdr_flags_sum; cbn [dh_opcode dh_z dh_rcode dh_qr dh_aa dh_tc dh_rd dh_ra hdr_of].
  2: { rewrite F11. apply Z.mod_pos_bound. lia. }
  2: { rewrite F4. apply Z.mod_pos_bound. lia. }
  2: { rewrite F0. apply Z.mod_pos_bound. lia. }
  rewrite (Hb 15 _ F15), (Hb 10 _ F10), (Hb 9 _ F9), (Hb 8 _ F8), (Hb 7 _ F7), F15, F11, F10, F9, F8, F7, F4, F0.
  clear -Hf. unfold is_u16 in Hf. Z.div_mod_to_equations. lia.
Qed.

(** ** Decoding any bytes

    [safe r P]: from every position of the message, [r] reads a value with
    property [P] and moves forward inside the message, or reports an error, or
    a name of the message leads past the buffer of the name decoder. *)
Definition decode_errors : list Z := [ENOMEM; EINVAL; EBADMSG; EOVERFLOW].

Section safety.
Context (A : allocator).
Variables (mb : mbuf) (start : nat).
Hypotheses (Hinv : mbuf_inv mb) (Hstart : Z.of_nat start < 2 ^ 62).

Definition overruns_name : Prop := ∃ p, 0 ≤ p ≤ mb_end mb ∧ overrun_at (mbuf_set_pos mb p) start.

Definition safe {T} (r : reader T) (P : T → Prop) : Prop := ∀ p, 0 ≤ p ≤ mb_end mb →
  match r (mbuf_set_pos mb p) with
  | Ret (inr x, mb') => P x ∧ ∃ p', mb' = mbuf_set_pos mb p' ∧ p ≤ p' ≤ mb_end mb
  | Ret (inl e, _) => e ∈ decode_errors
  | Fault f => f = OutOfBounds ∧ overruns_name
  end.

Lemma safe_bind {T U} (r : reader T) (k : T → reader U) P Q : safe r P → (∀ x, P x → safe (k x) Q) → safe (x ← r; k x) Q.
Proof using.
  intros Hr Hk p Hp. specialize (Hr p Hp). unfold mbind, reader_bind. destruct (r (mbuf_set_pos mb p)) as [[[e|x] mb']|f]; cbn; [done| |done].
  destruct Hr as (Px & p' & -> & Hp'). specialize (Hk x Px p' ltac:(lia)).
  destruct (k x (mbuf_set_pos mb p')) as [[[e|y] mb'']|f]; [done| |done]. destruct Hk as (Qy & p'' & -> & Hp''). split; [done|]. exists p''. split; [done|lia].
Qed.

Lemma safe_ret {T} (x : T) (P : T → Prop) : P x → safe (rret x) P.
Proof using. intros Px p Hp. split; [done|]. exists p. split; [done|lia]. Qed.

Lemma safe_weaken {T} (r : reader T) (P Q : T → Prop) : safe r P → (∀ x, P x → Q x) → safe r Q.
Proof using. intros Hr HPQ p Hp. specialize (Hr p Hp). destruct (r _) as [[[e|x] mb']|f]; [done| |done]. destruct Hr. auto. Qed.

Lemma safe_left n : safe (left_or_fmerr n) (λ _, True).
Proof using. intros p Hp. unfold left_or_fmerr. case_bool_decide; [by right; left|]. split; [done|]. exists p. split; [done|lia]. Qed.

(** The same where [n] bytes are left. *)
Definition safe_with (n : Z) {T} (r : reader T) (P : T → Prop) : Prop := ∀ p, 0 ≤ p ≤ mb_end mb → p + n ≤ mb_end mb →
  match r (mbuf_set_pos mb p) with
  | Ret (inr x, mb') => P x ∧ ∃ p', mb' = mbuf_set_pos mb p' ∧ p ≤ p' ≤ mb_end mb
  | Ret (inl e, _) => e ∈ decode_errors
  | Fault f => f = OutOfBounds ∧ overruns_name
  end.

Lemma safe_left_then {T} n (r : reader T) P : safe_with n r P → safe (left_or_fmerr n;; r) P.
Proof using All.
  intros Hr p Hp. unfold mbind, reader_bind, left_or_fmerr. rewrite big_left by (done || lia). case_bool_decide; [by right; left|]. cbn.
  apply Hr; lia.
Qed.

Lemma safe_with_map {T U} n (r : reader T) (f : T → U) P (Q : U → Prop) : safe_with n r P → (∀ x, P x → Q (f x)) → safe_with n (x ← r; rret (f x)) Q.
Proof using.
  intros Hr Hf p Hp Hn. specialize (Hr p Hp Hn). unfold mbind, reader_bind, rret. destruct (r (mbuf_set_pos mb p)) as [[[e|x] mb']|g]; cbn; [done| |done].
  destruct Hr as [Px Hp']. split; [by apply Hf|done].
Qed.

Lemma safe_map {T U} (r : reader T) (f : T → U) P (Q : U → Prop) : safe r P → (∀ x, P x → Q (f x)) → safe (x ← r; rret (f x)) Q.
Proof using. intros Hr Hf. eapply safe_bind; [exact Hr|]. intros x Px. by apply safe_ret, Hf. Qed.

Lemma safe_skip n T (x : T) (P : T → Prop) : 0 ≤ n < 65536 → P x → safe_with n (skip_over n;; rret x) P.
Proof using All.
  intros Hn Px p Hp Hl. unfold mbind, reader_bind, skip_over. cbn. destruct Hinv as (_ & Hm & He & _). unfold max_alloc in Hm.
  rewrite u64_id by lia. split; [done|]. exists (p + n). split; [done|lia].
Qed.

Lemma safe_fmerr b : safe (fmerr_if b) (λ _, b = false).
Proof using. intros p Hp. unfold fmerr_if. destruct b; [by right; left|]. split; [done|]. exists p. split; [done|lia]. Qed.

Lemma set_pos_ok p : 0 ≤ p ≤ mb_end mb → mbuf_wf (mbuf_set_pos mb p).
Proof using All. intros Hp. destruct Hinv as (? & ? & ? & ? & ?). split; [split_and!; cbn; try done; lia|]. cbn. lia. Qed.

Lemma data_at_pos p i n : bytes_at (mbuf_set_pos mb p) i n = bytes_at mb i n.
Proof using. done. Qed.

Lemma safe_int (n : nat) : safe (read_int (mbuf_read_int n)) (λ v, ∃ bs, bytes_ok bs ∧ (bs = [] ∨ length bs = n) ∧ v = le_value bs).
Proof using All.
  intros p Hp. unfold read_int, mbuf_read_int. pose proof (set_pos_ok p Hp) as Hwf.
  destruct (decide (Z.of_nat n ≤ mb_end mb - p)) as [Hle|Hle].
  - rewrite (mbuf_read_mem_run _ Hwf) by (cbn; lia). cbn [mbind outcome_bind fst snd mb_pos mbuf_set_pos].
    rewrite (bool_decide_eq_true_2 (0 = 0)) by done. cbn [fst snd]. split; [|exists (p + Z.of_nat n); split; [done|lia]].
    exists (bytes_at mb p (Z.of_nat n)). pose proof Hinv as (Hs & _ & He & _ & Hok). split; [by apply bytes_at_ok|]. split; [right|done].
    rewrite bytes_at_length; unfold data; lia.
  - rewrite (mbuf_read_mem_short _ Hwf) by (cbn; lia). cbn [mbind outcome_bind fst snd].
    rewrite (bool_decide_eq_false_2 (EOVERFLOW = 0)) by done. cbn [fst snd]. split; [|exists p; split; [done|lia]].
    exists []. split; [constructor|]. by split; [left|].
Qed.

Lemma safe_r16 : safe r16 is_u16.
Proof using All.
  unfold r16. eapply safe_bind; [apply (safe_int 2)|]. intros v (bs & Hok & Hlen & ->). apply safe_ret. destruct Hlen as [->|Hlen]; [done|].
  rewrite ntohs_be by done. unfold is_u16, be_value. pose proof (le_value_range (reverse bs) ltac:(by apply Forall_reverse)) as Hr.
  rewrite length_reverse, Hlen in Hr. exact Hr.
Qed.

Lemma safe_r32 : safe r32 is_u32.
Proof using All.
  unfold r32. eapply safe_bind; [apply (safe_int 4)|]. intros v (bs & Hok & Hlen & ->). apply safe_ret. destruct Hlen as [->|Hlen]; [done|].
  rewrite ntohl_be by done. unfold is_u32, be_value. pose proof (le_value_range (reverse bs) ltac:(by apply Forall_reverse)) as Hr.
  rewrite length_reverse, Hlen in Hr. exact Hr.
Qed.

Lemma safe_rmem n : 0 ≤ n → safe (rmem n) (λ bs, bytes_ok bs ∧ Z.of_nat (length bs) = n).
Proof using All.
  intros Hn p Hp. unfold rmem. pose proof (set_pos_ok p Hp) as Hwf. pose proof Hinv as (Hs & _ & He & _ & Hok).
  destruct (decide (n ≤ mb_end mb - p)) as [Hle|Hle].
  - rewrite (mbuf_read_mem_run _ Hwf) by (cbn; lia). cbn [mbind outcome_bind mb_pos mbuf_set_pos].
    rewrite (bool_decide_eq_true_2 (0 = 0)) by done. split; [|exists (p + n); split; [done|lia]].
    split; [by apply bytes_at_ok|]. rewrite data_at_pos, bytes_at_length; unfold data; lia.
  - rewrite (mbuf_read_mem_short _ Hwf) by (cbn; lia). cbn [mbind outcome_bind]. rewrite (bool_decide_eq_false_2 (EOVERFLOW = 0)) by done. by do 3 right; left.
Qed.

(** A string that was read. *)
Definition read_string (c : cstr) : Prop := ∃ s, c = Some s ∧ (length s ≤ 255)%nat.

Lemma c_string_length l : (length (c_string l) ≤ length l)%nat.
Proof using. clear. induction l as [|x l IH]; cbn [c_string]; [done|]. case_bool_decide; simpl; lia. Qed.

Lemma c_string_snoc_length (l : list Z) : (length (c_string (l ++ [0%Z])) ≤ length l)%nat.
Proof using.
  clear. induction l as [|y l IH]; cbn [Datatypes.app c_string]; [by rewrite bool_decide_eq_true_2|]. case_bool_decide; simpl; lia.
Qed.

Lemma walks_forward d p j ls o q : walks true d start p j ls o q → (p ≤ length d)%nat → d !! q = Some 0 →
  match o with Some x => p ≤ x ≤ length d | None => p ≤ q end%nat.
Proof using.
  clear. induction 1 as [p|p l j ls o q Hne Hlen Hd Hl Hw IH|p h lo j ls o q Hh Hm Hlo Hlo' Hw IH|p h j ls o q _ Hh Hm Hlo Hw IH]; intros Hp H0.
  - done.
  - assert (S p + length l ≤ length d)%nat.
    { pose proof (f_equal length Hl) as Hll. rewrite length_take, length_drop in Hll. destruct l; [done|]. cbn [length] in *. lia. }
    specialize (IH ltac:(lia) H0). destruct o; lia.
  - apply lookup_lt_Some in Hlo. lia.
  - lia.
Qed.

Lemma decoded_safe p r : 0 ≤ p ≤ mb_end mb → decodes (mbuf_set_pos mb p) start r →
  match (r ≫= λ '(e, s, mb'), Ret (if bool_decide (e = 0) then inr s else inl e, mb')) with
  | Ret (inr x, mb') => read_string x ∧ ∃ p', mb' = mbuf_set_pos mb p' ∧ p ≤ p' ≤ mb_end mb
  | Ret (inl e, _) => e ∈ decode_errors
  | Fault f => f = OutOfBounds ∧ overruns_name
  end.
Proof using All.
  intros Hp Hd. pose proof (set_pos_ok p Hp) as [Hi _]. unfold decodes, decoded in Hd. destruct r as [[[e name] mb']|f]; cbn [mbind outcome_bind].
  2: { destruct Hd as [-> Ho]. split; [done|]. by exists p. }
  destruct (decide (e = 0)) as [->|He].
  - destruct Hd as (j & ls & en & (o & q & Hw & H0 & ->) & _ & Hlen & -> & ->). rewrite (bool_decide_eq_true_2 (0 = 0)) by done. split.
    + eexists. split; [done|]. pose proof (c_string_length (add_labels [] ls)). lia.
    + eexists. split; [reflexivity|]. cbn [mb_pos mb_end mbuf_set_pos] in *.
      assert (Hdl : length (take (Z.to_nat (mb_end mb)) (data (mbuf_set_pos mb p))) = Z.to_nat (mb_end mb)).
      { apply (message_length (mbuf_set_pos mb p) Hi). }
      pose proof (walks_forward _ _ _ _ _ _ Hw ltac:(rewrite Hdl; lia) H0) as Hf. apply lookup_lt_Some in H0. rewrite Hdl in *.
      destruct o; unfold default; cbn; lia.
  - rewrite (bool_decide_eq_false_2 (e = 0)) by done. assert (Hor : e = EINVAL ∨ e = ENOMEM) by (destruct e; [done|apply Hd..]).
    destruct Hor as [-> | ->]; [by right; left|by left].
Qed.

Lemma safe_rname : safe (rname A (Z.of_nat start)) read_string.
Proof using All.
  intros p Hp. unfold rname, read_cstr. apply decoded_safe; [done|]. apply decode_sound; [|done]. by apply set_pos_ok.
Qed.

Lemma safe_rcstr : safe (rcstr A) read_string.
Proof using All.
  intros p Hp. unfold rcstr, read_cstr, dns_cstr_decode. rewrite big_left by (done || lia). case_bool_decide; [by right; left|].
  pose proof (safe_int 1 p Hp) as H1. unfold read_int in H1. change (mbuf_read_int 1) with mbuf_read_u8 in H1.
  destruct (mbuf_read_u8 (mbuf_set_pos mb p)) as [[len mb']|f]; cbn [mbind outcome_bind fst snd] in *; [|done].
  destruct H1 as ((bs & Hok & Hlen & ->) & p1 & -> & Hp1). rewrite big_left by (done || lia). case_bool_decide as Hl; [by do 2 right; left|].
  assert (Hb : 0 ≤ le_value bs < 256).
  { pose proof (le_value_range bs Hok) as Hr. destruct Hlen as [->|Hlen]; [done|]. rewrite Hlen in Hr. exact Hr. }
  unfold mbuf_strdup. destruct (alloc_ok A (u64 (le_value bs + 1))); [|by left].
  pose proof (safe_rmem (le_value bs) ltac:(lia) p1 ltac:(lia)) as H2. unfold rmem in H2.
  destruct (mbuf_read_mem (mbuf_set_pos mb p1) (le_value bs)) as [[[e cs] mb']|f]; cbn [mbind outcome_bind] in *; [|done].
  destruct (bool_decide (e = 0)) eqn:E.
  - apply bool_decide_eq_true in E as ->. cbn [mbind outcome_bind]. rewrite ?(bool_decide_eq_true_2 (0 = 0)) by done.
    destruct H2 as ((Hcs & Hcl) & p2 & -> & Hp2). split; [|exists p2; split; [done|lia]]. cbn [option_map]. eexists. split; [done|].
    pose proof (c_string_snoc_length cs). lia.
  - cbn [mbind outcome_bind]. rewrite E. exact H2.
Qed.

(** What the data of a decoded record satisfies. *)
Definition rdata_read (rdlen : Z) (d : rdata) : Prop :=
  match d with
  | RdA a => is_u32 a ∧ rdlen = 4
  | RdNs n | RdCname n | RdPtr n => read_string n
  | RdSoa m r s f t e l => read_string m ∧ read_string r ∧ is_u32 s ∧ is_u32 f ∧ is_u32 t ∧ is_u32 e ∧ is_u32 l
  | RdMx p n => is_u16 p ∧ read_string n
  | RdAaaa a => bytes_ok a ∧ length a = 16%nat ∧ rdlen = 16
  | RdSrv p w o n => is_u16 p ∧ is_u16 w ∧ is_u16 o ∧ read_string n
  | RdNaptr o p f s x n => is_u16 o ∧ is_u16 p ∧ read_string f ∧ read_string s ∧ read_string x ∧ read_string n
  | RdOther t => is_u16 t ∧ t ∉ known_types
  end.

Definition rr_read (rr : dnsrr) : Prop :=
  read_string (rr_name rr) ∧ is_u16 (rr_type rr) ∧ is_u16 (rr_dnsclass rr) ∧ is_u32 (rr_ttl rr) ∧ is_u16 (rr_rdlen rr) ∧
  rdata_read (rr_rdlen rr) (rr_rdata rr).

Lemma safe_rdata type rdlen : is_u16 type → is_u16 rdlen →
  safe_with rdlen (rdata_reader A (Z.of_nat start) type rdlen) (λ d, rdata_type d = type ∧ rdata_read rdlen d).
Proof using All.
  intros Ht Hl. assert (Hsub : ∀ T (r : reader T) P, safe r P → safe_with rdlen r P) by (intros T r P H p Hp _; by apply H).
  unfold rdata_reader. case_bool_decide as T1; [|case_bool_decide as T2; [|case_bool_decide as T3; [|case_bool_decide as T4;
    [|case_bool_decide as T5; [|case_bool_decide as T6; [|case_bool_decide as T7; [|case_bool_decide as T8; [|case_bool_decide as T9]]]]]]]];
    try (apply Hsub; subst type).
  - eapply safe_bind; [apply safe_fmerr|]. intros [] E. cbn beta in E. eapply safe_map; [apply safe_r32|]. intros v Hv. split; [done|]. split; [done|].
    by case_bool_decide.
  - eapply safe_map; [apply safe_rname|]. by intros v Hv.
  - eapply safe_map; [apply safe_rname|]. by intros v Hv.
  - eapply safe_bind; [apply safe_rname|]. intros m Hm. eapply safe_bind; [apply safe_rname|]. intros r Hr.
    eapply safe_bind; [apply safe_left|]. intros [] _. eapply safe_bind; [apply safe_r32|]. intros v1 H1. eapply safe_bind; [apply safe_r32|]. intros v2 H2.
    eapply safe_bind; [apply safe_r32|]. intros v3 H3. eapply safe_bind; [apply safe_r32|]. intros v4 H4. eapply safe_map; [apply safe_r32|].
    intros v5 H5. split; [done|]. by cbn [rdata_read].
  - eapply safe_map; [apply safe_rname|]. by intros v Hv.
  - eapply safe_bind; [apply safe_left|]. intros [] _. eapply safe_bind; [apply safe_r16|]. intros p Hp. eapply safe_map; [apply safe_rname|]. by intros v Hv.
  - eapply safe_bind; [apply safe_fmerr|]. intros [] E. cbn beta in E. eapply safe_map; [apply safe_rmem; lia|]. intros v [Hv Hlen]. split; [done|].
    split; [done|]. split; [lia|by case_bool_decide].
  - eapply safe_bind; [apply safe_left|]. intros [] _. eapply safe_bind; [apply safe_r16|]. intros p Hp. eapply safe_bind; [apply safe_r16|]. intros w Hw.
    eapply safe_bind; [apply safe_r16|]. intros o Ho. eapply safe_map; [apply safe_rname|]. by intros v Hv.
  - eapply safe_bind; [apply safe_left|]. intros [] _. eapply safe_bind; [apply safe_r16|]. intros o Ho. eapply safe_bind; [apply safe_r16|]. intros p Hp.
    eapply safe_bind; [apply safe_rcstr|]. intros f Hf. eapply safe_bind; [apply safe_rcstr|]. intros s Hs. eapply safe_bind; [apply safe_rcstr|]. intros x Hx.
    eapply safe_map; [apply safe_rname|]. by intros v Hv.
  - apply safe_skip; [exact Hl|]. split; [done|]. split; [done|]. intros Hk. repeat apply elem_of_cons in Hk as [?|Hk]; try done. by apply elem_of_nil in Hk.
Qed.

Lemma safe_rr : safe (rr_reader A (Z.of_nat start)) rr_read.
Proof using All.
  unfold rr_reader. eapply (safe_bind _ _ (λ h, let '(n, t, c, l, r) := h in read_string n ∧ is_u16 t ∧ is_u16 c ∧ is_u32 l ∧ is_u16 r)).
  - unfold head_reader. eapply safe_bind; [apply safe_rname|]. intros n Hn. eapply safe_bind; [apply safe_left|]. intros [] _.
    eapply safe_bind; [apply safe_r16|]. intros t Ht. eapply safe_bind; [apply safe_r16|]. intros c Hc.
    eapply safe_bind; [apply safe_r32|]. intros l Hl. eapply safe_map; [apply safe_r16|]. by intros r Hr.
  - intros [[[[n t] c] l] r] (Hn & Ht & Hc & Hl & Hr). apply safe_left_then. eapply safe_with_map; [by apply safe_rdata|].
    intros d [Hd1 Hd2]. unfold rr_read, rr_type. cbn. by rewrite Hd1.
Qed.
End safety.

(** ** Comparison *)

(** A record without the case of its strings, its time to live and the length it came with. *)
Definition fold_case (c : cstr) : cstr := option_map plain c.
Definition fold_rdata (d : rdata) : rdata :=
  match d with
  | RdA a => RdA a
  | RdNs n => RdNs (fold_case n)
  | RdCname n => RdCname (fold_case n)
  | RdSoa m r s f t e l => RdSoa (fold_case m) (fold_case r) s f t e l
  | RdPtr n => RdPtr (fold_case n)
  | RdMx p n => RdMx p (fold_case n)
  | RdAaaa a => RdAaaa a
  | RdSrv p w o n => RdSrv p w o (fold_case n)
  | RdNaptr o p f s x n => RdNaptr o p (fold_case f) (fold_case s) (fold_case x) (fold_case n)
  | RdOther t => RdOther t
  end.

Definition string_ok (c : cstr) : Prop := match c with Some s => Forall (λ x, 0 < x) s | None => True end.
Definition strings_of (d : rdata) : list cstr :=
  match d with
  | RdA _ | RdAaaa _ | RdOther _ => []
  | RdNs n | RdCname n | RdPtr n | RdMx _ n | RdSrv _ _ _ n => [n]
  | RdSoa m r _ _ _ _ _ => [m; r]
  | RdNaptr _ _ f s x n => [f; s; x; n]
  end.
Definition strings_ok (rr : dnsrr) : Prop := Forall string_ok (rr_name rr :: strings_of (rr_rdata rr)).

#[export] Instance string_ok_dec c : Decision (string_ok c).
Proof. destruct c; cbn; apply _. Defined.

Lemma casecmp_fold a b : string_ok a → string_ok b → str_casecmp a b = 0 ↔ fold_case a = fold_case b.
Proof.
  destruct a as [a|], b as [b|]; cbn; intros Ha Hb; try done. rewrite strcasecmp_plain by done. split; [by intros ->|congruence].
Qed.

Lemma casecmp_fold_dec a b : string_ok a → string_ok b → bool_decide (str_casecmp a b = 0) = bool_decide (fold_case a = fold_case b).
Proof. intros Ha Hb. apply bool_decide_ext. by apply casecmp_fold. Qed.

Lemma rdata_cmp_fold d1 d2 : Forall string_ok (strings_of d1) → Forall string_ok (strings_of d2) →
  rdata_cmp d1 d2 = true ↔ fold_rdata d1 = fold_rdata d2 ∧ ∀ t, d1 ≠ RdOther t.
Proof.
  intros H1 H2. assert (Hs : ∀ c l, Forall string_ok (c :: l) → string_ok c ∧ Forall string_ok l).
  { intros c l Hcl. split; [exact (Forall_inv Hcl)|exact (Forall_inv_tail Hcl)]. }
  destruct d1, d2; cbn [strings_of] in *;
    repeat match goal with Hf : Forall string_ok (_ :: _) |- _ => apply Hs in Hf as [? Hf] end;
    cbn [rdata_cmp fold_rdata]; rewrite ?casecmp_fold_dec by done; rewrite ?andb_true_iff, ?bool_decide_eq_true;
    (split; [intros Hc; split; [naive_solver congruence|done]|intros [E Ho]; try discriminate E]);
    try (injection E; intros; subst; by split_and?); try done.
  by destruct (Ho type).
Qed.

(** ** Properties *)

Lemma hdr_codes (A : allocator) `{!allocator_ok A} h : hdr_ok h → codes 0 12 12 (hdr_writer A h) hdr_reader (λ x, x = h).
Proof.
  intros Hh. pose proof Hh as (Hid & Ho & Hz & Hr & Hq & Ha & Hu & Hd). unfold hdr_reader. apply codes_left; [done|].
  unfold hdr_writer. apply (codes_also 0 2 2 10 10 _ _ _ _ _ _ (w16_codes A 0 (dh_id h))). intros ? ->.
  apply (codes_also 0 2 2 8 8 _ _ _ _ _ _ (w16_codes A 0 (hdr_flags h))). intros ? ->.
  apply (codes_also 0 2 2 6 6 _ _ _ _ _ _ (w16_codes A 0 (dh_nq h))). intros ? ->.
  apply (codes_also 0 2 2 4 4 _ _ _ _ _ _ (w16_codes A 0 (dh_nans h))). intros ? ->.
  apply (codes_also 0 2 2 2 2 _ _ _ _ _ _ (w16_codes A 0 (dh_nauth h))). intros ? ->.
  eapply codes_map; [apply w16_codes; done|]. intros ? ->. rewrite (u16_id (hdr_flags h)).
  - rewrite !u16_of by done. by apply hdr_of_flags.
  - unfold hdr_flags. apply u16_range.
Qed.

(** A DNS header whose fields fit their bits takes twelve bytes at the end of
    a message and is decoded from there as it was; the sixteen flag bits of any
    header that was received are those it would be sent with again; fewer than
    twelve bytes are refused. *)
Theorem dns_hdr_roundtrip (A : allocator) `{!allocator_ok A} h mb : hdr_ok h → at_end mb → mb_end mb + 12 ≤ mb_size mb →
  (∃ mb', dns_hdr_encode A mb h = Ret (0, mb') ∧ at_end mb' ∧ message mb `prefix_of` message mb' ∧ mb_end mb' = mb_end mb + 12 ∧
    dns_hdr_decode (mbuf_set_pos mb' (mb_end mb)) = Ret (inr h, mb')) ∧
  (∀ id flags nq nans nauth nadd, is_u16 flags → hdr_flags (hdr_of id flags nq nans nauth nadd) = flags) ∧
  (∀ m, mbuf_wf m → mb_end m - mb_pos m < 12 → dns_hdr_decode m = Ret (inl EINVAL, m)).
Proof.
  intros Hh Hmb Hroom. split; [|split; [intros; by apply hdr_flags_of|]].
  - assert (Hg : good_state 0 mb None) by (split; [done|]; split; [lia|]; split; [done|]; intros dn Hdn; by apply elem_of_nil in Hdn).
    destruct (hdr_codes A h Hh mb None Hg Hroom) as (mb' & ht' & x & E & ((Hmb' & _) & Hpre & Hs & Hl) & -> & R).
    exists mb'. unfold dns_hdr_encode. rewrite E. cbn. split; [done|]. split; [done|]. split; [done|]. split; [lia|].
    unfold dns_hdr_decode. rewrite R; [|apply Hmb'|done]. destruct Hmb' as [_ <-]. by destruct mb'.
  - intros m Hwf Hlt. unfold dns_hdr_decode, hdr_reader, mbind, reader_bind, left_or_fmerr. rewrite mbuf_get_left_wf by done.
    rewrite bool_decide_eq_true_2 by (unfold DNS_HEADER_SIZE; lia). done.
Qed.

(** C38: a resource record whose fields fit their widths and whose names are made
    of labels is encoded without an error where the buffer has room for it,
    whatever length of its data it claimed and whichever names are replaced by
    pointers: from there every longer message decodes it to a record that
    [dns_rr_cmp] takes for the same, names up to case and a dot at the end, with
    the time to live that is left; the table stays good for further records. *)
Theorem dns_rr_roundtrip (A A' : allocator) `{!allocator_ok A} dn_mem start rr ttl_offs mb ht :
  (∀ n, 0 ≤ n ≤ 256 → alloc_ok A' n = true) → rr_ok rr → at_end mb → (start ≤ length (message mb))%nat →
  table_good start (message mb) ht → mb_end mb + Z.of_nat RR_ROOM ≤ mb_size mb →
  ∃ mb' ht' rr', dns_rr_encode A dn_mem (Z.of_nat start) mb rr ttl_offs ht = Ret (0, mb', ht') ∧
    at_end mb' ∧ message mb `prefix_of` message mb' ∧ table_good start (message mb') ht' ∧ mb_end mb' ≤ mb_end mb + Z.of_nat RR_ROOM ∧
    dns_rr_cmp false (Some rr') (Some (undot_rr rr)) true = true ∧
    rr_ttl rr' = u32 (if bool_decide (rr_ttl rr > ttl_offs) then rr_ttl rr - ttl_offs else 0) ∧
    ∀ big, mbuf_inv big → message mb' `prefix_of` message big →
      dns_rr_decode A' true (Z.of_nat start) (mbuf_set_pos big (mb_end mb)) = Ret (inr rr', mbuf_set_pos big (mb_end mb')).
Proof.
  intros HA' Hrr Hmb Hstart Ht Hroom.
  destruct (rr_run A A' dn_mem start HA' rr mb ht ttl_offs Hrr) as (mb' & ht' & rr' & E & (Hmb' & _ & Ht') & Hpre & Hl & [Hc Httl] & R); [by split|done|].
  by exists mb', ht', rr'.
Qed.

(** C39: on any bytes, from any position of the message, [dns_rr_decode] returns
    an error, or a record whose fields have their widths, whose strings are all
    there and at most 255 characters long and whose addresses came with the
    right length, and moves forward inside the message; only a name that leads
    past the name decoder's buffer breaks this. *)
Theorem dns_rr_decode_safe A rr_mem mb start : mbuf_wf mb → Z.of_nat start < 2 ^ 62 →
  match dns_rr_decode A rr_mem (Z.of_nat start) mb with
  | Ret (inr rr, mb') => rr_read rr ∧ ∃ p, mb' = mbuf_set_pos mb p ∧ mb_pos mb ≤ p ≤ mb_end mb
  | Ret (inl e, _) => e ∈ decode_errors
  | Fault f => f = OutOfBounds ∧ ∃ p, 0 ≤ p ≤ mb_end mb ∧ overrun_at (mbuf_set_pos mb p) start
  end.
Proof.
  intros [Hinv Hpe] Hstart. unfold dns_rr_decode. destruct rr_mem; [|by left]. pose proof Hinv as (_ & _ & _ & Hp & _).
  pose proof (safe_rr A mb start Hinv Hstart (mb_pos mb) ltac:(lia)) as H.
  replace (mbuf_set_pos mb (mb_pos mb)) with mb in H by (by destruct mb). exact H.
Qed.

(** [dns_rr_cmp] with data holds exactly between records that are equal once
    the case of their strings, the time to live and the length are forgotten,
    and whose type it knows; without data, between records of one type, class
    and name. *)
Theorem dns_rr_cmp_spec rr1 rr2 : strings_ok rr1 → strings_ok rr2 →
  (dns_rr_cmp false (Some rr1) (Some rr2) true = true ↔
    fold_case (rr_name rr1) = fold_case (rr_name rr2) ∧ rr_dnsclass rr1 = rr_dnsclass rr2 ∧
    fold_rdata (rr_rdata rr1) = fold_rdata (rr_rdata rr2) ∧ ∀ t, rr_rdata rr1 ≠ RdOther t) ∧
  (dns_rr_cmp false (Some rr1) (Some rr2) false = true ↔
    fold_case (rr_name rr1) = fold_case (rr_name rr2) ∧ rr_dnsclass rr1 = rr_dnsclass rr2 ∧ rr_type rr1 = rr_type rr2).
Proof.
  intros H1 H2. pose proof (Forall_inv H1) as N1. pose proof (Forall_inv H2) as N2. apply Forall_inv_tail in H1, H2.
  pose proof (rdata_cmp_fold _ _ H1 H2) as Hf. assert (Ht : ∀ d, rdata_type (fold_rdata d) = rdata_type d) by (by intros []).
  assert (Hd : fold_rdata (rr_rdata rr1) = fold_rdata (rr_rdata rr2) → rr_type rr1 = rr_type rr2).
  { intros E. apply (f_equal rdata_type) in E. by rewrite !Ht in E. }
  unfold dns_rr_cmp. cbn [orb negb]. rewrite casecmp_fold_dec by done. rewrite !andb_true_iff, !bool_decide_eq_true. naive_solver.
Qed.

(** ** Concrete runs *)

Definition demo_buf : mbuf := Mb (Some (replicate 2048 0)) 2048 0 0.
Definition demo_hdr : dnshdr := DnsHdr 4660 true 2 false true true false 5 3 1 2 3 4.

Lemma dns_hdr_roundtrip_witness :
  ∃ mb', dns_hdr_encode small_alloc demo_buf demo_hdr = Ret (0, mb') ∧ dns_hdr_decode (mbuf_set_pos mb' 0) = Ret (inr demo_hdr, mb').
Proof.
  destruct (dns_hdr_roundtrip small_alloc demo_hdr demo_buf) as [(mb' & E & _ & _ & _ & D) _].
  - apply (bool_decide_eq_true_1 _). vm_compute. reflexivity.
  - split; [|reflexivity]. apply (bool_decide_eq_true_1 _). vm_compute. reflexivity.
  - cbn. lia.
  - exists mb'. split; [exact E|exact D].
Defined.

(** The mail exchange of [a.bc], with the wrong length of its data. *)
Definition demo_rr : dnsrr := DnsRr (Some (bytes_of "a.bc")) 1 3600 9999 (RdMx 10 (Some (bytes_of "mx.a.bc."))).

Lemma demo_name_ok dot ls : ls ≠ [] → Forall good_label ls → (length (join ls) ≤ 255)%nat → name_ok (Some (text dot ls)).
Proof. intros H1 H2 H3. exists dot, ls. split_and!; [done|exact H1|exact H2|exact H3]. Qed.

Lemma demo_rr_ok : rr_ok demo_rr.
Proof.
  split; [|split; [split; reflexivity || discriminate|split; [split; reflexivity || discriminate|]]].
  - apply (demo_name_ok false [bytes_of "a"; bytes_of "bc"]); [discriminate|apply (bool_decide_eq_true_1 _); vm_compute; reflexivity|cbn; lia].
  - apply (demo_name_ok true [bytes_of "mx"; bytes_of "a"; bytes_of "bc"]); [discriminate|apply (bool_decide_eq_true_1 _); vm_compute; reflexivity|cbn; lia].
Qed.

Lemma dns_rr_roundtrip_witness :
  ∃ mb' ht' rr', dns_rr_encode small_alloc (λ _, true) 0 demo_buf demo_rr 600 demo_table = Ret (0, mb', ht') ∧
    dns_rr_decode big_alloc true 0 (mbuf_set_pos mb' 0) = Ret (inr rr', mb') ∧
    dns_rr_cmp false (Some rr') (Some (undot_rr demo_rr)) true = true.
Proof.
  destruct (dns_rr_roundtrip small_alloc big_alloc (λ _, true) 0 demo_rr 600 demo_buf demo_table)
    as (mb' & ht' & rr' & E & Hmb' & _ & _ & _ & Hc & _ & D).
  - intros n Hn. apply big_alloc_plenty. lia.
  - exact demo_rr_ok.
  - split; [|reflexivity]. apply (bool_decide_eq_true_1 _). vm_compute. reflexivity.
  - simpl. lia.
  - exact demo_table_good.
  - apply Z.leb_le. vm_compute. reflexivity.
  - exists mb', ht', rr'. split; [exact E|]. split; [|exact Hc].
    destruct Hmb' as [Hi Hp]. pose proof (D mb' Hi (reflexivity _)) as D'. rewrite <- Hp in D'. etrans; [exact D'|]. by destruct mb'.
Defined.

(** An address record of the root, then a record that is cut short. *)
Definition demo_answer : mbuf := Mb (Some [0; 0; 1; 0; 1; 0; 0; 0; 60; 0; 4; 192; 0; 2; 1; 0; 0]) 17 0 17.

Lemma dns_rr_decode_safe_witness :
  mbuf_wf demo_answer ∧
  match dns_rr_decode big_alloc true 0 demo_answer with
  | Ret (inr rr, mb') => rr_read rr ∧ ∃ p, mb' = mbuf_set_pos demo_answer p ∧ mb_pos demo_answer ≤ p ≤ mb_end demo_answer
  | Ret (inl e, _) => e ∈ decode_errors
  | Fault f => f = OutOfBounds ∧ ∃ p, 0 ≤ p ≤ mb_end demo_answer ∧ overrun_at (mbuf_set_pos demo_answer p) 0
  end.
Proof.
  assert (Hwf : mbuf_wf demo_answer) by (apply (bool_decide_eq_true_1 _); vm_compute; reflexivity). split; [exact Hwf|].
  exact (dns_rr_decode_safe big_alloc true demo_answer 0 Hwf eq_refl).
Defined.

Example demo_answer_run :
  dns_rr_decode big_alloc true 0 demo_answer = Ret (inr (DnsRr (Some []) 1 60 4 (RdA 3221225985)), mbuf_set_pos demo_answer 15) ∧
  dns_rr_decode big_alloc true 0 (mbuf_set_pos demo_answer 15) = Ret (inl EINVAL, mbuf_set_pos demo_answer 16).
Proof. split; vm_compute; reflexivity. Qed.

Lemma dns_rr_cmp_spec_witness :
  let other := DnsRr (Some (bytes_of "A.bc")) 1 5 0 (RdMx 10 (Some (bytes_of "MX.a.bc."))) in
  strings_ok demo_rr ∧ strings_ok other ∧ dns_rr_cmp false (Some demo_rr) (Some other) true = true.
Proof.
  assert (H1 : strings_ok demo_rr) by (apply (bool_decide_eq_true_1 _); vm_compute; reflexivity).
  assert (H2 : strings_ok (DnsRr (Some (bytes_of "A.bc")) 1 5 0 (RdMx 10 (Some (bytes_of "MX.a.bc.")))))
    by (apply (bool_decide_eq_true_1 _); vm_compute; reflexivity).
  split; [exact H1|]. split; [exact H2|].
  apply (proj1 (dns_rr_cmp_spec _ _ H1 H2)). split; [reflexivity|]. split; [reflexivity|]. split; [reflexivity|]. discriminate.
Defined.
