(* ===== verification/DnsList.v ===== *)
(** * Lists of DNS records (src/re/src/dns/rrlist.c)

    Sorting a list of records by the preference their type gives them, and the
    search for a record, which follows aliases. *)
From stdpp Require Import base tactics list numbers strings option sorting.
From S2P Require Import Prelude LinkedList Mbuf Fmt Print Uri Hash Dname DnsRr.

Definition CNAME_RECURSE_MAX : Z := 16.

(** ** Sorting *)

Definition std_sort_handler (type : Z) (rr1 rr2 : dnsrr) : bool :=
  if bool_decide (type ≠ rr_type rr1) then bool_decide (type ≠ rr_type rr2)
  else if bool_decide (type ≠ rr_type rr2) then true
  else
    match rr_rdata rr1, rr_rdata rr2 with
    | RdMx p1 _, RdMx p2 _ => bool_decide (p1 ≤ p2)
    | RdSrv p1 w1 _ _, RdSrv p2 w2 _ _ =>
        if bool_decide (p1 = p2) then
          if bool_decide (w1 ≠ 0) then bool_decide (0 ≠ w2) else true
        else bool_decide (p1 < p2)
    | RdNaptr o1 p1 _ _ _ _, RdNaptr o2 p2 _ _ _ _ =>
        if bool_decide (o1 = o2) then bool_decide (p1 ≤ p2) else bool_decide (o1 < o2)
    | _, _ => true
    end.

(** [rec e] is the record that the list element at [e] belongs to. *)
Definition dns_rrlist_sort (rec : addr → dnsrr) (fuel : nat) (rrl : ptr) (type : Z) : prog heap unit :=
  list_sort (Some (λ e1 e2, std_sort_handler type (rec e1) (rec e2))) fuel fuel rrl.

(** ** Searching *)
Section apply.
(** The handler of the caller, and what it works on; there may be none. *)
Context {S : Type}.
Variables (rrlh : option (dnsrr → S → bool * S)) (rrl : list dnsrr) (type1 type2 dnsclass : Z) (recurse : bool).

(** The three tests that skip a record. *)
Definition passed_over (name : cstr) (rr : dnsrr) : bool :=
  match name with Some _ => negb (bool_decide (str_casecmp name (rr_name rr) = 0)) | None => false end ||
  (bool_decide (type1 ≠ DNS_QTYPE_ANY) && bool_decide (type2 ≠ DNS_QTYPE_ANY) && bool_decide (rr_type rr ≠ type1) &&
   bool_decide (rr_type rr ≠ type2) && (bool_decide (rr_type rr ≠ DNS_TYPE_CNAME) || negb recurse)) ||
  (bool_decide (dnsclass ≠ DNS_QCLASS_ANY) && bool_decide (rr_dnsclass rr ≠ dnsclass)).

(** Whether an alias is followed, and to which name. *)
Definition alias_of (rr : dnsrr) : option cstr :=
  if recurse && bool_decide (DNS_QTYPE_ANY ≠ type1) && bool_decide (DNS_QTYPE_ANY ≠ type2) &&
     bool_decide (DNS_TYPE_CNAME ≠ type1) && bool_decide (DNS_TYPE_CNAME ≠ type2)
  then match rr_rdata rr with RdCname c => Some c | _ => None end
  else None.

(** The loop over the records that are left; [self] is the recursive call. *)
Fixpoint apply_records (self : cstr → Z → S → outcome (option dnsrr * S)) (name : cstr) (l : list dnsrr) (depth : Z) (s : S) :
    outcome (option dnsrr * S) :=
  match l with
  | [] => Ret (None, s)
  | rr :: l' =>
      if passed_over name rr then apply_records self name l' depth s
      else
        match rrlh with
        | None => Ret (Some rr, s)
        | Some h =>
            let '(found, s) := h rr s in
            if found : bool then Ret (Some rr, s)
            else
              match alias_of rr with
              | None => apply_records self name l' depth s
              | Some c =>
                  let depth := u32 (depth + 1) in
                  r ← self c depth s;
                  match r with
                  | (Some rr, s) => Ret (Some rr, s)
                  | (None, s) => apply_records self name l' depth s
                  end
              end
        end
  end.

Fixpoint rrlist_apply (fuel : nat) (name : cstr) (depth : Z) (s : S) : outcome (option dnsrr * S) :=
  if bool_decide (depth > CNAME_RECURSE_MAX) then Ret (None, s)
  else
    match fuel with
    | O => Fault NoFuel
    | Datatypes.S fuel => apply_records (rrlist_apply fuel) name rrl depth s
    end.
End apply.

(** One level for each depth from 0 to 16. *)
Definition apply_fuel : nat := 17.

Definition dns_rrlist_apply {S} (rrl : list dnsrr) (name : cstr) (type dnsclass : Z) (recurse : bool)
    (rrlh : option (dnsrr → S → bool * S)) (s : S) : outcome (option dnsrr * S) :=
  rrlist_apply rrlh rrl type type dnsclass recurse apply_fuel name 0 s.

Definition dns_rrlist_apply2 {S} (rrl : list dnsrr) (name : cstr) (type1 type2 dnsclass : Z) (recurse : bool)
    (rrlh : option (dnsrr → S → bool * S)) (s : S) : outcome (option dnsrr * S) :=
  rrlist_apply rrlh rrl type1 type2 dnsclass recurse apply_fuel name 0 s.

Definition find_handler (type : Z) (rr : dnsrr) (s : unit) : bool * unit := (bool_decide (rr_type rr = type), s).

Definition dns_rrlist_find (rrl : list dnsrr) (name : cstr) (type dnsclass : Z) (recurse : bool) : outcome (option dnsrr) :=
  r ← rrlist_apply (Some (find_handler type)) rrl type type dnsclass recurse apply_fuel name 0 tt; Ret (fst r).

(** ** The order of the sort

    Records of the type come first, by their preferences. *)
Definition rank (type : Z) (rr : dnsrr) : Z * Z * Z :=
  if bool_decide (rr_type rr = type) then
    match rr_rdata rr with
    | RdMx p _ => (0, p, 0)
    | RdSrv p w _ _ => (0, p, if bool_decide (w = 0) then 0 else 1)
    | RdNaptr o p _ _ _ _ => (0, o, p)
    | _ => (0, 0, 0)
    end
  else (1, 0, 0).

Definition lex_le (a b : Z * Z * Z) : Prop :=
  let '(a1, a2, a3) := a in
  let '(b1, b2, b3) := b in
  a1 < b1 ∨ a1 = b1 ∧ (a2 < b2 ∨ a2 = b2 ∧ a3 ≤ b3).

(** A record whose data have a type of their own. *)
Definition typed (rr : dnsrr) : Prop := match rr_rdata rr with RdOther t => t ∉ known_types | _ => True end.

Lemma lex_total a b : lex_le a b ∨ lex_le b a.
Proof. destruct a as [[a1 a2] a3], b as [[b1 b2] b3]. cbn. lia. Qed.

Lemma lex_trans a b c : lex_le a b → lex_le b c → lex_le a c.
Proof. destruct a as [[a1 a2] a3], b as [[b1 b2] b3], c as [[c1 c2] c3]. cbn. lia. Qed.

Lemma other_type t : t ∉ known_types → t ≠ DNS_TYPE_MX ∧ t ≠ DNS_TYPE_SRV ∧ t ≠ DNS_TYPE_NAPTR.
Proof. intros Ht. split_and!; intros ->; apply Ht; apply (bool_decide_eq_true_1 _); reflexivity. Qed.

Lemma handler_rank type rr1 rr2 : typed rr1 → typed rr2 →
  std_sort_handler type rr1 rr2 = true ↔ lex_le (rank type rr1) (rank type rr2).
Proof.
  intros H1 H2. unfold std_sort_handler, rank.
  destruct (decide (rr_type rr1 = type)) as [E1|E1], (decide (rr_type rr2 = type)) as [E2|E2].
  - rewrite !(bool_decide_eq_false_2 (type ≠ _)) by congruence. rewrite !bool_decide_eq_true_2 by done.
    unfold rr_type, typed in *. destruct (rr_rdata rr1), (rr_rdata rr2); cbn [rdata_type] in *; try apply other_type in H1; try apply other_type in H2;
      try (exfalso; congruence || (unfold DNS_TYPE_A, DNS_TYPE_NS, DNS_TYPE_CNAME, DNS_TYPE_SOA, DNS_TYPE_PTR, DNS_TYPE_MX, DNS_TYPE_AAAA, DNS_TYPE_SRV, DNS_TYPE_NAPTR in *; lia));
      cbn [lex_le]; repeat case_bool_decide; split; intros; done || lia.
  - rewrite (bool_decide_eq_false_2 (type ≠ rr_type rr1)) by congruence. rewrite (bool_decide_eq_true_2 (type ≠ rr_type rr2)) by congruence.
    rewrite (bool_decide_eq_true_2 (rr_type rr1 = type)) by done. rewrite (bool_decide_eq_false_2 (rr_type rr2 = type)) by done.
    split; [intros _|done]. destruct (rr_rdata rr1); cbn; lia.
  - rewrite (bool_decide_eq_true_2 (type ≠ rr_type rr1)) by congruence. rewrite (bool_decide_eq_false_2 (type ≠ rr_type rr2)) by congruence.
    rewrite (bool_decide_eq_false_2 (rr_type rr1 = type)) by done. rewrite (bool_decide_eq_true_2 (rr_type rr2 = type)) by done.
    split; [done|]. destruct (rr_rdata rr2); cbn; lia.
  - rewrite !(bool_decide_eq_true_2 (type ≠ _)) by congruence. rewrite !bool_decide_eq_false_2 by done. split; [cbn; lia|done].
Qed.

(** ** The search returns *)
Section returns.
Context {S : Type}.
Variables (rrlh : option (dnsrr → S → bool * S)) (rrl : list dnsrr) (type1 type2 dnsclass : Z) (recurse : bool).
Hypothesis Hlen : Z.of_nat (length rrl) < 2 ^ 31.

Local Abbreviation records := (apply_records rrlh type1 type2 dnsclass recurse).
Local Abbreviation search := (rrlist_apply rrlh rrl type1 type2 dnsclass recurse).

Lemma records_return self name l : ∀ depth s, 0 ≤ depth → depth + Z.of_nat (length l) < 2 ^ 32 →
  (∀ c d s, depth < d < 2 ^ 32 → is_Ret (self c d s)) → is_Ret (records self name l depth s).
Proof using.
  clear. induction l as [|rr l IH]; intros depth s Hd Hl Hself; cbn [apply_records]; [by eexists|]. cbn [length] in Hl.
  destruct (passed_over _ _ _ _ _ _); [apply IH; [lia|lia|done]|]. destruct rrlh as [h|]; [|by eexists].
  destruct (h rr s) as [[] s1]; [by eexists|]. destruct (alias_of _ _ _ _) as [c|]; [|apply IH; [lia|lia|done]].
  cbv zeta. rewrite u32_id by lia. destruct (Hself c (depth + 1) s1) as [[[rr1|] s2] E]; [lia|..]; rewrite E; cbn; [by eexists|].
  apply IH; [lia|lia|]. intros c' d s3 Hd'. apply Hself. lia.
Qed.

Lemma search_returns fuel : ∀ name depth s, 0 ≤ depth < 2 ^ 32 → CNAME_RECURSE_MAX - depth < Z.of_nat fuel → is_Ret (search fuel name depth s).
Proof using Hlen.
  induction fuel as [|fuel IH]; intros name depth s Hd Hf; cbn [rrlist_apply].
  - rewrite bool_decide_eq_true_2 by lia. by eexists.
  - case_bool_decide as Hmax; [by eexists|]. unfold CNAME_RECURSE_MAX in *. apply records_return; [lia|lia|].
    intros c d s1 Hd1. apply IH; lia.
Qed.

(** A record that the search may stop at. *)
Definition eligible (name : cstr) (rr : dnsrr) : Prop := passed_over type1 type2 dnsclass recurse name rr = false.

(** [leads k c c']: [k] aliases of the list lead from [c] to [c']. *)
Inductive leads : nat → cstr → cstr → Prop :=
  | leads_here c : leads 0 c c
  | leads_on k c rr c1 c2 : rr ∈ rrl → eligible c rr → alias_of type1 type2 recurse rr = Some c1 → leads k c1 c2 → leads (Datatypes.S k) c c2.

(** What is found: a record the handler took, under a name the aliases lead to. *)
Definition found (fuel : nat) (name : cstr) (rr : dnsrr) : Prop :=
  ∃ k c, leads k name c ∧ (k < fuel)%nat ∧ rr ∈ rrl ∧ eligible c rr ∧
    match rrlh with None => True | Some h => ∃ s s', h rr s = (true, s') end.

Lemma records_sound fuel name self l : l ⊆ rrl →
  (∀ c d s rr s', self c d s = Ret (Some rr, s') → found fuel c rr) →
  ∀ depth s rr s', records self name l depth s = Ret (Some rr, s') → found (Datatypes.S fuel) name rr.
Proof using.
  clear Hlen. intros Hl Hself. induction l as [|rr0 l IH]; intros depth s rr s' E; cbn [apply_records] in E; [done|].
  assert (Hl' : l ⊆ rrl) by (intros x Hx; apply Hl; by right). specialize (IH Hl').
  assert (Hin : rr0 ∈ rrl) by (apply Hl; by left). destruct (passed_over _ _ _ _ _ _) eqn:Hp; [by eapply IH|].
  assert (Hfound : match rrlh with None => True | Some h => ∃ s s', h rr0 s = (true, s') end → found (Datatypes.S fuel) name rr0).
  { intros Hh. exists 0%nat, name. split; [constructor|]. split; [lia|]. by split_and!. }
  destruct rrlh as [h|]; [|injection E as <- _; by apply Hfound]. destruct (h rr0 s) as [[] s1] eqn:Eh.
  { injection E as <- _. apply Hfound. by eexists _, _. }
  destruct (alias_of _ _ _ _) as [c|] eqn:Ea; [|by eapply IH]. cbv zeta in E. apply bind_Ret_inv in E as ([[rr1|] s2] & E1 & E); [|by eapply IH].
  injection E as <- _. apply Hself in E1 as (k & c' & Hk & Hlt & H). exists (Datatypes.S k), c'. split; [by eapply leads_on|]. split; [lia|exact H].
Qed.

Lemma search_sound fuel : ∀ name depth s rr s', search fuel name depth s = Ret (Some rr, s') → found fuel name rr.
Proof using.
  clear Hlen. induction fuel as [|fuel IH]; intros name depth s rr s' E; cbn [rrlist_apply] in E; case_bool_decide; try done.
  eapply (records_sound fuel); [done|exact IH|exact E].
Qed.
End returns.

(** Without aliases the search is a search of the list. *)
Section direct.
Variables (rrl : list dnsrr) (name : cstr) (type dnsclass : Z).

Lemma no_alias recurse rr : recurse = false ∨ type = DNS_QTYPE_ANY ∨ type = DNS_TYPE_CNAME → alias_of type type recurse rr = None.
Proof using.
  unfold alias_of. intros [-> | [-> | ->]]; [done|..].
  - by rewrite (bool_decide_eq_false_2 (DNS_QTYPE_ANY ≠ _)), andb_false_r by congruence.
  - by rewrite (bool_decide_eq_false_2 (DNS_TYPE_CNAME ≠ _)), !andb_false_r by congruence.
Qed.

Lemma records_direct recurse self l depth s : (∀ rr, alias_of type type recurse rr = None) →
  apply_records (Some (find_handler type)) type type dnsclass recurse self name l depth s =
    Ret (List.find (λ rr, negb (passed_over type type dnsclass recurse name rr) && bool_decide (rr_type rr = type)) l, s).
Proof using.
  intros Ha. induction l as [|rr l IH]; cbn [apply_records List.find]; [done|]. destruct (passed_over _ _ _ _ _ _); cbn [negb andb]; [exact IH|].
  unfold find_handler at 1. case_bool_decide; [done|]. rewrite Ha. exact IH.
Qed.

(** Before any alias is followed, a record of the name itself is found, unless an alias comes first. *)
Lemma records_none self l : ∀ depth s s' recurse,
  apply_records (Some (find_handler type)) type type dnsclass recurse self name l depth s = Ret (None, s') →
  Forall (λ rr, passed_over type type dnsclass recurse name rr = true ∨ rr_type rr ≠ type) l.
Proof using.
  induction l as [|rr l IH]; intros depth s s' recurse E; [constructor|]. cbn [apply_records] in E.
  destruct (passed_over _ _ _ _ _ _) eqn:Hp; [constructor; [by left|by eapply IH]|]. unfold find_handler at 1 in E. case_bool_decide; [done|].
  constructor; [by right|]. destruct (alias_of _ _ _ _) as [c|]; [|by eapply IH]. cbv zeta in E.
  apply bind_Ret_inv in E as ([[rr1|] s2] & E1 & E); [done|by eapply IH].
Qed.
End direct.

(** ** Properties *)

(** [dns_rrlist_sort] returns and reorders the list so that the records of
    the type come first, by preference (MX), by order and preference (NAPTR), by
    priority and with weight 0 before the others (SRV); records that rank the
    same keep their order, and other lists are left alone. *)
Theorem dns_rrlist_sort_spec rec h l xs fuel type :
  (∀ e, typed (rec e)) → is_list h l xs → (length xs * length xs < fuel)%nat →
  ∃ h' ys, dns_rrlist_sort rec fuel (Some l) type h = Ret (tt, h') ∧ is_list h' l ys ∧ others_kept l h h' ∧ ys ≡ₚ xs ∧
    StronglySorted lex_le (rank type ∘ rec <$> ys.*1) ∧
    ∀ r, filter (λ x, rank type (rec x.1) = r) ys = filter (λ x, rank type (rec x.1) = r) xs.
Proof.
  intros Hrec Hl Hf. unfold dns_rrlist_sort, list_sort. set (sh := λ e1 e2, std_sort_handler type (rec e1) (rec e2)).
  assert (Hsh : ∀ x y, sh x y = true ↔ lex_le (rank type (rec x)) (rank type (rec y))) by (intros x y; by apply handler_rank).
  assert (Htot : ∀ x y, sh x y = false → sh y x = true).
  { intros x y E. apply Hsh. destruct (lex_total (rank type (rec x)) (rank type (rec y))) as [H|H]; [|done]. apply Hsh in H. congruence. }
  pose proof (inversions_bound (λ x y : item, sh x.1 y.1) xs).
  destruct (list_sort_loop_run sh l Htot xs fuel fuel h) as (h' & ys & E & Hl' & Hk & Hp & Hs & Hst); [done|nia|lia|].
  exists h', ys. split; [done|]. split; [done|]. split; [done|]. split; [done|]. split.
  - apply Sorted_StronglySorted; [intros x y z; apply lex_trans|]. clear -Hs Hsh. induction Hs as [|x xs Hs IH Hh]; cbn; constructor; [exact IH|].
    destruct Hh as [|y ys Hxy]; cbn; constructor. by apply Hsh.
  - intros r. apply Hst. intros a b Ha Hb. apply Hsh. rewrite Ha, Hb. destruct r as [[r1 r2] r3]. cbn. lia.
Qed.


(** [dns_rrlist_find] returns; without aliases to follow it is the first
    record of the name, type and class; with them, a record it returns has the
    type, and when it returns none no record of the name itself has it. *)
Theorem dns_rrlist_find_spec rrl name type dnsclass recurse :
  Z.of_nat (length rrl) < 2 ^ 31 →
  ∃ r, dns_rrlist_find rrl name type dnsclass recurse = Ret r ∧
    (recurse = false ∨ type = DNS_QTYPE_ANY ∨ type = DNS_TYPE_CNAME →
      r = List.find (λ rr, negb (passed_over type type dnsclass recurse name rr) && bool_decide (rr_type rr = type)) rrl) ∧
    match r with
    | Some rr => rr ∈ rrl ∧ rr_type rr = type ∧ (dnsclass = DNS_QCLASS_ANY ∨ rr_dnsclass rr = dnsclass)
    | None => Forall (λ rr, passed_over type type dnsclass recurse name rr = true ∨ rr_type rr ≠ type) rrl
    end.
Proof.
  intros Hlen. destruct (search_returns (Some (find_handler type)) rrl type type dnsclass recurse Hlen apply_fuel name 0 tt) as [[r []] E]; [lia|done|].
  exists r. unfold dns_rrlist_find. rewrite E. split; [done|]. split.
  - intros Hno. unfold apply_fuel in E. cbn [rrlist_apply] in E. rewrite bool_decide_eq_false_2 in E by done.
    rewrite records_direct in E by (intros; by apply no_alias). by injection E as <-.
  - destruct r as [rr|].
    + apply search_sound in E as (k & c & _ & _ & Hin & He & (s & s' & Hh)). split; [done|]. unfold find_handler in Hh.
      injection Hh as Ht _. apply bool_decide_eq_true in Ht. split; [done|]. unfold eligible, passed_over in He.
      apply orb_false_iff in He as [_ He]. apply andb_false_iff in He as [He|He]; apply bool_decide_eq_false in He.
      * left. destruct (decide (dnsclass = DNS_QCLASS_ANY)); [done|by exfalso].
      * right. destruct (decide (rr_dnsclass rr = dnsclass)); [done|by exfalso].
    + unfold apply_fuel in E. cbn [rrlist_apply] in E. rewrite bool_decide_eq_false_2 in E by done. by eapply records_none.
Qed.

(** ** Concrete runs *)

(** Two aliases that lead to each other and to an address. *)
Definition alias_demo : list dnsrr :=
  [DnsRr (Some (bytes_of "a")) 1 60 0 (RdCname (Some (bytes_of "b")));
   DnsRr (Some (bytes_of "b")) 1 60 0 (RdCname (Some (bytes_of "a")));
   DnsRr (Some (bytes_of "B")) 1 60 4 (RdA 1)].


Example alias_cycle_run :
  dns_rrlist_apply2 alias_demo (Some (bytes_of "a")) DNS_TYPE_AAAA DNS_TYPE_MX 1 true (Some (λ _ s, (false, s + 1))) 0 = Ret (None, 17).
Proof. vm_compute. reflexivity. Qed.

Lemma dns_rrlist_find_spec_witness :
  ∃ rr, dns_rrlist_find alias_demo (Some (bytes_of "a")) DNS_TYPE_A 1 true = Ret (Some rr) ∧ rr ∈ alias_demo ∧ rr_type rr = DNS_TYPE_A.
Proof.
  destruct (dns_rrlist_find_spec alias_demo (Some (bytes_of "a")) DNS_TYPE_A 1 true eq_refl) as ([rr|] & E & _ & H).
  - exists rr. split; [exact E|]. destruct H as (H1 & H2 & _). split; [exact H1|exact H2].
  - vm_compute in E. discriminate E.
Defined.

(** The two elements of the list are mail exchanges with preferences 20 and 10. *)
Definition demo_rec (e : addr) : dnsrr := DnsRr (Some []) 1 0 0 (RdMx (30 - 10 * Z.pos e) None).

Lemma dns_rrlist_sort_spec_witness :
  ∃ h' ys, dns_rrlist_sort demo_rec 5 (Some 10%positive) DNS_TYPE_MX demo = Ret (tt, h') ∧ is_list h' 10 ys ∧
    StronglySorted lex_le (rank DNS_TYPE_MX ∘ demo_rec <$> ys.*1).
Proof.
  destruct (dns_rrlist_sort_spec demo_rec demo 10 demo_xs 5 DNS_TYPE_MX (λ _, I) LinkedList.demo_list) as (h' & ys & E & Hl & _ & _ & Hs & _);
    [simpl; lia|].
  exists h', ys. split; [exact E|]. split; [exact Hl|exact Hs].
Defined.
