(* ===== verification/Sip.v ===== *)
(** * SIP messages (src/re/src/sip/)

    Decoding of SIP messages (msg.c): the start line, the headers with folding
    and comma-separated values, the header table, and the common headers: Via
    (via.c), addresses (addr.c), CSeq (cseq.c) and parameters (param.c).  A pointer
    into the message is the memory from there on; [offset] recovers its
    distance from the start. *)
From stdpp Require Import base tactics list numbers strings option.
From S2P Require Import Prelude Mbuf Fmt Print Regex Uri Hash.

(** ** Header identifiers ([enum sip_hdrid]) *)

Definition SIP_HDR_ACCEPT : Z := 3186.
Definition SIP_HDR_ACCEPT_CONTACT : Z := 232.
Definition SIP_HDR_ACCEPT_ENCODING : Z := 708.
Definition SIP_HDR_ACCEPT_LANGUAGE : Z := 2867.
Definition SIP_HDR_ACCEPT_RESOURCE_PRIORITY : Z := 1848.
Definition SIP_HDR_ALERT_INFO : Z := 274.
Definition SIP_HDR_ALLOW : Z := 2429.
Definition SIP_HDR_ALLOW_EVENTS : Z := 66.
Definition SIP_HDR_ANSWER_MODE : Z := 2905.
Definition SIP_HDR_AUTHENTICATION_INFO : Z := 3144.
Definition SIP_HDR_AUTHORIZATION : Z := 2503.
Definition SIP_HDR_CALL_ID : Z := 3095.
Definition SIP_HDR_CALL_INFO : Z := 586.
Definition SIP_HDR_CONTACT : Z := 229.
Definition SIP_HDR_CONTENT_DISPOSITION : Z := 1425.
Definition SIP_HDR_CONTENT_ENCODING : Z := 580.
Definition SIP_HDR_CONTENT_LANGUAGE : Z := 3371.
Definition SIP_HDR_CONTENT_LENGTH : Z := 3861.
Definition SIP_HDR_CONTENT_TYPE : Z := 809.
Definition SIP_HDR_CSEQ : Z := 746.
Definition SIP_HDR_DATE : Z := 1027.
Definition SIP_HDR_ENCRYPTION : Z := 3125.
Definition SIP_HDR_ERROR_INFO : Z := 21.
Definition SIP_HDR_EVENT : Z := 3286.
Definition SIP_HDR_EXPIRES : Z := 1983.
Definition SIP_HDR_FLOW_TIMER : Z := 584.
Definition SIP_HDR_FROM : Z := 1963.
Definition SIP_HDR_HIDE : Z := 283.
Definition SIP_HDR_HISTORY_INFO : Z := 2582.
Definition SIP_HDR_IDENTITY : Z := 2362.
Definition SIP_HDR_IDENTITY_INFO : Z := 980.
Definition SIP_HDR_IN_REPLY_TO : Z := 1577.
Definition SIP_HDR_JOIN : Z := 3479.
Definition SIP_HDR_MAX_BREADTH : Z := 3701.
Definition SIP_HDR_MAX_FORWARDS : Z := 3549.
Definition SIP_HDR_MIME_VERSION : Z := 3659.
Definition SIP_HDR_MIN_EXPIRES : Z := 1121.
Definition SIP_HDR_MIN_SE : Z := 2847.
Definition SIP_HDR_ORGANIZATION : Z := 3247.
Definition SIP_HDR_P_ACCESS_NETWORK_INFO : Z := 1662.
Definition SIP_HDR_P_ANSWER_STATE : Z := 42.
Definition SIP_HDR_P_ASSERTED_IDENTITY : Z := 1233.
Definition SIP_HDR_P_ASSOCIATED_URI : Z := 900.
Definition SIP_HDR_P_CALLED_PARTY_ID : Z := 3347.
Definition SIP_HDR_P_CHARGING_FUNCTION_ADDRESSES : Z := 2171.
Definition SIP_HDR_P_CHARGING_VECTOR : Z := 25.
Definition SIP_HDR_P_DCS_TRACE_PARTY_ID : Z := 3027.
Definition SIP_HDR_P_DCS_OSPS : Z := 1788.
Definition SIP_HDR_P_DCS_BILLING_INFO : Z := 2017.
Definition SIP_HDR_P_DCS_LAES : Z := 693.
Definition SIP_HDR_P_DCS_REDIRECT : Z := 1872.
Definition SIP_HDR_P_EARLY_MEDIA : Z := 2622.
Definition SIP_HDR_P_MEDIA_AUTHORIZATION : Z := 1035.
Definition SIP_HDR_P_PREFERRED_IDENTITY : Z := 1263.
Definition SIP_HDR_P_PROFILE_KEY : Z := 1904.
Definition SIP_HDR_P_REFUSED_URI_LIST : Z := 1047.
Definition SIP_HDR_P_SERVED_USER : Z := 1588.
Definition SIP_HDR_P_USER_DATABASE : Z := 2827.
Definition SIP_HDR_P_VISITED_NETWORK_ID : Z := 3867.
Definition SIP_HDR_PATH : Z := 2741.
Definition SIP_HDR_PERMISSION_MISSING : Z := 1409.
Definition SIP_HDR_PRIORITY : Z := 3520.
Definition SIP_HDR_PRIV_ANSWER_MODE : Z := 2476.
Definition SIP_HDR_PRIVACY : Z := 3150.
Definition SIP_HDR_PROXY_AUTHENTICATE : Z := 116.
Definition SIP_HDR_PROXY_AUTHORIZATION : Z := 2363.
Definition SIP_HDR_PROXY_REQUIRE : Z := 3562.
Definition SIP_HDR_RACK : Z := 2523.
Definition SIP_HDR_REASON : Z := 3732.
Definition SIP_HDR_RECORD_ROUTE : Z := 278.
Definition SIP_HDR_REFER_SUB : Z := 2458.
Definition SIP_HDR_REFER_TO : Z := 1521.
Definition SIP_HDR_REFERRED_BY : Z := 3456.
Definition SIP_HDR_REJECT_CONTACT : Z := 285.
Definition SIP_HDR_REPLACES : Z := 2534.
Definition SIP_HDR_REPLY_TO : Z := 2404.
Definition SIP_HDR_REQUEST_DISPOSITION : Z := 3715.
Definition SIP_HDR_REQUIRE : Z := 3905.
Definition SIP_HDR_RESOURCE_PRIORITY : Z := 1643.
Definition SIP_HDR_RESPONSE_KEY : Z := 1548.
Definition SIP_HDR_RETRY_AFTER : Z := 409.
Definition SIP_HDR_ROUTE : Z := 661.
Definition SIP_HDR_RSEQ : Z := 445.
Definition SIP_HDR_SECURITY_CLIENT : Z := 1358.
Definition SIP_HDR_SECURITY_SERVER : Z := 811.
Definition SIP_HDR_SECURITY_VERIFY : Z := 519.
Definition SIP_HDR_SERVER : Z := 973.
Definition SIP_HDR_SERVICE_ROUTE : Z := 1655.
Definition SIP_HDR_SESSION_EXPIRES : Z := 1979.
Definition SIP_HDR_SIP_ETAG : Z := 1997.
Definition SIP_HDR_SIP_IF_MATCH : Z := 3056.
Definition SIP_HDR_SUBJECT : Z := 1043.
Definition SIP_HDR_SUBSCRIPTION_STATE : Z := 2884.
Definition SIP_HDR_SUPPORTED : Z := 119.
Definition SIP_HDR_TARGET_DIALOG : Z := 3450.
Definition SIP_HDR_TIMESTAMP : Z := 938.
Definition SIP_HDR_TO : Z := 1449.
Definition SIP_HDR_TRIGGER_CONSENT : Z := 3180.
Definition SIP_HDR_UNSUPPORTED : Z := 982.
Definition SIP_HDR_USER_AGENT : Z := 4064.
Definition SIP_HDR_VIA : Z := 3961.
Definition SIP_HDR_WARNING : Z := 2108.
Definition SIP_HDR_WWW_AUTHENTICATE : Z := 2763.
Definition SIP_HDR_NONE : Z := -1.

(** The headers and their identifiers. *)
Definition sip_hdrids : list (string * Z) :=
  [("Accept", SIP_HDR_ACCEPT);
   ("Accept-Contact", SIP_HDR_ACCEPT_CONTACT);
   ("Accept-Encoding", SIP_HDR_ACCEPT_ENCODING);
   ("Accept-Language", SIP_HDR_ACCEPT_LANGUAGE);
   ("Accept-Resource-Priority", SIP_HDR_ACCEPT_RESOURCE_PRIORITY);
   ("Alert-Info", SIP_HDR_ALERT_INFO);
   ("Allow", SIP_HDR_ALLOW);
   ("Allow-Events", SIP_HDR_ALLOW_EVENTS);
   ("Answer-Mode", SIP_HDR_ANSWER_MODE);
   ("Authentication-Info", SIP_HDR_AUTHENTICATION_INFO);
   ("Authorization", SIP_HDR_AUTHORIZATION);
   ("Call-Id", SIP_HDR_CALL_ID);
   ("Call-Info", SIP_HDR_CALL_INFO);
   ("Contact", SIP_HDR_CONTACT);
   ("Content-Disposition", SIP_HDR_CONTENT_DISPOSITION);
   ("Content-Encoding", SIP_HDR_CONTENT_ENCODING);
   ("Content-Language", SIP_HDR_CONTENT_LANGUAGE);
   ("Content-Length", SIP_HDR_CONTENT_LENGTH);
   ("Content-Type", SIP_HDR_CONTENT_TYPE);
   ("Cseq", SIP_HDR_CSEQ);
   ("Date", SIP_HDR_DATE);
   ("Encryption", SIP_HDR_ENCRYPTION);
   ("Error-Info", SIP_HDR_ERROR_INFO);
   ("Event", SIP_HDR_EVENT);
   ("Expires", SIP_HDR_EXPIRES);
   ("Flow-Timer", SIP_HDR_FLOW_TIMER);
   ("From", SIP_HDR_FROM);
   ("Hide", SIP_HDR_HIDE);
   ("History-Info", SIP_HDR_HISTORY_INFO);
   ("Identity", SIP_HDR_IDENTITY);
   ("Identity-Info", SIP_HDR_IDENTITY_INFO);
   ("In-Reply-To", SIP_HDR_IN_REPLY_TO);
   ("Join", SIP_HDR_JOIN);
   ("Max-Breadth", SIP_HDR_MAX_BREADTH);
   ("Max-Forwards", SIP_HDR_MAX_FORWARDS);
   ("Mime-Version", SIP_HDR_MIME_VERSION);
   ("Min-Expires", SIP_HDR_MIN_EXPIRES);
   ("Min-Se", SIP_HDR_MIN_SE);
   ("Organization", SIP_HDR_ORGANIZATION);
   ("P-Access-Network-Info", SIP_HDR_P_ACCESS_NETWORK_INFO);
   ("P-Answer-State", SIP_HDR_P_ANSWER_STATE);
   ("P-Asserted-Identity", SIP_HDR_P_ASSERTED_IDENTITY);
   ("P-Associated-Uri", SIP_HDR_P_ASSOCIATED_URI);
   ("P-Called-Party-Id", SIP_HDR_P_CALLED_PARTY_ID);
   ("P-Charging-Function-Addresses", SIP_HDR_P_CHARGING_FUNCTION_ADDRESSES);
   ("P-Charging-Vector", SIP_HDR_P_CHARGING_VECTOR);
   ("P-Dcs-Trace-Party-Id", SIP_HDR_P_DCS_TRACE_PARTY_ID);
   ("P-Dcs-Osps", SIP_HDR_P_DCS_OSPS);
   ("P-Dcs-Billing-Info", SIP_HDR_P_DCS_BILLING_INFO);
   ("P-Dcs-Laes", SIP_HDR_P_DCS_LAES);
   ("P-Dcs-Redirect", SIP_HDR_P_DCS_REDIRECT);
   ("P-Early-Media", SIP_HDR_P_EARLY_MEDIA);
   ("P-Media-Authorization", SIP_HDR_P_MEDIA_AUTHORIZATION);
   ("P-Preferred-Identity", SIP_HDR_P_PREFERRED_IDENTITY);
   ("P-Profile-Key", SIP_HDR_P_PROFILE_KEY);
   ("P-Refused-Uri-List", SIP_HDR_P_REFUSED_URI_LIST);
   ("P-Served-User", SIP_HDR_P_SERVED_USER);
   ("P-User-Database", SIP_HDR_P_USER_DATABASE);
   ("P-Visited-Network-Id", SIP_HDR_P_VISITED_NETWORK_ID);
   ("Path", SIP_HDR_PATH);
   ("Permission-Missing", SIP_HDR_PERMISSION_MISSING);
   ("Priority", SIP_HDR_PRIORITY);
   ("Priv-Answer-Mode", SIP_HDR_PRIV_ANSWER_MODE);
   ("Privacy", SIP_HDR_PRIVACY);
   ("Proxy-Authenticate", SIP_HDR_PROXY_AUTHENTICATE);
   ("Proxy-Authorization", SIP_HDR_PROXY_AUTHORIZATION);
   ("Proxy-Require", SIP_HDR_PROXY_REQUIRE);
   ("Rack", SIP_HDR_RACK);
   ("Reason", SIP_HDR_REASON);
   ("Record-Route", SIP_HDR_RECORD_ROUTE);
   ("Refer-Sub", SIP_HDR_REFER_SUB);
   ("Refer-To", SIP_HDR_REFER_TO);
   ("Referred-By", SIP_HDR_REFERRED_BY);
   ("Reject-Contact", SIP_HDR_REJECT_CONTACT);
   ("Replaces", SIP_HDR_REPLACES);
   ("Reply-To", SIP_HDR_REPLY_TO);
   ("Request-Disposition", SIP_HDR_REQUEST_DISPOSITION);
   ("Require", SIP_HDR_REQUIRE);
   ("Resource-Priority", SIP_HDR_RESOURCE_PRIORITY);
   ("Response-Key", SIP_HDR_RESPONSE_KEY);
   ("Retry-After", SIP_HDR_RETRY_AFTER);
   ("Route", SIP_HDR_ROUTE);
   ("Rseq", SIP_HDR_RSEQ);
   ("Security-Client", SIP_HDR_SECURITY_CLIENT);
   ("Security-Server", SIP_HDR_SECURITY_SERVER);
   ("Security-Verify", SIP_HDR_SECURITY_VERIFY);
   ("Server", SIP_HDR_SERVER);
   ("Service-Route", SIP_HDR_SERVICE_ROUTE);
   ("Session-Expires", SIP_HDR_SESSION_EXPIRES);
   ("Sip-Etag", SIP_HDR_SIP_ETAG);
   ("Sip-If-Match", SIP_HDR_SIP_IF_MATCH);
   ("Subject", SIP_HDR_SUBJECT);
   ("Subscription-State", SIP_HDR_SUBSCRIPTION_STATE);
   ("Supported", SIP_HDR_SUPPORTED);
   ("Target-Dialog", SIP_HDR_TARGET_DIALOG);
   ("Timestamp", SIP_HDR_TIMESTAMP);
   ("To", SIP_HDR_TO);
   ("Trigger-Consent", SIP_HDR_TRIGGER_CONSENT);
   ("Unsupported", SIP_HDR_UNSUPPORTED);
   ("User-Agent", SIP_HDR_USER_AGENT);
   ("Via", SIP_HDR_VIA);
   ("Warning", SIP_HDR_WARNING);
   ("Www-Authenticate", SIP_HDR_WWW_AUTHENTICATE)].

Definition comma_separated : list Z :=
  [SIP_HDR_ACCEPT; SIP_HDR_ACCEPT_CONTACT; SIP_HDR_ACCEPT_ENCODING; SIP_HDR_ACCEPT_LANGUAGE;
   SIP_HDR_ACCEPT_RESOURCE_PRIORITY; SIP_HDR_ALERT_INFO; SIP_HDR_ALLOW; SIP_HDR_ALLOW_EVENTS;
   SIP_HDR_AUTHENTICATION_INFO; SIP_HDR_CALL_INFO; SIP_HDR_CONTACT; SIP_HDR_CONTENT_ENCODING;
   SIP_HDR_CONTENT_LANGUAGE; SIP_HDR_ERROR_INFO; SIP_HDR_HISTORY_INFO; SIP_HDR_IN_REPLY_TO;
   SIP_HDR_P_ASSERTED_IDENTITY; SIP_HDR_P_ASSOCIATED_URI; SIP_HDR_P_EARLY_MEDIA; SIP_HDR_P_MEDIA_AUTHORIZATION;
   SIP_HDR_P_PREFERRED_IDENTITY; SIP_HDR_P_REFUSED_URI_LIST; SIP_HDR_P_VISITED_NETWORK_ID; SIP_HDR_PATH;
   SIP_HDR_PERMISSION_MISSING; SIP_HDR_PROXY_REQUIRE; SIP_HDR_REASON; SIP_HDR_RECORD_ROUTE;
   SIP_HDR_REJECT_CONTACT; SIP_HDR_REQUEST_DISPOSITION; SIP_HDR_REQUIRE; SIP_HDR_RESOURCE_PRIORITY;
   SIP_HDR_ROUTE; SIP_HDR_SECURITY_CLIENT; SIP_HDR_SECURITY_SERVER; SIP_HDR_SECURITY_VERIFY;
   SIP_HDR_SERVICE_ROUTE; SIP_HDR_SUPPORTED; SIP_HDR_TRIGGER_CONSENT; SIP_HDR_UNSUPPORTED;
   SIP_HDR_VIA; SIP_HDR_WARNING].

Definition hdr_comma_separated (id : Z) : bool := bool_decide (id ∈ comma_separated).

(** The one-letter names. *)
Definition compact_headers : list (Z * Z) :=
  [(chr "a", SIP_HDR_ACCEPT_CONTACT); (chr "b", SIP_HDR_REFERRED_BY); (chr "c", SIP_HDR_CONTENT_TYPE);
   (chr "d", SIP_HDR_REQUEST_DISPOSITION); (chr "e", SIP_HDR_CONTENT_ENCODING); (chr "f", SIP_HDR_FROM);
   (chr "i", SIP_HDR_CALL_ID); (chr "j", SIP_HDR_REJECT_CONTACT); (chr "k", SIP_HDR_SUPPORTED);
   (chr "l", SIP_HDR_CONTENT_LENGTH); (chr "m", SIP_HDR_CONTACT); (chr "n", SIP_HDR_IDENTITY_INFO);
   (chr "o", SIP_HDR_EVENT); (chr "r", SIP_HDR_REFER_TO); (chr "s", SIP_HDR_SUBJECT); (chr "t", SIP_HDR_TO);
   (chr "u", SIP_HDR_ALLOW_EVENTS); (chr "v", SIP_HDR_VIA); (chr "x", SIP_HDR_SESSION_EXPIRES); (chr "y", SIP_HDR_IDENTITY)].

Fixpoint assoc (c : Z) (l : list (Z * Z)) (d : Z) : Z :=
  match l with [] => d | (k, v) :: r => if bool_decide (k = c) then v else assoc c r d end.

Definition hdr_hash (name : pl) : outcome Z :=
  if bool_decide (pl_l name = 0) then Ret SIP_HDR_NONE
  else
    m ← of_option NullDeref (pl_p name);
    c0 ← of_option OutOfBounds (m !! 0%nat);
    if bool_decide (pl_l name > 1) then
      c1 ← of_option OutOfBounds (m !! 1%nat);
      if bool_decide (c0 = chr "x" ∨ c0 = chr "X") && bool_decide (c1 = chr "-") then Ret SIP_HDR_NONE
      else bs ← pl_bytes name; Ret (Z.land (hash_joaat_ci bs) 4095)
    else Ret (assoc (tolower c0) compact_headers SIP_HDR_NONE).

(** ** Messages *)

Definition SIP_TRANSP_NONE : Z := -1.
Definition SIP_TRANSP_UDP : Z := 0.
Definition SIP_TRANSP_TCP : Z := 1.
Definition SIP_TRANSP_TLS : Z := 2.

Record sip_via := SipVia { v_sentby : pl; v_addr : sockaddr; v_params : pl; v_branch : pl; v_val : pl; v_tp : Z }.
Record sip_addr := SipAddr { ad_dname : pl; ad_auri : pl; ad_uri : uri; ad_params : pl }.
Record sip_taddr := SipTaddr { ta_addr : sip_addr; ta_tag : pl; ta_val : pl }.
Record sip_cseq := SipCseq { cs_met : pl; cs_num : Z }.
Record sip_hdr := SipHdr { h_name : pl; h_val : pl; h_id : Z }.

Record sip_msg := SipMsg {
  m_ver : pl;
  m_met : pl;
  m_ruri : pl;
  m_uri : uri;
  m_scode : Z;
  m_reason : pl;
  m_hdrl : list sip_hdr;
  m_via : sip_via;
  m_to : sip_taddr;
  m_from : sip_taddr;
  m_cseq : sip_cseq;
  m_callid : pl;
  m_maxfwd : pl;
  m_expires : pl;
  m_ctype : pl;
  m_clen : pl;
  m_hdrht : list (list sip_hdr);
  m_tag : Z;
  m_req : bool
}.

#[export] Instance eta_sip_msg : Eta sip_msg := λ m,
  SipMsg (m_ver m) (m_met m) (m_ruri m) (m_uri m) (m_scode m) (m_reason m) (m_hdrl m) (m_via m) (m_to m) (m_from m)
    (m_cseq m) (m_callid m) (m_maxfwd m) (m_expires m) (m_ctype m) (m_clen m) (m_hdrht m) (m_tag m) (m_req m).

Definition set_ver : pl → sip_msg → sip_msg := ltac:(setter m_ver).
Definition set_met : pl → sip_msg → sip_msg := ltac:(setter m_met).
Definition set_ruri : pl → sip_msg → sip_msg := ltac:(setter m_ruri).
Definition set_uri : uri → sip_msg → sip_msg := ltac:(setter m_uri).
Definition set_scode : Z → sip_msg → sip_msg := ltac:(setter m_scode).
Definition set_reason : pl → sip_msg → sip_msg := ltac:(setter m_reason).
Definition set_hdrl : list sip_hdr → sip_msg → sip_msg := ltac:(setter m_hdrl).
Definition set_via : sip_via → sip_msg → sip_msg := ltac:(setter m_via).
Definition set_to : sip_taddr → sip_msg → sip_msg := ltac:(setter m_to).
Definition set_from : sip_taddr → sip_msg → sip_msg := ltac:(setter m_from).
Definition set_cseq : sip_cseq → sip_msg → sip_msg := ltac:(setter m_cseq).
Definition set_callid : pl → sip_msg → sip_msg := ltac:(setter m_callid).
Definition set_maxfwd : pl → sip_msg → sip_msg := ltac:(setter m_maxfwd).
Definition set_expires : pl → sip_msg → sip_msg := ltac:(setter m_expires).
Definition set_ctype : pl → sip_msg → sip_msg := ltac:(setter m_ctype).
Definition set_clen : pl → sip_msg → sip_msg := ltac:(setter m_clen).
Definition set_hdrht : list (list sip_hdr) → sip_msg → sip_msg := ltac:(setter m_hdrht).
Definition set_req : bool → sip_msg → sip_msg := ltac:(setter m_req).

Definition addr_any : sockaddr := SockAddr (Some (bytes_of "0.0.0.0")) 0 false.
Definition via_zero : sip_via := SipVia pl_null (SockAddr None 0 false) pl_null pl_null pl_null 0.
Definition addr_zero : sip_addr := SipAddr pl_null pl_null uri_zero pl_null.
Definition taddr_zero : sip_taddr := SipTaddr addr_zero pl_null pl_null.
Definition msg_zero (ht : list (list sip_hdr)) (tag : Z) : sip_msg :=
  SipMsg pl_null pl_null pl_null uri_zero 0 pl_null [] via_zero taddr_zero taddr_zero (SipCseq pl_null 0)
    pl_null pl_null pl_null pl_null pl_null ht tag false.

(** ** Expressions

    White space in a class, and any run of it. *)
Definition wsp : list Z := [32; 9; 13; 10].
Definition ws_class : list Z := bytes_of "[" ++ wsp ++ bytes_of "]*".

(** What a match stored as its [i]th result. *)
Definition result (caps : list (option pl)) (i : nat) : outcome pl := of_option Uninit (default None (caps !! i)).

(** The distance of a pointer from the start of the memory [m]. *)
Definition offset (m : list Z) (p : pl) : Z := Z.of_nat (length m) - Z.of_nat (length (default [] (pl_p p))).

(** ** Parameters (sip/param.c, msg/param.c) *)

(** [re_snprintf(xpr, sizeof(xpr), pre %s post, name)] *)
Definition param_expr (pre post : list Z) (name : list Z) : outcome (list Z) :=
  q ← re_vsnprintf no_handler 1 128 (pre ++ bytes_of "%s" ++ post) [VStr (Some name)];
  Ret (c_string (snd q)).

Definition sip_param_exists (p : pl) (name : list Z) : outcome (Z * option pl) :=
  xpr ← param_expr (bytes_of ";" ++ ws_class) (bytes_of "[" ++ wsp ++ bytes_of ";=]*") name;
  q ← re_regex p xpr 2;
  if bool_decide (fst q ≠ 0) then Ret (ENOENT, None)
  else
    m ← of_option NullDeref (pl_p p);
    v1 ← result (snd q) 0;
    v2 ← result (snd q) 1;
    if bool_decide (pl_l v2 = 0) && bool_decide (offset m v2 < pl_l p) then Ret (ENOENT, None)
    else
      let start := offset m v1 - 1 in
      Ret (0, Some (Pl (Some (drop (Z.to_nat start) m)) (offset m v2 - start))).

(** The value is stored through [val] only on success. *)
Definition sip_param_decode (p : pl) (name : list Z) : outcome (Z * option pl) :=
  expr ← param_expr (bytes_of ";" ++ ws_class) (ws_class ++ bytes_of "=" ++ ws_class ++ bytes_of "[~" ++ wsp ++ bytes_of ";]+") name;
  q ← re_regex p expr 4;
  if bool_decide (fst q ≠ 0) then Ret (ENOENT, None)
  else v ← result (snd q) 3; Ret (0, Some v).

Definition msg_param_exists : pl → list Z → outcome (Z * option pl) := sip_param_exists.
Definition msg_param_decode : pl → list Z → outcome (Z * option pl) := sip_param_decode.

(** ** Content-Type (msg/ctype.c) *)

Record msg_ctype := MsgCtype { ct_type : pl; ct_subtype : pl; ct_params : pl }.

Definition msg_ctype_decode (p : pl) : outcome (Z * option msg_ctype) :=
  q ← re_regex p (ws_class ++ bytes_of "[^" ++ wsp ++ bytes_of ";/]+" ++ ws_class ++ bytes_of "/" ++ ws_class ++
                  bytes_of "[^" ++ wsp ++ bytes_of ";]+" ++ bytes_of "[^]*") 6;
  if bool_decide (fst q ≠ 0) then Ret (EBADMSG, None)
  else
    m ← of_option NullDeref (pl_p p);
    ws ← result (snd q) 0;
    ty ← result (snd q) 1;
    sub ← result (snd q) 4;
    par ← result (snd q) 5;
    Ret (if bool_decide (offset m ws ≠ 0) then EBADMSG else 0, Some (MsgCtype ty sub par)).

Definition msg_ctype_cmp (ct : msg_ctype) (type subtype : list Z) : outcome bool :=
  e ← pl_strcasecmp (ct_type ct) (Some type);
  if bool_decide (e ≠ 0) then Ret false
  else e ← pl_strcasecmp (ct_subtype ct) (Some subtype); Ret (bool_decide (e = 0)).

(** ** CSeq (cseq.c) *)

Definition sip_cseq_decode (p : pl) (old : sip_cseq) : outcome (Z * sip_cseq) :=
  q ← re_regex p (bytes_of "[0-9]+[" ++ wsp ++ bytes_of "]+[^" ++ wsp ++ bytes_of "]+") 3;
  let '(err, caps) := q in
  let met := capture caps 2 (cs_met old) in
  if bool_decide (err ≠ 0) then Ret (err, SipCseq met (cs_num old))
  else num ← result caps 0; n ← pl_u32 num; Ret (0, SipCseq met n).

Section decode.
Context `{inet}.

(** [sa_set] without a port: the address a text stands for. *)
Variable sa_set : list Z → option sockaddr.

(** ** Addresses (addr.c) *)

Definition null_if_empty (p : pl) : pl := if bool_decide (pl_l p = 0) then Pl None 0 else p.

(** The error, and the address: zero after a URI that cannot be read, and
    with what the second expression stored where it does not match. *)
Definition sip_addr_decode (p : pl) : outcome (Z * sip_addr) :=
  q ← re_regex p (bytes_of "[~" ++ wsp ++ bytes_of "<]*" ++ ws_class ++ bytes_of "<[^>]+>[^]*") 4;
  r ← (if bool_decide (fst q = 0) then
         dname ← result (snd q) 0;
         auri ← result (snd q) 2;
         params ← result (snd q) 3;
         Ret (inr (null_if_empty dname, auri, null_if_empty params))
       else
         q ← re_regex p (bytes_of "[^;]+[^]*") 2;
         if bool_decide (fst q ≠ 0) then
           Ret (inl (SipAddr pl_null (capture (snd q) 0 pl_null) uri_zero (capture (snd q) 1 pl_null)))
         else
           auri ← result (snd q) 0;
           params ← result (snd q) 1;
           Ret (inr (pl_null, auri, params)));
  match r with
  | inl a => Ret (EBADMSG, a)
  | inr (dname, auri, params) =>
      q ← uri_decode auri;
      if bool_decide (fst q ≠ 0) then Ret (fst q, addr_zero) else Ret (0, SipAddr dname auri (snd q) params)
  end.

(** ** Via (via.c) *)

Definition via_decode_hostport : pl → pl → pl → outcome (Z * pl * pl) := decode_hostport.

Definition via_expr : list Z :=
  bytes_of "SIP[  " ++ [9; 13; 10] ++ bytes_of "]*/" ++ ws_class ++ bytes_of "2.0" ++ ws_class ++ bytes_of "/" ++ ws_class ++
  bytes_of "[A-Z]+" ++ ws_class ++ bytes_of "[^; " ++ [9; 13; 10] ++ bytes_of "]+[ " ++ [9; 13; 8] ++ bytes_of "]*[^]*".

Definition via_transp (t : pl) : outcome Z :=
  e ← pl_strcmp t (Some (bytes_of "TCP"));
  if bool_decide (e = 0) then Ret SIP_TRANSP_TCP
  else
    e ← pl_strcmp t (Some (bytes_of "TLS"));
    if bool_decide (e = 0) then Ret SIP_TRANSP_TLS
    else
      e ← pl_strcmp t (Some (bytes_of "UDP"));
      Ret (if bool_decide (e = 0) then SIP_TRANSP_UDP else SIP_TRANSP_NONE).

Definition sip_via_decode (p : pl) (via : sip_via) : outcome (Z * sip_via) :=
  q ← re_regex p via_expr 9;
  let '(err, caps) := q in
  let sentby := capture caps 6 (v_sentby via) in
  let params := capture caps 8 (v_params via) in
  if bool_decide (err ≠ 0) then Ret (err, SipVia sentby (v_addr via) params (v_branch via) (v_val via) (v_tp via))
  else
    transp ← result caps 4;
    tp ← via_transp transp;
    q ← via_decode_hostport sentby pl_null pl_null;
    let '(err, host, port) := q in
    if bool_decide (err ≠ 0) then Ret (err, SipVia sentby (v_addr via) params (v_branch via) (v_val via) tp)
    else
      h ← pl_bytes host;
      let addr := default addr_any (sa_set h) in
      n ← (if pl_isset port then n ← pl_u32 port; Ret (u16 n) else Ret (sa_port addr));
      q ← sip_param_decode params (bytes_of "branch");
      Ret (fst q, SipVia sentby (SockAddr (sa_text addr) n (sa_v6 addr)) params (default (v_branch via) (snd q)) p tp).

(** ** Headers (msg.c) *)

(** Whether the allocation of the header with this value succeeds. *)
Variable hdr_mem : pl → bool.

Definition taddr_decode (p : pl) (old : sip_taddr) : outcome (Z * sip_taddr) :=
  q ← sip_addr_decode p;
  if bool_decide (fst q ≠ 0) then Ret (fst q, SipTaddr (snd q) (ta_tag old) (ta_val old))
  else
    t ← sip_param_decode (ad_params (snd q)) (bytes_of "tag");
    Ret (0, SipTaddr (snd q) (default (ta_tag old) (snd t)) p).

(** The common headers. *)
Definition hdr_parse (msg : sip_msg) (id : Z) (val : pl) (atomic : bool) : outcome (Z * sip_msg) :=
  if bool_decide (id = SIP_HDR_VIA) then
    if negb atomic || pl_isset (v_sentby (m_via msg)) then Ret (0, msg)
    else q ← sip_via_decode val (m_via msg); Ret (fst q, set_via (snd q) msg)
  else if bool_decide (id = SIP_HDR_TO) then q ← taddr_decode val (m_to msg); Ret (fst q, set_to (snd q) msg)
  else if bool_decide (id = SIP_HDR_FROM) then q ← taddr_decode val (m_from msg); Ret (fst q, set_from (snd q) msg)
  else if bool_decide (id = SIP_HDR_CALL_ID) then Ret (0, set_callid val msg)
  else if bool_decide (id = SIP_HDR_CSEQ) then q ← sip_cseq_decode val (m_cseq msg); Ret (fst q, set_cseq (snd q) msg)
  else if bool_decide (id = SIP_HDR_MAX_FORWARDS) then Ret (0, set_maxfwd val msg)
  else if bool_decide (id = SIP_HDR_CONTENT_TYPE) then Ret (0, set_ctype val msg)
  else if bool_decide (id = SIP_HDR_CONTENT_LENGTH) then Ret (0, set_clen val msg)
  else if bool_decide (id = SIP_HDR_EXPIRES) then Ret (0, set_expires val msg)
  else Ret (0, msg).

Definition hdr_link (msg : sip_msg) (h : sip_hdr) (hashed listed : bool) : outcome sip_msg :=
  ht ← (if hashed then hash_append (m_hdrht msg) (u32 (h_id h)) h else Ret (m_hdrht msg));
  Ret (set_hdrl (if listed then m_hdrl msg ++ [h] else m_hdrl msg) (set_hdrht ht msg)).

(** [hdr_add] for the [l] bytes at the offset [p] of the memory [m]. *)
Definition hdr_add (m : list Z) (msg : sip_msg) (name : pl) (id : Z) (p : nat) (l : Z) (atomic line : bool) :
    outcome (Z * sip_msg) :=
  let val := Pl (Some (drop p m)) (Z.max l 0) in
  if negb (hdr_mem val) then Ret (ENOMEM, msg)
  else
    msg ← (if bool_decide (id = SIP_HDR_VIA ∨ id = SIP_HDR_ROUTE) then hdr_link msg (SipHdr name val id) atomic atomic
           else hdr_link msg (SipHdr name val id) atomic line);
    hdr_parse msg id val atomic.

(** ** The state machine of the headers *)

(** The variables of the loop, with pointers as offsets. *)
Record hdr_state := HdrState {
  s_name : option nat;
  s_namel : Z;
  s_v : option nat;
  s_cv : option nat;
  s_ws : Z;
  s_lf : Z;
  s_comsep : bool;
  s_quote : bool;
  s_id : Z;
  s_msg : sip_msg
}.

#[export] Instance eta_hdr_state : Eta hdr_state := λ s,
  HdrState (s_name s) (s_namel s) (s_v s) (s_cv s) (s_ws s) (s_lf s) (s_comsep s) (s_quote s) (s_id s) (s_msg s).

Definition set_name : option nat → hdr_state → hdr_state := ltac:(setter s_name).
Definition set_namel : Z → hdr_state → hdr_state := ltac:(setter s_namel).
Definition set_v : option nat → hdr_state → hdr_state := ltac:(setter s_v).
Definition set_cv : option nat → hdr_state → hdr_state := ltac:(setter s_cv).
Definition set_ws : Z → hdr_state → hdr_state := ltac:(setter s_ws).
Definition set_lf : Z → hdr_state → hdr_state := ltac:(setter s_lf).
Definition set_comsep : bool → hdr_state → hdr_state := ltac:(setter s_comsep).
Definition set_quote : bool → hdr_state → hdr_state := ltac:(setter s_quote).
Definition set_id : Z → hdr_state → hdr_state := ltac:(setter s_id).
Definition set_msg : sip_msg → hdr_state → hdr_state := ltac:(setter s_msg).

Definition start_state (msg : sip_msg) : hdr_state := HdrState None 0 None None 0 0 false false SIP_HDR_NONE msg.

(** How a part of the loop's body ends: [break], [goto out], or by going on. *)
Inductive turn := Break (s : hdr_state) | Out (err : Z) (s : hdr_state) | Through (s : hdr_state).

(** The name as it is passed to [hdr_add]. *)
Definition name_pl (m : list Z) (s : hdr_state) : pl :=
  Pl ((λ p, drop p m) <$> s_name s) (s_namel s).

(** The length from an offset to [p], without the white space at the end. *)
Definition value_len (s : hdr_state) (v : option nat) (p : nat) : Z :=
  match v with Some v => Z.of_nat p - Z.of_nat v - s_ws s | None => 0 end.

(** The end of a value, at the start of the next line or at a comma. *)
Definition hdr_value (m : list Z) (p : nat) (s : hdr_state) : outcome turn :=
  if bool_decide (s_namel s = 0) then Ret (Out EBADMSG s)
  else
    let lf := negb (bool_decide (s_lf s = 0)) in
    q ← hdr_add m (s_msg s) (name_pl m s) (s_id s) (default p (s_cv s)) (value_len s (s_cv s) p) true
          (bool_decide (s_cv s = s_v s) && lf);
    let s := set_msg (snd q) s in
    if bool_decide (fst q ≠ 0) then Ret (Out (fst q) s)
    else if negb lf then Ret (Break (set_cv None s))
    else
      q ← (if bool_decide (s_cv s ≠ s_v s) then
             hdr_add m (s_msg s) (name_pl m s) (s_id s) (default p (s_v s)) (value_len s (s_v s) p) false true
           else Ret (0, s_msg s));
      let s := set_msg (snd q) s in
      if bool_decide (fst q ≠ 0) then Ret (Out (fst q) s)
      else if bool_decide (s_lf s > 1) then Ret (Out 0 s)
      else Ret (Through (set_lf 0 (set_cv None (set_v None (set_name None (set_comsep false s)))))).

(** A character of a name or of a value. *)
Definition hdr_char (m : list Z) (p : nat) (c : Z) (s : hdr_state) : outcome turn :=
  let s := match s_name s with None => set_ws 0 (set_namel 0 (set_name (Some p) s)) | Some _ => s end in
  if bool_decide (s_namel s = 0) then
    if bool_decide (c ≠ chr ":") then Ret (Break (set_ws 0 s))
    else
      let l := Z.max (s32 (value_len s (s_name s) p)) 0 in
      let s := set_namel l s in
      if bool_decide (l = 0) then Ret (Out EBADMSG s)
      else
        id ← hdr_hash (name_pl m s);
        Ret (Break (set_comsep (hdr_comma_separated id) (set_id id s)))
  else
    let s := match s_cv s with None => set_cv (Some p) (set_quote false s) | Some _ => s end in
    let s := match s_v s with None => set_v (Some p) s | Some _ => s end in
    let s := if bool_decide (c = dquote) then set_quote (negb (s_quote s)) s else s in
    Ret (Break (set_ws 0 s)).

Definition hdr_default (m : list Z) (p : nat) (c : Z) (s : hdr_state) : outcome turn :=
  if negb (bool_decide (s_lf s = 0)) || (bool_decide (c = chr ",") && s_comsep s && negb (s_quote s)) then
    t ← hdr_value m p s;
    match t with Through s => hdr_char m p c s | _ => Ret t end
  else hdr_char m p c s.

(** The loop over the [l] bytes from the offset [p] on: the error, the bytes
    left and the message.  The second line feed in a row ends the headers:
    [hdr_value] then always goes out. *)
Fixpoint hdr_loop (m : list Z) (l : nat) (p : nat) (s : hdr_state) : outcome (Z * nat * sip_msg) :=
  match l with
  | O => Ret (ENODATA, O, s_msg s)
  | S l' =>
      c ← of_option OutOfBounds (m !! p);
      if bool_decide (c = 32 ∨ c = 9) then hdr_loop m l' (S p) (set_ws (u32 (s_ws s + 1)) (set_lf 0 s))
      else if bool_decide (c = 13) then hdr_loop m l' (S p) (set_ws (u32 (s_ws s + 1)) s)
      else if bool_decide (c = 10) then
        let lf := s_lf s in
        let s := set_lf (u32 (lf + 1)) (set_ws (u32 (s_ws s + 1)) s) in
        if bool_decide (lf = 0) then hdr_loop m l' (S p) s
        else
          t ← hdr_value m (S p) s;
          match t with
          | Out err s => Ret (err, l', s_msg s)
          | Break s | Through s => hdr_loop m (pred l') (S (S p)) s
          end
      else
        t ← hdr_default m p c s;
        match t with
        | Break s => hdr_loop m l' (S p) s
        | Out err s => Ret (err, l, s_msg s)
        | Through s => hdr_loop m l' (S p) s
        end
  end.

Definition STARTLINE_MAX : Z := 8192.
Definition HDR_HASH_SIZE : Z := 32.

Definition start_expr : list Z :=
  bytes_of "[^ " ++ [9; 13; 10] ++ bytes_of "]+ [^ " ++ [9; 13; 10] ++ bytes_of "]+ [^" ++ [13; 10] ++ bytes_of "]*[" ++ [13] ++
  bytes_of "]*[" ++ [10] ++ bytes_of "]1".

(** Whether the allocations of the message and its table succeed, and the
    random tag of the message. *)
Variables (msg_mem hash_mem : bool) (tag : Z).

(** The start line of a request or of a response. *)
Definition start_line (x y z : pl) (msg : sip_msg) : outcome (Z * sip_msg) :=
  e ← pl_strcmp z (Some (bytes_of "SIP/2.0"));
  if bool_decide (e = 0) then
    let msg := set_ver z (set_ruri y (set_met x (set_req true msg))) in
    q ← uri_decode y;
    Ret (if bool_decide (fst q ≠ 0) then EBADMSG else 0, set_uri (snd q) msg)
  else
    n ← pl_u32 y;
    let msg := set_reason z (set_scode (u16 n) (set_ver x (set_req false msg))) in
    Ret (if bool_decide (u16 n = 0) then EBADMSG else 0, msg).

(** The error, the message on success, and the buffer, which is then moved
    behind the headers. *)
Definition sip_msg_decode (mb : mbuf) : outcome (Z * option sip_msg * mbuf) :=
  let p := Pl (drop (Z.to_nat (mb_pos mb)) <$> mb_buf mb) (mbuf_get_left mb) in
  let bad := Ret (if bool_decide (pl_l p > STARTLINE_MAX) then EBADMSG else ENODATA, None, mb) in
  q ← re_regex p start_expr 5;
  let '(err, caps) := q in
  if bool_decide (err ≠ 0) then bad
  else
    m ← of_option NullDeref (pl_p p);
    x ← result caps 0;
    if bool_decide (offset m x ≠ 0) then bad
    else
      y ← result caps 1;
      z ← result caps 2;
      e ← result caps 4;
      if negb msg_mem then Ret (ENOMEM, None, mb)
      else
        let '(err, ht) := hash_alloc hash_mem HDR_HASH_SIZE in
        match ht with
        | None => Ret (err, None, mb)
        | Some ht =>
            q ← start_line x y z (msg_zero ht tag);
            if bool_decide (fst q ≠ 0) then Ret (fst q, None, mb)
            else
              let eol := offset m e + pl_l e in
              q ← hdr_loop m (Z.to_nat (pl_l p - eol)) (Z.to_nat eol) (start_state (snd q));
              let '(err, l, msg) := q in
              if bool_decide (err ≠ 0) then Ret (err, None, mb)
              else Ret (0, Some msg, mbuf_set_pos mb (mb_end mb - Z.of_nat l))
        end.
End decode.

(** ** Looking up headers *)

Section lookup.
Context {S : Type}.

(** The walk over a bucket: headers that are not asked for are skipped, the
    handler may go on. *)
Fixpoint hdr_apply (skip : sip_hdr → outcome bool) (h : sip_hdr → S → bool * S) (l : list sip_hdr) (s : S) :
    outcome (option sip_hdr * S) :=
  match l with
  | [] => Ret (None, s)
  | hdr :: r =>
      b ← skip hdr;
      if b : bool then hdr_apply skip h r s
      else let '(found, s) := h hdr s in if found then Ret (Some hdr, s) else hdr_apply skip h r s
  end.

Definition sip_msg_hdr_apply (msg : sip_msg) (fwd : bool) (id : Z) (h : sip_hdr → S → bool * S) (s : S) :
    outcome (option sip_hdr * S) :=
  l ← hash_list (m_hdrht msg) (u32 id);
  hdr_apply (λ hdr, Ret (bool_decide (h_id hdr ≠ id))) h (if fwd then l else reverse l) s.

Definition sip_msg_xhdr_apply (msg : sip_msg) (fwd : bool) (name : list Z) (h : sip_hdr → S → bool * S) (s : S) :
    outcome (option sip_hdr * S) :=
  let p := pl_set_str pl_null (Some name) in
  id ← hdr_hash p;
  l ← hash_list (m_hdrht msg) (u32 id);
  hdr_apply (λ hdr, e ← pl_casecmp (h_name hdr) p; Ret (bool_decide (e ≠ 0))) h (if fwd then l else reverse l) s.
End lookup.

(** A handler that takes the first header. *)
Definition take_handler (hdr : sip_hdr) (s : unit) : bool * unit := (true, s).
Definition count_handler (hdr : sip_hdr) (n : Z) : bool * Z := (false, u32 (n + 1)).
Definition value_handler (value : list Z) (hdr : sip_hdr) (s : outcome unit) : bool * outcome unit :=
  match pl_strcasecmp (h_val hdr) (Some value) with
  | Ret e => (bool_decide (e = 0), s)
  | Fault f => (true, Fault f)
  end.

Definition sip_msg_hdr (msg : sip_msg) (id : Z) : outcome (option sip_hdr) :=
  q ← sip_msg_hdr_apply msg true id take_handler tt; Ret (fst q).
Definition sip_msg_xhdr (msg : sip_msg) (name : list Z) : outcome (option sip_hdr) :=
  q ← sip_msg_xhdr_apply msg true name take_handler tt; Ret (fst q).

Definition sip_msg_hdr_count (msg : sip_msg) (id : Z) : outcome Z :=
  q ← sip_msg_hdr_apply msg true id count_handler 0; Ret (snd q).
Definition sip_msg_xhdr_count (msg : sip_msg) (name : list Z) : outcome Z :=
  q ← sip_msg_xhdr_apply msg true name count_handler 0; Ret (snd q).

Definition sip_msg_hdr_has_value (msg : sip_msg) (id : Z) (value : list Z) : outcome bool :=
  q ← sip_msg_hdr_apply msg true id (value_handler value) (Ret tt);
  _ ← snd q; Ret (bool_decide (is_Some (fst q))).
Definition sip_msg_xhdr_has_value (msg : sip_msg) (name value : list Z) : outcome bool :=
  q ← sip_msg_xhdr_apply msg true name (value_handler value) (Ret tt);
  _ ← snd q; Ret (bool_decide (is_Some (fst q))).

(** ** Transactions

    What client and server transactions share: the timer values of the
    standard, the transports that do not repeat, the walk over a bucket of the
    transaction table, and the end of a line. *)
Definition SIP_T1 : Z := 500.
Definition SIP_T2 : Z := 4000.
Definition SIP_T4 : Z := 5000.

Definition sip_transp_reliable (tp : Z) : bool := bool_decide (tp = SIP_TRANSP_TCP ∨ tp = SIP_TRANSP_TLS).

(** The loop of [hash_lookup] over a bucket. *)
Fixpoint find_by (h : positive → outcome bool) (l : list positive) : outcome (option positive) :=
  match l with
  | [] => Ret None
  | id :: r => b ← h id; if (b : bool) then Ret (Some id) else find_by h r
  end.

Definition crlf : list Z := [13; 10].
