(* ===== verification/SipSafe.v ===== *)
(** * Memory safety of the SIP decoder

    Whatever bytes a peer sends, [sip_msg_decode] returns: no read outside the
    buffer, no use of a result that was never stored.  Every pointer it hands
    out lies inside the buffer. *)
From stdpp Require Import base tactics list numbers strings option.
From S2P Require Import Prelude Mbuf Fmt Print Regex Uri Hash Sip.

(** A pointer into the first [lim] bytes of the memory [m], or NULL with length 0. *)
Definition pointer_in (m : list Z) (lim : nat) (p : pl) : Prop := within m lim p ∨ p = pl_null.

Section safe.
Context `{inet} (m : list Z) (lim : nat) (Hlim : (lim ≤ length m)%nat).

Local Abbreviation ptr := (pointer_in m lim).

Lemma within_pl k n : (k + n ≤ lim)%nat → within m lim (Pl (Some (drop k m)) (Z.of_nat n)).
Proof using. clear. intros Hk. by exists k, n. Qed.

Lemma pl_bytes_in p : ptr p → ∃ bs, pl_bytes p = Ret bs.
Proof.
  intros [(k & n & -> & Hk)| ->]; [|by exists []]. unfold pl_bytes. cbn [pl_p pl_l].
  rewrite memcpy_from_run by (rewrite ?length_drop; lia). by eexists.
Qed.

Lemma pl_u32_in p : ptr p → ∃ n, pl_u32 p = Ret n ∧ 0 ≤ n < 4294967296.
Proof.
  intros Hp. unfold pl_u32, pl_num. destruct (pl_p p); [|by eexists]. destruct (pl_bytes_in p Hp) as [bs ->]. eexists. split; [done|].
  assert (H0 : ∀ rbs v k, 0 ≤ v < 4294967296 → 0 ≤ num_loop u32 10 dec_digit rbs v k < 4294967296).
  { induction rbs as [|b rbs IH]; intros v k Hv; [exact Hv|]; cbn [num_loop]. destruct (dec_digit b); [apply IH, u32_range|]. lia. }
  apply H0. lia.
Qed.

Lemma pl_strcmp_in p s : ptr p → ∃ e, pl_strcmp p (Some s) = Ret e.
Proof.
  intros Hp. unfold pl_strcmp, pl_cmp, pl_cmp_with. destruct (negb _); [by eexists|]. case_bool_decide; [by eexists|].
  destruct (pl_bytes_in p Hp) as [bs Hbs]. cbn [pl_set_str pl_p pl_l].
  assert (Hs : pl_bytes (Pl (Some s) (Z.of_nat (length s))) = Ret s).
  { pose proof (pl_bytes_run s []) as Hb. by rewrite app_nil_r in Hb. }
  destruct (pl_p p); rewrite Hbs, Hs; by eexists.
Qed.

(** A match stores pointers into the memory. *)
Lemma regex_in p expr n c :
  ptr p → scan_expr expr = Some c → (c ≤ n)%nat →
  ∃ err caps, re_regex p expr n = Ret (err, caps) ∧ length caps = n ∧
    caps_within m lim caps ∧
    (err = 0 → within m lim p ∧ ∀ j, (j < c)%nat → ∃ q, caps !! j = Some (Some q) ∧ within m lim q).
Proof.
  intros [(k & l & -> & Hk)| ->] Hs Hc.
  - assert (Hd : (l ≤ length (drop k m))%nat) by (rewrite length_drop; lia).
    destruct (re_regex_run (drop k m) (Z.of_nat l) expr n c) as (err & caps & E & _ & Hl & Hw & Hcap);
      [lia|done|done|]. exists err, caps. split; [done|]. split; [done|]. rewrite Nat2Z.id in Hw.
    assert (Hin : ∀ q, within (drop k m) l q → within m lim q).
    { intros q (i & j & -> & Hij). exists (k + i)%nat, j. rewrite drop_drop. split; [done|lia]. }
    assert (Hw' : caps_within m lim caps).
    { unfold caps_within. eapply Forall_impl; [|exact Hw]. intros [q|]; auto. }
    split; [done|]. intros He. split; [by exists k, l|]. intros j Hj. destruct (Hcap He j Hj) as [q Hq]. exists q. split; [done|].
    unfold caps_within in Hw'. rewrite Forall_forall in Hw'. apply (Hw' (Some q)). apply list_elem_of_In. by eapply list_elem_of_lookup_2.
  - exists EINVAL, (replicate n None). split; [done|]. split; [apply length_replicate|]. split; [by apply Forall_replicate|done].
Qed.

Lemma capture_in caps i old :
  caps_within m lim caps → ptr old →
  ptr (capture caps i old).
Proof.
  intros Hw Ho. unfold capture. destruct (caps !! i) as [[q|]|] eqn:E; simpl; [|done..]. left.
  unfold caps_within in Hw. rewrite Forall_forall in Hw. apply (Hw (Some q)), list_elem_of_In. by eapply list_elem_of_lookup_2.
Qed.

Lemma result_at caps i q : caps !! i = Some (Some q) → result caps i = Ret q ∧ ∀ old, capture caps i old = q.
Proof. intros E. unfold result, capture. by rewrite E. Qed.

(** ** The parts of a message *)

Lemma decode_hostport_safe p host port : ptr p → ptr host → ptr port →
  ∃ err h n, decode_hostport p host port = Ret (err, h, n) ∧ ptr h ∧ ptr n.
Proof.
  intros Hp Hh Hn. unfold decode_hostport.
  destruct (regex_in p ipv6_host_expr 3 3 Hp) as (err & caps & E & _ & Hw & _); [by vm_compute|done|].
  rewrite E. cbn [mbind outcome_bind]. pose proof (capture_in caps 0 host Hw Hh). pose proof (capture_in caps 2 port Hw Hn).
  case_bool_decide; [by eexists _, _, _|].
  destruct (regex_in p host_expr 3 3 Hp) as (err' & caps' & E' & _ & Hw' & _); [by vm_compute|done|].
  rewrite E'. cbn [mbind outcome_bind]. eexists _, _, _. split; [done|]. split; by apply capture_in.
Qed.

(** The pointers of a URI lie in the memory, and its port is 16 bits wide. *)
Definition uri_in (u : uri) : Prop :=
  ptr (u_scheme u) ∧ ptr (u_user u) ∧ ptr (u_password u) ∧ ptr (u_host u) ∧ ptr (u_params u) ∧ ptr (u_headers u) ∧
  0 ≤ u_port u < 65536.

Lemma uri_zero_in : uri_in uri_zero.
Proof using. clear. unfold uri_in. cbn. split_and!; (by right) || lia. Qed.

Lemma uri_finish_safe u host port : uri_in u → ptr host → ptr port → ∃ u', uri_finish u host port = Ret (0, u') ∧ uri_in u'.
Proof.
  intros (? & ? & ? & _ & ? & ? & _) Hh Hn. unfold uri_finish. destruct (pl_bytes_in host Hh) as [bs ->]. cbn [mbind outcome_bind].
  assert (H16 : ∀ n, 0 ≤ u16 n < 65536) by (intros n; unfold u16; apply Z.mod_pos_bound; lia).
  destruct (pl_isset port); [destruct (pl_u32_in port Hn) as (n & -> & _); cbn [mbind outcome_bind]|]; eexists; (split; [done|]); split_and!; cbn; done || apply H16.
Qed.

Lemma uri_decode_safe p : ptr p → ∃ err u, uri_decode p = Ret (err, u) ∧ uri_in u.
Proof.
  intros Hp. unfold uri_decode. assert (Hnull : ptr pl_null) by by right.
  destruct (regex_in p user_expr 7 7 Hp) as (err & caps & E & _ & Hw & _); [by vm_compute|done|].
  rewrite E. cbn [mbind outcome_bind]. set (hp := capture caps 4 pl_null).
  assert (Hhp : ptr hp) by by apply capture_in.
  destruct (decode_hostport_safe hp pl_null pl_null Hhp Hnull Hnull) as (e1 & h1 & n1 & E1 & Hh1 & Hn1).
  match goal with |- context [uri_finish ?u _ _] => assert (Hu0 : uri_in u) end.
  { split_and!; cbn; (by apply capture_in) || done || lia. }
  assert (Hrest : ∀ e h n, ptr h → ptr n → ∀ u0, uri_in u0 → ∃ err u,
    (if bool_decide (e = 0) then uri_finish u0 h n
     else
       q ← re_regex p plain_expr 4;
       let '(err, caps) := q in
       let u := Uri (capture caps 0 pl_null) pl_null pl_null pl_null 0 0 (capture caps 2 pl_null) (capture caps 3 pl_null) in
       if bool_decide (err ≠ 0) then Ret (err, u)
       else
         q ← decode_hostport (capture caps 1 hp) pl_null n;
         let '(err, host, port) := q in
         if bool_decide (err = 0) then uri_finish u host port
         else Ret (err, Uri (u_scheme u) pl_null pl_null host 0 0 (u_params u) (u_headers u))) = Ret (err, u) ∧ uri_in u).
  { intros e h n Hh Hn u0 Hu. case_bool_decide.
    { destruct (uri_finish_safe u0 h n Hu Hh Hn) as (u' & -> & Hu'). by eexists _, _. }
    destruct (regex_in p plain_expr 4 4 Hp) as (err' & caps' & E' & _ & Hw' & _); [by vm_compute|done|].
    assert (Hc : ∀ i, ptr (capture caps' i pl_null)) by (intros i; by apply capture_in).
    rewrite E'. cbn [mbind outcome_bind]. case_bool_decide; [eexists _, _; split; [done|]; split_and!; cbn; done || lia|].
    destruct (decode_hostport_safe (capture caps' 1 hp) pl_null n) as (e2 & h2 & n2 & E2 & Hh2 & Hn2); [by apply capture_in|done|done|].
    rewrite E2. cbn [mbind outcome_bind]. case_bool_decide; [|eexists _, _; split; [done|]; split_and!; cbn; done || lia].
    match goal with |- context [uri_finish ?u _ _] => destruct (uri_finish_safe u h2 n2) as (u' & -> & Hu') end;
      [split_and!; cbn; done || lia|done|done|]. by eexists _, _. }
  destruct (bool_decide (err = 0)); [rewrite E1|]; cbn [mbind outcome_bind]; by apply Hrest.
Qed.

(** The parameters are looked up by names whose expressions are known. *)
Lemma sip_param_decode_safe p name expr :
  ptr p →
  param_expr (bytes_of ";" ++ ws_class) (ws_class ++ bytes_of "=" ++ ws_class ++ bytes_of "[~" ++ wsp ++ bytes_of ";]+") name = Ret expr →
  scan_expr expr = Some 4%nat → ∃ err v, sip_param_decode p name = Ret (err, v) ∧ ∀ q, v = Some q → ptr q.
Proof.
  intros Hp Ee Hs. unfold sip_param_decode. rewrite Ee. cbn [mbind outcome_bind].
  destruct (regex_in p expr 4 4 Hp Hs) as (err & caps & E & _ & _ & Hc); [done|]. rewrite E. cbn [mbind outcome_bind fst snd].
  case_bool_decide as Hz; [by eexists _, _|].
  destruct (proj2 (Hc ltac:(lia)) 3%nat) as (q & Hq & Hin); [lia|]. destruct (result_at _ _ _ Hq) as [-> _].
  eexists _, _. split; [done|]. intros q' [= <-]. by left.
Qed.

Lemma tag_safe p : ptr p → ∃ err v, sip_param_decode p (bytes_of "tag") = Ret (err, v) ∧ ∀ q, v = Some q → ptr q.
Proof. intros Hp. eapply sip_param_decode_safe; [done|vm_compute; reflexivity|vm_compute; reflexivity]. Qed.

Lemma branch_safe p : ptr p → ∃ err v, sip_param_decode p (bytes_of "branch") = Ret (err, v) ∧ ∀ q, v = Some q → ptr q.
Proof. intros Hp. eapply sip_param_decode_safe; [done|vm_compute; reflexivity|vm_compute; reflexivity]. Qed.

Lemma null_if_empty_in p : ptr p → ptr (null_if_empty p).
Proof. intros Hp. unfold null_if_empty. case_bool_decide; [by right|done]. Qed.

(** A decoded address and an address header. *)
Definition addr_in (a : sip_addr) : Prop := ptr (ad_dname a) ∧ ptr (ad_auri a) ∧ uri_in (ad_uri a) ∧ ptr (ad_params a).

Lemma addr_zero_in : addr_in addr_zero.
Proof using. clear. split; [by right|]. split; [by right|]. split; [apply uri_zero_in|by right]. Qed.

Lemma sip_addr_decode_safe p : ptr p →
  ∃ err a, sip_addr_decode p = Ret (err, a) ∧ addr_in a ∧ (err = 0 → within m lim (ad_auri a)).
Proof.
  intros Hp. unfold sip_addr_decode.
  assert (Hrest : ∀ dname auri params, ptr dname → within m lim auri → ptr params → ∃ err a,
    (q ← uri_decode auri; if bool_decide (fst q ≠ 0) then Ret (fst q, addr_zero) else Ret (0, SipAddr dname auri (snd q) params)) =
      Ret (err, a) ∧ addr_in a ∧ (err = 0 → within m lim (ad_auri a))).
  { intros dname auri params Hd Ha Hpa. destruct (uri_decode_safe auri ltac:(by left)) as (err & u & -> & Hu). cbn [mbind outcome_bind fst snd].
    case_bool_decide; eexists _, _; (split; [done|]).
    - split; [apply addr_zero_in|done].
    - split; [|done]. split; [done|]. split; [by left|]. by split. }
  match goal with |- context [re_regex p ?e 4] => destruct (regex_in p e 4 4 Hp) as (err & caps & E & _ & _ & Hc) end;
    [by vm_compute|done|]. rewrite E. cbn [mbind outcome_bind fst snd]. case_bool_decide as Hz.
  - destruct (Hc Hz) as [_ Hc']. destruct (Hc' 0%nat ltac:(lia)) as (q0 & Hq0 & H0), (Hc' 2%nat ltac:(lia)) as (q2 & Hq2 & H2),
      (Hc' 3%nat ltac:(lia)) as (q3 & Hq3 & H3).
    rewrite (proj1 (result_at _ _ _ Hq0)), (proj1 (result_at _ _ _ Hq2)), (proj1 (result_at _ _ _ Hq3)). cbn [mbind outcome_bind].
    apply Hrest; [|done|]; apply null_if_empty_in; by left.
  - destruct (regex_in p (bytes_of "[^;]+[^]*") 2 2 Hp) as (err' & caps' & E' & _ & Hw' & Hc'); [by vm_compute|done|].
    rewrite E'. cbn [mbind outcome_bind fst snd]. case_bool_decide as Hz'; cbn [mbind outcome_bind].
    + eexists _, _. split; [done|]. split; [|done]. assert (ptr pl_null) by by right.
      split; [done|]. split; [by apply capture_in|]. split; [apply uri_zero_in|by apply capture_in].
    + destruct (Hc' ltac:(lia)) as [_ Hc2]. destruct (Hc2 0%nat ltac:(lia)) as (q0 & Hq0 & H0), (Hc2 1%nat ltac:(lia)) as (q1 & Hq1 & H1).
      rewrite (proj1 (result_at _ _ _ Hq0)), (proj1 (result_at _ _ _ Hq1)). cbn [mbind outcome_bind].
      apply Hrest; [by right|done|by left].
Qed.

(** A decoded address header, CSeq and Via. *)
Definition taddr_in (t : sip_taddr) : Prop := ptr (ta_val t) ∧ ptr (ta_tag t) ∧ addr_in (ta_addr t).
Definition cseq_in (c : sip_cseq) : Prop := ptr (cs_met c) ∧ 0 ≤ cs_num c < 4294967296.
Definition via_in (v : sip_via) : Prop := ptr (v_val v) ∧ ptr (v_branch v) ∧ ptr (v_sentby v) ∧ ptr (v_params v).

Lemma sip_cseq_decode_safe p old : ptr p → cseq_in old →
  ∃ err c, sip_cseq_decode p old = Ret (err, c) ∧ cseq_in c.
Proof.
  intros Hp [Hmet Hold]. unfold sip_cseq_decode.
  match goal with |- context [re_regex p ?e 3] => destruct (regex_in p e 3 3 Hp) as (err & caps & E & _ & Hw & Hc) end;
    [by vm_compute|done|]. rewrite E. cbn [mbind outcome_bind]. pose proof (capture_in caps 2 _ Hw Hmet) as Hcap.
  case_bool_decide as Hz; [by eexists _, _|].
  destruct (proj2 (Hc ltac:(lia)) 0%nat) as (q & Hq & Hin); [lia|]. rewrite (proj1 (result_at _ _ _ Hq)). cbn [mbind outcome_bind].
  destruct (pl_u32_in q) as (n & -> & Hn); [by left|]. by eexists _, _.
Qed.

Variable sa_set : list Z → option sockaddr.

Lemma sip_via_decode_safe p old : ptr p → via_in old →
  ∃ err v, sip_via_decode sa_set p old = Ret (err, v) ∧ via_in v.
Proof.
  intros Hp Hold. unfold sip_via_decode.
  destruct (regex_in p via_expr 9 9 Hp) as (err & caps & E & _ & Hw & Hc); [by vm_compute|done|].
  destruct Hold as (Hov & Hob & Hos & Hop). pose proof (capture_in caps 6 _ Hw Hos) as Hsent. pose proof (capture_in caps 8 _ Hw Hop) as Hpar.
  rewrite E. cbn [mbind outcome_bind]. case_bool_decide as Hz; [by eexists _, _|].
  destruct (Hc ltac:(lia)) as [_ Hc']. destruct (Hc' 4%nat ltac:(lia)) as (q4 & Hq4 & H4), (Hc' 6%nat ltac:(lia)) as (q6 & Hq6 & H6),
    (Hc' 8%nat ltac:(lia)) as (q8 & Hq8 & H8).
  rewrite (proj1 (result_at _ _ _ Hq4)), (proj2 (result_at _ _ _ Hq6)), (proj2 (result_at _ _ _ Hq8)) in *. cbn [mbind outcome_bind].
  assert (Htp : ∃ tp, via_transp q4 = Ret tp).
  { unfold via_transp. do 2 (match goal with |- context [pl_strcmp q4 (Some ?s)] =>
      destruct (pl_strcmp_in q4 s) as [? ->]; [by left|]; cbn [mbind outcome_bind]; case_bool_decide; [by eexists|] end).
    match goal with |- context [pl_strcmp q4 (Some ?s)] => destruct (pl_strcmp_in q4 s) as [? ->]; [by left|] end. by eexists. }
  destruct Htp as [tp ->]. cbn [mbind outcome_bind]. unfold via_decode_hostport.
  destruct (decode_hostport_safe q6 pl_null pl_null) as (e1 & h1 & n1 & E1 & Hh1 & Hn1); [by left|by right|by right|].
  rewrite E1. cbn [mbind outcome_bind]. case_bool_decide; [by eexists _, _|].
  destruct (pl_bytes_in h1 Hh1) as [bs ->]. cbn [mbind outcome_bind].
  destruct (branch_safe q8) as (e3 & v3 & E3 & Hb); [by left|].
  assert (Hb' : ptr (default (v_branch old) v3)) by (destruct v3; [by apply Hb|done]).
  destruct (pl_isset n1); [destruct (pl_u32_in n1 Hn1) as (n & -> & _)|]; cbn [mbind outcome_bind]; rewrite E3; eexists _, _; by split.
Qed.

Lemma taddr_decode_safe p old : ptr p → taddr_in old →
  ∃ err t, taddr_decode p old = Ret (err, t) ∧ taddr_in t.
Proof.
  intros Hp (Hold & Htag & _). unfold taddr_decode. destruct (sip_addr_decode_safe p Hp) as (err & a & -> & Ha & _). cbn [mbind outcome_bind fst snd].
  case_bool_decide as Hz; [by eexists _, _|]. destruct (tag_safe (ad_params a)) as (e & v & -> & Hv); [apply Ha|].
  eexists _, _. split; [done|]. split; [done|]. split; [|done]. destruct v; [by apply Hv|done].
Qed.

(** The headers and all the fields of a message lie in the memory, and its
    table is a table. *)
Definition hdr_in (h : sip_hdr) : Prop := within m lim (h_name h) ∧ within m lim (h_val h).
Definition msg_in (msg : sip_msg) : Prop :=
  table_ok (m_hdrht msg) ∧ Forall hdr_in (m_hdrl msg) ∧ Forall (Forall hdr_in) (m_hdrht msg) ∧
  ptr (m_ver msg) ∧ ptr (m_met msg) ∧ ptr (m_ruri msg) ∧ ptr (m_reason msg) ∧ ptr (m_callid msg) ∧
  ptr (m_maxfwd msg) ∧ ptr (m_expires msg) ∧ ptr (m_ctype msg) ∧ ptr (m_clen msg) ∧
  via_in (m_via msg) ∧ taddr_in (m_to msg) ∧ taddr_in (m_from msg) ∧ cseq_in (m_cseq msg) ∧
  uri_in (m_uri msg).

Ltac msg_in_tac := unfold msg_in; cbn; tauto.

Lemma hdr_link_safe msg h hashed listed : msg_in msg → hdr_in h →
  ∃ msg', hdr_link msg h hashed listed = Ret msg' ∧ msg_in msg'.
Proof.
  intros (Ht & Hl & Hh & Hf) Hin. unfold hdr_link.
  assert (Hlist : Forall hdr_in (if listed then m_hdrl msg ++ [h] else m_hdrl msg)).
  { destruct listed; [|done]. apply Forall_app. split; [done|constructor; [done|constructor]]. }
  destruct hashed; cbn [mbind outcome_bind]; [|eexists; split; [done|]; split; [done|]; split; [done|]; split; [done|exact Hf]].
  destruct (hash_append_run (m_hdrht msg) (u32 (h_id h)) h Ht) as (ht & E & Ht' & _). rewrite E. cbn [mbind outcome_bind].
  eexists. split; [done|]. split; [done|]. split; [done|]. split; [|exact Hf]. unfold hash_append in E.
  destruct (hash_list_run (m_hdrht msg) (u32 (h_id h)) Ht) as (l & El & Hl'). rewrite El in E. injection E as <-.
  cbn [m_hdrht set_hdrl set_hdrht]. apply Forall_insert; [done|]. apply Forall_app. split; [|constructor; [done|constructor]].
  rewrite Forall_forall in Hh. apply Hh, list_elem_of_In. by eapply list_elem_of_lookup_2.
Qed.

Lemma hdr_parse_safe msg id val atomic : msg_in msg → ptr val →
  ∃ err msg', hdr_parse sa_set msg id val atomic = Ret (err, msg') ∧ msg_in msg'.
Proof.
  intros Hm Hv. unfold hdr_parse. assert (H0 := Hm). destruct H0 as (? & ? & ? & ? & ? & ? & ? & ? & ? & ? & ? & ? & Hvia & Hto & Hfrom & Hcseq & Huri).
  repeat case_bool_decide; try (eexists _, _; split; [done|by msg_in_tac]).
  - destruct (negb atomic || _); [by eexists _, _|]. destruct (sip_via_decode_safe val (m_via msg) Hv Hvia) as (e & v & -> & Hv').
    eexists _, _. split; [done|by msg_in_tac].
  - destruct (taddr_decode_safe val (m_to msg) Hv Hto) as (e & v & -> & Hv'). eexists _, _. split; [done|by msg_in_tac].
  - destruct (taddr_decode_safe val (m_from msg) Hv Hfrom) as (e & v & -> & Hv'). eexists _, _. split; [done|by msg_in_tac].
  - destruct (sip_cseq_decode_safe val (m_cseq msg) Hv Hcseq) as (e & v & -> & Hv'). eexists _, _. split; [done|by msg_in_tac].
Qed.

Variable hdr_mem : pl → bool.

Lemma hdr_add_safe msg name id p l atomic line :
  msg_in msg → within m lim name → Z.of_nat p + Z.max l 0 ≤ Z.of_nat lim →
  ∃ err msg', hdr_add sa_set hdr_mem m msg name id p l atomic line = Ret (err, msg') ∧ msg_in msg'.
Proof.
  intros Hm Hn Hp. unfold hdr_add.
  assert (Hv : within m lim (Pl (Some (drop p m)) (Z.max l 0))).
  { rewrite <- (Z2Nat.id (Z.max l 0)) by lia. apply within_pl. lia. }
  destruct (negb _); [by eexists _, _|].
  assert (Hlink : ∀ b1 b2, ∃ msg', hdr_link msg (SipHdr name (Pl (Some (drop p m)) (Z.max l 0)) id) b1 b2 = Ret msg' ∧ msg_in msg')
    by (intros; by apply hdr_link_safe).
  case_bool_decide; match goal with |- context [hdr_link msg _ ?b1 ?b2] => destruct (Hlink b1 b2) as (msg' & -> & Hm') end;
    cbn [mbind outcome_bind]; apply hdr_parse_safe; (done || by left).
Qed.

Lemma hdr_hash_safe name : within m lim name → ∃ id, hdr_hash name = Ret id.
Proof.
  intros (k & n & -> & Hk). unfold hdr_hash. cbn [pl_l pl_p of_option mbind outcome_bind]. case_bool_decide; [by eexists|].
  destruct (lookup_lt_is_Some_2 (drop k m) 0) as [c0 ->]; [rewrite length_drop; lia|]. cbn [of_option mbind outcome_bind].
  case_bool_decide; [|by eexists].
  destruct (lookup_lt_is_Some_2 (drop k m) 1) as [c1 ->]; [rewrite length_drop; lia|]. cbn [of_option mbind outcome_bind].
  destruct (_ && _); [by eexists|]. destruct (pl_bytes_in (Pl (Some (drop k m)) (Z.of_nat n))) as [bs ->]; [left; by exists k, n|].
  by eexists.
Qed.

(** ** The loop over the headers

    A pointer of the loop is not behind the current position; the white space
    counted since it was set fits between the two. *)
Definition before (ws : Z) (p : nat) (o : option nat) : Prop :=
  match o with Some k => Z.of_nat k + ws ≤ Z.of_nat p | None => True end.

Record state_in (p : nat) (s : hdr_state) : Prop := {
  in_ws : 0 ≤ s_ws s;
  in_name : before (s_ws s) p (s_name s);
  in_v : before (s_ws s) p (s_v s);
  in_cv : before (s_ws s) p (s_cv s);
  in_lf : 0 ≤ s_lf s;
  in_namel : s_name s ≠ None → s_namel s ≠ 0 → within m lim (name_pl m s);
  in_msg : msg_in (s_msg s)
}.

(** At the start of a turn a name with a length has been set. *)
Definition loop_in (p : nat) (s : hdr_state) : Prop := state_in p s ∧ (s_namel s ≠ 0 → s_name s ≠ None).

(** What a turn of the loop leaves. *)
Definition turn_in (p : nat) (t : turn) : Prop :=
  match t with Break s => loop_in p s ∧ s_lf s ≤ 1 | Through s => state_in p s ∧ s_lf s ≤ 1 | Out _ s => msg_in (s_msg s) end.

Lemma u32_succ_le n : 0 ≤ n → 0 ≤ u32 (n + 1) ≤ n + 1.
Proof. unfold u32. intros. split; [apply Z.mod_pos_bound; lia|apply Z.mod_le; lia]. Qed.

Lemma before_step ws ws' p o : before ws p o → ws' ≤ ws + 1 → before ws' (S p) o.
Proof. destruct o; simpl; lia. Qed.

Lemma loop_in_ws p s : loop_in p s → loop_in (S p) (set_ws (u32 (s_ws s + 1)) s).
Proof.
  intros [[Hw Hn Hv Hcv Hlf Hl Hm] Hn']. pose proof (u32_succ_le _ Hw). split; [|done]. split; cbn; try done; try lia.
  all: eapply before_step; [done|lia].
Qed.

Lemma loop_in_lf p s lf : 0 ≤ lf → loop_in p s → loop_in p (set_lf lf s).
Proof. intros ? [[] ?]. by split. Qed.

Lemma hdr_value_safe p s : (p ≤ lim)%nat → loop_in p s →
  ∃ t, hdr_value sa_set hdr_mem m p s = Ret t ∧ turn_in p t ∧ (s_lf s > 1 → ∃ err s', t = Out err s') ∧ (s_lf s ≤ 1 → ∀ s', t ≠ Out 0 s').
Proof.
  intros Hp [Hs Hname]. unfold hdr_value. case_bool_decide as Hl; [eexists; split; [done|]; split; [apply Hs|split; [by eexists _, _|done]]|].
  assert (Hadd : ∀ msg o atomic line, msg_in msg → before (s_ws s) p o → ∃ err msg',
    hdr_add sa_set hdr_mem m msg (name_pl m s) (s_id s) (default p o) (value_len s o p) atomic line = Ret (err, msg') ∧ msg_in msg').
  { intros msg o atomic line Hm Ho. apply hdr_add_safe; [done|apply Hs; auto|]. pose proof (in_ws _ _ Hs).
    destruct o; simpl in *; lia. }
  destruct (Hadd (s_msg s) (s_cv s) true (bool_decide (s_cv s = s_v s) && negb (bool_decide (s_lf s = 0)))) as (e1 & m1 & E1 & Hm1);
    [apply Hs..|]. rewrite E1. cbn [mbind outcome_bind fst snd].
  destruct (bool_decide (e1 ≠ 0)) eqn:He1;
    [apply bool_decide_eq_true in He1; eexists; split; [done|]; split; [done|split; [by eexists _, _|naive_solver]]|].
  destruct (bool_decide (s_lf s = 0)) eqn:Hlf; cbn [negb].
  { eexists. split; [done|]. apply bool_decide_eq_true in Hlf. split; [destruct Hs; split; [by split; [split|]|cbn; lia]|split; [lia|done]]. }
  assert (Hsnd : ∃ e2 m2, (if bool_decide (s_cv s ≠ s_v s) then
      hdr_add sa_set hdr_mem m m1 (name_pl m s) (s_id s) (default p (s_v s)) (value_len s (s_v s) p) false true
      else Ret (0, m1)) = Ret (e2, m2) ∧ msg_in m2).
  { destruct (bool_decide (s_cv s ≠ s_v s)); [apply Hadd; [done|apply Hs]|by eexists _, _]. }
  destruct Hsnd as (e2 & m2 & E2 & Hm2). cbn in *.
  change (name_pl m (set_msg m1 s)) with (name_pl m s). change (value_len (set_msg m1 s)) with (value_len s). rewrite E2. cbn [mbind outcome_bind fst snd].
  destruct (bool_decide (e2 ≠ 0)) eqn:He2;
    [apply bool_decide_eq_true in He2; eexists; split; [done|]; split; [done|split; [by eexists _, _|naive_solver]]|].
  destruct (bool_decide (s_lf s > 1)) eqn:Hlf1; [apply bool_decide_eq_true in Hlf1|apply bool_decide_eq_false in Hlf1];
    (eexists; split; [done|]); [split; [done|split; [by eexists _, _|lia]]|].
  split; [destruct Hs; by split; [split|]|done].
Qed.

Lemma s32_le n : 0 ≤ n → s32 n ≤ n.
Proof.
  unfold s32. intros. destruct (decide (n < 2147483648)); [rewrite Z.mod_small by lia; lia|].
  pose proof (Z.mod_le (n + 2147483648) 4294967296). pose proof (Z.mod_pos_bound (n + 2147483648) 4294967296). lia.
Qed.

Lemma before_S ws p o : before ws p o → before ws (S p) o.
Proof. destruct o; simpl; lia. Qed.

Lemma before_0 ws p o : 0 ≤ ws → before ws p o → before 0 (S p) o.
Proof. destruct o; simpl; lia. Qed.

Lemma state_in_S p s : state_in p s → state_in (S p) s.
Proof. intros []. split; try done; by apply before_S. Qed.

(** A character that is not white space: the counter starts again. *)
Lemma loop_in_char p s s' : state_in p s →
  s_ws s' = 0 → s_lf s' = s_lf s → s_msg s' = s_msg s →
  s_name s' = s_name s ∨ s_name s' = Some p → s_v s' = s_v s ∨ s_v s' = Some p →
  s_cv s' = s_cv s ∨ s_cv s' = Some p ∨ s_cv s' = None →
  (s_namel s' ≠ 0 → s_name s' ≠ None ∧ within m lim (name_pl m s')) → loop_in (S p) s'.
Proof.
  intros [Hw Hn Hv Hcv Hlf Hl Hm] E1 E2 E3 En Ev Ecv Hl'. split; [|naive_solver].
  pose proof (before_0 _ _ _ Hw Hn). pose proof (before_0 _ _ _ Hw Hv). pose proof (before_0 _ _ _ Hw Hcv).
  split; rewrite ?E1, ?E2, ?E3; try done.
  - destruct En as [->| ->]; simpl; [done|lia].
  - destruct Ev as [->| ->]; simpl; [done|lia].
  - destruct Ecv as [->|[->| ->]]; simpl; [done|lia|done].
  - naive_solver.
Qed.

Lemma hdr_char_safe p c s : (p < lim)%nat → state_in p s → s_lf s ≤ 1 →
  ∃ t, hdr_char m p c s = Ret t ∧ (turn_in (S p) t ∧ ∀ s', t ≠ Through s' ∧ t ≠ Out 0 s').
Proof.
  intros Hp Hs Hlf1. unfold hdr_char.
  set (s1 := match s_name s with None => set_ws 0 (set_namel 0 (set_name (Some p) s)) | Some _ => s end).
  assert (Hs1 : state_in p s1 ∧ s_name s1 ≠ None ∧ s_lf s1 ≤ 1).
  { subst s1. destruct (s_name s) eqn:E; [by rewrite E|]. split; [|done]. clear Hlf1. destruct Hs as [Hw Hn Hv Hcv Hlf Hl Hm].
    split; cbn; try done; try lia.
    - destruct (s_v s); simpl in *; lia.
    - destruct (s_cv s); simpl in *; lia. }
  clearbody s1. clear Hs Hlf1. destruct Hs1 as (Hs & Hn1 & Hlf1). case_bool_decide as Hl.
  - case_bool_decide.
    { eexists. split; [done|]. split; [|done]. cbn [turn_in]. split; [|done]. eapply loop_in_char; cbn; auto; done. }
    destruct (s_name s1) as [k|] eqn:Ek; [|done]. pose proof (in_name _ _ Hs) as Hk. pose proof (in_ws _ _ Hs) as Hw.
    rewrite Ek in Hk. simpl in Hk. pose proof (s32_le (Z.of_nat p - Z.of_nat k - s_ws s1)) as Hle.
    cbn [value_len] in *. set (l := Z.max (s32 (Z.of_nat p - Z.of_nat k - s_ws s1)) 0) in *.
    assert (Hwi : within m lim (name_pl m (set_namel l s1))).
    { unfold name_pl. cbn [s_name s_namel set_namel]. rewrite Ek. cbn. exists k, (Z.to_nat l). rewrite Z2Nat.id by lia. split; [done|lia]. }
    case_bool_decide; [eexists; split; [done|]; split; [apply Hs|done]|].
    destruct (hdr_hash_safe _ Hwi) as [id ->]. cbn [mbind outcome_bind]. eexists. split; [done|]. split; [|done].
    destruct Hs as [Hw' Hn' Hv Hcv Hlf Hl' Hm]. cbn [turn_in]. split; [|done]. split; [|cbn; by rewrite Ek].
    apply state_in_S. by split.
  - pose proof (in_namel _ _ Hs Hn1 Hl) as Hwi. eexists. split; [done|]. split; [|done].
    destruct s1 as [name namel v cv ws lf comsep quote id msg].
    assert (Hgo : ∀ v' cv' q', v' = v ∨ v' = Some p → cv' = cv ∨ cv' = Some p →
      turn_in (S p) (Break (HdrState name namel v' cv' 0 lf comsep q' id msg))).
    { intros v' cv' q' Hv' Hcv'. split; [|done]. eapply loop_in_char; [exact Hs|..]; cbn; auto. naive_solver. }
    destruct cv, v; cbn; destruct (bool_decide (c = dquote)); apply Hgo; auto.
Qed.

Lemma hdr_default_safe p c s : (p < lim)%nat → loop_in p s → s_lf s ≤ 1 →
  ∃ t, hdr_default sa_set hdr_mem m p c s = Ret t ∧ (turn_in (S p) t ∧ ∀ s', t ≠ Through s' ∧ t ≠ Out 0 s').
Proof.
  intros Hp Hs Hlf1. unfold hdr_default. destruct (_ || _); [|apply hdr_char_safe; [done|apply Hs|done]].
  destruct (hdr_value_safe p s) as (t & -> & Ht & _ & Hout); [lia|done|]. cbn [mbind outcome_bind].
  destruct t as [s'|err s'|s']; [..|apply hdr_char_safe; [done|apply Ht..]].
  - eexists. split; [done|]. split; [|done]. destruct Ht as [[H1 H2] H3]. split; [|done]. split; [by apply state_in_S|done].
  - eexists. split; [done|]. split; [done|]. intros s''. split; [done|]. intros [= ->]. by apply (Hout Hlf1 s').
Qed.

(** The loop returns, with no more bytes left than there were. *)
Lemma hdr_loop_safe l p s : (p + l ≤ lim)%nat → loop_in p s → s_lf s ≤ 1 →
  ∃ err l' msg, hdr_loop sa_set hdr_mem m l p s = Ret (err, l', msg) ∧ (l' ≤ l)%nat ∧ (err = 0 → (l' < l)%nat) ∧ msg_in msg.
Proof.
  revert p s. induction l as [|l IH]; intros p s Hp Hs Hlf1; [eexists _, _, _; split; [done|]; split; [done|split; [done|apply Hs]]|].
  cbn [hdr_loop]. destruct (lookup_lt_is_Some_2 m p) as [c ->]; [lia|]. cbn [of_option mbind outcome_bind].
  assert (Hgo : ∀ s', loop_in (S p) s' → s_lf s' ≤ 1 → ∃ err l' msg,
    hdr_loop sa_set hdr_mem m l (S p) s' = Ret (err, l', msg) ∧ (l' ≤ S l)%nat ∧ (err = 0 → (l' < S l)%nat) ∧ msg_in msg).
  { intros s' Hs' Hl'. destruct (IH (S p) s') as (err & l' & msg & -> & ? & ? & ?); [lia|done|done|].
    eexists _, _, _. split; [done|]. split; [lia|split; [lia|done]]. }
  pose proof (loop_in_ws p s Hs) as Hws. pose proof (in_lf _ _ (proj1 Hs)) as Hlf.
  case_bool_decide; [apply Hgo; [|done]; by apply (loop_in_ws p (set_lf 0 s)), loop_in_lf|]. case_bool_decide; [by apply Hgo|]. case_bool_decide.
  - pose proof (u32_succ_le _ Hlf) as Hlf'.
    assert (Hnl : loop_in (S p) (set_lf (u32 (s_lf s + 1)) (set_ws (u32 (s_ws s + 1)) s))) by (apply loop_in_lf; [lia|done]).
    case_bool_decide as Hz; [apply Hgo; [done|]; cbn; lia|].
    destruct (hdr_value_safe (S p) (set_lf (u32 (s_lf s + 1)) (set_ws (u32 (s_ws s + 1)) s))) as (t & -> & Ht & Hout & _); [lia|done|].
    cbn [mbind outcome_bind]. destruct t as [s'|err s'|s'].
    2: { eexists _, _, _. split; [done|]. split; [lia|split; [lia|exact Ht]]. }
    all: destruct Hout as (? & ? & ?); [cbn; rewrite (u32_id (s_lf s + 1)) by lia; lia|done].
  - destruct (hdr_default_safe p c s) as (t & -> & Ht & Hthrough); [lia|done|done|]. cbn [mbind outcome_bind].
    destruct t as [s'|err s'|s']; [by apply Hgo; apply Ht| |by destruct (Hthrough s')].
    eexists _, _, _. split; [done|]. split; [lia|]. split; [|done]. intros ->. by destruct (Hthrough s') as [_ Hz].
Qed.

Lemma offset_in k n : (k + n ≤ lim)%nat → offset m (Pl (Some (drop k m)) (Z.of_nat n)) = Z.of_nat k.
Proof. intros. unfold offset. cbn. rewrite length_drop. lia. Qed.

Lemma start_line_safe x y z msg : msg_in msg → within m lim x → within m lim y → within m lim z →
  ∃ err msg', start_line x y z msg = Ret (err, msg') ∧ msg_in msg'.
Proof.
  clear sa_set hdr_mem.
  intros (? & ? & ? & ? & ? & ? & ? & ? & ? & ? & ? & ? & Hvia & Hto & Hfrom & Hcseq & Huri) Hx Hy Hz. unfold start_line.
  assert (ptr x ∧ ptr y ∧ ptr z) as (Hx' & Hy' & Hz') by (split_and!; by left).
  destruct (pl_strcmp_in z (bytes_of "SIP/2.0") Hz') as [e ->]. cbn [mbind outcome_bind]. case_bool_decide.
  - destruct (uri_decode_safe y Hy') as (err & u & -> & Hu). eexists _, _. split; [done|]. by msg_in_tac.
  - destruct (pl_u32_in y Hy') as (n & -> & _). eexists _, _. split; [done|]. by msg_in_tac.
Qed.

Lemma start_state_in msg p : msg_in msg → loop_in p (start_state msg).
Proof. intros Hm. split; [|done]. by split. Qed.
End safe.

(** ** Locality

    Whether a URI can be read depends on its characters alone, not on the
    memory they lie in: a copy of a URI is read like the original. *)
Section local.
Context `{inet}.

Definition hostport_error (bs : list Z) : Z :=
  match search ipv6_items bs, search host_items bs with None, None => ENOENT | _, _ => 0 end.

Lemma decode_hostport_local bs rest host port :
  ∃ h n, decode_hostport (Pl (Some (bs ++ rest)) (Z.of_nat (length bs))) host port = Ret (hostport_error bs, h, n).
Proof using.
  unfold decode_hostport, hostport_error. rewrite ipv6_expr_items, host_expr_items.
  destruct (search ipv6_items bs) as [parts|] eqn:E6.
  { pose proof (regex_some ipv6_items bs rest parts ltac:(done) eq_refl E6) as E.
    change (classes ipv6_items) with 3%nat in E. rewrite E. by eexists _, _. }
  destruct (regex_none ipv6_items bs rest ltac:(done) eq_refl E6) as [caps Hno].
  change (classes ipv6_items) with 3%nat in Hno. rewrite Hno. cbn [mbind outcome_bind].
  destruct (search host_items bs) as [parts|] eqn:Eh.
  - pose proof (regex_some host_items bs rest parts ltac:(done) eq_refl Eh) as E.
    change (classes host_items) with 3%nat in E. rewrite E. by eexists _, _.
  - destruct (regex_none host_items bs rest ltac:(done) eq_refl Eh) as [caps' E].
    change (classes host_items) with 3%nat in E. rewrite E. by eexists _, _.
Qed.

(** The error of [uri_decode] on these characters. *)
Definition host_error (o : option (list (list Z * list Z))) (i : nat) : Z :=
  match o with Some parts => hostport_error (fst (default ([], []) (parts !! i))) | None => ENOENT end.

Definition uri_error (bs : list Z) : Z :=
  if bool_decide (host_error (search user_items bs) 4 = 0) then 0 else host_error (search plain_items bs) 1.

(** A search for an expression: what it stores are the parts that match. *)
Lemma search_cases its bs rest :
  its ≠ [] → forallb item_ok its = true →
  scan_expr (expr_of its) = Some (classes its) →
  ∃ caps, re_regex (Pl (Some (bs ++ rest)) (Z.of_nat (length bs))) (expr_of its) (classes its) =
      Ret (match search its bs with Some _ => 0 | None => ENOENT end, caps) ∧
    caps_within (bs ++ rest) (length bs) caps ∧
    (∀ parts i old, search its bs = Some parts → (i < classes its)%nat →
      capture caps i old = part_pl rest (default ([], []) (parts !! i)) ∧
      pointer_in (bs ++ rest) (length bs) (part_pl rest (default ([], []) (parts !! i)))).
Proof using. clear.
  intros Hne Hok Hs.
  destruct (regex_in (bs ++ rest) (length bs) ltac:(rewrite length_app; lia) (Pl (Some (bs ++ rest)) (Z.of_nat (length bs))) (expr_of its)
    (classes its) (classes its)) as (err & caps & E & Hl & Hw & _); [left; by exists 0%nat, (length bs)|done|done|].
  exists caps. rewrite E. destruct (search its bs) as [parts|] eqn:Es.
  - pose proof (regex_some its bs rest parts Hne Hok Es) as E'. rewrite E in E'. injection E' as -> ->. split; [done|]. split; [done|].
    intros parts' i old [= <-] Hi. pose proof (search_parts _ _ _ Es) as Hp.
    assert (Hc : ∀ old, capture (map (λ x, Some (part_pl rest x)) parts) i old = part_pl rest (default ([], []) (parts !! i))).
    { intros old'. unfold capture. rewrite list_lookup_fmap. destruct (lookup_lt_is_Some_2 parts i) as [x ->]; [lia|done]. }
    split; [done|]. rewrite <- (Hc pl_null). apply capture_in; [done|by right].
  - destruct (regex_none its bs rest Hne Hok Es) as [caps' E']. rewrite E in E'. by injection E' as -> <-.
Qed.

Lemma uri_decode_local bs rest : ∃ u, uri_decode (Pl (Some (bs ++ rest)) (Z.of_nat (length bs))) = Ret (uri_error bs, u).
Proof.
  set (m := bs ++ rest). set (lim := length bs).
  assert (Hlim : (lim ≤ length m)%nat) by (unfold m, lim; rewrite length_app; lia).
  assert (Hnull : pointer_in m lim pl_null) by by right.
  (* A run of the decoder of the host and what follows it. *)
  assert (Hhost : ∀ x host port, pointer_in m lim (part_pl rest x) → pointer_in m lim host → pointer_in m lim port →
    ∃ h n, decode_hostport (part_pl rest x) host port = Ret (hostport_error (fst x), h, n) ∧ pointer_in m lim h ∧ pointer_in m lim n).
  { intros [u v] host port Hx Hh Hn. destruct (decode_hostport_local u (v ++ rest) host port) as (h & n & E).
    destruct (decode_hostport_safe m lim Hlim (part_pl rest (u, v)) host port Hx Hh Hn) as (e' & h' & n' & E' & Hh' & Hn').
    exists h, n. unfold part_pl in *. cbn [fst snd] in *. rewrite E in E'. by injection E' as _ <- <-. }
  unfold uri_decode, uri_error. rewrite user_expr_items, plain_expr_items.
  destruct (search_cases user_items bs rest ltac:(done) eq_refl ltac:(vm_compute; reflexivity)) as (caps & E & Hw & Hc).
  change (classes user_items) with 7%nat in *. fold m lim in E, Hw, Hc |- *. rewrite E. cbn [mbind outcome_bind].
  assert (Hcap : ∀ i, pointer_in m lim (capture caps i pl_null)) by (intros i; by apply capture_in).
  set (hp := capture caps 4 pl_null).
  (* The second expression. *)
  destruct (search_cases plain_items bs rest ltac:(done) eq_refl ltac:(vm_compute; reflexivity)) as (caps2 & E2 & Hw2 & Hc2).
  change (classes plain_items) with 4%nat in *. fold m lim in E2, Hw2, Hc2.
  assert (Hcap2 : ∀ i, pointer_in m lim (capture caps2 i pl_null)) by (intros i; by apply capture_in).
  assert (Hsecond : ∀ port, pointer_in m lim port → ∃ u : uri,
    (q ← re_regex (Pl (Some m) (Z.of_nat lim)) (expr_of plain_items) 4;
     let '(err, caps) := q in
     let u := Uri (capture caps 0 pl_null) pl_null pl_null pl_null 0 0 (capture caps 2 pl_null) (capture caps 3 pl_null) in
     if bool_decide (err ≠ 0) then Ret (err, u)
     else
       q ← decode_hostport (capture caps 1 hp) pl_null port;
       let '(err, host, port) := q in
       if bool_decide (err = 0) then uri_finish u host port
       else Ret (err, Uri (u_scheme u) pl_null pl_null host 0 0 (u_params u) (u_headers u))) =
    Ret (host_error (search plain_items bs) 1, u)).
  { intros port Hport. rewrite E2. cbn [mbind outcome_bind]. destruct (search plain_items bs) as [parts|]; cbn [host_error]; [|by eexists].
    destruct (Hc2 parts 1%nat hp eq_refl ltac:(lia)) as [-> Hx].
    destruct (Hhost _ pl_null port Hx Hnull Hport) as (h & n & -> & Hh & Hn). cbn [mbind outcome_bind].
    rewrite (bool_decide_eq_false_2 (0 ≠ 0)) by lia. destruct (bool_decide_reflect (hostport_error (fst (default ([], []) (parts !! 1%nat))) = 0)) as [->|]; [|by eexists].
    edestruct (uri_finish_safe m lim Hlim) as (u' & -> & _); [|exact Hh|exact Hn|by eexists].
    split_and!; cbn; done || lia. }
  destruct (search user_items bs) as [parts|]; cbn [host_error].
  - destruct (Hc parts 4%nat pl_null eq_refl ltac:(lia)) as [Ehp Hx]. subst hp. rewrite Ehp in *.
    destruct (Hhost _ pl_null pl_null Hx Hnull Hnull) as (h & n & -> & Hh & Hn).
    rewrite (bool_decide_eq_true_2 (0 = 0)) by done. cbn [mbind outcome_bind].
    destruct (bool_decide_reflect (hostport_error (fst (default ([], []) (parts !! 4%nat))) = 0)) as [_|_]; [|by apply Hsecond].
    edestruct (uri_finish_safe m lim Hlim) as (u' & -> & _); [|exact Hh|exact Hn|by eexists].
    split_and!; cbn; done || lia.
  - rewrite !(bool_decide_eq_false_2 (ENOENT = 0)) by done. cbn [mbind outcome_bind].
    rewrite (bool_decide_eq_false_2 (ENOENT = 0)) by done. by apply Hsecond.
Qed.
End local.

Section decode_safe.
Context `{inet} (sa_set : list Z → option sockaddr) (hdr_mem : pl → bool) (msg_mem hash_mem : bool) (tag : Z).

(** Decoding the [lim] bytes at [m]. *)
Lemma msg_start (m : list Z) (lim : nat) :
  (lim ≤ length m)%nat → ∀ ht, hash_alloc hash_mem HDR_HASH_SIZE = (0, Some ht) → msg_in m lim (msg_zero ht tag).
Proof.
  intros Hlim ht E. unfold hash_alloc in E. destruct hash_mem; vm_compute in E; [|done]. injection E as <-.
  assert (Hnull : pointer_in m lim pl_null) by by right.
  split; [by exists 5|]. split; [constructor|]. split; [by repeat constructor|]. by repeat split.
Qed.

Lemma sip_msg_decode_in (mb : mbuf) :
  mbuf_wf mb →
  ∃ err msg mb', sip_msg_decode sa_set hdr_mem msg_mem hash_mem tag mb = Ret (err, msg, mb') ∧
    (err ≠ 0 → msg = None ∧ mb' = mb) ∧
    (err = 0 → ∃ msg', msg = Some msg' ∧ mb' = mbuf_set_pos mb (mb_pos mb') ∧ mb_pos mb < mb_pos mb' ≤ mb_end mb ∧
      ∃ buf, mb_buf mb = Some buf ∧
        msg_in (drop (Z.to_nat (mb_pos mb)) buf) (Z.to_nat (mb_end mb - mb_pos mb)) msg').
Proof.
  intros [(Hsz & Hmax & Hend & Hpos & _) Hle]. unfold sip_msg_decode, mbuf_get_left.
  rewrite (u64_id (mb_end mb - mb_pos mb)) by (unfold max_alloc in *; lia).
  set (lim := Z.to_nat (mb_end mb - mb_pos mb)). replace (mb_end mb - mb_pos mb) with (Z.of_nat lim) by lia.
  set (bad := Ret _).
  assert (Hbad : ∃ err msg mb', bad = Ret (err, msg, mb') ∧ (err ≠ 0 → msg = None ∧ mb' = mb) ∧ err ≠ 0).
  { subst bad. case_bool_decide; by eexists _, _, _. }
  destruct Hbad as (e0 & m0 & mb0 & Ebad & Hb1 & Hb2). rewrite !Ebad. clear bad Ebad.
  destruct (mb_buf mb) as [buf|] eqn:Eb; cbn [fmap option_fmap option_map default id] in *.
  2: { replace lim with 0%nat by (simpl in *; lia). cbn. by eexists _, _, _. }
  set (m := drop (Z.to_nat (mb_pos mb)) buf).
  assert (Hlim : (lim ≤ length m)%nat) by (subst m lim; rewrite length_drop; lia).
  destruct (regex_in m lim Hlim (Pl (Some m) (Z.of_nat lim)) start_expr 5 5) as (err & caps & E & _ & _ & Hc);
    [left; by exists 0%nat, lim|by vm_compute|done|]. rewrite E. cbn [mbind outcome_bind].
  destruct (bool_decide (err ≠ 0)) eqn:He; [by eexists _, _, _|]. apply bool_decide_eq_false in He.
  destruct (Hc ltac:(lia)) as [_ Hc']. destruct (Hc' 0%nat ltac:(lia)) as (x & Ex & Hx), (Hc' 1%nat ltac:(lia)) as (y & Ey & Hy),
    (Hc' 2%nat ltac:(lia)) as (z & Ez & Hz), (Hc' 4%nat ltac:(lia)) as (e & Ee & Hee). clear Hc Hc'.
  cbn [pl_p of_option mbind outcome_bind]. rewrite (proj1 (result_at _ _ _ Ex)). cbn [mbind outcome_bind].
  destruct (bool_decide (offset m x ≠ 0)); [by eexists _, _, _|].
  rewrite (proj1 (result_at _ _ _ Ey)), (proj1 (result_at _ _ _ Ez)), (proj1 (result_at _ _ _ Ee)). cbn [mbind outcome_bind].
  destruct (negb msg_mem); [by eexists _, _, _|].
  destruct (hash_alloc hash_mem HDR_HASH_SIZE) as [ha [ht|]] eqn:Eh.
  2: { assert (ha ≠ 0) by (unfold hash_alloc in Eh; destruct hash_mem; vm_compute in Eh; [done|by injection Eh as <-]). by eexists _, _, _. }
  assert (ha = 0) as -> by (unfold hash_alloc in Eh; destruct hash_mem; vm_compute in Eh; [by injection Eh|done]).
  destruct (start_line_safe m lim Hlim x y z (msg_zero ht tag)) as (es & ms & -> & Hms); [by apply msg_start|done..|].
  cbn [mbind outcome_bind fst snd]. destruct (bool_decide (es ≠ 0)) eqn:Hes; [apply bool_decide_eq_true in Hes; by eexists _, _, _|].
  destruct Hee as (k & n & -> & Hkn). rewrite (offset_in m lim Hlim k n Hkn). cbn [pl_l].
  destruct (hdr_loop_safe m lim Hlim sa_set hdr_mem (Z.to_nat (Z.of_nat lim - (Z.of_nat k + Z.of_nat n)))
    (Z.to_nat (Z.of_nat k + Z.of_nat n)) (start_state ms)) as (el & l & msg & -> & Hl & Hlt & Hmsg);
    [lia|by apply start_state_in|done|]. cbn [mbind outcome_bind].
  apply bool_decide_eq_false in Hes. case_bool_decide as Hel; [by eexists _, _, _|]. assert (el = 0) by lia. eexists _, _, _. split; [done|]. split; [done|]. intros _.
  exists msg. split; [done|]. split; [done|]. cbn. split; [lia|]. by exists buf.
Qed.

(** C26: whatever the bytes of the buffer are, sip_msg_decode returns: no read
    outside the buffer, no use of an unset pointer, and the loop over the
    headers ends.  On failure there is no message and the buffer is unchanged.
    On success the position has moved forward, not past the end of the data,
    and every header and every field of the message lies between the old
    position and the end of the data. *)
Theorem sip_msg_decode_safe (mb : mbuf) :
  mbuf_wf mb →
  ∃ err msg mb', sip_msg_decode sa_set hdr_mem msg_mem hash_mem tag mb = Ret (err, msg, mb') ∧
    (err ≠ 0 → msg = None ∧ mb' = mb) ∧
    (err = 0 → ∃ msg', msg = Some msg' ∧ mb' = mbuf_set_pos mb (mb_pos mb') ∧ mb_pos mb < mb_pos mb' ≤ mb_end mb ∧
      ∃ buf, mb_buf mb = Some buf ∧
        msg_in (drop (Z.to_nat (mb_pos mb)) buf) (Z.to_nat (mb_end mb - mb_pos mb)) msg').
Proof. apply sip_msg_decode_in. Qed.
End decode_safe.

(** A response of one line and one header. *)
Definition ringing : list Z :=
  bytes_of "SIP/2.0 180 Ringing" ++ [13; 10] ++ bytes_of "Call-ID: a@b" ++ [13; 10; 13; 10] ++ bytes_of "rest".

Lemma sip_msg_decode_safe_witness :
  mbuf_wf (Mb (Some ringing) 41 0 41) ∧
  ∃ err msg mb', sip_msg_decode (H := digits_only) (λ _, None) (λ _, true) true true 7 (Mb (Some ringing) 41 0 41) = Ret (err, msg, mb') ∧
    (err ≠ 0 → msg = None ∧ mb' = Mb (Some ringing) 41 0 41) ∧
    (err = 0 → ∃ msg', msg = Some msg' ∧ mb' = mbuf_set_pos (Mb (Some ringing) 41 0 41) (mb_pos mb') ∧ 0 < mb_pos mb' ≤ 41 ∧
      ∃ buf, Some ringing = Some buf ∧ msg_in (drop (Z.to_nat 0) buf) (Z.to_nat (41 - 0)) msg').
Proof.
  assert (Hwf : mbuf_wf (Mb (Some ringing) 41 0 41)) by (apply (bool_decide_eq_true_1 _); vm_compute; reflexivity).
  split; [exact Hwf|]. exact (sip_msg_decode_safe (H := digits_only) (λ _, None) (λ _, true) true true 7 _ Hwf).
Defined.
