(* ===== verification/SipVal.v ===== *)
(** * The values of the common headers

    The grammar of the values that the decoder takes apart: parameters, the
    addresses of To and From, sequence numbers and Via; each text of the grammar
    is accepted, and what is stored are its parts (param.c, addr.c, cseq.c,
    via.c). *)
From stdpp Require Import base tactics list numbers strings option.
From Stdlib Require Import Ascii.
From S2P Require Import Prelude Mbuf Fmt Print Regex Uri Hash Sip SipSafe.

(** ** Words *)

Definition spaces : string := String "032"%char (String "009"%char (String "013"%char (String "010"%char EmptyString))).
Definition quotes : string := String "034"%char (String "092"%char EmptyString).

Definition white (w : list Z) : bool := forallb (one_of spaces) w.

(** A word without white space, or a quoted string. *)
Inductive word := Bare (w : list Z) | Quote (b : list Z).

Definition word_text (w : word) : list Z := match w with Bare w => w | Quote b => dquote :: b ++ [dquote] end.
Definition word_value (w : word) : list Z := match w with Bare w => w | Quote b => b end.

(** A word that ends at a character of [stop]. *)
Definition word_ok (stop : string) (w : word) : bool :=
  match w with
  | Bare w => bool_decide (w ≠ []) && free_of (spaces ++ stop) w && free_of quotes w
  | Quote b => quoted_body b false
  end.

Lemma one_of_app s s' c : one_of (s ++ s') c = one_of s c || one_of s' c.
Proof.
  unfold one_of. assert (E : bytes_of (s ++ s') = bytes_of s ++ bytes_of s').
  { induction s as [|a s IH]; [done|]. change (char_of a :: bytes_of (s +:+ s') = char_of a :: bytes_of s ++ bytes_of s'). by rewrite IH. }
  rewrite E, (bool_decide_ext (c ∈ bytes_of s ++ bytes_of s') (c ∈ bytes_of s ∨ c ∈ bytes_of s')) by apply elem_of_app.
  apply bool_decide_or.
Qed.

Lemma free_unquoted u : free_of quotes u = true → forallb unquoted_char u = true.
Proof.
  unfold free_of. rewrite !forallb_forall. intros Hu c Hc. specialize (Hu c Hc). unfold unquoted_char.
  rewrite <- Hu. f_equal. unfold one_of. apply bool_decide_ext. change (bytes_of quotes) with [dquote; backslash].
  rewrite !elem_of_cons, elem_of_nil. tauto.
Qed.

Lemma white_starts s u v : starts_free s v = true → (∀ c, one_of spaces c = true → one_of s c = false) → white u = true →
  starts_free s (u ++ v) = true.
Proof.
  intros Hv Hs Hu. destruct u as [|c u]; [done|]. cbn in *. apply andb_true_iff in Hu as [Hc _]. by rewrite Hs.
Qed.

(** What a word is to a class that knows quotes and ends at [stop]. *)
Lemma greedy_word stop q its w v nmin :
  forallb caseless (bytes_of (spaces ++ stop)) = true → forallb (λ c, negb (one_of quotes c)) (bytes_of (spaces ++ stop)) = true →
  quantifier (chr q) = Some (nmin, 4294967295) → nmin ≤ Z.of_nat (length (word_value w)) →
  Z.of_nat (length (word_text w)) ≤ 4294967295 → word_ok stop w = true → stops (spaces ++ stop) v = true →
  ∃ tl, greedy (Quoted (map One (bytes_of (spaces ++ stop))) (chr q) :: its) (word_text w ++ v) =
    match greedy its v with Matched parts => Matched ((word_value w, tl) :: parts) | r => r end.
Proof.
  intros Hs Hsq Hq Hmin Hmax Hw Hv.
  assert (Hb : breaks (map One (bytes_of (spaces ++ stop))) v).
  { destruct v as [|c v]; [done|]. cbn [stops] in Hv. unfold breaks. rewrite (in_class_set true) by done. rewrite Hv. split; [done|].
    rewrite forallb_forall in Hsq. unfold one_of in Hv. apply bool_decide_eq_true in Hv. apply list_elem_of_In, Hsq, negb_true_iff in Hv.
    unfold one_of in Hv. apply bool_decide_eq_false in Hv. change (bytes_of quotes) with [dquote; backslash] in Hv.
    rewrite !elem_of_cons in Hv. tauto. }
  destruct w as [w|b]; cbn [word_text word_value word_ok] in *.
  - rewrite !andb_true_iff in Hw. destruct Hw as [[_ Hf] Hfq]. exists v.
    apply (greedy_unquoted _ _ _ w v nmin 4294967295); [done|lia|by apply free_of_class|by apply free_unquoted|done].
  - cbn [length] in Hmax. rewrite length_app in Hmax. cbn [length] in Hmax. exists (dquote :: v). cbn [Datatypes.app]. rewrite <- app_assoc.
    apply (greedy_quoted _ _ _ b v nmin 4294967295); (done || lia).
Qed.

(** ** Parameters *)

Record param := Param {
  pa_pre : list Z;
  pa_name : list Z;
  pa_post : list Z;
  pa_val : option (list Z * word * list Z)
}.

Definition param_text (x : param) : list Z :=
  pa_pre x ++ pa_name x ++ pa_post x ++
  match pa_val x with Some (u, w, v) => chr "=" :: u ++ word_text w ++ v | None => [] end.

Definition param_ok (x : param) : bool :=
  white (pa_pre x) && white (pa_post x) && bool_decide (pa_name x ≠ []) && free_of (spaces ++ ";=") (pa_name x) &&
  match pa_val x with
  | Some (u, w, v) => white u && white v && word_ok ";" w && bool_decide (word_value w ≠ []) && free_of ";" (word_text w)
  | None => true
  end.

(** The value of the first parameter with this name that has one. *)
Fixpoint param_value (name : list Z) (ps : list param) : option (list Z) :=
  match ps with
  | [] => None
  | x :: ps =>
      match pa_val x with
      | Some (_, w, _) => if bool_decide (map tolower (pa_name x) = map tolower name) then Some (word_value w) else param_value name ps
      | None => param_value name ps
      end
  end.

(** Parameters behind white space. *)
Definition tail_text (lead : list Z) (ps : list param) : list Z := lead ++ params_text (map param_text ps).

Definition val_items (name : list Z) : list item :=
  Lit (chr ";") :: bracket false spaces "*" :: map Lit name ++
  [bracket false spaces "*"; Lit (chr "="); bracket false spaces "*"; Quoted (map One (bytes_of (spaces ++ ";"))) (chr "+")].

Lemma lower_prefix_spec name bs : lower_prefix name bs = true ↔ map tolower (take (length name) bs) = map tolower name.
Proof.
  revert bs. induction name as [|c name IH]; intros bs; [by destruct bs|]. destruct bs as [|b bs]; [done|].
  cbn [lower_prefix length take map]. rewrite andb_true_iff, bool_decide_eq_true, IH. split; [intros [-> ->]; done|by intros [= -> ->]].
Qed.

Lemma white_free s u : (∀ c, one_of spaces c = true → one_of s c = false) → white u = true → free_of s u = true.
Proof. intros Hs. unfold white, free_of. rewrite !forallb_forall. intros Hu c Hc. by rewrite Hs by auto. Qed.

Lemma space_not s : forallb (λ c, negb (one_of s c)) (bytes_of spaces) = true → ∀ c, one_of spaces c = true → one_of s c = false.
Proof. rewrite forallb_forall. intros Hs c Hc%bool_decide_eq_true%list_elem_of_In%Hs. by apply negb_true_iff. Qed.

Lemma param_text_free x : param_ok x = true → free_of ";" (param_text x) = true.
Proof.
  unfold param_ok. rewrite !andb_true_iff. intros [[[[Hpre Hpost] Hne] Hname] Hval]. unfold param_text. rewrite !free_of_app.
  assert (Hw : ∀ u, white u = true → free_of ";" u = true) by (intros u; apply white_free, space_not; done).
  rewrite (Hw _ Hpre), (Hw _ Hpost). assert (free_of ";" (pa_name x) = true) as -> by free_weaken. cbn [andb].
  destruct (pa_val x) as [[[u w] v]|]; [|done]. rewrite !andb_true_iff in Hval. destruct Hval as [[[[Hu Hv] _] _] Hw'].
  change (chr "=" :: u ++ word_text w ++ v) with ([chr "="] ++ u ++ word_text w ++ v).
  by rewrite !free_of_app, (Hw _ Hu), (Hw _ Hv), Hw'.
Qed.

(** What follows the name of a parameter in the text. *)
Definition param_rest (x : param) : list Z :=
  pa_post x ++ match pa_val x with Some (u, w, v) => chr "=" :: u ++ word_text w ++ v | None => [] end.

Definition name_stop : string := spaces ++ ";=".

Lemma param_rest_stop x R : param_ok x = true → stops ";" R = true → stops name_stop (param_rest x ++ R) = true.
Proof.
  unfold param_ok. rewrite !andb_true_iff. intros [[[[_ Hpost] _] _] _] HR. unfold param_rest.
  destruct (pa_post x) as [|c u]; cbn [Datatypes.app].
  - destruct (pa_val x) as [[[u w] v]|]; [done|]. cbn. stops_weaken.
  - cbn in Hpost. apply andb_true_iff in Hpost as [Hc _]. cbn [stops]. by apply (one_of_incl spaces name_stop eq_refl).
Qed.

(** A name is a prefix of the text only with what follows it. *)
Lemma lower_prefix_split name nm tl : forallb isalnum name = true → stops name_stop tl = true →
  lower_prefix name (nm ++ tl) = true → ∃ a b, nm = a ++ b ∧ length a = length name ∧ map tolower a = map tolower name.
Proof.
  intros Hn Htl Hp. revert nm Hp. induction name as [|c name IH]; intros nm Hp; [by exists [], nm|].
  cbn [forallb] in Hn. apply andb_true_iff in Hn as [Hc Hn]. destruct nm as [|b nm]; cbn [Datatypes.app lower_prefix] in Hp.
  - exfalso. destruct tl as [|d tl]; [done|]. cbn [lower_prefix stops] in *. apply andb_true_iff in Hp as [Hd _]. apply bool_decide_eq_true in Hd.
    assert (Hd1 : caseless d = true ∧ isalnum d = false).
    { apply bool_decide_eq_true in Htl.
      assert (Hall : forallb (λ d, caseless d && negb (isalnum d)) (bytes_of name_stop) = true) by done.
      rewrite forallb_forall in Hall. apply list_elem_of_In, Hall in Htl. by apply andb_true_iff in Htl as [? ?%negb_true_iff]. }
    destruct Hd1 as [Hd1 Hd2]. symmetry in Hd. apply (proj1 (tolower_caseless d c Hd1)) in Hd. subst. congruence.
  - apply andb_true_iff in Hp as [Hb Hp]. apply bool_decide_eq_true in Hb. destruct (IH Hn nm Hp) as (a & r & -> & Hl & Ha).
    exists (b :: a), r. cbn. split; [done|]. split; [by rewrite Hl|]. by rewrite Ha, Hb.
Qed.

(** The items behind the name. *)
Definition val_tail : list item :=
  [bracket false spaces "*"; Lit (chr "="); bracket false spaces "*"; Quoted (map One (bytes_of (spaces ++ ";"))) (chr "+")].

Lemma greedy_white its u v : Z.of_nat (length u) ≤ 4294967295 → white u = true → starts_free spaces v = true →
  greedy (bracket false spaces "*" :: its) (u ++ v) = match greedy its v with Matched parts => Matched ((u, v) :: parts) | w => w end.
Proof. intros Hl Hu Hv. by apply (greedy_of spaces). Qed.

(** The value of a parameter that has the name. *)
Lemma val_found x R : param_ok x = true → stops ";" R = true → Z.of_nat (length (param_rest x ++ R)) ≤ 4294967295 →
  match pa_val x with
  | Some (_, w, _) => ∃ a b tl, greedy val_tail (param_rest x ++ R) = Matched [a; b; (word_value w, tl)]
  | None => greedy val_tail (param_rest x ++ R) = Mismatch ∨ greedy val_tail (param_rest x ++ R) = Exhausted ∧ R = []
  end.
Proof.
  unfold param_ok, param_rest. rewrite !andb_true_iff. intros [[[[_ Hpost] _] _] Hval] HR Hl. rewrite <- app_assoc in Hl |- *.
  rewrite !length_app in Hl. unfold val_tail. destruct (pa_val x) as [[[u w] v]|].
  - rewrite !andb_true_iff in Hval. destruct Hval as [[[[Hu Hv] Hw] Hne] _]. apply bool_decide_eq_true in Hne.
    cbn [Datatypes.app length] in Hl |- *. rewrite <- !app_assoc. rewrite !length_app in Hl.
    rewrite (greedy_white _ (pa_post x)) by (lia || done). rewrite greedy_lit.
    rewrite (greedy_white _ u); [|lia|done|].
    2: { destruct w as [w|b]; [|done]. cbn [word_ok word_text] in *. rewrite !andb_true_iff in Hw. destruct Hw as [[_ Hf] _].
      destruct w as [|c w]; [done|]. cbn in Hf |- *. apply andb_true_iff in Hf as [Hf _]. rewrite one_of_app, negb_orb in Hf.
      by apply andb_true_iff in Hf as [? _]. }
    destruct (greedy_word ";" "+" [] w (v ++ R) 1) as [tl E]; [done|done|done| |lia|done| |].
    { destruct (word_value w); [done|simpl; lia]. }
    { destruct v as [|c v]; cbn [Datatypes.app]; [stops_weaken|]. cbn in Hv |- *. apply andb_true_iff in Hv as [Hv _].
      by rewrite one_of_app, Hv. }
    rewrite E. by eexists _, _, _.
  - cbn [Datatypes.app] in Hl |- *. rewrite (greedy_white _ (pa_post x)); [|lia|done|].
    2: { destruct R as [|c R]; [done|]. cbn [stops starts_free] in *. apply bool_decide_eq_true, list_elem_of_singleton in HR as ->. done. }
    destruct R as [|c R]; [by right|]. left. cbn [stops] in HR. apply bool_decide_eq_true, list_elem_of_singleton in HR as ->. done.
Qed.

Lemma params_stop ps : stops ";" (params_text ps) = true.
Proof. by destruct ps. Qed.

(** A value that is found takes room in the text. *)
Lemma param_value_room name ps c : param_value name ps = Some c → (length name ≤ length (params_text (map param_text ps)))%nat.
Proof.
  induction ps as [|x ps IH]; [done|]. cbn [param_value]. unfold params_text. cbn [map concat]. fold (params_text (map param_text ps)).
  rewrite length_app. cbn [length]. destruct (pa_val x) as [[[u w] v]|]; [|intros H; specialize (IH H); lia].
  case_bool_decide as E; [|intros H; specialize (IH H); lia]. intros _. apply (f_equal length) in E. rewrite !length_map in E.
  unfold param_text. rewrite !length_app. lia.
Qed.

Lemma search_value name ps : forallb isalnum name = true → Forall (λ x, param_ok x = true) ps →
  Z.of_nat (length (params_text (map param_text ps))) ≤ 4294967295 →
  match param_value name ps with
  | Some c => ∃ a b d tl, search (val_items name) (params_text (map param_text ps)) = Some [a; b; d; (c, tl)]
  | None => search (val_items name) (params_text (map param_text ps)) = None
  end.
Proof.
  intros Hn. induction ps as [|x ps IH]; intros Hps Hl; [done|]. apply Forall_cons_1 in Hps as [Hx Hps].
  unfold params_text in Hl |- *. cbn [map concat] in Hl |- *. fold (params_text (map param_text ps)) in *. set (R := params_text _) in *.
  rewrite length_app in Hl. cbn [length] in Hl. specialize (IH Hps ltac:(lia)). pose proof (params_stop (map param_text ps)) as HR. fold R in HR.
  pose proof (param_text_free x Hx) as Hfree. pose proof Hx as Hx'. unfold param_ok in Hx'. rewrite !andb_true_iff in Hx'.
  destruct Hx' as [[[[Hpre _] Hne] Hname] _]. apply bool_decide_eq_true in Hne.
  assert (Et : param_text x = pa_pre x ++ pa_name x ++ param_rest x) by done.
  (* The expression at the semicolon. *)
  assert (Hstart : ∃ a, greedy (val_items name) (chr ";" :: param_text x ++ R) =
    match greedy (map Lit name ++ val_tail) (pa_name x ++ param_rest x ++ R) with Matched parts => Matched (a :: parts) | w => w end).
  { unfold val_items. rewrite greedy_lit, Et, <- !app_assoc. rewrite Et, !length_app in Hl. eexists.
    apply (greedy_white _ (pa_pre x)); [lia|done|]. destruct (pa_name x) as [|c nm]; [done|]. cbn in Hname |- *.
    apply andb_true_iff in Hname as [Hc _]. rewrite one_of_app, negb_orb in Hc. by apply andb_true_iff in Hc as [? _]. }
  destruct Hstart as [a Hstart]. change ((chr ";" :: param_text x) ++ R) with (chr ";" :: param_text x ++ R). cbn [search].
  assert (Hnext : search (val_items name) (param_text x ++ R) = search (val_items name) R) by (by apply search_params).
  assert (Hskip : greedy (val_items name) (chr ";" :: param_text x ++ R) = Mismatch ∨
      greedy (val_items name) (chr ";" :: param_text x ++ R) = Exhausted ∧ param_value name ps = None →
    match param_value name ps with
    | Some c => ∃ a b d tl, match greedy (val_items name) (chr ";" :: param_text x ++ R) with
        Matched parts => Some parts | Mismatch => search (val_items name) (param_text x ++ R) | Exhausted => None end = Some [a; b; d; (c, tl)]
    | None => match greedy (val_items name) (chr ";" :: param_text x ++ R) with
        Matched parts => Some parts | Mismatch => search (val_items name) (param_text x ++ R) | Exhausted => None end = None
    end).
  { intros [->|[-> ->]]; [|done]. rewrite Hnext. exact IH. }
  assert (Hlen : Z.of_nat (length (param_rest x ++ R)) ≤ 4294967295).
  { rewrite Et, !length_app in Hl. rewrite length_app. lia. }
  pose proof (val_found x R Hx HR Hlen) as Hval. pose proof (param_rest_stop x R Hx HR) as Hstop.
  pose proof (greedy_lits val_tail name (pa_name x ++ param_rest x ++ R)) as Hlits.
  cbn [param_value]. destruct (lower_prefix name (pa_name x ++ param_rest x ++ R)) eqn:Ep.
  - destruct (lower_prefix_split name _ _ Hn Hstop Ep) as (u & v & Enm & Hul & Hue). rewrite Enm, <- app_assoc, <- Hul, drop_app_length in Hlits.
    rewrite Enm, <- app_assoc, Hlits in Hstart. destruct v as [|c v].
    + rewrite app_nil_r in Enm. cbn [Datatypes.app] in Hstart. rewrite Enm, Hue. destruct (pa_val x) as [[[s w] t]|].
      * rewrite (bool_decide_eq_true_2 (_ = _)) by done. destruct Hval as (b & d & tl & Hval). rewrite Hstart, Hval. by eexists _, _, _, _.
      * apply Hskip. rewrite Hstart. destruct Hval as [->|[-> HRn]]; [by left|right]. split; [done|].
        unfold R in HRn. by destruct ps.
    + (* The name is longer. *)
      assert (Hmis : greedy val_tail ((c :: v) ++ param_rest x ++ R) = Mismatch).
      { rewrite Enm, free_of_app in Hname. apply andb_true_iff in Hname as [_ Hv]. cbn in Hv. apply andb_true_iff in Hv as [Hc _].
        rewrite one_of_app, negb_orb in Hc. apply andb_true_iff in Hc as [Hc1 Hc2]. unfold val_tail.
        pose proof (greedy_white [Lit (chr "="); bracket false spaces "*"; Quoted (map One (bytes_of (spaces ++ ";"))) (chr "+")] []
          ((c :: v) ++ param_rest x ++ R) ltac:(simpl; lia) eq_refl Hc1) as Hw. cbn [Datatypes.app] in Hw |- *. rewrite Hw. cbn [greedy].
        rewrite bool_decide_eq_false_2; [done|]. rewrite tolower_caseless by done. intros <-. done. }
      rewrite Hmis in Hstart. assert (Hdiff : map tolower (pa_name x) ≠ map tolower name).
      { intros E. apply (f_equal length) in E. rewrite !length_map, Enm, length_app in E. simpl in E. lia. }
      destruct (pa_val x) as [[[s w] t]|]; [rewrite (bool_decide_eq_false_2 (_ = _)) by done|]; apply Hskip; by left.
  - assert (Hdiff : map tolower (pa_name x) ≠ map tolower name).
    { intros E. apply not_true_iff_false in Ep. apply Ep, lower_prefix_spec. apply (f_equal length) in E as El. rewrite !length_map in El.
      by rewrite <- El, take_app_length, E. }
    assert (Hs : greedy (val_items name) (chr ";" :: param_text x ++ R) = Mismatch ∨
      greedy (val_items name) (chr ";" :: param_text x ++ R) = Exhausted ∧ param_value name ps = None).
    { rewrite Hstart. destruct Hlits as [->|[-> Hshort]]; [by left|right]. split; [done|].
      destruct (param_value name ps) as [c|] eqn:Ev; [|done]. apply param_value_room in Ev. fold R in Ev.
      rewrite !length_app in Hshort. lia. }
    destruct (pa_val x) as [[[s w] t]|]; [rewrite (bool_decide_eq_false_2 (_ = _)) by done|]; by apply Hskip.
Qed.

Lemma val_items_ok name : forallb item_ok (val_items name) = true ∧ classes (val_items name) = 4%nat.
Proof.
  unfold val_items. split.
  - cbn [forallb]. rewrite forallb_app. apply andb_true_iff. split; [done|]. apply andb_true_iff. split; [done|].
    apply andb_true_iff. split; [by induction name|]. vm_compute. done.
  - cbn [classes bracket]. by induction name.
Qed.

(** [sip_param_decode] asks for this expression. *)
Definition value_expr (name : list Z) : outcome (list Z) :=
  param_expr (bytes_of ";" ++ ws_class) (ws_class ++ bytes_of "=" ++ ws_class ++ bytes_of "[~" ++ wsp ++ bytes_of ";]+") name.

Lemma tag_expr : value_expr (bytes_of "tag") = Ret (expr_of (val_items (bytes_of "tag"))).
Proof. vm_compute. reflexivity. Qed.

Lemma branch_expr : value_expr (bytes_of "branch") = Ret (expr_of (val_items (bytes_of "branch"))).
Proof. vm_compute. reflexivity. Qed.

(** Parameters behind white space, or nothing. *)
Definition params_ok (lead : list Z) (ps : list param) : Prop :=
  white lead = true ∧ Forall (λ x, param_ok x = true) ps ∧ Z.of_nat (length (tail_text lead ps)) ≤ 4294967295.

(** What a text of parameters shows of one of them. *)
Definition finds (q : Z * option pl) (o : option (list Z)) : Prop :=
  match o with
  | Some c => fst q = 0 ∧ ∃ v, snd q = Some v ∧ views v c
  | None => q = (ENOENT, None)
  end.

Lemma param_decode_run name lead ps p :
  forallb isalnum name = true → value_expr name = Ret (expr_of (val_items name)) → params_ok lead ps →
  denotes p (tail_text lead ps) → ∃ q, sip_param_decode p name = Ret q ∧ finds q (param_value name ps).
Proof.
  intros Hn He (Hlead & Hps & Hl) Hp. unfold sip_param_decode. fold (value_expr name). rewrite He. cbn [mbind outcome_bind].
  unfold tail_text in *. rewrite length_app in Hl.
  assert (Hw : free_of ";" lead = true) by (apply white_free; [apply space_not|]; done).
  pose proof (search_params (bracket false spaces "*" :: map Lit name ++ val_tail) lead (map param_text ps) Hw) as Hsp.
  change (Lit (chr ";") :: bracket false spaces "*" :: map Lit name ++ val_tail) with (val_items name) in Hsp.
  pose proof (search_value name ps Hn Hps ltac:(lia)) as Hs. rewrite <- Hsp in Hs. destruct (val_items_ok name) as [Hok Hc].
  destruct Hp as [[rest ->]|[Hnil ->]].
  - destruct (param_value name ps) as [c|].
    + destruct Hs as (a & b & d & tl & Hs). pose proof (regex_some (val_items name) _ rest _ ltac:(done) Hok Hs) as Hr. rewrite Hc in Hr.
      rewrite Hr. cbn [mbind outcome_bind fst snd map]. rewrite (bool_decide_eq_false_2 (0 ≠ 0)) by (by intros []).
      cbn [result lookup list_lookup default from_option id of_option mbind outcome_bind]. eexists. split; [done|]. split; [done|].
      eexists. split; [done|]. apply (views_part rest (c, tl)).
    + destruct (regex_none (val_items name) _ rest ltac:(done) Hok Hs) as [caps Hr]. rewrite Hc in Hr. rewrite Hr. cbn [mbind outcome_bind fst].
      rewrite (bool_decide_eq_true_2 (ENOENT ≠ 0)) by done. eexists. split; [done|]. done.
  - apply app_eq_nil in Hnil as [_ Hnil]. destruct ps as [|x ps]; [|done]. cbn. eexists. split; [done|]. done.
Qed.

(** ** CSeq *)

(** A number, white space, a method, and what follows behind white space. *)
Record cseq_text := CseqText { ct_num : list Z; ct_sp : list Z; ct_name : list Z; ct_more : list Z }.

Definition cseq_bytes (x : cseq_text) : list Z := ct_num x ++ ct_sp x ++ ct_name x ++ ct_more x.

Definition cseq_ok (x : cseq_text) : Prop :=
  ct_num x ≠ [] ∧ all_digits (ct_num x) = true ∧ ct_sp x ≠ [] ∧ white (ct_sp x) = true ∧
  ct_name x ≠ [] ∧ free_of spaces (ct_name x) = true ∧ stops spaces (ct_more x) = true ∧ Z.of_nat (length (cseq_bytes x)) ≤ 4294967295.

(** The number of digits, on 32 bits. *)
Definition number (ds : list Z) : Z := digits_value 10 (map (λ c, c - 48) ds) `mod` 2 ^ 32.

Definition cseq_items : list item :=
  [Class false [Range (chr "0") (chr "9")] (chr "+"); bracket false spaces "+"; bracket true spaces "+"].

(** At least one character of white space. *)
Lemma greedy_spaces its u v : u ≠ [] → Z.of_nat (length u) ≤ 4294967295 → white u = true → starts_free spaces v = true →
  greedy (bracket false spaces "+" :: its) (u ++ v) = match greedy its v with Matched parts => Matched ((u, v) :: parts) | w => w end.
Proof.
  intros Hne Hl Hu Hv. apply (greedy_class false _ (chr "+") its u v 1 4294967295 eq_refl); [destruct u; [done|simpl in *; lia]| |].
  - unfold white in Hu. clear Hne Hl. induction u as [|c u IH]; [done|]. cbn [forallb] in *. apply andb_true_iff in Hu as [Hc Hu].
    by rewrite (in_class_set false), Hc, IH.
  - destruct v as [|c v]; [done|]. rewrite (in_class_set false) by done. by apply negb_true_iff.
Qed.

Lemma digits_number ds rest : all_digits ds = true → ds ≠ [] →
  pl_u32 (Pl (Some (ds ++ rest)) (Z.of_nat (length ds))) = Ret (number ds).
Proof.
  intros Hd Hne. unfold pl_u32. rewrite (pl_num_run 4294967296) by lia.
  assert (E : mapM dec_digit ds = Some (map (λ c, c - 48) ds)).
  { clear Hne. induction ds as [|c ds IH]; [done|]. cbn in Hd. apply andb_true_iff in Hd as [Hc Hd]. apply bool_decide_eq_true in Hc.
    change (mapM dec_digit (c :: ds)) with (y ← dec_digit c; k ← mapM dec_digit ds; mret (y :: k)). rewrite IH by done.
    unfold dec_digit. rewrite u8_id by lia. by rewrite bool_decide_eq_false_2 by lia. }
  by rewrite E.
Qed.

Lemma cseq_decode_run x rest old : cseq_ok x →
  ∃ c, sip_cseq_decode (Pl (Some (cseq_bytes x ++ rest)) (Z.of_nat (length (cseq_bytes x)))) old = Ret (0, c) ∧
    cs_num c = number (ct_num x) ∧ views (cs_met c) (ct_name x).
Proof.
  intros (Hne & Hd & Hsne & Hs & Hmne & Hm & Hmore & Hl). unfold sip_cseq_decode.
  assert (Hlen := Hl). unfold cseq_bytes in Hlen. rewrite !length_app in Hlen.
  assert (Hg : ∃ a, greedy cseq_items (cseq_bytes x) = Matched [(ct_num x, ct_sp x ++ ct_name x ++ ct_more x); a; (ct_name x, ct_more x)]).
  { unfold cseq_bytes, cseq_items. eexists.
    rewrite (greedy_class false _ (chr "+") _ (ct_num x) _ 1 4294967295); [|done| | |].
    2: { destruct (ct_num x); [done|simpl in *; lia]. }
    2: { clear -Hd. unfold all_digits in Hd. induction (ct_num x) as [|c u IH]; [done|]. cbn [forallb] in *. apply andb_true_iff in Hd as [Hc Hd]. by rewrite in_digits, Hc, IH. }
    2: { destruct (ct_sp x) as [|c u]; [done|]. apply andb_true_iff in Hs as [Hc _]. cbn [Datatypes.app]. rewrite in_digits. apply bool_decide_eq_false_2.
      apply bool_decide_eq_true in Hc. change (bytes_of spaces) with [32; 9; 13; 10] in Hc. rewrite !elem_of_cons, elem_of_nil in Hc. lia. }
    rewrite (greedy_spaces _ (ct_sp x)); [|done|lia|done|].
    2: { destruct (ct_name x) as [|c u]; [done|]. by apply andb_true_iff in Hm as [Hc _]. }
    rewrite (greedy_not spaces "+" _ (ct_name x) _ 1 4294967295); [|done|done| |done|done].
    2: { destruct (ct_name x); [done|simpl in *; lia]. }
    cbn [greedy]. reflexivity. }
  destruct Hg as [a Hg].
  assert (Hne' : cseq_bytes x ≠ []) by (unfold cseq_bytes; by destruct (ct_num x)).
  pose proof (regex_match cseq_items (expr_of cseq_items) _ rest _ eq_refl ltac:(done) ltac:(vm_compute; done) Hne' Hg) as Hr.
  change (classes cseq_items) with 3%nat in Hr.
  assert (Ee : bytes_of "[0-9]+[" ++ wsp ++ bytes_of "]+[^" ++ wsp ++ bytes_of "]+" = expr_of cseq_items) by (vm_compute; reflexivity).
  rewrite Ee, Hr. cbn [mbind outcome_bind map]. rewrite (bool_decide_eq_false_2 (0 ≠ 0)) by (by intros []).
  cbn [result lookup list_lookup default from_option id of_option mbind outcome_bind].
  assert (En : ∀ tl, pl_u32 (part_pl rest (ct_num x, tl)) = Ret (number (ct_num x))) by (intros tl; by apply (digits_number _ (tl ++ rest))).
  rewrite En. cbn [mbind outcome_bind]. eexists. split; [done|]. split; [done|].
  apply (views_part rest (ct_name x, ct_more x)).
Qed.

(** ** Addresses

    A URI in angle brackets behind an optional name, or a URI alone; either with
    parameters of the header. *)
Inductive addr_text :=
| NameAddr (name : option word) (sp : list Z) (u : parts) (lead : list Z) (ps : list param)
| AddrSpec (u : parts) (ps : list param).

Definition name_text (name : option word) : list Z := match name with Some w => word_text w | None => [] end.
Definition name_value (name : option word) : list Z := match name with Some w => word_value w | None => [] end.

Definition addr_uri (x : addr_text) : parts := match x with NameAddr _ _ u _ _ => u | AddrSpec u _ => u end.
Definition addr_lead (x : addr_text) : list Z := match x with NameAddr _ _ _ lead _ => lead | AddrSpec _ _ => [] end.
Definition addr_params (x : addr_text) : list param := match x with NameAddr _ _ _ _ ps => ps | AddrSpec _ ps => ps end.
Definition addr_name (x : addr_text) : list Z := match x with NameAddr n _ _ _ _ => name_value n | AddrSpec _ _ => [] end.

Definition addr_bytes (x : addr_text) : list Z :=
  match x with
  | NameAddr n sp u lead ps => name_text n ++ sp ++ chr "<" :: uri_text u ++ chr ">" :: tail_text lead ps
  | AddrSpec u ps => uri_text u ++ tail_text [] ps
  end.

Definition addr_ok (x : addr_text) : Prop :=
  parts_ok (addr_uri x) ∧ params_ok (addr_lead x) (addr_params x) ∧ Z.of_nat (length (addr_bytes x)) ≤ 4294967295 ∧
  match x with
  | NameAddr n sp u _ _ => match n with Some w => word_ok "<" w = true | None => True end ∧ white sp = true ∧ free_of ">" (uri_text u) = true
  | AddrSpec u ps => free_of ";" (uri_text u) = true ∧ free_of "<" (addr_bytes x) = true
  end.

(** The decoded address. *)
Record addr_shows `{inet} (x : addr_text) (a : sip_addr) : Prop := {
  sh_name : denotes (ad_dname a) (addr_name x);
  sh_auri : views (ad_auri a) (uri_text (addr_uri x));
  sh_uri : uri_is (ad_uri a) (addr_uri x) (addr_family (p_host (addr_uri x)));
  sh_params : denotes (ad_params a) (tail_text (addr_lead x) (addr_params x))
}.

Definition addr_items : list item :=
  [Quoted (map One (bytes_of (spaces ++ "<"))) (chr "*"); bracket false spaces "*"; Lit (chr "<"); bracket true ">" "+"; Lit (chr ">");
   bracket true "" "*"].
Definition spec_items : list item := [bracket true ";" "+"; bracket true "" "*"].

Lemma greedy_rest u : Z.of_nat (length u) ≤ 4294967295 → greedy [bracket true "" "*"] u = Matched [(u, [])].
Proof.
  intros Hl. rewrite <- (app_nil_r u) at 1. rewrite (greedy_not "" "*" _ u [] 0 4294967295); [done|done|done|lia|apply free_of_nil|done].
Qed.

Lemma uri_text_ne u : parts_ok u → uri_text u ≠ [].
Proof. intros [[Hs _] _ _ _ _ _ _ _ _]. unfold uri_text. by destruct (p_scheme u). Qed.

Lemma greedy_name_addr n sp u t :
  match n with Some w => word_ok "<" w = true | None => True end → white sp = true → uri_text u ≠ [] → free_of ">" (uri_text u) = true →
  Z.of_nat (length (name_text n ++ sp ++ chr "<" :: uri_text u ++ chr ">" :: t)) ≤ 4294967295 →
  ∃ tl b, greedy addr_items (name_text n ++ sp ++ chr "<" :: uri_text u ++ chr ">" :: t) =
    Matched [(name_value n, tl); b; (uri_text u, chr ">" :: t); (t, [])].
Proof.
  intros Hn Hsp Hu Huf Hl. rewrite !length_app in Hl. cbn [length] in Hl. rewrite length_app in Hl. cbn [length] in Hl. unfold addr_items.
  assert (Hstop : ∀ v, stops (spaces ++ "<") (sp ++ chr "<" :: v) = true).
  { intros v. destruct sp as [|c sp']; [done|]. cbn in Hsp |- *. apply andb_true_iff in Hsp as [Hc _]. by rewrite one_of_app, Hc. }
  set (its := [bracket false spaces "*"; _; _; _; _]). set (v := sp ++ _).
  assert (E1 : ∃ tl, greedy (Quoted (map One (bytes_of (spaces ++ "<"))) (chr "*") :: its) (name_text n ++ v) =
    match greedy its v with Matched parts => Matched ((name_value n, tl) :: parts) | r => r end).
  { destruct n as [w|]; cbn [name_text name_value] in *.
    - apply (greedy_word "<" "*" its w v 0); [done|done|done|lia|lia|done|apply Hstop].
    - exists v. apply (greedy_unquoted _ (chr "*") its [] v 0 4294967295); [done|simpl; lia|done|done|].
      unfold v. specialize (Hstop (uri_text u ++ chr ">" :: t)). destruct (sp ++ chr "<" :: uri_text u ++ chr ">" :: t) as [|c r] eqn:Ec; [done|].
      cbn [stops] in Hstop. unfold breaks. rewrite (in_class_set true) by done. rewrite Hstop. split; [done|].
      apply bool_decide_eq_true in Hstop. change (bytes_of (spaces ++ "<")) with [32; 9; 13; 10; 60] in Hstop.
      rewrite !elem_of_cons, elem_of_nil in Hstop. unfold dquote, backslash. lia. }
  destruct E1 as [tl ->]. unfold its, v. rewrite (greedy_white _ sp) by (lia || done). rewrite greedy_lit.
  rewrite (greedy_not ">" "+" _ (uri_text u) _ 1 4294967295); [|done|done| |done|done].
  2: { destruct (uri_text u); [done|simpl in *; lia]. }
  rewrite greedy_lit, greedy_rest by lia. by eexists _, _.
Qed.

Section address.
Context `{inet}.

Lemma null_if_empty_denotes p bs : views p bs → denotes (null_if_empty p) bs.
Proof using. clear.
  intros [rest ->]. unfold null_if_empty. cbn [pl_l]. case_bool_decide as E; [right|left; by exists rest].
  destruct bs; [done|simpl in E; lia].
Qed.

(** The end of [sip_addr_decode]. *)
Lemma addr_finish x dname rest1 params : parts_ok (addr_uri x) →
  denotes dname (addr_name x) → denotes params (tail_text (addr_lead x) (addr_params x)) →
  ∃ a, (q ← uri_decode (Pl (Some (uri_text (addr_uri x) ++ rest1)) (Z.of_nat (length (uri_text (addr_uri x)))));
        if bool_decide (fst q ≠ 0) then Ret (fst q, addr_zero)
        else Ret (0, SipAddr dname (Pl (Some (uri_text (addr_uri x) ++ rest1)) (Z.of_nat (length (uri_text (addr_uri x))))) (snd q) params)) =
      Ret (0, a) ∧ addr_shows x a.
Proof.
  intros Hu Hd Hp. destruct (uri_decode_run (addr_uri x) rest1 Hu) as (u & -> & Hui). cbn [mbind outcome_bind fst snd].
  rewrite (bool_decide_eq_false_2 (0 ≠ 0)) by (by intros []). eexists. split; [done|]. split; try done. by eexists.
Qed.

Lemma addr_decode_run x rest : addr_ok x →
  ∃ a, sip_addr_decode (Pl (Some (addr_bytes x ++ rest)) (Z.of_nat (length (addr_bytes x)))) = Ret (0, a) ∧ addr_shows x a.
Proof.
  intros (Hu & Hp & Hl & Hx). pose proof (uri_text_ne _ Hu) as Hune. unfold sip_addr_decode.
  assert (Ee : bytes_of "[~" ++ wsp ++ bytes_of "<]*" ++ ws_class ++ bytes_of "<[^>]+>[^]*" = expr_of addr_items) by (vm_compute; reflexivity).
  rewrite Ee. destruct x as [n sp u lead ps|u ps]; cbn [addr_bytes addr_uri addr_lead addr_params] in *.
  - destruct Hx as (Hn & Hsp & Huf). destruct (greedy_name_addr n sp u (tail_text lead ps) Hn Hsp Hune Huf Hl) as (tl & b & Hg).
    set (bs := name_text n ++ _) in *. assert (Hne : bs ≠ []) by (unfold bs; intros E; by repeat apply app_eq_nil in E as [_ E]).
    pose proof (regex_match addr_items _ bs rest _ eq_refl ltac:(done) ltac:(vm_compute; done) Hne Hg) as Hr.
    change (classes addr_items) with 4%nat in Hr. rewrite Hr. cbn [mbind outcome_bind fst snd map].
    rewrite (bool_decide_eq_true_2 (0 = 0)) by done. cbn [result lookup list_lookup default from_option id of_option mbind outcome_bind].
    apply (addr_finish (NameAddr n sp u lead ps) _ ((chr ">" :: tail_text lead ps) ++ rest)); [done| |].
    + apply null_if_empty_denotes. apply (views_part rest (name_value n, tl)).
    + apply null_if_empty_denotes. apply (views_part rest (tail_text lead ps, [])).
  - destruct Hx as [Huf Hlt]. set (bs := uri_text u ++ _) in *.
    assert (Hs : search addr_items bs = None).
    { apply (search_absent (chr "<")); [by right; right; left|]. intros b Hb E. apply (proj1 (tolower_caseless (chr "<") b eq_refl)) in E. subst b.
      exact (free_of_notin "<" (chr "<") bs eq_refl Hlt Hb). }
    destruct (regex_none addr_items bs rest ltac:(done) ltac:(vm_compute; done) Hs) as [caps Hr].
    change (classes addr_items) with 4%nat in Hr. rewrite Hr. cbn [mbind outcome_bind fst].
    rewrite (bool_decide_eq_false_2 (ENOENT = 0)) by done.
    assert (Hg : greedy spec_items bs = Matched [(uri_text u, tail_text [] ps); (tail_text [] ps, [])]).
    { unfold bs, spec_items in *. rewrite length_app in Hl. rewrite (greedy_not ";" "+" _ (uri_text u) _ 1 4294967295); [|done|done| |done|].
      - by rewrite greedy_rest by lia.
      - destruct (uri_text u); [done|simpl in *; lia].
      - apply params_stop. }
    assert (Hne : bs ≠ []) by (unfold bs; intros E; by apply app_eq_nil in E as [E _]).
    pose proof (regex_match spec_items (expr_of spec_items) bs rest _ eq_refl ltac:(done) ltac:(vm_compute; done) Hne Hg) as Hr2.
    change (classes spec_items) with 2%nat in Hr2.
    assert (Ee2 : bytes_of "[^;]+[^]*" = expr_of spec_items) by (vm_compute; reflexivity).
    rewrite Ee2, Hr2. cbn [mbind outcome_bind fst snd map]. rewrite (bool_decide_eq_false_2 (0 ≠ 0)) by (by intros []).
    cbn [result lookup list_lookup default from_option id of_option mbind outcome_bind].
    apply (addr_finish (AddrSpec u ps) _ (tail_text [] ps ++ rest)); [done|by right|left; apply (views_part rest (tail_text [] ps, []))].
Qed.
End address.

(** ** Via *)

Record via_text := ViaText {
  vt_sp1 : list Z;
  vt_sp2 : list Z;
  vt_sp3 : list Z;
  vt_sp4 : list Z;
  vt_transp : list Z;
  vt_sp5 : list Z;
  vt_host : list Z;
  vt_port : Z;
  vt_lead : list Z;
  vt_params : list param
}.

Definition vt_sentby (x : via_text) : list Z := vt_host x ++ colon_text (port_text (vt_port x)).

Definition via_bytes (x : via_text) : list Z :=
  bytes_of "SIP" ++ vt_sp1 x ++ chr "/" :: vt_sp2 x ++ bytes_of "2.0" ++ vt_sp3 x ++ chr "/" :: vt_sp4 x ++ vt_transp x ++ vt_sp5 x ++
  vt_sentby x ++ tail_text (vt_lead x) (vt_params x).

Definition is_letter (c : Z) : bool := bool_decide (65 ≤ c ≤ 90) || bool_decide (97 ≤ c ≤ 122).

Record via_ok (x : via_text) : Prop := {
  vo_white : Forall (λ u, white u = true) [vt_sp1 x; vt_sp2 x; vt_sp3 x; vt_sp4 x; vt_sp5 x] ∧ vt_sp5 x ≠ [];
  vo_transp : vt_transp x ≠ [] ∧ forallb is_letter (vt_transp x) = true;
  vo_host : host_ok (vt_host x) ∧ free_of (";" ++ spaces) (vt_host x) = true;
  vo_port : 0 ≤ vt_port x < 65536;
  vo_params : params_ok (vt_lead x) (vt_params x);
  vo_branch : is_Some (param_value (bytes_of "branch") (vt_params x));
  vo_size : Z.of_nat (length (via_bytes x)) ≤ 4294967295
}.

Definition transp_of (t : list Z) : Z :=
  if decide (t = bytes_of "TCP") then SIP_TRANSP_TCP
  else if decide (t = bytes_of "TLS") then SIP_TRANSP_TLS
  else if decide (t = bytes_of "UDP") then SIP_TRANSP_UDP
  else SIP_TRANSP_NONE.

(** The decoded Via; its address is that of the host where it is one. *)
Record via_shows (sa_set : list Z → option sockaddr) (x : via_text) (v : sip_via) : Prop := {
  vs_val : views (v_val v) (via_bytes x);
  vs_tp : v_tp v = transp_of (vt_transp x);
  vs_sentby : views (v_sentby v) (vt_sentby x);
  vs_addr : let a := default addr_any (sa_set (vt_host x)) in
    v_addr v = SockAddr (sa_text a) (if decide (vt_port x = 0) then sa_port a else vt_port x) (sa_v6 a);
  vs_params : ∃ lead, lead `suffix_of` vt_lead x ∧ views (v_params v) (tail_text lead (vt_params x));
  vs_branch : ∃ b, param_value (bytes_of "branch") (vt_params x) = Some b ∧ views (v_branch v) b
}.

Definition spaces2 : string := String "032"%char spaces.
Definition blanks : string := String "032"%char (String "009"%char (String "013"%char (String "008"%char EmptyString))).

Definition via_items : list item :=
  map Lit (bytes_of "SIP") ++ [bracket false spaces2 "*"; Lit (chr "/"); bracket false spaces "*"] ++ map Lit (bytes_of "2.0") ++
  [bracket false spaces "*"; Lit (chr "/"); bracket false spaces "*"; Class false [Range (chr "A") (chr "Z")] (chr "+");
   bracket false spaces "*"; bracket true (";" ++ spaces) "+"; bracket false blanks "*"; bracket true "" "*"].

Lemma via_expr_items : via_expr = expr_of via_items.
Proof. vm_compute. reflexivity. Qed.

Lemma in_letters c : in_class false [Range (chr "A") (chr "Z")] c = is_letter c.
Proof.
  unfold in_class, expr_match, is_letter. cbn [map existsb cls_range chr_min chr_max].
  change (tolower (chr "A")) with 97. change (tolower (chr "Z")) with 122. rewrite orb_false_r. unfold tolower.
  destruct (decide (65 ≤ c ≤ 90)) as [H1|H1]; destruct (decide (97 ≤ c ≤ 122)) as [H2|H2];
    rewrite ?(bool_decide_eq_true_2 (65 ≤ c ∧ c ≤ 90)), ?(bool_decide_eq_false_2 (65 ≤ c ∧ c ≤ 90)) by lia;
    repeat case_bool_decide; cbn; (done || lia).
Qed.

(** The white space that the class behind the host takes. *)
Lemma split_blanks u : ∃ a b, u = a ++ b ∧ forallb (one_of blanks) a = true ∧ starts_free blanks b = true.
Proof.
  induction u as [|c u (a & b & -> & Ha & Hb)]; [by exists [], []|]. destruct (one_of blanks c) eqn:E.
  - exists (c :: a), b. cbn. by rewrite E, Ha.
  - exists [], (c :: a ++ b). cbn. by rewrite E.
Qed.

Lemma greedy_via x : via_ok x →
  ∃ p1 p2 p3 p4 p5 p6 p7 b1 b2, vt_lead x = b1 ++ b2 ∧
    greedy via_items (via_bytes x) = Matched [p1; p2; p3; p4; (vt_transp x, p5); p6;
      (vt_sentby x, tail_text (vt_lead x) (vt_params x)); p7; (tail_text b2 (vt_params x), [])].
Proof.
  intros [[Hw Hw5] [Htne Ht] [[Hhne Hh1] Hh2] Hport [Hlead _] _ Hl].
  apply Forall_cons_1 in Hw as [Hw1 Hw]. apply Forall_cons_1 in Hw as [Hw2 Hw]. apply Forall_cons_1 in Hw as [Hw3 Hw].
  apply Forall_cons_1 in Hw as [Hw4 Hw]. apply Forall_cons_1 in Hw as [Hws5 _].
  unfold via_bytes in *. set (T := tail_text (vt_lead x) (vt_params x)) in *.
  repeat (rewrite ?length_app in Hl; cbn [length] in Hl). unfold via_items.
  assert (Hlits : ∀ s its v, greedy (map Lit s ++ its) (s ++ v) = greedy its v).
  { intros s its v. pose proof (greedy_lits its s (s ++ v)) as E. rewrite (proj2 (lower_prefix_spec s (s ++ v))), drop_app_length in E; [done|].
    by rewrite take_app_length. }
  rewrite Hlits. cbn [Datatypes.app].
  rewrite (greedy_of spaces2 _ (vt_sp1 x)); [|done|lia| |done].
  2: { apply forallb_forall. intros c Hc. unfold white in Hw1. rewrite forallb_forall in Hw1. apply (one_of_incl spaces spaces2 eq_refl), Hw1, Hc. }
  rewrite greedy_lit. rewrite (greedy_white _ (vt_sp2 x)) by (lia || done). rewrite Hlits.
  rewrite (greedy_white _ (vt_sp3 x)) by (lia || done). rewrite greedy_lit.
  assert (Hns : ∀ c, is_letter c = true → one_of spaces c = false).
  { intros c Hc. apply bool_decide_eq_false_2. intros Hin. change (bytes_of spaces) with [32; 9; 13; 10] in Hin.
    rewrite !elem_of_cons, elem_of_nil in Hin. unfold is_letter in Hc. rewrite orb_true_iff, !bool_decide_eq_true in Hc. lia. }
  assert (Hsl : ∀ c, one_of spaces c = true → is_letter c = false).
  { intros c Hc. destruct (is_letter c) eqn:E; [|done]. apply Hns in E. congruence. }
  rewrite (greedy_white _ (vt_sp4 x)); [|lia|done|].
  2: { destruct (vt_transp x) as [|c t]; [done|]. cbn in Ht |- *. apply andb_true_iff in Ht as [Hc _]. by rewrite Hns. }
  rewrite (greedy_class false _ (chr "+") _ (vt_transp x) _ 1 4294967295); [|done| | |].
  2: { destruct (vt_transp x); [done|simpl in *; lia]. }
  2: { clear -Ht. induction (vt_transp x) as [|c t IH]; [done|]. cbn [forallb] in *. apply andb_true_iff in Ht as [Hc Ht]. by rewrite in_letters, Hc, IH. }
  2: { destruct (vt_sp5 x) as [|c u]; [done|]. apply andb_true_iff in Hws5 as [Hc _]. cbn [Datatypes.app]. by rewrite in_letters, Hsl. }
  assert (Hsent : free_of (";" ++ spaces) (vt_sentby x) = true).
  { unfold vt_sentby. rewrite free_of_app, Hh2, colon_text_split, free_of_app.
    rewrite (digits_free (";" ++ spaces) _ eq_refl (port_digits _ Hport)). by destruct (port_text (vt_port x)). }
  assert (Hsne : vt_sentby x ≠ []) by (unfold vt_sentby; by destruct (vt_host x)).
  rewrite (greedy_white _ (vt_sp5 x)); [|lia|done|].
  2: { destruct (vt_sentby x) as [|c t]; [done|]. apply andb_true_iff in Hsent as [Hc _]. cbn [Datatypes.app starts_free].
    rewrite one_of_app, negb_orb in Hc. by apply andb_true_iff in Hc as [_ ?]. }
  rewrite (greedy_not (";" ++ spaces) "+" _ (vt_sentby x) _ 1 4294967295); [|done|done| |done|].
  2: { destruct (vt_sentby x); [done|simpl in *; lia]. }
  2: { unfold T, tail_text. destruct (vt_lead x) as [|c u]; cbn [Datatypes.app].
    - pose proof (params_stop (map param_text (vt_params x))) as Hs. stops_weaken.
    - cbn in Hlead |- *. apply andb_true_iff in Hlead as [Hc _]. by rewrite one_of_app, Hc, orb_true_r. }
  destruct (split_blanks (vt_lead x)) as (b1 & b2 & Eb & Hb1 & Hb2). exists (vt_sp1 x, chr "/" :: vt_sp2 x ++ bytes_of "2.0" ++ vt_sp3 x ++ chr "/" :: vt_sp4 x ++ vt_transp x ++ vt_sp5 x ++ vt_sentby x ++ T).
  do 6 eexists. exists b1, b2. split; [done|].
  assert (ET : T = b1 ++ tail_text b2 (vt_params x)) by (unfold T, tail_text; by rewrite Eb, <- app_assoc).
  assert (HTl : Z.of_nat (length T) ≤ 4294967295) by lia. rewrite ET, length_app in HTl.
  assert (Hend : greedy [bracket false blanks "*"; bracket true "" "*"] T = Matched [(b1, tail_text b2 (vt_params x)); (tail_text b2 (vt_params x), [])]).
  { rewrite ET. rewrite (greedy_of blanks _ b1); [|done|lia|done|].
    - by rewrite greedy_rest by lia.
    - unfold tail_text. destruct b2 as [|c b2]; [|done]. cbn [Datatypes.app]. by destruct (vt_params x). }
  rewrite Hend. reflexivity.
Qed.

(** What the decoder makes of the address headers and of Via. *)
Section common.
Context `{inet} (sa_set : list Z → option sockaddr).

Record taddr_shows (x : addr_text) (old t : sip_taddr) : Prop := {
  ts_val : views (ta_val t) (addr_bytes x);
  ts_addr : addr_shows x (ta_addr t);
  ts_tag : match param_value (bytes_of "tag") (addr_params x) with Some c => views (ta_tag t) c | None => ta_tag t = ta_tag old end
}.

Lemma taddr_decode_run x rest old : addr_ok x →
  ∃ t, taddr_decode (Pl (Some (addr_bytes x ++ rest)) (Z.of_nat (length (addr_bytes x)))) old = Ret (0, t) ∧ taddr_shows x old t.
Proof.
  intros Hx. unfold taddr_decode. destruct (addr_decode_run x rest Hx) as (a & -> & Ha). cbn [mbind outcome_bind fst snd].
  rewrite (bool_decide_eq_false_2 (0 ≠ 0)) by (by intros []). destruct Hx as (_ & Hp & _).
  destruct (param_decode_run (bytes_of "tag") _ _ (ad_params a) eq_refl tag_expr Hp (sh_params _ _ Ha)) as (q & -> & Hq).
  cbn [mbind outcome_bind]. eexists. split; [done|]. split; cbn [ta_val ta_addr ta_tag]; [by exists rest|done|].
  unfold finds in Hq. destruct (param_value _ _); [|by subst q]. by destruct Hq as (_ & v & -> & Hv).
Qed.

Lemma transp_run t rest : via_transp (Pl (Some (t ++ rest)) (Z.of_nat (length t))) = Ret (transp_of t).
Proof using.
  clear. unfold via_transp, transp_of. destruct (strcmp_known t rest (bytes_of "TCP")) as (e1 & -> & H1). cbn [mbind outcome_bind].
  destruct (strcmp_known t rest (bytes_of "TLS")) as (e2 & -> & H2). destruct (strcmp_known t rest (bytes_of "UDP")) as (e3 & -> & H3).
  cbn [mbind outcome_bind]. destruct (decide (t = bytes_of "TCP")); [by rewrite bool_decide_eq_true_2 by tauto|rewrite bool_decide_eq_false_2 by tauto].
  destruct (decide (t = bytes_of "TLS")); [by rewrite bool_decide_eq_true_2 by tauto|rewrite bool_decide_eq_false_2 by tauto].
  destruct (decide (t = bytes_of "UDP")); [by rewrite bool_decide_eq_true_2 by tauto|by rewrite bool_decide_eq_false_2 by tauto].
Qed.

(** The port behind the host, where there is one. *)
Lemma via_port n rest d : 0 ≤ n < 65536 →
  (if pl_isset (Pl (Some (port_text n ++ rest)) (Z.of_nat (length (port_text n)))) then
     k ← pl_u32 (Pl (Some (port_text n ++ rest)) (Z.of_nat (length (port_text n)))); Ret (u16 k)
   else Ret d) = Ret (if decide (n = 0) then d else n).
Proof using.
  clear. intros Hn. rewrite (isset_views _ (port_text n)) by (by exists rest). destruct (digits_dec n ltac:(lia)) as (_ & Hne & Hu).
  unfold port_text. destruct (decide (n = 0)) as [E|E]; [by rewrite (bool_decide_eq_true_2 (n = 0))|].
  rewrite (bool_decide_eq_false_2 (n = 0)), (bool_decide_eq_false_2 (dec_text n = [])) by done. cbn [negb]. rewrite Hu.
  cbn [mbind outcome_bind]. by rewrite (Z.mod_small n), u16_id by lia.
Qed.

Lemma via_decode_run x rest old : via_ok x →
  ∃ v, sip_via_decode sa_set (Pl (Some (via_bytes x ++ rest)) (Z.of_nat (length (via_bytes x)))) old = Ret (0, v) ∧ via_shows sa_set x v.
Proof using.
  clear H. intros Hx. destruct (greedy_via x Hx) as (p1 & p2 & p3 & p4 & p5 & p6 & p7 & b1 & b2 & Eb & Hg).
  destruct Hx as [_ [Htne _] [Hh Hh2] Hport (Hlead & Hps & Hpl) [br Hbr] Hl]. unfold sip_via_decode. rewrite via_expr_items.
  assert (Hne : via_bytes x ≠ []) by done.
  pose proof (regex_match via_items _ _ rest _ eq_refl ltac:(done) ltac:(vm_compute; done) Hne Hg) as Hr.
  change (classes via_items) with 9%nat in Hr. rewrite Hr. cbn [mbind outcome_bind map]. unfold capture.
  cbn [lookup list_lookup default from_option id]. rewrite (bool_decide_eq_false_2 (0 ≠ 0)) by (by intros []).
  cbn [result lookup list_lookup default from_option id of_option mbind outcome_bind].
  assert (Et : via_transp (part_pl rest (vt_transp x, p5)) = Ret (transp_of (vt_transp x))) by apply (transp_run _ (p5 ++ rest)).
  rewrite Et. cbn [mbind outcome_bind].
  assert (Hsl : Z.of_nat (length (vt_sentby x)) ≤ 4294967295).
  { unfold via_bytes in Hl. repeat (rewrite ?length_app in Hl; cbn [length] in Hl). lia. }
  assert (Eh : ∀ tl, via_decode_hostport (part_pl rest (vt_sentby x, tl)) pl_null pl_null =
    Ret (0, Pl (Some (vt_sentby x ++ tl ++ rest)) (Z.of_nat (length (vt_host x))),
      Pl (Some (port_text (vt_port x) ++ tl ++ rest)) (Z.of_nat (length (port_text (vt_port x)))))).
  { intros tl. unfold via_decode_hostport. apply (decode_hostport_run (vt_host x) (vt_port x) (tl ++ rest)); [done|done|exact Hsl]. }
  rewrite Eh. cbn [mbind outcome_bind]. rewrite (bool_decide_eq_false_2 (0 ≠ 0)) by (by intros []).
  assert (Ehb : ∀ tl, pl_bytes (Pl (Some (vt_sentby x ++ tl)) (Z.of_nat (length (vt_host x)))) = Ret (vt_host x)).
  { intros tl. unfold vt_sentby. rewrite <- app_assoc. apply pl_bytes_run. }
  rewrite Ehb. cbn [mbind outcome_bind]. rewrite via_port by done. cbn [mbind outcome_bind].
  assert (Hp2 : params_ok b2 (vt_params x)).
  { rewrite Eb in Hlead. unfold white in *. rewrite forallb_app in Hlead. apply andb_true_iff in Hlead as [_ Hlead].
    split; [done|]. split; [done|]. unfold tail_text in *. rewrite Eb, !length_app in Hpl. rewrite length_app. lia. }
  destruct (param_decode_run (bytes_of "branch") b2 (vt_params x) (part_pl rest (tail_text b2 (vt_params x), [])) eq_refl branch_expr Hp2)
    as (q & -> & Hq); [left; apply (views_part rest (tail_text b2 (vt_params x), []))|].
  rewrite Hbr in Hq. destruct Hq as (E0 & v & Ev & Hv). cbn [mbind outcome_bind]. rewrite E0, Ev. eexists. split; [done|].
  split; cbn [v_val v_tp v_sentby v_addr v_params v_branch default from_option id].
  - by exists rest.
  - done.
  - apply (views_part rest (vt_sentby x, _)).
  - done.
  - exists b2. split; [by exists b1|]. apply (views_part rest (tail_text b2 (vt_params x), [])).
  - by exists br.
Qed.
End common.
