(* ===== verification/SipHead.v ===== *)
(** * Header names and header lines

    The table of header identifiers against the hash of the names, and the
    headers the decoder makes of the lines of a message. *)
From stdpp Require Import base tactics list numbers strings option.
From S2P Require Import Prelude Mbuf Fmt Print Regex Uri Hash Sip.

(** ** Identifiers *)

Lemma foldl_map {A B C} (f : A → C → A) (g : B → C) a l : foldl f a (map g l) = foldl (λ a b, f a (g b)) a l.
Proof. revert a. induction l; intros; simpl; auto. Qed.

(** The hash of a name does not depend on the case of its letters. *)
Lemma hash_joaat_ci_map bs : hash_joaat_ci bs = joaat_end (foldl (λ h c, joaat_step h (char_int c)) 0 (map tolower bs)).
Proof. unfold hash_joaat_ci. by rewrite foldl_map. Qed.

Lemma hdr_hash_run bs rest :
  (1 < length bs)%nat → ¬ (bs !! 1%nat = Some (chr "-") ∧ (bs !! 0%nat = Some (chr "x") ∨ bs !! 0%nat = Some (chr "X"))) →
  hdr_hash (Pl (Some (bs ++ rest)) (Z.of_nat (length bs))) =
    Ret (Z.land (joaat_end (foldl (λ h c, joaat_step h (char_int c)) 0 (map tolower bs))) 4095).
Proof.
  intros Hl Hx. unfold hdr_hash. cbn [pl_l pl_p of_option mbind outcome_bind]. rewrite bool_decide_false by lia.
  destruct bs as [|c0 [|c1 bs]]; [simpl in Hl; lia..|]. cbn [app lookup list_lookup of_option mbind outcome_bind].
  rewrite bool_decide_true by lia. destruct (_ && _) eqn:E.
  - exfalso. apply andb_true_iff in E as [E1 E2]. apply bool_decide_eq_true in E1, E2. apply Hx. cbn. subst. naive_solver.
  - change (c0 :: c1 :: bs ++ rest) with ((c0 :: c1 :: bs) ++ rest). rewrite (pl_bytes_run (c0 :: c1 :: bs) rest). cbn [mbind outcome_bind]. by rewrite hash_joaat_ci_map.
Qed.

(** [sip_hdrids] against the hash, computed. *)
Definition id_ok (e : string * Z) : bool :=
  let bs := bytes_of e.1 in
  bool_decide (1 < length bs)%nat && negb (bool_decide (tolower <$> bs !! 0%nat = Some (chr "x"))) &&
  bool_decide (Z.land (joaat_end (foldl (λ h c, joaat_step h (char_int c)) 0 (map tolower bs))) 4095 = e.2).

Lemma ids_ok : Forall (λ e, id_ok e = true) sip_hdrids.
Proof. apply (bool_decide_eq_true_1 _). vm_compute. reflexivity. Qed.

Lemma hdr_hash_id name id bs rest :
  (name, id) ∈ sip_hdrids → map tolower bs = map tolower (bytes_of name) →
  hdr_hash (Pl (Some (bs ++ rest)) (Z.of_nat (length bs))) = Ret id.
Proof.
  intros Hin Hbs. pose proof ids_ok as Hok. rewrite Forall_forall in Hok. apply list_elem_of_In in Hin. specialize (Hok _ Hin).
  unfold id_ok in Hok. cbn [fst snd] in Hok. apply andb_true_iff in Hok as [[Hl Hd]%andb_true_iff Hid].
  apply bool_decide_eq_true in Hl, Hid. apply negb_true_iff, bool_decide_eq_false in Hd.
  assert (Hlen : length bs = length (bytes_of name)) by (by rewrite <- (length_map tolower bs), Hbs, length_map).
  rewrite hdr_hash_run; [by rewrite Hbs, Hid|lia|]. intros [_ H0]. apply Hd. rewrite <- list_lookup_fmap.
  change (tolower <$> bytes_of name) with (map tolower (bytes_of name)). rewrite <- Hbs. change (map tolower bs) with (tolower <$> bs). rewrite list_lookup_fmap.
  by destruct H0 as [-> | ->].
Qed.

(** Hdr_hash recognises the headers of the SIP tables: each of the 103
    names, in any mix of upper and lower case and whatever follows it in the
    message, gives its own identifier, no two of them the same one; each
    one-letter name gives the identifier of a full name; names that start with
    "X-" are not recognised. *)
Theorem hdr_hash_spec name id bs rest :
  (name, id) ∈ sip_hdrids → map tolower bs = map tolower (bytes_of name) →
  hdr_hash (Pl (Some (bs ++ rest)) (Z.of_nat (length bs))) = Ret id ∧
  NoDup sip_hdrids.*2 ∧
  (∀ c i, (c, i) ∈ compact_headers → i ∈ sip_hdrids.*2 ∧ hdr_hash (Pl (Some (c :: rest)) 1) = Ret i) ∧
  ∀ x w, x ∈ bytes_of "xX" →
    hdr_hash (Pl (Some (x :: chr "-" :: w ++ rest)) (Z.of_nat (2 + length w))) = Ret SIP_HDR_NONE.
Proof.
  intros Hin Hbs. split; [by apply (hdr_hash_id name)|]. split; [apply (bool_decide_eq_true_1 _); vm_compute; reflexivity|]. split.
  - assert (Hc : Forall (λ e : Z * Z, e.2 ∈ sip_hdrids.*2 ∧ assoc (tolower e.1) compact_headers SIP_HDR_NONE = e.2) compact_headers)
      by (apply (bool_decide_eq_true_1 _); vm_compute; reflexivity).
    intros c i Hci. rewrite Forall_forall in Hc. destruct (Hc (c, i)) as [H1 H2]; [by apply list_elem_of_In|]. split; [done|].
    unfold hdr_hash. cbn in *. by rewrite H2.
  - intros x w Hx. unfold hdr_hash. cbn [pl_l pl_p of_option mbind outcome_bind]. rewrite bool_decide_false by lia.
    cbn. rewrite bool_decide_true by lia. repeat (apply elem_of_cons in Hx as [->|Hx]; [done|]). by apply elem_of_nil in Hx.
Qed.

Lemma hdr_hash_spec_witness :
  ("Call-Id"%string, SIP_HDR_CALL_ID) ∈ sip_hdrids ∧
  hdr_hash (Pl (Some (bytes_of "cALL-iD" ++ bytes_of ": a")) (Z.of_nat (length (bytes_of "cALL-iD")))) = Ret SIP_HDR_CALL_ID ∧
  NoDup sip_hdrids.*2 ∧
  (∀ c i, (c, i) ∈ compact_headers → i ∈ sip_hdrids.*2 ∧ hdr_hash (Pl (Some (c :: bytes_of ": a")) 1) = Ret i) ∧
  ∀ x w, x ∈ bytes_of "xX" →
    hdr_hash (Pl (Some (x :: chr "-" :: w ++ bytes_of ": a")) (Z.of_nat (2 + length w))) = Ret SIP_HDR_NONE.
Proof.
  assert (H : ("Call-Id"%string, SIP_HDR_CALL_ID) ∈ sip_hdrids) by (apply (bool_decide_eq_true_1 _); vm_compute; reflexivity).
  split; [exact H|]. apply (hdr_hash_spec _ _ (bytes_of "cALL-iD") (bytes_of ": a") H). vm_compute. reflexivity.
Defined.
