(* ===== verification/SipLines.v ===== *)
(** * Header lines

    The loop of [sip_msg_decode] against the grammar of header lines: a name,
    white space, a colon, and values that are separated by commas where the
    header allows it; white space and values may be folded over several lines.
    The header list and the table of the message hold the values of the text,
    in its order. *)
From stdpp Require Import base tactics list numbers strings option.
From S2P Require Import Prelude Mbuf Fmt Print Regex Uri Hash Sip SipSafe SipVal SipHead.

(** ** The grammar *)

Definition is_sp (c : Z) : Prop := c = 32 ∨ c = 9.
Definition is_char (c : Z) : Prop := ¬ is_sp c ∧ c ≠ 13 ∧ c ≠ 10.

(** Linear white space. *)
Inductive lws : list Z → Prop :=
| lws_nil : lws []
| lws_sp c w : is_sp c → lws w → lws (c :: w)
| lws_fold c w : is_sp c → lws w → lws (13 :: 10 :: c :: w).

(** A value from an unquoted or quoted ([q]) position on; a value of a list
    has its commas within quotes. *)
Inductive inner (comsep : bool) : bool → list Z → bool → Prop :=
| inner_nil q : inner comsep q [] q
| inner_char c q w q' :
    is_char c → (comsep = true → c = chr "," → q = true) →
    inner comsep (if bool_decide (c = dquote) then negb q else q) w q' → inner comsep q (c :: w) q'
| inner_sp c q w q' : is_sp c → inner comsep q w q' → inner comsep q (c :: w) q'
| inner_fold c q w q' : is_sp c → inner comsep q w q' → inner comsep q (13 :: 10 :: c :: w) q'.

Definition value (comsep : bool) (e : list Z) : Prop :=
  ∃ q', inner comsep false e q' ∧ (comsep = true → q' = false) ∧
    (∃ c w, e = c :: w ∧ is_char c) ∧ ∃ c w, e = w ++ [c] ∧ is_char c.

(** A line: the values after the first one with the white space around the
    comma before them. *)
Record line := Line {
  ln_name : list Z;
  ln_pre : list Z;
  ln_post : list Z;
  ln_first : list Z;
  ln_rest : list (list Z * list Z * list Z)
}.

Definition rest_text (r : list (list Z * list Z * list Z)) : list Z :=
  concat (map (λ x : list Z * list Z * list Z, let '(a, b, e) := x in a ++ chr "," :: b ++ e) r).
Definition body (l : line) : list Z := ln_first l ++ rest_text (ln_rest l).
Definition line_text (l : line) : list Z := ln_name l ++ ln_pre l ++ chr ":" :: ln_post l ++ body l ++ [13; 10].
Definition values (l : line) : list (list Z) := ln_first l :: map snd (ln_rest l).

Definition hdr_id (name : list Z) : Z :=
  match hdr_hash (Pl (Some name) (Z.of_nat (length name))) with Ret id => id | Fault _ => SIP_HDR_NONE end.

Definition line_id (l : line) : Z := hdr_id (ln_name l).
Definition line_list (l : line) : bool := hdr_comma_separated (line_id l).

Record line_ok (l : line) : Prop := {
  ok_name : ln_name l ≠ [] ∧ Forall (λ c, is_char c ∧ c ≠ chr ":") (ln_name l);
  ok_pre : lws (ln_pre l);
  ok_post : lws (ln_post l);
  ok_first : value (line_list l) (ln_first l);
  ok_rest : Forall (λ x : list Z * list Z * list Z, lws x.1.1 ∧ lws x.1.2 ∧ value (line_list l) x.2) (ln_rest l);
  ok_list : line_list l = false → ln_rest l = []
}.

(** What the message keeps of a line: the name, a value and the identifier.
    The list has the values of a Via or Route line one by one and the other
    lines whole; the table has each value. *)
Notation view := (outcome (list Z) * outcome (list Z) * Z)%type.
Definition view_of (h : sip_hdr) : view := (pl_bytes (h_name h), pl_bytes (h_val h), h_id h).
Definition entry (l : line) (v : list Z) : view := (Ret (ln_name l), Ret v, line_id l).

Definition split_line (l : line) : bool := bool_decide (line_id l = SIP_HDR_VIA ∨ line_id l = SIP_HDR_ROUTE).
Definition listed (l : line) : list view := map (entry l) (if split_line l then values l else [body l]).
Definition hashed (l : line) : list view := map (entry l) (values l).

(** The headers a lookup by identifier walks over. *)
Definition headers_of (id : Z) (msg : sip_msg) : list sip_hdr :=
  match hash_list (m_hdrht msg) (u32 id) with Ret l => filter (λ h, h_id h = id) l | Fault _ => [] end.

Definition with_id (id : Z) (l : list view) : list view := filter (λ v : view, v.2 = id) l.

(** The headers that are taken apart, and may be refused, have well formed values. *)
Definition value_ok (id : Z) (e : list Z) : Prop :=
  (id = SIP_HDR_VIA → ∃ x, via_ok x ∧ e = via_bytes x) ∧
  (id = SIP_HDR_TO ∨ id = SIP_HDR_FROM → ∃ x, addr_ok x ∧ e = addr_bytes x) ∧
  (id = SIP_HDR_CSEQ → ∃ x, cseq_ok x ∧ e = cseq_bytes x).

Definition header_ok (l : line) : Prop := Forall (value_ok (line_id l)) (values l).

(** ** What the common headers show *)

(** The texts of the values with an identifier. *)
Definition texts (id : Z) (hs : list view) : list (list Z) :=
  omap (λ v : view, if decide (v.2 = id) then match v.1.2 with Ret e => Some e | Fault _ => None end else None) hs.

Definition taddr_read `{inet} (es : list (list Z)) (t : sip_taddr) : Prop :=
  (es = [] → ta_tag t = pl_null) ∧
  ∀ es' e x, es = es' ++ [e] → addr_ok x → e = addr_bytes x →
    views (ta_val t) e ∧ addr_shows x (ta_addr t) ∧
    match param_value (bytes_of "tag") (addr_params x) with Some c => views (ta_tag t) c | None => es' = [] → ta_tag t = pl_null end.

(** The last value, where the field is the whole of it. *)
Definition last_read (es : list (list Z)) (p : pl) : Prop := ∀ e, list.last es = Some e → views p e.

(** The fields of a message after these values: Via is the first one, the other
    fields are those of the last one. *)
Record common_read `{inet} (sa_set : list Z → option sockaddr) (hs : list view) (msg : sip_msg) : Prop := {
  cr_via : match texts SIP_HDR_VIA hs with
           | [] => pl_isset (v_sentby (m_via msg)) = false
           | e :: _ => ∀ x, via_ok x → e = via_bytes x → via_shows sa_set x (m_via msg)
           end;
  cr_to : taddr_read (texts SIP_HDR_TO hs) (m_to msg);
  cr_from : taddr_read (texts SIP_HDR_FROM hs) (m_from msg);
  cr_cseq : ∀ e x, list.last (texts SIP_HDR_CSEQ hs) = Some e → cseq_ok x → e = cseq_bytes x →
    cs_num (m_cseq msg) = number (ct_num x) ∧ views (cs_met (m_cseq msg)) (ct_name x);
  cr_callid : last_read (texts SIP_HDR_CALL_ID hs) (m_callid msg);
  cr_maxfwd : last_read (texts SIP_HDR_MAX_FORWARDS hs) (m_maxfwd msg);
  cr_ctype : last_read (texts SIP_HDR_CONTENT_TYPE hs) (m_ctype msg);
  cr_clen : last_read (texts SIP_HDR_CONTENT_LENGTH hs) (m_clen msg);
  cr_expires : last_read (texts SIP_HDR_EXPIRES hs) (m_expires msg)
}.

(** The fields [common_read] is about. *)
Definition commons (msg : sip_msg) :=
  (m_via msg, m_to msg, m_from msg, m_cseq msg, m_callid msg, m_maxfwd msg, m_ctype msg, m_clen msg, m_expires msg).

Lemma common_read_commons `{inet} sa_set hs msg msg' : commons msg' = commons msg → common_read sa_set hs msg → common_read sa_set hs msg'.
Proof.
  unfold commons. intros [= E1 E2 E3 E4 E5 E6 E7 E8 E9] [R1 R2 R3 R4 R5 R6 R7 R8 R9]. by split; rewrite ?E1, ?E2, ?E3, ?E4, ?E5, ?E6, ?E7, ?E8, ?E9.
Qed.

Lemma texts_snoc id hs n e i :
  texts i (hs ++ [(n, Ret e, id) : view]) = texts i hs ++ if decide (i = id) then [e] else [].
Proof.
  unfold texts. rewrite omap_app. f_equal. cbn. destruct (decide (id = i)) as [->|Hne]; [by rewrite decide_True|].
  by rewrite decide_False by congruence.
Qed.

Lemma last_read_snoc es e p : views p e → last_read (es ++ [e]) p.
Proof. intros Hp e'. by rewrite last_snoc; intros [= <-]. Qed.

Section parse.
Context `{inet} (sa_set : list Z → option sockaddr).

Lemma taddr_read_snoc es e rest old t :
  taddr_read es old → taddr_decode (Pl (Some (e ++ rest)) (Z.of_nat (length e))) old = Ret (0, t) → taddr_read (es ++ [e]) t.
Proof.
  intros [Hnil _] Et. split; [by destruct es|]. intros es' e' x E Hx Ee. apply app_inj_tail in E as [-> ->]. subst e'.
  destruct (taddr_decode_run x rest old Hx) as (t' & Et' & [H1 H2 H3]). rewrite Et in Et'. injection Et' as <-.
  split; [done|]. split; [done|]. destruct (param_value _ _); [done|]. intros ->. rewrite H3. by apply Hnil.
Qed.

Lemma via_isset x v : via_ok x → via_shows sa_set x v → pl_isset (v_sentby v) = true.
Proof.
  intros Hx Hv. rewrite (isset_views _ _ (vs_sentby _ _ _ Hv)), bool_decide_eq_false_2; [done|].
  destruct (vo_host _ Hx) as [[Hne _] _]. unfold vt_sentby. by destruct (vt_host x).
Qed.

Local Ltac other_fields :=
  constructor; rewrite ?texts_snoc; rewrite ?decide_False by congruence; rewrite ?app_nil_r; try done.

(** A value that is taken apart on its own. *)
Lemma hdr_parse_read hs msg id n e rest msg' :
  hdr_parse sa_set msg id (Pl (Some (e ++ rest)) (Z.of_nat (length e))) true = Ret (0, msg') →
  common_read sa_set hs msg → common_read sa_set (hs ++ [(n, Ret e, id) : view]) msg'.
Proof.
  intros E R. assert (Hv : views (Pl (Some (e ++ rest)) (Z.of_nat (length e))) e) by by exists rest.
  unfold hdr_parse in E. cbn [negb orb] in E. destruct R as [R1 R2 R3 R4 R5 R6 R7 R8 R9].
  repeat match type of E with (if bool_decide (id = ?i) then _ else _) = _ =>
    destruct (bool_decide_reflect (id = i)) as [->|?] end.
  - assert (Hvia : match texts SIP_HDR_VIA hs ++ [e] with
      | [] => pl_isset (v_sentby (m_via msg')) = false
      | e :: _ => ∀ x, via_ok x → e = via_bytes x → via_shows sa_set x (m_via msg') end ∧
      (m_to msg', m_from msg', m_cseq msg', m_callid msg', m_maxfwd msg', m_ctype msg', m_clen msg', m_expires msg') =
      (m_to msg, m_from msg, m_cseq msg, m_callid msg, m_maxfwd msg, m_ctype msg, m_clen msg, m_expires msg)).
    { destruct (pl_isset (v_sentby (m_via msg))) eqn:Eset.
      - injection E as <-. split; [|done]. by destruct (texts SIP_HDR_VIA hs); [rewrite R1 in Eset|].
      - destruct (sip_via_decode _ _ _) as [[err v]|] eqn:Ed; [|done]. injection E as -> <-. split; [|done]. cbn [m_via set_via].
        destruct (texts SIP_HDR_VIA hs) as [|e0 es]; cbn [Datatypes.app]; intros x Hx ->.
        + destruct (via_decode_run sa_set x rest (m_via msg) Hx) as (v' & Ed' & Hs). rewrite Ed in Ed'. by injection Ed' as <-.
        + exfalso. pose proof (via_isset x _ Hx (R1 x Hx eq_refl)). congruence. }
    destruct Hvia as [Hvia [= H2 H3 H4 H5 H6 H7 H8 H9]]. other_fields; rewrite ?H2, ?H3, ?H4, ?H5, ?H6, ?H7, ?H8, ?H9; try done.
  - destruct (taddr_decode _ _) as [[err t]|] eqn:Et; [|done]. injection E as -> <-. other_fields. rewrite decide_True by done.
    by eapply taddr_read_snoc.
  - destruct (taddr_decode _ _) as [[err t]|] eqn:Et; [|done]. injection E as -> <-. other_fields. rewrite decide_True by done.
    by eapply taddr_read_snoc.
  - injection E as <-. other_fields. rewrite decide_True by done. by apply last_read_snoc.
  - destruct (sip_cseq_decode _ _) as [[err c]|] eqn:Ec; [|done]. injection E as -> <-. other_fields. rewrite decide_True by done.
    intros e' x. rewrite last_snoc. intros [= <-] Hx ->. destruct (cseq_decode_run x rest (m_cseq msg) Hx) as (c' & Ec' & Hc).
    rewrite Ec in Ec'. injection Ec' as <-. exact Hc.
  - injection E as <-. other_fields. rewrite decide_True by done. by apply last_read_snoc.
  - injection E as <-. other_fields. rewrite decide_True by done. by apply last_read_snoc.
  - injection E as <-. other_fields. rewrite decide_True by done. by apply last_read_snoc.
  - injection E as <-. other_fields. rewrite decide_True by done. by apply last_read_snoc.
  - injection E as <-. other_fields.
Qed.

(** The whole of a line with several values is not taken apart. *)
Lemma hdr_parse_whole msg id p : hdr_comma_separated id = true → hdr_parse sa_set msg id p false = Ret (0, msg).
Proof.
  intros Hid. unfold hdr_parse.
  repeat match goal with |- (if bool_decide (id = ?i) then _ else _) = _ => destruct (bool_decide_reflect (id = i)) as [->|?]; [done|] end.
  done.
Qed.

(** A well formed value is accepted. *)
Lemma hdr_parse_ok msg id e rest atomic : value_ok id e →
  ∃ msg', hdr_parse sa_set msg id (Pl (Some (e ++ rest)) (Z.of_nat (length e))) atomic = Ret (0, msg').
Proof.
  intros (Hvia & Haddr & Hcseq). unfold hdr_parse.
  repeat match goal with |- context [bool_decide (id = ?i)] => destruct (bool_decide_reflect (id = i)) as [->|?] end; try (by eexists).
  - destruct (negb atomic || _); [by eexists|]. destruct (Hvia eq_refl) as (x & Hx & ->).
    destruct (via_decode_run sa_set x rest (m_via msg) Hx) as (v & -> & _). by eexists.
  - destruct (Haddr (or_introl eq_refl)) as (x & Hx & ->). destruct (taddr_decode_run x rest (m_to msg) Hx) as (t & -> & _). by eexists.
  - destruct (Haddr (or_intror eq_refl)) as (x & Hx & ->). destruct (taddr_decode_run x rest (m_from msg) Hx) as (t & -> & _). by eexists.
  - destruct (Hcseq eq_refl) as (x & Hx & ->). destruct (cseq_decode_run x rest (m_cseq msg) Hx) as (c & -> & _). by eexists.
Qed.
End parse.

(** ** Adding a header *)

(** What the start line has set. *)
Definition front (msg : sip_msg) :=
  (m_req msg, m_ver msg, m_met msg, m_ruri msg, m_uri msg, m_scode msg, m_reason msg, m_tag msg).

(** A message after headers were linked to it. *)
Definition linked (msg : sip_msg) (ls hs : list view) (msg' : sip_msg) : Prop :=
  front msg' = front msg ∧
  map view_of (m_hdrl msg') = map view_of (m_hdrl msg) ++ ls ∧
  ∀ id, map view_of (headers_of id msg') = map view_of (headers_of id msg) ++ with_id id hs.

(** The same after they were also taken apart. *)
Definition grown `{inet} (sa_set : list Z → option sockaddr) (msg : sip_msg) (ls hs : list view) (msg' : sip_msg) : Prop :=
  linked msg ls hs msg' ∧ ∀ hs0, common_read sa_set hs0 msg → common_read sa_set (hs0 ++ hs) msg'.

Lemma grown_refl `{inet} sa_set msg : grown sa_set msg [] [] msg.
Proof.
  split; [|intros hs0; by rewrite app_nil_r]. split; [done|]. split; [by rewrite app_nil_r|]. intros. by rewrite app_nil_r.
Qed.

Lemma grown_trans `{inet} sa_set m1 m2 m3 l1 h1 l2 h2 :
  grown sa_set m1 l1 h1 m2 → grown sa_set m2 l2 h2 m3 → grown sa_set m1 (l1 ++ l2) (h1 ++ h2) m3.
Proof.
  intros [(S1 & E1 & F1) R1] [(S2 & E2 & F2) R2]. split; [|intros hs0 H0; rewrite app_assoc; auto].
  split; [congruence|]. split; [by rewrite E2, E1, app_assoc|]. intros id. unfold with_id in *.
  by rewrite F2, F1, list.filter_app, app_assoc.
Qed.

Lemma linked_same msg msg' ls hs msg2 :
  front msg2 = front msg' → m_hdrl msg2 = m_hdrl msg' → m_hdrht msg2 = m_hdrht msg' → linked msg ls hs msg' → linked msg ls hs msg2.
Proof. unfold linked, headers_of. by intros -> -> ->. Qed.

Lemma hdr_parse_keeps `{inet} sa_set msg id val atomic err msg' :
  hdr_parse sa_set msg id val atomic = Ret (err, msg') →
  front msg' = front msg ∧ m_hdrl msg' = m_hdrl msg ∧ m_hdrht msg' = m_hdrht msg.
Proof.
  unfold hdr_parse. repeat case_bool_decide; try (by intros [= <- <-]).
  - destruct (_ || _); [by intros [= <- <-]|]. destruct (sip_via_decode _ _ _) as [[e v]|]; by intros [= <- <-].
  - destruct (taddr_decode _ _) as [[e v]|]; by intros [= <- <-].
  - destruct (taddr_decode _ _) as [[e v]|]; by intros [= <- <-].
  - destruct (sip_cseq_decode _ _) as [[e v]|]; by intros [= <- <-].
Qed.

Lemma hdr_link_linked msg h b1 b2 msg' :
  table_ok (m_hdrht msg) → hdr_link msg h b1 b2 = Ret msg' →
  linked msg (if b2 then [view_of h] else []) (if b1 then [view_of h] else []) msg'.
Proof.
  intros Ht. unfold hdr_link. destruct (hash_append_run (m_hdrht msg) (u32 (h_id h)) h Ht) as (ht & E & Ht' & Hs & Hl).
  assert (Hlist : ∀ l, map view_of (if b2 then l ++ [h] else l) = map view_of l ++ if b2 then [view_of h] else []).
  { intros l. destruct b2; [by rewrite map_app|by rewrite app_nil_r]. }
  destruct b1; [rewrite E|]; cbn [mbind outcome_bind]; intros [= <-]; (split; [done|]); (split; [apply Hlist|]); intros id;
    [|by rewrite app_nil_r].
  unfold headers_of. cbn [m_hdrht set_hdrl set_hdrht]. rewrite Hl.
  destruct (hash_list_run (m_hdrht msg) (u32 id) Ht) as (l & El & _). rewrite El. cbn [mbind outcome_bind].
  unfold with_id. rewrite filter_cons. cbn [view_of snd].
  destruct (decide (h_id h = id)) as [<-|Hne]; rewrite filter_nil.
  - rewrite bool_decide_true by done. rewrite list.filter_app, filter_cons, decide_True, filter_nil by done. by rewrite map_app.
  - rewrite app_nil_r. case_bool_decide; [|done]. rewrite list.filter_app, filter_cons, decide_False, filter_nil by done.
    by rewrite app_nil_r.
Qed.

Lemma hdr_link_commons msg h b1 b2 msg' : hdr_link msg h b1 b2 = Ret msg' → commons msg' = commons msg.
Proof. unfold hdr_link. destruct (if b1 then _ else _); [|done]. by intros [= <-]. Qed.

Lemma hdr_hash_known name rest : name ≠ [] →
  hdr_hash (Pl (Some (name ++ rest)) (Z.of_nat (length name))) = Ret (hdr_id name).
Proof.
  intros Hn. unfold hdr_id. pose proof (pl_bytes_run name []) as E. rewrite app_nil_r in E. unfold hdr_hash.
  rewrite pl_bytes_run, E. destruct name as [|c0 [|c1 n]]; [done|done|].
  cbn [pl_l pl_p of_option mbind outcome_bind app lookup list_lookup]. rewrite !(bool_decide_eq_false_2 (_ = 0)) by (simpl; lia).
  rewrite bool_decide_true by (simpl; lia). by destruct (_ && _).
Qed.

(** ** Steps of the loop *)

Section loop.
Context `{inet} (m : list Z) (lim : nat) (Hlim : (lim ≤ length m)%nat) (Hbig : Z.of_nat (length m) < 2147483648).
Variable sa_set : list Z → option sockaddr.
Variable hdr_mem : pl → bool.
Hypothesis mem_ok : ∀ p, hdr_mem p = true.

Local Abbreviation loop := (hdr_loop sa_set hdr_mem m).
Local Abbreviation grown := (grown sa_set).

Lemma drop_app_at p (w r : list Z) : drop p m = w ++ r → drop (p + length w) m = r.
Proof using. clear. intros E. by rewrite <- drop_drop, E, drop_app_length. Qed.

Lemma drop_cons_at p c (r : list Z) : drop p m = c :: r → m !! p = Some c ∧ drop (S p) m = r ∧ (p < length m)%nat.
Proof using.
  clear. intros E. assert (Hl : m !! p = Some c) by (rewrite <- (Nat.add_0_r p), <- lookup_drop, E; done).
  split; [done|]. split; [by rewrite <- (Nat.add_1_r p), <- drop_drop, E|by eapply lookup_lt_Some].
Qed.

Lemma drop_len_at p (w r : list Z) : drop p m = w ++ r → w ≠ [] → (p + length w ≤ length m)%nat.
Proof using.
  clear. intros E Hw. assert (Hl : length (drop p m) = length (w ++ r)) by by rewrite E. rewrite length_drop, length_app in Hl.
  destruct w; [done|]. simpl in *. lia.
Qed.

Lemma loop_sp l p s c r : drop p m = c :: r → is_sp c →
  loop (S l) p s = loop l (S p) (set_ws (u32 (s_ws s + 1)) (set_lf 0 s)).
Proof using.
  clear. intros (E & _ & _)%drop_cons_at Hc. cbn [hdr_loop]. rewrite E. cbn [of_option mbind outcome_bind].
  by rewrite bool_decide_true by done.
Qed.

Lemma loop_cr l p s r : drop p m = 13 :: r → loop (S l) p s = loop l (S p) (set_ws (u32 (s_ws s + 1)) s).
Proof using. clear. intros (E & _ & _)%drop_cons_at. cbn [hdr_loop]. by rewrite E. Qed.

Lemma loop_lf l p s r : drop p m = 10 :: r → s_lf s = 0 →
  loop (S l) p s = loop l (S p) (set_lf 1 (set_ws (u32 (s_ws s + 1)) s)).
Proof using. clear. intros (E & _ & _)%drop_cons_at Hlf. cbn [hdr_loop]. rewrite E. cbn [of_option mbind outcome_bind]. cbn. by rewrite Hlf. Qed.

Lemma loop_char l p s c r : drop p m = c :: r → is_char c →
  loop (S l) p s =
    (t ← hdr_default sa_set hdr_mem m p c s;
     match t with
     | Break s => loop l (S p) s
     | Out err s => Ret (err, S l, s_msg s)
     | Through s => loop l (S p) s
     end).
Proof using.
  clear. intros (E & _ & _)%drop_cons_at (H1 & H2 & H3). cbn [hdr_loop]. rewrite E. cbn [of_option mbind outcome_bind].
  by rewrite !bool_decide_false.
Qed.

Local Ltac same_state s :=
  destruct s; cbn in *; subst; unfold set_ws, set_lf, set_quote; cbn; f_equal; [lia|f_equal; lia].

(** White space is counted. *)
Lemma loop_lws w : lws w → ∀ l p r s, drop p m = w ++ r → s_lf s = 0 → 0 ≤ s_ws s ≤ Z.of_nat p →
  loop (length w + l) p s = loop l (p + length w) (set_ws (s_ws s + Z.of_nat (length w)) s).
Proof using Hbig.
  clear Hlim. induction 1 as [|c w Hc Hw IH|c w Hc Hw IH]; intros l p r s E Hlf Hs.
  - rewrite Nat.add_0_r. cbn. destruct s; cbn in *. by rewrite Z.add_0_r.
  - pose proof (drop_len_at p (c :: w) r E ltac:(done)) as Hl. simpl in Hl. destruct (drop_cons_at _ _ _ E) as (_ & E1 & _).
    cbn [length Nat.add]. rewrite (loop_sp _ _ _ _ _ E Hc), u32_id by lia. rewrite (IH l (S p) r); [|done|done|cbn; lia].
    same_state s.
  - pose proof (drop_len_at p (13 :: 10 :: c :: w) r E ltac:(done)) as Hl. simpl in Hl.
    destruct (drop_cons_at _ _ _ E) as (_ & E1 & _), (drop_cons_at _ _ _ E1) as (_ & E2 & _), (drop_cons_at _ _ _ E2) as (_ & E3 & _).
    cbn [length Nat.add]. rewrite (loop_cr _ _ _ _ E), u32_id by lia. rewrite (loop_lf _ _ _ _ E1) by done.
    cbn [s_ws set_ws]. rewrite u32_id by lia. rewrite (loop_sp _ _ _ _ _ E2 Hc). cbn [s_ws set_ws set_lf]. rewrite u32_id by lia.
    rewrite (IH l _ r); [|done|done|cbn; lia]. same_state s.
Qed.

(** Inside a value. *)
Lemma default_plain p c s : s_lf s = 0 → (s_comsep s = true → c = chr "," → s_quote s = true) →
  hdr_default sa_set hdr_mem m p c s = hdr_char m p c s.
Proof using.
  clear. intros Hlf Hc. unfold hdr_default. rewrite Hlf. cbn [negb orb]. rewrite (bool_decide_eq_true_2 (0 = 0)) by done. cbn [negb orb].
  case_bool_decide; [|done]. destruct (s_comsep s); [|done]. by rewrite Hc.
Qed.

(** A text that ends with a character that is not white space. *)
Definition ends (w : list Z) : Prop := ∃ c u, w = u ++ [c] ∧ is_char c.

Lemma ends_cons c w : ends (c :: w) → w ≠ [] → ends w.
Proof. intros (d & [|? u] & E & Hd) Hw; [naive_solver|]. injection E as -> E. by exists d, u. Qed.

Lemma ends_sp c : is_sp c → ¬ ends [c].
Proof. intros Hc (d & [|? [|]] & E & Hd & _); try done. by injection E as ->. Qed.

Lemma loop_inner cs q w q' : inner cs q w q' → ∀ l p r s k v c0,
  drop p m = w ++ r → s = HdrState (Some k) (s_namel s) (Some v) (Some c0) (s_ws s) 0 cs q (s_id s) (s_msg s) →
  s_namel s ≠ 0 → 0 ≤ s_ws s ≤ Z.of_nat p →
  ∃ ws', (w = [] → ws' = s_ws s) ∧ (ends w → ws' = 0) ∧
    loop (length w + l) p s = loop l (p + length w) (set_ws ws' (set_quote q' s)).
Proof using Hbig.
  clear Hlim. induction 1 as [q|c q w q' Hc Hcom Hw IH|c q w q' Hc Hw IH|c q w q' Hc Hw IH]; intros l p r s k v c0 E Es Hl Hs.
  - exists (s_ws s). rewrite Nat.add_0_r. split; [done|]. split; [by intros (? & [] & ? & _)|]. cbn. f_equal. by rewrite Es.
  - pose proof (drop_len_at p (c :: w) r E ltac:(done)) as Hlen. simpl in Hlen. destruct (drop_cons_at _ _ _ E) as (_ & E1 & _).
    cbn [length Nat.add]. rewrite (loop_char _ _ _ _ _ E Hc).
    rewrite default_plain by (rewrite Es; done).
    set (s' := HdrState (Some k) (s_namel s) (Some v) (Some c0) 0 0 cs (if bool_decide (c = dquote) then negb q else q) (s_id s) (s_msg s)).
    assert (Ech : hdr_char m p c s = Ret (Break s')).
    { rewrite Es. unfold hdr_char. cbn. rewrite bool_decide_false by done. by destruct (bool_decide (c = dquote)). }
    rewrite Ech. cbn [mbind outcome_bind]. destruct (IH l (S p) r s' k v c0) as (ws' & H1 & H2 & ->); [done|done|done|cbn; lia|].
    exists ws'. split; [done|]. split.
    + intros He. destruct w; [by apply H1|]. by apply H2, (ends_cons c).
    + rewrite Es. f_equal. lia.
  - pose proof (drop_len_at p (c :: w) r E ltac:(done)) as Hlen. simpl in Hlen. destruct (drop_cons_at _ _ _ E) as (_ & E1 & _).
    cbn [length Nat.add]. rewrite (loop_sp _ _ _ _ _ E Hc), u32_id by lia.
    destruct (IH l (S p) r (set_ws (s_ws s + 1) (set_lf 0 s)) k v c0) as (ws' & _ & H2 & ->); [done|by rewrite Es|done|cbn; lia|].
    exists ws'. split; [done|]. split; [|rewrite Es; f_equal; lia].
    intros He. destruct w; [by apply ends_sp in He|]. by apply H2, (ends_cons c).
  - pose proof (drop_len_at p (13 :: 10 :: c :: w) r E ltac:(done)) as Hlen. simpl in Hlen.
    destruct (drop_cons_at _ _ _ E) as (_ & E1 & _), (drop_cons_at _ _ _ E1) as (_ & E2 & _), (drop_cons_at _ _ _ E2) as (_ & E3 & _).
    cbn [length Nat.add]. rewrite (loop_cr _ _ _ _ E), u32_id by lia. rewrite (loop_lf _ _ _ _ E1) by (rewrite Es; done).
    cbn [s_ws set_ws]. rewrite u32_id by lia. rewrite (loop_sp _ _ _ _ _ E2 Hc). cbn [s_ws set_ws set_lf]. rewrite u32_id by lia.
    match goal with |- context [loop (length w + l) ?p' ?s'] => destruct (IH l p' r s' k v c0) as (ws' & _ & H2 & ->) end;
      [done|by rewrite Es|done|cbn; lia|].
    exists ws'. split; [done|]. split; [|rewrite Es; f_equal; lia].
    intros He. apply ends_cons, ends_cons in He; [|done..]. destruct w; [by apply ends_sp in He|]. by apply H2, (ends_cons c).
Qed.

(** A value, from its first character on. *)
Lemma loop_value cs e l p r k nl v ws q id msg :
  value cs e → drop p m = e ++ r → nl ≠ 0 → 0 ≤ ws →
  ∃ q', (cs = true → q' = false) ∧
    loop (length e + l) p (HdrState (Some k) nl v None ws 0 cs q id msg) =
    loop l (p + length e) (HdrState (Some k) nl (Some (default p v)) (Some p) 0 0 cs q' id msg).
Proof using Hbig.
  clear Hlim. intros (q' & Hin & Hq' & (c & w & -> & Hc) & Hlast) E Hnl Hws. exists q'. split; [done|].
  destruct (drop_cons_at _ _ _ E) as (_ & E1 & _). cbn [length Nat.add]. rewrite (loop_char _ _ _ _ _ E Hc).
  inversion Hin as [|? ? ? ? _ Hcom Hin'|? ? ? ? Hsp|]; subst; [|by destruct Hc|by destruct Hc as (_ & ? & _)].
  rewrite default_plain; [|done|cbn; intros; specialize (Hcom ltac:(done) ltac:(done)); done].
  set (s' := HdrState (Some k) nl (Some (default p v)) (Some p) 0 0 cs (if bool_decide (c = dquote) then negb false else false) id msg).
  assert (Ech : hdr_char m p c (HdrState (Some k) nl v None ws 0 cs q id msg) = Ret (Break s')).
  { unfold hdr_char. cbn. rewrite bool_decide_false by done. destruct v; by destruct (bool_decide (c = dquote)). }
  rewrite Ech. cbn [mbind outcome_bind]. destruct (loop_inner _ _ _ _ Hin' l (S p) r s' k (default p v) p) as (ws' & H1 & H2 & ->);
    [done|done|done|split; [done|apply Nat2Z.is_nonneg]|].
  assert (ws' = 0) as ->; [destruct w; [by apply H1|]; by apply H2, (ends_cons c)|]. f_equal. lia.
Qed.

(** A name and the colon. *)
Lemma loop_name w : Forall (λ c, is_char c ∧ c ≠ chr ":") w → ∀ l p r k q id msg,
  drop p m = w ++ r →
  loop (length w + l) p (HdrState (Some k) 0 None None 0 0 false q id msg) =
  loop l (p + length w) (HdrState (Some k) 0 None None 0 0 false q id msg).
Proof using.
  clear. induction 1 as [|c w [Hc Hcol] Hw IH]; intros l p r k q id msg E; [by rewrite Nat.add_0_r|].
  destruct (drop_cons_at _ _ _ E) as (_ & E1 & _). cbn [length Nat.add]. rewrite (loop_char _ _ _ _ _ E Hc).
  rewrite default_plain by done. unfold hdr_char. cbn [s_name s_namel]. rewrite (bool_decide_true (0 = 0)) by done.
  rewrite bool_decide_true by done. cbn [mbind outcome_bind]. etransitivity; [by apply (IH l (S p) r)|]. f_equal. lia.
Qed.

Lemma loop_colon l p r k q id msg ws name tail :
  drop p m = chr ":" :: r → drop k m = name ++ tail → name ≠ [] → 0 ≤ ws →
  Z.of_nat p - Z.of_nat k - ws = Z.of_nat (length name) →
  loop (S l) p (HdrState (Some k) 0 None None ws 0 false q id msg) =
  loop l (S p) (HdrState (Some k) (Z.of_nat (length name)) None None ws 0 (hdr_comma_separated (hdr_id name)) q (hdr_id name) msg).
Proof using Hbig.
  clear Hlim. intros E Ek Hn Hws Hlen. rewrite (loop_char _ _ _ _ _ E) by (split; [by intros []|done]).
  rewrite default_plain by done. unfold hdr_char. cbn [s_name s_namel]. rewrite (bool_decide_true (0 = 0)) by done.
  rewrite (bool_decide_false (chr ":" ≠ chr ":")) by (by intros []). cbn [value_len s_ws]. rewrite Hlen.
  assert (Hl : (length name ≤ length m)%nat).
  { assert (Hd : length (drop k m) = length (name ++ tail)) by by rewrite Ek. rewrite length_drop, length_app in Hd. lia. }
  assert (0 < Z.of_nat (length name)) by (destruct name; [done|simpl; lia]).
  assert (Es : Z.max (s32 (Z.of_nat (length name))) 0 = Z.of_nat (length name)).
  { unfold s32. rewrite Z.mod_small by lia. lia. }
  rewrite Es, bool_decide_false by lia. unfold name_pl. cbn [s_name s_namel set_namel fmap option_fmap option_map]. cbn. rewrite Ek.
  rewrite hdr_hash_known by done. cbn [mbind outcome_bind]. done.
Qed.

(** ** The headers of a line *)

Lemma add_run msg name k t p v r atomic whole :
  msg_in m lim msg → name ≠ [] → drop k m = name ++ t → (k + length name ≤ lim)%nat →
  drop p m = v ++ r → (p + length v ≤ lim)%nat → let id := hdr_id name in
  (atomic = false → hdr_comma_separated id = true) →
  let e := [(Ret name, Ret v, id) : view] in
  ∃ err msg', hdr_add sa_set hdr_mem m msg (Pl (Some (drop k m)) (Z.of_nat (length name))) id p (Z.of_nat (length v)) atomic whole =
      Ret (err, msg') ∧ msg_in m lim msg' ∧ (value_ok id v ∨ atomic = false → err = 0) ∧
    (err = 0 → grown msg (if (if bool_decide (id = SIP_HDR_VIA ∨ id = SIP_HDR_ROUTE) then atomic else whole) : bool then e else [])
      (if atomic then e else []) msg').
Proof using Hlim mem_ok.
  intros Hm Hn Ek Hk Ep Hp id Hat e.
  destruct (hdr_add_safe m lim Hlim sa_set hdr_mem msg (Pl (Some (drop k m)) (Z.of_nat (length name))) id p (Z.of_nat (length v)) atomic whole)
    as (err & msg' & E & Hm'); [done|by exists k, (length name)|lia|].
  exists err, msg'. split; [done|]. split; [done|]. revert E. unfold hdr_add. rewrite mem_ok. cbn [negb]. rewrite (Z.max_l (Z.of_nat (length v)) 0) by lia.
  set (h := SipHdr _ _ _). assert (Hv : view_of h = (Ret name, Ret v, id)).
  { unfold view_of, h. cbn. by rewrite Ek, Ep, !pl_bytes_run. }
  assert (Hg : ∀ b2 msg1, hdr_link msg h atomic b2 = Ret msg1 →
    hdr_parse sa_set msg1 id (Pl (Some (drop p m)) (Z.of_nat (length v))) atomic = Ret (err, msg') →
    (value_ok id v ∨ atomic = false → err = 0) ∧ (err = 0 → grown msg (if b2 then e else []) (if atomic then e else []) msg')).
  { intros b2 msg1 E1 E2. rewrite Ep in E2. split.
    - intros [Hid| ->].
      + destruct (hdr_parse_ok sa_set msg1 id v r atomic Hid) as (? & E3). congruence.
      + rewrite hdr_parse_whole in E2 by auto. congruence.
    - intros ->. split.
      + apply hdr_link_linked in E1; [|apply Hm]. rewrite Hv in E1. apply hdr_parse_keeps in E2 as (E0 & E2 & E3). by eapply linked_same.
      + intros hs0 R. apply (common_read_commons _ _ _ _ (hdr_link_commons _ _ _ _ _ E1)) in R. destruct atomic.
        * by eapply hdr_parse_read.
        * rewrite hdr_parse_whole in E2 by auto. injection E2 as <-. by rewrite app_nil_r. }
  destruct (bool_decide _).
  - destruct (hdr_link msg h atomic atomic) as [msg1|] eqn:E1; [|done]. cbn [mbind outcome_bind]. by apply Hg.
  - destruct (hdr_link msg h atomic whole) as [msg1|] eqn:E1; [|done]. cbn [mbind outcome_bind]. by apply Hg.
Qed.

(** The loop returns, without an error if [plain] holds, and what it returns
    satisfies [P]. *)
Definition good (plain : Prop) (r : outcome (Z * nat * sip_msg)) (P : nat → sip_msg → Prop) : Prop :=
  ∃ err l msg, r = Ret (err, l, msg) ∧ (plain → err = 0) ∧ (err = 0 → P l msg).

(** What the values before the last one leave. *)
Definition listed_init (l : line) (vs : list (list Z)) : list view := if split_line l then map (entry l) vs else [].

Section line.
Variables (l : line) (plain : Prop) (P : nat → sip_msg → Prop).
Hypothesis Hok : line_ok l.
Hypothesis Hplain : plain → header_ok l.

Lemma plain_value w : plain → w ∈ values l → value_ok (line_id l) w.
Proof using Hplain. intros Hp Hw. apply Hplain in Hp. unfold header_ok in Hp. rewrite Forall_forall in Hp. by apply Hp, list_elem_of_In. Qed.

Local Abbreviation nl := (Z.of_nat (length (ln_name l))).
Local Abbreviation st k v c ws lf cs q msg := (HdrState (Some k) nl (Some v) c ws lf cs q (line_id l) msg).

(** A comma ends a value. *)
Lemma loop_comma n p r k t v c w r' a q msg :
  msg_in m lim msg → drop k m = ln_name l ++ t → (k + length (ln_name l) ≤ lim)%nat → drop p m = chr "," :: r → (p ≤ lim)%nat →
  drop c m = w ++ r' → p = (c + length w + a)%nat → q = false → w ∈ values l →
  (∀ msg', msg_in m lim msg' → grown msg (listed_init l [w]) [entry l w] msg' →
    good plain (loop n (S p) (st k v None (Z.of_nat a) 0 true q msg')) P) →
  good plain (loop (S n) p (st k v (Some c) (Z.of_nat a) 0 true q msg)) P.
Proof using Hlim mem_ok Hok Hplain.
  intros Hm Ek Hk Ep Hp Ec Hpc Hq Hw Hgo. rewrite (loop_char _ _ _ _ _ Ep) by (split; [by intros []|done]).
  unfold hdr_default. cbn [s_lf s_comsep s_quote]. rewrite (bool_decide_eq_true_2 (0 = 0)) by done.
  rewrite (bool_decide_eq_true_2 (chr "," = chr ",")) by done. subst q. cbn [negb orb andb].
  unfold hdr_value. cbn [s_namel s_lf s_cv s_v s_msg s_id]. pose proof (ok_name _ Hok) as [Hne _].
  rewrite (bool_decide_eq_false_2 (nl = 0)) by (destruct (ln_name l); [done|simpl; lia]).
  rewrite (bool_decide_eq_true_2 (0 = 0)) by done. cbn [negb]. rewrite andb_false_r. cbn [default from_option id value_len s_ws].
  replace (Z.of_nat p - Z.of_nat c - Z.of_nat a) with (Z.of_nat (length w)) by lia. unfold name_pl. cbn [s_name s_namel fmap option_fmap option_map].
  destruct (add_run msg (ln_name l) k t c w r' true false) as (err & msg' & E & Hm' & Hpl & Hg); [done..|lia|done|].
  change (hdr_id (ln_name l)) with (line_id l) in *. rewrite E. cbn [mbind outcome_bind fst snd].
  destruct (bool_decide (err ≠ 0)) eqn:He; [apply bool_decide_eq_true in He|].
  - eexists _, _, _. split; [done|]. split; [intros Hpp; apply Hpl; left; by apply plain_value|done].
  - cbn [mbind outcome_bind]. apply Hgo; [done|]. apply bool_decide_eq_false in He. specialize (Hg ltac:(lia)). clear -Hg. unfold listed_init, split_line, entry, line_id in *. cbn [map]. by destruct (bool_decide _).
Qed.

(** The end of the line adds its last value, and the whole of the line where it
    had several. *)
Definition listed_last (w : list Z) : list view := [entry l (if split_line l then w else body l)].

Lemma value_flush p j k t v c w r1 r2 cs q msg lf :
  msg_in m lim msg → drop k m = ln_name l ++ t → (k + length (ln_name l) ≤ lim)%nat →
  drop v m = body l ++ r1 → drop c m = w ++ r2 → p = (c + length w + 2 + j)%nat → p = (v + length (body l) + 2 + j)%nat →
  (p ≤ lim)%nat → (c = v → w = body l) → (c ≠ v → line_list l = true) → w ∈ values l → 1 ≤ lf →
  ∃ t, hdr_value sa_set hdr_mem m p (st k v (Some c) (Z.of_nat (2 + j)) lf cs q msg) = Ret t ∧
    ((∃ err s, t = Out err s ∧ err ≠ 0 ∧ (plain → err = 0)) ∨
     ∃ msg', msg_in m lim msg' ∧ grown msg (listed_last w) [entry l w] msg' ∧
       t = if bool_decide (lf > 1) then Out 0 (st k v (Some c) (Z.of_nat (2 + j)) lf cs q msg')
           else Through (HdrState None nl None None (Z.of_nat (2 + j)) 0 false q (line_id l) msg')).
Proof using Hlim mem_ok Hok Hplain.
  clear P. intros Hm Ek Hk Ev Ec Hpc Hpv Hp Hcv Hcl Hw Hlf. pose proof (ok_name _ Hok) as [Hne _]. unfold hdr_value. cbn [s_namel s_lf s_cv s_v s_msg s_id].
  rewrite (bool_decide_eq_false_2 (nl = 0)) by (destruct (ln_name l); [done|simpl; lia]).
  rewrite (bool_decide_eq_false_2 (lf = 0)) by lia. cbn [negb andb]. rewrite andb_true_r. cbn [default from_option id value_len s_ws].
  replace (Z.of_nat p - Z.of_nat c - Z.of_nat (2 + j)) with (Z.of_nat (length w)) by lia.
  change (name_pl m (st k v (Some c) (Z.of_nat (2 + j)) lf cs q msg)) with (Pl (Some (drop k m)) nl).
  destruct (add_run msg (ln_name l) k t c w r2 true (bool_decide (Some c = Some v))) as (e1 & m1 & E1 & Hm1 & Hpl1 & Hg1); [done..|lia|done|].
  change (hdr_id (ln_name l)) with (line_id l) in *. rewrite E1. cbn [mbind outcome_bind fst snd].
  destruct (bool_decide (e1 ≠ 0)) eqn:He1; [apply bool_decide_eq_true in He1; eexists; split; [done|]; left; eexists _, _; split; [done|]; split; [done|intros Hpp; apply Hpl1; left; by apply plain_value]|].
  apply bool_decide_eq_false in He1. specialize (Hg1 ltac:(lia)). cbn [s_cv s_v set_msg]. destruct (decide (c = v)) as [->|Hne'].
  - rewrite (bool_decide_eq_true_2 (Some v = Some v)) in Hg1 by done. rewrite (bool_decide_eq_false_2 (Some v ≠ Some v)) by naive_solver.
    cbn [mbind outcome_bind fst snd s_lf set_msg]. rewrite (bool_decide_eq_false_2 (0 ≠ 0)) by lia.
    destruct (bool_decide (lf > 1)) eqn:Hl1; (eexists; split; [done|]); right; exists m1; (split; [done|]); (split; [|done]);
      clear -Hg1 Hcv; unfold listed_last, split_line, entry, line_id in *; rewrite <- Hcv by done; by destruct (bool_decide _).
  - rewrite (bool_decide_eq_false_2 (Some c = Some v)) in Hg1 by naive_solver.
    rewrite (bool_decide_eq_true_2 (Some c ≠ Some v)) by naive_solver. cbn [s_msg set_msg default from_option id value_len s_ws].
    replace (Z.of_nat p - Z.of_nat v - Z.of_nat (2 + j)) with (Z.of_nat (length (body l))) by lia.
    match goal with |- context [name_pl m ?s] => change (name_pl m s) with (Pl (Some (drop k m)) nl) end.
    destruct (add_run m1 (ln_name l) k t v (body l) r1 false true) as (e2 & m2 & E2 & Hm2 & Hpl2 & Hg2); [done..|lia|by intros _; apply Hcl|].
    change (hdr_id (ln_name l)) with (line_id l) in *. cbn [s_id set_msg] in *. rewrite E2. cbn [mbind outcome_bind fst snd].
    destruct (bool_decide (e2 ≠ 0)) eqn:He2; [apply bool_decide_eq_true in He2; eexists; split; [done|]; left; eexists _, _; split; [done|]; split; [done|auto]|].
    apply bool_decide_eq_false in He2. specialize (Hg2 ltac:(lia)). pose proof (grown_trans _ _ _ _ _ _ _ _ Hg1 Hg2) as Hg. cbn [s_lf set_msg].
    destruct (bool_decide (lf > 1)) eqn:Hl1; (eexists; split; [done|]); right; exists m2; (split; [done|]); (split; [|done]);
      clear -Hg; unfold listed_last, split_line, entry, line_id in *; by destruct (bool_decide _).
Qed.

(** Behind a line: its last value [w] is still to be added. *)
Definition pending (w : list Z) (p : nat) (s : hdr_state) : Prop :=
  ∃ k v c cs q t r1 r2 msg, s = st k v (Some c) 2 1 cs q msg ∧
    drop k m = ln_name l ++ t ∧ (k + length (ln_name l) ≤ lim)%nat ∧ drop v m = body l ++ r1 ∧ drop c m = w ++ r2 ∧
    p = (c + length w + 2)%nat ∧ p = (v + length (body l) + 2)%nat ∧ (p ≤ lim)%nat ∧ (c = v → w = body l) ∧ (c ≠ v → line_list l = true).

(** The loop goes on behind the line, where all values but the last are added. *)
Definition goes_on (n : nat) (vs : list (list Z)) (p : nat) (msg : sip_msg) : Prop :=
  ∀ s w init, vs = init ++ [w] → pending w p s → msg_in m lim (s_msg s) →
    grown msg (listed_init l init) (map (entry l) init) (s_msg s) → good plain (loop n p s) P.

Lemma goes_on_cons n w vs p msg msg' : grown msg (listed_init l [w]) [entry l w] msg' →
  goes_on n (w :: vs) p msg → goes_on n vs p msg'.
Proof using.
  clear. intros Hg Hgo s w' init -> Hs Hm Hg'. apply (Hgo s w' (w :: init)); [done..|].
  pose proof (grown_trans _ _ _ _ _ _ _ _ Hg Hg') as Ht. unfold listed_init in *. by destruct (split_line l).
Qed.

Lemma loop_end n p r k v c w r1 r2 cs q t msg :
  msg_in m lim msg → drop p m = 13 :: 10 :: r → drop k m = ln_name l ++ t → (k + length (ln_name l) ≤ lim)%nat →
  drop v m = body l ++ r1 → drop c m = w ++ r2 → p = (c + length w)%nat → p = (v + length (body l))%nat →
  (p + 2 ≤ lim)%nat → (c = v → w = body l) → (c ≠ v → line_list l = true) → goes_on n [w] (p + 2) msg →
  good plain (loop (2 + n) p (st k v (Some c) 0 0 cs q msg)) P.
Proof using Hbig Hlim.
  intros Hm Ep Ek Hk Ev Ec Hpc Hpv Hp Hcv Hcl Hgo. destruct (drop_cons_at _ _ _ Ep) as (_ & E1 & _). cbn [Nat.add].
  rewrite (loop_cr _ _ _ _ Ep). rewrite (loop_lf _ _ _ _ E1) by done.
  replace (S (S p)) with (p + 2)%nat by lia. apply (Hgo _ w []); [done| |done|].
  - exists k, v, c, cs, q, t, r1, r2, msg. split_and!; (done || lia).
  - unfold listed_init. destruct (split_line l); apply grown_refl.
Qed.

Lemma loop_rest rest : ∀ n p r k v c w r2 q t msg,
  Forall (λ x : list Z * list Z * list Z, lws x.1.1 ∧ lws x.1.2 ∧ value (line_list l) x.2) rest →
  (rest ≠ [] → line_list l = true ∧ q = false) →
  msg_in m lim msg → drop p m = rest_text rest ++ 13 :: 10 :: r →
  drop k m = ln_name l ++ t → (k + length (ln_name l) ≤ lim)%nat →
  drop v m = body l ++ 13 :: 10 :: r → drop c m = w ++ r2 → p = (c + length w)%nat →
  (p + length (rest_text rest))%nat = (v + length (body l))%nat → (p + length (rest_text rest) + 2 ≤ lim)%nat →
  (v ≤ c)%nat → (rest = [] → c = v → w = body l) → (c ≠ v → line_list l = true) → Forall (λ w, w ∈ values l) (w :: map snd rest) →
  goes_on n (w :: map snd rest) (p + length (rest_text rest) + 2) msg →
  good plain (loop (length (rest_text rest) + (2 + n)) p (st k v (Some c) 0 0 (line_list l) q msg)) P.
Proof using Hlim Hbig mem_ok Hok Hplain.
  induction rest as [|[[a b] e] rest IH]; intros n p r k v c w r2 q t msg Hr Hq Hm Ep Ek Hk Ev Ec Hpc Hpv Hp Hvc Hcv Hcl Hw Hgo.
  { cbn [rest_text map concat length app] in *. rewrite Nat.add_0_r in Hpv, Hp, Hgo. eapply loop_end; try done; auto. }
  apply Forall_cons_1 in Hw as [Hw Hws]. destruct (Hq ltac:(done)) as [Hcs ->]. apply Forall_cons_1 in Hr as [(Ha & Hb & He) Hr]. cbn [fst snd] in *. rewrite Hcs in *.
  assert (Et : rest_text ((a, b, e) :: rest) = a ++ chr "," :: b ++ e ++ rest_text rest).
  { unfold rest_text. cbn [map concat]. rewrite <- app_assoc. cbn [app]. by rewrite <- app_assoc. }
  rewrite Et in *. clear Et. rewrite <- app_assoc in Ep. cbn [app] in Ep. rewrite <- !app_assoc in Ep.
  rewrite !length_app in *. cbn [length] in *. rewrite !length_app in *.
  replace (length a + S (length b + (length e + length (rest_text rest))) + (2 + n))%nat
    with (length a + S (length b + (length e + (length (rest_text rest) + (2 + n)))))%nat by lia.
  rewrite (loop_lws a Ha _ p _ _ Ep) by (cbn; lia). cbn [s_ws set_ws]. apply drop_app_at in Ep as Ep1.
  assert (Hsp : ∀ x s, set_ws x s = HdrState (s_name s) (s_namel s) (s_v s) (s_cv s) x (s_lf s) (s_comsep s) (s_quote s) (s_id s) (s_msg s)) by done.
  rewrite Hsp. cbn [s_name s_namel s_v s_cv s_lf s_comsep s_quote s_id s_msg].
  destruct (drop_cons_at _ _ _ Ep1) as (_ & Ep2 & _).
  eapply (loop_comma _ _ _ k t v c w r2 (length a)); try done; try lia. intros msg' Hm' Hg.
  rewrite (loop_lws b Hb _ _ _ _ Ep2) by (cbn; lia). apply drop_app_at in Ep2 as Ep3. rewrite Hsp.
  cbn [s_name s_namel s_v s_cv s_lf s_comsep s_quote s_id s_msg s_ws].
  edestruct (loop_value true e) as (q' & Hq' & ->); [exact He|exact Ep3| |lia|].
  { destruct (ok_name _ Hok) as [? _]. destruct (ln_name l); [done|simpl; lia]. }
  cbn [default from_option id]. apply drop_app_at in Ep3 as Ep4. eapply (IH n _ r _ _ _ e); try done; try lia.
  - intros _. split; [done|by apply Hq'].
  - eapply goes_on_cons; [exact Hg|]. cbn [map snd] in Hgo. revert Hgo. match goal with |- goes_on _ _ ?x _ → goes_on _ _ ?y _ => replace y with x by lia end. done.
Qed.

(** A line, behind the first character of its name. *)
Lemma loop_line n k r q id0 msg :
  drop k m = line_text l ++ r → (k + length (line_text l) ≤ lim)%nat → msg_in m lim msg →
  goes_on n (values l) (k + length (line_text l)) msg →
  good plain (loop (length (line_text l) - 1 + n) (S k) (HdrState (Some k) 0 None None 0 0 false q id0 msg)) P.
Proof using Hlim Hbig mem_ok Hok Hplain.
  intros Ek Hk Hm Hgo. pose proof Hok as [[Hne Hname] Hpre Hpost Hfirst Hrest Hlist].
  destruct (ln_name l) as [|c0 nm] eqn:En; [done|]. rewrite <- En in *. assert (Hnl : nl ≠ 0) by (rewrite En; simpl; lia).
  assert (Hlen : length (line_text l) = (S (length nm + length (ln_pre l) + 1 + length (ln_post l) + length (ln_first l) +
    length (rest_text (ln_rest l)) + 2))%nat).
  { unfold line_text, body. rewrite En. repeat (rewrite !length_app; cbn [length app]). lia. }
  rewrite Hlen in Hk, Hgo |- *. clear Hlen.
  unfold line_text in Ek. rewrite <- !app_assoc in Ek. cbn [app] in Ek. rewrite <- !app_assoc in Ek.
  pose proof Ek as Ek'. rewrite En in Ek'. cbn [app] in Ek'. apply drop_cons_at in Ek' as (_ & E1 & _).
  replace (S _ - 1 + n)%nat with (length nm + (length (ln_pre l) + S (length (ln_post l) + (length (ln_first l) +
    (length (rest_text (ln_rest l)) + (2 + n))))))%nat by lia.
  assert (Hname' : Forall (λ c, is_char c ∧ c ≠ chr ":") nm) by (rewrite En in Hname; by apply Forall_cons_1 in Hname as [_ ?]).
  rewrite (loop_name nm Hname' _ _ _ _ _ _ _ E1). apply drop_app_at in E1 as E2.
  rewrite (loop_lws _ Hpre _ _ _ _ E2) by (cbn; lia). apply drop_app_at in E2 as E3.
  assert (Hsp : ∀ x s, set_ws x s = HdrState (s_name s) (s_namel s) (s_v s) (s_cv s) x (s_lf s) (s_comsep s) (s_quote s) (s_id s) (s_msg s)) by done.
  rewrite Hsp. cbn [s_name s_namel s_v s_cv s_lf s_comsep s_quote s_id s_msg s_ws].
  rewrite (loop_colon _ _ _ _ _ _ _ _ _ _ E3 Ek Hne) by (try rewrite En; simpl; lia).
  change (hdr_id (ln_name l)) with (line_id l). change (hdr_comma_separated (line_id l)) with (line_list l).
  destruct (drop_cons_at _ _ _ E3) as (_ & E4 & _).
  rewrite (loop_lws _ Hpost _ _ _ _ E4) by (cbn; lia). apply drop_app_at in E4 as E5. rewrite Hsp.
  cbn [s_name s_namel s_v s_cv s_lf s_comsep s_quote s_id s_msg s_ws].
  pose proof E5 as Eb. unfold body in E5. rewrite <- app_assoc in E5.
  edestruct (loop_value (line_list l)) as (q' & Hq' & ->); [exact Hfirst|exact E5|exact Hnl|lia|].
  cbn [default from_option id]. apply drop_app_at in E5 as E6.
  eapply (loop_rest (ln_rest l) _ _ _ _ _ _ (ln_first l)); try done; try lia.
  - intros Hr. destruct (line_list l) eqn:El; [split; [done|by apply Hq']|by destruct Hr; apply Hlist].
  - rewrite En. simpl. lia.
  - unfold body. rewrite length_app. lia.
  - intros Hr _. unfold body. by rewrite Hr, app_nil_r.
  - change (Forall (λ w, w ∈ values l) (values l)). apply Forall_forall. intros w. apply list_elem_of_In.
  - revert Hgo. unfold values. match goal with |- goes_on _ _ ?x _ → goes_on _ _ ?y _ => replace y with x by lia end. done.
Qed.
End line.

(** ** The headers of a message *)

Definition headers_text (ls : list line) : list Z := concat (map line_text ls) ++ [13; 10].

Lemma listed_split l init w msg m1 m2 : values l = init ++ [w] →
  grown msg (listed_init l init) (map (entry l) init) m1 → grown m1 (listed_last l w) [entry l w] m2 →
  grown msg (listed l) (hashed l) m2.
Proof using.
  clear. intros E G1 G2. pose proof (grown_trans _ _ _ _ _ _ _ _ G1 G2) as G. unfold listed, hashed, listed_init, listed_last in *.
  rewrite E. rewrite map_app. destruct (split_line l); [by rewrite map_app|exact G].
Qed.

Lemma good_mono plain r (P Q : nat → sip_msg → Prop) : (∀ n msg, P n msg → Q n msg) → good plain r P → good plain r Q.
Proof using. clear. intros HPQ (err & n & msg & E & H1 & H2). exists err, n, msg. auto. Qed.

(** The first character of a name. *)
Lemma char_name p c s : c ≠ chr ":" → s_name s = None → s_v s = None → s_cv s = None → s_lf s = 0 → s_comsep s = false →
  hdr_char m p c s = Ret (Break (HdrState (Some p) 0 None None 0 0 false (s_quote s) (s_id s) (s_msg s))).
Proof using.
  clear. destruct s as [n nl v cv ws lf cs q id msg]. cbn. intros Hc -> -> -> -> ->. unfold hdr_char. cbn [s_name s_namel set_name set_ws set_namel].
  rewrite (bool_decide_true (0 = 0)) by done. by rewrite bool_decide_true.
Qed.

(** The text of a line starts with a character of its name. *)
Lemma line_head l : line_ok l → ∃ c tl, line_text l = c :: tl ∧ is_char c ∧ c ≠ chr ":".
Proof using.
  clear. intros Hl. destruct (ok_name _ Hl) as [Hn Hc]. unfold line_text. destruct (ln_name l) as [|c nm]; [done|].
  apply Forall_cons_1 in Hc as [[? ?] _]. eexists c, _. split; [cbn [app]; reflexivity|done].
Qed.

Lemma headers_cons l ls : headers_text (l :: ls) = line_text l ++ headers_text ls.
Proof using. clear. unfold headers_text. cbn [map concat]. by rewrite <- app_assoc. Qed.

Section lines.
Variables (plain : Prop) (n0 : nat) (r0 : list Z).

(** The lines [ls] are still to be read behind [l]. *)
Lemma loop_lines ls : ∀ l p s w init msg,
  line_ok l → (plain → header_ok l) → Forall line_ok ls → (plain → Forall header_ok ls) →
  values l = init ++ [w] → pending l w p s → msg_in m lim (s_msg s) →
  grown msg (listed_init l init) (map (entry l) init) (s_msg s) →
  drop p m = headers_text ls ++ r0 → (p + length (headers_text ls) ≤ lim)%nat →
  good plain (loop (length (headers_text ls) + n0) p s)
    (λ n msg', n = n0 ∧ grown msg (concat (map listed (l :: ls))) (concat (map hashed (l :: ls))) msg').
Proof using Hlim Hbig mem_ok.
  induction ls as [|l2 ls IH]; intros l p s w init msg Hl Hpl Hls Hpls Ev Hs Hm Hg Ep Hp;
    destruct Hs as (k & v & c & cs & q & t & r1 & r2 & msg0 & -> & Ek & Hk & Evv & Ec & Hpc & Hpv & Hp' & Hcv & Hcl); cbn [s_msg] in *;
    assert (Hw : w ∈ values l) by (rewrite Ev; apply elem_of_app; right; by left).
  - unfold headers_text in *. cbn [map concat app length] in *. destruct (drop_cons_at _ _ _ Ep) as (_ & E1 & _).
    cbn [Nat.add]. rewrite (loop_cr _ _ _ _ Ep). cbn [s_ws]. rewrite u32_id by lia.
    destruct (drop_cons_at _ _ _ E1) as (E2 & _ & _). cbn [hdr_loop]. rewrite E2. cbn [of_option mbind outcome_bind].
    rewrite !bool_decide_false by naive_solver lia. rewrite bool_decide_true by done.
    cbn [s_lf set_ws s_ws]. rewrite (bool_decide_false (1 = 0)) by done. rewrite !u32_id by lia.
    destruct (value_flush l plain Hl Hpl (S (S p)) 2 k t v c w r1 r2 cs q msg0 2) as (tt & E & Ht); try done; try lia.
    match goal with |- context [hdr_value _ _ _ _ ?s] => change s with (HdrState (Some k) (Z.of_nat (length (ln_name l))) (Some v) (Some c) (Z.of_nat (2 + 2)) 2 cs q (line_id l) msg0) end.
    rewrite E. cbn [mbind outcome_bind]. destruct Ht as [(err & s & -> & He & Hpe)|(msg' & Hm' & Hg' & ->)].
    + eexists _, _, _. split; [done|]. split; [done|done].
    + cbn. eexists _, _, _. split; [done|]. split; [done|]. intros _. split; [done|]. rewrite !app_nil_r. by eapply listed_split.
  - apply Forall_cons_1 in Hls as [Hl2 Hls]. destruct (line_head l2 Hl2) as (c0 & tl & El & Hc0 & Hcol).
    rewrite headers_cons in *. rewrite <- app_assoc in Ep. rewrite length_app in *.
    replace (length (line_text l2) + length (headers_text ls) + n0)%nat
      with (S (length (line_text l2) - 1 + (length (headers_text ls) + n0)))%nat by (rewrite El; simpl; lia).
    pose proof Ep as Ep'. rewrite El in Ep'. cbn [app] in Ep'. rewrite (loop_char _ _ _ _ _ Ep' Hc0).
    unfold hdr_default. cbn [s_lf s_comsep s_quote]. rewrite (bool_decide_false (1 = 0)) by done. cbn [negb orb].
    destruct (value_flush l plain Hl Hpl p 0 k t v c w r1 r2 cs q msg0 1) as (tt & E & Ht); try done; try lia.
    change (Z.of_nat (2 + 0)) with 2 in *. rewrite E. cbn [mbind outcome_bind]. destruct Ht as [(err & s & -> & He & Hpe)|(msg' & Hm' & Hg' & ->)].
    + cbn [mbind outcome_bind]. eexists _, _, _. split; [done|]. split; [done|done].
    + rewrite (bool_decide_false (1 > 1)) by lia. rewrite char_name by done. cbn [mbind outcome_bind s_quote s_id s_msg].
      pose proof (listed_split _ _ _ _ _ _ Ev Hg Hg') as G1.
      assert (Hpls' : plain → header_ok l2 ∧ Forall header_ok ls).
      { intros Hpp. by apply Hpls, Forall_cons_1 in Hpp. }
      apply (loop_line l2 plain _ Hl2 (λ Hpp, proj1 (Hpls' Hpp)) _ _ (headers_text ls ++ r0)); [done|lia|done|].
      intros s w' init' Ev' Hs' Hms' Hgs'.
      eapply good_mono; [|apply (IH l2 _ s w' init' msg'); [done|exact (λ Hpp, proj1 (Hpls' Hpp))|done|exact (λ Hpp, proj2 (Hpls' Hpp))|done..|rewrite <- drop_drop, Ep, drop_app_length; done|lia]].
      intros n msg2 [-> G2]. split; [done|]. cbn [map concat]. eapply grown_trans; [exact G1|exact G2].
Qed.

(** All the lines, from the start of the first one. *)
Lemma loop_headers ls p msg :
  ls ≠ [] → Forall line_ok ls → (plain → Forall header_ok ls) → msg_in m lim msg →
  drop p m = headers_text ls ++ r0 → (p + length (headers_text ls) ≤ lim)%nat →
  good plain (loop (length (headers_text ls) + n0) p (start_state msg))
    (λ n msg', n = n0 ∧ grown msg (concat (map listed ls)) (concat (map hashed ls)) msg').
Proof using Hlim Hbig mem_ok.
  intros Hne Hls Hpls Hm Ep Hp. destruct ls as [|l2 ls]; [done|]. apply Forall_cons_1 in Hls as [Hl2 Hls].
  destruct (line_head l2 Hl2) as (c0 & tl & El & Hc0 & Hcol).
  rewrite headers_cons in *. rewrite <- app_assoc in Ep. rewrite length_app in *.
  replace (length (line_text l2) + length (headers_text ls) + n0)%nat
    with (S (length (line_text l2) - 1 + (length (headers_text ls) + n0)))%nat by (rewrite El; simpl; lia).
  pose proof Ep as Ep'. rewrite El in Ep'. cbn [app] in Ep'. rewrite (loop_char _ _ _ _ _ Ep' Hc0).
  rewrite default_plain by done. rewrite char_name by done. cbn [mbind outcome_bind start_state s_quote s_id s_msg].
  assert (Hpls' : plain → header_ok l2 ∧ Forall header_ok ls).
  { intros Hpp. by apply Hpls, Forall_cons_1 in Hpp. }
  apply (loop_line l2 plain _ Hl2 (λ Hpp, proj1 (Hpls' Hpp)) _ _ (headers_text ls ++ r0)); [done|lia|done|].
  intros s w' init' Ev' Hs' Hms' Hgs'. apply (loop_lines ls l2 _ s w' init' msg); [done|exact (λ Hpp, proj1 (Hpls' Hpp))|done|exact (λ Hpp, proj2 (Hpls' Hpp))|done..| |lia].
  by rewrite <- drop_drop, Ep, drop_app_length.
Qed.
End lines.
End loop.
