(* ===== verification/SipMsg.v ===== *)
(** * Decoding a whole message

    [sip_msg_decode] of the text of a request or response: the start line, the
    headers and the position behind them. *)
From stdpp Require Import base tactics list numbers strings option.
From S2P Require Import Prelude Mbuf Fmt Print Regex Uri Hash Sip SipSafe SipVal SipHead SipLines.

(** ** Start lines *)

Inductive start :=
| Request (met ruri : list Z)
| Response (ver digits reason : list Z).

Definition version : list Z := bytes_of "SIP/2.0".

Definition tokens (s : start) : list Z * list Z * list Z :=
  match s with Request m u => (m, u, version) | Response v d r => (v, d, r) end.

Definition start_text (s : start) : list Z :=
  let '(x, y, z) := tokens s in x ++ 32 :: y ++ 32 :: z ++ [13; 10].

Definition token (w : list Z) : Prop := w ≠ [] ∧ Forall is_char w.

(** The request URI [u], and the number of a status. *)
Definition start_ok `{inet} (rest : list Z) (u : uri) (s : start) : Prop :=
  match s with
  | Request m r => token m ∧ token r ∧
      uri_decode (Pl (Some (r ++ 32 :: version ++ 13 :: 10 :: rest)) (Z.of_nat (length r))) = Ret (0, u)
  | Response v d r => token v ∧ token d ∧ Forall (λ c, c ≠ 13 ∧ c ≠ 10) r ∧ r ≠ version ∧
      ∃ ds, mapM dec_digit d = Some ds ∧ 0 < digits_value 10 ds < 65536
  end.

Definition front_is (u : uri) (s : start) (msg : sip_msg) : Prop :=
  match s with
  | Request m r => m_req msg = true ∧ views (m_met msg) m ∧ views (m_ruri msg) r ∧ views (m_ver msg) version ∧ m_uri msg = u
  | Response v d r => m_req msg = false ∧ views (m_ver msg) v ∧ views (m_reason msg) r ∧
      ∃ ds, mapM dec_digit d = Some ds ∧ m_scode msg = digits_value 10 ds
  end.

Definition start_items : list item :=
  [Class true [One 32; One 9; One 13; One 10] (chr "+"); Lit 32; Class true [One 32; One 9; One 13; One 10] (chr "+"); Lit 32;
   Class true [One 13; One 10] (chr "*"); Class false [One 13] (chr "*"); Class false [One 10] (chr "1")].

Lemma start_expr_items : start_expr = expr_of start_items.
Proof. vm_compute. reflexivity. Qed.

(** A control character in a class stands for itself. *)
Lemma one_ctl c d : d < 65 → bool_decide (tolower d ≤ tolower c) && bool_decide (tolower c ≤ tolower d) = bool_decide (c = d).
Proof.
  intros Hd. unfold tolower. rewrite (bool_decide_false (65 ≤ d ∧ d ≤ 90)) by lia.
  destruct (bool_decide (65 ≤ c ∧ c ≤ 90)) eqn:E; [apply bool_decide_eq_true in E|]; rewrite <- bool_decide_and; apply bool_decide_ext; lia.
Qed.

Lemma in_ws_class c : in_class true [One 32; One 9; One 13; One 10] c = negb (bool_decide (c = 32 ∨ c = 9 ∨ c = 13 ∨ c = 10)).
Proof.
  unfold in_class, expr_match. cbn [map cls_range existsb chr_min chr_max]. rewrite !one_ctl by lia.
  by rewrite orb_false_r, !bool_decide_or.
Qed.

Lemma in_eol_class c : in_class true [One 13; One 10] c = negb (bool_decide (c = 13 ∨ c = 10)).
Proof.
  unfold in_class, expr_match. cbn [map cls_range existsb chr_min chr_max]. rewrite !one_ctl by lia.
  by rewrite orb_false_r, !bool_decide_or.
Qed.

Lemma token_class w : Forall is_char w → forallb (in_class true [One 32; One 9; One 13; One 10]) w = true.
Proof.
  induction 1 as [|c w (H1 & H2 & H3) Hw IH]; [done|]. cbn [forallb]. rewrite IH, in_ws_class, bool_decide_false; [done|].
  unfold is_sp in H1. tauto.
Qed.

(** The expression of the start line on a start line. *)
Lemma start_greedy x y z t :
  token x → token y → Forall (λ c, c ≠ 13 ∧ c ≠ 10) z →
  Z.of_nat (length (x ++ 32 :: y ++ 32 :: z ++ 13 :: 10 :: t)) < 4294967296 →
  greedy start_items (x ++ 32 :: y ++ 32 :: z ++ 13 :: 10 :: t) =
    Matched [(x, 32 :: y ++ 32 :: z ++ 13 :: 10 :: t); (y, 32 :: z ++ 13 :: 10 :: t); (z, 13 :: 10 :: t); ([13], 10 :: t); ([10], t)].
Proof.
  intros [Hx1 Hx] [Hy1 Hy] Hz Hlen. rewrite !length_app in Hlen. cbn [length] in Hlen. rewrite !length_app in Hlen. cbn [length] in Hlen.
  rewrite !length_app in Hlen. unfold start_items.
  rewrite (greedy_class _ _ _ _ _ _ 1 4294967295); [|done|destruct x; [done|simpl in *; lia]|by apply token_class|by rewrite in_ws_class].
  rewrite greedy_lit.
  rewrite (greedy_class _ _ _ _ _ _ 1 4294967295); [|done|destruct y; [done|simpl in *; lia]|by apply token_class|by rewrite in_ws_class].
  rewrite greedy_lit.
  rewrite (greedy_class _ _ _ _ _ _ 0 4294967295); [|done|lia| |by rewrite in_eol_class].
  2: { clear -Hz. induction Hz as [|c z [H1 H2] Hz IH]; [done|]. cbn [forallb]. rewrite IH, in_eol_class, bool_decide_false; [done|lia]. }
  change (13 :: 10 :: t) with ([13] ++ 10 :: t) at 1.
  rewrite (greedy_class _ _ _ _ _ _ 0 4294967295); [|done|simpl; lia|done|done].
  assert (Hlast : greedy [Class false [One 10] (chr "1")] (10 :: t) = Matched [([10], t)]).
  { cbn [greedy]. change (quantifier (chr "1")) with (Some (1, 1)). cbn [default from_option id].
    replace (Z.min 1 (Z.of_nat (length (10 :: t)))) with 1 by (simpl; lia). done. }
  by rewrite Hlast.
Qed.

Lemma part_views rest x v : views (part_pl rest (x, v)) x.
Proof. by exists (v ++ rest). Qed.

Section message.
Context `{inet} (sa_set : list Z → option sockaddr) (hdr_mem : pl → bool) (tag : Z).
Hypothesis mem_ok : ∀ p, hdr_mem p = true.

(** The start line. *)
Lemma start_line_run s u t rest msg x y z :
  tokens s = (x, y, z) → start_ok (t ++ rest) u s →
  ∃ msg', start_line (part_pl rest (x, 32 :: y ++ 32 :: z ++ 13 :: 10 :: t)) (part_pl rest (y, 32 :: z ++ 13 :: 10 :: t))
      (part_pl rest (z, 13 :: 10 :: t)) msg = Ret (0, msg') ∧ front_is u s msg' ∧
    m_hdrl msg' = m_hdrl msg ∧ m_hdrht msg' = m_hdrht msg ∧ commons msg' = commons msg.
Proof using.
  clear. intros Et Hok. unfold start_line.
  destruct (strcmp_known z (13 :: 10 :: t ++ rest) (bytes_of "SIP/2.0")) as (e & Ee & He).
  change (part_pl rest (z, 13 :: 10 :: t)) with (Pl (Some (z ++ 13 :: 10 :: t ++ rest)) (Z.of_nat (length z))).
  rewrite Ee. cbn [mbind outcome_bind]. destruct s as [m r|v d r]; injection Et as <- <- <-.
  - rewrite bool_decide_true by (by apply He). destruct Hok as (_ & _ & Hu).
    assert (Ey : part_pl rest (r, 32 :: version ++ 13 :: 10 :: t) = Pl (Some (r ++ 32 :: version ++ 13 :: 10 :: t ++ rest)) (Z.of_nat (length r))).
    { unfold part_pl. cbn [fst snd]. done. }
    rewrite Ey, Hu. cbn [mbind outcome_bind fst snd]. eexists. split; [done|]. split; [|done].
    split_and!; [done|apply part_views|by eexists|by eexists|done].
  - destruct Hok as (_ & _ & _ & Hr & ds & Hd & Hpos). rewrite bool_decide_false by (rewrite He; done).
    assert (En : pl_u32 (part_pl rest (d, 32 :: r ++ 13 :: 10 :: t)) = Ret (digits_value 10 ds)).
    { unfold part_pl, pl_u32. cbn [fst snd]. rewrite (pl_num_run 4294967296) by lia. rewrite Hd. f_equal. apply Z.mod_small. lia. }
    rewrite En. cbn [mbind outcome_bind]. rewrite !(u16_id (digits_value 10 ds)) by lia. rewrite (bool_decide_false (digits_value 10 ds = 0)) by lia.
    eexists. split; [done|]. split; [|done]. split_and!; [done|apply part_views|by eexists|by exists ds].
Qed.

Definition message_text (s : start) (ls : list line) : list Z := start_text s ++ headers_text ls.

(** A buffer that holds a message at its position, behind [pre], and then
    [tail]; the memory goes on with [slack]. *)
Definition message_mbuf (pre : list Z) (s : start) (ls : list line) (tail slack : list Z) : mbuf :=
  let buf := pre ++ message_text s ls ++ tail ++ slack in
  Mb (Some buf) (Z.of_nat (length buf)) (Z.of_nat (length pre)) (Z.of_nat (length (pre ++ message_text s ls ++ tail))).

Lemma offset_app (a b : list Z) n : offset (a ++ b) (Pl (Some b) n) = Z.of_nat (length a).
Proof using. clear. unfold offset. cbn. rewrite length_app. lia. Qed.

(** The decoder at the start of the text. *)
Lemma decode_front s ls tail slack u x y z msg0 n :
  tokens s = (x, y, z) → start_ok (headers_text ls ++ tail ++ slack) u s →
  let m := message_text s ls ++ tail ++ slack in
  let t := headers_text ls ++ tail in
  n = Z.of_nat (length (message_text s ls ++ tail)) → n < 2147483648 →
  re_regex (Pl (Some m) n) start_expr 5 =
    Ret (0, map (λ v, Some (part_pl slack v)) [(x, 32 :: y ++ 32 :: z ++ 13 :: 10 :: t); (y, 32 :: z ++ 13 :: 10 :: t);
      (z, 13 :: 10 :: t); ([13], 10 :: t); ([10], t)]) ∧
  (∃ msg', start_line (part_pl slack (x, 32 :: y ++ 32 :: z ++ 13 :: 10 :: t)) (part_pl slack (y, 32 :: z ++ 13 :: 10 :: t))
      (part_pl slack (z, 13 :: 10 :: t)) msg0 = Ret (0, msg') ∧ front_is u s msg' ∧
    m_hdrl msg' = m_hdrl msg0 ∧ m_hdrht msg' = m_hdrht msg0 ∧ commons msg' = commons msg0) ∧
  offset m (part_pl slack (x, 32 :: y ++ 32 :: z ++ 13 :: 10 :: t)) = 0 ∧
  offset m (part_pl slack ([10], t)) + 1 = Z.of_nat (length (start_text s)) ∧
  drop (length (start_text s)) m = headers_text ls ++ tail ++ slack.
Proof using.
  clear. intros Et Hok m t -> Hn. assert (Em : m = x ++ 32 :: y ++ 32 :: z ++ 13 :: 10 :: t ++ slack).
  { unfold m, t, message_text, start_text. rewrite Et. by rewrite <- !app_assoc; cbn [app]; rewrite <- !app_assoc; cbn [app]; rewrite <- !app_assoc. }
  assert (Em' : message_text s ls ++ tail = x ++ 32 :: y ++ 32 :: z ++ 13 :: 10 :: t).
  { unfold t, message_text, start_text. rewrite Et. by rewrite <- !app_assoc; cbn [app]; rewrite <- !app_assoc; cbn [app]; rewrite <- !app_assoc. }
  split; [|split; [|split; [|split]]].
  - assert (Hxyz : token x ∧ token y ∧ Forall (λ c, c ≠ 13 ∧ c ≠ 10) z).
    { destruct s; injection Et as <- <- <-; destruct Hok as (? & ? & ?); [|naive_solver]. split_and!; [done..|].
      apply (bool_decide_eq_true_1 _). vm_compute. reflexivity. }
    destruct Hxyz as (Hx & Hy & Hz). rewrite Em' in Hn |- *.
    pose proof (start_greedy x y z t Hx Hy Hz ltac:(lia)) as Hg. unfold m. rewrite app_assoc, Em'.
    assert (Hne : x ++ 32 :: y ++ 32 :: z ++ 13 :: 10 :: t ≠ []) by (by destruct x).
    exact (regex_match start_items start_expr _ slack _ start_expr_items ltac:(done) eq_refl Hne Hg).
  - apply start_line_run; [done|]. unfold t. by rewrite <- app_assoc.
  - rewrite Em. unfold part_pl. cbn [fst snd]. unfold offset. cbn [pl_p default from_option id].
    repeat (rewrite !length_app; cbn [length]). lia.
  - unfold part_pl. cbn [fst snd app]. unfold m, message_text, start_text. rewrite Et. unfold offset, t. cbn.
    repeat (rewrite !length_app; cbn [length]). lia.
  - unfold m, message_text. by rewrite <- app_assoc, drop_app_length.
Qed.

(** The message the headers are added to. *)
Lemma start_in m n ht x y z c3 c4 msg1 :
  0 ≤ n ≤ Z.of_nat (length m) → table_ok ht → hash_alloc true HDR_HASH_SIZE = (0, Some ht) →
  re_regex (Pl (Some m) n) start_expr 5 = Ret (0, [Some x; Some y; Some z; c3; c4]) →
  start_line x y z (msg_zero ht tag) = Ret (0, msg1) → msg_in m (Z.to_nat n) msg1.
Proof using.
  clear. intros Hn Ht Eht Er Es. assert (Hm0 : msg_in m (Z.to_nat n) (msg_zero ht tag)) by (apply (msg_start true); [lia|exact Eht]).
  destruct (regex_in m (Z.to_nat n) ltac:(lia) (Pl (Some m) n) start_expr 5 5) as (err & caps & Er' & _ & _ & Hc);
    [left; exists 0%nat, (Z.to_nat n); rewrite Z2Nat.id by lia; done|by vm_compute|done|].
  rewrite Er in Er'. injection Er' as <- <-. destruct (Hc eq_refl) as [_ Hc'].
  destruct (Hc' 0%nat) as (q0 & [= <-] & H0); [lia|]. destruct (Hc' 1%nat) as (q1 & [= <-] & H1); [lia|].
  destruct (Hc' 2%nat) as (q2 & [= <-] & H2); [lia|].
  destruct (start_line_safe m (Z.to_nat n) ltac:(lia) _ _ _ _ Hm0 H0 H1 H2) as (e & msg2 & Es' & Hm2).
  rewrite Es in Es'. by injection Es' as <- <-.
Qed.

Lemma common_read_zero ht : common_read sa_set [] (msg_zero ht tag).
Proof using. clear. split; cbn; try done; by split; [|intros [|? ?] ? ?]. Qed.

(** C25: sip_msg_decode reads back a message that is written out, for a buffer
    with a start line, at least one header line of the grammar (names with white
    space before the colon, folded values, lists with commas, quotes) and the
    empty line.  If every Via, To, From and CSeq value is well formed (a
    transport, host, port and parameters with a branch; an address in angle
    brackets behind a name that may be quoted, or alone, with parameters; a
    number and a method) there is no error.  Without an error the message has
    the parts of the start line, its header list holds the lines in order (Via
    and Route one value at a time), a lookup by identifier walks over exactly the
    values of the lines with that identifier, in order, and the buffer is left
    behind the empty line.  The common headers are taken apart: the first Via
    gives transport, sender, address, port and branch, the last To and From
    their name, URI, parameters and tag, the last CSeq its number and method, each
    where it is well formed, and the last Call-ID, Max-Forwards, Content-Type,
    Content-Length and Expires are kept as they are. *)
Theorem sip_msg_decode_spec pre s ls tail slack u :
  ls ≠ [] → Forall line_ok ls → start_ok (headers_text ls ++ tail ++ slack) u s →
  let mb := message_mbuf pre s ls tail slack in
  mb_size mb < 2147483648 →
  ∃ err msg mb', sip_msg_decode sa_set hdr_mem true true tag mb = Ret (err, msg, mb') ∧
    (Forall header_ok ls → err = 0) ∧
    (err = 0 → ∃ msg', msg = Some msg' ∧ mb' = mbuf_set_pos mb (Z.of_nat (length (pre ++ message_text s ls))) ∧
      front_is u s msg' ∧ map view_of (m_hdrl msg') = concat (map listed ls) ∧
      (∀ id, map view_of (headers_of id msg') = with_id id (concat (map hashed ls))) ∧
      common_read sa_set (concat (map hashed ls)) msg').
Proof using mem_ok.
  intros Hne Hls Hok mb Hsz. destruct (tokens s) as [[x y] z] eqn:Et. unfold sip_msg_decode, mbuf_get_left, mb, message_mbuf in *.
  cbn [mb_buf mb_pos mb_end mb_size] in *. rewrite Nat2Z.id. cbn [fmap option_fmap option_map]. rewrite drop_app_length.
  set (m := message_text s ls ++ tail ++ slack) in *. set (n := Z.of_nat (length (message_text s ls ++ tail))).
  assert (En : u64 (Z.of_nat (length (pre ++ message_text s ls ++ tail)) - Z.of_nat (length pre)) = n).
  { unfold n, m in *. repeat rewrite length_app in *. rewrite u64_id; lia. }
  rewrite En. assert (Hn : n < 2147483648 ∧ Z.of_nat (length m) < 2147483648 ∧ n ≤ Z.of_nat (length m)).
  { unfold n, m in *. repeat rewrite length_app in *. lia. }
  destruct Hn as (Hn1 & Hn2 & Hn3). destruct (table_alloc (A := sip_hdr) 5) as (ht & Eht & Htab & Hbs & Hempty); [lia|].
  destruct (decode_front s ls tail slack u x y z (msg_zero ht tag) n Et Hok eq_refl Hn1) as (Er & (msg1 & Es & Hfr & El1 & El2 & Ecom) & Eo1 & Eo2 & Ed).
  cbn [map] in Er. fold m in Er, Eo1, Eo2, Ed. rewrite Er. cbn [mbind outcome_bind]. rewrite (bool_decide_false (0 ≠ 0)) by (by intros []).
  cbn [pl_p of_option mbind outcome_bind result lookup list_lookup default from_option id]. rewrite Eo1. rewrite (bool_decide_false (0 ≠ 0)) by (by intros []).
  cbn [result lookup list_lookup default from_option id of_option mbind outcome_bind negb].
  change HDR_HASH_SIZE with (2 ^ 5). rewrite Eht, Es. cbn [mbind outcome_bind fst snd]. rewrite (bool_decide_false (0 ≠ 0)) by (by intros []).
  replace (pl_l (part_pl slack ([10], headers_text ls ++ tail))) with 1 by done. rewrite Eo2. cbn [pl_l].
  assert (Hl : (length (start_text s) + length (headers_text ls) + length tail = Z.to_nat n)%nat).
  { unfold n, message_text. rewrite !length_app. lia. }
  replace (Z.to_nat (n - Z.of_nat (length (start_text s)))) with (length (headers_text ls) + length tail)%nat by lia. rewrite Nat2Z.id.
  destruct (loop_headers m (Z.to_nat n) ltac:(lia) Hn2 sa_set hdr_mem mem_ok (Forall header_ok ls) (length tail) (tail ++ slack)
    ls (length (start_text s)) msg1 Hne Hls ltac:(done)) as (err & l & msg' & E & Hp & Hm); [|exact Ed|lia|].
  { eapply start_in; [lia|done|exact Eht|exact Er|exact Es]. }
  rewrite E. cbn [mbind outcome_bind]. destruct (bool_decide (err ≠ 0)) eqn:He.
  { apply bool_decide_eq_true in He. eexists _, _, _. split; [done|]. split; [done|done]. }
  apply bool_decide_eq_false in He. assert (err = 0) as -> by lia. eexists _, _, _. split; [done|]. split; [done|]. intros _.
  destruct (Hm eq_refl) as [-> ((Gf & Gl & Gh) & Gr)]. eexists. split; [done|]. split; [|split; [|split; [|split]]].
  - unfold mbuf_set_pos. cbn [mb_buf mb_size mb_end]. f_equal. rewrite !length_app. lia.
  - unfold front in Gf. injection Gf as G1 G2 G3 G4 G5 G6 G7 G8. unfold front_is. rewrite G1, G2, G3, G4, G5, G6, G7. exact Hfr.
  - by rewrite Gl, El1.
  - intros id. rewrite Gh. unfold headers_of at 1. by rewrite El2, Hempty.
  - apply (Gr []). eapply common_read_commons; [exact Ecom|apply common_read_zero].
Qed.
End message.

(** ** Witness

    The values without folds, decided by a run over their characters. *)
Fixpoint inner_run (comsep q : bool) (w : list Z) : option bool :=
  match w with
  | [] => Some q
  | c :: w =>
      if bool_decide (c = 32 ∨ c = 9) then inner_run comsep q w
      else if bool_decide (c = 13 ∨ c = 10) || (comsep && bool_decide (c = chr ",") && negb q) then None
      else inner_run comsep (if bool_decide (c = dquote) then negb q else q) w
  end.

Definition char_at (o : option Z) : bool := match o with Some c => bool_decide (c ∉ [32; 9; 13; 10]) | None => false end.

Definition value_run (comsep : bool) (e : list Z) : bool :=
  match inner_run comsep false e with Some q => negb (comsep && q) | None => false end && char_at (head e) && char_at (list.last e).

Lemma inner_run_ok cs w : ∀ q q', inner_run cs q w = Some q' → inner cs q w q'.
Proof.
  induction w as [|c w IH]; intros q q' E; cbn [inner_run] in E; [injection E as <-; constructor|].
  destruct (bool_decide_reflect (c = 32 ∨ c = 9)) as [Hs|Hs]; [apply inner_sp; [exact Hs|by apply IH]|].
  destruct (bool_decide (c = 13 ∨ c = 10) || _) eqn:Ec; [done|]. apply orb_false_iff in Ec as [He Hc]. apply bool_decide_eq_false in He.
  apply inner_char; [split; [exact Hs|tauto]| |by apply IH]. intros -> ->. by destruct q.
Qed.

Lemma char_at_ok o : char_at o = true → ∃ c, o = Some c ∧ is_char c.
Proof.
  destruct o as [c|]; [|done]. intros Hc%bool_decide_eq_true. exists c. split; [done|]. rewrite !not_elem_of_cons in Hc. unfold is_char, is_sp. tauto.
Qed.

Lemma value_run_ok cs e : value_run cs e = true → value cs e.
Proof.
  unfold value_run. rewrite !andb_true_iff. intros [[Hi (c & Eh & Hc)%char_at_ok] (d & El & Hd)%char_at_ok].
  destruct (inner_run cs false e) as [q|] eqn:E; [|done]. exists q. split; [by apply inner_run_ok|]. split; [|split].
  - intros ->. by destruct q.
  - destruct e as [|c' w]; [done|]. injection Eh as ->. by exists c, w.
  - apply last_Some in El as [w ->]. by exists d, w.
Qed.

Fixpoint lws_run (w : list Z) : bool :=
  match w with
  | [] => true
  | c :: w =>
      if bool_decide (c = 32 ∨ c = 9) then lws_run w
      else match w with b :: d :: w => bool_decide (c = 13 ∧ b = 10 ∧ (d = 32 ∨ d = 9)) && lws_run w | _ => false end
  end.

Lemma lws_run_ok w : lws_run w = true → lws w.
Proof.
  remember (length w) as n eqn:En. assert (Hn : (length w ≤ n)%nat) by lia. clear En. revert w Hn.
  induction n as [|n IH]; intros [|c w] Hn E; cbn [length] in *; [constructor|lia|constructor|]. cbn [lws_run] in E.
  destruct (bool_decide_reflect (c = 32 ∨ c = 9)) as [Hs|_]; [apply lws_sp; [exact Hs|apply IH; [lia|done]]|].
  destruct w as [|b [|d w]]; [done..|]. apply andb_true_iff in E as [(-> & -> & Hd)%bool_decide_eq_true E]. cbn [length] in *.
  apply lws_fold; [exact Hd|apply IH; [lia|done]].
Qed.

Definition line_run (l : line) : bool :=
  bool_decide (ln_name l ≠ []) && forallb (λ c, bool_decide (c ∉ [32; 9; 13; 10; chr ":"])) (ln_name l) &&
  lws_run (ln_pre l) && lws_run (ln_post l) && value_run (line_list l) (ln_first l) &&
  forallb (λ x : list Z * list Z * list Z, lws_run x.1.1 && lws_run x.1.2 && value_run (line_list l) x.2) (ln_rest l) &&
  (line_list l || bool_decide (ln_rest l = [])).

Lemma line_run_all ls : forallb line_run ls = true → Forall line_ok ls.
Proof.
  rewrite forallb_forall, Forall_forall. intros Hls l Hl%Hls. unfold line_run in Hl. rewrite !andb_true_iff, !forallb_forall in Hl.
  destruct Hl as [[[[[[Hne Hname] Hpre] Hpost] Hfirst] Hrest] Hlist]. apply bool_decide_eq_true in Hne. split.
  - split; [done|]. apply Forall_forall. intros c Hc%Hname%bool_decide_eq_true. rewrite !not_elem_of_cons in Hc. unfold is_char, is_sp. tauto.
  - by apply lws_run_ok.
  - by apply lws_run_ok.
  - by apply value_run_ok.
  - apply Forall_forall. intros x Hx%Hrest. rewrite !andb_true_iff in Hx. destruct Hx as [[H1 H2] H3].
    split; [by apply lws_run_ok|split; [by apply lws_run_ok|by apply value_run_ok]].
  - intros E. rewrite E in Hlist. by apply bool_decide_eq_true in Hlist.
Qed.

(** A response with a list of Via values, a quoted name and a folded list. *)
Definition ring_lines : list line :=
  [Line (bytes_of "Via") [] [32] (bytes_of "SIP/2.0/UDP 10.0.0.2:5060;rport;branch=z9hG4bK7") [([], [32], bytes_of "SIP/2.0/TCP b.net ;branch=z9")];
   Line (bytes_of "t") [32] [32] ([dquote] ++ bytes_of "Bob, <B>" ++ [dquote] ++ bytes_of " <sip:bob@10.0.0.1>;tag=9") [];
   Line (bytes_of "From") [] [32] (bytes_of "sip:al@10.0.0.2;tag=1") [];
   Line (bytes_of "Call-ID") [] [32] (bytes_of "a@b") [];
   Line (bytes_of "CSeq") [] [32] (bytes_of "7 INVITE") [];
   Line (bytes_of "supported") [32] [32] (bytes_of "100rel") [([], [13; 10; 9], bytes_of "timer")]].
Definition ring_start : start := Response (bytes_of "SIP/2.0") (bytes_of "180") (bytes_of "Ringing").

Lemma ring_lines_ok : Forall line_ok ring_lines.
Proof. apply line_run_all. vm_compute. reflexivity. Qed.

(** The values as texts of the grammar. *)
Definition ring_param (name value : string) : param := Param [] (bytes_of name) [] (Some ([], Bare (bytes_of value), [])).
Definition ring_uri (user host : string) : parts := Parts (bytes_of "sip") (bytes_of user) [] (bytes_of host) 0 [] [].

Definition ring_via : via_text :=
  ViaText [] [] [] [] (bytes_of "UDP") [32] (bytes_of "10.0.0.2") 5060 [] [Param [] (bytes_of "rport") [] None; ring_param "branch" "z9hG4bK7"].
Definition ring_via2 : via_text := ViaText [] [] [] [] (bytes_of "TCP") [32] (bytes_of "b.net") 0 [32] [ring_param "branch" "z9"].
Definition ring_to : addr_text := NameAddr (Some (Quote (bytes_of "Bob, <B>"))) [32] (ring_uri "bob" "10.0.0.1") [] [ring_param "tag" "9"].
Definition ring_from : addr_text := AddrSpec (ring_uri "al" "10.0.0.2") [ring_param "tag" "1"].
Definition ring_cseq : cseq_text := CseqText (bytes_of "7") [32] (bytes_of "INVITE") [].

(** A decidable property of closed texts. *)
Ltac decided := apply (bool_decide_eq_true_1 _); vm_compute; reflexivity.

Lemma ring_vias_ok : via_ok ring_via ∧ via_ok ring_via2.
Proof. split; split; unfold host_ok, params_ok; decided. Qed.

Lemma ring_uri_ok user host : free_of "@:" (bytes_of user) = true → free_of ":;? [@" (bytes_of host) = true → bytes_of host ≠ [] →
  bytes_of user ≠ [] → Z.of_nat (length (uri_text (ring_uri user host))) ≤ 4294967295 → parts_ok (ring_uri user host).
Proof. intros ? ? ? ? ?. by split. Qed.

Lemma ring_addrs_ok : addr_ok ring_to ∧ addr_ok ring_from.
Proof.
  split; (split; [apply ring_uri_ok; decided|]); unfold params_ok; decided.
Qed.

Lemma ring_cseq_ok : cseq_ok ring_cseq.
Proof. unfold cseq_ok. decided. Qed.

Lemma headers_ok_zip ls : Forall (λ x, Forall (value_ok x.1) x.2) (zip (map line_id ls) (map values ls)) → Forall header_ok ls.
Proof. induction ls as [|l ls IH]; [constructor|]. cbn [map zip_with]. intros [Hl Hls]%Forall_cons_1. constructor; [exact Hl|by apply IH]. Qed.

Lemma ring_ids : map line_id ring_lines = [SIP_HDR_VIA; SIP_HDR_TO; SIP_HDR_FROM; SIP_HDR_CALL_ID; SIP_HDR_CSEQ; SIP_HDR_SUPPORTED].
Proof. vm_compute. reflexivity. Qed.

Lemma ring_values : map values ring_lines = [[via_bytes ring_via; via_bytes ring_via2]; [addr_bytes ring_to]; [addr_bytes ring_from];
  [bytes_of "a@b"]; [cseq_bytes ring_cseq]; [bytes_of "100rel"; bytes_of "timer"]].
Proof. vm_compute. reflexivity. Qed.

Lemma ring_headers_ok : Forall header_ok ring_lines.
Proof.
  destruct ring_vias_ok as [Hv1 Hv2]. destruct ring_addrs_ok as [Ht Hf]. pose proof ring_cseq_ok as Hc.
  apply headers_ok_zip. rewrite ring_ids, ring_values. cbn [zip_with].
  assert (Hother : ∀ id e, id ∉ [SIP_HDR_VIA; SIP_HDR_TO; SIP_HDR_FROM; SIP_HDR_CSEQ] → value_ok id e).
  { intros id e Hid. rewrite !not_elem_of_cons in Hid. split; [tauto|split; [tauto|tauto]]. }
  repeat constructor; cbn [fst snd]; try (intros H; discriminate H); try (by intros [|]).
  - by exists ring_via.
  - by exists ring_via2.
  - by exists ring_to.
  - by exists ring_from.
  - by exists ring_cseq.
Qed.

Lemma sip_msg_decode_spec_witness :
  let mb := message_mbuf (bytes_of "junk") ring_start ring_lines (bytes_of "body") [0; 0] in
  ∃ msg, sip_msg_decode (H := digits_only) (λ _, None) (λ _, true) true true 7 mb =
      Ret (0, Some msg, mbuf_set_pos mb (Z.of_nat (length (bytes_of "junk" ++ message_text ring_start ring_lines)))) ∧
    v_tp (m_via msg) = SIP_TRANSP_UDP ∧ views (v_branch (m_via msg)) (bytes_of "z9hG4bK7") ∧
    denotes (ad_dname (ta_addr (m_to msg))) (bytes_of "Bob, <B>") ∧ views (ta_tag (m_to msg)) (bytes_of "9") ∧
    views (ad_auri (ta_addr (m_from msg))) (bytes_of "sip:al@10.0.0.2") ∧ cs_num (m_cseq msg) = 7 ∧
    views (cs_met (m_cseq msg)) (bytes_of "INVITE").
Proof.
  destruct (sip_msg_decode_spec (H := digits_only) (λ _, None) (λ _, true) 7 (λ _, eq_refl) (bytes_of "junk") ring_start ring_lines
    (bytes_of "body") [0; 0] uri_zero) as (err & msg & mb' & E & Hgood & Hread).
  - done.
  - exact ring_lines_ok.
  - split; [split; [done|decided]|]. split; [split; [done|decided]|]. split; [decided|]. split; [done|].
    exists [1; 8; 0]. split; [vm_compute; reflexivity|vm_compute; done].
  - vm_compute. reflexivity.
  - specialize (Hgood ring_headers_ok). subst err. destruct (Hread eq_refl) as (msg' & -> & -> & _ & _ & _ & R). exists msg'.
    split; [exact E|]. clear E Hread. destruct ring_vias_ok as [Hv _]. destruct ring_addrs_ok as [Ht Hf]. pose proof ring_cseq_ok as Hc.
    set (hs := concat (map hashed ring_lines)) in R.
    assert (Evia : texts SIP_HDR_VIA hs = [via_bytes ring_via; via_bytes ring_via2]) by (vm_compute; reflexivity).
    assert (Eto : texts SIP_HDR_TO hs = [] ++ [addr_bytes ring_to]) by (vm_compute; reflexivity).
    assert (Efrom : texts SIP_HDR_FROM hs = [] ++ [addr_bytes ring_from]) by (vm_compute; reflexivity).
    assert (Ecseq : list.last (texts SIP_HDR_CSEQ hs) = Some (cseq_bytes ring_cseq)) by (vm_compute; reflexivity).
    destruct R as [R1 R2 R3 R4 _ _ _ _ _]. rewrite Evia in R1. specialize (R1 ring_via Hv eq_refl).
    destruct R2 as [_ R2]. destruct (R2 _ _ ring_to Eto Ht eq_refl) as (_ & Ha & Htag).
    destruct R3 as [_ R3]. destruct (R3 _ _ ring_from Efrom Hf eq_refl) as (_ & Hfa & _).
    destruct (R4 _ ring_cseq Ecseq Hc eq_refl) as [Hnum Hmet].
    destruct R1 as [_ Htp _ _ _ (b & Eb & Hb)]. destruct Ha as [Hname _ _ _]. destruct Hfa as [_ Hauri _ _].
    split; [exact Htp|]. split; [|split; [exact Hname|split; [exact Htag|split; [exact Hauri|split; [exact Hnum|exact Hmet]]]]].
    assert (Eb' : param_value (bytes_of "branch") (vt_params ring_via) = Some (bytes_of "z9hG4bK7")) by (vm_compute; reflexivity).
    rewrite Eb' in Eb. injection Eb as <-. exact Hb.
Defined.

(** ** Lookups *)

Lemma hdr_apply_filter {S} id (h : sip_hdr → S → bool * S) l s :
  hdr_apply (λ hdr, Ret (bool_decide (h_id hdr ≠ id))) h l s = hdr_apply (λ _, Ret false) h (filter (λ x, h_id x = id) l) s.
Proof.
  revert s. induction l as [|x l IH]; intros s; [done|]. rewrite filter_cons. cbn [hdr_apply mbind outcome_bind].
  destruct (decide (h_id x = id)) as [E|E].
  - rewrite bool_decide_eq_false_2 by auto. cbn [hdr_apply mbind outcome_bind]. destruct (h x s) as [[] s']; [done|apply IH].
  - by rewrite bool_decide_eq_true_2.
Qed.

Lemma hdr_apply_run {S} msg fwd id (h : sip_hdr → S → bool * S) s : table_ok (m_hdrht msg) →
  sip_msg_hdr_apply msg fwd id h s =
    hdr_apply (λ _, Ret false) h (if fwd : bool then headers_of id msg else reverse (headers_of id msg)) s.
Proof.
  intros Ht. unfold sip_msg_hdr_apply, headers_of. destruct (hash_list_run (m_hdrht msg) (u32 id) Ht) as (l & -> & _).
  cbn [mbind outcome_bind]. rewrite hdr_apply_filter. destruct fwd; [done|]. by rewrite filter_reverse.
Qed.

Lemma hdr_apply_take l : hdr_apply (λ _, Ret false) take_handler l tt = Ret (head l, tt).
Proof. by destruct l. Qed.

Lemma hdr_apply_count l : ∀ n, hdr_apply (λ _, Ret false) count_handler l n = Ret (None, if l is [] then n else u32 (n + Z.of_nat (length l))).
Proof.
  induction l as [|x l IH]; intros n; [done|]. cbn [hdr_apply mbind outcome_bind count_handler]. rewrite IH. do 2 f_equal.
  destruct l as [|y l]; [done|]. unfold u32. rewrite Zplus_mod_idemp_l. f_equal. simpl. lia.
Qed.

(** The lookups in a decoded message: by identifier, the first header with
    it in the order of the message, the last one when walking backwards, and
    the number of them. *)
Theorem sip_msg_hdr_spec msg id :
  table_ok (m_hdrht msg) →
  sip_msg_hdr msg id = Ret (head (headers_of id msg)) ∧
  sip_msg_hdr_apply msg false id take_handler tt = Ret (head (reverse (headers_of id msg)), tt) ∧
  sip_msg_hdr_count msg id = Ret (u32 (Z.of_nat (length (headers_of id msg)))).
Proof.
  intros Ht. unfold sip_msg_hdr, sip_msg_hdr_count. rewrite !(hdr_apply_run msg) by done.
  rewrite !hdr_apply_take, hdr_apply_count. cbn [mbind outcome_bind fst snd]. split; [done|]. split; [done|].
  by destruct (headers_of id msg).
Qed.

Lemma sip_msg_hdr_spec_witness :
  let h id := SipHdr pl_null pl_null id in
  let msg := set_hdrht (<[1%nat := [h SIP_HDR_CONTACT; h SIP_HDR_TO]]> (replicate 4 [])) (msg_zero [] 0) in
  table_ok (m_hdrht msg) ∧
  (sip_msg_hdr msg SIP_HDR_CONTACT = Ret (head (headers_of SIP_HDR_CONTACT msg)) ∧
   sip_msg_hdr_apply msg false SIP_HDR_CONTACT take_handler tt = Ret (head (reverse (headers_of SIP_HDR_CONTACT msg)), tt) ∧
   sip_msg_hdr_count msg SIP_HDR_CONTACT = Ret (u32 (Z.of_nat (length (headers_of SIP_HDR_CONTACT msg))))) ∧
  sip_msg_hdr_count msg SIP_HDR_CONTACT = Ret 1.
Proof.
  intros h msg. assert (Ht : table_ok (m_hdrht msg)) by by exists 2.
  split; [exact Ht|]. split; [exact (sip_msg_hdr_spec msg SIP_HDR_CONTACT Ht)|vm_compute; reflexivity].
Defined.
