(* ===== verification/SipPrint.v ===== *)
(** * Printing SIP messages

    Requests and replies are printed into a buffer, line by line, from the
    parts of a decoded message.  With any allocator every line returns; with
    plenty of memory it appends its text. *)
From stdpp Require Import base tactics list numbers strings option gmap.
From S2P Require Import Prelude Mbuf Fmt Print MbufPrint Regex Uri Hash Sip SipSafe SipLines SipMsg.

Definition write_str (A : allocator) (bs : list Z) : prog mbuf Z := λ mb, mbuf_write_mem A mb (Some bs).

Ltac closed := apply (bool_decide_eq_true_1 _); vm_compute; reflexivity.

(** The text of a pointer into memory. *)
Definition pl_text (p : pl) : list Z := match pl_bytes p with Ret bs => bs | Fault _ => [] end.

Lemma text_ok_prefix a b : text_ok (a ++ b) → text_ok a.
Proof. intros [Hb Hl]. apply bytes_ok_app in Hb as [Hb _]. rewrite length_app in Hl. split; [done|lia]. Qed.

(** The message was decoded from memory that holds bytes. *)
Definition msg_ok (msg : sip_msg) : Prop :=
  ∃ m lim, (lim ≤ length m)%nat ∧ short m ∧ msg_in m lim msg.

(** [p] prints as the piece [pc]. *)
Definition prints_as (p : pl) (pc : piece) : Prop :=
  piece_fmt pc = bytes_of "%r" ∧ piece_args pc = [VPl (Some p)] ∧ plain_piece short pc ∧ piece_ok pc ∧ piece_text pc = pl_text p.

Lemma pointer_piece m lim p : (lim ≤ length m)%nat → short m → pointer_in m lim p → ∃ pc, prints_as p pc.
Proof.
  intros Hlim [Hm Hl] [(k & n & -> & Hk)| ->]; [|by exists PNul].
  exists (PPl (take n (drop k m)) (drop n (drop k m))). unfold prints_as. cbn [piece_fmt piece_args plain_piece piece_ok piece_text].
  assert (Hn : length (take n (drop k m)) = n) by (rewrite length_take, length_drop; lia).
  rewrite take_drop, Hn. split_and!; [done|done| |done|].
  - split; [auto with re|]. rewrite Hn. unfold max_alloc in *. lia.
  - unfold pl_text, pl_bytes. cbn [pl_p pl_l]. rewrite memcpy_from_run by (rewrite ?length_drop; lia).
    by rewrite drop_0, Nat2Z.id.
Qed.

Ltac pieces := rewrite !Forall_cons, Forall_nil; repeat match goal with |- _ ∧ _ => split end.

(** With plenty of memory, [m] appends the text [t] and returns [a]. *)
Definition prints_to {X} (m : prog mbuf X) (a : X) (t : list Z) : Prop :=
  ∀ k mb, filled k mb → text_ok (k ++ t) → ∃ mb', m mb = Ret (a, mb') ∧ filled (k ++ t) mb'.
Abbreviation prints m t := (prints_to m 0 t).

Lemma prints_bind {X Y} (m : prog mbuf X) (f : X → prog mbuf Y) a b t u :
  prints_to m a t → prints_to (f a) b u → prints_to (m ≫= f) b (t ++ u).
Proof.
  intros T1 T2 k mb Hk Hok. rewrite app_assoc in Hok.
  destruct (T1 k mb Hk (text_ok_prefix _ _ Hok)) as (mb1 & E1 & Hk1). destruct (T2 _ mb1 Hk1 Hok) as (mb2 & E2 & Hk2).
  exists mb2. rewrite (prog_bind_step _ _ _ _ _ E1). split; [done|]. by rewrite app_assoc.
Qed.

(** A step of a message: on any allocator it returns, with plenty of memory it
    appends the text [t]. *)
Record emits_to {X} (A : allocator) (m : prog mbuf X) (a : X) (t : list Z) : Prop := {
  emits_keeps : allocator_ok A → keeps mbuf_wf m;
  emits_text : allocator_ok A → plenty A → prints_to m a t
}.
Abbreviation emits A m t := (emits_to A m 0 t).

Lemma emits_mret {X} A (a : X) : emits_to A (mret a) a [].
Proof. split; intros; [apply keeps_ret|intros k mb; intros]. exists mb. by rewrite app_nil_r. Qed.

Lemma emits_bind {X Y} A (m : prog mbuf X) (f : X → prog mbuf Y) a b t u :
  emits_to A m a t → (allocator_ok A → ∀ x, keeps mbuf_wf (f x)) → (allocator_ok A → plenty A → prints_to (f a) b u) →
  emits_to A (m ≫= f) b (t ++ u).
Proof.
  intros [K T] Kf Tf. split; [intros HA; apply keeps_bind; [by apply K|by apply Kf]|intros HA Hp].
  eapply prints_bind; [by apply T|by apply Tf].
Qed.

Section lines.
Context (A : allocator).

Lemma emits_printf fmt args ps :
  fmt = fmt_of ps → args = args_of ps → Forall (plain_piece short) ps → Forall piece_ok ps → short fmt →
  emits A (mbuf_printf A fmt args) (text_of ps).
Proof.
  intros -> -> H1 H2 H3. split; intros; [by apply mbuf_printf_keeps|intros k mb; intros; by apply mbuf_printf_run].
Qed.

Lemma emits_str bs : short bs → emits A (write_str A bs) bs.
Proof. intros H. split; intros; [by apply mbuf_write_keeps|intros k mb; intros; by apply filled_write]. Qed.

Lemma emits_ret : emits A (mret 0) [].
Proof. apply emits_mret. Qed.

(** "Name: value" and the end of the line. *)
Lemma emits_line name p pc :
  Forall (λ b, b ≠ chr "%") name → short (name ++ bytes_of "%r" ++ crlf) → prints_as p pc →
  emits A (mbuf_printf A (name ++ bytes_of "%r" ++ crlf) [VPl (Some p)]) (name ++ pl_text p ++ crlf).
Proof.
  intros Hn Hs (Ef & Ea & Hp & Hk & Et). replace (name ++ pl_text p ++ crlf) with (text_of [PLit name; pc; PLit crlf]).
  2: { unfold text_of. cbn [map concat piece_text]. by rewrite Et, app_nil_r. }
  assert (Hc : Forall (λ b, b ≠ chr "%") crlf) by by repeat constructor.
  apply emits_printf; [| |by pieces|by pieces|done].
  - unfold fmt_of. cbn [map concat piece_fmt]. by rewrite Ef, app_nil_r.
  - unfold args_of. cbn [map concat piece_args]. by rewrite Ea.
Qed.

Lemma hdr_in_piece m lim h : (lim ≤ length m)%nat → short m → hdr_in m lim h → ∃ pc, prints_as (h_val h) pc.
Proof. intros Hlim Hm [_ Hv]. apply (pointer_piece m lim); [done|done|by left]. Qed.

Lemma dec_text_short n : 0 ≤ n < 2 ^ 32 → short (dec_text n).
Proof using.
  clear.
  intros Hn. split; [apply bytes_of_ok|]. pose proof (dec_text_length n ltac:(lia)). unfold max_alloc. lia.
Qed.

(** The line with the name of the program, where there is one. *)
Lemma emits_agent name software : (∀ sw, software = Some sw → short sw) →
  Forall (λ b, b ≠ chr "%") name → short (name ++ bytes_of "%s" ++ crlf) →
  emits A (match software with
           | Some sw => mbuf_printf A (name ++ bytes_of "%s" ++ crlf) [VStr (Some sw)]
           | None => mret 0
           end)
    match software with Some sw => name ++ sw ++ crlf | None => [] end.
Proof using.
  intros Hs Hn Hsh. destruct software as [sw|]; [|apply emits_ret]. specialize (Hs sw eq_refl).
  replace (name ++ sw ++ crlf) with (text_of [PLit name; PStr sw; PLit crlf]).
  2: { unfold text_of. cbn [map concat piece_text]. by rewrite app_nil_r. }
  assert (Hc2 : Forall (λ b, b ≠ chr "%") crlf) by closed.
  apply emits_printf; [|done|by pieces|by pieces|done]. unfold fmt_of. cbn [map concat piece_fmt]. by rewrite app_nil_r.
Qed.
End lines.

(** ** Decoded messages and filled buffers *)

Lemma decoded_msg_ok mb p n msg buf :
  mbuf_wf mb → mb_buf mb = Some buf → 0 ≤ p → Z.of_nat n ≤ mb_end mb - p → msg_in (drop (Z.to_nat p) buf) n msg → msg_ok msg.
Proof.
  intros [(Hs & Hm & He & _ & Hb) _] Eb Hp Hn Hin. rewrite Eb in *. cbn [default id] in *.
  exists (drop (Z.to_nat p) buf), n. split; [rewrite length_drop; lia|]. split; [|done]. split; [auto with re|].
  rewrite length_drop. lia.
Qed.

Lemma filled_payload k mb : filled k mb → mbuf_wf (mbuf_set_pos mb 0) ∧ payload (mbuf_set_pos mb 0) = k.
Proof.
  intros (Hwf & Hp & He & Hk & _). split.
  - destruct Hwf as [(H1 & H2 & H3 & H4 & H5) H6]. split; [|cbn; lia]. split_and!; try done; cbn; unfold max_alloc; lia.
  - unfold payload. cbn. rewrite He, Z.sub_0_r, Nat2Z.id, drop_0. exact Hk.
Qed.

(** ** Comparing with texts, and walking a bucket *)

Lemma strcmp_text m lim p s : (lim ≤ length m)%nat → pointer_in m lim p →
  ∃ e, pl_strcmp p (Some s) = Ret e ∧ (e = 0 ↔ pl_text p = s).
Proof.
  intros Hlim [(k & n & -> & Hk)| ->].
  - destruct (strcmp_known (take n (drop k m)) (drop n (drop k m)) s) as (e & E & He).
    assert (Hn : length (take n (drop k m)) = n) by (rewrite length_take, length_drop; lia).
    rewrite take_drop, Hn in E. exists e. split; [done|]. rewrite He. unfold pl_text, pl_bytes. cbn [pl_p pl_l].
    rewrite memcpy_from_run by (rewrite ?length_drop; lia). by rewrite drop_0, Nat2Z.id.
  - unfold pl_strcmp, pl_cmp, pl_cmp_with. cbn [pl_l pl_null pl_set_str]. change (pl_text pl_null) with (@nil Z).
    case_bool_decide as Hl; cbn [negb].
    + exists 0. split; [done|]. destruct s; [done|]. cbn in Hl. lia.
    + exists EINVAL. split; [done|]. destruct s; [by cbn in Hl|]. split; intros [=].
Qed.

Lemma pointer_text m lim p : (lim ≤ length m)%nat → pointer_in m lim p →
  pl_bytes p = Ret (pl_text p) ∧ Z.of_nat (length (pl_text p)) = pl_l p.
Proof.
  intros Hlim [(k & n & -> & Hk)| ->]; [|done]. unfold pl_text, pl_bytes. cbn [pl_p pl_l].
  rewrite memcpy_from_run by (rewrite ?length_drop; lia). split; [done|]. rewrite length_take, !length_drop. lia.
Qed.

(** Two pointers, into the memory of two messages. *)
Lemma cmp_text m lim p m' lim' p' : (lim ≤ length m)%nat → (lim' ≤ length m')%nat → pointer_in m lim p → pointer_in m' lim' p' →
  ∃ e, pl_cmp p p' = Ret e ∧ (e = 0 ↔ pl_text p = pl_text p').
Proof.
  intros Hlim Hlim' Hp Hp'. destruct (pointer_text m lim p Hlim Hp) as [E L], (pointer_text m' lim' p' Hlim' Hp') as [E' L'].
  unfold pl_cmp, pl_cmp_with. rewrite E, E'. cbn [mbind outcome_bind]. rewrite !map_id.
  case_bool_decide as H1; cbn [negb]; [|exists EINVAL; split; [done|]; split; [done|]; intros Et; rewrite Et in L; congruence].
  case_bool_decide as H2.
  { exists 0. split; [done|]. split; [intros _|done]. destruct (pl_text p), (pl_text p'); simpl in *; (done || lia). }
  assert (He : ∀ b : bool, ∃ e, Ret (if b then 0 else EINVAL) = Ret e ∧ (e = 0 ↔ b = true)) by (intros []; eexists; split; done).
  destruct (He (bool_decide (pl_text p = pl_text p'))) as (e & Ee & Hb). rewrite bool_decide_eq_true in Hb.
  destruct (pl_p p) eqn:Ep; [by exists e|]. destruct (pl_p p') eqn:Ep'; [by exists e|].
  exfalso. apply H2. unfold pl_bytes in E. rewrite Ep in E. destruct Hp as [(k & n & -> & _)| ->]; [done|done].
Qed.

Lemma find_by_run (h : positive → outcome bool) (g : positive → bool) l :
  (∀ id, id ∈ l → h id = Ret (g id)) →
  find_by h l = Ret (List.find g l).
Proof.
  induction l as [|id l IH]; intros Hh; [done|]. cbn [find_by List.find]. rewrite Hh by by left. cbn [mbind outcome_bind].
  destruct (g id); [done|]. apply IH. intros; apply Hh; by right.
Qed.

Lemma find_none {X} (g : X → bool) l : List.find g l = None → ∀ x, x ∈ l → g x = false.
Proof. intros Hf x Hx. eapply List.find_none; [exact Hf|]. by apply list_elem_of_In. Qed.

Lemma find_some {X} (g : X → bool) l x : List.find g l = Some x → x ∈ l ∧ g x = true.
Proof. intros [Hi Hg]%List.find_some. split; [by apply list_elem_of_In|done]. Qed.

Lemma hash_list_map {X} (f : list X → list X) (h : list (list X)) key : hash_list (map f h) key = l ← hash_list h key; Ret (f l).
Proof.
  unfold hash_list. assert (Eb : bucket (map f h) key = bucket h key) by (unfold bucket, hash_bsize; by rewrite length_map).
  rewrite Eb. change (map f h) with (f <$> h). rewrite list_lookup_fmap. by destruct (h !! _).
Qed.

Lemma table_ok_map {X} (f : list X → list X) (h : list (list X)) : table_ok h → table_ok (map f h).
Proof. intros (k & Hk & E). exists k. split; [done|]. unfold hash_bsize in *. by rewrite length_map. Qed.

(** ** Texts of messages, for examples *)

Definition line (s : string) : list Z := bytes_of s ++ crlf.

Definition mbuf_of (t : list Z) : mbuf := Mb (Some t) (Z.of_nat (length t)) 0 (Z.of_nat (length t)).

Definition demo_set (h : list Z) : option sockaddr := Some (SockAddr (Some h) 0 false).

Local Abbreviation decode t := (sip_msg_decode (H := digits_only) demo_set (λ _, true) true true 7 (mbuf_of t)).

Definition msg_of (t : list Z) : sip_msg := match decode t with Ret (_, Some m, _) => m | _ => msg_zero [] 0 end.

(** A text that the decoder accepts. *)
Lemma msg_of_ok t : mbuf_wf (mbuf_of t) → match decode t with Ret (e, Some _, _) => bool_decide (e = 0) | _ => false end = true →
  msg_ok (msg_of t).
Proof.
  intros Hwf Hd. unfold msg_of. destruct (sip_msg_decode_in (H := digits_only) demo_set (λ _, true) true true 7 (mbuf_of t) Hwf)
    as (err & msg & mb' & E & _ & Hgood).
  rewrite E in Hd |- *. destruct msg as [m|]; [|done]. apply bool_decide_eq_true_1 in Hd.
  destruct (Hgood Hd) as (msg' & [= <-] & _ & _ & buf & Eb & Hin).
  eapply (decoded_msg_ok (mbuf_of t) 0 _ _ buf Hwf Eb); [lia| |exact Hin]. cbn. lia.
Qed.
