(* ===== verification/Trans.v ===== *)
(** * Transactions and their table

    What client and server transactions share: a handler runs on one
    transaction ([trun]: its fields until it is freed, the clock, the packets
    sent and what it has done); [table] is the hash table of the transactions of
    a stack, on which [on] runs such a handler; packets that are repeated follow
    a schedule.  [tab_in] is the invariant of a table whose entries keep an
    invariant of their own, and [lookup_run] says what a search finds. *)
From stdpp Require Import base tactics list numbers strings option gmap.
From S2P Require Import Prelude Mbuf Fmt Print MbufPrint Hash Sip SipSafe SipPrint.

(** ** One transaction *)

Record trun (T E : Type) := Run { r_ct : option T; r_now : Z; r_sent : nat; r_log : list E }.
Arguments Run {T E}.
Arguments r_ct {T E}.
Arguments r_now {T E}.
Arguments r_sent {T E}.
Arguments r_log {T E}.

Section handlers.
Context {T E : Type}.

Definition set_ct (ct : option T) (r : trun T E) : trun T E := Run ct (r_now r) (r_sent r) (r_log r).
Definition set_sent (n : nat) (r : trun T E) : trun T E := Run (r_ct r) (r_now r) n (r_log r).
Definition set_log (l : list E) (r : trun T E) : trun T E := Run (r_ct r) (r_now r) (r_sent r) l.

Definition deref : prog (trun T E) T := λ r,
  match r_ct r with Some ct => Ret (ct, r) | None => Fault UseAfterFree end.
Definition upd (f : T → T) : prog (trun T E) unit :=
  ct ← deref; modify (set_ct (Some (f ct))).
Definition log (e : E) : prog (trun T E) unit := modify (λ r, set_log (r_log r ++ [e]) r).

(** The destructor: the transaction leaves the table and its timers stop. *)
Definition destroy : prog (trun T E) unit := _ ← deref; modify (set_ct None).

(** [sip_send] and [sip_transp_send] on a known transport: the payload of the
    buffer is handed to it, and [sent_as] notes the packet with its time, its
    bytes and the result. *)
Definition packet_send (send : nat → Z) (sent_as : Z → list Z → Z → E) (tp : Z) (mb : option mbuf) : prog (trun T E) Z :=
  match mb with
  | None => mret EINVAL
  | Some mb =>
      if bool_decide (tp = SIP_TRANSP_UDP ∨ tp = SIP_TRANSP_TCP ∨ tp = SIP_TRANSP_TLS) then
        bs ← lift (memcpy_from (mb_buf mb) (mb_pos mb) (mbuf_get_left mb));
        n ← gets r_sent;
        now ← gets r_now;
        modify (set_sent (S n));;
        log (sent_as now bs (send n));;
        mret (send n)
      else mret EPROTONOSUPPORT
  end.

(** [SIP_T1 << n] on [int]. *)
Definition shifted (n : Z) : prog (trun T E) Z :=
  if bool_decide (0 ≤ n ≤ 22) then mret (Z.shiftl SIP_T1 n) else crash BadShift.
End handlers.

(** ** The table of a stack *)

Record table (T E : Type) := Table {
  tb_ht : list (list positive);
  entries : gmap positive T;
  logs : gmap positive (list E);
  next : positive;
  jiffies : Z;
  sent : nat
}.
Arguments Table {T E}.
Arguments tb_ht {T E}.
Arguments entries {T E}.
Arguments logs {T E}.
Arguments next {T E}.
Arguments jiffies {T E}.
Arguments sent {T E}.

(** A handler on a transaction of the table; a destroyed one leaves it. *)
Definition on {T E X} (id : positive) (h : prog (trun T E) X) : prog (table T E) X := λ s,
  match h (Run (entries s !! id) (jiffies s) (sent s) (default [] (logs s !! id))) with
  | Ret (x, r) =>
      Ret (x, Table (match r_ct r with Some _ => tb_ht s | None => map (filter (λ i, i ≠ id)) (tb_ht s) end)
                (match r_ct r with Some ct => <[id := ct]> (entries s) | None => delete id (entries s) end)
                (<[id := r_log r]> (logs s)) (next s) (jiffies s) (r_sent r))
  | Fault f => Fault f
  end.

(** A new transaction under a key of the table. *)
Definition enter {T E} (key : Z) (ct : T) : prog (table T E) positive := λ s,
  match hash_append (tb_ht s) key (next s) with
  | Ret ht => Ret (next s, Table ht (<[next s := ct]> (entries s)) (logs s) (Pos.succ (next s)) (jiffies s) (sent s))
  | Fault f => Fault f
  end.

(** [hash_lookup]: the first transaction of the bucket that the handler accepts. *)
Definition lookup_in {T E} (key : Z) (h : table T E → positive → outcome bool) : prog (table T E) (option positive) :=
  s ← get;
  l ← lift (hash_list (tb_ht s) key);
  lift (find_by (h s) l).

Definition elapse {T E} (d : Z) (s : table T E) : table T E :=
  Table (tb_ht s) (entries s) (logs s) (next s) (jiffies s + d) (sent s).

(** ** Sending *)

Definition known_tp (tp : Z) : Prop := tp = SIP_TRANSP_UDP ∨ tp = SIP_TRANSP_TCP ∨ tp = SIP_TRANSP_TLS.
Definition buffer_ok (o : option mbuf) : Prop := match o with Some mb => mbuf_wf mb | None => True end.

Lemma payload_copy mb : mbuf_wf mb → memcpy_from (mb_buf mb) (mb_pos mb) (mbuf_get_left mb) = Ret (payload mb).
Proof.
  intros Hwf. rewrite mbuf_get_left_wf by done. destruct Hwf as [(Hs & Hm & He & Hp & Hb) Hle].
  unfold payload. destruct (mb_buf mb) as [b|]; cbn [default id] in *.
  - by apply memcpy_from_run; lia.
  - unfold memcpy_from. rewrite bool_decide_eq_true_2 by (simpl in *; lia).
    by replace (Z.to_nat (mb_end mb - mb_pos mb)) with O by (simpl in *; lia).
Qed.

Lemma packet_send_run {T E} send (sent_as : Z → list Z → Z → E) tp mb (ct : option T) now n l : known_tp tp → mbuf_wf mb →
  packet_send send sent_as tp (Some mb) (Run ct now n l) =
    Ret (send n, Run ct now (S n) (l ++ [sent_as now (payload mb) (send n)])).
Proof.
  intros Htp Hwf. unfold packet_send. rewrite bool_decide_eq_true_2 by done.
  by erewrite prog_bind_step by (by apply lift_Ret, payload_copy).
Qed.

Lemma packet_send_unknown {T E} send (sent_as : Z → list Z → Z → E) tp mb (r : trun T E) : ¬ known_tp tp →
  packet_send send sent_as tp (Some mb) r = Ret (EPROTONOSUPPORT, r).
Proof. intros Htp. unfold packet_send. by rewrite bool_decide_eq_false_2. Qed.

(** ** The schedule of repetitions *)

(** The most times a packet is sent: twice the interval each time, or up to
    four seconds. *)
Definition limit (doubling : bool) : Z := if doubling then 7 else 11.

(** When the timer of the [n]th repetition expires at the earliest, after the
    start. *)
Definition sched (doubling : bool) (n : Z) : Z :=
  if doubling || bool_decide (n ≤ 3) then 500 * (2 ^ (n + 1) - 1) else 7500 + 4000 * (n - 3).

Lemma small_cases n : 0 ≤ n < 11 → n = 0 ∨ n = 1 ∨ n = 2 ∨ n = 3 ∨ n = 4 ∨ n = 5 ∨ n = 6 ∨ n = 7 ∨ n = 8 ∨ n = 9 ∨ n = 10.
Proof. lia. Qed.

(** A repetition that is due before the timeout is not the last allowed. *)
Lemma sched_step doubling n : 0 ≤ n < limit doubling → sched doubling n ≤ 32000 →
  n + 1 < limit doubling ∧ sched doubling (n + 1) ≤ sched doubling n + Z.shiftl SIP_T1 (n + 1) ∧
  (doubling = false → sched doubling (n + 1) ≤ sched doubling n + Z.min (Z.shiftl SIP_T1 (n + 1)) SIP_T2).
Proof.
  intros Hn. assert (Hn' : 0 ≤ n < 11) by (destruct doubling; unfold limit in Hn; lia).
  revert Hn. destruct doubling; apply small_cases in Hn'; repeat destruct Hn' as [->|Hn']; try subst n; vm_compute; naive_solver lia.
Qed.

(** From a repetition to the next, where timers fire in time. *)
Definition interval (doubling : bool) (txc : Z) : Z :=
  if doubling then Z.shiftl SIP_T1 (txc + 1) else Z.min (Z.shiftl SIP_T1 (txc + 1)) SIP_T2.

Lemma interval_bound doubling txc : 0 ≤ txc ≤ 10 → 0 ≤ interval doubling txc ≤ 2 ^ 21.
Proof.
  intros H. unfold interval. assert (Hn : 0 ≤ txc < 11) by lia. apply small_cases in Hn.
  destruct doubling; repeat destruct Hn as [->|Hn]; try subst txc; vm_compute; split; congruence.
Qed.

(** The times of the transmissions, from the start. *)
Definition firing (doubling : bool) : list Z :=
  if doubling then [0; 500; 1500; 3500; 7500; 15500; 31500]
  else [0; 500; 1500; 3500; 7500; 11500; 15500; 19500; 23500; 27500; 31500].

(** From the repetition [txc], due at [d], the later ones are due at [ds]. *)
Fixpoint chain (doubling : bool) (txc d : Z) (ds : list Z) : bool :=
  match ds with
  | [] => bool_decide (32000 ≤ d)
  | d' :: r => bool_decide (d' = d) && bool_decide (d ≤ 32000) && bool_decide (txc ≤ 10) && chain doubling (txc + 1) (d + interval doubling txc) r
  end.

Lemma firing_chain doubling : chain doubling 0 500 (tail (firing doubling)) = true.
Proof. destruct doubling; vm_compute; reflexivity. Qed.

Lemma shifted_run {T E} n (r : trun T E) : 0 ≤ n ≤ 22 → shifted n r = Ret (Z.shiftl SIP_T1 n, r).
Proof. intros Hn. unfold shifted. by rewrite bool_decide_eq_true_2. Qed.

(** ** The invariant of a table *)

Section invariant.
Context {T E : Type} (key : T → Z) (alive : Z → T → list E → Prop).
Local Abbreviation table := (table T E).

(** The transactions in [P] are alive, each is found by its key, and the table
    holds no other. *)
Record tab_in (P : positive → Prop) (s : table) : Prop := {
  tab_time : 0 ≤ jiffies s ≤ 2 ^ 63;
  tab_table : table_ok (tb_ht s);
  tab_alive id ct : P id → entries s !! id = Some ct → alive (jiffies s) ct (default [] (logs s !! id));
  tab_found id ct : entries s !! id = Some ct → ∃ l, hash_list (tb_ht s) (key ct) = Ret l ∧ id ∈ l;
  tab_only id k l : hash_list (tb_ht s) k = Ret l → id ∈ l → is_Some (entries s !! id);
  tab_next id : (next s ≤ id)%positive → entries s !! id = None ∧ logs s !! id = None
}.
Definition tab_ok : table → Prop := tab_in (λ _, True).

(** What became of one transaction, and of no other. *)
Definition touched (id : positive) (s s' : table) : Prop :=
  (∀ i, i ≠ id → entries s' !! i = entries s !! i ∧ logs s' !! i = logs s !! i) ∧ next s' = next s ∧ jiffies s' = jiffies s.

Lemma tab_weaken P Q s : tab_in P s → (∀ id, Q id → P id) → tab_in Q s.
Proof. intros [] HPQ. split; eauto. Qed.

Lemma tab_complete id s : tab_in (λ i, i ≠ id) s →
  (∀ ct, entries s !! id = Some ct → alive (jiffies s) ct (default [] (logs s !! id))) → tab_ok s.
Proof.
  intros [] Hal. split; try done. intros i ct _ Hct. destruct (decide (i = id)) as [->|]; [by apply Hal|by apply tab_alive0].
Qed.

(** A handler that leaves its transaction in order, or ends it. *)
Lemma on_run {X} id (h : prog (trun T E) X) ct s x o n' l' :
  tab_in (λ i, i ≠ id) s → entries s !! id = Some ct →
  h (Run (Some ct) (jiffies s) (sent s) (default [] (logs s !! id))) = Ret (x, Run o (jiffies s) n' l') →
  (∀ ct', o = Some ct' → key ct' = key ct ∧ alive (jiffies s) ct' l') →
  ∃ s', on id h s = Ret (x, s') ∧ tab_ok s' ∧ touched id s s' ∧ entries s' !! id = o ∧ logs s' !! id = Some l' ∧ sent s' = n'.
Proof.
  intros Hok Hct Eh Hl. pose proof Hok as [Htime Htab Halive Hfound Honly Hnext].
  unfold on. rewrite Hct, Eh. cbn [r_ct r_log r_sent]. eexists. split; [done|].
  assert (Hid : (id < next s)%positive).
  { destruct (decide (next s ≤ id)%positive) as [Hle|?]; [|lia]. apply Hnext in Hle as [Hle _]. congruence. }
  destruct o as [ct'|].
  - destruct (Hl ct' eq_refl) as [Eb Hal]. split; [|split; [split; [|done]|split; [apply lookup_insert_eq|split; [apply lookup_insert_eq|done]]]].
    2: { intros i Hi. cbn [entries logs]. rewrite !lookup_insert_ne by congruence. done. }
    split; cbn [jiffies tb_ht entries logs next]; try done.
    + intros i ct1 _ Hi. destruct (decide (i = id)) as [->|Hne].
      * rewrite lookup_insert_eq in Hi. injection Hi as <-. by rewrite lookup_insert_eq.
      * rewrite lookup_insert_ne in Hi by congruence. rewrite lookup_insert_ne by congruence. by apply Halive.
    + intros i ct1 Hi. destruct (decide (i = id)) as [->|Hne].
      * rewrite lookup_insert_eq in Hi. injection Hi as <-. rewrite Eb. by apply Hfound.
      * rewrite lookup_insert_ne in Hi by congruence. by apply Hfound.
    + intros i k l Hh Hi. destruct (decide (i = id)) as [->|Hne]; [rewrite lookup_insert_eq; by eexists|].
      rewrite lookup_insert_ne by congruence. by eapply Honly.
    + intros i Hi. rewrite !lookup_insert_ne by lia. by apply Hnext.
  - split; [|split; [split; [|done]|split; [apply lookup_delete_eq|split; [apply lookup_insert_eq|done]]]].
    2: { intros i Hi. cbn [entries logs]. rewrite lookup_delete_ne, lookup_insert_ne by congruence. done. }
    split; cbn [jiffies tb_ht entries logs next]; try done.
    + by apply table_ok_map.
    + intros i ct1 _ [Hne Hi]%lookup_delete_Some. rewrite lookup_insert_ne by congruence. by apply Halive.
    + intros i ct1 [Hne Hi]%lookup_delete_Some. destruct (Hfound i ct1 Hi) as (l & El & Hin). rewrite hash_list_map, El.
      eexists. split; [done|]. apply list_elem_of_filter. by split.
    + intros i k l Hh Hi. rewrite hash_list_map in Hh. apply bind_Ret_inv in Hh as (l0 & E0 & [= <-]).
      apply list_elem_of_filter in Hi as [Hne Hi]. rewrite lookup_delete_ne by congruence. by eapply Honly.
    + intros i Hi. rewrite lookup_insert_ne, lookup_delete_ne by lia. by apply Hnext.
Qed.

(** A new transaction is in the table, its own invariant apart. *)
Lemma enter_run ct s : tab_ok s →
  ∃ s', enter (key ct) ct s = Ret (next s, s') ∧ tab_in (λ i, i ≠ next s) s' ∧ entries s' = <[next s := ct]> (entries s) ∧
    logs s' = logs s ∧ next s' = Pos.succ (next s) ∧ jiffies s' = jiffies s ∧ sent s' = sent s ∧ logs s !! next s = None ∧
    entries s !! next s = None.
Proof.
  intros [Htime Htab Halive Hfound Honly Hnext]. unfold enter.
  destruct (hash_append_run (tb_ht s) (key ct) (next s) Htab) as (ht & -> & Htab' & Hsz & Hl).
  eexists. split; [done|]. cbn [entries logs next jiffies sent].
  assert (Hnx : entries s !! next s = None ∧ logs s !! next s = None) by (apply Hnext; lia).
  split; [|by split_and!; try apply Hnx].
  split; cbn [jiffies tb_ht entries logs next]; try done.
  - intros i ct1 Hne Hi. rewrite lookup_insert_ne in Hi by congruence. by apply Halive.
  - intros i ct1 Hi. rewrite Hl. destruct (decide (i = next s)) as [->|Hne].
    + rewrite lookup_insert_eq in Hi. injection Hi as <-.
      destruct (hash_list_run (tb_ht s) (key ct) Htab) as (l & -> & _). cbn [mbind outcome_bind].
      rewrite bool_decide_eq_true_2 by done. eexists. split; [done|]. apply elem_of_app. right. by left.
    + rewrite lookup_insert_ne in Hi by congruence. destruct (Hfound i ct1 Hi) as (l & -> & Hin). cbn [mbind outcome_bind].
      eexists. split; [done|]. case_bool_decide; [|done]. apply elem_of_app. by left.
  - intros i k l Hh Hi. destruct (decide (i = next s)) as [->|Hne]; [rewrite lookup_insert_eq; by eexists|].
    rewrite lookup_insert_ne by congruence. rewrite Hl in Hh. apply bind_Ret_inv in Hh as (l0 & E0 & [= <-]).
    apply (Honly i k l0 E0). revert Hi. case_bool_decide; [|done]. rewrite elem_of_app. intros [Hi|Hi]; [done|].
    by apply list_elem_of_singleton in Hi.
  - intros i Hi. rewrite lookup_insert_ne by lia. apply Hnext. lia.
Qed.

(** A search with a decidable question about transactions, all of which have
    the key of the search where the answer is yes. *)
Lemma lookup_run k h (g : T → bool) s : tab_ok s →
  (∀ id ct, entries s !! id = Some ct → h s id = Ret (g ct)) → (∀ id ct, entries s !! id = Some ct → g ct = true → key ct = k) →
  ∃ r, lookup_in k h s = Ret (r, s) ∧
    match r with
    | Some id => ∃ ct, entries s !! id = Some ct ∧ g ct = true
    | None => ∀ id ct, entries s !! id = Some ct → g ct = false
    end.
Proof.
  intros Hok Hh Hg. unfold lookup_in. destruct (hash_list_run (tb_ht s) k (tab_table _ s Hok)) as (l & El & _).
  set (g' id := match entries s !! id with Some ct => g ct | None => false end).
  assert (Elook : find_by (h s) l = Ret (List.find g' l)).
  { apply find_by_run. intros id Hid. destruct (tab_only _ s Hok id _ l El Hid) as [ct Hct]. unfold g'. rewrite Hct. by apply Hh. }
  exists (List.find g' l). split.
  - erewrite prog_bind_step by done. erewrite prog_bind_step by (by apply lift_Ret). by apply lift_Ret.
  - destruct (List.find g' l) as [id|] eqn:Ef.
    + apply find_some in Ef as [_ Hg']. unfold g' in Hg'. destruct (entries s !! id) as [ct|]; [by exists ct|done].
    + intros id ct Hct. destruct (g ct) eqn:Egc; [|done]. destruct (tab_found _ s Hok id ct Hct) as (l' & El' & Hid).
      rewrite (Hg id ct Hct Egc), El in El'. injection El' as <-. pose proof (find_none _ _ Ef id Hid) as Hn.
      unfold g' in Hn. rewrite Hct in Hn. congruence.
Qed.

Lemma elapse_ok d s : (∀ now ct l, alive now ct l → alive (now + d) ct l) → 0 ≤ d → jiffies s + d ≤ 2 ^ 63 → tab_ok s → tab_ok (elapse d s).
Proof.
  intros Hal Hd Hmax [Htime Htab Halive Hfound Honly Hnext]. split; cbn [jiffies tb_ht entries logs next elapse]; try done; [lia|].
  intros id ct _ Hct. apply Hal. by apply Halive.
Qed.

Lemma tab_new k t : 0 ≤ k < 32 → 0 ≤ t ≤ 2 ^ 63 → tab_ok (Table (replicate (Z.to_nat (2 ^ k)) []) ∅ ∅ 1 t 0).
Proof.
  intros Hk Ht. destruct (table_alloc (A := positive) k Hk) as (h & Eh & Htab & _ & Hl).
  assert (h = replicate (Z.to_nat (2 ^ k)) []) as ->.
  { unfold hash_alloc in Eh. destruct (bool_decide (2 ^ k = 0)), (bool_decide (Z.land (2 ^ k) (2 ^ k - 1) ≠ 0)); by simplify_eq. }
  split; cbn [jiffies tb_ht entries logs next]; try done.
  intros id k' l E2. rewrite Hl in E2. injection E2 as <-. by intros ?%not_elem_of_nil.
Qed.
End invariant.
