(* ===== verification/Reply.v ===== *)
(** * Replies to SIP requests (src/re/src/sip/reply.c)

    A reply repeats the Via headers of the request, its From, To, Call-ID and
    CSeq, and goes back to where the request came from.  Whichever allocations
    fail the reply is made or refused; with plenty of memory its text is the one
    the standard prescribes. *)
From stdpp Require Import base tactics list numbers strings option gmap.
From S2P Require Import Prelude Mbuf Fmt Print MbufPrint Regex Uri Hash Sip SipSafe SipLines SipMsg SipPrint.

(** A request as it was received: the message, its source and its transport. *)
Record received := Received { q_msg : sip_msg; q_src : sockaddr; q_tp : Z }.

Definition SIP_PORT : Z := 5060.
Definition SIP_PORT_TLS : Z := 5061.

Definition sip_transp_port (tp port : Z) : Z :=
  if bool_decide (port ≠ 0) then port
  else if bool_decide (tp = SIP_TRANSP_UDP ∨ tp = SIP_TRANSP_TCP) then SIP_PORT
  else if bool_decide (tp = SIP_TRANSP_TLS) then SIP_PORT_TLS
  else 0.

(** An address without a family keeps its port. *)
Definition sa_set_port (sa : sockaddr) (port : Z) : sockaddr :=
  if bool_decide (is_Some (sa_text sa)) then SockAddr (sa_text sa) port (sa_v6 sa) else sa.

(** [sa_cmp] with [SA_ADDR]: an address is what its text denotes, and one
    without a family is like no other. *)
Definition sa_same (a b : sockaddr) : bool :=
  bool_decide (sa_v6 a = sa_v6 b) && bool_decide (is_Some (sa_text a)) && bool_decide (sa_text a = sa_text b).

Section reply.
Context (A : allocator).
Variable sa_set : list Z → option sockaddr.
Variable software : option (list Z).

Definition sip_reply_addr (q : received) (rport : bool) : outcome sockaddr :=
  let via := m_via (q_msg q) in
  let port := sip_transp_port (q_tp q) (sa_port (v_addr via)) in
  if bool_decide (q_tp q = SIP_TRANSP_UDP) then
    r ← sip_param_decode (v_params via) (bytes_of "maddr");
    match r with
    | (0, Some maddr) =>
        bs ← pl_bytes maddr;
        Ret (match sa_set bs with Some sa => sa_set_port sa port | None => q_src q end)
    | _ => Ret (if rport then q_src q else sa_set_port (q_src q) port)
    end
  else if sip_transp_reliable (q_tp q) then Ret (sa_set_port (q_src q) port)
  else Ret (q_src q).

(** [mbuf_write_pl_skip] for two pointers into the same memory. *)
Definition write_pl_skip (val skip : pl) : prog mbuf Z :=
  bs ← lift (pl_bytes val);
  let at_ := Z.of_nat (length (default [] (pl_p val))) - Z.of_nat (length (default [] (pl_p skip))) in
  (λ mb, mbuf_write_pl_skip A mb bs at_ (pl_l skip)) : prog mbuf Z.

Definition write_pl (val : pl) : prog mbuf Z := bs ← lift (pl_bytes val); (λ mb, mbuf_write_pl A mb (Some bs)) : prog mbuf Z.

(** The first Via: the errors so far, and whether the port of the source was added. *)
Definition via_value (q : received) (val : pl) : prog mbuf (Z * bool) :=
  r ← lift (sip_param_exists (v_params (m_via (q_msg q))) (bytes_of "rport"));
  match r with
  | (0, Some rp) =>
      e1 ← write_pl_skip val rp;
      e2 ← mbuf_printf A (bytes_of ";rport=%u") [VInt (sa_port (q_src q))];
      mret (Z.lor e1 e2, true)
  | _ => e ← write_pl val; mret (e, false)
  end.

Definition via_first (q : received) (hdr : sip_hdr) : prog mbuf (Z * bool) :=
  r ← via_value q (h_val hdr);
  let '(e1, rport) := r in
  e2 ← (if rport || negb (sa_same (q_src q) (v_addr (m_via (q_msg q)))) then
          mbuf_printf A (bytes_of ";received=%j") [VSa (Some (q_src q))]
        else mret 0);
  e3 ← write_str A crlf;
  mret (Z.lor (Z.lor e1 e2) e3, rport).

Definition print_hdr (hdr : sip_hdr) : prog mbuf Z :=
  mbuf_printf A (bytes_of "%r: %r" ++ crlf) [VPl (Some (h_name hdr)); VPl (Some (h_val hdr))].

(** One header of the loop. *)
Definition reply_hdr (q : received) (rec_route : bool) (scode : Z) (hdr : sip_hdr) (viac : Z) (rport : bool) : prog mbuf (Z * Z * bool) :=
  if bool_decide (h_id hdr = SIP_HDR_VIA) then
    e1 ← mbuf_printf A (bytes_of "%r: ") [VPl (Some (h_name hdr))];
    if bool_decide (viac ≠ 0) then
      e2 ← mbuf_printf A (bytes_of "%r" ++ crlf) [VPl (Some (h_val hdr))];
      mret (Z.lor e1 e2, u32 (viac + 1), rport)
    else
      r ← via_first q hdr;
      mret (Z.lor e1 (fst r), u32 (viac + 1), snd r)
  else if bool_decide (h_id hdr = SIP_HDR_TO) then
    e1 ← mbuf_printf A (bytes_of "%r: %r") [VPl (Some (h_name hdr)); VPl (Some (h_val hdr))];
    e2 ← (if negb (pl_isset (ta_tag (m_to (q_msg q)))) && bool_decide (scode > 100) then
            mbuf_printf A (bytes_of ";tag=%016llx") [VInt (m_tag (q_msg q))]
          else mret 0);
    e3 ← write_str A crlf;
    mret (Z.lor (Z.lor e1 e2) e3, viac, rport)
  else if bool_decide (h_id hdr = SIP_HDR_RECORD_ROUTE) then
    if rec_route then e ← print_hdr hdr; mret (e, viac, rport) else mret (0, viac, rport)
  else if bool_decide (h_id hdr = SIP_HDR_FROM ∨ h_id hdr = SIP_HDR_CALL_ID ∨ h_id hdr = SIP_HDR_CSEQ) then
    e ← print_hdr hdr; mret (e, viac, rport)
  else mret (0, viac, rport).

(** The loop over the headers: how many Via there were, and [rport]. *)
Fixpoint reply_hdrs (q : received) (rec_route : bool) (scode : Z) (l : list sip_hdr) (viac : Z) (rport : bool) : prog mbuf (Z * bool) :=
  match l with
  | [] => mret (0, rport)
  | hdr :: l =>
      r ← reply_hdr q rec_route scode hdr viac rport;
      let '(e, viac, rport) := r in
      rest ← reply_hdrs q rec_route scode l viac rport;
      mret (Z.lor e (fst rest), snd rest)
  end.

(** The text of a reply; its end is a format of the caller, or the end of a
    message without a body. *)
Definition reply_text (q : received) (rec_route : bool) (scode : Z) (reason : list Z) (fmt : option (list Z * list varg)) :
    prog mbuf (Z * bool) :=
  e1 ← mbuf_printf A (bytes_of "SIP/2.0 %u %s" ++ crlf) [VInt scode; VStr (Some reason)];
  r ← reply_hdrs q rec_route scode (m_hdrl (q_msg q)) 0 false;
  e3 ← match software with
       | Some sw => mbuf_printf A (bytes_of "Server: %s" ++ crlf) [VStr (Some sw)]
       | None => mret 0
       end;
  e4 ← match fmt with
       | Some (fmt, args) => mbuf_vprintf A fmt args
       | None => mbuf_printf A (bytes_of "Content-Length: 0" ++ crlf ++ crlf) []
       end;
  mret (Z.lor (Z.lor (Z.lor e1 (fst r)) e3) e4, snd r).

(** [vreplyf] up to the transmission: the error, and the reply with its
    destination; an ACK is not answered. *)
Definition vreplyf (q : received) (rec_route : bool) (scode : Z) (reason : list Z) (fmt : option (list Z * list varg)) :
    outcome (Z * option (mbuf * sockaddr)) :=
  e ← pl_strcmp (m_met (q_msg q)) (Some (bytes_of "ACK"));
  if bool_decide (e = 0) then Ret (0, None)
  else
    match mbuf_alloc A 1024 with
    | None => Ret (ENOMEM, None)
    | Some mb =>
        r ← reply_text q rec_route scode reason fmt mb;
        let '(err, rport, mb) := r in
        if bool_decide (err ≠ 0) then Ret (err, None)
        else
          dst ← sip_reply_addr q rport;
          Ret (0, Some (mbuf_set_pos mb 0, dst))
    end.
End reply.

(** ** The text of a reply *)

Definition is_first (seen : bool) (hdr : sip_hdr) : bool := bool_decide (h_id hdr = SIP_HDR_VIA) && negb seen.

(** The value of the top Via without the parameter at [so], [sl], or the
    refusal when that is not a part of it. *)
Definition skip_text (bs : list Z) (so sl : Z) : Z * list Z :=
  if bool_decide (0 > so) || bool_decide (so + sl > Z.of_nat (length bs)) then (ERANGE, [])
  else (0, take (Z.to_nat so) bs ++ drop (Z.to_nat (so + sl)) bs).

Definition via_text (q : received) (val : pl) : Z * list Z * bool :=
  match sip_param_exists (v_params (m_via (q_msg q))) (bytes_of "rport") with
  | Ret (0, Some rp) =>
      let r := skip_text (pl_text val) (Z.of_nat (length (default [] (pl_p val))) - Z.of_nat (length (default [] (pl_p rp)))) (pl_l rp) in
      (fst r, snd r ++ bytes_of ";rport=" ++ dec_text (sa_port (q_src q)), true)
  | _ => (0, pl_text val, false)
  end.

Definition src_text (sa : sockaddr) : list Z := default (bytes_of "?") (sa_text sa).

Definition received_text (q : received) (rport : bool) : list Z :=
  if rport || negb (sa_same (q_src q) (v_addr (m_via (q_msg q)))) then bytes_of ";received=" ++ src_text (q_src q) else [].

Definition tag_text (q : received) (scode : Z) : list Z :=
  if negb (pl_isset (ta_tag (m_to (q_msg q)))) && bool_decide (scode > 100) then
    bytes_of ";tag=" ++ padding 16 (hex_text false (m_tag (q_msg q))) (chr "0") ++ hex_text false (m_tag (q_msg q))
  else [].

(** A header of the request as it comes back, but the first Via. *)
Definition hdr_line (hdr : sip_hdr) (more : list Z) : list Z := pl_text (h_name hdr) ++ bytes_of ": " ++ pl_text (h_val hdr) ++ more ++ crlf.

Definition line_of (q : received) (rec_route : bool) (scode : Z) (hdr : sip_hdr) : list Z :=
  if bool_decide (h_id hdr = SIP_HDR_VIA) then hdr_line hdr []
  else if bool_decide (h_id hdr = SIP_HDR_TO) then hdr_line hdr (tag_text q scode)
  else if bool_decide (h_id hdr = SIP_HDR_RECORD_ROUTE) then if rec_route then hdr_line hdr [] else []
  else if bool_decide (h_id hdr = SIP_HDR_FROM ∨ h_id hdr = SIP_HDR_CALL_ID ∨ h_id hdr = SIP_HDR_CSEQ) then hdr_line hdr []
  else [].

Fixpoint reply_lines (q : received) (rec_route : bool) (scode : Z) (l : list sip_hdr) (seen : bool) : Z * list Z * bool :=
  match l with
  | [] => (0, [], false)
  | hdr :: l =>
      let '(e', t', rp') := reply_lines q rec_route scode l (seen || bool_decide (h_id hdr = SIP_HDR_VIA)) in
      if is_first seen hdr then
        let '(e, t, rp) := via_text q (h_val hdr) in
        (Z.lor e e', (pl_text (h_name hdr) ++ bytes_of ": " ++ t ++ received_text q rp ++ crlf) ++ t', rp)
      else (e', line_of q rec_route scode hdr ++ t', rp')
  end.

(** What the caller adds after the headers. *)
Definition ending_fmt (ending : option (list piece)) : option (list Z * list varg) :=
  match ending with Some ps => Some (fmt_of ps, args_of ps) | None => None end.

Definition ending_text (ending : option (list piece)) : list Z :=
  match ending with Some ps => text_of ps | None => bytes_of "Content-Length: 0" ++ crlf ++ crlf end.

Definition ending_ok (ending : option (list piece)) : Prop :=
  match ending with Some ps => Forall (plain_piece short) ps ∧ Forall piece_ok ps ∧ short (fmt_of ps) | None => True end.

Definition reply_of (software : option (list Z)) (q : received) (rec_route : bool) (scode : Z) (reason : list Z)
    (ending : option (list piece)) : list Z :=
  (bytes_of "SIP/2.0 " ++ dec_text scode ++ bytes_of " " ++ reason ++ crlf) ++
  snd (fst (reply_lines q rec_route scode (m_hdrl (q_msg q)) false)) ++
  match software with Some sw => bytes_of "Server: " ++ sw ++ crlf | None => [] end ++ ending_text ending.

(** A received request: its message is decoded, its source is an address. *)
Definition received_ok (q : received) : Prop :=
  msg_ok (q_msg q) ∧ 0 ≤ m_tag (q_msg q) < 2 ^ 64 ∧ 0 ≤ sa_port (q_src q) < 65536 ∧ short (src_text (q_src q)) ∧
  Z.of_nat (length (m_hdrl (q_msg q))) < 2 ^ 32.

(** ** Its parts *)

Lemma emits_pieces A fmt args t ps :
  fmt = fmt_of ps → args = args_of ps → t = text_of ps → Forall (plain_piece short) ps → Forall piece_ok ps → short fmt →
  emits A (mbuf_printf A fmt args) t.
Proof. intros Hf Ha -> H1 H2 H3. by apply (emits_printf A fmt args ps). Qed.

Ltac piece_text_eq := unfold text_of, fmt_of, args_of; cbn [map concat piece_text piece_fmt piece_args];
  repeat match goal with
  | H : piece_fmt ?pc = _ |- context [piece_fmt ?pc] => rewrite H
  | H : piece_args ?pc = _ |- context [piece_args ?pc] => rewrite H
  | H : piece_text ?pc = _ |- context [piece_text ?pc] => rewrite H
  end; rewrite ?app_nil_r; done.

Ltac lit := first [closed | split; closed].

Section parts.
Context (A : allocator).

Lemma crlf_lit : Forall (λ b, b ≠ chr "%") crlf.
Proof. closed. Qed.
Lemma colon_lit : Forall (λ b, b ≠ chr "%") (bytes_of ": ").
Proof. closed. Qed.

Lemma emits_name p pc : prints_as p pc → emits A (mbuf_printf A (bytes_of "%r: ") [VPl (Some p)]) (pl_text p ++ bytes_of ": ").
Proof.
  intros (Ef & Ea & Hp & Hk & Et). pose proof colon_lit. apply (emits_pieces A _ _ _ [pc; PLit (bytes_of ": ")]); [piece_text_eq..| | |lit]; by pieces.
Qed.

Lemma emits_value p pc : prints_as p pc → emits A (mbuf_printf A (bytes_of "%r" ++ crlf) [VPl (Some p)]) (pl_text p ++ crlf).
Proof.
  intros (Ef & Ea & Hp & Hk & Et). pose proof crlf_lit. apply (emits_pieces A _ _ _ [pc; PLit crlf]); [piece_text_eq..| | |lit]; by pieces.
Qed.

Lemma emits_pair p pc p' pc' : prints_as p pc → prints_as p' pc' →
  emits A (mbuf_printf A (bytes_of "%r: %r") [VPl (Some p); VPl (Some p')]) (pl_text p ++ bytes_of ": " ++ pl_text p').
Proof.
  intros (Ef & Ea & Hp & Hk & Et) (Ef' & Ea' & Hp' & Hk' & Et'). pose proof colon_lit.
  apply (emits_pieces A _ _ _ [pc; PLit (bytes_of ": "); pc']); [piece_text_eq..| | |lit]; by pieces.
Qed.

Lemma emits_header h pc pc' : prints_as (h_name h) pc → prints_as (h_val h) pc' → emits A (print_hdr A h) (hdr_line h []).
Proof.
  intros (Ef & Ea & Hp & Hk & Et) (Ef' & Ea' & Hp' & Hk' & Et'). pose proof colon_lit. pose proof crlf_lit. unfold print_hdr, hdr_line.
  apply (emits_pieces A _ _ _ [pc; PLit (bytes_of ": "); pc'; PLit crlf]); [piece_text_eq..| | |lit]; by pieces.
Qed.

Lemma emits_status scode reason : 0 ≤ scode < 2 ^ 32 → short reason →
  emits A (mbuf_printf A (bytes_of "SIP/2.0 %u %s" ++ crlf) [VInt scode; VStr (Some reason)])
    (bytes_of "SIP/2.0 " ++ dec_text scode ++ bytes_of " " ++ reason ++ crlf).
Proof.
  intros Hs Hr. pose proof crlf_lit. pose proof (dec_text_short scode Hs).
  assert (H1 : Forall (λ b, b ≠ chr "%") (bytes_of "SIP/2.0 ")) by closed. assert (H2 : Forall (λ b, b ≠ chr "%") (bytes_of " ")) by closed.
  apply (emits_pieces A _ _ _ [PLit (bytes_of "SIP/2.0 "); PUns scode; PLit (bytes_of " "); PStr reason; PLit crlf]); [piece_text_eq..| | |lit]; by pieces.
Qed.

Lemma emits_rport port : 0 ≤ port < 65536 →
  emits A (mbuf_printf A (bytes_of ";rport=%u") [VInt port]) (bytes_of ";rport=" ++ dec_text port).
Proof.
  intros Hp. pose proof (dec_text_short port ltac:(lia)). assert (H1 : Forall (λ b, b ≠ chr "%") (bytes_of ";rport=")) by closed.
  assert (0 ≤ port < 2 ^ 32) by lia.
  apply (emits_pieces A _ _ _ [PLit (bytes_of ";rport="); PUns port]); [piece_text_eq..| | |lit]; by pieces.
Qed.

Lemma emits_src sa : short (src_text sa) →
  emits A (mbuf_printf A (bytes_of ";received=%j") [VSa (Some sa)]) (bytes_of ";received=" ++ src_text sa).
Proof.
  intros Hs. assert (H1 : Forall (λ b, b ≠ chr "%") (bytes_of ";received=")) by closed.
  apply (emits_pieces A _ _ _ [PLit (bytes_of ";received="); PIp sa]); [piece_text_eq..| | |lit]; by pieces.
Qed.

Lemma hex_text_short z : 0 ≤ z < 2 ^ 64 → short (hex_text false z).
Proof.
  intros Hz. unfold hex_text. destruct (local_itoa_digits z 16 false) as (ds & -> & Hds & _ & Hl & _); [lia|right; lia|].
  split; [|rewrite length_map; unfold max_alloc; lia]. unfold bytes_ok. rewrite List.Forall_map. eapply Forall_impl; [exact Hds|].
  intros d Hd. cbn beta in Hd. unfold digit_char, is_byte. chars. repeat case_bool_decide; lia.
Qed.

Lemma emits_tag z : 0 ≤ z < 2 ^ 64 →
  emits A (mbuf_printf A (bytes_of ";tag=%016llx") [VInt z])
    (bytes_of ";tag=" ++ padding 16 (hex_text false z) (chr "0") ++ hex_text false z).
Proof.
  intros Hz. pose proof (hex_text_short z Hz). assert (H0 : short (bytes_of "0")) by lit.
  assert (H1 : Forall (λ b, b ≠ chr "%") (bytes_of ";tag=")) by closed.
  apply (emits_pieces A _ _ _ [PLit (bytes_of ";tag="); PTag z]); [piece_text_eq..| | |lit]; by pieces.
Qed.

Lemma pl_text_short m lim p : (lim ≤ length m)%nat → short m → pointer_in m lim p → pl_bytes p = Ret (pl_text p) ∧ short (pl_text p).
Proof.
  intros Hlim [Hm Hl] Hp. destruct (pl_bytes_in m lim Hlim p Hp) as [bs E]. unfold pl_text. rewrite E. split; [done|].
  destruct Hp as [(k & n & -> & Hk)| ->].
  - unfold pl_bytes in E. cbn [pl_p pl_l] in E. rewrite memcpy_from_run in E by (rewrite ?length_drop; lia). injection E as <-.
    split; [auto with re|]. rewrite length_take, !length_drop. unfold max_alloc in *. lia.
  - cbn in E. injection E as <-. lit.
Qed.

Lemma emits_pl m lim p : (lim ≤ length m)%nat → short m → pointer_in m lim p → emits A (write_pl A p) (pl_text p).
Proof.
  intros Hlim Hm Hp. destruct (pl_text_short m lim p Hlim Hm Hp) as [E Hs]. rewrite <- (app_nil_l (pl_text p)). unfold write_pl.
  assert (H1 : emits_to A (lift (pl_bytes p)) (pl_text p) []).
  { rewrite E. split; intros; [by eapply keeps_lift|]. intros k mb Hk _. exists mb. by rewrite app_nil_r. }
  rewrite E in *. destruct (emits_str A _ Hs) as [K T]. split.
  - intros HA mb Hmb. by apply K.
  - intros HA Hpl k mb Hk Hok. by apply T.
Qed.

Lemma emits_skip_at bs so sl : short bs →
  emits_to A (λ mb, mbuf_write_pl_skip A mb bs so sl) (fst (skip_text bs so sl)) (snd (skip_text bs so sl)).
Proof.
  intros Hs. assert (Hpart : ∀ n, short (take n bs) ∧ short (drop n bs)).
  { intros n. destruct Hs as [Hb Hl]. split; (split; [auto with re|]); rewrite ?length_take, ?length_drop; lia. }
  unfold mbuf_write_pl_skip, skip_text. destruct (bool_decide (0 > so) || _); cbn [fst snd].
  { split; intros; [by intros mb Hmb; eexists _, _|]. intros k mb Hk _. exists mb. by rewrite app_nil_r. }
  destruct (emits_str A _ (proj1 (Hpart (Z.to_nat so)))) as [K1 T1]. destruct (emits_str A _ (proj2 (Hpart (Z.to_nat (so + sl))))) as [K2 T2].
  unfold write_str in *. split.
  - intros HA mb Hmb. destruct (K1 HA mb Hmb) as (e & mb1 & E1 & Hmb1). rewrite E1. cbn [mbind outcome_bind].
    case_bool_decide; [by apply K2|by eexists _, _].
  - intros HA Hpl k mb Hk Hok. rewrite app_assoc in Hok. destruct (T1 HA Hpl k mb Hk (text_ok_prefix _ _ Hok)) as (mb1 & E1 & Hk1).
    rewrite E1. cbn [mbind outcome_bind]. rewrite bool_decide_eq_true_2 by done.
    destruct (T2 HA Hpl _ mb1 Hk1 Hok) as (mb2 & E2 & Hk2). exists mb2. split; [exact E2|]. by rewrite app_assoc.
Qed.

Lemma emits_skip m lim val rp : (lim ≤ length m)%nat → short m → pointer_in m lim val →
  let r := skip_text (pl_text val) (Z.of_nat (length (default [] (pl_p val))) - Z.of_nat (length (default [] (pl_p rp)))) (pl_l rp) in
  emits_to A (write_pl_skip A val rp) (fst r) (snd r).
Proof.
  intros Hlim Hm Hval. destruct (pl_text_short m lim val Hlim Hm Hval) as [E Hs]. unfold write_pl_skip. rewrite E.
  apply (emits_skip_at _ _ _ Hs).
Qed.

Lemma rport_safe m lim p : (lim ≤ length m)%nat → pointer_in m lim p →
  ∃ e o, sip_param_exists p (bytes_of "rport") = Ret (e, o) ∧ (e = 0 → is_Some o).
Proof.
  intros Hlim Hp. unfold sip_param_exists.
  assert (Ex : ∃ xpr, param_expr (bytes_of ";" ++ ws_class) (bytes_of "[" ++ wsp ++ bytes_of ";=]*") (bytes_of "rport") = Ret xpr ∧ scan_expr xpr = Some 2%nat).
  { eexists. split; vm_compute; reflexivity. }
  destruct Ex as (xpr & -> & Hx). cbn [mbind outcome_bind].
  destruct (regex_in m lim Hlim p xpr 2 2 Hp Hx) as (err & caps & E & _ & _ & Hc); [done|]. rewrite E. cbn [mbind outcome_bind fst snd].
  case_bool_decide as Hz; [by eexists _, _|]. destruct (Hc ltac:(lia)) as [Hin Hc'].
  destruct (Hc' 0%nat ltac:(lia)) as (q0 & Hq0 & _), (Hc' 1%nat ltac:(lia)) as (q1 & Hq1 & _).
  destruct Hin as (k & n & -> & _). cbn [pl_p of_option mbind outcome_bind].
  rewrite (proj1 (result_at _ _ _ Hq0)), (proj1 (result_at _ _ _ Hq1)). cbn [mbind outcome_bind].
  destruct (_ && _); eexists _, _; (split; [done|]); [done|by eexists].
Qed.

Lemma maddr_safe m lim p : (lim ≤ length m)%nat → pointer_in m lim p →
  ∃ e o, sip_param_decode p (bytes_of "maddr") = Ret (e, o) ∧ ∀ r, o = Some r → pointer_in m lim r.
Proof. intros Hlim Hp. eapply sip_param_decode_safe; [exact Hlim|done|vm_compute; reflexivity|vm_compute; reflexivity]. Qed.
End parts.

(** A step whose followers return whatever it gives. *)
Lemma emits_then {X Y} A (m : prog mbuf X) (f : X → prog mbuf Y) a b t u :
  emits_to A m a t → (∀ x, allocator_ok A → keeps mbuf_wf (f x)) → emits_to A (f a) b u → emits_to A (m ≫= f) b (t ++ u).
Proof. intros H1 H2 H3. eapply emits_bind; [exact H1|intros HA x; by apply H2|apply H3]. Qed.

Lemma emits_eq {X} A (m : prog mbuf X) a t a' t' : emits_to A m a t → a = a' → t = t' → emits_to A m a' t'.
Proof. by intros H -> ->. Qed.

Lemma emits_lift {X} A (r : outcome X) a : r = Ret a → emits_to A (lift r) a [].
Proof. intros ->. apply (emits_mret A a). Qed.

Create HintDb keeps.
#[export] Hint Resolve keeps_ret : keeps.
Ltac keeps_tac := repeat first
  [ progress (intros; cbv zeta) | apply keeps_ret | match goal with H : emits_to _ ?m _ _ |- keeps _ ?m => apply (emits_keeps _ _ _ _ H); done end
  | apply keeps_bind | case_match | done ].

Section headers.
Context (A : allocator) (q : received) (rec_route : bool) (scode : Z) (Hq : received_ok q).
Context (m : list Z) (lim : nat) (Hlim : (lim ≤ length m)%nat) (Hm : short m) (Hmsg : msg_in m lim (q_msg q)).

Lemma via_params_in : pointer_in m lim (v_params (m_via (q_msg q))).
Proof using Hmsg. by destruct Hmsg as (_ & _ & _ & _ & _ & _ & _ & _ & _ & _ & _ & _ & (_ & _ & _ & Hpar) & _). Qed.

Lemma via_value_emits val : pointer_in m lim val →
  emits_to A (via_value A q val) (fst (fst (via_text q val)), snd (via_text q val)) (snd (fst (via_text q val))).
Proof using Hq Hlim Hm Hmsg.
  intros Hval. destruct Hq as (_ & _ & Hport & _). destruct (rport_safe m lim _ Hlim via_params_in) as (e & o & E & Ho).
  pose proof (emits_pl A m lim val Hlim Hm Hval) as Hpl. pose proof (emits_rport A (sa_port (q_src q)) Hport) as Hrp.
  unfold via_value, via_text. rewrite E. rewrite <- (app_nil_l (snd (fst _))). eapply emits_then; [by apply emits_lift| |].
  - intros [e' o'] HA. destruct e'; [|apply keeps_bind; [by apply Hpl|intros; apply keeps_ret]..].
    destruct o' as [rp|]; [|apply keeps_bind; [by apply Hpl|intros; apply keeps_ret]].
    pose proof (emits_skip A m lim val rp Hlim Hm Hval) as Hsk. cbv zeta in Hsk. keeps_tac.
  - destruct (decide (e = 0)) as [->|Hne].
    + destruct (Ho eq_refl) as [rp ->]. pose proof (emits_skip A m lim val rp Hlim Hm Hval) as Hsk. cbv zeta in Hsk.
      set (r := skip_text _ _ _) in *. cbn [fst snd]. eapply emits_eq; [eapply emits_then; [exact Hsk|keeps_tac|]| |].
      * eapply emits_then; [exact Hrp|keeps_tac|apply emits_mret].
      * by rewrite Z.lor_0_r.
      * by rewrite app_nil_r.
    + destruct e; [done|..]; (eapply emits_eq; [eapply emits_then; [exact Hpl|keeps_tac|apply emits_mret]|done|apply app_nil_r]).
Qed.

Lemma via_first_emits hdr : hdr_in m lim hdr →
  emits_to A (via_first A q hdr) (fst (fst (via_text q (h_val hdr))), snd (via_text q (h_val hdr)))
    (snd (fst (via_text q (h_val hdr))) ++ received_text q (snd (via_text q (h_val hdr))) ++ crlf).
Proof using Hq Hlim Hm Hmsg.
  intros [_ Hval]. pose proof (via_value_emits (h_val hdr) ltac:(by left)) as Hv. destruct Hq as (_ & _ & _ & Hsrc & _).
  pose proof (emits_src A (q_src q) Hsrc) as Hj. assert (Hc := emits_str A crlf ltac:(lit)).
  unfold via_first, received_text. eapply emits_then; [exact Hv|keeps_tac|]. cbn beta iota.
  set (b := snd (via_text _ _) || _). eapply emits_eq; [eapply (emits_then _ _ _ 0 _ (if b then _ else [])); [|keeps_tac|]| |].
  - destruct b; [exact Hj|apply emits_ret].
  - eapply emits_then; [exact Hc|keeps_tac|apply emits_mret].
  - by rewrite !Z.lor_0_r.
  - by rewrite app_nil_r.
Qed.

Lemma hdr_pieces hdr : hdr_in m lim hdr → ∃ pc pc', prints_as (h_name hdr) pc ∧ prints_as (h_val hdr) pc'.
Proof using Hlim Hm.
  intros [Hn Hv]. destruct (pointer_piece m lim (h_name hdr) Hlim Hm ltac:(by left)) as [pc H].
  destruct (pointer_piece m lim (h_val hdr) Hlim Hm ltac:(by left)) as [pc' H']. by exists pc, pc'.
Qed.

Lemma tag_emits : 0 ≤ m_tag (q_msg q) < 2 ^ 64 →
  emits A (if negb (pl_isset (ta_tag (m_to (q_msg q)))) && bool_decide (scode > 100) then
             mbuf_printf A (bytes_of ";tag=%016llx") [VInt (m_tag (q_msg q))] else mret 0) (tag_text q scode).
Proof using. clear. intros Ht. unfold tag_text. destruct (_ && _); [by apply emits_tag|apply emits_ret]. Qed.

Lemma line_emits hdr viac rport : hdr_in m lim hdr → is_first (bool_decide (viac ≠ 0)) hdr = false →
  emits_to A (reply_hdr A q rec_route scode hdr viac rport)
    (0, (if bool_decide (h_id hdr = SIP_HDR_VIA) then u32 (viac + 1) else viac), rport) (line_of q rec_route scode hdr).
Proof using Hq Hlim Hm.
  intros Hin Hf. destruct (hdr_pieces hdr Hin) as (pc & pc' & H1 & H2).
  pose proof (emits_name A _ _ H1) as E1. pose proof (emits_value A _ _ H2) as E2. pose proof (emits_header A _ _ _ H1 H2) as E3.
  pose proof (emits_pair A _ _ _ _ H1 H2) as E4. assert (Hc := emits_str A crlf ltac:(lit)). destruct Hq as (_ & Htag & _).
  pose proof (tag_emits Htag) as E5. unfold reply_hdr, line_of, is_first in *.
  assert (Hh : ∀ (b : Z) (c : bool), emits_to A (e ← print_hdr A hdr; mret (e, b, c)) (0 : Z, b, c) (hdr_line hdr [])).
  { intros b c. eapply emits_eq; [eapply emits_then; [exact E3|keeps_tac|apply emits_mret]|done|apply app_nil_r]. }
  assert (Ht : emits_to A (e1 ← mbuf_printf A (bytes_of "%r: %r") [VPl (Some (h_name hdr)); VPl (Some (h_val hdr))];
    e2 ← (if negb (pl_isset (ta_tag (m_to (q_msg q)))) && bool_decide (scode > 100) then
            mbuf_printf A (bytes_of ";tag=%016llx") [VInt (m_tag (q_msg q))] else mret 0);
    e3 ← write_str A crlf; mret (Z.lor (Z.lor e1 e2) e3, viac, rport)) (0, viac, rport) (hdr_line hdr (tag_text q scode))).
  { eapply emits_eq; [eapply emits_then; [exact E4|keeps_tac|]; eapply (emits_then _ _ _ 0 _ _ _ E5); [keeps_tac|]| |].
    - eapply emits_then; [exact Hc|keeps_tac|apply emits_mret].
    - done.
    - unfold hdr_line. by rewrite app_nil_r, <- !app_assoc. }
  set (et := if negb _ && _ then _ else _) in *. repeat case_bool_decide; cbn [negb andb] in *; try done; try exact Ht; try apply Hh; try (destruct rec_route; [apply Hh|apply (emits_mret A)]); try apply (emits_mret A).
  - eapply emits_eq; [eapply emits_then; [exact E1|keeps_tac|]; eapply emits_then; [exact E2|keeps_tac|apply emits_mret]|done|].
    unfold hdr_line. by rewrite app_nil_r, <- app_assoc.
Qed.

Lemma first_emits hdr rport : hdr_in m lim hdr → is_first false hdr = true →
  emits_to A (reply_hdr A q rec_route scode hdr 0 rport) (fst (fst (via_text q (h_val hdr))), 1, snd (via_text q (h_val hdr)))
    (pl_text (h_name hdr) ++ bytes_of ": " ++ snd (fst (via_text q (h_val hdr))) ++ received_text q (snd (via_text q (h_val hdr))) ++ crlf).
Proof using Hq Hlim Hm Hmsg.
  intros Hin Hf. destruct (hdr_pieces hdr Hin) as (pc & pc' & H1 & H2). pose proof (emits_name A _ _ H1) as E1.
  pose proof (via_first_emits hdr Hin) as Ef. unfold is_first, reply_hdr in *. destruct (bool_decide (h_id hdr = SIP_HDR_VIA)); [|done].
  rewrite bool_decide_eq_false_2 by (intros Hn; by apply Hn).
  eapply emits_eq; [eapply emits_then; [exact E1|keeps_tac|]; eapply emits_then; [exact Ef|keeps_tac|apply emits_mret]|done|].
  by rewrite app_nil_r, <- !app_assoc.
Qed.

Lemma step_keeps hdr viac rport : allocator_ok A → hdr_in m lim hdr → keeps mbuf_wf (reply_hdr A q rec_route scode hdr viac rport).
Proof using Hq Hlim Hm Hmsg.
  intros HA Hin. destruct (decide (is_first (bool_decide (viac ≠ 0)) hdr = true)) as [Hf|Hf%not_true_is_false].
  - pose proof (first_emits hdr rport Hin) as E. unfold is_first in *. case_bool_decide; [|done]. case_bool_decide as Hv; [done|].
    destruct (decide (viac = 0)) as [->|]; [|done]. by apply (emits_keeps _ _ _ _ (E eq_refl)).
  - by apply (emits_keeps _ _ _ _ (line_emits hdr viac rport Hin Hf)).
Qed.

Lemma lines_seen l : snd (reply_lines q rec_route scode l true) = false.
Proof using.
  clear. induction l as [|hdr l IH]; [done|]. cbn [reply_lines orb]. destruct (reply_lines _ _ _ l true) as [[e t] rp].
  unfold is_first. rewrite andb_false_r. exact IH.
Qed.

Lemma hdrs_keeps l : allocator_ok A → Forall (hdr_in m lim) l → ∀ viac rport, keeps mbuf_wf (reply_hdrs A q rec_route scode l viac rport).
Proof using Hq Hlim Hm Hmsg.
  intros HA Hl. induction Hl as [|hdr l Hin Hl IH]; intros viac rport; [apply keeps_ret|]. cbn [reply_hdrs].
  apply keeps_bind; [by apply step_keeps|]. intros [[e v] rp]. apply keeps_bind; [apply IH|intros; apply keeps_ret].
Qed.

Lemma hdrs_emits l : Forall (hdr_in m lim) l → ∀ viac rport, 0 ≤ viac → viac + Z.of_nat (length l) < 2 ^ 32 →
  (viac = 0 → rport = false) →
  let r := reply_lines q rec_route scode l (bool_decide (viac ≠ 0)) in
  emits_to A (reply_hdrs A q rec_route scode l viac rport) (fst (fst r), rport || snd r) (snd (fst r)).
Proof using Hq Hlim Hm Hmsg.
  intros Hl. induction Hl as [|hdr l Hin Hl IH]; intros viac rport Hv Hlen Hz r; subst r.
  { cbn [reply_hdrs reply_lines fst snd]. rewrite orb_false_r. apply (emits_mret A). }
  cbn [length] in Hlen. cbn [reply_hdrs reply_lines].
  assert (Hrest : ∀ (e : Z) v rp, allocator_ok A → keeps mbuf_wf (rest ← reply_hdrs A q rec_route scode l v rp; mret (Z.lor e (fst rest), snd rest))).
  { intros e v rp HA. apply keeps_bind; [by apply hdrs_keeps|intros; apply keeps_ret]. }
  destruct (is_first (bool_decide (viac ≠ 0)) hdr) eqn:Hf.
  - assert (Hvia : h_id hdr = SIP_HDR_VIA ∧ viac = 0) by (unfold is_first in Hf; repeat case_bool_decide; naive_solver lia).
    destruct Hvia as [Hid ->]. rewrite (Hz eq_refl). rewrite (bool_decide_eq_false_2 (0 ≠ 0)) in * by (intros H; by apply H).
    rewrite bool_decide_eq_true_2 by done. cbn [orb].
    pose proof (IH 1 (snd (via_text q (h_val hdr))) ltac:(lia) ltac:(lia) ltac:(done)) as E2. cbv zeta in E2.
    rewrite bool_decide_eq_true_2 in E2 by done. pose proof (lines_seen l) as Hs. destruct (reply_lines _ _ _ l true) as [[e' t'] rp'].
    cbn [fst snd] in *. subst rp'. pose proof (first_emits hdr false Hin Hf) as E1. destruct (via_text q (h_val hdr)) as [[e t] rp]. cbn [fst snd] in *.
    eapply emits_eq; [eapply emits_then; [exact E1|intros [[??]?]; apply Hrest|]|..].
    + eapply emits_then; [exact E2|keeps_tac|apply emits_mret].
    + cbn [fst snd]. by rewrite orb_false_r.
    + by rewrite app_nil_r.
  - pose proof (line_emits hdr viac rport Hin Hf) as E1. set (v := if bool_decide (h_id hdr = SIP_HDR_VIA) then _ else _) in *.
    assert (Hb : 0 ≤ v ≤ viac + 1 ∧ bool_decide (v ≠ 0) = bool_decide (viac ≠ 0) || bool_decide (h_id hdr = SIP_HDR_VIA) ∧ (v = 0 → viac = 0)).
    { subst v. destruct (bool_decide (h_id hdr = SIP_HDR_VIA)); rewrite ?orb_true_r, ?orb_false_r; [|split; [lia|by split]].
      unfold u32. rewrite Z.mod_small by lia. rewrite bool_decide_eq_true_2 by lia. split; [lia|split; [done|lia]]. }
    destruct Hb as (Hb & Hbv & Hz'). pose proof (IH v rport ltac:(lia) ltac:(lia) ltac:(auto)) as E2. cbv zeta in E2. rewrite Hbv in E2.
    destruct (reply_lines _ _ _ l _) as [[e' t'] rp']. cbn [fst snd] in *.
    eapply emits_eq; [eapply emits_then; [exact E1|intros [[??]?]; apply Hrest|]|..].
    + eapply emits_then; [exact E2|keeps_tac|apply emits_mret].
    + done.
    + by rewrite app_nil_r.
Qed.
End headers.

(** ** The whole reply *)

Lemma reply_addr_total q rport : received_ok q → ∃ dst, ∀ sa_set, sip_reply_addr sa_set q rport = Ret (dst sa_set).
Proof.
  intros ((m & lim & Hlim & Hm & Hin) & _). pose proof (via_params_in q m lim Hin) as Hp.
  destruct (maddr_safe m lim _ Hlim Hp) as (e & o & E & Ho). unfold sip_reply_addr. rewrite E.
  case_bool_decide; [|case_match; by eexists (λ _, _)]. cbn [mbind outcome_bind].
  destruct e; [|by eexists (λ _, _)..]. destruct o as [r|]; [|by eexists (λ _, _)].
  rewrite (proj1 (pl_text_short m lim r Hlim Hm (Ho r eq_refl))). by eexists (λ sa_set, _).
Qed.

Section whole.
Context (A : allocator) (sa_set : list Z → option sockaddr) (software : option (list Z)).
Context (Hsw : ∀ sw, software = Some sw → short sw).
Context (q : received) (rec_route : bool) (scode : Z) (reason : list Z) (ending : option (list piece)).
Context (Hq : received_ok q) (Hscode : 0 ≤ scode < 2 ^ 16) (Hreason : short reason) (Hend : ending_ok ending).

Lemma ending_emits : emits A (match ending_fmt ending with
  | Some (fmt, args) => mbuf_vprintf A fmt args
  | None => mbuf_printf A (bytes_of "Content-Length: 0" ++ crlf ++ crlf) []
  end) (ending_text ending).
Proof using Hend.
  destruct ending as [ps|]; cbn [ending_fmt ending_text ending_ok] in *.
  - destruct Hend as (H1 & H2 & H3). by apply (emits_printf A _ _ ps).
  - assert (Hc : Forall (λ b, b ≠ chr "%") (bytes_of "Content-Length: 0" ++ crlf ++ crlf)) by closed.
    apply (emits_pieces A _ _ _ [PLit (bytes_of "Content-Length: 0" ++ crlf ++ crlf)]); [done|done|done| | |lit]; by pieces.
Qed.

Lemma reply_emits :
  emits_to A (reply_text A software q rec_route scode reason (ending_fmt ending))
    (fst (fst (reply_lines q rec_route scode (m_hdrl (q_msg q)) false)), snd (reply_lines q rec_route scode (m_hdrl (q_msg q)) false))
    (reply_of software q rec_route scode reason ending).
Proof using Hsw Hq Hscode Hreason Hend.
  pose proof Hq as ((m & lim & Hlim & Hm & Hin) & _ & _ & _ & Hlen). pose proof Hin as (_ & Hl & _).
  pose proof (emits_status A scode reason ltac:(lia) Hreason) as E1.
  pose proof (hdrs_emits A q rec_route scode Hq m lim Hlim Hm Hin _ Hl 0 false ltac:(lia) ltac:(lia) ltac:(done)) as E2.
  rewrite bool_decide_eq_false_2 in E2 by (intros H; by apply H). cbv zeta in E2.
  assert (E3 := emits_agent A (bytes_of "Server: ") software Hsw ltac:(closed) ltac:(split; closed)). pose proof ending_emits as E4.
  unfold reply_text, reply_of. set (r := reply_lines _ _ _ _ _) in *. cbn [orb] in E2.
  eapply emits_eq; [eapply emits_then; [exact E1| |]|..].
  - intros x HA. apply keeps_bind; [by eapply emits_keeps|intros y]. apply keeps_bind; [by eapply emits_keeps|intros z].
    apply keeps_bind; [by eapply emits_keeps|intros; apply keeps_ret].
  - eapply emits_then; [exact E2| |].
    { intros y HA. apply keeps_bind; [by eapply emits_keeps|intros z]. apply keeps_bind; [by eapply emits_keeps|intros; apply keeps_ret]. }
    eapply emits_then; [exact E3| |].
    { intros y HA. apply keeps_bind; [by eapply emits_keeps|intros; apply keeps_ret]. }
    eapply emits_then; [exact E4|intros; apply keeps_ret|apply emits_mret].
  - by rewrite !Z.lor_0_r.
  - by rewrite app_nil_r.
Qed.

(** What becomes of the reply: it is refused, or it is a message ready to be
    sent with its destination. *)
Lemma vreplyf_run : allocator_ok A → pl_text (m_met (q_msg q)) ≠ bytes_of "ACK" →
  ∃ err o, vreplyf A sa_set software q rec_route scode reason (ending_fmt ending) = Ret (err, o) ∧
    (err ≠ 0 → o = None) ∧
    (err = 0 → ∃ mb dst, o = Some (mb, dst) ∧ mbuf_wf mb) ∧
    (plenty A → text_ok (reply_of software q rec_route scode reason ending) →
      let r := reply_lines q rec_route scode (m_hdrl (q_msg q)) false in
      err = fst (fst r) ∧ (err = 0 → ∃ mb dst, o = Some (mb, dst) ∧ payload mb = reply_of software q rec_route scode reason ending ∧
        sip_reply_addr sa_set q (snd r) = Ret dst)).
Proof using Hsw Hq Hscode Hreason Hend.
  intros HA Hack. pose proof Hq as ((m & lim & Hlim & Hm & Hin) & _).
  destruct (strcmp_text m lim (m_met (q_msg q)) (bytes_of "ACK") Hlim ltac:(apply Hin)) as (e & E & He).
  unfold vreplyf. rewrite E. cbn [mbind outcome_bind]. rewrite bool_decide_eq_false_2 by tauto.
  destruct (mbuf_alloc A 1024) as [mb0|] eqn:Ea.
  2: { exists ENOMEM, None. split; [done|]. split; [done|]. split; [done|]. intros Hp _.
    destruct (mbuf_alloc_filled A Hp 1024) as (mb & E' & _); [lia|congruence]. }
  assert (Hwf : mbuf_wf mb0) by (apply (mbuf_alloc_keeps A 1024); [unfold max_alloc; lia|done]).
  destruct reply_emits as [K T]. destruct (K HA mb0 Hwf) as ([err rp] & mb1 & E1 & Hwf1). rewrite E1. cbn [mbind outcome_bind].
  destruct (reply_addr_total q rp Hq) as [dst Ed]. specialize (Ed sa_set).
  exists err. case_bool_decide as Hz.
  - exists None. split; [done|]. split; [done|]. split; [done|]. intros Hp Hok.
    destruct (mbuf_alloc_filled A Hp 1024) as (mb & Ea' & Hf); [lia|]. rewrite Ea in Ea'. apply (inj Some) in Ea' as <-.
    destruct (T HA Hp [] mb0 Hf Hok) as (mb2 & E2 & Hf2). rewrite E1 in E2. injection E2 as E2 _ _. by split.
  - rewrite Ed. cbn [mbind outcome_bind]. assert (err = 0) as -> by lia. eexists. split; [done|]. split; [done|]. split.
    { intros _. eexists _, _. split; [done|]. destruct Hwf1 as [(H1 & H2 & H3 & H4 & H5) H6]. split; [|cbn; lia].
      split_and!; try done; cbn; unfold max_alloc; lia. }
    intros Hp Hok. destruct (mbuf_alloc_filled A Hp 1024) as (mb & Ea' & Hf); [lia|]. rewrite Ea in Ea'. apply (inj Some) in Ea' as <-.
    destruct (T HA Hp [] mb0 Hf Hok) as (mb2 & E2 & Hf2). rewrite E1 in E2. injection E2 as E2 -> ->. split; [done|]. intros _.
    eexists _, _. split; [done|]. split; [by apply filled_payload|done].
Qed.
End whole.

(** An ACK is not answered. *)
Lemma vreplyf_ack A sa_set software q rec_route scode reason fmt : received_ok q → pl_text (m_met (q_msg q)) = bytes_of "ACK" →
  vreplyf A sa_set software q rec_route scode reason fmt = Ret (0, None).
Proof.
  intros ((m & lim & Hlim & _ & Hin) & _) Hack.
  destruct (strcmp_text m lim (m_met (q_msg q)) (bytes_of "ACK") Hlim ltac:(apply Hin)) as (e & E & Hz).
  unfold vreplyf. rewrite E. cbn [mbind outcome_bind]. by rewrite bool_decide_eq_true_2 by tauto.
Qed.

(** ** An example *)

Definition demo_options : list Z :=
  line "OPTIONS sip:bob@10.0.0.1 SIP/2.0" ++ line "Via: SIP/2.0/UDP 10.0.0.2;rport;branch=z9hG4bK7" ++
  line "Via: SIP/2.0/UDP 10.0.0.3;branch=z9hG4bK1" ++ line "Max-Forwards: 70" ++
  line "To: <sip:bob@10.0.0.1>" ++ line "From: <sip:al@10.0.0.2>;tag=1" ++ line "Call-ID: c1" ++ line "CSeq: 7 OPTIONS" ++ crlf.

Definition demo_received : received :=
  Received (msg_of demo_options) (SockAddr (Some (bytes_of "10.0.0.9")) 40000 false) SIP_TRANSP_UDP.

Definition demo_reply : list Z :=
  line "SIP/2.0 200 OK" ++ line "Via: SIP/2.0/UDP 10.0.0.2;branch=z9hG4bK7;rport=40000;received=10.0.0.9" ++
  line "Via: SIP/2.0/UDP 10.0.0.3;branch=z9hG4bK1" ++
  line "To: <sip:bob@10.0.0.1>;tag=0000000000000007" ++ line "From: <sip:al@10.0.0.2>;tag=1" ++ line "Call-ID: c1" ++ line "CSeq: 7 OPTIONS" ++
  line "Content-Length: 0" ++ crlf.

Example demo_reply_text : reply_of None demo_received false 200 (bytes_of "OK") None = demo_reply.
Proof. vm_compute. reflexivity. Qed.
