(* ===== verification/Strans.v ===== *)
(** * SIP server transactions (src/re/src/sip/strans.c)

    A server transaction keeps the request and the last response to it, repeats
    the response when the request comes again, and repeats the refusal of an
    INVITE over an unreliable transport until it is acknowledged.  A handler of
    a transaction runs on it as in [Trans]; the packets of a reply outside
    transactions, to a CANCEL, are noted with the transaction on whose account
    they are sent.  The cancel handler is the last thing a step does to a
    transaction, so what it asks of the transaction is the next step. *)
From stdpp Require Import base tactics list numbers strings option gmap.
From S2P Require Import Prelude Mbuf Fmt Print MbufPrint Regex Uri Hash Sip SipPrint Trans Reply.

Inductive state := TRYING | PROCEEDING | ACCEPTED | COMPLETED | CONFIRMED.

#[export] Instance strans_state_eq_dec : EqDecision state.
Proof. solve_decision. Defined.

(** [struct sip_strans], without its list element and its back pointers; of the
    cancel handler, whether it is one of the user's. *)
Record sip_strans := Strans {
  st_tmr : option Z;
  st_tmrg : option Z;
  st_dst : sockaddr;
  st_msg : received;
  st_mb : option mbuf;
  st_cancelh : bool;
  st_state : state;
  st_txc : Z;
  st_invite : bool
}.

#[export] Instance eta_sip_strans : Eta sip_strans := λ c,
  Strans (st_tmr c) (st_tmrg c) (st_dst c) (st_msg c) (st_mb c) (st_cancelh c) (st_state c) (st_txc c) (st_invite c).

Definition set_tmr : option Z → sip_strans → sip_strans := ltac:(setter st_tmr).
Definition set_tmrg : option Z → sip_strans → sip_strans := ltac:(setter st_tmrg).
Definition set_dst : sockaddr → sip_strans → sip_strans := ltac:(setter st_dst).
Definition set_mb : option mbuf → sip_strans → sip_strans := ltac:(setter st_mb).
Definition set_state : state → sip_strans → sip_strans := ltac:(setter st_state).
Definition set_txc : Z → sip_strans → sip_strans := ltac:(setter st_txc).

(** What a transaction does to its surroundings: packets with the time, what
    they were sent for, their destination, their bytes and the result of the
    transport, and calls of the cancel handler. *)
Inductive packet := Answer | Repeated | Again | Plain.
Inductive event :=
| Sent (at_ : Z) (what : packet) (dst : sockaddr) (bs : list Z) (err : Z)
| Cancelled.

Abbreviation run := (trun sip_strans event).
Abbreviation sip := (table sip_strans event).

Definition start_tmr (delay : Z) : prog run unit :=
  now ← gets r_now; upd (set_tmr (Some (u64 (now + delay)))).
Definition start_tmrg (delay : Z) : prog run unit :=
  now ← gets r_now; upd (set_tmrg (Some (u64 (now + delay)))).

(** A transaction as [mem_zalloc] and [sip_strans_alloc] leave it. *)
Definition strans_new (q : received) (cancelh invite : bool) : sip_strans :=
  Strans None None (SockAddr None 0 false) q None cancelh TRYING 0 invite.

Definition set_msg_tag : Z → sip_msg → sip_msg := ltac:(setter m_tag).
Definition set_q_tag (tag : Z) (q : received) : received := Received (set_msg_tag tag (q_msg q)) (q_src q) (q_tp q).

Section strans.
Context (A : allocator).

(** The result of the nth packet handed to the transport, the parameters of the
    reply, and whether the allocation of a transaction succeeds. *)
Variable send : nat → Z.
Variable sa_set : list Z → option sockaddr.
Variable software : option (list Z).
Variable strans_mem : bool.

(** The last response, to where it went. *)
Definition send_reply (what : packet) : prog run Z :=
  st ← deref;
  packet_send send (λ now bs err, Sent now what (st_dst st) bs err) (q_tp (st_msg st)) (st_mb st).

(** ** Handlers *)

Definition tmr_handler : prog run unit := destroy.

Definition retransmit_handler : prog run unit :=
  send_reply Repeated;;
  upd (λ st, set_txc (u32 (st_txc st + 1)) st);;
  st ← deref;
  t ← shifted (st_txc st);
  start_tmrg (Z.min t SIP_T2).

(** [ack_handler] for the transaction it has found: whether the ACK is
    absorbed. *)
Definition ack : prog run bool :=
  st ← deref;
  match st_state st with
  | ACCEPTED => mret false
  | COMPLETED =>
      if sip_transp_reliable (q_tp (st_msg st)) then destroy;; mret true
      else
        start_tmr SIP_T4;;
        upd (set_tmrg None);;
        upd (set_state CONFIRMED);;
        mret true
  | _ => mret true
  end.

(** [sip_reply]: a reply outside any transaction. *)
Definition sip_reply (q : received) (scode : Z) (reason : list Z) : prog run Z :=
  r ← lift (vreplyf A sa_set software q false scode reason None);
  match r with
  | (0, Some (mb, dst)) => packet_send send (λ now bs err, Sent now Plain dst bs err) (q_tp q) (Some mb)
  | (err, _) => mret err
  end.

(** [cancel_handler] for the transaction it has found. *)
Definition cancel (q : received) : prog run unit :=
  st ← deref;
  sip_reply (set_q_tag (m_tag (q_msg (st_msg st))) q) 200 (bytes_of "OK");;
  st ← deref;
  match st_state st with
  | TRYING | PROCEEDING => if st_cancelh st then log Cancelled else skip
  | _ => skip
  end.

(** The request of the transaction came again. *)
Definition again : prog run unit :=
  st ← deref;
  match st_state st with
  | PROCEEDING | COMPLETED => send_reply Again;; skip
  | _ => skip
  end.

(** [sip_strans_reply] once it has its transaction: the error. *)
Definition reply (dst : sockaddr) (scode : Z) (mb : mbuf) : prog run Z :=
  upd (set_mb (Some mb));;
  upd (set_dst dst);;
  err ← send_reply Answer;
  if bool_decide (err ≠ 0) then destroy;; mret err
  else
    st ← deref;
    (if st_invite st then
       if bool_decide (scode < 200) then upd (set_state PROCEEDING)
       else if bool_decide (scode < 300) then
         start_tmr (64 * SIP_T1);;
         upd (set_state ACCEPTED)
       else
         start_tmr (64 * SIP_T1);;
         upd (set_state COMPLETED);;
         if negb (sip_transp_reliable (q_tp (st_msg st))) then start_tmrg SIP_T1 else skip
     else
       if bool_decide (scode < 200) then upd (set_state PROCEEDING)
       else if negb (sip_transp_reliable (q_tp (st_msg st))) then
         start_tmr (64 * SIP_T1);;
         upd (set_state COMPLETED)
       else destroy);;
    mret 0.

(** ** One transaction's steps

    [tmr_poll] stops a timer before it calls its handler; [Drop] is the user's
    [mem_deref] of a transaction without a final response. *)
Inductive life :=
| Timeout
| Repeat
| Respond (dst : sockaddr) (scode : Z) (mb : mbuf)
| Acked
| Request
| Cancel (q : received)
| Drop.

Definition exec (e : life) : prog run (Z + bool) :=
  match e with
  | Timeout => upd (set_tmr None);; tmr_handler;; mret (inl 0)
  | Repeat => upd (set_tmrg None);; retransmit_handler;; mret (inl 0)
  | Respond dst scode mb => err ← reply dst scode mb; mret (inl err)
  | Acked => b ← ack; mret (inr b)
  | Request => again;; mret (inr true)
  | Cancel q => cancel q;; mret (inr true)
  | Drop => destroy;; mret (inl 0)
  end.

(** ** The table of a stack *)

Definition branch_key (q : received) : outcome Z := hash_joaat_pl (Some (v_branch (m_via (q_msg q)))).

Definition strans_cmp (msg1 msg2 : sip_msg) : outcome bool :=
  e ← pl_cmp (v_branch (m_via msg1)) (v_branch (m_via msg2));
  if bool_decide (e ≠ 0) then Ret false
  else e ← pl_cmp (v_sentby (m_via msg1)) (v_sentby (m_via msg2)); Ret (bool_decide (e = 0)).

(** The transaction of a list element. *)
Definition its_msg (s : sip) (id : positive) : outcome sip_msg :=
  st ← of_option UseAfterFree (entries s !! id); Ret (q_msg (st_msg st)).

Definition cmp_handler (q : received) (s : sip) (id : positive) : outcome bool :=
  msg ← its_msg s id;
  b ← strans_cmp msg (q_msg q);
  if negb b then Ret false
  else e ← pl_cmp (cs_met (m_cseq msg)) (cs_met (m_cseq (q_msg q))); Ret (bool_decide (e = 0)).

Definition cmp_ack_handler (q : received) (s : sip) (id : positive) : outcome bool :=
  msg ← its_msg s id;
  b ← strans_cmp msg (q_msg q);
  if negb b then Ret false
  else e ← pl_strcmp (cs_met (m_cseq msg)) (Some (bytes_of "INVITE")); Ret (bool_decide (e = 0)).

Definition cmp_cancel_handler (q : received) (s : sip) (id : positive) : outcome bool :=
  msg ← its_msg s id;
  b ← strans_cmp msg (q_msg q);
  if negb b then Ret false
  else e ← pl_strcmp (cs_met (m_cseq msg)) (Some (bytes_of "CANCEL")); Ret (negb (bool_decide (e = 0))).

Definition absorbed (r : Z + bool) : bool := match r with inr b => b | inl _ => false end.

Definition ack_handler (q : received) : prog sip bool :=
  key ← lift (branch_key q);
  id ← lookup_in key (cmp_ack_handler q);
  match id with
  | None => mret false
  | Some id => r ← on id (exec Acked); mret (absorbed r)
  end.

Definition cancel_handler (q : received) : prog sip bool :=
  key ← lift (branch_key q);
  id ← lookup_in key (cmp_cancel_handler q);
  match id with
  | None => mret false
  | Some id => r ← on id (exec (Cancel q)); mret (absorbed r)
  end.

Definition request_handler (q : received) : prog sip bool :=
  e ← lift (pl_strcmp (m_met (q_msg q)) (Some (bytes_of "ACK")));
  if bool_decide (e = 0) then ack_handler q
  else
    key ← lift (branch_key q);
    id ← lookup_in key (cmp_handler q);
    match id with
    | Some id => r ← on id (exec Request); mret (absorbed r)
    | None =>
        e ← lift (pl_strcmp (m_met (q_msg q)) (Some (bytes_of "CANCEL")));
        if bool_decide (e = 0) then cancel_handler q else mret false
    end.

(** The error and the transaction. *)
Definition sip_strans_alloc (q : received) (cancelh : bool) : prog sip (Z * option positive) :=
  if negb strans_mem then mret (ENOMEM, None)
  else
    key ← lift (branch_key q);
    e ← lift (pl_strcmp (m_met (q_msg q)) (Some (bytes_of "INVITE")));
    id ← enter key (strans_new q cancelh (bool_decide (e = 0)));
    mret (0, Some id).

(** [stp]: whether the caller holds on to a transaction, and which.  The error
    and what the caller holds then. *)
Definition sip_strans_reply (stp : option (option positive)) (q : received) (dst : option sockaddr) (scode : Z) (mb : option mbuf) :
    prog sip (Z * option (option positive)) :=
  match mb, dst with
  | Some mb, Some dst =>
      if bool_decide (scode < 200) && negb (bool_decide (is_Some stp)) then mret (EINVAL, stp)
      else
        r ← match stp with
            | Some (Some id) => mret (0, Some id)
            | _ => sip_strans_alloc q false
            end;
        match snd r with
        | None => mret (fst r, stp)
        | Some id =>
            e ← on id (exec (Respond dst scode mb));
            let err := match e with inl err => err | inr _ => 0 end in
            mret (err, match stp with
                       | None => None
                       | Some _ => Some (if bool_decide (err ≠ 0) || bool_decide (200 ≤ scode) then None else Some id)
                       end)
        end
  | _, _ => mret (EINVAL, stp)
  end.

(** [*stp = mem_deref( *stp)]. *)
Definition release_held (stp : option (option positive)) : prog sip (option (option positive)) :=
  match stp with
  | Some (Some id) => on id (exec Drop);; mret (Some None)
  | _ => mret stp
  end.

(** [sip_treplyf]: the error, what the caller holds, and the message sent. *)
Definition sip_treplyf (stp : option (option positive)) (q : received) (rec_route : bool) (scode : Z) (reason : list Z)
    (fmt : option (list Z * list varg)) : prog sip (Z * option (option positive) * option mbuf) :=
  r ← lift (vreplyf A sa_set software q rec_route scode reason fmt);
  match r with
  | (0, None) => mret (0, stp, None)
  | (0, Some (mb, dst)) =>
      r ← sip_strans_reply stp q (Some dst) scode (Some mb);
      let '(err, stp) := r in
      if bool_decide (err ≠ 0) then stp ← release_held stp; mret (err, stp, None)
      else mret (0, stp, Some mb)
  | (err, _) => stp ← release_held stp; mret (err, stp, None)
  end.

Definition sip_treply (stp : option (option positive)) (q : received) (scode : Z) (reason : list Z) :
    prog sip (Z * option (option positive) * option mbuf) := sip_treplyf stp q false scode reason None.
End strans.
