(* ===== verification/StransLife.v ===== *)
(** * The life of a server transaction

    Whatever comes in any order - responses of the user, requests and ACKs that
    come again, timers, failing allocations and transmissions - a server
    transaction repeats the refusal of an INVITE a bounded number of times and
    never after its ACK. *)
From stdpp Require Import base tactics list numbers strings option gmap relations.
From S2P Require Import Prelude Mbuf Fmt Print MbufPrint Regex Uri Hash Sip SipSafe SipLines SipMsg SipPrint Trans Reply Strans.

Definition repeats (l : list event) : list (list Z) :=
  omap (λ e, match e with Sent _ Repeated _ bs _ => Some bs | _ => None end) l.

Lemma repeats_app l1 l2 : repeats (l1 ++ l2) = repeats l1 ++ repeats l2.
Proof. apply omap_app. Qed.

(** What a step may do at a time: a timer fires when it is due, the earlier of
    two first; the user answers and gives up a transaction without a final
    response; what comes in was decoded. *)
Definition enabled (e : life) (st : sip_strans) (now : Z) : Prop :=
  match e with
  | Timeout => ∃ t, st_tmr st = Some t ∧ t ≤ now ∧ ∀ t', st_tmrg st = Some t' → t ≤ t'
  | Repeat => ∃ t, st_tmrg st = Some t ∧ t ≤ now ∧ ∀ t', st_tmr st = Some t' → t ≤ t'
  | Respond _ _ mb => (st_state st = TRYING ∨ st_state st = PROCEEDING) ∧ mbuf_wf mb
  | Acked => True
  | Request => True
  | Cancel q => received_ok q
  | Drop => st_state st = TRYING ∨ st_state st = PROCEEDING
  end.

Definition quiet (st : sip_strans) (l : list event) : Prop := st_tmrg st = None ∧ st_txc st = 0 ∧ repeats l = [].

(** Both timers of a refusal run: it went out at some time [t0]. *)
Definition armed (now : Z) (st : sip_strans) (mb : mbuf) (l : list event) : Prop :=
  ∃ t0 t, 0 ≤ t0 ≤ now ∧ st_tmr st = Some (t0 + 32000) ∧ st_tmrg st = Some t ∧ t0 + sched false (st_txc st) ≤ t ∧
    0 ≤ st_txc st < limit false ∧ repeats l = replicate (Z.to_nat (st_txc st)) (payload mb).

Definition phase (now : Z) (st : sip_strans) (l : list event) : Prop :=
  match st_state st with
  | TRYING => st_mb st = None ∧ st_tmr st = None ∧ quiet st l
  | PROCEEDING => is_Some (st_mb st) ∧ st_tmr st = None ∧ quiet st l
  | ACCEPTED => st_invite st = true ∧ is_Some (st_mb st) ∧ is_Some (st_tmr st) ∧ quiet st l
  | COMPLETED => ∃ mb, st_mb st = Some mb ∧
      if st_invite st && negb (sip_transp_reliable (q_tp (st_msg st))) then armed now st mb l
      else is_Some (st_tmr st) ∧ quiet st l
  | CONFIRMED => is_Some (st_tmr st) ∧ st_tmrg st = None ∧
      ∃ mb k, st_mb st = Some mb ∧ repeats l = replicate k (payload mb) ∧ (k ≤ 10)%nat
  end.

(** A response that was sent went over a known transport. *)
Record st_ok (now : Z) (st : sip_strans) (l : list event) : Prop := {
  ok_msg : received_ok (st_msg st);
  ok_mb : buffer_ok (st_mb st);
  ok_tp : is_Some (st_mb st) → known_tp (q_tp (st_msg st));
  ok_phase : phase now st l
}.

(** At most ten repetitions, all of the same bytes. *)
Definition bounded (l : list event) : Prop := ∃ k bs, repeats l = replicate k bs ∧ (k ≤ 10)%nat.

Definition life_ok (now : Z) (o : option sip_strans) (l : list event) : Prop :=
  match o with Some st => st_ok now st l | None => bounded l end.

Lemma st_bounded now st l : st_ok now st l → bounded l.
Proof.
  intros [_ _ _ Hph]. unfold phase, quiet in Hph. assert (H0 : repeats l = [] → bounded l) by (exists 0%nat, []; split; [done|lia]).
  destruct (st_state st); try (apply H0; tauto).
  - destruct Hph as (mb & _ & Hph). destruct (_ && _); [|apply H0; tauto].
    destruct Hph as (t0 & t & _ & _ & _ & _ & Htx & Hr). exists (Z.to_nat (st_txc st)), (payload mb). split; [done|]. unfold limit in Htx. lia.
  - destruct Hph as (_ & _ & mb & k & _ & Hr & Hk). by exists k, (payload mb).
Qed.

Lemma life_bounded now o l : life_ok now o l → bounded l.
Proof. destruct o; [apply st_bounded|done]. Qed.

Lemma received_tag tag q : received_ok q → 0 ≤ tag < 2 ^ 64 → received_ok (set_q_tag tag q).
Proof.
  intros ((m & lim & Hlim & Hm & Hin) & _ & Hrest) Ht. split; [|by split]. exists m, lim. split; [done|]. split; [done|].
  unfold set_q_tag. cbn [q_msg]. destruct (q_msg q). exact Hin.
Qed.

Section life.
Context (A : allocator) `{!allocator_ok A} (send : nat → Z) (sa_set : list Z → option sockaddr).
Context (software : option (list Z)) (Hsw : ∀ sw, software = Some sw → short sw).

Local Abbreviation exec := (exec A send sa_set software).

(** A packet that is sent for a transaction, and what it is not. *)
Lemma send_reply_run what mb st now n l : st_mb st = Some mb → known_tp (q_tp (st_msg st)) → mbuf_wf mb →
  send_reply send what (Run (Some st) now n l) =
    Ret (send n, Run (Some st) now (S n) (l ++ [Sent now what (st_dst st) (payload mb) (send n)])).
Proof using. clear. intros Em Htp Hwf. unfold send_reply. erewrite prog_bind_step by done. rewrite Em. by rewrite packet_send_run. Qed.

(** Events that repeat nothing leave a transaction in order. *)
Lemma phase_log now st l a : repeats a = [] → phase now st l → phase now st (l ++ a).
Proof using.
  clear. intros Ha Hph. unfold phase, quiet, armed in *. by rewrite repeats_app, Ha, app_nil_r.
Qed.

Lemma ok_log now st l a : repeats a = [] → st_ok now st l → st_ok now st (l ++ a).
Proof using. clear. intros Ha []. split; try done. by apply phase_log. Qed.

(** A step leads to a transaction that is in order, or has ended. *)
Definition goes {X} (m : prog run X) (st : sip_strans) (now : Z) (n : nat) (l : list event) : Prop :=
  ∃ x o n' l', m (Run (Some st) now n l) = Ret (x, Run o now n' l') ∧ life_ok now o l' ∧
    ∀ st', o = Some st' → st_msg st' = st_msg st ∧ st_invite st' = st_invite st.

Lemma goes_end {X} (m : prog run X) x st now n l : m (Run (Some st) now n l) = Ret (x, Run None now n l) → st_ok now st l → goes m st now n l.
Proof using. clear. intros E Hok. exists x, None, n, l. split; [done|]. split; [by eapply st_bounded|done]. Qed.

Lemma goes_stay {X} (m : prog run X) x st now n l n' a :
  m (Run (Some st) now n l) = Ret (x, Run (Some st) now n' (l ++ a)) → repeats a = [] → st_ok now st l → goes m st now n l.
Proof using. clear. intros E Ha Hok. exists x, (Some st), n', (l ++ a). split; [done|]. split; [by apply ok_log|]. by intros ? [= <-]. Qed.

Lemma strans_timeout_ok st now n l : st_ok now st l → goes (exec Timeout) st now n l.
Proof using. clear. intros Hok. eapply goes_end; [|done]. done. Qed.

Lemma drop_ok st now n l : st_ok now st l → goes (exec Drop) st now n l.
Proof using. clear. intros Hok. eapply goes_end; [|done]. done. Qed.

Lemma strans_repeat_ok st now n l : st_ok now st l → 0 ≤ now ≤ 2 ^ 63 → enabled Repeat st now → goes (exec Repeat) st now n l.
Proof using.
  clear. intros [Hmsg Hmb Htp Hph] Hnow (t & Ht & Hdue & Hfirst).
  unfold phase, quiet in Hph. destruct (st_state st) eqn:Est; try (exfalso; naive_solver congruence).
  destruct Hph as (mb & Emb & Hph). destruct (_ && _) eqn:Eb; [|exfalso; naive_solver congruence].
  destruct Hph as (t0 & t' & Ht0 & Htm & Ht' & Hsch & Htx & Hrep). rewrite Ht in Ht'. apply (inj Some) in Ht' as <-.
  pose proof (Hfirst _ Htm) as Hle. destruct (sched_step false (st_txc st) Htx ltac:(lia)) as (Hlim & _ & Hs). specialize (Hs eq_refl).
  rewrite Emb in Hmb. cbn [buffer_ok] in Hmb. assert (Hk : known_tp (q_tp (st_msg st))) by (apply Htp; by rewrite Emb).
  unfold limit in Htx, Hlim. set (txc' := st_txc st + 1) in *.
  assert (Hpow : 0 ≤ Z.min (Z.shiftl SIP_T1 txc') SIP_T2 ≤ 4000).
  { unfold SIP_T1, SIP_T2. rewrite Z.shiftl_mul_pow2 by lia. pose proof (Z.pow_pos_nonneg 2 txc'). lia. }
  set (st2 := set_tmrg (Some (now + Z.min (Z.shiftl SIP_T1 txc') SIP_T2)) (set_txc txc' (set_tmrg None st))).
  set (l2 := l ++ [Sent now Repeated (st_dst st) (payload mb) (send n)]).
  exists (inl 0), (Some st2), (S n), l2. split; [|split].
  - unfold Strans.exec. erewrite prog_bind_step by done. erewrite prog_bind_step; [done|]. unfold retransmit_handler.
    erewrite prog_bind_step by (by apply (send_reply_run Repeated mb)).
    erewrite (prog_bind_step _ _ _ tt (Run (Some (set_txc txc' (set_tmrg None st))) now (S n) l2)).
    2: { unfold upd. erewrite prog_bind_step by done. cbn [st_txc set_tmrg]. by rewrite u32_id by lia. }
    erewrite prog_bind_step by done. cbn [st_txc set_txc]. erewrite prog_bind_step by (apply shifted_run; lia).
    unfold start_tmrg. erewrite prog_bind_step by done. cbn [r_now]. rewrite u64_id by lia. done.
  - split; try done; [by cbn; rewrite Emb|]. unfold phase. change (st_state st2) with (st_state st). rewrite Est.
    exists mb. split; [done|]. change (st_invite st2) with (st_invite st). change (st_msg st2) with (st_msg st). rewrite Eb.
    exists t0, (now + Z.min (Z.shiftl SIP_T1 txc') SIP_T2). split; [lia|]. split; [done|]. split; [done|]. cbn [st_txc st2 set_tmrg set_txc].
    split; [lia|]. split; [unfold limit; lia|]. unfold l2. rewrite repeats_app, Hrep.
    replace (Z.to_nat txc') with (S (Z.to_nat (st_txc st))) by lia. by rewrite replicate_S_end.
  - by intros ? [= <-].
Qed.

Lemma ack_ok st now n l : st_ok now st l → 0 ≤ now ≤ 2 ^ 63 → goes (exec Acked) st now n l.
Proof using.
  clear. intros Hok Hnow. pose proof Hok as [Hmsg Hmb Htp Hph].
  assert (Hkeep : ∀ b, exec Acked (Run (Some st) now n l) = Ret (inr b, Run (Some st) now n l) → goes (exec Acked) st now n l).
  { intros b E. apply (goes_stay _ (inr b) _ _ _ _ n []); [by rewrite app_nil_r|done|done]. }
  unfold Strans.exec, ack in *. destruct (st_state st) eqn:Est.
  1,2,5: apply (Hkeep true); erewrite prog_bind_step by (erewrite prog_bind_step by done; rewrite Est; done); done.
  - apply (Hkeep false). erewrite prog_bind_step by (erewrite prog_bind_step by done; rewrite Est; done). done.
  - unfold phase in Hph. rewrite Est in Hph. destruct Hph as (mb & Emb & Hph). destruct (sip_transp_reliable (q_tp (st_msg st))) eqn:Hrel.
    + eapply goes_end; [|done]. erewrite prog_bind_step by (erewrite prog_bind_step by done; rewrite Est, Hrel; done). done.
    + assert (∃ k, repeats l = replicate k (payload mb) ∧ (k ≤ 10)%nat) as (k & Hrep & Hk).
      { destruct (_ && _); [|exists 0%nat; split; [apply Hph|lia]]. destruct Hph as (t0 & t & _ & _ & _ & _ & Htx & Hrep).
        exists (Z.to_nat (st_txc st)). split; [done|]. unfold limit in Htx. lia. }
      eexists (inr true), (Some _), n, l. split.
      { erewrite prog_bind_step by (erewrite prog_bind_step by done; rewrite Est, Hrel; done). done. }
      split; [|by intros ? [= <-]]. split; try done. unfold phase. cbn [st_state set_state set_tmrg set_tmr].
      split; [by eexists|]. split; [done|]. by exists mb, k.
Qed.

Lemma request_ok st now n l : st_ok now st l → goes (exec Request) st now n l.
Proof using.
  clear. intros Hok. pose proof Hok as [Hmsg Hmb Htp Hph].
  destruct (bool_decide (st_state st = PROCEEDING ∨ st_state st = COMPLETED)) eqn:Es.
  - apply bool_decide_eq_true_1 in Es. assert (∃ mb, st_mb st = Some mb) as [mb Emb].
    { unfold phase in Hph. destruct Es as [E|E]; rewrite E in Hph; [apply Hph|]. destruct Hph as (mb & Em & _). by exists mb. }
    rewrite Emb in Hmb. assert (Hk : known_tp (q_tp (st_msg st))) by (apply Htp; by rewrite Emb).
    apply (goes_stay _ (inr true) _ _ _ _ (S n) [Sent now Again (st_dst st) (payload mb) (send n)]); [|reflexivity|done].
    unfold Strans.exec, again. erewrite prog_bind_step; [done|]. erewrite prog_bind_step by done.
    destruct Es as [-> | ->]; by erewrite prog_bind_step by (by apply (send_reply_run Again mb)).
  - apply bool_decide_eq_false_1 in Es. apply (goes_stay _ (inr true) _ _ _ _ n []); [|done|done]. rewrite app_nil_r.
    unfold Strans.exec, again. erewrite prog_bind_step; [done|]. erewrite prog_bind_step by done. destruct (st_state st); naive_solver.
Qed.

(** A reply outside transactions: at most one packet; with plenty of memory
    its text. *)
Definition plain_sent (q : received) (scode : Z) (reason : list Z) (now err : Z) (a : list event) : Prop :=
  (a = [] ∨ ∃ dst bs, a = [Sent now Plain dst bs err]) ∧
  (plenty A → text_ok (reply_of software q false scode reason None) → known_tp (q_tp q) → pl_text (m_met (q_msg q)) ≠ bytes_of "ACK" →
   let r := reply_lines q false scode (m_hdrl (q_msg q)) false in
   fst (fst r) = 0 → ∃ dst, sip_reply_addr sa_set q (snd r) = Ret dst ∧ a = [Sent now Plain dst (reply_of software q false scode reason None) err]).

Lemma plain_run q scode reason now n l (o : option sip_strans) : received_ok q → 0 ≤ scode < 2 ^ 16 → short reason →
  ∃ err n' a, sip_reply A send sa_set software q scode reason (Run o now n l) = Ret (err, Run o now n' (l ++ a)) ∧ repeats a = [] ∧
    plain_sent q scode reason now err a.
Proof using allocator_ok0 Hsw.
  intros Hq Hs Hr. unfold sip_reply. destruct (decide (pl_text (m_met (q_msg q)) = bytes_of "ACK")) as [Hack|Hack].
  - exists 0, n, []. rewrite app_nil_r. split; [|split; [done|split; [by left|done]]].
    by erewrite prog_bind_step by (apply lift_Ret; by apply vreplyf_ack).
  - destruct (vreplyf_run A sa_set software Hsw q false scode reason None Hq Hs Hr I _ Hack) as (err & o' & E & H1 & H2 & H3).
    erewrite prog_bind_step by (apply lift_Ret; exact E). destruct (decide (err = 0)) as [->|Hne].
    + destruct (H2 eq_refl) as (mb & dst & -> & Hwf). destruct (decide (known_tp (q_tp q))) as [Htp|Htp].
      * exists (send n), (S n), [Sent now Plain dst (payload mb) (send n)].
        split; [by apply (packet_send_run send (λ now bs err, Sent now Plain dst bs err))|]. split; [done|]. split; [right; by eexists _, _|].
        intros Hp Htx _ _ r Hz. destruct (H3 Hp Htx) as [_ H4]. destruct (H4 eq_refl) as (mb' & dst' & [= <- <-] & <- & Hd). by exists dst.
      * exists EPROTONOSUPPORT, n, []. rewrite app_nil_r. split; [by apply packet_send_unknown|]. split; [done|]. split; [by left|done].
    + rewrite (H1 Hne). exists err, n, []. rewrite app_nil_r. split; [by destruct err|]. split; [done|]. split; [by left|].
      intros Hp Htx _ _ r Hz. destruct (H3 Hp Htx) as [He _]. exfalso. apply Hne. rewrite He. exact Hz.
Qed.

Lemma strans_cancel_ok q st now n l : st_ok now st l → received_ok q → goes (exec (Cancel q)) st now n l.
Proof using allocator_ok0 Hsw.
  intros Hok Hq. pose proof (ok_msg _ _ _ Hok) as (_ & Htag & _).
  destruct (plain_run (set_q_tag (m_tag (q_msg (st_msg st))) q) 200 (bytes_of "OK") now n l (Some st)) as (err & n' & a & E & Ha & _);
    [by apply received_tag|lia|split; [apply bytes_of_ok|by vm_compute]|].
  set (c := match st_state st with TRYING | PROCEEDING => st_cancelh st | _ => false end).
  apply (goes_stay _ (inr true) _ _ _ _ n' (a ++ if c then [Cancelled] else [])).
  - unfold Strans.exec, cancel. erewrite prog_bind_step; [done|]. erewrite prog_bind_step by done.
    erewrite prog_bind_step by exact E. erewrite prog_bind_step by done. rewrite app_assoc. subst c.
    destruct (st_state st); rewrite ?app_nil_r; try done; destruct (st_cancelh st); rewrite ?app_nil_r; done.
  - rewrite repeats_app, Ha. by destruct c.
  - done.
Qed.

(** What a response that was sent leaves of its transaction. *)
Definition answered (dst : sockaddr) (scode : Z) (mb : mbuf) (now : Z) (st : sip_strans) : option sip_strans :=
  let st := set_dst dst (set_mb (Some mb) st) in
  let reliable := sip_transp_reliable (q_tp (st_msg st)) in
  let timed := set_tmr (Some (now + 32000)) st in
  if bool_decide (scode < 200) then Some (set_state PROCEEDING st)
  else if st_invite st then
    if bool_decide (scode < 300) then Some (set_state ACCEPTED timed)
    else Some (set_state COMPLETED (if reliable then timed else set_tmrg (Some (now + 500)) timed))
  else if reliable then None else Some (set_state COMPLETED timed).

Lemma reply_at dst scode mb st now n l : 0 ≤ now ≤ 2 ^ 63 → mbuf_wf mb →
  reply send dst scode mb (Run (Some st) now n l) =
    if bool_decide (known_tp (q_tp (st_msg st))) then
      Ret (send n, Run (if bool_decide (send n = 0) then answered dst scode mb now st else None) now (S n)
        (l ++ [Sent now Answer dst (payload mb) (send n)]))
    else Ret (EPROTONOSUPPORT, Run None now n l).
Proof using.
  clear. intros Hnow Hwf. set (st1 := set_dst dst (set_mb (Some mb) st)).
  assert (Ht1 : u64 (now + 64 * SIP_T1) = now + 32000) by (unfold SIP_T1; rewrite u64_id by lia; lia).
  assert (Ht2 : u64 (now + SIP_T1) = now + 500) by (unfold SIP_T1; rewrite u64_id by lia; lia).
  assert (Hs1 : ∀ d s m, start_tmr d (Run (Some s) now m l) = Ret (tt, Run (Some (set_tmr (Some (u64 (now + d))) s)) now m l)) by done.
  assert (Hgo : reply send dst scode mb (Run (Some st) now n l) = (err ← send_reply send Answer;
    if bool_decide (err ≠ 0) then destroy;; mret err
    else
      st ← deref;
      (if st_invite st then
         if bool_decide (scode < 200) then upd (set_state PROCEEDING)
         else if bool_decide (scode < 300) then start_tmr (64 * SIP_T1);; upd (set_state ACCEPTED)
         else
           start_tmr (64 * SIP_T1);; upd (set_state COMPLETED);;
           if negb (sip_transp_reliable (q_tp (st_msg st))) then start_tmrg SIP_T1 else skip
       else
         if bool_decide (scode < 200) then upd (set_state PROCEEDING)
         else if negb (sip_transp_reliable (q_tp (st_msg st))) then start_tmr (64 * SIP_T1);; upd (set_state COMPLETED)
         else destroy);;
      mret 0) (Run (Some st1) now n l)) by done.
  rewrite Hgo. clear Hgo. destruct (decide (known_tp (q_tp (st_msg st)))) as [Htp|Htp].
  - rewrite (bool_decide_eq_true_2 (known_tp _)) by done. erewrite prog_bind_step by (by apply (send_reply_run Answer mb)). set (l1 := l ++ _).
    destruct (decide (send n = 0)) as [Hz|Hz].
    2: { rewrite (bool_decide_eq_true_2 (send n ≠ 0)), (bool_decide_eq_false_2 (send n = 0)) by done. done. }
    rewrite (bool_decide_eq_false_2 (send n ≠ 0)), (bool_decide_eq_true_2 (send n = 0)) by lia. rewrite Hz. erewrite prog_bind_step by done. unfold answered. fold st1.
    destruct (st_invite st1).
    + destruct (bool_decide (scode < 200)); [done|]. unfold start_tmr, start_tmrg. destruct (bool_decide (scode < 300)).
      * erewrite prog_bind_step by (erewrite prog_bind_step by (erewrite prog_bind_step by done; done); done). cbn [r_now]. by rewrite Ht1.
      * destruct (sip_transp_reliable (q_tp (st_msg st1))); cbn [negb].
        -- erewrite prog_bind_step by (erewrite prog_bind_step by (erewrite prog_bind_step by done; done); done). cbn [r_now]. by rewrite Ht1.
        -- erewrite prog_bind_step by (erewrite prog_bind_step by (erewrite prog_bind_step by done; done);
             erewrite prog_bind_step by done; erewrite prog_bind_step by done; done). cbn [r_now set_ct]. by rewrite Ht1, Ht2.
    + destruct (bool_decide (scode < 200)); [done|]. destruct (sip_transp_reliable (q_tp (st_msg st1))); cbn [negb]; [done|].
      unfold start_tmr. erewrite prog_bind_step by (erewrite prog_bind_step by (erewrite prog_bind_step by done; done); done).
      cbn [r_now]. by rewrite Ht1.
  - rewrite (bool_decide_eq_false_2 (known_tp _)) by done.
    erewrite prog_bind_step; [|unfold send_reply; erewrite prog_bind_step by done; cbn [st_mb st1 set_dst set_mb]; by apply packet_send_unknown].
    by rewrite bool_decide_eq_true_2.
Qed.

Lemma reply_run dst scode mb st now n l : 0 ≤ now ≤ 2 ^ 63 → mbuf_wf mb →
  exec (Respond dst scode mb) (Run (Some st) now n l) =
    if bool_decide (known_tp (q_tp (st_msg st))) then
      Ret (inl (send n), Run (if bool_decide (send n = 0) then answered dst scode mb now st else None) now (S n)
        (l ++ [Sent now Answer dst (payload mb) (send n)]))
    else Ret (inl EPROTONOSUPPORT, Run None now n l).
Proof using.
  clear. intros Hnow Hwf. pose proof (reply_at dst scode mb st now n l Hnow Hwf) as E. unfold Strans.exec.
  destruct (bool_decide (known_tp _)); by erewrite prog_bind_step by exact E.
Qed.

Lemma answered_ok dst scode mb st now l l' : 0 ≤ now → st_ok now st l → st_state st = TRYING ∨ st_state st = PROCEEDING → mbuf_wf mb →
  known_tp (q_tp (st_msg st)) → repeats l' = repeats l → life_ok now (answered dst scode mb now st) l'.
Proof using.
  clear. intros Hnow [Hmsg Hmb Htp Hph] Hst Hwf Hk Hl.
  assert (Hq : st_tmr st = None ∧ quiet st l) by (unfold phase in Hph; destruct Hst as [E|E]; rewrite E in Hph; tauto).
  destruct Hq as (Htm & Htg & Htx & Hrep). rewrite Hrep in Hl. unfold answered. cbn [st_invite st_msg set_dst set_mb].
  assert (Hgo : ∀ st', st_msg st' = st_msg st → st_mb st' = Some mb → phase now st' l' → st_ok now st' l').
  { intros st' Em Eb Hph'. split; [by rewrite Em|by rewrite Eb|by rewrite Em|done]. }
  case_bool_decide; [apply Hgo; [done|done|]; split; [by eexists|by split]|].
  destruct (st_invite st) eqn:Hinv.
  - case_bool_decide; [apply Hgo; [done|done|]; split; [done|]; split; [by eexists|]; split; [by eexists|by split]|].
    destruct (sip_transp_reliable (q_tp (st_msg st))) eqn:Hrel; (apply Hgo; [done|done|]); exists mb; (split; [done|]);
      cbn [st_invite st_msg set_state set_tmrg set_tmr set_dst set_mb]; rewrite Hinv, Hrel; cbn [andb negb].
    + split; [by eexists|by split].
    + exists now, (now + 500). cbn [st_txc st_tmr st_tmrg set_state set_tmrg set_tmr set_dst set_mb]. rewrite Htx, Hl.
      split; [lia|]. split; [done|]. split; [done|]. split; [by change (sched false 0) with 500|]. split; [unfold limit; lia|done].
  - destruct (sip_transp_reliable (q_tp (st_msg st))) eqn:Hrel; [exists 0%nat, []; split; [done|lia]|]. apply Hgo; [done|done|].
    exists mb. split; [done|]. cbn [st_invite st_msg set_state set_tmr set_dst set_mb]. rewrite Hinv. cbn [andb]. split; [by eexists|by split].
Qed.

Lemma respond_ok dst scode mb st now n l : st_ok now st l → 0 ≤ now ≤ 2 ^ 63 → enabled (Respond dst scode mb) st now →
  goes (exec (Respond dst scode mb)) st now n l.
Proof using.
  clear. intros Hok Hnow [Hst Hwf]. unfold goes. rewrite reply_run by done.
  assert (Hb : bounded (l ++ [Sent now Answer dst (payload mb) (send n)])).
  { destruct (st_bounded _ _ _ Hok) as (k & bs & Hr & Hk). exists k, bs. by rewrite repeats_app, Hr, app_nil_r. }
  case_bool_decide as Htp; [|by eexists _, None, n, l; split; [done|]; split; [by eapply st_bounded|]].
  eexists _, _, _, _. split; [done|]. case_bool_decide; [|by split].
  split; [apply (answered_ok _ _ _ _ _ l); [lia|done..|by rewrite repeats_app, app_nil_r]|].
  intros st'. unfold answered. repeat case_match; by intros [= <-].
Qed.

(** Every step that can happen leads on, or ends the transaction. *)
Lemma strans_exec_ok e st now n l : st_ok now st l → 0 ≤ now ≤ 2 ^ 63 → enabled e st now → goes (exec e) st now n l.
Proof using allocator_ok0 Hsw.
  intros Hok Hnow He. destruct e as [| |dst scode mb| | |q|].
  - by apply strans_timeout_ok.
  - by apply strans_repeat_ok.
  - by apply respond_ok.
  - by apply ack_ok.
  - by apply request_ok.
  - by apply strans_cancel_ok.
  - by apply drop_ok.
Qed.
End life.

(** ** Runs of a transaction *)

Section runs.
Context (A : allocator) `{!allocator_ok A} (send : nat → Z) (sa_set : list Z → option sockaddr).
Context (software : option (list Z)) (Hsw : ∀ sw, software = Some sw → short sw).

Local Abbreviation exec := (exec A send sa_set software).

(** Time passes and others send packets, or something happens to the
    transaction. *)
Inductive step : run → run → Prop :=
| step_elapse st now n l now' n' :
    now ≤ now' ≤ 2 ^ 63 → (n ≤ n')%nat → step (Run (Some st) now n l) (Run (Some st) now' n' l)
| step_exec st now n l e x r' :
    enabled e st now → exec e (Run (Some st) now n l) = Ret (x, r') → step (Run (Some st) now n l) r'.

Definition run_ok (r : run) : Prop := 0 ≤ r_now r ≤ 2 ^ 63 ∧ life_ok (r_now r) (r_ct r) (r_log r).

Lemma ok_later now now' st l : now ≤ now' → st_ok now st l → st_ok now' st l.
Proof using.
  clear. intros Hn []. split; try done. unfold phase, armed in *. destruct (st_state st); try done.
  destruct ok_phase0 as (mb & Em & Hph). exists mb. split; [done|]. destruct (_ && _); [|done].
  destruct Hph as (t0 & t & Ht & Hrest). exists t0, t. split; [lia|done].
Qed.

Lemma strans_step_ok r r' : run_ok r → step r r' → run_ok r'.
Proof using allocator_ok0 Hsw.
  intros Hr Hstep. revert Hr. destruct Hstep as [st now n l now' n' Hn Hs|st now n l e x r'' He E]; intros [Hnow Hok]; cbn [r_now r_ct r_log life_ok] in *.
  - split; [cbn; lia|]. by apply (ok_later now); [cbn; lia|].
  - destruct (strans_exec_ok A send sa_set software Hsw e st now n l Hok Hnow He) as (y & o & n' & l' & E' & Hl & _).
    rewrite E in E'. injection E' as -> ->. by split.
Qed.

Lemma strans_steps_ok r r' : run_ok r → rtc step r r' → run_ok r'.
Proof using allocator_ok0 Hsw. intros H0 Hs. induction Hs; [done|]. by eauto using strans_step_ok. Qed.

Lemma new_ok q cancelh invite now : received_ok q → st_ok now (strans_new q cancelh invite) [].
Proof using. clear. intros Hq. split; [done|done|by intros [? [=]]|]. by split. Qed.

(** A refusal that was acknowledged: the transaction waits for its end. *)
Definition settled (bss : list (list Z)) (r : run) : Prop :=
  repeats (r_log r) = bss ∧ ∀ st, r_ct r = Some st → st_state st = CONFIRMED.

Lemma settled_step bss r r' : run_ok r → settled bss r → step r r' → settled bss r'.
Proof using allocator_ok0 Hsw.
  intros Hr Hset Hstep. revert Hr Hset. destruct Hstep as [st now n l now' n' Hn Hs|st now n l e x r'' He E].
  { intros _ Hset. exact Hset. }
  intros [Hnow Hok] [Hl Hc]. specialize (Hc st eq_refl). cbn [r_now r_ct r_log life_ok] in *.
  pose proof (ok_phase _ _ _ Hok) as Hph. unfold phase in Hph. rewrite Hc in Hph. destruct Hph as (_ & Htg & _).
  destruct e as [| |dst scode mb| | |q|]; cbn [enabled] in He.
  - injection E as <- <-. by split.
  - destruct He as (t & Ht & _). congruence.
  - destruct He as [[He|He] _]; congruence.
  - unfold Strans.exec, ack in E. erewrite prog_bind_step in E by (erewrite prog_bind_step by done; rewrite Hc; done). injection E as <- <-.
    split; [done|]. by intros ? [= <-].
  - unfold Strans.exec, again in E. erewrite prog_bind_step in E by (erewrite prog_bind_step by done; rewrite Hc; done). injection E as <- <-.
    split; [done|]. by intros ? [= <-].
  - pose proof (ok_msg _ _ _ Hok) as (_ & Htag & _).
    destruct (plain_run A send sa_set software Hsw (set_q_tag (m_tag (q_msg (st_msg st))) q) 200 (bytes_of "OK") now n l (Some st))
      as (err & n' & a & Ep & Ha & _); [by apply received_tag|lia|split; [apply bytes_of_ok|by vm_compute]|].
    unfold Strans.exec, cancel in E. erewrite prog_bind_step in E.
    2: { erewrite prog_bind_step by done. erewrite prog_bind_step by exact Ep. erewrite prog_bind_step by done. by rewrite Hc. }
    injection E as <- <-. split; [cbn; by rewrite repeats_app, Ha, app_nil_r|]. by intros ? [= <-].
  - destruct He; congruence.
Qed.

(** C14: the refusal of an INVITE is repeated at most ten times in the life of a
    server transaction, always with the same bytes, whatever the user, the peer
    and the timers do and whichever transmissions fail; and once it is
    acknowledged it is not repeated again. *)
Theorem strans_repeats q cancelh invite t0 n r : received_ok q → 0 ≤ t0 ≤ 2 ^ 63 →
  rtc step (Run (Some (strans_new q cancelh invite)) t0 n []) r →
  (∃ k bs, repeats (r_log r) = replicate k bs ∧ (k ≤ 10)%nat) ∧
  ∀ st r', r_ct r = Some st → st_state st = CONFIRMED → rtc step r r' → repeats (r_log r') = repeats (r_log r).
Proof using allocator_ok0 Hsw.
  intros Hq Ht0 Hs. assert (Hr : run_ok r).
  { eapply strans_steps_ok; [|exact Hs]. split; [done|]. by apply new_ok. }
  split; [apply (life_bounded (r_now r) (r_ct r)); apply Hr|]. intros st r' Hct Hst Hs'.
  assert (Hset : settled (repeats (r_log r)) r) by (split; [done|]; intros st' E; rewrite Hct in E; by injection E as <-).
  assert (Hgo : settled (repeats (r_log r)) r'); [|by destruct Hgo]. revert Hset. generalize (repeats (r_log r)). clear -allocator_ok0 Hsw Hr Hs'.
  induction Hs' as [|r1 r2 r3 H12 _ IH]; intros bss Hset; [done|]. eapply IH; [by eapply strans_step_ok|by eapply settled_step].
Qed.
End runs.

(** ** A refusal that nobody acknowledges *)

Section silence.
Context (A : allocator) (send : nat → Z) (sa_set : list Z → option sockaddr) (software : option (list Z)).

Local Abbreviation exec := (exec A send sa_set software).
Local Abbreviation step := (step A send sa_set software).

Context (st : sip_strans) (mb : mbuf) (Hmb : st_mb st = Some mb) (Hwf : mbuf_wf mb) (Htp : known_tp (q_tp (st_msg st))).
Context (t0 : Z) (Ht0 : 0 ≤ t0 ≤ 2 ^ 62) (Htmr : st_tmr st = Some (t0 + 32000)).

(** The transaction after [txc] repetitions. *)
Definition silent (txc next : Z) : sip_strans := set_tmrg (Some next) (set_txc txc st).

Lemma strans_silent_retransmit txc next now n l : 0 ≤ txc ≤ 10 → 0 ≤ now ≤ 2 ^ 63 →
  exec Repeat (Run (Some (silent txc next)) now n l) =
    Ret (inl 0, Run (Some (silent (txc + 1) (now + interval false txc))) now (S n)
      (l ++ [Sent now Repeated (st_dst st) (payload mb) (send n)])).
Proof using Hmb Hwf Htp.
  intros Htx Hnow. pose proof (interval_bound false txc Htx) as Hi. unfold interval in *.
  set (st1 := set_txc (txc + 1) (set_tmrg None (silent txc next))). set (l1 := l ++ _).
  unfold Strans.exec. erewrite prog_bind_step by done. erewrite prog_bind_step; [done|]. unfold retransmit_handler.
  erewrite prog_bind_step by (by apply (send_reply_run send Repeated mb)).
  erewrite (prog_bind_step _ _ _ tt (Run (Some st1) now (S n) l1)).
  2: { unfold upd. erewrite prog_bind_step by done. cbn [st_txc set_tmrg silent set_txc]. by rewrite u32_id by lia. }
  erewrite prog_bind_step by done. change (st_txc st1) with (txc + 1). erewrite prog_bind_step by (apply shifted_run; lia).
  unfold start_tmrg. erewrite prog_bind_step by done. cbn [r_now]. rewrite u64_id by lia. done.
Qed.

(** Up to the next repetition, which is due before the end. *)
Lemma strans_silent_repeat txc next now n l : 0 ≤ txc ≤ 10 → t0 ≤ now ≤ next → next ≤ t0 + 32000 →
  rtc step (Run (Some (silent txc next)) now n l)
    (Run (Some (silent (txc + 1) (next + interval false txc))) next (S n) (l ++ [Sent next Repeated (st_dst st) (payload mb) (send n)])).
Proof using Hmb Hwf Htp Ht0 Htmr.
  intros Htx Hnow Hnext. apply (rtc_l _ _ (Run (Some (silent txc next)) next n l)); [apply step_elapse; lia|].
  apply rtc_once. eapply step_exec; [|apply strans_silent_retransmit; lia].
  exists next. split; [done|]. split; [lia|]. intros t' Ht'. cbn in Ht'. rewrite Htmr in Ht'. by injection Ht' as <-.
Qed.

Lemma strans_silent_timeout txc next now n l : now ≤ t0 + 32000 → t0 + 32000 ≤ next →
  rtc step (Run (Some (silent txc next)) now n l) (Run None (t0 + 32000) n l).
Proof using Ht0 Htmr.
  intros Hnow Hnext. apply (rtc_l _ _ (Run (Some (silent txc next)) (t0 + 32000) n l)); [apply step_elapse; lia|].
  apply rtc_once. eapply (step_exec _ _ _ _ _ _ _ _ Timeout); [|done].
  exists (t0 + 32000). split; [done|]. split; [lia|]. by intros t' [= <-].
Qed.

(** Repetitions at [ds] after the start, whatever the transport says. *)
Fixpoint sends_at (n : nat) (ds : list Z) : list event :=
  match ds with
  | [] => []
  | d :: r => Sent (t0 + d) Repeated (st_dst st) (payload mb) (send n) :: sends_at (S n) r
  end.

Lemma strans_silent_walk ds : ∀ txc d now n l, chain false txc d ds = true → 0 ≤ txc → t0 ≤ now ≤ t0 + d → now ≤ t0 + 32000 →
  rtc step (Run (Some (silent txc (t0 + d))) now n l) (Run None (t0 + 32000) (n + length ds)%nat (l ++ sends_at n ds)).
Proof using Hmb Hwf Htp Ht0 Htmr.
  induction ds as [|d' ds IH]; intros txc d now n l Hc Htx Hnow Hmax; cbn [chain] in Hc.
  - apply bool_decide_eq_true_1 in Hc. rewrite Nat.add_0_r, app_nil_r. apply strans_silent_timeout; lia.
  - apply andb_true_iff in Hc as [[[->%bool_decide_eq_true_1 H1%bool_decide_eq_true_1]%andb_true_iff H2%bool_decide_eq_true_1]%andb_true_iff Hc].
    pose proof (interval_bound false txc ltac:(lia)).
    etrans; [apply strans_silent_repeat; lia|]. rewrite <- Z.add_assoc.
    specialize (IH _ _ (t0 + d) (S n) (l ++ [Sent (t0 + d) Repeated (st_dst st) (payload mb) (send n)]) Hc ltac:(lia) ltac:(lia) ltac:(lia)).
    cbn [length sends_at]. rewrite <- app_assoc in IH. replace (n + S (length ds))%nat with (S n + length ds)%nat by lia. exact IH.
Qed.
End silence.

(** An INVITE over UDP that is refused and whose refusal nobody acknowledges:
    the refusal is sent and repeated at intervals that double from half a second
    up to four seconds, whether or not the repetitions can be sent, and after 32
    seconds the transaction is gone. *)
Theorem strans_silence A send sa_set software st dst scode mb t0 n l :
  st_ok t0 st l → (st_state st = TRYING ∨ st_state st = PROCEEDING) → st_invite st = true → q_tp (st_msg st) = SIP_TRANSP_UDP →
  300 ≤ scode → mbuf_wf mb → send n = 0 → 0 ≤ t0 ≤ 2 ^ 62 →
  ∃ r0, exec A send sa_set software (Respond dst scode mb) (Run (Some st) t0 n l) = Ret (inl 0, r0) ∧
    rtc (step A send sa_set software) r0 (Run None (t0 + 32000) (n + 11)%nat
      (l ++ Sent t0 Answer dst (payload mb) 0 ::
         sends_at send (set_dst dst st) mb t0 (S n) [500; 1500; 3500; 7500; 11500; 15500; 19500; 23500; 27500; 31500])).
Proof.
  intros Hok Hst Hinv Htp Hsc Hwf Hs Ht0. eexists. split.
  - rewrite (reply_run A send sa_set software) by (done || lia). rewrite bool_decide_eq_true_2 by by left. rewrite Hs.
    rewrite bool_decide_eq_true_2 by done. reflexivity.
  - unfold answered. cbn [st_invite st_msg set_dst set_mb]. rewrite Hinv, Htp, (bool_decide_eq_false_2 (scode < 200)) by lia.
    rewrite bool_decide_eq_false_2 by lia. change (sip_transp_reliable SIP_TRANSP_UDP) with false. cbn iota.
    set (st1 := set_state COMPLETED (set_tmr (Some (t0 + 32000)) (set_dst dst (set_mb (Some mb) st)))).
    assert (Htx : st_txc st = 0).
    { destruct Hok as [_ _ _ Hph]. unfold phase, quiet in Hph. destruct Hst as [E|E]; rewrite E in Hph; tauto. }
    assert (E1 : set_state COMPLETED (set_tmrg (Some (t0 + 500)) (set_tmr (Some (t0 + 32000)) (set_dst dst (set_mb (Some mb) st)))) =
      silent st1 0 (t0 + 500)) by (unfold silent, st1; destruct st; cbn in *; by subst).
    rewrite E1. pose proof (strans_silent_walk A send sa_set software st1 mb eq_refl Hwf ltac:(left; exact Htp) t0 Ht0 eq_refl _ 0 500 t0 (S n)
      (l ++ [Sent t0 Answer dst (payload mb) 0]) (firing_chain false) ltac:(lia) ltac:(lia) ltac:(lia)) as Hw.
    rewrite <- app_assoc in Hw. replace (n + 11)%nat with (S n + 10)%nat by lia. exact Hw.
Qed.

(** ** Witnesses

    A stack at time 100, and an INVITE that is ringing, refused, acknowledged. *)
Definition demo_call : list Z :=
  line "INVITE sip:bob@10.0.0.1 SIP/2.0" ++ line "Via: SIP/2.0/UDP 10.0.0.2;branch=z9hG4bK7" ++
  line "To: <sip:bob@10.0.0.1>" ++ line "From: <sip:al@10.0.0.2>;tag=1" ++ line "Call-ID: c1" ++ line "CSeq: 7 INVITE" ++ crlf.

Definition demo_ack : list Z :=
  line "ACK sip:bob@10.0.0.1 SIP/2.0" ++ line "Via: SIP/2.0/UDP 10.0.0.2;branch=z9hG4bK7" ++
  line "To: <sip:bob@10.0.0.1>;tag=0000000000000007" ++ line "From: <sip:al@10.0.0.2>;tag=1" ++ line "Call-ID: c1" ++ line "CSeq: 7 ACK" ++ crlf.

Definition from (t : list Z) : received := Received (msg_of t) (SockAddr (Some (bytes_of "10.0.0.2")) 5060 false) SIP_TRANSP_UDP.

Lemma from_ok t : mbuf_wf (mbuf_of t) →
  match sip_msg_decode (H := digits_only) demo_set (λ _, true) true true 7 (mbuf_of t) with Ret (e, Some _, _) => bool_decide (e = 0) | _ => false end = true →
  bool_decide (0 ≤ m_tag (msg_of t) < 2 ^ 64) && bool_decide (Z.of_nat (length (m_hdrl (msg_of t))) < 2 ^ 32) = true → received_ok (from t).
Proof.
  intros Hwf Hd Hb. apply andb_true_iff in Hb as [H1%bool_decide_eq_true_1 H2%bool_decide_eq_true_1].
  split; [by apply msg_of_ok|]. split; [exact H1|]. split; [done|]. split; [lit|exact H2].
Qed.

Lemma demo_call_ok : received_ok (from demo_call).
Proof. apply from_ok; [apply (bool_decide_eq_true_1 _)|..]; vm_compute; reflexivity. Qed.

Lemma demo_ack_ok : received_ok (from demo_ack).
Proof. apply from_ok; [apply (bool_decide_eq_true_1 _)|..]; vm_compute; reflexivity. Qed.

Definition demo_refusal : list Z := line "SIP/2.0 486 Busy Here" ++ line "CSeq: 7 INVITE" ++ crlf.
Definition demo_from : sockaddr := SockAddr (Some (bytes_of "10.0.0.2")) 5060 false.

Local Abbreviation demo_exec := (exec big_alloc (λ _, 0) demo_set None).
Local Abbreviation demo_step := (step big_alloc (λ _, 0) demo_set None).

Definition state_of {X} (o : outcome (X * run)) : run := match o with Ret (_, r) => r | Fault _ => Run None 0 0 [] end.

(** The INVITE at time 100; it is refused, the refusal repeated and acknowledged. *)
Definition demo_begin : run := Run (Some (strans_new (from demo_call) true true)) 100 0 [].
Definition demo_refused : run := state_of (demo_exec (Respond demo_from 486 (mbuf_of demo_refusal)) demo_begin).
Definition demo_repeated : run := state_of (demo_exec Repeat (Run (r_ct demo_refused) 600 (r_sent demo_refused) (r_log demo_refused))).
Definition demo_acked : run := state_of (demo_exec Acked demo_repeated).

Lemma strans_demo_exec_step e ct now n l : enabled e ct now →
  match demo_exec e (Run (Some ct) now n l) with Ret _ => true | Fault _ => false end = true →
  demo_step (Run (Some ct) now n l) (state_of (demo_exec e (Run (Some ct) now n l))).
Proof. intros He Hr. destruct (demo_exec e _) as [[x s]|] eqn:E; [|done]. by eapply step_exec. Qed.

Definition demo_st (r : run) : sip_strans := default (strans_new (from demo_call) true true) (r_ct r).

Lemma demo_run_fields (r : run) : bool_decide (is_Some (r_ct r)) = true → r = Run (Some (demo_st r)) (r_now r) (r_sent r) (r_log r).
Proof. intros [st E]%bool_decide_eq_true_1. destruct r; cbn in *. by subst. Qed.

Lemma strans_demo_steps : rtc demo_step demo_begin demo_acked.
Proof.
  assert (H1 : bool_decide (is_Some (r_ct demo_refused)) = true) by (vm_compute; reflexivity). apply demo_run_fields in H1.
  assert (H2 : bool_decide (is_Some (r_ct demo_repeated)) = true) by (vm_compute; reflexivity). apply demo_run_fields in H2.
  assert (Hn : r_now demo_refused = 100) by (vm_compute; reflexivity).
  assert (Htm : st_tmr (demo_st demo_refused) = Some 32100 ∧ st_tmrg (demo_st demo_refused) = Some 600) by (vm_compute; by split).
  set (r600 := Run (r_ct demo_refused) 600 (r_sent demo_refused) (r_log demo_refused)).
  assert (E600 : r600 = Run (Some (demo_st demo_refused)) 600 (r_sent demo_refused) (r_log demo_refused)).
  { unfold r600. rewrite H1 at 1. reflexivity. }
  eapply (rtc_l _ _ demo_refused).
  { apply strans_demo_exec_step; [|vm_compute; reflexivity]. split; [by left|]. apply (bool_decide_eq_true_1 _); vm_compute; reflexivity. }
  eapply (rtc_l _ _ r600).
  { rewrite E600, H1 at 1. apply step_elapse; [rewrite Hn; lia|done]. }
  eapply (rtc_l _ _ demo_repeated).
  { unfold demo_repeated. fold r600. rewrite E600. apply strans_demo_exec_step.
    - destruct Htm as [Htm Htg]. exists 600. split; [exact Htg|]. split; [lia|]. intros t' Ht'. rewrite Htm in Ht'.
      apply (inj Some) in Ht' as <-. lia.
    - rewrite <- E600. vm_compute. reflexivity. }
  apply rtc_once. unfold demo_acked. rewrite H2. apply strans_demo_exec_step; [exact I|]. rewrite <- H2. vm_compute. reflexivity.
Qed.

Lemma no_software : ∀ sw, @None (list Z) = Some sw → short sw.
Proof. intros sw [=]. Qed.

Lemma strans_repeats_witness :
  (∃ k bs, repeats (r_log demo_acked) = replicate k bs ∧ (k ≤ 10)%nat) ∧ repeats (r_log demo_acked) = [demo_refusal].
Proof.
  split; [|vm_compute; reflexivity].
  exact (proj1 (strans_repeats big_alloc (λ _, 0) demo_set None no_software (from demo_call) true true 100 0 demo_acked demo_call_ok
    ltac:(lia) strans_demo_steps)).
Defined.

Lemma strans_silence_witness :
  ∃ r0, demo_exec (Respond demo_from 486 (mbuf_of demo_refusal)) demo_begin = Ret (inl 0, r0) ∧
    rtc demo_step r0 (Run None 32100 11 (Sent 100 Answer demo_from demo_refusal 0 ::
      map (λ d, Sent (100 + d) Repeated demo_from demo_refusal 0) [500; 1500; 3500; 7500; 11500; 15500; 19500; 23500; 27500; 31500])).
Proof.
  destruct (strans_silence big_alloc (λ _, 0) demo_set None (strans_new (from demo_call) true true) demo_from 486 (mbuf_of demo_refusal) 100 0 [])
    as (r0 & E & Hr).
  - apply new_ok, demo_call_ok.
  - left. reflexivity.
  - reflexivity.
  - reflexivity.
  - lia.
  - apply (bool_decide_eq_true_1 _). vm_compute. reflexivity.
  - reflexivity.
  - lia.
  - exists r0. split; [exact E|]. assert (Ep : payload (mbuf_of demo_refusal) = demo_refusal) by (vm_compute; reflexivity).
    cbn [sends_at] in Hr. rewrite Ep in Hr. exact Hr.
Defined.
