(* ===== verification/StransTable.v ===== *)
(** * The server transactions of a stack

    Which transaction a request belongs to, what becomes of it there, how a
    reply goes through its transaction, and that any use of the table keeps
    every transaction in the bucket of its branch. *)
From stdpp Require Import base tactics list numbers strings option gmap relations.
From S2P Require Import Prelude Mbuf Fmt Print MbufPrint Regex Uri Hash Sip SipSafe SipLines SipMsg SipPrint Trans Reply Strans StransLife.

(** ** Whose request it is *)

Definition branch_of (q : received) : list Z := pl_text (v_branch (m_via (q_msg q))).
Definition sentby_of (q : received) : list Z := pl_text (v_sentby (m_via (q_msg q))).
Definition method_of (q : received) : list Z := pl_text (m_met (q_msg q)).
Definition cseq_method_of (q : received) : list Z := pl_text (cs_met (m_cseq (q_msg q))).

(** The same hop sent both, with the same branch. *)
Definition same (q : received) (st : sip_strans) : Prop :=
  branch_of (st_msg st) = branch_of q ∧ sentby_of (st_msg st) = sentby_of q.
Definition repeated (q : received) (st : sip_strans) : Prop := same q st ∧ cseq_method_of (st_msg st) = cseq_method_of q.
Definition acked (q : received) (st : sip_strans) : Prop := same q st ∧ cseq_method_of (st_msg st) = bytes_of "INVITE".
Definition cancelled (q : received) (st : sip_strans) : Prop := same q st ∧ cseq_method_of (st_msg st) ≠ bytes_of "CANCEL".

Definition key (st : sip_strans) : Z := hash_joaat (branch_of (st_msg st)).

Abbreviation tab_in := (Trans.tab_in key st_ok).
Abbreviation tab_ok := (Trans.tab_ok key st_ok).

Lemma received_pointers q : received_ok q → ∃ m lim, (lim ≤ length m)%nat ∧ pointer_in m lim (m_met (q_msg q)) ∧
  pointer_in m lim (v_branch (m_via (q_msg q))) ∧ pointer_in m lim (v_sentby (m_via (q_msg q))) ∧
  pointer_in m lim (cs_met (m_cseq (q_msg q))).
Proof.
  intros ((m & lim & Hlim & _ & Hin) & _). exists m, lim. split; [done|].
  destruct Hin as (_ & _ & _ & _ & Hmet & _ & _ & _ & _ & _ & _ & _ & (_ & Hbr & Hsb & _) & _ & _ & [Hcm _] & _). done.
Qed.

Lemma branch_key_run q : received_ok q → branch_key q = Ret (hash_joaat (branch_of q)).
Proof.
  intros (m & lim & Hlim & _ & Hbr & _)%received_pointers. unfold branch_key, hash_joaat_pl.
  by rewrite (proj1 (pointer_text m lim _ Hlim Hbr)).
Qed.

(** The method of a request line, and of a CSeq. *)
Lemma method_cmp q s : received_ok q → ∃ e, pl_strcmp (m_met (q_msg q)) (Some s) = Ret e ∧ (e = 0 ↔ method_of q = s).
Proof. intros (m & lim & Hlim & Hmet & _)%received_pointers. by apply (strcmp_text m lim). Qed.

Lemma cseq_cmp q s : received_ok q → ∃ e, pl_strcmp (cs_met (m_cseq (q_msg q))) (Some s) = Ret e ∧ (e = 0 ↔ cseq_method_of q = s).
Proof. intros (m & lim & Hlim & _ & _ & _ & Hcm)%received_pointers. by apply (strcmp_text m lim). Qed.

Lemma zero_test (e : Z) (P : Prop) `{Decision P} : (e = 0 ↔ P) → bool_decide (e = 0) = bool_decide P.
Proof. intros He. by apply bool_decide_ext. Qed.

Lemma strans_cmp_run q st : received_ok q → received_ok (st_msg st) →
  strans_cmp (q_msg (st_msg st)) (q_msg q) = Ret (bool_decide (same q st)).
Proof.
  intros (m & lim & Hlim & _ & Hb & Hs & _)%received_pointers (m' & lim' & Hlim' & _ & Hb' & Hs' & _)%received_pointers.
  unfold strans_cmp. destruct (cmp_text m' lim' _ m lim _ Hlim' Hlim Hb' Hb) as (e1 & -> & H1). cbn [mbind outcome_bind].
  destruct (cmp_text m' lim' _ m lim _ Hlim' Hlim Hs' Hs) as (e2 & -> & H2). cbn [mbind outcome_bind].
  rewrite (zero_test e2 _ H2). fold (branch_of (st_msg st)) (branch_of q) in H1. unfold same.
  destruct (decide (e1 = 0)) as [Hz|Hz].
  - rewrite (bool_decide_eq_false_2 (e1 ≠ 0)) by lia. f_equal. apply bool_decide_ext. tauto.
  - rewrite (bool_decide_eq_true_2 (e1 ≠ 0)) by done. f_equal. symmetry. apply bool_decide_eq_false_2. tauto.
Qed.

Lemma andb_decide (P Q : Prop) `{Decision P, Decision Q} : (if negb (bool_decide P) then Ret false else Ret (bool_decide Q)) = Ret (bool_decide (P ∧ Q)).
Proof. rewrite bool_decide_and. by destruct (bool_decide P). Qed.

Section compare.
Context (s : sip) (q : received) (id : positive) (st : sip_strans).
Context (Hst : entries s !! id = Some st) (Hq : received_ok q) (Hmsg : received_ok (st_msg st)).

Lemma its_msg_run : its_msg s id = Ret (q_msg (st_msg st)).
Proof using Hst. unfold its_msg. by rewrite Hst. Qed.

Lemma strans_match_run : cmp_handler q s id = Ret (bool_decide (repeated q st)).
Proof using Hst Hq Hmsg.
  unfold cmp_handler. rewrite its_msg_run. cbn [mbind outcome_bind]. rewrite strans_cmp_run by done. cbn [mbind outcome_bind].
  destruct (received_pointers q Hq) as (m & lim & Hlim & _ & _ & _ & Hc), (received_pointers _ Hmsg) as (m' & lim' & Hlim' & _ & _ & _ & Hc').
  destruct (cmp_text m' lim' _ m lim _ Hlim' Hlim Hc' Hc) as (e & -> & He). cbn [mbind outcome_bind].
  rewrite (zero_test e _ He). apply andb_decide.
Qed.

Lemma cmp_ack_run : cmp_ack_handler q s id = Ret (bool_decide (acked q st)).
Proof using Hst Hq Hmsg.
  unfold cmp_ack_handler. rewrite its_msg_run. cbn [mbind outcome_bind]. rewrite strans_cmp_run by done. cbn [mbind outcome_bind].
  destruct (cseq_cmp (st_msg st) (bytes_of "INVITE") Hmsg) as (e & -> & He). cbn [mbind outcome_bind].
  rewrite (zero_test e _ He). apply andb_decide.
Qed.

Lemma cmp_cancel_run : cmp_cancel_handler q s id = Ret (bool_decide (cancelled q st)).
Proof using Hst Hq Hmsg.
  unfold cmp_cancel_handler. rewrite its_msg_run. cbn [mbind outcome_bind]. rewrite strans_cmp_run by done. cbn [mbind outcome_bind].
  destruct (cseq_cmp (st_msg st) (bytes_of "CANCEL") Hmsg) as (e & -> & He). cbn [mbind outcome_bind].
  rewrite (zero_test e _ He), <- (bool_decide_not (cseq_method_of _ = _)). apply andb_decide.
Qed.
End compare.

(** A search of one of the handlers: [P] says which transactions it accepts. *)
Lemma search (P : sip_strans → Prop) `{∀ st, Decision (P st)} (h : received → sip → positive → outcome bool) s q :
  tab_ok s → received_ok q → (∀ st, P st → same q st) →
  (∀ id st, entries s !! id = Some st → received_ok (st_msg st) → h q s id = Ret (bool_decide (P st))) →
  ∃ r, lookup_in (hash_joaat (branch_of q)) (h q) s = Ret (r, s) ∧
    match r with
    | Some id => ∃ st, entries s !! id = Some st ∧ P st
    | None => ∀ id st, entries s !! id = Some st → ¬ P st
    end.
Proof.
  intros Hok Hq Hsame Hh.
  destruct (lookup_run key st_ok (hash_joaat (branch_of q)) (h q) (λ st, bool_decide (P st)) s Hok) as (r & E & Hr).
  - intros id st Hst. apply Hh; [done|]. by apply (tab_alive _ _ _ s Hok id st I Hst).
  - intros id st Hst Hg. apply bool_decide_eq_true_1 in Hg. unfold key. by rewrite (proj1 (Hsame st Hg)).
  - exists r. split; [done|]. destruct r as [id|].
    + destruct Hr as (st & Hst & Hg). apply bool_decide_eq_true_1 in Hg. by exists st.
    + intros id st Hst. exact (bool_decide_eq_false_1 _ (Hr id st Hst)).
Qed.

(** ** The table *)

Section table.
Context (A : allocator) `{!allocator_ok A} (send : nat → Z) (sa_set : list Z → option sockaddr).
Context (software : option (list Z)) (Hsw : ∀ sw, software = Some sw → short sw) (strans_mem : bool).

Local Abbreviation exec := (exec A send sa_set software).
Local Abbreviation request_handler := (request_handler A send sa_set software).

(** A step of a transaction of the table. *)
Lemma strans_on_exec id e st s : tab_ok s → entries s !! id = Some st → enabled e st (jiffies s) →
  ∃ x s', on id (exec e) s = Ret (x, s') ∧ tab_ok s' ∧ touched id s s'.
Proof using allocator_ok0 Hsw.
  intros Hok Hst He. pose proof (tab_alive _ _ _ s Hok id st I Hst) as Hal. pose proof (tab_time _ _ _ s Hok).
  destruct (strans_exec_ok A send sa_set software Hsw e st (jiffies s) (sent s) _ Hal ltac:(lia) He) as (x & o & n' & l' & E & Hl & Hfix).
  destruct (on_run key st_ok id (exec e) st s x o n' l') as (s' & E' & Hok' & Htch & _); [by eapply tab_weaken|done|done| |by exists x, s'].
  intros st' ->. split; [|done]. unfold key. by rewrite (proj1 (Hfix st' eq_refl)).
Qed.

(** Where a request goes: to one transaction as one step, or on to others. *)
Inductive route (s : sip) (q : received) : option (positive * life) → Prop :=
| route_ack id st : method_of q = bytes_of "ACK" → entries s !! id = Some st → acked q st → route s q (Some (id, Acked))
| route_ack_unknown : method_of q = bytes_of "ACK" → (∀ id st, entries s !! id = Some st → ¬ acked q st) → route s q None
| route_again id st : method_of q ≠ bytes_of "ACK" → entries s !! id = Some st → repeated q st → route s q (Some (id, Request))
| route_cancel id st : method_of q = bytes_of "CANCEL" → (∀ id st, entries s !! id = Some st → ¬ repeated q st) →
    entries s !! id = Some st → cancelled q st → route s q (Some (id, Cancel q))
| route_cancel_unknown : method_of q = bytes_of "CANCEL" → (∀ id st, entries s !! id = Some st → ¬ repeated q st) →
    (∀ id st, entries s !! id = Some st → ¬ cancelled q st) → route s q None
| route_new : method_of q ≠ bytes_of "ACK" → method_of q ≠ bytes_of "CANCEL" →
    (∀ id st, entries s !! id = Some st → ¬ repeated q st) → route s q None.

Definition goes_to (s : sip) (q : received) (r : option (positive * life)) : Prop :=
  match r with
  | Some (id, e) => ∃ x s', on id (exec e) s = Ret (x, s') ∧ request_handler q s = Ret (absorbed x, s') ∧ tab_ok s' ∧ touched id s s'
  | None => request_handler q s = Ret (false, s)
  end.

Lemma route_run s q : tab_ok s → received_ok q → ∃ r, route s q r ∧ goes_to s q r.
Proof using allocator_ok0 Hsw.
  intros Hok Hq. unfold goes_to, Strans.request_handler.
  destruct (method_cmp q (bytes_of "ACK") Hq) as (e & E & He). pose proof (branch_key_run q Hq) as Hk.
  destruct (decide (method_of q = bytes_of "ACK")) as [Hack|Hack].
  - assert (Hz : bool_decide (e = 0) = true) by (apply bool_decide_eq_true_2; tauto).
    destruct (search (acked q) cmp_ack_handler s q Hok Hq) as (r & Es & Hr); [by intros st []|by intros; apply cmp_ack_run|].
    destruct r as [id|].
    + destruct Hr as (st & Hst & Ha). destruct (strans_on_exec id Acked st s Hok Hst I) as (x & s' & Ex & Hok' & Ht).
      exists (Some (id, Acked)). split; [by eapply route_ack|]. exists x, s'. split; [done|]. split; [|done].
      erewrite prog_bind_step by (by apply lift_Ret). rewrite Hz. unfold ack_handler.
      erewrite prog_bind_step by (by apply lift_Ret). erewrite prog_bind_step by exact Es. cbv iota. by erewrite prog_bind_step by exact Ex.
    + exists None. split; [by apply route_ack_unknown|].
      erewrite prog_bind_step by (by apply lift_Ret). rewrite Hz. unfold ack_handler.
      erewrite prog_bind_step by (by apply lift_Ret). by erewrite prog_bind_step by exact Es.
  - assert (Hz : bool_decide (e = 0) = false) by (apply bool_decide_eq_false_2; tauto).
    destruct (search (repeated q) cmp_handler s q Hok Hq) as (r & Es & Hr); [by intros st []|by intros; apply strans_match_run|].
    destruct r as [id|].
    { destruct Hr as (st & Hst & Ha). destruct (strans_on_exec id Request st s Hok Hst I) as (x & s' & Ex & Hok' & Ht).
      exists (Some (id, Request)). split; [by eapply route_again|]. exists x, s'. split; [done|]. split; [|done].
      erewrite prog_bind_step by (by apply lift_Ret). rewrite Hz.
      erewrite prog_bind_step by (by apply lift_Ret). erewrite prog_bind_step by exact Es. cbv iota. by erewrite prog_bind_step by exact Ex. }
    destruct (method_cmp q (bytes_of "CANCEL") Hq) as (e2 & E2 & He2).
    destruct (decide (method_of q = bytes_of "CANCEL")) as [Hc|Hc].
    + assert (Hz2 : bool_decide (e2 = 0) = true) by (apply bool_decide_eq_true_2; tauto).
      destruct (search (cancelled q) cmp_cancel_handler s q Hok Hq) as (r & Ec & Hr'); [by intros st []|by intros; apply cmp_cancel_run|].
      destruct r as [id|].
      * destruct Hr' as (st & Hst & Ha). destruct (strans_on_exec id (Cancel q) st s Hok Hst Hq) as (x & s' & Ex & Hok' & Ht).
        exists (Some (id, Cancel q)). split; [by eapply route_cancel|]. exists x, s'. split; [done|]. split; [|done].
        erewrite prog_bind_step by (by apply lift_Ret). rewrite Hz. erewrite prog_bind_step by (by apply lift_Ret).
        erewrite prog_bind_step by exact Es. cbv iota. erewrite prog_bind_step by (by apply lift_Ret). rewrite Hz2. unfold cancel_handler.
        erewrite prog_bind_step by (by apply lift_Ret). erewrite prog_bind_step by exact Ec. cbv iota. by erewrite prog_bind_step by exact Ex.
      * exists None. split; [by apply route_cancel_unknown|].
        erewrite prog_bind_step by (by apply lift_Ret). rewrite Hz. erewrite prog_bind_step by (by apply lift_Ret).
        erewrite prog_bind_step by exact Es. cbv iota. erewrite prog_bind_step by (by apply lift_Ret). rewrite Hz2. unfold cancel_handler.
        erewrite prog_bind_step by (by apply lift_Ret). by erewrite prog_bind_step by exact Ec.
    + assert (Hz2 : bool_decide (e2 = 0) = false) by (apply bool_decide_eq_false_2; tauto).
      exists None. split; [by apply route_new|].
      erewrite prog_bind_step by (by apply lift_Ret). rewrite Hz. erewrite prog_bind_step by (by apply lift_Ret).
      erewrite prog_bind_step by exact Es. cbv iota. erewrite prog_bind_step by (by apply lift_Ret). by rewrite Hz2.
Qed.

(** ** Replies *)

Local Abbreviation sip_treplyf := (sip_treplyf A send sa_set software strans_mem).
Local Abbreviation sip_strans_reply := (sip_strans_reply A send sa_set software strans_mem).

Definition open (st : sip_strans) : Prop := st_state st = TRYING ∨ st_state st = PROCEEDING.

(** The transaction the caller holds has no final response. *)
Definition holds (stp : option (option positive)) (s : sip) : Prop :=
  ∀ id, stp = Some (Some id) → ∃ st, entries s !! id = Some st ∧ open st.

Lemma alloc_run q cancelh s : tab_ok s → received_ok q →
  if strans_mem then
    ∃ s', sip_strans_alloc strans_mem q cancelh s = Ret ((0, Some (next s)), s') ∧ tab_ok s' ∧ touched (next s) s (Table (tb_ht s') (entries s') (logs s') (next s) (jiffies s') (sent s')) ∧
      next s' = Pos.succ (next s) ∧ sent s' = sent s ∧ logs s' = logs s ∧ logs s !! next s = None ∧ entries s !! next s = None ∧
      entries s' !! next s = Some (strans_new q cancelh (bool_decide (method_of q = bytes_of "INVITE")))
  else sip_strans_alloc strans_mem q cancelh s = Ret ((ENOMEM, None), s).
Proof using.
  clear Hsw. intros Hok Hq. unfold sip_strans_alloc. destruct strans_mem; cbn [negb]; [|done].
  destruct (method_cmp q (bytes_of "INVITE") Hq) as (e & E & He). set (st0 := strans_new q cancelh (bool_decide (method_of q = bytes_of "INVITE"))).
  destruct (enter_run key st_ok st0 s Hok) as (s1 & Een & Hok1 & Eent & Elog & Enx & Ejf & Esn & Hlog & Hnone).
  exists s1. split.
  { erewrite prog_bind_step by (apply lift_Ret; by apply branch_key_run). erewrite prog_bind_step by (by apply lift_Ret).
    rewrite (zero_test e _ He). fold st0. change (hash_joaat (branch_of q)) with (key st0). by erewrite prog_bind_step by exact Een. }
  split.
  { apply (tab_complete key st_ok (next s)); [exact Hok1|]. intros ct Hct. rewrite Eent, lookup_insert_eq in Hct.
    injection Hct as <-. rewrite Elog, Hlog. by apply new_ok. }
  split. { split; [|by split]. intros i Hi. cbn [entries logs]. rewrite Eent, Elog. by rewrite lookup_insert_ne by congruence. }
  split_and!; try done. by rewrite Eent, lookup_insert_eq.
Qed.

(** The response of an open transaction goes out. *)
Lemma respond_table id st dst scode mb s : tab_ok s → entries s !! id = Some st → open st → mbuf_wf mb →
  ∃ err s', on id (exec (Respond dst scode mb)) s = Ret (inl err, s') ∧ tab_ok s' ∧ touched id s s' ∧
    (err ≠ 0 → entries s' !! id = None) ∧
    (err = 0 → entries s' !! id = answered dst scode mb (jiffies s) st ∧
       logs s' !! id = Some (default [] (logs s !! id) ++ [Sent (jiffies s) Answer dst (payload mb) 0])).
Proof using.
  clear Hsw. intros Hok Hst Hop Hwf. pose proof (tab_alive _ _ _ s Hok id st I Hst) as Hal. pose proof (tab_time _ _ _ s Hok) as Ht.
  destruct (respond_ok A send sa_set software dst scode mb st (jiffies s) (sent s) _ Hal ltac:(lia)) as (x & o & n' & l' & E & Hl & Hfix); [by split|].
  destruct (on_run key st_ok id (exec (Respond dst scode mb)) st s x o n' l') as (s' & E' & Hok' & Htch & Ho & Hlog & _); [by eapply tab_weaken|done|done| |].
  { intros st' ->. split; [|done]. unfold key. by rewrite (proj1 (Hfix st' eq_refl)). }
  rewrite reply_run in E by (done || lia). case_bool_decide as Htp.
  - injection E as <- <- <- <-. exists (send (sent s)), s'. split; [done|]. split; [done|]. split; [done|].
    rewrite Ho, Hlog. split; intros Hz; [by rewrite bool_decide_eq_false_2|]. rewrite bool_decide_eq_true_2 by done. by rewrite Hz.
  - injection E as <- <- <- <-. exists EPROTONOSUPPORT, s'. split; [done|]. split; [done|]. split; [done|]. by split.
Qed.

Definition gone (stp : option (option positive)) : option (option positive) := match stp with Some _ => Some None | None => None end.

Lemma release_held_run stp s : tab_ok s → holds stp s →
  ∃ s', release_held A send sa_set software stp s = Ret (gone stp, s') ∧ tab_ok s' ∧ (∀ id, stp = Some (Some id) → entries s' !! id = None) ∧
    (∀ i, stp ≠ Some (Some i) → entries s' !! i = entries s !! i).
Proof using allocator_ok0 Hsw.
  intros Hok Hh. destruct stp as [[id|]|]; [|by exists s..]. destruct (Hh id eq_refl) as (st & Hst & Hop).
  pose proof (tab_alive _ _ _ s Hok id st I Hst) as Hal.
  destruct (on_run key st_ok id (exec Drop) st s (inl 0) None (sent s) (default [] (logs s !! id))) as (s' & E' & Hok' & [Htch _] & Ho & _);
    [by eapply tab_weaken|done|done|done|].
  exists s'. split; [unfold release_held; by erewrite prog_bind_step by exact E'|]. split; [done|]. split; [by intros i [= <-]|].
  intros i Hi. apply Htch. congruence.
Qed.

(** [sip_strans_reply] with all it needs. *)
Lemma strans_reply_run stp q dst scode mb s : tab_ok s → received_ok q → holds stp s → mbuf_wf mb → (scode < 200 → is_Some stp) →
  ∃ err stp' s', sip_strans_reply stp q (Some dst) scode (Some mb) s = Ret ((err, stp'), s') ∧ tab_ok s' ∧
    (err ≠ 0 → stp' = gone stp ∧ (∀ id, stp = Some (Some id) → entries s' !! id = None) ∧ ∀ i, entries s' !! i = entries s !! i ∨ entries s' !! i = None) ∧
    (err = 0 → ∃ id st,
       match stp with Some (Some i) => id = i ∧ entries s !! i = Some st
       | _ => id = next s ∧ st = strans_new q false (bool_decide (method_of q = bytes_of "INVITE")) end ∧
       entries s' !! id = answered dst scode mb (jiffies s) st ∧
       logs s' !! id = Some (default [] (logs s !! id) ++ [Sent (jiffies s) Answer dst (payload mb) 0]) ∧
       stp' = match stp with Some _ => Some (if bool_decide (200 ≤ scode) then None else Some id) | None => None end ∧
       ∀ i, i ≠ id → entries s' !! i = entries s !! i).
Proof using.
  clear Hsw. intros Hok Hq Hh Hwf Hsc. unfold Strans.sip_strans_reply.
  assert (Hb : bool_decide (scode < 200) && negb (bool_decide (is_Some stp)) = false).
  { case_bool_decide as H1; [|done]. by rewrite bool_decide_eq_true_2 by auto. }
  rewrite Hb. clear Hb. destruct (match stp with Some (Some id) => Some id | _ => None end) as [id|] eqn:Estp.
  - assert (stp = Some (Some id)) as -> by (destruct stp as [[?|]|]; congruence). clear Estp.
    destruct (Hh id eq_refl) as (st & Hst & Hop).
    destruct (respond_table id st dst scode mb s Hok Hst Hop Hwf) as (err & s' & E & Hok' & [Htch _] & Hbad & Hgood).
    exists err. eexists _, s'. erewrite prog_bind_step by done. cbn [snd]. erewrite prog_bind_step by exact E.
    split; [done|]. split; [done|]. split.
    + intros Hz. rewrite bool_decide_eq_true_2 by done. cbn [orb]. split; [done|]. split; [by intros ? [= <-]; apply Hbad|].
      intros i. destruct (decide (i = id)) as [->|Hi]; [right; by apply Hbad|left; by apply Htch].
    + intros Hz. exists id, st. split; [done|]. destruct (Hgood Hz) as [E1 E2]. split; [done|]. split; [done|].
      rewrite (bool_decide_eq_false_2 (err ≠ 0)) by lia. cbn [orb]. split; [done|]. intros i Hi. by apply Htch.
  - pose proof (alloc_run q false s Hok Hq) as Ha. set (al := sip_strans_alloc strans_mem q false) in *.
    assert (Er : ∀ k : Z * option positive → prog sip (Z * option (option positive)),
      (r ← match stp with Some (Some id) => mret (0, Some id) | _ => al end; k r) s = (r ← al; k r) s) by (by destruct stp as [[?|]|]).
    rewrite Er. clear Er. assert (Em : ∀ (X : Type) (f : positive → X) (x : X), match stp with Some (Some i) => f i | _ => x end = x) by (by destruct stp as [[?|]|]).
    destruct strans_mem.
    + destruct Ha as (s1 & E1 & Hok1 & [Htch1 [_ Ejf]] & Enx & Esn & Elog & Hlog & Hnone & Hent).
      destruct (respond_table (next s) _ dst scode mb s1 Hok1 Hent ltac:(by left) Hwf) as (err & s' & E & Hok' & [Htch _] & Hbad & Hgood).
      erewrite prog_bind_step by exact E1. cbn [snd]. exists err. eexists _, s'. erewrite prog_bind_step by exact E.
      cbn [entries logs jiffies] in Htch1, Ejf.
      assert (Hoth : ∀ i, i ≠ next s → entries s' !! i = entries s !! i).
      { intros i Hi. rewrite (proj1 (Htch i Hi)). by apply Htch1. }
      split; [done|]. split; [done|]. split.
      * intros Hz. rewrite bool_decide_eq_true_2 by done. cbn [orb]. split; [by destruct stp|]. split; [intros ? ->; done|].
        intros i. destruct (decide (i = next s)) as [->|Hi]; [right; by apply Hbad|left; by apply Hoth].
      * intros Hz. eexists (next s), _. rewrite (Em Prop). split; [by split|]. destruct (Hgood Hz) as [G1 G2]. rewrite Ejf in G1, G2.
        split; [exact G1|]. rewrite Elog in G2. split; [exact G2|]. rewrite (bool_decide_eq_false_2 (err ≠ 0)) by lia. by split.
    + exists ENOMEM, stp, s. erewrite prog_bind_step by exact Ha. split; [done|]. split; [done|]. split; [|done]. intros _.
      split; [by destruct stp as [[?|]|]|]. split; [intros ? ->; done|by left].
Qed.

(** The outcome of a reply through a transaction, for a request that is not an
    ACK: refused, when the transaction the caller held is gone and no other has
    come; or sent, first of the packets its transaction sends for it. *)
Definition replied (stp : option (option positive)) (q : received) (rec_route : bool) (scode : Z) (reason : list Z)
    (ending : option (list piece)) (s : sip) (err : Z) (stp' : option (option positive)) (mbo : option mbuf) (s' : sip) : Prop :=
  (err ≠ 0 → mbo = None ∧ stp' = gone stp ∧ (∀ id, stp = Some (Some id) → entries s' !! id = None) ∧
     ∀ i, entries s' !! i = entries s !! i ∨ entries s' !! i = None) ∧
  (err = 0 → ∃ mb dst id st,
     match stp with Some (Some i) => id = i ∧ entries s !! i = Some st
     | _ => id = next s ∧ st = strans_new q false (bool_decide (method_of q = bytes_of "INVITE")) end ∧
     mbo = Some mb ∧ entries s' !! id = answered dst scode mb (jiffies s) st ∧
     logs s' !! id = Some (default [] (logs s !! id) ++ [Sent (jiffies s) Answer dst (payload mb) 0]) ∧
     stp' = match stp with Some _ => Some (if bool_decide (200 ≤ scode) then None else Some id) | None => None end ∧
     (∀ i, i ≠ id → entries s' !! i = entries s !! i) ∧
     (plenty A → text_ok (reply_of software q rec_route scode reason ending) →
        payload mb = reply_of software q rec_route scode reason ending ∧
        sip_reply_addr sa_set q (snd (reply_lines q rec_route scode (m_hdrl (q_msg q)) false)) = Ret dst)).

Lemma treply_run stp q rec_route scode reason ending s :
  tab_ok s → received_ok q → 0 ≤ scode < 2 ^ 16 → short reason → ending_ok ending → holds stp s → (scode < 200 → is_Some stp) →
  method_of q ≠ bytes_of "ACK" →
  ∃ err stp' mbo s', sip_treplyf stp q rec_route scode reason (ending_fmt ending) s = Ret ((err, stp', mbo), s') ∧ tab_ok s' ∧
    replied stp q rec_route scode reason ending s err stp' mbo s'.
Proof using allocator_ok0 Hsw.
  intros Hok Hq Hs Hr He Hh Hsc Hack. unfold Strans.sip_treplyf.
  destruct (vreplyf_run A sa_set software Hsw q rec_route scode reason ending Hq Hs Hr He _ Hack) as (err & o & E & H1 & H2 & H3).
  erewrite prog_bind_step by (apply lift_Ret; exact E). destruct (decide (err = 0)) as [->|Hne].
  - destruct (H2 eq_refl) as (mb & dst & -> & Hwf). cbv iota.
    destruct (strans_reply_run stp q dst scode mb s Hok Hq Hh Hwf Hsc) as (err & stp' & s1 & E1 & Hok1 & Hbad & Hgood).
    erewrite prog_bind_step by exact E1. destruct (decide (err = 0)) as [->|Hne].
    + rewrite (bool_decide_eq_false_2 (0 ≠ 0)) by lia. exists 0, stp', (Some mb), s1. split; [done|]. split; [done|]. split; [done|].
      intros _. destruct (Hgood eq_refl) as (id & st & G1 & G2 & G3 & G4 & G5). exists mb, dst, id, st. split_and!; try done.
      intros Hp Htx. destruct (H3 Hp Htx) as [_ Hgo]. destruct (Hgo eq_refl) as (mb' & dst' & [= <- <-] & Hpay & Hd). done.
    + destruct (Hbad Hne) as (-> & G2 & G3). rewrite (bool_decide_eq_true_2 (err ≠ 0)) by done.
      destruct (release_held_run (gone stp) s1 Hok1) as (s2 & E2 & Hok2 & _ & Hoth); [by destruct stp; intros ? [=]|].
      assert (Hss : ∀ i, entries s2 !! i = entries s1 !! i) by (intros i; apply Hoth; by destruct stp).
      exists err. eexists _, None, s2. erewrite prog_bind_step by exact E2. split; [done|]. split; [done|]. split; [|done]. intros _.
      split; [done|]. split; [by destruct stp as [[?|]|]|]. split; intros; rewrite Hss; auto.
  - rewrite (H1 Hne). destruct (release_held_run stp s Hok Hh) as (s2 & E2 & Hok2 & G1 & G2).
    exists err. eexists _, None, s2. split; [destruct err; [done|by erewrite prog_bind_step by exact E2..]|]. split; [done|].
    split; [|done]. intros _. split; [done|]. split; [done|]. split; [done|]. intros i.
    destruct (decide (stp = Some (Some i))) as [Ei|Ei]; [right; by apply G1|left; by apply G2].
Qed.

(** C13: [sip_treplyf] on a table in order: an ACK is not answered and nothing
    changes; any other request is refused, when the transaction the caller held
    is gone and no other has come; or the message goes out to its destination
    and leaves the transaction as the class of the response, the method and the
    transport ask: PROCEEDING below 200, ACCEPTED for the 2xx of an INVITE,
    COMPLETED for its refusal, repeated where the transport is unreliable, and
    for other final responses, gone where it is reliable.  The caller holds on to
    the transaction only below 200.  With plenty of memory the message is the
    one of the standard.  The table stays in order. *)
Theorem sip_treplyf_spec stp q rec_route scode reason ending s :
  tab_ok s → received_ok q → 0 ≤ scode < 2 ^ 16 → short reason → ending_ok ending → holds stp s → (scode < 200 → is_Some stp) →
  ∃ err stp' mbo s', sip_treplyf stp q rec_route scode reason (ending_fmt ending) s = Ret ((err, stp', mbo), s') ∧ tab_ok s' ∧
    (method_of q = bytes_of "ACK" → err = 0 ∧ stp' = stp ∧ mbo = None ∧ s' = s) ∧
    (method_of q ≠ bytes_of "ACK" → replied stp q rec_route scode reason ending s err stp' mbo s').
Proof using allocator_ok0 Hsw.
  intros Hok Hq Hs Hr He Hh Hsc. destruct (decide (method_of q = bytes_of "ACK")) as [Hack|Hack].
  - exists 0, stp, None, s. split; [|by split]. unfold Strans.sip_treplyf. by erewrite prog_bind_step by (apply lift_Ret; by apply vreplyf_ack).
  - destruct (treply_run stp q rec_route scode reason ending s) as (err & stp' & mbo & s' & E & Hok' & Hrep); [done..|].
    by exists err, stp', mbo, s'.
Qed.

(** ** What comes in *)

(** Whether the request is absorbed, what becomes of the transaction, and what
    it sends and tells the user. *)
Definition verdict (e : life) (st : sip_strans) : bool :=
  match e with Acked => negb (bool_decide (st_state st = ACCEPTED)) | _ => true end.

Definition took (e : life) (st : sip_strans) (now : Z) : option sip_strans :=
  match e with
  | Acked =>
      if bool_decide (st_state st = COMPLETED) then
        if sip_transp_reliable (q_tp (st_msg st)) then None
        else Some (set_state CONFIRMED (set_tmrg None (set_tmr (Some (now + SIP_T4)) st)))
      else Some st
  | _ => Some st
  end.

Definition emitted (e : life) (st : sip_strans) (now : Z) (a : list event) : Prop :=
  match e with
  | Acked => a = []
  | Request =>
      if bool_decide (st_state st = PROCEEDING ∨ st_state st = COMPLETED) then
        ∃ mb err, st_mb st = Some mb ∧ a = [Sent now Again (st_dst st) (payload mb) err]
      else a = []
  | Cancel q => ∃ err p,
      a = p ++ (if bool_decide (st_state st = TRYING ∨ st_state st = PROCEEDING) && st_cancelh st then [Cancelled] else []) ∧
      plain_sent A sa_set software (set_q_tag (m_tag (q_msg (st_msg st))) q) 200 (bytes_of "OK") now err p
  | _ => False
  end.

Definition incoming (e : life) : Prop := match e with Acked | Request => True | Cancel q => received_ok q | _ => False end.

Lemma incoming_run e st now n l : st_ok now st l → 0 ≤ now ≤ 2 ^ 63 → incoming e →
  ∃ n' a, exec e (Run (Some st) now n l) = Ret (inr (verdict e st), Run (took e st now) now n' (l ++ a)) ∧ emitted e st now a.
Proof using allocator_ok0 Hsw.
  intros Hok Hnow He. pose proof Hok as [Hmsg Hmb Htp Hph]. destruct e as [| | | | |q|]; try done.
  - exists n, []. split; [|done]. rewrite app_nil_r. unfold Strans.exec, ack, verdict, took. destruct (st_state st) eqn:Est.
    1,2,3,5: rewrite (bool_decide_eq_false_2 (_ = COMPLETED)) by done; (erewrite prog_bind_step by (erewrite prog_bind_step by done; rewrite Est; done); done).
    rewrite (bool_decide_eq_false_2 (_ = ACCEPTED)), (bool_decide_eq_true_2 (COMPLETED = COMPLETED)) by done.
    assert (Ht : u64 (now + SIP_T4) = now + SIP_T4) by (unfold SIP_T4; rewrite u64_id by lia; lia).
    destruct (sip_transp_reliable (q_tp (st_msg st))) eqn:Hrel;
      (erewrite prog_bind_step by (erewrite prog_bind_step by done; rewrite Est, Hrel; done)); [done|]. cbn [r_now set_ct]. by rewrite Ht.
  - unfold Strans.exec, again, verdict, took, emitted. case_bool_decide as Es.
    + assert (∃ mb, st_mb st = Some mb) as [mb Emb].
      { unfold phase in Hph. destruct Es as [E|E]; rewrite E in Hph; [apply Hph|]. destruct Hph as (mb & Em & _). by exists mb. }
      rewrite Emb in Hmb. assert (Hk : known_tp (q_tp (st_msg st))) by (apply Htp; by rewrite Emb).
      exists (S n), [Sent now Again (st_dst st) (payload mb) (send n)]. split; [|by eexists _, _].
      erewrite prog_bind_step; [done|]. erewrite prog_bind_step by done.
      destruct Es as [-> | ->]; by erewrite prog_bind_step by (by apply (send_reply_run send Again mb)).
    + exists n, []. split; [|done]. rewrite app_nil_r.
      erewrite prog_bind_step; [done|]. erewrite prog_bind_step by done. destruct (st_state st); naive_solver.
  - destruct Hmsg as (_ & Htag & _).
    destruct (plain_run A send sa_set software Hsw (set_q_tag (m_tag (q_msg (st_msg st))) q) 200 (bytes_of "OK") now n l (Some st))
      as (err & n' & a & E & _ & Ha); [by apply received_tag|lia|split; [apply bytes_of_ok|by vm_compute]|].
    eexists n', _. split; [|exists err, a; by split].
    unfold Strans.exec, cancel. erewrite prog_bind_step; [done|]. erewrite prog_bind_step by done.
    erewrite prog_bind_step by exact E. erewrite prog_bind_step by done. rewrite app_assoc.
    destruct (st_state st); rewrite ?app_nil_r; try done; destruct (st_cancelh st); rewrite ?app_nil_r; done.
Qed.

(** C12: what becomes of a request.  An ACK goes to the INVITE transaction with its
    branch and sender; any other request to the transaction with its branch,
    sender and method; a CANCEL without one to a transaction with its branch and
    sender; without such a transaction the request is handed on and nothing
    changes.  An ACK is handed on where the INVITE was accepted; it ends a
    refused INVITE over a reliable transport, and stops the repetitions over an
    unreliable one.  A request that comes again is absorbed, and in PROCEEDING
    and COMPLETED the last response is sent again.  A CANCEL is answered with a
    200 that has the tag of the transaction, and passed to the user exactly
    where there is no final response.  No other transaction changes. *)
Theorem request_handler_spec s q : tab_ok s → received_ok q → ∃ r, route s q r ∧
  match r with
  | None => request_handler q s = Ret (false, s)
  | Some (id, e) => ∃ st s' a, entries s !! id = Some st ∧ request_handler q s = Ret (verdict e st, s') ∧
      entries s' !! id = took e st (jiffies s) ∧ logs s' !! id = Some (default [] (logs s !! id) ++ a) ∧ emitted e st (jiffies s) a ∧
      touched id s s' ∧ tab_ok s'
  end.
Proof using allocator_ok0 Hsw.
  intros Hok Hq. destruct (route_run s q Hok Hq) as (r & Hr & Hg). exists r. split; [done|]. destruct r as [[id e]|]; [|done].
  destruct Hg as (x & s' & E & Eh & Hok' & Ht). assert (∃ st, entries s !! id = Some st) as [st Hst] by (inversion Hr; by eexists).
  assert (Hin : incoming e) by (inversion Hr; by subst).
  pose proof (tab_alive _ _ _ s Hok id st I Hst) as Hal. pose proof (tab_time _ _ _ s Hok) as Htm.
  destruct (incoming_run e st (jiffies s) (sent s) _ Hal ltac:(lia) Hin) as (n' & a & Ee & Hem).
  unfold on in E. rewrite Hst, Ee in E. cbn [r_ct r_log r_sent] in E. injection E as <- Es.
  exists st, s', a. split; [done|]. split; [exact Eh|]. rewrite <- Es. cbn [entries logs].
  split; [by destruct (took _ _ _); rewrite ?lookup_insert_eq, ?lookup_delete_eq|]. split; [by rewrite lookup_insert_eq|].
  split; [exact Hem|]. by rewrite Es.
Qed.

(** ** Any use of the table *)

Inductive op :=
| Alloc (q : received) (cancelh : bool)
| Reply (stp : option (option positive)) (q : received) (rec_route : bool) (scode : Z) (reason : list Z) (ending : option (list piece))
| Receive (q : received)
| Fire (id : positive) (e : life)
| Pass (d : Z).

Definition perform (o : op) : prog sip unit :=
  match o with
  | Alloc q cancelh => sip_strans_alloc strans_mem q cancelh;; mret tt
  | Reply stp q rec_route scode reason ending => sip_treplyf stp q rec_route scode reason (ending_fmt ending);; mret tt
  | Receive q => request_handler q;; mret tt
  | Fire id e => on id (exec e);; mret tt
  | Pass d => modify (elapse d)
  end.

(** Requests were received, the user holds on to transactions without a final
    response, and what fires is due or given up by the user. *)
Definition allowed (o : op) (s : sip) : Prop :=
  match o with
  | Alloc q _ => received_ok q
  | Reply stp q _ scode reason ending =>
      received_ok q ∧ 0 ≤ scode < 2 ^ 16 ∧ short reason ∧ ending_ok ending ∧ holds stp s ∧ (scode < 200 → is_Some stp)
  | Receive q => received_ok q
  | Fire id e => ∃ st, entries s !! id = Some st ∧ enabled e st (jiffies s)
  | Pass d => 0 ≤ d ∧ jiffies s + d ≤ 2 ^ 63
  end.

(** C15: the table of server transactions under any use: a new table is in order,
    and every allocation, reply, request, timer and release that can happen
    returns and leaves it in order, whichever allocations and transmissions
    fail: each transaction keeps its own invariant, is in the bucket of its
    branch, and the table holds no other. *)
Theorem sip_strans_table k t :
  (0 ≤ k < 32 → 0 ≤ t ≤ 2 ^ 63 → tab_ok (Table (replicate (Z.to_nat (2 ^ k)) []) ∅ ∅ 1 t 0)) ∧
  ∀ s o, tab_ok s → allowed o s → ∃ s', perform o s = Ret (tt, s') ∧ tab_ok s'.
Proof using allocator_ok0 Hsw.
  split; [intros; by apply tab_new|]. intros s o Hok Ha. destruct o as [q cancelh|stp q rec_route scode reason ending|q|id e|d]; cbn [perform allowed] in *.
  - pose proof (alloc_run q cancelh s Hok Ha) as Hal. destruct strans_mem.
    + destruct Hal as (s' & E & Hok' & _). exists s'. by erewrite prog_bind_step by exact E.
    + exists s. by erewrite prog_bind_step by exact Hal.
  - destruct Ha as (Hq & Hs & Hr & He & Hh & Hsc). destruct (decide (method_of q = bytes_of "ACK")) as [Hack|Hack].
    + exists s. split; [|done]. unfold Strans.sip_treplyf. by erewrite prog_bind_step by (by erewrite prog_bind_step by (apply lift_Ret; by apply vreplyf_ack)).
    + destruct (treply_run stp q rec_route scode reason ending s) as (err & stp' & mbo & s' & E & Hok' & _); [done..|].
      exists s'. by erewrite prog_bind_step by exact E.
  - destruct (route_run s q Hok Ha) as ([[id e]|] & _ & Hg); cbn [goes_to] in Hg.
    + destruct Hg as (x & s' & _ & E & Hok' & _). exists s'. by erewrite prog_bind_step by exact E.
    + exists s. by erewrite prog_bind_step by exact Hg.
  - destruct Ha as (st & Hst & He). destruct (strans_on_exec id e st s Hok Hst He) as (x & s' & E & Hok' & _).
    exists s'. by erewrite prog_bind_step by exact E.
  - eexists. split; [done|]. apply elapse_ok; [|lia..|done]. intros; by eapply ok_later; [|done]; lia.
Qed.
End table.

(** ** Witnesses *)

Local Abbreviation demo_perform := (perform big_alloc (λ _, 0) demo_set None true).

Definition demo_empty : sip := Table (replicate (Z.to_nat (2 ^ 2)) []) ∅ ∅ 1 100 0.

Lemma sip_strans_table_witness : tab_ok demo_empty ∧ ∃ s', demo_perform (Reply (Some None) (from demo_call) true 180 (bytes_of "Ringing") None) demo_empty =
  Ret (tt, s') ∧ tab_ok s'.
Proof.
  destruct (sip_strans_table big_alloc (λ _, 0) demo_set None no_software true 2 100) as [Hempty Hop].
  assert (H0 : tab_ok demo_empty) by (apply Hempty; lia). split; [exact H0|].
  destruct (Hop demo_empty (Reply (Some None) (from demo_call) true 180 (bytes_of "Ringing") None) H0) as (s' & E & Hs').
  - split; [exact demo_call_ok|]. split; [lia|]. split; [split; [apply bytes_of_ok|by vm_compute]|]. split; [exact I|]. split; [intros id [=]|].
    intros _. by eexists.
  - exists s'. split; [exact E|exact Hs'].
Defined.

Lemma demo_empty_ok : tab_ok demo_empty.
Proof. apply (tab_new key st_ok 2 100); lia. Qed.

Lemma sip_treplyf_spec_witness : ∃ mb s',
  sip_treplyf big_alloc (λ _, 0) demo_set None true (Some None) (from demo_call) true 180 (bytes_of "Ringing") None demo_empty =
    Ret ((0, Some (Some 1%positive), Some mb), s') ∧ tab_ok s' ∧
  payload mb = reply_of None (from demo_call) true 180 (bytes_of "Ringing") None.
Proof.
  destruct (sip_treplyf_spec big_alloc (λ _, 0) demo_set None no_software true (Some None) (from demo_call) true 180 (bytes_of "Ringing") None
    demo_empty demo_empty_ok demo_call_ok) as (err & stp' & mbo & s' & E & Hok & _ & Hrep).
  - lia.
  - split; [apply bytes_of_ok|by vm_compute].
  - exact I.
  - intros id [=].
  - intros _. by eexists.
  - change (ending_fmt None) with (@None (list Z * list varg)) in E.
    assert (Hz : match sip_treplyf big_alloc (λ _, 0) demo_set None true (Some None) (from demo_call) true 180 (bytes_of "Ringing") None demo_empty
      with Ret ((e, _, _), _) => bool_decide (e = 0) | Fault _ => false end = true) by (vm_compute; reflexivity).
    rewrite E in Hz. apply bool_decide_eq_true_1 in Hz. subst err.
    destruct Hrep as [_ Hgood]; [by vm_compute|]. destruct (Hgood eq_refl) as (mb & dst & id & st & [-> _] & -> & _ & _ & -> & _ & Hpay).
    exists mb, s'. split; [exact E|]. split; [exact Hok|]. apply Hpay; [exact big_alloc_plenty|].
    split; [apply (bool_decide_eq_true_1 _)|]; vm_compute; [reflexivity|congruence].
Defined.

Lemma request_handler_spec_witness : ∃ s1 s2, tab_ok s1 ∧ request_handler big_alloc (λ _, 0) demo_set None (from demo_call) s1 = Ret (true, s2).
Proof.
  destruct (alloc_run true (from demo_call) true demo_empty demo_empty_ok demo_call_ok) as (s1 & _ & Hok & _ & _ & _ & _ & _ & _ & Hent).
  destruct (request_handler_spec big_alloc (λ _, 0) demo_set None no_software s1 (from demo_call) Hok demo_call_ok) as (r & Hr & Hg).
  assert (Hna : method_of (from demo_call) ≠ bytes_of "ACK") by (vm_compute; congruence).
  assert (Hnc : method_of (from demo_call) ≠ bytes_of "CANCEL") by (vm_compute; congruence).
  exists s1. destruct Hr as [? ? Ha|Ha|id st _ Hst _|? ? Ha|Ha|_ _ Hno]; try (exfalso; exact (Hna Ha)); try (exfalso; exact (Hnc Ha)).
  - destruct Hg as (st' & s2 & a & _ & E & _). exists s2. split; [exact Hok|exact E].
  - exfalso. apply (Hno _ _ Hent). split; [split|]; reflexivity.
Defined.
