(* ===== verification/Ctrans.v ===== *)
(** * SIP client transactions (src/re/src/sip/ctrans.c)

    A client transaction sends a request, repeats it over an unreliable
    transport, hands the responses to its handler and acknowledges the refusal
    of an INVITE.  A handler of the transaction runs on the transaction itself,
    and the table of all transactions of a stack is that of [Trans].  Timers are
    the times at which they expire, and fire from [tmr_poll].  The response
    handler is the last thing a step does to a transaction that can still be
    cancelled, so what it asks of the transaction is the next step. *)
From stdpp Require Import base tactics list numbers strings option gmap.
From S2P Require Import Prelude Mbuf Fmt Print MbufPrint Regex Uri Hash Sip SipPrint Trans.

Inductive state := TRYING | CALLING | PROCEEDING | COMPLETED.

#[export] Instance state_eq_dec : EqDecision state.
Proof. solve_decision. Defined.

Definition COMPLETE_WAIT : Z := 32000.

(** [struct sip_ctrans], without its list element and its back pointers. *)
Record sip_ctrans := Ctrans {
  ct_dst : sockaddr;
  ct_tmr : option Z;
  ct_tmre : option Z;
  ct_mb : mbuf;
  ct_mb_ack : option mbuf;
  ct_req : option sip_msg;
  ct_met : list Z;
  ct_branch : list Z;
  ct_tp : Z;
  ct_state : state;
  ct_txc : Z;
  ct_invite : bool
}.

#[export] Instance eta_sip_ctrans : Eta sip_ctrans := λ c,
  Ctrans (ct_dst c) (ct_tmr c) (ct_tmre c) (ct_mb c) (ct_mb_ack c) (ct_req c) (ct_met c) (ct_branch c) (ct_tp c)
    (ct_state c) (ct_txc c) (ct_invite c).

Definition set_tmr : option Z → sip_ctrans → sip_ctrans := ltac:(setter ct_tmr).
Definition set_tmre : option Z → sip_ctrans → sip_ctrans := ltac:(setter ct_tmre).
Definition set_mb : mbuf → sip_ctrans → sip_ctrans := ltac:(setter ct_mb).
Definition set_mb_ack : option mbuf → sip_ctrans → sip_ctrans := ltac:(setter ct_mb_ack).
Definition set_req : option sip_msg → sip_ctrans → sip_ctrans := ltac:(setter ct_req).
Definition set_state : state → sip_ctrans → sip_ctrans := ltac:(setter ct_state).
Definition set_txc : Z → sip_ctrans → sip_ctrans := ltac:(setter ct_txc).

(** What a transaction does to its surroundings: packets with the time, their
    bytes and the result of the transport, and calls of the response handler with the
    error and the status code of the message, if there is one. *)
Inductive packet := Request | Ack.
Inductive event :=
| Sent (at_ : Z) (what : packet) (bs : list Z) (err : Z)
| Reported (err : Z) (scode : option Z).

Abbreviation run := (trun sip_ctrans event).
Abbreviation sip := (table sip_ctrans event).

Definition respond (err : Z) (scode : option Z) : prog run unit := log (Reported err scode).

Definition start_tmr (delay : Z) : prog run unit :=
  now ← gets r_now; upd (set_tmr (Some (u64 (now + delay)))).
Definition start_tmre (delay : Z) : prog run unit :=
  now ← gets r_now; upd (set_tmre (Some (u64 (now + delay)))).

Section ctrans.
Context `{inet} (A : allocator).

(** The result of the nth packet handed to the transport, the parameters of the
    decoder, and the name the program gives itself. *)
Variable send : nat → Z.
Variable sa_set : list Z → option sockaddr.
Variables (hdr_mem : pl → bool) (msg_mem hash_mem : bool) (tag : Z).
Variable software : option (list Z).

(** [sip_send] on the transaction's transport. *)
Definition transp_send (what : packet) (mb : option mbuf) : prog run Z :=
  ct ← deref; packet_send send (λ now bs err, Sent now what bs err) (ct_tp ct) mb.

(** ** Copies of the request: ACK and CANCEL *)

(** The handler stops at an error of the buffer. *)
Definition route_handler (hdr : sip_hdr) (mb : outcome mbuf) : bool * outcome mbuf :=
  match mb with
  | Fault f => (true, Fault f)
  | Ret mb =>
      match mbuf_printf A (bytes_of "Route: %r" ++ crlf) [VPl (Some (h_val hdr))] mb with
      | Ret (err, mb) => (bool_decide (0 ≠ err), Ret mb)
      | Fault f => (true, Fault f)
      end
  end.

Definition routes (req : sip_msg) : prog mbuf Z := λ mb,
  q ← sip_msg_hdr_apply req true SIP_HDR_ROUTE route_handler (Ret mb);
  mb ← snd q;
  Ret (if bool_decide (is_Some (fst q)) then ENOMEM else 0, mb).

Definition copy_text (met : list Z) (req : sip_msg) (resp : option sip_msg) : prog mbuf Z :=
  e1 ← mbuf_printf A (bytes_of "%s %r SIP/2.0" ++ crlf) [VStr (Some met); VPl (Some (m_ruri req))];
  e2 ← mbuf_printf A (bytes_of "Via: %r" ++ crlf) [VPl (Some (v_val (m_via req)))];
  e3 ← write_str A (bytes_of "Max-Forwards: 70" ++ crlf);
  e4 ← routes req;
  e5 ← mbuf_printf A (bytes_of "To: %r" ++ crlf)
         [VPl (Some (match resp with Some resp => ta_val (m_to resp) | None => ta_val (m_to req) end))];
  e6 ← mbuf_printf A (bytes_of "From: %r" ++ crlf) [VPl (Some (ta_val (m_from req)))];
  e7 ← mbuf_printf A (bytes_of "Call-ID: %r" ++ crlf) [VPl (Some (m_callid req))];
  e8 ← mbuf_printf A (bytes_of "CSeq: %u %s" ++ crlf) [VInt (cs_num (m_cseq req)); VStr (Some met)];
  e9 ← match software with
       | Some sw => mbuf_printf A (bytes_of "User-Agent: %s" ++ crlf) [VStr (Some sw)]
       | None => mret 0
       end;
  e10 ← write_str A (bytes_of "Content-Length: 0" ++ crlf ++ crlf);
  mret (foldl Z.lor e1 [e2; e3; e4; e5; e6; e7; e8; e9; e10]).

(** The error and the copy. *)
Definition request_copy (met : list Z) (resp : option sip_msg) : prog run (Z * option mbuf) :=
  ct ← deref;
  err ← match ct_req ct with
        | Some _ => mret 0
        | None =>
            q ← lift (sip_msg_decode sa_set hdr_mem msg_mem hash_mem tag (ct_mb ct));
            let '(err, msg, mb) := q in
            upd (set_mb mb);;
            upd (set_req (if bool_decide (err = 0) then msg else None));;
            mret err
        end;
  if bool_decide (err ≠ 0) then mret (err, None)
  else
    ct ← deref;
    match mbuf_alloc A 1024, ct_req ct with
    | None, _ => mret (ENOMEM, None)
    | Some mb, None => crash NullDeref
    | Some mb, Some req =>
        q ← lift (copy_text met req resp mb);
        mret (fst q, if bool_decide (fst q = 0) then Some (mbuf_set_pos (snd q) 0) else None)
    end.

(** ** Handlers *)

Definition terminate (err : Z) : prog run unit :=
  ct ← deref;
  match ct_state ct with
  | TRYING | CALLING | PROCEEDING => respond err None
  | COMPLETED => skip
  end.

Definition transport_handler (err : Z) : prog run unit := terminate err;; destroy.

Definition tmr_handler : prog run unit := terminate ETIMEDOUT;; destroy.

Definition retransmit (timeout : Z) : prog run unit :=
  start_tmre timeout;;
  ct ← deref;
  err ← transp_send Request (Some (ct_mb ct));
  if bool_decide (err ≠ 0) then terminate err;; destroy else skip.

Definition retransmit_handler : prog run unit :=
  upd (λ ct, set_txc (u32 (ct_txc ct + 1)) ct);;
  ct ← deref;
  match ct_state ct with
  | TRYING => t ← shifted (ct_txc ct); retransmit (Z.min t SIP_T2)
  | CALLING => t ← shifted (ct_txc ct); retransmit t
  | PROCEEDING => retransmit SIP_T2
  | COMPLETED => skip
  end.

Definition invite_response (msg : sip_msg) : prog run unit :=
  ct ← deref;
  match ct_state ct with
  | CALLING | PROCEEDING =>
      (if bool_decide (ct_state ct = CALLING) then upd (set_tmr None);; upd (set_tmre None) else skip);;
      if bool_decide (m_scode msg < 200) then
        upd (set_state PROCEEDING);; respond 0 (Some (m_scode msg))
      else if bool_decide (m_scode msg < 300) then
        respond 0 (Some (m_scode msg));; destroy
      else
        upd (set_state COMPLETED);;
        q ← request_copy (bytes_of "ACK") (Some msg);
        (if bool_decide (fst q = 0) then upd (set_mb_ack (snd q)) else skip);;
        ct ← deref;
        transp_send Ack (ct_mb_ack ct);;
        respond 0 (Some (m_scode msg));;
        if sip_transp_reliable (ct_tp ct) then destroy
        else start_tmr COMPLETE_WAIT
  | COMPLETED =>
      if bool_decide (m_scode msg < 300) then skip
      else transp_send Ack (ct_mb_ack ct);; skip
  | TRYING => skip
  end.

(** The rest of [response_handler], for the transaction it has found. *)
Definition response (msg : sip_msg) : prog run unit :=
  ct ← deref;
  if ct_invite ct then invite_response msg
  else
    match ct_state ct with
    | TRYING | PROCEEDING =>
        if bool_decide (m_scode msg < 200) then
          upd (set_state PROCEEDING);; respond 0 (Some (m_scode msg))
        else
          upd (set_state COMPLETED);;
          respond 0 (Some (m_scode msg));;
          if sip_transp_reliable (ct_tp ct) then destroy
          else start_tmr SIP_T4;; upd (set_tmre None)
    | _ => skip
    end.

(** [sip_ctrans_request] from the first packet on: the error. *)
Definition begin : prog run Z :=
  ct ← deref;
  err ← transp_send Request (Some (ct_mb ct));
  if bool_decide (err ≠ 0) then destroy;; mret err
  else
    start_tmr (64 * SIP_T1);;
    (if sip_transp_reliable (ct_tp ct) then skip else start_tmre SIP_T1);;
    mret 0.

Definition ctrans_new (tp : Z) (dst : sockaddr) (met branch : list Z) (mb : mbuf) : sip_ctrans :=
  let invite := bool_decide (met = bytes_of "INVITE") in
  Ctrans dst None None mb None None met branch tp (if invite then CALLING else TRYING) 0 invite.

(** The first half of [sip_ctrans_cancel]: the error and the copy to send. *)
Definition cancel_copy : prog run (Z * option mbuf) :=
  ct ← deref;
  if negb (ct_invite ct) then mret (0, None)
  else
    match ct_state ct with
    | PROCEEDING =>
        start_tmr (64 * SIP_T1);;
        if negb (alloc_ok A 7) then mret (ENOMEM, None) else request_copy (bytes_of "CANCEL") None
    | _ => mret (EPROTO, None)
    end.

(** ** One transaction's steps

    [tmr_poll] stops a timer before it calls its handler. *)
Inductive life :=
| Timeout
| Retransmit
| Transport (err : Z)
| Response (msg : sip_msg)
| Cancel.

Definition exec (e : life) : prog run (Z * option mbuf) :=
  let no : Z * option mbuf := (0, None) in
  match e with
  | Timeout => upd (set_tmr None);; tmr_handler;; mret no
  | Retransmit => upd (set_tmre None);; retransmit_handler;; mret no
  | Transport err => transport_handler err;; mret no
  | Response msg => response msg;; mret no
  | Cancel => cancel_copy
  end.

(** ** The table of a stack *)

(** Whether the allocation of a transaction succeeds. *)
Variable ct_mem : bool.

(** The error, and the transaction if there is none. *)
Definition sip_ctrans_request (tp : Z) (dst : option sockaddr) (met branch : option (list Z)) (mb : option mbuf) :
    prog sip (Z * option positive) :=
  match dst, met, branch, mb with
  | Some dst, Some met, Some branch, Some mb =>
      if negb ct_mem then mret (ENOMEM, None)
      else
        id ← enter (hash_joaat_str branch) (ctrans_new tp dst met branch mb);
        err ← on id begin;
        mret (err, if bool_decide (err = 0) then Some id else None)
  | _, _, _, _ => mret (EINVAL, None)
  end.

Definition cmp_handler (s : sip) (msg : sip_msg) (id : positive) : outcome bool :=
  ct ← of_option UseAfterFree (entries s !! id);
  e ← pl_strcmp (v_branch (m_via msg)) (Some (ct_branch ct));
  if bool_decide (e ≠ 0) then Ret false
  else e ← pl_strcmp (cs_met (m_cseq msg)) (Some (ct_met ct)); Ret (bool_decide (e = 0)).

Definition response_handler (msg : sip_msg) : prog sip bool :=
  key ← lift (hash_joaat_pl (Some (v_branch (m_via msg))));
  id ← lookup_in key (λ s, cmp_handler s msg);
  match id with
  | None => mret false
  | Some id => on id (exec (Response msg));; mret true
  end.

Definition sip_ctrans_cancel (id : option positive) : prog sip Z :=
  match id with
  | None => mret EINVAL
  | Some id =>
      s ← get;
      ct ← lift (of_option UseAfterFree (entries s !! id));
      q ← on id (exec Cancel);
      match snd q with
      | None => mret (fst q)
      | Some mb =>
          r ← sip_ctrans_request (ct_tp ct) (Some (ct_dst ct)) (Some (bytes_of "CANCEL")) (Some (ct_branch ct)) (Some mb);
          mret (fst r)
      end
  end.
End ctrans.
