(* ===== verification/CtransCopy.v ===== *)
(** * The copies of a request a client transaction sends

    An ACK and a CANCEL are made from the headers of the request
    ([request_copy] of ctrans.c).  Whichever allocations fail the copy returns;
    when none does, its text is the one the standard prescribes. *)
From stdpp Require Import base tactics list numbers strings option gmap.
From S2P Require Import Prelude Mbuf Fmt Print MbufPrint Regex Uri Hash Sip SipSafe SipLines SipMsg SipPrint Trans Ctrans.

Section copy.
Context (A : allocator).

(** The Route headers, one line each. *)
Definition route_line (hdr : sip_hdr) : list Z := bytes_of "Route: " ++ pl_text (h_val hdr) ++ crlf.

Lemma route_handler_run hdr mb e mb' :
  mbuf_printf A (bytes_of "Route: %r" ++ crlf) [VPl (Some (h_val hdr))] mb = Ret (e, mb') →
  route_handler A hdr (Ret mb) = (bool_decide (0 ≠ e), Ret mb').
Proof. unfold route_handler. by intros ->. Qed.

Lemma routes_walk l :
  Forall (λ h, ∃ pc, prints_as (h_val h) pc) l →
  emits A (λ mb, q ← hdr_apply (λ _, Ret false) (route_handler A) l (Ret mb); mb ← snd q;
             Ret (if bool_decide (is_Some (fst q)) then ENOMEM else 0, mb)) (concat (map route_line l)).
Proof.
  induction 1 as [|h l [pc Hpc] _ [IHk IHt]].
  { split; [intros _|intros _ _ k]; cbn [hdr_apply mbind outcome_bind fst snd]; rewrite bool_decide_eq_false_2 by (by intros [? ?]).
    - intros mb Hmb. by eexists _, _.
    - intros mb Hmb _. exists mb. cbn [map concat]. by rewrite app_nil_r. }
  destruct (emits_line A (bytes_of "Route: ") (h_val h) pc) as [K T]; [|split; [|done]|exact Hpc|].
  { apply (bool_decide_eq_true_1 _). vm_compute. done. }
  { apply (bool_decide_eq_true_1 _). vm_compute. done. }
  split.
  - intros HA mb Hmb. destruct (K HA mb Hmb) as (e & mb1 & E & Hmb1). apply route_handler_run in E.
    cbn [hdr_apply mbind outcome_bind]. rewrite E. case_bool_decide.
    + cbn [mbind outcome_bind fst snd]. by eexists _, _.
    + exact (IHk HA mb1 Hmb1).
  - intros HA Hp k mb Hk Hok. cbn [map concat] in *. rewrite app_assoc in Hok.
    destruct (T HA Hp k mb Hk) as (mb1 & E & Hk1).
    { by apply text_ok_prefix in Hok. }
    apply route_handler_run in E. cbn [hdr_apply mbind outcome_bind]. rewrite E. rewrite (bool_decide_eq_false_2 (0 ≠ 0)) by lia.
    destruct (IHt HA Hp _ mb1 Hk1 Hok) as (mb2 & E2 & Hk2). exists mb2. split; [exact E2|]. by rewrite app_assoc.
Qed.

(** ** The whole copy *)

Variable software : option (list Z).

Definition copy_of (met : list Z) (req : sip_msg) (resp : option sip_msg) : list Z :=
  (met ++ bytes_of " " ++ pl_text (m_ruri req) ++ bytes_of " SIP/2.0" ++ crlf) ++
  (bytes_of "Via: " ++ pl_text (v_val (m_via req)) ++ crlf) ++
  (bytes_of "Max-Forwards: 70" ++ crlf) ++
  concat (map route_line (headers_of SIP_HDR_ROUTE req)) ++
  (bytes_of "To: " ++ pl_text (match resp with Some r => ta_val (m_to r) | None => ta_val (m_to req) end) ++ crlf) ++
  (bytes_of "From: " ++ pl_text (ta_val (m_from req)) ++ crlf) ++
  (bytes_of "Call-ID: " ++ pl_text (m_callid req) ++ crlf) ++
  (bytes_of "CSeq: " ++ dec_text (cs_num (m_cseq req)) ++ bytes_of " " ++ met ++ crlf) ++
  match software with Some sw => bytes_of "User-Agent: " ++ sw ++ crlf | None => [] end ++
  (bytes_of "Content-Length: 0" ++ crlf ++ crlf).

Lemma emits_start met p pc : short met → prints_as p pc →
  emits A (mbuf_printf A (bytes_of "%s %r SIP/2.0" ++ crlf) [VStr (Some met); VPl (Some p)])
    (met ++ bytes_of " " ++ pl_text p ++ bytes_of " SIP/2.0" ++ crlf).
Proof using. clear software.
  intros Hm (Ef & Ea & Hp & Hk & Et).
  replace (met ++ _) with (text_of [PStr met; PLit (bytes_of " "); pc; PLit (bytes_of " SIP/2.0" ++ crlf)]).
  2: { unfold text_of. cbn [map concat piece_text]. by rewrite Et, app_nil_r. }
  assert (Hc : Forall (λ b, b ≠ chr "%") (bytes_of " ")) by closed.
  assert (Hc2 : Forall (λ b, b ≠ chr "%") (bytes_of " SIP/2.0" ++ crlf)) by closed.
  apply emits_printf; [| |by pieces|by pieces|].
  - unfold fmt_of. cbn [map concat piece_fmt]. by rewrite Ef, app_nil_r.
  - unfold args_of. cbn [map concat piece_args]. by rewrite Ea.
  - split; closed.
Qed.

Lemma emits_cseq met n : short met → 0 ≤ n < 2 ^ 32 →
  emits A (mbuf_printf A (bytes_of "CSeq: %u %s" ++ crlf) [VInt n; VStr (Some met)])
    (bytes_of "CSeq: " ++ dec_text n ++ bytes_of " " ++ met ++ crlf).
Proof using. clear software.
  intros Hm Hn. replace (bytes_of "CSeq: " ++ _) with
    (text_of [PLit (bytes_of "CSeq: "); PUns n; PLit (bytes_of " "); PStr met; PLit crlf]).
  2: { unfold text_of. cbn [map concat piece_text]. by rewrite app_nil_r. }
  assert (Hc : Forall (λ b, b ≠ chr "%") (bytes_of " ")) by closed.
  assert (Hc1 : Forall (λ b, b ≠ chr "%") (bytes_of "CSeq: ")) by closed.
  assert (Hc2 : Forall (λ b, b ≠ chr "%") crlf) by closed.
  pose proof (dec_text_short n Hn).
  apply emits_printf; [done|done|by pieces|by pieces|split; closed].
Qed.

Lemma emits_routes req : msg_ok req →
  emits A (routes A req) (concat (map route_line (headers_of SIP_HDR_ROUTE req))).
Proof using. clear software.
  intros (m & lim & Hlim & Hm & Hin). pose proof Hin as (Ht & _ & Hh & _).
  assert (Hl : Forall (λ h, ∃ pc, prints_as (h_val h) pc) (headers_of SIP_HDR_ROUTE req)).
  { unfold headers_of. destruct (hash_list_run (m_hdrht req) (u32 SIP_HDR_ROUTE) Ht) as (l & -> & El).
    apply Forall_forall. intros h [_ Hi]%list_elem_of_filter. apply (hdr_in_piece m lim); [done|done|].
    rewrite Forall_forall in Hh. assert (Hl : l ∈ m_hdrht req) by by eapply list_elem_of_lookup_2.
    pose proof (Hh l Hl) as Hf. rewrite Forall_forall in Hf. by apply Hf. }
  destruct (routes_walk _ Hl) as [K T]. split.
  - intros HA mb Hmb. unfold routes. rewrite hdr_apply_run by done. by apply K.
  - intros HA Hp k mb Hk Hok. unfold routes. rewrite hdr_apply_run by done. by apply T.
Qed.

Lemma copy_emits met req resp :
  short met → msg_ok req → (∀ r, resp = Some r → msg_ok r) → (∀ sw, software = Some sw → short sw) →
  emits A (copy_text A software met req resp) (copy_of met req resp).
Proof using.
  intros Hmet Hreq Hresp Hsw. pose proof Hreq as (m & lim & Hlim & Hm & Hin).
  destruct Hin as (_ & _ & _ & _ & _ & Hruri & _ & Hcid & _ & _ & _ & _ & [Hvia _] & [Hto _] & [Hfrom _] & [_ Hcseq] & _).
  destruct (pointer_piece m lim _ Hlim Hm Hruri) as [pc1 P1]. destruct (pointer_piece m lim _ Hlim Hm Hvia) as [pc2 P2].
  destruct (pointer_piece m lim _ Hlim Hm Hfrom) as [pc4 P4]. destruct (pointer_piece m lim _ Hlim Hm Hcid) as [pc5 P5].
  assert (∃ pc, prints_as (match resp with Some r => ta_val (m_to r) | None => ta_val (m_to req) end) pc) as [pc3 P3].
  { destruct resp as [r|]; [|by apply (pointer_piece m lim)]. destruct (Hresp r eq_refl) as (m' & lim' & Hlim' & Hm' & Hin').
    apply (pointer_piece m' lim'); [done|done|]. destruct Hin' as (_ & _ & _ & _ & _ & _ & _ & _ & _ & _ & _ & _ & _ & [Hto' _] & _). exact Hto'. }
  pose proof (emits_start met _ _ Hmet P1) as E1.
  assert (E2 := emits_line A (bytes_of "Via: ") _ _ ltac:(closed) ltac:(split; closed) P2).
  assert (E3 := emits_str A (bytes_of "Max-Forwards: 70" ++ crlf) ltac:(split; closed)).
  pose proof (emits_routes req Hreq) as E4.
  assert (E5 := emits_line A (bytes_of "To: ") _ _ ltac:(closed) ltac:(split; closed) P3).
  assert (E6 := emits_line A (bytes_of "From: ") _ _ ltac:(closed) ltac:(split; closed) P4).
  assert (E7 := emits_line A (bytes_of "Call-ID: ") _ _ ltac:(closed) ltac:(split; closed) P5).
  pose proof (emits_cseq met (cs_num (m_cseq req)) Hmet Hcseq) as E8.
  assert (E9 := emits_agent A (bytes_of "User-Agent: ") software Hsw ltac:(closed) ltac:(split; closed)).
  assert (E10 := emits_str A (bytes_of "Content-Length: 0" ++ crlf ++ crlf) ltac:(split; closed)).
  split.
  - intros HA. unfold copy_text. do 10 (apply keeps_bind; [by eapply emits_keeps|intros ?]). apply keeps_ret.
  - intros HA Hp. unfold copy_text, copy_of. rewrite <- (app_nil_r (bytes_of "Content-Length: 0" ++ _)).
    do 10 (eapply prints_bind; [by eapply emits_text|]). apply (emits_text _ _ _ _ (emits_ret A) HA Hp).
Qed.
End copy.

(** ** [request_copy] *)

(** The request a transaction has kept, and its buffers. *)
Definition req_ok (req : option sip_msg) : Prop := match req with Some r => msg_ok r | None => True end.

Section request.
Context `{inet} (A : allocator) `{!allocator_ok A}.
Context (sa_set : list Z → option sockaddr) (hdr_mem : pl → bool) (msg_mem hash_mem : bool) (tag : Z).
Context (software : option (list Z)) (Hsw : ∀ sw, software = Some sw → short sw).

Local Abbreviation request_copy := (request_copy A sa_set hdr_mem msg_mem hash_mem tag software).

(** The copy made of a decoded request. *)
Lemma copy_run req met resp ct now n l :
  ct_req ct = Some req → short met → msg_ok req → (∀ r, resp = Some r → msg_ok r) →
  ∃ err mbo, request_copy met resp (Run (Some ct) now n l) = Ret ((err, mbo), Run (Some ct) now n l) ∧
    (err ≠ 0 → mbo = None) ∧ (err = 0 → ∃ mb, mbo = Some mb ∧ mbuf_wf mb) ∧
    (plenty A → text_ok (copy_of software met req resp) → err = 0 ∧ ∃ mb, mbo = Some mb ∧ payload mb = copy_of software met req resp).
Proof using allocator_ok0 Hsw.
  intros Er Hmet Hreq Hresp. destruct (copy_emits A software met req resp Hmet Hreq Hresp Hsw) as [K T].
  unfold request_copy. erewrite prog_bind_step by done. rewrite Er. erewrite prog_bind_step by done.
  rewrite (bool_decide_eq_false_2 (0 ≠ 0)) by lia. erewrite prog_bind_step by done. rewrite Er.
  destruct (mbuf_alloc A 1024) as [mb0|] eqn:Ea.
  2: { exists ENOMEM, None. split; [done|]. split; [done|]. split; [done|]. intros Hp _.
    destruct (mbuf_alloc_filled A Hp 1024) as (mb & E & _); [lia|congruence]. }
  assert (Hwf : mbuf_wf mb0) by (apply (mbuf_alloc_keeps A 1024); [unfold max_alloc; lia|done]).
  destruct (K _ mb0 Hwf) as (err & mb1 & E & Hwf1).
  erewrite prog_bind_step by (by apply lift_Ret). cbn [fst snd].
  eexists err, _. split; [done|]. split; [intros; by rewrite bool_decide_eq_false_2|].
  assert (Hset : mbuf_wf (mbuf_set_pos mb1 0)).
  { destruct Hwf1 as [(H1 & H2 & H3 & H4 & H5) H6]. split; [|cbn; lia]. split_and!; try done; cbn; unfold max_alloc; lia. }
  split; [intros ->; rewrite bool_decide_eq_true_2 by done; by eexists|]. intros Hp Hok.
  destruct (mbuf_alloc_filled A Hp 1024) as (mb & Ea' & Hf); [lia|]. rewrite Ea in Ea'. injection Ea' as <-.
  destruct (T _ Hp [] mb0 Hf Hok) as (mb2 & E2 & Hf2). rewrite E in E2. injection E2 as -> ->. split; [done|].
  rewrite bool_decide_eq_true_2 by done. eexists. split; [done|]. by apply filled_payload.
Qed.

(** With any allocator and whether or not the request was decoded before:
    [request_copy] returns, and only fills in the decoded request. *)
Lemma request_copy_run met resp ct now n l :
  mbuf_wf (ct_mb ct) → req_ok (ct_req ct) → short met → (∀ r, resp = Some r → msg_ok r) →
  ∃ err mbo mb req, request_copy met resp (Run (Some ct) now n l) =
      Ret ((err, mbo), Run (Some (set_req req (set_mb mb ct))) now n l) ∧
    mbuf_wf mb ∧ req_ok req ∧ (err ≠ 0 → mbo = None) ∧ (err = 0 → ∃ mb, mbo = Some mb ∧ mbuf_wf mb).
Proof using allocator_ok0 Hsw.
  intros Hmb Hreq Hmet Hresp. destruct (ct_req ct) as [req|] eqn:Er.
  { destruct (copy_run req met resp ct now n l) as (err & mbo & E & H1 & H2 & _); [done..|].
    exists err, mbo, (ct_mb ct), (Some req). rewrite E. split; [|done]. destruct ct; cbn in *; by subst. }
  destruct (sip_msg_decode_in sa_set hdr_mem msg_mem hash_mem tag (ct_mb ct) Hmb) as (err & msg & mb' & E & Hbad & Hgood).
  destruct (decide (err = 0)) as [->|Hne].
  - destruct (Hgood eq_refl) as (msg' & -> & Emb & Hpos & buf & Eb & Hin).
    assert (Hok : msg_ok msg').
    { eapply (decoded_msg_ok (ct_mb ct) (mb_pos (ct_mb ct))); [done|exact Eb| | |exact Hin]; destruct Hmb as [(?&?&?&?&?) ?]; lia. }
    set (ct' := set_req (Some msg') (set_mb mb' ct)).
    destruct (copy_run msg' met resp ct' now n l) as (err & mbo & E2 & H1 & H2 & _); [done..|].
    exists err, mbo, mb', (Some msg'). split; [|split; [|done]].
    + etrans; [|exact E2]. unfold request_copy, Ctrans.request_copy. erewrite prog_bind_step by done. rewrite Er.
      erewrite prog_bind_step; [|erewrite prog_bind_step by (by apply lift_Ret); cbn beta iota; done].
      erewrite (prog_bind_step (deref) _ (Run (Some ct') _ _ _)) by done. done.
    + rewrite Emb. destruct Hmb as [(?&?&?&?&?) ?]. split; [|cbn; lia]. split_and!; try done; cbn; lia.
  - destruct (Hbad Hne) as [-> ->]. exists err, None, (ct_mb ct), None. split; [|split; [done|split; [done|split; [done|lia]]]].
    unfold request_copy, Ctrans.request_copy. erewrite prog_bind_step by done. rewrite Er.
    erewrite prog_bind_step; [|erewrite prog_bind_step by (by apply lift_Ret); cbn beta iota; done].
    rewrite bool_decide_eq_true_2 by done. rewrite (bool_decide_eq_false_2 (err = 0)) by done. done.
Qed.

(** Where the request of a transaction stands after [request_copy] asked for
    it: the kept one, or what the message the transaction sent decodes to. *)
Definition request_of (ct : sip_ctrans) : outcome (Z * option sip_msg * mbuf) :=
  match ct_req ct with
  | Some req => Ret (0, Some req, ct_mb ct)
  | None => sip_msg_decode sa_set hdr_mem msg_mem hash_mem tag (ct_mb ct)
  end.

Lemma request_of_run ct :
  mbuf_wf (ct_mb ct) → req_ok (ct_req ct) →
  ∃ err req mb, request_of ct = Ret (err, req, mb) ∧
    (err ≠ 0 → ct_req ct = None ∧ req = None ∧ mb = ct_mb ct) ∧ (err = 0 → ∃ msg, req = Some msg ∧ msg_ok msg).
Proof using Type.
  intros Hmb Hreq. unfold request_of. destruct (ct_req ct) as [r|] eqn:Er.
  { exists 0, (Some r), (ct_mb ct). split_and!; [done|done|]. intros _. by exists r. }
  destruct (sip_msg_decode_in sa_set hdr_mem msg_mem hash_mem tag (ct_mb ct) Hmb) as (err & msg & mb' & E & Hbad & Hgood).
  exists err, msg, mb'. split_and!; [done| |].
  - intros Hne. by destruct (Hbad Hne) as [-> ->].
  - intros He. destruct (Hgood He) as (msg' & -> & Emb & Hpos & buf & Eb & Hin). exists msg'. split; [done|].
    eapply (decoded_msg_ok (ct_mb ct) (mb_pos (ct_mb ct))); [done|exact Eb| | |exact Hin]; destruct Hmb as [(?&?&?&?&?) ?]; lia.
Qed.

(** C11: an ACK or a CANCEL is made from the request of its transaction, which
    the first copy decodes from the text the transaction sent and keeps.  If
    that text is refused the copy fails with its error and the transaction is
    left as it was.  Otherwise the copy is the request line with the new method
    and the URI of the request, its top Via alone, Max-Forwards 70, its Route
    headers in their order, the To of the response for an ACK and of the request
    for a CANCEL, its From, its Call-ID, its sequence number with the new
    method, the name of the program where one is set, and no body. *)
Theorem request_copy_spec met resp ct now n l :
  plenty A → mbuf_wf (ct_mb ct) → req_ok (ct_req ct) → short met → (∀ r, resp = Some r → msg_ok r) →
  ∃ err req mb, request_of ct = Ret (err, req, mb) ∧
    (err ≠ 0 → request_copy met resp (Run (Some ct) now n l) = Ret ((err, None), Run (Some ct) now n l)) ∧
    (err = 0 → ∃ msg, req = Some msg ∧
      (text_ok (copy_of software met msg resp) →
       ∃ cp, request_copy met resp (Run (Some ct) now n l) =
           Ret ((0, Some cp), Run (Some (set_req (Some msg) (set_mb mb ct))) now n l) ∧
         payload cp = copy_of software met msg resp)).
Proof using allocator_ok0 Hsw.
  intros Hp Hmb Hreq Hmet Hresp. destruct (request_of_run ct Hmb Hreq) as (err & req & mb & E & Hbad & Hgood).
  exists err, req, mb. split; [done|]. split.
  - intros Hne. destruct (Hbad Hne) as (Er & -> & ->). unfold request_of in E. rewrite Er in E.
    unfold request_copy, Ctrans.request_copy. erewrite prog_bind_step by done. rewrite Er.
    erewrite prog_bind_step; [|erewrite prog_bind_step by (by apply lift_Ret); cbn beta iota; done].
    rewrite bool_decide_eq_true_2 by done. rewrite (bool_decide_eq_false_2 (err = 0)) by done.
    destruct ct; cbn in Er |- *. by subst.
  - intros ->. destruct (Hgood eq_refl) as (msg & -> & Hmsg). exists msg. split; [done|]. intros Hok.
    destruct (copy_run msg met resp (set_req (Some msg) (set_mb mb ct)) now n l) as (err & mbo & E2 & _ & _ & H3); [done..|].
    destruct (H3 Hp Hok) as (-> & cp & -> & Hcp). exists cp. split; [|done]. rewrite <- E2.
    unfold request_of in E. destruct (ct_req ct) as [r|] eqn:Er.
    + injection E as <- <-. destruct ct; cbn in Er |- *. by subst.
    + unfold request_copy, Ctrans.request_copy. erewrite prog_bind_step by done. rewrite Er.
      erewrite prog_bind_step; [|erewrite prog_bind_step by (by apply lift_Ret); cbn beta iota; done].
      erewrite (prog_bind_step (deref) _ (Run (Some (set_req (Some msg) (set_mb mb ct))) _ _ _)) by done. done.
Qed.
End request.

(** ** Witnesses

    A request and a response to it, as text. *)
Definition demo_invite : list Z :=
  line "INVITE sip:bob@10.0.0.1 SIP/2.0" ++ line "Via: SIP/2.0/UDP 10.0.0.2:5060;branch=z9hG4bK7" ++
  line "Via: SIP/2.0/UDP 10.0.0.3;branch=z9hG4bK1" ++ line "Route: <sip:10.0.0.4;lr>, <sip:10.0.0.5;lr>" ++
  line "To: <sip:bob@10.0.0.1>" ++ line "From: <sip:al@10.0.0.2>;tag=1" ++ line "Call-ID: c1" ++ line "CSeq: 7 INVITE" ++ crlf.

Definition demo_busy : list Z :=
  line "SIP/2.0 486 Busy Here" ++ line "Via: SIP/2.0/UDP 10.0.0.2:5060;branch=z9hG4bK7" ++ line "To: <sip:bob@10.0.0.1>;tag=9" ++
  line "From: <sip:al@10.0.0.2>;tag=1" ++ line "Call-ID: c1" ++ line "CSeq: 7 INVITE" ++ crlf.

Lemma demo_invite_wf : mbuf_wf (mbuf_of demo_invite).
Proof. apply (bool_decide_eq_true_1 _). vm_compute. reflexivity. Qed.

Lemma demo_invite_ok : msg_ok (msg_of demo_invite).
Proof. apply msg_of_ok; [exact demo_invite_wf|vm_compute; reflexivity]. Qed.

Lemma demo_busy_ok : msg_ok (msg_of demo_busy).
Proof. apply msg_of_ok; [apply (bool_decide_eq_true_1 _)|]; vm_compute; reflexivity. Qed.

Definition demo_ack : list Z :=
  line "ACK sip:bob@10.0.0.1 SIP/2.0" ++ line "Via: SIP/2.0/UDP 10.0.0.2:5060;branch=z9hG4bK7" ++ line "Max-Forwards: 70" ++
  line "Route: <sip:10.0.0.4;lr>" ++ line "Route: <sip:10.0.0.5;lr>" ++ line "To: <sip:bob@10.0.0.1>;tag=9" ++
  line "From: <sip:al@10.0.0.2>;tag=1" ++ line "Call-ID: c1" ++ line "CSeq: 7 ACK" ++ line "User-Agent: dialer" ++
  line "Content-Length: 0" ++ crlf.

Definition demo_dst : sockaddr := SockAddr (Some (bytes_of "10.0.0.1")) 5060 false.

(** A transaction before its first copy, and after it. *)
Definition demo_fresh : sip_ctrans :=
  ctrans_new SIP_TRANSP_UDP demo_dst (bytes_of "INVITE") (bytes_of "z9hG4bK7") (mbuf_of demo_invite).

Definition demo_ctrans : sip_ctrans := set_req (Some (msg_of demo_invite)) demo_fresh.

Lemma demo_software : ∀ sw, Some (bytes_of "dialer") = Some sw → short sw.
Proof. intros sw Esw. apply (inj Some) in Esw as <-. split; [apply bytes_of_ok|by vm_compute]. Qed.

Lemma request_copy_spec_witness :
  ct_req demo_fresh = None ∧
  ∃ cp mb, request_copy (H := digits_only) big_alloc demo_set (λ _, true) true true 7 (Some (bytes_of "dialer"))
      (bytes_of "ACK") (Some (msg_of demo_busy)) (Run (Some demo_fresh) 0 1 []) =
      Ret ((0, Some cp), Run (Some (set_req (Some (msg_of demo_invite)) (set_mb mb demo_fresh))) 0 1 []) ∧
    payload cp = demo_ack.
Proof.
  split; [reflexivity|].
  assert (Et : copy_of (Some (bytes_of "dialer")) (bytes_of "ACK") (msg_of demo_invite) (Some (msg_of demo_busy)) = demo_ack)
    by (vm_compute; reflexivity).
  assert (Ed : match request_of (H := digits_only) demo_set (λ _, true) true true 7 demo_fresh with
    Ret (e, r, _) => e = 0 ∧ r = Some (msg_of demo_invite) | Fault _ => False end) by (vm_compute; split; reflexivity).
  destruct (request_copy_spec (H := digits_only) big_alloc demo_set (λ _, true) true true 7 (Some (bytes_of "dialer"))
    demo_software (bytes_of "ACK") (Some (msg_of demo_busy)) demo_fresh 0 1 []) as (err & req & mb & E & _ & Hgood).
  - exact big_alloc_plenty.
  - exact demo_invite_wf.
  - exact I.
  - split; [apply bytes_of_ok|by vm_compute].
  - intros r Er. apply (inj Some) in Er as <-. exact demo_busy_ok.
  - rewrite E in Ed. destruct Ed as [-> ->]. destruct (Hgood eq_refl) as (msg & Em & Hcp). apply (inj Some) in Em as <-.
    destruct Hcp as (cp & E2 & Hpay).
    { rewrite Et. split; [apply (bool_decide_eq_true_1 _)|]; vm_compute; [reflexivity|congruence]. }
    exists cp, mb. rewrite <- Et. split; [exact E2|exact Hpay].
Defined.
