(* ===== verification/CtransLife.v ===== *)
(** * The life of a client transaction

    Whatever the peer answers, whichever packets or allocations fail and
    whatever the order of timers, responses and cancellations, a client
    transaction reports provisional answers and then exactly one final result,
    and repeats its request a bounded number of times. *)
From stdpp Require Import base tactics list numbers strings option gmap relations.
From S2P Require Import Prelude Mbuf Fmt Print MbufPrint Regex Uri Hash Sip SipSafe SipLines SipMsg SipPrint Trans Ctrans CtransCopy.

(** ** What a log says *)

Definition requests (l : list event) : list (list Z) :=
  omap (λ e, match e with Sent _ Request bs _ => Some bs | _ => None end) l.
Definition acks (l : list event) : list (list Z) :=
  omap (λ e, match e with Sent _ Ack bs _ => Some bs | _ => None end) l.
Definition reports (l : list event) : list (Z * option Z) :=
  omap (λ e, match e with Reported err sc => Some (err, sc) | _ => None end) l.

Definition provisional (r : Z * option Z) : Prop := ∃ sc, r = (0, Some sc) ∧ sc < 200.
Definition final (r : Z * option Z) : Prop := (∃ err, r = (err, None) ∧ err ≠ 0) ∨ (∃ sc, r = (0, Some sc) ∧ 200 ≤ sc).

(** Provisional answers and one final result. *)
Definition finished (rs : list (Z * option Z)) : Prop := ∃ ps f, rs = ps ++ [f] ∧ Forall provisional ps ∧ final f.

Lemma requests_app l1 l2 : requests (l1 ++ l2) = requests l1 ++ requests l2.
Proof. apply omap_app. Qed.
Lemma acks_app l1 l2 : acks (l1 ++ l2) = acks l1 ++ acks l2.
Proof. apply omap_app. Qed.
Lemma reports_app l1 l2 : reports (l1 ++ l2) = reports l1 ++ reports l2.
Proof. apply omap_app. Qed.

(** What a step may do at a time: a timer fires when it is due, the earlier of
    two first. *)
Definition enabled (e : life) (ct : sip_ctrans) (now : Z) : Prop :=
  match e with
  | Timeout => ∃ t, ct_tmr ct = Some t ∧ t ≤ now ∧ ∀ t', ct_tmre ct = Some t' → t ≤ t'
  | Retransmit => ∃ t, ct_tmre ct = Some t ∧ t ≤ now ∧ ∀ t', ct_tmr ct = Some t' → t ≤ t'
  | Transport err => err ≠ 0
  | Response msg => msg_ok msg
  | Cancel => True
  end.

Section life.
Context `{inet} (A : allocator) `{!allocator_ok A} (send : nat → Z).
Context (sa_set : list Z → option sockaddr) (hdr_mem : pl → bool) (msg_mem hash_mem : bool) (tag : Z).
Context (software : option (list Z)) (Hsw : ∀ sw, software = Some sw → short sw).

Local Abbreviation exec := (exec A send sa_set hdr_mem msg_mem hash_mem tag software).

(** ** The invariant

    The transaction was started at [t0] as [ct0]. *)
Variables (t0 : Z) (ct0 : sip_ctrans).
Local Abbreviation text := (payload (ct_mb ct0)).

Definition fixed (ct : sip_ctrans) : Prop :=
  ct_dst ct = ct_dst ct0 ∧ ct_met ct = ct_met ct0 ∧ ct_branch ct = ct_branch ct0 ∧ ct_tp ct = ct_tp ct0 ∧
  ct_invite ct = ct_invite ct0.

(** Both timers run, the second only over an unreliable transport. *)
Definition armed (ct : sip_ctrans) : Prop :=
  ct_mb ct = ct_mb ct0 ∧ ct_tmr ct = Some (t0 + 32000) ∧
  if sip_transp_reliable (ct_tp ct0) then ct_tmre ct = None
  else ∃ t, ct_tmre ct = Some t ∧ t0 + sched (ct_invite ct0) (ct_txc ct) ≤ t.

Definition phase (ct : sip_ctrans) (l : list event) : Prop :=
  match ct_state ct with
  | CALLING => ct_invite ct0 = true ∧ reports l = [] ∧ acks l = [] ∧ armed ct
  | TRYING => ct_invite ct0 = false ∧ reports l = [] ∧ acks l = [] ∧ armed ct
  | PROCEEDING => reports l ≠ [] ∧ Forall provisional (reports l) ∧ acks l = [] ∧
                  if ct_invite ct0 then ct_tmre ct = None else armed ct
  | COMPLETED => finished (reports l) ∧ sip_transp_reliable (ct_tp ct0) = false ∧ is_Some (ct_tmr ct) ∧ ct_tmre ct = None ∧
                 Forall (λ bs, ∃ mb, ct_mb_ack ct = Some mb ∧ bs = payload mb) (acks l)
  end.

(** The request was sent once and repeated [txc] times. *)
Record ct_ok (ct : sip_ctrans) (l : list event) : Prop := {
  ok_fixed : fixed ct;
  ok_mb : mbuf_wf (ct_mb ct);
  ok_req : req_ok (ct_req ct);
  ok_ack : buffer_ok (ct_mb_ack ct);
  ok_txc : 0 ≤ ct_txc ct < limit (ct_invite ct0) ∧ (sip_transp_reliable (ct_tp ct0) = true → ct_txc ct = 0);
  ok_sent : requests l = replicate (S (Z.to_nat (ct_txc ct))) text;
  ok_phase : phase ct l
}.

(** What a transaction that has ended has done. *)
Definition ended (l : list event) : Prop :=
  finished (reports l) ∧
  (∃ k, requests l = replicate k text ∧ 1 ≤ Z.of_nat k ≤ limit (ct_invite ct0) ∧ (sip_transp_reliable (ct_tp ct0) = true → k = 1%nat)) ∧
  (∃ k bs, acks l = replicate k bs).

Definition life_ok (o : option sip_ctrans) (l : list event) : Prop :=
  match o with Some ct => ct_ok ct l | None => ended l end.

Hypotheses (Htp : known_tp (ct_tp ct0)) (Hmb : mbuf_wf (ct_mb ct0)) (Ht0 : 0 ≤ t0).

Lemma transp_send_run what mb ct now n l : fixed ct → mbuf_wf mb →
  transp_send send what (Some mb) (Run (Some ct) now n l) =
    Ret (send n, Run (Some ct) now (S n) (l ++ [Sent now what (payload mb) (send n)])).
Proof using Htp.
  intros (_ & _ & _ & Et & _) Hwf. unfold transp_send. erewrite prog_bind_step by done. rewrite Et. by rewrite packet_send_run.
Qed.

Lemma finish_reports ps f : Forall provisional ps → final f → finished (ps ++ [f]).
Proof using. clear. by exists ps, f. Qed.

Lemma acks_same l ct : Forall (λ bs, ∃ mb, ct_mb_ack ct = Some mb ∧ bs = payload mb) (acks l) → ∃ k bs, acks l = replicate k bs.
Proof using.
  clear. destruct (ct_mb_ack ct) as [mb|].
  - exists (length (acks l)), (payload mb). induction (acks l) as [|bs ls IH]; [done|]. cbn. inversion_clear H as [|? ? (mb' & [= <-] & ->) Hr].
    f_equal. by apply IH.
  - intros Hf. exists 0%nat, []. destruct (acks l) as [|bs ls]; [done|]. inversion_clear Hf as [|? ? (mb' & [=] & _) _].
Qed.

(** What changes a transaction without a repetition of its request. *)
Lemma ok_change ct ct' l l' : ct_ok ct l → fixed ct' → mbuf_wf (ct_mb ct') → req_ok (ct_req ct') → buffer_ok (ct_mb_ack ct') →
  ct_txc ct' = ct_txc ct → requests l' = requests l → phase ct' l' → ct_ok ct' l'.
Proof using. intros [? ? ? ? Htx Hs ?] ? ? ? ? Etx Es ?. split; try done; rewrite ?Etx, ?Es; done. Qed.

Lemma ok_end ct l l' : ct_ok ct l → requests l' = requests l → finished (reports l') →
  (∃ k bs, acks l' = replicate k bs) → ended l'.
Proof using.
  intros [_ _ _ _ [Htx Hrel] Hs _] Es Hf Ha. split; [done|]. split; [|done].
  exists (S (Z.to_nat (ct_txc ct))). rewrite Es. split; [done|]. split; [lia|]. intros Hr. by rewrite Hrel.
Qed.

(** Ending in a state that has not reported, and in one that has. *)
Lemma end_open ct l f : ct_ok ct l → Forall provisional (reports l) → acks l = [] → final f →
  ∀ e, reports [e] = [f] → requests [e] = [] → acks [e] = [] → ended (l ++ [e]).
Proof using.
  intros Hok Hp Ha Hf e E1 E2 E3. apply (ok_end ct l); [done|by rewrite requests_app, E2, app_nil_r| |].
  - rewrite reports_app, E1. by apply finish_reports.
  - exists 0%nat, []. by rewrite acks_app, Ha, E3.
Qed.

Lemma end_completed ct l : ct_ok ct l → ct_state ct = COMPLETED → ended l.
Proof using.
  intros Hok Est. pose proof (ok_phase _ _ Hok) as Hph. unfold phase in Hph. rewrite Est in Hph. destruct Hph as (Hf & _ & _ & _ & Ha).
  apply (ok_end ct l); [done..|]. by eapply acks_same.
Qed.

Lemma phase_open ct l : phase ct l → ct_state ct ≠ COMPLETED → Forall provisional (reports l) ∧ acks l = [].
Proof using. unfold phase. destruct (ct_state ct); [intros (_ & -> & ? & _) _; by split|intros (_ & -> & ? & _) _; by split|naive_solver|done]. Qed.

(** [terminate] and the destructor, after changes that keep the state. *)
Lemma terminate_run err ct ct' now n l : ct_ok ct l → ct_state ct' = ct_state ct → err ≠ 0 →
  ∃ l', (terminate err;; destroy) (Run (Some ct') now n l) = Ret (tt, Run None now n l') ∧ ended l'.
Proof using.
  intros Hok Hst Hne. unfold terminate. destruct (decide (ct_state ct = COMPLETED)) as [E|E].
  - exists l. erewrite prog_bind_step by (erewrite prog_bind_step by done; by rewrite Hst, E). split; [done|]. by eapply end_completed.
  - exists (l ++ [Reported err None]). destruct (phase_open _ _ (ok_phase _ _ Hok) E) as [Hp Ha]. split.
    + rewrite <- Hst in E. by erewrite prog_bind_step by (erewrite prog_bind_step by done; destruct (ct_state ct'); done).
    + eapply (end_open _ _ (err, None)); [done..| |done|done|done]. left. by exists err.
Qed.

(** ** The steps *)

(** A step leads to a transaction that is in order, or has ended. *)
Definition goes {X} (m : prog run X) (ct : sip_ctrans) (now : Z) (n : nat) (l : list event) : Prop :=
  ∃ x o n' l', m (Run (Some ct) now n l) = Ret (x, Run o now n' l') ∧ life_ok o l'.

Lemma timeout_ok ct now n l : ct_ok ct l → goes (exec Timeout) ct now n l.
Proof using.
  intros Hok. destruct (terminate_run ETIMEDOUT ct (set_tmr None ct) now n l) as (l' & E & He); [done|by destruct ct|done|].
  exists (0, None), None, n, l'. split; [|done]. unfold Ctrans.exec. erewrite prog_bind_step by done.
  unfold tmr_handler. by erewrite prog_bind_step by exact E.
Qed.

Lemma transport_ok err ct now n l : ct_ok ct l → err ≠ 0 → goes (exec (Transport err)) ct now n l.
Proof using.
  intros Hok Hne. destruct (terminate_run err ct ct now n l) as (l' & E & He); [done..|].
  exists (0, None), None, n, l'. split; [|done]. unfold Ctrans.exec, transport_handler. by erewrite prog_bind_step by exact E.
Qed.

(** A repetition: the timer is started and the request sent again. *)
Lemma retransmit_ok timeout ct ct' now n l t :
  ct_ok ct l → t0 ≤ now ≤ 2 ^ 63 → (ct_state ct = COMPLETED → False) → armed ct → sip_transp_reliable (ct_tp ct0) = false →
  ct_tmre ct = Some t → t ≤ now → t0 + sched (ct_invite ct0) (ct_txc ct) ≤ t →
  ct_txc ct + 1 < limit (ct_invite ct0) → 0 ≤ timeout < 2 ^ 32 →
  sched (ct_invite ct0) (ct_txc ct + 1) ≤ sched (ct_invite ct0) (ct_txc ct) + timeout →
  ct' = set_txc (ct_txc ct + 1) (set_tmre None ct) →
  ∃ o n' l', retransmit send timeout (Run (Some ct') now n l) = Ret (tt, Run o now n' l') ∧ life_ok o l'.
Proof using Htp Ht0.
  intros Hok Hnow Hst Harm Hrel Ht Hdue Hsch Hlim Hto Hstep ->.
  set (ct2 := set_tmre (Some (u64 (now + timeout))) (set_txc (ct_txc ct + 1) (set_tmre None ct))).
  set (l2 := l ++ [Sent now Request (payload (ct_mb ct)) (send n)]).
  pose proof Hok as [Hfix Hwf Hreq Hack [Htx Htr] Hsent Hph].
  assert (Hok2 : ct_ok ct2 l2).
  { destruct Harm as (Emb & Etm & _). split; try (destruct ct; done).
    - split; [destruct ct; cbn in *; lia|]. congruence.
    - assert (Etx : Z.to_nat (ct_txc ct2) = S (Z.to_nat (ct_txc ct))) by (unfold ct2; destruct ct; cbn in *; lia).
      unfold l2. rewrite requests_app, Hsent, Etx, <- Emb. by rewrite (replicate_S_end (S _)).
    - assert (Harm2 : armed ct2).
      { unfold armed. rewrite Hrel. unfold ct2. destruct ct; cbn in *. split; [done|]. split; [done|].
        eexists. split; [done|]. rewrite u64_id by lia. lia. }
      assert (Hl2 : reports l2 = reports l ∧ acks l2 = acks l) by (unfold l2; rewrite reports_app, acks_app, !app_nil_r; done).
      unfold phase in *. destruct Hl2 as [-> ->]. change (ct_state ct2) with (ct_state ct).
      destruct (ct_state ct); try done; [naive_solver..|]. split_and!; try apply Hph. destruct (ct_invite ct0); [|done].
      destruct Hph as (_ & _ & _ & Hno). congruence. }
  unfold retransmit, start_tmre. erewrite prog_bind_step by (erewrite prog_bind_step by done; done).
  erewrite prog_bind_step by done. erewrite prog_bind_step by (by apply transp_send_run).
  fold ct2. change (ct_mb (set_tmre _ _)) with (ct_mb ct). fold l2.
  case_bool_decide as Hz; [|by exists (Some ct2), (S n), l2].
  destruct (terminate_run (send n) ct2 ct2 now (S n) l2) as (l' & E & He); [done..|]. by exists None, (S n), l'.
Qed.

Lemma repeat_ok ct now n l : ct_ok ct l → t0 ≤ now ≤ 2 ^ 63 → enabled Retransmit ct now → goes (exec Retransmit) ct now n l.
Proof using Htp Ht0.
  intros Hok Hnow (t & Ht & Hdue & Hfirst). pose proof Hok as [Hfix Hwf Hreq Hack [Htx Htr] Hsent Hph].
  assert (Harm : armed ct ∧ (ct_state ct = CALLING ∨ (ct_state ct ≠ COMPLETED ∧ ct_invite ct0 = false))).
  { unfold phase in Hph. destruct (ct_state ct) eqn:Est; [split; [apply Hph|right; split; [done|apply Hph]]|split; [apply Hph|by left]| |].
    - destruct (ct_invite ct0); [destruct Hph as (_ & _ & _ & Hno); congruence|]. split; [apply Hph|by right].
    - destruct Hph as (_ & _ & _ & Hno & _). congruence. }
  destruct Harm as [Harm Hst]. pose proof Harm as (_ & Htm & Hre). apply Hfirst in Htm.
  destruct (sip_transp_reliable (ct_tp ct0)) eqn:Hrel; [congruence|]. destruct Hre as (t' & Ht' & Hsch). rewrite Ht in Ht'. injection Ht' as <-.
  destruct (sched_step (ct_invite ct0) (ct_txc ct) Htx ltac:(lia)) as (Hlim & Hs1 & Hs2).
  assert (Hn : 0 ≤ ct_txc ct + 1 ≤ 11) by (unfold limit in *; destruct (ct_invite ct0); lia).
  assert (Hsh : ∀ r : run, shifted (ct_txc ct + 1) r = Ret (Z.shiftl SIP_T1 (ct_txc ct + 1), r)).
  { intros r. apply shifted_run. lia. }
  assert (Hpow : 0 ≤ Z.shiftl SIP_T1 (ct_txc ct + 1) < 2 ^ 32).
  { rewrite Z.shiftl_mul_pow2 by lia. pose proof (Z.pow_le_mono_r 2 (ct_txc ct + 1) 11 ltac:(lia) ltac:(lia)).
    pose proof (Z.pow_pos_nonneg 2 (ct_txc ct + 1)). unfold SIP_T1. lia. }
  set (ct1 := set_txc (ct_txc ct + 1) (set_tmre None ct)).
  assert (Hgo : ∀ timeout, 0 ≤ timeout < 2 ^ 32 → sched (ct_invite ct0) (ct_txc ct + 1) ≤ sched (ct_invite ct0) (ct_txc ct) + timeout →
    ∃ o n' l', retransmit send timeout (Run (Some ct1) now n l) = Ret (tt, Run o now n' l') ∧ life_ok o l').
  { intros timeout H1 H2. apply (retransmit_ok timeout ct ct1 now n l t); try done. destruct Hst as [->|[? _]]; done. }
  assert (Hgoal : ∀ m : prog run unit, (∃ o n' l', m (Run (Some ct1) now n l) = Ret (tt, Run o now n' l') ∧ life_ok o l') →
    retransmit_handler send (Run (Some (set_tmre None ct)) now n l) = m (Run (Some ct1) now n l) → goes (exec Retransmit) ct now n l).
  { intros m (o & n' & l' & E & Hl) Em. exists (0, None), o, n', l'. split; [|done]. unfold Ctrans.exec.
    erewrite prog_bind_step by done. rewrite E in Em. by erewrite prog_bind_step by exact Em. }
  assert (Hunf : retransmit_handler send (Run (Some (set_tmre None ct)) now n l) =
    (match ct_state ct with
     | TRYING => t ← shifted (ct_txc ct1); retransmit send (Z.min t SIP_T2)
     | CALLING => t ← shifted (ct_txc ct1); retransmit send t
     | PROCEEDING => retransmit send SIP_T2
     | COMPLETED => skip
     end) (Run (Some ct1) now n l)).
  { unfold retransmit_handler. erewrite prog_bind_step by done. erewrite prog_bind_step by done.
    change (ct_txc (set_tmre None ct)) with (ct_txc ct). rewrite u32_id by lia. done. }
  eapply Hgoal; [|exact Hunf]. change (ct_txc ct1) with (ct_txc ct + 1).
  assert (HT2 : SIP_T2 = 4000) by done.
  destruct (ct_state ct) eqn:Est; (erewrite prog_bind_step by apply Hsh) || idtac.
  - destruct Hst as [[=]|[_ Hinv]]. apply Hgo; [lia|]. by apply Hs2.
  - by apply Hgo.
  - destruct Hst as [[=]|[_ Hinv]]. apply Hgo; [lia|]. specialize (Hs2 Hinv). lia.
  - by destruct Hst as [[=]|[? _]].
Qed.

Lemma provisional_app rs sc : Forall provisional rs → sc < 200 → Forall provisional (rs ++ [(0, Some sc)]).
Proof using. clear. intros H Hsc. apply Forall_app. split; [done|]. repeat constructor. by exists sc. Qed.

Lemma final_sc sc : 200 ≤ sc → final (0, Some sc).
Proof using. clear. right. by exists sc. Qed.

Lemma goes_then {X} (m : prog run X) (x : Z * option mbuf) ct now n l : goes m ct now n l → goes (m;; mret x) ct now n l.
Proof using. intros (y & o & n' & l' & E & Hl). exists x, o, n', l'. by erewrite prog_bind_step by exact E. Qed.

(** A response to a request other than INVITE. *)
Lemma plain_response_ok msg ct now n l : ct_ok ct l → ct_invite ct0 = false → goes (exec (Response msg)) ct now n l.
Proof using.
  intros Hok Hinv. pose proof Hok as [Hfix Hwf Hreq Hack _ _ Hph]. unfold goes, Ctrans.exec, response.
  pose proof Hfix as (F1 & F2 & F3 & F4 & F5).
  set (rep := Reported 0 (Some (m_scode msg))).
  assert (Hopen : ct_state ct = TRYING ∨ ct_state ct = PROCEEDING → armed ct ∧ Forall provisional (reports l) ∧ acks l = []).
  { unfold phase in Hph. rewrite Hinv in Hph. intros [E|E]; rewrite E in Hph; [|naive_solver]. destruct Hph as (_ & -> & -> & ?). split; [done|]. by split. }
  assert (Hgo : ct_state ct = TRYING ∨ ct_state ct = PROCEEDING → ∃ x o n' l',
    (if bool_decide (m_scode msg < 200) then upd (set_state PROCEEDING);; respond 0 (Some (m_scode msg))
     else upd (set_state COMPLETED);; respond 0 (Some (m_scode msg));;
       if sip_transp_reliable (ct_tp ct) then destroy else start_tmr SIP_T4;; upd (set_tmre None)) (Run (Some ct) now n l) =
      Ret (x, Run o now n' l') ∧ life_ok o l').
  { intros Hst. destruct (Hopen Hst) as (Harm & Hp & Ha). case_bool_decide as Hsc.
    - exists tt, (Some (set_state PROCEEDING ct)), n, (l ++ [rep]). split; [done|].
      apply (ok_change ct _ l); try done; [by rewrite requests_app, app_nil_r|].
      unfold phase. cbn [ct_state set_state]. rewrite Hinv, reports_app, acks_app, Ha. split; [by destruct (reports l)|].
      split; [by apply provisional_app|done].
    - erewrite prog_bind_step by done. erewrite prog_bind_step by done. rewrite F4.
      destruct (sip_transp_reliable (ct_tp ct0)) eqn:Hrel.
      + exists tt, None, n, (l ++ [rep]). split; [done|]. apply (end_open ct l (0, Some (m_scode msg))); try done. by apply final_sc; lia.
      + eexists tt, _, n, (l ++ [rep]). split; [done|].
        apply (ok_change ct _ l); try done; [by rewrite requests_app, app_nil_r|].
        unfold phase. cbn [ct_state set_state set_tmr set_tmre]. rewrite reports_app, acks_app, Ha.
        split; [apply finish_reports; [done|by apply final_sc; lia]|]. split; [done|]. split; [by eexists|]. by split. }
  apply goes_then. unfold goes. erewrite prog_bind_step by done. rewrite F5, Hinv.
  destruct (ct_state ct) eqn:Est; [apply Hgo; by left| |apply Hgo; by right|]; by exists tt, (Some ct), n, l.
Qed.

Definition acked (ct : sip_ctrans) (bss : list (list Z)) : Prop :=
  Forall (λ bs, ∃ mb, ct_mb_ack ct = Some mb ∧ bs = payload mb) bss.

Lemma ack_run ct now n l : fixed ct → buffer_ok (ct_mb_ack ct) →
  ∃ err n' a, transp_send send Ack (ct_mb_ack ct) (Run (Some ct) now n l) = Ret (err, Run (Some ct) now n' (l ++ a)) ∧
    requests a = [] ∧ reports a = [] ∧ acked ct (acks a).
Proof using Htp.
  intros Hfix Hb. destruct (ct_mb_ack ct) as [mb|] eqn:E.
  - eexists _, _, _. split; [by apply transp_send_run|]. split; [done|]. split; [done|]. constructor; [by exists mb|constructor].
  - exists EINVAL, n, []. split; [|split; [done|split; [done|constructor]]]. rewrite app_nil_r. done.
Qed.

(** The refusal of an INVITE: the ACK goes out before the report. *)
Definition refuse (msg : sip_msg) : prog run unit :=
  upd (set_state COMPLETED);;
  q ← request_copy A sa_set hdr_mem msg_mem hash_mem tag software (bytes_of "ACK") (Some msg);
  (if bool_decide (fst q = 0) then upd (set_mb_ack (snd q)) else skip);;
  ct ← deref;
  transp_send send Ack (ct_mb_ack ct);;
  respond 0 (Some (m_scode msg));;
  if sip_transp_reliable (ct_tp ct) then destroy
  else start_tmr COMPLETE_WAIT.

(** [ct1] is [ct] with its timers stopped. *)
Lemma refuse_ok msg ct ct1 now n l :
  ct_ok ct l → (∃ tm, ct1 = set_tmre None (set_tmr tm ct)) → Forall provisional (reports l) → acks l = [] →
  msg_ok msg → 200 ≤ m_scode msg → goes (refuse msg) ct1 now n l.
Proof using Htp allocator_ok0 Hsw.
  intros Hok [tm ->] Hp Ha Hmsg Hsc. pose proof Hok as [Hfix Hwf Hreq Hack _ _ _]. unfold goes, refuse.
  set (ct2 := set_state COMPLETED (set_tmre None (set_tmr tm ct))).
  destruct (request_copy_run A sa_set hdr_mem msg_mem hash_mem tag software Hsw (bytes_of "ACK") (Some msg) ct2 now n l)
    as (err & mbo & mb & req & E & Hwf2 & Hreq2 & Hbad & Hgood); [done|done|split; [apply bytes_of_ok|by vm_compute]|by intros ? [= <-]|].
  set (ct3 := set_req req (set_mb mb ct2)) in E.
  set (ct4 := if bool_decide (err = 0) then set_mb_ack mbo ct3 else ct3).
  assert (H4 : fixed ct4 ∧ mbuf_wf (ct_mb ct4) ∧ req_ok (ct_req ct4) ∧ buffer_ok (ct_mb_ack ct4) ∧ ct_txc ct4 = ct_txc ct ∧
    ct_state ct4 = COMPLETED ∧ ct_tmre ct4 = None).
  { subst ct4. case_bool_decide as Hz; [|by split_and!]. destruct (Hgood Hz) as (mb' & -> & Hmb'). by split_and!. }
  destruct H4 as (F4 & W4 & R4 & B4 & X4 & S4 & T4).
  destruct (ack_run ct4 now n l F4 B4) as (e & n' & a & Esend & Ra & Pa & Aa).
  set (l2 := (l ++ a) ++ [Reported 0 (Some (m_scode msg))]).
  assert (Hl2 : requests l2 = requests l ∧ reports l2 = reports l ++ [(0, Some (m_scode msg))] ∧ acks l2 = acks a).
  { unfold l2. rewrite !requests_app, !reports_app, !acks_app, Ra, Pa, Ha, !app_nil_r. done. }
  destruct Hl2 as (L1 & L2 & L3).
  assert (Hrun : ∀ k : prog run unit, (if sip_transp_reliable (ct_tp ct0) then destroy else start_tmr COMPLETE_WAIT) = k →
    refuse msg (Run (Some (set_tmre None (set_tmr tm ct))) now n l) = k (Run (Some ct4) now n' l2)).
  { intros k <-. unfold refuse. erewrite prog_bind_step by done. erewrite prog_bind_step by exact E. cbn [fst snd].
    erewrite (prog_bind_step (if bool_decide (err = 0) then _ else _) _ _ tt (Run (Some ct4) now n l))
      by (subst ct4; case_bool_decide; done).
    erewrite prog_bind_step by done. erewrite prog_bind_step by exact Esend. erewrite prog_bind_step by done.
    destruct F4 as (_ & _ & _ & -> & _). done. }
  fold (refuse msg). rewrite (Hrun _ eq_refl). destruct (sip_transp_reliable (ct_tp ct0)) eqn:Hrel.
  - exists tt, None, n', l2. split; [done|]. apply (ok_end ct l); [done|done| |].
    + rewrite L2. apply finish_reports; [done|by apply final_sc].
    + rewrite L3. by eapply acks_same.
  - eexists tt, _, n', l2. split; [done|]. apply (ok_change ct _ l); try done.
    unfold phase. change (ct_state (set_tmr ?t ct4)) with (ct_state ct4). rewrite S4, L2, L3.
    split; [apply finish_reports; [done|by apply final_sc]|]. split; [done|]. split; [by eexists|]. by split.
Qed.

(** A response to an INVITE that has no final one yet. *)
Lemma answer_ok msg ct ct1 now n l :
  ct_ok ct l → ct_invite ct0 = true → (∃ tm, ct1 = set_tmre None (set_tmr tm ct)) → Forall provisional (reports l) → acks l = [] →
  msg_ok msg →
  goes (if bool_decide (m_scode msg < 200) then upd (set_state PROCEEDING);; respond 0 (Some (m_scode msg))
        else if bool_decide (m_scode msg < 300) then respond 0 (Some (m_scode msg));; destroy
        else refuse msg) ct1 now n l.
Proof using Htp allocator_ok0 Hsw.
  intros Hok Hinv Hct1 Hp Ha Hmsg. set (l' := l ++ [Reported 0 (Some (m_scode msg))]).
  assert (Hrq : requests l' = requests l) by (unfold l'; by rewrite requests_app, app_nil_r).
  case_bool_decide; [|case_bool_decide; [|by apply (refuse_ok msg ct); (done || lia)]].
  - destruct Hct1 as [tm ->]. exists tt, (Some (set_state PROCEEDING (set_tmre None (set_tmr tm ct)))), n, l'. split; [done|].
    pose proof Hok as [Hfix Hwf Hreq Hack _ _ _]. apply (ok_change ct _ l); try done.
    unfold phase, l'. cbn [ct_state set_state]. rewrite Hinv, reports_app, acks_app, Ha. split; [by destruct (reports l)|].
    split; [by apply provisional_app|done].
  - exists tt, None, n, l'. split; [done|]. apply (end_open ct l (0, Some (m_scode msg))); try done. by apply final_sc; lia.
Qed.

Lemma invite_response_ok msg ct now n l :
  ct_ok ct l → ct_invite ct0 = true → msg_ok msg → goes (exec (Response msg)) ct now n l.
Proof using Htp allocator_ok0 Hsw.
  intros Hok Hinv Hmsg. pose proof Hok as [Hfix Hwf Hreq Hack _ _ Hph]. pose proof Hfix as (_ & _ & _ & _ & F5).
  unfold Ctrans.exec, response. apply goes_then. unfold goes. erewrite prog_bind_step by done. rewrite F5, Hinv.
  unfold invite_response. erewrite prog_bind_step by done. unfold phase in Hph. rewrite Hinv in Hph.
  destruct (ct_state ct) eqn:Est.
  - by destruct Hph as ([=] & _).
  - destruct Hph as (_ & Hr & Ha & _). rewrite (bool_decide_eq_true_2 (CALLING = CALLING)) by done.
    erewrite (prog_bind_step _ _ _ tt (Run (Some (set_tmre None (set_tmr None ct))) now n l)) by done.
    apply (answer_ok msg ct); [done|done|by eexists|by rewrite Hr|done|done].
  - destruct Hph as (_ & Hp & Ha & Hno). rewrite (bool_decide_eq_false_2 (PROCEEDING = CALLING)) by done.
    erewrite (prog_bind_step _ _ _ tt (Run (Some ct) now n l)) by done.
    apply (answer_ok msg ct); [done|done| |done|done|done]. exists (ct_tmr ct). destruct ct; cbn in *. by subst.
  - case_bool_decide; [by exists tt, (Some ct), n, l|]. destruct Hph as (Hf & Hrel & Htm & Hre & Hacks).
    destruct (ack_run ct now n l Hfix Hack) as (e & n' & a & Esend & Ra & Pa & Aa).
    exists tt, (Some ct), n', (l ++ a). split; [by erewrite prog_bind_step by exact Esend|].
    apply (ok_change ct ct l); try done; [by rewrite requests_app, Ra, app_nil_r|].
    unfold phase. rewrite Est, reports_app, acks_app, Pa, app_nil_r. split_and!; try done. apply Forall_app. by split.
Qed.

Lemma cancel_run ct now n l : ct_ok ct l →
  ∃ x o n' l', exec Cancel (Run (Some ct) now n l) = Ret (x, Run o now n' l') ∧ life_ok o l' ∧
    ∀ mb, snd x = Some mb → mbuf_wf mb.
Proof using allocator_ok0 Hsw.
  intros Hok. pose proof Hok as [Hfix Hwf Hreq Hack _ _ Hph]. pose proof Hfix as (_ & _ & _ & _ & F5).
  unfold Ctrans.exec, cancel_copy. erewrite prog_bind_step by done. rewrite F5.
  destruct (ct_invite ct0) eqn:Hinv; cbn [negb]; [|by exists (0, None), (Some ct), n, l].
  destruct (ct_state ct) eqn:Est; try by exists (EPROTO, None), (Some ct), n, l.
  unfold phase in Hph. rewrite Est, Hinv in Hph. destruct Hph as (Hr & Hp & Ha & Hno).
  set (ct1 := set_tmr (Some (u64 (now + 64 * SIP_T1))) ct).
  erewrite (prog_bind_step _ _ _ tt (Run (Some ct1) now n l)) by done.
  assert (Hok' : ∀ mb req, mbuf_wf mb → req_ok req → ct_ok (set_req req (set_mb mb ct1)) l).
  { intros mb req Hmb' Hreq'. apply (ok_change ct _ l); try done. unfold phase. change (ct_state (set_req req _)) with (ct_state ct).
    rewrite Est, Hinv. by split_and!. }
  destruct (negb (alloc_ok A 7)).
  - exists (ENOMEM, None), (Some ct1), n, l. split; [done|]. split; [|done]. destruct ct. exact (Hok' _ _ Hwf Hreq).
  - destruct (request_copy_run A sa_set hdr_mem msg_mem hash_mem tag software Hsw (bytes_of "CANCEL") None ct1 now n l)
      as (err & mbo & mb & req & E & Hwf2 & Hreq2 & Hbad & Hgood); [done|done|split; [apply bytes_of_ok|by vm_compute]|done|].
    eexists _, _, n, l. split; [exact E|]. split; [by apply Hok'|]. cbn [snd]. intros mb' ->.
    destruct (decide (err = 0)) as [Hz|Hz]; [destruct (Hgood Hz) as (? & [= <-] & ?); done|by apply Hbad in Hz].
Qed.

Lemma cancel_ok ct now n l : ct_ok ct l → goes (exec Cancel) ct now n l.
Proof using allocator_ok0 Hsw. intros Hok. destruct (cancel_run ct now n l Hok) as (x & o & n' & l' & E & Hl & _). by exists x, o, n', l'. Qed.

(** Every step that can happen leads on, or ends the transaction. *)
Lemma exec_ok e ct now n l : ct_ok ct l → t0 ≤ now ≤ 2 ^ 63 → enabled e ct now → goes (exec e) ct now n l.
Proof using Htp Ht0 allocator_ok0 Hsw.
  intros Hok Hnow He. destruct e as [| |err|msg|]; cbn [enabled] in He.
  - by apply timeout_ok.
  - by apply repeat_ok.
  - by apply transport_ok.
  - destruct (ct_invite ct0) eqn:Hinv; [by apply invite_response_ok|by apply plain_response_ok].
  - by apply cancel_ok.
Qed.
End life.

(** ** Runs of a transaction *)

Section runs.
Context `{inet} (A : allocator) `{!allocator_ok A} (send : nat → Z).
Context (sa_set : list Z → option sockaddr) (hdr_mem : pl → bool) (msg_mem hash_mem : bool) (tag : Z).
Context (software : option (list Z)) (Hsw : ∀ sw, software = Some sw → short sw).

Local Abbreviation exec := (exec A send sa_set hdr_mem msg_mem hash_mem tag software).

(** Time passes and others send packets, or something happens to the
    transaction. *)
Inductive step : run → run → Prop :=
| step_elapse ct now n l now' n' :
    now ≤ now' ≤ 2 ^ 63 → (n ≤ n')%nat → step (Run (Some ct) now n l) (Run (Some ct) now' n' l)
| step_exec ct now n l e x r' :
    enabled e ct now → exec e (Run (Some ct) now n l) = Ret (x, r') → step (Run (Some ct) now n l) r'.

(** The start of a transaction at [t0]. *)
Context (tp : Z) (dst : sockaddr) (met branch : list Z) (mb : mbuf).
Local Abbreviation ct0 := (ctrans_new tp dst met branch mb).
Local Abbreviation invite := (bool_decide (met = bytes_of "INVITE")).

Definition run_ok (t0 : Z) (r : run) : Prop := t0 ≤ r_now r ≤ 2 ^ 63 ∧ life_ok t0 ct0 (r_ct r) (r_log r).

Lemma step_ok t0 r r' : 0 ≤ t0 → known_tp tp → run_ok t0 r → step r r' → run_ok t0 r'.
Proof using allocator_ok0 Hsw.
  intros Ht0 Htp Hr Hstep. revert Hr. destruct Hstep as [ct now n l now' n' Hn Hs|ct now n l e x r'' He E];
    intros [Hnow Hok]; cbn [r_now r_ct r_log life_ok] in *.
  - split; [cbn; lia|exact Hok].
  - destruct (exec_ok A send sa_set hdr_mem msg_mem hash_mem tag software Hsw t0 ct0 Htp Ht0 e ct now n l Hok Hnow He)
      as (y & o & n' & l' & E' & Hl). rewrite E in E'. injection E' as -> ->. by split.
Qed.

Lemma steps_ok t0 r r' : 0 ≤ t0 → known_tp tp → run_ok t0 r → rtc step r r' → run_ok t0 r'.
Proof using allocator_ok0 Hsw. intros Ht0 Htp H0 Hs. induction Hs; [done|]. by eauto using step_ok. Qed.

(** What the first packet leads to. *)
Lemma begin_run t0 n : 0 ≤ t0 ≤ 2 ^ 63 → mbuf_wf mb →
  ∃ err r, begin send (Run (Some ct0) t0 n []) = Ret (err, r) ∧ r_now r = t0 ∧
    (err ≠ 0 → r_ct r = None ∧ reports (r_log r) = []) ∧ (err = 0 → known_tp tp ∧ is_Some (r_ct r) ∧ run_ok t0 r).
Proof using.
  clear Hsw. intros Ht0 Hmb. unfold begin. erewrite prog_bind_step by done. destruct (bool_decide (known_tp tp)) eqn:Etp.
  - apply bool_decide_eq_true_1 in Etp. erewrite prog_bind_step by (by apply (transp_send_run send ct0 Etp)).
    case_bool_decide as Hz; [eexists _, _; split; [done|]; split; [done|]; split; [done|lia]|].
    erewrite prog_bind_step by done. cbn [ct_tp].
    set (l1 := [] ++ [Sent t0 Request (payload mb) (send n)]).
    set (ct1 := set_tmr (Some (t0 + 32000)) ct0).
    set (ct2 := if sip_transp_reliable tp then ct1 else set_tmre (Some (t0 + 500)) ct1).
    assert (Eb : u64 (t0 + 64 * SIP_T1) = t0 + 32000 ∧ u64 (t0 + SIP_T1) = t0 + 500) by (unfold SIP_T1; rewrite !u64_id by lia; lia).
    destruct Eb as [Eb1 Eb2].
    erewrite (prog_bind_step _ _ _ tt (Run (Some ct2) t0 (S n) l1)).
    2: { cbn [r_now ct_tp ctrans_new]. rewrite Eb1. unfold ct2, ct1. destruct (sip_transp_reliable tp); [done|]. unfold start_tmre. erewrite prog_bind_step by done.
      cbn [r_now set_ct]. by rewrite Eb2. }
    eexists _, _. split; [done|]. split; [done|]. split; [done|]. intros _. split; [done|]. split; [by eexists|]. split; [cbn; lia|]. cbn [r_ct r_log life_ok].
    assert (Hf : ct_mb ct2 = mb ∧ ct_req ct2 = None ∧ ct_mb_ack ct2 = None ∧ ct_txc ct2 = 0 ∧ fixed ct0 ct2 ∧ armed t0 ct0 ct2 ∧
      ct_state ct2 = if invite then CALLING else TRYING).
    { unfold ct2, ct1, fixed, armed. cbn [ct_tp ctrans_new]. destruct (sip_transp_reliable tp); [by split_and!|].
      split_and!; try done. eexists. split; [done|]. cbn [ct_txc set_tmre set_tmr ctrans_new ct_invite].
      assert (Es : sched invite 0 = 500) by (by destruct invite). rewrite Es. lia. }
    destruct Hf as (F1 & F2 & F3 & F4 & F5 & F6 & F7). split; rewrite ?F1, ?F2, ?F3, ?F4; try done.
    + split; [|done]. unfold limit. destruct (ct_invite ct0); lia.
    + unfold phase. rewrite F7. cbn [ct_invite ctrans_new]. destruct invite; by split_and!.
  - apply bool_decide_eq_false_1 in Etp. erewrite prog_bind_step.
    2: { unfold transp_send. erewrite prog_bind_step by done. by apply packet_send_unknown. }
    rewrite (bool_decide_eq_true_2 (EPROTONOSUPPORT ≠ 0)) by done. eexists _, _. split; [done|]. split; [done|]. split; [done|]. intros [=].
Qed.

(** ** Properties *)

(** From a request on any transport and any buffer, sip_ctrans_request
    returns: an error, when nothing was reported and the transaction is gone, or
    a transaction on which every timer, transport error, response and
    cancellation that can happen, in any order, runs to its end: no use of a
    freed transaction, no access outside a buffer and no shift outside an int,
    whichever allocations fail. *)
Theorem ctrans_safe t0 n : 0 ≤ t0 ≤ 2 ^ 63 → mbuf_wf mb →
  ∃ err r0, begin send (Run (Some ct0) t0 n []) = Ret (err, r0) ∧
    (err ≠ 0 → r_ct r0 = None ∧ reports (r_log r0) = []) ∧
    (err = 0 → ∀ r ct e, rtc step r0 r → r_ct r = Some ct → enabled e ct (r_now r) → ∃ x r', exec e r = Ret (x, r')).
Proof using allocator_ok0 Hsw.
  intros Ht0 Hmb. destruct (begin_run t0 n Ht0 Hmb) as (err & r0 & E & _ & H1 & H2). exists err, r0. split; [done|]. split; [done|].
  intros Hz r ct e Hs Ect He. destruct (H2 Hz) as (Htp & _ & Hr0). destruct (steps_ok t0 r0 r ltac:(lia) Htp Hr0 Hs) as [Hnow Hl].
  destruct r as [o now k l]. cbn in Ect, He, Hnow, Hl. subst o.
  destruct (exec_ok A send sa_set hdr_mem msg_mem hash_mem tag software Hsw t0 ct0 Htp ltac:(lia) e ct now k l Hl Hnow He)
    as (x & o & n' & l' & E' & _). by eexists _, _.
Qed.

(** C7: what the user of a transaction hears, however long it lives and whatever
    happens: provisional answers while it is open, and then exactly one final
    result, a response of 200 or more or an error; nothing more after it.  When
    the transaction is gone, the final result has been given. *)
Theorem ctrans_reports t0 n r0 r : 0 ≤ t0 ≤ 2 ^ 63 → mbuf_wf mb →
  begin send (Run (Some ct0) t0 n []) = Ret (0, r0) → rtc step r0 r →
  match r_ct r with
  | Some ct => if bool_decide (ct_state ct = COMPLETED) then finished (reports (r_log r)) else Forall provisional (reports (r_log r))
  | None => finished (reports (r_log r))
  end.
Proof using allocator_ok0 Hsw.
  intros Ht0 Hmb E Hs. destruct (begin_run t0 n Ht0 Hmb) as (err & r1 & E1 & _ & _ & H2). rewrite E in E1. injection E1 as <- <-.
  destruct (H2 eq_refl) as (Htp & _ & Hr0). destruct (steps_ok t0 r0 r ltac:(lia) Htp Hr0 Hs) as [_ Hl].
  destruct (r_ct r) as [ct|]; [|apply Hl]. case_bool_decide as Est.
  - pose proof (ok_phase _ _ _ _ Hl) as Hph. unfold phase in Hph. rewrite Est in Hph. apply Hph.
  - by apply (phase_open _ _ ct _ (ok_phase _ _ _ _ Hl) Est).
Qed.

(** C8: what a transaction sends: the same request, at least once and at most
    seven times for an INVITE and eleven for any other method, once only over a
    reliable transport; and its ACKs are all the same. *)
Theorem ctrans_transmissions t0 n r0 r : 0 ≤ t0 ≤ 2 ^ 63 → mbuf_wf mb →
  begin send (Run (Some ct0) t0 n []) = Ret (0, r0) → rtc step r0 r →
  (∃ k, requests (r_log r) = replicate k (payload mb) ∧ 1 ≤ Z.of_nat k ≤ limit invite ∧
     (sip_transp_reliable tp = true → k = 1%nat)) ∧
  (∃ k bs, acks (r_log r) = replicate k bs).
Proof using allocator_ok0 Hsw.
  intros Ht0 Hmb E Hs. destruct (begin_run t0 n Ht0 Hmb) as (err & r1 & E1 & _ & _ & H2). rewrite E in E1. injection E1 as <- <-.
  destruct (H2 eq_refl) as (Htp & _ & Hr0). destruct (steps_ok t0 r0 r ltac:(lia) Htp Hr0 Hs) as [_ Hl].
  destruct (r_ct r) as [ct|]; [|destruct Hl as (_ & H3 & H4); by split].
  destruct Hl as [_ _ _ _ [Htx Hrel] Hsent Hph]. split.
  - exists (S (Z.to_nat (ct_txc ct))). split; [done|]. cbn [ct_invite ctrans_new] in Htx. split; [lia|].
    intros Hr. by rewrite (Hrel Hr).
  - destruct (decide (ct_state ct = COMPLETED)) as [Est|Est].
    + unfold phase in Hph. rewrite Est in Hph. destruct Hph as (_ & _ & _ & _ & Ha). by eapply acks_same.
    + exists 0%nat, []. by apply (phase_open _ _ ct _ Hph Est).
Qed.
End runs.

(** ** When nobody answers *)

Section silence.
Context `{inet} (A : allocator) (send : nat → Z).
Context (sa_set : list Z → option sockaddr) (hdr_mem : pl → bool) (msg_mem hash_mem : bool) (tag : Z).
Context (software : option (list Z)).

Local Abbreviation exec := (exec A send sa_set hdr_mem msg_mem hash_mem tag software).
Local Abbreviation step := (step A send sa_set hdr_mem msg_mem hash_mem tag software).

Context (dst : sockaddr) (met branch : list Z) (mb : mbuf) (Hmb : mbuf_wf mb) (Hsend : ∀ k, send k = 0).
Context (t0 : Z) (Ht0 : 0 ≤ t0 ≤ 2 ^ 62).
Local Abbreviation invite := (bool_decide (met = bytes_of "INVITE")).

(** The transaction over UDP after [txc] repetitions. *)
Definition silent (txc next : Z) : sip_ctrans :=
  Ctrans dst (Some (t0 + 32000)) (Some next) mb None None met branch SIP_TRANSP_UDP (if invite then CALLING else TRYING) txc invite.

Lemma silent_retransmit txc next now n l : 0 ≤ txc ≤ 10 → 0 ≤ now ≤ 2 ^ 63 →
  exec Retransmit (Run (Some (silent txc next)) now n l) =
    Ret ((0, None), Run (Some (silent (txc + 1) (now + interval invite txc))) now (S n) (l ++ [Sent now Request (payload mb) 0])).
Proof using Hmb Hsend.
  intros Htx Hnow. pose proof (interval_bound invite txc Htx) as Hi. set (ct1 := set_txc (txc + 1) (set_tmre None (silent txc next))).
  assert (Hsh : ∀ r : run, shifted (txc + 1) r = Ret (Z.shiftl SIP_T1 (txc + 1), r)).
  { intros r. apply shifted_run. lia. }
  assert (Hre : retransmit send (interval invite txc) (Run (Some ct1) now n l) =
    Ret (tt, Run (Some (silent (txc + 1) (now + interval invite txc))) now (S n) (l ++ [Sent now Request (payload mb) 0]))).
  { unfold retransmit. erewrite prog_bind_step by done. erewrite prog_bind_step by done.
    erewrite prog_bind_step by (by apply (transp_send_run send (silent 0 0)); [left|split_and!|]).
    cbn [ct_mb set_tmre r_now]. rewrite Hsend, u64_id by lia. done. }
  unfold Ctrans.exec. erewrite prog_bind_step by done. erewrite prog_bind_step; [done|].
  unfold retransmit_handler. erewrite (prog_bind_step _ _ _ tt (Run (Some ct1) now n l)).
  2: { unfold upd. erewrite prog_bind_step by done. cbn [ct_txc set_tmre silent]. by rewrite u32_id by lia. }
  erewrite prog_bind_step by done. rewrite <- Hre. change (ct_txc ct1) with (txc + 1).
  change (ct_state ct1) with (if invite then CALLING else TRYING).
  unfold interval. destruct invite; by erewrite prog_bind_step by apply Hsh.
Qed.

(** Up to the next repetition, which is due before the timeout. *)
Lemma silent_repeat txc next now n l : 0 ≤ txc ≤ 10 → t0 ≤ now ≤ next → next ≤ t0 + 32000 →
  rtc step (Run (Some (silent txc next)) now n l)
    (Run (Some (silent (txc + 1) (next + interval invite txc))) next (S n) (l ++ [Sent next Request (payload mb) 0])).
Proof using Hmb Hsend Ht0.
  intros Htx Hnow Hnext. apply (rtc_l _ _ (Run (Some (silent txc next)) next n l)); [apply step_elapse; lia|].
  apply rtc_once. eapply step_exec; [|apply silent_retransmit; lia].
  exists next. split; [done|]. split; [lia|]. intros t' [= <-]. done.
Qed.

(** Up to the timeout. *)
Lemma silent_timeout txc next now n l : now ≤ t0 + 32000 → t0 + 32000 ≤ next →
  rtc step (Run (Some (silent txc next)) now n l) (Run None (t0 + 32000) n (l ++ [Reported ETIMEDOUT None])).
Proof using Ht0.
  intros Hnow Hnext. apply (rtc_l _ _ (Run (Some (silent txc next)) (t0 + 32000) n l)); [apply step_elapse; lia|].
  apply rtc_once. eapply (step_exec _ _ _ _ _ _ _ _ _ _ _ _ Timeout).
  - exists (t0 + 32000). split; [done|]. split; [lia|]. intros t' [= <-]. done.
  - unfold Ctrans.exec. erewrite prog_bind_step by done.
    erewrite (prog_bind_step tmr_handler _ _ tt (Run None (t0 + 32000) n (l ++ [Reported ETIMEDOUT None]))); [done|].
    unfold tmr_handler. erewrite (prog_bind_step (terminate _) _ _ tt); revgoals.
    + unfold terminate. erewrite prog_bind_step by done. cbn [ct_state set_tmr silent]. destruct invite; reflexivity.
    + done.
Qed.

Lemma silent_walk ds : ∀ txc d now n l, chain invite txc d ds = true → 0 ≤ txc → t0 ≤ now ≤ t0 + d → now ≤ t0 + 32000 →
  rtc step (Run (Some (silent txc (t0 + d))) now n l)
    (Run None (t0 + 32000) (n + length ds)%nat (l ++ map (λ d, Sent (t0 + d) Request (payload mb) 0) ds ++ [Reported ETIMEDOUT None])).
Proof using Hmb Hsend Ht0.
  induction ds as [|d' ds IH]; intros txc d now n l Hc Htx Hnow Hmax; cbn [chain] in Hc.
  - apply bool_decide_eq_true_1 in Hc. rewrite Nat.add_0_r. apply silent_timeout; lia.
  - apply andb_true_iff in Hc as [[[->%bool_decide_eq_true_1 H1%bool_decide_eq_true_1]%andb_true_iff H2%bool_decide_eq_true_1]%andb_true_iff Hc].
    pose proof (interval_bound invite txc ltac:(lia)).
    etrans; [apply silent_repeat; lia|]. rewrite <- Z.add_assoc.
    specialize (IH _ _ (t0 + d) (S n) (l ++ [Sent (t0 + d) Request (payload mb) 0]) Hc ltac:(lia) ltac:(lia) ltac:(lia)).
    cbn [length map]. rewrite <- app_assoc in IH. replace (n + S (length ds))%nat with (S n + length ds)%nat by lia. exact IH.
Qed.

(** A request over UDP that nobody answers is sent at the intervals of the
    standard, doubling from half a second for an INVITE, and for other methods
    up to four seconds, until after 32 seconds the user hears of the timeout and
    the transaction is gone. *)
Theorem ctrans_silence n :
  ∃ r0 r, begin send (Run (Some (ctrans_new SIP_TRANSP_UDP dst met branch mb)) t0 n []) = Ret (0, r0) ∧ rtc step r0 r ∧
    r_ct r = None ∧ r_now r = t0 + 32000 ∧
    r_log r = map (λ d, Sent (t0 + d) Request (payload mb) 0) (firing invite) ++ [Reported ETIMEDOUT None].
Proof using Hmb Hsend Ht0.
  assert (Hb : begin send (Run (Some (ctrans_new SIP_TRANSP_UDP dst met branch mb)) t0 n []) =
    Ret (0, Run (Some (silent 0 (t0 + 500))) t0 (S n) [Sent (t0 + 0) Request (payload mb) 0])).
  { unfold begin. erewrite prog_bind_step by done.
    erewrite prog_bind_step by (by apply (transp_send_run send (silent 0 0)); [left|split_and!|]). rewrite Hsend.
    rewrite (bool_decide_eq_false_2 (0 ≠ 0)) by lia. erewrite prog_bind_step by done.
    erewrite prog_bind_step by done. cbn [r_now set_ct]. unfold SIP_T1. rewrite !u64_id by lia. rewrite Z.add_0_r. done. }
  eexists _, _. split; [exact Hb|]. cut (rtc step (Run (Some (silent 0 (t0 + 500))) t0 (S n) [Sent (t0 + 0) Request (payload mb) 0])
    (Run None (t0 + 32000) (n + length (firing invite))%nat (map (λ d, Sent (t0 + d) Request (payload mb) 0) (firing invite) ++ [Reported ETIMEDOUT None]))).
  { intros Hrun. split; [exact Hrun|]. by split_and!. }
  pose proof (firing_chain invite) as Hch.
  pose proof (silent_walk _ 0 500 t0 (S n) [Sent (t0 + 0) Request (payload mb) 0] Hch ltac:(lia) ltac:(lia) ltac:(lia)) as Hw.
  unfold firing in *. destruct invite; cbn [tail length map] in Hw |- *; rewrite Nat.add_succ_comm in Hw; exact Hw.
Qed.
End silence.

(** ** Witnesses *)

Local Abbreviation demo_exec := (exec (H := digits_only) big_alloc (λ _, 0) demo_set (λ _, true) true true 7 (Some (bytes_of "dialer"))).
Local Abbreviation demo_step := (step (H := digits_only) big_alloc (λ _, 0) demo_set (λ _, true) true true 7 (Some (bytes_of "dialer"))).

Definition state_of {X} (o : outcome (X * run)) : run := match o with Ret (_, r) => r | Fault _ => Run None 0 0 [] end.

(** An INVITE at time 100; it is repeated, and refused; the ACK is sent again for
    a second copy of the response. *)
Definition demo_begin : run :=
  state_of (begin (λ _, 0) (Run (Some (ctrans_new SIP_TRANSP_UDP demo_dst (bytes_of "INVITE") (bytes_of "z9hG4bK7") (mbuf_of demo_invite))) 100 0 [])).
Definition at_ (t : Z) (r : run) : run := Run (r_ct r) t (r_sent r) (r_log r).
Definition demo_repeated : run := state_of (demo_exec Retransmit (at_ 600 demo_begin)).
Definition demo_refused : run := state_of (demo_exec (Response (msg_of demo_busy)) demo_repeated).
Definition demo_again : run := state_of (demo_exec (Response (msg_of demo_busy)) demo_refused).

Lemma demo_begin_run : begin (λ _, 0) (Run (Some (ctrans_new SIP_TRANSP_UDP demo_dst (bytes_of "INVITE") (bytes_of "z9hG4bK7")
  (mbuf_of demo_invite))) 100 0 []) = Ret (0, demo_begin).
Proof. vm_compute. reflexivity. Qed.

(** A run with a transaction, as its fields. *)
Lemma run_fields (r : run) ct : r_ct r = Some ct → r = Run (Some ct) (r_now r) (r_sent r) (r_log r).
Proof. destruct r; cbn. by intros ->. Qed.

Lemma demo_exec_step e (r : run) ct : r_ct r = Some ct → enabled e ct (r_now r) →
  match demo_exec e r with Ret _ => true | Fault _ => false end = true → demo_step r (state_of (demo_exec e r)).
Proof.
  intros Ect He Hr. destruct (demo_exec e r) as [[x s]|] eqn:E; [|done]. cbn [state_of].
  rewrite (run_fields r ct Ect) in E |- *. by eapply step_exec.
Qed.

(** The transaction of a run that has one. *)
Definition ct_of (r : run) : sip_ctrans := default demo_ctrans (r_ct r).
Lemma ct_of_run (r : run) : bool_decide (is_Some (r_ct r)) = true → r_ct r = Some (ct_of r).
Proof. intros [ct Ect]%bool_decide_eq_true_1. unfold ct_of. by rewrite Ect. Qed.

Lemma demo_response r : bool_decide (is_Some (r_ct r)) = true →
  match demo_exec (Response (msg_of demo_busy)) r with Ret _ => true | Fault _ => false end = true →
  demo_step r (state_of (demo_exec (Response (msg_of demo_busy)) r)).
Proof. intros Hr Hx. exact (demo_exec_step (Response (msg_of demo_busy)) r _ (ct_of_run r Hr) demo_busy_ok Hx). Qed.

Lemma demo_steps : rtc demo_step demo_begin demo_again.
Proof.
  assert (H1 : bool_decide (is_Some (r_ct demo_begin)) = true) by (vm_compute; reflexivity). apply ct_of_run in H1.
  assert (Hnow : r_now demo_begin = 100) by (vm_compute; reflexivity).
  assert (Htm : ct_tmr (ct_of demo_begin) = Some 32100 ∧ ct_tmre (ct_of demo_begin) = Some 600) by (vm_compute; by split).
  eapply (rtc_l _ _ (at_ 600 demo_begin)).
  { rewrite (run_fields _ _ H1) at 1. unfold at_. rewrite H1, Hnow. apply step_elapse; lia. }
  eapply (rtc_l _ _ demo_repeated).
  { unfold demo_repeated. apply (demo_exec_step Retransmit _ (ct_of demo_begin)); [exact H1| |vm_compute; reflexivity].
    destruct Htm as [Htm Htmre]. exists 600. split; [exact Htmre|]. split; [cbn; lia|]. intros t' Ht'. rewrite Htm in Ht'.
    apply (inj Some) in Ht' as <-. lia. }
  eapply (rtc_l _ _ demo_refused).
  { unfold demo_refused. apply demo_response; vm_compute; reflexivity. }
  apply rtc_once. unfold demo_again. apply demo_response; vm_compute; reflexivity.
Qed.

Lemma ctrans_reports_witness : finished (reports (r_log demo_again)) ∧ reports (r_log demo_again) = [(0, Some 486)].
Proof.
  split; [|vm_compute; reflexivity].
  pose proof (ctrans_reports (H := digits_only) big_alloc (λ _, 0) demo_set (λ _, true) true true 7 (Some (bytes_of "dialer")) demo_software
    SIP_TRANSP_UDP demo_dst (bytes_of "INVITE") (bytes_of "z9hG4bK7") (mbuf_of demo_invite) 100 0 demo_begin demo_again
    ltac:(lia) demo_invite_wf demo_begin_run demo_steps) as Hr.
  assert (E1 : bool_decide (is_Some (r_ct demo_again)) = true) by (vm_compute; reflexivity).
  assert (E2 : bool_decide (ct_state (ct_of demo_again) = COMPLETED) = true) by (vm_compute; reflexivity).
  rewrite (ct_of_run _ E1), E2 in Hr. exact Hr.
Defined.

Lemma ctrans_transmissions_witness :
  (∃ k, requests (r_log demo_again) = replicate k demo_invite ∧ 1 ≤ Z.of_nat k ≤ 7) ∧
  (∃ k bs, acks (r_log demo_again) = replicate k bs) ∧
  acks (r_log demo_again) = [demo_ack; demo_ack] ∧ requests (r_log demo_again) = [demo_invite; demo_invite].
Proof.
  destruct (ctrans_transmissions (H := digits_only) big_alloc (λ _, 0) demo_set (λ _, true) true true 7 (Some (bytes_of "dialer")) demo_software
    SIP_TRANSP_UDP demo_dst (bytes_of "INVITE") (bytes_of "z9hG4bK7") (mbuf_of demo_invite) 100 0 demo_begin demo_again
    ltac:(lia) demo_invite_wf demo_begin_run demo_steps) as [(k & Hk & Hb & _) Ha].
  split; [|split; [exact Ha|split; vm_compute; reflexivity]].
  assert (Ep : payload (mbuf_of demo_invite) = demo_invite) by (vm_compute; reflexivity). rewrite Ep in Hk. exists k. split; [exact Hk|exact Hb].
Defined.

Lemma ctrans_safe_witness :
  ∃ err r0, begin (λ _, 0) (Run (Some (ctrans_new SIP_TRANSP_UDP demo_dst (bytes_of "INVITE") (bytes_of "z9hG4bK7") (mbuf_of demo_invite)))
    100 0 []) = Ret (err, r0).
Proof.
  destruct (ctrans_safe (H := digits_only) big_alloc (λ _, 0) demo_set (λ _, true) true true 7 (Some (bytes_of "dialer")) demo_software
    SIP_TRANSP_UDP demo_dst (bytes_of "INVITE") (bytes_of "z9hG4bK7") (mbuf_of demo_invite) 100 0 ltac:(lia) demo_invite_wf)
    as (err & r0 & E & _). exists err, r0. exact E.
Defined.

Lemma ctrans_silence_witness :
  ∃ r0 r, begin (λ _, 0) (Run (Some (ctrans_new SIP_TRANSP_UDP demo_dst (bytes_of "BYE") (bytes_of "z9hG4bK7") (mbuf_of demo_invite))) 100 0 []) =
      Ret (0, r0) ∧ rtc demo_step r0 r ∧ r_ct r = None ∧ r_now r = 32100 ∧
    r_log r = map (λ d, Sent (100 + d) Request (payload (mbuf_of demo_invite)) 0)
      [0; 500; 1500; 3500; 7500; 11500; 15500; 19500; 23500; 27500; 31500] ++ [Reported ETIMEDOUT None].
Proof.
  exact (ctrans_silence (H := digits_only) big_alloc (λ _, 0) demo_set (λ _, true) true true 7 (Some (bytes_of "dialer")) demo_dst
    (bytes_of "BYE") (bytes_of "z9hG4bK7") (mbuf_of demo_invite) demo_invite_wf (λ _, eq_refl) 100 ltac:(lia) 0).
Defined.
