(* ===== verification/CtransTable.v ===== *)
(** * The client transactions of a stack

    The table of transactions: requests, responses, timers and cancellations,
    in any order, keep every transaction in the bucket of its branch, and a
    response reaches the transaction of its branch and method. *)
From stdpp Require Import base tactics list numbers strings option gmap.
From S2P Require Import Prelude Mbuf Fmt Print MbufPrint Regex Uri Hash Sip SipSafe SipLines SipMsg SipPrint Trans Ctrans CtransCopy CtransLife.

(** ** Text and keys *)

Lemma joaat_ascii bs : Forall (λ c, c < 128) bs → hash_joaat_str bs = hash_joaat bs.
Proof.
  intros Hb. unfold hash_joaat_str, hash_joaat. f_equal. generalize 0. induction Hb as [|c bs Hc _ IH]; intros h; [done|].
  cbn [foldl]. replace (char_int c) with c; [apply IH|]. unfold char_int. by rewrite bool_decide_eq_true_2.
Qed.

Section table.
Context `{inet} (A : allocator) `{!allocator_ok A} (send : nat → Z).
Context (sa_set : list Z → option sockaddr) (hdr_mem : pl → bool) (msg_mem hash_mem : bool) (tag : Z).
Context (software : option (list Z)) (Hsw : ∀ sw, software = Some sw → short sw) (ct_mem : bool).

Local Abbreviation exec := (exec A send sa_set hdr_mem msg_mem hash_mem tag software).
Local Abbreviation sip_ctrans_request := (sip_ctrans_request send ct_mem).
Local Abbreviation sip_ctrans_cancel := (sip_ctrans_cancel A send sa_set hdr_mem msg_mem hash_mem tag software ct_mem).
Local Abbreviation response_handler := (response_handler A send sa_set hdr_mem msg_mem hash_mem tag software).

Definition key (ct : sip_ctrans) : Z := hash_joaat_str (ct_branch ct).

(** A transaction in the sense of its own invariant. *)
Definition alive (now : Z) (ct : sip_ctrans) (l : list event) : Prop :=
  ∃ t0 ct0, 0 ≤ t0 ≤ now ∧ known_tp (ct_tp ct0) ∧ ct_ok t0 ct0 ct l.

Local Abbreviation tab_in := (tab_in key alive).
Local Abbreviation tab_ok := (tab_ok key alive).

Lemma fixed_key ct0 ct ct' : fixed ct0 ct → fixed ct0 ct' → key ct' = key ct.
Proof using. clear. intros (_ & _ & E & _) (_ & _ & E' & _). unfold key. by rewrite E, E'. Qed.

(** A step of a transaction of the table. *)
Lemma on_exec id e ct s : tab_ok s → entries s !! id = Some ct → enabled e ct (jiffies s) →
  ∃ x s', on id (exec e) s = Ret (x, s') ∧ tab_ok s' ∧ touched id s s'.
Proof using allocator_ok0 Hsw.
  intros Hok Hct He. destruct (tab_alive _ _ _ s Hok id ct I Hct) as (t0 & ct0 & Ht0 & Htp & Hcok). pose proof (tab_time _ _ _ s Hok).
  destruct (exec_ok A send sa_set hdr_mem msg_mem hash_mem tag software Hsw t0 ct0 Htp ltac:(lia) e ct (jiffies s) (sent s) _ Hcok
    ltac:(lia) He) as (x & o & n' & l' & E & Hl).
  destruct (on_run key alive id (exec e) ct s x o n' l') as (s' & E' & Hok' & Htch & _); [by eapply tab_weaken|done|done| |by exists x, s'].
  intros ct' ->. split; [|by exists t0, ct0]. apply (fixed_key ct0); [apply Hcok|apply Hl].
Qed.

(** A request: refused, or the next transaction of the table. *)
Lemma request_run tp dst met branch mb s : tab_ok s → mbuf_wf mb →
  ∃ err id s', sip_ctrans_request tp (Some dst) (Some met) (Some branch) (Some mb) s = Ret ((err, id), s') ∧ tab_ok s' ∧
    (err = 0 → id = Some (next s) ∧ next s' = Pos.succ (next s) ∧
       ∃ ct, entries s' !! next s = Some ct ∧ ct_met ct = met ∧ ct_branch ct = branch) ∧
    (err ≠ 0 → id = None ∧ entries s' !! next s = None) ∧
    ∀ i, i ≠ next s → entries s' !! i = entries s !! i.
Proof using.
  clear Hsw. intros Hok Hmb. pose proof (tab_time _ _ _ s Hok) as Htime. unfold Ctrans.sip_ctrans_request.
  set (ct0 := ctrans_new tp dst met branch mb).
  destruct (enter_run key alive ct0 s Hok) as (s1 & Een & Hok1 & Eent & Elog & Enx & Ejf & Esn & Hlog & Hnone).
  destruct ct_mem; cbn [negb]; [|by exists ENOMEM, None, s].
  erewrite prog_bind_step by exact Een.
  destruct (begin_run send tp dst met branch mb (jiffies s) (sent s)) as (err & r & Eb & Hnow & Hbad & Hgood); [lia|done|].
  destruct r as [o now n' l']. cbn in Hnow, Hbad, Hgood. subst now.
  assert (Hct1 : entries s1 !! next s = Some ct0) by (rewrite Eent; apply lookup_insert_eq).
  assert (Hal : ∀ ct', o = Some ct' → err = 0 ∧ fixed ct0 ct' ∧ alive (jiffies s) ct' l').
  { intros ct' ->. destruct (decide (err = 0)) as [Hz|Hz]; [|by destruct (Hbad Hz)]. destruct (Hgood Hz) as (Htp & _ & Hnow & Hlife).
    split; [done|]. split; [by apply (ok_fixed _ _ _ _ Hlife)|]. exists (jiffies s), ct0. split; [cbn; lia|]. by split. }
  destruct (on_run key alive (next s) (begin send) ct0 s1 err o n' l' Hok1 Hct1) as (s2 & E2 & Hok2 & [Htch [Hnx _]] & Ho & _).
  { by rewrite Elog, Hlog, Ejf, Esn. }
  { intros ct' Eo. destruct (Hal ct' Eo) as (_ & Hfx & ?). rewrite Ejf. split; [by apply (fixed_key ct0)|done]. }
  erewrite prog_bind_step by exact E2. eexists err, _, s2. split; [done|]. split; [done|]. split; [|split].
  - intros Hz. rewrite bool_decide_eq_true_2 by done. split; [done|]. split; [by rewrite Hnx|].
    destruct (Hgood Hz) as (_ & [ct' ->] & _). exists ct'. split; [done|].
    destruct (Hal ct' eq_refl) as (_ & (_ & Em & Ebr & _) & _). by split.
  - intros Hz. rewrite bool_decide_eq_false_2 by done. split; [done|]. rewrite Ho. by destruct (Hbad Hz).
  - intros i Hi. destruct (Htch i Hi) as [-> _]. by rewrite Eent, lookup_insert_ne by congruence.
Qed.

(** The transaction of a response: its branch and its method are those of the
    message, byte by byte. *)
Definition matches (msg : sip_msg) (ct : sip_ctrans) : Prop :=
  ct_branch ct = pl_text (v_branch (m_via msg)) ∧ ct_met ct = pl_text (cs_met (m_cseq msg)).

Lemma cmp_run s msg id ct : msg_ok msg → entries s !! id = Some ct → cmp_handler s msg id = Ret (bool_decide (matches msg ct)).
Proof using.
  intros (m & lim & Hlim & _ & Hin) Hct. destruct Hin as (_ & _ & _ & _ & _ & _ & _ & _ & _ & _ & _ & _ & (_ & Hbr & _) & _ & _ & [Hmet _] & _).
  destruct (strcmp_text m lim _ (ct_branch ct) Hlim Hbr) as (e1 & E1 & H1). destruct (strcmp_text m lim _ (ct_met ct) Hlim Hmet) as (e2 & E2 & H2).
  unfold cmp_handler. rewrite Hct. cbn [of_option mbind outcome_bind]. rewrite E1. cbn [mbind outcome_bind].
  destruct (decide (e1 = 0)) as [Hz|Hz].
  - rewrite bool_decide_eq_false_2 by lia. rewrite E2. cbn [mbind outcome_bind]. f_equal. apply bool_decide_ext. unfold matches.
    apply H1 in Hz. rewrite Hz, H2. split; [by intros ->|by intros [_ ->]].
  - rewrite bool_decide_eq_true_2 by done. f_equal. symmetry. apply bool_decide_eq_false_2. intros [Hm _]. apply Hz, H1. done.
Qed.

(** The transaction a response finds. *)
Lemma response_lookup s msg : tab_ok s → msg_ok msg → Forall (λ c, c < 128) (pl_text (v_branch (m_via msg))) →
  ∃ r, response_handler msg s = (match r with None => mret false | Some id => on id (exec (Response msg));; mret true end) s ∧
    match r with
    | Some id => ∃ ct, entries s !! id = Some ct ∧ matches msg ct
    | None => ∀ id ct, entries s !! id = Some ct → ¬ matches msg ct
    end.
Proof using. clear Hsw.
  intros Hok Hmsg Hascii. pose proof Hmsg as (m & lim & Hlim & _ & Hin).
  destruct Hin as (_ & _ & _ & _ & _ & _ & _ & _ & _ & _ & _ & _ & (_ & Hbr & _) & _).
  unfold Ctrans.response_handler. destruct (pl_bytes_in m lim Hlim _ Hbr) as [bs Hbs].
  assert (Et : pl_text (v_branch (m_via msg)) = bs) by (unfold pl_text; by rewrite Hbs). rewrite Et in Hascii.
  destruct (lookup_run key alive (hash_joaat bs) (λ s, cmp_handler s msg) (λ ct, bool_decide (matches msg ct)) s Hok) as (r & E & Hr).
  { intros id ct Hct. by apply cmp_run. }
  { intros id ct Hct [Hb _]%bool_decide_eq_true_1. unfold key. by rewrite Hb, Et, joaat_ascii. }
  exists r. split.
  - erewrite prog_bind_step by (apply lift_Ret; unfold hash_joaat_pl; by rewrite Hbs). by erewrite prog_bind_step by exact E.
  - destruct r as [id|].
    + destruct Hr as (ct & Hct & Hm%bool_decide_eq_true_1). by exists ct.
    + intros id ct Hct. exact (bool_decide_eq_false_1 _ (Hr id ct Hct)).
Qed.

(** ** Any use of the table *)

Inductive op :=
| Ask (tp : Z) (dst : option sockaddr) (met branch : option (list Z)) (mb : option mbuf)
| Abandon (id : option positive)
| Receive (msg : sip_msg)
| Fire (id : positive) (e : life)
| Pass (d : Z).

Definition perform (o : op) : prog sip unit :=
  match o with
  | Ask tp dst met branch mb => sip_ctrans_request tp dst met branch mb;; mret tt
  | Abandon id => sip_ctrans_cancel id;; mret tt
  | Receive msg => response_handler msg;; mret tt
  | Fire id e => on id (exec e);; mret tt
  | Pass d => modify (elapse d)
  end.

(** The user holds on to transactions that live, messages were decoded, and
    what fires is due. *)
Definition allowed (o : op) (s : sip) : Prop :=
  match o with
  | Ask _ _ _ _ mb => buffer_ok mb
  | Abandon id => ∀ i, id = Some i → is_Some (entries s !! i)
  | Receive msg => msg_ok msg ∧ Forall (λ c, c < 128) (pl_text (v_branch (m_via msg)))
  | Fire id e => ∃ ct, entries s !! id = Some ct ∧ enabled e ct (jiffies s)
  | Pass d => 0 ≤ d ∧ jiffies s + d ≤ 2 ^ 63
  end.

Lemma alive_later d now ct l : 0 ≤ d → alive now ct l → alive (now + d) ct l.
Proof using. clear. intros Hd (t0 & ct0 & Ht & H2 & H3). exists t0, ct0. split; [lia|]. by split. Qed.

Lemma cancel_table_run id ct s : tab_ok s → entries s !! id = Some ct →
  ∃ err s', sip_ctrans_cancel (Some id) s = Ret (err, s') ∧ tab_ok s'.
Proof using allocator_ok0 Hsw.
  intros Hok Hct. unfold Ctrans.sip_ctrans_cancel. erewrite prog_bind_step by done. rewrite Hct.
  erewrite prog_bind_step by done. destruct (tab_alive _ _ _ s Hok id ct I Hct) as (t0 & ct0 & Ht0 & Htp & Hcok).
  destruct (cancel_run A send sa_set hdr_mem msg_mem hash_mem tag software Hsw t0 ct0 ct (jiffies s) (sent s) _ Hcok)
    as (x & o & n' & l' & E & Hl & Hmb).
  destruct (on_run key alive id (exec Cancel) ct s x o n' l') as (s1 & E1 & Hok1 & _); [by eapply tab_weaken|done|done| |].
  { intros ct' ->. split; [|by exists t0, ct0]. apply (fixed_key ct0); [apply Hcok|apply Hl]. }
  erewrite prog_bind_step by exact E1. destruct x as [err [mb|]]; cbn [fst snd] in *; [|by exists err, s1].
  destruct (request_run (ct_tp ct) (ct_dst ct) (bytes_of "CANCEL") (ct_branch ct) mb s1 Hok1 (Hmb mb eq_refl))
    as (err2 & id2 & s2 & E2 & Hok2 & _).
  exists err2, s2. split; [|done]. by erewrite prog_bind_step by exact E2.
Qed.

(** C9: the table of client transactions under any use: a new table is in order,
    and every request, cancellation, response, timer and transport error that
    can happen returns and leaves it in order, whichever allocations and
    transmissions fail: each transaction keeps its own invariant, is in the
    bucket of its branch, and the table holds no other. *)
Theorem sip_ctrans_table k t :
  (0 ≤ k < 32 → 0 ≤ t ≤ 2 ^ 63 → tab_ok (Table (replicate (Z.to_nat (2 ^ k)) []) ∅ ∅ 1 t 0)) ∧
  ∀ s o, tab_ok s → allowed o s → ∃ s', perform o s = Ret (tt, s') ∧ tab_ok s'.
Proof using allocator_ok0 Hsw.
  split; [intros; by apply tab_new|].
  intros s o Hok Ha. destruct o as [tp dst met branch mb|id|msg|id e|d]; cbn [perform allowed] in *.
  - destruct dst as [dst|], met as [met|], branch as [branch|], mb as [mb|]; try by exists s.
    destruct (request_run tp dst met branch mb s Hok Ha) as (err & id & s' & E & Hok' & _).
    exists s'. by erewrite prog_bind_step by exact E.
  - destruct id as [id|]; [|by exists s]. destruct (Ha id eq_refl) as [ct Hct].
    destruct (cancel_table_run id ct s Hok Hct) as (err & s' & E & Hok'). exists s'. by erewrite prog_bind_step by exact E.
  - destruct Ha as [Hmsg Hb]. destruct (response_lookup s msg Hok Hmsg Hb) as (r & E & Hr).
    destruct r as [id|]; [|exists s; split; [|done]; by erewrite prog_bind_step by exact E].
    destruct Hr as (ct & Hct & _). destruct (on_exec id (Response msg) ct s Hok Hct Hmsg) as (x & s' & E' & Hok' & _).
    exists s'. split; [|done]. erewrite prog_bind_step; [done|]. rewrite E. by erewrite prog_bind_step by exact E'.
  - destruct Ha as (ct & Hct & He). destruct (on_exec id e ct s Hok Hct He) as (x & s' & E & Hok' & _).
    exists s'. by erewrite prog_bind_step by exact E.
  - eexists. split; [done|]. apply elapse_ok; [|lia..|done]. intros; apply alive_later; [lia|done].
Qed.

(** C10: a response goes to the transaction whose branch and method are those of
    its Via and CSeq, which then acts on it and no other transaction changes; if
    there is none the response is left to others and nothing changes.  (The
    branch must be in ASCII: the table is filled with a hash of signed
    characters and searched with one of unsigned.) *)
Theorem response_handler_spec s msg :
  tab_ok s → msg_ok msg → Forall (λ c, c < 128) (pl_text (v_branch (m_via msg))) →
  (∃ id ct x s', entries s !! id = Some ct ∧ matches msg ct ∧
     on id (exec (Response msg)) s = Ret (x, s') ∧ response_handler msg s = Ret (true, s') ∧ touched id s s') ∨
  ((∀ id ct, entries s !! id = Some ct → ¬ matches msg ct) ∧ response_handler msg s = Ret (false, s)).
Proof using allocator_ok0 Hsw.
  intros Hok Hmsg Hb. destruct (response_lookup s msg Hok Hmsg Hb) as (r & E & Hr). rewrite E.
  destruct r as [id|]; [left|by right]. destruct Hr as (ct & Hct & Hm).
  destruct (on_exec id (Response msg) ct s Hok Hct Hmsg) as (x & s' & E' & Hok' & Ht).
  exists id, ct, x, s'. split_and!; try done. by erewrite prog_bind_step by exact E'.
Qed.
End table.

(** ** Witnesses *)

Local Abbreviation demo_perform := (perform (H := digits_only) big_alloc (λ _, 0) demo_set (λ _, true) true true 7 (Some (bytes_of "dialer")) true).

(** An empty table, and an INVITE in it. *)
Definition demo_empty : sip := Table (replicate (Z.to_nat (2 ^ 2)) []) ∅ ∅ 1 100 0.
Definition demo_ask : op :=
  Ask SIP_TRANSP_UDP (Some demo_dst) (Some (bytes_of "INVITE")) (Some (bytes_of "z9hG4bK7")) (Some (mbuf_of demo_invite)).

Lemma sip_ctrans_table_witness : tab_ok key alive demo_empty ∧ ∃ s', demo_perform demo_ask demo_empty = Ret (tt, s') ∧ tab_ok key alive s'.
Proof.
  destruct (sip_ctrans_table (H := digits_only) big_alloc (λ _, 0) demo_set (λ _, true) true true 7 (Some (bytes_of "dialer")) demo_software
    true 2 100) as [Hempty Hop].
  assert (H0 : tab_ok key alive demo_empty) by (apply Hempty; lia). split; [exact H0|].
  destruct (Hop demo_empty demo_ask H0 demo_invite_wf) as (s' & E & Hs'). exists s'. split; [exact E|exact Hs'].
Defined.

(** The table after the request, from the lemmas of the component. *)
Lemma demo_asked : ∃ s1 ct, tab_ok key alive s1 ∧ entries s1 !! 1%positive = Some ct ∧ ct_met ct = bytes_of "INVITE" ∧ ct_branch ct = bytes_of "z9hG4bK7".
Proof.
  assert (H0 : tab_ok key alive demo_empty).
  { apply (tab_new key alive 2 100); lia. }
  destruct (request_run (λ _, 0) true SIP_TRANSP_UDP demo_dst (bytes_of "INVITE") (bytes_of "z9hG4bK7") (mbuf_of demo_invite)
    demo_empty H0 demo_invite_wf) as (err & id & s' & E & Hok & Hgood & _).
  assert (Hz : match Ctrans.sip_ctrans_request (λ _, 0) true SIP_TRANSP_UDP (Some demo_dst) (Some (bytes_of "INVITE")) (Some (bytes_of "z9hG4bK7"))
    (Some (mbuf_of demo_invite)) demo_empty with Ret ((e, _), _) => bool_decide (e = 0) | _ => false end = true) by (vm_compute; reflexivity).
  rewrite E in Hz. apply bool_decide_eq_true_1 in Hz. destruct (Hgood Hz) as (_ & _ & ct & Hct & Hm & Hb).
  exists s', ct. split; [exact Hok|]. split; [exact Hct|]. split; [exact Hm|exact Hb].
Qed.

Lemma response_handler_spec_witness :
  ∃ s1 s2, tab_ok key alive s1 ∧
    response_handler (H := digits_only) big_alloc (λ _, 0) demo_set (λ _, true) true true 7 (Some (bytes_of "dialer")) (msg_of demo_busy) s1 =
      Ret (true, s2).
Proof.
  destruct demo_asked as (s1 & ct & H1 & Hct & Hm & Hb).
  assert (Hascii : Forall (λ c, c < 128) (pl_text (v_branch (m_via (msg_of demo_busy))))).
  { apply (bool_decide_eq_true_1 _). vm_compute. reflexivity. }
  destruct (response_handler_spec (H := digits_only) big_alloc (λ _, 0) demo_set (λ _, true) true true 7 (Some (bytes_of "dialer")) demo_software
    s1 (msg_of demo_busy) H1 demo_busy_ok Hascii) as [(id & ct' & x & s2 & _ & _ & _ & E & _)|[Hno _]].
  - exists s1, s2. split; [exact H1|exact E].
  - exfalso. apply (Hno 1%positive ct Hct). unfold matches. rewrite Hm, Hb. split; vm_compute; reflexivity.
Defined.
