(* ===== verification/Dialog.v ===== *)
(** * SIP dialogs (src/re/src/sip/dialog.c)

    A dialog holds what every request of a call repeats: the route set, To, From,
    Call-ID and the sequence numbers.  It is made by a caller ([sip_dialog_alloc],
    completed by [sip_dialog_create] or [sip_dialog_fork] when a peer answers) or
    from a request ([sip_dialog_accept]), and printed into each request
    ([sip_dialog_encode]).

    The route is an URI whose parts point into the headers of the dialog or into
    its remote URI; which of the two is part of the state, since the code replaces
    and frees both. *)
From stdpp Require Import base tactics list numbers strings option gmap.
From S2P Require Import Prelude Mbuf Fmt Print MbufPrint Regex Uri Hash Sip SipSafe SipVal SipLines SipMsg SipPrint Reply Trans Ctrans CtransCopy.

Definition ROUTE_OFFSET : Z := 7.
Definition X64_STRSIZE : Z := 17.

(** Where the parts of the route lie; freed memory is not to be looked at. *)
Inductive route_mem := InHeaders | InUri | Freed.

Record sip_dialog := Dialog {
  dl_route : uri;
  dl_route_in : route_mem;
  dl_mb : mbuf;
  dl_callid : list Z;
  dl_ltag : list Z;
  dl_rtag : option (list Z);
  dl_uri : list Z;
  dl_lseq : Z;
  dl_rseq : Z;
  dl_cpos : Z
}.

#[export] Instance eta_sip_dialog : Eta sip_dialog := λ d,
  Dialog (dl_route d) (dl_route_in d) (dl_mb d) (dl_callid d) (dl_ltag d) (dl_rtag d) (dl_uri d) (dl_lseq d) (dl_rseq d) (dl_cpos d).

Definition set_dl_mb : mbuf → sip_dialog → sip_dialog := ltac:(setter dl_mb).
Definition set_dl_uri : list Z → sip_dialog → sip_dialog := ltac:(setter dl_uri).
Definition set_dl_route : uri → sip_dialog → sip_dialog := ltac:(setter dl_route).
Definition set_dl_route_in : route_mem → sip_dialog → sip_dialog := ltac:(setter dl_route_in).
Definition set_dl_lseq : Z → sip_dialog → sip_dialog := ltac:(setter dl_lseq).
Definition set_dl_rseq : Z → sip_dialog → sip_dialog := ltac:(setter dl_rseq).

(** A step that may end its function with an error number. *)
Definition try_ {X Y} (m : outcome (Z * option X)) (k : X → outcome (Z * option Y)) : outcome (Z * option Y) :=
  r ← m;
  match r with
  | (0, Some x) => k x
  | (e, _) => Ret (e, None)
  end.

(** An error number that must be 0. *)
Definition ok_or {X} (e : Z) (x : X) : Z * option X := if bool_decide (e = 0) then (0, Some x) else (e, None).

Section dialog.
Context `{inet} (A : allocator).
(** Whether the dialog itself can be allocated. *)
Variable dlg_mem : bool.

Definition alloc_dialog : outcome (Z * option unit) := Ret (if dlg_mem then (0, Some tt) else (ENOMEM, None)).
Definition alloc_buffer : outcome (Z * option mbuf) := Ret (match mbuf_alloc A 512 with Some mb => (0, Some mb) | None => (ENOMEM, None) end).

Definition x64_strdup (val : Z) : outcome (Z * option (list Z)) :=
  if alloc_ok A X64_STRSIZE then
    r ← re_vsnprintf no_handler 1 X64_STRSIZE (bytes_of "%016llx") [VInt val];
    Ret (0, Some (c_string (snd r)))
  else Ret (ENOMEM, None).

(** The route: the first header of the dialog, which ends at [rend], or without
    one the remote URI. *)
Definition route_of (mb : mbuf) (rend : Z) (uri : list Z) : outcome (Z * option (Uri.uri * route_mem)) :=
  if bool_decide (rend ≠ 0) then
    r ← sip_addr_decode (Pl (option_map (drop (Z.to_nat ROUTE_OFFSET)) (mb_buf mb)) (u64 (rend - ROUTE_OFFSET)));
    Ret (ok_or (fst r) (ad_uri (snd r), InHeaders))
  else
    r ← uri_decode (pl_set_str pl_null (Some uri));
    Ret (ok_or (fst r) (snd r, InUri)).

(** ** sip_dialog_alloc *)

Fixpoint route_lines (routev : list (list Z)) (first : bool) : prog mbuf (Z * Z) :=
  match routev with
  | [] => mret (0, 0)
  | v :: routev =>
      e ← mbuf_printf A (bytes_of "Route: <%s;lr>" ++ crlf) [VStr (Some v)];
      p ← gets mb_pos;
      r ← route_lines routev false;
      mret (Z.lor e (fst r), if first then u64 (p - 2) else snd r)
  end.

(** The errors, the end of the first route and the place of the From header. *)
Definition caller_text (routev : list (list Z)) (to_uri : list Z) (from_name : option (list Z)) (from_uri : list Z) (ltag : Z) :
    prog mbuf (Z * Z * Z) :=
  r ← route_lines routev true;
  e2 ← mbuf_printf A (bytes_of "To: <%s>" ++ crlf) [VStr (Some to_uri)];
  cpos ← gets mb_pos;
  e3 ← mbuf_printf A (bytes_of "From: %s%s%s<%s>;tag=%016llx" ++ crlf)
         [VStr (Some (match from_name with Some _ => [dquote] | None => [] end)); VStr from_name;
          VStr (Some (match from_name with Some _ => [dquote; chr " "] | None => [] end)); VStr (Some from_uri); VInt ltag];
  mret (Z.lor (Z.lor (fst r) e2) e3, snd r, cpos).

(** The random numbers: the two tags and the first sequence number. *)
Definition sip_dialog_alloc (rnd_ltag rnd_callid rnd_lseq : Z) (uri to_uri from_name from_uri : option (list Z)) (routev : list (list Z)) :
    outcome (Z * option sip_dialog) :=
  match uri, to_uri, from_uri with
  | Some uri, Some to_uri, Some from_uri =>
      try_ alloc_dialog (λ _,
      try_ (Ret (str_dup A (Some uri))) (λ uri,
      try_ (x64_strdup rnd_callid) (λ callid,
      try_ (x64_strdup rnd_ltag) (λ ltag,
      try_ alloc_buffer (λ mb,
      r ← caller_text routev to_uri from_name from_uri rnd_ltag mb;
      let '(err, rend, cpos, mb) := r in
      try_ (Ret (ok_or err tt)) (λ _,
      let mb := mbuf_set_pos mb 0 in
      try_ (route_of mb rend uri) (λ route,
      Ret (0, Some (Dialog (fst route) (snd route) mb callid ltag None uri rnd_lseq 0 cpos)))))))))
  | _, _, _ => Ret (EINVAL, None)
  end.

(** ** The headers of the peer *)

(** A Route header is printed for each Record-Route; the end of the first. *)
Definition record_route_handler (hdr : sip_hdr) (st : outcome (mbuf * Z)) : bool * outcome (mbuf * Z) :=
  match st with
  | Fault f => (true, Fault f)
  | Ret (mb, rend) =>
      match mbuf_printf A (bytes_of "Route: %r" ++ crlf) [VPl (Some (h_val hdr))] mb with
      | Ret (err, mb) =>
          if bool_decide (err ≠ 0) then (true, Ret (mb, rend))
          else (false, Ret (mb, if bool_decide (rend = 0) then u64 (mb_pos mb - 2) else rend))
      | Fault f => (true, Fault f)
      end
  end.

(** The error and the end of the first route. *)
Definition record_routes (msg : sip_msg) (fwd : bool) : prog mbuf (Z * Z) := λ mb,
  q ← sip_msg_hdr_apply msg fwd SIP_HDR_RECORD_ROUTE record_route_handler (Ret (mb, 0));
  st ← snd q;
  Ret (if bool_decide (is_Some (fst q)) then ENOMEM else 0, snd st, fst st).

(** The address in the Contact of a message. *)
Definition contact_addr (msg : sip_msg) : outcome (Z * option sip_addr) :=
  contact ← sip_msg_hdr msg SIP_HDR_CONTACT;
  match contact with
  | None => Ret (EBADMSG, None)
  | Some c =>
      r ← sip_addr_decode (h_val c);
      Ret (if bool_decide (fst r = 0) then (0, Some (snd r)) else (EBADMSG, None))
  end.

(** [mbuf_buf] and [mbuf_get_left] of a buffer, copied to another. *)
Definition copy_rest (src : mbuf) : prog mbuf Z := λ mb,
  match mb_buf src with
  | None => mbuf_write_mem A mb None
  | Some _ => bs ← memcpy_from (mb_buf src) (mb_pos src) (mbuf_get_left src); mbuf_write_mem A mb (Some bs)
  end.

(** Who the peer is: the sender of a request, the receiver of a response. *)
Definition peer (msg : sip_msg) : sip_taddr := if m_req msg then m_from msg else m_to msg.

(** ** sip_dialog_accept *)

Definition callee_text (msg : sip_msg) : prog mbuf (Z * Z) :=
  r ← record_routes msg true;
  e2 ← mbuf_printf A (bytes_of "To: %r" ++ crlf) [VPl (Some (ta_val (m_from msg)))];
  e3 ← mbuf_printf A (bytes_of "From: %r;tag=%016llx" ++ crlf) [VPl (Some (ta_val (m_to msg))); VInt (m_tag msg)];
  mret (Z.lor (Z.lor (fst r) e2) e3, snd r).

Definition sip_dialog_accept (rnd_lseq : Z) (msg : sip_msg) : outcome (Z * option sip_dialog) :=
  if negb (m_req msg) then Ret (EINVAL, None)
  else
    contact ← sip_msg_hdr msg SIP_HDR_CONTACT;
    if bool_decide (contact = None) || bool_decide (pl_p (m_callid msg) = None) then Ret (EBADMSG, None)
    else
      try_ (contact_addr msg) (λ addr,
      try_ alloc_dialog (λ _,
      try_ (pl_strdup A (ad_auri addr)) (λ uri,
      try_ (pl_strdup A (m_callid msg)) (λ callid,
      try_ (x64_strdup (m_tag msg)) (λ ltag,
      try_ (pl_strdup A (ta_tag (m_from msg))) (λ rtag,
      try_ alloc_buffer (λ mb,
      r ← callee_text msg mb;
      let '(err, rend, mb) := r in
      try_ (Ret (ok_or err tt)) (λ _,
      let mb := mbuf_set_pos mb 0 in
      try_ (route_of mb rend uri) (λ route,
      Ret (0, Some (Dialog (fst route) (snd route) mb callid ltag (Some rtag) uri rnd_lseq (cs_num (m_cseq msg)) 0))))))))))).

(** ** sip_dialog_create and sip_dialog_fork

    The headers of the peer, followed by those from [cpos] on. *)
Definition answered_text (msg : sip_msg) (old : mbuf) : prog mbuf (Z * Z) :=
  r ← record_routes msg (m_req msg);
  e2 ← mbuf_printf A (bytes_of "To: %r" ++ crlf) [VPl (Some (ta_val (peer msg)))];
  e3 ← copy_rest old;
  mret (Z.lor (Z.lor (fst r) e2) e3, snd r).

(** The error, and the dialog as it is then; its headers are at their start
    before and after. *)
Definition sip_dialog_create (dlg : sip_dialog) (msg : sip_msg) : outcome (Z * sip_dialog) :=
  if bool_decide (is_Some (dl_rtag dlg)) || bool_decide (dl_cpos dlg = 0) then Ret (EINVAL, dlg)
  else
    r ← try_ (contact_addr msg) (λ addr,
        try_ alloc_buffer (λ mb,
        try_ (pl_strdup A (ad_auri addr)) (λ uri,
        try_ (pl_strdup A (ta_tag (peer msg))) (λ rtag,
        r ← answered_text msg (mbuf_set_pos (dl_mb dlg) (dl_cpos dlg)) mb;
        let '(err, rend, mb) := r in
        try_ (Ret (ok_or err tt)) (λ _,
        let mb := mbuf_set_pos mb 0 in
        try_ (route_of mb rend uri) (λ route,
        Ret (0, Some (Dialog (fst route) (snd route) mb (dl_callid dlg) (dl_ltag dlg) (Some rtag) uri (dl_lseq dlg)
          (if m_req msg then cs_num (m_cseq msg) else 0) 0))))))));
    Ret (match r with
         | (0, Some dlg') => (0, dlg')
         | (err, _) => (err, dlg)
         end).

(** The headers of the other dialog are at their start again when it returns. *)
Definition sip_dialog_fork (odlg : sip_dialog) (msg : sip_msg) : outcome (Z * option sip_dialog) :=
  if bool_decide (dl_cpos odlg = 0) then Ret (EINVAL, None)
  else
    contact ← sip_msg_hdr msg SIP_HDR_CONTACT;
    if bool_decide (contact = None) || bool_decide (pl_p (m_callid msg) = None) then Ret (EBADMSG, None)
    else
      try_ (contact_addr msg) (λ addr,
      try_ alloc_dialog (λ _,
      try_ (pl_strdup A (ad_auri addr)) (λ uri,
      try_ (pl_strdup A (ta_tag (peer msg))) (λ rtag,
      try_ alloc_buffer (λ mb,
      r ← answered_text msg (mbuf_set_pos (dl_mb odlg) (dl_cpos odlg)) mb;
      let '(err, rend, mb) := r in
      try_ (Ret (ok_or err tt)) (λ _,
      let mb := mbuf_set_pos mb 0 in
      try_ (route_of mb rend uri) (λ route,
      Ret (0, Some (Dialog (fst route) (snd route) mb (dl_callid odlg) (dl_ltag odlg) (Some rtag) uri (dl_lseq odlg)
        (if m_req msg then cs_num (m_cseq msg) else 0) 0))))))))).

(** ** sip_dialog_update *)

(** [dlg->route.scheme.p == dlg->uri]: the first byte of the URI. *)
Definition scheme_at_uri (dlg : sip_dialog) : outcome bool :=
  match dl_route_in dlg with
  | InHeaders => Ret false
  | InUri => Ret (bool_decide (option_map length (pl_p (u_scheme (dl_route dlg))) = Some (length (dl_uri dlg))))
  | Freed => Fault UseAfterFree
  end.

Definition sip_dialog_update (dlg : sip_dialog) (msg : sip_msg) : outcome (Z * sip_dialog) :=
  r ← try_ (contact_addr msg) (λ addr,
      try_ (pl_strdup A (ad_auri addr)) (λ uri,
      own ← scheme_at_uri dlg;
      if own : bool then
        r ← uri_decode (pl_set_str pl_null (Some uri));
        try_ (Ret (ok_or (fst r) (snd r))) (λ route, Ret (0, Some (set_dl_uri uri (set_dl_route route dlg))))
      else
        Ret (0, Some (set_dl_uri uri (set_dl_route_in (match dl_route_in dlg with InUri => Freed | w => w end) dlg)))));
  Ret (match r with
       | (0, Some dlg') => (0, dlg')
       | (err, _) => (err, dlg)
       end).

(** ** Sequence numbers, printing and comparing *)

Definition sip_dialog_rseq_valid (dlg : sip_dialog) (msg : sip_msg) : bool * sip_dialog :=
  if negb (m_req msg) then (false, dlg)
  else if bool_decide (cs_num (m_cseq msg) < dl_rseq dlg) then (false, dlg)
  else (true, set_dl_rseq (cs_num (m_cseq msg)) dlg).

Definition dialog_text (dlg : sip_dialog) (seq : Z) (met : list Z) : prog mbuf Z :=
  e1 ← copy_rest (dl_mb dlg);
  e2 ← mbuf_printf A (bytes_of "Call-ID: %s" ++ crlf) [VStr (Some (dl_callid dlg))];
  e3 ← mbuf_printf A (bytes_of "CSeq: %u %s" ++ crlf) [VInt seq; VStr (Some met)];
  mret (Z.lor (Z.lor e1 e2) e3).

Definition sip_dialog_encode (mb : mbuf) (dlg : sip_dialog) (cseq : Z) (met : option (list Z)) : outcome (Z * mbuf * sip_dialog) :=
  match met with
  | None => Ret (EINVAL, mb, dlg)
  | Some met =>
      let ack := bool_decide (met = bytes_of "ACK") in
      r ← dialog_text dlg (if ack then cseq else dl_lseq dlg) met mb;
      Ret (r, if ack then dlg else set_dl_lseq (u32 (dl_lseq dlg + 1)) dlg)
  end.
End dialog.

Definition sip_dialog_uri (dlg : option sip_dialog) : option (list Z) := option_map dl_uri dlg.
Definition sip_dialog_route (dlg : option sip_dialog) : option (uri * route_mem) := option_map (λ d, (dl_route d, dl_route_in d)) dlg.
Definition sip_dialog_callid (dlg : option sip_dialog) : option (list Z) := option_map dl_callid dlg.
Definition sip_dialog_lseq (dlg : option sip_dialog) : Z := match dlg with Some d => dl_lseq d | None => 0 end.
Definition sip_dialog_established (dlg : option sip_dialog) : bool :=
  match dlg with Some d => bool_decide (is_Some (dl_rtag d)) | None => false end.

(** The tags of a message, as the dialog sees them. *)
Definition own (msg : sip_msg) : sip_taddr := if m_req msg then m_to msg else m_from msg.

Definition sip_dialog_cmp_half (dlg : sip_dialog) (msg : sip_msg) : outcome bool :=
  e ← pl_strcmp (m_callid msg) (Some (dl_callid dlg));
  if bool_decide (e ≠ 0) then Ret false
  else
    e ← pl_strcmp (ta_tag (own msg)) (Some (dl_ltag dlg));
    Ret (bool_decide (e = 0)).

Definition sip_dialog_cmp (dlg : sip_dialog) (msg : sip_msg) : outcome bool :=
  e ← pl_strcmp (m_callid msg) (Some (dl_callid dlg));
  if bool_decide (e ≠ 0) then Ret false
  else
    e ← pl_strcmp (ta_tag (own msg)) (Some (dl_ltag dlg));
    if bool_decide (e ≠ 0) then Ret false
    else
      e ← pl_strcmp (ta_tag (peer msg)) (dl_rtag dlg);
      Ret (bool_decide (e = 0)).

(** ** The texts

    A 64-bit number as the code prints its tags. *)
Definition tag16 (z : Z) : list Z := padding 16 (hex_text false z) (chr "0") ++ hex_text false z.

Lemma digits_lower base ds : 2 ≤ base → Forall (λ d, 0 ≤ d < base) ds → head ds ≠ Some 0 → ds ≠ [] →
  base ^ Z.of_nat (length ds - 1) ≤ digits_value base ds.
Proof.
  intros Hb Hds. destruct ds as [|d ds]; [done|]. intros Hh _. cbn [head] in Hh.
  apply Forall_cons in Hds as [Hd Hds]. cbn [length]. rewrite Nat.sub_succ, Nat.sub_0_r.
  assert (Hd1 : 1 ≤ d) by (destruct (decide (d = 0)); [congruence|lia]). unfold digits_value. cbn [foldl].
  assert (Hg : ∀ v, 0 ≤ v → base ^ Z.of_nat (length ds) * v ≤ foldl (λ v d, v * base + d) v ds).
  { clear Hh Hd Hd1. induction Hds as [|x ds Hx _ IH]; intros v Hv; cbn [foldl length]; [lia|].
    rewrite Nat2Z.inj_succ, Z.pow_succ_r by lia. etrans; [|apply IH; lia]. pose proof (Z.pow_pos_nonneg base (Z.of_nat (length ds))). nia. }
  etrans; [|apply Hg; lia]. pose proof (Z.pow_pos_nonneg base (Z.of_nat (length ds))). nia.
Qed.

Lemma tag16_length z : 0 ≤ z < 2 ^ 64 → length (tag16 z) = 16%nat ∧ Forall (λ c, 0 < c < 128) (tag16 z).
Proof.
  intros Hz. unfold tag16. destruct (decide (z = 0)) as [->|Hne]; [split; [done|closed]|].
  unfold hex_text. destruct (local_itoa_digits z 16 false) as (ds & -> & Hds & Hv & Hl & Hh); [lia|right; lia|].
  assert (Hd : (length ds ≤ 16)%nat).
  { assert (Hn : ds ≠ []) by (destruct ds; [cbn in Hl; lia|done]). pose proof (digits_lower 16 ds ltac:(lia) Hds (Hh Hne) Hn) as Hlow.
    rewrite Hv in Hlow. assert (Hlt : 16 ^ Z.of_nat (length ds - 1) < 16 ^ 16) by (change (16 ^ 16) with (2 ^ 64); lia).
    apply Z.pow_lt_mono_r_iff in Hlt; lia. }
  split; [unfold padding; rewrite length_app, length_replicate, length_map; lia|]. apply Forall_app. split.
  - unfold padding. apply Forall_replicate. by vm_compute.
  - rewrite List.Forall_map. eapply Forall_impl; [exact Hds|]. intros d Hd'. unfold digit_char. cbn beta in Hd'. chars. repeat case_bool_decide; lia.
Qed.

Lemma tag16_short z : 0 ≤ z < 2 ^ 64 → short (tag16 z).
Proof.
  intros Hz. destruct (tag16_length z Hz) as [Hl Hp]. split; [|rewrite Hl; by vm_compute].
  eapply Forall_impl; [exact Hp|]. intros c Hc. cbn beta in Hc. unfold is_byte. lia.
Qed.

Lemma c_string_end a : Forall (λ c, 0 < c < 128) a → c_string (a ++ [0]) = a.
Proof. induction 1 as [|x a Hx _ IH]; [done|]. cbn [c_string Datatypes.app]. by rewrite bool_decide_eq_false_2, IH by lia. Qed.

Lemma x64_strdup_run A z : plenty A → 0 ≤ z < 2 ^ 64 → x64_strdup A z = Ret (0, Some (tag16 z)).
Proof.
  intros Hp Hz. destruct (tag16_length z Hz) as [Hl Hpos]. unfold x64_strdup. rewrite Hp by (unfold X64_STRSIZE; lia).
  assert (Et : text_of [PTag z] = tag16 z) by (unfold text_of; cbn [map concat piece_text]; by rewrite app_nil_r).
  change (bytes_of "%016llx") with (fmt_of [PTag z]). change [VInt z] with (args_of [PTag z]).
  erewrite vsnprintf_run; [|by apply (re_vhprintf_pieces no_handler 0); repeat constructor; cbn; lia|rewrite Et|intros h; apply sim_ret].
  - cbn [mbind outcome_bind snd Datatypes.app]. by rewrite Et, c_string_end.
  - cbn [Datatypes.app]. rewrite Hl. unfold X64_STRSIZE. lia.
Qed.

(** ** The headers of a dialog *)

(** The Record-Route headers of the peer, in the order its requests come. *)
Definition recorded (msg : sip_msg) (fwd : bool) : list sip_hdr :=
  if fwd then headers_of SIP_HDR_RECORD_ROUTE msg else reverse (headers_of SIP_HDR_RECORD_ROUTE msg).

(** The end of the first route, where [k] is before it. *)
Definition route_end (lines : list (list Z)) (k : Z) : Z :=
  match lines with [] => 0 | t :: _ => k + Z.of_nat (length t) - 2 end.

(** [r] is the route that the first header names, whose text is [v] and ends
    before [rest]; without a header it is the remote URI. *)
Definition routed `{inet} (routes : list (list Z)) (uri : list Z) (r : Uri.uri * route_mem) : Prop :=
  match routes with
  | v :: _ => snd r = InHeaders ∧
      ∃ rest a, sip_addr_decode (Pl (Some (v ++ rest)) (Z.of_nat (length v))) = Ret (0, a) ∧ fst r = ad_uri a
  | [] => snd r = InUri ∧ uri_decode (pl_set_str pl_null (Some uri)) = Ret (0, fst r)
  end.

(** The route cannot be read, with error [e]. *)
Definition unrouted `{inet} (routes : list (list Z)) (uri : list Z) (e : Z) : Prop :=
  e ≠ 0 ∧
  match routes with
  | v :: _ => ∃ rest a, sip_addr_decode (Pl (Some (v ++ rest)) (Z.of_nat (length v))) = Ret (e, a)
  | [] => ∃ u, uri_decode (pl_set_str pl_null (Some uri)) = Ret (e, u)
  end.

Lemma route_line_length h : Z.of_nat (length (route_line h)) = 7 + Z.of_nat (length (pl_text (h_val h))) + 2.
Proof. unfold route_line. rewrite !length_app. change (length (bytes_of "Route: ")) with 7%nat. change (length crlf) with 2%nat. lia. Qed.

Lemma headers_in m lim msg id : msg_in m lim msg → Forall (hdr_in m lim) (headers_of id msg).
Proof.
  intros (Ht & _ & Hh & _). unfold headers_of. destruct (hash_list_run (m_hdrht msg) (u32 id) Ht) as (l & -> & El).
  apply Forall_forall. intros h [_ Hi]%list_elem_of_filter. rewrite Forall_forall in Hh.
  assert (Hl : l ∈ m_hdrht msg) by by eapply list_elem_of_lookup_2. pose proof (Hh l Hl) as Hf. rewrite Forall_forall in Hf. by apply Hf.
Qed.

Lemma recorded_pieces m lim msg fwd : (lim ≤ length m)%nat → short m → msg_in m lim msg →
  Forall (λ h, ∃ pc, prints_as (h_val h) pc) (recorded msg fwd).
Proof.
  intros Hlim Hm Hin. assert (Hl : Forall (λ h, ∃ pc, prints_as (h_val h) pc) (headers_of SIP_HDR_RECORD_ROUTE msg)).
  { eapply Forall_impl; [by apply headers_in|]. intros h Hh. by apply (hdr_in_piece m lim). }
  unfold recorded. destruct fwd; [done|]. by apply Forall_reverse.
Qed.

Section printed.
Context `{inet} (A : allocator) `{!allocator_ok A} (HA : plenty A).

Lemma routes_run l : Forall (λ h, ∃ pc, prints_as (h_val h) pc) l → ∀ k mb rend, filled k mb → text_ok (k ++ concat (map route_line l)) →
  ∃ mb', hdr_apply (λ _, Ret false) (record_route_handler A) l (Ret (mb, rend)) =
      Ret (None, Ret (mb', if bool_decide (rend = 0) then route_end (map route_line l) (Z.of_nat (length k)) else rend)) ∧
    filled (k ++ concat (map route_line l)) mb'.
Proof using allocator_ok0 HA.
  clear H. induction 1 as [|h l [pc Hpc] _ IH]; intros k mb rend Hk Hok.
  { exists mb. cbn [map concat hdr_apply route_end]. rewrite app_nil_r. split; [|done]. case_bool_decide; [by subst|done]. }
  destruct (emits_line A (bytes_of "Route: ") (h_val h) pc) as [_ T]; [closed|lit|exact Hpc|].
  cbn [map concat] in *. rewrite app_assoc in Hok.
  destruct (T allocator_ok0 HA k mb Hk (text_ok_prefix _ _ Hok)) as (mb1 & E1 & Hk1).
  change (mbuf_printf A (bytes_of "Route: %r" ++ crlf) [VPl (Some (h_val h))] mb = Ret (0, mb1)) in E1.
  cbn [hdr_apply mbind outcome_bind]. unfold record_route_handler at 1. rewrite E1, (bool_decide_eq_false_2 (0 ≠ 0)) by lia.
  cbn beta iota. pose proof (route_line_length h) as Hlen. fold (route_line h) in Hk1.
  assert (Hp : mb_pos mb1 = Z.of_nat (length k) + Z.of_nat (length (route_line h))) by (destruct Hk1 as (_ & -> & _); rewrite length_app; lia).
  assert (Hb : Z.of_nat (length k) + Z.of_nat (length (route_line h)) ≤ 2 ^ 30) by (destruct Hok as [_ Hl]; rewrite !length_app in Hl; lia).
  rewrite Hp, u64_id by lia. destruct (IH _ mb1 (if bool_decide (rend = 0) then Z.of_nat (length k) + Z.of_nat (length (route_line h)) - 2 else rend) Hk1 Hok)
    as (mb2 & -> & Hk2). exists mb2. rewrite app_assoc. split; [|done]. do 4 f_equal. destruct (decide (rend = 0)) as [->|Hr].
  - rewrite (bool_decide_eq_true_2 (0 = 0)), bool_decide_eq_false_2 by lia. done.
  - by rewrite !(bool_decide_eq_false_2 (rend = 0)) by done.
Qed.

Lemma record_routes_run m lim msg fwd mb : (lim ≤ length m)%nat → short m → msg_in m lim msg →
  filled [] mb → text_ok (concat (map route_line (recorded msg fwd))) →
  ∃ mb', record_routes A msg fwd mb = Ret ((0, route_end (map route_line (recorded msg fwd)) 0), mb') ∧
    filled (concat (map route_line (recorded msg fwd))) mb'.
Proof using allocator_ok0 HA.
  clear H. intros Hlim Hm Hin Hk Hok. destruct (routes_run _ (recorded_pieces m lim msg fwd Hlim Hm Hin) [] mb 0 Hk Hok) as (mb' & E & Hk').
  exists mb'. split; [|done]. unfold record_routes. rewrite hdr_apply_run by apply Hin. fold (recorded msg fwd). rewrite E.
  cbn [mbind outcome_bind fst snd]. by rewrite (bool_decide_eq_false_2 (is_Some None)) by by intros [].
Qed.

(** The route of headers that begin with those lines. *)
Lemma route_of_run (l : list sip_hdr) more mb uri :
  filled (concat (map route_line l) ++ more) mb → bytes_ok uri → Z.of_nat (length uri) < max_alloc →
  ∃ e r, route_of (mbuf_set_pos mb 0) (route_end (map route_line l) 0) uri = Ret (e, r) ∧
    (e = 0 → ∃ r', r = Some r' ∧ routed (map (λ h, pl_text (h_val h)) l) uri r') ∧
    (e ≠ 0 → unrouted (map (λ h, pl_text (h_val h)) l) uri e).
Proof using.
  clear allocator_ok0 HA A. intros (Hwf & _ & He & Hk & _) Hub Hul. unfold route_of.
  assert (Hall : ∀ e (x : Uri.uri * route_mem), ∃ r, ok_or e x = (e, r) ∧ (e = 0 → r = Some x)).
  { intros e x. unfold ok_or. case_bool_decide; eexists; split; [by subst|done|done|done]. }
  destruct l as [|h l]; cbn [map route_end concat] in *.
  - rewrite (bool_decide_eq_false_2 (0 ≠ 0)) by lia. cbn [routed unrouted].
    destruct (uri_decode_safe uri (length uri) (Nat.le_refl _) (pl_set_str pl_null (Some uri))) as (e & u & E & _).
    { left. exists 0%nat, (length uri). split; [done|lia]. }
    rewrite E. cbn [mbind outcome_bind fst snd]. destruct (Hall e (u, InUri)) as (r & -> & Hr). exists e, r. split; [done|]. split.
    + intros ->. exists (u, InUri). by rewrite Hr.
    + intros Hne. split; [done|by eexists].
  - pose proof (route_line_length h) as Hlen. rewrite bool_decide_eq_true_2 by lia. unfold mbuf_set_pos, ROUTE_OFFSET. cbn [mb_buf].
    set (v := pl_text (h_val h)) in *.
    assert (Hbuf : ∃ rest, mb_buf mb = Some (bytes_of "Route: " ++ v ++ rest)).
    { destruct (mb_buf mb) as [b|] eqn:Eb; [|exfalso; apply (f_equal length) in Hk; unfold data in Hk; rewrite Eb, length_take, !length_app in Hk; cbn [default length] in Hk; lia].
      unfold data in Hk. rewrite Eb in Hk. cbn [default] in Hk. revert Hk. generalize (length ((route_line h ++ concat (map route_line l)) ++ more)).
      intros n Hk. unfold route_line in Hk. rewrite <- !app_assoc in Hk. fold v in Hk. exists (crlf ++ concat (map route_line l) ++ more ++ drop n b).
      f_equal. etrans; [symmetry; apply (take_drop n b)|]. change (id b) with b in Hk. rewrite Hk. by rewrite <- !app_assoc. }
    destruct Hbuf as (rest & Eb). rewrite Eb. cbn [option_map]. change (drop (Z.to_nat 7) (bytes_of "Route: " ++ v ++ rest)) with (v ++ rest).
    rewrite Hlen. replace (0 + _ - 2 - 7) with (Z.of_nat (length v)) by lia.
    assert (Hv : Z.of_nat (length v) < max_alloc).
    { destruct Hwf as [(Hs & Hm & _) _]. rewrite Eb in Hs. cbn [default id] in Hs. rewrite !length_app in Hs. lia. }
    rewrite u64_id by (unfold max_alloc in *; lia).
    destruct (sip_addr_decode_safe (v ++ rest) (length v) ltac:(rewrite length_app; lia) (Pl (Some (v ++ rest)) (Z.of_nat (length v)))) as (e & a & E & _).
    { left. exists 0%nat, (length v). split; [done|lia]. }
    rewrite E. cbn [mbind outcome_bind fst snd]. destruct (Hall e (ad_uri a, InHeaders)) as (r & -> & Hr). exists e, r. split; [done|]. split.
    + intros ->. exists (ad_uri a, InHeaders). rewrite Hr by done. split; [done|]. split; [done|]. by exists rest, a.
    + intros Hne. split; [done|by exists rest, a].
Qed.
End printed.

(** ** A peer answers *)

Definition routes_of (msg : sip_msg) (fwd : bool) : list (list Z) := map (λ h, pl_text (h_val h)) (recorded msg fwd).

Definition answered_of (msg : sip_msg) (rest : list Z) : list Z :=
  concat (map route_line (recorded msg (m_req msg))) ++ (bytes_of "To: " ++ pl_text (ta_val (peer msg)) ++ crlf) ++ rest.

(** A dialog between operations. *)
Definition dialog_ok (dlg : sip_dialog) : Prop :=
  mbuf_wf (dl_mb dlg) ∧ mb_pos (dl_mb dlg) = 0 ∧ is_Some (mb_buf (dl_mb dlg)) ∧ 0 ≤ dl_cpos dlg ≤ mb_end (dl_mb dlg) ∧
  short (dl_callid dlg) ∧ short (dl_ltag dlg) ∧ short (dl_uri dlg) ∧ 0 ≤ dl_lseq dlg < 2 ^ 32 ∧ 0 ≤ dl_rseq dlg < 2 ^ 32.

#[export] Instance dialog_ok_dec dlg : Decision (dialog_ok dlg).
Proof. unfold dialog_ok. apply _. Defined.

(** The headers from [n] on. *)
Definition rest_of (dlg : sip_dialog) (n : Z) : list Z := drop (Z.to_nat n) (payload (dl_mb dlg)).

Lemma contact_of msg : table_ok (m_hdrht msg) → sip_msg_hdr msg SIP_HDR_CONTACT = Ret (head (headers_of SIP_HDR_CONTACT msg)).
Proof. intros Ht. unfold sip_msg_hdr. by rewrite (hdr_apply_run msg), hdr_apply_take by done. Qed.

(** The message was decoded from memory of ordinary size. *)
Definition msg_text (msg : sip_msg) : Prop := ∃ m lim, (lim ≤ length m)%nat ∧ text_ok m ∧ msg_in m lim msg.

Lemma text_short m : text_ok m → short m.
Proof. intros [Hb Hl]. split; [done|]. unfold max_alloc. lia. Qed.

(** What [contact_addr] gives. *)
Inductive contact `{inet} (msg : sip_msg) : Z → option sip_addr → Prop :=
| contact_none : headers_of SIP_HDR_CONTACT msg = [] → contact msg EBADMSG None
| contact_bad c l e a : headers_of SIP_HDR_CONTACT msg = c :: l → sip_addr_decode (h_val c) = Ret (e, a) → e ≠ 0 → contact msg EBADMSG None
| contact_good c l a : headers_of SIP_HDR_CONTACT msg = c :: l → sip_addr_decode (h_val c) = Ret (0, a) → contact msg 0 (Some a).

Lemma contact_addr_run `{inet} m lim msg : (lim ≤ length m)%nat → msg_in m lim msg →
  ∃ e a, contact_addr msg = Ret (e, a) ∧ contact msg e a ∧ ∀ a', a = Some a' → pointer_in m lim (ad_auri a') ∧ pl_p (ad_auri a') ≠ None.
Proof.
  intros Hlim Hin. unfold contact_addr. rewrite contact_of by apply Hin. pose proof (headers_in m lim msg SIP_HDR_CONTACT Hin) as Hh.
  destruct (headers_of SIP_HDR_CONTACT msg) as [|c l] eqn:El; cbn [head mbind outcome_bind].
  { exists EBADMSG, None. split; [done|]. split; [by constructor|done]. }
  apply Forall_cons in Hh as [[_ Hv] _].
  destruct (sip_addr_decode_safe m lim Hlim (h_val c)) as (e & a & E & _ & Ha); [by left|]. rewrite E. cbn [mbind outcome_bind fst snd].
  case_bool_decide as He; [subst e|].
  - exists 0, (Some a). split; [done|]. split; [by eapply contact_good|]. intros a' Ea. apply (inj Some) in Ea as <-.
    pose proof (Ha eq_refl) as Hw. split; [by left|]. by destruct Hw as (k & n & -> & _).
  - exists EBADMSG, None. split; [done|]. split; [by eapply contact_bad|done].
Qed.

Lemma strdup_run A m lim p : plenty A → (lim ≤ length m)%nat → text_ok m → pointer_in m lim p → pl_p p ≠ None →
  pl_strdup A p = Ret (0, Some (pl_text p)).
Proof.
  intros Hp Hlim [Hm Hl] Hin Hn. destruct (pointer_text m lim p Hlim Hin) as [E EL]. unfold pl_strdup.
  assert (Hle : 0 ≤ pl_l p ≤ Z.of_nat (length m)).
  { destruct Hin as [(k & n & -> & Hk)| ->]; cbn [pl_l] in *; [lia|done]. }
  destruct (pl_p p); [|done]. rewrite E, Hp; [done|]. unfold max_alloc in *. rewrite u64_id by lia. lia.
Qed.

Lemma copy_rest_emits A src : mbuf_wf src → is_Some (mb_buf src) → emits A (copy_rest A src) (payload src).
Proof.
  intros [(Hs & Hm & He & Hp & Hb) Hpe] [b Eb]. rewrite Eb in *. cbn [default id] in *.
  assert (Ec : ∀ mb, copy_rest A src mb = write_str A (payload src) mb).
  { intros mb. unfold copy_rest, mbuf_get_left, payload, write_str. rewrite Eb. cbn [default id]. unfold max_alloc in *. rewrite u64_id by lia.
    by rewrite memcpy_from_run by lia. }
  assert (Hsh : short (payload src)).
  { unfold payload. rewrite Eb. cbn [default id]. split; [auto with re|]. rewrite length_take, length_drop. lia. }
  destruct (emits_str A _ Hsh) as [K T]. split.
  - intros HA mb Hmb. rewrite Ec. by apply K.
  - intros HA Hpl k mb Hk Hok. rewrite Ec. by apply T.
Qed.

Lemma payload_from mb n : mbuf_wf mb → mb_pos mb = 0 → 0 ≤ n → payload (mbuf_set_pos mb n) = drop (Z.to_nat n) (payload mb).
Proof.
  intros _ Hp Hn. unfold payload, mbuf_set_pos. cbn [mb_buf mb_pos mb_end]. rewrite Hp, Z.sub_0_r. change (Z.to_nat 0) with 0%nat. rewrite drop_0, skipn_firstn_comm.
  f_equal. lia.
Qed.

Lemma filled_some k mb : k ≠ [] → filled k mb → is_Some (mb_buf mb).
Proof.
  intros Hk (_ & _ & _ & Ht & _). unfold data in Ht. destruct (mb_buf mb) as [b|]; [by exists b|]. cbn [default] in Ht. by rewrite firstn_nil in Ht.
Qed.

Lemma answered_some msg rest : answered_of msg rest ≠ [].
Proof. unfold answered_of. by intros [_ [=]]%app_eq_nil. Qed.

Section answer.
Context `{inet} (A : allocator) `{!allocator_ok A} (HA : plenty A).

Lemma to_piece m lim msg : (lim ≤ length m)%nat → text_ok m → msg_in m lim msg →
  (∃ pc, prints_as (ta_val (peer msg)) pc) ∧ (∃ pc, prints_as (ta_val (own msg)) pc) ∧ pointer_in m lim (ta_tag (peer msg)).
Proof using.
  intros Hlim Hm%text_short (_ & _ & _ & _ & _ & _ & _ & _ & _ & _ & _ & _ & _ & (Hto & Htt & _) & (Hfrom & Hft & _) & _).
  unfold peer, own. destruct (m_req msg); (split_and!; [by apply (pointer_piece m lim)|by apply (pointer_piece m lim)|done]).
Qed.

(** The routes and the To of the peer, which both begin with. *)
Lemma routes_to_run m lim msg fwd p pc rest mb : (lim ≤ length m)%nat → text_ok m → msg_in m lim msg → prints_as p pc → filled [] mb →
  text_ok (concat (map route_line (recorded msg fwd)) ++ (bytes_of "To: " ++ pl_text p ++ crlf) ++ rest) →
  ∃ mb1 mb2, record_routes A msg fwd mb = Ret ((0, route_end (map route_line (recorded msg fwd)) 0), mb1) ∧
    mbuf_printf A (bytes_of "To: %r" ++ crlf) [VPl (Some p)] mb1 = Ret (0, mb2) ∧
    filled (concat (map route_line (recorded msg fwd)) ++ bytes_of "To: " ++ pl_text p ++ crlf) mb2.
Proof using allocator_ok0 HA.
  clear H. intros Hlim Hm Hin Hpc Hk Hok. rewrite app_assoc in Hok. apply text_ok_prefix in Hok. pose proof (text_short m Hm) as Hs.
  destruct (record_routes_run A HA m lim msg fwd mb Hlim Hs Hin Hk (text_ok_prefix _ _ Hok)) as (mb1 & E1 & Hk1).
  destruct (emits_line A (bytes_of "To: ") p pc) as [_ T2]; [closed|lit|exact Hpc|].
  change (bytes_of "To: " ++ bytes_of "%r" ++ crlf) with (bytes_of "To: %r" ++ crlf) in T2.
  destruct (T2 _ HA _ mb1 Hk1 Hok) as (mb2 & E2 & Hk2). by exists mb1, mb2.
Qed.

Lemma answered_run m lim msg dlg mb : (lim ≤ length m)%nat → text_ok m → msg_in m lim msg → dialog_ok dlg →
  filled [] mb → text_ok (answered_of msg (rest_of dlg (dl_cpos dlg))) →
  ∃ mb', answered_text A msg (mbuf_set_pos (dl_mb dlg) (dl_cpos dlg)) mb =
      Ret ((0, route_end (map route_line (recorded msg (m_req msg))) 0), mb') ∧
    filled (answered_of msg (rest_of dlg (dl_cpos dlg))) mb'.
Proof using allocator_ok0 HA.
  clear H. intros Hlim Hm Hin (Hwf & Hpos & Hbuf & Hc & _) Hk Hok.
  destruct (to_piece m lim msg Hlim Hm Hin) as ([pc Hpc] & _ & _). unfold answered_of in *.
  destruct (routes_to_run m lim msg (m_req msg) _ pc _ mb Hlim Hm Hin Hpc Hk Hok) as (mb1 & mb2 & E1 & E2 & Hk2). rewrite app_assoc in Hok |- *.
  unfold answered_text. rewrite (prog_bind_step _ _ _ _ _ E1), (prog_bind_step _ _ _ _ _ E2). cbn [fst snd].
  destruct (copy_rest_emits A (mbuf_set_pos (dl_mb dlg) (dl_cpos dlg))) as [_ T3]; [apply set_pos_wf; (done || lia)|done|].
  rewrite payload_from in T3 by (done || lia). destruct (T3 _ HA _ mb2 Hk2 Hok) as (mb3 & E3 & Hk3). rewrite (prog_bind_step _ _ _ _ _ E3).
  by exists mb3.
Qed.

(** What becomes of a dialog when [msg] answers it. *)
Definition joined (dlg : sip_dialog) (msg : sip_msg) (a : sip_addr) (dlg' : sip_dialog) : Prop :=
  dialog_ok dlg' ∧ payload (dl_mb dlg') = answered_of msg (rest_of dlg (dl_cpos dlg)) ∧
  dl_callid dlg' = dl_callid dlg ∧ dl_ltag dlg' = dl_ltag dlg ∧ dl_rtag dlg' = Some (pl_text (ta_tag (peer msg))) ∧
  dl_uri dlg' = pl_text (ad_auri a) ∧ dl_lseq dlg' = dl_lseq dlg ∧
  dl_rseq dlg' = (if m_req msg then cs_num (m_cseq msg) else 0) ∧ dl_cpos dlg' = 0 ∧
  routed (routes_of msg (m_req msg)) (dl_uri dlg') (dl_route dlg', dl_route_in dlg').

Inductive created (dlg : sip_dialog) (msg : sip_msg) : Z → sip_dialog → Prop :=
| created_twice : is_Some (dl_rtag dlg) ∨ dl_cpos dlg = 0 → created dlg msg EINVAL dlg
| created_no_contact e : contact msg e None → created dlg msg e dlg
| created_no_tag : pl_p (ta_tag (peer msg)) = None → created dlg msg EINVAL dlg
| created_no_route a e : contact msg 0 (Some a) → unrouted (routes_of msg (m_req msg)) (pl_text (ad_auri a)) e → created dlg msg e dlg
| created_joined a dlg' : dl_rtag dlg = None → dl_cpos dlg ≠ 0 → contact msg 0 (Some a) → joined dlg msg a dlg' → created dlg msg 0 dlg'.

(** C16: a response or a request that answers a dialog completes it once.  A
    dialog that has a peer already, a message without a Contact that can be
    read, one whose peer has no tag and a first route that cannot be read are
    refused and leave the dialog as it was.  Otherwise the peer's tag and its
    Contact are taken over, the headers become one Route for each of the Record-Route
    headers (for a response in reverse order), the To of the peer and the old From,
    the requests go to the first route or else to the Contact, and Call-ID, tag and
    sequence number stay. *)
Theorem sip_dialog_create_spec dlg msg :
  dialog_ok dlg → msg_text msg → 0 ≤ cs_num (m_cseq msg) < 2 ^ 32 → text_ok (answered_of msg (rest_of dlg (dl_cpos dlg))) →
  ∃ e dlg', sip_dialog_create A dlg msg = Ret (e, dlg') ∧ created dlg msg e dlg'.
Proof using allocator_ok0 HA.
  intros Hd (m & lim & Hlim & Hm & Hin) Hseq Hok. unfold sip_dialog_create. pose proof (text_short m Hm) as Hs.
  destruct (bool_decide _ || bool_decide _) eqn:Eg.
  { eexists _, _. split; [done|]. apply created_twice. apply orb_true_iff in Eg as [Eg|Eg]; apply bool_decide_eq_true_1 in Eg; tauto. }
  apply orb_false_iff in Eg as [Er%bool_decide_eq_false_1 Ec%bool_decide_eq_false_1]. apply eq_None_not_Some in Er.
  destruct (contact_addr_run m lim msg Hlim Hin) as (e & a & E & Hcon & Ha). unfold try_ at 1. rewrite E. cbn [mbind outcome_bind].
  destruct a as [a|]; [|exists e, dlg; split; [by destruct e|by apply created_no_contact]].
  assert (e = 0) as -> by by inversion Hcon. cbn [mbind outcome_bind].
  destruct (mbuf_alloc_filled A HA 512) as (mb & Ea & Hf); [lia|]. unfold alloc_buffer, try_ at 1. rewrite Ea. cbn [mbind outcome_bind].
  destruct (Ha a eq_refl) as [Hau Hnn]. unfold try_ at 1. rewrite (strdup_run A m lim _ HA Hlim Hm Hau Hnn). cbn [mbind outcome_bind].
  destruct (to_piece m lim msg Hlim Hm Hin) as (_ & _ & Htag).
  destruct (pl_p (ta_tag (peer msg))) as [tg|] eqn:Et.
  2: { unfold try_ at 1. unfold pl_strdup. rewrite Et. cbn [mbind outcome_bind]. exists EINVAL, dlg. split; [done|by apply created_no_tag]. }
  unfold try_ at 1. rewrite (strdup_run A m lim _ HA Hlim Hm Htag) by by rewrite Et. cbn [mbind outcome_bind].
  destruct (answered_run m lim msg dlg mb Hlim Hm Hin Hd Hf Hok) as (mb' & -> & Hf'). cbn [mbind outcome_bind]. unfold try_ at 1, ok_or at 1.
  rewrite (bool_decide_eq_true_2 (0 = 0)) by done. cbn [mbind outcome_bind].
  destruct (pl_text_short m lim _ Hlim Hs Hau) as [_ [Hub Hul]].
  destruct (route_of_run _ _ mb' (pl_text (ad_auri a)) Hf' Hub Hul) as (e & r & Er' & Hgood & Hbad). unfold try_. rewrite Er'. cbn [mbind outcome_bind].
  destruct (decide (e = 0)) as [->|Hne].
  2: { exists e, dlg. split; [by destruct e|]. by eapply created_no_route; [exact Hcon|apply Hbad]. }
  destruct (Hgood eq_refl) as (r' & -> & Hr). eexists 0, _. split; [done|]. eapply created_joined; [done|done|exact Hcon|].
  destruct (filled_payload _ _ Hf') as [Hwf' Hpay]. destruct Hd as (_ & _ & _ & _ & Hci & Hlt & _ & Hls & _).
  split; [|cbn; rewrite <- surjective_pairing; split_and!; done].
  unfold dialog_ok. cbn. split_and!; try done; try (destruct (m_req msg); lia).
  - by apply (filled_some (answered_of msg (rest_of dlg (dl_cpos dlg)))); [apply answered_some|].
  - destruct Hwf' as [(_ & _ & ? & _) _]. cbn in *. lia.
Qed.

(** ** A request is accepted *)

(** The headers of the dialog that a request opens. *)
Definition accepted_of (msg : sip_msg) : list Z :=
  concat (map route_line (recorded msg true)) ++ (bytes_of "To: " ++ pl_text (ta_val (m_from msg)) ++ crlf) ++
  (bytes_of "From: " ++ pl_text (ta_val (m_to msg)) ++ bytes_of ";tag=" ++ tag16 (m_tag msg) ++ crlf).

Definition opened (msg : sip_msg) (rnd : Z) (a : sip_addr) (dlg : sip_dialog) : Prop :=
  dialog_ok dlg ∧ payload (dl_mb dlg) = accepted_of msg ∧
  dl_callid dlg = pl_text (m_callid msg) ∧ dl_ltag dlg = tag16 (m_tag msg) ∧ dl_rtag dlg = Some (pl_text (ta_tag (m_from msg))) ∧
  dl_uri dlg = pl_text (ad_auri a) ∧ dl_lseq dlg = rnd ∧ dl_rseq dlg = cs_num (m_cseq msg) ∧ dl_cpos dlg = 0 ∧
  routed (routes_of msg true) (dl_uri dlg) (dl_route dlg, dl_route_in dlg).

Inductive accepted (msg : sip_msg) (rnd : Z) : Z → option sip_dialog → Prop :=
| accepted_response : m_req msg = false → accepted msg rnd EINVAL None
| accepted_no_callid : pl_p (m_callid msg) = None → accepted msg rnd EBADMSG None
| accepted_no_contact e : contact msg e None → accepted msg rnd e None
| accepted_no_tag : pl_p (ta_tag (m_from msg)) = None → accepted msg rnd EINVAL None
| accepted_no_route a e : contact msg 0 (Some a) → unrouted (routes_of msg true) (pl_text (ad_auri a)) e → accepted msg rnd e None
| accepted_opened a dlg : m_req msg = true → contact msg 0 (Some a) → opened msg rnd a dlg → accepted msg rnd 0 (Some dlg).

Lemma emits_from p pc z : prints_as p pc → 0 ≤ z < 2 ^ 64 →
  emits A (mbuf_printf A (bytes_of "From: %r;tag=%016llx" ++ crlf) [VPl (Some p); VInt z])
    (bytes_of "From: " ++ pl_text p ++ bytes_of ";tag=" ++ tag16 z ++ crlf).
Proof using.
  intros (Ef & Ea & Hp & Hk & Et) Hz. pose proof (hex_text_short z Hz). assert (Hz0 : short (bytes_of "0")) by lit.
  assert (Ht1 : Forall (λ b, b ≠ chr "%") (bytes_of ";tag=")) by closed. assert (Ht2 : Forall (λ b, b ≠ chr "%") (bytes_of "From: ")) by closed.
  pose proof crlf_lit. unfold tag16.
  apply (emits_pieces A _ _ _ [PLit (bytes_of "From: "); pc; PLit (bytes_of ";tag="); PTag z; PLit crlf]); [piece_text_eq..| | |lit]; by pieces.
Qed.

Lemma callee_run m lim msg mb : (lim ≤ length m)%nat → text_ok m → msg_in m lim msg → m_req msg = true → 0 ≤ m_tag msg < 2 ^ 64 →
  filled [] mb → text_ok (accepted_of msg) →
  ∃ mb', callee_text A msg mb = Ret ((0, route_end (map route_line (recorded msg true)) 0), mb') ∧ filled (accepted_of msg) mb'.
Proof using allocator_ok0 HA.
  clear H. intros Hlim Hm Hin Hreq Hz Hk Hok.
  destruct (to_piece m lim msg Hlim Hm Hin) as ([pc Hpc] & [pc' Hpc'] & _). unfold peer, own in *. rewrite Hreq in *. unfold accepted_of in *.
  destruct (routes_to_run m lim msg true _ pc _ mb Hlim Hm Hin Hpc Hk Hok) as (mb1 & mb2 & E1 & E2 & Hk2). rewrite app_assoc in Hok |- *.
  unfold callee_text. rewrite (prog_bind_step _ _ _ _ _ E1), (prog_bind_step _ _ _ _ _ E2). cbn [fst snd].
  destruct (emits_from (ta_val (m_to msg)) pc' (m_tag msg) Hpc' Hz) as [_ T3].
  destruct (T3 _ HA _ mb2 Hk2 Hok) as (mb3 & E3 & Hk3). rewrite (prog_bind_step _ _ _ _ _ E3).
  by exists mb3.
Qed.

(** C17: a request opens a dialog: responses, requests without Call-ID, without
    a Contact that can be read or without a tag in From, and those whose first
    Record-Route cannot be read are refused.  Otherwise the dialog takes the
    Call-ID, its own tag is that of the transaction, the peer's tag is that of From,
    the headers are one Route for each Record-Route in their order, the sender as To
    and the receiver as From with that tag, the requests go to the first route or else
    to the Contact, and the sequence number of the peer is that of the request. *)
Theorem sip_dialog_accept_spec rnd msg :
  msg_text msg → 0 ≤ rnd < 2 ^ 16 → 0 ≤ m_tag msg < 2 ^ 64 → 0 ≤ cs_num (m_cseq msg) < 2 ^ 32 → text_ok (accepted_of msg) →
  ∃ e dlg, sip_dialog_accept A true rnd msg = Ret (e, dlg) ∧ accepted msg rnd e dlg.
Proof using allocator_ok0 HA.
  intros (m & lim & Hlim & Hm & Hin) Hrnd Hz Hseq Hok. unfold sip_dialog_accept. pose proof (text_short m Hm) as Hs.
  destruct (m_req msg) eqn:Ereq; cbn [negb]; [|eexists _, _; split; [done|by apply accepted_response]].
  rewrite contact_of by apply Hin. cbn [mbind outcome_bind].
  destruct (bool_decide (head _ = None)) eqn:Ec; cbn [orb].
  { eexists _, _. split; [done|]. apply accepted_no_contact, contact_none. apply bool_decide_eq_true_1 in Ec. by destruct (headers_of _ _). }
  clear Ec. destruct (bool_decide (pl_p (m_callid msg) = None)) eqn:Eci.
  { eexists _, _. split; [done|]. apply accepted_no_callid. by apply bool_decide_eq_true_1 in Eci. }
  apply bool_decide_eq_false_1 in Eci.
  destruct (contact_addr_run m lim msg Hlim Hin) as (e & a & E & Hcon & Ha). unfold try_ at 1. rewrite E. cbn [mbind outcome_bind].
  destruct a as [a|]; [|exists e, None; split; [by destruct e|by apply accepted_no_contact]].
  assert (e = 0) as -> by by inversion Hcon. cbn [mbind outcome_bind]. unfold alloc_dialog, try_ at 1. cbn [mbind outcome_bind].
  destruct (Ha a eq_refl) as [Hau Hnn]. unfold try_ at 1. rewrite (strdup_run A m lim _ HA Hlim Hm Hau Hnn). cbn [mbind outcome_bind].
  assert (Hci : pointer_in m lim (m_callid msg)) by (destruct Hin as (_ & _ & _ & _ & _ & _ & _ & Hci & _); exact Hci).
  unfold try_ at 1. rewrite (strdup_run A m lim _ HA Hlim Hm Hci Eci). cbn [mbind outcome_bind].
  unfold try_ at 1. rewrite x64_strdup_run by done. cbn [mbind outcome_bind].
  destruct (to_piece m lim msg Hlim Hm Hin) as (_ & _ & Htag). unfold peer in Htag. rewrite Ereq in Htag.
  destruct (pl_p (ta_tag (m_from msg))) as [tg|] eqn:Et.
  2: { unfold try_ at 1. unfold pl_strdup. rewrite Et. cbn [mbind outcome_bind]. exists EINVAL, None. split; [done|by apply accepted_no_tag]. }
  unfold try_ at 1. rewrite (strdup_run A m lim _ HA Hlim Hm Htag) by by rewrite Et. cbn [mbind outcome_bind].
  destruct (mbuf_alloc_filled A HA 512) as (mb & Ea & Hf); [lia|]. unfold alloc_buffer, try_ at 1. rewrite Ea. cbn [mbind outcome_bind].
  destruct (callee_run m lim msg mb Hlim Hm Hin Ereq Hz Hf Hok) as (mb' & -> & Hf'). cbn [mbind outcome_bind]. unfold try_ at 1, ok_or at 1.
  rewrite (bool_decide_eq_true_2 (0 = 0)) by done. cbn [mbind outcome_bind].
  destruct (pl_text_short m lim _ Hlim Hs Hau) as [_ Hush]. pose proof Hush as [Hub Hul].
  destruct (route_of_run _ _ mb' (pl_text (ad_auri a)) Hf' Hub Hul) as (e & r & Er' & Hgood & Hbad). unfold try_. rewrite Er'. cbn [mbind outcome_bind].
  destruct (decide (e = 0)) as [->|Hne].
  2: { exists e, None. split; [by destruct e|]. by eapply accepted_no_route; [exact Hcon|apply Hbad]. }
  destruct (Hgood eq_refl) as (r' & -> & Hr). eexists 0, _. split; [done|]. eapply accepted_opened; [done|exact Hcon|].
  destruct (pl_text_short m lim _ Hlim Hs Hci) as [_ Hcs]. destruct (filled_payload _ _ Hf') as [Hwf' Hpay].
  split; [|cbn; rewrite <- surjective_pairing; split_and!; done].
  unfold dialog_ok. cbn. split_and!; try done; try lia.
  - apply (filled_some (accepted_of msg)); [|done]. unfold accepted_of. by intros [_ [=]]%app_eq_nil.
  - destruct Hwf' as [(_ & _ & ? & _) _]. cbn in *. lia.
  - by apply tag16_short.
Qed.

(** ** Requests within a dialog *)

(** What a dialog prints into a request. *)
Definition encoded_of (dlg : sip_dialog) (seq : Z) (met : list Z) : list Z :=
  payload (dl_mb dlg) ++ (bytes_of "Call-ID: " ++ dl_callid dlg ++ crlf) ++
  (bytes_of "CSeq: " ++ dec_text seq ++ bytes_of " " ++ met ++ crlf).

Lemma emits_callid cid : short cid →
  emits A (mbuf_printf A (bytes_of "Call-ID: %s" ++ crlf) [VStr (Some cid)]) (bytes_of "Call-ID: " ++ cid ++ crlf).
Proof using.
  intros Hc. pose proof crlf_lit. assert (Ht1 : Forall (λ b, b ≠ chr "%") (bytes_of "Call-ID: ")) by closed.
  apply (emits_pieces A _ _ _ [PLit (bytes_of "Call-ID: "); PStr cid; PLit crlf]); [piece_text_eq..| | |lit]; by pieces.
Qed.

Lemma dialog_text_run dlg seq met k mb : dialog_ok dlg → short met → 0 ≤ seq < 2 ^ 32 → filled k mb → text_ok (k ++ encoded_of dlg seq met) →
  ∃ mb', dialog_text A dlg seq met mb = Ret (0, mb') ∧ filled (k ++ encoded_of dlg seq met) mb'.
Proof using allocator_ok0 HA.
  clear H. intros (Hwf & _ & Hbuf & _ & Hci & _) Hmet Hseq Hk Hok. unfold encoded_of in *.
  destruct (copy_rest_emits A (dl_mb dlg) Hwf Hbuf) as [_ T1]. destruct (emits_callid _ Hci) as [_ T2]. destruct (emits_cseq A met seq Hmet Hseq) as [_ T3].
  assert (HT : prints (dialog_text A dlg seq met) (payload (dl_mb dlg) ++ (bytes_of "Call-ID: " ++ dl_callid dlg ++ crlf) ++
    (bytes_of "CSeq: " ++ dec_text seq ++ bytes_of " " ++ met ++ crlf))); [|exact (HT k mb Hk Hok)].
  unfold dialog_text. eapply prints_bind; [by apply T1|]. eapply prints_bind; [by apply T2|].
  rewrite <- (app_nil_r (bytes_of "CSeq: " ++ _)). eapply prints_bind; [by apply T3|].
  intros k' mb' Hk' _. exists mb'. by rewrite app_nil_r.
Qed.

Definition seq_of (dlg : sip_dialog) (cseq : Z) (met : list Z) : Z := if bool_decide (met = bytes_of "ACK") then cseq else dl_lseq dlg.

Lemma dialog_encode_run dlg cseq met k mb : dialog_ok dlg → short met → 0 ≤ cseq < 2 ^ 32 → filled k mb →
  text_ok (k ++ encoded_of dlg (seq_of dlg cseq met) met) →
  ∃ mb', sip_dialog_encode A mb dlg cseq (Some met) =
      Ret ((0, mb'), if bool_decide (met = bytes_of "ACK") then dlg else set_dl_lseq (u32 (dl_lseq dlg + 1)) dlg) ∧
    filled (k ++ encoded_of dlg (seq_of dlg cseq met) met) mb'.
Proof using allocator_ok0 HA.
  clear H. intros Hd Hmet Hcseq Hk Hok. assert (Hs : 0 ≤ seq_of dlg cseq met < 2 ^ 32).
  { unfold seq_of. case_bool_decide; [done|]. by destruct Hd as (_ & _ & _ & _ & _ & _ & _ & Hls & _). }
  destruct (dialog_text_run dlg _ met k mb Hd Hmet Hs Hk Hok) as (mb' & E & Hk'). exists mb'. split; [|done].
  unfold sip_dialog_encode. unfold seq_of in *. rewrite E. done.
Qed.

(** The requests of a dialog, one after another: a method, and the sequence
    number of the request an ACK belongs to. *)
Fixpoint requests (dlg : sip_dialog) (mb : mbuf) (l : list (Z * list Z)) : outcome (mbuf * sip_dialog) :=
  match l with
  | [] => Ret (mb, dlg)
  | (cseq, met) :: l =>
      r ← sip_dialog_encode A mb dlg cseq (Some met);
      if bool_decide (fst (fst r) = 0) then requests (snd r) (snd (fst r)) l else Ret (snd (fst r), snd r)
  end.

(** Their texts: the sequence number goes up by one with each that is not an ACK. *)
Fixpoint requests_of (dlg : sip_dialog) (seq : Z) (l : list (Z * list Z)) : list Z :=
  match l with
  | [] => []
  | (cseq, met) :: l =>
      if bool_decide (met = bytes_of "ACK") then encoded_of dlg cseq met ++ requests_of dlg seq l
      else encoded_of dlg (seq `mod` 2 ^ 32) met ++ requests_of dlg (seq + 1) l
  end.

Lemma encoded_lseq dlg n seq met : encoded_of (set_dl_lseq n dlg) seq met = encoded_of dlg seq met.
Proof. done. Qed.

Lemma requests_lseq dlg n l : ∀ seq, requests_of (set_dl_lseq n dlg) seq l = requests_of dlg seq l.
Proof. induction l as [|[c met] l IH]; intros seq; [done|]. cbn [requests_of]. rewrite !IH. done. Qed.

Lemma requests_mod dlg l : ∀ seq, requests_of dlg seq l = requests_of dlg (u32 seq) l.
Proof using.
  induction l as [|[c met] l IH]; intros seq; [done|]. cbn [requests_of]. unfold u32 in *. case_bool_decide; [by rewrite (IH seq)|].
  rewrite (IH (seq + 1)), (IH (_ `mod` _ + 1)). by rewrite Zplus_mod_idemp_l, Z.mod_mod.
Qed.

Lemma dialog_ok_lseq dlg n : dialog_ok dlg → dialog_ok (set_dl_lseq (u32 n) dlg).
Proof using.
  intros Hd. assert (Hn : 0 ≤ u32 n < 2 ^ 32) by (unfold u32; apply Z.mod_pos_bound; lia).
  unfold dialog_ok in *. cbn [dl_mb dl_cpos dl_callid dl_ltag dl_uri dl_lseq dl_rseq set_dl_lseq]. tauto.
Qed.

(** C18: the requests of a dialog carry its headers, its Call-ID and consecutive
    sequence numbers modulo 2^32; an ACK carries the number of the request
    it belongs to and uses none up. *)
Theorem sip_dialog_encode_spec l : ∀ dlg k mb,
  dialog_ok dlg → Forall (λ r, 0 ≤ fst r < 2 ^ 32 ∧ short (snd r)) l → filled k mb →
  text_ok (k ++ requests_of dlg (dl_lseq dlg) l) →
  ∃ mb' n, requests dlg mb l = Ret (mb', set_dl_lseq n dlg) ∧ filled (k ++ requests_of dlg (dl_lseq dlg) l) mb' ∧
    n = (dl_lseq dlg + Z.of_nat (length (filter (λ r, snd r ≠ bytes_of "ACK") l))) `mod` 2 ^ 32.
Proof using allocator_ok0 HA.
  clear H. induction l as [|[cseq met] l IH]; intros dlg k mb Hd Hl Hk Hok.
  { exists mb, (dl_lseq dlg). cbn [requests requests_of filter list_filter length]. rewrite app_nil_r, Z.add_0_r.
    pose proof Hd as (_ & _ & _ & _ & _ & _ & _ & Hls & _). rewrite Z.mod_small by done. split; [by destruct dlg|done]. }
  apply Forall_cons in Hl as [[Hc Hm] Hl]. cbn [fst snd] in *. cbn [requests requests_of] in *.
  pose proof Hd as (_ & _ & _ & _ & _ & _ & _ & Hls & _).
  assert (He : ∃ t, requests_of dlg (dl_lseq dlg) ((cseq, met) :: l) = encoded_of dlg (seq_of dlg cseq met) met ++ t).
  { cbn [requests_of]. unfold seq_of. case_bool_decide; [by eexists|]. rewrite Z.mod_small by done. by eexists. }
  destruct He as [t Et]. cbn [requests_of] in Et.
  destruct (dialog_encode_run dlg cseq met k mb Hd Hm Hc Hk) as (mb1 & E1 & Hk1).
  { rewrite Et, app_assoc in Hok. by eapply text_ok_prefix. }
  rewrite E1. cbn [mbind outcome_bind fst snd]. rewrite (bool_decide_eq_true_2 (0 = 0)) by done.
  unfold seq_of in *. rewrite filter_cons. cbn [snd]. destruct (decide (met = bytes_of "ACK")) as [->|Hne].
  - rewrite bool_decide_eq_true_2 in * by done. rewrite decide_False by tauto. rewrite app_assoc in Hok |- *. by apply IH.
  - rewrite !(bool_decide_eq_false_2 (met = bytes_of "ACK")) in * by done. rewrite decide_True by done.
    rewrite Z.mod_small in Hok |- * by done. rewrite app_assoc in Hok |- *.
    assert (Hmod : requests_of dlg (dl_lseq dlg + 1) l = requests_of dlg (u32 (dl_lseq dlg + 1)) l) by apply requests_mod.
    destruct (IH (set_dl_lseq (u32 (dl_lseq dlg + 1)) dlg) (k ++ encoded_of dlg (dl_lseq dlg) met) mb1) as (mb' & n & E & Hk' & Hn); [by apply dialog_ok_lseq|done|exact Hk1| |].
    { cbn [dl_lseq set_dl_lseq]. by rewrite requests_lseq, <- Hmod. }
    cbn [dl_lseq set_dl_lseq] in *. rewrite requests_lseq, <- Hmod in Hk'. exists mb', n. split; [exact E|]. split; [exact Hk'|].
    rewrite Hn. unfold u32. rewrite Zplus_mod_idemp_l. f_equal. cbn [length]. lia.
Qed.

(** ** A request changes the target *)

(** The scheme of the route is where the URI begins. *)
Definition scheme_first (dlg : sip_dialog) : bool :=
  bool_decide (option_map length (pl_p (u_scheme (dl_route dlg))) = Some (length (dl_uri dlg))).

Definition retargeted (dlg : sip_dialog) (a : sip_addr) (dlg' : sip_dialog) : Prop :=
  dl_uri dlg' = pl_text (ad_auri a) ∧ dl_mb dlg' = dl_mb dlg ∧ sip_dialog_callid (Some dlg') = sip_dialog_callid (Some dlg) ∧
  dl_ltag dlg' = dl_ltag dlg ∧ dl_rtag dlg' = dl_rtag dlg ∧ dl_lseq dlg' = dl_lseq dlg ∧ dl_rseq dlg' = dl_rseq dlg ∧
  match dl_route_in dlg, scheme_first dlg with
  | InHeaders, _ => sip_dialog_route (Some dlg') = sip_dialog_route (Some dlg)
  | InUri, true => dl_route_in dlg' = InUri ∧ uri_decode (pl_set_str pl_null (Some (dl_uri dlg'))) = Ret (0, dl_route dlg')
  | _, _ => dl_route_in dlg' = Freed
  end.

(** The URI of an address that was read can be read again from a copy. *)
Lemma reread m lim p a :
  sip_addr_decode p = Ret (0, a) → pointer_in m lim (ad_auri a) → (lim ≤ length m)%nat → pl_p (ad_auri a) ≠ None →
  ∃ u, uri_decode (pl_set_str pl_null (Some (pl_text (ad_auri a)))) = Ret (0, u).
Proof using.
  clear. intros E Hin Hlim Hnn. assert (Eu : ∃ u, uri_decode (ad_auri a) = Ret (0, u)).
  { unfold sip_addr_decode in E. destruct (re_regex p _ 4) as [q|]; [|done].
    change (mbind (M := outcome) ?f (Ret q)) with (f q) in E. cbv beta in E.
    match type of E with mbind _ ?r = _ => destruct r as [[a'|[[d au] pa]]|] end; cbn [mbind outcome_bind] in E; [done| |done].
    destruct (uri_decode au) as [[e u]|] eqn:Eu; cbn [mbind outcome_bind fst snd] in E; [|done].
    destruct (bool_decide_reflect (e ≠ 0)) as [Hne|Hz]; [injection E as E0 _; by rewrite E0 in Hne|].
    assert (e = 0) as -> by lia. injection E as <-. by exists u. }
  destruct Eu as [u Eu]. destruct Hin as [(k & n & Ep & Hk)| Ep]; [|by rewrite Ep in Hnn].
  set (bs := take n (drop k m)). assert (Hl : length bs = n) by (unfold bs; rewrite length_take, length_drop; lia).
  assert (Eb : ad_auri a = Pl (Some (bs ++ drop n (drop k m))) (Z.of_nat (length bs))) by (rewrite Ep, Hl; unfold bs; by rewrite take_drop).
  assert (Et : pl_text (ad_auri a) = bs).
  { rewrite Eb. unfold pl_text. by rewrite pl_bytes_run. }
  rewrite Et. destruct (uri_decode_local bs (drop n (drop k m))) as [u1 E1]. rewrite <- Eb, Eu in E1. injection E1 as E0 _.
  destruct (uri_decode_local bs []) as [u2 E2]. rewrite app_nil_r, <- E0 in E2. by exists u2.
Qed.

(** [sip_dialog_update] on the first Contact. *)
Lemma sip_dialog_update_run dlg msg :
  dl_route_in dlg ≠ Freed → msg_text msg →
  (∃ a dlg', contact msg 0 (Some a) ∧ sip_dialog_update A dlg msg = Ret (0, dlg') ∧ retargeted dlg a dlg') ∨
  (contact msg EBADMSG None ∧ sip_dialog_update A dlg msg = Ret (EBADMSG, dlg)).
Proof using HA.
  intros Hin' (m & lim & Hlim & Hm & Hin). unfold sip_dialog_update. pose proof (text_short m Hm) as Hs.
  destruct (contact_addr_run m lim msg Hlim Hin) as (e & a & E & Hcon & Ha). unfold try_ at 1. rewrite E. cbn [mbind outcome_bind].
  destruct a as [a|]; [|right; assert (e = EBADMSG) as -> by (by inversion Hcon); by split].
  assert (e = 0) as -> by by inversion Hcon. left. exists a. cbn [mbind outcome_bind].
  destruct (Ha a eq_refl) as [Hau Hnn]. unfold try_ at 1. rewrite (strdup_run A m lim _ HA Hlim Hm Hau Hnn). cbn [mbind outcome_bind].
  assert (Hown : scheme_at_uri dlg = Ret (match dl_route_in dlg with InUri => scheme_first dlg | _ => false end)).
  { unfold scheme_at_uri, scheme_first. by destruct (dl_route_in dlg). }
  rewrite Hown. cbn [mbind outcome_bind]. set (uri := pl_text (ad_auri a)).
  destruct (dl_route_in dlg) eqn:Ein; [| |done].
  - eexists. split; [done|]. split; [done|]. unfold retargeted. rewrite Ein. cbn. by rewrite Ein.
  - destruct (scheme_first dlg) eqn:Esch.
    2: { eexists. split; [done|]. split; [done|]. unfold retargeted. by rewrite Ein, Esch. }
    assert (∃ c, sip_addr_decode (h_val c) = Ret (0, a)) as [c Ec] by (inversion Hcon; by eexists).
    destruct (reread m lim (h_val c) a Ec Hau Hlim Hnn) as [u Eu].
    fold uri in Eu. rewrite Eu. cbn [mbind outcome_bind fst snd]. unfold try_, ok_or. cbn [mbind outcome_bind].
    eexists. split; [done|]. split; [done|]. unfold retargeted. rewrite Ein, Esch. cbn. by rewrite Ein.
Qed.
(** C19: sip_dialog_update succeeds exactly if the message has a Contact and
    the first one can be read, as every address of the grammar can (an URI in
    angle brackets behind a name, or alone, with parameters); its URI is then the
    target of the dialog.  Nothing else changes but the route, where the dialog
    goes without Route headers, which is then read from the new URI.  But this is
    recognised by the scheme at the beginning of the URI: a route whose scheme
    comes later is left behind in the URI that was freed.  Without such a Contact
    the update fails with EBADMSG and the dialog is as it was. *)
Theorem sip_dialog_update_spec dlg msg :
  dl_route_in dlg ≠ Freed → msg_text msg →
  ((∃ a dlg', contact msg 0 (Some a) ∧ sip_dialog_update A dlg msg = Ret (0, dlg') ∧ retargeted dlg a dlg') ∨
   (contact msg EBADMSG None ∧ sip_dialog_update A dlg msg = Ret (EBADMSG, dlg))) ∧
  ∀ c l x, headers_of SIP_HDR_CONTACT msg = c :: l → views (h_val c) (addr_bytes x) → addr_ok x →
    ∃ dlg', sip_dialog_update A dlg msg = Ret (0, dlg') ∧ dl_uri dlg' = uri_text (addr_uri x).
Proof using HA.
  intros Hin' Hm. pose proof (sip_dialog_update_run dlg msg Hin' Hm) as Hrun. split; [exact Hrun|].
  intros c l x Ec [rest Ev] Hx. destruct (addr_decode_run x rest Hx) as (a & Ea & Ha). rewrite <- Ev in Ea.
  assert (Et : pl_text (ad_auri a) = uri_text (addr_uri x)).
  { destruct (sh_auri _ _ Ha) as [r ->]. unfold pl_text. by rewrite pl_bytes_run. }
  destruct Hrun as [(a' & dlg' & Hcon & E & Hr)|[Hcon _]]; [|inversion Hcon; congruence].
  assert (a' = a) as -> by (inversion Hcon; congruence). exists dlg'. split; [done|]. rewrite <- Et. exact (proj1 Hr).
Qed.
End answer.

(** ** A caller makes a dialog *)

(** A given route, as the header it is printed as. *)
Definition given (v : list Z) : sip_hdr :=
  SipHdr pl_null (pl_set_str pl_null (Some (bytes_of "<" ++ v ++ bytes_of ";lr>"))) SIP_HDR_ROUTE.

Definition quoted_name (name : option (list Z)) : list Z :=
  match name with Some n => [dquote] ++ n ++ [dquote; chr " "] | None => [] end.

Definition called_of (routev : list (list Z)) (to_uri : list Z) (from_name : option (list Z)) (from_uri : list Z) (ltag : Z) : list Z * list Z :=
  (concat (map route_line (map given routev)) ++ bytes_of "To: <" ++ to_uri ++ bytes_of ">" ++ crlf,
   bytes_of "From: " ++ quoted_name from_name ++ bytes_of "<" ++ from_uri ++ bytes_of ">;tag=" ++ tag16 ltag ++ crlf).

Section caller.
Context `{inet} (A : allocator) `{!allocator_ok A} (HA : plenty A).

Lemma given_text v : pl_text (h_val (given v)) = bytes_of "<" ++ v ++ bytes_of ";lr>".
Proof.
  unfold given, pl_text, pl_bytes. cbn [h_val pl_set_str pl_p pl_l]. rewrite memcpy_from_run by lia. cbn [Z.to_nat].
  by rewrite drop_0, Nat2Z.id, firstn_all.
Qed.

Lemma emits_given v : short v → emits A (mbuf_printf A (bytes_of "Route: <%s;lr>" ++ crlf) [VStr (Some v)]) (route_line (given v)).
Proof using.
  intros Hv. pose proof crlf_lit. unfold route_line. rewrite given_text.
  assert (Ht1 : Forall (λ b, b ≠ chr "%") (bytes_of "Route: <")) by closed. assert (Ht2 : Forall (λ b, b ≠ chr "%") (bytes_of ";lr>" ++ crlf)) by closed.
  apply (emits_pieces A _ _ _ [PLit (bytes_of "Route: <"); PStr v; PLit (bytes_of ";lr>" ++ crlf)]); [piece_text_eq|piece_text_eq| | | |lit]; [|by pieces..].
  unfold text_of. cbn [map concat piece_text]. rewrite app_nil_r, <- !app_assoc. done.
Qed.

Lemma emits_to_uri u : short u → emits A (mbuf_printf A (bytes_of "To: <%s>" ++ crlf) [VStr (Some u)]) (bytes_of "To: <" ++ u ++ bytes_of ">" ++ crlf).
Proof using.
  intros Hu. pose proof crlf_lit. assert (Ht1 : Forall (λ b, b ≠ chr "%") (bytes_of "To: <")) by closed. assert (Ht2 : Forall (λ b, b ≠ chr "%") (bytes_of ">")) by closed.
  apply (emits_pieces A _ _ _ [PLit (bytes_of "To: <"); PStr u; PLit (bytes_of ">"); PLit crlf]); [piece_text_eq..| | |lit]; by pieces.
Qed.

Lemma emits_caller name u z : (∀ n, name = Some n → short n) → short u → 0 ≤ z < 2 ^ 64 →
  emits A (mbuf_printf A (bytes_of "From: %s%s%s<%s>;tag=%016llx" ++ crlf)
      [VStr (Some (match name with Some _ => [dquote] | None => [] end)); VStr name;
       VStr (Some (match name with Some _ => [dquote; chr " "] | None => [] end)); VStr (Some u); VInt z])
    (bytes_of "From: " ++ quoted_name name ++ bytes_of "<" ++ u ++ bytes_of ">;tag=" ++ tag16 z ++ crlf).
Proof using.
  intros Hn Hu Hz. pose proof crlf_lit. pose proof (hex_text_short z Hz). assert (Hz0 : short (bytes_of "0")) by lit.
  assert (Ht1 : Forall (λ b, b ≠ chr "%") (bytes_of "From: ")) by closed. assert (Ht2 : Forall (λ b, b ≠ chr "%") (bytes_of ">;tag=")) by closed.
  assert (Ht3 : Forall (λ b, b ≠ chr "%") (bytes_of "<")) by closed. unfold tag16. destruct name as [n|].
  - specialize (Hn n eq_refl). assert (Hq1 : short [dquote]) by lit. assert (Hq2 : short [dquote; chr " "]) by lit.
    apply (emits_pieces A _ _ _ [PLit (bytes_of "From: "); PStr [dquote]; PStr n; PStr [dquote; chr " "]; PLit (bytes_of "<"); PStr u;
      PLit (bytes_of ">;tag="); PTag z; PLit crlf]); [piece_text_eq|piece_text_eq| | | |lit]; [|by pieces..].
    unfold text_of, quoted_name. cbn [map concat piece_text]. rewrite app_nil_r, <- !app_assoc. done.
  - assert (Hq1 : short []) by lit.
    apply (emits_pieces A _ _ _ [PLit (bytes_of "From: "); PStr []; PNoStr; PStr []; PLit (bytes_of "<"); PStr u;
      PLit (bytes_of ">;tag="); PTag z; PLit crlf]); [piece_text_eq..| | |lit]; by pieces.
Qed.

Lemma route_lines_run routev : Forall short routev → ∀ first k mb, filled k mb → text_ok (k ++ concat (map route_line (map given routev))) →
  ∃ mb', route_lines A routev first mb = Ret ((0, if first : bool then route_end (map route_line (map given routev)) (Z.of_nat (length k)) else 0), mb') ∧
    filled (k ++ concat (map route_line (map given routev))) mb'.
Proof using allocator_ok0 HA.
  clear H. induction 1 as [|v routev Hv _ IH]; intros first k mb Hk Hok.
  { exists mb. cbn [map concat route_lines route_end]. rewrite app_nil_r. split; [|done]. by destruct first. }
  cbn [map concat route_end] in *. rewrite app_assoc in Hok |- *. destruct (emits_given v Hv) as [_ T].
  destruct (T _ HA k mb Hk (text_ok_prefix _ _ Hok)) as (mb1 & E1 & Hk1). cbn [route_lines].
  rewrite (prog_bind_step _ _ _ _ _ E1). erewrite prog_bind_step by done.
  destruct (IH false _ mb1 Hk1 Hok) as (mb2 & E2 & Hk2). rewrite (prog_bind_step _ _ _ _ _ E2). exists mb2. split; [|done].
  cbn [fst snd]. unfold mret, prog_ret. do 3 f_equal. destruct first; [|done]. pose proof (route_line_length (given v)) as Hlen.
  destruct Hk1 as (_ & -> & _). destruct Hok as [_ Hl]. rewrite !length_app in Hl. rewrite length_app, Nat2Z.inj_add. apply u64_id. lia.
Qed.

Lemma caller_run routev to_uri name from_uri ltag mb : Forall short routev → short to_uri → (∀ n, name = Some n → short n) → short from_uri →
  0 ≤ ltag < 2 ^ 64 → filled [] mb →
  let t := called_of routev to_uri name from_uri ltag in
  text_ok (fst t ++ snd t) →
  ∃ mb', caller_text A routev to_uri name from_uri ltag mb =
      Ret ((0, route_end (map route_line (map given routev)) 0, Z.of_nat (length (fst t))), mb') ∧ filled (fst t ++ snd t) mb'.
Proof using allocator_ok0 HA.
  clear H. intros Hr Hto Hn Hf Hz Hk t Hok. subst t. unfold called_of in *. cbn [fst snd] in *. rewrite <- app_assoc in Hok |- *.
  destruct (route_lines_run routev Hr true [] mb Hk (text_ok_prefix _ _ Hok)) as (mb1 & E1 & Hk1).
  rewrite app_assoc in Hok. destruct (emits_to_uri to_uri Hto) as [_ T2].
  destruct (T2 _ HA _ mb1 Hk1 (text_ok_prefix _ _ Hok)) as (mb2 & E2 & Hk2). destruct (emits_caller name from_uri ltag Hn Hf Hz) as [_ T3].
  destruct (T3 _ HA _ mb2 Hk2 Hok) as (mb3 & E3 & Hk3). exists mb3. split; [|by rewrite app_assoc; exact Hk3]. unfold caller_text.
  rewrite (prog_bind_step _ _ _ _ _ E1), (prog_bind_step _ _ _ _ _ E2). erewrite prog_bind_step by done.
  rewrite (prog_bind_step _ _ _ _ _ E3). cbn [fst snd]. unfold mret, prog_ret. do 3 f_equal. by destruct Hk2 as (_ & -> & _).
Qed.

(** A new dialog of a caller. *)
Definition called (cid ltag lseq : Z) (uri : list Z) (routev : list (list Z)) (t : list Z * list Z) (dlg : sip_dialog) : Prop :=
  dialog_ok dlg ∧ payload (dl_mb dlg) = fst t ++ snd t ∧ rest_of dlg (dl_cpos dlg) = snd t ∧ dl_cpos dlg ≠ 0 ∧
  dl_callid dlg = tag16 cid ∧ dl_ltag dlg = tag16 ltag ∧ sip_dialog_established (Some dlg) = false ∧
  sip_dialog_uri (Some dlg) = Some uri ∧ sip_dialog_lseq (Some dlg) = lseq ∧ dl_rseq dlg = 0 ∧
  routed (map (λ v, bytes_of "<" ++ v ++ bytes_of ";lr>") routev) uri (dl_route dlg, dl_route_in dlg).

(** A caller's new dialog has the given routes, To and From with a new tag
    as headers, a new Call-ID, the given target and no peer yet; what follows To,
    kept when a peer answers, is the From header; its requests go to the
    first route or else to the target; only a route or target that cannot be read is an error. *)
Theorem sip_dialog_alloc_spec ltag cid lseq uri to_uri name from_uri routev :
  0 ≤ ltag < 2 ^ 64 → 0 ≤ cid < 2 ^ 64 → 0 ≤ lseq < 2 ^ 16 → text_ok uri → short to_uri → (∀ n, name = Some n → short n) →
  short from_uri → Forall short routev →
  let t := called_of routev to_uri name from_uri ltag in
  text_ok (fst t ++ snd t) →
  ∃ e dlg, sip_dialog_alloc A true ltag cid lseq (Some uri) (Some to_uri) name (Some from_uri) routev = Ret (e, dlg) ∧
    (e ≠ 0 → dlg = None ∧ unrouted (map (λ v, bytes_of "<" ++ v ++ bytes_of ";lr>") routev) uri e) ∧
    (e = 0 → ∃ d, dlg = Some d ∧ called cid ltag lseq uri routev t d).
Proof using allocator_ok0 HA.
  intros Hz Hc Hl Hu Hto Hn Hf Hr t Hok. unfold sip_dialog_alloc, alloc_dialog, try_ at 1. cbn [mbind outcome_bind].
  pose proof (text_short uri Hu) as Hus. pose proof Hus as [Hub Hul].
  unfold str_dup, try_ at 1. rewrite HA by (destruct Hu; lia). cbn [mbind outcome_bind].
  unfold try_ at 1. rewrite x64_strdup_run by done. cbn [mbind outcome_bind].
  unfold try_ at 1. rewrite x64_strdup_run by done. cbn [mbind outcome_bind].
  destruct (mbuf_alloc_filled A HA 512) as (mb & Ea & Hfl); [lia|]. unfold alloc_buffer, try_ at 1. rewrite Ea. cbn [mbind outcome_bind].
  destruct (caller_run routev to_uri name from_uri ltag mb Hr Hto Hn Hf Hz Hfl Hok) as (mb' & -> & Hf'). cbn [mbind outcome_bind]. unfold try_ at 1, ok_or at 1.
  rewrite (bool_decide_eq_true_2 (0 = 0)) by done. cbn [mbind outcome_bind]. fold t in Hf' |- *.
  assert (Et : fst t ++ snd t = concat (map route_line (map given routev)) ++ (bytes_of "To: <" ++ to_uri ++ bytes_of ">" ++ crlf) ++ snd t).
  { unfold t, called_of. cbn [fst snd]. by rewrite <- app_assoc. }
  pose proof Hf' as Hf2. rewrite Et in Hf2. destruct (route_of_run _ _ mb' uri Hf2 Hub Hul) as (e & r & Er' & Hgood & Hbad).
  assert (Em : map (λ h, pl_text (h_val h)) (map given routev) = map (λ v, bytes_of "<" ++ v ++ bytes_of ";lr>") routev).
  { rewrite map_map. apply map_ext. exact given_text. }
  rewrite Em in *. unfold try_. rewrite Er'. cbn [mbind outcome_bind].
  destruct (decide (e = 0)) as [->|Hne].
  2: { exists e, None. split; [by destruct e|]. split; [by split; [done|apply Hbad]|done]. }
  destruct (Hgood eq_refl) as (r' & -> & Hrt). eexists 0, _. split; [done|]. split; [done|]. intros _. eexists. split; [done|].
  destruct (filled_payload _ _ Hf') as [Hwf' Hpay].
  assert (Hend : mb_end mb' = Z.of_nat (length (fst t ++ snd t))) by by destruct Hf' as (_ & _ & -> & _).
  assert (Hne : (0 < length (fst t))%nat) by (unfold t, called_of; cbn [fst]; rewrite !length_app; cbn [bytes_of length map]; lia).
  assert (Hb : is_Some (mb_buf mb')) by (apply (filled_some (fst t ++ snd t)); [|done]; rewrite Et; by intros [_ [=]]%app_eq_nil).
  clearbody t. clear Et Hf2. split.
  - unfold dialog_ok. cbn. rewrite Hend, length_app. split_and!; try done; try lia; by apply tag16_short.
  - cbn. rewrite <- surjective_pairing. split_and!; try done; [|lia]. unfold rest_of. cbn [dl_mb]. by rewrite Hpay, Nat2Z.id, drop_app_length.
Qed.
End caller.

(** ** Requests that belong to a dialog *)

Lemma tags_in m lim msg : msg_in m lim msg → pointer_in m lim (m_callid msg) ∧ pointer_in m lim (ta_tag (own msg)) ∧ pointer_in m lim (ta_tag (peer msg)).
Proof.
  intros (_ & _ & _ & _ & _ & _ & _ & Hci & _ & _ & _ & _ & _ & (_ & Hto & _) & (_ & Hfrom & _) & _). unfold own, peer. by destruct (m_req msg).
Qed.

(** A message belongs to a dialog exactly if its Call-ID, the tag of the
    receiver's side and the tag of the sender's side are those of the dialog;
    none does before the peer is known; the weaker comparison leaves out the
    peer's tag. *)
Theorem sip_dialog_cmp_spec dlg msg :
  msg_text msg →
  sip_dialog_cmp_half dlg msg = Ret (bool_decide (pl_text (m_callid msg) = dl_callid dlg ∧ pl_text (ta_tag (own msg)) = dl_ltag dlg)) ∧
  sip_dialog_cmp dlg msg = Ret (bool_decide (pl_text (m_callid msg) = dl_callid dlg ∧ pl_text (ta_tag (own msg)) = dl_ltag dlg ∧
    dl_rtag dlg = Some (pl_text (ta_tag (peer msg))))).
Proof.
  intros (m & lim & Hlim & _ & Hin). destruct (tags_in m lim msg Hin) as (H1 & H2 & H3).
  destruct (strcmp_text m lim _ (dl_callid dlg) Hlim H1) as (e1 & E1 & He1). destruct (strcmp_text m lim _ (dl_ltag dlg) Hlim H2) as (e2 & E2 & He2).
  assert (∃ e3, pl_strcmp (ta_tag (peer msg)) (dl_rtag dlg) = Ret e3 ∧ (e3 = 0 ↔ dl_rtag dlg = Some (pl_text (ta_tag (peer msg))))) as (e3 & E3 & He3).
  { destruct (dl_rtag dlg) as [r|]; [|by exists EINVAL]. destruct (strcmp_text m lim _ r Hlim H3) as (e3 & E3 & He3). exists e3. split; [done|].
    rewrite He3. split; [by intros ->|by intros [= ->]]. }
  unfold sip_dialog_cmp_half, sip_dialog_cmp. rewrite E1, E2. cbn [mbind outcome_bind].
  split; (destruct (decide (e1 = 0)) as [Hz|Hz];
    [rewrite (bool_decide_eq_false_2 (e1 ≠ 0)) by tauto|rewrite (bool_decide_eq_true_2 (e1 ≠ 0)) by done; by rewrite bool_decide_eq_false_2 by tauto]).
  - f_equal. apply bool_decide_ext. tauto.
  - destruct (decide (e2 = 0)) as [Hy|Hy]; [rewrite (bool_decide_eq_false_2 (e2 ≠ 0)) by tauto|rewrite (bool_decide_eq_true_2 (e2 ≠ 0)) by done; by rewrite bool_decide_eq_false_2 by tauto].
    rewrite E3. cbn [mbind outcome_bind]. f_equal. apply bool_decide_ext. tauto.
Qed.

(** The sequence numbers of the peer never go down. *)
Lemma sip_dialog_rseq_valid_run dlg msg :
  sip_dialog_rseq_valid dlg msg = (bool_decide (m_req msg = true ∧ dl_rseq dlg ≤ cs_num (m_cseq msg)),
    if bool_decide (m_req msg = true ∧ dl_rseq dlg ≤ cs_num (m_cseq msg)) then set_dl_rseq (cs_num (m_cseq msg)) dlg else dlg).
Proof.
  unfold sip_dialog_rseq_valid. destruct (m_req msg); cbn [negb]; [|by rewrite bool_decide_eq_false_2 by (intros [[=] _])].
  destruct (decide (cs_num (m_cseq msg) < dl_rseq dlg)).
  - rewrite bool_decide_eq_true_2 by done. by rewrite bool_decide_eq_false_2 by (intros [_ ?]; lia).
  - rewrite bool_decide_eq_false_2 by done. by rewrite bool_decide_eq_true_2 by (split; [done|lia]).
Qed.

(** ** Witnesses *)

Local Abbreviation decode t := (sip_msg_decode (H := digits_only) demo_set (λ _, true) true true 7 (mbuf_of t)).

Lemma msg_of_text t : text_ok t → mbuf_wf (mbuf_of t) → match decode t with Ret (e, Some _, _) => bool_decide (e = 0) | _ => false end = true →
  msg_text (msg_of t).
Proof.
  intros Ht Hwf Hd. unfold msg_of. destruct (sip_msg_decode_in (H := digits_only) demo_set (λ _, true) true true 7 (mbuf_of t) Hwf)
    as (err & msg & mb' & E & _ & Hgood).
  rewrite E in Hd |- *. destruct msg as [m|]; [|done]. apply bool_decide_eq_true_1 in Hd.
  destruct (Hgood Hd) as (msg' & Em & _ & _ & buf & Eb & Hin). apply (inj Some) in Em as <-. apply (inj Some) in Eb as <-.
  cbn [mbuf_of mb_pos] in Hin. change (drop (Z.to_nat 0) t) with t in Hin.
  match type of Hin with msg_in _ ?n _ => exists t, n end. split; [|done]. cbn. lia.
Qed.

Ltac demo_text := split; [apply (bool_decide_eq_true_1 _); vm_compute; reflexivity|apply Z.leb_le; vm_compute; reflexivity].
Ltac demo_msg := apply msg_of_text; [demo_text|apply (bool_decide_eq_true_1 _); vm_compute; reflexivity|vm_compute; reflexivity].
Ltac demo_short := split; [apply (bool_decide_eq_true_1 _); vm_compute; reflexivity|apply Z.ltb_lt; vm_compute; reflexivity].

Definition demo_call : list Z :=
  line "INVITE sip:bob@10.0.0.1 SIP/2.0" ++ line "Via: SIP/2.0/UDP 10.0.0.2;rport;branch=z9hG4bK7" ++
  line "Record-Route: <sip:10.0.0.4;lr>" ++ line "Record-Route: <sip:10.0.0.5;lr>" ++ line "Contact: <sip:al@10.0.0.2:5080>" ++
  line "To: <sip:bob@10.0.0.1>" ++ line "From: <sip:al@10.0.0.2>;tag=1" ++ line "Call-ID: c1" ++ line "CSeq: 7 INVITE" ++ crlf.

Definition demo_answer : list Z :=
  line "SIP/2.0 200 OK" ++ line "Via: SIP/2.0/UDP 10.0.0.2;rport;branch=z9hG4bK7" ++
  line "Record-Route: <sip:10.0.0.4;lr>" ++ line "Record-Route: <sip:10.0.0.5;lr>" ++ line "Contact: <sip:bob@10.0.0.1:5080>" ++
  line "To: <sip:bob@10.0.0.1>;tag=b0b" ++ line "From: <sip:al@10.0.0.2>;tag=00000000000000ab" ++ line "Call-ID: 00000000000000cd" ++
  line "CSeq: 9 INVITE" ++ crlf.

Lemma demo_call_text : msg_text (msg_of demo_call).
Proof. demo_msg. Qed.
Lemma demo_answer_text : msg_text (msg_of demo_answer).
Proof. demo_msg. Qed.

Local Abbreviation alloc := (sip_dialog_alloc (H := digits_only) big_alloc true 171 205 9 (Some (bytes_of "sip:bob@10.0.0.1"))
  (Some (bytes_of "sip:bob@10.0.0.1")) None (Some (bytes_of "sip:al@10.0.0.2")) []).

Definition dialog_zero : sip_dialog := Dialog uri_zero InUri (Mb None 0 0 0) [] [] None [] 0 0 0.
Definition demo_dialog : sip_dialog := match alloc with Ret (_, Some d) => d | _ => dialog_zero end.

Lemma demo_dialog_ok : dialog_ok demo_dialog.
Proof. apply (bool_decide_eq_true_1 _). vm_compute. reflexivity. Qed.

Definition demo_joined : sip_dialog :=
  match sip_dialog_create (H := digits_only) big_alloc demo_dialog (msg_of demo_answer) with Ret (_, d) => d | _ => dialog_zero end.

(** The dialog of a caller: as made, answered, and its BYE; the Record-Route
    headers of the response come in reverse order. *)
Definition demo_bye : list Z :=
  line "Route: <sip:10.0.0.5;lr>" ++ line "Route: <sip:10.0.0.4;lr>" ++ line "To: <sip:bob@10.0.0.1>;tag=b0b" ++
  line "From: <sip:al@10.0.0.2>;tag=00000000000000ab" ++ line "Call-ID: 00000000000000cd" ++ line "CSeq: 9 BYE".

Example demo_bye_run :
  payload (dl_mb demo_dialog) = line "To: <sip:bob@10.0.0.1>" ++ line "From: <sip:al@10.0.0.2>;tag=00000000000000ab" ∧
  dl_uri demo_joined = bytes_of "sip:bob@10.0.0.1:5080" ∧
  match requests big_alloc demo_joined (Mb None 0 0 0) [(0, bytes_of "BYE")] with
  | Ret (mb, d) => (take (Z.to_nat (mb_end mb)) (data mb), dl_lseq d)
  | Fault _ => ([], 0)
  end = (demo_bye, 10).
Proof. vm_compute. done. Qed.

Lemma sip_dialog_alloc_spec_witness :
  ∃ e dlg, alloc = Ret (e, dlg) ∧
    (e ≠ 0 → dlg = None ∧ unrouted (H := digits_only) [] (bytes_of "sip:bob@10.0.0.1") e) ∧
    (e = 0 → ∃ d, dlg = Some d ∧ called (H := digits_only) 205 171 9 (bytes_of "sip:bob@10.0.0.1") []
      (called_of [] (bytes_of "sip:bob@10.0.0.1") None (bytes_of "sip:al@10.0.0.2") 171) d).
Proof.
  apply (sip_dialog_alloc_spec (H := digits_only) big_alloc (allocator_ok0 := big_alloc_ok) big_alloc_plenty 171 205 9
    (bytes_of "sip:bob@10.0.0.1") (bytes_of "sip:bob@10.0.0.1") None (bytes_of "sip:al@10.0.0.2") []).
  - lia.
  - lia.
  - lia.
  - demo_text.
  - demo_short.
  - intros n [=].
  - demo_short.
  - constructor.
  - demo_text.
Defined.

Lemma sip_dialog_create_spec_witness :
  ∃ e dlg', sip_dialog_create (H := digits_only) big_alloc demo_dialog (msg_of demo_answer) = Ret (e, dlg') ∧
    created (H := digits_only) demo_dialog (msg_of demo_answer) e dlg'.
Proof.
  apply (sip_dialog_create_spec (H := digits_only) big_alloc (allocator_ok0 := big_alloc_ok) big_alloc_plenty demo_dialog (msg_of demo_answer)).
  - exact demo_dialog_ok.
  - exact demo_answer_text.
  - vm_compute. split; [congruence|reflexivity].
  - demo_text.
Defined.

Lemma sip_dialog_accept_spec_witness :
  ∃ e dlg, sip_dialog_accept (H := digits_only) big_alloc true 5 (msg_of demo_call) = Ret (e, dlg) ∧
    accepted (H := digits_only) (msg_of demo_call) 5 e dlg.
Proof.
  apply (sip_dialog_accept_spec (H := digits_only) big_alloc (allocator_ok0 := big_alloc_ok) big_alloc_plenty 5 (msg_of demo_call)).
  - exact demo_call_text.
  - lia.
  - vm_compute. split; [congruence|reflexivity].
  - vm_compute. split; [congruence|reflexivity].
  - demo_text.
Defined.

Definition demo_requests : list (Z * list Z) := [(0, bytes_of "INVITE"); (9, bytes_of "ACK"); (0, bytes_of "BYE")].

Lemma sip_dialog_encode_spec_witness :
  ∃ mb' n, requests big_alloc demo_dialog (Mb None 0 0 0) demo_requests = Ret (mb', set_dl_lseq n demo_dialog) ∧
    filled (requests_of demo_dialog (dl_lseq demo_dialog) demo_requests) mb' ∧ n = 11.
Proof.
  destruct (sip_dialog_encode_spec big_alloc (allocator_ok0 := big_alloc_ok) big_alloc_plenty demo_requests demo_dialog [] (Mb None 0 0 0))
    as (mb' & n & E & Hf & Hn).
  - exact demo_dialog_ok.
  - repeat (apply Forall_cons; split; [split; [cbn [fst]; lia|demo_short]|]). constructor.
  - split; [apply (bool_decide_eq_true_1 _); vm_compute; reflexivity|]. split_and!; vm_compute; (reflexivity || congruence).
  - demo_text.
  - exists mb', n. split; [exact E|]. split; [exact Hf|]. rewrite Hn. vm_compute. reflexivity.
Defined.

Lemma sip_dialog_cmp_spec_witness :
  sip_dialog_cmp_half demo_joined (msg_of demo_answer) =
    Ret (bool_decide (pl_text (m_callid (msg_of demo_answer)) = dl_callid demo_joined ∧
      pl_text (ta_tag (own (msg_of demo_answer))) = dl_ltag demo_joined)) ∧
  sip_dialog_cmp demo_joined (msg_of demo_answer) = Ret true.
Proof.
  destruct (sip_dialog_cmp_spec demo_joined (msg_of demo_answer) demo_answer_text) as [H1 H2]. split; [exact H1|].
  rewrite H2. vm_compute. reflexivity.
Defined.

(** A Contact whose URI begins with a colon is taken for the URI after it. *)
Definition demo_colon : list Z :=
  line "INVITE sip:bob@10.0.0.1 SIP/2.0" ++ line "Via: SIP/2.0/UDP 10.0.0.2;rport;branch=z9hG4bK7" ++ line "Contact: <:sip:al@10.0.0.2>" ++
  line "To: <sip:bob@10.0.0.1>" ++ line "From: <sip:al@10.0.0.2>;tag=1" ++ line "Call-ID: c1" ++ line "CSeq: 7 INVITE" ++ crlf.

Definition demo_odd : sip_dialog :=
  match sip_dialog_accept (H := digits_only) big_alloc true 5 (msg_of demo_colon) with Ret (0, Some d) => d | _ => dialog_zero end.

Lemma sip_dialog_update_spec_witness :
  ∃ dlg', sip_dialog_update (H := digits_only) big_alloc demo_odd (msg_of demo_colon) = Ret (0, dlg') ∧
    dl_uri dlg' = bytes_of ":sip:al@10.0.0.2" ∧ dl_route_in dlg' = Freed.
Proof.
  destruct (sip_dialog_update_spec (H := digits_only) big_alloc big_alloc_plenty demo_odd (msg_of demo_colon))
    as [[(a & dlg' & Hcon & E & Hr)|[Hcon E]] _].
  - vm_compute. congruence.
  - demo_msg.
  - exists dlg'. split; [exact E|]. unfold retargeted in Hr.
    assert (Ein : dl_route_in demo_odd = InUri) by (vm_compute; reflexivity). assert (Es : scheme_first demo_odd = false) by (vm_compute; reflexivity).
    rewrite Ein, Es in Hr. split; [|tauto]. revert E. vm_compute. intros E. injection E as <-. reflexivity.
  - exfalso. revert E. vm_compute. intros E. discriminate E.
Defined.
