(* ===== verification/SdpMedia.v ===== *)
(** * Session descriptions: attributes, formats, media and sessions
    (src/re/src/sdp/attr.c, format.c, media.c, session.c, str.c)

    A session has the media its owner offers ([ss_lmedial]) and those of the
    description that was exchanged ([ss_medial]); a media line is in one of the two
    lists and moves between them.  Each media line has local and remote formats.
    Objects are values here, at their place in these lists; the reference counts
    of the application data of a format ([mem_ref] in format.c and media.c) are
    not represented.  The debug printers are left out. *)
From stdpp Require Import base tactics list numbers strings option.
From S2P Require Import Prelude Mbuf Fmt Print MbufPrint Sip Reply.

Definition RTP_DYNPT_START : Z := 96.
Definition RTP_DYNPT_END : Z := 127.

Definition SDP_INACTIVE : Z := 0.
Definition SDP_RECVONLY : Z := 1.
Definition SDP_SENDONLY : Z := 2.
Definition SDP_SENDRECV : Z := 3.

Definition SDP_BANDWIDTH_MIN : Z := 0.
Definition SDP_BANDWIDTH_CT : Z := 0.
Definition SDP_BANDWIDTH_AS : Z := 1.
Definition SDP_BANDWIDTH_RS : Z := 2.
Definition SDP_BANDWIDTH_RR : Z := 3.
Definition SDP_BANDWIDTH_TIAS : Z := 4.
Definition SDP_BANDWIDTH_MAX : Z := 5.

Definition cstring : Type := option (list Z).

(** ** str.c *)

Definition sdp_dir_name (dir : Z) : list Z :=
  if bool_decide (dir = SDP_INACTIVE) then bytes_of "inactive"
  else if bool_decide (dir = SDP_RECVONLY) then bytes_of "recvonly"
  else if bool_decide (dir = SDP_SENDONLY) then bytes_of "sendonly"
  else if bool_decide (dir = SDP_SENDRECV) then bytes_of "sendrecv"
  else bytes_of "??".

Definition sdp_bandwidth_name (type : Z) : list Z :=
  if bool_decide (type = SDP_BANDWIDTH_CT) then bytes_of "CT"
  else if bool_decide (type = SDP_BANDWIDTH_AS) then bytes_of "AS"
  else if bool_decide (type = SDP_BANDWIDTH_RS) then bytes_of "RS"
  else if bool_decide (type = SDP_BANDWIDTH_RR) then bytes_of "RR"
  else if bool_decide (type = SDP_BANDWIDTH_TIAS) then bytes_of "TIAS"
  else bytes_of "??".

(** ** attr.c *)

Record sdp_attr := SdpAttr { at_name : cstring; at_val : cstring }.

Definition attr_value (a : sdp_attr) : list Z := default [] (at_val a).

(** What a C string shows of the bytes it was copied from: those before the
    first zero. *)
Fixpoint c_string (bs : list Z) : list Z :=
  match bs with
  | [] => []
  | b :: bs => if bool_decide (b = 0) then [] else b :: c_string bs
  end.

(** [pl_strdup] and [re_vsdprintf] for a result that is read as a C string. *)
Definition strdup_c (A : allocator) (p : pl) : outcome (Z * cstring) :=
  q ← pl_strdup A p; Ret (fst q, option_map c_string (snd q)).
Definition sdprintf_c (A : allocator) (fmt : list Z) (args : list varg) : outcome (Z * cstring) :=
  q ← re_vsdprintf A no_handler 1 fmt args; Ret (fst q, option_map c_string (snd q)).

(** [mem]: whether the struct can be allocated.  A value of no length is not
    stored; an attribute whose strings cannot be allocated is unlinked again. *)
Definition sdp_attr_add (A : allocator) (mem : bool) (lst : list sdp_attr) (name val : pl) : outcome (Z * list sdp_attr) :=
  if negb mem then Ret (ENOMEM, lst)
  else
    n ← strdup_c A name;
    v ← (if pl_isset val then strdup_c A val else Ret (0, None));
    let err := Z.lor (fst n) (fst v) in
    Ret (err, if bool_decide (err = 0) then lst ++ [SdpAttr (snd n) (snd v)] else lst).

(** [val] is a format with its arguments. *)
Definition sdp_attr_addv (A : allocator) (mem : bool) (lst : list sdp_attr) (name : cstring) (val : option (list Z * list varg)) :
    outcome (Z * list sdp_attr) :=
  if negb mem then Ret (ENOMEM, lst)
  else
    let n := str_dup A name in
    v ← match val with
        | Some (fmt, args) => if bool_decide (fmt = []) then Ret (0, None) else sdprintf_c A fmt args
        | None => Ret (0, None)
        end;
    let err := Z.lor (fst n) (fst v) in
    Ret (err, if bool_decide (err = 0) then lst ++ [SdpAttr (snd n) (snd v)] else lst).

Definition sdp_attr_del (lst : list sdp_attr) (name : cstring) : list sdp_attr :=
  filter (λ a, str_casecmp name (at_name a) ≠ 0) lst.

(** The handler gets name and value; the state is its argument. *)
Fixpoint sdp_attr_apply {S} (lst : list sdp_attr) (name : cstring) (attrh : option (cstring → list Z → S → bool * S)) (s : S) :
    cstring * S :=
  match lst with
  | [] => (None, s)
  | a :: lst =>
      if match name with
         | Some n => match at_name a with None => true | Some n' => bool_decide (n ≠ n') end
         | None => false
         end
      then sdp_attr_apply lst name attrh s
      else
        match attrh with
        | None => (Some (attr_value a), s)
        | Some h =>
            let '(stop, s) := h (at_name a) (attr_value a) s in
            if stop : bool then (Some (attr_value a), s) else sdp_attr_apply lst name attrh s
        end
  end.

Definition sdp_attr_print (A : allocator) (a : sdp_attr) : prog mbuf Z :=
  match at_val a with
  | Some v => mbuf_printf A (bytes_of "a=%s:%s" ++ crlf) [VStr (at_name a); VStr (Some v)]
  | None => mbuf_printf A (bytes_of "a=%s" ++ crlf) [VStr (at_name a)]
  end.

(** ** format.c *)

(** [atoi] of the C library, on 64-bit longs: white space, a sign and digits,
    saturated and then cut to an [int]. *)
Fixpoint skip_space (s : list Z) : list Z :=
  match s with
  | c :: s' => if bool_decide (c = 32) || bool_decide (9 ≤ c ≤ 13) then skip_space s' else s
  | [] => []
  end.

Fixpoint leading_number (s : list Z) (v : Z) : Z :=
  match s with
  | c :: s => match dec_digit c with Some d => leading_number s (v * 10 + d) | None => v end
  | [] => v
  end.

Definition atoi (s : list Z) : Z :=
  let '(neg, s) := match skip_space s with
    | c :: s' => if bool_decide (c = chr "-") then (true, s') else if bool_decide (c = chr "+") then (false, s') else (false, c :: s')
    | [] => (false, [])
    end in
  let v := leading_number s 0 in
  s32 (Z.max (- 2 ^ 63) (Z.min (2 ^ 63 - 1) (if neg : bool then - v else v))).

(** The comparison of the parameters of two formats. *)
Definition fmtp_cmp : Type := cstring → cstring → Z → bool.

Record sdp_format := SdpFormat {
  fm_id : cstring;
  fm_params : cstring;
  fm_name : cstring;
  fm_cmph : option fmtp_cmp;
  fm_data : Z;
  fm_ref : bool;
  fm_sup : bool;
  fm_pt : Z;
  fm_srate : Z;
  fm_ch : Z
}.

#[export] Instance eta_sdp_format : Eta sdp_format := λ f,
  SdpFormat (fm_id f) (fm_params f) (fm_name f) (fm_cmph f) (fm_data f) (fm_ref f) (fm_sup f) (fm_pt f) (fm_srate f) (fm_ch f).

Definition set_fm_id : cstring → sdp_format → sdp_format := ltac:(setter fm_id).
Definition set_fm_params : cstring → sdp_format → sdp_format := ltac:(setter fm_params).
Definition set_fm_name : cstring → sdp_format → sdp_format := ltac:(setter fm_name).
Definition set_fm_data : Z → sdp_format → sdp_format := ltac:(setter fm_data).
Definition set_fm_ref : bool → sdp_format → sdp_format := ltac:(setter fm_ref).
Definition set_fm_sup : bool → sdp_format → sdp_format := ltac:(setter fm_sup).
Definition set_fm_pt : Z → sdp_format → sdp_format := ltac:(setter fm_pt).
Definition set_fm_srate : Z → sdp_format → sdp_format := ltac:(setter fm_srate).
Definition set_fm_ch : Z → sdp_format → sdp_format := ltac:(setter fm_ch).

Definition format_zero : sdp_format := SdpFormat None None None None 0 false false 0 0 0.

(** ** media.c: the line *)

Record sdp_media := SdpMedia {
  md_lfmtl : list sdp_format;
  md_rfmtl : list sdp_format;
  md_lattrl : list sdp_attr;
  md_rattrl : list sdp_attr;
  md_laddr : sockaddr;
  md_raddr : sockaddr;
  md_laddr_rtcp : sockaddr;
  md_raddr_rtcp : sockaddr;
  md_lbwv : list Z;
  md_rbwv : list Z;
  md_name : cstring;
  md_proto : cstring;
  md_ldir : Z;
  md_rdir : Z;
  md_disabled : bool;
  md_dynpt : Z
}.

#[export] Instance eta_sdp_media : Eta sdp_media := λ m,
  SdpMedia (md_lfmtl m) (md_rfmtl m) (md_lattrl m) (md_rattrl m) (md_laddr m) (md_raddr m) (md_laddr_rtcp m) (md_raddr_rtcp m)
    (md_lbwv m) (md_rbwv m) (md_name m) (md_proto m) (md_ldir m) (md_rdir m) (md_disabled m) (md_dynpt m).

Definition set_md_lfmtl : list sdp_format → sdp_media → sdp_media := ltac:(setter md_lfmtl).
Definition set_md_rfmtl : list sdp_format → sdp_media → sdp_media := ltac:(setter md_rfmtl).
Definition set_md_lattrl : list sdp_attr → sdp_media → sdp_media := ltac:(setter md_lattrl).
Definition set_md_rattrl : list sdp_attr → sdp_media → sdp_media := ltac:(setter md_rattrl).
Definition set_md_laddr : sockaddr → sdp_media → sdp_media := ltac:(setter md_laddr).
Definition set_md_raddr : sockaddr → sdp_media → sdp_media := ltac:(setter md_raddr).
Definition set_md_laddr_rtcp : sockaddr → sdp_media → sdp_media := ltac:(setter md_laddr_rtcp).
Definition set_md_raddr_rtcp : sockaddr → sdp_media → sdp_media := ltac:(setter md_raddr_rtcp).
Definition set_md_lbwv : list Z → sdp_media → sdp_media := ltac:(setter md_lbwv).
Definition set_md_rbwv : list Z → sdp_media → sdp_media := ltac:(setter md_rbwv).
Definition set_md_ldir : Z → sdp_media → sdp_media := ltac:(setter md_ldir).
Definition set_md_rdir : Z → sdp_media → sdp_media := ltac:(setter md_rdir).
Definition set_md_disabled : bool → sdp_media → sdp_media := ltac:(setter md_disabled).
Definition set_md_dynpt : Z → sdp_media → sdp_media := ltac:(setter md_dynpt).
Definition set_md_names (name proto : cstring) (m : sdp_media) : sdp_media :=
  SdpMedia (md_lfmtl m) (md_rfmtl m) (md_lattrl m) (md_rattrl m) (md_laddr m) (md_raddr m) (md_laddr_rtcp m) (md_raddr_rtcp m)
    (md_lbwv m) (md_rbwv m) name proto (md_ldir m) (md_rdir m) (md_disabled m) (md_dynpt m).

(** [sa_init] with AF_INET. *)
Definition sa_init4 : sockaddr := addr_any.

(** [sa_isset] with SA_ADDR and with SA_PORT. *)
Definition sa_isset_addr (sa : sockaddr) : bool :=
  match sa_text sa with
  | Some t => bool_decide (t ≠ if sa_v6 sa then bytes_of "::" else bytes_of "0.0.0.0")
  | None => false
  end.
Definition sa_isset_port (sa : sockaddr) : bool := bool_decide (is_Some (sa_text sa)) && bool_decide (sa_port sa ≠ 0).

Definition no_bandwidth : list Z := replicate 5 (-1).

(** What [media_alloc] links to the list. *)
Definition media_new : sdp_media :=
  SdpMedia [] [] [] [] sa_init4 sa_init4 sa_init4 sa_init4 no_bandwidth no_bandwidth None None SDP_SENDRECV SDP_SENDRECV false RTP_DYNPT_START.

(** The destructor of a line that is in a list: it stays there, disabled. *)
Definition media_destructor (m : sdp_media) : sdp_media :=
  set_md_disabled true (set_md_lattrl [] (set_md_rattrl [] (set_md_rfmtl [] (set_md_lfmtl [] m)))).

(** ** format.c: operations *)

(** A new local format; [mem] is the allocation of the struct.  The format is
    linked first and unlinked by its destructor when it cannot be completed. *)
Definition sdp_format_add (A : allocator) (mem : bool) (m : sdp_media) (prepend : bool) (id name : cstring)
    (srate ch : Z) (cmph : option fmtp_cmp) (dat : Z) (ref : bool) (params : option (list Z * list varg)) :
    outcome (Z * sdp_media) :=
  if bool_decide (id = None) && bool_decide (md_dynpt m > RTP_DYNPT_END) then Ret (ERANGE, m)
  else if negb mem then Ret (ENOMEM, m)
  else
    i ← match id with
        | Some _ => Ret (str_dup A id, m)
        | None => q ← sdprintf_c A (bytes_of "%i") [VInt (md_dynpt m)]; Ret (q, set_md_dynpt (md_dynpt m + 1) m)
        end;
    let '((err, id), m) := i in
    if bool_decide (err ≠ 0) then Ret (err, m)
    else
      let '(err, name) := match name with Some _ => str_dup A name | None => (0, None) end in
      if bool_decide (err ≠ 0) then Ret (err, m)
      else
        q ← match params with Some (fmt, args) => sdprintf_c A fmt args | None => Ret (0, None) end;
        let '(err, params) := q in
        if bool_decide (err ≠ 0) then Ret (err, m)
        else
          let fmt := SdpFormat id params name cmph dat ref true (atoi (default [] id)) srate ch in
          Ret (0, set_md_lfmtl (if prepend then fmt :: md_lfmtl m else md_lfmtl m ++ [fmt]) m).

Definition sdp_format_radd (A : allocator) (mem : bool) (m : sdp_media) (id : pl) : outcome (Z * sdp_media) :=
  if negb mem then Ret (ENOMEM, m)
  else
    q ← strdup_c A id;
    let '(err, id) := q in
    if bool_decide (err ≠ 0) then Ret (err, m)
    else Ret (0, set_md_rfmtl (md_rfmtl m ++ [set_fm_pt (atoi (default [] id)) (set_fm_id id format_zero)]) m).

(** The place of the first format with this id. *)
Fixpoint sdp_format_find (lst : list sdp_format) (id : pl) : outcome (option nat) :=
  match lst with
  | [] => Ret None
  | fmt :: lst =>
      e ← pl_strcmp id (fm_id fmt);
      if bool_decide (e = 0) then Ret (Some O) else r ← sdp_format_find lst id; Ret (option_map S r)
  end.

Definition sdp_format_set_params (A : allocator) (fmt : sdp_format) (params : option (list Z * list varg)) : outcome (Z * sdp_format) :=
  q ← match params with Some (f, args) => sdprintf_c A f args | None => Ret (0, None) end;
  Ret (fst q, set_fm_params (snd q) fmt).

Definition sdp_format_cmp (fmt1 fmt2 : sdp_format) : bool :=
  if bool_decide (fm_pt fmt1 < RTP_DYNPT_START) && bool_decide (fm_pt fmt2 < RTP_DYNPT_START) then
    match fm_id fmt1, fm_id fmt2 with
    | Some i1, Some i2 => bool_decide (i1 = i2)
    | _, _ => false
    end
  else if bool_decide (str_casecmp (fm_name fmt1) (fm_name fmt2) ≠ 0) then false
  else if bool_decide (fm_srate fmt1 ≠ fm_srate fmt2) then false
  else if bool_decide (fm_ch fmt1 ≠ fm_ch fmt2) then false
  else if match fm_cmph fmt1 with Some h => negb (h (fm_params fmt1) (fm_params fmt2) (fm_data fmt1)) | None => false end then false
  else if match fm_cmph fmt2 with Some h => negb (h (fm_params fmt2) (fm_params fmt1) (fm_data fmt2)) | None => false end then false
  else true.

(** ** media.c: operations *)

Definition sdp_media_rreset (m : sdp_media) : sdp_media :=
  set_md_rbwv no_bandwidth (set_md_rdir SDP_SENDRECV (set_md_rattrl [] (set_md_rfmtl []
    (set_md_raddr_rtcp sa_init4 (set_md_raddr sa_init4 m))))).

(** The first local format that agrees with a remote one. *)
Fixpoint find_match (lfmtl : list sdp_format) (rfmt : sdp_format) : option (nat * sdp_format) :=
  match lfmtl with
  | [] => None
  | lfmt :: l => if sdp_format_cmp lfmt rfmt then Some (O, lfmt) else option_map (λ '(i, f), (S i, f)) (find_match l rfmt)
  end.

(** One turn of the loop over the remote formats: the local formats and the
    remote format afterwards. *)
Definition align_one (offer : bool) (lfmtl : list sdp_format) (rfmt : sdp_format) : list sdp_format * sdp_format :=
  match find_match lfmtl rfmt with
  | None => (lfmtl, set_fm_sup false rfmt)
  | Some (i, lfmt) =>
      let lfmt := set_fm_sup true lfmt in
      let rfmt := set_fm_ref (fm_ref lfmt) (set_fm_data (fm_data lfmt) (set_fm_sup true rfmt)) in
      (if offer then
         let lfmt := set_fm_pt (atoi (default [] (fm_id rfmt))) (set_fm_id (fm_id rfmt) lfmt) in
         delete i lfmtl ++ [lfmt]
       else <[i := lfmt]> lfmtl, rfmt)
  end.

Fixpoint align_loop (offer : bool) (lfmtl rfmtl : list sdp_format) : list sdp_format * list sdp_format :=
  match rfmtl with
  | [] => (lfmtl, [])
  | rfmt :: rfmtl =>
      let '(lfmtl, rfmt) := align_one offer lfmtl rfmt in
      let '(lfmtl, rfmtl) := align_loop offer lfmtl rfmtl in
      (lfmtl, rfmt :: rfmtl)
  end.

(** The loop from the tail to the head: [rev] is what it has not seen, last
    first, [behind] what comes after. *)
Fixpoint sink_loop (rev behind : list sdp_format) : list sdp_format :=
  match rev with
  | [] => behind
  | lfmt :: rev => sink_loop rev (if fm_sup lfmt then lfmt :: behind else behind ++ [lfmt])
  end.

Definition sdp_media_align_formats (m : sdp_media) (offer : bool) : sdp_media :=
  if md_disabled m || bool_decide (sa_port (md_raddr m) = 0) then m
  else
    let '(lfmtl, rfmtl) := align_loop offer (map (set_fm_sup false) (md_lfmtl m)) (md_rfmtl m) in
    set_md_rfmtl rfmtl (set_md_lfmtl (if offer then sink_loop (reverse lfmtl) [] else lfmtl) m).

Definition sdp_media_set_disabled (m : sdp_media) (disabled : bool) : sdp_media := set_md_disabled disabled m.

Definition sa_set_port (sa : sockaddr) (port : Z) : sockaddr := SockAddr (sa_text sa) (u16 port) (sa_v6 sa).

Definition sdp_media_set_lport (m : sdp_media) (port : Z) : sdp_media := set_md_laddr (sa_set_port (md_laddr m) port) m.
Definition sdp_media_set_laddr (m : sdp_media) (laddr : option sockaddr) : sdp_media :=
  match laddr with Some laddr => set_md_laddr laddr m | None => m end.
Definition sdp_media_set_lport_rtcp (m : sdp_media) (port : Z) : sdp_media :=
  set_md_laddr_rtcp (sa_set_port (md_laddr_rtcp m) port) m.
Definition sdp_media_set_laddr_rtcp (m : sdp_media) (laddr : option sockaddr) : sdp_media :=
  match laddr with Some laddr => set_md_laddr_rtcp laddr m | None => m end.

(** An enumeration without negative members is unsigned: [type] is in its range. *)
Definition sdp_media_set_lbandwidth (m : sdp_media) (type bw : Z) : sdp_media :=
  if bool_decide (SDP_BANDWIDTH_MAX ≤ type) then m else set_md_lbwv (<[Z.to_nat type := bw]> (md_lbwv m)) m.
Definition sdp_media_set_ldir (m : sdp_media) (dir : Z) : sdp_media := set_md_ldir dir m.

Definition sdp_media_set_lattr (A : allocator) (mem : bool) (m : sdp_media) (replace : bool) (name : cstring)
    (value : option (list Z * list varg)) : outcome (Z * sdp_media) :=
  match name with
  | None => Ret (EINVAL, m)
  | Some _ =>
      q ← sdp_attr_addv A mem (if replace then sdp_attr_del (md_lattrl m) name else md_lattrl m) name value;
      Ret (fst q, set_md_lattrl (snd q) m)
  end.

Definition sdp_media_del_lattr (m : sdp_media) (name : cstring) : sdp_media :=
  match name with Some _ => set_md_lattrl (sdp_attr_del (md_lattrl m) name) m | None => m end.

Definition sdp_media_rport (m : option sdp_media) : Z := match m with Some m => sa_port (md_raddr m) | None => 0 end.
Definition sdp_media_raddr (m : option sdp_media) : option sockaddr := md_raddr <$> m.

Definition sdp_media_raddr_rtcp (m : sdp_media) : sockaddr :=
  if sa_isset_addr (md_raddr_rtcp m) && sa_isset_port (md_raddr_rtcp m) then md_raddr_rtcp m
  else if sa_isset_port (md_raddr_rtcp m) then sa_set_port (md_raddr m) (sa_port (md_raddr_rtcp m))
  else
    let port := sa_port (md_raddr m) in
    sa_set_port (md_raddr m) (if bool_decide (port ≠ 0) then port + 1 else 0).

Definition sdp_media_rbandwidth (m : option sdp_media) (type : Z) : outcome Z :=
  match m with
  | None => Ret 0
  | Some m => if bool_decide (SDP_BANDWIDTH_MAX ≤ type) then Ret 0 else of_option OutOfBounds (md_rbwv m !! Z.to_nat type)
  end.

Definition sdp_media_ldir (m : option sdp_media) : Z := match m with Some m => md_ldir m | None => SDP_INACTIVE end.
Definition sdp_media_rdir (m : option sdp_media) : Z := match m with Some m => md_rdir m | None => SDP_INACTIVE end.
Definition sdp_media_dir (m : option sdp_media) : Z :=
  match m with Some m => Z.land (md_ldir m) (md_rdir m) | None => SDP_INACTIVE end.

Definition sdp_media_lformat (m : sdp_media) (pt : Z) : option sdp_format :=
  snd <$> list_find (λ fmt, pt = fm_pt fmt) (md_lfmtl m).

Definition sdp_media_rformat (m : sdp_media) (name : cstring) : option sdp_format :=
  if bool_decide (sa_port (md_raddr m) = 0) then None
  else snd <$> list_find (λ fmt, fm_sup fmt = true ∧ (is_Some name → str_casecmp name (fm_name fmt) = 0)) (md_rfmtl m).

(** The handler's state is threaded through the calls. *)
Fixpoint format_apply {S} (lst : list sdp_format) (id : cstring) (pt : Z) (name : cstring) (srate ch : Z)
    (fmth : option (sdp_format → S → bool * S)) (s : S) : option sdp_format * S :=
  match lst with
  | [] => (None, s)
  | fmt :: lst =>
      if match id with Some _ => bool_decide (fm_id fmt ≠ id) | None => false end then format_apply lst id pt name srate ch fmth s
      else if bool_decide (0 ≤ pt) && bool_decide (pt ≠ fm_pt fmt) then format_apply lst id pt name srate ch fmth s
      else if match name with Some _ => bool_decide (str_casecmp name (fm_name fmt) ≠ 0) | None => false end then
        format_apply lst id pt name srate ch fmth s
      else if bool_decide (0 ≤ srate) && bool_decide (u32 srate ≠ fm_srate fmt) then format_apply lst id pt name srate ch fmth s
      else if bool_decide (0 ≤ ch) && bool_decide (u8 ch ≠ fm_ch fmt) then format_apply lst id pt name srate ch fmth s
      else
        match fmth with
        | None => (Some fmt, s)
        | Some h =>
            let '(stop, s) := h fmt s in
            if stop : bool then (Some fmt, s) else format_apply lst id pt name srate ch fmth s
        end
  end.

Definition sdp_media_format_lst (m : sdp_media) (local : bool) : list sdp_format := if local then md_lfmtl m else md_rfmtl m.

Definition sdp_media_format_apply {S} (m : sdp_media) (local : bool) (id : cstring) (pt : Z) (name : cstring) (srate ch : Z)
    (fmth : option (sdp_format → S → bool * S)) (s : S) : option sdp_format * S :=
  format_apply (sdp_media_format_lst m local) id pt name srate ch fmth s.

Definition sdp_media_format (m : sdp_media) (local : bool) (id : cstring) (pt : Z) (name : cstring) (srate ch : Z) : option sdp_format :=
  fst (sdp_media_format_apply m local id pt name srate ch None tt).

Definition sdp_media_rattr (m : sdp_media) (name : cstring) : cstring :=
  match name with Some _ => fst (sdp_attr_apply (md_rattrl m) name None tt) | None => None end.
Definition sdp_media_rattr_apply {S} (m : sdp_media) (name : cstring) (attrh : option (cstring → list Z → S → bool * S)) (s : S) :
    cstring * S := sdp_attr_apply (md_rattrl m) name attrh s.
Definition sdp_media_name (m : option sdp_media) : cstring := m ≫= md_name.

(** ** Negotiation *)

(** What a comparison of formats looks at does not include [fm_sup]. *)
Lemma sdp_format_cmp_sup b f r : sdp_format_cmp (set_fm_sup b f) r = sdp_format_cmp f r.
Proof. done. Qed.

Lemma find_match_sup (g : nat → sdp_format → bool) lst r :
  find_match (imap (λ i f, set_fm_sup (g i f) f) lst) r =
  (λ '(i, f), (i, set_fm_sup (g i f) f)) <$> find_match lst r.
Proof.
  revert g. induction lst as [|f lst IH]; intros g; [done|]. cbn [imap find_match]. rewrite sdp_format_cmp_sup.
  destruct (sdp_format_cmp f r); [done|].
  change (imap (_ ∘ S) lst) with (imap (λ i f, set_fm_sup (g (S i) f) f) lst). rewrite (IH (λ i, g (S i))). by destruct (find_match lst r) as [[i f']|].
Qed.

Lemma find_match_lookup lst r i f : find_match lst r = Some (i, f) → lst !! i = Some f.
Proof.
  revert i. induction lst as [|f' lst IH]; intros i; [done|]. cbn [find_match].
  destruct (sdp_format_cmp f' r); [by intros [= <- <-]|].
  destruct (find_match lst r) as [[j f'']|]; [|done]. intros [= <- <-]. by apply IH.
Qed.

(** The remote format [r] afterwards, when it meets the local formats [lst]. *)
Definition aligned_remote (lst : list sdp_format) (r : sdp_format) : sdp_format :=
  match find_match lst r with
  | None => set_fm_sup false r
  | Some (_, f) => set_fm_ref (fm_ref f) (set_fm_data (fm_data f) (set_fm_sup true r))
  end.

(** Some remote format has the [i]th local one as its first match. *)
Definition chosen (lst rs : list sdp_format) (i : nat) : bool :=
  existsb (λ r, bool_decide (fst <$> find_match lst r = Some i)) rs.

Lemma align_loop_answer lst rs : ∀ (g : nat → bool),
  align_loop false (imap (λ i f, set_fm_sup (g i) f) lst) rs =
  (imap (λ i f, set_fm_sup (g i || chosen lst rs i) f) lst, map (aligned_remote lst) rs).
Proof.
  induction rs as [|r rs IH]; intros g.
  { cbn. f_equal. apply imap_ext. intros i f _. by rewrite orb_false_r. }
  cbn [align_loop map]. unfold align_one. rewrite (find_match_sup (λ i _, g i)).
  destruct (find_match lst r) as [[j f]|] eqn:E; cbn [fmap option_fmap option_map].
  - assert (Hins : <[j := set_fm_sup true (set_fm_sup (g j) f)]> (imap (λ i f, set_fm_sup (g i) f) lst) =
      imap (λ i f, set_fm_sup (g i || bool_decide (j = i)) f) lst).
    { apply list_eq. intros i. destruct (decide (i = j)) as [->|Hne].
      - rewrite list_lookup_insert_eq by (rewrite length_imap; by eapply lookup_lt_Some, find_match_lookup).
        rewrite list_lookup_imap, (find_match_lookup _ _ _ _ E). cbn. by rewrite bool_decide_eq_true_2, orb_true_r.
      - rewrite list_lookup_insert_ne by done. rewrite !list_lookup_imap.
        destruct (lst !! i); [|done]. cbn. by rewrite bool_decide_eq_false_2, orb_false_r by congruence. }
    rewrite Hins, IH. cbn [chosen existsb]. f_equal.
    + apply imap_ext. intros i f' _. rewrite E. cbn. rewrite <- orb_assoc. do 2 f_equal. f_equal.
      apply bool_decide_ext. split; congruence.
    + f_equal. unfold aligned_remote. by rewrite E.
  - rewrite IH. cbn [chosen existsb]. f_equal.
    + apply imap_ext. intros i f' _. by rewrite E.
    + f_equal. unfold aligned_remote. by rewrite E.
Qed.

(** After an answer, a local format is supported exactly when it is the first
    match of some remote format, nothing else of it changes, and a remote format
    is supported exactly when a local one matches it, whose application data it
    then carries; the order of both lists stays, and a line that is disabled or
    has no remote port keeps its formats. *)
Theorem sdp_media_align_answer m :
  sdp_media_align_formats m false =
  if md_disabled m || bool_decide (sa_port (md_raddr m) = 0) then m
  else set_md_rfmtl (map (aligned_remote (md_lfmtl m)) (md_rfmtl m))
    (set_md_lfmtl (imap (λ i, set_fm_sup (chosen (md_lfmtl m) (md_rfmtl m) i)) (md_lfmtl m)) m).
Proof.
  unfold sdp_media_align_formats. destruct (_ || _); [done|].
  replace (map (set_fm_sup false) (md_lfmtl m)) with (imap (λ i f, set_fm_sup ((λ _, false) i) f) (md_lfmtl m)).
  2: { generalize (md_lfmtl m). induction l as [|f l IH]; [done|]. cbn [imap map]. f_equal. exact IH. }
  by rewrite align_loop_answer.
Qed.

(** What an offer does not change of a local format. *)
Definition codec (f : sdp_format) : sdp_format := set_fm_sup false (set_fm_pt 0 (set_fm_id None f)).
(** What the alignment does not change of a remote format. *)
Definition described (f : sdp_format) : sdp_format := set_fm_ref false (set_fm_data 0 (set_fm_sup false f)).

Definition is_sup (f : sdp_format) : Prop := fm_sup f = true.
#[export] Instance is_sup_dec f : Decision (is_sup f).
Proof. unfold is_sup. apply _. Defined.

(** The local formats in the middle of an offer: those not met yet, as they
    were, then those met, in the order of the remote formats [done] that met them
    last. *)
Definition half_aligned (l0 done cur : list sdp_format) : Prop :=
  ∃ N T, cur = N ++ T ∧ Forall (λ f, ¬ is_sup f) N ∧ Forall is_sup T ∧ sublist N l0 ∧
    sublist (map fm_id T) (map fm_id (filter is_sup done)) ∧
    Forall (λ f, fm_pt f = atoi (default [] (fm_id f))) T ∧
    Permutation (map codec cur) (map codec l0).

Lemma align_one_offer l0 seen cur r :
  half_aligned l0 seen cur → let '(cur', r') := align_one true cur r in
  half_aligned l0 (seen ++ [r']) cur' ∧ described r' = described r.
Proof.
  intros (N & T & -> & HN & HT & Hsub & Hids & Hpt & Hperm). unfold align_one.
  destruct (find_match (N ++ T) r) as [[i f]|] eqn:E.
  2: { split; [|done]. exists N, T. split_and!; try done. rewrite list.filter_app, filter_cons_False by done.
    by rewrite filter_nil, app_nil_r. }
  apply find_match_lookup in E. split; [|done]. cbn [fm_id set_fm_ref set_fm_data set_fm_sup].
  set (f' := set_fm_pt _ _). set (r' := set_fm_ref _ _).
  assert (Hf' : Forall is_sup [f'] ∧ Forall (λ f, fm_pt f = atoi (default [] (fm_id f))) [f']) by (split; repeat constructor).
  assert (Hr' : map fm_id (filter is_sup (seen ++ [r'])) = map fm_id (filter is_sup seen) ++ [fm_id f']).
  { rewrite list.filter_app, filter_cons_True, filter_nil, map_app by done. done. }
  assert (Hp : Permutation (map codec (delete i (N ++ T) ++ [f'])) (map codec l0)).
  { etrans; [|exact Hperm]. pose proof (delete_Permutation (N ++ T) i f E) as Hd. apply (Permutation_map codec) in Hd.
    etrans; [|symmetry; exact Hd]. rewrite map_app. apply (Permutation_app_comm _ [codec f]). }
  assert (Hdrop : ∀ l1 l2 : list sdp_format, sublist (l1 ++ l2) (l1 ++ f :: l2)).
  { intros l1 l2. apply sublist_app; [done|]. by constructor. }
  destruct Hf' as [Hf1 Hf2]. apply lookup_app_Some in E as [E|[Hi E]].
  - apply list_elem_of_split_length in E as (N1 & N2 & -> & Ei).
    assert (Hd : delete i ((N1 ++ f :: N2) ++ T) = N1 ++ N2 ++ T).
    { rewrite Ei, <- app_assoc. apply delete_middle. }
    rewrite Hd in *. apply Forall_app in HN as [HN1 HN2]. apply Forall_cons_1 in HN2 as [_ HN2].
    exists (N1 ++ N2), (T ++ [f']). split_and!; try done.
    + by rewrite !app_assoc.
    + by apply Forall_app.
    + by apply Forall_app.
    + etrans; [apply Hdrop|done].
    + rewrite Hr', map_app. by apply sublist_app.
    + by apply Forall_app.
  - apply list_elem_of_split_length in E as (T1 & T2 & -> & Ei).
    assert (Hd : delete i (N ++ T1 ++ f :: T2) = N ++ T1 ++ T2).
    { replace i with (length (N ++ T1)) by (rewrite length_app; lia). rewrite !app_assoc. apply delete_middle. }
    rewrite Hd in *. apply Forall_app in HT as [HT1 HT2]. apply Forall_cons_1 in HT2 as [_ HT2].
    apply Forall_app in Hpt as [Hpt1 Hpt2]. apply Forall_cons_1 in Hpt2 as [_ Hpt2].
    exists N, ((T1 ++ T2) ++ [f']). split_and!; try done.
    + by rewrite !app_assoc.
    + rewrite !Forall_app. auto.
    + rewrite Hr', map_app. apply sublist_app; [|done]. etrans; [|exact Hids]. rewrite !map_app. apply sublist_app; [done|].
      by constructor.
    + rewrite !Forall_app. auto.
Qed.

Lemma align_loop_offer l0 rs : ∀ seen cur, half_aligned l0 seen cur →
  let '(cur', rs') := align_loop true cur rs in
  half_aligned l0 (seen ++ rs') cur' ∧ map described rs' = map described rs.
Proof.
  induction rs as [|r rs IH]; intros seen cur H0; cbn [align_loop]; [by rewrite app_nil_r|].
  pose proof (align_one_offer l0 seen cur r H0) as H1. destruct (align_one true cur r) as [cur1 r1].
  destruct H1 as [H1 Hd]. specialize (IH _ _ H1). destruct (align_loop true cur1 rs) as [cur2 rs2].
  destruct IH as [H2 Hds]. split; [by rewrite <- app_assoc in H2|]. cbn [map]. by rewrite Hd, Hds.
Qed.

(** Formats without support sink, last first. *)
Lemma sink_sup xs rev : Forall is_sup xs → ∀ behind, sink_loop (xs ++ rev) behind = sink_loop rev (reverse xs ++ behind).
Proof.
  induction 1 as [|x xs Hx _ IH]; intros behind; [done|]. cbn [Datatypes.app sink_loop]. rewrite Hx, IH.
  by rewrite reverse_cons, <- app_assoc.
Qed.

Lemma sink_unsup xs : Forall (λ f, ¬ is_sup f) xs → ∀ behind, sink_loop xs behind = behind ++ xs.
Proof.
  induction 1 as [|x xs Hx _ IH]; intros behind; [by rewrite app_nil_r|]. cbn [sink_loop].
  rewrite (not_true_is_false _ Hx), IH. by rewrite <- app_assoc.
Qed.

Lemma sink_loop_run N T : Forall (λ f, ¬ is_sup f) N → Forall is_sup T → sink_loop (reverse (N ++ T)) [] = T ++ reverse N.
Proof.
  intros HN HT. rewrite reverse_app, sink_sup, sink_unsup by by apply Forall_reverse.
  by rewrite reverse_involutive, app_nil_r.
Qed.

(** *** What the alignment decides

    A handler that compares parameters, where a format has one, accepts those
    of the other. *)
Definition accepts (f g : sdp_format) : Prop := ∀ h, fm_cmph f = Some h → h (fm_params f) (fm_params g) (fm_data f) = true.

(** Two formats are the same codec: below the dynamic payload types by their
    identifiers; otherwise they have the same name, sampling rate and channels
    and accept each other's parameters. *)
Definition same_codec (f r : sdp_format) : Prop :=
  if decide (fm_pt f < RTP_DYNPT_START ∧ fm_pt r < RTP_DYNPT_START) then ∃ i, fm_id f = Some i ∧ fm_id r = Some i
  else str_casecmp (fm_name f) (fm_name r) = 0 ∧ fm_srate f = fm_srate r ∧ fm_ch f = fm_ch r ∧ accepts f r ∧ accepts r f.

Lemma sdp_format_cmp_run f r : sdp_format_cmp f r = true ↔ same_codec f r.
Proof.
  assert (Hacc : ∀ f g, accepts f g ↔ match fm_cmph f with Some h => negb (h (fm_params f) (fm_params g) (fm_data f)) | None => false end = false).
  { intros f1 g. unfold accepts. destruct (fm_cmph f1) as [h|]; [|by split]. rewrite negb_false_iff. split; [by intros ->|by intros ? ? [= <-]]. }
  unfold sdp_format_cmp, same_codec. rewrite <- bool_decide_and. case_decide as Hst.
  { rewrite bool_decide_eq_true_2 by done. destruct (fm_id f), (fm_id r); try (split; [done|naive_solver]).
    rewrite bool_decide_eq_true. split; [intros ->; by eexists|by intros (? & [= ->] & [= ->])]. }
  rewrite bool_decide_eq_false_2, !Hacc by done.
  destruct (bool_decide_reflect (str_casecmp (fm_name f) (fm_name r) ≠ 0)); [by split; [|intros [? _]]|].
  destruct (bool_decide_reflect (fm_srate f ≠ fm_srate r)); [by split; [|intros (_ & ? & _)]|].
  destruct (bool_decide_reflect (fm_ch f ≠ fm_ch r)); [by split; [|intros (_ & _ & ? & _)]|].
  destruct (match fm_cmph f with Some h => _ | None => _ end); [by split; [|intros (_ & _ & _ & ? & _)]|].
  destruct (match fm_cmph r with Some h => _ | None => _ end); [by split; [|intros (_ & _ & _ & _ & ?)]|].
  split; [|done]. intros _. split_and!; try done; lia.
Qed.

(** A remote format takes over the application data of the local one, which
    takes over its identifier and payload type and goes to the end. *)
Definition carried (f r : sdp_format) : sdp_format := set_fm_ref (fm_ref f) (set_fm_data (fm_data f) (set_fm_sup true r)).
Definition renumbered (f r : sdp_format) : sdp_format :=
  set_fm_pt (atoi (default [] (fm_id r))) (set_fm_id (fm_id r) (set_fm_sup true f)).

(** The remote formats of an offer meet the local formats one after the other,
    each the first one of its codec: the local formats before, the remote
    formats, the local formats after and the remote formats after. *)
Inductive meets : list sdp_format → list sdp_format → list sdp_format → list sdp_format → Prop :=
| meets_end cur : meets cur [] cur []
| meets_none cur r rs cur' rs' :
    Forall (λ f, ¬ same_codec f r) cur → meets cur rs cur' rs' → meets cur (r :: rs) cur' (set_fm_sup false r :: rs')
| meets_first l1 f l2 r rs cur' rs' :
    Forall (λ f, ¬ same_codec f r) l1 → same_codec f r →
    meets (l1 ++ l2 ++ [renumbered f r]) rs cur' rs' → meets (l1 ++ f :: l2) (r :: rs) cur' (carried f r :: rs').

Lemma find_match_first lst r :
  match find_match lst r with
  | Some (i, f) => ∃ l1 l2, lst = l1 ++ f :: l2 ∧ length l1 = i ∧ Forall (λ f, ¬ same_codec f r) l1 ∧ same_codec f r
  | None => Forall (λ f, ¬ same_codec f r) lst
  end.
Proof.
  induction lst as [|f lst IH]; cbn [find_match]; [constructor|]. destruct (sdp_format_cmp f r) eqn:E.
  - apply sdp_format_cmp_run in E. by exists [], lst.
  - assert (Hf : ¬ same_codec f r) by (intros Hs%sdp_format_cmp_run; congruence).
    destruct (find_match lst r) as [[i g]|]; cbn [option_map]; [|by constructor].
    destruct IH as (l1 & l2 & -> & <- & Hl & Hg). exists (f :: l1), l2. split_and!; try done. by constructor.
Qed.

Lemma align_loop_meets rs : ∀ cur, let '(cur', rs') := align_loop true cur rs in meets cur rs cur' rs'.
Proof.
  induction rs as [|r rs IH]; intros cur; cbn [align_loop]; [constructor|]. unfold align_one.
  pose proof (find_match_first cur r) as Hm. destruct (find_match cur r) as [[i f]|].
  - destruct Hm as (l1 & l2 & -> & <- & Hl & Hf). rewrite delete_middle, <- app_assoc.
    match goal with |- context [align_loop true ?l rs] => specialize (IH l); destruct (align_loop true l rs) end. by constructor.
  - specialize (IH cur). destruct (align_loop true cur rs). by constructor.
Qed.

(** C23: an offer to an enabled line with a remote port.  The remote formats meet
    the local ones in the order of the offer: each is supported exactly if a local
    format is of the same codec; it then carries the application data of the first
    such one, which becomes supported under the identifier and payload type of
    the offer.  Afterwards the local formats are reordered: first the supported
    ones, in the order in which they were met, their identifiers those of
    supported remote formats and their payload types those the identifiers
    denote; then the others, unchanged and in reverse order.  No local format is
    lost, doubled or changed in anything but its identifier, payload type and
    support, and the remote formats keep their order and description. *)
Theorem sdp_media_align_offer m :
  md_disabled m = false → sa_port (md_raddr m) ≠ 0 →
  let m' := sdp_media_align_formats m true in
  ∃ cur, meets (map (set_fm_sup false) (md_lfmtl m)) (md_rfmtl m) cur (md_rfmtl m') ∧
    let sup := filter is_sup cur in
    let unsup := reverse (filter (λ f, ¬ is_sup f) cur) in
    md_lfmtl m' = sup ++ unsup ∧
    sublist (map fm_id sup) (map fm_id (filter is_sup (md_rfmtl m'))) ∧
    Forall (λ f, fm_pt f = atoi (default [] (fm_id f))) sup ∧
    sublist (reverse unsup) (map (set_fm_sup false) (md_lfmtl m)) ∧
    Permutation (map codec (md_lfmtl m')) (map codec (md_lfmtl m)) ∧
    map described (md_rfmtl m') = map described (md_rfmtl m).
Proof.
  intros Hd Hp. unfold sdp_media_align_formats. rewrite Hd, bool_decide_eq_false_2 by done. cbn [orb].
  set (l0 := map (set_fm_sup false) (md_lfmtl m)).
  assert (H0 : half_aligned l0 [] l0).
  { exists l0, []. split_and!; try done; [by rewrite app_nil_r|].
    subst l0. apply Forall_map, Forall_true. done. }
  pose proof (align_loop_offer l0 (md_rfmtl m) [] l0 H0) as H. pose proof (align_loop_meets (md_rfmtl m) l0) as Hmeets.
  destruct (align_loop true l0 (md_rfmtl m)) as [l r].
  destruct H as [(N & T & -> & HN & HT & Hsub & Hids & Hpt & Hperm) Hdesc]. cbn zeta. rewrite sink_loop_run by done.
  exists (N ++ T). split; [done|].
  assert (Hneg : Forall (λ f, ¬ ¬ is_sup f) T) by (eapply Forall_impl; [|exact HT]; tauto).
  rewrite !list.filter_app, (filter_none _ N), (filter_all _ T), (filter_all _ N), (filter_none _ T), app_nil_r by done. cbn [Datatypes.app].
  split_and!; try done.
  - by rewrite reverse_involutive.
  - cbn [md_lfmtl set_md_rfmtl set_md_lfmtl]. rewrite (reverse_Permutation N), Permutation_app_comm, Hperm.
    subst l0. rewrite map_map. done.
Qed.

(** A line that offers PCMU, telephone events and opus, and meets opus and PCMU. *)
Definition demo_format (id name : string) (srate : Z) : sdp_format :=
  let id := bytes_of id in
  SdpFormat (Some id) None (Some (bytes_of name)) None 0 false false (atoi id) srate 1.

Definition demo_line : sdp_media :=
  set_md_raddr (SockAddr (Some (bytes_of "10.0.0.2")) 4000 false)
    (set_md_rfmtl [demo_format "111" "OPUS" 48000; demo_format "0" "PCMU" 8000]
      (set_md_lfmtl [demo_format "0" "PCMU" 8000; demo_format "101" "telephone-event" 8000; demo_format "96" "opus" 48000] media_new)).

Example demo_aligned :
  map (λ f, (fm_id f, fm_pt f, fm_sup f)) (md_lfmtl (sdp_media_align_formats demo_line true)) =
    [(Some (bytes_of "111"), 111, true); (Some (bytes_of "0"), 0, true); (Some (bytes_of "101"), 101, false)].
Proof. vm_compute. reflexivity. Qed.

Lemma sdp_media_align_offer_witness :
  md_disabled demo_line = false ∧ sa_port (md_raddr demo_line) = 4000 ∧
  ∃ cur, meets (map (set_fm_sup false) (md_lfmtl demo_line)) (md_rfmtl demo_line) cur (md_rfmtl (sdp_media_align_formats demo_line true)) ∧
    md_lfmtl (sdp_media_align_formats demo_line true) = filter is_sup cur ++ reverse (filter (λ f, ¬ is_sup f) cur) ∧
    map fm_id (filter is_sup cur) = [Some (bytes_of "111"); Some (bytes_of "0")].
Proof.
  split; [reflexivity|]. split; [reflexivity|].
  destruct (sdp_media_align_offer demo_line) as (cur & H1 & H2 & _); [reflexivity|discriminate|].
  exists cur. split; [exact H1|]. split; [exact H2|].
  assert (Hs : filter is_sup (md_lfmtl (sdp_media_align_formats demo_line true)) = filter is_sup cur).
  { rewrite H2, list.filter_app. rewrite (filter_all _ (filter is_sup cur)) by apply filter_keeps.
    rewrite (filter_none is_sup (reverse _)); [by rewrite app_nil_r|]. apply Forall_reverse, (filter_keeps (λ f, ¬ is_sup f)). }
  rewrite <- Hs. vm_compute. reflexivity.
Defined.
