(* ===== verification/SdpMsg.v ===== *)
(** * Session descriptions: sessions and their text
    (src/re/src/sdp/session.c, msg.c)

    [sdp_decode] takes the text of an offer or an answer into a session, line by
    line; [sdp_encode] prints one.  The media line that is being read is a place in
    [ss_medial], which only grows while a text is read. *)
From stdpp Require Import base tactics list numbers strings option.
From S2P Require Import Prelude Mbuf Fmt Print MbufPrint Regex Uri Sip Reply SdpMedia.

Definition ENOTSUP : Z := 95.
Definition SDP_VERSION : Z := 0.

(** ** session.c *)

Record sdp_session := SdpSession {
  ss_lmedial : list sdp_media;
  ss_medial : list sdp_media;
  ss_lattrl : list sdp_attr;
  ss_rattrl : list sdp_attr;
  ss_laddr : sockaddr;
  ss_raddr : sockaddr;
  ss_lbwv : list Z;
  ss_rbwv : list Z;
  ss_id : Z;
  ss_ver : Z;
  ss_rdir : Z
}.

#[export] Instance eta_sdp_session : Eta sdp_session := λ s,
  SdpSession (ss_lmedial s) (ss_medial s) (ss_lattrl s) (ss_rattrl s) (ss_laddr s) (ss_raddr s) (ss_lbwv s) (ss_rbwv s) (ss_id s) (ss_ver s)
    (ss_rdir s).

Definition set_ss_lmedial : list sdp_media → sdp_session → sdp_session := ltac:(setter ss_lmedial).
Definition set_ss_medial : list sdp_media → sdp_session → sdp_session := ltac:(setter ss_medial).
Definition set_ss_lattrl : list sdp_attr → sdp_session → sdp_session := ltac:(setter ss_lattrl).
Definition set_ss_rattrl : list sdp_attr → sdp_session → sdp_session := ltac:(setter ss_rattrl).
Definition set_ss_laddr : sockaddr → sdp_session → sdp_session := ltac:(setter ss_laddr).
Definition set_ss_raddr : sockaddr → sdp_session → sdp_session := ltac:(setter ss_raddr).
Definition set_ss_lbwv : list Z → sdp_session → sdp_session := ltac:(setter ss_lbwv).
Definition set_ss_rbwv : list Z → sdp_session → sdp_session := ltac:(setter ss_rbwv).
Definition set_ss_ver : Z → sdp_session → sdp_session := ltac:(setter ss_ver).
Definition set_ss_rdir : Z → sdp_session → sdp_session := ltac:(setter ss_rdir).

(** [r1] and [r2] are the random numbers it draws. *)
Definition sdp_session_alloc (mem : bool) (r1 r2 : Z) (laddr : option sockaddr) : Z * option sdp_session :=
  match laddr with
  | None => (EINVAL, None)
  | Some laddr =>
      if negb mem then (ENOMEM, None)
      else (0, Some (SdpSession [] [] [] [] laddr sa_init4 no_bandwidth no_bandwidth (u32 r1) (Z.land (u32 r2) 2147483647) SDP_SENDRECV))
  end.

Definition sdp_session_rreset (sess : sdp_session) : sdp_session :=
  set_ss_rbwv no_bandwidth (set_ss_rdir SDP_SENDRECV (set_ss_rattrl [] (set_ss_raddr sa_init4 sess))).

Definition sdp_session_set_laddr (sess : sdp_session) (laddr : option sockaddr) : sdp_session :=
  match laddr with Some laddr => set_ss_laddr laddr sess | None => sess end.

Definition sdp_session_set_lbandwidth (sess : sdp_session) (type bw : Z) : sdp_session :=
  if bool_decide (SDP_BANDWIDTH_MAX ≤ type) then sess else set_ss_lbwv (<[Z.to_nat type := bw]> (ss_lbwv sess)) sess.

Definition sdp_session_set_lattr (A : allocator) (mem : bool) (sess : sdp_session) (replace : bool) (name : cstring)
    (value : option (list Z * list varg)) : outcome (Z * sdp_session) :=
  match name with
  | None => Ret (EINVAL, sess)
  | Some _ =>
      q ← sdp_attr_addv A mem (if replace then sdp_attr_del (ss_lattrl sess) name else ss_lattrl sess) name value;
      Ret (fst q, set_ss_lattrl (snd q) sess)
  end.

Definition sdp_session_del_lattr (sess : sdp_session) (name : cstring) : sdp_session :=
  match name with Some _ => set_ss_lattrl (sdp_attr_del (ss_lattrl sess) name) sess | None => sess end.

Definition sdp_session_rbandwidth (sess : option sdp_session) (type : Z) : outcome Z :=
  match sess with
  | None => Ret 0
  | Some sess => if bool_decide (SDP_BANDWIDTH_MAX ≤ type) then Ret 0 else of_option OutOfBounds (ss_rbwv sess !! Z.to_nat type)
  end.

Definition sdp_session_rattr (sess : sdp_session) (name : cstring) : cstring :=
  match name with Some _ => fst (sdp_attr_apply (ss_rattrl sess) name None tt) | None => None end.
Definition sdp_session_rattr_apply {S} (sess : sdp_session) (name : cstring) (attrh : option (cstring → list Z → S → bool * S)) (s : S) :
    cstring * S := sdp_attr_apply (ss_rattrl sess) name attrh s.
Definition sdp_session_medial (sess : sdp_session) (local : bool) : list sdp_media := if local then ss_lmedial sess else ss_medial sess.

(** ** media.c: the lines of a session *)

(** The new line is the last of the local ones.  A line whose names cannot be
    allocated is not unlinked: its destructor leaves it there, disabled. *)
Definition sdp_media_add (A : allocator) (mem : bool) (sess : sdp_session) (name : cstring) (port : Z) (proto : cstring) : Z * sdp_session :=
  match name, proto with
  | Some _, Some _ =>
      if negb mem then (ENOMEM, sess)
      else
        let n := str_dup A name in
        let p := str_dup A proto in
        let err := Z.lor (fst n) (fst p) in
        let m := set_md_names (snd n) (snd p) media_new in
        let m := if bool_decide (err ≠ 0) then media_destructor m else sdp_media_set_lport m port in
        (err, set_ss_lmedial (ss_lmedial sess ++ [m]) sess)
  | _, _ => (EINVAL, sess)
  end.

(** The new line is the last of the session. *)
Definition sdp_media_radd (A : allocator) (mem : bool) (sess : sdp_session) (name proto : pl) : outcome (Z * sdp_session) :=
  if negb mem then Ret (ENOMEM, sess)
  else
    n ← strdup_c A name;
    p ← strdup_c A proto;
    let err := Z.lor (fst n) (fst p) in
    let m := set_md_names (snd n) (snd p) (set_md_disabled true media_new) in
    Ret (err, set_ss_medial (ss_medial sess ++ [if bool_decide (err ≠ 0) then media_destructor m else m]) sess).

(** The place of the first local line with these names. *)
Fixpoint find_media (lst : list sdp_media) (name proto : pl) : outcome (option nat) :=
  match lst with
  | [] => Ret None
  | m :: lst =>
      e1 ← pl_strcmp name (md_name m);
      e2 ← (if bool_decide (e1 = 0) then pl_strcmp proto (md_proto m) else Ret EINVAL);
      if bool_decide (e2 = 0) then Ret (Some O) else r ← find_media lst name proto; Ret (option_map S r)
  end.

Definition sdp_media_find (sess : sdp_session) (name proto : pl) : outcome (option nat) := find_media (ss_lmedial sess) name proto.

(** ** msg.c: reading *)

Section decode.
Context (A : allocator).
(** The address a text denotes ([net_inet_pton]); which attributes, formats and
    lines can be allocated, by the text they come from. *)
Variable sa_set : list Z → option sockaddr.
Variables att_mem fmt_mem med_mem : pl → bool.

(** [sa_set] of sa.c: the address is copied to 64 bytes; nothing is stored when
    it is not one. *)
Definition sa_set_pl (sa : sockaddr) (p : pl) (port : Z) : outcome sockaddr :=
  q ← pl_strcpy p 64;
  Ret (match sa_set (c_string (snd q)) with Some a => SockAddr (sa_text a) (u16 port) (sa_v6 a) | None => sa end).

Definition attr_decode_fmtp (m : option sdp_media) (p : pl) : outcome (Z * option sdp_media) :=
  match m with
  | None => Ret (0, None)
  | Some m =>
      q ← re_regex p (bytes_of "[^ ]+ [^]*") 2;
      let '(err, caps) := q in
      if bool_decide (err ≠ 0) then Ret (EBADMSG, Some m)
      else
        id ← result caps 0;
        params ← result caps 1;
        i ← sdp_format_find (md_rfmtl m) id;
        match i with
        | None => Ret (0, Some m)
        | Some i =>
            q ← strdup_c A params;
            Ret (fst q, Some (set_md_rfmtl (alter (set_fm_params (snd q)) i (md_rfmtl m)) m))
        end
  end.

Definition attr_decode_rtcp (m : option sdp_media) (p : pl) : outcome (Z * option sdp_media) :=
  match m with
  | None => Ret (0, None)
  | Some m =>
      q ← re_regex p (bytes_of "[0-9]+ IN IP[46]1 [^ ]+") 3;
      if bool_decide (fst q = 0) then
        port ← result (snd q) 0;
        addr ← result (snd q) 2;
        n ← pl_u32 port;
        sa ← sa_set_pl (md_raddr_rtcp m) addr n;
        Ret (0, Some (set_md_raddr_rtcp sa m))
      else
        q ← re_regex p (bytes_of "[0-9]+") 1;
        if bool_decide (fst q = 0) then
          port ← result (snd q) 0;
          n ← pl_u32 port;
          Ret (0, Some (set_md_raddr_rtcp (sa_set_port (md_raddr_rtcp m) n) m))
        else Ret (EBADMSG, Some m)
  end.

Definition attr_decode_rtpmap (m : option sdp_media) (p : pl) : outcome (Z * option sdp_media) :=
  match m with
  | None => Ret (0, None)
  | Some m =>
      q ← re_regex p (bytes_of "[^ ]+ [^/]+/[0-9]+[/]*[^]*") 5;
      let '(err, caps) := q in
      if bool_decide (err ≠ 0) then Ret (EBADMSG, Some m)
      else
        id ← result caps 0;
        name ← result caps 1;
        srate ← result caps 2;
        ch ← result caps 4;
        i ← sdp_format_find (md_rfmtl m) id;
        match i with
        | None => Ret (0, Some m)
        | Some i =>
            q ← strdup_c A name;
            if bool_decide (fst q ≠ 0) then Ret (fst q, Some (set_md_rfmtl (alter (set_fm_name None) i (md_rfmtl m)) m))
            else
              r ← pl_u32 srate;
              c ← (if bool_decide (pl_l ch = 0) then Ret 1 else pl_u32 ch);
              Ret (0, Some (set_md_rfmtl (alter (λ f, set_fm_ch (u8 c) (set_fm_srate r (set_fm_name (snd q) f))) i (md_rfmtl m)) m))
        end
  end.

(** The line [m] of the session, which an operation may change. *)
Definition line_of (sess : sdp_session) (m : option nat) : outcome (option sdp_media) :=
  match m with
  | None => Ret None
  | Some i => m ← of_option UseAfterFree (ss_medial sess !! i); Ret (Some m)
  end.

Definition set_line (m : option nat) (l : option sdp_media) (sess : sdp_session) : sdp_session :=
  match m, l with Some i, Some l => set_ss_medial (<[i := l]> (ss_medial sess)) sess | _, _ => sess end.

Definition has_name (p : pl) (s : string) : outcome bool := e ← pl_strcmp p (Some (bytes_of s)); Ret (bool_decide (e = 0)).

(** [*dir = d], for the line or the session. *)
Definition set_dir (m : option nat) (l : option sdp_media) (d : Z) (sess : sdp_session) : sdp_session :=
  match l with Some l => set_line m (Some (set_md_rdir d l)) sess | None => set_ss_rdir d sess end.

Definition attr_decode (sess : sdp_session) (m : option nat) (p : pl) : outcome (Z * sdp_session) :=
  q ← re_regex p (bytes_of "[^:]+:[^]+") 2;
  nv ← (if bool_decide (fst q ≠ 0) then Ret (p, pl_null)
        else name ← result (snd q) 0; val ← result (snd q) 1; Ret (name, val));
  let '(name, val) := nv in
  l ← line_of sess m;
  let done (r : Z * option sdp_media) := Ret (fst r, set_line m (snd r) sess) in
  b ← has_name name "fmtp";
  if b : bool then r ← attr_decode_fmtp l val; done r
  else
    b ← has_name name "inactive";
    if b : bool then Ret (0, set_dir m l SDP_INACTIVE sess)
    else
      b ← has_name name "recvonly";
      if b : bool then Ret (0, set_dir m l SDP_SENDONLY sess)
      else
        b ← has_name name "rtcp";
        if b : bool then r ← attr_decode_rtcp l val; done r
        else
          b ← has_name name "rtpmap";
          if b : bool then r ← attr_decode_rtpmap l val; done r
          else
            b ← has_name name "sendonly";
            if b : bool then Ret (0, set_dir m l SDP_RECVONLY sess)
            else
              b ← has_name name "sendrecv";
              if b : bool then Ret (0, set_dir m l SDP_SENDRECV sess)
              else
                r ← sdp_attr_add A (att_mem name) (match l with Some l => md_rattrl l | None => ss_rattrl sess end) name val;
                Ret (fst r, match l with
                            | Some l => set_line m (Some (set_md_rattrl (snd r) l)) sess
                            | None => set_ss_rattrl (snd r) sess
                            end).

Definition bandwidth_decode (bwv : list Z) (p : pl) : outcome (Z * list Z) :=
  q ← re_regex p (bytes_of "[^:]+:[0-9]+") 2;
  let '(err, caps) := q in
  if bool_decide (err ≠ 0) then Ret (EBADMSG, bwv)
  else
    type ← result caps 0;
    bw ← result caps 1;
    let store (i : Z) := n ← pl_u32 bw; Ret (0, <[Z.to_nat i := s32 n]> bwv) in
    b ← has_name type "CT";
    if b : bool then store SDP_BANDWIDTH_CT
    else
      b ← has_name type "AS";
      if b : bool then store SDP_BANDWIDTH_AS
      else
        b ← has_name type "RS";
        if b : bool then store SDP_BANDWIDTH_RS
        else
          b ← has_name type "RR";
          if b : bool then store SDP_BANDWIDTH_RR
          else
            b ← has_name type "TIAS";
            if b : bool then store SDP_BANDWIDTH_TIAS else Ret (0, bwv).

Definition conn_decode (sa : sockaddr) (p : pl) : outcome (Z * sockaddr) :=
  q ← re_regex p (bytes_of "IN IP[46]1 [^ ]+") 2;
  let '(err, caps) := q in
  if bool_decide (err ≠ 0) then Ret (EBADMSG, sa)
  else v ← result caps 1; sa ← sa_set_pl sa v (sa_port sa); Ret (0, sa).

(** The formats of a media line; [fuel] is more than the bytes there are. *)
Fixpoint formats_loop (fuel : nat) (m : sdp_media) (fmtv : pl) : outcome (Z * sdp_media) :=
  match fuel with
  | O => Fault NoFuel
  | S fuel =>
      q ← re_regex fmtv (bytes_of " [^ ]+") 1;
      let '(err, caps) := q in
      if bool_decide (err ≠ 0) then Ret (0, m)
      else
        fmt ← result caps 0;
        q ← sdp_format_radd A (fmt_mem fmt) m fmt;
        if bool_decide (fst q ≠ 0) then Ret q
        else formats_loop fuel (snd q) (pl_advance fmtv (offset (default [] (pl_p fmtv)) fmt + pl_l fmt))
  end.

(** The line that an [m=] line stands for: the next one of the session, or, in an
    offer, a local line of these names or a new one, which then is the last. *)
Definition media_line (sess : sdp_session) (offer : bool) (next : nat) (name proto : pl) : outcome (Z * sdp_session) :=
  match ss_medial sess !! next with
  | None =>
      if negb offer then Ret (EPROTO, sess)
      else
        j ← sdp_media_find sess name proto;
        match j with
        | None => sdp_media_radd A (med_mem name) sess name proto
        | Some j =>
            m ← of_option UseAfterFree (ss_lmedial sess !! j);
            Ret (0, set_ss_medial (ss_medial sess ++ [m]) (set_ss_lmedial (delete j (ss_lmedial sess)) sess))
        end
  | Some m =>
      e ← pl_strcmp name (md_name m);
      if bool_decide (e ≠ 0) then Ret (if offer then ENOTSUP else EPROTO, sess)
      else e ← pl_strcmp proto (md_proto m); Ret (if bool_decide (e ≠ 0) then ENOTSUP else 0, sess)
  end.

(** [m] is the line before, [*mp]; the new [*mp] is returned. *)
Definition media_decode (m : option nat) (sess : sdp_session) (offer : bool) (p : pl) : outcome (Z * option nat * sdp_session) :=
  q ← re_regex p (bytes_of "[a-z]+ [^ ]+ [^ ]+[^]*") 4;
  let '(err, caps) := q in
  if bool_decide (err ≠ 0) then Ret (EBADMSG, m, sess)
  else
    name ← result caps 0;
    port ← result caps 1;
    proto ← result caps 2;
    fmtv ← result caps 3;
    let next := match m with Some i => S i | None => O end in
    q ← media_line sess offer next name proto;
    let '(err, sess) := q in
    if bool_decide (err ≠ 0) then Ret (err, m, sess)
    else
      l ← of_option UseAfterFree (ss_medial sess !! next);
      q ← formats_loop (S (Z.to_nat (pl_l fmtv))) l fmtv;
      let '(err, l) := q in
      if bool_decide (err ≠ 0) then Ret (err, m, set_line (Some next) (Some l) sess)
      else
        n ← pl_u32 port;
        let l := set_md_rdir (ss_rdir sess) (set_md_raddr (sa_set_port (ss_raddr sess) n) l) in
        Ret (0, Some next, set_line (Some next) (Some l) sess).

Definition version_decode (p : pl) : outcome Z :=
  b ← has_name p "0"; Ret (if b : bool then 0 else ENOSYS).

(** The inner [switch] of [sdp_decode], at the end of a line. *)
Definition line_decode (offer : bool) (type : Z) (val : pl) (m : option nat) (sess : sdp_session) : outcome (Z * option nat * sdp_session) :=
  if bool_decide (type = chr "a") then r ← attr_decode sess m val; Ret (fst r, m, snd r)
  else if bool_decide (type = chr "b") then
    l ← line_of sess m;
    match l with
    | Some l => r ← bandwidth_decode (md_rbwv l) val; Ret (fst r, m, set_line m (Some (set_md_rbwv (snd r) l)) sess)
    | None => r ← bandwidth_decode (ss_rbwv sess) val; Ret (fst r, m, set_ss_rbwv (snd r) sess)
    end
  else if bool_decide (type = chr "c") then
    l ← line_of sess m;
    match l with
    | Some l => r ← conn_decode (md_raddr l) val; Ret (fst r, m, set_line m (Some (set_md_raddr (snd r) l)) sess)
    | None => r ← conn_decode (ss_raddr sess) val; Ret (fst r, m, set_ss_raddr (snd r) sess)
    end
  else if bool_decide (type = chr "m") then media_decode m sess offer val
  else if bool_decide (type = chr "v") then e ← version_decode val; Ret (e, m, sess)
  else Ret (0, m, sess).

(** The [for] loop of [sdp_decode], over the bytes that are left; [rest] is what
    lies behind them.  [type] is 0 between lines. *)
Fixpoint decode_loop (offer : bool) (rest : list Z) (l : list Z) (type : Z) (val : pl) (m : option nat) (sess : sdp_session) :
    outcome (Z * Z * sdp_session) :=
  match l with
  | [] => Ret (0, type, sess)
  | c :: l1 =>
      if bool_decide (c = 13) || bool_decide (c = 10) then
        if bool_decide (type = 0) then decode_loop offer rest l1 0 val m sess
        else
          q ← line_decode offer type val m sess;
          let '(err, m, sess) := q in
          if bool_decide (err ≠ 0) then Ret (err, 0, sess) else decode_loop offer rest l1 0 val m sess
      else if bool_decide (type ≠ 0) then decode_loop offer rest l1 type (Pl (pl_p val) (pl_l val + 1)) m sess
      else
        match l1 with
        | [] => Ret (EBADMSG, type, sess)
        | c2 :: l2 =>
            if bool_decide (c2 = chr "=") then decode_loop offer rest l2 c (Pl (Some (l2 ++ rest)) 0) m sess
            else Ret (EBADMSG, type, sess)
        end
  end.

Definition sdp_decode (sess : sdp_session) (mb : option mbuf) (offer : bool) : outcome (Z * sdp_session) :=
  match mb with
  | None => Ret (EINVAL, sess)
  | Some mb =>
      let sess := sdp_session_rreset sess in
      let sess := set_ss_medial (map sdp_media_rreset (ss_medial sess)) sess in
      let p := pl_set_mbuf mb in
      bs ← memcpy_from (pl_p p) 0 (pl_l p);
      q ← decode_loop offer (drop (length bs) (default [] (pl_p p))) bs 0 pl_null None sess;
      let '(err, type, sess) := q in
      if bool_decide (err ≠ 0) then Ret (err, sess)
      else if bool_decide (type ≠ 0) then Ret (EBADMSG, sess)
      else Ret (0, set_ss_medial (map (λ m, sdp_media_align_formats m offer) (ss_medial sess)) sess)
  end.
End decode.

(** ** msg.c: printing *)

Section encode.
Context (A : allocator).

Definition is_set (s : cstring) : bool := match s with Some (_ :: _) => true | _ => false end.

(** A socket address without text has no family, so not AF_INET. *)
Definition ipver (sa : sockaddr) : Z := if sa_v6 sa || bool_decide (sa_text sa = None) then 6 else 4.

(** [mbuf_write_str]. *)
Definition mbuf_puts (bs : list Z) : prog mbuf Z := λ mb, mbuf_write_mem A mb (Some bs).

(** The bits of the errors of a sequence of prints, none of which stops it. *)
Fixpoint all_of {X} (f : X → prog mbuf Z) (xs : list X) : prog mbuf Z :=
  match xs with
  | [] => mret 0
  | x :: xs => e1 ← f x; e2 ← all_of f xs; mret (Z.lor e1 e2)
  end.

Definition bandwidth_encode (x : Z * Z) : prog mbuf Z :=
  if bool_decide (snd x < 0) then mret 0
  else mbuf_printf A (bytes_of "b=%s:%i" ++ crlf) [VStr (Some (sdp_bandwidth_name (fst x))); VInt (snd x)].

(** The bandwidths with their types, from SDP_BANDWIDTH_MIN. *)
Definition typed (bwv : list Z) : list (Z * Z) := imap (λ i bw, (Z.of_nat i, bw)) bwv.

Definition rtpmap_encode (fmt : sdp_format) : prog mbuf Z :=
  if negb (fm_sup fmt) || negb (is_set (fm_name fmt)) then mret 0
  else
    e1 ← mbuf_printf A (bytes_of "a=rtpmap:%s %s/%u") [VStr (fm_id fmt); VStr (fm_name fmt); VInt (fm_srate fmt)];
    e2 ← (if bool_decide (fm_ch fmt > 1) then mbuf_printf A (bytes_of "/%u") [VInt (fm_ch fmt)] else mret 0);
    e3 ← mbuf_printf A crlf [];
    e4 ← (if is_set (fm_params fmt) then
            mbuf_printf A (bytes_of "a=fmtp:%s %s" ++ crlf) [VStr (fm_id fmt); VStr (fm_params fmt)]
          else mret 0);
    mret (Z.lor (Z.lor (Z.lor e1 e2) e3) e4).

Definition media_encode (offer : bool) (m : sdp_media) : prog mbuf Z :=
  let supc := length (filter is_sup (md_lfmtl m)) in
  let disabled := md_disabled m || bool_decide (supc = O) || (negb offer && bool_decide (sa_port (md_raddr m) = 0)) in
  let port := if disabled then 0 else sa_port (md_laddr m) in
  e1 ← mbuf_printf A (bytes_of "m=%s %u %s") [VStr (md_name m); VInt port; VStr (md_proto m)];
  if disabled then e2 ← mbuf_puts (bytes_of " 0" ++ crlf); mret (Z.lor e1 e2)
  else
    e2 ← all_of (λ fmt, if negb (fm_sup fmt) then mret 0 else mbuf_printf A (bytes_of " %s") [VStr (fm_id fmt)]) (md_lfmtl m);
    e3 ← mbuf_puts crlf;
    e4 ← (if sa_isset_addr (md_laddr m) then
            mbuf_printf A (bytes_of "c=IN IP%d %j" ++ crlf) [VInt (ipver (md_laddr m)); VSa (Some (md_laddr m))]
          else mret 0);
    e5 ← all_of bandwidth_encode (typed (md_lbwv m));
    e6 ← all_of rtpmap_encode (md_lfmtl m);
    e7 ← (if sa_isset_addr (md_laddr_rtcp m) && sa_isset_port (md_laddr_rtcp m) then
            mbuf_printf A (bytes_of "a=rtcp:%u IN IP%d %j" ++ crlf)
              [VInt (sa_port (md_laddr_rtcp m)); VInt (ipver (md_laddr_rtcp m)); VSa (Some (md_laddr_rtcp m))]
          else if sa_isset_port (md_laddr_rtcp m) then
            mbuf_printf A (bytes_of "a=rtcp:%u" ++ crlf) [VInt (sa_port (md_laddr_rtcp m))]
          else mret 0);
    e8 ← mbuf_printf A (bytes_of "a=%s" ++ crlf)
           [VStr (Some (sdp_dir_name (if offer then md_ldir m else Z.land (md_ldir m) (md_rdir m))))];
    e9 ← all_of (sdp_attr_print A) (md_lattrl m);
    mret (Z.lor (Z.lor (Z.lor (Z.lor (Z.lor (Z.lor (Z.lor (Z.lor e1 e2) e3) e4) e5) e6) e7) e8) e9).

(** In an offer the enabled local lines become lines of the session. *)
Definition offer_lines (offer : bool) (sess : sdp_session) : sdp_session :=
  if offer then
    set_ss_medial (ss_medial sess ++ filter (λ m, md_disabled m = false) (ss_lmedial sess))
      (set_ss_lmedial (filter (λ m, md_disabled m = true) (ss_lmedial sess)) sess)
  else sess.

Definition session_encode (offer : bool) (sess : sdp_session) : prog mbuf Z :=
  let laddr := ss_laddr sess in
  e1 ← mbuf_printf A (bytes_of "v=%u" ++ crlf) [VInt SDP_VERSION];
  e2 ← mbuf_printf A (bytes_of "o=- %u %u IN IP%d %j" ++ crlf)
         [VInt (ss_id sess); VInt (ss_ver sess); VInt (ipver laddr); VSa (Some laddr)];
  e3 ← mbuf_puts (bytes_of "s=-" ++ crlf);
  e4 ← mbuf_printf A (bytes_of "c=IN IP%d %j" ++ crlf) [VInt (ipver laddr); VSa (Some laddr)];
  e5 ← all_of bandwidth_encode (typed (ss_lbwv sess));
  e6 ← mbuf_puts (bytes_of "t=0 0" ++ crlf);
  e7 ← all_of (sdp_attr_print A) (ss_lattrl sess);
  e8 ← all_of (media_encode offer) (ss_medial (offer_lines offer sess));
  mret (Z.lor (Z.lor (Z.lor (Z.lor (Z.lor (Z.lor (Z.lor e1 e2) e3) e4) e5) e6) e7) e8).

(** The buffer of the text, and the session afterwards. *)
Definition sdp_encode (sess : sdp_session) (offer : bool) : outcome (Z * option mbuf * sdp_session) :=
  match mbuf_alloc A 512 with
  | None => Ret (ENOMEM, None, sess)
  | Some mb =>
      q ← session_encode offer sess mb;
      let '(err, mb) := q in
      Ret (err, if bool_decide (err = 0) then Some (mbuf_set_pos mb 0) else None,
        set_ss_ver (u32 (ss_ver sess + 1)) (offer_lines offer sess))
  end.
End encode.
