(* ===== verification/SdpSafe.v ===== *)
(** * Memory safety of the SDP decoder

    Whatever bytes a peer sends, [sdp_decode] returns: every line is read inside
    the buffer, the formats of a media line are read in finitely many steps, and a
    line of the session is only used while it is one.  An answer adds no line. *)
From stdpp Require Import base tactics list numbers strings option.
From S2P Require Import Prelude Mbuf Fmt Print MbufPrint Regex Uri Sip SipSafe Reply SdpMedia SdpMsg.

(** ** The formats of a media line *)

Definition format_items : list item := [Lit 32; Class true [One 32] (chr "+")].

Lemma tolower_space b : tolower 32 = tolower b → b = 32.
Proof. change (tolower 32) with 32. unfold tolower. case_bool_decide; lia. Qed.

Lemma greedy_format bs parts : greedy format_items bs = Matched parts →
  ∃ u v, bs = 32 :: u ++ v ∧ u ≠ [] ∧ parts = [(u, v)].
Proof.
  unfold format_items. destruct bs as [|b bs]; [done|]. cbn [greedy]. case_bool_decide as Hb; [|done].
  destruct (default (0, 0) (quantifier (chr "+"))) as [nmin nmax] eqn:Eq.
  assert (nmin = 1) as -> by (vm_compute in Eq; congruence). set (n := run_of _ _ bs). intros E.
  assert (b = 32) as -> by by apply tolower_space.
  revert E. case_bool_decide as Hn; [done|]. intros [= <-].
  exists (take n bs), (drop n bs). rewrite take_drop. split; [done|]. split; [|done].
  assert (n ≤ length bs)%nat by apply run_of_le. intros H0%(f_equal length). rewrite length_take in H0. simpl in H0. lia.
Qed.

Lemma search_format bs parts : search format_items bs = Some parts →
  ∃ pre u v, bs = pre ++ 32 :: u ++ v ∧ u ≠ [] ∧ parts = [(u, v)].
Proof.
  induction bs as [|b bs IH]; [done|]. change (search format_items (b :: bs)) with
    (match greedy format_items (b :: bs) with Matched parts => Some parts | Mismatch => search format_items bs | Exhausted => None end).
  destruct (greedy format_items (b :: bs)) eqn:E; [|intros H; destruct (IH H) as (pre & u & v & -> & Hu & ->); by exists (b :: pre), u, v|done].
  intros [= <-]. apply greedy_format in E as (u & v & -> & Hu & ->). by exists [], u, v.
Qed.

Lemma format_regex bs rest :
  (∃ caps err, re_regex (Pl (Some (bs ++ rest)) (Z.of_nat (length bs))) (bytes_of " [^ ]+") 1 = Ret (err, caps) ∧ err ≠ 0 ∧
     search format_items bs = None) ∨
  ∃ pre u v, bs = pre ++ 32 :: u ++ v ∧ u ≠ [] ∧ search format_items bs = Some [(u, v)] ∧
    re_regex (Pl (Some (bs ++ rest)) (Z.of_nat (length bs))) (bytes_of " [^ ]+") 1 =
      Ret (0, [Some (Pl (Some (u ++ v ++ rest)) (Z.of_nat (length u)))]).
Proof.
  destruct (search format_items bs) as [parts|] eqn:E.
  - right. pose proof (regex_some format_items bs rest parts ltac:(done) eq_refl E) as H.
    change (expr_of format_items) with (bytes_of " [^ ]+") in H. change (classes format_items) with 1%nat in H.
    destruct (search_format _ _ E) as (pre & u & v & -> & Hu & ->). exists pre, u, v. auto.
  - left. destruct (regex_none format_items bs rest ltac:(done) eq_refl E) as [caps H].
    change (expr_of format_items) with (bytes_of " [^ ]+") in H. change (classes format_items) with 1%nat in H.
    exists caps, ENOENT. split; [done|]. done.
Qed.

(** The pointer behind a format. *)
Lemma advance_format pre u v rest :
  let fmtv := Pl (Some ((pre ++ 32 :: u ++ v) ++ rest)) (Z.of_nat (length (pre ++ 32 :: u ++ v))) in
  let fmt := Pl (Some (u ++ v ++ rest)) (Z.of_nat (length u)) in
  pl_advance fmtv (offset (default [] (pl_p fmtv)) fmt + pl_l fmt) = Pl (Some (v ++ rest)) (Z.of_nat (length v)).
Proof.
  cbn zeta. unfold pl_advance, offset. cbn [pl_p pl_l default id from_option fmap option_fmap option_map].
  replace ((pre ++ 32 :: u ++ v) ++ rest) with ((pre ++ 32 :: u) ++ v ++ rest) by (by rewrite <- !app_assoc; cbn; rewrite <- app_assoc).
  assert (E : Z.of_nat (length ((pre ++ 32 :: u) ++ v ++ rest)) - Z.of_nat (length (u ++ v ++ rest)) + Z.of_nat (length u) =
    Z.of_nat (length (pre ++ 32 :: u))) by (rewrite !length_app; cbn; rewrite ?length_app; lia).
  rewrite E, Nat2Z.id, drop_app_length. f_equal. rewrite !length_app. cbn. rewrite !length_app. lia.
Qed.

(** ** What reading a text does to a session

    The local side stays; lines are only added, and only by an offer. *)
Definition advances (offer : bool) (s s' : sdp_session) : Prop :=
  (ss_lattrl s', ss_laddr s', ss_lbwv s', ss_id s', ss_ver s') = (ss_lattrl s, ss_laddr s, ss_lbwv s, ss_id s, ss_ver s) ∧
  (length (ss_medial s) ≤ length (ss_medial s'))%nat ∧
  (offer = false → length (ss_medial s') = length (ss_medial s) ∧ ss_lmedial s' = ss_lmedial s).

#[export] Instance advances_refl offer : Reflexive (advances offer).
Proof. intros s. split_and!; auto. Qed.
#[export] Instance advances_trans offer : Transitive (advances offer).
Proof.
  intros s1 s2 s3 (E1 & L1 & O1) (E2 & L2 & O2). split; [congruence|]. split; [lia|]. intros Ho.
  destruct (O1 Ho), (O2 Ho). split; congruence.
Qed.

(** The line that is being read is one of the session. *)
Definition cursor (m : option nat) (s : sdp_session) : Prop := match m with Some i => (i < length (ss_medial s))%nat | None => True end.

Lemma cursor_advances offer m s s' : cursor m s → advances offer s s' → cursor m s'.
Proof. intros Hc (_ & Hl & _). destruct m; [|done]. cbn in *. lia. Qed.

Lemma set_line_advances offer m l s : advances offer s (set_line m l s).
Proof. destruct m, l; try done. split_and!; cbn; rewrite ?length_insert; auto. Qed.

Lemma set_dir_advances offer m l d s : advances offer s (set_dir m l d s).
Proof. destruct l; [apply set_line_advances|]. split_and!; auto. Qed.

Lemma line_of_run m s : cursor m s → ∃ l, line_of s m = Ret l ∧ (l = None ↔ m = None).
Proof.
  destruct m as [i|]; [|by exists None]. intros Hi. cbn in Hi |- *. apply lookup_lt_is_Some in Hi as [l ->]. by exists (Some l).
Qed.

Section safe.
Context (A : allocator) (sa_set : list Z → option sockaddr) (att_mem fmt_mem med_mem : pl → bool).

Lemma formats_loop_run rest : ∀ fuel bs m, (length bs < fuel)%nat →
  ∃ err m', formats_loop A fmt_mem fuel m (Pl (Some (bs ++ rest)) (Z.of_nat (length bs))) = Ret (err, m').
Proof.
  induction fuel as [|fuel IH]; intros bs m Hf; [lia|]. cbn [formats_loop].
  destruct (format_regex bs rest) as [(caps & err & -> & He & _)|(pre & u & v & E & Hu & _ & ->)]; cbn [mbind outcome_bind fst snd].
  { rewrite bool_decide_eq_true_2 by done. by eexists _, _. }
  cbn [bool_decide]. rewrite (bool_decide_eq_false_2 (0 ≠ 0)) by auto. unfold result. cbn [lookup list_lookup default of_option mbind outcome_bind].
  cbn [from_option id of_option mbind outcome_bind].
  unfold sdp_format_radd. destruct (negb (fmt_mem _)); [by eexists _, _|].
  assert (Hd : ∃ e s, strdup_c A (Pl (Some (u ++ v ++ rest)) (Z.of_nat (length u))) = Ret (e, s)).
  { unfold strdup_c, pl_strdup. cbn [pl_p pl_l]. destruct (alloc_ok A _); [|by eexists _, _]. rewrite pl_bytes_run. by eexists _, _. }
  destruct Hd as (e & s & ->). cbn [mbind outcome_bind]. destruct (bool_decide (e ≠ 0)) eqn:Ee; cbn [mbind outcome_bind fst snd].
  { rewrite Ee. by eexists _, _. }
  rewrite (bool_decide_eq_false_2 (0 ≠ 0)) by auto. subst bs. rewrite advance_format. apply IH.
  rewrite !length_app in Hf. cbn [length] in Hf. rewrite length_app in Hf. lia.
Qed.

Context (M : list Z) (lim : nat) (Hlim : (lim ≤ length M)%nat).
Local Abbreviation ptr := (pointer_in M lim).

Lemma null_ptr : ptr pl_null.
Proof. by right. Qed.

Lemma strdup_in p : ptr p → ∃ e s, strdup_c A p = Ret (e, s).
Proof using Hlim.
  intros Hp. unfold strdup_c, pl_strdup. destruct (pl_p p); [|by eexists _, _]. destruct (alloc_ok A _); [|by eexists _, _].
  destruct (pl_bytes_in M lim Hlim p Hp) as [bs ->]. by eexists _, _.
Qed.

Lemma strcmp_in p s : ptr p → ∃ e, pl_strcmp p s = Ret e.
Proof using Hlim. intros Hp. destruct s as [s|]; [by apply (pl_strcmp_in M lim Hlim)|by eexists]. Qed.

Lemma has_name_in p s : ptr p → ∃ b, has_name p s = Ret b.
Proof using Hlim. intros Hp. unfold has_name. destruct (strcmp_in p (Some (bytes_of s)) Hp) as [e ->]. by eexists. Qed.

Lemma sa_set_in sa p n : ptr p → ∃ sa', sa_set_pl sa_set sa p n = Ret sa'.
Proof using Hlim.
  intros Hp. unfold sa_set_pl, pl_strcpy. destruct Hp as [(k & n' & -> & Hk)| ->]; [|by eexists]. cbn [pl_p pl_l].
  rewrite bool_decide_eq_false_2 by done. rewrite memcpy_from_run by (rewrite ?length_drop; lia). by eexists.
Qed.

Lemma attr_add_in mem lst name val : ptr name → ptr val → ∃ r, sdp_attr_add A mem lst name val = Ret r.
Proof using Hlim.
  intros Hn Hv. unfold sdp_attr_add. destruct (negb mem); [by eexists|]. destruct (strdup_in name Hn) as (e & s & ->).
  cbn [mbind outcome_bind]. destruct (pl_isset val); [|by eexists]. destruct (strdup_in val Hv) as (e' & s' & ->). by eexists.
Qed.

Lemma format_find_in lst p : ptr p → ∃ r, sdp_format_find lst p = Ret r.
Proof using Hlim.
  intros Hp. induction lst as [|f lst [r IH]]; [by eexists|]. cbn [sdp_format_find]. destruct (strcmp_in p (fm_id f) Hp) as [e ->].
  cbn [mbind outcome_bind]. destruct (bool_decide _); [by eexists|]. rewrite IH. by eexists.
Qed.

Lemma find_media_in lst name proto : ptr name → ptr proto →
  ∃ r, find_media lst name proto = Ret r ∧ ∀ j, r = Some j → (j < length lst)%nat.
Proof using Hlim.
  intros Hn Hp. induction lst as [|m lst (r & IH & Hr)]; [by eexists|]. cbn [find_media].
  destruct (strcmp_in name (md_name m) Hn) as [e ->]. cbn [mbind outcome_bind].
  assert (H2 : ∃ e2, (if bool_decide (e = 0) then pl_strcmp proto (md_proto m) else Ret EINVAL) = Ret e2).
  { destruct (bool_decide _); [by apply strcmp_in|by eexists]. }
  destruct H2 as [e2 ->]. cbn [mbind outcome_bind]. destruct (bool_decide (e2 = 0)).
  - eexists. split; [done|]. intros j [= <-]. cbn. lia.
  - rewrite IH. cbn [mbind outcome_bind]. eexists. split; [done|]. intros j. destruct r as [i|]; [|done].
    intros [= <-]. specialize (Hr i eq_refl). cbn. lia.
Qed.

(** A search for a known expression. *)
Lemma matched p expr n c : ptr p → scan_expr expr = Some c → (c ≤ n)%nat →
  ∃ err caps, re_regex p expr n = Ret (err, caps) ∧ (err = 0 → ∀ j, (j < c)%nat → ∃ q, result caps j = Ret q ∧ ptr q).
Proof using Hlim.
  intros Hp Hs Hc. destruct (regex_in M lim Hlim p expr n c Hp Hs Hc) as (err & caps & E & _ & _ & H).
  exists err, caps. split; [done|]. intros He j Hj. destruct (proj2 (H He) j Hj) as (q & Hq & Hin).
  exists q. split; [|by left]. by apply result_at in Hq as [-> _].
Qed.

Ltac search expr n c :=
  lazymatch goal with |- context [re_regex ?p _ _] =>
    destruct (matched p expr n c) as (?err & ?caps & -> & ?Hcaps); [done|vm_compute; reflexivity|lia|]
  end; cbn [mbind outcome_bind fst snd].
Ltac take_result j :=
  lazymatch goal with
  | H : ∀ j, (j < ?c)%nat → ∃ q, result ?caps j = Ret q ∧ _ |- context [result ?caps j] =>
      destruct (H j) as (?q & -> & ?Hq); [lia|]
  end; cbn [mbind outcome_bind fst snd].

Lemma fmtp_in m p : ptr p → ∃ e m', attr_decode_fmtp A m p = Ret (e, m').
Proof using Hlim.
  intros Hp. destruct m as [m|]; [|by eexists _, _]. unfold attr_decode_fmtp. search (bytes_of "[^ ]+ [^]*") 2%nat 2%nat.
  case_bool_decide as He; [by eexists _, _|]. specialize (Hcaps He).
  take_result 0%nat. take_result 1%nat. destruct (format_find_in (md_rfmtl m) q Hq) as [[i|] ->]; cbn [mbind outcome_bind]; [|by eexists _, _].
  destruct (strdup_in q0 Hq0) as (e & s & ->). cbn [mbind outcome_bind]. by eexists _, _.
Qed.

Lemma rtcp_in m p : ptr p → ∃ e m', attr_decode_rtcp sa_set m p = Ret (e, m').
Proof using Hlim.
  intros Hp. destruct m as [m|]; [|by eexists _, _]. unfold attr_decode_rtcp. search (bytes_of "[0-9]+ IN IP[46]1 [^ ]+") 3%nat 3%nat.
  case_bool_decide as He.
  - specialize (Hcaps He). take_result 0%nat. take_result 2%nat. destruct (pl_u32_in M lim Hlim q Hq) as (n & -> & _).
    cbn [mbind outcome_bind]. destruct (sa_set_in (md_raddr_rtcp m) q0 n Hq0) as [sa ->]. by eexists _, _.
  - search (bytes_of "[0-9]+") 1%nat 1%nat. case_bool_decide as He'; [|by eexists _, _].
    specialize (Hcaps0 He'). take_result 0%nat. destruct (pl_u32_in M lim Hlim q Hq) as (n & -> & _). by eexists _, _.
Qed.

Lemma rtpmap_in m p : ptr p → ∃ e m', attr_decode_rtpmap A m p = Ret (e, m').
Proof using Hlim.
  intros Hp. destruct m as [m|]; [|by eexists _, _]. unfold attr_decode_rtpmap.
  search (bytes_of "[^ ]+ [^/]+/[0-9]+[/]*[^]*") 5%nat 5%nat. case_bool_decide as He; [by eexists _, _|].
  specialize (Hcaps He). take_result 0%nat. take_result 1%nat. take_result 2%nat. take_result 4%nat.
  destruct (format_find_in (md_rfmtl m) q Hq) as [[i|] ->]; cbn [mbind outcome_bind]; [|by eexists _, _].
  destruct (strdup_in q0 Hq0) as (e & s & ->). cbn [mbind outcome_bind fst snd]. case_bool_decide; [by eexists _, _|].
  destruct (pl_u32_in M lim Hlim q1 Hq1) as (r & -> & _). cbn [mbind outcome_bind].
  destruct (bool_decide (pl_l q2 = 0)); cbn [mbind outcome_bind]; [by eexists _, _|].
  destruct (pl_u32_in M lim Hlim q2 Hq2) as (c & -> & _). by eexists _, _.
Qed.

Ltac stored := eexists _, _; split; [reflexivity|first [apply set_line_advances | apply set_dir_advances]].
Ltac name_test n s := destruct (has_name_in n s) as [[] ->]; [done| |]; cbn [mbind outcome_bind].

Lemma attr_in offer sess m p : ptr p → cursor m sess →
  ∃ e s', attr_decode A sa_set att_mem sess m p = Ret (e, s') ∧ advances offer sess s'.
Proof using Hlim.
  intros Hp Hm. unfold attr_decode. search (bytes_of "[^:]+:[^]+") 2%nat 2%nat.
  assert (Hnv : ∃ name val, (if bool_decide (err ≠ 0) then Ret (p, pl_null)
      else name ← result caps 0; val ← result caps 1; Ret (name, val)) = Ret (name, val) ∧ ptr name ∧ ptr val).
  { case_bool_decide as He; [exists p, pl_null; split_and!; [done|done|apply null_ptr]|].
    specialize (Hcaps He). take_result 0%nat. take_result 1%nat. by eexists _, _. }
  destruct Hnv as (name & val & -> & Hname & Hval). cbn [mbind outcome_bind].
  destruct (line_of_run m sess Hm) as (l & -> & _). cbn [mbind outcome_bind].
  name_test name "fmtp"; [destruct (fmtp_in l val Hval) as (e & m' & ->); cbn [mbind outcome_bind]; stored|].
  name_test name "inactive"; [stored|]. name_test name "recvonly"; [stored|].
  name_test name "rtcp"; [destruct (rtcp_in l val Hval) as (e & m' & ->); cbn [mbind outcome_bind]; stored|].
  name_test name "rtpmap"; [destruct (rtpmap_in l val Hval) as (e & m' & ->); cbn [mbind outcome_bind]; stored|].
  name_test name "sendonly"; [stored|]. name_test name "sendrecv"; [stored|].
  destruct (attr_add_in (att_mem name) (match l with Some l => md_rattrl l | None => ss_rattrl sess end) name val Hname Hval) as [[e lst] ->].
  cbn [mbind outcome_bind fst snd]. destruct l as [l|]; [stored|]. eexists _, _. split; [done|]. split_and!; auto.
Qed.

Lemma bandwidth_in bwv p : ptr p → ∃ e b', bandwidth_decode bwv p = Ret (e, b').
Proof using Hlim.
  intros Hp. unfold bandwidth_decode. search (bytes_of "[^:]+:[0-9]+") 2%nat 2%nat. case_bool_decide as He; [by eexists _, _|].
  specialize (Hcaps He). take_result 0%nat. take_result 1%nat.
  destruct (pl_u32_in M lim Hlim q0 Hq0) as (n & -> & _). cbn [mbind outcome_bind].
  name_test q "CT"; [by eexists _, _|]. name_test q "AS"; [by eexists _, _|]. name_test q "RS"; [by eexists _, _|].
  name_test q "RR"; [by eexists _, _|]. name_test q "TIAS"; by eexists _, _.
Qed.

Lemma conn_in sa p : ptr p → ∃ e sa', conn_decode sa_set sa p = Ret (e, sa').
Proof using Hlim.
  intros Hp. unfold conn_decode. search (bytes_of "IN IP[46]1 [^ ]+") 2%nat 2%nat. case_bool_decide as He; [by eexists _, _|].
  specialize (Hcaps He). take_result 1%nat. destruct (sa_set_in sa q (sa_port sa) Hq) as [sa' ->]. by eexists _, _.
Qed.

Lemma media_line_in offer sess next name proto : ptr name → ptr proto → (next ≤ length (ss_medial sess))%nat →
  ∃ e s', media_line A med_mem sess offer next name proto = Ret (e, s') ∧ advances offer sess s' ∧
    (e = 0 → (next < length (ss_medial s'))%nat).
Proof using Hlim.
  intros Hn Hp Hx. unfold media_line. destruct (ss_medial sess !! next) as [m|] eqn:El.
  - assert (Hlt : (next < length (ss_medial sess))%nat) by by eapply lookup_lt_Some.
    destruct (strcmp_in name (md_name m) Hn) as [e ->]. cbn [mbind outcome_bind]. case_bool_decide; [by eexists _, _|].
    destruct (strcmp_in proto (md_proto m) Hp) as [e' ->]. by eexists _, _.
  - destruct offer; cbn [negb]; [|eexists _, _; split_and!; [done|done|]; intros He; by vm_compute in He].
    destruct (find_media_in (ss_lmedial sess) name proto Hn Hp) as (r & Er & Hr). unfold sdp_media_find. rewrite Er.
    cbn [mbind outcome_bind]. assert (Hnew : ∀ s' l, ss_medial s' = ss_medial sess ++ [l] → (next < length (ss_medial s'))%nat).
    { intros s' l ->. rewrite length_app. simpl. lia. }
    assert (Hadv : ∀ s' l, ss_medial s' = ss_medial sess ++ [l] →
      (ss_lattrl s', ss_laddr s', ss_lbwv s', ss_id s', ss_ver s') = (ss_lattrl sess, ss_laddr sess, ss_lbwv sess, ss_id sess, ss_ver sess) →
      advances true sess s').
    { intros s' l E1 E2. split; [done|]. split; [rewrite E1, length_app; lia|done]. }
    destruct r as [j|].
    + specialize (Hr j eq_refl). apply lookup_lt_is_Some in Hr as [m ->]. cbn [of_option mbind outcome_bind].
      eexists _, _. split; [done|]. split; [by eapply Hadv|]. intros _. by eapply Hnew.
    + unfold sdp_media_radd. destruct (negb (med_mem name)); [by eexists _, _|].
      destruct (strdup_in name Hn) as (e1 & s1 & ->), (strdup_in proto Hp) as (e2 & s2 & ->). cbn [mbind outcome_bind].
      eexists _, _. split; [done|]. split; [by eapply Hadv|]. intros _. by eapply Hnew.
Qed.

Lemma formats_in m p : ptr p → ∃ err m', formats_loop A fmt_mem (S (Z.to_nat (pl_l p))) m p = Ret (err, m').
Proof using Hlim.
  intros [(k & n & -> & Hk)| ->]; [|by eexists _, _]. cbn [pl_l]. rewrite Nat2Z.id.
  assert (Hl : (n ≤ length (drop k M))%nat) by (rewrite length_drop; lia).
  destruct (formats_loop_run (drop n (drop k M)) (S n) (take n (drop k M)) m) as (err & m' & E); [rewrite length_take; lia|].
  rewrite take_drop, length_take, Nat.min_l in E by done. by exists err, m'.
Qed.

Lemma media_in offer sess m p : ptr p → cursor m sess →
  ∃ e m' s', media_decode A fmt_mem med_mem m sess offer p = Ret (e, m', s') ∧ advances offer sess s' ∧ cursor m' s'.
Proof using Hlim.
  intros Hp Hm. unfold media_decode. search (bytes_of "[a-z]+ [^ ]+ [^ ]+[^]*") 4%nat 4%nat.
  case_bool_decide as He; [by eexists _, _, _|]. specialize (Hcaps He).
  take_result 0%nat. take_result 1%nat. take_result 2%nat. take_result 3%nat. set (next := match m with Some i => S i | None => O end).
  destruct (media_line_in offer sess next q q1 Hq Hq1) as (e & s1 & -> & Ha & Hlt); [destruct m; cbn in *; lia|].
  cbn [mbind outcome_bind]. case_bool_decide as He1; [eexists _, _, _; split_and!; [done|done|by eapply cursor_advances]|].
  specialize (Hlt He1). destruct (lookup_lt_is_Some_2 _ _ Hlt) as [l ->]. cbn [of_option mbind outcome_bind].
  destruct (formats_in l q2 Hq2) as (e2 & l2 & ->). cbn [mbind outcome_bind].
  assert (Hset : ∀ l, advances offer sess (set_line (Some next) l s1)) by (intros l'; etrans; [done|apply set_line_advances]).
  case_bool_decide as He2; [eexists _, _, _; split_and!; [done|done|by eapply cursor_advances]|].
  destruct (pl_u32_in M lim Hlim q0 Hq0) as (n & -> & _). cbn [mbind outcome_bind].
  eexists _, _, _. split; [done|]. split; [apply Hset|]. cbn. by rewrite length_insert.
Qed.

Lemma line_in offer type val m sess : ptr val → cursor m sess →
  ∃ e m' s', line_decode A sa_set att_mem fmt_mem med_mem offer type val m sess = Ret (e, m', s') ∧ advances offer sess s' ∧ cursor m' s'.
Proof using Hlim.
  intros Hv Hm. unfold line_decode.
  assert (Hkeep : ∀ s', advances offer sess s' → ∀ e, ∃ e' m' s'', Ret (A := Z * option nat * sdp_session) (e, m, s') = Ret (e', m', s'') ∧ advances offer sess s'' ∧ cursor m' s'').
  { intros s' Ha e. eexists _, _, _. split_and!; [done|done|by eapply cursor_advances]. }
  case_bool_decide.
  { destruct (attr_in offer sess m val Hv Hm) as (e & s' & -> & Ha). by apply Hkeep. }
  case_bool_decide.
  { destruct (line_of_run m sess Hm) as ([l|] & -> & _); cbn [mbind outcome_bind].
    - destruct (bandwidth_in (md_rbwv l) val Hv) as (e & b & ->). apply Hkeep, set_line_advances.
    - destruct (bandwidth_in (ss_rbwv sess) val Hv) as (e & b & ->). apply Hkeep. split_and!; auto. }
  case_bool_decide.
  { destruct (line_of_run m sess Hm) as ([l|] & -> & _); cbn [mbind outcome_bind].
    - destruct (conn_in (md_raddr l) val Hv) as (e & b & ->). apply Hkeep, set_line_advances.
    - destruct (conn_in (ss_raddr sess) val Hv) as (e & b & ->). apply Hkeep. split_and!; auto. }
  case_bool_decide; [by apply media_in|]. case_bool_decide; [|by apply Hkeep].
  unfold version_decode. destruct (has_name_in val "0" Hv) as [b ->]. by apply Hkeep.
Qed.
End safe.

(** The loop over the bytes [M], of which [l] are left: the value that is being
    read ends where [l] begins. *)
Section loop.
Context (A : allocator) (sa_set : list Z → option sockaddr) (att_mem fmt_mem med_mem : pl → bool) (offer : bool).
Context (M rest : list Z).

Definition reading (type : Z) (val : pl) (pos : nat) : Prop :=
  type = 0 ∨ ∃ k n, val = Pl (Some (drop k (M ++ rest))) (Z.of_nat n) ∧ (k + n)%nat = pos.

Lemma loop_in : ∀ fuel l pos type val m sess, (length l < fuel)%nat → l = drop pos M → (pos ≤ length M)%nat →
  reading type val pos → cursor m sess →
  ∃ e t s', decode_loop A sa_set att_mem fmt_mem med_mem offer rest l type val m sess = Ret (e, t, s') ∧ advances offer sess s'.
Proof.
  assert (Hlim : (length M ≤ length (M ++ rest))%nat) by (rewrite length_app; lia).
  induction fuel as [|fuel IH]; intros l pos type val m sess Hf El Hpos Hr Hm; [lia|].
  destruct l as [|c l1]; [by eexists _, _, _|]. cbn [length] in Hf. cbn [decode_loop].
  assert (Hlen : (S (length l1) = length M - pos)%nat) by (rewrite <- length_drop, <- El; done).
  assert (El1 : l1 = drop (S pos) M).
  { replace (S pos) with (pos + 1)%nat by lia. rewrite <- drop_drop, <- El. done. }
  assert (Hskip : ∀ v m' s', cursor m' s' → ∃ e t s'',
    decode_loop A sa_set att_mem fmt_mem med_mem offer rest l1 0 v m' s' = Ret (e, t, s'') ∧ advances offer s' s'').
  { intros v m' s' Hm'. apply (IH l1 (S pos)); [lia|done|lia|by left|done]. }
  destruct (_ || _).
  - case_bool_decide; [by apply Hskip|].
    assert (Hv : pointer_in (M ++ rest) (length M) val).
    { destruct Hr as [?|(k & n & -> & Hkn)]; [done|]. left. exists k, n. split; [done|lia]. }
    destruct (line_in A sa_set att_mem fmt_mem med_mem _ _ Hlim offer type val m sess Hv Hm) as (e & m' & s' & -> & Ha & Hm').
    cbn [mbind outcome_bind]. case_bool_decide; [by eexists _, _, _|].
    destruct (Hskip val m' s' Hm') as (e2 & t2 & s2 & -> & Ha2). eexists _, _, _. split; [done|by etrans].
  - case_bool_decide.
    + apply (IH l1 (S pos)); [lia|done|lia| |done]. right. destruct Hr as [?|(k & n & -> & Hkn)]; [done|].
      exists k, (S n). cbn [pl_p pl_l]. split; [f_equal; lia|lia].
    + destruct l1 as [|c2 l2]; [by eexists _, _, _|]. case_bool_decide; [|by eexists _, _, _]. cbn [length] in *.
      assert (El2 : l2 = drop (S (S pos)) M).
      { replace (S (S pos)) with (S pos + 1)%nat by lia. rewrite <- drop_drop, <- El1. done. }
      apply (IH l2 (S (S pos))); [lia|done|lia| |done]. right. exists (S (S pos)), O. split; [|lia].
      rewrite El2, drop_app_le by lia. done.
Qed.
End loop.

(** The text of a buffer, and what lies behind it. *)
Lemma mbuf_text mb : mbuf_wf mb → ∃ rest,
  memcpy_from (pl_p (pl_set_mbuf mb)) 0 (pl_l (pl_set_mbuf mb)) = Ret (payload mb) ∧
  drop (length (payload mb)) (default [] (pl_p (pl_set_mbuf mb))) = rest.
Proof.
  intros Hwf. eexists. split; [|done]. pose proof Hwf as [(Hs & Hm & He & Hp & _) Hle]. unfold pl_set_mbuf. cbn [pl_p pl_l].
  rewrite mbuf_get_left_wf by done. unfold memcpy_from, payload. case_bool_decide as Hz.
  { by rewrite Hz. }
  destruct (mb_buf mb) as [b|]; cbn in *; [|lia]. rewrite bool_decide_eq_true_2; [by rewrite drop_0|].
  rewrite length_drop. lia.
Qed.

(** C21: whatever text an offer or answer consists of, reading it into any session
    returns: no byte outside the buffer and no line that is not one of the session
    is used, whichever allocations fail.  The local description (attributes,
    address, bandwidths, identifiers) is never changed, lines are never removed,
    and an answer neither adds a line nor takes one from the local list. *)
Theorem sdp_decode_safe A sa_set att_mem fmt_mem med_mem sess mb offer :
  mbuf_wf mb →
  ∃ err sess', sdp_decode A sa_set att_mem fmt_mem med_mem sess (Some mb) offer = Ret (err, sess') ∧ advances offer sess sess'.
Proof.
  intros Hwf. unfold sdp_decode. set (s0 := set_ss_medial _ _).
  assert (H0 : advances offer sess s0) by (split_and!; cbn; rewrite ?length_map; auto).
  destruct (mbuf_text mb Hwf) as (rest & E1 & E2). rewrite E1. cbn [mbind outcome_bind]. rewrite E2.
  destruct (loop_in A sa_set att_mem fmt_mem med_mem offer (payload mb) rest (S (length (payload mb))) (payload mb) 0 0 pl_null None s0)
    as (e & t & s1 & -> & Ha); [lia|by rewrite drop_0|lia|by left|done|].
  cbn [mbind outcome_bind]. assert (H1 : advances offer sess s1) by by etrans.
  case_bool_decide; [by eexists _, _|]. case_bool_decide; [by eexists _, _|].
  eexists _, _. split; [done|]. etrans; [done|]. split_and!; cbn; rewrite ?length_map; auto.
Qed.

(** An offer of one media line. *)
Definition demo_text : list Z :=
  concat (map (λ l, bytes_of l ++ [13; 10]) ["v=0"; "o=- 1 2 IN IP4 10.0.0.2"; "s=-"; "c=IN IP4 10.0.0.2"; "t=0 0";
    "m=audio 4000 RTP/AVP 0 101"; "a=rtpmap:0 PCMU/8000"; "a=rtpmap:101 telephone-event/8000"; "a=fmtp:101 0-15"; "a=recvonly"]%string).

Definition demo_session : sdp_session :=
  SdpSession [] [] [] [] addr_any addr_any no_bandwidth no_bandwidth 1 2 SDP_SENDRECV.

Definition demo_inet (t : list Z) : option sockaddr := Some (SockAddr (Some t) 0 false).

Definition demo_mb (t : list Z) : mbuf := Mb (Some t) (Z.of_nat (length t)) 0 (Z.of_nat (length t)).

Example demo_decoded :
  match sdp_decode big_alloc demo_inet (λ _, true) (λ _, true) (λ _, true) demo_session (Some (demo_mb demo_text)) true with
  | Ret (0, s) => map (λ m, (md_raddr m, md_rdir m, map (λ f, (fm_id f, fm_srate f)) (md_rfmtl m))) (ss_medial s)
  | _ => []
  end = [(SockAddr (Some (bytes_of "10.0.0.2")) 4000 false, SDP_SENDONLY, [(Some (bytes_of "0"), 8000); (Some (bytes_of "101"), 8000)])].
Proof. vm_compute. reflexivity. Qed.

Lemma sdp_decode_safe_witness :
  mbuf_wf (demo_mb demo_text) ∧
  ∃ err sess', sdp_decode big_alloc demo_inet (λ _, true) (λ _, true) (λ _, true) demo_session (Some (demo_mb demo_text)) true = Ret (err, sess').
Proof.
  assert (H : mbuf_wf (demo_mb demo_text)) by (apply (bool_decide_eq_true_1 _); vm_compute; reflexivity). split; [exact H|].
  destruct (sdp_decode_safe big_alloc demo_inet (λ _, true) (λ _, true) (λ _, true) demo_session (demo_mb demo_text) true H)
    as (err & s & E & _). by exists err, s.
Defined.
