(* ===== verification/SdpText.v ===== *)
(** * The text of a session description

    What [sdp_encode] prints, as a list of lines (a letter and a value), and the
    reading of such a text line by line. *)
From stdpp Require Import base tactics list numbers strings option.
From S2P Require Import Prelude Mbuf Fmt Print MbufPrint Regex Uri Sip SipPrint Reply SdpMedia SdpMsg SdpSafe.

Definition str (s : cstring) : list Z := default [] s.

(** ** The lines of a session *)

Definition lines_text (ls : list (Z * list Z)) : list Z := concat (map (λ l, fst l :: chr "=" :: snd l ++ crlf) ls).

Definition conn_value (sa : sockaddr) : list Z :=
  bytes_of "IN IP" ++ int_text (ipver sa) ++ bytes_of " " ++ default (bytes_of "?") (sa_text sa).

Definition bandwidth_line (x : Z * Z) : list (Z * list Z) :=
  if bool_decide (snd x < 0) then [] else [(chr "b", sdp_bandwidth_name (fst x) ++ bytes_of ":" ++ int_text (snd x))].

Definition format_text (fmt : sdp_format) : list Z := if negb (fm_sup fmt) then [] else bytes_of " " ++ str (fm_id fmt).

Definition rtpmap_value (fmt : sdp_format) : list Z :=
  bytes_of "rtpmap:" ++ str (fm_id fmt) ++ bytes_of " " ++ str (fm_name fmt) ++ bytes_of "/" ++ dec_text (fm_srate fmt) ++
  (if bool_decide (fm_ch fmt > 1) then bytes_of "/" ++ dec_text (fm_ch fmt) else []).

Definition fmtp_value (fmt : sdp_format) : list Z := bytes_of "fmtp:" ++ str (fm_id fmt) ++ bytes_of " " ++ str (fm_params fmt).

Definition rtpmap_lines (fmt : sdp_format) : list (Z * list Z) :=
  if negb (fm_sup fmt) || negb (is_set (fm_name fmt)) then []
  else (chr "a", rtpmap_value fmt) :: (if is_set (fm_params fmt) then [(chr "a", fmtp_value fmt)] else []).

Definition rtcp_lines (sa : sockaddr) : list (Z * list Z) :=
  if sa_isset_addr sa && sa_isset_port sa then
    [(chr "a", bytes_of "rtcp:" ++ dec_text (sa_port sa) ++ bytes_of " " ++ conn_value sa)]
  else if sa_isset_port sa then [(chr "a", bytes_of "rtcp:" ++ dec_text (sa_port sa))]
  else [].

Definition attr_line (a : sdp_attr) : Z * list Z :=
  (chr "a", match at_val a with Some v => str (at_name a) ++ bytes_of ":" ++ v | None => str (at_name a) end).

Definition refused (offer : bool) (m : sdp_media) : bool :=
  md_disabled m || bool_decide (length (filter is_sup (md_lfmtl m)) = O) || (negb offer && bool_decide (sa_port (md_raddr m) = 0)).

Definition media_value (m : sdp_media) (port : Z) (formats : list Z) : list Z :=
  str (md_name m) ++ bytes_of " " ++ dec_text port ++ bytes_of " " ++ str (md_proto m) ++ formats.

Definition media_lines (offer : bool) (m : sdp_media) : list (Z * list Z) :=
  if refused offer m then [(chr "m", media_value m 0 (bytes_of " 0"))]
  else
    (chr "m", media_value m (sa_port (md_laddr m)) (concat (map format_text (md_lfmtl m)))) ::
    (if sa_isset_addr (md_laddr m) then [(chr "c", conn_value (md_laddr m))] else []) ++
    concat (map bandwidth_line (typed (md_lbwv m))) ++
    concat (map rtpmap_lines (md_lfmtl m)) ++
    rtcp_lines (md_laddr_rtcp m) ++
    [(chr "a", sdp_dir_name (if offer then md_ldir m else Z.land (md_ldir m) (md_rdir m)))] ++
    map attr_line (md_lattrl m).

Definition session_lines (offer : bool) (sess : sdp_session) : list (Z * list Z) :=
  [(chr "v", bytes_of "0");
   (chr "o", bytes_of "- " ++ dec_text (ss_id sess) ++ bytes_of " " ++ dec_text (ss_ver sess) ++ bytes_of " " ++ conn_value (ss_laddr sess));
   (chr "s", bytes_of "-");
   (chr "c", conn_value (ss_laddr sess))] ++
  concat (map bandwidth_line (typed (ss_lbwv sess))) ++
  [(chr "t", bytes_of "0 0")] ++
  map attr_line (ss_lattrl sess) ++
  concat (map (media_lines offer) (ss_medial (offer_lines offer sess))).

(** ** Printing them *)

(** The integers of a session are those of its C types. *)
Definition media_ints (m : sdp_media) : Prop :=
  0 ≤ sa_port (md_laddr m) < 65536 ∧ 0 ≤ sa_port (md_laddr_rtcp m) < 65536 ∧ Forall (λ bw, - 2 ^ 31 ≤ bw < 2 ^ 31) (md_lbwv m) ∧
  Forall (λ f, 0 ≤ fm_srate f < 2 ^ 32 ∧ 0 ≤ fm_ch f < 256) (md_lfmtl m).

Definition session_ints (s : sdp_session) : Prop :=
  0 ≤ ss_id s < 2 ^ 32 ∧ 0 ≤ ss_ver s < 2 ^ 32 ∧ Forall (λ bw, - 2 ^ 31 ≤ bw < 2 ^ 31) (ss_lbwv s) ∧
  Forall media_ints (ss_medial s) ∧ Forall media_ints (ss_lmedial s).

Lemma lines_text_app l1 l2 : lines_text (l1 ++ l2) = lines_text l1 ++ lines_text l2.
Proof. unfold lines_text. by rewrite map_app, concat_app. Qed.

Lemma lines_text_cons l ls : lines_text (l :: ls) = fst l :: chr "=" :: snd l ++ crlf ++ lines_text ls.
Proof. unfold lines_text. cbn [map concat Datatypes.app]. by rewrite <- app_assoc. Qed.

Lemma lines_text_concat {X} (f : X → list (Z * list Z)) xs : lines_text (concat (map f xs)) = concat (map (λ x, lines_text (f x)) xs).
Proof. induction xs as [|x xs IH]; [done|]. cbn [map concat]. by rewrite lines_text_app, IH. Qed.

Lemma lines_text_map {X} (f : X → Z * list Z) xs : lines_text (map f xs) = concat (map (λ x, lines_text [f x]) xs).
Proof. induction xs as [|x xs IH]; [done|]. cbn [map concat]. rewrite <- IH, <- lines_text_app. done. Qed.

(** A string argument. *)
Definition str_piece (s : cstring) : piece := match s with Some t => PStr t | None => PNoStr end.

Lemma str_piece_run s : piece_fmt (str_piece s) = bytes_of "%s" ∧ piece_args (str_piece s) = [VStr s] ∧ piece_text (str_piece s) = str s ∧
  piece_ok (str_piece s).
Proof. by destruct s. Qed.

Section print.
Context (A : allocator) `{!allocator_ok A} (HA : plenty A).

Lemma prints_pieces fmt args ps t : fmt = fmt_of ps → args = args_of ps → Forall piece_ok ps → t = text_of ps →
  prints (mbuf_printf A fmt args) t.
Proof using HA allocator_ok0. intros -> -> Hps -> k mb Hk Hok. by apply mbuf_printf_run. Qed.

Lemma prints_puts bs : prints (mbuf_puts A bs) bs.
Proof using HA allocator_ok0. intros k mb Hk Hok. by apply filled_write. Qed.

Lemma prints_ret : prints (mret 0 : prog mbuf Z) [].
Proof using. clear. intros k mb Hk _. exists mb. by rewrite app_nil_r. Qed.

Lemma prints_then (m : prog mbuf Z) (f : Z → prog mbuf Z) t u v : prints m t → prints (f 0) u → v = t ++ u → prints (m ≫= f) v.
Proof using. clear. intros H1 H2 ->. by eapply prints_bind. Qed.

Lemma prints_all {X} (f : X → prog mbuf Z) g xs : Forall (λ x, prints (f x) (g x)) xs → prints (all_of f xs) (concat (map g xs)).
Proof using.
  clear. induction 1 as [|x xs Hx _ IH]; [apply prints_ret|]. cbn [all_of map concat].
  eapply prints_then; [exact Hx| |reflexivity]. eapply prints_then; [exact IH|apply prints_ret|by rewrite app_nil_r].
Qed.

(** A format with its pieces; strings that may be NULL were split before. *)
Ltac printf ps :=
  apply (prints_pieces _ _ ps); [reflexivity|reflexivity|pieces; first [done|cbn [piece_ok]; lia|closed]|
    unfold text_of; cbn [map concat piece_text str default from_option id]; rewrite ?app_nil_r, <- ?app_assoc; reflexivity].

Lemma prints_attr a : prints (sdp_attr_print A a) (lines_text [attr_line a]).
Proof using HA allocator_ok0.
  unfold sdp_attr_print. destruct a as [n [v|]]; unfold lines_text, attr_line; cbn [at_val at_name map concat fst snd].
  - destruct n as [n|]; [printf [PLit (bytes_of "a="); PStr n; PLit (bytes_of ":"); PStr v; PLit crlf]|].
    printf [PLit (bytes_of "a="); PNoStr; PLit (bytes_of ":"); PStr v; PLit crlf].
  - destruct n as [n|]; [printf [PLit (bytes_of "a="); PStr n; PLit crlf]|].
    printf [PLit (bytes_of "a="); PNoStr; PLit crlf].
Qed.

Lemma prints_attrs l : prints (all_of (sdp_attr_print A) l) (lines_text (map attr_line l)).
Proof using HA allocator_ok0.
  rewrite lines_text_map. apply prints_all, Forall_true. apply prints_attr.
Qed.

Lemma prints_bandwidth x : - 2 ^ 31 ≤ snd x < 2 ^ 31 → prints (bandwidth_encode A x) (lines_text (bandwidth_line x)).
Proof using HA allocator_ok0.
  intros Hx. unfold bandwidth_encode, bandwidth_line. case_bool_decide; [apply prints_ret|].
  set (n := sdp_bandwidth_name (fst x)). unfold lines_text. cbn [map concat fst snd].
  printf [PLit (bytes_of "b="); PStr n; PLit (bytes_of ":"); PIntI (snd x); PLit crlf].
Qed.

Lemma prints_bandwidths bwv : Forall (λ bw, - 2 ^ 31 ≤ bw < 2 ^ 31) bwv →
  prints (all_of (bandwidth_encode A) (typed bwv)) (lines_text (concat (map bandwidth_line (typed bwv)))).
Proof using HA allocator_ok0.
  intros Hb. rewrite lines_text_concat. apply prints_all, Forall_lookup. intros i x Hi. apply prints_bandwidth.
  unfold typed in Hi. rewrite list_lookup_imap in Hi.
  destruct (bwv !! i) as [bw|] eqn:E; [|done]. injection Hi as <-. cbn. by apply (Forall_lookup_1 _ _ _ _ Hb) in E.
Qed.

Lemma prints_formats l :
  prints (all_of (λ fmt, if negb (fm_sup fmt) then mret 0 else mbuf_printf A (bytes_of " %s") [VStr (fm_id fmt)]) l) (concat (map format_text l)).
Proof using HA allocator_ok0.
  apply prints_all, Forall_true. intros f. unfold format_text. destruct (fm_sup f); cbn [negb]; [|apply prints_ret].
  destruct (fm_id f) as [i|]; [printf [PLit (bytes_of " "); PStr i]|printf [PLit (bytes_of " "); PNoStr]].
Qed.

Lemma is_set_text s : is_set s = true → ∃ t, s = Some t ∧ t ≠ [].
Proof using. clear. destruct s as [[|b t]|]; [done|by exists (b :: t)|done]. Qed.

Lemma prints_rtpmap f : 0 ≤ fm_srate f < 2 ^ 32 → 0 ≤ fm_ch f < 256 → prints (rtpmap_encode A f) (lines_text (rtpmap_lines f)).
Proof using HA allocator_ok0.
  intros Hr Hc. unfold rtpmap_encode, rtpmap_lines. destruct (negb (fm_sup f)); [apply prints_ret|]. cbn [orb].
  destruct (is_set (fm_name f)) eqn:En; [|apply prints_ret]. apply is_set_text in En as (n & En & _). cbn [negb].
  set (i := fm_id f) in *. unfold rtpmap_value, fmtp_value. rewrite En. fold i.
  eapply prints_then; [| |].
  { instantiate (1 := bytes_of "a=rtpmap:" ++ str i ++ bytes_of " " ++ n ++ bytes_of "/" ++ dec_text (fm_srate f)). destruct i as [i|].
    - printf [PLit (bytes_of "a=rtpmap:"); PStr i; PLit (bytes_of " "); PStr n; PLit (bytes_of "/"); PUns (fm_srate f)].
    - printf [PLit (bytes_of "a=rtpmap:"); PNoStr; PLit (bytes_of " "); PStr n; PLit (bytes_of "/"); PUns (fm_srate f)]. }
  { eapply prints_then; [| |reflexivity].
    { instantiate (1 := if bool_decide (fm_ch f > 1) then bytes_of "/" ++ dec_text (fm_ch f) else []).
      case_bool_decide; [printf [PLit (bytes_of "/"); PUns (fm_ch f)]|apply prints_ret]. }
    eapply prints_then; [printf [PLit crlf]| |reflexivity]. eapply prints_then; [|apply prints_ret|symmetry; apply app_nil_r].
    instantiate (1 := if is_set (fm_params f) then bytes_of "a=fmtp:" ++ str i ++ bytes_of " " ++ str (fm_params f) ++ crlf else []).
    destruct (is_set (fm_params f)) eqn:Ep; [|apply prints_ret]. apply is_set_text in Ep as (q & -> & _). destruct i as [i|].
    - printf [PLit (bytes_of "a=fmtp:"); PStr i; PLit (bytes_of " "); PStr q; PLit crlf].
    - printf [PLit (bytes_of "a=fmtp:"); PNoStr; PLit (bytes_of " "); PStr q; PLit crlf]. }
  unfold lines_text. destruct (is_set (fm_params f)); cbn [map concat fst snd str default from_option id Datatypes.app];
    rewrite ?app_nil_r, <- ?app_assoc; reflexivity.
Qed.

Lemma ipver_range sa : - 2 ^ 31 ≤ ipver sa < 2 ^ 31.
Proof using. clear. unfold ipver. destruct (_ || _); lia. Qed.

Lemma prints_conn sa :
  prints (mbuf_printf A (bytes_of "c=IN IP%d %j" ++ crlf) [VInt (ipver sa); VSa (Some sa)]) (lines_text [(chr "c", conn_value sa)]).
Proof using HA allocator_ok0.
  pose proof (ipver_range sa). unfold conn_value, lines_text. cbn [map concat fst snd]. set (v := ipver sa) in *.
  printf [PLit (bytes_of "c=IN IP"); PInt v; PLit (bytes_of " "); PIp sa; PLit crlf].
Qed.

Lemma prints_rtcp sa : 0 ≤ sa_port sa < 65536 →
  prints (if sa_isset_addr sa && sa_isset_port sa then
            mbuf_printf A (bytes_of "a=rtcp:%u IN IP%d %j" ++ crlf) [VInt (sa_port sa); VInt (ipver sa); VSa (Some sa)]
          else if sa_isset_port sa then mbuf_printf A (bytes_of "a=rtcp:%u" ++ crlf) [VInt (sa_port sa)]
          else mret 0) (lines_text (rtcp_lines sa)).
Proof using HA allocator_ok0.
  intros Hp. pose proof (ipver_range sa). unfold rtcp_lines, conn_value, lines_text. set (v := ipver sa) in *. set (q := sa_port sa) in *.
  destruct (_ && _); [|destruct (sa_isset_port sa)]; cbn [map concat fst snd].
  - printf [PLit (bytes_of "a=rtcp:"); PUns q; PLit (bytes_of " IN IP"); PInt v; PLit (bytes_of " "); PIp sa; PLit crlf].
  - printf [PLit (bytes_of "a=rtcp:"); PUns q; PLit crlf].
  - apply prints_ret.
Qed.

Lemma prints_media_head m port : 0 ≤ port < 65536 →
  prints (mbuf_printf A (bytes_of "m=%s %u %s") [VStr (md_name m); VInt port; VStr (md_proto m)]) (bytes_of "m=" ++ media_value m port []).
Proof using HA allocator_ok0.
  intros Hp. unfold media_value. destruct (md_name m) as [n|], (md_proto m) as [t|].
  - printf [PLit (bytes_of "m="); PStr n; PLit (bytes_of " "); PUns port; PLit (bytes_of " "); PStr t].
  - printf [PLit (bytes_of "m="); PStr n; PLit (bytes_of " "); PUns port; PLit (bytes_of " "); PNoStr].
  - printf [PLit (bytes_of "m="); PNoStr; PLit (bytes_of " "); PUns port; PLit (bytes_of " "); PStr t].
  - printf [PLit (bytes_of "m="); PNoStr; PLit (bytes_of " "); PUns port; PLit (bytes_of " "); PNoStr].
Qed.

Lemma media_value_app m port t : media_value m port [] ++ t = media_value m port t.
Proof using. clear. unfold media_value. by rewrite app_nil_r, <- !app_assoc. Qed.

Lemma prints_media offer m : media_ints m → prints (media_encode A offer m) (lines_text (media_lines offer m)).
Proof using HA allocator_ok0.
  intros (Hp & Hrp & Hb & Hf). unfold media_encode, media_lines. cbv zeta. fold (refused offer m).
  destruct (refused offer m).
  - eapply prints_then; [apply prints_media_head; lia| |].
    { eapply prints_then; [apply prints_puts|apply prints_ret|by rewrite app_nil_r]. }
    unfold lines_text. cbn [map concat fst snd]. rewrite <- (media_value_app m 0 (bytes_of " 0")), app_nil_r, <- !app_assoc. reflexivity.
  - rewrite lines_text_cons, !lines_text_app.
    eapply prints_then; [by apply prints_media_head| |].
    { eapply prints_then; [apply prints_formats| |reflexivity].
      eapply prints_then; [apply prints_puts| |reflexivity].
      eapply (prints_then _ _ (lines_text (if sa_isset_addr (md_laddr m) then [(chr "c", conn_value (md_laddr m))] else [])));
        [destruct (sa_isset_addr _); [apply prints_conn|apply prints_ret]| |reflexivity].
      eapply prints_then; [by apply prints_bandwidths| |reflexivity].
      eapply (prints_then _ _ (lines_text (concat (map rtpmap_lines (md_lfmtl m))))); [| |reflexivity].
      { rewrite lines_text_concat. apply prints_all. eapply Forall_impl; [|exact Hf]. intros f [H1 H2]. by apply prints_rtpmap. }
      eapply prints_then; [by apply prints_rtcp| |reflexivity].
      set (d := sdp_dir_name _). eapply (prints_then _ _ (lines_text [(chr "a", d)])); [| |reflexivity].
      { unfold lines_text. cbn [map concat fst snd]. printf [PLit (bytes_of "a="); PStr d; PLit crlf]. }
      eapply prints_then; [apply prints_attrs|apply prints_ret|symmetry; apply app_nil_r]. }
    cbn [fst snd]. rewrite <- (media_value_app m _ (concat _)), <- !app_assoc. reflexivity.
Qed.

Lemma prints_session offer s : session_ints s → prints (session_encode A offer s) (lines_text (session_lines offer s)).
Proof using HA allocator_ok0.
  intros (Hi & Hv & Hb & Hm & Hl). unfold session_encode, session_lines. cbv zeta. pose proof (ipver_range (ss_laddr s)) as Hip.
  assert (Hms : Forall media_ints (ss_medial (offer_lines offer s))).
  { destruct offer; [|done]. apply Forall_app. split; [done|]. induction Hl as [|m l Hx _ IH]; [done|].
    rewrite filter_cons. destruct (decide _); [by constructor|done]. }
  rewrite !lines_text_app. eapply prints_then; [| |].
  { instantiate (1 := lines_text [(chr "v", bytes_of "0")]). apply (prints_pieces _ _ [PLit (bytes_of "v="); PUns 0; PLit crlf]); [done|done|pieces; closed|done]. }
  { eapply prints_then; [| |reflexivity].
    { instantiate (1 := lines_text [(chr "o", bytes_of "- " ++ dec_text (ss_id s) ++ bytes_of " " ++ dec_text (ss_ver s) ++ bytes_of " " ++ conn_value (ss_laddr s))]).
      unfold conn_value, lines_text. cbn [map concat fst snd]. set (v := ipver _) in *. set (a := ss_laddr s).
      printf [PLit (bytes_of "o=- "); PUns (ss_id s); PLit (bytes_of " "); PUns (ss_ver s); PLit (bytes_of " IN IP"); PInt v;
        PLit (bytes_of " "); PIp a; PLit crlf]. }
    eapply prints_then; [apply prints_puts| |reflexivity].
    eapply prints_then; [apply prints_conn| |reflexivity].
    eapply prints_then; [by apply prints_bandwidths| |reflexivity].
    eapply prints_then; [apply prints_puts| |reflexivity].
    eapply prints_then; [apply prints_attrs| |reflexivity].
    eapply prints_then; [|apply prints_ret|symmetry; apply app_nil_r].
    instantiate (1 := concat (map (λ m, lines_text (media_lines offer m)) (ss_medial (offer_lines offer s)))).
    apply prints_all. eapply Forall_impl; [|exact Hms]. intros m. apply prints_media. }
  rewrite (lines_text_concat (media_lines offer)), !lines_text_cons. change (lines_text []) with (@nil Z).
  cbn [fst snd]. rewrite ?app_nil_r. do 5 (cbn [Datatypes.app]; rewrite <- ?app_assoc). reflexivity.
Qed.
End print.

(** The text of a session, in a buffer to be read. *)
Lemma sdp_encode_run A `{!allocator_ok A} sess offer :
  plenty A → session_ints sess → text_ok (lines_text (session_lines offer sess)) →
  ∃ mb, sdp_encode A sess offer = Ret (0, Some mb, set_ss_ver (u32 (ss_ver sess + 1)) (offer_lines offer sess)) ∧
    mbuf_wf mb ∧ payload mb = lines_text (session_lines offer sess).
Proof.
  intros HA Hi Hok. unfold sdp_encode. destruct (mbuf_alloc_filled A HA 512) as (mb & -> & Hf); [lia|].
  destruct (prints_session A HA offer sess Hi [] mb Hf Hok) as (mb' & E & Hf'). rewrite E. cbn [mbind outcome_bind].
  eexists. split; [reflexivity|].
  destruct Hf' as (Hwf & Hp & He & Hk & Hs). cbn [Datatypes.app] in *. set (t := lines_text _) in *.
  split; [apply set_pos_wf; [done|lia|lia]|].
  unfold payload, mbuf_set_pos. cbn [mb_end mb_pos mb_buf]. rewrite drop_0, Z.sub_0_r, He, Nat2Z.id. exact Hk.
Qed.

(** C22: with plenty of memory, a description is printed as its lines: version,
    origin, name, address, bandwidths, time and attributes of the session, then for
    every line of the exchange its formats, address, bandwidths, maps of the
    supported formats, RTCP address, direction and attributes, or just a refusal
    with port 0 when it is disabled, supports no format, or answers a line without
    port.  An offer first moves the enabled local lines to the exchange, and every
    description raises the version of the next. *)
Theorem sdp_encode_text A `{!allocator_ok A} sess offer :
  plenty A → session_ints sess → text_ok (lines_text (session_lines offer sess)) →
  ∃ mb, sdp_encode A sess offer = Ret (0, Some mb, set_ss_ver (u32 (ss_ver sess + 1)) (offer_lines offer sess)) ∧
    mbuf_wf mb ∧ payload mb = lines_text (session_lines offer sess).
Proof. by apply sdp_encode_run. Qed.

(** A session that offers audio in two formats. *)
Definition demo_addr (t : string) (port : Z) : sockaddr := SockAddr (Some (bytes_of t)) port false.

Definition demo_audio : sdp_media :=
  set_md_names (Some (bytes_of "audio")) (Some (bytes_of "RTP/AVP"))
    (set_md_lfmtl [set_fm_sup true (demo_format "0" "PCMU" 8000);
                   set_fm_params (Some (bytes_of "0-15")) (set_fm_sup true (demo_format "101" "telephone-event" 8000))]
      (set_md_lattrl [SdpAttr (Some (bytes_of "ptime")) (Some (bytes_of "20"))]
        (set_md_laddr (demo_addr "10.0.0.1" 4000) (set_md_ldir SDP_SENDONLY media_new)))).

Definition demo_writer : sdp_session :=
  SdpSession [demo_audio] [] [] [] (demo_addr "10.0.0.1" 0) sa_init4 no_bandwidth no_bandwidth 7 1 SDP_SENDRECV.

Lemma demo_writer_ints : session_ints demo_writer.
Proof. repeat constructor; done. Qed.

Lemma demo_writer_text : text_ok (lines_text (session_lines true demo_writer)).
Proof. split; [apply (bool_decide_eq_true_1 _); vm_compute; reflexivity|]. apply Z.leb_le. vm_compute. reflexivity. Qed.

Lemma sdp_encode_text_witness :
  ∃ mb, sdp_encode big_alloc demo_writer true = Ret (0, Some mb, set_ss_ver 2 (offer_lines true demo_writer)) ∧
    payload mb = bytes_of "v=0" ++ crlf ++ bytes_of "o=- 7 1 IN IP4 10.0.0.1" ++ crlf ++ bytes_of "s=-" ++ crlf ++
      bytes_of "c=IN IP4 10.0.0.1" ++ crlf ++ bytes_of "t=0 0" ++ crlf ++
      bytes_of "m=audio 4000 RTP/AVP 0 101" ++ crlf ++ bytes_of "c=IN IP4 10.0.0.1" ++ crlf ++
      bytes_of "a=rtpmap:0 PCMU/8000" ++ crlf ++ bytes_of "a=rtpmap:101 telephone-event/8000" ++ crlf ++
      bytes_of "a=fmtp:101 0-15" ++ crlf ++ bytes_of "a=sendonly" ++ crlf ++ bytes_of "a=ptime:20" ++ crlf.
Proof.
  destruct (sdp_encode_text big_alloc demo_writer true big_alloc_plenty demo_writer_ints demo_writer_text) as (mb & E & _ & Hp).
  exists mb. split; [exact E|]. rewrite Hp. vm_compute. reflexivity.
Defined.
