(* ===== verification/SdpLines.v ===== *)
(** * Reading a description line by line

    A text of lines is read as the lines one after the other, each by what
    [line_decode] does with it; and what it does with each kind of line that
    [sdp_encode] prints. *)
From stdpp Require Import base tactics list numbers strings option.
From S2P Require Import Prelude Mbuf Fmt Print MbufPrint Regex Uri Sip SipMsg SipPrint Reply SdpMedia SdpMsg SdpSafe SdpText.

(** ** Lines *)

Definition eol (b : Z) : bool := bool_decide (b = 13) || bool_decide (b = 10).
(** A value without the characters that end a line. *)
Definition one_line (v : list Z) : Prop := Forall (λ b, eol b = false) v.
Definition line_ok (l : Z * list Z) : Prop := fst l ≠ 0 ∧ eol (fst l) = false ∧ one_line (snd l).

Section lines.
Context (A : allocator) (sa_set : list Z → option sockaddr) (att_mem fmt_mem med_mem : pl → bool) (offer : bool).
Local Abbreviation line_decode := (line_decode A sa_set att_mem fmt_mem med_mem offer).
Local Abbreviation decode_loop := (decode_loop A sa_set att_mem fmt_mem med_mem offer).

(** A line leads from one state of the reader to another, whatever follows it. *)
Definition reads (l : Z * list Z) (m : option nat) (s : sdp_session) (m' : option nat) (s' : sdp_session) : Prop :=
  ∀ r, line_decode (fst l) (Pl (Some (snd l ++ r)) (Z.of_nat (length (snd l)))) m s = Ret (0, m', s').

Inductive reads_all : list (Z * list Z) → option nat → sdp_session → option nat → sdp_session → Prop :=
  | reads_nil m s : reads_all [] m s m s
  | reads_cons l ls m s m1 s1 m2 s2 : line_ok l → reads l m s m1 s1 → reads_all ls m1 s1 m2 s2 → reads_all (l :: ls) m s m2 s2.

Lemma reads_all_app l1 l2 m s m1 s1 m2 s2 : reads_all l1 m s m1 s1 → reads_all l2 m1 s1 m2 s2 → reads_all (l1 ++ l2) m s m2 s2.
Proof. induction 1; [done|]. intros H2. cbn [Datatypes.app]. econstructor; eauto. Qed.

(** Between lines the last value is not looked at. *)
Lemma decode_loop_val rest : ∀ l v1 v2 m s, decode_loop rest l 0 v1 m s = decode_loop rest l 0 v2 m s.
Proof.
  intros l v1 v2 m s. destruct l as [|c l]; [done|]. revert c m s. induction l as [|c1 l IH]; intros c m s; cbn [SdpMsg.decode_loop].
  - by destruct (_ || _).
  - destruct (_ || _); [|done]. cbn [bool_decide]. rewrite (bool_decide_eq_true_2 (0 = 0)) by done. apply IH.
Qed.

(** The characters of a value. *)
Lemma decode_loop_value rest v : one_line v → ∀ type u w l m s, type ≠ 0 →
  decode_loop rest (v ++ l) type (Pl u w) m s = decode_loop rest l type (Pl u (w + Z.of_nat (length v))) m s.
Proof.
  induction 1 as [|b v Hb _ IH]; intros type u w l m s Ht; cbn [length].
  { by rewrite Z.add_0_r. }
  cbn [Datatypes.app SdpMsg.decode_loop]. fold (eol b). rewrite Hb, bool_decide_eq_true_2 by done. cbn [pl_p pl_l].
  rewrite IH by done. do 2 f_equal. lia.
Qed.

Lemma decode_loop_line rest l ls val m s m' s' : line_ok l → reads l m s m' s' →
  decode_loop rest (fst l :: chr "=" :: snd l ++ crlf ++ ls) 0 val m s = decode_loop rest ls 0 val m' s'.
Proof.
  intros (Ht & He & Hv) Hr. cbn [SdpMsg.decode_loop]. fold (eol (fst l)). rewrite He.
  rewrite (bool_decide_eq_false_2 (0 ≠ 0)) by auto. rewrite bool_decide_eq_true_2 by done.
  pose proof (Hr (crlf ++ ls ++ rest)) as E. rewrite !app_assoc in E. rewrite <- (app_assoc _ crlf ls) in E.
  set (u := (snd l ++ crlf ++ ls) ++ rest) in *. rewrite decode_loop_value by done. rewrite Z.add_0_l. unfold crlf at 1. cbn [Datatypes.app SdpMsg.decode_loop].
  rewrite (bool_decide_eq_true_2 (13 = 13)) by done. cbn [orb]. rewrite bool_decide_eq_false_2 by done.
  rewrite E. cbn [mbind outcome_bind]. rewrite (bool_decide_eq_false_2 (0 ≠ 0)) by auto.
  rewrite (bool_decide_eq_true_2 (10 = 10)) by done. rewrite orb_true_r. apply decode_loop_val.
Qed.

Lemma decode_loop_lines rest ls m s m' s' val : reads_all ls m s m' s' →
  decode_loop rest (lines_text ls) 0 val m s = Ret (0, 0, s').
Proof.
  induction 1 as [|l ls m s m1 s1 m2 s2 Hl Hr _ IH]; [done|]. rewrite lines_text_cons. by erewrite decode_loop_line.
Qed.
End lines.

(** ** The expressions on the values that are printed *)

Definition small (v : list Z) : Prop := Z.of_nat (length v) < 4294967296.

Lemma small_app u v : small (u ++ v) ↔ Z.of_nat (length u) + Z.of_nat (length v) < 4294967296.
Proof. unfold small. rewrite length_app. lia. Qed.

Lemma in_any c : in_class true [] c = true.
Proof. done. Qed.

Lemma any_class u : forallb (in_class true []) u = true.
Proof. induction u as [|c u IH]; [done|]. cbn [forallb]. by rewrite in_any. Qed.

Lemma greedy_any q u nmin nmax : quantifier q = Some (nmin, nmax) → nmin ≤ Z.of_nat (length u) ≤ nmax →
  greedy [Class true [] q] u = Matched [(u, [])].
Proof.
  intros Hq Hn. rewrite <- (app_nil_r u) at 1. rewrite (greedy_class _ _ _ _ _ _ nmin nmax Hq Hn); [done|apply any_class|done].
Qed.

Definition digits_plus : item := Class false [Range (chr "0") (chr "9")] (chr "+").

(** What may follow a run of digits. *)
Definition no_digit (v : list Z) : bool := match v with [] => true | c :: _ => negb (bool_decide (48 ≤ c ≤ 57)) end.

Lemma greedy_digits_plus its u v : all_digits u = true → u ≠ [] → small u → no_digit v = true →
  greedy (digits_plus :: its) (u ++ v) = match greedy its v with Matched parts => Matched ((u, v) :: parts) | w => w end.
Proof.
  intros Hu Hne Hs Hv. apply (greedy_class _ _ _ _ _ _ 1 4294967295); [done|unfold small in Hs; destruct u; [done|cbn [length] in *; lia]| |].
  - unfold all_digits in Hu. clear -Hu. induction u as [|c u IH]; [done|]. cbn [forallb] in *.
    apply andb_true_iff in Hu as [Hc Hu]. by rewrite in_digits, Hc, IH.
  - destruct v as [|c v]; [done|]. cbn [no_digit] in Hv. rewrite in_digits. by apply negb_true_iff.
Qed.

Lemma greedy_token s its u v : forallb caseless (bytes_of s) = true → u ≠ [] → small u → free_of s u = true → stops s v = true →
  greedy (bracket true s "+" :: its) (u ++ v) = match greedy its v with Matched parts => Matched ((u, v) :: parts) | w => w end.
Proof.
  intros Hs Hne Hl Hu Hv. apply (greedy_not s "+" its u v 1 4294967295); try done. unfold small in Hl. destruct u; [done|cbn [length] in *; lia].
Qed.

(** "name:value" *)
Definition pair_items : list item := [bracket true ":" "+"; Lit 58; Class true [] (chr "+")].

Lemma small_cons c u v : small (u ++ c :: v) → small u ∧ small v.
Proof. unfold small. rewrite length_app. cbn [length]. lia. Qed.

Lemma ne_len (u : list Z) : u ≠ [] → 1 ≤ Z.of_nat (length u).
Proof. destruct u; [done|cbn [length]; lia]. Qed.

Lemma pair_regex u v r : u ≠ [] → free_of ":" u = true → v ≠ [] → small (u ++ 58 :: v) →
  re_regex (Pl (Some ((u ++ 58 :: v) ++ r)) (Z.of_nat (length (u ++ 58 :: v)))) (bytes_of "[^:]+:[^]+") 2 =
    Ret (0, [Some (part_pl r (u, 58 :: v)); Some (part_pl r (v, []))]).
Proof.
  intros Hu Hf Hv Hs. pose proof (small_cons _ _ _ Hs) as [Hsu Hsv].
  apply (regex_match pair_items _ (u ++ 58 :: v) r [(u, 58 :: v); (v, [])]); [done..|by destruct u|].
  unfold pair_items. rewrite greedy_token by done. rewrite greedy_lit.
  rewrite (greedy_any _ v 1 4294967295); [done|done|]. pose proof (ne_len v Hv). unfold small in Hsv. lia.
Qed.

(** A name alone is no pair: the search ends with it. *)
Lemma pair_none u r : u ≠ [] → free_of ":" u = true → small u →
  ∃ caps, re_regex (Pl (Some (u ++ r)) (Z.of_nat (length u))) (bytes_of "[^:]+:[^]+") 2 = Ret (ENOENT, caps).
Proof.
  intros Hu Hf Hs. apply (regex_none pair_items u r); [done|done|]. destruct u as [|c u]; [done|].
  cbn [search]. pose proof (greedy_token ":" [Lit 58; Class true [] (chr "+")] (c :: u) [] eq_refl Hu Hs Hf eq_refl) as E.
  rewrite app_nil_r in E. unfold pair_items. rewrite E. done.
Qed.

(** "type:number" *)
Lemma bandwidth_regex u v r : u ≠ [] → free_of ":" u = true → v ≠ [] → all_digits v = true → small (u ++ 58 :: v) →
  re_regex (Pl (Some ((u ++ 58 :: v) ++ r)) (Z.of_nat (length (u ++ 58 :: v)))) (bytes_of "[^:]+:[0-9]+") 2 =
    Ret (0, [Some (part_pl r (u, 58 :: v)); Some (part_pl r (v, []))]).
Proof.
  intros Hu Hf Hv Hd Hs. pose proof (small_cons _ _ _ Hs) as [Hsu Hsv].
  apply (regex_match [bracket true ":" "+"; Lit 58; digits_plus] _ (u ++ 58 :: v) r [(u, 58 :: v); (v, [])]); [done..|by destruct u|].
  rewrite greedy_token by done. rewrite greedy_lit. rewrite <- (app_nil_r v) at 1. by rewrite greedy_digits_plus.
Qed.

(** "IN IP4 address" *)
Definition conn_items : list item :=
  map Lit (bytes_of "IN IP") ++ [Class false [One (chr "4"); One (chr "6")] (chr "1"); Lit 32; bracket true " " "+"].

Lemma conn_greedy n t : n = chr "4" ∨ n = chr "6" → t ≠ [] → free_of " " t = true → small t →
  greedy conn_items (bytes_of "IN IP" ++ n :: 32 :: t) = Matched [([n], 32 :: t); (t, [])].
Proof.
  intros Hn Hne Hf Hs. unfold conn_items. cbn [bytes_of map Datatypes.app]. rewrite !greedy_lit.
  change (n :: 32 :: t) with ([n] ++ 32 :: t). rewrite (greedy_class _ _ _ _ _ _ 1 1); [|done|cbn; lia|by destruct Hn as [-> | ->]|].
  2: { done. }
  rewrite greedy_lit. rewrite <- (app_nil_r t) at 1. by rewrite greedy_token.
Qed.

Definition conn_text (n : Z) (t : list Z) : list Z := bytes_of "IN IP" ++ n :: 32 :: t.

Lemma conn_regex n t r : n = chr "4" ∨ n = chr "6" → t ≠ [] → free_of " " t = true → small t →
  re_regex (Pl (Some (conn_text n t ++ r)) (Z.of_nat (length (conn_text n t)))) (bytes_of "IN IP[46]1 [^ ]+") 2 =
    Ret (0, [Some (part_pl r ([n], 32 :: t)); Some (part_pl r (t, []))]).
Proof.
  intros Hn Hne Hf Hs. apply (regex_match conn_items _ (conn_text n t) r [([n], 32 :: t); (t, [])]); [done..|].
  by apply conn_greedy.
Qed.

(** "port IN IP4 address" *)
Lemma rtcp_regex d n t r : d ≠ [] → all_digits d = true → small d → n = chr "4" ∨ n = chr "6" → t ≠ [] → free_of " " t = true → small t →
  re_regex (Pl (Some ((d ++ 32 :: conn_text n t) ++ r)) (Z.of_nat (length (d ++ 32 :: conn_text n t)))) (bytes_of "[0-9]+ IN IP[46]1 [^ ]+") 3 =
    Ret (0, [Some (part_pl r (d, 32 :: conn_text n t)); Some (part_pl r ([n], 32 :: t)); Some (part_pl r (t, []))]).
Proof.
  intros Hd Hdd Hds Hn Hne Hf Hs.
  apply (regex_match (digits_plus :: Lit 32 :: conn_items) _ (d ++ 32 :: conn_text n t) r
    [(d, 32 :: conn_text n t); ([n], 32 :: t); (t, [])]); [done..|by destruct d|].
  rewrite greedy_digits_plus by done. rewrite greedy_lit. unfold conn_text. by rewrite conn_greedy.
Qed.

Lemma rtcp_none d r : d ≠ [] → all_digits d = true → small d →
  ∃ caps, re_regex (Pl (Some (d ++ r)) (Z.of_nat (length d))) (bytes_of "[0-9]+ IN IP[46]1 [^ ]+") 3 = Ret (ENOENT, caps).
Proof.
  intros Hd Hdd Hs. apply (regex_none (digits_plus :: Lit 32 :: conn_items) d r); [done|done|]. destruct d as [|c d]; [done|].
  cbn [search]. pose proof (greedy_digits_plus (Lit 32 :: conn_items) (c :: d) [] Hdd Hd Hs eq_refl) as E.
  rewrite app_nil_r in E. rewrite E. done.
Qed.

Lemma digits_regex d r : d ≠ [] → all_digits d = true → small d →
  re_regex (Pl (Some (d ++ r)) (Z.of_nat (length d))) (bytes_of "[0-9]+") 1 = Ret (0, [Some (part_pl r (d, []))]).
Proof.
  intros Hd Hdd Hs. apply (regex_match [digits_plus] _ d r [(d, [])]); [done..|].
  rewrite <- (app_nil_r d) at 1. by rewrite greedy_digits_plus.
Qed.

(** "id parameters" *)
Lemma fmtp_regex u v r : u ≠ [] → free_of " " u = true → small (u ++ 32 :: v) →
  re_regex (Pl (Some ((u ++ 32 :: v) ++ r)) (Z.of_nat (length (u ++ 32 :: v)))) (bytes_of "[^ ]+ [^]*") 2 =
    Ret (0, [Some (part_pl r (u, 32 :: v)); Some (part_pl r (v, []))]).
Proof.
  intros Hu Hf Hs. pose proof (small_cons _ _ _ Hs) as [Hsu Hsv].
  apply (regex_match [bracket true " " "+"; Lit 32; Class true [] (chr "*")] _ (u ++ 32 :: v) r [(u, 32 :: v); (v, [])]); [done..|by destruct u|].
  rewrite greedy_token by done. rewrite greedy_lit. rewrite (greedy_any _ v 0 4294967295); [done|done|]. unfold small in Hsv. lia.
Qed.

(** "id name/rate" and what may follow: nothing, or a slash and digits *)
Definition rtpmap_items : list item :=
  [bracket true " " "+"; Lit 32; bracket true "/" "+"; Lit 47; digits_plus; Class false [One 47] (chr "*"); Class true [] (chr "*")].

Definition rtpmap_text (i n d w : list Z) : list Z := i ++ 32 :: n ++ 47 :: d ++ w.

Lemma rtpmap_greedy i n d (c : option (list Z)) :
  let w := match c with Some c => 47 :: c | None => [] end in
  i ≠ [] → free_of " " i = true → n ≠ [] → free_of "/" n = true → d ≠ [] → all_digits d = true →
  match c with Some c => all_digits c = true | None => True end →
  small (rtpmap_text i n d w) →
  ∃ slash, greedy rtpmap_items (rtpmap_text i n d w) =
    Matched [(i, 32 :: n ++ 47 :: d ++ w); (n, 47 :: d ++ w); (d, w); (slash, default [] c); (default [] c, [])].
Proof.
  intros w Hi Hfi Hn Hfn Hd Hdd Hc Hs. unfold rtpmap_text in *. pose proof (small_cons _ _ _ Hs) as [Hsi Hs1].
  pose proof (small_cons _ _ _ Hs1) as [Hsn Hs2]. apply small_app in Hs2. assert (Hsd : small d) by (unfold small; lia).
  unfold rtpmap_items. rewrite greedy_token by done. rewrite greedy_lit, greedy_token by done. rewrite greedy_lit.
  rewrite greedy_digits_plus by (try done; by destruct c).
  assert (Hlast : ∀ c', Z.of_nat (length c') ≤ Z.of_nat (length w) → greedy [Class true [] (chr "*")] c' = Matched [(c', [])]).
  { intros c' Hl. apply (greedy_any _ c' 0 4294967295); [done|lia]. }
  destruct c as [c|]; cbn [default from_option id] in *; subst w.
  - exists [47]. pose proof (greedy_class false [One 47] (chr "*") [Class true [] (chr "*")] [47] c 0 4294967295) as E.
    cbn [Datatypes.app] in E. rewrite E; [by rewrite (Hlast c) by (cbn [length]; lia)|done|cbn; lia|done|].
    destruct c as [|b c]; [done|]. unfold all_digits in Hc. cbn [forallb] in Hc. apply andb_true_iff in Hc as [Hb _].
    apply bool_decide_eq_true_1 in Hb. rewrite (in_class_set false "/") by done. unfold one_of.
    apply bool_decide_eq_false_2. change (bytes_of "/") with [47]. rewrite list_elem_of_singleton. lia.
  - exists []. pose proof (greedy_class false [One 47] (chr "*") [Class true [] (chr "*")] [] [] 0 4294967295) as E.
    cbn [Datatypes.app] in E. rewrite E; [by rewrite (Hlast []) by (cbn; lia)|done|cbn; lia|done|done].
Qed.

Lemma rtpmap_regex i n d (c : option (list Z)) r :
  let w := match c with Some c => 47 :: c | None => [] end in
  i ≠ [] → free_of " " i = true → n ≠ [] → free_of "/" n = true → d ≠ [] → all_digits d = true →
  match c with Some c => all_digits c = true | None => True end →
  small (rtpmap_text i n d w) →
  ∃ q, re_regex (Pl (Some (rtpmap_text i n d w ++ r)) (Z.of_nat (length (rtpmap_text i n d w)))) (bytes_of "[^ ]+ [^/]+/[0-9]+[/]*[^]*") 5 =
    Ret (0, [Some (part_pl r (i, 32 :: n ++ 47 :: d ++ w)); Some (part_pl r (n, 47 :: d ++ w)); Some (part_pl r (d, w)); q;
      Some (part_pl r (default [] c, []))]).
Proof.
  intros w Hi Hfi Hn Hfn Hd Hdd Hc Hs. destruct (rtpmap_greedy i n d c Hi Hfi Hn Hfn Hd Hdd Hc Hs) as [slash E].
  exists (Some (part_pl r (slash, default [] c))).
  apply (regex_match rtpmap_items _ (rtpmap_text i n d w) r
    [(i, 32 :: n ++ 47 :: d ++ w); (n, 47 :: d ++ w); (d, w); (slash, default [] c); (default [] c, [])]); [done..| |exact E].
  unfold rtpmap_text. by destruct i.
Qed.

(** "name port protocol" and the formats *)
Definition letters (u : list Z) : bool := forallb (in_class false [Range (chr "a") (chr "z")]) u.

Definition media_items : list item :=
  [Class false [Range (chr "a") (chr "z")] (chr "+"); Lit 32; bracket true " " "+"; Lit 32; bracket true " " "+"; Class true [] (chr "*")].

Definition media_text (n p t w : list Z) : list Z := n ++ 32 :: p ++ 32 :: t ++ w.

Lemma media_regex n p t w r :
  n ≠ [] → letters n = true → p ≠ [] → free_of " " p = true → t ≠ [] → free_of " " t = true → stops " " w = true →
  small (media_text n p t w) →
  re_regex (Pl (Some (media_text n p t w ++ r)) (Z.of_nat (length (media_text n p t w)))) (bytes_of "[a-z]+ [^ ]+ [^ ]+[^]*") 4 =
    Ret (0, [Some (part_pl r (n, 32 :: p ++ 32 :: t ++ w)); Some (part_pl r (p, 32 :: t ++ w)); Some (part_pl r (t, w)); Some (part_pl r (w, []))]).
Proof.
  intros Hn Hln Hp Hfp Ht Hft Hw Hs. unfold media_text in *. pose proof (small_cons _ _ _ Hs) as [Hsn Hs1].
  pose proof (small_cons _ _ _ Hs1) as [Hsp Hs2]. apply small_app in Hs2.
  apply (regex_match media_items _ _ r [(n, 32 :: p ++ 32 :: t ++ w); (p, 32 :: t ++ w); (t, w); (w, [])]); [done..|by destruct n|].
  unfold media_items. rewrite (greedy_class _ _ _ _ _ _ 1 4294967295); [|done|pose proof (ne_len n Hn); unfold small in Hsn; lia|done|done].
  rewrite greedy_lit, greedy_token by done. rewrite greedy_lit, greedy_token by (done || unfold small; lia).
  rewrite (greedy_any _ w 0 4294967295); [done|done|lia].
Qed.
