(* ===== verification/SdpRound.v ===== *)
(** * A description that is printed and read

    What each printed line does to the media line of the reader, and the whole
    exchange: the session that read the text of another has the other's lines as
    its remote side. *)
From stdpp Require Import base tactics list numbers strings option.
From S2P Require Import Prelude Mbuf Fmt Print MbufPrint Regex Uri Sip SipMsg SipPrint Reply SdpMedia SdpMsg SdpSafe SdpText SdpLines.

(** ** Text that survives *)

(** Bytes that end neither a line nor a C string. *)
Definition plain_text (u : list Z) : Prop := Forall (λ b, b ≠ 0 ∧ b ≠ 13 ∧ b ≠ 10) u.

(** A word without the characters of [s]. *)
Definition word (s : string) (u : list Z) : Prop := u ≠ [] ∧ free_of s u = true ∧ plain_text u.

Lemma plain_c_string u : plain_text u → c_string u = u.
Proof. induction 1 as [|b u (H0 & _) _ IH]; [done|]. cbn [c_string]. by rewrite bool_decide_eq_false_2, IH. Qed.

Lemma plain_one_line u : plain_text u → one_line u.
Proof.
  intros H. eapply Forall_impl; [|exact H]. intros b (_ & H1 & H2). unfold eol. by rewrite !bool_decide_eq_false_2.
Qed.

Lemma plain_text_app u v : plain_text (u ++ v) ↔ plain_text u ∧ plain_text v.
Proof. apply Forall_app. Qed.

Lemma plain_bytes s : forallb (λ b, negb (bool_decide (b = 0 ∨ b = 13 ∨ b = 10))) (bytes_of s) = true → plain_text (bytes_of s).
Proof.
  generalize (bytes_of s). intros l. induction l as [|b l IH]; [by constructor|]. cbn [forallb]. intros [Hb Hl]%andb_true_iff.
  apply negb_true_iff, bool_decide_eq_false_1 in Hb. constructor; [tauto|by apply IH].
Qed.

Lemma digits_plain u : all_digits u = true → plain_text u.
Proof.
  unfold all_digits. induction u as [|c u IH]; [by constructor|]. cbn [forallb]. intros [Hc%bool_decide_eq_true_1 Hu]%andb_true_iff.
  constructor; [lia|by apply IH].
Qed.

Lemma dec_word n : 0 ≤ n < 2 ^ 32 → dec_text n ≠ [] ∧ all_digits (dec_text n) = true ∧ plain_text (dec_text n) ∧ small (dec_text n) ∧
  ∀ v r, pl_u32 (part_pl r (dec_text n, v)) = Ret n.
Proof.
  intros Hn. destruct (digits_dec n ltac:(lia)) as (Hd & Hne & Hv). split_and!; [done|done|by apply digits_plain| |].
  - unfold small. pose proof (dec_text_length n ltac:(lia)). lia.
  - intros v r. unfold part_pl. cbn [fst snd]. rewrite Hv, Z.mod_small by lia. done.
Qed.

Section effects.
Context (A : allocator) (HA : plenty A).
Context (sa_set : list Z → option sockaddr) (att_mem fmt_mem med_mem : pl → bool) (offer : bool).
Hypothesis Hatt : ∀ p, att_mem p = true.
Hypothesis Hfmt : ∀ p, fmt_mem p = true.
Hypothesis Hmed : ∀ p, med_mem p = true.

Local Abbreviation reads := (reads A sa_set att_mem fmt_mem med_mem offer).
Local Abbreviation reads_all := (reads_all A sa_set att_mem fmt_mem med_mem offer).

Lemma strdup_part r u v : plain_text u → small u → strdup_c A (part_pl r (u, v)) = Ret (0, Some u).
Proof using HA.
  clear Hatt Hfmt Hmed. intros Hp Hs. unfold strdup_c, pl_strdup, part_pl, small in *. cbn [pl_p pl_l fst snd].
  rewrite HA by (rewrite u64_id by lia; lia). rewrite pl_bytes_run. cbn [mbind outcome_bind fst snd option_map]. by rewrite plain_c_string.
Qed.

Lemma has_name_part r u v s : has_name (part_pl r (u, v)) s = Ret (bool_decide (u = bytes_of s)).
Proof using.
  clear. unfold has_name, part_pl. cbn [fst snd]. destruct (strcmp_known u (v ++ r) (bytes_of s)) as (e & -> & He).
  cbn [mbind outcome_bind]. f_equal. by apply bool_decide_ext.
Qed.

(** The format with the identifier [u]. *)
Definition format_index (l : list sdp_format) (u : list Z) : option nat := fst <$> list_find (λ f, fm_id f = Some u) l.

Lemma find_part r u v l : sdp_format_find l (part_pl r (u, v)) = Ret (format_index l u).
Proof using.
  clear. unfold format_index. induction l as [|f l IH]; [done|]. cbn [sdp_format_find list_find].
  assert (E : ∃ e, pl_strcmp (part_pl r (u, v)) (fm_id f) = Ret e ∧ (e = 0 ↔ fm_id f = Some u)).
  { destruct (fm_id f) as [i|].
    - unfold part_pl. cbn [fst snd]. destruct (strcmp_known u (v ++ r) i) as (e & -> & He). exists e. split; [done|]. rewrite He.
      split; [by intros -> |by intros [= ->]].
    - by exists EINVAL. }
  destruct E as (e & -> & He). cbn [mbind outcome_bind]. destruct (decide (fm_id f = Some u)) as [Hi|Hi].
  - rewrite bool_decide_eq_true_2 by tauto. done.
  - rewrite bool_decide_eq_false_2 by tauto. rewrite IH. cbn [mbind outcome_bind]. by destruct (list_find _ l) as [[j g]|].
Qed.

(** *** Lines of a media line *)

(** The line is read into the media line [l], which becomes [l']. *)
Definition acts (x : Z * list Z) (l l' : sdp_media) : Prop :=
  ∀ i s, ss_medial s !! i = Some l → reads x (Some i) s (Some i) (set_line (Some i) (Some l') s).

Lemma acts_attr v l l' :
  (∀ i s r, ss_medial s !! i = Some l →
     attr_decode A sa_set att_mem s (Some i) (Pl (Some (v ++ r)) (Z.of_nat (length v))) = Ret (0, set_line (Some i) (Some l') s)) →
  acts (chr "a", v) l l'.
Proof using.
  clear. intros H i s Hi r. unfold line_decode. cbn [fst snd]. rewrite bool_decide_eq_true_2 by done.
  rewrite (H i s r Hi). done.
Qed.

Lemma line_of_some i s l : ss_medial s !! i = Some l → line_of s (Some i) = Ret (Some l).
Proof using. clear. intros H. cbn. by rewrite H. Qed.

(** An attribute with a value, up to the comparison of its name. *)
Lemma attr_pair_run i s l u v r : ss_medial s !! i = Some l → u ≠ [] → free_of ":" u = true → v ≠ [] → small (u ++ 58 :: v) →
  let val := part_pl r (v, []) in
  let done (q : Z * option sdp_media) := Ret (fst q, set_line (Some i) (snd q) s) in
  (u = bytes_of "fmtp" → attr_decode A sa_set att_mem s (Some i) (Pl (Some ((u ++ 58 :: v) ++ r)) (Z.of_nat (length (u ++ 58 :: v)))) =
     q ← attr_decode_fmtp A (Some l) val; done q) ∧
  (u = bytes_of "rtcp" → attr_decode A sa_set att_mem s (Some i) (Pl (Some ((u ++ 58 :: v) ++ r)) (Z.of_nat (length (u ++ 58 :: v)))) =
     q ← attr_decode_rtcp sa_set (Some l) val; done q) ∧
  (u = bytes_of "rtpmap" → attr_decode A sa_set att_mem s (Some i) (Pl (Some ((u ++ 58 :: v) ++ r)) (Z.of_nat (length (u ++ 58 :: v)))) =
     q ← attr_decode_rtpmap A (Some l) val; done q).
Proof using.
  clear. intros Hi Hu Hf Hv Hs val done. unfold attr_decode. rewrite pair_regex by done. cbn [mbind outcome_bind fst snd].
  rewrite (bool_decide_eq_false_2 (0 ≠ 0)) by auto. change (result [Some ?a; Some ?b] 0) with (Ret a). change (result [Some ?a; Some ?b] 1) with (Ret b).
  cbn [mbind outcome_bind]. rewrite (line_of_some i s l Hi). cbn [mbind outcome_bind].
  split_and!; intros ->; repeat (rewrite has_name_part; first [rewrite (bool_decide_eq_false_2 (bytes_of _ = bytes_of _)) by done|
    rewrite (bool_decide_eq_true_2 (bytes_of _ = bytes_of _)) by done]; cbn [mbind outcome_bind]); reflexivity.
Qed.

Lemma fmtp_acts l u p j : word " " u → plain_text p → small (bytes_of "fmtp:" ++ u ++ 32 :: p) → format_index (md_rfmtl l) u = Some j →
  acts (chr "a", bytes_of "fmtp:" ++ u ++ bytes_of " " ++ p) l (set_md_rfmtl (alter (set_fm_params (Some p)) j (md_rfmtl l)) l).
Proof using HA.
  intros (Hu & Hf & Hp1) Hp Hs Hj. apply acts_attr. intros i s r Hi.
  change (bytes_of "fmtp:" ++ u ++ bytes_of " " ++ p) with (bytes_of "fmtp" ++ 58 :: u ++ 32 :: p).
  pose proof (small_cons 58 (bytes_of "fmtp") (u ++ 32 :: p) Hs) as [_ Hs1]. pose proof (small_cons _ _ _ Hs1) as [_ Hsp].
  destruct (attr_pair_run i s l (bytes_of "fmtp") (u ++ 32 :: p) r Hi) as (E & _ & _); [done|done|by destruct u|done|].
  rewrite (E eq_refl). unfold attr_decode_fmtp, part_pl. cbn [fst snd]. rewrite (fmtp_regex u p) by done. cbn [mbind outcome_bind].
  rewrite (bool_decide_eq_false_2 (0 ≠ 0)) by auto. change (result [Some ?a; Some ?b] 0) with (Ret a). change (result [Some ?a; Some ?b] 1) with (Ret b).
  cbn [mbind outcome_bind]. rewrite find_part, Hj. cbn [mbind outcome_bind]. rewrite strdup_part by done. reflexivity.
Qed.

(** What an rtpmap line tells about a format. *)
Definition mapped (n : list Z) (rate ch : Z) (f : sdp_format) : sdp_format := set_fm_ch ch (set_fm_srate rate (set_fm_name (Some n) f)).

Lemma rtpmap_acts l u n rate ch j : word " " u → word "/" n → 0 ≤ rate < 2 ^ 32 → 0 ≤ ch < 256 → format_index (md_rfmtl l) u = Some j →
  let v := bytes_of "rtpmap:" ++ u ++ bytes_of " " ++ n ++ bytes_of "/" ++ dec_text rate ++
    (if bool_decide (ch > 1) then bytes_of "/" ++ dec_text ch else []) in
  small v → acts (chr "a", v) l (set_md_rfmtl (alter (mapped n rate (if bool_decide (ch > 1) then ch else 1)) j (md_rfmtl l)) l).
Proof using HA.
  intros (Hu & Hf & Hp1) (Hn & Hfn & Hpn) Hr Hc Hj v Hs. apply acts_attr. intros i s r Hi.
  destruct (dec_word rate Hr) as (Hd & Hdd & _ & _ & Hdv). destruct (dec_word ch ltac:(lia)) as (Hcd & Hcdd & _ & _ & Hcv).
  set (c := if bool_decide (ch > 1) then Some (dec_text ch) else None).
  assert (Ev : v = bytes_of "rtpmap" ++ 58 :: rtpmap_text u n (dec_text rate) (match c with Some c => 47 :: c | None => [] end)).
  { subst v c. by destruct (bool_decide (ch > 1)). }
  clearbody v. subst v. pose proof (small_cons 58 (bytes_of "rtpmap") _ Hs) as [_ Hs1].
  destruct (attr_pair_run i s l (bytes_of "rtpmap") (rtpmap_text u n (dec_text rate) (match c with Some c => 47 :: c | None => [] end)) r Hi)
    as (_ & _ & E); [done|done|unfold rtpmap_text; by destruct u|done|].
  rewrite (E eq_refl). unfold attr_decode_rtpmap. unfold part_pl at 1. cbn [fst snd].
  destruct (rtpmap_regex u n (dec_text rate) c ([] ++ r)) as [q Eq]; try done; [subst c; by case_bool_decide|].
  rewrite Eq. cbn [mbind outcome_bind]. rewrite (bool_decide_eq_false_2 (0 ≠ 0)) by auto.
  change (result (Some ?a :: _) 0) with (Ret a). change (result (_ :: Some ?a :: _) 1) with (Ret a).
  change (result (_ :: _ :: Some ?a :: _) 2) with (Ret a). change (result [_; _; _; _; Some ?a] 4) with (Ret a).
  cbn [mbind outcome_bind]. rewrite find_part, Hj. cbn [mbind outcome_bind].
  assert (Hsn : small n). { unfold rtpmap_text in Hs1. apply small_cons in Hs1 as [_ Hs1]. by apply small_cons in Hs1 as [? _]. }
  rewrite strdup_part by done. cbn [mbind outcome_bind fst snd]. rewrite (bool_decide_eq_false_2 (0 ≠ 0)) by auto. rewrite Hdv.
  cbn [mbind outcome_bind]. subst c. case_bool_decide; cbn [default from_option id].
  - rewrite bool_decide_eq_false_2 by (unfold part_pl; cbn [pl_l fst]; destruct (dec_text ch); [done|cbn; lia]).
    rewrite Hcv. cbn [mbind outcome_bind]. rewrite u8_id by lia. reflexivity.
  - reflexivity.
Qed.

(** The text of an address, by which it can be found again. *)
Definition address (sa : sockaddr) (t : list Z) : Prop :=
  sa_text sa = Some t ∧ word " " t ∧ (length t < 64)%nat ∧ ∃ p, sa_set t = Some (SockAddr (Some t) p (sa_v6 sa)).

Lemma sa_set_part sa0 sa t r v port : address sa t → sa_set_pl sa_set sa0 (part_pl r (t, v)) port = Ret (SockAddr (Some t) (u16 port) (sa_v6 sa)).
Proof using.
  clear. intros (_ & (Hne & _ & Hp) & Hl & q & Hq). unfold sa_set_pl, pl_strcpy, part_pl. cbn [pl_p pl_l fst snd].
  rewrite bool_decide_eq_false_2 by done. rewrite memcpy_from_run by (rewrite ?length_app; lia).
  rewrite drop_0. rewrite Z.min_l by lia. rewrite Nat2Z.id, take_app_length. cbn [mbind outcome_bind snd].
  assert (Hc : c_string (t ++ [0]) = t).
  { clear -Hp. induction Hp as [|b t (H0 & _) _ IH]; [done|]. cbn [Datatypes.app c_string]. by rewrite bool_decide_eq_false_2, IH. }
  by rewrite Hc, Hq.
Qed.

Lemma conn_value_text sa t : address sa t → ∃ n, (n = chr "4" ∨ n = chr "6") ∧ conn_value sa = conn_text n t.
Proof using.
  clear. intros (Ht & _). unfold conn_value, ipver. rewrite Ht. rewrite (bool_decide_eq_false_2 (Some t = None)) by done. rewrite orb_false_r.
  cbn [default from_option id]. destruct (sa_v6 sa); [exists (chr "6")|exists (chr "4")]; (split; [tauto|]); reflexivity.
Qed.

Lemma address_small sa t : address sa t → small t.
Proof using. clear. intros (_ & _ & Hl & _). unfold small. lia. Qed.

Lemma conn_run sa0 sa t r : address sa t →
  conn_decode sa_set sa0 (Pl (Some (conn_value sa ++ r)) (Z.of_nat (length (conn_value sa)))) =
    Ret (0, SockAddr (Some t) (u16 (sa_port sa0)) (sa_v6 sa)).
Proof using.
  clear. intros Ha. destruct (conn_value_text sa t Ha) as (n & Hn & ->). pose proof Ha as (_ & (Hne & Hf & _) & _).
  unfold conn_decode. rewrite conn_regex by (try done; by eapply address_small). cbn [mbind outcome_bind].
  rewrite (bool_decide_eq_false_2 (0 ≠ 0)) by auto. change (result [Some ?a; Some ?b] 1) with (Ret b). cbn [mbind outcome_bind].
  by rewrite (sa_set_part _ sa t).
Qed.

Lemma conn_acts l sa t : address sa t → acts (chr "c", conn_value sa) l (set_md_raddr (SockAddr (Some t) (u16 (sa_port (md_raddr l))) (sa_v6 sa)) l).
Proof using.
  clear. intros Ha i s Hi r. unfold line_decode. cbn [fst snd]. rewrite !(bool_decide_eq_false_2 (chr "c" = _)), bool_decide_eq_true_2 by done.
  rewrite (line_of_some i s l Hi). cbn [mbind outcome_bind]. by rewrite (conn_run _ sa t).
Qed.

(** Any bandwidth of the five kinds. *)
Lemma bandwidth_run bwv i bw r : (i < 5)%nat → 0 ≤ bw < 2 ^ 31 →
  let v := sdp_bandwidth_name (Z.of_nat i) ++ bytes_of ":" ++ int_text bw in
  bandwidth_decode bwv (Pl (Some (v ++ r)) (Z.of_nat (length v))) = Ret (0, <[i := bw]> bwv).
Proof using.
  clear. intros Hi Hb v. destruct (dec_word bw ltac:(lia)) as (Hd & Hdd & _ & Hds & Hdv).
  assert (Hs32 : s32 bw = bw) by (unfold s32; rewrite Z.mod_small by lia; lia).
  subst v. unfold int_text. rewrite bool_decide_eq_false_2 by lia. set (d := dec_text bw) in *. unfold bandwidth_decode.
  assert (Hgo : ∀ u, u ≠ [] → free_of ":" u = true → Z.of_nat (length u) < 5 →
    re_regex (Pl (Some ((u ++ bytes_of ":" ++ d) ++ r)) (Z.of_nat (length (u ++ bytes_of ":" ++ d)))) (bytes_of "[^:]+:[0-9]+") 2 =
    Ret (0, [Some (part_pl r (u, 58 :: d)); Some (part_pl r (d, []))])).
  { intros u Hu Hf Hl. apply (bandwidth_regex u d r); try done.
    unfold small, d. rewrite length_app. cbn [length]. pose proof (dec_text_length bw ltac:(lia)). lia. }
  do 5 (destruct i as [|i]; [rewrite (Hgo (sdp_bandwidth_name _)) by done; cbn [mbind outcome_bind];
    rewrite (bool_decide_eq_false_2 (0 ≠ 0)) by auto; change (result [Some ?a; Some ?b] 0) with (Ret a);
    change (result [Some ?a; Some ?b] 1) with (Ret b); cbn [mbind outcome_bind];
    repeat (rewrite has_name_part; first [rewrite (bool_decide_eq_false_2 (sdp_bandwidth_name _ = bytes_of _)) by done|
    rewrite (bool_decide_eq_true_2 (sdp_bandwidth_name _ = bytes_of _)) by done]; cbn [mbind outcome_bind]);
    rewrite Hdv; cbn [mbind outcome_bind]; rewrite Hs32; reflexivity|]). lia.
Qed.

Lemma bandwidth_acts l i bw : (i < 5)%nat → 0 ≤ bw < 2 ^ 31 →
  acts (chr "b", sdp_bandwidth_name (Z.of_nat i) ++ bytes_of ":" ++ int_text bw) l (set_md_rbwv (<[i := bw]> (md_rbwv l)) l).
Proof using.
  clear. intros Hi Hb j s Hj r. unfold line_decode. cbn [fst snd]. rewrite !(bool_decide_eq_false_2 (chr "b" = chr "a")), bool_decide_eq_true_2 by done.
  rewrite (line_of_some j s l Hj). cbn [mbind outcome_bind]. by rewrite bandwidth_run.
Qed.

Lemma rtcp_acts l sa t : address sa t → 0 ≤ sa_port sa < 65536 →
  acts (chr "a", bytes_of "rtcp:" ++ dec_text (sa_port sa) ++ bytes_of " " ++ conn_value sa) l
    (set_md_raddr_rtcp (SockAddr (Some t) (sa_port sa) (sa_v6 sa)) l).
Proof using.
  clear. intros Ha Hp. apply acts_attr. intros i s r Hi. destruct (conn_value_text sa t Ha) as (n & Hn & ->).
  destruct (dec_word (sa_port sa) ltac:(lia)) as (Hd & Hdd & _ & Hds & Hdv). pose proof Ha as (_ & (Hne & Hf & _) & Hl & _).
  set (d := dec_text (sa_port sa)) in *.
  assert (Hld : Z.of_nat (length d) ≤ 62) by (pose proof (dec_text_length (sa_port sa) ltac:(lia)); unfold d; lia).
  change (bytes_of "rtcp:" ++ d ++ bytes_of " " ++ conn_text n t) with (bytes_of "rtcp" ++ 58 :: d ++ 32 :: conn_text n t).
  destruct (attr_pair_run i s l (bytes_of "rtcp") (d ++ 32 :: conn_text n t) r Hi) as (_ & E & _); [done|done|by destruct d| |].
  { unfold small, conn_text. cbn [bytes_of Datatypes.app length]. rewrite length_app. cbn [length]. lia. }
  rewrite (E eq_refl). unfold attr_decode_rtcp, part_pl. cbn [fst snd]. rewrite rtcp_regex by (try done; by eapply address_small).
  cbn [mbind outcome_bind fst snd]. rewrite (bool_decide_eq_true_2 (0 = 0)) by done.
  change (result (Some ?a :: _) 0) with (Ret a). change (result [_; _; Some ?a] 2) with (Ret a). cbn [mbind outcome_bind].
  rewrite Hdv. cbn [mbind outcome_bind]. rewrite (sa_set_part _ sa t) by done. cbn [mbind outcome_bind]. by rewrite u16_id by lia.
Qed.

Lemma rtcp_port_acts l port : 0 ≤ port < 65536 →
  acts (chr "a", bytes_of "rtcp:" ++ dec_text port) l (set_md_raddr_rtcp (sa_set_port (md_raddr_rtcp l) port) l).
Proof using.
  clear. intros Hp. apply acts_attr. intros i s r Hi. destruct (dec_word port ltac:(lia)) as (Hd & Hdd & _ & Hds & Hdv).
  set (d := dec_text port) in *. assert (Hld : Z.of_nat (length d) ≤ 62) by (pose proof (dec_text_length port ltac:(lia)); unfold d; lia).
  change (bytes_of "rtcp:" ++ d) with (bytes_of "rtcp" ++ 58 :: d).
  destruct (attr_pair_run i s l (bytes_of "rtcp") d r Hi) as (_ & E & _); [done|done|done| |].
  { unfold small. cbn [bytes_of Datatypes.app length]. lia. }
  rewrite (E eq_refl). unfold attr_decode_rtcp, part_pl. cbn [fst snd]. destruct (rtcp_none d ([] ++ r) Hd Hdd Hds) as [caps ->].
  cbn [mbind outcome_bind fst snd]. rewrite (bool_decide_eq_false_2 (ENOENT = 0)) by done. rewrite digits_regex by done.
  cbn [mbind outcome_bind fst snd]. rewrite (bool_decide_eq_true_2 (0 = 0)) by done. change (result [Some ?a] 0) with (Ret a).
  cbn [mbind outcome_bind]. rewrite Hdv. reflexivity.
Qed.

(** The direction the other side sees. *)
Definition flip_dir (d : Z) : Z := if bool_decide (d = SDP_RECVONLY) then SDP_SENDONLY else if bool_decide (d = SDP_SENDONLY) then SDP_RECVONLY else d.

Lemma dir_acts l d : 0 ≤ d < 4 → acts (chr "a", sdp_dir_name d) l (set_md_rdir (flip_dir d) l).
Proof using.
  clear. intros Hd. apply acts_attr. intros i s r Hi. unfold attr_decode.
  assert (Hn : sdp_dir_name d ≠ [] ∧ free_of ":" (sdp_dir_name d) = true ∧ small (sdp_dir_name d)).
  { assert (d = 0 ∨ d = 1 ∨ d = 2 ∨ d = 3) as [-> |[-> |[-> | ->]]] by lia; split_and!; done. }
  destruct Hn as (H1 & H2 & H3). destruct (pair_none (sdp_dir_name d) r H1 H2 H3) as [caps ->]. cbn [mbind outcome_bind fst snd].
  rewrite (bool_decide_eq_true_2 (ENOENT ≠ 0)) by done. cbn [mbind outcome_bind]. rewrite (line_of_some i s l Hi). cbn [mbind outcome_bind].
  clear H1 H2 H3. assert (d = 0 ∨ d = 1 ∨ d = 2 ∨ d = 3) as [-> |[-> |[-> | ->]]] by lia;
    match goal with |- context [Pl (Some (?u ++ r)) _] => change (Pl (Some (u ++ r)) (Z.of_nat (length u))) with (part_pl r (u, [])) end;
    repeat (rewrite has_name_part; first [rewrite (bool_decide_eq_false_2 (sdp_dir_name _ = bytes_of _)) by done|
      rewrite (bool_decide_eq_true_2 (sdp_dir_name _ = bytes_of _)) by done]; cbn [mbind outcome_bind]); reflexivity.
Qed.

(** The names that [attr_decode] takes for itself. *)
Definition special_names : list string := ["fmtp"; "inactive"; "recvonly"; "rtcp"; "rtpmap"; "sendonly"; "sendrecv"]%string.

Definition attr_ok (a : sdp_attr) : Prop :=
  ∃ n, at_name a = Some n ∧ word ":" n ∧ n ∉ map bytes_of special_names ∧
    match at_val a with Some v => v ≠ [] ∧ plain_text v | None => True end.

(** The list an attribute is added to, and its effect. *)
Definition add_attr (m : option nat) (a : sdp_attr) (s : sdp_session) (l : option sdp_media) : sdp_session :=
  match l with
  | Some l => set_line m (Some (set_md_rattrl (md_rattrl l ++ [a]) l)) s
  | None => set_ss_rattrl (ss_rattrl s ++ [a]) s
  end.

Lemma attr_run a m s l r : attr_ok a → line_of s m = Ret l → small (snd (attr_line a)) →
  attr_decode A sa_set att_mem s m (Pl (Some (snd (attr_line a) ++ r)) (Z.of_nat (length (snd (attr_line a))))) = Ret (0, add_attr m a s l).
Proof using HA Hatt.
  clear Hfmt Hmed. intros (n & En & (Hne & Hf & Hp) & Hspec & Hv) Hl. destruct a as [an av]. cbn [at_name at_val] in *. subst an.
  unfold attr_line. cbn [at_name at_val snd str default from_option id]. intros Hs.
  assert (Hcase : ∃ caps e val, re_regex (Pl (Some ((match av with Some v => n ++ bytes_of ":" ++ v | None => n end) ++ r))
      (Z.of_nat (length (match av with Some v => n ++ bytes_of ":" ++ v | None => n end)))) (bytes_of "[^:]+:[^]+") 2 = Ret (e, caps) ∧
      ∃ w, (if bool_decide (e ≠ 0) then Ret (Pl (Some ((match av with Some v => n ++ bytes_of ":" ++ v | None => n end) ++ r))
      (Z.of_nat (length (match av with Some v => n ++ bytes_of ":" ++ v | None => n end))), pl_null)
        else name ← result caps 0; val ← result caps 1; Ret (name, val)) = Ret (part_pl r (n, w), val) ∧
      match av with Some v => val = part_pl r (v, []) | None => val = pl_null end).
  { destruct av as [v|].
    - destruct Hv as [Hv _]. exists [Some (part_pl r (n, 58 :: v)); Some (part_pl r (v, []))], 0, (part_pl r (v, [])). split; [by apply pair_regex|].
      exists (58 :: v). rewrite (bool_decide_eq_false_2 (0 ≠ 0)) by auto. done.
    - destruct (pair_none n r Hne Hf Hs) as [caps E]. exists caps, ENOENT, pl_null. split; [done|]. exists [].
      rewrite (bool_decide_eq_true_2 (ENOENT ≠ 0)) by done. done. }
  destruct Hcase as (caps & e & val & E1 & w & E2 & Hval). unfold attr_decode. rewrite E1. cbn [mbind outcome_bind fst snd]. rewrite E2.
  cbn [mbind outcome_bind]. rewrite Hl. cbn [mbind outcome_bind].
  assert (Hno : ∀ t, t ∈ special_names → has_name (part_pl r (n, w)) t = Ret false).
  { intros t Ht. rewrite has_name_part. f_equal. apply bool_decide_eq_false_2. intros ->. apply Hspec, list_elem_of_fmap. by exists t. }
  do 7 (rewrite Hno by closed; cbn [mbind outcome_bind]).
  unfold sdp_attr_add. rewrite Hatt. cbn [negb].
  assert (Hsn : small n) by (unfold small in *; destruct av; [rewrite length_app in Hs|]; lia).
  rewrite strdup_part by done. cbn [mbind outcome_bind fst snd]. unfold add_attr. destruct av as [v|]; subst val.
  - destruct Hv as [Hv Hpv]. assert (Hi : pl_isset (part_pl r (v, [])) = true).
    { unfold pl_isset, part_pl. cbn [pl_p pl_l fst snd]. apply negb_true_iff, bool_decide_eq_false_2. pose proof (ne_len v Hv). lia. }
    rewrite Hi. assert (Hsv : small v) by (unfold small in *; rewrite !length_app in Hs; lia).
    rewrite strdup_part by done. cbn [mbind outcome_bind fst snd]. change (Z.lor 0 0) with 0. rewrite (bool_decide_eq_true_2 (0 = 0)) by done.
    by destruct l.
  - cbn [pl_isset pl_null pl_p mbind outcome_bind fst snd]. change (Z.lor 0 0) with 0. rewrite (bool_decide_eq_true_2 (0 = 0)) by done.
    by destruct l.
Qed.

Lemma attr_acts a l : attr_ok a → small (snd (attr_line a)) → acts (attr_line a) l (set_md_rattrl (md_rattrl l ++ [a]) l).
Proof using HA Hatt.
  intros Ha Hs. destruct (attr_line a) as [t v] eqn:E. assert (t = chr "a") as -> by (unfold attr_line in E; congruence).
  replace v with (snd (attr_line a)) by by rewrite E. apply acts_attr. intros i s r Hi.
  by apply (attr_run a (Some i) s (Some l)); [|apply line_of_some|rewrite E].
Qed.

Lemma session_attr_reads a s : attr_ok a → small (snd (attr_line a)) → reads (attr_line a) None s None (set_ss_rattrl (ss_rattrl s ++ [a]) s).
Proof using HA Hatt.
  intros Ha Hs r. unfold line_decode. rewrite (bool_decide_eq_true_2 (fst (attr_line a) = chr "a")) by done.
  by rewrite (attr_run a None s None).
Qed.

(** *** The line itself *)

Definition named (n p : list Z) (m : sdp_media) : Prop := md_name m = Some n ∧ md_proto m = Some p.
#[local] Instance named_dec n p m : Decision (named n p m).
Proof. unfold named. apply _. Defined.

(** The line of the reader for a media line of these names, as in [media_line]. *)
Definition take_line (next : nat) (n p : list Z) (s : sdp_session) : option sdp_session :=
  match ss_medial s !! next with
  | Some m => if bool_decide (named n p m) then Some s else None
  | None =>
      if negb offer then None
      else
        match list_find (named n p) (ss_lmedial s) with
        | Some (j, m) => Some (set_ss_medial (ss_medial s ++ [m]) (set_ss_lmedial (delete j (ss_lmedial s)) s))
        | None => Some (set_ss_medial (ss_medial s ++ [set_md_names (Some n) (Some p) (set_md_disabled true media_new)]) s)
        end
  end.

Lemma strcmp_part r u v t : ∃ e, pl_strcmp (part_pl r (u, v)) t = Ret e ∧ (e = 0 ↔ t = Some u).
Proof using.
  clear. destruct t as [t|]; [|by exists EINVAL]. unfold part_pl. cbn [fst snd]. destruct (strcmp_known u (v ++ r) t) as (e & -> & He).
  exists e. split; [done|]. rewrite He. split; [by intros ->|by intros [= ->]].
Qed.

Lemma find_media_run r n v p w l :
  find_media l (part_pl r (n, v)) (part_pl r (p, w)) = Ret (fst <$> list_find (named n p) l).
Proof using.
  clear. induction l as [|m l IH]; [done|]. cbn [find_media list_find].
  destruct (strcmp_part r n v (md_name m)) as (e & -> & He). cbn [mbind outcome_bind].
  destruct (strcmp_part r p w (md_proto m)) as (e2 & E2 & He2). rewrite E2.
  assert (Hrest : (r ← find_media l (part_pl r (n, v)) (part_pl r (p, w)); Ret (option_map S r)) =
    Ret (fst <$> (prod_map S id <$> list_find (named n p) l))) by (rewrite IH; by destruct (list_find _ l) as [[j g]|]).
  destruct (decide (named n p m)) as [[H1 H2]|Hno].
  - rewrite (bool_decide_eq_true_2 (e = 0)) by tauto. cbn [mbind outcome_bind]. by rewrite bool_decide_eq_true_2 by tauto.
  - destruct (decide (e = 0)) as [He0|He0].
    + rewrite bool_decide_eq_true_2 by done. cbn [mbind outcome_bind]. rewrite bool_decide_eq_false_2; [exact Hrest|].
      intros E0. apply Hno. split; tauto.
    + rewrite bool_decide_eq_false_2 by done. cbn [mbind outcome_bind]. exact Hrest.
Qed.

Lemma media_line_run next n p s s' r v w : take_line next n p s = Some s' → plain_text n → small n → plain_text p → small p →
  media_line A med_mem s offer next (part_pl r (n, v)) (part_pl r (p, w)) = Ret (0, s').
Proof using HA Hmed.
  clear -HA Hmed. unfold take_line, media_line. intros Ht Hpn Hsn Hpp Hsp. destruct (ss_medial s !! next) as [m|].
  - destruct (strcmp_part r n v (md_name m)) as (e & -> & He). cbn [mbind outcome_bind].
    destruct (strcmp_part r p w (md_proto m)) as (e2 & E2 & He2). rewrite E2. cbn [mbind outcome_bind].
    revert Ht. case_bool_decide as Hn; [|done]. intros [= <-]. destruct Hn as [H1 H2].
    rewrite !bool_decide_eq_false_2 by tauto. done.
  - destruct offer; cbn [negb] in *; [|done]. unfold sdp_media_find. rewrite find_media_run. cbn [mbind outcome_bind].
    destruct (list_find (named n p) (ss_lmedial s)) as [[j m]|] eqn:Ef; cbn [fmap option_fmap option_map fst]; injection Ht as <-.
    + apply list_find_Some in Ef as (-> & _ & _). done.
    + unfold sdp_media_radd. rewrite Hmed. cbn [negb]. rewrite !strdup_part by done. cbn [mbind outcome_bind fst snd].
      change (Z.lor 0 0) with 0. by rewrite (bool_decide_eq_false_2 (0 ≠ 0)) by auto.
Qed.

(** A remote format that is only listed. *)
Definition listed_format (u : list Z) : sdp_format := set_fm_pt (atoi u) (set_fm_id (Some u) format_zero).

Definition ids_text (ids : list (list Z)) : list Z := concat (map (λ u, 32 :: u) ids).

Lemma ids_stop ids : stops " " (ids_text ids) = true.
Proof using. clear. by destruct ids. Qed.

Lemma set_md_rfmtl_same l : set_md_rfmtl (md_rfmtl l) l = l.
Proof using. clear. by destruct l. Qed.

Lemma formats_run r ids : Forall (λ u, word " " u ∧ small u) ids → ∀ fuel l, (length (ids_text ids) < fuel)%nat → small (ids_text ids) →
  formats_loop A fmt_mem fuel l (Pl (Some (ids_text ids ++ r)) (Z.of_nat (length (ids_text ids)))) =
    Ret (0, set_md_rfmtl (md_rfmtl l ++ map listed_format ids) l).
Proof using HA Hfmt.
  clear -HA Hfmt. induction 1 as [|u ids [(Hu & Hf & Hp) Hs] _ IH]; intros [|fuel] l Hfu Hsm; [cbn in Hfu; lia| |cbn in Hfu; lia|].
  - cbn. rewrite app_nil_r. by rewrite set_md_rfmtl_same.
  - cbn [formats_loop]. change (ids_text (u :: ids)) with (32 :: u ++ ids_text ids) in *.
    assert (E : re_regex (Pl (Some ((32 :: u ++ ids_text ids) ++ r)) (Z.of_nat (length (32 :: u ++ ids_text ids)))) (bytes_of " [^ ]+") 1 =
      Ret (0, [Some (part_pl r (u, ids_text ids))])).
    { apply (regex_match format_items _ _ r [(u, ids_text ids)]); [done..|].
      change format_items with [Lit 32; bracket true " " "+"]. rewrite greedy_lit.
      by rewrite greedy_token by (done || apply ids_stop). }
    rewrite E. cbn [mbind outcome_bind]. rewrite (bool_decide_eq_false_2 (0 ≠ 0)) by auto.
    change (result [Some ?a] 0) with (Ret a). cbn [mbind outcome_bind]. unfold sdp_format_radd. rewrite Hfmt. cbn [negb].
    rewrite strdup_part by done. cbn [mbind outcome_bind]. rewrite (bool_decide_eq_false_2 (0 ≠ 0)) by auto. cbn [mbind outcome_bind fst snd].
    rewrite (bool_decide_eq_false_2 (0 ≠ 0)) by auto. pose proof (advance_format [] u (ids_text ids) r) as Ea. cbn zeta in Ea.
    change ([] ++ 32 :: u ++ ids_text ids) with (32 :: u ++ ids_text ids) in Ea. unfold part_pl. cbn [fst snd]. rewrite Ea. cbn [length] in Hfu. rewrite length_app in Hfu.
    rewrite IH; [|lia|unfold small in *; cbn [length] in Hsm; rewrite length_app in Hsm; lia].
    cbn [md_rfmtl set_md_rfmtl map]. by rewrite <- app_assoc.
Qed.

Definition next_of (m : option nat) : nat := match m with Some i => S i | None => O end.

(** The line as [media_decode] leaves it. *)
Definition fresh_line (s : sdp_session) (port : Z) (ids : list (list Z)) (l : sdp_media) : sdp_media :=
  set_md_rdir (ss_rdir s) (set_md_raddr (sa_set_port (ss_raddr s) port) (set_md_rfmtl (md_rfmtl l ++ map listed_format ids) l)).

Lemma media_reads m s n port p ids s1 l :
  let v := media_text n (dec_text port) p (ids_text ids) in
  take_line (next_of m) n p s = Some s1 → ss_medial s1 !! next_of m = Some l →
  n ≠ [] → letters n = true → plain_text n → word " " p → 0 ≤ port < 65536 → Forall (word " ") ids → small v →
  reads (chr "m", v) m s (Some (next_of m)) (set_line (Some (next_of m)) (Some (fresh_line s1 port ids l)) s1).
Proof using HA Hfmt Hmed.
  clear Hatt. intros v Ht Hl Hn Hln Hpn (Hp & Hfp & Hpp) Hport Hids Hs r. unfold line_decode. cbn [fst snd].
  rewrite !(bool_decide_eq_false_2 (chr "m" = _)), bool_decide_eq_true_2 by done.
  destruct (dec_word port ltac:(lia)) as (Hd & Hdd & _ & Hds & Hdv). unfold media_decode. subst v.
  pose proof Hs as Hs'. unfold media_text in Hs'. apply small_cons in Hs' as [Hsn Hs1]. apply small_cons in Hs1 as [_ Hs2].
  apply small_app in Hs2. assert (Hsp : small p) by (unfold small; lia). assert (Hsi : small (ids_text ids)) by (unfold small; lia).
  rewrite media_regex; [|done|done|done|by apply digits_free|done|done|apply ids_stop|done]. cbn [mbind outcome_bind].
  rewrite (bool_decide_eq_false_2 (0 ≠ 0)) by auto.
  change (result (Some ?a :: _) 0) with (Ret a). change (result (_ :: Some ?a :: _) 1) with (Ret a).
  change (result (_ :: _ :: Some ?a :: _) 2) with (Ret a). change (result [_; _; _; Some ?a] 3) with (Ret a). cbn [mbind outcome_bind].
  fold (next_of m). rewrite (media_line_run _ n p s s1) by done. cbn [mbind outcome_bind]. rewrite (bool_decide_eq_false_2 (0 ≠ 0)) by auto.
  rewrite Hl. cbn [of_option mbind outcome_bind].
  change (part_pl r (ids_text ids, [])) with (Pl (Some (ids_text ids ++ [] ++ r)) (Z.of_nat (length (ids_text ids)))).
  cbn [pl_l]. rewrite Nat2Z.id.
  assert (Hids2 : Forall (λ u, word " " u ∧ small u) ids).
  { apply Forall_forall. intros u Hu. split; [by eapply Forall_forall in Hids|].
    unfold small in *. enough (length u ≤ length (ids_text ids))%nat by lia. clear -Hu.
    induction ids as [|w ids IH]; [done|]. change (ids_text (w :: ids)) with (32 :: w ++ ids_text ids). cbn [length]. rewrite length_app.
    destruct Hu as [-> |Hu]; [lia|]. specialize (IH Hu). lia. }
  rewrite (formats_run ([] ++ r) ids Hids2) by (done || lia). cbn [mbind outcome_bind]. rewrite (bool_decide_eq_false_2 (0 ≠ 0)) by auto.
  rewrite Hdv. reflexivity.
Qed.

(** ** Lines in a row *)

Inductive chain {X} (R : Z * list Z → X → X → Prop) : list (Z * list Z) → X → X → Prop :=
  | chain_nil x : chain R [] x x
  | chain_cons y ls x1 x2 x3 : line_ok y → R y x1 x2 → chain R ls x2 x3 → chain R (y :: ls) x1 x3.

Lemma chain_app {X} (R : Z * list Z → X → X → Prop) l1 l2 x1 x2 x3 : chain R l1 x1 x2 → chain R l2 x2 x3 → chain R (l1 ++ l2) x1 x3.
Proof using. clear. induction 1; [done|]. intros H2. cbn [Datatypes.app]. econstructor; eauto. Qed.

Lemma chain_one {X} (R : Z * list Z → X → X → Prop) y x1 x2 : line_ok y → R y x1 x2 → chain R [y] x1 x2.
Proof using. clear. intros H1 H2. econstructor; [done|exact H2|constructor]. Qed.

Lemma set_line_lookup i l s : (i < length (ss_medial s))%nat → ss_medial (set_line (Some i) (Some l) s) !! i = Some l.
Proof using. clear. intros H. cbn. by apply list_lookup_insert_eq. Qed.

Lemma set_line_twice i l l' s : set_line (Some i) (Some l') (set_line (Some i) (Some l) s) = set_line (Some i) (Some l') s.
Proof using. clear. unfold set_line. cbn [ss_medial set_ss_medial]. by rewrite list_insert_insert_eq. Qed.

Lemma set_line_same i l s : ss_medial s !! i = Some l → set_line (Some i) (Some l) s = s.
Proof using. clear. intros H. unfold set_line. rewrite list_insert_id by done. by destruct s. Qed.

Lemma acts_reads ls l l' i s : chain acts ls l l' → ss_medial s !! i = Some l → reads_all ls (Some i) s (Some i) (set_line (Some i) (Some l') s).
Proof using.
  intros H. revert s. induction H as [l|y ls l1 l2 l3 Hy Hr _ IH]; intros s Hi; [rewrite set_line_same by done; constructor|].
  pose proof (lookup_lt_Some _ _ _ Hi) as Hlt. econstructor; [done|by apply Hr|].
  rewrite <- (set_line_twice i l2 l3 s). apply IH. by apply set_line_lookup.
Qed.

Lemma session_reads ls s s' : chain (λ x s s', reads x None s None s') ls s s' → reads_all ls None s None s'.
Proof using. induction 1; econstructor; eauto. Qed.

(** Attributes that are appended, bandwidths that are stored. *)
Section rows.
Context {X : Type} (R : Z * list Z → X → X → Prop).

Lemma attrs_chain (g : X → list sdp_attr) (f : list sdp_attr → X → X) attrs x :
  (∀ v x, g (f v x) = v) → (∀ v w x, f v (f w x) = f v x) → (∀ x, f (g x) x = x) →
  (∀ a x, attr_ok a → small (snd (attr_line a)) → R (attr_line a) x (f (g x ++ [a]) x)) →
  Forall attr_ok attrs → Forall (λ y, small (snd y)) (map attr_line attrs) →
  chain R (map attr_line attrs) x (f (g x ++ attrs) x).
Proof using.
  clear. intros Hg Hff Hs HR Ha. revert x. induction Ha as [|a attrs Ha Has IH]; intros x Hl.
  { rewrite app_nil_r, Hs. constructor. }
  apply Forall_cons_1 in Hl as [Hl1 Hl]. cbn [map]. econstructor; [|by apply HR|].
  - destruct Ha as (n & En & (_ & _ & Hn) & _ & Hv). split; [done|]. split; [done|]. cbn. rewrite En. apply plain_one_line.
    destruct (at_val a) as [v|]; [|done]. apply plain_text_app. split; [done|]. constructor; [done|apply Hv].
  - pose proof (IH (f (g x ++ [a]) x) Hl) as H. rewrite Hg, Hff, <- app_assoc in H. exact H.
Qed.

Definition stored_bw (bw : Z) : Z := if bool_decide (bw < 0) then -1 else bw.

Lemma name_plain i bw : (i < 5)%nat → 0 ≤ bw < 2 ^ 31 → one_line (sdp_bandwidth_name (Z.of_nat i) ++ bytes_of ":" ++ int_text bw).
Proof using.
  clear. intros Hi Hb. apply plain_one_line, plain_text_app. split.
  - do 5 (destruct i as [|i]; [by apply plain_bytes|]). lia.
  - apply plain_text_app. split; [by apply plain_bytes|]. unfold int_text. rewrite bool_decide_eq_false_2 by lia. by apply (dec_word bw); lia.
Qed.

Lemma bandwidths_chain (g : X → list Z) (f : list Z → X → X) bws :
  (∀ v x, g (f v x) = v) → (∀ v w x, f v (f w x) = f v x) → (∀ x, f (g x) x = x) →
  (∀ i bw x, (i < 5)%nat → 0 ≤ bw < 2 ^ 31 → R (chr "b", sdp_bandwidth_name (Z.of_nat i) ++ bytes_of ":" ++ int_text bw) x (f (<[i := bw]> (g x)) x)) →
  Forall (λ bw, - 2 ^ 31 ≤ bw < 2 ^ 31) bws → ∀ pre x, (length pre + length bws = 5)%nat → g x = pre ++ replicate (length bws) (-1) →
  chain R (concat (map bandwidth_line (imap (λ i bw, (Z.of_nat (length pre + i), bw)) bws))) x (f (pre ++ map stored_bw bws) x).
Proof using.
  clear. intros Hg Hff Hs HR Hb. induction Hb as [|bw bws Hbw _ IH]; intros pre x Hl Hx.
  { cbn [length replicate] in Hx. cbn [map concat imap]. rewrite <- Hx, Hs. constructor. }
  cbn [length] in *. rewrite imap_cons, !map_cons, concat_cons, Nat.add_0_r.
  assert (Ei : imap ((λ i bw, (Z.of_nat (length pre + i), bw)) ∘ S) bws = imap (λ i bw0, (Z.of_nat (length (pre ++ [stored_bw bw]) + i), bw0)) bws).
  { apply imap_ext. intros i b _. cbn. do 2 f_equal. rewrite length_app. cbn. lia. }
  rewrite Ei.
  assert (Hnext : ∀ x', g x' = (pre ++ [stored_bw bw]) ++ replicate (length bws) (-1) →
    f ((pre ++ [stored_bw bw]) ++ map stored_bw bws) x' = f (pre ++ stored_bw bw :: map stored_bw bws) x →
    chain R (concat (map bandwidth_line (imap (λ i bw0, (Z.of_nat (length (pre ++ [stored_bw bw]) + i), bw0)) bws))) x'
      (f (pre ++ stored_bw bw :: map stored_bw bws) x)).
  { intros x' Hx' <-. apply IH; [rewrite length_app; cbn; lia|done]. }
  unfold bandwidth_line at 1. cbn [fst snd]. destruct (decide (bw < 0)) as [Hneg|Hpos].
  - rewrite bool_decide_eq_true_2 by done. cbn [Datatypes.app]. apply Hnext; [|by rewrite <- app_assoc].
    assert (stored_bw bw = -1) as -> by (unfold stored_bw; by rewrite bool_decide_eq_true_2). by rewrite <- app_assoc.
  - assert (Est : stored_bw bw = bw) by (unfold stored_bw; by rewrite bool_decide_eq_false_2).
    rewrite bool_decide_eq_false_2 by done. cbn [Datatypes.app].
    econstructor; [split; [done|split; [done|apply name_plain; lia]]|apply HR; lia|]. apply Hnext.
    + rewrite Hg, Hx, Est, <- app_assoc. replace (length pre) with (length pre + 0)%nat at 1 by lia. by rewrite insert_app_r.
    + by rewrite <- app_assoc, Hff.
Qed.
End rows.

(** *** The maps of the formats *)

(** A format that survives being printed and read. *)
Definition sent_ok (f : sdp_format) : Prop :=
  ∃ i, fm_id f = Some i ∧ word " " i ∧ 0 ≤ fm_srate f < 2 ^ 32 ∧ 0 ≤ fm_ch f < 256 ∧
    (is_set (fm_name f) = true → word "/" (str (fm_name f))) ∧ (is_set (fm_params f) = true → plain_text (str (fm_params f))).

(** What the reader knows about it: of a format without a name only the
    identifier; one channel is not printed. *)
Definition remote_format (f : sdp_format) : sdp_format :=
  let r := listed_format (str (fm_id f)) in
  if is_set (fm_name f) then
    let r := mapped (str (fm_name f)) (fm_srate f) (if bool_decide (fm_ch f > 1) then fm_ch f else 1) r in
    if is_set (fm_params f) then set_fm_params (fm_params f) r else r
  else r.

Lemma format_index_at d g r u : Forall (λ f, fm_id f ≠ Some u) d → fm_id g = Some u → format_index (d ++ g :: r) u = Some (length d).
Proof using.
  clear. intros Hd Hg. unfold format_index. rewrite list_find_app_r; [|by apply list_find_None].
  cbn [list_find]. by rewrite decide_True by done.
Qed.

Lemma alter_at (h : sdp_format → sdp_format) d g r : alter h (length d) (d ++ g :: r) = d ++ h g :: r.
Proof using. clear. induction d as [|x d IH]; [done|]. cbn [length Datatypes.app]. change (alter h (S (length d)) (x :: d ++ g :: r)) with (x :: alter h (length d) (d ++ g :: r)). by rewrite IH. Qed.

Lemma rtpmap_line_ok f : sent_ok f → is_set (fm_name f) = true → line_ok (chr "a", rtpmap_value f) ∧
  (is_set (fm_params f) = true → line_ok (chr "a", fmtp_value f)).
Proof using.
  clear. intros (i & Hi & (_ & _ & Hpi) & Hr & Hc & Hn & Hp) Hname. destruct (Hn Hname) as (_ & _ & Hpn).
  destruct (dec_word (fm_srate f) Hr) as (_ & _ & Hd & _). destruct (dec_word (fm_ch f) ltac:(lia)) as (_ & _ & Hcd & _).
  unfold rtpmap_value, fmtp_value. rewrite Hi. cbn [str default from_option id].
  split; [|intros Hset]; (split; [done|split; [done|]]); apply plain_one_line; cbn [snd]; rewrite !plain_text_app;
    repeat match goal with |- _ ∧ _ => split end; try done; try by apply plain_bytes.
  - case_bool_decide; [|by constructor]. apply plain_text_app. split; [by apply plain_bytes|done].
  - by apply Hp.
Qed.

Lemma is_set_some s : is_set s = true → s = Some (str s).
Proof using. clear. by destruct s as [[|]|]. Qed.

Lemma rtpmaps_acts todo : ∀ d l,
  md_rfmtl l = d ++ map (λ f, listed_format (str (fm_id f))) (filter is_sup todo) → Forall sent_ok (filter is_sup todo) →
  NoDup (map fm_id d ++ map fm_id (filter is_sup todo)) → Forall (λ y, small (snd y)) (concat (map rtpmap_lines todo)) →
  chain acts (concat (map rtpmap_lines todo)) l (set_md_rfmtl (d ++ map remote_format (filter is_sup todo)) l).
Proof using HA.
  induction todo as [|f todo IH]; intros d l Hl Hok Hnd Hsm.
  { cbn [map concat] in *. rewrite filter_nil in *. cbn [map] in *. rewrite <- Hl, set_md_rfmtl_same. constructor. }
  rewrite map_cons, concat_cons in *. destruct (decide (is_sup f)) as [Hs|Hs].
  2: { rewrite filter_cons_False in * by done. assert (E : rtpmap_lines f = []) by (unfold rtpmap_lines; by rewrite (not_true_is_false _ Hs)).
    rewrite E in *. cbn [Datatypes.app] in *. by apply IH. }
  rewrite filter_cons_True in * by done. rewrite map_cons in *. apply Forall_cons_1 in Hok as [Hf Hok].
  set (g := listed_format (str (fm_id f))) in *. set (r := map _ (filter is_sup todo)) in *.
  pose proof Hf as (i & Hi & Hw & Hr & Hc & Hn & Hp). assert (Hg : fm_id g = Some i) by (unfold g; rewrite Hi; done).
  assert (Hd : Forall (λ f, fm_id f ≠ Some i) d).
  { apply list.NoDup_app in Hnd as (_ & Hnd & _). apply Forall_forall. intros x Hx E. apply (Hnd (fm_id x)).
    - apply list_elem_of_In. by apply in_map.
    - rewrite E, Hi. by left. }
  assert (Hnext : ∀ h, fm_id h = fm_id g → h = remote_format f →
    chain acts (concat (map rtpmap_lines todo)) (set_md_rfmtl (d ++ h :: r) l) (set_md_rfmtl (d ++ remote_format f :: map remote_format (filter is_sup todo)) l)).
  { intros h Hh ->. pose proof (IH (d ++ [remote_format f]) (set_md_rfmtl (d ++ remote_format f :: r) l)) as E.
    rewrite <- !app_assoc in E. apply E; [done|done| |by apply Forall_app in Hsm as [_ ?]].
    rewrite map_app, map_cons, Hh, Hg, <- Hi, <- app_assoc. exact Hnd. }
  apply Forall_app in Hsm as [Hsm _]. revert Hsm Hnext. unfold rtpmap_lines, remote_format. fold g. rewrite Hs. cbn [negb orb].
  destruct (is_set (fm_name f)) eqn:En; cbn [negb]; intros Hsm Hnext.
  2: { cbn [Datatypes.app]. specialize (Hnext g eq_refl eq_refl). by rewrite <- Hl, set_md_rfmtl_same in Hnext. }
  destruct (rtpmap_line_ok f Hf En) as [Hl1 Hl2]. apply Forall_cons_1 in Hsm as [Hs1 Hs2].
  set (m := mapped _ _ _ g) in *. cbn [Datatypes.app].
  assert (Hmap : acts (chr "a", rtpmap_value f) l (set_md_rfmtl (d ++ m :: r) l)).
  { replace (d ++ m :: r) with (alter (mapped (str (fm_name f)) (fm_srate f) (if bool_decide (fm_ch f > 1) then fm_ch f else 1)) (length d) (md_rfmtl l))
      by (rewrite Hl; apply alter_at).
    revert Hs1. unfold rtpmap_value. rewrite Hi. cbn [str default from_option id]. intros Hs1. apply rtpmap_acts; try done; [by apply Hn|].
    rewrite Hl. by apply format_index_at. }
  econstructor; [done|exact Hmap|]. destruct (is_set (fm_params f)) eqn:Ep; [|by apply Hnext].
  cbn [Datatypes.app]. apply Forall_cons_1 in Hs2 as [Hs2 _].
  assert (Hpar : acts (chr "a", fmtp_value f) (set_md_rfmtl (d ++ m :: r) l) (set_md_rfmtl (d ++ set_fm_params (fm_params f) m :: r) l)).
  { replace (set_md_rfmtl (d ++ set_fm_params (fm_params f) m :: r) l) with
      (set_md_rfmtl (alter (set_fm_params (Some (str (fm_params f)))) (length d) (md_rfmtl (set_md_rfmtl (d ++ m :: r) l))) (set_md_rfmtl (d ++ m :: r) l)).
    2: { cbn [md_rfmtl set_md_rfmtl]. rewrite alter_at. by rewrite <- (is_set_some _ Ep). }
    revert Hs2. unfold fmtp_value. rewrite Hi. cbn [str default from_option id]. intros Hs2. apply fmtp_acts; [done|by apply Hp|exact Hs2|].
    cbn [md_rfmtl set_md_rfmtl]. by apply format_index_at. }
  econstructor; [by apply Hl2|exact Hpar|]. by apply Hnext.
Qed.

(** *** A whole media line *)

Definition rtcp_address (m : sdp_media) : sockaddr :=
  if sa_isset_addr (md_laddr_rtcp m) && sa_isset_port (md_laddr_rtcp m) then md_laddr_rtcp m
  else if sa_isset_port (md_laddr_rtcp m) then sa_set_port sa_init4 (sa_port (md_laddr_rtcp m))
  else sa_init4.

Definition sent_dir (m : sdp_media) : Z := if offer then md_ldir m else Z.land (md_ldir m) (md_rdir m).

(** The line [l] of the reader, whose session has the remote address [sa], when it
    has read all that [m] has printed. *)
Definition heard_line (sa : sockaddr) (m l : sdp_media) : sdp_media :=
  set_md_rattrl (md_lattrl m)
    (set_md_rdir (flip_dir (sent_dir m))
      (set_md_raddr_rtcp (rtcp_address m)
        (set_md_rfmtl (map remote_format (filter is_sup (md_lfmtl m)))
          (set_md_rbwv (map stored_bw (md_lbwv m))
            (set_md_raddr (if sa_isset_addr (md_laddr m) then md_laddr m else sa_set_port sa (sa_port (md_laddr m))) l))))).

(** The media line of the writer. *)
Record media_ok (m : sdp_media) : Prop := {
  mk_name : ∃ n p, md_name m = Some n ∧ md_proto m = Some p ∧ n ≠ [] ∧ letters n = true ∧ plain_text n ∧ word " " p;
  mk_ints : media_ints m;
  mk_bw : length (md_lbwv m) = 5%nat;
  mk_formats : Forall sent_ok (filter is_sup (md_lfmtl m));
  mk_ids : NoDup (map fm_id (filter is_sup (md_lfmtl m)));
  mk_attrs : Forall attr_ok (md_lattrl m);
  mk_dirs : 0 ≤ md_ldir m < 4 ∧ 0 ≤ md_rdir m < 4;
  mk_addr : sa_isset_addr (md_laddr m) = true → ∃ t, address (md_laddr m) t;
  mk_rtcp : sa_isset_addr (md_laddr_rtcp m) && sa_isset_port (md_laddr_rtcp m) = true → ∃ t, address (md_laddr_rtcp m) t
}.

(** The remote side of a line that nothing was read into. *)
Definition unset (l : sdp_media) : Prop :=
  md_rfmtl l = [] ∧ md_rattrl l = [] ∧ md_raddr_rtcp l = sa_init4 ∧ md_rbwv l = no_bandwidth.

Lemma conn_value_ok sa t c : address sa t → c ≠ 0 → eol c = false → line_ok (c, conn_value sa).
Proof using.
  clear. intros Ha Hc He. split; [done|]. split; [done|]. destruct (conn_value_text sa t Ha) as (n & Hn & ->).
  apply plain_one_line. cbn [snd]. destruct Ha as (_ & (_ & _ & Hp) & _). apply plain_text_app. split; [by apply plain_bytes|].
  constructor; [destruct Hn as [-> | ->]; done|]. by constructor.
Qed.

Lemma sent_dir_range m : media_ok m → 0 ≤ sent_dir m < 4.
Proof using.
  clear. intros Hm. destruct (mk_dirs m Hm) as [H1 H2]. unfold sent_dir. destruct offer; [done|].
  assert (∀ d, 0 ≤ d < 4 → d = 0 ∨ d = 1 ∨ d = 2 ∨ d = 3) as Hc by lia.
  destruct (Hc _ H1) as [-> |[-> |[-> | ->]]], (Hc _ H2) as [-> |[-> |[-> | ->]]]; done.
Qed.

Lemma rtcp_lines_acts m l : media_ok m → md_raddr_rtcp l = sa_init4 →
  chain acts (rtcp_lines (md_laddr_rtcp m)) l (set_md_raddr_rtcp (rtcp_address m) l).
Proof using.
  clear Hatt Hfmt Hmed. intros Hm Hl. pose proof (mk_rtcp m Hm) as Hr. destruct (mk_ints m Hm) as (_ & Hp & _).
  unfold rtcp_lines, rtcp_address. destruct (_ && _).
  - destruct (Hr eq_refl) as [t Ht]. apply chain_one.
    + split; [done|]. split; [done|]. cbn [snd]. destruct (conn_value_ok _ _ (chr "a") Ht ltac:(done) eq_refl) as (_ & _ & Hv).
      apply Forall_app. split; [by apply plain_one_line, plain_bytes|]. apply Forall_app. split; [by apply plain_one_line, (dec_word (sa_port (md_laddr_rtcp m)) ltac:(lia))|].
      apply Forall_app. split; [by apply plain_one_line, plain_bytes|exact Hv].
    + pose proof (rtcp_acts l _ t Ht Hp) as H. destruct Ht as (Et & _). destruct (md_laddr_rtcp m) as [x q v]. cbn [sa_text sa_port sa_v6] in *.
      subst x. exact H.
  - destruct (sa_isset_port _).
    + apply chain_one; [|rewrite <- Hl; by apply rtcp_port_acts]. split; [done|]. split; [done|]. cbn [snd].
      apply Forall_app. split; [by apply plain_one_line, plain_bytes|]. by apply plain_one_line, (dec_word (sa_port (md_laddr_rtcp m)) ltac:(lia)).
    + rewrite <- Hl. destruct l. constructor.
Qed.

Lemma bandwidths_acts m l : media_ok m → md_rbwv l = no_bandwidth →
  chain acts (concat (map bandwidth_line (typed (md_lbwv m)))) l (set_md_rbwv (map stored_bw (md_lbwv m)) l).
Proof using.
  clear Hatt Hfmt Hmed. intros Hm Hl. destruct (mk_ints m Hm) as (_ & _ & Hb & _). pose proof (mk_bw m Hm) as H5.
  apply (bandwidths_chain acts md_rbwv set_md_rbwv (md_lbwv m)) with (pre := []); try done.
  - by intros [].
  - intros. by apply bandwidth_acts.
  - by rewrite Hl, H5.
Qed.

Lemma heard_acts m l sa port ids s1 : media_ok m → refused offer m = false → unset l → port = sa_port (md_laddr m) → sa = ss_raddr s1 →
  ids = map (λ f, str (fm_id f)) (filter is_sup (md_lfmtl m)) →
  Forall (λ y, small (snd y)) (media_lines offer m) →
  chain acts (tail (media_lines offer m)) (fresh_line s1 port ids l) (heard_line sa m l).
Proof using HA Hatt.
  intros Hm Href (U1 & U2 & U3 & U4) -> -> -> Hsm. pose proof Hm as [_ Hints H5 Hfo Hids Hat _ Hadr _].
  unfold media_lines in *. rewrite Href in *. fold (sent_dir m) in *. cbn [tail]. apply Forall_cons_1 in Hsm as [_ Hsm].
  apply Forall_app in Hsm as [_ Hsm]. apply Forall_app in Hsm as [_ Hsm]. apply Forall_app in Hsm as [Hs1 Hsm].
  apply Forall_app in Hsm as [_ Hsm]. apply Forall_app in Hsm as [_ Hs2]. destruct Hints as (Hp & _).
  set (sp := sa_port (md_laddr m)) in *. set (l0 := fresh_line _ _ _ l).
  set (ra := if sa_isset_addr (md_laddr m) then md_laddr m else sa_set_port (ss_raddr s1) sp).
  assert (C1 : chain acts (if sa_isset_addr (md_laddr m) then [(chr "c", conn_value (md_laddr m))] else []) l0 (set_md_raddr ra l0)).
  { subst ra. destruct (sa_isset_addr (md_laddr m)); [|by subst l0; destruct l; constructor]. destruct (Hadr eq_refl) as [t Ht].
    apply chain_one; [by eapply conn_value_ok|]. pose proof (conn_acts l0 _ t Ht) as H. replace (md_laddr m) with (SockAddr (Some t) (u16 (sa_port (md_raddr l0))) (sa_v6 (md_laddr m))) at 2; [exact H|].
    destruct Ht as (Et & _). subst l0. cbn [fresh_line md_raddr set_md_rdir set_md_raddr sa_port sa_set_port]. rewrite !u16_id by (rewrite ?u16_id; lia).
    subst sp. destruct (md_laddr m). cbn in *. by subst. }
  eapply chain_app; [exact C1|]. set (l1 := set_md_raddr ra l0).
  eapply chain_app; [apply (bandwidths_acts m l1 Hm); subst l1 l0; exact U4|]. set (l2 := set_md_rbwv _ l1).
  eapply chain_app; [apply (rtpmaps_acts (md_lfmtl m) [] l2); [|done|done|done]|].
  { subst l2 l1 l0. cbn [md_rfmtl set_md_rbwv set_md_raddr fresh_line set_md_rdir set_md_rfmtl]. rewrite U1, map_map. done. }
  set (l3 := set_md_rfmtl _ l2). eapply chain_app; [apply (rtcp_lines_acts m l3 Hm); subst l3 l2 l1 l0; exact U3|].
  set (l4 := set_md_raddr_rtcp _ l3). eapply chain_app.
  { apply chain_one; [|apply (dir_acts l4), (sent_dir_range m Hm)]. split; [done|]. split; [done|]. cbn [snd]. pose proof (sent_dir_range m Hm).
    apply plain_one_line. assert (sent_dir m = 0 ∨ sent_dir m = 1 ∨ sent_dir m = 2 ∨ sent_dir m = 3) as [-> |[-> |[-> | ->]]] by lia; by apply plain_bytes. }
  set (l5 := set_md_rdir _ l4). pose proof (attrs_chain acts md_rattrl set_md_rattrl (md_lattrl m) l5) as H.
  assert (E5 : md_rattrl l5 = []) by (subst l5 l4 l3 l2 l1 l0; exact U2). rewrite E5 in H. cbn [Datatypes.app] in H.
  replace (heard_line (ss_raddr s1) m l) with (set_md_rattrl (md_lattrl m) l5); [|by subst l5 l4 l3 l2 l1 l0].
  apply H; try done; [by intros []|]. intros a x Ha Hx. by apply attr_acts.
Qed.

(** ** The exchange *)

(** The reader's line for [m], and what it is then; [cur] is the line before. *)
Definition hear (m : sdp_media) (cur : option nat) (s : sdp_session) : option sdp_session :=
  s1 ← take_line (next_of cur) (str (md_name m)) (str (md_proto m)) s;
  l ← ss_medial s1 !! next_of cur;
  Some (set_line (Some (next_of cur))
    (Some (if refused offer m then fresh_line s1 0 [bytes_of "0"] l else heard_line (ss_raddr s1) m l)) s1).

Fixpoint hear_all (ms : list sdp_media) (cur : option nat) (s : sdp_session) : option sdp_session :=
  match ms with
  | [] => Some s
  | m :: ms => s ← hear m cur s; hear_all ms (Some (next_of cur)) s
  end.

(** Nothing was read into the lines that are still to come. *)
Definition pending (cur : option nat) (s : sdp_session) : Prop :=
  Forall unset (drop (next_of cur) (ss_medial s)) ∧ Forall unset (ss_lmedial s).

Lemma take_line_pending cur n p s s1 : pending cur s → take_line (next_of cur) n p s = Some s1 → pending cur s1 ∧ ss_raddr s1 = ss_raddr s.
Proof using.
  clear. unfold pending, take_line. intros [H1 H2]. destruct (ss_medial s !! next_of cur) as [m|] eqn:E.
  - case_bool_decide; [|done]. by intros [= <-].
  - apply lookup_ge_None in E. destruct offer; cbn [negb]; [|done].
    destruct (list_find (named n p) (ss_lmedial s)) as [[j m]|] eqn:Ef; intros [= <-]; cbn [ss_medial ss_lmedial set_ss_medial set_ss_lmedial].
    + apply list_find_Some in Ef as (Hj & _). split; [|done]. split; [|by apply Forall_delete].
      rewrite drop_app_ge by done. apply Forall_drop. constructor; [|constructor]. by eapply Forall_lookup_1 in H2.
    + split; [|done]. split; [|done]. rewrite drop_app_ge by done. apply Forall_drop. repeat constructor.
Qed.

Lemma media_head m : refused offer m = true → media_lines offer m = [(chr "m", media_value m 0 (bytes_of " 0"))].
Proof using. clear. intros H. unfold media_lines. by rewrite H. Qed.

Lemma media_head_value m n p port ids : md_name m = Some n → md_proto m = Some p →
  media_value m port (ids_text ids) = media_text n (dec_text port) p (ids_text ids).
Proof using. clear. intros Hn Hp. unfold media_value. rewrite Hn, Hp. reflexivity. Qed.

Lemma formats_text l : Forall sent_ok (filter is_sup l) → concat (map format_text l) = ids_text (map (λ f, str (fm_id f)) (filter is_sup l)).
Proof using.
  clear. induction l as [|f l IH]; [done|]. intros Hok. rewrite map_cons, concat_cons. unfold format_text at 1.
  destruct (decide (is_sup f)) as [Hs|Hs].
  - rewrite filter_cons_True in * by done. apply Forall_cons_1 in Hok as [_ Hok]. rewrite Hs, map_cons. cbn [negb]. rewrite IH by done. done.
  - rewrite filter_cons_False in * by done. rewrite (not_true_is_false _ Hs). cbn [negb Datatypes.app]. by apply IH.
Qed.

Lemma ids_words l : Forall sent_ok l → Forall (word " ") (map (λ f, str (fm_id f)) l).
Proof using. clear. induction 1 as [|f l (i & Hi & Hw & _) _ IH]; [constructor|]. constructor; [by rewrite Hi|done]. Qed.

Lemma ids_one_line ids : Forall (word " ") ids → one_line (ids_text ids).
Proof using.
  clear. induction 1 as [|u ids (_ & _ & Hp) _ IH]; [constructor|]. change (ids_text (u :: ids)) with (32 :: u ++ ids_text ids).
  constructor; [done|]. apply Forall_app. split; [by apply plain_one_line|done].
Qed.

Lemma hear_reads m cur s s' : media_ok m → pending cur s → hear m cur s = Some s' → Forall (λ y, small (snd y)) (media_lines offer m) →
  reads_all (media_lines offer m) cur s (Some (next_of cur)) s' ∧ pending (Some (next_of cur)) s' ∧ ss_raddr s' = ss_raddr s.
Proof using HA Hatt Hfmt Hmed.
  intros Hm Hpend. destruct (mk_name m Hm) as (n & p & Hn & Hp & Hne & Hln & Hpn & Hwp).
  unfold hear. rewrite Hn, Hp. cbn [str default from_option id].
  destruct (take_line (next_of cur) n p s) as [s1|] eqn:Et; [|done]. cbn [mbind option_bind].
  destruct (take_line_pending cur n p s s1 Hpend Et) as [[P1 P2] Era].
  destruct (ss_medial s1 !! next_of cur) as [l|] eqn:El; [|done]. cbn [mbind option_bind]. intros [= <-] Hsm.
  pose proof (lookup_lt_Some _ _ _ El) as Hlt. pose proof (mk_ints m Hm) as (Hport & _).
  assert (Hunset : unset l).
  { apply (Forall_lookup_1 _ _ 0 _ P1). rewrite lookup_drop. by rewrite Nat.add_0_r. }
  assert (Hrest : ∀ l', pending (Some (next_of cur)) (set_line (Some (next_of cur)) (Some l') s1) ∧ ss_raddr (set_line (Some (next_of cur)) (Some l') s1) = ss_raddr s).
  { intros l'. split; [|done]. split; [|done]. cbn [ss_medial set_line set_ss_medial next_of]. rewrite drop_insert_lt by lia.
    replace (S (next_of cur)) with (next_of cur + 1)%nat by lia. rewrite <- drop_drop. by apply Forall_drop. }
  split; [|apply Hrest].
  assert (Hhead : ∀ port ids, 0 ≤ port < 65536 → Forall (word " ") ids → small (media_text n (dec_text port) p (ids_text ids)) →
    line_ok (chr "m", media_text n (dec_text port) p (ids_text ids)) ∧
    reads (chr "m", media_text n (dec_text port) p (ids_text ids)) cur s (Some (next_of cur))
      (set_line (Some (next_of cur)) (Some (fresh_line s1 port ids l)) s1)).
  { intros port ids Hpo Hids Hs. split; [|by apply media_reads]. split; [done|]. split; [done|]. cbn [snd]. unfold media_text.
    apply Forall_app. split; [by apply plain_one_line|]. constructor; [done|]. apply Forall_app. split; [by apply plain_one_line, (dec_word port); lia|].
    constructor; [done|]. apply Forall_app. split; [apply plain_one_line, Hwp|by apply ids_one_line]. }
  destruct (refused offer m) eqn:Er.
  - rewrite (media_head m Er) in *. apply Forall_cons_1 in Hsm as [Hs _]. cbn [snd] in Hs.
    change (bytes_of " 0") with (ids_text [bytes_of "0"]) in *. rewrite (media_head_value m n p 0 _ Hn Hp) in *.
    destruct (Hhead 0 [bytes_of "0"]) as [H1 H2]; [lia|by repeat constructor|done|]. econstructor; [exact H1|exact H2|constructor].
  - pose proof (heard_acts m l _ _ _ s1 Hm Er Hunset eq_refl eq_refl eq_refl Hsm) as Hbody.
    assert (El2 : media_lines offer m = (chr "m", media_text n (dec_text (sa_port (md_laddr m))) p
      (ids_text (map (λ f, str (fm_id f)) (filter is_sup (md_lfmtl m))))) :: tail (media_lines offer m)).
    { rewrite <- (media_head_value m n p _ _ Hn Hp), <- formats_text by apply (mk_formats m Hm). unfold media_lines. by rewrite Er. }
    rewrite El2 in *. cbn [tail] in Hbody. apply Forall_cons_1 in Hsm as [Hs _]. cbn [snd] in Hs.
    destruct (Hhead (sa_port (md_laddr m)) _ Hport (ids_words _ (mk_formats m Hm)) Hs) as [H1 H2].
    econstructor; [exact H1|exact H2|].
    change (set_ss_medial (<[next_of cur:=?v]> (ss_medial s1)) s1) with (set_line (Some (next_of cur)) (Some v) s1).
    rewrite <- (set_line_twice _ (fresh_line s1 (sa_port (md_laddr m)) (map (λ f, str (fm_id f)) (filter is_sup (md_lfmtl m))) l) (heard_line _ _ _)).
    apply (acts_reads _ _ _ _ _ Hbody). by apply set_line_lookup.
Qed.

Lemma hear_all_reads ms : ∀ cur s s', Forall media_ok ms → pending cur s → hear_all ms cur s = Some s' →
  Forall (λ y, small (snd y)) (concat (map (media_lines offer) ms)) →
  ∃ cur', reads_all (concat (map (media_lines offer) ms)) cur s cur' s'.
Proof using HA Hatt Hfmt Hmed.
  induction ms as [|m ms IH]; intros cur s s' Hok Hp; cbn [hear_all map concat].
  - intros [= <-] _. exists cur. constructor.
  - apply Forall_cons_1 in Hok as [Hm Hok]. destruct (hear m cur s) as [s1|] eqn:E; [|done]. cbn [mbind option_bind]. intros Hall [Hs1 Hs2]%Forall_app.
    destruct (hear_reads m cur s s1 Hm Hp E Hs1) as (H1 & H2 & _). destruct (IH _ _ _ Hok H2 Hall Hs2) as [cur' H3].
    exists cur'. by eapply reads_all_app.
Qed.

(** *** The session *)

Record session_ok (s : sdp_session) : Prop := {
  sk_addr : ∃ t, address (ss_laddr s) t;
  sk_ints : session_ints s;
  sk_bw : length (ss_lbwv s) = 5%nat;
  sk_attrs : Forall attr_ok (ss_lattrl s);
  sk_media : Forall media_ok (ss_medial (offer_lines offer s))
}.

(** The reader before the first media line. *)
Definition reset (s : sdp_session) : sdp_session := set_ss_medial (map sdp_media_rreset (ss_medial s)) (sdp_session_rreset s).

Definition heard_session (w s : sdp_session) : sdp_session :=
  set_ss_rattrl (ss_lattrl w)
    (set_ss_rbwv (map stored_bw (ss_lbwv w))
      (set_ss_raddr (SockAddr (sa_text (ss_laddr w)) 0 (sa_v6 (ss_laddr w))) (reset s))).

Lemma ignored_reads c v m s : c ≠ chr "a" → c ≠ chr "b" → c ≠ chr "c" → c ≠ chr "m" → c ≠ chr "v" → reads (c, v) m s m s.
Proof using. clear. intros H1 H2 H3 H4 H5 r. unfold line_decode. cbn [fst snd]. by rewrite !bool_decide_eq_false_2. Qed.

Lemma version_reads m s : reads (chr "v", bytes_of "0") m s m s.
Proof using.
  clear. intros r. unfold line_decode. cbn [fst snd]. rewrite !(bool_decide_eq_false_2 (chr "v" = _)), bool_decide_eq_true_2 by done.
  unfold version_decode. pose proof (has_name_part r (bytes_of "0") [] "0") as E. unfold part_pl in E. cbn [fst snd] in E.
  change ([] ++ r) with r in E. rewrite E. cbn [mbind outcome_bind]. by rewrite bool_decide_eq_true_2.
Qed.

Lemma conn_session_reads sa t s : address sa t → reads (chr "c", conn_value sa) None s None (set_ss_raddr (SockAddr (Some t) (u16 (sa_port (ss_raddr s))) (sa_v6 sa)) s).
Proof using.
  clear. intros Ha r. unfold line_decode. cbn [fst snd]. rewrite !(bool_decide_eq_false_2 (chr "c" = _)), bool_decide_eq_true_2 by done.
  cbn [line_of mbind outcome_bind]. by rewrite (conn_run _ sa t).
Qed.

Lemma bandwidth_session_reads i bw s : (i < 5)%nat → 0 ≤ bw < 2 ^ 31 →
  reads (chr "b", sdp_bandwidth_name (Z.of_nat i) ++ bytes_of ":" ++ int_text bw) None s None (set_ss_rbwv (<[i := bw]> (ss_rbwv s)) s).
Proof using.
  clear. intros Hi Hb r. unfold line_decode. cbn [fst snd]. rewrite !(bool_decide_eq_false_2 (chr "b" = chr "a")), bool_decide_eq_true_2 by done.
  cbn [line_of mbind outcome_bind]. by rewrite bandwidth_run.
Qed.

Lemma head_reads w s : session_ok w → Forall (λ y, small (snd y)) (map attr_line (ss_lattrl w)) →
  reads_all ([(chr "v", bytes_of "0");
    (chr "o", bytes_of "- " ++ dec_text (ss_id w) ++ bytes_of " " ++ dec_text (ss_ver w) ++ bytes_of " " ++ conn_value (ss_laddr w));
    (chr "s", bytes_of "-"); (chr "c", conn_value (ss_laddr w))] ++
    concat (map bandwidth_line (typed (ss_lbwv w))) ++ [(chr "t", bytes_of "0 0")] ++ map attr_line (ss_lattrl w)) None (reset s) None (heard_session w s).
Proof using HA Hatt.
  intros [[t Ht] (Hi & Hv & Hb & _) H5 Hat _] Hsm. apply session_reads.
  pose proof (conn_value_ok _ _ (chr "c") Ht ltac:(done) eq_refl) as Hc. pose proof Hc as (_ & _ & Hcv). cbn [snd] in Hcv.
  assert (Hp : ∀ c u, c ≠ 0 → eol c = false → forallb (λ b, negb (bool_decide (b = 0 ∨ b = 13 ∨ b = 10))) (bytes_of u) = true → line_ok (c, bytes_of u)).
  { intros c u H1 H2 H3. split; [done|]. split; [done|]. by apply plain_one_line, plain_bytes. }
  cbn [Datatypes.app]. econstructor; [by apply Hp|apply version_reads|].
  econstructor; [|by apply ignored_reads|].
  { split; [done|]. split; [done|]. cbn [snd]. apply Forall_app. split; [by apply plain_one_line, plain_bytes|].
    apply Forall_app. split; [apply plain_one_line, (dec_word (ss_id w)); lia|].
    apply Forall_app. split; [by apply plain_one_line, plain_bytes|].
    apply Forall_app. split; [apply plain_one_line, (dec_word (ss_ver w)); lia|].
    apply Forall_app. split; [by apply plain_one_line, plain_bytes|exact Hcv]. }
  econstructor; [by apply Hp|by apply ignored_reads|].
  econstructor; [done|by apply (conn_session_reads _ t)|]. set (s1 := set_ss_raddr _ _).
  eapply chain_app.
  { apply (bandwidths_chain (λ x s s', reads x None s None s') ss_rbwv set_ss_rbwv (ss_lbwv w)) with (pre := []); try done.
    - by intros [].
    - intros i bw x. apply bandwidth_session_reads.
    - by rewrite H5. }
  cbn [Datatypes.app]. econstructor; [by apply Hp|by apply ignored_reads|]. set (s2 := set_ss_rbwv _ s1).
  pose proof (attrs_chain (λ x s s', reads x None s None s') ss_rattrl set_ss_rattrl (ss_lattrl w) s2) as H.
  change (ss_rattrl s2) with (@nil sdp_attr) in H. cbn [Datatypes.app] in H.
  replace (heard_session w s) with (set_ss_rattrl (ss_lattrl w) s2).
  2: { subst s2 s1. unfold heard_session. destruct Ht as (-> & _). done. }
  apply H; try done; [by intros []|]. intros a x Ha Hx. by apply session_attr_reads.
Qed.

Lemma lines_small ls : text_ok (lines_text ls) → Forall (λ y, small (snd y)) ls.
Proof using.
  clear. intros [_ Hl]. induction ls as [|y ls IH]; [constructor|]. rewrite lines_text_cons in Hl. cbn [length] in Hl. rewrite !length_app in Hl.
  constructor; [unfold small; lia|apply IH; lia].
Qed.

(** Reading the lines of [w], the reader comes to [s']. *)
Lemma exchange_run w r s' mb : session_ok w → text_ok (lines_text (session_lines offer w)) → Forall unset (ss_lmedial r) →
  hear_all (ss_medial (offer_lines offer w)) None (heard_session w r) = Some s' →
  mbuf_wf mb → payload mb = lines_text (session_lines offer w) →
  sdp_decode A sa_set att_mem fmt_mem med_mem r (Some mb) offer =
    Ret (0, set_ss_medial (map (λ m, sdp_media_align_formats m offer) (ss_medial s')) s').
Proof using HA Hatt Hfmt Hmed.
  intros Hw Hok Hu Hh Hwf Hpay. pose proof (lines_small _ Hok) as Hsm. unfold session_lines in Hsm, Hpay.
  rewrite !app_assoc in Hsm, Hpay. apply Forall_app in Hsm as [Hsm Hsm2]. pose proof Hsm as Hsm1. apply Forall_app in Hsm1 as [_ Hsm1].
  pose proof (head_reads w r Hw Hsm1) as H1. rewrite !app_assoc in H1.
  destruct (hear_all_reads (ss_medial (offer_lines offer w)) None (heard_session w r) s' (sk_media w Hw)) as [cur H2]; [|done|done|].
  { split; [|exact Hu]. cbn [next_of]. rewrite drop_0. change (ss_medial (heard_session w r)) with (map sdp_media_rreset (ss_medial r)).
    apply Forall_map, Forall_true. done. }
  pose proof (reads_all_app _ _ _ _ _ _ _ _ _ _ _ _ _ _ H1 H2) as H. unfold sdp_decode. fold (reset r).
  change (set_ss_medial (map sdp_media_rreset (ss_medial (sdp_session_rreset r))) (sdp_session_rreset r)) with (reset r).
  destruct (mbuf_text mb Hwf) as (rest & E1 & E2). rewrite E1. cbn [mbind outcome_bind]. rewrite E2, Hpay.
  rewrite (decode_loop_lines _ _ _ _ _ _ _ _ _ _ _ _ _ H). cbn [mbind outcome_bind].
  rewrite (bool_decide_eq_false_2 (0 ≠ 0)) by auto. done.
Qed.
End effects.

(** C20: a description that is printed and read, offer or answer, with memory on
    both sides: the reader comes to what the structure of the writer's session
    says, without an error.  Its remote address, bandwidths and attributes are the
    writer's; each line of the exchange, the next one, the local one of these names
    or a new one, takes over the other's address, ports, direction (seen from here),
    bandwidths, attributes and supported formats with their identifiers, names,
    rates, channels and parameters, or is refused; and the formats of every line
    are aligned. *)
Theorem sdp_exchange A B `{!allocator_ok A} sa_set att_mem fmt_mem med_mem offer w r s' :
  plenty A → plenty B → (∀ p, att_mem p = true ∧ fmt_mem p = true ∧ med_mem p = true) →
  session_ok sa_set offer w → text_ok (lines_text (session_lines offer w)) → Forall unset (ss_lmedial r) →
  hear_all offer (ss_medial (offer_lines offer w)) None (heard_session w r) = Some s' →
  ∃ mb w', sdp_encode A w offer = Ret (0, Some mb, w') ∧
    sdp_decode B sa_set att_mem fmt_mem med_mem r (Some mb) offer =
      Ret (0, set_ss_medial (map (λ m, sdp_media_align_formats m offer) (ss_medial s')) s').
Proof.
  intros HA HB Hmem Hw Hok Hu Hh. destruct (sdp_encode_run A w offer HA (sk_ints _ _ _ Hw) Hok) as (mb & E & Hwf & Hp).
  exists mb, (set_ss_ver (u32 (ss_ver w + 1)) (offer_lines offer w)). split; [exact E|].
  apply (exchange_run B HB sa_set att_mem fmt_mem med_mem offer (λ p, proj1 (Hmem p)) (λ p, proj1 (proj2 (Hmem p)))
    (λ p, proj2 (proj2 (Hmem p))) w r s' mb Hw Hok Hu Hh Hwf Hp).
Qed.

(** The demo session offers to a session that has audio in the second format only. *)
Definition demo_reader : sdp_session :=
  SdpSession [set_md_lfmtl [demo_format "96" "telephone-event" 8000; demo_format "8" "PCMA" 8000]
      (set_md_names (Some (bytes_of "audio")) (Some (bytes_of "RTP/AVP")) media_new)]
    [] [] [] (demo_addr "10.0.0.2" 0) sa_init4 no_bandwidth no_bandwidth 3 9 SDP_SENDRECV.

Lemma demo_address port : address demo_inet (demo_addr "10.0.0.1" port) (bytes_of "10.0.0.1").
Proof.
  split; [done|]. split; [split; [done|]; split; [done|by apply plain_bytes]|]. split; [cbn; lia|]. by exists 0.
Qed.

Lemma demo_format_ok id name p : word " " (bytes_of id) → word "/" (bytes_of name) → plain_text (str p) →
  sent_ok (set_fm_params p (set_fm_sup true (demo_format id name 8000))).
Proof. intros H1 H2 H3. exists (bytes_of id). split_and!; try done; intros; done. Qed.

Ltac text_word := split; [discriminate|]; split; [reflexivity|]; apply plain_bytes; reflexivity.

Lemma demo_writer_ok : session_ok demo_inet true demo_writer.
Proof.
  split; [eexists; apply demo_address|exact demo_writer_ints|done|constructor|]. apply Forall_singleton. split.
  - exists (bytes_of "audio"), (bytes_of "RTP/AVP"). split_and!; try done; [by apply plain_bytes|text_word].
  - repeat constructor; done.
  - done.
  - change (filter is_sup (md_lfmtl demo_audio)) with (md_lfmtl demo_audio).
    constructor; [apply (demo_format_ok "0" "PCMU" None); [text_word|text_word|constructor]|]. apply Forall_singleton.
    apply (demo_format_ok "101" "telephone-event" (Some (bytes_of "0-15"))); [text_word|text_word|by apply plain_bytes].
  - apply (bool_decide_eq_true_1 _). vm_compute. reflexivity.
  - apply Forall_singleton. exists (bytes_of "ptime"). split; [done|]. split; [text_word|]. split; [|split; [done|by apply plain_bytes]].
    apply (bool_decide_eq_true_1 _). vm_compute. reflexivity.
  - by vm_compute.
  - intros _. eexists. apply demo_address.
  - done.
Qed.

Lemma sdp_exchange_witness :
  ∃ mb w' s', sdp_encode big_alloc demo_writer true = Ret (0, Some mb, w') ∧
    sdp_decode big_alloc demo_inet (λ _, true) (λ _, true) (λ _, true) demo_reader (Some mb) true = Ret (0, s') ∧
    map (λ m, (md_raddr m, md_rdir m, map (λ f, (fm_id f, fm_name f, fm_params f, fm_sup f)) (md_rfmtl m),
               map (λ f, (fm_id f, fm_sup f)) (md_lfmtl m))) (ss_medial s') =
      [(demo_addr "10.0.0.1" 4000, SDP_RECVONLY,
        [(Some (bytes_of "0"), Some (bytes_of "PCMU"), None, false);
         (Some (bytes_of "101"), Some (bytes_of "telephone-event"), Some (bytes_of "0-15"), true)],
        [(Some (bytes_of "101"), true); (Some (bytes_of "8"), false)])].
Proof.
  destruct (hear_all true (ss_medial (offer_lines true demo_writer)) None (heard_session demo_writer demo_reader)) as [s'|] eqn:E;
    [|vm_compute in E; discriminate E].
  destruct (sdp_exchange big_alloc big_alloc demo_inet (λ _, true) (λ _, true) (λ _, true) true demo_writer demo_reader s'
    big_alloc_plenty big_alloc_plenty (λ _, conj eq_refl (conj eq_refl eq_refl)) demo_writer_ok demo_writer_text) as (mb & w' & E1 & E2).
  - apply Forall_singleton. repeat split.
  - exact E.
  - eexists mb, w', _. split; [exact E1|]. split; [exact E2|]. vm_compute in E. injection E as <-. vm_compute. reflexivity.
Defined.
