(* ===== verification/Tmr.v ===== *)
(** * Timers (src/re/src/tmr/tmr.c)

    The timers of a thread: a list kept in order of expiry, to which tmr_start
    adds and from which tmr_poll takes what is due.  The list is the sequence the
    LinkedList component implements; timers live at addresses, and what a
    timeout handler does is a parameter, an arbitrary program over the timers. *)
From stdpp Require Import base tactics list numbers option gmap fin_maps sorting.
From S2P Require Import Prelude.

Abbreviation loc := positive.

(** [struct tmr]: handler, its argument and the time of expiry; the element is
    linked exactly while [th] is set. *)
Record tmr := TmrObj { th : option positive; t_arg : Z; jfs : Z }.

(** The timers, the thread's list, the clock in milliseconds and the calls of
    handlers so far. *)
Record timers := Timers { tmrs : gmap loc tmr; tmrl : list loc; now : Z; calls : list (positive * Z) }.

Definition set_tmrs (m : gmap loc tmr) (s : timers) : timers := Timers m (tmrl s) (now s) (calls s).
Definition set_tmrl (l : list loc) (s : timers) : timers := Timers (tmrs s) l (now s) (calls s).
Definition set_now (n : Z) (s : timers) : timers := Timers (tmrs s) (tmrl s) n (calls s).
Definition add_call (h : positive) (a : Z) (s : timers) : timers :=
  Timers (tmrs s) (tmrl s) (now s) (calls s ++ [(h, a)]).

Definition read (t : loc) : prog timers tmr := λ s, match tmrs s !! t with Some x => Ret (x, s) | None => Fault UseAfterFree end.
Definition upd (t : loc) (f : tmr → tmr) : prog timers unit := λ s,
  match tmrs s !! t with Some x => Ret (tt, set_tmrs (<[t := f x]> (tmrs s)) s) | None => Fault UseAfterFree end.

Definition tmr_jiffies : prog timers Z := gets now.

(** [tmr_init]; the list is not touched. *)
Definition tmr_init (t : loc) : prog timers unit := upd t (λ _, TmrObj None 0 0).

Definition inspos_handler (now : Z) (x : tmr) : bool := bool_decide (jfs x ≤ now).
Definition inspos_handler_0 (now : Z) (x : tmr) : bool := bool_decide (jfs x > now).

(** [list_apply] over the timers: the first that the handler accepts; a search
    from the tail goes over the reversed list. *)
Fixpoint list_apply (h : tmr → bool) (l : list loc) : prog timers (option loc) :=
  match l with
  | [] => mret None
  | t :: r => x ← read t; if h x then mret (Some t) else list_apply h r
  end.

Definition list_unlink (t : loc) : prog timers unit := modify (λ s, set_tmrl (filter (λ a, a ≠ t) (tmrl s)) s).

Fixpoint insert_before (le t : loc) (l : list loc) : list loc :=
  match l with [] => [] | a :: r => if bool_decide (a = le) then t :: a :: r else a :: insert_before le t r end.
Fixpoint insert_after (le t : loc) (l : list loc) : list loc :=
  match l with [] => [] | a :: r => if bool_decide (a = le) then a :: t :: r else a :: insert_after le t r end.

Definition tmr_start (t : loc) (delay : Z) (h : option positive) (arg : Z) : prog timers unit :=
  x ← read t;
  (match th x with Some _ => list_unlink t | None => skip end);;
  upd t (λ x, TmrObj h arg (jfs x));;
  match h with
  | None => skip
  | Some _ =>
      jf ← tmr_jiffies;
      upd t (λ x, TmrObj (th x) (t_arg x) (u64 (delay + jf)));;
      x ← read t;
      l ← gets tmrl;
      if bool_decide (delay = 0) then
        le ← list_apply (inspos_handler_0 (jfs x)) l;
        match le with
        | Some le => modify (λ s, set_tmrl (insert_before le t (tmrl s)) s)
        | None => modify (λ s, set_tmrl (tmrl s ++ [t]) s)
        end
      else
        le ← list_apply (inspos_handler (jfs x)) (reverse l);
        match le with
        | Some le => modify (λ s, set_tmrl (insert_after le t (tmrl s)) s)
        | None => modify (λ s, set_tmrl (t :: tmrl s) s)
        end
  end.

Definition tmr_cancel (t : loc) : prog timers unit := tmr_start t 0 None 0.

Definition tmr_isrunning (t : loc) : prog timers bool := x ← read t; mret (bool_decide (is_Some (th x))).

Definition tmr_get_expire (t : loc) : prog timers Z :=
  x ← read t;
  match th x with
  | None => mret 0
  | Some _ => jf ← tmr_jiffies; mret (if bool_decide (jfs x > jf) then jfs x - jf else 0)
  end.

Definition tmr_next_timeout : prog timers Z :=
  jif ← tmr_jiffies;
  l ← gets tmrl;
  match l with
  | [] => mret 0
  | t :: _ => x ← read t; mret (if bool_decide (jfs x ≤ jif) then 1 else jfs x - jif)
  end.

Section poll.
Variable handler : positive → Z → prog timers unit.

(** [call_handler]; a handler that takes long is only reported. *)
Definition call_handler (h : positive) (arg : Z) : prog timers unit := modify (add_call h arg);; handler h arg.

(** The loop of [tmr_poll] for the timers due at [jf]. *)
Fixpoint poll_loop (fuel : nat) (jf : Z) : prog timers unit :=
  l ← gets tmrl;
  match l with
  | [] => skip
  | t :: _ =>
      x ← read t;
      if bool_decide (jfs x > jf) then skip
      else
        match fuel with
        | O => crash NoFuel
        | S fuel' =>
            upd t (λ x, TmrObj None (t_arg x) (jfs x));;
            list_unlink t;;
            (match th x with None => skip | Some h => call_handler h (t_arg x) end);;
            poll_loop fuel' jf
        end
  end.

Definition tmr_poll (fuel : nat) : prog timers unit := jf ← tmr_jiffies; poll_loop fuel jf.
End poll.

(** ** The invariant *)

Definition expiry (s : timers) (t : loc) : Z := match tmrs s !! t with Some x => jfs x | None => 0 end.
Definition active (s : timers) (t : loc) : Prop := ∃ x, tmrs s !! t = Some x ∧ is_Some (th x).

(** The list holds the running timers, each once, in order of expiry. *)
Record timers_ok (s : timers) : Prop := {
  tk_nodup : NoDup (tmrl s);
  tk_active : ∀ t, t ∈ tmrl s ↔ active s t;
  tk_sorted : StronglySorted (λ a b, expiry s a ≤ expiry s b) (tmrl s)
}.

(** The timers due at [jf], in the order of the list. *)
Definition due (jf : Z) (s : timers) : list loc := filter (λ t, expiry s t ≤ jf) (tmrl s).

Lemma tmr_read_run t x s : tmrs s !! t = Some x → read t s = Ret (x, s).
Proof. unfold read. by intros ->. Qed.

Lemma tmr_upd_run t x f s : tmrs s !! t = Some x → upd t f s = Ret (tt, set_tmrs (<[t := f x]> (tmrs s)) s).
Proof. unfold upd. by intros ->. Qed.

(** [list_apply] splits the list at the first timer accepted by a handler that
    looks at the expiry only. *)
Lemma tmr_list_apply_run (h : tmr → bool) (g : Z → bool) s l :
  (∀ x, h x = g (jfs x)) → (∀ t, t ∈ l → is_Some (tmrs s !! t)) →
  ∃ r, list_apply h l s = Ret (r, s) ∧
    match r with
    | Some le => ∃ l1 l2, l = l1 ++ le :: l2 ∧ Forall (λ t, g (expiry s t) = false) l1 ∧ g (expiry s le) = true
    | None => Forall (λ t, g (expiry s t) = false) l
    end.
Proof.
  intros Hg. induction l as [|t l IH]; intros Hl; [by exists None|].
  destruct (Hl t) as [x Hx]; [by left|]. destruct IH as (r & E & Hr); [intros t' Ht'; apply Hl; by right|].
  cbn [list_apply]. erewrite prog_bind_step by (by apply tmr_read_run). rewrite Hg.
  assert (Hexp : expiry s t = jfs x) by (unfold expiry; by rewrite Hx).
  destruct (g (jfs x)) eqn:Eg.
  - eexists. split; [done|]. exists [], l. by rewrite Hexp.
  - exists r. split; [exact E|]. destruct r as [le|].
    + destruct Hr as (l1 & l2 & -> & H1 & H2). exists (t :: l1), l2. split; [done|]. split; [|done]. constructor; [by rewrite Hexp|done].
    + constructor; [by rewrite Hexp|done].
Qed.

Lemma insert_before_run le t l1 l2 : le ∉ l1 → insert_before le t (l1 ++ le :: l2) = l1 ++ t :: le :: l2.
Proof.
  induction l1 as [|a l1 IH]; cbn [Datatypes.app insert_before]; intros H; [by rewrite bool_decide_eq_true_2|].
  apply not_elem_of_cons in H as [Hne Hin]. rewrite bool_decide_eq_false_2 by congruence. by rewrite IH.
Qed.

Lemma insert_after_run le t l1 l2 : le ∉ l1 → insert_after le t (l1 ++ le :: l2) = l1 ++ le :: t :: l2.
Proof.
  induction l1 as [|a l1 IH]; cbn [Datatypes.app insert_after]; intros H; [by rewrite bool_decide_eq_true_2|].
  apply not_elem_of_cons in H as [Hne Hin]. rewrite bool_decide_eq_false_2 by congruence. by rewrite IH.
Qed.

Section sorted.
Variable e : loc → Z.

Definition upto (j : Z) (l : list loc) : list loc := filter (λ a, e a ≤ j) l.
Definition beyond (j : Z) (l : list loc) : list loc := filter (λ a, e a > j) l.

Lemma upto_all j l : Forall (λ a, e a ≤ j) l → upto j l = l ∧ beyond j l = [].
Proof.
  unfold upto, beyond. induction 1 as [|a l Ha _ [IH1 IH2]]; [done|].
  rewrite !filter_cons. by rewrite decide_True, decide_False, IH1, IH2 by lia.
Qed.

Lemma beyond_all j l : Forall (λ a, e a > j) l → upto j l = [] ∧ beyond j l = l.
Proof.
  unfold upto, beyond. induction 1 as [|a l Ha _ [IH1 IH2]]; [done|].
  rewrite !filter_cons. by rewrite decide_False, decide_True, IH1, IH2 by lia.
Qed.

Lemma upto_split j l1 l2 : Forall (λ a, e a ≤ j) l1 → Forall (λ a, e a > j) l2 →
  upto j (l1 ++ l2) = l1 ∧ beyond j (l1 ++ l2) = l2.
Proof.
  intros H1%upto_all H2%beyond_all. unfold upto, beyond in *. rewrite !filter_app.
  destruct H1 as [-> ->], H2 as [-> ->]. by rewrite app_nil_r.
Qed.

Local Abbreviation R := (λ a b, e a ≤ e b).

Lemma sorted_insert j t l1 l2 : e t = j → Forall (λ a, e a ≤ j) l1 → Forall (λ a, e a > j) l2 →
  StronglySorted R (l1 ++ l2) → StronglySorted R (l1 ++ t :: l2).
Proof.
  intros Ht. induction l1 as [|a l1 IH]; cbn [Datatypes.app]; intros H1 H2 Hs.
  - constructor; [done|]. eapply Forall_impl; [exact H2|]. simpl. lia.
  - apply Forall_cons_1 in H1 as [Ha H1]. apply StronglySorted_inv in Hs as [Hs Hf]. constructor; [by apply IH|].
    apply Forall_app in Hf as [Hf1 Hf2]. apply Forall_app. split; [done|]. constructor; [lia|done].
Qed.

Lemma sorted_after j le l1 l2 : StronglySorted R (l1 ++ le :: l2) → e le > j → Forall (λ a, e a > j) (le :: l2).
Proof.
  induction l1 as [|a l1 IH]; cbn [Datatypes.app]; intros Hs Hle; apply StronglySorted_inv in Hs as [Hs Hf]; [|by apply IH].
  constructor; [done|]. eapply Forall_impl; [exact Hf|]. simpl. lia.
Qed.

Lemma sorted_before j le l1 l2 : StronglySorted R (l1 ++ le :: l2) → e le ≤ j → Forall (λ a, e a ≤ j) (l1 ++ [le]).
Proof.
  induction l1 as [|a l1 IH]; cbn [Datatypes.app]; intros Hs Hle; apply StronglySorted_inv in Hs as [Hs Hf].
  - by repeat constructor.
  - constructor; [|by apply IH]. apply Forall_app in Hf as [_ Hf]. apply Forall_cons_1 in Hf as [Hf _]. lia.
Qed.

Lemma sorted_filter (P : loc → Prop) `{!∀ x, Decision (P x)} l : StronglySorted R l → StronglySorted R (filter P l).
Proof.
  induction 1 as [|a l Hs IH Hf]; [constructor|]. rewrite filter_cons. case_decide; [|done]. constructor; [done|].
  apply Forall_forall. intros x [_ Hx]%list_elem_of_filter. rewrite Forall_forall in Hf. by apply Hf.
Qed.
End sorted.

Lemma filter_agree (P Q : loc → Prop) `{!∀ a, Decision (P a), !∀ a, Decision (Q a)} (l : list loc) :
  (∀ a, a ∈ l → P a ↔ Q a) → filter P l = filter Q l.
Proof.
  induction l as [|a l IH]; intros He; [done|]. rewrite !filter_cons. pose proof (He a ltac:(by left)) as Ha.
  rewrite IH by (intros b Hb; apply He; by right). do 2 case_decide; naive_solver.
Qed.

(** ** Starting a timer *)

(** The timers after [tmr_start]: the timer behind all that expire by its time,
    before all that expire later. *)
Definition started (t : loc) (delay : Z) (h : positive) (arg : Z) (s : timers) : timers :=
  let j := u64 (delay + now s) in
  let l := filter (λ a, a ≠ t) (tmrl s) in
  set_tmrl (upto (expiry s) j l ++ t :: beyond (expiry s) j l)
    (set_tmrs (<[t := TmrObj (Some h) arg j]> (tmrs s)) s).

Definition cancelled (t : loc) (s : timers) : timers :=
  set_tmrl (filter (λ a, a ≠ t) (tmrl s))
    (set_tmrs (<[t := TmrObj None 0 (expiry s t)]> (tmrs s)) s).

Lemma filter_other (t : loc) (l : list loc) : t ∉ l → filter (λ a, a ≠ t) l = l.
Proof.
  induction l as [|a l IH]; [done|]. intros [Hne Hin]%not_elem_of_cons. rewrite filter_cons_True by congruence. by rewrite IH.
Qed.

(** The element is out of the list before it is linked again. *)
Lemma unlink_run t x s : timers_ok s → tmrs s !! t = Some x →
  (match th x with Some _ => list_unlink t | None => skip end) s =
    Ret (tt, set_tmrl (filter (λ a, a ≠ t) (tmrl s)) s).
Proof.
  intros [_ Ha _] Hx. destruct (th x) eqn:Eh; [done|]. rewrite filter_other; [by destruct s|].
  intros Hin. apply Ha in Hin as (x' & Hx' & [h Hh]). congruence.
Qed.

Lemma expiry_insert t x s a : a ≠ t → expiry (set_tmrs (<[t := x]> (tmrs s)) s) a = expiry s a.
Proof. intros Hne. unfold expiry. cbn. by rewrite lookup_insert_ne by congruence. Qed.

Lemma elem_of_other (t a : loc) (l : list loc) : a ∈ filter (λ a, a ≠ t) l ↔ a ≠ t ∧ a ∈ l.
Proof. by rewrite list_elem_of_filter. Qed.

(** The place of an insertion, in a sorted list. *)
Lemma place_run t delay h arg s :
  timers_ok s → is_Some (tmrs s !! t) →
  let j := u64 (delay + now s) in
  let l := filter (λ a, a ≠ t) (tmrl s) in
  let s1 := set_tmrl l (set_tmrs (<[t := TmrObj (Some h) arg j]> (tmrs s)) s) in
  (if bool_decide (delay = 0) then
     le ← list_apply (inspos_handler_0 j) l;
     match le with
     | Some le => modify (λ s, set_tmrl (insert_before le t (tmrl s)) s)
     | None => modify (λ s, set_tmrl (tmrl s ++ [t]) s)
     end
   else
     le ← list_apply (inspos_handler j) (reverse l);
     match le with
     | Some le => modify (λ s, set_tmrl (insert_after le t (tmrl s)) s)
     | None => modify (λ s, set_tmrl (t :: tmrl s) s)
     end) s1 = Ret (tt, started t delay h arg s).
Proof.
  intros [Hnd Hact Hs] Ht j l s1.
  assert (Hexp : ∀ a, a ∈ l → expiry s1 a = expiry s a).
  { intros a [Hne _]%elem_of_other. unfold s1, expiry. cbn. by rewrite lookup_insert_ne by congruence. }
  assert (Hl : ∀ a, a ∈ l → is_Some (tmrs s1 !! a)).
  { intros a [Hne (x & Hx & _)%Hact]%elem_of_other. cbn. rewrite lookup_insert_ne by congruence. by exists x. }
  assert (Hsl : StronglySorted (λ a b, expiry s a ≤ expiry s b) l) by by apply sorted_filter.
  assert (Hndl : NoDup l) by by apply NoDup_filter.
  assert (Hfin : ∀ l1 l2, l = l1 ++ l2 → Forall (λ a, expiry s a ≤ j) l1 → Forall (λ a, expiry s a > j) l2 →
    started t delay h arg s = set_tmrl (l1 ++ t :: l2) s1).
  { intros l1 l2 E H1 H2. unfold started. fold j l. destruct (upto_split (expiry s) j l1 l2 H1 H2) as [E1 E2].
    rewrite E, E1, E2. unfold s1. done. }
  assert (Hcong : ∀ (P : Z → Prop) l', (∀ a, a ∈ l' → a ∈ l) → Forall (λ a, P (expiry s1 a)) l' → Forall (λ a, P (expiry s a)) l').
  { intros P l' Hin Hf. apply Forall_forall. intros a Ha.
    rewrite <- Hexp by by apply Hin. rewrite Forall_forall in Hf. by apply Hf. }
  case_bool_decide as Ed.
  - destruct (tmr_list_apply_run (inspos_handler_0 j) (λ z, bool_decide (z > j)) s1 l) as (r & E & Hr); [done|done|].
    erewrite prog_bind_step by exact E. destruct r as [le|]; unfold modify; do 2 f_equal.
    + destruct Hr as (l1 & l2 & El & H1 & H2). apply bool_decide_eq_true_1 in H2. cbn [tmrl set_tmrl s1].
      assert (Hle : le ∉ l1) by (rewrite El in Hndl; apply NoDup_app in Hndl as (_ & Hd & _); intros Hin; apply (Hd le Hin); by left).
      change (tmrl s1) with l. rewrite El at 1. rewrite insert_before_run by done. symmetry. apply Hfin; [done| |].
      * apply (Hcong (λ z, z ≤ j)); [intros a Ha; rewrite El; apply elem_of_app; by left|].
        eapply Forall_impl; [exact H1|]. simpl. intros a Ha%bool_decide_eq_false_1. lia.
      * rewrite Hexp in H2 by (rewrite El; apply elem_of_app; right; by left).
        apply (sorted_after (expiry s) j le l1); [by rewrite <- El|done].
    + change (tmrl s1) with l. symmetry. apply Hfin; [by rewrite app_nil_r| |constructor].
      apply (Hcong (λ z, z ≤ j)); [done|]. eapply Forall_impl; [exact Hr|]. simpl. intros a Ha%bool_decide_eq_false_1. lia.
  - destruct (tmr_list_apply_run (inspos_handler j) (λ z, bool_decide (z ≤ j)) s1 (reverse l)) as (r & E & Hr); [done| |].
    { intros a Ha. rewrite elem_of_reverse in Ha. by apply Hl. }
    erewrite prog_bind_step by exact E. destruct r as [le|]; unfold modify; do 2 f_equal.
    + destruct Hr as (r1 & r2 & El & H1 & H2). apply bool_decide_eq_true_1 in H2.
      assert (El' : l = (reverse r2) ++ le :: reverse r1).
      { rewrite <- (reverse_involutive l), El, reverse_app, reverse_cons, <- app_assoc. done. }
      assert (Hle : le ∉ reverse r2) by (rewrite El' in Hndl; apply NoDup_app in Hndl as (_ & Hd & _); intros Hin; apply (Hd le Hin); by left).
      change (tmrl s1) with l. rewrite El' at 1. rewrite insert_after_run by done. symmetry.
      rewrite (cons_middle le), app_assoc. apply Hfin; [by rewrite <- app_assoc| |].
      * rewrite Hexp in H2 by (rewrite El'; apply elem_of_app; right; by left).
        apply (sorted_before (expiry s) j le _ (reverse r1)); [by rewrite <- El'|done].
      * apply (Hcong (λ z, z > j)); [intros a Ha; rewrite El'; apply elem_of_app; right; by right|].
        apply Forall_reverse. eapply Forall_impl; [exact H1|]. simpl. intros a Ha%bool_decide_eq_false_1. lia.
    + change (tmrl s1) with l. symmetry. apply (Hfin [] l); [done|constructor|].
      apply (Hcong (λ z, z > j)); [done|]. rewrite <- (reverse_involutive l). apply Forall_reverse.
      eapply Forall_impl; [exact Hr|]. simpl. intros a Ha%bool_decide_eq_false_1. lia.
Qed.

Lemma tmr_start_run t delay h arg s :
  timers_ok s → is_Some (tmrs s !! t) → tmr_start t delay (Some h) arg s = Ret (tt, started t delay h arg s).
Proof.
  intros Hok [x Hx]. rewrite <- (place_run t delay h arg s) by (done || by exists x).
  unfold tmr_start. erewrite prog_bind_step by (by apply tmr_read_run).
  erewrite prog_bind_step by (by eapply unlink_run). erewrite prog_bind_step by (by apply tmr_upd_run).
  erewrite prog_bind_step by done. erewrite prog_bind_step by (apply tmr_upd_run, lookup_insert_eq).
  erewrite prog_bind_step by (apply tmr_read_run, lookup_insert_eq).
  erewrite prog_bind_step by done. cbn. by rewrite insert_insert_eq.
Qed.

Lemma tmr_cancel_run t s :
  timers_ok s → is_Some (tmrs s !! t) → tmr_cancel t s = Ret (tt, cancelled t s).
Proof.
  intros Hok [x Hx]. unfold tmr_cancel, tmr_start. erewrite prog_bind_step by (by apply tmr_read_run).
  erewrite prog_bind_step by (by eapply unlink_run). erewrite prog_bind_step by (by apply tmr_upd_run).
  unfold cancelled, expiry. by rewrite Hx.
Qed.

(** A timer that stops: whatever is left in its object. *)
Lemma stopped_ok t x s : timers_ok s → th x = None →
  timers_ok (set_tmrl (filter (λ a, a ≠ t) (tmrl s)) (set_tmrs (<[t := x]> (tmrs s)) s)).
Proof.
  intros [Hnd Ha Hs] Hx. split; cbn [tmrl tmrs set_tmrl set_tmrs].
  - by apply NoDup_filter.
  - intros a. rewrite elem_of_other, Ha. unfold active. cbn. destruct (decide (a = t)) as [->|Hne].
    + rewrite lookup_insert_eq. split; [by intros []|]. intros (y & [= <-] & [h Hh]). congruence.
    + rewrite lookup_insert_ne by done. naive_solver.
  - assert (Hin : ∀ a, a ∈ filter (λ a, a ≠ t) (tmrl s) → a ≠ t) by (intros a [? _]%elem_of_other; done).
    apply (sorted_filter (expiry s) (λ a, a ≠ t)) in Hs.
    induction Hs as [|a l Hs IH Hf]; constructor; [apply IH; intros b Hb; apply Hin; by right|].
    apply Forall_forall. intros b Hb. rewrite Forall_forall in Hf. specialize (Hf b Hb). unfold expiry in *. cbn.
    rewrite !lookup_insert_ne; [done|..]; intros <-; eapply Hin; [by right|done|by left|done].
Qed.

Lemma started_ok t delay h arg s : timers_ok s → timers_ok (started t delay h arg s).
Proof.
  intros Hok. pose proof Hok as [Hnd Ha Hs]. unfold started. set (j := u64 (delay + now s)).
  set (l := filter (λ a, a ≠ t) (tmrl s)).
  assert (Hsl : StronglySorted (λ a b, expiry s a ≤ expiry s b) l) by by apply sorted_filter.
  assert (Hin : ∀ a, a ∈ upto (expiry s) j l ++ beyond (expiry s) j l ↔ a ∈ l).
  { intros a. unfold upto, beyond. rewrite elem_of_app, !list_elem_of_filter.
    destruct (decide (expiry s a ≤ j)); split; naive_solver lia. }
  set (s' := set_tmrl _ _).
  assert (Hexp : ∀ a, a ≠ t → expiry s' a = expiry s a) by (intros a Hne; by apply (expiry_insert t)).
  assert (Hexpt : expiry s' t = j) by (unfold expiry; cbn; by rewrite lookup_insert_eq).
  assert (Ht : t ∉ l) by by intros [Hne _]%elem_of_other.
  assert (Hperm : upto (expiry s) j l ++ beyond (expiry s) j l ≡ₚ l).
  { unfold upto, beyond. clear -l. induction l as [|a l IH]; [done|]. rewrite !filter_cons.
    destruct (decide (expiry s a ≤ j)).
    - rewrite decide_False by lia. cbn [Datatypes.app]. by rewrite IH.
    - rewrite decide_True by lia. by rewrite <- Permutation_middle, IH. }
  assert (Htl : tmrl s' = upto (expiry s) j l ++ t :: beyond (expiry s) j l) by done.
  split; rewrite ?Htl.
  - rewrite <- Permutation_middle. constructor; [by rewrite Hin|]. rewrite Hperm. by apply NoDup_filter.
  - intros a. rewrite <- Permutation_middle, elem_of_cons, Hin. unfold l. rewrite elem_of_other, Ha. unfold active. cbn.
    destruct (decide (a = t)) as [->|Hne].
    + rewrite lookup_insert_eq. split; [|by left]. intros _. eexists. split; [done|]. by eexists.
    + rewrite lookup_insert_ne by done. naive_solver.
  - assert (Hcong : StronglySorted (λ a b, expiry s' a ≤ expiry s' b) (upto (expiry s) j l ++ beyond (expiry s) j l)).
    { assert (Hss : StronglySorted (λ a b, expiry s a ≤ expiry s b) (upto (expiry s) j l ++ beyond (expiry s) j l)).
      { apply StronglySorted_app. split_and!; [|by apply sorted_filter|by apply sorted_filter].
        intros a b [Ha1 _]%list_elem_of_filter [Hb1 _]%list_elem_of_filter. lia. }
      assert (Hne : ∀ a, a ∈ upto (expiry s) j l ++ beyond (expiry s) j l → a ≠ t) by (intros a Hain%Hin ->; done).
      clear -Hss Hne Hexp. induction Hss as [|a l' Hs IH Hf]; constructor; [apply IH; intros b Hb; apply Hne; by right|].
      apply Forall_forall. intros b Hb. rewrite Forall_forall in Hf. rewrite !Hexp; [by apply Hf|..]; apply Hne; [by right|by left]. }
    apply (sorted_insert (expiry s') j); [done|..|exact Hcong].
    + apply Forall_forall. intros a Hain. rewrite Hexp; [by apply list_elem_of_filter in Hain as [? _]|].
      intros ->. apply list_elem_of_filter in Hain as [_ ?]. done.
    + apply Forall_forall. intros a Hain. rewrite Hexp; [by apply list_elem_of_filter in Hain as [? _]|].
      intros ->. apply list_elem_of_filter in Hain as [_ ?]. done.
Qed.

(** ** Polling *)

(** The calls the timers due at [jf] stand for, in order. *)
Definition call_of (s : timers) (t : loc) : option (positive * Z) := x ← tmrs s !! t; h ← th x; Some (h, t_arg x).
Definition due_calls (jf : Z) (s : timers) : list (positive * Z) := omap (call_of s) (due jf s).

(** The timers the handlers work with are allocated; the clock is far from the
    end of its range. *)
Definition known (ts : list loc) (s : timers) : Prop :=
  0 ≤ now s < 2 ^ 63 ∧ ∀ t, t ∈ ts → is_Some (tmrs s !! t).

(** A handler that returns, keeps the invariant, does not turn the clock back
    and makes no timer due in the past: it may stop timers and start others
    for a later time. *)
Definition handler_ok (ts : list loc) (handler : positive → Z → prog timers unit) : Prop :=
  ∀ h a s, timers_ok s → known ts s →
    ∃ s', handler h a s = Ret (tt, s') ∧ timers_ok s' ∧ known ts s' ∧ now s ≤ now s' ∧ calls s' = calls s ∧
      ∀ jf, jf ≤ now s → sublist (due_calls jf s') (due_calls jf s).

Lemma due_calls_length jf s : timers_ok s → length (due_calls jf s) = length (due jf s).
Proof.
  intros [_ Ha _]. unfold due_calls. assert (Hin : ∀ t, t ∈ due jf s → t ∈ tmrl s) by by intros t [_ ?]%list_elem_of_filter.
  induction (due jf s) as [|t l IH]; [done|]. destruct (proj1 (Ha t)) as (x & Hx & [h Hh]); [apply Hin; by left|].
  cbn. unfold call_of at 1. rewrite Hx. cbn. rewrite Hh. cbn. f_equal. apply IH. intros t' Ht'. apply Hin. by right.
Qed.

Lemma sorted_head_due jf t l s : timers_ok s → tmrl s = t :: l → expiry s t > jf → due jf s = [].
Proof.
  intros [_ _ Hs] E Hgt. unfold due. rewrite E in *. apply StronglySorted_inv in Hs as [_ Hf].
  rewrite filter_cons_False by lia. clear E. induction Hf as [|a l Hle _ IH]; [done|]. by rewrite filter_cons_False by lia.
Qed.

Lemma due_beyond jf s : due jf s = [] → beyond (expiry s) jf (tmrl s) = tmrl s.
Proof.
  unfold due, beyond. induction (tmrl s) as [|a l IH]; [done|]. rewrite !filter_cons. case_decide; [done|].
  intros Hd. rewrite decide_True by lia. by rewrite IH.
Qed.

(** One turn takes the first timer off the list. *)
Lemma taken_due jf t x l s :
  timers_ok s → tmrl s = t :: l → tmrs s !! t = Some x → jfs x ≤ jf →
  let s1 := set_tmrl (filter (λ a, a ≠ t) (tmrl s)) (set_tmrs (<[t := TmrObj None (t_arg x) (jfs x)]> (tmrs s)) s) in
  tmrl s1 = l ∧ due_calls jf s = omap (λ o, o) [call_of s t] ++ due_calls jf s1 ∧
  beyond (expiry s1) jf (tmrl s1) = beyond (expiry s) jf (tmrl s) ∧ (∀ a, a ∈ l → expiry s1 a = expiry s a).
Proof.
  intros [Hnd Ha Hs] E Hx Hle s1. rewrite E in Hnd. apply NoDup_cons in Hnd as [Hnin Hnd].
  assert (El : tmrl s1 = l).
  { unfold s1. cbn. rewrite E. rewrite filter_cons_False by naive_solver. by apply filter_other. }
  assert (Hexp : ∀ a, a ∈ l → expiry s1 a = expiry s a).
  { intros a Hin. unfold s1, expiry. cbn. rewrite lookup_insert_ne; [done|]. by intros <-. }
  assert (Hexpt : expiry s t = jfs x) by (unfold expiry; by rewrite Hx).
  split_and!; [done|..|exact Hexp].
  - unfold due_calls, due. rewrite El, E, filter_cons_True by lia. cbn [omap list_omap].
    assert (Hfil : filter (λ a, expiry s a ≤ jf) l = filter (λ a, expiry s1 a ≤ jf) l)
      by (apply filter_agree; intros a Hin; by rewrite Hexp).
    rewrite Hfil.
    assert (Hc : ∀ a, a ∈ l → call_of s1 a = call_of s a).
    { intros a Hin. unfold s1, call_of. cbn. rewrite lookup_insert_ne; [done|]. by intros <-. }
    assert (Ho : omap (call_of s) (filter (λ a, expiry s1 a ≤ jf) l) = omap (call_of s1) (filter (λ a, expiry s1 a ≤ jf) l)).
    { clear -Hc. induction l as [|a l IH]; [done|]. rewrite filter_cons. case_decide.
      - cbn [omap list_omap]. rewrite Hc by by left. rewrite IH; [done|]. intros b Hb. apply Hc. by right.
      - apply IH. intros b Hb. apply Hc. by right. }
    rewrite Ho. by destruct (call_of s t).
  - rewrite El, E. unfold beyond. rewrite filter_cons_False by lia. apply filter_agree. intros a Hin. by rewrite Hexp.
Qed.

Section polling.
Context (ts : list loc) (handler : positive → Z → prog timers unit).

Definition passive : Prop := ∀ h a s, handler h a s = Ret (tt, s).

Lemma poll_loop_run : handler_ok ts handler → ∀ fuel jf s,
  timers_ok s → known ts s → jf ≤ now s → (length (due jf s) ≤ fuel)%nat →
  ∃ s' f, poll_loop handler fuel jf s = Ret (tt, s') ∧ timers_ok s' ∧ known ts s' ∧ due jf s' = [] ∧ now s ≤ now s' ∧
    calls s' = calls s ++ f ∧ sublist f (due_calls jf s) ∧
    (passive → f = due_calls jf s ∧ tmrl s' = beyond (expiry s) jf (tmrl s)).
Proof.
  intros Hh. induction fuel as [|fuel IH]; intros jf s Hok Hkn Hjf Hf.
  all: destruct (tmrl s) as [|t l] eqn:E.
  1, 3: cbn [poll_loop]; erewrite prog_bind_step by done; rewrite E; exists s, []; unfold due; rewrite E, app_nil_r;
    (split_and!; [done|done|done|done|done|done|apply sublist_nil_l|]); intros _; split; [unfold due_calls, due; by rewrite E|done].
  all: destruct (proj1 (tk_active _ Hok t)) as (x & Hx & [h Hth]); [rewrite E; by left|].
  all: assert (Hexp : expiry s t = jfs x) by (unfold expiry; by rewrite Hx).
  all: cbn [poll_loop]; erewrite prog_bind_step by done; rewrite E; erewrite prog_bind_step by (by apply tmr_read_run).
  all: destruct (decide (jfs x > jf)) as [Hgt|Hle].
  1, 3: rewrite bool_decide_eq_true_2 by done; assert (Hd : due jf s = []) by (eapply sorted_head_due; [done|exact E|by rewrite Hexp]);
    exists s, []; rewrite app_nil_r; (split_and!; [done|done|done|done|done|done|apply sublist_nil_l|]);
    intros _; (split; [unfold due_calls; by rewrite Hd|]); rewrite <- E; by rewrite due_beyond.
  1: exfalso; revert Hf; unfold due; rewrite E, filter_cons_True by lia; cbn [length]; lia.
  rewrite bool_decide_eq_false_2 by done.
  destruct (taken_due jf t x l s Hok E Hx ltac:(lia)) as (El & Hdc & Hby & He).
  set (s1 := set_tmrl _ _) in *.
  assert (Hok1 : timers_ok s1) by by apply stopped_ok.
  erewrite prog_bind_step by (by apply tmr_upd_run). erewrite prog_bind_step by done. fold s1. rewrite Hth.
  unfold call_handler. destruct (Hh h (t_arg x) (add_call h (t_arg x) s1)) as (s2 & E2 & Hok2 & Hkn2 & Hnow & Hcalls & Hsub).
  { destruct Hok1. by split. }
  { destruct Hkn as [Hn Hk]. split; [done|]. intros t' Ht'. cbn. destruct (decide (t' = t)) as [->|Hne];
      [rewrite lookup_insert_eq; by eexists|rewrite lookup_insert_ne by congruence; by apply Hk]. }
  assert (Hct : call_of s t = Some (h, t_arg x)) by (unfold call_of; rewrite Hx; cbn; by rewrite Hth).
  rewrite Hct in Hdc. change (omap (λ o, o) [Some ?y] ++ ?r) with (y :: r) in Hdc. specialize (Hsub jf ltac:(done)). change (due_calls jf (add_call h (t_arg x) s1)) with (due_calls jf s1) in Hsub.
  destruct (IH jf s2) as (s3 & f & E3 & Hok3 & Hkn3 & Hd3 & Hnow3 & Hc3 & Hs3 & Hp3); [done|done|change (now (add_call h (t_arg x) s1)) with (now s) in Hnow; lia| |].
  { rewrite <- due_calls_length by done. apply sublist_length in Hsub. rewrite <- due_calls_length in Hf by done.
    rewrite Hdc in Hf. cbn [length] in Hf. lia. }
  exists s3, ((h, t_arg x) :: f). split_and!.
  - erewrite prog_bind_step; [exact E3|]. erewrite prog_bind_step by done. exact E2.
  - done.
  - done.
  - done.
  - change (now (add_call h (t_arg x) s1)) with (now s) in Hnow. lia.
  - rewrite Hc3, Hcalls. change (calls (add_call h (t_arg x) s1)) with (calls s ++ [(h, t_arg x)]). by rewrite <- app_assoc.
  - rewrite Hdc. apply sublist_skip. by etrans.
  - intros Hpas. rewrite Hpas in E2. injection E2 as <-. destruct (Hp3 Hpas) as [-> Hl3]. split; [by rewrite Hdc|].
    rewrite Hl3. etrans; [exact Hby|]. by rewrite <- E.
Qed.
End polling.

(** ** Handlers given by scripts *)

(** What handlers do to timers: start one, for later, stop one, or take time. *)
Inductive command := CStart (t : loc) (delay : Z) (h : positive) (arg : Z) | CCancel (t : loc) | CTime (ms : Z).

Definition exec (c : command) : prog timers unit :=
  match c with
  | CStart t delay h arg => tmr_start t delay (Some h) arg
  | CCancel t => tmr_cancel t
  | CTime ms => modify (λ s, set_now (Z.min (now s + ms) (2 ^ 63 - 1)) s)
  end.

Fixpoint exec_all (cs : list command) : prog timers unit :=
  match cs with [] => skip | c :: r => exec c;; exec_all r end.

(** A command that touches known timers only, and starts them for later. *)
Definition command_ok (ts : list loc) (c : command) : Prop :=
  match c with
  | CStart t delay _ _ => t ∈ ts ∧ 0 < delay < 2 ^ 63
  | CCancel t => t ∈ ts
  | CTime ms => 0 ≤ ms
  end.

Lemma due_sub (f : loc → option (positive * Z)) (l1 l2 : list loc) : sublist l1 l2 → sublist (omap f l1) (omap f l2).
Proof.
  induction 1 as [|x l1 l2 _ IH|x l1 l2 _ IH]; cbn [omap list_omap]; [done|..]; destruct (f x); try done; by constructor.
Qed.

Lemma filter_sub (P : loc → Prop) `{!∀ a, Decision (P a)} (l : list loc) : sublist (filter P l) l.
Proof. induction l as [|a l IH]; [constructor|]. rewrite filter_cons. case_decide; by constructor. Qed.

(** Stopping a timer, or starting it for later, makes nothing else due. *)
Lemma due_calls_other t x l jf s :
  filter (λ a, a ≠ t ∧ expiry s a ≤ jf) (tmrl s) = filter (λ a, a ≠ t ∧ expiry s a ≤ jf) l →
  th x = None ∨ jf < jfs x →
  sublist (due_calls jf (set_tmrl l (set_tmrs (<[t := x]> (tmrs s)) s))) (due_calls jf s).
Proof.
  intros Hl Hx. set (s' := set_tmrl l _).
  assert (Hcall : ∀ a, a ≠ t → call_of s' a = call_of s a ∧ expiry s' a = expiry s a).
  { intros a Hne. unfold call_of, expiry. cbn. by rewrite lookup_insert_ne by congruence. }
  assert (Hcallt : ¬ expiry s' t ≤ jf ∨ call_of s' t = None).
  { unfold call_of, expiry. cbn. rewrite lookup_insert_eq. cbn. destruct Hx as [->|Hx]; [by right|left; lia]. }
  assert (E : due_calls jf s' = omap (call_of s) (filter (λ a, a ≠ t ∧ expiry s a ≤ jf) l)).
  { unfold due_calls, due. change (tmrl s') with l. clearbody s'. clear Hl. induction l as [|a l IH]; [done|].
    rewrite !filter_cons. destruct (decide (a = t)) as [->|Hne].
    - rewrite (decide_False (P := t ≠ t ∧ _)) by naive_solver. case_decide as Hd; [|exact IH].
      destruct Hcallt as [?|Hn]; [done|]. cbn [omap list_omap]. by rewrite Hn.
    - destruct (Hcall a Hne) as [E1 E2]. rewrite E2. destruct (decide (expiry s a ≤ jf)).
      + rewrite decide_True by done. cbn [omap list_omap]. by rewrite E1, IH.
      + rewrite decide_False by naive_solver. exact IH. }
  rewrite E, <- Hl. apply due_sub. unfold due. clear Hl.
  induction (tmrl s) as [|a l' IH]; [constructor|]. rewrite !filter_cons.
  destruct (decide (expiry s a ≤ jf)); [|rewrite decide_False by naive_solver; exact IH].
  case_decide; by constructor.
Qed.

Lemma script_ok ts (script : positive → Z → list command) :
  (∀ h a c, c ∈ script h a → command_ok ts c) → handler_ok ts (λ h a, exec_all (script h a)).
Proof.
  intros Hc h a. specialize (Hc h a). induction (script h a) as [|c cs IH]; intros s Hok Hkn.
  { by exists s. }
  assert (Hstep : ∃ s1, exec c s = Ret (tt, s1) ∧ timers_ok s1 ∧ known ts s1 ∧ now s ≤ now s1 ∧ calls s1 = calls s ∧
    ∀ jf, jf ≤ now s → sublist (due_calls jf s1) (due_calls jf s)).
  { assert (Hins : ∀ t x l, known ts (set_tmrl l (set_tmrs (<[t := x]> (tmrs s)) s))).
    { intros t x l. destruct Hkn as [Hn Hk]. split; [done|]. intros t' Ht'. cbn. destruct (decide (t' = t)) as [->|Hne];
        [rewrite lookup_insert_eq; by eexists|rewrite lookup_insert_ne by congruence; by apply Hk]. }
    pose proof (Hc c ltac:(by left)) as Hcmd. destruct c as [t delay h' arg|t|ms]; cbn [exec command_ok] in *.
    - destruct Hcmd as [Ht Hd]. exists (started t delay h' arg s).
      split; [by apply tmr_start_run; [|apply Hkn]|]. split; [by apply started_ok|]. split; [apply Hins|]. split; [done|].
      split; [done|]. intros jf Hjf. apply due_calls_other.
      + destruct Hkn as [Hn _]. rewrite u64_id by lia. rewrite filter_app, filter_cons_False by naive_solver.
        rewrite (filter_none _ (beyond _ _ _)), app_nil_r.
        2: { apply Forall_forall. intros b [Hb _]%list_elem_of_filter [_ ?]. lia. }
        unfold upto. rewrite !list_filter_filter. apply filter_agree. intros b _. split; [|naive_solver].
        intros [? ?]. split_and!; [done|done|lia|done].
      + right. cbn. destruct Hkn as [Hn _]. rewrite u64_id by lia. lia.
    - exists (cancelled t s). split; [by apply tmr_cancel_run; [|apply Hkn]|]. split; [by apply stopped_ok|]. split; [apply Hins|].
      split; [done|]. split; [done|]. intros jf Hjf. apply due_calls_other; [|by left].
      rewrite list_filter_filter. apply filter_agree. naive_solver.
    - exists (set_now (Z.min (now s + ms) (2 ^ 63 - 1)) s). split; [done|]. destruct Hkn as [Hn Hk].
      split; [destruct Hok; by split|]. split; [split; [cbn; lia|exact Hk]|]. split; [cbn; lia|]. done. }
  destruct Hstep as (s1 & E1 & Hok1 & Hkn1 & Hn1 & Hc1 & Hs1).
  destruct (IH ltac:(intros c' Hc'; apply Hc; by right) s1 Hok1 Hkn1) as (s2 & E2 & Hok2 & Hkn2 & Hn2 & Hc2 & Hs2).
  exists s2. split; [cbn [exec_all]; by erewrite prog_bind_step|]. split; [done|]. split; [done|]. split; [lia|].
  split; [congruence|]. intros jf Hjf. etrans; [apply Hs2; lia|by apply Hs1].
Qed.

(** ** Properties *)

(** Tmr_start and tmr_cancel on any thread's timers, running or not: a
    started timer expires delay milliseconds from now (modulo 2^64) and is linked
    behind every timer that expires no later and before every one that
    expires later, whichever end the search starts from; a cancelled timer is
    unlinked; all else is untouched, and the list goes on holding exactly the
    running timers, each once, in order of expiry. *)
Theorem tmr_start_spec t delay h arg s :
  timers_ok s → is_Some (tmrs s !! t) →
  (tmr_start t delay (Some h) arg s = Ret (tt, started t delay h arg s) ∧ timers_ok (started t delay h arg s)) ∧
  (tmr_cancel t s = Ret (tt, cancelled t s) ∧ timers_ok (cancelled t s)).
Proof.
  intros Hok Ht. split.
  - split; [by apply tmr_start_run|by apply started_ok].
  - split; [by apply tmr_cancel_run|by apply stopped_ok].
Qed.

(** C34: tmr_poll terminates: when handlers return, keep the timers in order and
    start timers only for later, the loop takes at most as many turns as timers
    are due.  It leaves no timer that was due at its start, calls each of
    these at most once and in order of expiry, and none that was not due;
    handlers that leave the timers alone see all of them called, and the timers
    not due keep their places. *)
Theorem tmr_poll_spec ts handler s :
  handler_ok ts handler → timers_ok s → known ts s →
  ∃ s' f, tmr_poll handler (length (due (now s) s)) s = Ret (tt, s') ∧ timers_ok s' ∧ due (now s) s' = [] ∧
    calls s' = calls s ++ f ∧ sublist f (due_calls (now s) s) ∧
    (passive handler → f = due_calls (now s) s ∧ tmrl s' = beyond (expiry s) (now s) (tmrl s)).
Proof.
  intros Hh Hok Hkn. destruct (poll_loop_run ts handler Hh (length (due (now s) s)) (now s) s Hok Hkn ltac:(lia) ltac:(done))
    as (s' & f & E & Hok' & _ & Hd & _ & Hc & Hs & Hp). exists s', f. by split_and!.
Qed.

(** Tmr_next_timeout is 0 exactly when no timer runs; otherwise some timer is
    due when that many milliseconds have passed, it is 1 when one is due
    already, and else none is due any earlier. *)
Theorem tmr_next_timeout_spec s :
  timers_ok s →
  ∃ n, tmr_next_timeout s = Ret (n, s) ∧ (n = 0 ↔ tmrl s = []) ∧
    (tmrl s ≠ [] → 0 < n ∧ due (now s + n) s ≠ [] ∧
      if bool_decide (due (now s) s = []) then ∀ jf, jf < now s + n → due jf s = [] else n = 1).
Proof.
  intros Hok. unfold tmr_next_timeout. erewrite prog_bind_step by done. erewrite prog_bind_step by done.
  destruct (tmrl s) as [|t l] eqn:E; [by exists 0|].
  destruct (proj1 (tk_active _ Hok t)) as (x & Hx & _); [rewrite E; by left|].
  erewrite prog_bind_step by (by apply tmr_read_run).
  assert (Hexp : expiry s t = jfs x) by (unfold expiry; by rewrite Hx).
  assert (Hdue : ∀ jf, jfs x ≤ jf → due jf s ≠ []).
  { intros jf Hle. unfold due. by rewrite E, filter_cons_True by lia. }
  case_bool_decide as Hj.
  - exists 1. split; [done|]. split; [done|]. intros _. split; [lia|]. split; [apply Hdue; lia|].
    rewrite bool_decide_eq_false_2 by by apply Hdue. done.
  - exists (jfs x - now s). split; [done|]. split; [split; [lia|done]|]. intros _. split; [lia|]. split; [apply Hdue; lia|].
    assert (Hnone : ∀ jf, jf < now s + (jfs x - now s) → due jf s = []).
    { intros jf Hlt. apply (sorted_head_due jf t l); [done|done|lia]. }
    by rewrite bool_decide_eq_true_2 by (apply Hnone; lia).
Qed.

(** ** Witnesses *)

(** Three timers: 1 and 2 run, 3 does not. *)
Definition demo : timers :=
  Timers {[ 1%positive := TmrObj (Some 7%positive) 10 100; 2%positive := TmrObj (Some 8%positive) 20 250;
            3%positive := TmrObj None 0 0 ]} [1%positive; 2%positive] 200 [].

Lemma demo_ok : timers_ok demo.
Proof.
  split.
  - apply (bool_decide_eq_true_1 _). vm_compute. reflexivity.
  - intros t. cbn. rewrite !elem_of_cons, elem_of_nil. unfold active, demo. cbn. split.
    + intros [->|[->|[]]]; eexists; (split; [reflexivity|by eexists]).
    + intros (x & Hx & [h Hh]). rewrite !lookup_insert_Some, lookup_singleton_Some in Hx.
      destruct Hx as [[<- _]|[_ [[<- _]|[_ [<- <-]]]]]; [by left|by right; left|done].
  - repeat constructor. vm_compute. congruence.
Qed.

Lemma demo_known : known [1%positive; 2%positive; 3%positive] demo.
Proof.
  split; [by vm_compute|]. intros t Ht. apply (bool_decide_eq_true_1 _).
  revert t Ht. apply Forall_forall. by repeat constructor.
Qed.

Lemma tmr_start_spec_witness :
  (tmr_start 3 50 (Some 9%positive) 0 demo = Ret (tt, started 3 50 9 0 demo) ∧ timers_ok (started 3 50 9 0 demo)) ∧
  (tmr_cancel 3 demo = Ret (tt, cancelled 3 demo) ∧ timers_ok (cancelled 3 demo)) ∧
  tmrl (started 3 50 9 0 demo) = [1%positive; 2%positive; 3%positive] ∧
  tmrl (started 3 49 9 0 demo) = [1%positive; 3%positive; 2%positive].
Proof.
  pose proof (tmr_start_spec 3 50 9 0 demo demo_ok ltac:(by eexists)) as [H1 H2].
  split; [exact H1|]. split; [exact H2|]. by split; vm_compute.
Defined.

(** The handler 7 starts the timer 3 for later and stops the timer 2. *)
Definition demo_script (h : positive) (a : Z) : list command :=
  if bool_decide (h = 7%positive) then [CStart 3 30 9 0; CCancel 2; CTime 5] else [].

Lemma tmr_poll_spec_witness :
  ∃ s' f, tmr_poll (λ h a, exec_all (demo_script h a)) 1 demo = Ret (tt, s') ∧ timers_ok s' ∧ due 200 s' = [] ∧
    calls s' = f ∧ sublist f [(7%positive, 10)].
Proof.
  destruct (tmr_poll_spec [1%positive; 2%positive; 3%positive] (λ h a, exec_all (demo_script h a)) demo)
    as (s' & f & E & Hok & Hd & Hc & Hs & _).
  - apply script_ok. intros h a c. unfold demo_script. case_bool_decide; [|by intros ?%elem_of_nil].
    rewrite !elem_of_cons, elem_of_nil. intros [->|[->|[->|[]]]]; cbn; [|by right; left|lia].
    split; [by right; right; left|lia].
  - exact demo_ok.
  - exact demo_known.
  - exists s', f. split; [exact E|]. split; [exact Hok|]. split; [exact Hd|]. split; [exact Hc|exact Hs].
Defined.

Lemma tmr_next_timeout_spec_witness : ∃ n, tmr_next_timeout demo = Ret (n, demo) ∧ 0 < n.
Proof.
  destruct (tmr_next_timeout_spec demo demo_ok) as (n & E & _ & H). exists n. split; [exact E|]. by apply H.
Defined.
