(* ===== verification/Telev.v ===== *)
(** * Telephony events (re/src/telev/telev.c)

    DTMF digits over RTP (RFC 4733): the payload codec, the receiver that the
    dialer uses to read key presses, and the sender's state machine. *)
From stdpp Require Import base tactics list numbers strings option.
From S2P Require Import Prelude Mbuf.

Definition TXC_DIGIT_MIN : Z := 9.
Definition TXC_END : Z := 3.
Definition EVENT_END : Z := 255.
Definition PAYLOAD_SIZE : Z := 4.
Definition VOLUME : Z := 10.
Definition TELEV_PTIME : Z := 50.

Inductive state := IDLE | SENDING | ENDING.

#[export] Instance state_eq_dec : EqDecision state.
Proof. solve_decision. Defined.

Record telev_fmt := TelevFmt { f_event : Z; f_end : bool; f_vol : Z; f_dur : Z }.

Record telev := Telev {
  t_mb : mbuf;
  t_ptime : Z;
  t_state : state;
  t_event : Z;
  t_dur : Z;
  t_txc : Z;
  t_rx_event : Z;
  t_rx_end : bool
}.

Section telev.
Context (A : allocator).

(** ** The payload *)

Definition payload_encode (mb : mbuf) (event : Z) (fin : bool) (dur : Z) : outcome (Z * mbuf) :=
  let pos := mb_pos mb in
  r1 ← mbuf_write_u8 A mb event;
  let '(e1, mb1) := r1 in
  r2 ← mbuf_write_u8 A mb1 (Z.lor (if fin : bool then 128 else 0) (Z.land VOLUME 63));
  let '(e2, mb2) := r2 in
  r3 ← mbuf_write_u16 A mb2 (htons dur);
  let '(e3, mb3) := r3 in
  let err := Z.lor (Z.lor e1 e2) e3 in
  Ret (err, if bool_decide (err = 0) then mb3 else mbuf_set_pos mb3 pos).

Definition payload_decode (mb : mbuf) : outcome (Z * option telev_fmt * mbuf) :=
  if bool_decide (mbuf_get_left mb < PAYLOAD_SIZE) then Ret (ENOENT, None, mb)
  else
    r ← mbuf_read_u8 mb;
    let '(event, mb1) := r in
    r ← mbuf_read_u8 mb1;
    let '(b, mb2) := r in
    r ← mbuf_read_u16 mb2;
    let '(d, mb3) := r in
    Ret (0, Some (TelevFmt event (bool_decide (Z.land b 128 = 128)) (Z.land b 63) (ntohs d)), mb3).

(** ** Allocation, send and receive *)

Definition telev_alloc (ptime : Z) : Z * option telev :=
  if bool_decide (ptime = 0) then (EINVAL, None)
  else if alloc_ok A 56 then
    match mbuf_alloc A 16 with
    | Some mb => (0, Some (Telev mb ptime IDLE 0 0 0 (-1) false))
    | None => (ENOMEM, None)
    end
  else (ENOMEM, None).

Definition telev_send (t : telev) (event : Z) (fin : bool) : outcome (Z * telev) :=
  let pos := mb_pos (t_mb t) in
  r ← mbuf_write_u8 A (mbuf_set_pos (t_mb t) (mb_end (t_mb t))) (if fin : bool then EVENT_END else event);
  let '(err, mb) := r in
  Ret (err, Telev (mbuf_set_pos mb pos) (t_ptime t) (t_state t) (t_event t) (t_dur t) (t_txc t)
                  (t_rx_event t) (t_rx_end t)).

Definition set_rx (event : Z) (fin : bool) (t : telev) : telev :=
  Telev (t_mb t) (t_ptime t) (t_state t) (t_event t) (t_dur t) (t_txc t) event fin.

(** The result is the error, and the event and end flag when they are set. *)
Definition telev_recv (t : option telev) (mb : mbuf) :
    outcome (Z * option (Z * bool) * option telev * mbuf) :=
  match t with
  | None => Ret (EINVAL, None, None, mb)
  | Some t =>
      r ← payload_decode mb;
      match r with
      | (err, None, mb') => Ret (err, None, Some t, mb')
      | (_, Some fmt, mb') =>
          if f_end fmt then
            if t_rx_end t then Ret (EALREADY, None, Some t, mb')
            else Ret (0, Some (f_event fmt, true), Some (set_rx (-1) true t), mb')
          else if bool_decide (f_event fmt = t_rx_event t) then Ret (EALREADY, None, Some t, mb')
          else Ret (0, Some (f_event fmt, false), Some (set_rx (f_event fmt) false t), mb')
      end
  end.

(** ** The sender *)

Definition set_tx (tmb : mbuf) (st : state) (event dur txc : Z) (t : telev) : telev :=
  Telev tmb (t_ptime t) st event dur txc (t_rx_event t) (t_rx_end t).

(** The result is the error and, on success, the marker bit. *)
Definition telev_poll (t : telev) (mb : mbuf) : outcome (Z * option bool * telev * mbuf) :=
  match t_state t with
  | IDLE =>
      if bool_decide (mbuf_get_left (t_mb t) = 0) then Ret (ENOENT, None, t, mb)
      else
        r ← mbuf_read_u8 (t_mb t);
        let '(event, tmb) := r in
        let dur := u16 (t_ptime t * 8) in
        r ← payload_encode mb event false dur;
        let '(err, mb') := r in
        Ret (err, if bool_decide (err = 0) then Some true else None,
             set_tx tmb SENDING event dur 1 t, mb')
  | SENDING =>
      let dur := u16 (t_dur t + u32 (t_ptime t * 8)) in
      r ← payload_encode mb (t_event t) false dur;
      let '(err, mb') := r in
      let res := if bool_decide (err = 0) then Some false else None in
      let txc := u32 (t_txc t + 1) in
      if bool_decide (txc < TXC_DIGIT_MIN) || bool_decide (mbuf_get_left (t_mb t) = 0) then
        Ret (err, res, set_tx (t_mb t) SENDING (t_event t) dur txc t, mb')
      else
        r ← mbuf_read_u8 (t_mb t);
        let '(v, tmb) := r in
        let tmb' := if bool_decide (v = EVENT_END) then tmb else mbuf_set_pos tmb (u64 (mb_pos tmb - 1)) in
        Ret (err, res, set_tx tmb' ENDING (t_event t) dur 0 t, mb')
  | ENDING =>
      r ← payload_encode mb (t_event t) true (t_dur t);
      let '(err, mb') := r in
      let res := if bool_decide (err = 0) then Some false else None in
      let txc := u32 (t_txc t + 1) in
      if bool_decide (txc < TXC_END) then
        Ret (err, res, set_tx (t_mb t) ENDING (t_event t) (t_dur t) txc t, mb')
      else
        let tmb := if bool_decide (mbuf_get_left (t_mb t) = 0) then mbuf_rewind (t_mb t) else t_mb t in
        Ret (err, res, set_tx tmb IDLE (t_event t) (t_dur t) txc t, mb')
  end.
End telev.

(** ** Digits *)

Definition telev_digit2code (digit : Z) : Z :=
  if bool_decide (48 ≤ digit ∧ digit ≤ 57) then digit - 48
  else if bool_decide (digit = 42) then 10
  else if bool_decide (digit = 35) then 11
  else if bool_decide (97 ≤ digit ∧ digit ≤ 100) then digit - 97 + 12
  else if bool_decide (65 ≤ digit ∧ digit ≤ 68) then digit - 65 + 12
  else -1.

Definition code_map : list Z := bytes_of "0123456789*#ABCD".

Definition telev_code2digit (code : Z) : Z :=
  if bool_decide (code < 0) || bool_decide (16 ≤ code) then -1
  else default 0 (code_map !! Z.to_nat code).

(** ** Lemmas *)

(** A telephone-event payload on the wire. *)
Definition packet (event : Z) (fin : bool) (dur : Z) : list Z :=
  [u8 event; Z.lor (if fin then 128 else 0) VOLUME; u16 dur / 256; u16 dur `mod` 256].

Lemma packet_length e fin dur : length (packet e fin dur) = 4%nat.
Proof. done. Qed.

Lemma packet_ok e fin dur : bytes_ok (packet e fin dur).
Proof.
  unfold packet. pose proof (u16_range dur). repeat constructor; try apply u8_range;
    try (by destruct fin); try (apply Z.mod_pos_bound; lia).
  - apply Z.div_pos; lia.
  - apply Z.div_lt_upper_bound; lia.
Qed.

Section buffers.
Context (A : allocator) `{!allocator_ok A}.

(** A typed store at the end of a buffer with room. *)
Lemma wop_room o mb :
  mbuf_wf mb → mb_pos mb = mb_end mb → mb_pos mb + Z.of_nat (wop_size o) ≤ mb_size mb →
  ∃ mb', wop_write A o mb = Ret (0, mb') ∧ mbuf_wf mb' ∧ mb_pos mb' = mb_end mb' ∧
    mb_pos mb' = mb_pos mb + Z.of_nat (wop_size o) ∧ mb_size mb ≤ mb_size mb'.
Proof.
  intros Hwf Hpe Hroom. rewrite wop_write_image.
  destruct (mbuf_write_room A mb (image o)) as (mb' & E & Hwf' & W1 & W2 & W3 & _);
    [apply Hwf|unfold image; by rewrite le_bytes_length|apply le_bytes_ok|].
  unfold image in *. rewrite le_bytes_length in *. exists mb'. split_and!; (done || lia).
Qed.

Lemma payload_encode_run mb e fin dur :
  mbuf_wf mb → mb_pos mb = mb_end mb → mb_pos mb + 4 ≤ mb_size mb →
  ∃ mb', payload_encode A mb e fin dur = Ret (0, mb') ∧ mbuf_wf (mbuf_set_pos mb' (mb_pos mb)) ∧
    payload (mbuf_set_pos mb' (mb_pos mb)) = packet e fin dur.
Proof.
  intros Hwf Hpe Hroom. set (flags := Z.lor (if fin then 128 else 0) (Z.land VOLUME 63)).
  destruct (wop_room (W8 e) mb) as (mb1 & E1 & Hwf1 & Hpe1 & Hp1 & Hs1); [done|done|simpl; lia|].
  destruct (wop_room (W8 flags) mb1) as (mb2 & E2 & Hwf2 & Hpe2 & Hp2 & Hs2); [done|done|simpl in *; lia|].
  destruct (wop_room (W16 (htons dur)) mb2) as (mb3 & E3 & Hwf3 & Hpe3 & Hp3 & Hs3);
    [done|done|simpl in *; lia|].
  simpl in *. exists mb3. unfold payload_encode. rewrite E1. cbn [mbind outcome_bind]. fold flags. rewrite E2. cbn [mbind outcome_bind].
  rewrite E3. cbn. rewrite bool_decide_eq_true_2 by done. split; [done|].
  pose proof Hwf as [(_ & _ & _ & Hp & _) _].
  destruct (write_all_run A [W8 e; W8 flags; W16 (htons dur)] mb 0 mb3 (mb_pos mb))
    as (H1 & H2 & H3 & H4); [done|done|lia| |done|].
  { cbn [write_all wop_write mbind outcome_bind]. rewrite E1. cbn [mbind outcome_bind].
    rewrite (bool_decide_eq_true_2 (0 = 0)), E2 by done. cbn [mbind outcome_bind].
    rewrite (bool_decide_eq_true_2 (0 = 0)), E3 by done. done. }
  split; [apply set_pos_wf; [done|lia..]|]. rewrite H4, payload_bytes_at.
  cbn [mbuf_set_pos mb_pos mb_end]. rewrite Hpe, Z.sub_diag.
  change (concat _) with (le_bytes 1 e ++ le_bytes 1 flags ++ le_bytes 2 (htons dur) ++ []).
  rewrite le_bytes_htons. unfold packet. subst flags. by destruct fin.
Qed.
End buffers.

Lemma payload_decode_run mb e b d1 d0 rest :
  mbuf_wf mb → payload mb = e :: b :: d1 :: d0 :: rest →
  ∃ mb', payload_decode mb =
    Ret (0, Some (TelevFmt e (bool_decide (Z.land b 128 = 128)) (Z.land b 63) (256 * d1 + d0)), mb') ∧
    (mbuf_wf mb' ∧ payload mb' = rest) ∧ ∀ p, mbuf_set_pos mb' p = mbuf_set_pos mb p.
Proof.
  intros Hwf E. pose proof (payload_ok mb Hwf) as Hok. rewrite E in Hok.
  do 4 (apply List.Forall_cons_iff in Hok as [? Hok]).
  pose proof (payload_length mb Hwf) as Hl. rewrite E in Hl. simpl in Hl.
  unfold payload_decode. rewrite mbuf_get_left_wf, bool_decide_eq_false_2 by (done || unfold PAYLOAD_SIZE; lia).
  destruct (payload_read_int mb 1 [e] _ Hwf E) as (E1 & Hwf1 & P1); [done|].
  unfold mbuf_read_u8, mbuf_read_u16. rewrite E1. cbn [mbind outcome_bind].
  destruct (payload_read_int _ 1 [b] _ Hwf1 P1) as (E2 & Hwf2 & P2); [done|].
  rewrite E2. cbn [mbind outcome_bind].
  destruct (payload_read_int _ 2 [d1; d0] _ Hwf2 P2) as (E3 & Hwf3 & P3); [done|].
  rewrite E3. cbn [mbind outcome_bind le_value]. eexists; split; [|by split_and!].
  rewrite !Z.mul_0_r, !Z.add_0_r. unfold ntohs. by rewrite htons_bytes.
Qed.

Lemma payload_decode_packet mb e fin dur rest :
  mbuf_wf mb → payload mb = packet e fin dur ++ rest →
  ∃ mb', payload_decode mb = Ret (0, Some (TelevFmt (u8 e) fin VOLUME (u16 dur)), mb') ∧
    mbuf_wf mb' ∧ payload mb' = rest.
Proof.
  intros Hwf E. destruct (payload_decode_run mb _ _ _ _ _ Hwf E) as (mb' & E' & H & _).
  exists mb'. split; [|done]. rewrite E'. pose proof (Z.div_mod (u16 dur) 256 ltac:(lia)).
  repeat f_equal; [by destruct fin|by destruct fin|lia].
Qed.

(** ** Properties *)

(** A telephone event encoded at the end of a buffer with room for it is
    decoded from there as the same event (modulo 256), end flag and duration
    (modulo 65536), with the fixed volume, and nothing is left over. *)
Theorem payload_roundtrip (A : allocator) `{!allocator_ok A} mb e fin dur :
  mbuf_wf mb → mb_pos mb = mb_end mb → mb_pos mb + 4 ≤ mb_size mb →
  ∃ mb' mb'', payload_encode A mb e fin dur = Ret (0, mb') ∧
    payload_decode (mbuf_set_pos mb' (mb_pos mb)) =
      Ret (0, Some (TelevFmt (u8 e) fin VOLUME (u16 dur)), mb'') ∧ payload mb'' = [].
Proof.
  intros Hwf Hpe Hroom. destruct (payload_encode_run A mb e fin dur) as (mb' & E & Hwf' & Hp); [done..|].
  destruct (payload_decode_packet _ e fin dur [] Hwf') as (mb'' & E' & _ & H); [by rewrite app_nil_r|].
  by exists mb', mb''.
Qed.

(** ** The receiver *)

(** Feeds packets to a receiver: the events it reports. *)
Fixpoint recv_all (t : telev) (pkts : list mbuf) : outcome (list (Z * bool) * telev) :=
  match pkts with
  | [] => Ret ([], t)
  | mb :: rest =>
      r ← telev_recv (Some t) mb;
      match r with
      | (err, ev, Some t', _) =>
          r ← recv_all t' rest;
          let '(evs, t2) := r in
          Ret (match ev with Some e => e :: evs | None => evs end, t2)
      | (_, _, None, _) => Fault NullDeref
      end
  end.

#[global] Arguments telev_recv : simpl never.
#[global] Arguments telev_poll : simpl never.

(** A buffer that holds the given bytes. *)
Definition holds (mb : mbuf) (bs : list Z) : Prop := mbuf_wf mb ∧ payload mb = bs.

Lemma telev_recv_run t mb e (fin : bool) dur :
  holds mb (packet e fin dur) → is_byte e →
  ∃ err ev t' mb', telev_recv (Some t) mb = Ret (err, ev, Some t', mb') ∧
    if fin then
      if t_rx_end t then err = EALREADY ∧ ev = None ∧ t' = t
      else err = 0 ∧ ev = Some (e, true) ∧ t' = set_rx (-1) true t
    else if bool_decide (e = t_rx_event t) then err = EALREADY ∧ ev = None ∧ t' = t
    else err = 0 ∧ ev = Some (e, false) ∧ t' = set_rx e false t.
Proof.
  intros [Hwf Hp] He. destruct (payload_decode_packet mb e fin dur [] Hwf) as (mb' & E & _).
  { by rewrite app_nil_r. }
  unfold telev_recv. rewrite E. cbn. rewrite u8_id by apply He.
  destruct fin; [destruct (t_rx_end t); eauto 10|]. case_bool_decide; eauto 10.
Qed.

(** The receiver on the bytes of a payload: the event, its end flag and the new
    state, when the packet is news. *)
Definition recv_step (t : telev) (bs : list Z) : option (Z * bool * telev) :=
  match bs with
  | e :: b :: _ :: _ :: _ =>
      if bool_decide (Z.land b 128 = 128) then
        if t_rx_end t then None else Some (e, true, set_rx (-1) true t)
      else if bool_decide (e = t_rx_event t) then None else Some (e, false, set_rx e false t)
  | _ => None
  end.

Lemma telev_recv_step t mb :
  mbuf_wf mb →
  match recv_step t (payload mb) with
  | Some (e, fin, t') => is_byte e ∧ ∃ mb', telev_recv (Some t) mb = Ret (0, Some (e, fin), Some t', mb') ∧
      ∀ p, mbuf_set_pos mb' p = mbuf_set_pos mb p
  | None => ∃ err mb', err ≠ 0 ∧ telev_recv (Some t) mb = Ret (err, None, Some t, mb')
  end.
Proof.
  intros Hwf. pose proof (payload_length mb Hwf) as Hl. pose proof (payload_ok mb Hwf) as Hok.
  assert (Hshort : mb_end mb - mb_pos mb < 4 → ∃ err mb', err ≠ 0 ∧ telev_recv (Some t) mb = Ret (err, None, Some t, mb')).
  { intros Hlt. exists ENOENT, mb. split; [done|]. unfold telev_recv, payload_decode.
    rewrite mbuf_get_left_wf by done. by rewrite bool_decide_eq_true_2 by (unfold PAYLOAD_SIZE; lia). }
  destruct (payload mb) as [|e [|b [|d1 [|d0 rest]]]] eqn:E; simpl in Hl; try (apply Hshort; lia).
  apply List.Forall_cons_iff in Hok as [He _].
  destruct (payload_decode_run mb _ _ _ _ _ Hwf E) as (mb' & E' & _ & Hset). cbn [recv_step].
  unfold telev_recv. rewrite E'. cbn [mbind outcome_bind f_end f_event].
  destruct (bool_decide (Z.land b 128 = 128)); [destruct (t_rx_end t)|destruct (bool_decide (e = t_rx_event t))];
    eauto; exists EALREADY; eauto.
Qed.

(** A key press on the wire: begin packets and end packets with any durations. *)
Record press := Press { pr_event : Z; pr_begin : list Z; pr_end : list Z }.

Definition press_ok (p : press) : Prop := is_byte (pr_event p) ∧ pr_begin p ≠ [] ∧ pr_end p ≠ [].

#[export] Instance press_ok_dec p : Decision (press_ok p).
Proof. unfold press_ok. apply _. Defined.

Definition press_packets (p : press) : list (list Z) :=
  map (packet (pr_event p) false) (pr_begin p) ++ map (packet (pr_event p) true) (pr_end p).

Definition press_events (p : press) : list (Z * bool) := [(pr_event p, false); (pr_event p, true)].

Lemma recv_all_app t mbs1 mbs2 evs1 t1 :
  recv_all t mbs1 = Ret (evs1, t1) →
  recv_all t (mbs1 ++ mbs2) = (r ← recv_all t1 mbs2; let '(evs, t2) := r in Ret (evs1 ++ evs, t2)).
Proof.
  revert t evs1. induction mbs1 as [|mb mbs1 IH]; intros t evs1; simpl.
  - intros [= <- <-]. destruct (recv_all t mbs2) as [[]|]; done.
  - destruct (telev_recv (Some t) mb) as [[[[err ev] [t'|]] mb']|]; simpl; try done.
    destruct (recv_all t' mbs1) as [[evs t2]|] eqn:E; simpl; [|done]. intros [= <- <-].
    rewrite (IH _ _ E). destruct (recv_all t2 mbs2) as [[]|]; simpl; [|done]. by destruct ev.
Qed.

(** Repeated packets are silent. *)
Lemma recv_repeats t mbs e (fin : bool) ds :
  is_byte e → (if fin then t_rx_end t = true else t_rx_event t = e) →
  Forall2 holds mbs (map (packet e fin) ds) → recv_all t mbs = Ret ([], t).
Proof.
  intros He Ht. revert mbs. induction ds as [|d ds IH]; intros mbs Hm; simpl in Hm;
    inversion Hm as [|mb ? mbs' ? Hh Hm']; subst; [done|]. simpl.
  destruct (telev_recv_run t mb e fin d Hh He) as (err & ev & t' & mb' & E & H). rewrite E. simpl.
  assert (ev = None ∧ t' = t) as [-> ->].
  { destruct fin; [by rewrite Ht in H; naive_solver|].
    rewrite bool_decide_eq_true_2 in H by done. naive_solver. }
  by rewrite IH.
Qed.

Lemma recv_burst t mbs e (fin : bool) ds :
  is_byte e → ds ≠ [] → (if fin then t_rx_end t = false else t_rx_event t ≠ e) →
  Forall2 holds mbs (map (packet e fin) ds) →
  recv_all t mbs = Ret ([(e, fin)], set_rx (if fin then -1 else e) fin t).
Proof.
  intros He Hne Ht Hm. destruct ds as [|d ds]; [done|]. simpl in Hm.
  inversion Hm as [|mb ? mbs' ? Hh Hm']; subst. simpl.
  destruct (telev_recv_run t mb e fin d Hh He) as (err & ev & t' & mb' & E & H). rewrite E. simpl.
  assert (ev = Some (e, fin) ∧ t' = set_rx (if fin then -1 else e) fin t) as [-> ->].
  { destruct fin; [by rewrite Ht in H; naive_solver|].
    rewrite bool_decide_eq_false_2 in H by done. naive_solver. }
  rewrite (recv_repeats _ _ e fin ds He) by (by destruct fin). done.
Qed.

Lemma recv_press t mbs p :
  press_ok p → t_rx_event t = -1 → Forall2 holds mbs (press_packets p) →
  recv_all t mbs = Ret (press_events p, set_rx (-1) true t).
Proof.
  intros (He & Hb & Hend) Ht Hm. unfold press_packets in Hm.
  apply Forall2_app_inv_r in Hm as (mbs1 & mbs2 & H1 & H2 & ->).
  erewrite recv_all_app by (apply (recv_burst t mbs1 (pr_event p) false (pr_begin p)); unfold is_byte in *; (done || lia)).
  by rewrite (recv_burst _ mbs2 (pr_event p) true (pr_end p)).
Qed.

(** The receiver reports every key press exactly once: for any sequence of
    presses, each sent as one or more begin packets and one or more end packets
    with arbitrary durations (the same digit may be pressed again), a receiver
    that is between presses reports for each press its begin and then its end,
    in order, and nothing else. *)
Theorem telev_recv_exactly_once t mbs ps :
  Forall press_ok ps → t_rx_event t = -1 →
  Forall2 holds mbs (concat (map press_packets ps)) →
  ∃ t', recv_all t mbs = Ret (concat (map press_events ps), t') ∧ t_rx_event t' = -1.
Proof.
  intros Hps. revert t mbs. induction Hps as [|p ps Hp _ IH]; intros t mbs Ht Hm; simpl in Hm.
  { inversion Hm; subst. by exists t. }
  apply Forall2_app_inv_r in Hm as (mbs1 & mbs2 & H1 & H2 & ->).
  destruct (IH (set_rx (-1) true t) mbs2) as (t' & E & Ht'); [done..|].
  exists t'. split; [|done]. erewrite recv_all_app by (by apply recv_press). by rewrite E.
Qed.

(** ** The sender *)

Definition sent (mb mb' : mbuf) (bs : list Z) : Prop := holds (mbuf_set_pos mb' (mb_pos mb)) bs.

(** A buffer for an outgoing packet. *)
Definition out_ok (mb : mbuf) : Prop := mbuf_wf mb ∧ mb_pos mb = mb_end mb ∧ mb_pos mb + 4 ≤ mb_size mb.

#[export] Instance out_ok_dec mb : Decision (out_ok mb).
Proof. unfold out_ok. apply _. Defined.

Section sender.
Context (A : allocator) `{!allocator_ok A}.

Lemma encode_sent mb e fin dur :
  out_ok mb → ∃ mb', payload_encode A mb e fin dur = Ret (0, mb') ∧ sent mb mb' (packet e fin dur).
Proof. intros (H1 & H2 & H3). by apply payload_encode_run. Qed.

Lemma poll_first t mb e rest :
  out_ok mb → t_state t = IDLE → mbuf_wf (t_mb t) → payload (t_mb t) = e :: rest →
  ∃ mb' tmb, telev_poll A t mb = Ret (0, Some true, set_tx tmb SENDING e (u16 (t_ptime t * 8)) 1 t, mb') ∧
    sent mb mb' (packet e false (t_ptime t * 8)) ∧ mbuf_wf tmb ∧ payload tmb = rest.
Proof.
  intros Ho Hst Hwf Hp. unfold telev_poll. rewrite Hst.
  pose proof (payload_length _ Hwf) as Hl. rewrite Hp in Hl. simpl in Hl.
  rewrite mbuf_get_left_wf, bool_decide_eq_false_2 by (done || lia).
  destruct (payload_read_int _ 1 [e] _ Hwf Hp) as (E1 & Hwf1 & P1); [done|].
  unfold mbuf_read_u8. rewrite E1. cbn [mbind outcome_bind].
  destruct (encode_sent mb (le_value [e]) false (u16 (t_ptime t * 8)) Ho) as (mb' & E2 & Hs).
  rewrite E2. cbn [mbind outcome_bind]. rewrite bool_decide_eq_true_2 by done.
  exists mb'. eexists. assert (Hle : le_value [e] = e) by (cbn [le_value]; lia). rewrite Hle in *.
  split_and!; [done| |done|done]. unfold packet in *. by rewrite u16_id in Hs by apply u16_range.
Qed.

Lemma poll_sending t mb :
  out_ok mb → t_state t = SENDING → 0 ≤ t_txc t < 8 →
  let dur := u16 (t_dur t + u32 (t_ptime t * 8)) in
  ∃ mb', telev_poll A t mb =
      Ret (0, Some false, set_tx (t_mb t) SENDING (t_event t) dur (t_txc t + 1) t, mb') ∧
    sent mb mb' (packet (t_event t) false dur).
Proof.
  intros Ho Hst Htx dur. unfold telev_poll. rewrite Hst. fold dur.
  destruct (encode_sent mb (t_event t) false dur Ho) as (mb' & E & Hs). rewrite E.
  cbn [mbind outcome_bind]. rewrite (u32_id (t_txc t + 1)) by lia.
  unfold TXC_DIGIT_MIN. destruct (decide (t_txc t + 1 < 9)); [|lia].
  rewrite (bool_decide_eq_true_2 (0 = 0)), (bool_decide_eq_true_2 (_ < 9)) by done. eauto.
Qed.

(** The ninth packet: the release is waiting in the queue. *)
Lemma poll_release t mb rest :
  out_ok mb → t_state t = SENDING → t_txc t = 8 →
  mbuf_wf (t_mb t) → payload (t_mb t) = EVENT_END :: rest →
  let dur := u16 (t_dur t + u32 (t_ptime t * 8)) in
  ∃ mb' tmb, telev_poll A t mb = Ret (0, Some false, set_tx tmb ENDING (t_event t) dur 0 t, mb') ∧
    sent mb mb' (packet (t_event t) false dur) ∧ mbuf_wf tmb ∧ payload tmb = rest.
Proof.
  intros Ho Hst Htx Hwf Hp dur. unfold telev_poll. rewrite Hst. fold dur.
  destruct (encode_sent mb (t_event t) false dur Ho) as (mb' & E & Hs). rewrite E.
  cbn [mbind outcome_bind]. rewrite Htx. change (u32 (8 + 1)) with 9.
  pose proof (payload_length _ Hwf) as Hl. rewrite Hp in Hl. simpl in Hl.
  rewrite mbuf_get_left_wf by done. unfold TXC_DIGIT_MIN.
  rewrite (bool_decide_eq_false_2 (9 < 9)), (bool_decide_eq_false_2 (mb_end _ - _ = 0)) by lia. cbn [orb].
  destruct (payload_read_int _ 1 [EVENT_END] _ Hwf Hp) as (E1 & Hwf1 & P1); [done|].
  unfold mbuf_read_u8. rewrite E1. cbn [mbind outcome_bind].
  rewrite (bool_decide_eq_true_2 (0 = 0)), (bool_decide_eq_true_2 (le_value _ = _)) by done. eauto 10.
Qed.

Lemma poll_ending t mb :
  out_ok mb → t_state t = ENDING → 0 ≤ t_txc t ≤ 2 →
  ∃ mb' tmb, telev_poll A t mb = Ret (0, Some false,
      set_tx tmb (if bool_decide (t_txc t < 2) then ENDING else IDLE) (t_event t) (t_dur t) (t_txc t + 1) t, mb') ∧
    sent mb mb' (packet (t_event t) true (t_dur t)) ∧
    (t_txc t < 2 → tmb = t_mb t) ∧ (mbuf_wf (t_mb t) → payload (t_mb t) = [] → mbuf_get_left tmb = 0).
Proof.
  intros Ho Hst Htx. unfold telev_poll. rewrite Hst.
  destruct (encode_sent mb (t_event t) true (t_dur t) Ho) as (mb' & E & Hs). rewrite E.
  cbn [mbind outcome_bind]. rewrite (u32_id (t_txc t + 1)) by lia.
  rewrite (bool_decide_eq_true_2 (0 = 0)) by done. unfold TXC_END.
  assert (Hleft : mbuf_wf (t_mb t) → payload (t_mb t) = [] → mbuf_get_left (t_mb t) = 0).
  { intros Hwf Hp. rewrite mbuf_get_left_wf by done. pose proof (payload_length _ Hwf) as Hl.
    rewrite Hp in Hl. simpl in Hl. lia. }
  destruct (decide (t_txc t < 2)).
  - rewrite !bool_decide_eq_true_2 by lia. eauto 10.
  - rewrite (bool_decide_eq_false_2 (t_txc t + 1 < 3)), (bool_decide_eq_false_2 (t_txc t < 2)) by lia.
    exists mb'. eexists. split; [done|]. split; [done|]. split; [lia|]. intros Hwf Hp.
    rewrite Hleft by done. rewrite bool_decide_eq_true_2 by done. done.
Qed.

(** Polls the sender once per buffer: the markers and the filled buffers. *)
Fixpoint poll_all (t : telev) (mbs : list mbuf) : outcome (list (option bool * mbuf) * telev) :=
  match mbs with
  | [] => Ret ([], t)
  | mb :: rest =>
      r ← telev_poll A t mb;
      let '(err, mk, t', mb') := r in
      r ← poll_all t' rest;
      let '(out, t2) := r in
      Ret ((mk, mbuf_set_pos mb' (mb_pos mb)) :: out, t2)
  end.

Lemma poll_all_app t mbs1 mbs2 out1 t1 :
  poll_all t mbs1 = Ret (out1, t1) →
  poll_all t (mbs1 ++ mbs2) = (r ← poll_all t1 mbs2; let '(out, t2) := r in Ret (out1 ++ out, t2)).
Proof.
  revert t out1. induction mbs1 as [|mb mbs1 IH]; intros t out1; simpl.
  - intros [= <- <-]. destruct (poll_all t mbs2) as [[]|]; done.
  - destruct (telev_poll A t mb) as [[[[err mk] t'] mb']|]; simpl; [|done].
    destruct (poll_all t' mbs1) as [[out t2]|] eqn:E; simpl; [|done]. intros [= <- <-].
    rewrite (IH _ _ E). destruct (poll_all t2 mbs2) as [[]|]; done.
Qed.

Lemma poll_all_one t mb err mk t' mb' :
  telev_poll A t mb = Ret (err, mk, t', mb') →
  poll_all t [mb] = Ret ([(mk, mbuf_set_pos mb' (mb_pos mb))], t').
Proof. intros E. simpl. by rewrite E. Qed.

(** The digit is held: each poll adds a packet time to the duration. *)
Lemma poll_hold mbs : ∀ t k,
  Forall out_ok mbs → t_state t = SENDING → t_ptime t = TELEV_PTIME →
  t_txc t = k → t_dur t = 400 * k → 1 ≤ k → k + Z.of_nat (length mbs) ≤ 8 →
  ∃ out, let n := Z.of_nat (length mbs) in
    poll_all t mbs = Ret (out, set_tx (t_mb t) SENDING (t_event t) (400 * (k + n)) (k + n) t) ∧
    out.*1 = replicate (length mbs) (Some false) ∧
    Forall2 holds out.*2 (map (packet (t_event t) false) (map (Z.mul 400) (seqZ (k + 1) n))).
Proof.
  induction mbs as [|mb mbs IH]; intros t k Hm Hst Hpt Hk Hd H1 H8; simpl in H8.
  { exists []. simpl. rewrite Z.add_0_r. split_and!; [|done|constructor].
    destruct t; simpl in *. by subst. }
  inversion Hm as [|? ? Ho Hm']; subst.
  destruct (poll_sending t mb) as (mb' & E & Hs); [done|done|lia|]. cbv zeta in *.
  rewrite Hpt, Hd in E, Hs. change (u32 (TELEV_PTIME * 8)) with 400 in E, Hs.
  rewrite (u16_id (_ + 400)) in E, Hs by lia.
  replace (400 * t_txc t + 400) with (400 * (t_txc t + 1)) in E, Hs by lia.
  edestruct (IH (set_tx (t_mb t) SENDING (t_event t) (400 * (t_txc t + 1)) (t_txc t + 1) t) (t_txc t + 1))
    as (out & E' & Hmk & Hp); [done..|simpl; lia|lia|].
  exists ((Some false, mbuf_set_pos mb' (mb_pos mb)) :: out).
  cbv zeta. split; [|split].
  - change (mb :: mbs) with ([mb] ++ mbs).
    erewrite poll_all_app by (by eapply poll_all_one). rewrite E'. cbn [mbind outcome_bind app].
    do 2 f_equal. unfold set_tx. cbn. f_equal; lia.
  - rewrite fmap_cons, Hmk. done.
  - rewrite fmap_cons, (seqZ_cons (t_txc t + 1)) by (simpl; lia). constructor; [done|]. cbn [length].
    replace (Z.pred (Z.of_nat (S (length mbs)))) with (Z.of_nat (length mbs)) by lia. done.
Qed.

Lemma telev_send_run t e fin :
  mbuf_wf (t_mb t) → mb_end (t_mb t) + 1 ≤ mb_size (t_mb t) →
  ∃ tmb, telev_send A t e fin = Ret (0, set_tx tmb (t_state t) (t_event t) (t_dur t) (t_txc t) t) ∧
    mbuf_wf tmb ∧ payload tmb = payload (t_mb t) ++ [u8 (if fin : bool then EVENT_END else e)] ∧
    mb_end tmb = mb_end (t_mb t) + 1 ∧ mb_size (t_mb t) ≤ mb_size tmb.
Proof.
  intros Hwf Hroom. pose proof Hwf as [(_ & _ & He & Hp & _) Hpe].
  set (b := if fin then EVENT_END else e). set (mb1 := mbuf_set_pos (t_mb t) (mb_end (t_mb t))).
  assert (Hwf1 : mbuf_wf mb1) by (apply set_pos_wf; (done || lia)).
  destruct (wop_room A (W8 b) mb1) as (mb2 & E & Hwf2 & Hpe2 & Hp2 & Hs2); [done|done|simpl; lia|].
  destruct (write_all_run A [W8 b] mb1 0 mb2 (mb_pos (t_mb t))) as (_ & _ & H3 & H4);
    [done|done|simpl; lia| |done|].
  { cbn [write_all mbind outcome_bind]. rewrite E. done. }
  exists (mbuf_set_pos mb2 (mb_pos (t_mb t))). unfold telev_send. fold b mb1.
  change (mbuf_write_u8 A mb1 b) with (wop_write A (W8 b) mb1). rewrite E.
  cbn [mbind outcome_bind]. simpl in Hp2. split_and!; [done|apply set_pos_wf; (done || lia)| |simpl; lia|done].
  by rewrite H4.
Qed.
End sender.

(** C35: end to end, a digit pressed and released on an idle sender (50 ms
    packets) goes out as nine begin packets with durations 400, 800, ... 3600,
    the first with the marker bit, and three end packets with the final
    duration, after which the sender has nothing to send; a receiver fed with
    these packets reports exactly the begin and the end of that digit. *)
Theorem telev_press_end_to_end (A : allocator) `{!allocator_ok A} t e mbs mb r :
  t_state t = IDLE → t_ptime t = TELEV_PTIME → mbuf_wf (t_mb t) → payload (t_mb t) = [] →
  mb_end (t_mb t) + 2 ≤ mb_size (t_mb t) → 0 ≤ e < EVENT_END →
  length mbs = 12%nat → Forall out_ok mbs → t_rx_event r = -1 →
  ∃ t1 t2 t3 out r',
    telev_send A t e false = Ret (0, t1) ∧ telev_send A t1 e true = Ret (0, t2) ∧
    poll_all A t2 mbs = Ret (out, t3) ∧ out.*1 = Some true :: replicate 11 (Some false) ∧
    Forall2 holds out.*2 (press_packets (Press e (map (Z.mul 400) (seqZ 1 9)) [3600; 3600; 3600])) ∧
    telev_poll A t3 mb = Ret (ENOENT, None, t3, mb) ∧
    recv_all r out.*2 = Ret ([(e, false); (e, true)], r').
Proof.
  intros Hst Hpt Hwf Hpay Hroom He Hlen Hms Hr. unfold EVENT_END in He.
  destruct (telev_send_run A t e false) as (tmb1 & E1 & Hwf1 & Hp1 & He1 & Hs1); [done|lia|].
  rewrite Hpay, u8_id in Hp1 by lia. cbn [app] in Hp1.
  set (t1 := set_tx tmb1 _ _ _ _ _) in E1.
  destruct (telev_send_run A t1 e true) as (tmb2 & E2 & Hwf2 & Hp2 & He2 & _); [done|simpl; lia|].
  simpl in Hp2. rewrite Hp1 in Hp2. change (u8 EVENT_END) with EVENT_END in Hp2. cbn [app] in Hp2.
  set (t2 := set_tx tmb2 _ _ _ _ _) in E2.
  destruct mbs as [|mb0 mbs]; [done|].
  assert (Hsplit : ∃ hold mb9 mb10 mb11 mb12, mbs = hold ++ [mb9; mb10; mb11; mb12] ∧ length hold = 7%nat).
  { do 12 (destruct mbs as [|? mbs]; try done). by eexists [_; _; _; _; _; _; _], _, _, _, _. }
  destruct Hsplit as (hold & mb9 & mb10 & mb11 & mb12 & -> & Hhold).
  inversion Hms as [|? ? Ho0 Hms']; subst. apply Forall_app in Hms' as [Hoh Ho].
  do 4 (apply List.Forall_cons_iff in Ho as [? Ho]). clear Ho Hms.
  destruct (poll_first A t2 mb0 e [EVENT_END]) as (mb0' & tmb3 & P0 & S0 & Hwf3 & Hp3); [done..|].
  assert (Hpt2 : t_ptime t2 = TELEV_PTIME) by done. rewrite Hpt2 in P0, S0. change (u16 (TELEV_PTIME * 8)) with 400 in P0.
  change (TELEV_PTIME * 8) with (400 * 1) in S0.
  set (t3 := set_tx tmb3 _ _ _ _ _) in P0.
  destruct (poll_hold A hold t3 1) as (outh & Ph & Hmk & Hh); [done..|lia|]. cbv zeta in *.
  rewrite Hhold in Ph, Hmk, Hh. set (t4 := set_tx _ _ _ _ _ _) in Ph.
  destruct (poll_release A t4 mb9 []) as (mb9' & tmb5 & P9 & S9 & Hwf5 & Hp5); [done..|]. cbv zeta in *.
  assert (Hdur : u16 (t_dur t4 + u32 (t_ptime t4 * 8)) = 3600) by (change (t_ptime t4) with (t_ptime t); by rewrite Hpt).
  rewrite Hdur in P9, S9. set (t5 := set_tx _ _ _ _ _ _) in P9.
  destruct (poll_ending A t5 mb10) as (mb10' & ? & P10 & S10 & Hm10 & _); [done|done|simpl; lia|].
  rewrite Hm10 in P10 by (simpl; lia). set (t6 := set_tx _ _ _ _ _ _) in P10.
  destruct (poll_ending A t6 mb11) as (mb11' & ? & P11 & S11 & Hm11 & _); [done|done|simpl; lia|].
  rewrite Hm11 in P11 by (simpl; lia). set (t7 := set_tx _ _ _ _ _ _) in P11.
  destruct (poll_ending A t7 mb12) as (mb12' & tmb8 & P12 & S12 & _ & Hend); [done|done|simpl; lia|].
  set (t8 := set_tx _ _ _ _ _ _) in P12.
  assert (Hall : poll_all A t2 (mb0 :: hold ++ [mb9; mb10; mb11; mb12]) =
    Ret ((Some true, mbuf_set_pos mb0' (mb_pos mb0)) :: outh ++
         [(Some false, mbuf_set_pos mb9' (mb_pos mb9)); (Some false, mbuf_set_pos mb10' (mb_pos mb10));
          (Some false, mbuf_set_pos mb11' (mb_pos mb11)); (Some false, mbuf_set_pos mb12' (mb_pos mb12))], t8)).
  { change (mb0 :: hold ++ _) with ([mb0] ++ hold ++ [mb9; mb10; mb11; mb12]).
    erewrite poll_all_app by (by eapply poll_all_one). erewrite poll_all_app by exact Ph.
    simpl. rewrite P9. simpl. rewrite P10. simpl. rewrite P11. simpl. rewrite P12. done. }
  assert (Hpk : Forall2 holds
    ((mbuf_set_pos mb0' (mb_pos mb0)) :: outh.*2 ++ [mbuf_set_pos mb9' (mb_pos mb9);
      mbuf_set_pos mb10' (mb_pos mb10); mbuf_set_pos mb11' (mb_pos mb11); mbuf_set_pos mb12' (mb_pos mb12)])
    (press_packets (Press e (map (Z.mul 400) (seqZ 1 9)) [3600; 3600; 3600]))).
  { unfold press_packets. cbn [pr_event pr_begin pr_end].
    change (map (packet e false) (map (Z.mul 400) (seqZ 1 9)))
      with (packet e false (400 * 1) :: map (packet e false) (map (Z.mul 400) (seqZ (1 + 1) 7)) ++
            [packet e false 3600]).
    cbn [app]. constructor; [exact S0|]. rewrite <- app_assoc. apply Forall2_app; [exact Hh|].
    constructor; [exact S9|]. constructor; [exact S10|]. constructor; [exact S11|].
    constructor; [exact S12|]. constructor. }
  pose proof (recv_press r _ (Press e (map (Z.mul 400) (seqZ 1 9)) [3600; 3600; 3600])
    ltac:(split_and!; [unfold is_byte; simpl; lia|done|done]) Hr Hpk) as Hrecv.
  exists t1, t2, t8. eexists _, (set_rx (-1) true r). split_and!; [done|done|exact Hall| | | |].
  - cbn [fst fmap list_fmap]. rewrite fmap_app, Hmk. done.
  - cbn [snd fmap list_fmap]. by rewrite fmap_app.
  - unfold telev_poll. change (t_state t8) with IDLE. change (t_mb t8) with tmb8. cbn iota.
    by rewrite Hend, bool_decide_eq_true_2.
  - cbn [snd fmap list_fmap]. by rewrite fmap_app.
Qed.

(** Every DTMF digit (0-9, *, #, A-D) has an event code from 0 to 15 that
    converts back to it, lower case letters to upper case; every other
    character and every other code is refused with -1. *)
Theorem telev_digits d :
  let c := telev_digit2code d in
  (c = -1 ∨ 0 ≤ c < 16 ∧ telev_code2digit c = (if bool_decide (97 ≤ d ∧ d ≤ 100) then d - 32 else d)) ∧
  (d ∈ code_map → c ≠ -1) ∧
  (0 ≤ d < 16 → telev_digit2code (telev_code2digit d) = d) ∧
  (¬ 0 ≤ d < 16 → telev_code2digit d = -1).
Proof.
  assert (Hsmall : ∀ k : nat, (k < 16)%nat → telev_digit2code (telev_code2digit (Z.of_nat k)) = Z.of_nat k).
  { intros k Hk. do 16 (destruct k as [|k]; [done|]). lia. }
  cbv zeta. split; [|split; [|split]].
  - unfold telev_digit2code. repeat case_bool_decide; try (by left); try lia; right;
      (split; [lia|]); unfold telev_code2digit; decide_bools; cbn [orb].
    + assert (∃ k, d = 48 + Z.of_nat k ∧ (k < 10)%nat) as (k & -> & Hk) by (exists (Z.to_nat (d - 48)); lia).
      do 10 (destruct k as [|k]; [done|]). lia.
    + by subst.
    + by subst.
    + assert (∃ k, d = 97 + Z.of_nat k ∧ (k < 4)%nat) as (k & -> & Hk) by (exists (Z.to_nat (d - 97)); lia).
      do 4 (destruct k as [|k]; [done|]). lia.
    + assert (∃ k, d = 65 + Z.of_nat k ∧ (k < 4)%nat) as (k & -> & Hk) by (exists (Z.to_nat (d - 65)); lia).
      do 4 (destruct k as [|k]; [done|]). lia.
  - intros Hd. apply list_elem_of_In in Hd. vm_compute in Hd.
    repeat (destruct Hd as [<-|Hd]; [by vm_compute|]). done.
  - intros Hd. rewrite <- (Z2Nat.id d) by lia. apply Hsmall. lia.
  - intros Hd. unfold telev_code2digit. destruct (decide (d < 0)).
    + by rewrite bool_decide_eq_true_2.
    + by rewrite (bool_decide_eq_false_2 (d < 0)), bool_decide_eq_true_2 by lia.
Qed.

(** *** Witnesses *)

#[export] Instance holds_dec mb bs : Decision (holds mb bs).
Proof. unfold holds. apply _. Defined.

Definition filled (bs : list Z) : mbuf := Mb (Some bs) (Z.of_nat (length bs)) 0 (Z.of_nat (length bs)).
Definition blank : mbuf := Mb (Some (replicate 16 0)) 16 0 0.
Definition demo_telev : telev := Telev blank TELEV_PTIME IDLE 0 0 0 (-1) false.

Lemma payload_roundtrip_witness :
  ∃ mb' mb'', payload_encode small_alloc blank 5 true 70000 = Ret (0, mb') ∧
    payload_decode (mbuf_set_pos mb' 0) = Ret (0, Some (TelevFmt 5 true VOLUME 4464), mb'') ∧ payload mb'' = [].
Proof. apply (payload_roundtrip small_alloc blank 5 true 70000); apply (bool_decide_eq_true_1 _); reflexivity. Defined.

Lemma telev_recv_exactly_once_witness :
  let ps := [Press 7 [400; 800] [800; 800]; Press 7 [400] [400]] in
  ∃ t', recv_all demo_telev (map filled (concat (map press_packets ps))) =
    Ret ([(7, false); (7, true); (7, false); (7, true)], t') ∧ t_rx_event t' = -1.
Proof.
  cbv zeta. apply (telev_recv_exactly_once demo_telev
    (map filled (concat (map press_packets [Press 7 [400; 800] [800; 800]; Press 7 [400] [400]])))
    [Press 7 [400; 800] [800; 800]; Press 7 [400] [400]]).
  - apply (bool_decide_eq_true_1 _). vm_compute. reflexivity.
  - reflexivity.
  - apply (bool_decide_eq_true_1 _). vm_compute. reflexivity.
Defined.

Lemma telev_press_end_to_end_witness :
  ∃ t1 t2 t3 out r',
    telev_send small_alloc demo_telev 11 false = Ret (0, t1) ∧ telev_send small_alloc t1 11 true = Ret (0, t2) ∧
    poll_all small_alloc t2 (replicate 12 blank) = Ret (out, t3) ∧
    out.*1 = Some true :: replicate 11 (Some false) ∧
    Forall2 holds out.*2 (press_packets (Press 11 (map (Z.mul 400) (seqZ 1 9)) [3600; 3600; 3600])) ∧
    telev_poll small_alloc t3 blank = Ret (ENOENT, None, t3, blank) ∧
    recv_all demo_telev out.*2 = Ret ([(11, false); (11, true)], r').
Proof.
  apply (telev_press_end_to_end small_alloc demo_telev 11 (replicate 12 blank) blank demo_telev);
    (reflexivity || (apply (bool_decide_eq_true_1 _); vm_compute; reflexivity)).
Defined.
