(* ===== verification/Rtp.v ===== *)
(** * RTP packets (re/src/rtp/rtp.c, ntp.c, re/include/re_rtp.h)

    The RTP header codec, the sequence number of a socket, packet sending, the
    choice of a port pair, and the compact NTP format.  RTCP sessions are not
    modelled: a socket here has none.  [udp_send], [udp_listen] and the random
    numbers are the environment's. *)
From stdpp Require Import base tactics list numbers strings option.
From S2P Require Import Prelude Mbuf.

Definition RTP_VERSION : Z := 2.
Definition RTP_HEADER_SIZE : Z := 12.

Record rtp_header := RtpHeader {
  h_ver : Z;
  h_pad : bool;
  h_ext : bool;
  h_cc : Z;
  h_m : bool;
  h_pt : Z;
  h_seq : Z;
  h_ts : Z;
  h_ssrc : Z;
  h_csrc : list Z;
  h_xtype : Z;
  h_xlen : Z
}.

(** The header after [memset]. *)
Definition hdr_zero : rtp_header := RtpHeader 0 false false 0 false 0 0 0 0 (replicate 16 0) 0 0.

(** [struct rtp_sock] without its sockets and RTCP session. *)
Record rtp_sock := RtpSock { enc_seq : Z; enc_ssrc : Z }.

(** The first two bytes of the header. *)
Definition hdr_byte0 (h : rtp_header) : Z :=
  u8 (Z.lor (Z.lor (Z.lor (Z.shiftl (Z.land (h_ver h) 2) 6) (Z.shiftl (b2z (h_pad h)) 5))
               (Z.shiftl (b2z (h_ext h)) 4)) (Z.land (h_cc h) 15)).
Definition hdr_byte1 (h : rtp_header) : Z := u8 (Z.lor (Z.shiftl (b2z (h_m h)) 7) (Z.land (h_pt h) 127)).

Section rtp.
Context (A : allocator).

(** The contributing sources: [n] of them are left, from index [i]. *)
Fixpoint csrc_encode (csrc : list Z) (i n : nat) (mb : mbuf) : outcome (Z * mbuf) :=
  match n with
  | O => Ret (0, mb)
  | S n' =>
      c ← of_option OutOfBounds (csrc !! i);
      r ← mbuf_write_u32 A mb (htonl c);
      let '(e, mb1) := r in
      r ← csrc_encode csrc (S i) n' mb1;
      let '(e', mb2) := r in
      Ret (Z.lor e e', mb2)
  end.

Definition rtp_hdr_encode (mb : mbuf) (h : rtp_header) : outcome (Z * mbuf) :=
  r ← mbuf_write_mem A mb (Some [hdr_byte0 h; hdr_byte1 h]);
  let '(e1, mb1) := r in
  r ← mbuf_write_u16 A mb1 (htons (h_seq h));
  let '(e2, mb2) := r in
  r ← mbuf_write_u32 A mb2 (htonl (h_ts h));
  let '(e3, mb3) := r in
  r ← mbuf_write_u32 A mb3 (htonl (h_ssrc h));
  let '(e4, mb4) := r in
  r ← csrc_encode (h_csrc h) 0 (Z.to_nat (h_cc h)) mb4;
  let '(e5, mb5) := r in
  Ret (Z.lor (Z.lor (Z.lor (Z.lor e1 e2) e3) e4) e5, mb5).

(** [rtp_encode]: the sequence number advances even when encoding fails. *)
Definition rtp_encode (rs : option rtp_sock) (marker : bool) (pt ts : Z) (mb : mbuf) :
    outcome (Z * option rtp_sock * mbuf) :=
  match rs with
  | None => Ret (EINVAL, None, mb)
  | Some s =>
      if negb (bool_decide (Z.land pt (Z.lnot 127) = 0)) then Ret (EINVAL, rs, mb)
      else
        let h := RtpHeader RTP_VERSION false false 0 marker pt (enc_seq s) ts (enc_ssrc s) [] 0 0 in
        r ← rtp_hdr_encode mb h;
        let '(err, mb') := r in
        Ret (err, Some (RtpSock (u16 (enc_seq s + 1)) (enc_ssrc s)), mb')
  end.

(** [rtp_send]: the bytes handed to [udp_send], when it is reached. *)
Definition rtp_send (udp_send : list Z → Z) (rs : option rtp_sock) (marker : bool) (pt ts : Z) (mb : mbuf) :
    outcome (Z * option rtp_sock * mbuf * option (list Z)) :=
  match rs with
  | None => Ret (EINVAL, rs, mb, None)
  | Some _ =>
      if bool_decide (mb_pos mb < RTP_HEADER_SIZE) then Ret (EBADMSG, rs, mb, None)
      else
        let mb1 := mbuf_advance mb (- RTP_HEADER_SIZE) in
        let pos := mb_pos mb1 in
        r ← rtp_encode rs marker pt ts mb1;
        let '(err, rs', mb2) := r in
        if bool_decide (err ≠ 0) then Ret (err, rs', mb2, None)
        else
          let mb3 := mbuf_set_pos mb2 pos in
          bs ← memcpy_from (mb_buf mb3) pos (mbuf_get_left mb3);
          Ret (udp_send bs, rs', mb3, Some bs)
  end.
End rtp.

Fixpoint csrc_decode (csrc : list Z) (i n : nat) (mb : mbuf) : outcome (list Z * mbuf) :=
  match n with
  | O => Ret (csrc, mb)
  | S n' =>
      r ← mbuf_read_u32 mb;
      let '(v, mb1) := r in
      if bool_decide (i < length csrc)%nat then csrc_decode (<[i := ntohl v]> csrc) (S i) n' mb1
      else Fault OutOfBounds
  end.

Definition rtp_hdr_decode (h : rtp_header) (mb : mbuf) : outcome (Z * rtp_header * mbuf) :=
  if bool_decide (mbuf_get_left mb < RTP_HEADER_SIZE) then Ret (EBADMSG, h, mb)
  else
    r ← mbuf_read_mem mb 2;
    let '(err, buf, mb1) := r in
    if bool_decide (err ≠ 0) then Ret (err, h, mb1)
    else
      b0 ← of_option OutOfBounds (buf !! 0%nat);
      b1 ← of_option OutOfBounds (buf !! 1%nat);
      let ver := Z.land (Z.shiftr b0 6) 3 in
      let pad := bool_decide (Z.land (Z.shiftr b0 5) 1 ≠ 0) in
      let ext := bool_decide (Z.land (Z.shiftr b0 4) 1 ≠ 0) in
      let cc := Z.land b0 15 in
      let m := bool_decide (Z.land (Z.shiftr b1 7) 1 ≠ 0) in
      let pt := Z.land b1 127 in
      r ← mbuf_read_u16 mb1;
      let '(seq, mb2) := r in
      r ← mbuf_read_u32 mb2;
      let '(ts, mb3) := r in
      r ← mbuf_read_u32 mb3;
      let '(ssrc, mb4) := r in
      let hdr csrc := RtpHeader ver pad ext cc m pt (ntohs seq) (ntohl ts) (ntohl ssrc) csrc in
      if bool_decide (mbuf_get_left mb4 < cc * 4) then Ret (EBADMSG, hdr (h_csrc h) (h_xtype h) (h_xlen h), mb4)
      else
        r ← csrc_decode (h_csrc h) 0 (Z.to_nat cc) mb4;
        let '(csrc, mb5) := r in
        if ext then
          if bool_decide (mbuf_get_left mb5 < 4) then Ret (EBADMSG, hdr csrc (h_xtype h) (h_xlen h), mb5)
          else
            r ← mbuf_read_u16 mb5;
            let '(xtype, mb6) := r in
            r ← mbuf_read_u16 mb6;
            let '(xlen, mb7) := r in
            let h' := hdr csrc (ntohs xtype) (ntohs xlen) in
            if bool_decide (mbuf_get_left mb7 < ntohs xlen * 4) then Ret (EBADMSG, h', mb7)
            else Ret (0, h', mbuf_set_pos mb7 (u64 (mb_pos mb7 + ntohs xlen * 4)))
        else Ret (0, hdr csrc (h_xtype h) (h_xlen h), mb5).

Definition rtp_decode (rs : option rtp_sock) (mb : mbuf) (h : rtp_header) :
    outcome (Z * rtp_header * mbuf) :=
  match rs with
  | None => Ret (EINVAL, h, mb)
  | Some _ =>
      r ← rtp_hdr_decode hdr_zero mb;
      let '(err, h', mb') := r in
      if bool_decide (err ≠ 0) then Ret (err, h', mb')
      else if bool_decide (RTP_VERSION ≠ h_ver h') then Ret (EBADMSG, h', mb')
      else Ret (0, h', mb')
  end.

(** [rtp_alloc]: the random numbers are arguments. *)
Definition rtp_alloc (A : allocator) (rand_u16 rand_u32 : Z) : Z * option rtp_sock :=
  if alloc_ok A 256 then (0, Some (RtpSock (u16 rand_u16) (u32 rand_u32))) else (ENOMEM, None).

(** ** The port range

    [listen] is [udp_listen] on a port; [rand] gives the random number of each
    try.  [range_port] is the even port a try uses. *)
Definition range_port (min_port max_port r : Z) : Z :=
  Z.land (u16 (min_port + u16 r `mod` (max_port - min_port))) 65534.

(** [udp_range_listen]: the error and the port of the pair that is bound. *)
Fixpoint range_loop (listen : Z → Z) (rand : nat → Z) (min_port max_port : Z) (tries : nat) (err : Z) :
    Z * option Z :=
  match tries with
  | O => (err, None)
  | S n =>
      let port := range_port min_port max_port (rand n) in
      let e1 := listen port in
      if bool_decide (e1 ≠ 0) then range_loop listen rand min_port max_port n e1
      else
        let e2 := listen (u16 (port + 1)) in
        if bool_decide (e2 ≠ 0) then range_loop listen rand min_port max_port n e2
        else (0, Some port)
  end.

Definition udp_range_listen (listen : Z → Z) (rand : nat → Z) (min_port max_port : Z) : Z * option Z :=
  range_loop listen rand min_port max_port 64 0.

(** ** ntp.c *)

Record ntp_time := NtpTime { ntp_hi : Z; ntp_lo : Z }.

Definition ntp_compact (n : option ntp_time) : Z :=
  match n with
  | None => 0
  | Some n => Z.lor (u32 (Z.shiftl (Z.land (ntp_hi n) 65535) 16)) (Z.shiftr (ntp_lo n) 16)
  end.

Definition ntp_compact2us (ntpc : Z) : Z :=
  let hi := Z.land (Z.shiftr ntpc 16) 65535 in
  let lo := u32 (Z.shiftl (Z.land ntpc 65535) 16) in
  u64 (u64 (1000000 * hi) + Z.shiftr (u64 (1000000 * lo)) 32).

(** ** The wire format *)

Definition hdr_wire (h : rtp_header) : list Z :=
  [hdr_byte0 h; hdr_byte1 h] ++ be 2 (u16 (h_seq h)) ++ be 4 (h_ts h) ++ be 4 (h_ssrc h) ++
  concat (map (be 4) (take (Z.to_nat (h_cc h)) (h_csrc h))).

(** A reference parser on byte lists; fields that a packet does not carry keep
    their values from [h]. *)
Definition field (i n : nat) (bs : list Z) : Z := be_value (take n (drop i bs)).

Definition parse_hdr (h : rtp_header) (bs : list Z) : option (rtp_header * list Z) :=
  match bs with
  | b0 :: b1 :: r =>
      let cc := Z.to_nat (b0 `mod` 16) in
      let ext := Z.odd (b0 / 16) in
      let off := (12 + 4 * cc)%nat in
      let csrc := map (λ i, field (12 + 4 * i) 4 bs) (seq 0 cc) ++ drop cc (h_csrc h) in
      let hdr := RtpHeader (b0 / 64) (Z.odd (b0 / 32)) ext (Z.of_nat cc) (Z.odd (b1 / 128)) (b1 `mod` 128)
                   (field 2 2 bs) (field 4 4 bs) (field 8 4 bs) csrc in
      if bool_decide (length bs < off)%nat then None
      else if ext then
        let xlen := field (off + 2) 2 bs in
        if bool_decide (length bs < off + 4 + 4 * Z.to_nat xlen)%nat then None
        else Some (hdr (field off 2 bs) xlen, drop (off + 4 + 4 * Z.to_nat xlen) bs)
      else Some (hdr (h_xtype h) (h_xlen h), drop off bs)
  | _ => None
  end.

Section encode.
Context (A : allocator) `{!allocator_ok A}.

Lemma written_nil mb : mbuf_wf mb → written mb [] mb.
Proof.
  intros [(Hs & _ & He & Hp & _) Hpe]. unfold written. simpl. split_and!; try lia; [|done].
  unfold bytes_at. done.
Qed.

Lemma csrc_encode_run csrc n : ∀ i mb,
  mbuf_wf mb → (i + n ≤ length csrc)%nat → mb_pos mb + 4 * Z.of_nat n ≤ mb_size mb →
  ∃ mb', csrc_encode A csrc i n mb = Ret (0, mb') ∧ mbuf_wf mb' ∧
    written mb (concat (map (be 4) (take n (drop i csrc)))) mb'.
Proof.
  induction n as [|n IH]; intros i mb Hwf Hi Hroom; simpl.
  { exists mb. split_and!; [done|done|]. by apply written_nil. }
  destruct (lookup_lt_is_Some_2 csrc i) as [c Hc]; [lia|]. rewrite Hc. cbn [of_option mbind outcome_bind].
  destruct (mbuf_write_room A mb (le_bytes 4 (htonl c))) as (mb1 & E1 & Hwf1 & Hw1);
    [apply Hwf|rewrite le_bytes_length; lia|apply le_bytes_ok|].
  unfold mbuf_write_u32. rewrite E1. cbn [mbind outcome_bind].
  pose proof (written_pos _ _ _ Hw1) as Hp1. pose proof (written_size _ _ _ Hw1).
  rewrite le_bytes_length in Hp1.
  destruct (IH (S i) mb1) as (mb' & E & Hwf' & Hw'); [done|lia|lia|].
  unfold mbuf_write_u32 in E. rewrite E. exists mb'. split_and!; [done|done|].
  erewrite drop_S by done. cbn [take map concat]. rewrite <- htonl_be.
  apply (written_trans mb _ mb1); [apply Hwf|done..].
Qed.

Definition hdr_ok (h : rtp_header) : Prop :=
  0 ≤ h_cc h < 256 ∧ (Z.to_nat (h_cc h) ≤ length (h_csrc h))%nat.

Lemma rtp_hdr_encode_run mb h :
  mbuf_wf mb → hdr_ok h → mb_pos mb + 12 + 4 * h_cc h ≤ mb_size mb →
  ∃ mb', rtp_hdr_encode A mb h = Ret (0, mb') ∧ mbuf_wf mb' ∧ written mb (hdr_wire h) mb'.
Proof.
  intros Hwf [Hcc Hlen] Hroom.
  destruct (mbuf_write_room A mb [hdr_byte0 h; hdr_byte1 h]) as (mb1 & E1 & Hwf1 & Hw1);
    [apply Hwf|simpl; lia|repeat constructor; apply u8_range|].
  pose proof (written_pos _ _ _ Hw1) as P1. pose proof (written_size _ _ _ Hw1). simpl in P1.
  destruct (mbuf_write_room A mb1 (le_bytes 2 (htons (h_seq h)))) as (mb2 & E2 & Hwf2 & Hw2);
    [apply Hwf1|simpl; lia|apply le_bytes_ok|].
  pose proof (written_pos _ _ _ Hw2) as P2. pose proof (written_size _ _ _ Hw2). simpl in P2.
  destruct (mbuf_write_room A mb2 (le_bytes 4 (htonl (h_ts h)))) as (mb3 & E3 & Hwf3 & Hw3);
    [apply Hwf2|simpl; lia|apply le_bytes_ok|].
  pose proof (written_pos _ _ _ Hw3) as P3. pose proof (written_size _ _ _ Hw3). simpl in P3.
  destruct (mbuf_write_room A mb3 (le_bytes 4 (htonl (h_ssrc h)))) as (mb4 & E4 & Hwf4 & Hw4);
    [apply Hwf3|simpl; lia|apply le_bytes_ok|].
  pose proof (written_pos _ _ _ Hw4) as P4. pose proof (written_size _ _ _ Hw4). simpl in P4.
  destruct (csrc_encode_run (h_csrc h) (Z.to_nat (h_cc h)) 0 mb4) as (mb5 & E5 & Hwf5 & Hw5); [done|lia|lia|].
  exists mb5. unfold rtp_hdr_encode, mbuf_write_u16, mbuf_write_u32.
  rewrite E1. cbn [mbind outcome_bind]. rewrite E2. cbn [mbind outcome_bind]. rewrite E3.
  cbn [mbind outcome_bind]. rewrite E4. cbn [mbind outcome_bind]. rewrite E5. split_and!; [done|done|].
  unfold hdr_wire. rewrite <- htons_be, <- !htonl_be. rewrite drop_0 in Hw5.
  apply (written_trans mb _ mb1); [apply Hwf|done..|].
  apply (written_trans mb1 _ mb2); [apply Hwf1|done..|].
  apply (written_trans mb2 _ mb3); [apply Hwf2|done..|].
  apply (written_trans mb3 _ mb4); [apply Hwf3|done..].
Qed.
End encode.

(** ** Decoding *)

Lemma field_cons i n b bs : field (S i) n (b :: bs) = field i n bs.
Proof. done. Qed.
Lemma field_drop i j n bs : field i n (drop j bs) = field (j + i) n bs.
Proof. unfold field. by rewrite drop_drop. Qed.

Lemma field_nonneg i n bs : bytes_ok bs → 0 ≤ field i n bs.
Proof.
  intros Hok. unfold field, be_value.
  apply (le_value_range (reverse (take n (drop i bs)))). apply Forall_reverse, Forall_take, Forall_drop, Hok.
Qed.

Lemma read_be mb n bs :
  mbuf_wf mb → payload mb = bs → (n ≤ length bs)%nat →
  ∃ v mb', mbuf_read_int n mb = Ret (v, mb') ∧ mbuf_wf mb' ∧ payload mb' = drop n bs ∧
    mb_pos mb' = mb_pos mb + Z.of_nat n ∧ mb_end mb' = mb_end mb ∧
    (n = 2%nat → ntohs v = field 0 2 bs) ∧ (n = 4%nat → ntohl v = field 0 4 bs).
Proof.
  intros Hwf Hp Hn. pose proof (payload_ok mb Hwf) as Hok. rewrite Hp in Hok.
  destruct (payload_read_int mb n (take n bs) (drop n bs) Hwf) as (E & Hwf' & Hp');
    [by rewrite Hp, take_drop|rewrite length_take; lia|].
  eexists _, _. split_and!; [done|done|done|done|done| |]; intros ->.
  - rewrite ntohs_be; [done|by apply Forall_take|]. rewrite length_take. lia.
  - rewrite ntohl_be; [done|by apply Forall_take|]. rewrite length_take. lia.
Qed.

Lemma csrc_decode_run n : ∀ i csrc mb bs,
  mbuf_wf mb → payload mb = bs → (4 * n ≤ length bs)%nat → (i + n ≤ length csrc)%nat →
  ∃ mb', csrc_decode csrc i n mb =
      Ret (take i csrc ++ map (λ j, field (4 * j) 4 bs) (seq 0 n) ++ drop (i + n) csrc, mb') ∧
    mbuf_wf mb' ∧ payload mb' = drop (4 * n) bs.
Proof.
  induction n as [|n IH]; intros i csrc mb bs Hwf Hp Hl Hi; cbn [csrc_decode].
  { exists mb. rewrite Nat.add_0_r. cbn. rewrite take_drop. split_and!; [done|done|]. done. }
  destruct (read_be mb 4 bs Hwf Hp) as (v & mb1 & E & Hwf1 & Hp1 & _ & _ & _ & Hv); [lia|].
  unfold mbuf_read_u32. rewrite E. cbn [mbind outcome_bind]. rewrite bool_decide_eq_true_2, Hv by (done || lia).
  destruct (IH (S i) (<[i := field 0 4 bs]> csrc) mb1 (drop 4 bs)) as (mb' & E' & Hwf' & Hp');
    [done|done|rewrite length_drop; lia|rewrite length_insert; lia|].
  exists mb'. split_and!; [|done|by rewrite Hp', drop_drop; f_equal; lia]. rewrite E'. do 2 f_equal.
  rewrite drop_insert_lt by lia.
  erewrite take_S_r by (apply list_lookup_insert_eq; lia). rewrite take_insert_ge, <- app_assoc by lia.
  f_equal. cbn [seq map app]. f_equal. replace (S i + n)%nat with (i + S n)%nat by lia. f_equal.
  rewrite <- seq_shift, map_map. apply map_ext. intros j. rewrite field_drop. f_equal. lia.
Qed.

Lemma bit_test b k : 0 ≤ k → 0 ≤ b → bool_decide (Z.land (Z.shiftr b k) 1 ≠ 0) = Z.odd (b / 2 ^ k).
Proof.
  intros Hk Hb. assert (H : Z.land (Z.shiftr b k) 1 = if Z.odd (b / 2 ^ k) then 1 else 0).
  { rewrite Z.shiftr_div_pow2 by lia. change 1 with (2 ^ 1 - 1) at 1.
    rewrite (land_ones_mod 1) by lia. apply Zmod_odd. }
  destruct (Z.odd _); [apply bool_decide_eq_true_2|apply bool_decide_eq_false_2]; lia.
Qed.

Lemma land3_small b : 0 ≤ b < 256 → Z.land (Z.shiftr b 6) 3 = b / 64.
Proof.
  intros. rewrite Z.shiftr_div_pow2 by lia. change 3 with (2 ^ 2 - 1). rewrite (land_ones_mod 2) by lia.
  change (2 ^ 6) with 64. apply Z.mod_small. split; [by apply Z.div_pos; lia|]. apply Z.div_lt_upper_bound; lia.
Qed.

Lemma low_bits b n : 0 ≤ n → Z.land b (2 ^ n - 1) = b `mod` 2 ^ n.
Proof. apply land_ones_mod. Qed.

(** ** Properties *)

(** Rtp_hdr_decode on any well-formed buffer never faults and agrees with
    the reference parser: it accepts exactly the packets whose header, list of
    contributing sources and extension are complete, returns the fields of
    RFC 3550 and stops at the first byte of the media payload; every truncated
    packet is refused with EBADMSG. *)
Theorem rtp_hdr_decode_spec h mb :
  mbuf_wf mb → length (h_csrc h) = 16%nat →
  match parse_hdr h (payload mb) with
  | Some (h', rest) =>
      ∃ mb', rtp_hdr_decode h mb = Ret (0, h', mb') ∧ mbuf_wf mb' ∧ payload mb' = rest
  | None => ∃ h' mb', rtp_hdr_decode h mb = Ret (EBADMSG, h', mb')
  end.
Proof.
  intros Hwf Hcs. pose proof (payload_ok mb Hwf) as Hok. pose proof (payload_length mb Hwf) as Hl.
  pose proof Hok as Hok0. unfold rtp_hdr_decode. rewrite mbuf_get_left_wf by done. unfold RTP_HEADER_SIZE.
  remember (payload mb) as bs eqn:Hbs. symmetry in Hbs. (* [bs] is the packet *) case_bool_decide as Hshort.
  { destruct bs as [|b0 [|b1 r]]; unfold parse_hdr; [eauto..|]. rewrite bool_decide_eq_true_2 by lia. eauto. }
  destruct bs as [|b0 [|b1 r]]; [simpl in Hl; lia..|].
  destruct (payload_read mb Hwf [b0; b1] r Hbs) as (E1 & Hwf1 & P1).
  change (Z.of_nat (length [b0; b1])) with 2 in *. cbv zeta in *. rewrite E1. cbn [mbind outcome_bind].
  rewrite bool_decide_eq_false_2 by (intros []; done). cbn [lookup list_lookup of_option mbind outcome_bind].
  set (mb1 := mbuf_set_pos mb _) in *.
  apply List.Forall_cons_iff in Hok as [Hb0 Hok]. apply List.Forall_cons_iff in Hok as [Hb1 _].
  unfold is_byte in Hb0, Hb1. simpl in Hl.
  destruct (read_be mb1 2 r Hwf1 P1) as (v1 & mb2 & E2 & Hwf2 & P2 & _ & _ & Hv1 & _); [lia|].
  unfold mbuf_read_u16, mbuf_read_u32. rewrite E2. cbn [mbind outcome_bind].
  destruct (read_be mb2 4 _ Hwf2 P2) as (v2 & mb3 & E3 & Hwf3 & P3 & _ & _ & _ & Hv2); [rewrite length_drop; lia|].
  rewrite E3. cbn [mbind outcome_bind].
  destruct (read_be mb3 4 _ Hwf3 P3) as (v3 & mb4 & E4 & Hwf4 & P4 & _ & _ & _ & Hv3);
    [rewrite !length_drop; lia|].
  rewrite E4. cbn [mbind outcome_bind].
  rewrite Hv1, Hv2, Hv3, !field_drop by done. rewrite !drop_drop in P4. change (payload mb4 = drop 10 r) in P4.
  change (2 + 0)%nat with 2%nat. change (2 + (4 + 0))%nat with 6%nat.
  rewrite !bit_test, land3_small by lia. change 15 with (2 ^ 4 - 1). change 127 with (2 ^ 7 - 1).
  rewrite !low_bits by lia.
  change (2 ^ 4) with 16. change (2 ^ 5) with 32. change (2 ^ 7) with 128.
  pose proof (Z.mod_pos_bound b0 16 ltac:(lia)) as Hcc.
  set (cc := Z.to_nat (b0 `mod` 16)). assert (Ecc : b0 `mod` 16 = Z.of_nat cc) by (subst cc; lia).
  unfold parse_hdr. fold cc. cbv zeta. rewrite Ecc.
  pose proof (payload_length mb4 Hwf4) as Hl4. rewrite P4, length_drop in Hl4.
  rewrite mbuf_get_left_wf by done. rewrite <- Hl4.
  rewrite (bool_decide_ext (length (b0 :: b1 :: r) < _)%nat (Z.of_nat (length r - 10) < Z.of_nat cc * 4))
    by (simpl; lia).
  case_bool_decide as Hshort2; [eauto|].
  destruct (csrc_decode_run cc 0 (h_csrc h) mb4 _ Hwf4 P4) as (mb5 & E5 & Hwf5 & P5);
    [rewrite length_drop; lia|lia|].
  rewrite E5. cbn [mbind outcome_bind]. change (0 + cc)%nat with cc.
  change (take 0 (h_csrc h) ++ ?l) with l.
  replace (map (λ j, field (4 * j) 4 (drop 10 r)) (seq 0 cc))
    with (map (λ i, field (12 + 4 * i) 4 (b0 :: b1 :: r)) (seq 0 cc))
    by (apply map_ext; intros j; by rewrite field_drop).
  rewrite drop_drop in P5. pose proof (payload_length mb5 Hwf5) as Hl5. rewrite P5, length_drop in Hl5.
  destruct (Z.odd (b0 / 16)); [|by eauto 10].
  rewrite mbuf_get_left_wf by done. rewrite <- Hl5.
  destruct (decide (length r < 14 + 4 * cc)%nat) as [Hshort3|Hshort3].
  { rewrite (bool_decide_eq_true_2 (Z.of_nat _ < 4)) by lia.
    rewrite bool_decide_eq_true_2 by (cbn [length]; lia). eauto. }
  rewrite (bool_decide_eq_false_2 (Z.of_nat _ < 4)) by lia.
  destruct (read_be mb5 2 _ Hwf5 P5) as (v6 & mb6 & E6 & Hwf6 & P6 & _ & _ & Hv6 & _);
    [rewrite length_drop; lia|].
  rewrite E6. cbn [mbind outcome_bind].
  destruct (read_be mb6 2 _ Hwf6 P6) as (v7 & mb7 & E7 & Hwf7 & P7 & _ & _ & Hv7 & _);
    [rewrite !length_drop; lia|].
  rewrite E7. cbn [mbind outcome_bind]. rewrite Hv6, Hv7, !drop_drop, !field_drop by done.
  rewrite !drop_drop in P7.
  replace (field (10 + 4 * cc + 2 + 0) 2 r) with (field (12 + 4 * cc + 2) 2 (b0 :: b1 :: r))
    by (change (field (10 + 4 * cc + 2 + 0) 2 r) with (field (2 + (10 + 4 * cc + 2 + 0)) 2 (b0 :: b1 :: r));
        f_equal; lia).
  replace (field (10 + 4 * cc + 0) 2 r) with (field (12 + 4 * cc) 2 (b0 :: b1 :: r))
    by (change (field (10 + 4 * cc + 0) 2 r) with (field (2 + (10 + 4 * cc + 0)) 2 (b0 :: b1 :: r));
        f_equal; lia).
  pose proof (field_nonneg (12 + 4 * cc + 2) 2 _ Hok0) as Hx.
  set (xlen := field (12 + 4 * cc + 2) 2 (b0 :: b1 :: r)) in *.
  pose proof (payload_length mb7 Hwf7) as Hl7. rewrite P7, length_drop in Hl7.
  rewrite mbuf_get_left_wf by done.
  destruct (decide (length r < 14 + 4 * cc + 4 * Z.to_nat xlen)%nat) as [Hshort4|Hlong].
  { rewrite (bool_decide_eq_true_2 (_ < xlen * 4)) by lia.
    rewrite bool_decide_eq_true_2 by (cbn [length]; lia). eauto. }
  rewrite (bool_decide_eq_false_2 (_ < xlen * 4)) by lia.
  rewrite bool_decide_eq_false_2 by (cbn [length]; lia).
  destruct (payload_read mb7 Hwf7 (take (4 * Z.to_nat xlen) (payload mb7)) (drop (4 * Z.to_nat xlen) (payload mb7)))
    as (_ & Hwf8 & P8); [by rewrite take_drop|].
  rewrite length_take, P7, length_drop, Nat.min_l in Hwf8, P8 by lia.
  pose proof Hwf7 as [(_ & Hm7 & He7 & Hp7 & _) _].
  assert (max_alloc = 4611686018427387904) by reflexivity.
  rewrite u64_id by lia.
  replace (xlen * 4) with (Z.of_nat (4 * Z.to_nat xlen)) by lia.
  eexists; split; [done|]. split; [done|]. rewrite P8, drop_drop.
  change (drop (12 + 4 * cc + 4 + 4 * Z.to_nat xlen) (b0 :: b1 :: r))
    with (drop (10 + 4 * cc + 4 + 4 * Z.to_nat xlen) r). f_equal; lia.
Qed.

(** ** Round trips *)

(** A header the encoder can represent: version 2, no extension, fields in
    their ranges and at most 15 contributing sources. *)
Record hdr_valid (h : rtp_header) : Prop := {
  v_ver : h_ver h = 2;
  v_ext : h_ext h = false;
  v_cc : 0 ≤ h_cc h ≤ 15;
  v_pt : 0 ≤ h_pt h < 128;
  v_seq : 0 ≤ h_seq h < 65536;
  v_ts : 0 ≤ h_ts h < 4294967296;
  v_ssrc : 0 ≤ h_ssrc h < 4294967296;
  v_csrc : Forall (λ c, 0 ≤ c < 4294967296) (h_csrc h);
  v_len : length (h_csrc h) = 16%nat
}.

Lemma length_concat_be l : length (concat (map (be 4) l)) = (4 * length l)%nat.
Proof. induction l as [|c l IH]; [done|]. cbn [map concat length]. rewrite length_app, be_length, IH. lia. Qed.

Lemma concat_field l rest :
  Forall (λ c, 0 ≤ c < 4294967296) l →
  map (λ i, field (4 * i) 4 (concat (map (be 4) l) ++ rest)) (seq 0 (length l)) = l ∧
  drop (4 * length l) (concat (map (be 4) l) ++ rest) = rest.
Proof.
  induction 1 as [|c l Hc _ [IH1 IH2]]; [done|]. cbn [map concat length].
  rewrite <- app_assoc. split.
  - cbn [seq map]. f_equal.
    + unfold field. rewrite Nat.mul_0_r, drop_0, take_app_le by (by rewrite be_length).
      rewrite take_ge by (by rewrite be_length). by rewrite be_value_be.
    + etrans; [|exact IH1]. rewrite <- seq_shift, map_map. apply map_ext. intros i.
      unfold field. rewrite drop_app_ge by (rewrite be_length; lia). rewrite be_length.
      do 3 f_equal. lia.
  - rewrite drop_app_ge by (rewrite be_length; lia). rewrite be_length. rewrite <- IH2 at 2. f_equal. lia.
Qed.

Lemma byte0_parts h :
  h_ver h = 2 → h_ext h = false → 0 ≤ h_cc h ≤ 15 →
  hdr_byte0 h `mod` 16 = h_cc h ∧ hdr_byte0 h / 64 = 2 ∧ Z.odd (hdr_byte0 h / 32) = h_pad h ∧
  Z.odd (hdr_byte0 h / 16) = false.
Proof.
  destruct h as [ver pad ext cc]; simpl. intros -> -> Hcc. unfold hdr_byte0. cbn [h_ver h_pad h_ext h_cc].
  assert (∃ k, cc = Z.of_nat k ∧ (k < 16)%nat) as (k & -> & Hk) by (exists (Z.to_nat cc); lia).
  destruct pad; do 16 (destruct k as [|k]; [by vm_compute|]); lia.
Qed.

Lemma byte1_parts h :
  0 ≤ h_pt h < 128 → hdr_byte1 h `mod` 128 = h_pt h ∧ Z.odd (hdr_byte1 h / 128) = h_m h.
Proof.
  intros Hpt. unfold hdr_byte1. change 127 with (2 ^ 7 - 1). rewrite low_bits by lia.
  change (2 ^ 7) with 128. rewrite (Z.mod_small (h_pt h)) by lia.
  assert (E : u8 (Z.lor (Z.shiftl (b2z (h_m h)) 7) (h_pt h)) = 128 * b2z (h_m h) + h_pt h).
  { rewrite (lor_disjoint_add 7); [|lia| |change (2 ^ 7) with 128; lia].
    - rewrite Z.shiftl_mul_pow2 by lia. change (2 ^ 7) with 128.
      rewrite u8_id by (destruct (h_m h); simpl; lia). lia.
    - rewrite Z.shiftl_mul_pow2 by lia. apply Z.mod_mul. lia. }
  rewrite E. destruct (h_m h); cbn [b2z]; split.
  - rewrite Z.mul_1_r, Z.add_comm. replace (h_pt h + 128) with (h_pt h + 1 * 128) by lia.
    by rewrite Z.mod_add, Z.mod_small by lia.
  - replace (128 * 1 + h_pt h) with (h_pt h + 1 * 128) by lia. by rewrite Z.div_add, Z.div_small by lia.
  - by rewrite Z.mod_small by lia.
  - by rewrite Z.div_small by lia.
Qed.

Lemma parse_wire h0 h rest :
  hdr_valid h → length (h_csrc h0) = 16%nat →
  parse_hdr h0 (hdr_wire h ++ rest) =
  Some (RtpHeader 2 (h_pad h) false (h_cc h) (h_m h) (h_pt h) (h_seq h) (h_ts h) (h_ssrc h)
          (take (Z.to_nat (h_cc h)) (h_csrc h) ++ drop (Z.to_nat (h_cc h)) (h_csrc h0)) (h_xtype h0) (h_xlen h0),
        rest).
Proof.
  intros [Hver Hext Hcc Hpt Hseq Hts Hssrc Hcsrc Hlen] Hlen0. unfold hdr_wire.
  set (n := Z.to_nat (h_cc h)). set (cs := take n (h_csrc h)).
  assert (Hn : length cs = n) by (subst cs n; rewrite length_take; lia).
  destruct (concat_field cs rest) as [Hf Hd]; [by apply Forall_take|]. rewrite Hn in Hf, Hd.
  set (body := concat (map (be 4) cs) ++ rest) in *.
  assert (Hbody : (4 * n ≤ length body)%nat).
  { subst body. rewrite length_app, length_concat_be. lia. }
  rewrite u16_id by done.
  pose proof (be_value_be 2 (h_seq h) Hseq) as Bs. pose proof (be_value_be 4 (h_ts h) Hts) as Bt.
  pose proof (be_value_be 4 (h_ssrc h) Hssrc) as Bc.
  pose proof (be_length 2 (h_seq h)) as Ls. pose proof (be_length 4 (h_ts h)) as Lt.
  pose proof (be_length 4 (h_ssrc h)) as Lc.
  rewrite <- !app_assoc. fold body.
  destruct (be 2 (h_seq h)) as [|s1 [|s0 [|]]]; try done.
  destruct (be 4 (h_ts h)) as [|t3 [|t2 [|t1 [|t0 [|]]]]]; try done.
  destruct (be 4 (h_ssrc h)) as [|c3 [|c2 [|c1 [|c0 [|]]]]]; try done.
  cbn [app]. destruct (byte0_parts h) as (B1 & B2 & B3 & B4); [done..|].
  destruct (byte1_parts h) as (B5 & B6); [done|].
  unfold parse_hdr. rewrite B1, B2, B3, B4, B5, B6. fold n.
  rewrite bool_decide_eq_false_2 by (cbn [length]; lia).
  replace (Z.of_nat n) with (h_cc h) by (unfold n; lia). do 2 f_equal.
  - f_equal; [exact Bs|exact Bt|exact Bc|]. f_equal. exact Hf.
  - exact Hd.
Qed.

(** A header with version 2, no extension and up to 15 contributing sources,
    encoded into a buffer with room for it, is decoded from there with every
    field intact, and what followed the header in the buffer is left to be
    read. *)
Theorem rtp_hdr_roundtrip (A : allocator) `{!allocator_ok A} mb h h0 :
  mbuf_wf mb → hdr_valid h → length (h_csrc h0) = 16%nat → mb_pos mb + 12 + 4 * h_cc h ≤ mb_end mb →
  ∃ mb' mb'', rtp_hdr_encode A mb h = Ret (0, mb') ∧
    rtp_hdr_decode h0 (mbuf_set_pos mb' (mb_pos mb)) =
      Ret (0, RtpHeader 2 (h_pad h) false (h_cc h) (h_m h) (h_pt h) (h_seq h) (h_ts h) (h_ssrc h)
          (take (Z.to_nat (h_cc h)) (h_csrc h) ++ drop (Z.to_nat (h_cc h)) (h_csrc h0)) (h_xtype h0) (h_xlen h0),
          mb'') ∧
    payload mb'' = drop (12 + 4 * Z.to_nat (h_cc h)) (payload mb).
Proof.
  intros Hwf Hv Hlen0 Hroom. pose proof Hwf as [(_ & _ & He & Hp & _) _].
  destruct (rtp_hdr_encode_run A mb h) as (mb' & E & Hwf' & Hw);
    [done|destruct Hv; split; [lia|rewrite v_len0; lia]|lia|].
  assert (Hlw : Z.of_nat (length (hdr_wire h)) = 12 + 4 * h_cc h).
  { pose proof (written_pos _ _ _ Hw). destruct Hv as [_ _ Hcc _ _ _ _ _ Hl]. unfold hdr_wire.
    rewrite !length_app, !be_length, length_concat_be, length_take. simpl. lia. }
  destruct (written_read mb _ mb' ltac:(apply Hwf) Hwf' Hw) as [Hwf2 Hpay]; [lia|].
  rewrite Hlw in Hpay.
  pose proof (rtp_hdr_decode_spec h0 _ Hwf2 Hlen0) as Hdec. rewrite Hpay, parse_wire in Hdec by done.
  destruct Hdec as (mb'' & Ed & _ & Hp''). exists mb', mb''. split_and!; [done|done|].
  rewrite Hp'', payload_bytes_at. unfold bytes_at. rewrite skipn_firstn_comm, drop_drop.
  destruct Hv as [_ _ Hcc _ _ _ _ _ _]. f_equal; [lia|]. f_equal. lia.
Qed.

Lemma land_pt pt : 0 ≤ pt < 256 → Z.land pt (Z.lnot 127) = if bool_decide (pt < 128) then 0 else 128.
Proof.
  intros Hpt. assert (∃ k, pt = Z.of_nat k ∧ (k < 256)%nat) as (k & -> & Hk) by (exists (Z.to_nat pt); lia).
  clear -Hk. do 256 (destruct k as [|k]; [by vm_compute|]). lia.
Qed.

(** The header of a media packet without contributing sources. *)
Definition media_hdr (m : bool) (pt seq ts ssrc : Z) : rtp_header :=
  RtpHeader RTP_VERSION false false 0 m pt seq ts ssrc (replicate 16 0) 0 0.

Lemma rtp_encode_run (A : allocator) `{!allocator_ok A} mb s m pt ts :
  mbuf_wf mb → mb_pos mb + 12 ≤ mb_size mb → 0 ≤ pt < 128 →
  ∃ mb', rtp_encode A (Some s) m pt ts mb = Ret (0, Some (RtpSock (u16 (enc_seq s + 1)) (enc_ssrc s)), mb') ∧
    mbuf_wf mb' ∧ written mb (hdr_wire (media_hdr m pt (enc_seq s) ts (enc_ssrc s))) mb'.
Proof.
  intros Hwf Hroom Hpt. unfold rtp_encode. rewrite land_pt, (bool_decide_eq_true_2 (pt < 128)) by lia.
  rewrite (bool_decide_eq_true_2 (0 = 0)) by done. cbn [negb].
  destruct (rtp_hdr_encode_run A mb (media_hdr m pt (enc_seq s) ts (enc_ssrc s))) as (mb' & E & H);
    [done|split; simpl; lia|simpl; lia|].
  change (rtp_hdr_encode A mb (RtpHeader RTP_VERSION false false 0 m pt (enc_seq s) ts (enc_ssrc s) [] 0 0))
    with (rtp_hdr_encode A mb (media_hdr m pt (enc_seq s) ts (enc_ssrc s))).
  rewrite E. cbn [mbind outcome_bind]. by exists mb'.
Qed.

Lemma media_hdr_length m pt seq ts ssrc : length (hdr_wire (media_hdr m pt seq ts ssrc)) = 12%nat.
Proof. unfold hdr_wire. rewrite !length_app, !be_length. done. Qed.

Lemma parse_media m pt seq ts ssrc bs :
  0 ≤ pt < 128 → 0 ≤ seq < 2 ^ 16 → 0 ≤ ts < 2 ^ 32 → 0 ≤ ssrc < 2 ^ 32 →
  parse_hdr hdr_zero (hdr_wire (media_hdr m pt seq ts ssrc) ++ bs) = Some (media_hdr m pt seq ts ssrc, bs).
Proof.
  intros. rewrite parse_wire; [done| |done]. split; simpl; (done || lia || (repeat constructor; lia)).
Qed.

(** Rtp_encode writes, in front of a media frame, a header that rtp_decode
    returns with the socket's sequence number and source, the caller's marker,
    payload type and timestamp, followed by the unchanged frame; the socket's
    sequence number advances by one modulo 2^16; a payload type of 128 or more
    is refused and changes nothing. *)
Theorem rtp_encode_decode (A : allocator) `{!allocator_ok A} mb s m pt ts rs h0 :
  mbuf_wf mb → mb_pos mb + 12 ≤ mb_end mb → 0 ≤ pt < 256 → 0 ≤ ts < 2 ^ 32 →
  0 ≤ enc_seq s < 2 ^ 16 → 0 ≤ enc_ssrc s < 2 ^ 32 →
  if bool_decide (pt < 128) then
    ∃ mb' mb'', rtp_encode A (Some s) m pt ts mb =
        Ret (0, Some (RtpSock ((enc_seq s + 1) `mod` 2 ^ 16) (enc_ssrc s)), mb') ∧
      rtp_decode (Some rs) (mbuf_set_pos mb' (mb_pos mb)) h0 =
        Ret (0, RtpHeader 2 false false 0 m pt (enc_seq s) ts (enc_ssrc s) (replicate 16 0) 0 0, mb'') ∧
      payload mb'' = drop 12 (payload mb)
  else rtp_encode A (Some s) m pt ts mb = Ret (EINVAL, Some s, mb).
Proof.
  intros Hwf Hroom Hpt Hts Hseq Hssrc. unfold rtp_encode.
  rewrite land_pt by done. case_bool_decide; [|done]. rewrite (bool_decide_eq_true_2 (0 = 0)) by done. cbn [negb].
  (* the header has no contributing sources: only the array's size differs *)
  set (h := RtpHeader RTP_VERSION false false 0 m pt (enc_seq s) ts (enc_ssrc s) [] 0 0).
  set (h' := RtpHeader RTP_VERSION false false 0 m pt (enc_seq s) ts (enc_ssrc s) (replicate 16 0) 0 0).
  change (rtp_hdr_encode A mb h) with (rtp_hdr_encode A mb h').
  destruct (rtp_hdr_roundtrip A mb h' hdr_zero) as (mb' & mb'' & E1 & E2 & Hp); [done| |done|simpl; lia|].
  { split; simpl; (done || lia || (repeat constructor; lia)). }
  rewrite E1. cbn [mbind outcome_bind]. exists mb', mb''. split; [done|]. split; [|done].
  unfold rtp_decode. rewrite E2. done.
Qed.

(** ** The ports of a session *)

Lemma land_shiftl a b n : 0 ≤ n → Z.land a (Z.shiftl b n) = Z.shiftl (Z.land (Z.shiftr a n) b) n.
Proof.
  intros Hn. apply Z.bits_inj'. intros m Hm. rewrite Z.land_spec, !Z.shiftl_spec, Z.land_spec by done.
  destruct (decide (m < n)).
  - rewrite !(Z.testbit_neg_r _ (m - n)) by lia. by rewrite andb_false_r.
  - rewrite Z.shiftr_spec by lia. by replace (m - n + n) with m by lia.
Qed.

Lemma land_even q : 0 ≤ q < 65536 → Z.land q 65534 = 2 * (q / 2).
Proof.
  intros Hq. change 65534 with (Z.shiftl (2 ^ 15 - 1) 1). rewrite land_shiftl by lia.
  rewrite (land_ones_mod 15), Z.shiftr_div_pow2, Z.shiftl_mul_pow2 by lia. change (2 ^ 1) with 2.
  rewrite Z.mod_small; [lia|]. split; [apply Z.div_pos; lia|apply Z.div_lt_upper_bound; lia].
Qed.

Lemma range_port_ok min_port max_port r :
  0 ≤ min_port < max_port → max_port ≤ 65536 → Z.even min_port = true → Z.even max_port = true →
  let p := range_port min_port max_port r in Z.even p = true ∧ min_port ≤ p ∧ p + 1 < max_port.
Proof.
  intros Hmin Hmax Ev1 Ev2. unfold range_port.
  pose proof (Z.mod_pos_bound (u16 r) (max_port - min_port) ltac:(lia)).
  set (q := min_port + u16 r `mod` (max_port - min_port)) in *. rewrite (u16_id q) by lia.
  rewrite land_even by lia. apply Z.even_spec in Ev1 as [a ->], Ev2 as [b ->].
  rewrite Z.even_mul. split; [done|]. assert (a ≤ q / 2) by (apply Z.div_le_lower_bound; lia).
  assert (q / 2 < b) by (apply Z.div_lt_upper_bound; lia). lia.
Qed.

(** Udp_range_listen tries at most 64 even ports of the requested range; on
    success it has bound that port and the odd one above it, both inside the
    range (when its bounds are even), and otherwise it reports the error of the
    last try. *)
Theorem udp_range_listen_spec listen rand min_port max_port :
  0 ≤ min_port < max_port → max_port < 65536 → Z.even min_port = true → Z.even max_port = true →
  match udp_range_listen listen rand min_port max_port with
  | (err, Some port) => err = 0 ∧ Z.even port = true ∧ min_port ≤ port ∧ port + 1 < max_port ∧
      listen port = 0 ∧ listen (port + 1) = 0
  | (err, None) => err ≠ 0
  end.
Proof.
  intros Hmin Hmax Ev1 Ev2. unfold udp_range_listen.
  assert (Hloop : ∀ n err, (n = 0%nat → err ≠ 0) →
    match range_loop listen rand min_port max_port n err with
    | (err, Some port) => err = 0 ∧ Z.even port = true ∧ min_port ≤ port ∧ port + 1 < max_port ∧
        listen port = 0 ∧ listen (port + 1) = 0
    | (err, None) => err ≠ 0
    end); [|by apply Hloop].
  induction n as [|n IH]; intros err Herr; cbn [range_loop]; [auto|].
  destruct (range_port_ok min_port max_port (rand n)) as (H1 & H2 & H3); [done|lia|done|done|]. set (p := range_port _ _ _) in *.
  rewrite (u16_id (p + 1)) by lia.
  case_bool_decide as L1; [apply IH; by intros _|]. case_bool_decide as L2; [apply IH; by intros _|].
  split_and!; (done || by apply dec_stable).
Qed.

(** The compact form of an NTP time is its middle 32 bits, and converting it
    to microseconds is exact up to one microsecond: the seconds modulo 2^16
    times a million plus the fraction rounded down. *)
Theorem ntp_compact_us n :
  0 ≤ ntp_hi n < 2 ^ 32 → 0 ≤ ntp_lo n < 2 ^ 32 →
  ntp_compact (Some n) = (ntp_hi n `mod` 2 ^ 16) * 2 ^ 16 + ntp_lo n / 2 ^ 16 ∧
  ntp_compact2us (ntp_compact (Some n)) =
    1000000 * (ntp_hi n `mod` 2 ^ 16) + (1000000 * (ntp_lo n / 2 ^ 16)) / 2 ^ 16.
Proof.
  intros Hh Hl. set (h := ntp_hi n `mod` 2 ^ 16). set (l := ntp_lo n / 2 ^ 16).
  assert (Hh' : 0 ≤ h < 65536) by (apply Z.mod_pos_bound; lia).
  assert (Hl' : 0 ≤ l < 65536) by (split; [apply Z.div_pos; lia|apply Z.div_lt_upper_bound; lia]).
  assert (E : ntp_compact (Some n) = h * 2 ^ 16 + l).
  { unfold ntp_compact. change 65535 with (2 ^ 16 - 1). rewrite (land_ones_mod 16) by lia.
    rewrite Z.shiftl_mul_pow2, Z.shiftr_div_pow2 by lia. fold h l.
    rewrite u32_id by lia. apply (lor_disjoint_add 16); [lia|by apply Z.mod_mul|lia]. }
  split; [done|]. rewrite E. unfold ntp_compact2us. change 65535 with (2 ^ 16 - 1).
  rewrite !(land_ones_mod 16), !Z.shiftr_div_pow2, Z.shiftl_mul_pow2 by lia.
  replace ((h * 2 ^ 16 + l) / 2 ^ 16) with h by (rewrite Z.div_add_l, Z.div_small by lia; lia).
  replace ((h * 2 ^ 16 + l) `mod` 2 ^ 16) with l by (rewrite Z.add_comm, Z.mod_add, Z.mod_small by lia; lia).
  rewrite (Z.mod_small h), (u32_id (l * _)), (u64_id (1000000 * h)), (u64_id (1000000 * (l * _))) by lia.
  replace (1000000 * (l * 2 ^ 16) / 2 ^ 32) with (1000000 * l / 2 ^ 16).
  - rewrite u64_id; [done|]. assert (0 ≤ 1000000 * l / 2 ^ 16 < 1000000); [|lia].
    split; [apply Z.div_pos; lia|apply Z.div_lt_upper_bound; lia].
  - change (2 ^ 32) with (2 ^ 16 * 2 ^ 16). rewrite Z.mul_assoc, Z.div_mul_cancel_r; [done|lia|lia].
Qed.

(** *** Witnesses *)

(** A frame buffer: 12 bytes for the header and four of media. *)
Definition demo_frame : mbuf := Mb (Some (replicate 12 0 ++ [1; 2; 3; 4])) 16 0 16.

Lemma rtp_hdr_decode_spec_witness :
  ∃ mb', rtp_hdr_decode hdr_zero (Mb (Some ([128; 101; 1; 2] ++ replicate 8 7 ++ [9; 9])) 14 0 14) =
    Ret (0, RtpHeader 2 false false 0 false 101 258 117901063 117901063 (replicate 16 0) 0 0, mb') ∧
    mbuf_wf mb' ∧ payload mb' = [9; 9].
Proof.
  apply (rtp_hdr_decode_spec hdr_zero (Mb (Some ([128; 101; 1; 2] ++ replicate 8 7 ++ [9; 9])) 14 0 14)).
  - apply (bool_decide_eq_true_1 _). vm_compute. reflexivity.
  - reflexivity.
Defined.

Lemma rtp_hdr_roundtrip_witness :
  let h := RtpHeader 2 true false 1 true 8 500 70000 42 (7 :: replicate 15 0) 0 0 in
  let mb := Mb (Some (replicate 20 0)) 20 0 20 in
  ∃ mb' mb'', rtp_hdr_encode small_alloc mb h = Ret (0, mb') ∧
    rtp_hdr_decode hdr_zero (mbuf_set_pos mb' 0) = Ret (0, h, mb'') ∧ payload mb'' = replicate 4 0.
Proof.
  cbv zeta. apply (rtp_hdr_roundtrip small_alloc (Mb (Some (replicate 20 0)) 20 0 20)
    (RtpHeader 2 true false 1 true 8 500 70000 42 (7 :: replicate 15 0) 0 0) hdr_zero).
  - apply (bool_decide_eq_true_1 _). vm_compute. reflexivity.
  - split; simpl; try reflexivity; try lia. repeat constructor; lia.
  - reflexivity.
  - simpl. lia.
Defined.

Lemma rtp_encode_decode_witness :
  ∃ mb' mb'', rtp_encode small_alloc (Some (RtpSock 65535 42)) true 18 320 demo_frame =
      Ret (0, Some (RtpSock 0 42), mb') ∧
    rtp_decode (Some (RtpSock 0 0)) (mbuf_set_pos mb' 0) hdr_zero =
      Ret (0, RtpHeader 2 false false 0 true 18 65535 320 42 (replicate 16 0) 0 0, mb'') ∧
    payload mb'' = [1; 2; 3; 4].
Proof.
  apply (rtp_encode_decode small_alloc demo_frame (RtpSock 65535 42) true 18 320 (RtpSock 0 0) hdr_zero);
    try (simpl; lia). apply (bool_decide_eq_true_1 _). vm_compute. reflexivity.
Defined.

Lemma udp_range_listen_spec_witness :
  0 = 0 ∧ Z.even 8010 = true ∧ 8000 ≤ 8010 ∧ 8010 + 1 < 20000 ∧ 0 = 0 ∧ 0 = 0.
Proof.
  apply (udp_range_listen_spec (λ _, 0) (λ _, 11) 8000 20000); (lia || reflexivity).
Defined.

Lemma ntp_compact_us_witness :
  ntp_compact (Some (NtpTime 3900000000 2147483648)) = (3900000000 `mod` 2 ^ 16) * 2 ^ 16 + 2147483648 / 2 ^ 16 ∧
  ntp_compact2us (ntp_compact (Some (NtpTime 3900000000 2147483648))) =
    1000000 * (3900000000 `mod` 2 ^ 16) + (1000000 * (2147483648 / 2 ^ 16)) / 2 ^ 16.
Proof. apply (ntp_compact_us (NtpTime 3900000000 2147483648)); simpl; lia. Defined.
