(* ===== verification/Source.v ===== *)
(** * Sources of RTP packets (src/re/src/rtp/source.c)

    What a receiver keeps of a sender, as in RFC 3550 A.1, A.3 and A.8: the
    highest sequence number with its wraps, the packets received and expected, and
    the jitter.  The sequence numbers of packets are 16 bits of a number that
    grows without end; the state is compared with those numbers. *)
From stdpp Require Import base tactics list numbers.
From S2P Require Import Prelude.

Definition RTP_SEQ_MOD : Z := 65536.
Definition MAX_DROPOUT : Z := 3000.
Definition MAX_MISORDER : Z := 100.
Definition MIN_SEQUENTIAL : Z := 2.

(** The fields that source.c uses. *)
Record rtp_source := RtpSource {
  rs_max_seq : Z;
  rs_cycles : Z;
  rs_base_seq : Z;
  rs_bad_seq : Z;
  rs_probation : Z;
  rs_received : Z;
  rs_expected_prior : Z;
  rs_received_prior : Z;
  rs_transit : Z;
  rs_jitter : Z;
  rs_rtp_rx_bytes : Z
}.

#[export] Instance eta_rtp_source : Eta rtp_source := λ s,
  RtpSource (rs_max_seq s) (rs_cycles s) (rs_base_seq s) (rs_bad_seq s) (rs_probation s) (rs_received s) (rs_expected_prior s)
    (rs_received_prior s) (rs_transit s) (rs_jitter s) (rs_rtp_rx_bytes s).

Definition set_max_seq : Z → rtp_source → rtp_source := ltac:(setter rs_max_seq).
Definition set_cycles : Z → rtp_source → rtp_source := ltac:(setter rs_cycles).
Definition set_base_seq : Z → rtp_source → rtp_source := ltac:(setter rs_base_seq).
Definition set_bad_seq : Z → rtp_source → rtp_source := ltac:(setter rs_bad_seq).
Definition set_probation : Z → rtp_source → rtp_source := ltac:(setter rs_probation).
Definition set_received : Z → rtp_source → rtp_source := ltac:(setter rs_received).
Definition set_expected_prior : Z → rtp_source → rtp_source := ltac:(setter rs_expected_prior).
Definition set_received_prior : Z → rtp_source → rtp_source := ltac:(setter rs_received_prior).
Definition set_transit : Z → rtp_source → rtp_source := ltac:(setter rs_transit).
Definition set_jitter : Z → rtp_source → rtp_source := ltac:(setter rs_jitter).

(** ** Sequence numbers *)

Definition source_init_seq (s : rtp_source) (seq : Z) : rtp_source :=
  RtpSource seq 0 seq (RTP_SEQ_MOD + 1) (rs_probation s) 0 0 0 (rs_transit s) (rs_jitter s) (rs_rtp_rx_bytes s).

Definition count_received (s : rtp_source) : rtp_source := set_received (u32 (rs_received s + 1)) s.

(** The result, 1 if the packet counts, and the source. *)
Definition source_update_seq (s : rtp_source) (seq : Z) : Z * rtp_source :=
  let udelta := u16 (seq - rs_max_seq s) in
  if negb (bool_decide (rs_probation s = 0)) then
    if bool_decide (seq = rs_max_seq s + 1) then
      let s := set_max_seq seq (set_probation (u32 (rs_probation s - 1)) s) in
      if bool_decide (rs_probation s = 0) then (1, count_received (source_init_seq s seq)) else (0, s)
    else (0, set_max_seq seq (set_probation (MIN_SEQUENTIAL - 1) s))
  else if bool_decide (udelta < MAX_DROPOUT) then
    let s := if bool_decide (seq < rs_max_seq s) then set_cycles (u32 (rs_cycles s + RTP_SEQ_MOD)) s else s in
    (1, count_received (set_max_seq seq s))
  else if bool_decide (udelta <= RTP_SEQ_MOD - MAX_MISORDER) then
    if bool_decide (seq = rs_bad_seq s) then (1, count_received (source_init_seq s seq))
    else (0, set_bad_seq (Z.land (seq + 1) (RTP_SEQ_MOD - 1)) s)
  else (1, count_received s).

(** ** Jitter and losses *)

(** The [int] arithmetic, which must not overflow. *)
Definition int_of (z : Z) : outcome Z :=
  if bool_decide (- 2147483648 ≤ z < 2147483648) then Ret z else Fault Overflow.

Definition source_calc_jitter (s : rtp_source) (rtp_ts arrival : Z) : outcome rtp_source :=
  let transit := s32 (u32 (arrival - rtp_ts)) in
  d ← int_of (transit - rs_transit s);
  let s := set_transit transit s in
  if bool_decide (rs_rtp_rx_bytes s = 0) then Ret s
  else
    d ← (if bool_decide (d < 0) then int_of (- d) else Ret d);
    Ret (set_jitter (u32 (rs_jitter s + u32 (d - Z.shiftr (u32 (rs_jitter s + 8)) 4))) s).

Lemma int_of_ok z : - 2147483648 ≤ z < 2147483648 → int_of z = Ret z.
Proof. intros. unfold int_of. by rewrite bool_decide_eq_true_2. Qed.

(** [extended_max - base_seq + 1], as an [int]. *)
Definition expected_of (s : rtp_source) : Z :=
  let extended_max := s32 (rs_cycles s + rs_max_seq s) in s32 (extended_max - rs_base_seq s + 1).

Definition source_calc_lost (s : rtp_source) : Z :=
  let lost := s32 (expected_of s - rs_received s) in
  if bool_decide (lost > 8388607) then 8388607
  else if bool_decide (lost < - 8388607) then - 8388607
  else lost.

Definition source_calc_fraction_lost (s : rtp_source) : outcome (Z * rtp_source) :=
  let expected := expected_of s in
  let expected_interval := s32 (expected - rs_expected_prior s) in
  let received_interval := s32 (rs_received s - rs_received_prior s) in
  let s := set_received_prior (rs_received s) (set_expected_prior (u32 expected) s) in
  lost_interval ← int_of (expected_interval - received_interval);
  if bool_decide (expected_interval = 0) || bool_decide (lost_interval <= 0) then Ret (0, s)
  else
    n ← int_of (Z.shiftl lost_interval 8);
    Ret (u8 (Z.quot n expected_interval), s).

(** ** The numbers behind the sequence numbers

    [E] is the highest number so far, [n] the packets counted since the first one. *)
Record tracks (s : rtp_source) (E n : Z) : Prop := {
  tr_valid : rs_probation s = 0;
  tr_seq : 0 ≤ rs_max_seq s < RTP_SEQ_MOD;
  tr_cycles : 0 ≤ rs_cycles s ∧ rs_cycles s `mod` RTP_SEQ_MOD = 0;
  tr_highest : E = rs_cycles s + rs_max_seq s;
  tr_base : 0 ≤ rs_base_seq s ≤ E;
  tr_received : rs_received s = n;
  tr_small : E < 2 ^ 31 ∧ 0 ≤ n < 2 ^ 31
}.

(** The next packet is at most so far ahead or behind. *)
Definition near (E x : Z) : Prop := E - MAX_MISORDER < x < E + MAX_DROPOUT.

Fixpoint all_near (E : Z) (l : list Z) : Prop :=
  match l with [] => True | x :: l => near E x ∧ all_near (Z.max E x) l end.

Definition highest (E : Z) (l : list Z) : Z := foldl Z.max E l.

(** The packets numbered [l] arrive. *)
Definition arrive (s : rtp_source) (l : list Z) : rtp_source := foldl (λ s x, snd (source_update_seq s (u16 x))) s l.

Ltac bds := repeat first
  [rewrite bool_decide_eq_true_2 by lia|rewrite bool_decide_eq_false_2 by lia]; cbn [negb orb andb].

Lemma update_near s E n x : tracks s E n → near E x → x < 2 ^ 31 → n + 1 < 2 ^ 31 →
  ∃ s', source_update_seq s (u16 x) = (1, s') ∧ tracks s' (Z.max E x) (n + 1) ∧
    rs_base_seq s' = rs_base_seq s ∧ rs_expected_prior s' = rs_expected_prior s ∧ rs_received_prior s' = rs_received_prior s.
Proof.
  intros [Hv Hm [Hc0 Hc] HE Hb Hr [HE31 Hn]] [Hlo Hhi] Hx Hn1. unfold RTP_SEQ_MOD, MAX_MISORDER, MAX_DROPOUT in *.
  unfold source_update_seq, RTP_SEQ_MOD, MAX_DROPOUT, MAX_MISORDER. rewrite Hv. cbn [negb bool_decide]. rewrite (bool_decide_eq_true_2 (0 = 0)) by done. cbn [negb].
  destruct s as [m c b bad pr r ep rp tr j bytes]. cbn in *. subst pr r.
  apply Z.mod_divide in Hc as [k ->]; [|lia].
  assert (Hd : u16 (u16 x - m) = (x - E) `mod` 65536).
  { unfold u16. rewrite Zminus_mod_idemp_l, HE, <- (Z_mod_plus_full (x - m) (- k) 65536). f_equal. lia. }
  rewrite Hd. assert (Hu : ∀ y, 0 ≤ y < 4294967296 → u32 y = y) by (intros; by apply u32_id).
  assert (Hxm : u16 x = (m + (x - E)) `mod` 65536).
  { unfold u16. rewrite <- (Z_mod_plus_full x (- k) 65536). f_equal. lia. }
  destruct (decide (E ≤ x)) as [Hge|Hlt].
  - rewrite (Z.mod_small (x - E)) by lia. rewrite (bool_decide_eq_true_2 (x - E < 3000)) by lia. rewrite Hxm.
    destruct (decide (m + (x - E) < 65536)) as [Hs|Hs].
    + rewrite Z.mod_small by lia. rewrite bool_decide_eq_false_2 by lia. unfold count_received. cbn. rewrite Hu by lia.
      eexists. split; [done|]. split; [|done]. split; cbn -[Z.max Z.modulo Z.mul]; unfold RTP_SEQ_MOD; try done; try lia; try (split; [lia|]; apply Z.mod_mul; lia).
    + assert (Ew : (m + (x - E)) `mod` 65536 = m + (x - E) - 65536).
      { rewrite <- (Z_mod_plus_full _ (-1)). apply Z.mod_small. lia. }
      rewrite Ew, bool_decide_eq_true_2 by lia. unfold count_received. cbn. rewrite !Hu by lia.
      eexists. split; [done|]. split; [|done]. split; cbn -[Z.max Z.modulo Z.mul]; unfold RTP_SEQ_MOD; try done; try lia; try (split; [lia|]; apply Z.mod_mul; lia).
      split; [lia|]. rewrite <- Z.mul_succ_l. apply Z.mod_mul. lia.
  - assert (Ew : (x - E) `mod` 65536 = x - E + 65536).
    { rewrite <- (Z_mod_plus_full _ 1). apply Z.mod_small. lia. }
    rewrite Ew, bool_decide_eq_false_2, bool_decide_eq_false_2 by lia. unfold count_received. cbn. rewrite Hu by lia.
    eexists. split; [done|]. split; [|done]. split; cbn -[Z.max Z.modulo Z.mul]; unfold RTP_SEQ_MOD; try done; try lia; try (split; [lia|]; apply Z.mod_mul; lia).
Qed.

Lemma highest_mono l : ∀ E, E ≤ highest E l.
Proof. unfold highest. induction l as [|x l IH]; intros E; [done|]. cbn [foldl]. etrans; [|apply IH]. lia. Qed.

Lemma highest_in l : ∀ E, Forall (λ x, x ≤ highest E l) l.
Proof.
  unfold highest. induction l as [|x l IH]; intros E; [done|]. cbn [foldl]. constructor; [|apply IH].
  pose proof (highest_mono l (Z.max E x)). unfold highest in *. lia.
Qed.

(** The results of [source_update_seq] on each of the packets. *)
Fixpoint accepts (s : rtp_source) (l : list Z) : Prop :=
  match l with [] => True | x :: l => fst (source_update_seq s (u16 x)) = 1 ∧ accepts (snd (source_update_seq s (u16 x))) l end.

Lemma arrive_run l : ∀ s E n, tracks s E n → all_near E l → highest E l < 2 ^ 31 → n + Z.of_nat (length l) < 2 ^ 31 →
  accepts s l ∧ tracks (arrive s l) (highest E l) (n + Z.of_nat (length l)) ∧ rs_base_seq (arrive s l) = rs_base_seq s ∧
    rs_expected_prior (arrive s l) = rs_expected_prior s ∧ rs_received_prior (arrive s l) = rs_received_prior s.
Proof.
  induction l as [|x l IH]; intros s E n Ht Hn Hh Hl.
  { cbn [arrive foldl highest length accepts]. split_and!; try done. cbn. by rewrite Z.add_0_r. }
  destruct Hn as [Hx Hn]. cbn [length] in Hl. unfold highest in Hh. cbn [foldl] in Hh. fold (highest (Z.max E x) l) in Hh.
  pose proof (highest_mono l (Z.max E x)). destruct (update_near s E n x Ht Hx) as (s' & E' & Ht' & Hb & He & Hr); [lia|lia|].
  destruct (IH s' _ _ Ht' Hn Hh) as (Ha & Hf & Hb' & He' & Hr'); [lia|]. cbn [arrive foldl accepts]. rewrite E'. cbn [fst snd].
  fold (arrive s' l). replace (n + Z.of_nat (length (x :: l))) with (n + 1 + Z.of_nat (length l)) by (cbn [length]; lia).
  split_and!; [done|done|done|congruence|congruence|congruence].
Qed.

Lemma expected_tracks s E n : tracks s E n → expected_of s = E - rs_base_seq s + 1 ∧ 1 ≤ expected_of s ≤ 2 ^ 31 - 1 ∨
  expected_of s = - 2 ^ 31 ∧ E - rs_base_seq s = 2 ^ 31 - 1.
Proof.
  intros [Hv Hm [Hc0 Hc] HE Hb Hr [HE31 Hn]]. unfold expected_of, s32. rewrite <- HE, (Z.mod_small (E + _)) by lia.
  destruct (decide (E - rs_base_seq s = 2 ^ 31 - 1)) as [H|H].
  - right. split; [|done]. replace (E + 2147483648 - 2147483648 - rs_base_seq s + 1 + 2147483648) with (1 * 4294967296) by lia. by rewrite Z.mod_mul.
  - left. rewrite Z.mod_small by lia. lia.
Qed.

(** A source that has just been found valid. *)
Definition fresh (s : rtp_source) (seq : Z) : Prop :=
  tracks s seq 1 ∧ rs_base_seq s = seq ∧ rs_expected_prior s = 0 ∧ rs_received_prior s = 0.

Definition lost_of (base E n : Z) : Z := Z.max (- 8388607) (Z.min 8388607 (E - base + 1 - n)).

(** A source is valid after two packets with consecutive numbers.  From then
    on the packets may be numbered in any order, over any number of
    wraps of the 16 bits, as long as each is less than 3000 ahead of the
    highest so far and less than 100 behind it: all of them count, the
    state holds the highest of the full numbers, and the packets lost are the numbers
    from the first to the highest less the packets received, within 24 bits. *)
Theorem source_update_seq_spec s seq l :
  rs_probation s = 1 → 0 ≤ rs_max_seq s → seq = rs_max_seq s + 1 → seq < RTP_SEQ_MOD → all_near seq l →
  highest seq l < 2 ^ 31 - 1 → Z.of_nat (length l) < 2 ^ 31 - 1 →
  ∃ s', source_update_seq s seq = (1, s') ∧ fresh s' seq ∧ accepts s' l ∧
    tracks (arrive s' l) (highest seq l) (1 + Z.of_nat (length l)) ∧
    source_calc_lost (arrive s' l) = lost_of seq (highest seq l) (1 + Z.of_nat (length l)).
Proof.
  intros Hp Hm Hs Hlt Hn Hh Hl. unfold source_update_seq. rewrite Hp. cbn [negb]. rewrite (bool_decide_eq_false_2 (1 = 0)), (bool_decide_eq_true_2 (seq = _)) by lia.
  cbn [negb]. assert (Ep : rs_probation (set_max_seq seq (set_probation (u32 (1 - 1)) s)) = 0) by done.
  rewrite Ep, (bool_decide_eq_true_2 (0 = 0)) by done. eexists. split; [done|]. unfold RTP_SEQ_MOD in Hlt.
  assert (Hf : fresh (count_received (source_init_seq (set_max_seq seq (set_probation (u32 (1 - 1)) s)) seq)) seq).
  { split; [|done]. split; cbn; unfold RTP_SEQ_MOD; try done; lia. }
  split; [exact Hf|]. destruct Hf as (Ht & Hb & _). destruct (arrive_run l _ seq 1 Ht Hn) as (Ha & Ht' & Hb' & _); [lia|lia|].
  split; [done|]. split; [done|]. destruct (expected_tracks _ _ _ Ht') as [[He Hr]|[_ He]].
  2: { rewrite Hb', Hb in He. lia. }
  unfold source_calc_lost, lost_of. rewrite He, Hb', Hb. destruct Ht' as [_ _ _ _ _ -> _]. unfold s32. rewrite Z.mod_small by lia.
  repeat case_bool_decide; lia.
Qed.

(** ** Reports *)

(** The last report was made in this state. *)
Definition reported (s : rtp_source) (E n : Z) : Prop :=
  tracks s E n ∧ rs_expected_prior s = E - rs_base_seq s + 1 ∧ rs_received_prior s = n.

(** Between two reports, the fraction lost is the share of the numbers
    expected since the last report that did not arrive, in 256ths rounded down and always
    below 256; it is 0 when duplicates make up for the losses, and the next report
    starts from here. *)
Theorem source_calc_fraction_lost_spec s E n l :
  reported s E n → l ≠ [] → all_near E l → highest E l < 2 ^ 31 - 1 → n + Z.of_nat (length l) < 2 ^ 31 → highest E l - E < 2 ^ 23 →
  let expected := highest E l - E in
  let lost := expected - Z.of_nat (length l) in
  let fraction := if bool_decide (lost ≤ 0) then 0 else 256 * lost / expected in
  ∃ s', source_calc_fraction_lost (arrive s l) = Ret (fraction, s') ∧ 0 ≤ fraction < 256 ∧
    reported s' (highest E l) (n + Z.of_nat (length l)).
Proof.
  intros (Ht & He & Hr) Hne Hn Hh Hl Hint expected lost fraction. pose proof Ht as [_ _ _ _ Hb _ [_ Hn0]].
  assert (Hlen : 1 ≤ Z.of_nat (length l)) by (destruct l; [done|cbn [length]; lia]).
  destruct (arrive_run l s E n Ht Hn) as (_ & Ht' & Hb' & He' & Hr'); [lia|lia|]. pose proof (highest_mono l E) as Hm.
  set (s1 := arrive s l) in *. unfold source_calc_fraction_lost.
  destruct (expected_tracks _ _ _ Ht') as [[Ex Hex]|[_ Ex]]; [|rewrite Hb' in Ex; lia].
  assert (Ei : s32 (expected_of s1 - rs_expected_prior s1) = expected).
  { rewrite Ex, He', He, Hb'. unfold s32. rewrite Z.mod_small by lia. unfold expected. lia. }
  assert (Er : s32 (rs_received s1 - rs_received_prior s1) = Z.of_nat (length l)).
  { destruct Ht' as [_ _ _ _ _ -> _]. rewrite Hr', Hr. unfold s32. rewrite Z.mod_small by lia. lia. }
  rewrite Ei, Er. fold lost.
  assert (Hlo : - 2 ^ 31 < lost < 2 ^ 23 ∧ lost < expected < 2 ^ 23) by (unfold lost, expected; lia). clearbody lost.
  rewrite int_of_ok by lia. cbn [mbind outcome_bind].
  set (s' := set_received_prior _ _).
  assert (Hs' : reported s' (highest E l) (n + Z.of_nat (length l))).
  { split; [by destruct Ht'|]. split; [|by destruct Ht']. cbn -[Z.sub Z.add]. rewrite Ex, u32_id by lia. done. }
  assert (Hf : 0 ≤ fraction < 256).
  { unfold fraction. case_bool_decide as Hz; [lia|]. split; [apply Z.div_pos; lia|apply Z.div_lt_upper_bound; lia]. }
  exists s'. split; [|by split]. revert Hf. unfold fraction. case_bool_decide as Hz; intros Hf.
  - rewrite orb_true_r. done.
  - rewrite (bool_decide_eq_false_2 (expected = 0)) by lia. cbn [orb]. rewrite Z.shiftl_mul_pow2 by lia. rewrite int_of_ok by lia.
    cbn [mbind outcome_bind]. do 2 f_equal. rewrite Z.quot_div_nonneg by lia. replace (lost * 2 ^ 8) with (256 * lost) by lia. by apply u8_id.
Qed.

(** When the transit times of consecutive packets differ by at most [D], the
    jitter moves by the difference less a sixteenth of itself, as the standard
    has it, without overflow, and stays within 16 times [D], up to rounding. *)
Theorem source_calc_jitter_bounds s rtp_ts arrival D :
  let transit := s32 (u32 (arrival - rtp_ts)) in
  0 ≤ D < 2 ^ 27 → Z.abs (transit - rs_transit s) ≤ D → 0 ≤ rs_jitter s ≤ 16 * D + 7 →
  ∃ s', source_calc_jitter s rtp_ts arrival = Ret s' ∧ rs_transit s' = transit ∧
    rs_jitter s' = (if bool_decide (rs_rtp_rx_bytes s = 0) then rs_jitter s
                    else rs_jitter s + Z.abs (transit - rs_transit s) - (rs_jitter s + 8) / 16) ∧
    0 ≤ rs_jitter s' ≤ 16 * D + 7.
Proof.
  intros transit HD Hd Hj. unfold source_calc_jitter. fold transit. rewrite int_of_ok by lia. cbn [mbind outcome_bind].
  assert (Hb : rs_rtp_rx_bytes (set_transit transit s) = rs_rtp_rx_bytes s) by done. rewrite Hb.
  destruct (decide (rs_rtp_rx_bytes s = 0)) as [Hz|Hz]; [rewrite !bool_decide_eq_true_2 by done; by eexists|].
  rewrite !(bool_decide_eq_false_2 (rs_rtp_rx_bytes s = 0)) by done.
  assert (Ha : (if bool_decide (transit - rs_transit s < 0) then int_of (- (transit - rs_transit s)) else Ret (transit - rs_transit s)) =
      Ret (Z.abs (transit - rs_transit s))).
  { case_bool_decide as Hn; [rewrite int_of_ok by lia|]; f_equal; lia. }
  rewrite Ha. cbn [mbind outcome_bind]. eexists. split; [done|]. split; [done|]. cbn -[Z.shiftr Z.abs Z.div Z.modulo Z.mul Z.add].
  set (d := Z.abs _) in *. rewrite (u32_id (_ + 8)) by lia. rewrite Z.shiftr_div_pow2 by lia. change (2 ^ 4) with 16.
  assert (Hq : (rs_jitter s + 8) / 16 ≤ rs_jitter s ∧ 0 ≤ (rs_jitter s + 8) / 16 ∧ 16 * ((rs_jitter s + 8) / 16) ≤ rs_jitter s + 8 < 16 * ((rs_jitter s + 8) / 16) + 16).
  { Z.div_mod_to_equations. lia. }
  set (q := _ / 16) in *. clearbody q.
  assert (Eu : u32 (rs_jitter s + u32 (d - q)) = rs_jitter s + d - q).
  { unfold u32. rewrite Zplus_mod_idemp_r. rewrite Z.mod_small; lia. }
  rewrite Eu. split; [done|]. lia.
Qed.

(** ** Witnesses *)

Definition demo_source : rtp_source := RtpSource 65530 0 0 65537 1 0 0 0 0 0 0.

Lemma source_update_seq_spec_witness :
  let l := [65533; 65535; 65534; 65537; 65540; 65539] in
  ∃ s', source_update_seq demo_source 65531 = (1, s') ∧ source_calc_lost (arrive s' l) = 3 ∧ rs_max_seq (arrive s' l) = 4 ∧ rs_cycles (arrive s' l) = 65536.
Proof.
  intros l. destruct (source_update_seq_spec demo_source 65531 l) as (s' & E & _ & _ & Ht & Hl).
  - reflexivity.
  - vm_compute. congruence.
  - reflexivity.
  - reflexivity.
  - unfold near, MAX_MISORDER, MAX_DROPOUT. cbn [l all_near]. unfold near, MAX_MISORDER, MAX_DROPOUT. lia.
  - vm_compute. reflexivity.
  - vm_compute. reflexivity.
  - exists s'. split; [exact E|]. split; [rewrite Hl; vm_compute; reflexivity|]. destruct Ht as [_ Hm [Hc0 Hc] HE _ _ _].
    apply Z.mod_divide in Hc as [k Hk]; [|vm_compute; congruence]. change (highest 65531 l) with 65540 in HE. unfold RTP_SEQ_MOD in *. lia.
Defined.

Definition demo_reported : rtp_source := RtpSource 65531 0 65531 65537 0 1 1 1 0 0 0.

Lemma source_calc_fraction_lost_spec_witness :
  ∃ s', source_calc_fraction_lost (arrive demo_reported [65533; 65535]) = Ret (128, s').
Proof.
  destruct (source_calc_fraction_lost_spec demo_reported 65531 1 [65533; 65535]) as (s' & E & _).
  - split; [|done]. split; cbn -[Z.pow Z.modulo]; unfold RTP_SEQ_MOD; try done; lia.
  - congruence.
  - cbn [all_near]. unfold near, MAX_MISORDER, MAX_DROPOUT. lia.
  - vm_compute. reflexivity.
  - vm_compute. reflexivity.
  - vm_compute. reflexivity.
  - exists s'. exact E.
Defined.

Lemma source_calc_jitter_bounds_witness :
  ∃ s', source_calc_jitter (RtpSource 0 0 0 0 0 0 0 0 100 32 1) 1000 1140 = Ret s' ∧ rs_jitter s' = 70.
Proof.
  destruct (source_calc_jitter_bounds (RtpSource 0 0 0 0 0 0 0 0 100 32 1) 1000 1140 40) as (s' & E & _ & Hj & _).
  - lia.
  - vm_compute. congruence.
  - cbn [rs_jitter]. lia.
  - exists s'. split; [exact E|]. rewrite Hj. vm_compute. reflexivity.
Defined.
