(* ===== verification/Jbuf.v ===== *)
(** * The jitter buffer (src/re/src/jbuf/jbuf.c)

    Received packets wait in a list sorted by sequence number; the frames that
    hold them come from a pool of fixed size, and when it is empty the oldest
    packet is dropped.  The memory of a packet is reference counted: an operation
    gives, besides its result, the references it takes and drops. *)
From stdpp Require Import base tactics list numbers option sorting.
From S2P Require Import Prelude Mbuf Rtp.

(** The memory of a packet, by its address. *)
Definition memory : Type := option positive.

Inductive ref_event := MemRef (m : positive) | MemDeref (m : positive).
#[export] Instance ref_event_eq : EqDecision ref_event.
Proof. solve_decision. Defined.
Definition mem_ref (m : memory) : list ref_event := match m with Some m => [MemRef m] | None => [] end.
Definition mem_deref (m : memory) : list ref_event := match m with Some m => [MemDeref m] | None => [] end.

Record frame := Frame { f_hdr : rtp_header; f_mem : memory }.

Record jbuf_stat := JbufStat {
  n_put : Z;
  n_get : Z;
  n_oos : Z;
  n_dups : Z;
  n_late : Z;
  n_lost : Z;
  n_overflow : Z;
  n_underflow : Z;
  n_flush : Z
}.

#[export] Instance eta_jbuf_stat : Eta jbuf_stat := λ s,
  JbufStat (n_put s) (n_get s) (n_oos s) (n_dups s) (n_late s) (n_lost s) (n_overflow s) (n_underflow s) (n_flush s).

Record jbuf := Jbuf {
  jb_pooll : list frame;
  jb_framel : list frame;
  jb_n : Z;
  jb_min : Z;
  jb_max : Z;
  jb_seq_put : Z;
  jb_running : bool;
  jb_seq_get : Z;
  jb_stat : jbuf_stat
}.

#[export] Instance eta_jbuf : Eta jbuf := λ j,
  Jbuf (jb_pooll j) (jb_framel j) (jb_n j) (jb_min j) (jb_max j) (jb_seq_put j) (jb_running j) (jb_seq_get j) (jb_stat j).

Definition set_framel : list frame → jbuf → jbuf := ltac:(setter jb_framel).
Definition set_pooll : list frame → jbuf → jbuf := ltac:(setter jb_pooll).
Definition set_n : Z → jbuf → jbuf := ltac:(setter jb_n).
Definition set_seq_put : Z → jbuf → jbuf := ltac:(setter jb_seq_put).
Definition set_running : bool → jbuf → jbuf := ltac:(setter jb_running).
Definition set_seq_get : Z → jbuf → jbuf := ltac:(setter jb_seq_get).
Definition set_stat : jbuf_stat → jbuf → jbuf := ltac:(setter jb_stat).

(** One of the counters goes up. *)
Definition stat_inc (get : jbuf_stat → Z) (put : Z → jbuf_stat → jbuf_stat) (jb : jbuf) : jbuf :=
  set_stat (put (u32 (get (jb_stat jb) + 1)) (jb_stat jb)) jb.
Definition inc_put := stat_inc n_put ltac:(setter n_put).
Definition inc_get := stat_inc n_get ltac:(setter n_get).
Definition inc_oos := stat_inc n_oos ltac:(setter n_oos).
Definition inc_dups := stat_inc n_dups ltac:(setter n_dups).
Definition inc_late := stat_inc n_late ltac:(setter n_late).
Definition inc_lost := stat_inc n_lost ltac:(setter n_lost).
Definition inc_overflow := stat_inc n_overflow ltac:(setter n_overflow).
Definition inc_underflow := stat_inc n_underflow ltac:(setter n_underflow).
Definition inc_flush := stat_inc n_flush ltac:(setter n_flush).

(** ** Frames *)

Definition seq_less (x y : Z) : bool := bool_decide (s16 (x - y) < 0).

Definition frame_zero : frame := Frame hdr_zero None.

(** A frame from the pool, or else the oldest of the buffered ones. *)
Definition frame_alloc (jb : jbuf) : outcome (frame * jbuf * list ref_event) :=
  match jb_pooll jb with
  | f :: pool => Ret (f, set_n (u32 (jb_n jb + 1)) (set_pooll pool jb), [])
  | [] =>
      match jb_framel jb with
      | [] => Fault NullDeref
      | f0 :: framel => Ret (Frame (f_hdr f0) None, set_framel framel (inc_overflow jb), mem_deref (f_mem f0))
      end
  end.

(** The frame [f], which is not in [framel], goes back to the pool. *)
Definition frame_deref (jb : jbuf) (f : frame) (framel : list frame) : jbuf * list ref_event :=
  (set_n (u32 (jb_n jb - 1)) (set_pooll (jb_pooll jb ++ [Frame (f_hdr f) None]) (set_framel framel jb)), mem_deref (f_mem f)).

(** ** jbuf_alloc and the destructor

    [jb_mem] and [frame_mem] decide the allocations. *)
Definition jbuf_alloc (jb_mem : bool) (frame_mem : nat → bool) (min max : Z) : Z * option jbuf :=
  if bool_decide (min > max) then (EINVAL, None)
  else if negb (seq_less 10 20) || seq_less 20 10 || negb (seq_less 65535 0) then (ENOSYS, None)
  else if negb jb_mem then (ENOMEM, None)
  else if forallb frame_mem (seq 0 (Z.to_nat max)) then
    (0, Some (Jbuf (replicate (Z.to_nat max) frame_zero) [] 0 min max 0 false 0 (JbufStat 0 0 0 0 0 0 0 0 0)))
  else (ENOMEM, None).

(** ** jbuf_put *)

(** The search for the place of a packet, from the tail: [before] is the list
    that is left, in reverse; a duplicate is [inl]. *)
Fixpoint place (seq : Z) (before after : list frame) : (unit + (list frame * list frame)) :=
  match before with
  | [] => inr ([], after)
  | le :: before' =>
      let seq_le := h_seq (f_hdr le) in
      if seq_less seq_le seq then inr (reverse before, after)
      else if bool_decide (seq = seq_le) then inl tt
      else place seq before' (le :: after)
  end.

(** Whether a packet that comes last is appended at once. *)
Definition is_next (framel : list frame) (seq : Z) : bool :=
  match head (reverse framel) with None => true | Some tail => seq_less (h_seq (f_hdr tail)) seq end.

Definition jbuf_put (jb : jbuf) (hdr : rtp_header) (mem : memory) : outcome (Z * jbuf * list ref_event) :=
  let seq := h_seq hdr in
  let jb := inc_put jb in
  if jb_running jb && seq_less (u16 (seq + jb_n jb)) (jb_seq_put jb) then Ret (ETIMEDOUT, inc_late jb, [])
  else
    r ← frame_alloc jb;
    let '(f, jb, dropped) := r in
    let framel := jb_framel jb in
    let out framel jb := (0, set_seq_put seq (set_running true (set_framel framel jb)), dropped ++ mem_ref mem) in
    if is_next framel seq then Ret (out (framel ++ [Frame hdr mem]) jb)
    else
      match place seq (reverse framel) [] with
      | inl _ =>
          let '(jb, freed) := frame_deref (inc_dups jb) f framel in
          Ret (EALREADY, jb, dropped ++ freed)
      | inr (before, after) => Ret (out (before ++ Frame hdr mem :: after) (inc_oos jb))
      end.

(** ** jbuf_get and jbuf_flush *)

(** The packet handed out, if any. *)
Definition jbuf_get (jb : jbuf) : Z * option (rtp_header * memory) * jbuf * list ref_event :=
  let jb := inc_get jb in
  match jb_framel jb with
  | f :: framel =>
      if bool_decide (jb_n jb <= jb_min jb) then (ENOENT, None, inc_underflow jb, [])
      else
        let seq := h_seq (f_hdr f) in
        let jb :=
          if bool_decide (jb_seq_get jb ≠ 0) && negb (seq_less seq (jb_seq_get jb)) && bool_decide (s16 (seq - jb_seq_get jb) > 1)
          then inc_lost jb else jb in
        let jb := set_seq_get seq jb in
        let '(jb, freed) := frame_deref jb f framel in
        (0, Some (f_hdr f, f_mem f), jb, mem_ref (f_mem f) ++ freed)
  | [] => (ENOENT, None, inc_underflow jb, [])
  end.

(** All frames go back to the pool, the first of the list first. *)
Fixpoint flush_frames (l : list frame) (jb : jbuf) : jbuf * list ref_event :=
  match l with
  | [] => (jb, [])
  | f :: l => let '(jb, e) := frame_deref jb f l in let '(jb, e') := flush_frames l jb in (jb, e ++ e')
  end.

Definition jbuf_flush (jb : jbuf) : jbuf * list ref_event :=
  let '(jb, e) := flush_frames (jb_framel jb) jb in (inc_flush (set_running false (set_n 0 jb)), e).

(** The references the destructor drops; the frames themselves are freed. *)
Definition jbuf_destructor (jb : jbuf) : list ref_event := snd (jbuf_flush jb).

Definition jbuf_stats (jb : jbuf) : jbuf_stat := jb_stat jb.

(** ** What the buffer promises

    The sequence numbers of the packets are 16 bits of numbers that grow without
    end.  The buffer keeps the packets sorted by those numbers; [q_last] is the number of
    the packet put in last. *)
Definition item : Type := Z * (rtp_header * memory).
Definition num (i : item) : Z := fst i.
Definition packet_mem (i : item) : memory := snd (snd i).

Record queue := Queue { q_items : list item; q_last : option Z }.

Definition below (x : Z) (l : list item) : list item := filter (λ i, num i < x) l.
Definition above (x : Z) (l : list item) : list item := filter (λ i, x < num i) l.
Definition has (x : Z) (l : list item) : Prop := x ∈ map num l.
#[export] Instance has_dec x l : Decision (has x l).
Proof. unfold has. apply _. Defined.

Section spec.
Variables (min max : Z).

Definition size (q : queue) : Z := Z.of_nat (length (q_items q)).

(** A packet that would be behind the whole buffer comes too late. *)
Definition late (q : queue) (x : Z) : bool :=
  match q_last q with Some p => bool_decide (x + size q < p) | None => false end.

(** Room is made by dropping the packet with the smallest number. *)
Definition kept (q : queue) : list item := if bool_decide (size q < max) then q_items q else tail (q_items q).
Definition evicted (q : queue) : list ref_event :=
  if bool_decide (size q < max) then [] else match q_items q with [] => [] | i :: _ => mem_deref (packet_mem i) end.

Definition put (q : queue) (x : Z) (hdr : rtp_header) (mem : memory) : Z * queue * list ref_event :=
  if late q x then (ETIMEDOUT, q, [])
  else if bool_decide (has x (kept q)) then (EALREADY, Queue (kept q) (q_last q), evicted q)
  else (0, Queue (below x (kept q) ++ (x, (hdr, mem)) :: above x (kept q)) (Some x), evicted q ++ mem_ref mem).

Definition take_first (q : queue) : Z * option (rtp_header * memory) * queue * list ref_event :=
  match q_items q with
  | i :: items =>
      if bool_decide (size q <= min) then (ENOENT, None, q, [])
      else (0, Some (snd i), Queue items (q_last q), mem_ref (packet_mem i) ++ mem_deref (packet_mem i))
  | [] => (ENOENT, None, q, [])
  end.

Definition flush (q : queue) : queue * list ref_event := (Queue [] None, concat (map (λ i, mem_deref (packet_mem i)) (q_items q))).

(** The numbers are within half the range of a sequence number of each other. *)
Definition in_window (q : queue) (x : Z) : Prop :=
  Forall (λ i, Z.abs (x - num i) < 32768) (q_items q) ∧
  match q_last q with Some p => Z.abs (x + size q - p) < 32768 | None => True end.

(** ** The buffer keeps it *)
Definition frame_of (i : item) : frame := Frame (fst (snd i)) (snd (snd i)).

Record holds (jb : jbuf) (q : queue) : Prop := {
  ho_framel : jb_framel jb = map frame_of (q_items q);
  ho_seq : Forall (λ i, h_seq (fst (snd i)) = u16 (num i)) (q_items q);
  ho_sorted : StronglySorted Z.lt (map num (q_items q));
  ho_n : jb_n jb = size q;
  ho_pool : size q + Z.of_nat (length (jb_pooll jb)) = max;
  ho_free : Forall (λ f, f_mem f = None) (jb_pooll jb);
  ho_max : 0 < max < 2 ^ 32;
  ho_settings : jb_min jb = min ∧ jb_max jb = max;
  ho_last : match q_last q with
            | Some p => jb_running jb = true ∧ jb_seq_put jb = u16 p
            | None => jb_running jb = false
            end
}.

Lemma seq_less_num x y : Z.abs (x - y) < 32768 → seq_less (u16 x) (u16 y) = bool_decide (x < y).
Proof using.
  intros H. unfold seq_less. apply bool_decide_ext. assert (E : s16 (u16 x - u16 y) = x - y); [|rewrite E; lia].
  unfold s16, u16. rewrite <- (Zplus_mod_idemp_l (_ - _)), <- Zminus_mod, Zplus_mod_idemp_l. rewrite Z.mod_small by lia. lia.
Qed.

Lemma u16_num x y : Z.abs (x - y) < 32768 → u16 x = u16 y ↔ x = y.
Proof using.
  intros H. split; [|by intros ->]. unfold u16. intros E. assert (Ed : (x - y) `mod` 65536 = 0) by (rewrite Zminus_mod, E, Z.sub_diag; done).
  apply Z.mod_divide in Ed as [k Ek]; lia.
Qed.
End spec.

Lemma sorted_below x l : StronglySorted Z.lt (map num l) → Forall (λ i, num i < x) l → below x l = l ∧ above x l = [].
Proof.
  intros _ H. unfold below, above. induction H as [|i l Hi _ [IH1 IH2]]; [done|].
  rewrite !filter_cons, decide_True, decide_False by lia. by rewrite IH1, IH2.
Qed.

Lemma sorted_snoc l i : StronglySorted Z.lt (map num (l ++ [i])) → StronglySorted Z.lt (map num l) ∧ Forall (λ j, num j < num i) l.
Proof.
  induction l as [|j l IH]; [by repeat constructor|]. cbn [map Datatypes.app]. intros [Hs Hf]%StronglySorted_inv.
  destruct (IH Hs) as [H1 H2]. rewrite map_app in Hf. apply Forall_app in Hf as [Hf Hi]. apply Forall_inv in Hi. split; [by constructor|by constructor].
Qed.

Lemma place_num x l : StronglySorted Z.lt (map num l) → Forall (λ i, Z.abs (x - num i) < 32768) l → Forall (λ i, h_seq (fst (snd i)) = u16 (num i)) l →
  ∀ after, place (u16 x) (reverse (map frame_of l)) after =
    if bool_decide (has x l) then inl tt else inr (map frame_of (below x l), map frame_of (above x l) ++ after).
Proof.
  induction l as [|i l IH] using rev_ind; intros Hs Hw Hq after; [done|].
  apply sorted_snoc in Hs as [Hs Hi]. apply Forall_app in Hw as [Hw Hwi]. apply Forall_inv in Hwi. apply Forall_app in Hq as [Hq Hqi]. apply Forall_inv in Hqi.
  rewrite map_app, reverse_app. cbn [map reverse]. change (reverse [frame_of i]) with [frame_of i]. cbn [Datatypes.app place].
  change (f_hdr (frame_of i)) with (fst (snd i)). rewrite Hqi, seq_less_num by lia.
  assert (Hhas : has x (l ++ [i]) ↔ has x l ∨ x = num i).
  { unfold has. rewrite map_app. cbn [map]. rewrite elem_of_app, list_elem_of_singleton. done. }
  destruct (decide (num i < x)) as [Hlt|Hge].
  - rewrite bool_decide_eq_true_2 by done. assert (Hall : Forall (λ j, num j < x) l) by (eapply Forall_impl; [exact Hi|]; cbn; lia).
    assert (Hn : ¬ has x l). { unfold has. intros (j & -> & Hj)%list_elem_of_fmap. rewrite Forall_forall in Hall. specialize (Hall j Hj). lia. }
    rewrite bool_decide_eq_false_2 by (rewrite Hhas; intros [?| ->]; [done|lia]).
    destruct (sorted_below x l Hs Hall) as [E1 E2]. unfold below, above in *. rewrite !filter_app, E1, E2, !filter_cons, decide_True, decide_False, !filter_nil by lia.
    cbn [map Datatypes.app]. by rewrite reverse_cons, reverse_involutive, map_app.
  - rewrite bool_decide_eq_false_2 by done. destruct (decide (x = num i)) as [Hx|Hx].
    + rewrite bool_decide_eq_true_2 by (by rewrite Hx). by rewrite bool_decide_eq_true_2 by (rewrite Hhas; auto).
    + rewrite bool_decide_eq_false_2 by (rewrite u16_num by lia; done). rewrite IH by done.
      rewrite (bool_decide_ext (has x (l ++ [i])) (has x l)) by (rewrite Hhas; tauto). case_bool_decide; [done|].
      unfold below, above. rewrite !filter_app, !filter_cons, decide_False, decide_True, !filter_nil by lia. by rewrite app_nil_r, map_app, <- app_assoc.
Qed.

Lemma is_next_num x l : StronglySorted Z.lt (map num l) → Forall (λ i, Z.abs (x - num i) < 32768) l → Forall (λ i, h_seq (fst (snd i)) = u16 (num i)) l →
  is_next (map frame_of l) (u16 x) = true → ¬ has x l ∧ below x l = l ∧ above x l = [].
Proof.
  destruct l as [|i l _] using rev_ind; intros Hs Hw Hq; [by split; [apply not_elem_of_nil|]|].
  apply Forall_app in Hw as [_ Hwi]. apply Forall_inv in Hwi. apply Forall_app in Hq as [_ Hqi]. apply Forall_inv in Hqi.
  unfold is_next. rewrite map_app, reverse_app. cbn [map]. change (reverse [frame_of i]) with [frame_of i]. cbn [Datatypes.app head].
  change (f_hdr (frame_of i)) with (fst (snd i)). rewrite Hqi, seq_less_num by lia. intros Hlt%bool_decide_eq_true_1.
  pose proof Hs as [Hs' Hi]%sorted_snoc. assert (Hall : Forall (λ j, num j < x) (l ++ [i])).
  { apply Forall_app. split; [|by repeat constructor]. eapply Forall_impl; [exact Hi|]. cbn. lia. }
  split; [|by apply sorted_below]. unfold has. intros (j & -> & Hj)%list_elem_of_fmap. rewrite Forall_forall in Hall. specialize (Hall j Hj). lia.
Qed.

Lemma queue_insert_sorted x h m l : StronglySorted Z.lt (map num l) → StronglySorted Z.lt (map num (below x l ++ (x, (h, m)) :: above x l)).
Proof.
  induction l as [|i l IH]; intros Hs; [by repeat constructor|]. cbn [map] in Hs. apply StronglySorted_inv in Hs as [Hs Hf].
  unfold below, above in *. rewrite !filter_cons. specialize (IH Hs).
  assert (Hfa : ∀ (P : item → Prop) `{!∀ i, Decision (P i)}, Forall (Z.lt (num i)) (map num (filter P l))).
  { intros P ?. apply Forall_forall. intros y (j & -> & Hj)%list_elem_of_fmap. apply list_elem_of_filter in Hj as [_ Hj].
    rewrite Forall_forall in Hf. apply Hf. by apply list_elem_of_fmap_2. }
  destruct (decide (num i < x)) as [Hlt|Hge].
  - rewrite (decide_False (P := x < num i)) by lia. cbn [map Datatypes.app]. constructor; [done|]. rewrite map_app. apply Forall_app. split; [apply Hfa; apply _|].
    cbn [map]. constructor; [exact Hlt|apply Hfa; apply _].
  - assert (Ez : filter (λ i, num i < x) l = []).
    { apply filter_none. rewrite Forall_forall. intros j Hj. rewrite Forall_forall in Hf. specialize (Hf (num j) (list_elem_of_fmap_2 _ _ _ Hj)). lia. }
    rewrite Ez in *. cbn [map Datatypes.app] in *. case_decide as Hgt; cbn [map].
    + constructor; [constructor; [by apply StronglySorted_inv in IH as [? _]|apply Hfa; apply _]|].
      constructor; [exact Hgt|]. by apply StronglySorted_inv in IH as [_ ?].
    + done.
Qed.

Lemma insert_length x h m l : StronglySorted Z.lt (map num l) → ¬ has x l → length (below x l ++ (x, (h, m)) :: above x l) = S (length l).
Proof.
  intros _ Hn. rewrite length_app. cbn [length]. unfold below, above. rewrite <- plus_n_Sm. f_equal.
  induction l as [|i l IH]; [done|]. rewrite !filter_cons. assert (Hi : num i ≠ x ∧ ¬ has x l).
  { unfold has in *. cbn [map] in Hn. split; [intros E; apply Hn; rewrite E; by left|intros E; apply Hn; by right]. }
  destruct Hi as [Hi Hl]. specialize (IH Hl). destruct (decide (num i < x)); [rewrite (decide_False (P := x < num i)) by lia|rewrite decide_True by lia]; cbn [length]; lia.
Qed.

Lemma filter_forall (P : item → Prop) `{!∀ i, Decision (P i)} (Q : item → Prop) l : Forall Q l → Forall Q (filter P l).
Proof. rewrite !Forall_forall. intros Hl i [_ Hi]%list_elem_of_filter. by apply Hl. Qed.

Lemma insert_seq x h m l : h_seq h = u16 x → Forall (λ i, h_seq (fst (snd i)) = u16 (num i)) l →
  Forall (λ i, h_seq (fst (snd i)) = u16 (num i)) (below x l ++ (x, (h, m)) :: above x l).
Proof. intros Hh Hl. apply Forall_app. split; [|constructor; [done|]]; by apply filter_forall. Qed.

Section refinement.
Variables (min max : Z).
Local Abbreviation holds := (holds min max).

Lemma frame_alloc_run jb q : holds jb q →
  ∃ f jb', frame_alloc jb = Ret (f, jb', evicted max q) ∧ f_mem f = None ∧
    jb_framel jb' = map frame_of (kept max q) ∧ Z.of_nat (length (kept max q)) + Z.of_nat (length (jb_pooll jb')) + 1 = max ∧
    jb_n jb' = Z.of_nat (length (kept max q)) + 1 ∧ Forall (λ f, f_mem f = None) (jb_pooll jb') ∧
    jb_min jb' = min ∧ jb_max jb' = max ∧ jb_running jb' = jb_running jb ∧ jb_seq_put jb' = jb_seq_put jb ∧ jb_seq_get jb' = jb_seq_get jb.
Proof.
  intros [Hf Hq Hs Hn Hp Hfree Hm [Hmin Hmax] Hl]. unfold frame_alloc, kept, evicted. destruct (jb_pooll jb) as [|f pool] eqn:Ep; cbn [length] in Hp.
  - rewrite !bool_decide_eq_false_2 by lia. rewrite Hf. unfold size in *. destruct (q_items q) as [|i l] eqn:Ei; cbn [map length tail] in *; [lia|].
    eexists _, _. split; [done|]. cbn. rewrite Ep. split_and!; try done; cbn [length]; lia.
  - rewrite !bool_decide_eq_true_2 by lia. eexists _, _. split; [done|]. apply Forall_cons in Hfree as [Hf0 Hfree].
    cbn. rewrite Hn, Hf. unfold size in *. rewrite u32_id by lia. split_and!; try done; lia.
Qed.

Lemma kept_sorted q : StronglySorted Z.lt (map num (q_items q)) → StronglySorted Z.lt (map num (kept max q)).
Proof. unfold kept. case_bool_decide; [done|]. destruct (q_items q); [done|]. cbn [map tail]. by intros [? _]%StronglySorted_inv. Qed.

Lemma kept_forall q (P : item → Prop) : Forall P (q_items q) → Forall P (kept max q).
Proof. unfold kept. case_bool_decide; [done|]. intros HP. destruct (q_items q); [done|]. by apply Forall_inv_tail in HP. Qed.

(** Putting a packet in. *)
Lemma put_run jb q x hdr mem : holds jb q → in_window q x → h_seq hdr = u16 x →
  ∃ jb', jbuf_put jb hdr mem = Ret (fst (fst (put max q x hdr mem)), jb', snd (put max q x hdr mem)) ∧ holds jb' (snd (fst (put max q x hdr mem))).
Proof.
  intros Hh [Hw Hwl] Hseq. unfold jbuf_put, put. rewrite Hseq.
  assert (Hi : holds (inc_put jb) q) by (by destruct Hh).
  assert (Hlate : jb_running (inc_put jb) && seq_less (u16 (u16 x + jb_n (inc_put jb))) (jb_seq_put (inc_put jb)) = late q x).
  { destruct Hi as [_ _ _ -> _ _ _ _ Hl]. unfold late. destruct (q_last q) as [p|]; [|by rewrite Hl]. destruct Hl as [-> ->]. cbn [andb].
    replace (u16 (u16 x + size q)) with (u16 (x + size q)) by (unfold u16; by rewrite Zplus_mod_idemp_l). by apply seq_less_num. }
  rewrite Hlate. destruct (late q x); [eexists; split; [done|by destruct Hi]|].
  destruct (frame_alloc_run _ _ Hi) as (f & jb1 & -> & Hfm & Hfl & Hlen & Hn & Hfree & Hmin & Hmax & Hrun & Hsp & _). cbn [mbind outcome_bind].
  rewrite Hfl. pose proof Hi as [_ Hq Hs _ _ _ Hm _ Hl]. apply kept_sorted in Hs. apply kept_forall in Hq. apply kept_forall in Hw.
  set (l := kept max q) in *.
  assert (Hdone : ∀ jb2, jb_framel jb2 = map frame_of (below x l ++ (x, (hdr, mem)) :: above x l) → ¬ has x l →
    jb_pooll jb2 = jb_pooll jb1 → jb_n jb2 = jb_n jb1 → jb_min jb2 = jb_min jb1 → jb_max jb2 = jb_max jb1 → jb_running jb2 = true → jb_seq_put jb2 = u16 x →
    holds jb2 (Queue (below x l ++ (x, (hdr, mem)) :: above x l) (Some x))).
  { intros jb2 E1 Hnx E2 E3 E4 E5 E6 E7. pose proof (insert_length x hdr mem l Hs Hnx) as El.
    split; cbn [q_items q_last]; unfold size; cbn [q_items]; rewrite ?El, ?E2, ?E3, ?E4, ?E5; try done; try lia; [by apply insert_seq|by apply queue_insert_sorted]. }
  destruct (is_next (map frame_of l) (u16 x)) eqn:En.
  - destruct (is_next_num x l Hs Hw Hq En) as (Hnx & Eb & Ea). rewrite bool_decide_eq_false_2 by done. eexists. split; [done|]. cbn [fst snd]. apply Hdone; try done.
    rewrite Eb, Ea, map_app. done.
  - rewrite place_num by done. case_bool_decide as Hx; rewrite ?app_nil_r.
    + cbn [frame_deref]. rewrite Hfm. cbn [mem_deref]. rewrite app_nil_r. eexists. split; [done|]. cbn [fst snd].
      split; cbn [q_items q_last]; unfold size; cbn; fold l; try done; try lia.
      * rewrite Hn, u32_id by lia. lia.
      * rewrite length_app. cbn [length]. lia.
      * apply Forall_app. by split; [|repeat constructor].
      * destruct (q_last q); [by rewrite Hrun, Hsp|by rewrite Hrun].
    + eexists. split; [done|]. cbn [fst snd]. apply Hdone; try done. by rewrite map_app.
Qed.

Lemma get_run jb q : holds jb q →
  ∃ jb', jbuf_get jb = (fst (fst (fst (take_first min q))), snd (fst (fst (take_first min q))), jb', snd (take_first min q)) ∧
    holds jb' (snd (fst (take_first min q))).
Proof.
  intros Hh. unfold jbuf_get, take_first. assert (Hi : holds (inc_get jb) q) by (by destruct Hh). pose proof Hi as [-> Hq Hs Hn Hp Hfree Hm [Hmin Hmax] Hl].
  destruct (q_items q) as [|i l] eqn:Ei; cbn [map]; [eexists; split; [done|by destruct Hi]|].
  rewrite Hn, Hmin. case_bool_decide; [eexists; split; [done|by destruct Hi]|].
  destruct i as [x [h m]]. apply Forall_cons in Hq as [_ Hq]. cbn [map] in Hs. apply StronglySorted_inv in Hs as [Hs _].
  unfold size in *. rewrite Ei in *. cbn [length] in *.
  destruct (_ && _ && _); (eexists; split; [done|]; cbn [fst snd];
    split; cbn [q_items q_last]; unfold size; cbn; try done; try lia;
    [change (jb_n (inc_get jb)) with (jb_n jb) in Hn; rewrite Hn, u32_id by lia; lia|rewrite length_app; cbn in *; lia|apply Forall_app; by split; [|repeat constructor]]).
Qed.

Lemma flush_frames_run l : ∀ jb, Forall (λ f, f_mem f = None) (jb_pooll jb) →
  ∃ jb', flush_frames (map frame_of l) jb = (jb', concat (map (λ i, mem_deref (packet_mem i)) l)) ∧
    Forall (λ f, f_mem f = None) (jb_pooll jb') ∧ length (jb_pooll jb') = (length (jb_pooll jb) + length l)%nat ∧
    (jb_framel jb = map frame_of l → jb_framel jb' = []) ∧ jb_min jb' = jb_min jb ∧ jb_max jb' = jb_max jb.
Proof.
  induction l as [|i l IH]; intros jb Hfree; [eexists; cbn; split; [done|]; split_and!; try done; lia|]. cbn [map flush_frames frame_deref concat].
  destruct (IH (set_n (u32 (jb_n jb - 1)) (set_pooll (jb_pooll jb ++ [Frame (f_hdr (frame_of i)) None]) (set_framel (map frame_of l) jb))))
    as (jb' & -> & H1 & H2 & H3 & H4 & H5); [apply Forall_app; by split; [|repeat constructor]|].
  eexists. split; [done|]. split; [done|]. cbn in *. rewrite length_app in H2. cbn [length] in *. split; [lia|]. split; [by intros _; apply H3|done].
Qed.

Lemma flush_run jb q : holds jb q → ∃ jb', jbuf_flush jb = (jb', snd (flush q)) ∧ holds jb' (fst (flush q)).
Proof.
  intros [Hf Hq Hs Hn Hp Hfree Hm [Hmin Hmax] Hl]. unfold jbuf_flush. rewrite Hf.
  destruct (flush_frames_run (q_items q) jb Hfree) as (jb' & -> & H1 & H2 & H3 & H4 & H5). eexists. split; [done|].
  split; cbn; try done; [by rewrite H3|by constructor|unfold size in *; cbn; lia|by rewrite H4, H5].
Qed.
End refinement.

(** ** Any sequence of operations *)

Inductive op := OpPut (x : Z) (hdr : rtp_header) (mem : memory) | OpGet | OpFlush.
Definition result : Type := Z * option (rtp_header * memory).

Definition step (jb : jbuf) (o : op) : outcome (result * jbuf * list ref_event) :=
  match o with
  | OpPut _ hdr mem => r ← jbuf_put jb hdr mem; let '(e, jb, ev) := r in Ret ((e, None), jb, ev)
  | OpGet => let '(e, p, jb, ev) := jbuf_get jb in Ret ((e, p), jb, ev)
  | OpFlush => let '(jb, ev) := jbuf_flush jb in Ret ((0, None), jb, ev)
  end.

Fixpoint run (jb : jbuf) (l : list op) : outcome (list result * jbuf * list ref_event) :=
  match l with
  | [] => Ret ([], jb, [])
  | o :: l =>
      r ← step jb o;
      let '(x, jb, ev) := r in
      r ← run jb l;
      let '(xs, jb, ev') := r in
      Ret (x :: xs, jb, ev ++ ev')
  end.

Section runs.
Variables (min max : Z).

Definition queue_step (q : queue) (o : op) : result * queue * list ref_event :=
  match o with
  | OpPut x hdr mem => let '(e, q, ev) := put max q x hdr mem in ((e, None), q, ev)
  | OpGet => let '(e, p, q, ev) := take_first min q in ((e, p), q, ev)
  | OpFlush => let '(q, ev) := flush q in ((0, None), q, ev)
  end.

Fixpoint queue_run (q : queue) (l : list op) : list result * queue * list ref_event :=
  match l with
  | [] => ([], q, [])
  | o :: l => let '(x, q, ev) := queue_step q o in let '(xs, q, ev') := queue_run q l in (x :: xs, q, ev ++ ev')
  end.

(** Every packet that is put in is numbered, near those in the buffer. *)
Definition allowed (q : queue) (o : op) : Prop :=
  match o with OpPut x hdr _ => in_window q x ∧ h_seq hdr = u16 x | _ => True end.
Fixpoint all_allowed (q : queue) (l : list op) : Prop :=
  match l with [] => True | o :: l => allowed q o ∧ all_allowed (snd (fst (queue_step q o))) l end.

Lemma step_run jb q o : holds min max jb q → allowed q o →
  ∃ jb', step jb o = Ret (fst (fst (queue_step q o)), jb', snd (queue_step q o)) ∧ holds min max jb' (snd (fst (queue_step q o))).
Proof.
  intros Hh Ho. destruct o as [x hdr mem| |]; cbn [step queue_step].
  - destruct Ho as [Hw Hs]. destruct (put_run min max jb q x hdr mem Hh Hw Hs) as (jb' & -> & Hh'). cbn [mbind outcome_bind].
    destruct (put max q x hdr mem) as [[e q'] ev]. by eexists.
  - destruct (get_run min max jb q Hh) as (jb' & -> & Hh'). destruct (take_first min q) as [[[e p] q'] ev]. by eexists.
  - destruct (flush_run min max jb q Hh) as (jb' & -> & Hh'). destruct (flush q) as [q' ev]. by eexists.
Qed.

Lemma run_run l : ∀ jb q, holds min max jb q → all_allowed q l →
  ∃ jb', run jb l = Ret (fst (fst (queue_run q l)), jb', snd (queue_run q l)) ∧ holds min max jb' (snd (fst (queue_run q l))).
Proof.
  induction l as [|o l IH]; intros jb q Hh Ha; [by eexists|]. destruct Ha as [Ho Ha]. cbn [run queue_run].
  destruct (step_run jb q o Hh Ho) as (jb1 & -> & Hh1). cbn [mbind outcome_bind]. destruct (queue_step q o) as [[x q1] ev]. cbn [fst snd] in *.
  destruct (IH jb1 q1 Hh1 Ha) as (jb2 & -> & Hh2). cbn [mbind outcome_bind]. destruct (queue_run q1 l) as [[xs q2] ev2]. by eexists.
Qed.

End runs.

(** *** References *)
Definition balance (m : positive) (ev : list ref_event) : Z :=
  Z.of_nat (length (filter (λ e, e = MemRef m) ev)) - Z.of_nat (length (filter (λ e, e = MemDeref m) ev)).

Definition times (m : positive) (l : list memory) : Z := Z.of_nat (length (filter (λ x, x = Some m) l)).
Definition held (m : positive) (l : list item) : Z := times m (map packet_mem l).
Definition handed (m : positive) (l : list result) : Z := times m (map (λ r : result, match snd r with Some (_, x) => x | None => None end) l).

Lemma balance_app m a b : balance m (a ++ b) = balance m a + balance m b.
Proof. unfold balance. rewrite !filter_app, !length_app. lia. Qed.

Lemma times_app m a b : times m (a ++ b) = times m a + times m b.
Proof. unfold times. rewrite filter_app, length_app. by rewrite Nat2Z.inj_add. Qed.

Lemma times_cons m x l : times m (x :: l) = times m [x] + times m l.
Proof. exact (times_app m [x] l). Qed.

Lemma balance_ref m x : balance m (mem_ref x) = times m [x] ∧ balance m (mem_deref x) = - times m [x].
Proof.
  unfold balance, times. destruct x as [n|]; [|done]. cbn [mem_ref mem_deref]. rewrite !filter_cons, !filter_nil.
  repeat case_decide; simplify_eq; cbn [length]; done.
Qed.

Lemma held_split m x l : StronglySorted Z.lt (map num l) → ¬ has x l → held m (below x l) + held m (above x l) = held m l.
Proof.
  intros _ Hn. unfold held. induction l as [|i l IH]; [done|].
  assert (Hi : num i ≠ x ∧ ¬ has x l).
  { unfold has in *. cbn [map] in Hn. split; [intros E; apply Hn; rewrite E; by left|intros E; apply Hn; by right]. }
  destruct Hi as [Hi Hl]. specialize (IH Hl). unfold below, above in *. rewrite !filter_cons.
  destruct (decide (num i < x)); [rewrite (decide_False (P := x < num i)) by lia|rewrite (decide_True (P := x < num i)) by lia];
    pose proof (times_cons m (packet_mem i)) as Hc; set (t := times m [packet_mem i]) in *; clearbody t; cbn [map]; rewrite !Hc; lia.
Qed.

Section balances.
Variables (min max : Z) (m : positive).

Lemma kept_balance q : balance m (evicted max q) + held m (q_items q) = held m (kept max q).
Proof.
  unfold evicted, kept. case_bool_decide; [done|]. destruct (q_items q) as [|i l]; [done|]. cbn [tail].
  destruct (balance_ref m (packet_mem i)) as [_ ->]. unfold held. cbn [map]. rewrite (times_cons m _ (map packet_mem l)). lia.
Qed.

Lemma flush_balance l : balance m (concat (map (λ i, mem_deref (packet_mem i)) l)) + held m l = 0.
Proof.
  unfold held. induction l as [|i l IH]; [done|]. cbn [map concat]. rewrite balance_app, (times_cons m _ (map packet_mem l)).
  destruct (balance_ref m (packet_mem i)) as [_ ->]. lia.
Qed.

Lemma step_balance q o : StronglySorted Z.lt (map num (q_items q)) →
  let '(x, q', ev) := queue_step min max q o in balance m ev + held m (q_items q) = held m (q_items q') + handed m [x].
Proof.
  intros Hs. destruct o as [x hdr mem| |]; cbn [queue_step].
  - unfold put. destruct (late q x); [change (0 + held m (q_items q) = held m (q_items q) + 0); lia|]. pose proof (kept_balance q) as Hk. case_bool_decide as Hx; cbn [q_items].
    + change (handed m [(EALREADY, None)]) with 0. lia.
    + change (handed m [(0, None)]) with 0. rewrite balance_app. destruct (balance_ref m mem) as [-> _].
      pose proof (held_split m x (kept max q) (kept_sorted max q Hs) Hx) as Hsp. unfold held in *. rewrite map_app, times_app. cbn [map].
      rewrite (times_cons m _ (map packet_mem (above _ _))). change (packet_mem (x, (hdr, mem))) with mem. lia.
  - unfold take_first. destruct (q_items q) as [|i l] eqn:Ei; [rewrite Ei; done|]. case_bool_decide; [rewrite Ei; change (0 + held m (i :: l) = held m (i :: l) + 0); lia|]. cbn [q_items].
    rewrite balance_app. destruct (balance_ref m (packet_mem i)) as [-> ->]. destruct i as [x [h mem]]. unfold held, handed. cbn [map snd].
    rewrite (times_cons m _ (map packet_mem l)). change (packet_mem (x, (h, mem))) with mem. lia.
  - unfold flush. cbn [q_items]. rewrite flush_balance. done.
Qed.

Lemma queue_sorted q o : StronglySorted Z.lt (map num (q_items q)) → StronglySorted Z.lt (map num (q_items (snd (fst (queue_step min max q o))))).
Proof.
  intros Hs. destruct o as [x hdr mem| |]; cbn [queue_step].
  - unfold put. destruct (late q x); [done|]. case_bool_decide; cbn [fst snd q_items]; [by apply kept_sorted|]. by apply queue_insert_sorted, kept_sorted.
  - unfold take_first. destruct (q_items q) as [|i l] eqn:Ei; [cbn [fst snd]; rewrite Ei; constructor|]. case_bool_decide; cbn [fst snd q_items]; [by rewrite Ei|].
    cbn [map] in Hs. by apply StronglySorted_inv in Hs as [? _].
  - constructor.
Qed.

Lemma run_balance l : ∀ q, StronglySorted Z.lt (map num (q_items q)) →
  balance m (snd (queue_run min max q l)) + held m (q_items q) =
    held m (q_items (snd (fst (queue_run min max q l)))) + handed m (fst (fst (queue_run min max q l))).
Proof.
  induction l as [|o l IH]; intros q Hs; [change (0 + held m (q_items q) = held m (q_items q) + 0); lia|]. cbn [queue_run]. pose proof (step_balance q o Hs) as H1. pose proof (queue_sorted q o Hs) as Hs'.
  destruct (queue_step min max q o) as [[x q1] ev]. cbn [fst snd] in *. specialize (IH q1 Hs'). destruct (queue_run min max q1 l) as [[xs q2] ev2]. cbn [fst snd] in *.
  rewrite balance_app. unfold handed in *. cbn [map]. rewrite (times_cons m _ (map _ xs)). cbn [map] in H1. lia.
Qed.
End balances.

(** C24: the jitter buffer is a queue of bounded size sorted by the full numbers of
    its packets.  Whatever is put, taken and flushed, in any order, it
    returns what the queue does: a packet is refused if it is there already or
    behind the whole buffer, put in its place otherwise, the packet with the smallest number
    is dropped when the buffer is full and handed out when more than the minimum are
    there.  And every packet in the buffer and every packet handed out
    has exactly one reference. *)
Theorem jbuf_refines min max l :
  0 ≤ min ≤ max → 0 < max < 2 ^ 32 → all_allowed min max (Queue [] None) l →
  ∃ jb jb' xs q ev, jbuf_alloc true (λ _, true) min max = (0, Some jb) ∧
    queue_run min max (Queue [] None) l = (xs, q, ev) ∧ run jb l = Ret (xs, jb', ev) ∧
    jb_framel jb' = map frame_of (q_items q) ∧ StronglySorted Z.lt (map num (q_items q)) ∧ size q ≤ max ∧
    ∀ m, balance m ev = held m (q_items q) + handed m xs.
Proof.
  intros Hmin Hmax Ha. set (jb := Jbuf (replicate (Z.to_nat max) frame_zero) [] 0 min max 0 false 0 (JbufStat 0 0 0 0 0 0 0 0 0)).
  assert (Hh : holds min max jb (Queue [] None)).
  { split; cbn; try done; try lia; [by constructor|unfold size; cbn; rewrite length_replicate; lia|by apply Forall_replicate]. }
  destruct (run_run min max l jb _ Hh Ha) as (jb' & E & Hh'). destruct (queue_run min max (Queue [] None) l) as [[xs q] ev] eqn:Eq. cbn [fst snd] in *.
  exists jb, jb', xs, q, ev. split.
  { unfold jbuf_alloc. rewrite bool_decide_eq_false_2 by lia. change (negb (seq_less 10 20) || seq_less 20 10 || negb (seq_less 65535 0)) with false.
    cbn [negb]. assert (Hf : ∀ n k, forallb (λ _, true) (seq n k) = true) by (intros n k; revert n; induction k; intros; cbn; auto). by rewrite Hf. }
  split; [done|]. split; [done|]. pose proof Hh' as [Hf _ Hs _ Hp _ _ _ _]. split; [done|]. split; [done|]. split; [lia|].
  intros m. pose proof (run_balance min max m l (Queue [] None) ltac:(constructor)) as Hb. rewrite Eq in Hb. cbn [fst snd q_items] in Hb.
  change (held m []) with 0 in Hb. lia.
Qed.

(** Without a frame the buffer cannot take a packet: [jbuf_alloc] allows it. *)
Example empty_pool hdr mem : ∃ jb, jbuf_alloc true (λ _, true) 0 0 = (0, Some jb) ∧ jbuf_put jb hdr mem = Fault NullDeref.
Proof. by eexists. Qed.

#[export] Instance in_window_dec q x : Decision (in_window q x).
Proof. unfold in_window. destruct (q_last q); apply _. Defined.
#[export] Instance allowed_dec q o : Decision (allowed q o).
Proof. destruct o; apply _. Defined.
#[export] Instance all_allowed_dec min max l : ∀ q, Decision (all_allowed min max q l).
Proof. induction l as [|o l IH]; intros q; [by left|]. cbn [all_allowed]. apply _. Defined.

Definition demo_rtp (seq : Z) : rtp_header := RtpHeader 2 false false 0 false 0 seq 0 0 [] 0 0.
Definition demo_ops : list op :=
  [OpPut 65534 (demo_rtp 65534) (Some 1%positive); OpPut 65537 (demo_rtp 1) (Some 2%positive); OpPut 65535 (demo_rtp 65535) (Some 3%positive);
   OpPut 65535 (demo_rtp 65535) (Some 4%positive); OpGet; OpGet; OpGet].

Lemma jbuf_refines_witness :
  ∃ jb jb' ev, jbuf_alloc true (λ _, true) 1 3 = (0, Some jb) ∧
    run jb demo_ops = Ret ([(0, None); (0, None); (0, None); (EALREADY, None); (0, Some (demo_rtp 65535, Some 3%positive)); (ENOENT, None); (ENOENT, None)], jb', ev).
Proof.
  destruct (jbuf_refines 1 3 demo_ops) as (jb & jb' & xs & q & ev & E1 & E2 & E3 & _).
  - lia.
  - lia.
  - apply (bool_decide_eq_true_1 _). vm_compute. reflexivity.
  - exists jb, jb', ev. split; [exact E1|]. rewrite E3. do 3 f_equal. assert (Ex : xs = fst (fst (queue_run 1 3 (Queue [] None) demo_ops))) by (rewrite E2; reflexivity).
    rewrite Ex. vm_compute. reflexivity.
Defined.
