(* ===== verification/Db.v ===== *)
(** * The database queue (src/db.c, src/db.h)

    SQL text is queued by the main thread ([db_exec]) and executed by the
    database thread ([db_sync]), which also repairs the connection.  MySQL is
    the environment: the state keeps the history of the calls made to it, and
    whether a call succeeds, and with which rows, is a function of that
    history.  The connection handle is NULL, open, or closed; using a closed
    one is a use after free. *)
From stdpp Require Import base tactics list numbers strings option sets.
From S2P Require Import Prelude Mbuf Fmt Print.

(** A row of a result: NULL fields are [None]. *)
Definition row := list (option (list Z)).

Inductive event :=
  | EvInit
  | EvConnect (host user pass db : list Z)
  | EvClose
  | EvQuery (sql : list Z)
  | EvStore.

#[export] Instance event_eq_dec : EqDecision event.
Proof. solve_decision. Defined.

Inductive handle := HNull | HOpen | HClosed.

#[export] Instance handle_eq_dec : EqDecision handle.
Proof. solve_decision. Defined.

Record db_config := DbConfig { c_user : pl; c_pass : pl; c_host : pl; c_db : pl }.

(** [struct db_con] with the static [sqllist], oldest query first, and the
    history of MySQL calls, latest first. *)
Record dbstate := Dbs {
  sqllist : list (list Z);
  con : handle;
  config : option db_config;
  trace : list event
}.

(** What the functions of db.c use of their environment. *)
Class mysql := Mysql {
  mem : allocator;
  succeeds : list event → bool;
  stored : list event → option (list row)
}.

(** [mem_zalloc (sizeof (struct sqlquery))]. *)
Definition SQLQUERY_SIZE : Z := 40.

Section db.
Context `{M : mysql}.

Definition set_con (h : handle) (s : dbstate) : dbstate := Dbs (sqllist s) h (config s) (trace s).
Definition set_sqllist (l : list (list Z)) (s : dbstate) : dbstate := Dbs l (con s) (config s) (trace s).

Definition call_mysql (e : event) : prog dbstate bool := λ s,
  let t := e :: trace s in Ret (succeeds t, Dbs (sqllist s) (con s) (config s) t).

(** A library call on the connection handle. *)
Definition on_handle (e : event) : prog dbstate bool := λ s,
  match con s with
  | HNull => Fault NullDeref
  | HClosed => Fault UseAfterFree
  | HOpen => call_mysql e s
  end.

(** [mysql_query]: true is its 0. *)
Definition mysql_query (sql : list Z) : prog dbstate bool := on_handle (EvQuery sql).

Definition mysql_store_result : prog dbstate (option (list row)) :=
  on_handle EvStore;; gets (λ s, stored (trace s)).

(** One of the four credentials: [pl_strdup] into a variable that a failure
    leaves uninitialised. *)
Definition strdup_cred (p : pl) : prog dbstate (list Z) := λ s,
  match pl_strdup mem p with
  | Ret (_, Some t) => Ret (t, s)
  | Ret (_, None) => Fault Uninit
  | Fault f => Fault f
  end.

(** The common part of [db_connect] and [db_reconnect]: the connection handle
    is the one [mysql_init] returned, closed again when connecting fails. *)
Definition open_connection (c : db_config) : prog dbstate bool :=
  user ← strdup_cred (c_user c);
  pass ← strdup_cred (c_pass c);
  db ← strdup_cred (c_db c);
  host ← strdup_cred (c_host c);
  ok ← call_mysql EvInit;
  if negb ok then modify (set_con HNull);; mret false
  else
    modify (set_con HOpen);;
    ok ← on_handle (EvConnect host user pass db);
    if ok : bool then mret true
    else on_handle EvClose;; modify (set_con HClosed);; mret false.

(** [db_connect]: the caller's object is set only when it succeeds. *)
Definition db_connect (c : db_config) : prog dbstate bool :=
  old ← get;
  ok ← open_connection c;
  if ok : bool then modify (λ s, Dbs [] (con s) (Some c) (trace s));; mret true
  else modify (set_con (con old));; mret false.

Definition db_reconnect : prog dbstate bool :=
  s ← get;
  c ← deref_opt NullDeref (config s);
  open_connection c.

(** The text of a query: [re_vsdprintf], whose result is used unchecked by
    every function but [db_exec]. *)
Definition sql_text (fmt : list Z) (args : list varg) : outcome (Z * option (list Z)) :=
  re_vsdprintf mem no_handler 1 fmt args.

Definition sql_text_unchecked (fmt : list Z) (args : list varg) : prog dbstate (list Z) := λ s,
  match sql_text fmt args with
  | Ret (_, Some t) => Ret (t, s)
  | Ret (_, None) => Fault Uninit
  | Fault f => Fault f
  end.

Definition get_results (fmt : list Z) (args : list varg) : prog dbstate (option (list row)) :=
  sql ← sql_text_unchecked fmt args;
  ok ← mysql_query sql;
  if negb ok then mret None else mysql_store_result.

(** [db_exec]: the result is the error as a C [bool]. *)
Definition db_exec (fmt : list Z) (args : list varg) : prog dbstate bool := λ s,
  match sql_text fmt args with
  | Fault f => Fault f
  | Ret (err, t) =>
      if bool_decide (err = 0) then
        match t with
        | Some t =>
            if alloc_ok mem SQLQUERY_SIZE then Ret (false, set_sqllist (sqllist s ++ [t]) s)
            else Fault NullDeref
        | None => Fault Uninit
        end
      else Ret (true, s)
  end.

Definition db_real_exec (fmt : list Z) (args : list varg) : prog dbstate bool :=
  sql ← sql_text_unchecked fmt args;
  mysql_query sql.

(** [get_field]: the value the caller's [pl] is set to, when there is one. *)
Definition get_field (field : nat) (val : pl) (fmt : list Z) (args : list varg) : prog dbstate (bool * pl) :=
  sql ← sql_text_unchecked fmt args;
  ok ← mysql_query sql;
  if negb ok then mret (false, val)
  else
    res ← mysql_store_result;
    match res with
    | Some (r :: _) =>
        v ← deref_opt OutOfBounds (r !! field);
        mret (true, pl_set_str val v)
    | _ => mret (true, val)
    end.

(** The [while] loop of [db_sync]: errors of the queries are only printed. *)
Fixpoint sync_loop (queries : list (list Z)) : prog dbstate unit :=
  match queries with
  | [] => skip
  | sql :: rest => mysql_query sql;; sync_loop rest
  end.

Definition probe : list Z := bytes_of "SELECT 1".

Definition db_sync : prog dbstate unit :=
  s ← get;
  let queries := sqllist s in
  modify (set_sqllist []);;
  ok ← mysql_query probe;
  alive ← (if negb ok then
             on_handle EvClose;;
             modify (set_con HNull);;
             db_reconnect
           else mysql_store_result;; mret true);
  if alive : bool then sync_loop queries else skip.

(** [db_destructor]: closes the connection and drops the queue. *)
Definition db_destructor : prog dbstate unit :=
  on_handle EvClose;; modify (λ s, Dbs [] HClosed None (trace s)).
End db.

(** ** Lemmas *)

Ltac drun := erewrite prog_bind_step by done; cbn [negb].

(** The statements of a history that were handed to the server, in their order:
    every query but the probes of [db_sync]. *)
Definition user_query (e : event) : option (list Z) :=
  match e with EvQuery sql => if bool_decide (sql = probe) then None else Some sql | _ => None end.
Definition attempted (t : list event) : list (list Z) := reverse (omap user_query t).

Lemma attempted_app t1 t2 : attempted (t1 ++ t2) = attempted t2 ++ attempted t1.
Proof. unfold attempted. by rewrite omap_app, reverse_app. Qed.

Lemma attempted_queries qs : probe ∉ qs → attempted (map EvQuery (reverse qs)) = qs.
Proof.
  intros Hp. unfold attempted. rewrite <- (reverse_involutive qs) at 2. f_equal.
  assert (Hr : probe ∉ reverse qs) by (by rewrite elem_of_reverse). clear Hp. revert Hr.
  generalize (reverse qs) as l. intros l Hr. induction l as [|q l IH]; [done|]. simpl.
  apply not_elem_of_cons in Hr as [Hq Hl]. rewrite bool_decide_eq_false_2 by congruence.
  f_equal. auto.
Qed.

(** Those of them whose query succeeded. *)
Fixpoint effected `{mysql} (t : list event) : list (list Z) :=
  match t with
  | [] => []
  | e :: t' => effected t' ++ match user_query e with Some sql => if succeeds t then [sql] else [] | None => [] end
  end.

(** The statements that were handed over and failed. *)
Fixpoint dropped `{mysql} (t : list event) : list (list Z) :=
  match t with
  | [] => []
  | e :: t' => dropped t' ++ match user_query e with Some sql => if succeeds t then [] else [sql] | None => [] end
  end.

Lemma attempted_cons e t : attempted (e :: t) = attempted t ++ match user_query e with Some sql => [sql] | None => [] end.
Proof. unfold attempted. cbn [omap list_omap]. destruct (user_query e); [by rewrite reverse_cons|by rewrite app_nil_r]. Qed.

Lemma attempted_split `{mysql} t : Permutation (attempted t) (effected t ++ dropped t) ∧ sublist (effected t) (attempted t).
Proof.
  induction t as [|e t [IHp IHs]]; [done|]. rewrite attempted_cons. cbn [effected dropped].
  destruct (user_query e) as [sql|]; [|by rewrite !app_nil_r]. destruct (succeeds (e :: t)).
  - rewrite app_nil_r. split; [|by apply sublist_app]. rewrite IHp, <- !app_assoc. by rewrite (Permutation_app_comm (dropped t)).
  - rewrite app_nil_r. split; [by rewrite IHp, <- app_assoc|]. by apply sublist_inserts_r.
Qed.

Lemma effected_all `{mysql} t : (∀ sql t, sql ≠ probe → succeeds (EvQuery sql :: t) = true) → effected t = attempted t.
Proof.
  intros Hok. induction t as [|e t IH]; [done|]. rewrite attempted_cons. cbn [effected]. rewrite IH.
  destruct e as [| | |sql|]; try done. cbn [user_query]. case_bool_decide; [done|]. by rewrite Hok.
Qed.

Section lemmas.
Context `{M : mysql}.

Lemma on_handle_open e s :
  con s = HOpen →
  on_handle e s = Ret (succeeds (e :: trace s), Dbs (sqllist s) HOpen (config s) (e :: trace s)).
Proof. intros H. unfold on_handle, call_mysql. by rewrite H. Qed.

Lemma sync_loop_run qs s :
  con s = HOpen →
  sync_loop qs s = Ret (tt, Dbs (sqllist s) HOpen (config s) (map EvQuery (reverse qs) ++ trace s)).
Proof.
  revert s. induction qs as [|q qs IH]; intros s Hs; simpl; [destruct s; simpl in *; by subst|].
  erewrite prog_bind_step by (by apply on_handle_open). rewrite IH by done. simpl.
  by rewrite reverse_cons, map_app, <- app_assoc.
Qed.

(** Credentials that can be copied, and their copies. *)
Record creds_ok (c : db_config) (user pass db host : list Z) : Prop := {
  user_ok : pl_strdup mem (c_user c) = Ret (0, Some user);
  pass_ok : pl_strdup mem (c_pass c) = Ret (0, Some pass);
  db_ok : pl_strdup mem (c_db c) = Ret (0, Some db);
  host_ok : pl_strdup mem (c_host c) = Ret (0, Some host);
}.

Lemma strdup_cred_run p t s : pl_strdup mem p = Ret (0, Some t) → strdup_cred p s = Ret (t, s).
Proof. unfold strdup_cred. by intros ->. Qed.

Lemma open_connection_run c user pass db host s :
  creds_ok c user pass db host →
  open_connection c s =
    let t1 := EvInit :: trace s in
    let t2 := EvConnect host user pass db :: t1 in
    if negb (succeeds t1) then Ret (false, Dbs (sqllist s) HNull (config s) t1)
    else if succeeds t2 then Ret (true, Dbs (sqllist s) HOpen (config s) t2)
    else Ret (false, Dbs (sqllist s) HClosed (config s) (EvClose :: t2)).
Proof.
  intros [Hu Hp Hd Hh]. unfold open_connection.
  do 4 erewrite prog_bind_step by (by apply strdup_cred_run).
  drun. cbv zeta. destruct (succeeds (EvInit :: trace s)); cbn [negb]; [|by drun].
  drun. erewrite prog_bind_step by (by apply on_handle_open). cbn [trace set_con].
  destruct (succeeds (EvConnect host user pass db :: EvInit :: trace s)); [done|].
  erewrite prog_bind_step by (by apply on_handle_open). by drun.
Qed.

Lemma mysql_store_result_run s :
  con s = HOpen →
  mysql_store_result s = Ret (stored (EvStore :: trace s), Dbs (sqllist s) HOpen (config s) (EvStore :: trace s)).
Proof. intros H. unfold mysql_store_result. by erewrite prog_bind_step by (by apply on_handle_open). Qed.

(** The probe succeeds: the queue is executed on the open connection. *)
Lemma db_sync_alive s :
  con s = HOpen → succeeds (EvQuery probe :: trace s) = true →
  db_sync s = Ret (tt, Dbs [] HOpen (config s)
    (map EvQuery (reverse (sqllist s)) ++ EvStore :: EvQuery probe :: trace s)).
Proof.
  intros Hs Hok. unfold db_sync. do 2 drun.
  erewrite prog_bind_step by (by apply on_handle_open). cbn [trace set_sqllist]. rewrite Hok. cbn [negb].
  erewrite prog_bind_step.
  2: { erewrite prog_bind_step by (by apply mysql_store_result_run). done. }
  cbn beta iota. by rewrite sync_loop_run.
Qed.

(** The probe fails: the connection is opened again, or the queue is lost. *)
Lemma db_sync_dead c user pass db host s :
  con s = HOpen → succeeds (EvQuery probe :: trace s) = false →
  config s = Some c → creds_ok c user pass db host →
  let t1 := EvInit :: EvClose :: EvQuery probe :: trace s in
  let t2 := EvConnect host user pass db :: t1 in
  db_sync s = Ret (tt,
    if negb (succeeds t1) then Dbs [] HNull (config s) t1
    else if succeeds t2 then Dbs [] HOpen (config s) (map EvQuery (reverse (sqllist s)) ++ t2)
    else Dbs [] HClosed (config s) (EvClose :: t2)).
Proof.
  intros Hs Hok Hc Hcr. cbv zeta. unfold db_sync. do 2 drun.
  erewrite prog_bind_step by (by apply on_handle_open). cbn [trace set_sqllist]. rewrite Hok. cbn [negb].
  set (s1 := Dbs _ _ _ _).
  assert (E : (on_handle EvClose;; modify (set_con HNull);; db_reconnect) s1 =
    open_connection c (Dbs [] HNull (config s) (EvClose :: EvQuery probe :: trace s))).
  { erewrite prog_bind_step by (by apply on_handle_open). drun. unfold db_reconnect. drun.
    erewrite prog_bind_step; [done|]. unfold deref_opt. simpl. by rewrite Hc. }
  unfold mbind, prog_bind. unfold mbind, prog_bind in E. rewrite E.
  rewrite (open_connection_run c user pass db host) by done. cbv zeta. cbn [trace sqllist config].
  destruct (succeeds (EvInit :: _)); cbn [negb]; [|done].
  destruct (succeeds (EvConnect _ _ _ _ :: _)); [|done]. by rewrite sync_loop_run.
Qed.

Lemma db_exec_run fmt args t s :
  sql_text fmt args = Ret (0, Some t) → alloc_ok mem SQLQUERY_SIZE = true →
  db_exec fmt args s = Ret (false, set_sqllist (sqllist s ++ [t]) s).
Proof. intros E Ha. unfold db_exec. by rewrite E, bool_decide_eq_true_2, Ha by done. Qed.
End lemmas.

(** ** Schedules of the two threads *)

(** What the main thread and the database thread do to the queue, one at a
    time: both hold [gMutex] where they touch it. *)
Inductive op := OExec (fmt : list Z) (args : list varg) | OSync.

Section schedule.
Context `{M : mysql}.

Fixpoint run_ops (ops : list op) : prog dbstate unit :=
  match ops with
  | [] => skip
  | OExec fmt args :: rest => db_exec fmt args;; run_ops rest
  | OSync :: rest => db_sync;; run_ops rest
  end.

(** The texts a schedule queues. *)
Definition op_text (o : op) : option (list Z) :=
  match o with
  | OExec fmt args => match sql_text fmt args with Ret (0, t) => t | _ => None end
  | OSync => None
  end.

Definition op_ok (o : op) : Prop :=
  match o with
  | OExec fmt args => ∃ t, sql_text fmt args = Ret (0, Some t) ∧ t ≠ probe
  | OSync => True
  end.

Lemma queue_fifo_run c user pass db host ops s :
  (∀ t, succeeds (EvInit :: t) = true ∧ succeeds (EvConnect host user pass db :: t) = true) →
  alloc_ok mem SQLQUERY_SIZE = true →
  creds_ok c user pass db host → config s = Some c → con s = HOpen →
  Forall op_ok ops → probe ∉ sqllist s →
  ∃ s', run_ops ops s = Ret (tt, s') ∧ con s' = HOpen ∧
    attempted (trace s') ++ sqllist s' = attempted (trace s) ++ sqllist s ++ omap op_text ops.
Proof.
  intros Hnet Ha Hcr. revert s. induction ops as [|o ops IH]; intros s Hc Hs Hops Hq; simpl.
  { exists s. by rewrite app_nil_r. }
  inversion Hops as [|o' ops' Ho Hops']; subst. destruct o as [fmt args|]; simpl in Ho.
  - destruct Ho as (t & Et & Ht). erewrite prog_bind_step by (by apply db_exec_run).
    destruct (IH (set_sqllist (sqllist s ++ [t]) s)) as (s' & E & Hs' & Hx); [done..| |].
    { simpl. set_solver. }
    exists s'. split_and!; [done|done|]. rewrite Hx.
    cbn [omap list_omap op_text]. rewrite Et. simpl. by rewrite <- app_assoc.
  - destruct (succeeds (EvQuery probe :: trace s)) eqn:Ep.
    + erewrite prog_bind_step by (by apply db_sync_alive).
      edestruct (IH (Dbs [] HOpen (config s)
        (map EvQuery (reverse (sqllist s)) ++ EvStore :: EvQuery probe :: trace s)))
        as (s' & E & Hs' & Hx); [done..|simpl; set_solver|].
      exists s'. split_and!; [done|done|]. rewrite Hx. cbn [trace sqllist].
      by rewrite attempted_app, attempted_queries, <- app_assoc by done.
    + erewrite prog_bind_step by (by eapply db_sync_dead).
      destruct (Hnet (EvClose :: EvQuery probe :: trace s)) as [-> _]. cbn [negb].
      destruct (Hnet (EvInit :: EvClose :: EvQuery probe :: trace s)) as [_ ->].
      edestruct (IH (Dbs [] HOpen (config s) (map EvQuery (reverse (sqllist s)) ++
        EvConnect host user pass db :: EvInit :: EvClose :: EvQuery probe :: trace s)))
        as (s' & E & Hs' & Hx); [done..|simpl; set_solver|].
      exists s'. split_and!; [done|done|]. rewrite Hx. cbn [trace sqllist].
      by rewrite attempted_app, attempted_queries, <- app_assoc by done.
Qed.

(** C32: however the queueing of statements by the main thread and the syncs of
    the database thread interleave, and however often the connection drops,
    as long as it can be opened again every statement is handed to the server
    exactly once and in its order: the statements handed over so far followed by
    those still queued are exactly the ones queued, and the connection stays
    usable.  A statement takes effect if its one query succeeds: those that took
    effect are a part of those handed over, in the same order, and the others,
    whose query failed, are dropped and not tried again.  Where the server
    refuses no statement, and only probes find the connection gone, all that was
    queued takes effect, in its order. *)
Theorem db_queue_fifo c user pass db host ops s :
  (∀ t, succeeds (EvInit :: t) = true ∧ succeeds (EvConnect host user pass db :: t) = true) →
  alloc_ok mem SQLQUERY_SIZE = true →
  creds_ok c user pass db host → config s = Some c → con s = HOpen →
  Forall op_ok ops → probe ∉ sqllist s →
  ∃ s', run_ops ops s = Ret (tt, s') ∧ con s' = HOpen ∧
    attempted (trace s') ++ sqllist s' = attempted (trace s) ++ sqllist s ++ omap op_text ops ∧
    sublist (effected (trace s')) (attempted (trace s')) ∧
    Permutation (attempted (trace s')) (effected (trace s') ++ dropped (trace s')) ∧
    ((∀ sql t, sql ≠ probe → succeeds (EvQuery sql :: t) = true) →
      effected (trace s') ++ sqllist s' = effected (trace s) ++ sqllist s ++ omap op_text ops).
Proof.
  intros Hnet Ha Hcr Hc Hs Hops Hq. destruct (queue_fifo_run c user pass db host ops s) as (s' & E & Hs' & Hx); [done..|].
  exists s'. destruct (attempted_split (trace s')) as [Hp Hsub]. split_and!; [done..|]. intros Hok. by rewrite !effected_all.
Qed.

(** When the connection is dead and cannot be opened again, db_sync
    hands over none of the queued statements and forgets them all, and it
    leaves the closed handle in place: the next statement on the connection
    is a use after free. *)
Theorem db_sync_connect_failure c user pass db host s sql :
  con s = HOpen → config s = Some c → creds_ok c user pass db host →
  succeeds (EvQuery probe :: trace s) = false →
  (∀ t, succeeds (EvInit :: t) = true ∧ succeeds (EvConnect host user pass db :: t) = false) →
  ∃ s', db_sync s = Ret (tt, s') ∧ sqllist s' = [] ∧ attempted (trace s') = attempted (trace s) ∧
    mysql_query sql s' = Fault UseAfterFree ∧ db_sync s' = Fault UseAfterFree.
Proof.
  intros Hs Hc Hcr Hp Hnet. erewrite db_sync_dead by done.
  destruct (Hnet (EvClose :: EvQuery probe :: trace s)) as [-> _]. cbn [negb].
  destruct (Hnet (EvInit :: EvClose :: EvQuery probe :: trace s)) as [_ ->].
  eexists; split_and!; [done|done|by rewrite Hc|done|done].
Qed.
End schedule.

(** ** Witnesses: servers that drop the connection at every probe

    One of them also refuses the statement B7. *)

Definition demo_config : db_config :=
  let p s := Pl (Some (bytes_of s)) (Z.of_nat (String.length s)) in
  DbConfig (p "user"%string) (p "pass"%string) (p "host"%string) (p "db"%string).

Definition flaky (up : bool) (refused : list Z) : mysql := Mysql
  (Allocator (λ _, true) 0)
  (λ t, match t with
        | EvQuery sql :: _ => bool_decide (sql ≠ probe ∧ sql ≠ refused)
        | EvConnect _ _ _ _ :: _ => up
        | _ => true
        end)
  (λ _, None).

Definition demo_db : dbstate := Dbs [bytes_of "A"] HOpen (Some demo_config) [].
Definition demo_queue : list op := [OExec (bytes_of "B%d") [VInt 7]; OSync; OExec (bytes_of "C") []; OSync; OExec (bytes_of "D") []].

Lemma demo_creds up refused :
  @creds_ok (flaky up refused) demo_config (bytes_of "user") (bytes_of "pass") (bytes_of "db") (bytes_of "host").
Proof. split; reflexivity. Qed.

Lemma demo_queue_ok up refused : Forall (@op_ok (flaky up refused)) demo_queue.
Proof. repeat constructor; eexists; split; vm_compute; (reflexivity || congruence). Qed.

(** What a run of [demo_queue] leaves: the statements that took effect, those
    that failed, and those that are queued. *)
Definition demo_outcome (M : mysql) : option (list (list Z) * list (list Z) * list (list Z)) :=
  match @run_ops M demo_queue demo_db with Ret (_, s) => Some (@effected M (trace s), @dropped M (trace s), sqllist s) | Fault _ => None end.

Example demo_refused : demo_outcome (flaky true (bytes_of "B7")) = Some ([bytes_of "A"; bytes_of "C"], [bytes_of "B7"], [bytes_of "D"]).
Proof. vm_compute. reflexivity. Qed.

Lemma db_queue_fifo_witness :
  ∃ s', @run_ops (flaky true probe) demo_queue demo_db = Ret (tt, s') ∧ con s' = HOpen ∧
    @effected (flaky true probe) (trace s') ++ sqllist s' = [bytes_of "A"; bytes_of "B7"; bytes_of "C"; bytes_of "D"].
Proof.
  destruct (@db_queue_fifo (flaky true probe) demo_config (bytes_of "user") (bytes_of "pass") (bytes_of "db")
    (bytes_of "host") demo_queue demo_db) as (s' & E & Hs & _ & _ & _ & Hall).
  - intros t. split; reflexivity.
  - reflexivity.
  - apply demo_creds.
  - reflexivity.
  - reflexivity.
  - apply demo_queue_ok.
  - apply (bool_decide_eq_true_1 _). vm_compute. reflexivity.
  - exists s'. split; [exact E|]. split; [exact Hs|]. etrans; [apply Hall|vm_compute; reflexivity].
    intros sql t Hsql. change (bool_decide (sql ≠ probe ∧ sql ≠ probe) = true). exact (bool_decide_eq_true_2 _ (conj Hsql Hsql)).
Defined.

Lemma db_sync_connect_failure_witness :
  let M := flaky false probe in
  ∃ s', @db_sync M demo_db = Ret (tt, s') ∧ sqllist s' = [] ∧ attempted (trace s') = [] ∧
    @mysql_query M (bytes_of "A") s' = Fault UseAfterFree ∧ @db_sync M s' = Fault UseAfterFree.
Proof.
  apply (@db_sync_connect_failure (flaky false probe) demo_config (bytes_of "user") (bytes_of "pass")
    (bytes_of "db") (bytes_of "host") demo_db).
  - reflexivity.
  - reflexivity.
  - apply demo_creds.
  - vm_compute. reflexivity.
  - intros t. split; reflexivity.
Defined.
