(* ===== verification/App.v ===== *)
(** * The dialer's objects (src/call.h, src/db.h) and their store

    Every heap object of the dialer lives at an address in the map of its type;
    reading an address that is no longer allocated is a use after free, and
    reading NULL a NULL dereference.  Linked lists are the sequences they
    represent, which the LinkedList component justifies; an object knows the
    list its element is linked in, as [struct le] does.  The state also holds
    the outside world the handlers act on: the SQL queue, the message queue,
    the requests given to the SIP stack and the packets sent. *)
From stdpp Require Import base tactics list numbers strings option gmap fin_maps.
From S2P Require Import Prelude Mbuf Fmt Print Uri Telev Rtp Db.

Abbreviation loc := positive.
Abbreviation ref := (option positive).

Definition CALL_CONNECTING : Z := 0.
Definition CALL_TRYING : Z := 1.
Definition CALL_RINGING : Z := 2.
Definition CALL_ESTABLISHED : Z := 3.
Definition CALL_DISCONNECTED : Z := 4.

(** ** Data *)

Record gateway := Gateway { gateway_id : Z; uri_str : option (list Z); sip_uri : uri }.

Record campaign_action := CampaignAction {
  a_key : Z;
  a_type : Z;
  a_gateway : ref;
  a_dest : option (list Z)
}.

Record campaign := Campaign {
  campaign_id : Z;
  client_id : Z;
  campaign_status : Z;
  cp_gateway : ref;
  pbx_gateway : ref;
  pbx_number : option (list Z);
  caller_id : option (list Z);
  file_name : option (list Z);
  call_limit : Z;
  retry_delay : Z;
  max_call_duration : Z;
  max_try : Z;
  is_running : bool;
  max_play : Z;
  destinations : list loc;
  processl : list loc;
  cp_tmr : option Z;
  actions : list loc
}.

(** Which list a destination is linked in. *)
Inductive dlist := InDestinations (cp : loc) | InProcessl (cp : loc).

Record destination := Destination {
  dest_id : Z;
  d_dest : option (list Z);
  last_try : Z;
  d_call : ref;
  d_cp : ref;
  try_count : Z;
  d_tmr : option Z;
  d_list : option dlist
}.

(** [call->dest] is set to the gateway address by [call_alloc] and to a
    destination by the forwarding code. *)
Inductive cdest := NoDest | DestGateway (g : ref) | DestDestination (d : loc).

Record call := Call {
  resp_code : Z;
  c_sess : bool;
  c_rs : option rtp_sock;
  c_rtp_sess : ref;
  c_sdp : bool;
  pbx_call : ref;
  c_audio : option (list Z);
  rtp_dest : sockaddr;
  c_dest : cdest;
  c_ts : Z;
  connect_tm : Z;
  establish_tm : Z;
  call_status : Z;
  num_play : Z;
  action_key : Z;
  action_type : Z;
  c_pt : Z;
  c_action : ref;
  join_pbx : bool;
  thrd_created : bool;
  ended : bool;
  ispbxcall : bool;
  event_received : bool;
  forwarded : bool;
  c_arg : ref
}.

Record rtp_session := RtpSession {
  rs_local : sockaddr;
  rs_remote_ip : sockaddr;
  rs_connected : bool;
  rs_in_use : bool;
  rs_remote : ref;
  rs_telev_recv : bool;
  rs_telev : option telev;
  rs_arg : ref
}.

Definition sa_zero : sockaddr := SockAddr None 0 false.

(** [mem_zalloc]ed objects. *)
Definition call_zero : call :=
  Call 0 false None None false None None sa_zero NoDest 0 0 0 0 0 0 0 0 None false false false false false false None.
Definition campaign_zero : campaign :=
  Campaign 0 0 0 None None None None None 0 0 0 0 false 0 [] [] None [].
Definition destination_zero : destination := Destination 0 None 0 None None 0 None None.
Definition rtp_session_zero : rtp_session := RtpSession sa_zero sa_zero false false None false None None.

#[export] Instance eta_gateway : Eta gateway := λ g, Gateway (gateway_id g) (uri_str g) (sip_uri g).
#[export] Instance eta_campaign : Eta campaign := λ c,
  Campaign (campaign_id c) (client_id c) (campaign_status c) (cp_gateway c) (pbx_gateway c) (pbx_number c)
    (caller_id c) (file_name c) (call_limit c) (retry_delay c) (max_call_duration c) (max_try c)
    (is_running c) (max_play c) (destinations c) (processl c) (cp_tmr c) (actions c).
#[export] Instance eta_destination : Eta destination := λ d,
  Destination (dest_id d) (d_dest d) (last_try d) (d_call d) (d_cp d) (try_count d) (d_tmr d) (d_list d).
#[export] Instance eta_call : Eta call := λ c,
  Call (resp_code c) (c_sess c) (c_rs c) (c_rtp_sess c) (c_sdp c) (pbx_call c) (c_audio c) (rtp_dest c)
    (c_dest c) (c_ts c) (connect_tm c) (establish_tm c) (call_status c) (num_play c) (action_key c)
    (action_type c) (c_pt c) (c_action c) (join_pbx c) (thrd_created c) (ended c) (ispbxcall c)
    (event_received c) (forwarded c) (c_arg c).
#[export] Instance eta_rtp_session : Eta rtp_session := λ r,
  RtpSession (rs_local r) (rs_remote_ip r) (rs_connected r) (rs_in_use r) (rs_remote r) (rs_telev_recv r)
    (rs_telev r) (rs_arg r).

Definition set_uri_str : option (list Z) → gateway → gateway := ltac:(setter uri_str).
Definition set_sip_uri : uri → gateway → gateway := ltac:(setter sip_uri).

Definition set_campaign_id : Z → campaign → campaign := ltac:(setter campaign_id).
Definition set_client_id : Z → campaign → campaign := ltac:(setter client_id).
Definition set_campaign_status : Z → campaign → campaign := ltac:(setter campaign_status).
Definition set_cp_gateway : ref → campaign → campaign := ltac:(setter cp_gateway).
Definition set_pbx_gateway : ref → campaign → campaign := ltac:(setter pbx_gateway).
Definition set_pbx_number : option (list Z) → campaign → campaign := ltac:(setter pbx_number).
Definition set_caller_id : option (list Z) → campaign → campaign := ltac:(setter caller_id).
Definition set_file_name : option (list Z) → campaign → campaign := ltac:(setter file_name).
Definition set_call_limit : Z → campaign → campaign := ltac:(setter call_limit).
Definition set_retry_delay : Z → campaign → campaign := ltac:(setter retry_delay).
Definition set_max_call_duration : Z → campaign → campaign := ltac:(setter max_call_duration).
Definition set_max_try : Z → campaign → campaign := ltac:(setter max_try).
Definition set_is_running : bool → campaign → campaign := ltac:(setter is_running).
Definition set_max_play : Z → campaign → campaign := ltac:(setter max_play).
Definition set_destinations : list loc → campaign → campaign := ltac:(setter destinations).
Definition set_processl : list loc → campaign → campaign := ltac:(setter processl).
Definition set_cp_tmr : option Z → campaign → campaign := ltac:(setter cp_tmr).
Definition set_actions : list loc → campaign → campaign := ltac:(setter actions).

Definition set_last_try : Z → destination → destination := ltac:(setter last_try).
Definition set_d_call : ref → destination → destination := ltac:(setter d_call).
Definition set_try_count : Z → destination → destination := ltac:(setter try_count).
Definition set_d_tmr : option Z → destination → destination := ltac:(setter d_tmr).
Definition set_d_list : option dlist → destination → destination := ltac:(setter d_list).

Definition set_resp_code : Z → call → call := ltac:(setter resp_code).
Definition set_c_sess : bool → call → call := ltac:(setter c_sess).
Definition set_c_rs : option rtp_sock → call → call := ltac:(setter c_rs).
Definition set_c_rtp_sess : ref → call → call := ltac:(setter c_rtp_sess).
Definition set_c_sdp : bool → call → call := ltac:(setter c_sdp).
Definition set_pbx_call : ref → call → call := ltac:(setter pbx_call).
Definition set_c_audio : option (list Z) → call → call := ltac:(setter c_audio).
Definition set_rtp_dest : sockaddr → call → call := ltac:(setter rtp_dest).
Definition set_c_dest : cdest → call → call := ltac:(setter c_dest).
Definition set_c_ts : Z → call → call := ltac:(setter c_ts).
Definition set_connect_tm : Z → call → call := ltac:(setter connect_tm).
Definition set_establish_tm : Z → call → call := ltac:(setter establish_tm).
Definition set_call_status : Z → call → call := ltac:(setter call_status).
Definition set_num_play : Z → call → call := ltac:(setter num_play).
Definition set_action_key : Z → call → call := ltac:(setter action_key).
Definition set_action_type : Z → call → call := ltac:(setter action_type).
Definition set_c_pt : Z → call → call := ltac:(setter c_pt).
Definition set_c_action : ref → call → call := ltac:(setter c_action).
Definition set_join_pbx : bool → call → call := ltac:(setter join_pbx).
Definition set_thrd_created : bool → call → call := ltac:(setter thrd_created).
Definition set_ended : bool → call → call := ltac:(setter ended).
Definition set_ispbxcall : bool → call → call := ltac:(setter ispbxcall).
Definition set_event_received : bool → call → call := ltac:(setter event_received).
Definition set_forwarded : bool → call → call := ltac:(setter forwarded).
Definition set_c_arg : ref → call → call := ltac:(setter c_arg).

Definition set_rs_remote_ip : sockaddr → rtp_session → rtp_session := ltac:(setter rs_remote_ip).
Definition set_rs_connected : bool → rtp_session → rtp_session := ltac:(setter rs_connected).
Definition set_rs_in_use : bool → rtp_session → rtp_session := ltac:(setter rs_in_use).
Definition set_rs_remote : ref → rtp_session → rtp_session := ltac:(setter rs_remote).
Definition set_rs_telev_recv : bool → rtp_session → rtp_session := ltac:(setter rs_telev_recv).
Definition set_rs_telev : option telev → rtp_session → rtp_session := ltac:(setter rs_telev).
Definition set_rs_arg : ref → rtp_session → rtp_session := ltac:(setter rs_arg).

(** ** The state *)

Record app := App {
  gws : gmap loc gateway;
  gateways : list loc;
  cps : gmap loc campaign;
  services : list loc;
  dests : gmap loc destination;
  acts : gmap loc campaign_action;
  calls : gmap loc call;
  rtps : gmap loc rtp_session;
  rtp_sessions : list loc;
  app_db : dbstate;
  msgq : list loc;
  app_running : bool;
  laddr : sockaddr;
  audio_path : option (list Z);
  clock : Z;
  invites : list (loc * list Z);
  wire : list (sockaddr * sockaddr * list Z);
  next : loc
}.

#[export] Instance eta_app : Eta app := λ s,
  App (gws s) (gateways s) (cps s) (services s) (dests s) (acts s) (calls s) (rtps s) (rtp_sessions s)
    (app_db s) (msgq s) (app_running s) (laddr s) (audio_path s) (clock s) (invites s) (wire s) (next s).

Definition set_gws : gmap loc gateway → app → app := ltac:(setter gws).
Definition set_gateways : list loc → app → app := ltac:(setter gateways).
Definition set_cps : gmap loc campaign → app → app := ltac:(setter cps).
Definition set_services : list loc → app → app := ltac:(setter services).
Definition set_dests : gmap loc destination → app → app := ltac:(setter dests).
Definition set_acts : gmap loc campaign_action → app → app := ltac:(setter acts).
Definition set_calls : gmap loc call → app → app := ltac:(setter calls).
Definition set_rtps : gmap loc rtp_session → app → app := ltac:(setter rtps).
Definition set_rtp_sessions : list loc → app → app := ltac:(setter rtp_sessions).
Definition set_app_db : dbstate → app → app := ltac:(setter app_db).
Definition set_msgq : list loc → app → app := ltac:(setter msgq).
Definition set_app_running : bool → app → app := ltac:(setter app_running).
Definition set_invites : list (loc * list Z) → app → app := ltac:(setter invites).
Definition set_wire : list (sockaddr * sockaddr * list Z) → app → app := ltac:(setter wire).
Definition set_clock : Z → app → app := ltac:(setter clock).
Definition set_next : loc → app → app := ltac:(setter next).

(** ** Memory accesses *)

(** The map an object type lives in. *)
Class Store (T : Type) := {
  heap_of : app → gmap loc T;
  set_heap : gmap loc T → app → app
}.
#[export] Instance store_gateway : Store gateway := {| heap_of := gws; set_heap := set_gws |}.
#[export] Instance store_campaign : Store campaign := {| heap_of := cps; set_heap := set_cps |}.
#[export] Instance store_destination : Store destination := {| heap_of := dests; set_heap := set_dests |}.
#[export] Instance store_action : Store campaign_action := {| heap_of := acts; set_heap := set_acts |}.
#[export] Instance store_call : Store call := {| heap_of := calls; set_heap := set_calls |}.
#[export] Instance store_rtp : Store rtp_session := {| heap_of := rtps; set_heap := set_rtps |}.

Section access.
Context {T : Type} `{!Store T}.

(** A pointer that is dereferenced. *)
Definition addr_of (p : ref) : prog app loc := deref_opt NullDeref p.

Definition read (l : loc) : prog app T := λ s,
  match heap_of s !! l with Some x => Ret (x, s) | None => Fault UseAfterFree end.

Definition deref (p : ref) : prog app T := l ← addr_of p; read l.

Definition upd (l : loc) (f : T → T) : prog app unit := λ s,
  match heap_of s !! l with
  | Some x => Ret (tt, set_heap (<[l := f x]> (heap_of s)) s)
  | None => Fault UseAfterFree
  end.

Definition upd_ref (p : ref) (f : T → T) : prog app unit := l ← addr_of p; upd l f.

Definition alloc (x : T) : prog app loc := λ s,
  let l := next s in
  Ret (l, set_next (Pos.succ l) (set_heap (<[l := x]> (heap_of s)) s)).

Definition free (l : loc) : prog app unit := λ s,
  match heap_of s !! l with
  | Some _ => Ret (tt, set_heap (delete l (heap_of s)) s)
  | None => Fault UseAfterFree
  end.
End access.
#[global] Arguments read : simpl never.
#[global] Arguments upd : simpl never.

Definition time_now : prog app Z := gets (λ s, clock s / 1000).
Definition on_db {A} (m : prog dbstate A) : prog app A := λ s,
  match m (app_db s) with Ret (a, d) => Ret (a, set_app_db d s) | Fault f => Fault f end.

(** ** The environment

    The results of the libre calls made for one call object: [sdp_*],
    [sipsess_connect], [rtp_alloc] and [rand]. *)
Record call_env := CallEnv {
  e_zalloc : bool;
  e_sdp_session : Z;
  e_sdp_media : Z;
  e_sdp_format : Z;
  e_telephone_event : Z;
  e_sdp_encode : Z;
  e_connect : Z;
  e_rtp_alloc : Z * option rtp_sock;
  e_rand : Z
}.

(** The interface to the file system, the address parser and the SIP stack; the
    results for a call depend on the call object's address, which is fresh for
    every attempt. *)
Class env := Env {
  env_mysql :: mysql;
  env_inet :: inet;
  file_exists : list Z → bool;
  call_results : loc → call_env
}.

(** [re_sdprintf] whose result is used unchecked. *)
Definition sdprintf `{env} (fmt : list Z) (args : list varg) : prog app (list Z) := λ s,
  match re_vsdprintf mem no_handler 1 fmt args with
  | Ret (_, Some t) => Ret (t, s)
  | Ret (_, None) => Fault Uninit
  | Fault f => Fault f
  end.

(** ** The functions of main.c that call.c calls *)

Section shared.
Context `{env}.

Definition update_fmt : list Z := bytes_of
  "update calls set  call_status=%d,call_duration=%d,connect_time=%ld,establish_time=%ld where id = %d".

Definition update_call_status (d : ref) : prog app unit :=
  dest ← deref (T := destination) d;
  c ← deref (T := call) (d_call dest);
  on_db (db_exec update_fmt
    [VInt (call_status c); VInt 0; VInt (connect_tm c); VInt (establish_tm c); VInt (dest_id dest)]);;
  skip.

(** The loop over the campaign's actions. *)
Fixpoint find_action (event : Z) (l : list loc) : prog app ref :=
  match l with
  | [] => mret None
  | a :: rest =>
      x ← read (T := campaign_action) a;
      if bool_decide (a_key x = event) then mret (Some a) else find_action event rest
  end.

Definition find_campaign_action (d : ref) (event : Z) : prog app ref :=
  dest ← deref (T := destination) d;
  cp ← deref (T := campaign) (d_cp dest);
  find_action event (actions cp).
End shared.

(** ** Lemmas on memory accesses *)

Lemma alter_insert_eq {A} (f : A → A) (m : gmap loc A) l x : m !! l = Some x → alter f l m = <[l := f x]> m.
Proof.
  intros E. apply map_eq. intros j. destruct (decide (l = j)) as [<-|].
  - by rewrite lookup_alter_eq, E, lookup_insert_eq.
  - by rewrite lookup_alter_ne, lookup_insert_ne.
Qed.

Section access_lemmas.
Context {T : Type} `{!Store T}.

Lemma read_run (l : loc) (x : T) s : heap_of s !! l = Some x → read l s = Ret (x, s).
Proof. unfold read. by intros ->. Qed.

Lemma upd_run (l : loc) (x : T) f s :
  heap_of s !! l = Some x → upd l f s = Ret (tt, set_heap (<[l := f x]> (heap_of s)) s).
Proof. unfold upd. by intros ->. Qed.

Lemma upd_alter (l : loc) (f : T → T) s :
  is_Some (heap_of s !! l) → upd l f s = Ret (tt, set_heap (alter f l (heap_of s)) s).
Proof. intros [x E]. rewrite (upd_run l x) by done. f_equal. f_equal. f_equal. symmetry. by apply alter_insert_eq. Qed.

Lemma free_run (l : loc) (x : T) s :
  heap_of s !! l = Some x → free (T := T) l s = Ret (tt, set_heap (delete l (heap_of s)) s).
Proof. unfold free. by intros ->. Qed.

Lemma deref_run (l : loc) (x : T) s : heap_of s !! l = Some x → deref (Some l) s = Ret (x, s).
Proof. intros E. unfold deref, addr_of, deref_opt, mbind, prog_bind. by apply read_run. Qed.

Lemma upd_ref_run (l : loc) (x : T) f s :
  heap_of s !! l = Some x → upd_ref (Some l) f s = Ret (tt, set_heap (<[l := f x]> (heap_of s)) s).
Proof. intros E. unfold upd_ref, addr_of, deref_opt, mbind, prog_bind. by apply upd_run. Qed.
End access_lemmas.

(** Looks an address up in an updated map. *)
Ltac heap_lookup :=
  cbn; repeat first
  [ eassumption
  | rewrite lookup_insert_eq; reflexivity
  | rewrite lookup_insert_ne by congruence
  | rewrite lookup_delete_ne by congruence ];
  try eassumption; try reflexivity.

(** One step of a program on a known state. *)
Ltac step :=
  first
  [ erewrite prog_bind_step by (eapply read_run; heap_lookup)
  | erewrite prog_bind_step by (eapply upd_run; heap_lookup)
  | erewrite prog_bind_step by (eapply deref_run; heap_lookup)
  | erewrite prog_bind_step by (eapply upd_ref_run; heap_lookup)
  | erewrite prog_bind_step by (eapply free_run; heap_lookup)
  | erewrite prog_bind_step by reflexivity ];
  cbn beta iota.

(** Texts built from pieces. *)
Lemma sdprintf_run `{env} ps s :
  plenty mem → Forall piece_ok ps → Z.of_nat (length (text_of ps)) < 2 ^ 31 →
  sdprintf (fmt_of ps) (args_of ps) s = Ret (text_of ps, s).
Proof. intros. unfold sdprintf. by rewrite vsdprintf_pieces. Qed.

(** ** Queued statements *)

Definition queue (t : list Z) (s : app) : app :=
  set_app_db (set_sqllist (sqllist (app_db s) ++ [t]) (app_db s)) s.

Lemma db_exec_pieces `{env} ps fmt args t s :
  fmt = fmt_of ps → args = args_of ps → t = text_of ps → plenty mem → Forall piece_ok ps →
  Z.of_nat (length t) < 2 ^ 31 → on_db (db_exec fmt args) s = Ret (false, queue t s).
Proof.
  intros -> -> -> Hm Hps Hl. unfold on_db. erewrite db_exec_run; [done| |].
  - unfold sql_text. by apply vsdprintf_pieces.
  - apply Hm. unfold SQLQUERY_SIZE. lia.
Qed.

(** The numbers of a call and of a destination are in the range of their C types. *)
Record call_ok (x : call) : Prop := {
  co_status : 0 ≤ call_status x < 256;
  co_resp : 0 ≤ resp_code x < 65536;
  co_connect : - 2 ^ 63 < connect_tm x < 2 ^ 63;
  co_establish : - 2 ^ 63 < establish_tm x < 2 ^ 63;
  co_key : 0 ≤ action_key x < 256;
  co_type : 0 ≤ action_type x < 256;
  co_play : 0 ≤ num_play x < 256
}.

Record dest_ok (d : destination) : Prop := {
  do_id : - 2 ^ 31 ≤ dest_id d < 2 ^ 31;
  do_count : 0 ≤ try_count d < 256
}.

(** Side conditions of texts: literals by computation, numbers by [lia]. *)
Ltac pieces_ok :=
  repeat (apply List.Forall_cons; [lazymatch goal with
    | |- piece_ok (PLit _) => apply (bool_decide_eq_true_1 _); vm_compute; reflexivity
    | _ => cbn [piece_ok]; try lia; try done
    end|]); apply List.Forall_nil.

Definition update_pieces (x : call) (d : destination) : list piece :=
  [PLit (bytes_of "update calls set  call_status="); PInt (call_status x);
   PLit (bytes_of ",call_duration="); PInt 0;
   PLit (bytes_of ",connect_time="); PLong (connect_tm x);
   PLit (bytes_of ",establish_time="); PLong (establish_tm x);
   PLit (bytes_of " where id = "); PInt (dest_id d)].

Definition update_text (x : call) (d : destination) : list Z := text_of (update_pieces x d).

(** The length of a text of numbers between literals. *)
Fixpoint pieces_bound (ps : list piece) : Z :=
  match ps with
  | [] => 0
  | PLit l :: r => Z.of_nat (length l) + pieces_bound r
  | PInt _ :: r | PLong _ :: r => 63 + pieces_bound r
  | p :: r => Z.of_nat (length (piece_text p)) + pieces_bound r
  end.

Lemma text_bound ps : Forall piece_ok ps → Z.of_nat (length (text_of ps)) ≤ pieces_bound ps.
Proof.
  induction 1 as [|p ps Hp _ IH]; [done|]. unfold text_of in *. cbn [map concat]. rewrite length_app.
  destruct p; cbn [pieces_bound piece_text piece_ok] in *; try lia.
  - pose proof (int_text_length z ltac:(lia)). lia.
  - pose proof (int_text_length z ltac:(lia)). lia.
Qed.

Lemma update_call_status_run `{env} d dest c x s :
  plenty mem → dests s !! d = Some dest → d_call dest = Some c → calls s !! c = Some x →
  call_ok x → dest_ok dest →
  update_call_status (Some d) s = Ret (tt, queue (update_text x dest) s).
Proof.
  intros Hm Hd Hc Hx [] []. unfold update_call_status. step. rewrite Hc. step.
  assert (Hok : Forall piece_ok (update_pieces x dest)).
  { unfold update_pieces. pieces_ok. }
  erewrite prog_bind_step; [done|]. apply (db_exec_pieces (update_pieces x dest)); try done.
  pose proof (text_bound _ Hok) as Hb. eapply Z.le_lt_trans; [exact Hb|]. vm_compute. done.
Qed.
