(* ===== verification/Call.v ===== *)
(** * Calls and RTP sessions (src/call.c)

    The life of a call: taking an RTP session from the pool, building the SDP
    offer and the INVITE, the SIP callbacks, DTMF and media relaying on the RTP
    socket, the playing thread's frames, and the destructor that gives the
    session back.  The SDP and SIP session objects themselves belong to libre:
    the model keeps whether they exist and takes the results of their functions
    from the environment. *)
From stdpp Require Import base tactics list numbers strings option gmap fin_maps sets.
From S2P Require Import Prelude Mbuf Fmt Print Uri Telev Rtp Db App.

(** ** The pool of RTP sessions *)

Definition list_append_rtp (r : loc) : prog app unit := λ s,
  if bool_decide (r ∈ rtp_sessions s) then Ret (tt, s)
  else Ret (tt, set_rtp_sessions (rtp_sessions s ++ [r]) s).

Definition list_unlink_rtp (r : loc) : prog app unit :=
  modify (λ s, set_rtp_sessions (filter (λ x, x ≠ r) (rtp_sessions s)) s).

(** The fields [release_rtp_session] resets. *)
Definition rtp_released (r : rtp_session) : rtp_session :=
  set_rs_remote None (set_rs_telev None (set_rs_telev_recv false
    (set_rs_arg None (set_rs_connected false (set_rs_in_use false r))))).

Definition release_rtp_session (r : loc) : prog app unit := upd r rtp_released;; list_append_rtp r.

Fixpoint find_free (l : list loc) : prog app ref :=
  match l with
  | [] => mret None
  | r :: rest =>
      x ← read (T := rtp_session) r;
      if rs_in_use x then find_free rest
      else upd r (set_rs_in_use true);; list_unlink_rtp r;; mret (Some r)
  end.

Definition find_rtp_session : prog app ref := s ← get; find_free (rtp_sessions s).

(** [udp_range_listen] of call.c: one even port, no RTCP port. *)
Fixpoint listen_loop (listen : Z → Z) (rand : nat → Z) (min_port max_port : Z) (tries : nat) (err : Z) :
    Z * option Z :=
  match tries with
  | O => (err, None)
  | S n =>
      let port := range_port min_port max_port (rand n) in
      let e := listen port in
      if bool_decide (e ≠ 0) then listen_loop listen rand min_port max_port n e else (0, Some port)
  end.

Definition udp_range_listen (listen : Z → Z) (rand : nat → Z) (min_port max_port : Z) : Z * option Z :=
  listen_loop listen rand min_port max_port 64 0.

(** [rtp_session_allocate]: [n] sessions, each with its own results of
    [udp_listen] and random numbers. *)
Fixpoint allocate_loop (listen : nat → Z → Z) (rand : nat → nat → Z) (addr : sockaddr) (n : nat) : prog app unit :=
  match n with
  | O => skip
  | S n' =>
      (match udp_range_listen (listen n') (rand n') 8000 20000 with
       | (0, Some port) =>
           r ← alloc (RtpSession (SockAddr (sa_text addr) port (sa_v6 addr)) sa_zero false false None false None None);
           list_append_rtp r
       | _ => skip
       end);;
      allocate_loop listen rand addr n'
  end.

Definition rtp_session_allocate (listen : nat → Z → Z) (rand : nat → nat → Z) (addr : sockaddr) : prog app unit :=
  modify (set_rtp_sessions []);; allocate_loop listen rand addr 100.

(** [list_flush] of the pool: frees the sessions that are in it. *)
Fixpoint flush_rtps (l : list loc) : prog app unit :=
  match l with
  | [] => skip
  | r :: rest => free (T := rtp_session) r;; flush_rtps rest
  end.

Definition rtp_session_destroy : prog app unit :=
  s ← get; flush_rtps (rtp_sessions s);; modify (set_rtp_sessions []).

(** [close_sip]: the SIP stack itself belongs to libre. *)
Definition close_sip : prog app unit := rtp_session_destroy.

(** ** call_destructor *)

(** [mem_deref] of a call, which has one reference: runs the destructor and
    frees the object.  [fuel] bounds the chain of forwarded calls. *)
Fixpoint destroy_call (fuel : nat) (c : loc) : prog app unit :=
  match fuel with
  | O => crash NoFuel
  | S fuel' =>
      upd c (set_ended true);;
      upd c (set_c_sess false);;
      x ← read (T := call) c;
      (match c_rtp_sess x with Some r => release_rtp_session r | None => skip end);;
      (match pbx_call x with
       | Some p => destroy_call fuel' p;; upd c (set_pbx_call None)
       | None => skip
       end);;
      free (T := call) c
  end.

(** Enough for every chain of calls in the heap. *)
Definition deref_call (c : ref) : prog app unit :=
  match c with
  | None => skip
  | Some c => s ← get; destroy_call (S (size (calls s))) c
  end.

Section call.
Context `{env}.

(** ** RTP reception *)

Definition udp_send (from : sockaddr) (to : sockaddr) (mb : mbuf) : prog app unit := λ s,
  match memcpy_from (mb_buf mb) (mb_pos mb) (mbuf_get_left mb) with
  | Ret bs => Ret (tt, set_wire (wire s ++ [(from, to, bs)]) s)
  | Fault f => Fault f
  end.

(** [if (rtp_sess->remote) udp_send(...)]. *)
Definition relay (r : loc) (mb : mbuf) : prog app unit :=
  x ← read (T := rtp_session) r;
  match rs_remote x with
  | None => skip
  | Some q => y ← read (T := rtp_session) q; udp_send (rs_local y) (rs_remote_ip y) mb
  end.

(** The effect of a recognised key on the call. *)
Definition take_action (a : loc) (act : campaign_action) (c : call) : call :=
  let c := set_action_type (a_type act) (set_action_key (a_key act)
             (set_event_received true (set_c_action (Some a) c))) in
  if bool_decide (a_type act > 0) then set_ended true c else c.

Definition rtp_recv_handler (r : loc) (mb : mbuf) : prog app unit :=
  x ← read (T := rtp_session) r;
  if bool_decide (mbuf_get_left mb < RTP_HEADER_SIZE) then skip
  else
    listening ← (if rs_telev_recv x then c ← deref (T := call) (rs_arg x); mret (negb (event_received c))
                 else mret false);
    if negb listening then relay r mb
    else
      q ← lift (mbuf_read_mem mb 2);
      let '(err, buf, mb1) := q in
      if bool_decide (err ≠ 0) then skip
      else
        b1 ← deref_opt OutOfBounds (buf !! 1%nat);
        if bool_decide (Z.land b1 127 ≠ 101) then relay r (mbuf_set_pos mb1 0)
        else
          q ← lift (telev_recv (rs_telev x) (mbuf_set_pos mb1 RTP_HEADER_SIZE));
          let '(err, ev, t, mb2) := q in
          upd r (set_rs_telev t);;
          if bool_decide (err ≠ 0) then skip
          else
            ev ← deref_opt Uninit ev;
            let '(event, fin) := ev in
            if bool_decide (0 ≤ event) && (fin : bool) then
              c ← addr_of (rs_arg x);
              cl ← read (T := call) c;
              a ← find_campaign_action (c_arg cl) event;
              match a with
              | Some a => act ← read (T := campaign_action) a; upd c (take_action a act)
              | None => skip
              end
            else relay r (mbuf_set_pos mb2 0).

(** [auth_handler]: the credentials of the gateway. *)
Definition auth_handler (g : uri) : outcome (Z * option (list Z) * option (list Z)) :=
  u ← pl_strdup mem (u_user g);
  p ← pl_strdup mem (u_password g);
  Ret (Z.lor (fst u) (fst p), snd u, snd p).

(** ** The playing thread *)

Definition frame_size (codec : Z) : Z := if bool_decide (codec = 0 ∨ codec = 8) then 160 else 40.
Definition frame_ts (codec : Z) : Z := if bool_decide (codec = 0 ∨ codec = 8) then 160 else 320.
Definition frame_sleep (codec : Z) : Z := if bool_decide (codec = 0 ∨ codec = 8) then 20 else 40.

(** [re_snprintf] into a local array, as a C string. *)
Definition snprintf (size : Z) (fmt : list Z) (args : list varg) : prog app (list Z) := λ s,
  match re_vsnprintf no_handler 1 size fmt args with
  | Ret (_, out) => Ret (take (length out - 1) out, s)
  | Fault f => Fault f
  end.

(** The file the thread plays: the call's path up to its first dot, with the
    codec's extension.  Without a dot the length is a difference with NULL. *)
Definition audio_file (c : loc) : prog app (list Z) :=
  x ← read (T := call) c;
  let path := pl_set_str pl_null (c_audio x) in
  dot ← lift (pl_strchr path (chr "."));
  n ← deref_opt NullDeref dot;
  let ext := if bool_decide (c_pt x = 0) then "%r.ulaw"%string
             else if bool_decide (c_pt x = 8) then "%r.alaw"%string else "%r.g729"%string in
  snprintf 512 (bytes_of ext) [VPl (Some (Pl (pl_p path) n))].

(** [rtp_encode(call->rs, ...)] into the frame's buffer. *)
Definition encode_header (c : loc) (mb : mbuf) : prog app mbuf :=
  x ← read (T := call) c;
  q ← lift (rtp_encode mem (c_rs x) false (c_pt x) (c_ts x) mb);
  let '(_, rs, mb') := q in
  upd c (set_c_rs rs);;
  mret mb'.

Definition send_on_session (c : loc) (mb : mbuf) : prog app unit :=
  x ← read (T := call) c;
  r ← deref (T := rtp_session) (c_rtp_sess x);
  udp_send (rs_local r) (rtp_dest x) mb;;
  upd c (set_c_ts (u32 (c_ts x + frame_ts (c_pt x)))).

(** One frame of the audio file, in the buffer the loop reuses. *)
Definition send_frame (c : loc) (mb : mbuf) (frame : list Z) : prog app mbuf :=
  q ← lift (mbuf_write_mem mem (mbuf_set_pos mb 12) (Some frame));
  let '(_, mb1) := q in
  mb2 ← encode_header c (mbuf_set_pos mb1 0);
  send_on_session c (mbuf_set_pos mb2 0);;
  mret (mbuf_reset mb2).

(** The inner loop over the whole frames of the file: [frames] are the blocks
    [fread] returns, the last one possibly short. *)
Fixpoint play_frames (c : loc) (mb : mbuf) (frames : list (list Z)) : prog app unit :=
  match frames with
  | [] => skip
  | f :: rest =>
      x ← read (T := call) c;
      if bool_decide (Z.of_nat (length f) = frame_size (c_pt x)) then
        mb' ← send_frame c mb f;
        y ← read (T := call) c;
        if ended y || event_received y then skip else play_frames c mb' rest
      else skip
  end.

Definition play_file (c : loc) (frames : list (list Z)) : prog app unit :=
  x ← read (T := call) c;
  mb ← deref_opt NullDeref (mbuf_alloc mem (frame_size (c_pt x) + 12));
  play_frames c mb frames;;
  upd c (λ x, set_num_play (u8 (num_play x + 1)) x).

(** A frame of silence: the write of the payload has a NULL source. *)
Definition send_silence (c : loc) : prog app unit :=
  x ← read (T := call) c;
  mb ← deref_opt NullDeref (mbuf_alloc mem (frame_size (c_pt x) + 12));
  mb1 ← encode_header c (mbuf_set_pos mb 0);
  q ← lift (mbuf_write_mem mem mb1 None);
  let '(_, mb2) := q in
  send_on_session c (mbuf_set_pos mb2 0).

(** One turn of the thread's loop: true when the loop goes on. *)
Definition rtp_turn (c : loc) (audio : list Z) (content : option (list (list Z))) : prog app bool :=
  x ← read (T := call) c;
  d ← deref (T := destination) (c_arg x);
  cp ← deref (T := campaign) (d_cp d);
  go ← (if negb (file_exists audio) || bool_decide (max_play cp ≤ num_play x) then
          send_silence c;; mret true
        else
          match content with
          | None => mret false
          | Some frames => play_file c frames;; mret true
          end);
  y ← read (T := call) c;
  mret (go && negb (ended y) && negb (event_received y)).

(** ** SDP and the call object *)

(** The first error of the calls that fill the SDP session. *)
Definition sdp_err (e : call_env) : Z :=
  if bool_decide (e_sdp_media e ≠ 0) then e_sdp_media e
  else if bool_decide (e_sdp_format e ≠ 0) then e_sdp_format e
  else e_telephone_event e.

Definition sdp_sess_alloc (e : call_env) : prog app (Z * ref) :=
  r ← find_rtp_session;
  match r with
  | None => mret (1, None)
  | Some r =>
      if bool_decide (e_sdp_session e ≠ 0) then crash Uninit
      else if bool_decide (sdp_err e ≠ 0) then mret (sdp_err e, None)
      else upd r (set_rs_connected true);; mret (0, Some r)
  end.

(** ** SIP callbacks *)

Definition close_handler (err : Z) (scode : option Z) (c : loc) : prog app unit :=
  upd c (set_ended true);;
  x ← read (T := call) c;
  if bool_decide (call_status x = CALL_ESTABLISHED) then upd c (set_resp_code 2)
  else if bool_decide (err = 0) then
    sc ← deref_opt NullDeref scode;
    if bool_decide (sc > 0) then upd c (set_resp_code (u16 sc)) else skip
  else upd c (set_resp_code 400).

Definition progress_handler (scode : Z) (c : loc) : prog app unit :=
  upd c (set_resp_code (u16 scode));;
  x ← read (T := call) c;
  if ispbxcall x then skip else update_call_status (c_arg x).

(** What the answer to an INVITE yields: the status code, the result of
    [sdp_decode], the payload type of [sdp_media_rformat], the media address,
    and whether the thread can be created. *)
Record answer := Answer {
  an_scode : Z;
  an_sdp : Z;
  an_pt : option Z;
  an_raddr : sockaddr;
  an_thread : bool
}.

(** The [out] label with an error. *)
Definition establish_fail (c : loc) : prog app unit := upd c (set_ended true);; upd c (set_c_sess false).

Definition telev_start (r : rtp_session) : rtp_session :=
  let t := match rs_telev r with Some t => Some t | None => snd (telev_alloc mem TELEV_PTIME) end in
  set_rs_telev_recv true (set_rs_telev t r).

(** Joins the two RTP sessions of a forwarded call. *)
Definition bridge (c : loc) (r : ref) : prog app unit :=
  x ← read (T := call) c;
  match c_dest x with
  | NoDest => crash NullDeref
  | DestGateway _ => crash OutOfBounds
  | DestDestination d =>
      dest ← read (T := destination) d;
      m ← deref (T := call) (d_call dest);
      upd_ref (c_rtp_sess m) (set_rs_remote r);;
      upd_ref r (set_rs_remote (c_rtp_sess m))
  end.

Definition start_media (a : answer) (c : loc) : prog app unit :=
  x ← read (T := call) c;
  now ← time_now;
  (if join_pbx x then skip
   else
     (if an_thread a then upd c (λ x, set_thrd_created true (set_establish_tm now x)) else skip);;
     upd_ref (c_rtp_sess x) telev_start);;
  update_call_status (c_arg x).

Definition establish_handler (a : answer) (c : loc) : prog app unit :=
  upd c (set_resp_code (u16 (an_scode a)));;
  x ← read (T := call) c;
  if bool_decide (call_status x = CALL_ESTABLISHED) then skip
  else
    now ← time_now;
    upd c (λ x, set_call_status CALL_ESTABLISHED (set_establish_tm now x));;
    if bool_decide (an_sdp a ≠ 0) then establish_fail c
    else
      match an_pt a with
      | None => establish_fail c
      | Some pt =>
          if bool_decide (pt = 101) then establish_fail c
          else
            upd c (λ x, set_rtp_dest (an_raddr a) (set_c_pt (u8 pt) x));;
            upd_ref (c_rtp_sess x) (set_rs_remote_ip (an_raddr a));;
            if ispbxcall x then bridge c (c_rtp_sess x) else start_media a c
      end.

(** ** call_alloc *)

Definition codec_name : list Z := bytes_of "codec".
Definition prefix_name : list Z := bytes_of "prefix".

(** The payload type the call offers, and the [pl] the lookup leaves. *)
Definition offer_pt (g : ref) (isPbx : bool) (d : ref) : prog app (Z * pl) :=
  if isPbx then
    dest ← deref (T := destination) d;
    m ← deref (T := call) (d_call dest);
    mret (c_pt m, pl_null)
  else
    gw ← deref (T := gateway) g;
    q ← lift (uri_param_get (u_params (sip_uri gw)) (pl_set_str pl_null (Some codec_name)));
    let '(err, v) := q in
    let pl1 := default pl_null v in
    if bool_decide (err = 0) then n ← lift (pl_u32 pl1); mret (u8 n, pl1) else mret (0, pl1).

(** The request URI: the number behind the gateway's prefix, if it has one. *)
Definition remote_uri (u : uri) (pl1 : pl) (tel : option (list Z)) : prog app (list Z) :=
  q ← lift (uri_param_get (u_params u) (pl_set_str pl_null (Some prefix_name)));
  let pl1 := default (Pl (pl_p pl1) 0) (snd q) in
  if pl_isset pl1 then
    sdprintf (bytes_of "sip:%r%s@%r:%d") [VPl (Some pl1); VStr tel; VPl (Some (u_host u)); VInt (u_port u)]
  else sdprintf (bytes_of "sip:%s@%r:%d") [VStr tel; VPl (Some (u_host u)); VInt (u_port u)].

Definition strdup_unchecked (p : pl) : prog app (list Z) := λ s,
  match pl_strdup mem p with
  | Ret (_, Some t) => Ret (t, s)
  | Ret (_, None) => Fault Uninit
  | Fault f => Fault f
  end.

(** [sipsess_connect]: the request is given to the SIP stack. *)
Definition sipsess_connect (e : call_env) (c : loc) (remote : list Z) : prog app unit :=
  if bool_decide (e_connect e = 0) then
    modify (λ s, set_invites (invites s ++ [(c, remote)]) s);; upd c (set_c_sess true)
  else skip.

Definition call_started (e : call_env) (now pt : Z) (g d : ref) (c : call) : call :=
  set_c_dest (DestGateway g) (set_c_arg d (set_c_pt pt (set_c_ts (u32 (e_rand e)) (set_rtp_dest sa_zero
    (set_ended false (set_call_status CALL_CONNECTING (set_connect_tm now c))))))).

Definition call_fail (c : loc) (err : Z) : prog app (Z * ref) := deref_call (Some c);; mret (err, None).

(** [call_alloc]: the error and the call stored through [callp].  The error of
    [sipsess_connect] is overwritten by that of [rtp_alloc]. *)
Definition call_alloc (tel : option (list Z)) (g : ref) (isPbx : bool) (d : ref) : prog app (Z * ref) :=
  s ← get;
  let e := call_results (next s) in
  if negb (e_zalloc e) then mret (1, None)
  else
    c ← alloc call_zero;
    q ← offer_pt g isPbx d;
    let '(pt, pl1) := q in
    q ← sdp_sess_alloc e;
    let '(err, r) := q in
    if bool_decide (err ≠ 0) then call_fail c err
    else
      upd c (λ x, set_c_rtp_sess r (set_c_sdp true x));;
      if bool_decide (e_sdp_encode e ≠ 0) then call_fail c (e_sdp_encode e)
      else
        gw ← deref (T := gateway) g;
        remote ← remote_uri (sip_uri gw) pl1 tel;
        fname ← strdup_unchecked (u_user (sip_uri gw));
        s ← get;
        url ← sdprintf (bytes_of "sip:%r@%J") [VPl (Some (u_user (sip_uri gw))); VSa (Some (laddr s))];
        sipsess_connect e c remote;;
        upd c (set_c_rs (snd (e_rtp_alloc e)));;
        upd_ref r (set_rs_arg (Some c));;
        let err := fst (e_rtp_alloc e) in
        if bool_decide (err = 0) then
          now ← time_now;
          upd c (call_started e now pt g d);;
          mret (0, Some c)
        else call_fail c err.
End call.

(** ** Destruction *)

Definition give_back (r : ref) (s : app) : app :=
  match r with
  | None => s
  | Some r => set_rtp_sessions (rtp_sessions s ++ [r]) (set_rtps (alter rtp_released r (rtps s)) s)
  end.

Definition drop_call (c : loc) (s : app) : app := set_calls (delete c (calls s)) s.

(** A call's session is allocated and out of the pool. *)
Definition holds_session (s : app) (r : ref) : Prop :=
  match r with None => True | Some r => is_Some (rtps s !! r) ∧ r ∉ rtp_sessions s end.

Lemma release_run r s :
  is_Some (rtps s !! r) → r ∉ rtp_sessions s → release_rtp_session r s = Ret (tt, give_back (Some r) s).
Proof.
  intros [y Hy] Hr. unfold release_rtp_session. step. unfold list_append_rtp. cbn.
  rewrite bool_decide_eq_false_2 by done. unfold give_back. by rewrite (alter_insert_eq _ _ _ _ Hy).
Qed.

Lemma destroy_leaf n c x s :
  calls s !! c = Some x → pbx_call x = None → holds_session s (c_rtp_sess x) →
  destroy_call (S n) c s = Ret (tt, drop_call c (give_back (c_rtp_sess x) s)).
Proof.
  intros Hc Hp Hr. cbn [destroy_call]. step. step. step. cbn [c_rtp_sess set_c_sess set_ended].
  destruct (c_rtp_sess x) as [r|].
  - destruct Hr as [Hy Hr]. erewrite prog_bind_step by (by apply release_run).
    cbn. rewrite Hp. step. erewrite free_run by heap_lookup. f_equal. f_equal.
    unfold drop_call, give_back. cbn. by rewrite !delete_insert_eq.
  - step. cbn. rewrite Hp. step. erewrite free_run by heap_lookup. f_equal. f_equal.
    unfold drop_call, give_back. cbn. by rewrite !delete_insert_eq.
Qed.

Definition holds_apart (s : app) (r q : ref) : Prop :=
  match r, q with Some r, Some q => r ≠ q | _, _ => True end.

(** A forwarded call goes with its second leg. *)
Lemma destroy_pair n c x p y s :
  calls s !! c = Some x → pbx_call x = Some p → calls s !! p = Some y → pbx_call y = None → c ≠ p →
  holds_session s (c_rtp_sess x) → holds_session s (c_rtp_sess y) →
  holds_apart s (c_rtp_sess x) (c_rtp_sess y) →
  destroy_call (S (S n)) c s =
    Ret (tt, drop_call c (drop_call p (give_back (c_rtp_sess y) (give_back (c_rtp_sess x) s)))).
Proof.
  intros Hc Hp Hy Hpy Hne Hr Hq Hrq. remember (S n) as m eqn:Hm. cbn [destroy_call].
  step. step. step. cbn [c_rtp_sess pbx_call set_c_sess set_ended]. rewrite Hp.
  set (s1 := set_heap _ _).
  assert (E1 : (match c_rtp_sess x with Some r => release_rtp_session r | None => skip end) s1 =
    Ret (tt, give_back (c_rtp_sess x) s1)).
  { destruct (c_rtp_sess x) as [r|]; [|done]. destruct Hr. by apply release_run. }
  erewrite prog_bind_step by exact E1.
  assert (Hy1 : calls (give_back (c_rtp_sess x) s1) !! p = Some y).
  { subst s1. destruct (c_rtp_sess x); heap_lookup. }
  assert (Hq1 : holds_session (give_back (c_rtp_sess x) s1) (c_rtp_sess y)).
  { subst s1. destruct (c_rtp_sess y) as [q|]; [|done]. destruct Hq as [Hq1 Hq2].
    destruct (c_rtp_sess x) as [r|]; [|done]. simpl in Hrq. split; cbn.
    - by rewrite lookup_alter_ne.
    - rewrite elem_of_app, list_elem_of_singleton. naive_solver. }
  subst m. erewrite prog_bind_step
    by (erewrite prog_bind_step by (by eapply destroy_leaf); eapply upd_run; subst s1;
        destruct (c_rtp_sess x), (c_rtp_sess y); heap_lookup).
  erewrite free_run by (subst s1; destruct (c_rtp_sess x), (c_rtp_sess y); heap_lookup).
  f_equal. f_equal. subst s1. unfold drop_call, give_back.
  destruct (c_rtp_sess x), (c_rtp_sess y); cbn; by rewrite !delete_insert_eq,
    !(delete_insert_ne _ p c), !delete_insert_eq by done.
Qed.

(** ** The invariant of calls and sessions *)

(** The pool holds distinct, released sessions; a call that has a session has it
    for itself and out of the pool; a session that points to a call is that
    call's; a session listens for DTMF only while it points to a call; a
    forwarded leg belongs to one call and is not forwarded itself. *)
Record calls_inv (s : app) : Prop := {
  ci_pool : NoDup (rtp_sessions s);
  ci_idle : ∀ r, r ∈ rtp_sessions s → ∃ y, rtps s !! r = Some y ∧ rtp_released y = y;
  ci_held : ∀ c x r, calls s !! c = Some x → c_rtp_sess x = Some r → is_Some (rtps s !! r) ∧ r ∉ rtp_sessions s;
  ci_inj : ∀ c1 c2 x1 x2 r, calls s !! c1 = Some x1 → calls s !! c2 = Some x2 →
    c_rtp_sess x1 = Some r → c_rtp_sess x2 = Some r → c1 = c2;
  ci_arg : ∀ r y c, rtps s !! r = Some y → rs_arg y = Some c →
    ∃ x, calls s !! c = Some x ∧ c_rtp_sess x = Some r;
  ci_listen : ∀ r y, rtps s !! r = Some y → rs_telev_recv y = true → is_Some (rs_arg y);
  ci_remote : ∀ r y q, rtps s !! r = Some y → rs_remote y = Some q → is_Some (rtps s !! q);
  ci_leg : ∀ c x p, calls s !! c = Some x → pbx_call x = Some p →
    c ≠ p ∧ ∃ y, calls s !! p = Some y ∧ pbx_call y = None;
  ci_leg_inj : ∀ c1 c2 x1 x2 p, calls s !! c1 = Some x1 → calls s !! c2 = Some x2 →
    pbx_call x1 = Some p → pbx_call x2 = Some p → c1 = c2;
  ci_fresh : ∀ l, (next s ≤ l)%positive → calls s !! l = None ∧ rtps s !! l = None
}.

(** No other call has [c] as its forwarded leg. *)
Definition not_leg (s : app) (c : loc) : Prop := ∀ c' x', calls s !! c' = Some x' → pbx_call x' ≠ Some c.

Lemma inv_holds s c x : calls_inv s → calls s !! c = Some x → holds_session s (c_rtp_sess x).
Proof. intros Hi Hc. destruct (c_rtp_sess x) as [r|] eqn:E; [|done]. by eapply ci_held. Qed.

Lemma lookup_give_back r s q :
  rtps (give_back r s) !! q = (if decide (r = Some q) then rtp_released <$> rtps s !! q else rtps s !! q).
Proof.
  destruct r as [r|]; simpl.
  - destruct (decide (Some r = Some q)) as [[= ->]|E]; [by rewrite lookup_alter_eq|].
    rewrite lookup_alter_ne; [done|congruence].
  - by destruct (decide (None = Some q)).
Qed.

Lemma pool_give_back r s : rtp_sessions (give_back r s) = rtp_sessions s ++ option_list r.
Proof. destruct r; simpl; [done|by rewrite app_nil_r]. Qed.

Lemma calls_give_back r s : calls (give_back r s) = calls s.
Proof. by destruct r. Qed.
Lemma next_give_back r s : next (give_back r s) = next s.
Proof. by destruct r. Qed.

Lemma elem_of_option_list (r : ref) q : q ∈ option_list r ↔ r = Some q.
Proof. destruct r; simpl; [rewrite list_elem_of_singleton; naive_solver|]. split; [by intros ?%not_elem_of_nil|done]. Qed.

(** Unfolds the lookups in the state after a call is dropped. *)
Ltac drop_simpl :=
  unfold drop_call in *; cbn [calls rtps rtp_sessions next set_calls] in *;
  repeat match goal with
  | H : context [rtps (give_back _ _) !! _] |- _ => rewrite lookup_give_back in H
  | H : context [rtp_sessions (give_back _ _)] |- _ => rewrite pool_give_back in H
  | H : context [calls (give_back _ _)] |- _ => rewrite calls_give_back in H
  | H : context [next (give_back _ _)] |- _ => rewrite next_give_back in H
  end;
  rewrite ?lookup_give_back, ?pool_give_back, ?calls_give_back, ?next_give_back in *;
  repeat match goal with
  | H : delete _ _ !! _ = Some _ |- _ => apply lookup_delete_Some in H as [? H]
  | H : (if decide ?P then _ else _) = Some _ |- _ => destruct (decide P)
  | H : _ <$> _ = Some _ |- _ => apply fmap_Some in H as (? & ? & ?)
  end; simplify_eq.

Lemma inv_drop s c x :
  calls_inv s → calls s !! c = Some x → not_leg s c → calls_inv (drop_call c (give_back (c_rtp_sess x) s)).
Proof.
  intros Hi Hc Hleg. pose proof (inv_holds s c x Hi Hc) as Hh.
  destruct Hi as [Hpool Hidle Hheld Hinj Harg Hlisten Hremote Hl Hli Hfresh].
  set (r := c_rtp_sess x) in *. split.
  - drop_simpl. apply NoDup_app. split_and!; [done| |destruct r; simpl; [apply NoDup_singleton|constructor]].
    intros q Hq. rewrite elem_of_option_list. intros ->. by apply (proj2 Hh).
  - intros q Hq. drop_simpl. apply elem_of_app in Hq as [Hq|Hq].
    + destruct (Hidle q Hq) as (y & Hy & Hrel). exists y. case_decide as E; [|done].
      rewrite E in Hh. by destruct Hh.
    + apply elem_of_option_list in Hq. rewrite decide_True by done. rewrite Hq in Hh. destruct Hh as [[y Hy] _].
      rewrite Hy. exists (rtp_released y). done.
  - intros c' x' q Hc' Hq. drop_simpl. destruct (Hheld _ _ _ Hc' Hq) as [[y Hy] Hnin].
    assert (r ≠ Some q) by (intros E; by destruct (Hinj c c' x x' q)).
    rewrite decide_False by done. split; [by exists y|].
    rewrite elem_of_app, elem_of_option_list. naive_solver.
  - intros c1 c2 x1 x2 q H1 H2. drop_simpl. by apply (Hinj c1 c2 x1 x2 q).
  - intros q y c' Hy Ha. drop_simpl. destruct (Harg _ _ _ Hy Ha) as (x' & Hx' & Hr').
    assert (c' ≠ c) by (intros ->; simplify_eq; naive_solver).
    exists x'. by rewrite lookup_delete_ne.
  - intros q y Hy Hlis. drop_simpl. by eapply Hlisten.
  - intros q y z Hy Hz. drop_simpl. destruct (Hremote _ _ _ Hy Hz) as [w Hw]. case_decide; rewrite Hw; eauto.
  - intros c' x' p Hc' Hp. drop_simpl. destruct (Hl _ _ _ Hc' Hp) as (Hne & y & Hy & Hpy).
    split; [done|]. exists y. rewrite lookup_delete_ne; [done|]. intros ->. by apply (Hleg c' x').
  - intros c1 c2 x1 x2 p H1 H2. drop_simpl. by apply (Hli c1 c2 x1 x2 p).
  - intros l Hle. drop_simpl. destruct (Hfresh l Hle) as [H1 H2]. split; [by rewrite lookup_delete_None; right|].
    case_decide; by rewrite H2.
Qed.

(** The state after [mem_deref] of a call. *)
Definition after_destroy (s : app) (c : loc) (x : call) : app :=
  match pbx_call x with
  | None => drop_call c (give_back (c_rtp_sess x) s)
  | Some p =>
      let q := calls s !! p ≫= c_rtp_sess in
      drop_call c (drop_call p (give_back q (give_back (c_rtp_sess x) s)))
  end.

Lemma inv_apart s c x p y :
  calls_inv s → calls s !! c = Some x → calls s !! p = Some y → c ≠ p →
  holds_apart s (c_rtp_sess x) (c_rtp_sess y).
Proof.
  intros Hi Hc Hp Hne. unfold holds_apart. destruct (c_rtp_sess x) as [r|] eqn:E1; [|done].
  destruct (c_rtp_sess y) as [q|] eqn:E2; [|done]. intros ->. by eapply Hne, ci_inj.
Qed.

Lemma deref_call_run s c x :
  calls_inv s → calls s !! c = Some x → deref_call (Some c) s = Ret (tt, after_destroy s c x).
Proof.
  intros Hi Hc. unfold deref_call, after_destroy. erewrite prog_bind_step by done.
  pose proof (inv_holds s c x Hi Hc) as Hh. destruct (pbx_call x) as [p|] eqn:Ep.
  - destruct (ci_leg s Hi c x p Hc Ep) as (Hne & y & Hy & Hpy). rewrite Hy. cbn.
    destruct (size (calls s)) as [|n] eqn:Esz.
    { apply map_size_empty_inv in Esz. by rewrite Esz in Hc. }
    apply destroy_pair; try done; [by eapply inv_holds|by eapply inv_apart].
  - by apply destroy_leaf.
Qed.

Lemma inv_after_destroy s c x :
  calls_inv s → calls s !! c = Some x → not_leg s c → calls_inv (after_destroy s c x).
Proof.
  intros Hi Hc Hl. unfold after_destroy. destruct (pbx_call x) as [p|] eqn:Ep; [|by apply inv_drop].
  destruct (ci_leg s Hi c x p Hc Ep) as (Hne & y & Hy & Hpy). rewrite Hy. cbn.
  pose proof (inv_drop s c x Hi Hc Hl) as Hi1. set (s1 := drop_call c _) in Hi1.
  assert (Hy1 : calls s1 !! p = Some y).
  { subst s1. unfold drop_call. cbn. rewrite calls_give_back. by rewrite lookup_delete_ne. }
  assert (Hl1 : not_leg s1 p).
  { intros c' x' Hc' Hp'. subst s1. drop_simpl. by destruct (ci_leg_inj s Hi c c' x x' p). }
  pose proof (inv_drop s1 p y Hi1 Hy1 Hl1) as Hi2.
  assert (E : drop_call p (give_back (c_rtp_sess y) s1) =
    drop_call c (drop_call p (give_back (c_rtp_sess y) (give_back (c_rtp_sess x) s)))).
  { subst s1. unfold drop_call, give_back. destruct (c_rtp_sess x), (c_rtp_sess y); cbn;
      by rewrite (delete_delete _ p c). }
  by rewrite <- E.
Qed.

(** C30: destroying a call (and with it its forwarded leg) never faults and never
    loses an RTP session: the sessions of the call and of its leg go to the end
    of the pool, released (not in use, pointing to no call and to no other
    session, with no DTMF receiver), the call and its leg are freed, no other
    call is touched, and the invariant of calls and sessions holds again. *)
Theorem call_destructor_spec s c x :
  calls_inv s → calls s !! c = Some x → not_leg s c →
  ∃ s', deref_call (Some c) s = Ret (tt, s') ∧ calls_inv s' ∧
    let leg := pbx_call x in
    let sessions := option_list (c_rtp_sess x) ++ option_list (leg ≫= λ p, calls s !! p ≫= c_rtp_sess) in
    rtp_sessions s' = rtp_sessions s ++ sessions ∧
    (∀ r, r ∈ sessions → rtps s' !! r = rtp_released <$> rtps s !! r) ∧
    (∀ r, r ∉ sessions → rtps s' !! r = rtps s !! r) ∧
    (∀ c', calls s' !! c' = if decide (c' = c ∨ leg = Some c') then None else calls s !! c') ∧
    dests s' = dests s ∧ cps s' = cps s ∧ gws s' = gws s ∧ acts s' = acts s ∧ app_db s' = app_db s.
Proof.
  intros Hi Hc Hl. exists (after_destroy s c x). split; [by apply deref_call_run|].
  split; [by apply inv_after_destroy|]. cbv zeta. unfold after_destroy.
  destruct (pbx_call x) as [p|] eqn:Ep; cbn [mbind option_bind].
  - destruct (ci_leg s Hi c x p Hc Ep) as (Hne & y & Hy & Hpy). rewrite Hy. cbn [mbind option_bind].
    pose proof (inv_apart s c x p y Hi Hc Hy Hne) as Hap. unfold drop_call. cbn.
    rewrite !pool_give_back, !calls_give_back, <- app_assoc.
    split_and!; try (by destruct (c_rtp_sess x), (c_rtp_sess y)).
    + intros r Hr. rewrite !lookup_give_back. apply elem_of_app in Hr as [Hr|Hr];
        apply elem_of_option_list in Hr; rewrite Hr in *.
      * destruct (c_rtp_sess y) as [q|]; simpl in Hap; repeat case_decide; naive_solver.
      * destruct (c_rtp_sess x) as [q|]; simpl in Hap; repeat case_decide; naive_solver.
    + intros r Hr. rewrite not_elem_of_app, !elem_of_option_list in Hr. rewrite !lookup_give_back.
      repeat case_decide; naive_solver.
    + intros c'. case_decide as Hd.
      * destruct Hd as [->|[= ->]]; [by rewrite lookup_delete_eq|].
        destruct (decide (c = c')) as [->|]; [by rewrite lookup_delete_eq|].
        by rewrite lookup_delete_ne, lookup_delete_eq.
      * rewrite !lookup_delete_ne; naive_solver.
  - rewrite app_nil_r. unfold drop_call. cbn. rewrite pool_give_back, calls_give_back.
    split_and!; try (by destruct (c_rtp_sess x)).
    + intros r Hr. apply elem_of_option_list in Hr. by rewrite lookup_give_back, decide_True.
    + intros r Hr. rewrite elem_of_option_list in Hr. by rewrite lookup_give_back, decide_False.
    + intros c'. case_decide as Hd.
      * destruct Hd as [->|[=]]. by rewrite lookup_delete_eq.
      * rewrite !lookup_delete_ne; naive_solver.
Qed.

(** ** Changes that keep the invariant *)

Lemma inv_alter_call s c f :
  calls_inv s → (∀ x, c_rtp_sess (f x) = c_rtp_sess x) → (∀ x, pbx_call (f x) = pbx_call x) →
  calls_inv (set_calls (alter f c (calls s)) s).
Proof.
  intros [Hpool Hidle Hheld Hinj Harg Hlisten Hremote Hl Hli Hfresh] F1 F2.
  assert (K : ∀ c' x', alter f c (calls s) !! c' = Some x' →
    ∃ x, calls s !! c' = Some x ∧ c_rtp_sess x' = c_rtp_sess x ∧ pbx_call x' = pbx_call x).
  { intros c' x' E. destruct (decide (c = c')) as [<-|].
    - rewrite lookup_alter_eq in E. apply fmap_Some in E as (x & Ex & ->). eauto.
    - rewrite lookup_alter_ne in E by done. eauto. }
  assert (K2 : ∀ c' x, calls s !! c' = Some x →
    ∃ x', alter f c (calls s) !! c' = Some x' ∧ c_rtp_sess x' = c_rtp_sess x ∧ pbx_call x' = pbx_call x).
  { intros c' x E. destruct (decide (c = c')) as [<-|].
    - rewrite lookup_alter_eq, E. simpl. eauto.
    - rewrite lookup_alter_ne by done. eauto. }
  split; cbn; try done.
  - intros c' x' r E Er. destruct (K _ _ E) as (x & Ex & E1 & _). apply (Hheld c' x); congruence.
  - intros c1 c2 x1 x2 r E1 E2 R1 R2. destruct (K _ _ E1) as (y1 & Y1 & S1 & _), (K _ _ E2) as (y2 & Y2 & S2 & _).
    apply (Hinj c1 c2 y1 y2 r); congruence.
  - intros r y c' Hy Ha. destruct (Harg _ _ _ Hy Ha) as (x & Hx & Hr).
    destruct (K2 _ _ Hx) as (x' & Hx' & E1 & _). exists x'. split; congruence.
  - intros c' x' p E Ep. destruct (K _ _ E) as (x & Ex & _ & E2).
    destruct (Hl c' x p) as (Hne & y & Hy & Hpy); [done|congruence|].
    split; [done|]. destruct (K2 _ _ Hy) as (y' & Hy' & _ & E3). exists y'. split; congruence.
  - intros c1 c2 x1 x2 p E1 E2 P1 P2. destruct (K _ _ E1) as (y1 & Y1 & _ & S1), (K _ _ E2) as (y2 & Y2 & _ & S2).
    apply (Hli c1 c2 y1 y2 p); congruence.
  - intros l Hle. destruct (Hfresh l Hle) as [H1 H2]. split; [|done].
    destruct (decide (c = l)) as [<-|]; [by rewrite lookup_alter_eq, H1|by rewrite lookup_alter_ne].
Qed.

Lemma inv_set_call s c x x' :
  calls_inv s → calls s !! c = Some x → c_rtp_sess x' = c_rtp_sess x → pbx_call x' = pbx_call x →
  calls_inv (set_calls (<[c := x']> (calls s)) s).
Proof.
  intros Hi Hc E1 E2.
  pose (f z := set_pbx_call (pbx_call z) (set_c_rtp_sess (c_rtp_sess z) x')).
  assert (Hf : f x = x') by (unfold f; rewrite <- E1, <- E2; by destruct x').
  rewrite <- Hf, <- (alter_insert_eq f _ _ _ Hc). by apply inv_alter_call.
Qed.

(** A session's fields change; what it points to stays right. *)
Lemma inv_alter_rtp s r f :
  calls_inv s → r ∉ rtp_sessions s →
  (∀ y c, rtps s !! r = Some y → rs_arg (f y) = Some c → ∃ x, calls s !! c = Some x ∧ c_rtp_sess x = Some r) →
  (∀ y, rtps s !! r = Some y → rs_telev_recv (f y) = true → is_Some (rs_arg (f y))) →
  (∀ y q, rtps s !! r = Some y → rs_remote (f y) = Some q → is_Some (rtps s !! q)) →
  calls_inv (set_rtps (alter f r (rtps s)) s).
Proof.
  intros [Hpool Hidle Hheld Hinj Harg Hlisten Hremote Hl Hli Hfresh] Hr Fa Fl Fr.
  assert (K : ∀ q y, alter f r (rtps s) !! q = Some y →
    rtps s !! q = Some y ∧ q ≠ r ∨ q = r ∧ ∃ z, rtps s !! r = Some z ∧ y = f z).
  { intros q y E. destruct (decide (r = q)) as [<-|].
    - rewrite lookup_alter_eq in E. apply fmap_Some in E as (z & Ez & ->). eauto.
    - rewrite lookup_alter_ne in E by done. left. split; congruence. }
  assert (K2 : ∀ q, is_Some (rtps s !! q) → is_Some (alter f r (rtps s) !! q)).
  { intros q [y E]. destruct (decide (r = q)) as [<-|].
    - rewrite lookup_alter_eq, E. eauto.
    - rewrite lookup_alter_ne by done. eauto. }
  split; cbn; try done.
  - intros q Hq. rewrite lookup_alter_ne by (by intros ->). by apply Hidle.
  - intros c x q E Eq. destruct (Hheld _ _ _ E Eq) as [H1 H2]. auto.
  - intros q y c Hy Ha. destruct (K _ _ Hy) as [[H1 H2]|(-> & z & Hz & ->)]; [by eapply Harg|by eapply Fa].
  - intros q y Hy Hlis. destruct (K _ _ Hy) as [[H1 H2]|(-> & z & Hz & ->)]; [by eapply Hlisten|by eapply Fl].
  - intros q y w Hy Hw. apply K2. destruct (K _ _ Hy) as [[H1 H2]|(-> & z & Hz & ->)]; [by eapply Hremote|by eapply Fr].
  - intros l Hle. destruct (Hfresh l Hle) as [H1 H2]. split; [done|].
    destruct (decide (r = l)) as [<-|]; [by rewrite lookup_alter_eq, H2|by rewrite lookup_alter_ne].
Qed.

(** A new call object. *)
Definition with_call (s : app) : app :=
  set_next (Pos.succ (next s)) (set_calls (<[next s := call_zero]> (calls s)) s).

Lemma inv_with_call s : calls_inv s → calls_inv (with_call s) ∧ not_leg (with_call s) (next s).
Proof.
  intros [Hpool Hidle Hheld Hinj Harg Hlisten Hremote Hl Hli Hfresh].
  destruct (Hfresh (next s) ltac:(lia)) as [F1 F2].
  assert (K : ∀ c x, calls (with_call s) !! c = Some x → c = next s ∧ x = call_zero ∨ c ≠ next s ∧ calls s !! c = Some x).
  { intros c x E. cbn in E. apply lookup_insert_Some in E. naive_solver. }
  split; [split; cbn -[with_call]; try done|].
  - intros c x r E Er. destruct (K _ _ E) as [[-> ->]|[? ?]]; [done|by eapply Hheld].
  - intros c1 c2 x1 x2 r E1 E2 R1 R2. destruct (K _ _ E1) as [[-> ->]|[? ?]]; [done|].
    destruct (K _ _ E2) as [[-> ->]|[? ?]]; [done|]. by eapply Hinj.
  - intros r y c Hy Ha. destruct (Harg _ _ _ Hy Ha) as (x & Hx & Hr). exists x.
    split; [|done]. cbn. rewrite lookup_insert_ne; [done|]. intros <-. congruence.
  - intros c x p E Ep. destruct (K _ _ E) as [[-> ->]|[? ?]]; [done|].
    destruct (Hl c x p) as (Hne & y & Hy & Hpy); [done..|]. split; [done|]. exists y. split; [|done].
    cbn. rewrite lookup_insert_ne; [done|]. intros <-. congruence.
  - intros c1 c2 x1 x2 p E1 E2 P1 P2. destruct (K _ _ E1) as [[-> ->]|[? ?]]; [done|].
    destruct (K _ _ E2) as [[-> ->]|[? ?]]; [done|]. by eapply Hli.
  - intros l Hle. cbn in *. destruct (Hfresh l) as [H1 H2]; [lia|]. split; [|done].
    rewrite lookup_insert_ne; [done|lia].
  - intros c x E Ep. destruct (K _ _ E) as [[-> ->]|[? E']]; [done|].
    destruct (Hl _ _ _ E' Ep) as (_ & y & Hy & _). congruence.
Qed.

(** The first session of the pool is taken. *)
Definition take_rtp (f : rtp_session → rtp_session) (r : loc) (rest : list loc) (s : app) : app :=
  set_rtp_sessions rest (set_rtps (alter f r (rtps s)) s).

Lemma inv_take s r rest f :
  calls_inv s → rtp_sessions s = r :: rest →
  (∀ y, rs_arg (f y) = rs_arg y ∧ rs_telev_recv (f y) = rs_telev_recv y ∧ rs_remote (f y) = rs_remote y) →
  calls_inv (take_rtp f r rest s) ∧ r ∉ rest ∧ (∀ c x, calls s !! c = Some x → c_rtp_sess x ≠ Some r).
Proof.
  intros Hi Ep F. pose proof (ci_pool _ Hi) as Hnd. rewrite Ep in Hnd. inversion Hnd as [|? ? Hnin Hnd']; subst.
  assert (Hr : ∀ c x, calls s !! c = Some x → c_rtp_sess x ≠ Some r).
  { intros c x Hc Hx. destruct (ci_held _ Hi _ _ _ Hc Hx) as [_ Hni]. apply Hni. rewrite Ep. by left. }
  assert (Hi1 : calls_inv (set_rtp_sessions rest s)).
  { destruct Hi as [Hpool Hidle Hheld Hinj Harg Hlisten Hremote Hl Hli Hfresh]. split; cbn; try done.
    - intros q Hq. apply Hidle. rewrite Ep. by right.
    - intros c x q E Eq. destruct (Hheld _ _ _ E Eq) as [H1 H2]. split; [done|]. rewrite Ep in H2. set_solver. }
  split; [|done]. apply (inv_alter_rtp _ r f) in Hi1; [done|done|..]; cbn.
  - intros y c Hy Ha. destruct (F y) as (E1 & _ & _). rewrite E1 in Ha.
    destruct (ci_arg _ Hi _ _ _ Hy Ha) as (x & Hx & Hxr). by destruct (Hr _ _ Hx).
  - intros y Hy Ht. destruct (F y) as (-> & E2 & _). rewrite E2 in Ht. by eapply ci_listen.
  - intros y q Hy Hq. destruct (F y) as (_ & _ & E3). rewrite E3 in Hq. by eapply ci_remote.
Qed.

(** The taken session is given to a call that has none. *)
Lemma inv_give s c x r :
  calls_inv s → calls s !! c = Some x → c_rtp_sess x = None → is_Some (rtps s !! r) → r ∉ rtp_sessions s →
  (∀ c' x', calls s !! c' = Some x' → c_rtp_sess x' ≠ Some r) →
  calls_inv (set_calls (alter (λ x, set_c_rtp_sess (Some r) (set_c_sdp true x)) c (calls s)) s).
Proof.
  intros [Hpool Hidle Hheld Hinj Harg Hlisten Hremote Hl Hli Hfresh] Hc Hx Hr Hp Ho.
  set (f := λ x, _). rewrite (alter_insert_eq f _ _ _ Hc).
  assert (K : ∀ c' x', <[c := f x]> (calls s) !! c' = Some x' →
    c' = c ∧ c_rtp_sess x' = Some r ∧ pbx_call x' = pbx_call x ∨ c' ≠ c ∧ calls s !! c' = Some x').
  { intros c' x' E. apply lookup_insert_Some in E as [[<- <-]|[? ?]]; [left|right]; naive_solver. }
  split; cbn; try done.
  - intros c' x' q E Eq. destruct (K _ _ E) as [(-> & E1 & _)|[? E']]; [|by eapply Hheld].
    assert (q = r) as -> by congruence. done.
  - intros c1 c2 x1 x2 q E1 E2 R1 R2.
    destruct (K _ _ E1) as [(-> & S1 & _)|[? E1']], (K _ _ E2) as [(-> & S2 & _)|[? E2']]; [done| | |].
    + exfalso. apply (Ho c2 x2); congruence.
    + exfalso. apply (Ho c1 x1); congruence.
    + by eapply Hinj.
  - intros q y c' Hy Ha. destruct (Harg _ _ _ Hy Ha) as (x' & Hx' & Hq).
    exists x'. split; [|done]. rewrite lookup_insert_ne; [done|]. intros <-. congruence.
  - intros c' x' p E Ep. assert (∃ x0, calls s !! c' = Some x0 ∧ pbx_call x0 = Some p) as (x0 & E0 & P0).
    { destruct (K _ _ E) as [(-> & _ & E1)|[? E']]; [exists x|exists x']; split; congruence. }
    destruct (Hl _ _ _ E0 P0) as (Hne & y & Hy & Hpy). split; [done|].
    destruct (decide (c = p)) as [<-|].
    + exists (f x). rewrite lookup_insert_eq. split; [done|]. simplify_eq. done.
    + exists y. by rewrite lookup_insert_ne.
  - intros c1 c2 x1 x2 p E1 E2 P1 P2.
    assert (H0 : ∀ c' x', <[c := f x]> (calls s) !! c' = Some x' → pbx_call x' = Some p →
      ∃ x0, calls s !! c' = Some x0 ∧ pbx_call x0 = Some p).
    { intros c' x' E Ep. destruct (K _ _ E) as [(-> & _ & E')|[? E']]; [exists x|exists x']; split; congruence. }
    destruct (H0 _ _ E1 P1) as (y1 & Y1 & Q1), (H0 _ _ E2 P2) as (y2 & Y2 & Q2). by eapply Hli.
  - intros l Hle. destruct (Hfresh l Hle) as [H1 H2]. split; [|done].
    rewrite lookup_insert_ne; [done|]. intros ->. congruence.
Qed.

Lemma calls_inv_ext s s' :
  calls s' = calls s → rtps s' = rtps s → rtp_sessions s' = rtp_sessions s → next s' = next s →
  calls_inv s → calls_inv s'.
Proof. intros E1 E2 E3 E4 []. split; rewrite ?E1, ?E2, ?E3, ?E4; done. Qed.

Lemma upd_call_run c (f : call → call) s :
  is_Some (calls s !! c) → upd c f s = Ret (tt, set_calls (alter f c (calls s)) s).
Proof. intros. by rewrite upd_alter. Qed.

Lemma upd_rtp_run r (f : rtp_session → rtp_session) s :
  is_Some (rtps s !! r) → upd r f s = Ret (tt, set_rtps (alter f r (rtps s)) s).
Proof. intros. by rewrite upd_alter. Qed.

Lemma upd_ref_rtp_run r (f : rtp_session → rtp_session) s :
  is_Some (rtps s !! r) → upd_ref (Some r) f s = Ret (tt, set_rtps (alter f r (rtps s)) s).
Proof. apply upd_rtp_run. Qed.

(** ** An attempt to call *)

Section attempt.
Context `{env}.

(** A decoded gateway URI: its user, host and prefix, and the payload type of
    its codec parameter. *)
Record gateway_ok (u : uri) (user host prefix : list Z) (pt : Z) : Prop := {
  go_user : views (u_user u) user;
  go_host : views (u_host u) host;
  go_port : 0 ≤ u_port u < 65536;
  go_prefix : ∃ err v, uri_param_get (u_params u) (pl_set_str pl_null (Some prefix_name)) = Ret (err, v) ∧
    match v with Some v => views v prefix | None => prefix = [] end;
  go_codec : ∃ err v, uri_param_get (u_params u) (pl_set_str pl_null (Some codec_name)) = Ret (err, v) ∧
    if bool_decide (err = 0) then ∃ n, pl_u32 (default pl_null v) = Ret n ∧ pt = u8 n else pt = 0;
  go_size : Z.of_nat (length user) ≤ 4096 ∧ Z.of_nat (length host) ≤ 4096 ∧ Z.of_nat (length prefix) ≤ 4096
}.

Definition invite_uri (prefix tel host : list Z) (port : Z) : list Z :=
  bytes_of "sip:" ++ prefix ++ tel ++ bytes_of "@" ++ host ++ bytes_of ":" ++ int_text port.

Definition laddr_ok (a : sockaddr) : Prop :=
  match a with
  | SockAddr (Some t) port false => Z.of_nat (length t) ≤ 64 ∧ 0 ≤ port < 65536
  | _ => False
  end.

(** Texts built from pieces, in the shape the code's format and arguments have. *)
Lemma sdprintf_pieces ps fmt args t s :
  fmt = fmt_of ps → args = args_of ps → t = text_of ps → plenty mem → Forall piece_ok ps →
  Z.of_nat (length t) < 2 ^ 31 → sdprintf fmt args s = Ret (t, s).
Proof. intros -> -> ->. apply sdprintf_run. Qed.

Lemma remote_uri_run u user host prefix pt pl1 tel s :
  plenty mem → gateway_ok u user host prefix pt → Z.of_nat (length tel) ≤ 4096 →
  remote_uri u pl1 (Some tel) s = Ret (invite_uri prefix tel host (u_port u), s).
Proof.
  intros Hm [_ [hr Hh] Hp Hpre _ Hsz] Ht. pose proof (int_text_length (u_port u) ltac:(lia)) as Hl. unfold remote_uri.
  assert (Hw : ∀ pre, Forall piece_ok (PLit (bytes_of "sip:") :: pre ++ [PStr tel; PLit (bytes_of "@"); PPl host hr; PLit (bytes_of ":"); PInt (u_port u)]) ↔ Forall piece_ok pre).
  { intros pre. rewrite Forall_cons, Forall_app. split; [naive_solver|]. intros Hpo. split_and!; [|done|].
    - apply (bool_decide_eq_true_1 _). vm_compute. done.
    - repeat constructor; simpl; try lia; done. }
  destruct Hpre as (err & ov & Eget & Hpre). unfold lift. erewrite prog_bind_step by (by rewrite Eget). cbn [snd].
  rewrite Hh. set (v := default _ ov).
  destruct (pl_isset v) eqn:Eset.
  - assert (Hv : views v prefix).
    { subst v. destruct ov; [done|]. exfalso. revert Eset. unfold pl_isset. simpl.
      by destruct (pl_p pl1). }
    destruct Hv as [pr ->].
    apply (sdprintf_pieces [PLit (bytes_of "sip:"); PPl prefix pr; PStr tel; PLit (bytes_of "@"); PPl host hr;
      PLit (bytes_of ":"); PInt (u_port u)]); [done|done| |done| |].
    + unfold text_of. simpl. by rewrite app_nil_r.
    + apply (Hw [PPl prefix pr]). by repeat constructor.
    + unfold invite_uri. simpl. rewrite !length_app. simpl. rewrite !length_app. simpl. lia.
  - assert (prefix = []) as ->.
    { subst v. destruct ov; [|done]. destruct Hpre as [pr ->].
      destruct prefix; [done|]. revert Eset. unfold pl_isset. cbn [from_option default id pl_p pl_l length].
      by rewrite bool_decide_eq_false_2 by lia. }
    apply (sdprintf_pieces [PLit (bytes_of "sip:"); PStr tel; PLit (bytes_of "@"); PPl host hr;
      PLit (bytes_of ":"); PInt (u_port u)]); [done|done| |done| |].
    + unfold text_of. simpl. by rewrite app_nil_r.
    + by apply (Hw []).
    + unfold invite_uri. simpl. rewrite !length_app. simpl. rewrite !length_app. simpl. lia.
Qed.

Lemma filter_ne (r : loc) (l : list loc) : r ∉ l → filter (λ x, x ≠ r) l = l.
Proof.
  induction l as [|x l IH]; [done|]. intros [? ?]%not_elem_of_cons.
  by rewrite filter_cons_True, IH by congruence.
Qed.

Lemma find_rtp_session_run s r rest :
  calls_inv s → rtp_sessions s = r :: rest →
  find_rtp_session s = Ret (Some r, take_rtp (set_rs_in_use true) r rest s).
Proof.
  intros Hi Ep. destruct (ci_idle _ Hi r) as (y & Hy & Hrel); [rewrite Ep; by left|].
  pose proof (ci_pool _ Hi) as Hnd. rewrite Ep in Hnd. inversion Hnd as [|? ? Hnin _]; subst.
  unfold find_rtp_session. erewrite prog_bind_step by done. rewrite Ep. cbn [find_free]. step.
  assert (rs_in_use y = false) as -> by (by rewrite <- Hrel).
  erewrite prog_bind_step by (by apply upd_rtp_run). unfold list_unlink_rtp.
  erewrite prog_bind_step by done. unfold mret, prog_ret, take_rtp. cbn. rewrite Ep. f_equal. f_equal.
  rewrite filter_cons_False by naive_solver. by rewrite filter_ne.
Qed.

Definition taken (r : loc) (rest : list loc) (s : app) : app :=
  take_rtp (λ y, set_rs_connected true (set_rs_in_use true y)) r rest s.

Lemma sdp_sess_alloc_run s e :
  calls_inv s → e_sdp_session e = 0 →
  sdp_sess_alloc e s =
    match rtp_sessions s with
    | [] => Ret ((1, None), s)
    | r :: rest =>
        if bool_decide (sdp_err e ≠ 0) then Ret ((sdp_err e, None), take_rtp (set_rs_in_use true) r rest s)
        else Ret ((0, Some r), taken r rest s)
    end.
Proof.
  intros Hi He. unfold sdp_sess_alloc. destruct (rtp_sessions s) as [|r rest] eqn:Ep.
  - erewrite prog_bind_step by (unfold find_rtp_session; erewrite prog_bind_step by done; by rewrite Ep). done.
  - erewrite prog_bind_step by (by apply find_rtp_session_run). cbn beta iota.
    rewrite bool_decide_eq_false_2 by lia. case_bool_decide; [done|].
    destruct (ci_idle _ Hi r) as (y & Hy & _); [rewrite Ep; by left|].
    erewrite prog_bind_step by (apply upd_rtp_run; cbn; by rewrite lookup_alter_eq, Hy).
    unfold mret, prog_ret, taken, take_rtp. cbn. by rewrite alter_alter_eq.
Qed.

(** What an attempt yields from a pool: the error, the pool afterwards, and
    whether the INVITE was built. *)
Definition attempt (e : call_env) (pool : list loc) : Z * list loc * bool :=
  match pool with
  | [] => (1, [], false)
  | r :: rest =>
      if bool_decide (sdp_err e ≠ 0) then (sdp_err e, rest, false)
      else if bool_decide (e_sdp_encode e ≠ 0) then (e_sdp_encode e, rest ++ [r], false)
      else if bool_decide (fst (e_rtp_alloc e) ≠ 0) then (fst (e_rtp_alloc e), rest ++ [r], true)
      else (0, rest, true)
  end.

(** The call object of a successful attempt. *)
Definition new_call (e : call_env) (now pt : Z) (g d r : ref) : call :=
  call_started e now pt g d (set_c_rs (snd (e_rtp_alloc e))
    (set_c_sess (bool_decide (e_connect e = 0)) (set_c_rtp_sess r (set_c_sdp true call_zero)))).

(** What an attempt leaves alone. *)
Definition same_world (s s' : app) : Prop :=
  gws s' = gws s ∧ gateways s' = gateways s ∧ cps s' = cps s ∧ services s' = services s ∧
  dests s' = dests s ∧ acts s' = acts s ∧ app_db s' = app_db s ∧ laddr s' = laddr s ∧
  audio_path s' = audio_path s ∧ clock s' = clock s ∧ wire s' = wire s.

(** Hypotheses on an attempt: the call object and the texts can be allocated,
    the gateway's URI is decoded, the number is not longer than 4096 bytes. *)
Record attempt_ok (s : app) (tel : list Z) (g : loc) (u : uri) (user host prefix : list Z) : Prop := {
  ao_mem : plenty mem;
  ao_zalloc : e_zalloc (call_results (next s)) = true;
  ao_session : e_sdp_session (call_results (next s)) = 0;
  ao_gateway : ∃ id str, gws s !! g = Some (Gateway id str u);
  ao_uri : ∃ pt, gateway_ok u user host prefix pt;
  ao_tel : Z.of_nat (length tel) ≤ 4096;
  ao_laddr : laddr_ok (laddr s)
}.

Lemma call_fail_run s c x err :
  calls_inv s → calls s !! c = Some x → pbx_call x = None → not_leg s c →
  call_fail c err s = Ret ((err, None), drop_call c (give_back (c_rtp_sess x) s)) ∧
  calls_inv (drop_call c (give_back (c_rtp_sess x) s)).
Proof.
  intros Hi Hc Hp Hl. split; [|by apply inv_drop]. unfold call_fail.
  erewrite prog_bind_step by (by apply deref_call_run). unfold after_destroy. by rewrite Hp.
Qed.

Lemma strdup_unchecked_run p t s :
  plenty mem → views p t → Z.of_nat (length t) < 2 ^ 31 → strdup_unchecked p s = Ret (t, s).
Proof.
  intros Hm [r ->] Hl. unfold strdup_unchecked, pl_strdup. cbn [pl_p pl_l].
  rewrite Hm by (rewrite u64_id; lia). unfold pl_bytes. cbn [pl_p pl_l].
  rewrite memcpy_from_run by (rewrite ?length_app; lia). cbn [mbind outcome_bind].
  by rewrite drop_0, Nat2Z.id, take_app_length.
Qed.

Lemma url_run u user a s :
  plenty mem → views u user → Z.of_nat (length user) ≤ 4096 → laddr_ok a →
  ∃ t, sdprintf (bytes_of "sip:%r@%J") [VPl (Some u); VSa (Some a)] s = Ret (t, s).
Proof.
  intros Hm [r ->] Hl Ha. destruct a as [[t|] port []]; try done. destruct Ha as [Ht Hp].
  pose proof (dec_text_length port ltac:(lia)) as Hd.
  eexists. apply (sdprintf_pieces [PLit (bytes_of "sip:"); PPl user r; PLit (bytes_of "@"); PAddr t port]);
    [done|done|done|done| |].
  - repeat constructor; simpl; try lia; apply (bool_decide_eq_true_1 _); vm_compute; done.
  - unfold text_of. simpl. rewrite ?length_app. simpl. rewrite ?length_app. simpl. lia.
Qed.

(** An INVITE that the stack refuses leaves the call without a session. *)
Lemma sipsess_connect_run e c x uri s :
  calls s !! c = Some x → c_sess x = false →
  sipsess_connect e c uri s = Ret (tt, set_calls (<[c := set_c_sess (bool_decide (e_connect e = 0)) x]> (calls s))
    (set_invites (invites s ++ if bool_decide (e_connect e = 0) then [(c, uri)] else []) s)).
Proof.
  intros Hc Hx. unfold sipsess_connect. case_bool_decide.
  - step. by erewrite upd_run by heap_lookup.
  - rewrite app_nil_r, insert_id; [by destruct s|]. rewrite Hc. f_equal. destruct x; cbn in *. by subst.
Qed.

(** What is known of the state when an attempt returns. *)
Definition attempted (s s' : app) (err : Z) (pool : list loc) (sent : list (loc * list Z)) (x : call) : Prop :=
  calls_inv s' ∧ not_leg s' (next s) ∧ rtp_sessions s' = pool ∧ next s' = Pos.succ (next s) ∧ same_world s s' ∧
  invites s' = invites s ++ sent ∧
  calls s' = if bool_decide (err = 0) then <[next s := x]> (calls s) else calls s.

Lemma call_alloc_failed s s1 x y err sent :
  calls_inv s → calls_inv s1 → not_leg s1 (next s) → calls s1 = <[next s := x]> (calls s) → pbx_call x = None →
  next s1 = Pos.succ (next s) → same_world s s1 → invites s1 = invites s ++ sent → err ≠ 0 →
  ∃ s', call_fail (next s) err s1 = Ret ((err, None), s') ∧
    attempted s s' err (rtp_sessions s1 ++ option_list (c_rtp_sess x)) sent y.
Proof.
  intros Hi Hi1 Hl Hc Hp Hn Hw Hv He.
  assert (Hx : calls s1 !! next s = Some x) by (by rewrite Hc, lookup_insert_eq).
  destruct (call_fail_run s1 (next s) x err Hi1 Hx Hp Hl) as [-> Hi2]. eexists; split; [done|].
  destruct (ci_fresh _ Hi (next s) ltac:(lia)) as [Hf _].
  assert (Hcalls : calls (drop_call (next s) (give_back (c_rtp_sess x) s1)) = calls s).
  { unfold drop_call. cbn. rewrite calls_give_back, Hc. by rewrite delete_insert_eq, delete_id. }
  unfold attempted. rewrite Hcalls. split_and!; try done.
  - intros c' x' Hc' Hp'. rewrite Hcalls in Hc'. destruct (ci_leg _ Hi c' x' (next s)) as (_ & z & Hz & _); congruence.
  - unfold drop_call. cbn. by rewrite pool_give_back.
  - unfold drop_call. cbn. by rewrite next_give_back.
  - unfold same_world, drop_call in *. cbn. by destruct (c_rtp_sess x).
  - unfold drop_call. cbn. by destruct (c_rtp_sess x).
  - by rewrite bool_decide_eq_false_2.
Qed.

Lemma call_alloc_run s tel g isPbx d u user host prefix pt pl1 :
  calls_inv s → attempt_ok s tel g u user host prefix →
  offer_pt (Some g) isPbx d (with_call s) = Ret ((pt, pl1), with_call s) →
  let e := call_results (next s) in
  let '(err, pool, sent) := attempt e (rtp_sessions s) in
  ∃ s', call_alloc (Some tel) (Some g) isPbx d s =
      Ret ((err, if bool_decide (err = 0) then Some (next s) else None), s') ∧
    attempted s s' err pool
      (if (sent : bool) && bool_decide (e_connect e = 0) then [(next s, invite_uri prefix tel host (u_port u))] else [])
      (new_call e (clock s / 1000) pt (Some g) d (head (rtp_sessions s))).
Proof.
  intros Hi [Hm Hz Hs (id & str & Hg) [pt0 Hgo] Ht Hla] Ho e. fold e in Hz, Hs.
  destruct (inv_with_call s Hi) as [Hi1 Hl1].
  destruct (ci_fresh _ Hi (next s) ltac:(lia)) as [Hf _].
  unfold call_alloc. erewrite prog_bind_step by done. fold e. rewrite Hz. cbn [negb].
  erewrite (prog_bind_step _ _ _ (next s) (with_call s)) by done.
  erewrite prog_bind_step by exact Ho. cbn beta iota.
  pose proof (sdp_sess_alloc_run (with_call s) e Hi1 Hs) as Hsdp.
  change (rtp_sessions (with_call s)) with (rtp_sessions s) in Hsdp.
  destruct (rtp_sessions s) as [|r rest] eqn:Ep; cbn [attempt].
  { erewrite prog_bind_step by exact Hsdp. cbn beta iota.
    rewrite (bool_decide_eq_true_2 (1 ≠ 0)), (bool_decide_eq_false_2 (1 = 0)) by done.
    destruct (call_alloc_failed s (with_call s) call_zero (new_call e (clock s / 1000) pt (Some g) d None) 1 []) as (s' & E & H1);
      [done..|by repeat split|by rewrite app_nil_r|done|].
    exists s'. split; [exact E|]. cbn in H1. rewrite Ep in H1. apply H1. }
  destruct (inv_take (with_call s) r rest (set_rs_in_use true) Hi1 Ep ltac:(done)) as (Hi2 & Hnin & Hno).
  case_bool_decide as Hse.
  { erewrite prog_bind_step by exact Hsdp. cbn beta iota.
    rewrite (bool_decide_eq_true_2 (sdp_err e ≠ 0)), (bool_decide_eq_false_2 (sdp_err e = 0)) by done.
    destruct (call_alloc_failed s (take_rtp (set_rs_in_use true) r rest (with_call s)) call_zero
        (new_call e (clock s / 1000) pt (Some g) d (Some r)) (sdp_err e) []) as (s' & E & H1);
      [done..|by repeat split|by rewrite app_nil_r|done|].
    exists s'. split; [exact E|]. cbn in H1. rewrite app_nil_r in H1. apply H1. }
  erewrite prog_bind_step by exact Hsdp. cbn beta iota. rewrite (bool_decide_eq_false_2 (0 ≠ 0)) by lia.
  destruct (inv_take (with_call s) r rest (λ y, set_rs_connected true (set_rs_in_use true y)) Hi1 Ep ltac:(done)) as (Hi2' & _ & _).
  fold (taken r rest (with_call s)) in Hi2'.
  destruct (ci_idle _ Hi1 r) as (y & Hy & _); [change (r ∈ rtp_sessions s); rewrite Ep; by left|].
  set (s2 := taken r rest (with_call s)) in *.
  assert (Hc2 : calls s2 !! next s = Some call_zero) by (cbn; by rewrite lookup_insert_eq).
  assert (Hr2 : rtps s2 !! r = Some (set_rs_connected true (set_rs_in_use true y))) by (cbn; change (rtps (with_call s)) with (rtps s) in Hy; by rewrite lookup_alter_eq, Hy).
  erewrite prog_bind_step by (apply upd_call_run; by rewrite Hc2).
  pose proof (inv_give s2 (next s) call_zero r Hi2' Hc2 eq_refl ltac:(by rewrite Hr2) Hnin Hno) as Hi3.
  set (x3 := set_c_rtp_sess (Some r) (set_c_sdp true call_zero)).
  assert (Hl3 : ∀ s', calls s' = <[next s := x3]> (calls s) → not_leg s' (next s)).
  { intros s' E c' x' Hc' Hp'. rewrite E in Hc'. apply lookup_insert_Some in Hc' as [[<- <-]|[Hne Hc']]; [done|].
    destruct (ci_leg _ Hi c' x' (next s)) as (_ & z & Hz' & _); congruence. }
  rewrite (alter_insert_eq _ _ _ _ Hc2) in Hi3 |- *. fold x3 in Hi3 |- *.
  assert (Ec3 : <[next s := x3]> (calls s2) = <[next s := x3]> (calls s)) by (cbn; by rewrite insert_insert_eq).
  rewrite Ec3 in Hi3 |- *. set (s3 := set_calls (<[next s := x3]> (calls s)) s2) in *.
  case_bool_decide as Hen.
  { rewrite (bool_decide_eq_false_2 (e_sdp_encode e = 0)) by done.
    destruct (call_alloc_failed s s3 x3 (new_call e (clock s / 1000) pt (Some g) d (Some r)) (e_sdp_encode e) []) as (s' & E & H1);
      [done|done|by apply Hl3|done..|by repeat split|by rewrite app_nil_r|done|].
    exists s'. split; [exact E|]. cbn in H1. apply H1. }
  erewrite prog_bind_step by (eapply deref_run; exact Hg). cbn [sip_uri].
  erewrite prog_bind_step by (by eapply remote_uri_run).
  erewrite prog_bind_step by (eapply strdup_unchecked_run; [done|by eapply go_user|pose proof (go_size _ _ _ _ _ Hgo); lia]).
  erewrite prog_bind_step by done.
  destruct (url_run (u_user u) user (laddr s3) s3 Hm (go_user _ _ _ _ _ Hgo) ltac:(by pose proof (go_size _ _ _ _ _ Hgo); lia) Hla) as [url Hurl].
  erewrite prog_bind_step by exact Hurl.
  erewrite prog_bind_step by (eapply sipsess_connect_run; [apply lookup_insert_eq|done]).
  erewrite prog_bind_step by (eapply upd_run; apply lookup_insert_eq).
  set (b := bool_decide (e_connect e = 0)). set (rs := snd (e_rtp_alloc e)).
  set (x5 := set_c_rs rs (set_c_sess b x3)).
  set (inv5 := if b then _ else []).
  set (s5 := set_calls (<[next s := x5]> (calls s)) (set_invites (invites s ++ inv5) s3)).
  match goal with |- context [(upd_ref (Some r) _ ≫= _) ?st] => replace st with s5
    by (subst s5; cbn; by rewrite !insert_insert_eq) end.
  assert (Hi5 : calls_inv s5).
  { eapply (calls_inv_ext (set_calls (alter (λ x, set_c_rs rs (set_c_sess b x)) (next s) (calls s3)) s3)); try done.
    - cbn. erewrite (alter_insert_eq _ _ _ x3) by apply lookup_insert_eq. by rewrite insert_insert_eq.
    - by apply inv_alter_call. }
  assert (Hc5 : calls s5 !! next s = Some x5) by apply lookup_insert_eq.
  erewrite prog_bind_step by (unfold upd_ref; erewrite prog_bind_step by done; apply upd_rtp_run; eexists; exact Hr2).
  set (s6 := set_rtps (alter (set_rs_arg (Some (next s))) r (rtps s5)) s5).
  assert (Hi6 : calls_inv s6).
  { apply inv_alter_rtp; [done|exact Hnin|..].
    - intros z c _ [= <-]. by exists x5.
    - intros z _ _. by eexists.
    - intros z q Hz' Hq. by eapply (ci_remote _ Hi5). }
  case_bool_decide as Hra.
  { rewrite (bool_decide_eq_false_2 (fst (e_rtp_alloc e) = 0)) by done.
    destruct (call_alloc_failed s s6 x5 (new_call e (clock s / 1000) pt (Some g) d (Some r)) (fst (e_rtp_alloc e))
      inv5) as (s' & E & H1); [done|done| |done..|by repeat split|done|done|].
    { intros c' x' Hc' Hp'. cbn in Hc'. apply lookup_insert_Some in Hc' as [[<- <-]|[Hne Hc']]; [done|].
      destruct (ci_leg _ Hi c' x' (next s)) as (_ & z & Hz' & _); congruence. }
    exists s'. split; [exact E|]. apply H1. }
  rewrite (bool_decide_eq_true_2 (fst (e_rtp_alloc e) = 0)), (bool_decide_eq_true_2 (0 = 0)) by lia.
  erewrite prog_bind_step by done. erewrite prog_bind_step by (apply upd_call_run; eexists; exact Hc5).
  eexists. split; [done|]. unfold attempted. cbn [head].
  rewrite (alter_insert_eq _ _ _ x5) by done.
  assert (Ec : <[next s := call_started e (clock s6 / 1000) pt (Some g) d x5]> (calls s6) =
    <[next s := new_call e (clock s / 1000) pt (Some g) d (Some r)]> (calls s)).
  { cbn. by rewrite insert_insert_eq. }
  change (calls s6) with (calls s5) in Ec. split_and!; try done; try by repeat split.
  - rewrite <- (alter_insert_eq _ _ _ x5 Hc5). by apply (inv_alter_call s6).
  - intros c' x' Hc'' Hp'. pose proof (eq_trans (eq_sym (f_equal (lookup c') Ec)) Hc'') as Hc'.
    apply lookup_insert_Some in Hc' as [[<- <-]|[Hne Hc']]; [done|].
    destruct (ci_leg _ Hi c' x' (next s)) as (_ & z & Hz' & _); congruence.
Qed.

(** The payload type an attempt offers: that of the call being forwarded, or
    the gateway's. *)
Definition offered (s : app) (isPbx : bool) (d : ref) (u : uri) (user host prefix : list Z) (pt : Z) : Prop :=
  if isPbx then
    ∃ l dest c0 m, d = Some l ∧ dests s !! l = Some dest ∧ d_call dest = Some c0 ∧ calls s !! c0 = Some m ∧ pt = c_pt m
  else gateway_ok u user host prefix pt.

Lemma offer_pt_run s tel g isPbx d u user host prefix pt :
  calls_inv s → attempt_ok s tel g u user host prefix → offered s isPbx d u user host prefix pt →
  ∃ pl1, offer_pt (Some g) isPbx d (with_call s) = Ret ((pt, pl1), with_call s).
Proof.
  intros Hi Hok Ho. destruct isPbx; simpl in Ho.
  - destruct Ho as (l & dest & c0 & m & -> & Hl & Hd & Hm & ->). eexists. unfold offer_pt.
    erewrite prog_bind_step by (eapply deref_run; exact Hl). rewrite Hd.
    erewrite prog_bind_step; [done|]. apply deref_run. cbn. rewrite lookup_insert_ne; [done|].
    intros <-. destruct (ci_fresh _ Hi (next s) ltac:(lia)). congruence.
  - destruct (ao_gateway _ _ _ _ _ _ _ Hok) as (id & str & Hg). pose proof (go_codec _ _ _ _ _ Ho) as Hpt.
    unfold offer_pt. erewrite prog_bind_step by (eapply deref_run; exact Hg). cbn [sip_uri].
    destruct Hpt as (err & v & Eget & Hpt). unfold lift at 1. erewrite prog_bind_step by (by rewrite Eget).
    exists (default pl_null v). case_bool_decide; [|by subst].
    destruct Hpt as (n & Hn & ->). unfold lift. erewrite prog_bind_step; [done|]. simpl. by rewrite Hn.
Qed.

End attempt.

(** ** Start-up *)

(** Before any call, with a pool of released sessions. *)
Lemma inv_idle s :
  calls s = ∅ → NoDup (rtp_sessions s) → (∀ r, r ∈ rtp_sessions s → is_Some (rtps s !! r)) →
  (∀ r y, rtps s !! r = Some y → rtp_released y = y) →
  (∀ l, (next s ≤ l)%positive → rtps s !! l = None) → calls_inv s.
Proof.
  intros Hc Hnd Hp Hr Hf. split; rewrite ?Hc; try (by intros; simplify_map_eq); try done.
  - intros r Hin. destruct (Hp r Hin) as [y Hy]. exists y. split; [done|by eapply Hr].
  - intros r y c Hy Ha. apply Hr in Hy. rewrite <- Hy in Ha. done.
  - intros r y Hy Ha. apply Hr in Hy. rewrite <- Hy in Ha. done.
  - intros r y q Hy Ha. apply Hr in Hy. rewrite <- Hy in Ha. done.
  - intros l Hl. split; [by rewrite lookup_empty|by apply Hf].
Qed.

Lemma listen_loop_spec listen rand n : ∀ e,
  (n = O → e ≠ 0) →
  match listen_loop listen rand 8000 20000 n e with
  | (err, Some port) => err = 0 ∧ Z.even port = true ∧ 8000 ≤ port < 20000 ∧ listen port = 0
  | (err, None) => err ≠ 0
  end.
Proof.
  induction n as [|n IH]; intros e He; cbn [listen_loop]; [auto|].
  destruct (range_port_ok 8000 20000 (rand n)) as (H1 & H2 & H3); [lia|lia|done|done|].
  set (p := range_port _ _ _) in *. case_bool_decide as L; [by apply IH|].
  split_and!; [done|done|lia|lia|done].
Qed.

(** A session as [rtp_session_allocate] leaves it. *)
Definition fresh_session (addr : sockaddr) (y : rtp_session) : Prop :=
  ∃ port, 8000 ≤ port < 20000 ∧ Z.even port = true ∧
    y = RtpSession (SockAddr (sa_text addr) port (sa_v6 addr)) sa_zero false false None false None None.

Definition pool_ok (addr : sockaddr) (s : app) : Prop :=
  NoDup (rtp_sessions s) ∧ (∀ r, r ∈ rtp_sessions s → is_Some (rtps s !! r)) ∧
  (∀ r y, rtps s !! r = Some y → fresh_session addr y ∧ (r < next s)%positive).

(** Whether try [n] of the allocation finds a port. *)
Definition bound (listen : nat → Z → Z) (rand : nat → nat → Z) (n : nat) : bool :=
  bool_decide (fst (udp_range_listen (listen n) (rand n) 8000 20000) = 0).

Lemma allocate_loop_run listen rand addr n : ∀ s,
  pool_ok addr s →
  ∃ s', allocate_loop listen rand addr n s = Ret (tt, s') ∧ pool_ok addr s' ∧ calls s' = calls s ∧
    length (rtp_sessions s') = (length (rtp_sessions s) + length (filter (bound listen rand) (seq 0 n)))%nat.
Proof.
  induction n as [|n IH]; intros s Hp; [exists s; by rewrite Nat.add_0_r|].
  cbn [allocate_loop]. rewrite seq_S, filter_app, length_app. cbn [Nat.add].
  pose proof (listen_loop_spec (listen n) (rand n) 64 0) as Hl.
  unfold udp_range_listen. destruct (listen_loop _ _ _ _ _ _) as [err [port|]] eqn:E.
  - destruct Hl as (-> & Hev & Hr & _); [done|]. destruct Hp as (Hnd & Hin & Hfr).
    set (y := RtpSession _ _ _ _ _ _ _ _).
    assert (Hf : next s ∉ rtp_sessions s).
    { intros Hn. destruct (Hin _ Hn) as [z Hz]. apply Hfr in Hz as [_ Hz]. lia. }
    set (s1 := set_rtp_sessions (rtp_sessions s ++ [next s]) (set_next (Pos.succ (next s))
      (set_rtps (<[next s := y]> (rtps s)) s))).
    destruct (IH s1) as (s' & E' & Hp' & Hc' & Hlen).
    { split_and!; cbn.
      - apply NoDup_app. split_and!; [done|set_solver|apply NoDup_singleton].
      - intros r [Hr'| ->%list_elem_of_singleton]%elem_of_app; [|rewrite lookup_insert_eq; by eexists].
        rewrite lookup_insert_is_Some'. right. auto.
      - intros r z [[<- <-]|[? Hz]]%lookup_insert_Some; [split; [by exists port|lia]|].
        destruct (Hfr _ _ Hz). split; [done|lia]. }
    exists s'. split_and!; [|done|done|].
    + erewrite prog_bind_step; [exact E'|].
      erewrite prog_bind_step by done. unfold list_append_rtp. cbn. by rewrite bool_decide_eq_false_2.
    + assert (Hb : bound listen rand n = true) by (unfold bound, udp_range_listen; by rewrite E).
      rewrite Hlen. cbn. rewrite Hb, length_app. simpl. lia.
  - destruct (IH s Hp) as (s' & E' & Hp' & Hc' & Hlen). exists s'. split_and!; [|done|done|].
    + erewrite prog_bind_step; [exact E'|]. by destruct err.
    + assert (Hb : bound listen rand n = false)
        by (unfold bound, udp_range_listen; rewrite E; apply bool_decide_eq_false_2, Hl; done).
      rewrite Hlen. cbn. rewrite Hb. simpl. lia.
Qed.

(** At start-up, the pool gets one session for each of the 100 tries that
    finds a free port (and no more): each is bound to an even port in
    8000..19999 at the dialer's address, is not in use, and points to nothing;
    the invariant of calls and sessions holds from there on. *)
Theorem rtp_session_allocate_spec listen rand addr s :
  calls s = ∅ → rtps s = ∅ →
  ∃ s', rtp_session_allocate listen rand addr s = Ret (tt, s') ∧ calls_inv s' ∧
    length (rtp_sessions s') = length (filter (bound listen rand) (seq 0 100)) ∧
    (∀ r y, rtps s' !! r = Some y → fresh_session addr y).
Proof.
  intros Hc Hr. unfold rtp_session_allocate. erewrite prog_bind_step by done.
  destruct (allocate_loop_run listen rand addr 100 (set_rtp_sessions [] s)) as (s' & E & (Hnd & Hin & Hfr) & Hc' & Hlen).
  { split_and!; cbn; [constructor|by intros r ?%not_elem_of_nil|]. intros r y. by rewrite Hr, lookup_empty. }
  exists s'. split_and!; [exact E| |exact Hlen|].
  - apply inv_idle; [by rewrite Hc'|done|done|..].
    + intros r y Hy. by destruct (Hfr _ _ Hy) as [(port & _ & _ & ->) _].
    + intros l Hl. destruct (rtps s' !! l) as [y|] eqn:Ey; [|done]. apply Hfr in Ey as [_ ?]. lia.
  - intros r y Hy. by destruct (Hfr _ _ Hy).
Qed.

(** ** RTP reception *)

Lemma calls_inv_wire s w : calls_inv s → calls_inv (set_wire w s).
Proof. by apply calls_inv_ext. Qed.

(** The first action of a list with the given key. *)
Definition has_key (s : app) (event : Z) (a : loc) : bool :=
  match acts s !! a with Some act => bool_decide (a_key act = event) | None => false end.
Definition key_action (s : app) (event : Z) (l : list loc) : ref := head (filter (has_key s event) l).

Lemma find_action_run s event l :
  (∀ a, a ∈ l → is_Some (acts s !! a)) → find_action event l s = Ret (key_action s event l, s).
Proof.
  unfold key_action. induction l as [|a l IH]; intros Hl; [done|]. cbn [find_action].
  destruct (Hl a) as [act Ha]; [by left|]. erewrite prog_bind_step by (by apply read_run). cbn beta iota.
  assert (Hk : has_key s event a = bool_decide (a_key act = event)) by (unfold has_key; by rewrite Ha).
  destruct (bool_decide (a_key act = event)).
  - rewrite filter_cons_True by (by rewrite Hk). done.
  - rewrite filter_cons_False by (rewrite Hk; by intros []). apply IH. intros b Hb. apply Hl. by right.
Qed.

(** A call and the campaign it was made for, whose actions are allocated. *)
Definition call_campaign (s : app) (x : call) (l : loc) (cp : campaign) : Prop :=
  c_arg x = Some l ∧ ∃ dest k, dests s !! l = Some dest ∧ d_cp dest = Some k ∧ cps s !! k = Some cp ∧
    ∀ a, a ∈ actions cp → is_Some (acts s !! a).

Lemma find_campaign_action_run s x l cp event :
  call_campaign s x l cp → find_campaign_action (c_arg x) event s = Ret (key_action s event (actions cp), s).
Proof.
  intros (-> & dest & k & Hl & Hk & Hcp & Ha). unfold find_campaign_action. step. rewrite Hk. step.
  by apply find_action_run.
Qed.

(** Sends a packet on to the joined session. *)
Definition relayed (y : rtp_session) (pkt : list Z) (s : app) : app :=
  match rs_remote y ≫= λ q : loc, rtps s !! q with
  | Some q => set_wire (wire s ++ [(rs_local q, rs_remote_ip q, pkt)]) s
  | None => s
  end.

(** What a session does with a packet: [x] is the call it listens for and [cp]
    that call's campaign. *)
Definition on_packet (r : loc) (y : rtp_session) (listener : option (loc * call * campaign)) (pkt : list Z)
    (s : app) : app :=
  if bool_decide (Z.of_nat (length pkt) < RTP_HEADER_SIZE) then s
  else match listener with
  | None => relayed y pkt s
  | Some (c, x, cp) =>
      if event_received x then relayed y pkt s
      else if bool_decide (Z.land (default 0 (pkt !! 1%nat)) 127 ≠ 101) then relayed y pkt s
      else match rs_telev y ≫= λ t : telev, recv_step t (drop 12 pkt) with
      | None => s
      | Some (event, fin, t) =>
          let s1 := set_rtps (alter (set_rs_telev (Some t)) r (rtps s)) s in
          if (fin : bool) then
            match key_action s event (actions cp) with
            | Some a =>
                match acts s !! a with
                | Some act => set_calls (alter (take_action a act) c (calls s)) s1
                | None => s1
                end
            | None => s1
            end
          else relayed y pkt s1
      end
  end.

Section recv.
Context `{env}.

(** A received packet, in a buffer of its own. *)
Definition received (mb : mbuf) (pkt : list Z) : Prop := holds mb pkt ∧ mb_pos mb = 0.

Lemma udp_send_run from to mb pkt s :
  received mb pkt → udp_send from to mb s = Ret (tt, set_wire (wire s ++ [(from, to, pkt)]) s).
Proof.
  intros [[Hwf Hp] Hpos]. unfold udp_send. rewrite mbuf_get_left_wf by done.
  destruct (payload_read mb Hwf pkt []) as (E & _); [by rewrite app_nil_r|].
  pose proof (payload_length mb Hwf) as Hl. rewrite Hp in Hl. rewrite <- Hl.
  unfold mbuf_read_mem in E. destruct (bool_decide _); [done|].
  destruct (memcpy_from _ _ _); [|done]. cbn [mbind outcome_bind] in E. by injection E as [= -> _].
Qed.

Lemma relay_run r y mb pkt s :
  received mb pkt → (∀ q, rs_remote y = Some q → is_Some (rtps s !! q)) →
  rtps s !! r = Some y → relay r mb s = Ret (tt, relayed y pkt s).
Proof.
  intros Hr Hq Hy. unfold relay, relayed. step. destruct (rs_remote y) as [q|]; [|done].
  destruct (Hq q eq_refl) as [z Hz]. step. rewrite (udp_send_run _ _ mb pkt) by done. cbn. by rewrite Hz.
Qed.

(** What the session listens for. *)
Definition listens (s : app) (y : rtp_session) (listener : option (loc * call * campaign)) : Prop :=
  match listener with
  | None => rs_telev_recv y = false
  | Some (c, x, cp) => rs_telev_recv y = true ∧ rs_arg y = Some c ∧ calls s !! c = Some x ∧
      ∃ l, call_campaign s x l cp
  end.

(** C31: an RTP packet that arrives on a session is handled without fault, and
    exactly as its bytes demand: too short a packet is ignored; while the
    session's call waits for a key, the end of a telephone event selects the
    first action of the campaign with that key (ending the call if the action's
    type says so) and repeated or malformed events are dropped; every other
    packet goes unchanged to the joined session, if there is one.  The
    invariant of calls and sessions is kept. *)
Theorem rtp_recv_handler_spec s r y listener mb pkt :
  calls_inv s → rtps s !! r = Some y → received mb pkt → listens s y listener →
  rtp_recv_handler r mb s = Ret (tt, on_packet r y listener pkt s) ∧ calls_inv (on_packet r y listener pkt s).
Proof.
  intros Hi Hy Hrec Hlis. pose proof Hrec as [[Hwf Hp] Hpos].
  assert (Hq : ∀ q, rs_remote y = Some q → is_Some (rtps s !! q)) by (intros q; by eapply ci_remote).
  assert (Hrel : relay r mb s = Ret (tt, relayed y pkt s)) by (by apply relay_run).
  assert (Hrinv : calls_inv (relayed y pkt s)) by (unfold relayed; destruct (_ ≫= _); [by apply calls_inv_wire|done]).
  pose proof (payload_length mb Hwf) as Hlen. rewrite Hp in Hlen.
  unfold rtp_recv_handler, on_packet. step. rewrite mbuf_get_left_wf, <- Hlen by done.
  case_bool_decide as Hshort; [done|].
  destruct listener as [[[c x] cp]|]; cbn [listens] in Hlis; [|by rewrite Hlis; step].
  destruct Hlis as (Ht & Harg & Hc & l & Hcp). rewrite Ht, Harg.
  erewrite prog_bind_step by (step; done). destruct (event_received x); cbn [negb]; [done|].
  destruct pkt as [|b0 [|b1 pkt0]]; [simpl in Hshort; unfold RTP_HEADER_SIZE in *; lia..|].
  set (pkt := b0 :: b1 :: pkt0) in *.
  destruct (payload_read mb Hwf [b0; b1] pkt0 Hp) as (E1 & _ & _). change (Z.of_nat (length [b0; b1])) with 2 in E1.
  unfold lift. erewrite prog_bind_step by (by rewrite E1). cbn beta iota. rewrite (bool_decide_eq_false_2 (0 ≠ 0)) by lia.
  erewrite prog_bind_step by done. cbn beta iota. change (default 0 (pkt !! 1%nat)) with b1.
  assert (Hset0 : ∀ m, (∀ p, mbuf_set_pos m p = mbuf_set_pos mb p) → mbuf_set_pos m 0 = mb).
  { intros m ->. rewrite <- Hpos. by destruct mb. }
  rewrite Hset0 by done. case_bool_decide as Hpt; [done|].
  destruct (payload_read mb Hwf (take 12 pkt) (drop 12 pkt)) as (_ & Hwf12 & P12); [by rewrite take_drop|].
  assert (H12 : Z.of_nat (length (take 12 pkt)) = 12).
  { rewrite length_take. unfold RTP_HEADER_SIZE in Hshort. lia. }
  rewrite Hpos, H12 in *. change (mbuf_set_pos (mbuf_set_pos mb (0 + 2)) RTP_HEADER_SIZE) with (mbuf_set_pos mb (0 + 12)).
  assert (Hsame : ∀ t, rs_telev y = t → set_rtps (<[r := set_rs_telev t y]> (rtps s)) s = s).
  { intros t <-. rewrite insert_id; [by destruct s|]. rewrite Hy. f_equal. by destruct y. }
  destruct (rs_telev y) as [t|] eqn:Et; cbn [mbind option_bind].
  2: { erewrite prog_bind_step by done. cbn beta iota. erewrite prog_bind_step by (by eapply upd_run).
    cbn beta iota. cbn [heap_of set_heap store_rtp]. by rewrite Hsame. }
  pose proof (telev_recv_step t (mbuf_set_pos mb (0 + 12)) Hwf12) as Hstep. rewrite P12 in Hstep.
  destruct (recv_step t (drop 12 pkt)) as [[[event fin] t']|].
  2: { destruct Hstep as (err & mb' & Herr & E2). erewrite prog_bind_step by (by rewrite E2). cbn beta iota.
    erewrite prog_bind_step by (by eapply upd_run). cbn [heap_of set_heap store_rtp].
    rewrite Hsame by done. by rewrite bool_decide_eq_true_2. }
  destruct Hstep as (Hev & mb' & E2 & Hmb'). erewrite prog_bind_step by (by rewrite E2). cbn beta iota.
  erewrite prog_bind_step by (apply upd_rtp_run; by rewrite Hy). rewrite (bool_decide_eq_false_2 (0 ≠ 0)) by lia.
  erewrite prog_bind_step by done. cbn beta iota. unfold is_byte in Hev. rewrite bool_decide_eq_true_2 by lia.
  set (s1 := set_rtps _ s).
  assert (Hout : r ∉ rtp_sessions s).
  { intros Hin. destruct (ci_idle _ Hi r Hin) as (z & Hz & Hrl). rewrite Hy in Hz. injection Hz as <-.
    by rewrite <- Hrl in Harg. }
  assert (Hi1 : calls_inv s1).
  { apply inv_alter_rtp; [done|done|..].
    - intros z c' Hz Ha. by eapply (ci_arg s Hi r z).
    - intros z Hz Hl. by eapply (ci_listen s Hi r z).
    - intros z q Hz Ha. by eapply (ci_remote s Hi r z). }
  assert (Hy1 : rtps s1 !! r = Some (set_rs_telev (Some t') y)) by (cbn; by rewrite lookup_alter_eq, Hy).
  destruct fin; cbn [andb].
  - erewrite prog_bind_step by done. erewrite prog_bind_step by (by apply read_run). cbn beta iota.
    erewrite prog_bind_step by (by eapply (find_campaign_action_run s1)). cbn beta iota.
    assert (Hk : ∀ a, key_action s event (actions cp) = Some a → is_Some (acts s !! a)).
    { intros a Ha. destruct Hcp as (_ & ? & ? & _ & _ & _ & Hin). apply Hin.
      unfold key_action in Ha. apply head_Some_elem_of in Ha. by apply list_elem_of_filter in Ha as [_ ?]. }
    change (key_action s1) with (key_action s). destruct (key_action s event (actions cp)) as [a|]; [|done].
    destruct (Hk a eq_refl) as [act Ha]. rewrite Ha. erewrite prog_bind_step by (by apply read_run).
    rewrite upd_call_run by (by eexists). split; [done|]. apply (inv_alter_call s1); [done|..];
      intros z; unfold take_action; by case_bool_decide.
  - rewrite Hset0 by done. rewrite (relay_run r (set_rs_telev (Some t') y) mb pkt); [|done| |done].
    2: { intros q Hq'. cbn. destruct (Hq q Hq') as [z Hz]. destruct (decide (r = q)) as [<-|];
           [rewrite lookup_alter_eq, Hy; by eexists|rewrite lookup_alter_ne by done; by exists z]. }
    assert (Hrr : relayed (set_rs_telev (Some t') y) pkt s1 = relayed y pkt s1) by done. rewrite Hrr.
    split; [done|]. unfold relayed. destruct (_ ≫= _); [by apply calls_inv_wire|done].
Qed.
End recv.

(** ** The playing thread *)

Definition media_packet (pt seq ts ssrc : Z) (frame : list Z) : list Z :=
  hdr_wire (media_hdr false pt seq ts ssrc) ++ frame.

(** The call after [k] more packets. *)
Definition advanced (k : Z) (x : call) (rs : rtp_sock) : call :=
  set_c_ts (u32 (c_ts x + k * frame_ts (c_pt x)))
    (set_c_rs (Some (RtpSock (u16 (enc_seq rs + k)) (enc_ssrc rs))) x).

(** The packets of a sequence of frames: consecutive sequence numbers, and
    timestamps one frame apart. *)
Definition stream (pt seq ts ssrc : Z) (frames : list (list Z)) : list (list Z) :=
  imap (λ i f, media_packet pt (u16 (seq + Z.of_nat i)) (u32 (ts + Z.of_nat i * frame_ts pt)) ssrc f) frames.

Lemma stream_cons pt seq ts ssrc f frames :
  0 ≤ seq < 2 ^ 16 → 0 ≤ ts < 2 ^ 32 →
  stream pt seq ts ssrc (f :: frames) =
    media_packet pt seq ts ssrc f :: stream pt (u16 (seq + 1)) (u32 (ts + frame_ts pt)) ssrc frames.
Proof.
  intros Hs Ht. unfold stream. rewrite imap_cons. f_equal.
  - rewrite Z.mul_0_l, !Z.add_0_r, u16_id, u32_id by lia. done.
  - apply imap_ext. intros i g _. cbn [compose]. f_equal; unfold u16, u32;
      rewrite Z.add_mod_idemp_l by lia; f_equal; lia.
Qed.

(** A call with its media: RTP state, session and payload type. *)
Record media_ok (s : app) (c : loc) (x : call) (rs : rtp_sock) (r : loc) (y : rtp_session) : Prop := {
  mo_call : calls s !! c = Some x;
  mo_rs : c_rs x = Some rs;
  mo_sess : c_rtp_sess x = Some r;
  mo_rtp : rtps s !! r = Some y;
  mo_pt : 0 ≤ c_pt x < 128;
  mo_ts : 0 ≤ c_ts x < 2 ^ 32;
  mo_seq : 0 ≤ enc_seq rs < 2 ^ 16;
  mo_ssrc : 0 ≤ enc_ssrc rs < 2 ^ 32
}.

(** The state after packets were sent. *)
Definition played (c : loc) (x : call) (y : rtp_session) (pkts : list (list Z)) (s : app) : app :=
  set_wire (wire s ++ map (λ p, (rs_local y, rtp_dest x, p)) pkts) (set_calls (<[c := x]> (calls s)) s).

Section play.
Context `{E : env} `{!allocator_ok mem}.

Lemma frame_size_pos pt : 40 ≤ frame_size pt ≤ 160.
Proof. unfold frame_size. case_bool_decide; lia. Qed.

Lemma encode_header_run c x rs r y mb s :
  media_ok s c x rs r y → mbuf_wf mb → mb_pos mb + 12 ≤ mb_size mb →
  let x' := set_c_rs (Some (RtpSock (u16 (enc_seq rs + 1)) (enc_ssrc rs))) x in
  ∃ mb', encode_header c mb s = Ret (mb', set_calls (<[c := x']> (calls s)) s) ∧ mbuf_wf mb' ∧
    written mb (hdr_wire (media_hdr false (c_pt x) (enc_seq rs) (c_ts x) (enc_ssrc rs))) mb'.
Proof.
  intros [] Hwf Hroom. destruct (rtp_encode_run mem mb rs false (c_pt x) (c_ts x)) as (mb' & E1 & H1); [done..|].
  exists mb'. split; [|done]. unfold encode_header. step. rewrite mo_rs0. unfold lift.
  erewrite prog_bind_step by (by rewrite E1). cbn beta iota. by erewrite prog_bind_step by (by eapply upd_run).
Qed.

Lemma send_on_session_run c x r y mb pkt s :
  calls s !! c = Some x → c_rtp_sess x = Some r → rtps s !! r = Some y → received mb pkt →
  send_on_session c mb s =
    Ret (tt, played c (set_c_ts (u32 (c_ts x + frame_ts (c_pt x))) x) y [pkt] s).
Proof.
  intros Hc Hs Hy Hr. unfold send_on_session. step. rewrite Hs. step.
  erewrite prog_bind_step by (by eapply udp_send_run). by erewrite upd_run by heap_lookup.
Qed.

Lemma send_frame_run c x rs r y mb frame s :
  plenty mem → media_ok s c x rs r y → mbuf_inv mb → mb_end mb = 0 → mb_size mb ≤ 2 ^ 31 →
  Z.of_nat (length frame) = frame_size (c_pt x) → bytes_ok frame →
  send_frame c mb frame s = Ret (mbuf_init, played c (advanced 1 x rs) y
    [media_packet (c_pt x) (enc_seq rs) (c_ts x) (enc_ssrc rs) frame] s).
Proof.
  intros Hm Hok (Hsz & Hmax & He & _ & Hbok) Hend Hs Hlen Hf. pose proof (frame_size_pos (c_pt x)).
  assert (Hmx : max_alloc = 4611686018427387904) by reflexivity.
  set (mb0 := mbuf_set_pos mb 12).
  assert (Hi0 : mbuf_inv mb0) by (split_and!; simpl; (done || lia)).
  destruct (mbuf_write_plenty mem mb0 frame) as (mb1 & E1 & Hwf1 & Hw1); [done..|simpl; lia| |].
  { intros ->. simpl in Hlen. lia. }
  pose proof Hw1 as (P1 & X1 & S1 & B1 & _). simpl in P1, X1, B1. rewrite Hlen, Hend in *.
  rewrite Z.max_r in X1 by lia.
  assert (Hwf1' : mbuf_wf (mbuf_set_pos mb1 0)) by (apply set_pos_wf; (done || lia)).
  destruct (encode_header_run c x rs r y (mbuf_set_pos mb1 0) s) as (mb2 & E2 & Hwf2 & Hw2); [done|done| |].
  { simpl. destruct Hwf1 as [(_ & _ & ? & _) _]. lia. }
  destruct (written_read _ _ _ ltac:(apply Hwf1') Hwf2 Hw2) as [Hwf2' Hp2].
  { rewrite media_hdr_length. simpl. lia. }
  rewrite media_hdr_length in Hp2. cbn [mb_pos mbuf_set_pos mb_end] in Hp2, Hwf2'.
  unfold send_frame. fold mb0. unfold lift. erewrite prog_bind_step by (by rewrite E1). cbn beta iota.
  erewrite prog_bind_step by exact E2.
  rewrite X1 in Hp2. replace (12 + frame_size (c_pt x) - 0 - Z.of_nat 12) with (frame_size (c_pt x)) in Hp2 by lia.
  change (bytes_at (mbuf_set_pos mb1 0)) with (bytes_at mb1) in Hp2. change (0 + Z.of_nat 12) with 12 in Hp2.
  rewrite B1 in Hp2. destruct Hok as [Hc Hrs Hss Hy _ _ _ _].
  erewrite prog_bind_step by (eapply send_on_session_run; [apply lookup_insert_eq|exact Hss|exact Hy|by split]).
  unfold mret, prog_ret, mbuf_reset. do 2 f_equal. unfold played, advanced. cbn.
  by rewrite insert_insert_eq, Z.mul_1_l.
Qed.

Lemma played_media c x rs r y pkts s k :
  media_ok s c x rs r y → let rs' := RtpSock (u16 (enc_seq rs + k)) (enc_ssrc rs) in
  media_ok (played c (advanced k x rs) y pkts s) c (advanced k x rs) rs' r y.
Proof.
  intros [Hc Hrs Hs Hy Hpt Hts Hseq Hssrc]. split; cbn; try done.
  - apply lookup_insert_eq.
  - apply u32_range.
  - apply u16_range.
Qed.

Lemma played_played c x1 x2 y p1 p2 s :
  rtp_dest x1 = rtp_dest x2 → played c x2 y p2 (played c x1 y p1 s) = played c x2 y (p1 ++ p2) s.
Proof. intros E1. unfold played. cbn. rewrite E1. by rewrite insert_insert_eq, map_app, <- app_assoc. Qed.

Lemma advanced_advanced k j x rs :
  advanced k (advanced j x rs) (RtpSock (u16 (enc_seq rs + j)) (enc_ssrc rs)) = advanced (j + k) x rs.
Proof.
  unfold advanced. cbn. unfold u16, u32. rewrite !Z.add_mod_idemp_l by lia.
  rewrite Z.mul_add_distr_r, !Z.add_assoc. done.
Qed.

(** The frames the loop sends: all of them, or one when the call has ended or
    a key was recognised. *)
Definition to_send (x : call) (frames : list (list Z)) : list (list Z) :=
  if ended x || event_received x then take 1 frames else frames.

Lemma play_frames_run c r y frames : ∀ x rs mb tail s,
  plenty mem → media_ok s c x rs r y → mbuf_inv mb → mb_end mb = 0 → mb_size mb ≤ 2 ^ 31 →
  Forall (λ f, Z.of_nat (length f) = frame_size (c_pt x) ∧ bytes_ok f) frames →
  match tail with [] => True | f :: _ => Z.of_nat (length f) ≠ frame_size (c_pt x) end →
  let out := to_send x frames in
  play_frames c mb (frames ++ tail) s = Ret (tt,
    if bool_decide (out = []) then s else
    played c (advanced (Z.of_nat (length out)) x rs) y (stream (c_pt x) (enc_seq rs) (c_ts x) (enc_ssrc rs) out) s).
Proof.
  induction frames as [|f frames IH]; intros x rs mb tail s Hm Hok Hi He Hs Hf Ht out.
  { assert (out = []) as -> by (unfold out, to_send; by destruct (_ || _)).
    rewrite bool_decide_eq_true_2 by done. cbn [Datatypes.app]. destruct tail as [|g tail]; [done|]. cbn [play_frames].
    erewrite prog_bind_step by (apply read_run, (mo_call _ _ _ _ _ _ Hok)). cbn beta iota.
    by rewrite bool_decide_eq_false_2. }
  inversion Hf as [|? ? [Hlen Hb] Hf']; subst. cbn [Datatypes.app play_frames].
  erewrite prog_bind_step by (apply read_run, (mo_call _ _ _ _ _ _ Hok)). cbn beta iota.
  rewrite bool_decide_eq_true_2 by done.
  erewrite prog_bind_step by (by eapply send_frame_run).
  pose proof (played_media c x rs r y [media_packet (c_pt x) (enc_seq rs) (c_ts x) (enc_ssrc rs) f] s 1 Hok) as Hok1.
  set (s1 := played _ _ _ _ _) in *.
  erewrite prog_bind_step by (apply read_run, (mo_call _ _ _ _ _ _ Hok1)). cbn beta iota.
  change (ended (advanced 1 x rs)) with (ended x). change (event_received (advanced 1 x rs)) with (event_received x).
  pose proof (mo_ts _ _ _ _ _ _ Hok) as Hts. pose proof (mo_seq _ _ _ _ _ _ Hok) as Hseq.
  destruct (ended x || event_received x) eqn:Estop.
  - assert (out = [f]) as -> by (unfold out, to_send; by rewrite Estop).
    rewrite bool_decide_eq_false_2, stream_cons by done. done.
  - assert (out = f :: frames) as -> by (unfold out, to_send; by rewrite Estop). rewrite bool_decide_eq_false_2 by done.
    rewrite (IH (advanced 1 x rs) (RtpSock (u16 (enc_seq rs + 1)) (enc_ssrc rs)) mbuf_init tail s1); try done;
      [|by apply (bool_decide_eq_true_1 _); vm_compute].
    unfold to_send. change (ended (advanced 1 x rs)) with (ended x).
    change (event_received (advanced 1 x rs)) with (event_received x). rewrite Estop. f_equal. f_equal.
    rewrite stream_cons by done.
    destruct frames as [|g frames]; [done|]. rewrite bool_decide_eq_false_2 by done.
    set (g' := g :: frames). subst s1.
    rewrite played_played, (advanced_advanced (Z.of_nat (length g')) 1) by done. do 3 f_equal.
    + f_equal. cbn [length]. lia.
    + unfold advanced. cbn. by rewrite Z.mul_1_l.
Qed.

(** C33: one pass of the audio file: every whole frame of the file goes out, in
    order, from the call's RTP session to the negotiated address, as an RTP
    packet of version 2 with the call's payload type and source, without
    marker, with consecutive sequence numbers and timestamps 160 (PCMU, PCMA)
    or 320 apart, both modulo their width; a rest shorter than a frame is not
    sent; when the call has ended or a key was recognised only the first frame
    is sent.  The pass is counted modulo 256. *)
Theorem play_file_stream c x rs r y frames tail s :
  plenty mem → media_ok s c x rs r y →
  Forall (λ f, Z.of_nat (length f) = frame_size (c_pt x) ∧ bytes_ok f) frames →
  match tail with [] => True | f :: _ => Z.of_nat (length f) ≠ frame_size (c_pt x) end →
  ∃ s' x' pkts, play_file c (frames ++ tail) s = Ret (tt, s') ∧
    wire s' = wire s ++ map (λ p, (rs_local y, rtp_dest x, p)) pkts ∧
    calls s' = <[c := x']> (calls s) ∧ rtps s' = rtps s ∧ num_play x' = u8 (num_play x + 1) ∧
    Forall2 (λ (ip : nat * list Z) f,
      parse_hdr hdr_zero (snd ip) =
        Some (media_hdr false (c_pt x) (u16 (enc_seq rs + Z.of_nat (fst ip)))
                (u32 (c_ts x + Z.of_nat (fst ip) * frame_ts (c_pt x))) (enc_ssrc rs), f))
      (imap (λ i p, (i, p)) pkts) (to_send x frames).
Proof.
  intros Hm Hok Hf Ht. pose proof Hok as [Hc Hrs Hs Hy Hpt Hts Hseq Hssrc].
  pose proof (frame_size_pos (c_pt x)).
  destruct (mbuf_alloc_plenty mem (frame_size (c_pt x) + 12)) as (mb & Emb & Hwf & Hsz & _ & Hend); [done|lia|].
  pose proof (play_frames_run c r y frames x rs mb tail s Hm Hok ltac:(apply Hwf) Hend ltac:(lia) Hf Ht) as Hrun.
  set (out := to_send x frames) in *. cbv zeta in Hrun.
  set (s1 := if bool_decide (out = []) then s else _) in Hrun.
  assert (Hs1 : ∃ x1, calls s1 = <[c := x1]> (calls s) ∧ rtps s1 = rtps s ∧ num_play x1 = num_play x ∧
    wire s1 = wire s ++ map (λ p, (rs_local y, rtp_dest x, p)) (stream (c_pt x) (enc_seq rs) (c_ts x) (enc_ssrc rs) out)).
  { subst s1. case_bool_decide as Eo.
    - exists x. rewrite Eo. split_and!; [by rewrite insert_id|done|done|]. cbn. by rewrite app_nil_r.
    - exists (advanced (Z.of_nat (length out)) x rs). by split_and!. }
  destruct Hs1 as (x1 & Hc1 & Hr1 & Hn1 & Hw1).
  exists (set_calls (<[c := set_num_play (u8 (num_play x1 + 1)) x1]> (calls s1)) s1),
    (set_num_play (u8 (num_play x1 + 1)) x1), (stream (c_pt x) (enc_seq rs) (c_ts x) (enc_ssrc rs) out).
  split; [|split; [exact Hw1|split; [|split; [exact Hr1|split]]]].
  - unfold play_file. step. rewrite Emb. erewrite prog_bind_step by done.
    erewrite prog_bind_step by exact Hrun. erewrite upd_run by (cbn; by rewrite Hc1, lookup_insert_eq). done.
  - cbn. by rewrite Hc1, insert_insert_eq.
  - by rewrite <- Hn1.
  - apply Forall2_same_length_lookup_2; [by rewrite length_imap; unfold stream; rewrite length_imap|].
    intros i [k p] f Hip Hfi. rewrite list_lookup_imap in Hip. unfold stream in Hip.
    rewrite list_lookup_imap, Hfi in Hip. simpl in Hip. injection Hip as <- <-. cbn [fst snd].
    apply parse_media; [done|apply u16_range|apply u32_range|done].
Qed.

(** What the thread sends when it has nothing (more) to play is an RTP
    packet of twelve bytes: the header alone, without the frame of silence the
    buffer was allocated for. *)
Theorem send_silence_header_only c x rs r y s :
  plenty mem → media_ok s c x rs r y →
  ∃ s' pkt, send_silence c s = Ret (tt, s') ∧ wire s' = wire s ++ [(rs_local y, rtp_dest x, pkt)] ∧
    parse_hdr hdr_zero pkt = Some (media_hdr false (c_pt x) (enc_seq rs) (c_ts x) (enc_ssrc rs), []) ∧
    length pkt = 12%nat ∧ calls s' = <[c := advanced 1 x rs]> (calls s) ∧ rtps s' = rtps s.
Proof.
  intros Hm Hok. pose proof Hok as [Hc Hrs Hs Hy Hpt Hts Hseq Hssrc].
  pose proof (frame_size_pos (c_pt x)).
  destruct (mbuf_alloc_plenty mem (frame_size (c_pt x) + 12)) as (mb & Emb & Hwf & Hsz & Hpos & Hend); [done|lia|].
  assert (Hmb0 : mbuf_set_pos mb 0 = mb) by (rewrite <- Hpos; by destruct mb).
  destruct (encode_header_run c x rs r y mb s) as (mb1 & E1 & Hwf1 & Hw1); [done|done|lia|].
  set (h := hdr_wire _) in Hw1. assert (Hh : length h = 12%nat) by apply media_hdr_length.
  destruct (written_payload _ _ _ Hwf Hwf1 Hw1) as [Hwf0 Hp0]. rewrite Hpos in Hwf0, Hp0.
  assert (Hp : payload mb = []).
  { apply length_zero_iff_nil. pose proof (payload_length mb Hwf). lia. }
  rewrite Hp, drop_nil, app_nil_r in Hp0.
  exists (played c (advanced 1 x rs) y [h] s), h. split_and!; try done.
  - unfold send_silence. step. rewrite Emb. erewrite prog_bind_step by done. rewrite Hmb0.
    erewrite prog_bind_step by exact E1. unfold lift. erewrite prog_bind_step by done. cbn beta iota.
    erewrite send_on_session_run; [|apply lookup_insert_eq|exact Hs|exact Hy|by split].
    f_equal. f_equal. unfold played, advanced. cbn. by rewrite insert_insert_eq, Z.mul_1_l.
  - rewrite <- (app_nil_r h). by apply parse_media.
Qed.
End play.

(** ** Answers *)

Section answers.
Context `{E : env}.

Lemma establish_fail_run c x s :
  calls s !! c = Some x →
  establish_fail c s = Ret (tt, set_calls (<[c := set_c_sess false (set_ended true x)]> (calls s)) s).
Proof. intros Hc. unfold establish_fail. step. erewrite upd_run by heap_lookup. cbn. by rewrite insert_insert_eq. Qed.

(** The call when the media start. *)
Definition started (a : answer) (now : Z) (x : call) : call :=
  if join_pbx x then x else if an_thread a then set_thrd_created true (set_establish_tm now x) else x.

Lemma start_media_run a c x r y d dest s :
  plenty mem → calls_inv s → calls s !! c = Some x → c_rtp_sess x = Some r → rtps s !! r = Some y →
  rs_arg y = Some c → c_arg x = Some d → dests s !! d = Some dest → d_call dest = Some c →
  call_ok (started a (clock s / 1000) x) → dest_ok dest →
  let x' := started a (clock s / 1000) x in
  let f := if join_pbx x then id else telev_start in
  let s' := queue (update_text x' dest) (set_rtps (alter f r (rtps s)) (set_calls (<[c := x']> (calls s)) s)) in
  start_media a c s = Ret (tt, s') ∧ calls_inv s'.
Proof.
  intros Hm Hi Hx Hr Hy Ha Hd Hdest Hdc Hok Hdo x' f s'.
  assert (Hi1 : calls_inv (set_calls (<[c := x']> (calls s)) s)).
  { apply (inv_set_call s c x); try done; unfold x', started; destruct (join_pbx x), (an_thread a); done. }
  destruct (ci_held _ Hi _ _ _ Hx Hr) as [_ Hnr]. split.
  - unfold start_media. step. erewrite prog_bind_step by done. rewrite Hd, Hr.
    match goal with |- (?m ≫= _) _ = _ =>
      assert (Em : m s = Ret (tt, set_rtps (alter f r (rtps s)) (set_calls (<[c := x']> (calls s)) s))) end.
    { unfold f, x', started. destruct (join_pbx x).
      - unfold skip. rewrite insert_id by done. do 2 f_equal.
        rewrite (alter_insert_eq _ _ _ _ Hy), insert_id by done. by destruct s.
      - destruct (an_thread a).
        + step. rewrite upd_ref_rtp_run by (by eexists). done.
        + erewrite prog_bind_step by done. rewrite insert_id by done. rewrite upd_ref_rtp_run by (by eexists).
          by destruct s. }
    erewrite prog_bind_step by exact Em.
    apply (update_call_status_run d dest c); try done. cbn. apply lookup_insert_eq.
  - apply (calls_inv_ext (set_rtps (alter f r (rtps s)) (set_calls (<[c := x']> (calls s)) s))); try done.
    apply (inv_alter_rtp (set_calls (<[c := x']> (calls s)) s)); try done; intros z; intros; unfold f in *.
    + eapply (ci_arg _ Hi1 r z); [done|]. by destruct (join_pbx x).
    + cbn [rtps set_calls] in *. simplify_eq. by destruct (join_pbx x); rewrite ?Ha; eexists.
    + eapply (ci_remote _ Hi1 r z); [done|]. by destruct (join_pbx x).
Qed.

(** When the leg that a call is forwarded to answers with a usable format,
    the two RTP sessions are joined: a packet that arrives for the caller is
    sent on unchanged from the leg's socket to the leg's media address, and a
    packet of the leg goes to the caller's address.  The invariant is kept. *)
Theorem establish_bridge a s p x r d dest c m q pt :
  calls_inv s → calls s !! p = Some x → ispbxcall x = true → call_status x ≠ CALL_ESTABLISHED →
  c_rtp_sess x = Some r → c_dest x = DestDestination d → dests s !! d = Some dest → d_call dest = Some c →
  calls s !! c = Some m → c ≠ p → c_rtp_sess m = Some q →
  an_sdp a = 0 → an_pt a = Some pt → pt ≠ 101 →
  ∃ s' yr yq, establish_handler a p s = Ret (tt, s') ∧ calls_inv s' ∧
    rtps s' !! r = Some yr ∧ rtps s' !! q = Some yq ∧
    (∀ pkt, relayed yq pkt s' = set_wire (wire s ++ [(rs_local yr, an_raddr a, pkt)]) s') ∧
    (∀ pkt, relayed yr pkt s' = set_wire (wire s ++ [(rs_local yq, rs_remote_ip yq, pkt)]) s') ∧
    (∃ x', calls s' !! p = Some x' ∧ call_status x' = CALL_ESTABLISHED ∧ c_pt x' = u8 pt ∧
      rtp_dest x' = an_raddr a ∧ establish_tm x' = clock s / 1000).
Proof.
  intros Hi Hx Hpbx Hst Hr Hd Hdest Hdc Hm Hne Hq Hsdp Hpt H101.
  destruct (ci_held _ Hi _ _ _ Hx Hr) as [[y Hy] Hnr]. destruct (ci_held _ Hi _ _ _ Hm Hq) as [[z Hz] Hnq].
  assert (Hrq : r ≠ q) by (intros ->; apply Hne; by eapply (ci_inj _ Hi c p)).
  set (x1 := set_resp_code (u16 (an_scode a)) x).
  set (x2 := set_call_status CALL_ESTABLISHED (set_establish_tm (clock s / 1000) x1)).
  set (x3 := set_rtp_dest (an_raddr a) (set_c_pt (u8 pt) x2)).
  set (s3 := set_calls (<[p := x3]> (calls s)) s).
  assert (Hi3 : calls_inv s3).
  { by apply (inv_set_call s p x). }
  set (yr := set_rs_remote (Some q) (set_rs_remote_ip (an_raddr a) y)).
  set (yq := set_rs_remote (Some r) z).
  set (s4 := set_rtps (alter (set_rs_remote_ip (an_raddr a)) r (rtps s3)) s3).
  assert (Hi4 : calls_inv s4).
  { apply inv_alter_rtp; [done|done|..]; intros yl; intros.
    - by eapply (ci_arg s3 Hi3 r yl).
    - by eapply (ci_listen s3 Hi3 r yl).
    - by eapply (ci_remote s3 Hi3 r yl). }
  set (s5 := set_rtps (alter (set_rs_remote (Some r)) q (rtps s4)) s4).
  assert (Hi5 : calls_inv s5).
  { apply inv_alter_rtp; [done|done|..]; intros yl; intros.
    - by eapply (ci_arg s4 Hi4 q yl).
    - by eapply (ci_listen s4 Hi4 q yl).
    - simplify_eq/=. by rewrite lookup_alter_eq, Hy. }
  set (s6 := set_rtps (alter (set_rs_remote (Some q)) r (rtps s5)) s5).
  assert (Hi6 : calls_inv s6).
  { apply inv_alter_rtp; [done|done|..]; intros yl; intros.
    - by eapply (ci_arg s5 Hi5 r yl).
    - by eapply (ci_listen s5 Hi5 r yl).
    - simplify_eq/=. rewrite lookup_alter_eq, lookup_alter_ne, Hz by done. by eexists. }
  assert (Hyr : rtps s6 !! r = Some yr) by (cbn; by rewrite lookup_alter_eq, lookup_alter_ne, lookup_alter_eq, Hy).
  assert (Hyq : rtps s6 !! q = Some yq) by (cbn; by rewrite lookup_alter_ne, lookup_alter_eq, lookup_alter_ne, Hz).
  exists s6, yr, yq. split_and!; [|done|done|done|..].
  - unfold establish_handler. step. step. cbn [call_status set_resp_code].
    rewrite bool_decide_eq_false_2 by done. step. step.
    rewrite bool_decide_eq_false_2 by lia. rewrite Hpt, bool_decide_eq_false_2 by done.
    step. cbn [ispbxcall c_rtp_sess set_resp_code]. rewrite Hpbx, Hr.
    match goal with |- (upd_ref _ _ ≫= _) ?st = _ =>
      replace st with s3 by (unfold s3; cbn; by rewrite !insert_insert_eq) end.
    erewrite prog_bind_step by (apply upd_ref_rtp_run; eexists; exact Hy). fold s4.
    unfold bridge. erewrite prog_bind_step by (apply read_run, lookup_insert_eq).
    change (c_dest x3) with (c_dest x). rewrite Hd.
    erewrite prog_bind_step by (apply read_run; exact Hdest). rewrite Hdc.
    erewrite prog_bind_step by (apply deref_run; cbn; rewrite lookup_insert_ne by done; exact Hm).
    rewrite Hq. erewrite prog_bind_step by (apply upd_ref_rtp_run; cbn; rewrite lookup_alter_ne, Hz by done; by eexists).
    fold s5. rewrite upd_ref_rtp_run by (cbn; rewrite lookup_alter_ne, lookup_alter_eq, Hy by done; by eexists). done.
  - intros pkt. unfold relayed. change (rs_remote yq) with (Some r). cbn [mbind option_bind]. by rewrite Hyr.
  - intros pkt. unfold relayed. change (rs_remote yr) with (Some q). cbn [mbind option_bind]. by rewrite Hyq.
  - exists x3. split_and!; try done. apply lookup_insert_eq.
Qed.

(** Any other answer, for a call that is not a forwarded leg: a call that
    is already established only takes the response code; an answer that cannot
    be decoded or has no usable format (none, or telephone events only) ends
    the call and drops its SIP session; otherwise the call takes the payload
    type and media address, its status update is queued, and unless it waits
    to be joined it starts listening for keys.  The invariant is kept. *)
Theorem establish_answer a s c x r y d dest :
  plenty mem → calls_inv s → calls s !! c = Some x → ispbxcall x = false →
  c_rtp_sess x = Some r → rtps s !! r = Some y → rs_arg y = Some c →
  c_arg x = Some d → dests s !! d = Some dest → d_call dest = Some c → call_ok x → dest_ok dest →
  - 2 ^ 63 < clock s / 1000 < 2 ^ 63 →
  ∃ s' x', establish_handler a c s = Ret (tt, s') ∧ calls_inv s' ∧ calls s' !! c = Some x' ∧
    resp_code x' = u16 (an_scode a) ∧ call_status x' = CALL_ESTABLISHED ∧ dests s' = dests s ∧
    if bool_decide (call_status x = CALL_ESTABLISHED) then
      x' = set_resp_code (u16 (an_scode a)) x ∧ rtps s' = rtps s ∧ sqllist (app_db s') = sqllist (app_db s)
    else match (if bool_decide (an_sdp a = 0) then an_pt a else None) with
    | Some pt =>
        if bool_decide (pt = 101) then ended x' = true ∧ c_sess x' = false ∧ rtps s' = rtps s ∧
          sqllist (app_db s') = sqllist (app_db s)
        else ended x' = ended x ∧ c_sess x' = c_sess x ∧ c_pt x' = u8 pt ∧ rtp_dest x' = an_raddr a ∧
          establish_tm x' = clock s / 1000 ∧
          sqllist (app_db s') = sqllist (app_db s) ++ [update_text x' dest] ∧
          ∃ y', rtps s' !! r = Some y' ∧ rs_remote_ip y' = an_raddr a ∧
            rs_telev_recv y' = (if join_pbx x then rs_telev_recv y else true)
    | None => ended x' = true ∧ c_sess x' = false ∧ rtps s' = rtps s ∧ sqllist (app_db s') = sqllist (app_db s)
    end.
Proof.
  intros Hm Hi Hx Hpbx Hr Hy Ha Hd Hdest Hdc [] Hdo Hclk.
  destruct (ci_held _ Hi _ _ _ Hx Hr) as [_ Hnr].
  set (x1 := set_resp_code (u16 (an_scode a)) x).
  set (x2 := set_call_status CALL_ESTABLISHED (set_establish_tm (clock s / 1000) x1)).
  unfold establish_handler. step. step. cbn [call_status set_resp_code]. fold x1.
  case_bool_decide as Hst.
  { exists (set_calls (<[c := x1]> (calls s)) s), x1. split_and!; try done; [by apply (inv_set_call s c x)|apply lookup_insert_eq]. }
  step. step. fold x2.
  match goal with |- ∃ s' x', ?m ?st = _ ∧ _ => replace st with (set_calls (<[c := x2]> (calls s)) s)
    by (cbn; by rewrite insert_insert_eq) end.
  set (s2 := set_calls (<[c := x2]> (calls s)) s).
  assert (Hx2 : calls s2 !! c = Some x2) by apply lookup_insert_eq.
  pose proof (establish_fail_run c x2 s2 Hx2) as Hfail. set (s3 := set_calls _ s2) in Hfail.
  assert (Hfailed : ∃ s' x', establish_fail c s2 = Ret (tt, s') ∧ calls_inv s' ∧ calls s' !! c = Some x' ∧
    resp_code x' = u16 (an_scode a) ∧ call_status x' = CALL_ESTABLISHED ∧ dests s' = dests s ∧
    ended x' = true ∧ c_sess x' = false ∧ rtps s' = rtps s ∧ sqllist (app_db s') = sqllist (app_db s)).
  { exists s3, (set_c_sess false (set_ended true x2)). split_and!; try done; [|apply lookup_insert_eq].
    apply (inv_set_call s2 c x2); try done. by apply (inv_set_call s c x). }
  destruct (decide (an_sdp a = 0)) as [Hz|Hz].
  2: { rewrite (bool_decide_eq_true_2 (an_sdp a ≠ 0)), (bool_decide_eq_false_2 (an_sdp a = 0)) by done. exact Hfailed. }
  rewrite (bool_decide_eq_false_2 (an_sdp a ≠ 0)), (bool_decide_eq_true_2 (an_sdp a = 0)) by lia.
  destruct (an_pt a) as [pt|]; [|exact Hfailed]. case_bool_decide; [exact Hfailed|].
  step. change (c_rtp_sess x1) with (c_rtp_sess x). change (ispbxcall x1) with (ispbxcall x). rewrite Hpbx, Hr.
  set (x3 := set_rtp_dest (an_raddr a) (set_c_pt (u8 pt) x2)).
  match goal with |- ∃ s' x', (upd_ref _ _ ≫= _) ?st = _ ∧ _ => replace st with (set_calls (<[c := x3]> (calls s)) s)
    by (cbn; by rewrite insert_insert_eq) end.
  set (s4 := set_calls (<[c := x3]> (calls s)) s).
  assert (Hi4 : calls_inv s4) by (by apply (inv_set_call s c x)).
  erewrite prog_bind_step by (apply upd_ref_rtp_run; by eexists).
  set (s5 := set_rtps _ s4). set (y' := set_rs_remote_ip (an_raddr a) y).
  assert (Hi5 : calls_inv s5).
  { apply inv_alter_rtp; [done|done|..]; intros z; intros.
    - by eapply (ci_arg s4 Hi4 r z).
    - by eapply (ci_listen s4 Hi4 r z).
    - by eapply (ci_remote s4 Hi4 r z). }
  assert (Hy5 : rtps s5 !! r = Some y') by (cbn; by rewrite lookup_alter_eq, Hy).
  assert (Hx5 : calls s5 !! c = Some x3) by apply lookup_insert_eq.
  destruct (start_media_run a c x3 r y' d dest s5) as [E1 Hi6]; try done.
  { unfold started. destruct (join_pbx x3), (an_thread a); split; cbn; try lia; unfold CALL_ESTABLISHED; try lia; apply u16_range. }
  eexists _, (started a (clock s / 1000) x3). split; [exact E1|]. split; [exact Hi6|].
  assert (Hsx : ∀ {A} (g : call → A), (∀ z t, g (set_thrd_created true (set_establish_tm t z)) = g z) →
    g (started a (clock s / 1000) x3) = g x3).
  { intros A g Hg. unfold started. by destruct (join_pbx x3), (an_thread a). }
  split_and!; try (by rewrite Hsx); try done; [cbn; apply lookup_insert_eq| |].
  - unfold started. by destruct (join_pbx x3), (an_thread a).
  - eexists. split; [cbn; by rewrite lookup_alter_eq, lookup_alter_eq, Hy|].
    change (join_pbx x3) with (join_pbx x). by destruct (join_pbx x).
Qed.
End answers.

(** ** Checking the invariant of a concrete state *)

Definition idle_check (s : app) (r : loc) : bool :=
  match rtps s !! r with
  | Some (RtpSession _ _ false false None false None None) => true
  | _ => false
  end.

Definition apart (p q : ref) : bool := match p with None => true | Some _ => bool_decide (p ≠ q) end.

Definition call_check (s : app) (c : loc) (x : call) : bool :=
  match c_rtp_sess x with
  | None => true
  | Some r => bool_decide (is_Some (rtps s !! r)) && bool_decide (r ∉ rtp_sessions s)
  end &&
  match pbx_call x with
  | None => true
  | Some p => bool_decide (c ≠ p) && match calls s !! p with Some y => bool_decide (pbx_call y = None) | None => false end
  end &&
  bool_decide (c < next s)%positive &&
  bool_decide (map_Forall (λ c' x', c = c' ∨ apart (c_rtp_sess x) (c_rtp_sess x') && apart (pbx_call x) (pbx_call x')) (calls s)).

Definition rtp_check (s : app) (r : loc) (y : rtp_session) : bool :=
  match rs_arg y with
  | None => negb (rs_telev_recv y)
  | Some c => match calls s !! c with Some x => bool_decide (c_rtp_sess x = Some r) | None => false end
  end &&
  match rs_remote y with None => true | Some q => bool_decide (is_Some (rtps s !! q)) end &&
  bool_decide (r < next s)%positive.

Definition calls_check (s : app) : bool :=
  bool_decide (NoDup (rtp_sessions s)) && bool_decide (Forall (λ r, Is_true (idle_check s r)) (rtp_sessions s)) &&
  bool_decide (map_Forall (λ c x, Is_true (call_check s c x)) (calls s)) &&
  bool_decide (map_Forall (λ r y, Is_true (rtp_check s r y)) (rtps s)).

Lemma calls_check_sound s : calls_check s = true → calls_inv s.
Proof.
  unfold calls_check. rewrite !andb_true_iff, !bool_decide_eq_true. intros [[[Hnd Hidle] Hcalls] Hrtps].
  assert (HC : ∀ c x, calls s !! c = Some x → call_check s c x) by (intros c x Hc; by apply (Hcalls c x)).
  assert (HR : ∀ r y, rtps s !! r = Some y → rtp_check s r y) by (intros r y Hr; by apply (Hrtps r y)).
  clear Hcalls Hrtps. unfold call_check in HC. unfold rtp_check in HR.
  split.
  - done.
  - intros r Hr. rewrite Forall_forall in Hidle. specialize (Hidle r Hr). unfold idle_check in Hidle.
    destruct (rtps s !! r) as [[? ? [] [] [] [] [] []]|] eqn:E; try done. by eexists.
  - intros c x r Hc Hr. specialize (HC c x Hc). rewrite Hr in HC. rewrite !andb_True, !bool_decide_spec in HC. naive_solver.
  - intros c1 c2 x1 x2 r H1 H2 R1 R2. specialize (HC c1 x1 H1). rewrite !andb_True, !bool_decide_spec in HC.
    destruct HC as [_ HC]. destruct (HC c2 x2 H2) as [?|HC']; [done|].
    rewrite R1, R2, andb_True in HC'. simpl in HC'. rewrite bool_decide_spec in HC'. naive_solver.
  - intros r y c Hy Ha. specialize (HR r y Hy). rewrite Ha in HR. rewrite !andb_True in HR.
    destruct HR as [[HR _] _]. destruct (calls s !! c) as [x|]; [|done]. exists x. by rewrite bool_decide_spec in HR.
  - intros r y Hy Hl. specialize (HR r y Hy). rewrite !andb_True, Hl in HR. destruct (rs_arg y); [by eexists|].
    by destruct HR as [[[] _] _].
  - intros r y q Hy Hq. specialize (HR r y Hy). rewrite !andb_True, Hq, !bool_decide_spec in HR. naive_solver.
  - intros c x p Hc Hp. specialize (HC c x Hc). rewrite Hp in HC. rewrite !andb_True, !bool_decide_spec in HC.
    destruct HC as [[[_ [Hne HC]] _] _]. split; [done|]. destruct (calls s !! p) as [y|]; [|done].
    exists y. by rewrite bool_decide_spec in HC.
  - intros c1 c2 x1 x2 r H1 H2 R1 R2. specialize (HC c1 x1 H1). rewrite !andb_True, !bool_decide_spec in HC.
    destruct HC as [_ HC]. destruct (HC c2 x2 H2) as [?|HC']; [done|].
    rewrite R1, R2, andb_True in HC'. simpl in HC'. rewrite bool_decide_spec in HC'. naive_solver.
  - intros l Hl. split.
    + destruct (calls s !! l) as [x|] eqn:E; [|done]. specialize (HC l x E). rewrite !andb_True, !bool_decide_spec in HC.
      destruct HC as [[_ HC] _]. lia.
    + destruct (rtps s !! l) as [y|] eqn:E; [|done]. specialize (HR l y E). rewrite !andb_True, !bool_decide_spec in HR. lia.
Qed.

(** ** Witnesses *)

(** An environment in which everything succeeds; the gateways have the prefix 9
    and the payload type 8. *)
Definition demo_results : call_env :=
  CallEnv true 0 0 0 0 0 0 (0, Some (RtpSock 65535 77)) 4294967295.

Definition demo_env : env := Env
  (Mysql big_alloc (λ _, true) (λ _, None))
  digits_only
  (λ _, true)
  (λ _, demo_results).

Definition demo_uri : uri :=
  Uri (pl_of "sip") (pl_of "user") (pl_of "pass") (pl_of "host") 0 5060 (pl_of ";prefix=9;codec=8") (pl_of "").

Definition demo_addr : sockaddr := SockAddr (Some (bytes_of "10.0.0.1")) 5060 false.
Definition session_at (port : Z) : rtp_session :=
  RtpSession (SockAddr (sa_text demo_addr) port false) sa_zero false false None false None None.

(** A campaign (2) with one action (4) and one destination (3), which is in a
    call (5) on the session 10; a leg (6) on the session 11; an idle session
    (12). *)
Definition demo_call : call :=
  set_c_arg (Some 3%positive) (set_c_rtp_sess (Some 10%positive) (set_c_rs (Some (RtpSock 65535 77))
    (set_pbx_call (Some 6%positive) (set_c_pt 8 (set_c_ts 4294967200 call_zero))))).
Definition demo_leg : call :=
  set_c_dest (DestDestination 3) (set_ispbxcall true (set_c_rtp_sess (Some 11%positive) call_zero)).
Definition demo_dest : destination :=
  set_d_call (Some 5%positive) (Destination 7 (Some (bytes_of "123")) 0 None (Some 2%positive) 1 None (Some (InProcessl 2))).
Definition demo_listening : rtp_session :=
  set_rs_arg (Some 5%positive) (set_rs_telev (Some (Telev mbuf_init TELEV_PTIME IDLE 0 0 0 5 false))
    (set_rs_telev_recv true (set_rs_in_use true (session_at 8000)))).
Definition demo_action : campaign_action := CampaignAction 5 1 None None.
Definition demo_campaign : campaign := set_actions [4%positive] (set_processl [3%positive] campaign_zero).

Definition demo_app : app :=
  App {[ 1%positive := Gateway 1 None demo_uri ]} [1%positive]
    {[ 2%positive := demo_campaign ]} [2%positive]
    {[ 3%positive := demo_dest ]} {[ 4%positive := demo_action ]}
    {[ 5%positive := demo_call; 6%positive := demo_leg ]}
    {[ 10%positive := demo_listening; 11%positive := set_rs_in_use true (session_at 8002); 12%positive := session_at 8004 ]}
    [12%positive] demo_db [] true demo_addr None 5000 [] [] 20.

Lemma demo_inv : calls_inv demo_app.
Proof. apply calls_check_sound. vm_compute. reflexivity. Qed.

Lemma demo_not_leg : not_leg demo_app 5.
Proof.
  assert (H : map_Forall (λ _ x, pbx_call x ≠ Some 5%positive) (calls demo_app))
    by (apply (bool_decide_eq_true_1 _); vm_compute; reflexivity).
  intros c' x' Hc. exact (H c' x' Hc).
Qed.

Lemma call_destructor_spec_witness :
  ∃ s', deref_call (Some 5%positive) demo_app = Ret (tt, s') ∧ calls_inv s' ∧
    rtp_sessions s' = [12%positive; 10%positive; 11%positive].
Proof.
  destruct (call_destructor_spec demo_app 5 demo_call demo_inv) as (s' & E & Hi & Hp & _).
  - reflexivity.
  - exact demo_not_leg.
  - exists s'. split; [exact E|]. split; [exact Hi|]. rewrite Hp. vm_compute. reflexivity.
Defined.

Lemma rtp_session_allocate_spec_witness :
  ∃ s', rtp_session_allocate (λ n p, if bool_decide (p = 8000) then 98 else 0) (λ n i, Z.of_nat n * 2) demo_addr
      (set_rtps ∅ (set_calls ∅ demo_app)) = Ret (tt, s') ∧ calls_inv s' ∧ length (rtp_sessions s') = 99%nat.
Proof.
  destruct (rtp_session_allocate_spec (λ n p, if bool_decide (p = 8000) then 98 else 0) (λ n i, Z.of_nat n * 2) demo_addr
    (set_rtps ∅ (set_calls ∅ demo_app)) eq_refl eq_refl) as (s' & E & Hi & Hl & _).
  exists s'. split; [exact E|]. split; [exact Hi|]. rewrite Hl. vm_compute. reflexivity.
Defined.

Lemma demo_gateway_ok : gateway_ok demo_uri (bytes_of "user") (bytes_of "host") (bytes_of "9") 8.
Proof.
  split; try (by exists []).
  - vm_compute. split; congruence.
  - eexists _, _. split; [vm_compute; reflexivity|]. by exists (bytes_of ";codec=8").
  - eexists _, _. split; [vm_compute; reflexivity|]. by exists 8.
  - vm_compute. split_and!; congruence.
Qed.


(** The end packet of key 5, in an RTP packet. *)
Definition demo_key : list Z := [128; 229; 0; 1; 0; 0; 0; 0; 0; 0; 0; 7] ++ packet 5 true 800.

Lemma rtp_recv_handler_spec_witness :
  ∃ s', @rtp_recv_handler 10 (filled demo_key) demo_app = Ret (tt, s') ∧ calls_inv s' ∧
    (λ x, (ended x, action_key x)) <$> calls s' !! 5%positive = Some (true, 5).
Proof.
  destruct (rtp_recv_handler_spec demo_app 10 demo_listening (Some (5%positive, demo_call, demo_campaign))
    (filled demo_key) demo_key) as [E Hi].
  - exact demo_inv.
  - reflexivity.
  - split; [|reflexivity]. apply (bool_decide_eq_true_1 _). vm_compute. reflexivity.
  - split; [reflexivity|]. split; [reflexivity|]. split; [reflexivity|]. exists 3%positive.
    split; [reflexivity|]. exists demo_dest, 2%positive. split; [reflexivity|]. split; [reflexivity|].
    split; [reflexivity|]. intros a Ha. apply list_elem_of_singleton in Ha as ->. exists demo_action. reflexivity.
  - eexists. split; [exact E|]. split; [exact Hi|]. vm_compute. reflexivity.
Defined.

Lemma demo_media :
  media_ok demo_app 5 demo_call (RtpSock 65535 77) 10 demo_listening.
Proof. split; try reflexivity; vm_compute; split; congruence. Qed.

Lemma play_file_stream_witness :
  ∃ s' x', @play_file demo_env 5 ([replicate 160 1; replicate 160 2] ++ [[3]]) demo_app = Ret (tt, s') ∧
    calls s' !! 5%positive = Some x' ∧ num_play x' = 1.
Proof.
  destruct (@play_file_stream demo_env big_alloc_ok 5 demo_call (RtpSock 65535 77) 10 demo_listening
    [replicate 160 1; replicate 160 2] [[3]] demo_app) as (s' & x' & pkts & E & _ & Hc & _ & Hn & _).
  - exact big_alloc_plenty.
  - exact demo_media.
  - apply (bool_decide_eq_true_1 _). vm_compute. reflexivity.
  - vm_compute. congruence.
  - exists s', x'. split; [exact E|]. split; [rewrite Hc; apply lookup_insert_eq|exact Hn].
Defined.

Lemma send_silence_header_only_witness :
  ∃ s' pkt, @send_silence demo_env 5 demo_app = Ret (tt, s') ∧
    wire s' = [(rs_local demo_listening, sa_zero, pkt)] ∧ length pkt = 12%nat.
Proof.
  destruct (@send_silence_header_only demo_env big_alloc_ok 5 demo_call (RtpSock 65535 77) 10 demo_listening demo_app
    big_alloc_plenty demo_media) as (s' & pkt & E & Hw & _ & Hl & _).
  exists s', pkt. split; [exact E|]. split; [exact Hw|exact Hl].
Defined.

Definition demo_answer : answer := Answer 200 0 (Some 8) demo_addr true.

Lemma establish_bridge_witness :
  ∃ s' yr, @establish_handler demo_env demo_answer 6 demo_app = Ret (tt, s') ∧ calls_inv s' ∧
    rtps s' !! 11%positive = Some yr ∧ rs_remote yr = Some 10%positive.
Proof.
  destruct (@establish_bridge demo_env demo_answer demo_app 6 demo_leg 11 3 demo_dest 5 demo_call 10 8)
    as (s' & yr & yq & E & Hi & Hr & _); try reflexivity; try (intros H; vm_compute in H; congruence).
  - exact demo_inv.
  - exists s', yr. split; [exact E|]. split; [exact Hi|]. split; [exact Hr|].
    assert (E' : rs_remote <$> rtps s' !! 11%positive = Some (Some 10%positive)).
    { vm_compute in E. injection E as <-. vm_compute. reflexivity. }
    rewrite Hr in E'. simpl in E'. congruence.
Defined.

Lemma establish_answer_witness :
  ∃ s' x', @establish_handler demo_env demo_answer 5 demo_app = Ret (tt, s') ∧ calls_inv s' ∧
    calls s' !! 5%positive = Some x' ∧ call_status x' = CALL_ESTABLISHED.
Proof.
  destruct (@establish_answer demo_env demo_answer demo_app 5 demo_call 10 demo_listening 3 demo_dest)
    as (s' & x' & E & Hi & Hx & _ & Hs & _); try reflexivity.
  - exact big_alloc_plenty.
  - exact demo_inv.
  - split; vm_compute; split; congruence.
  - split; vm_compute; split; congruence.
  - vm_compute. split; congruence.
  - exists s', x'. split; [exact E|]. split; [exact Hi|]. split; [exact Hx|exact Hs].
Defined.
