(* ===== verification/Campaign.v ===== *)
(** * Campaigns (src/main.c)

    The dialer's control logic: the database thread's refresh of gateways,
    campaigns, destinations and actions, the campaign timer that dials, the
    per-call timer that supervises, forwards and ends calls, and the
    destructors.  The two threads are interleaved at the granularity of these
    functions. *)
From stdpp Require Import base tactics list numbers strings option gmap fin_maps sets sorting.
From S2P Require Import Prelude LinkedList Mbuf Fmt Print Uri Telev Rtp Db App Call.

(** [parseInt] *)
Definition parseInt (data : option (list Z)) : outcome Z := pl_u32 (pl_set_str pl_null data).

(** A column of a row. *)
Definition column (r : row) (i : nat) : prog app (option (list Z)) := deref_opt OutOfBounds (r !! i).
Definition int_column (r : row) (i : nat) : prog app Z := v ← column r i; lift (parseInt v).

(** ** Destructors *)

Definition list_unlink_dest (d : loc) : prog app unit :=
  x ← read (T := destination) d;
  match d_list x with
  | None => skip
  | Some (InDestinations k) =>
      upd k (λ cp, set_destinations (filter (λ a, a ≠ d) (destinations cp)) cp);; upd d (set_d_list None)
  | Some (InProcessl k) =>
      upd k (λ cp, set_processl (filter (λ a, a ≠ d) (processl cp)) cp);; upd d (set_d_list None)
  end.

Definition list_append_destinations (k d : loc) : prog app unit :=
  upd k (λ cp, set_destinations (destinations cp ++ [d]) cp);; upd d (set_d_list (Some (InDestinations k))).

Definition list_append_processl (k d : loc) : prog app unit :=
  upd k (λ cp, set_processl (processl cp ++ [d]) cp);; upd d (set_d_list (Some (InProcessl k))).

(** [mem_deref] of a destination: [destination_destructor]. *)
Definition deref_destination (d : loc) : prog app unit :=
  x ← read (T := destination) d;
  deref_call (d_call x);;
  list_unlink_dest d;;
  free (T := destination) d.

(** [list_flush] of a list of destinations whose head is already reset. *)
Fixpoint flush_destinations (l : list loc) : prog app unit :=
  match l with
  | [] => skip
  | d :: rest => upd d (set_d_list None);; deref_destination d;; flush_destinations rest
  end.

Fixpoint flush_action_list (l : list loc) : prog app unit :=
  match l with
  | [] => skip
  | a :: rest => free (T := campaign_action) a;; flush_action_list rest
  end.

Definition flush_actions (k : loc) : prog app unit :=
  cp ← read (T := campaign) k; upd k (set_actions []);; flush_action_list (actions cp).

(** [campaign_destructor]. *)
Definition deref_campaign (k : loc) : prog app unit :=
  modify (λ s, set_services (filter (λ a, a ≠ k) (services s)) s);;
  cp ← read (T := campaign) k;
  upd k (set_destinations []);; flush_destinations (destinations cp);;
  cp ← read (T := campaign) k;
  upd k (set_processl []);; flush_destinations (processl cp);;
  flush_actions k;;
  free (T := campaign) k.

(** [gateway_destructor]: campaigns and actions keep their pointers to it. *)
Definition deref_gateway (g : loc) : prog app unit :=
  modify (λ s, set_gateways (filter (λ a, a ≠ g) (gateways s)) s);; free (T := gateway) g.

Fixpoint flush_gateways (l : list loc) : prog app unit :=
  match l with [] => skip | g :: rest => deref_gateway g;; flush_gateways rest end.

Fixpoint flush_services (l : list loc) : prog app unit :=
  match l with [] => skip | k :: rest => deref_campaign k;; flush_services rest end.

(** [terminate] *)
Definition terminate : prog app unit := modify (set_app_running false);; close_sip.

Definition signal_handler : prog app unit :=
  s ← get; modify (set_gateways []);; flush_gateways (gateways s);;
  s ← get; modify (set_services []);; flush_services (services s);;
  terminate.

(** ** Lookups by identifier *)

(** [list_apply] with [campaign_find_handler] and [gateway_find_handler]. *)
Fixpoint find_campaign (id : Z) (l : list loc) : prog app ref :=
  match l with
  | [] => mret None
  | k :: rest => cp ← read (T := campaign) k; if bool_decide (campaign_id cp = id) then mret (Some k) else find_campaign id rest
  end.

Fixpoint find_gateway (id : Z) (l : list loc) : prog app ref :=
  match l with
  | [] => mret None
  | g :: rest => x ← read (T := gateway) g; if bool_decide (gateway_id x = id) then mret (Some g) else find_gateway id rest
  end.

Section campaign.
Context `{E : env}.

(** ** The database thread *)

(** [re_snprintf] into [uristr]. *)
Definition gateway_uri (r : row) : prog app (list Z) :=
  user ← column r 3;
  pass ← column r 4;
  host ← column r 1;
  port ← column r 2;
  prefix ← column r 5;
  codec ← int_column r 6;
  if bool_decide (str_len user > 0) && bool_decide (str_len pass > 0) then
    snprintf 1024 (bytes_of "sip:%s:%s@%s:%s;prefix=%s;codec=%d") [VStr user; VStr pass; VStr host; VStr port; VStr prefix; VInt codec]
  else if bool_decide (str_len user > 0) then
    snprintf 1024 (bytes_of "sip:%s@%s:%s;prefix=%s;codec=%d") [VStr user; VStr host; VStr port; VStr prefix; VInt codec]
  else
    snprintf 1024 (bytes_of "sip:autodialer@%s:%s;prefix=%s;codec=%d") [VStr host; VStr port; VStr prefix; VInt codec].

(** One row of the gateway table. *)
Definition pull_gateway (r : row) : prog app unit :=
  id ← int_column r 0;
  s ← get;
  g ← find_gateway id (gateways s);
  g ← (match g with
       | Some g => mret g
       | None =>
           g ← alloc (Gateway id None uri_zero);
           modify (λ s, set_gateways (gateways s ++ [g]) s);;
           mret g
       end);
  uristr ← gateway_uri r;
  gt ← read (T := gateway) g;
  if bool_decide (str_casecmp (Some uristr) (uri_str gt) ≠ 0) then
    let str := snd (str_dup mem (Some uristr)) in
    upd g (set_uri_str str);;
    q ← lift (uri_decode (pl_set_str pl_null str));
    let '(err, u) := q in
    if bool_decide (err ≠ 0) then deref_gateway g else upd g (set_sip_uri u)
  else skip.

(** [str_dup] over an old value. *)
Definition replace_str (new : option (list Z)) : option (list Z) := snd (str_dup mem new).

(** The columns that are copied before the check for stopped campaigns. *)
Definition pull_settings (r : row) (k : loc) : prog app unit :=
  id ← int_column r 0; upd k (set_campaign_id id);;
  client ← int_column r 1; upd k (set_client_id client);;
  limit ← int_column r 2;
  upd k (λ cp, set_call_limit (if bool_decide (u16 limit = 0) then 2 else u16 limit) cp);;
  duration ← int_column r 3;
  upd k (λ cp, set_max_call_duration (if bool_decide (600 ≤ u16 duration) then 600 else u16 duration) cp);;
  caller ← column r 4;
  upd k (λ cp, if bool_decide (str_len caller > 0) && bool_decide (str_casecmp caller (caller_id cp) ≠ 0)
               then set_caller_id (replace_str caller) cp else cp);;
  file ← column r 5;
  upd k (λ cp, if bool_decide (str_len file > 0) && bool_decide (str_casecmp file (file_name cp) ≠ 0)
               then set_file_name (replace_str file) cp
               else if bool_decide (str_len file = 0) then set_file_name None cp else cp);;
  status ← int_column r 6; upd k (set_campaign_status (u8 status)).

(** The columns after it. *)
Definition pull_limits (r : row) (k : loc) : prog app unit :=
  delay ← int_column r 7; upd k (set_retry_delay (u16 (u32 (delay * 60))));;
  tries ← int_column r 8; upd k (set_max_try (u8 tries));;
  play ← int_column r 9;
  upd k (set_max_play (if bool_decide (u8 play ≤ 0) then 1 else u8 play));;
  s ← get;
  id ← int_column r 10; g ← find_gateway id (gateways s); upd k (set_cp_gateway g);;
  id ← int_column r 11; g ← find_gateway id (gateways s); upd k (set_pbx_gateway g);;
  number ← column r 12;
  upd k (λ cp, if bool_decide (str_casecmp number (pbx_number cp) ≠ 0)
               then set_pbx_number (replace_str number) cp else cp).

(** One row of the campaign table: status 2 runs, 3 pauses, above 3 stops. *)
Definition pull_campaign (r : row) : prog app unit :=
  id ← int_column r 0;
  status ← int_column r 6;
  s ← get;
  k ← find_campaign id (services s);
  k ← (match k with
       | Some k => mret (Some k)
       | None =>
           if bool_decide (status ≠ 2) then mret None
           else
             k ← alloc campaign_zero;
             modify (λ s, set_services (services s ++ [k]) s);;
             mret (Some k)
       end);
  match k with
  | None => skip
  | Some k =>
      pull_settings r k;;
      cp ← read (T := campaign) k;
      if bool_decide (campaign_status cp > 3) && bool_decide (processl cp = []) then deref_campaign k
      else pull_limits r k
  end.

(** One row of the calls of a campaign. *)
Definition pull_destination (k : loc) (r : row) : prog app unit :=
  id ← int_column r 0;
  number ← column r 1;
  d ← alloc (Destination (s32 id) (replace_str number) 0 None (Some k) 0 None None);
  list_append_destinations k d.

(** The gateway and the number of a forwarding action, "gateway,number". *)
Definition forward_data (data : option (list Z)) : prog app (ref * option (list Z)) :=
  let p := pl_set_str pl_null data in
  comma ← lift (pl_strchr p (chr ","));
  match comma with
  | None => mret (None, None)
  | Some n =>
      id ← lift (pl_u32 (Pl (pl_p p) n));
      s ← get;
      g ← find_gateway id (gateways s);
      q ← lift (pl_strdup mem (Pl (drop (Z.to_nat (n + 1)) <$> pl_p p) (pl_l p - (n + 1))));
      mret (g, snd q)
  end.

Definition pull_action (k : loc) (r : row) : prog app unit :=
  key ← int_column r 1;
  type ← int_column r 2;
  q ← (if bool_decide (u8 type = 0) then data ← column r 3; forward_data data else mret (None, None));
  a ← alloc (CampaignAction (u8 key) (u8 type) (fst q) (snd q));
  upd k (λ cp, set_actions (actions cp ++ [a]) cp).

Fixpoint for_rows (f : row → prog app unit) (rows : list row) : prog app unit :=
  match rows with [] => skip | r :: rest => f r;; for_rows f rest end.

Definition gateway_query : list Z := bytes_of "select id,ip,port,user,password,prefix,codec from gateway ".
Definition campaign_query : list Z := bytes_of
  "select c.id,c.client_id,c.frequency,c.max_call_duration,c.caller_id_number,a.filename,c.status,c.time_between_retries,c.max_call_retry,c.play_count,c.gateway_id,c.pbx_gateway_id,c.pbx_number FROM campaigns c LEFT JOIN audios a ON a.id = c.audios_id WHERE  c.status > 1 ".
Definition calls_query : list Z := bytes_of
  "SELECT id,contact_number from calls where call_duration = 0 AND campaign_id = %d".
Definition actions_query : list Z := bytes_of
  "SELECT id,key_press,action,action_data from actions where  campaigns_id = %d".

(** The part of [pull_groups] for one campaign of [services]; the rows of the
    last query are used without a check for NULL. *)
Definition pull_service (k : loc) : prog app unit :=
  cp ← read (T := campaign) k;
  if is_running cp then skip
  else
    loaded ← (if bool_decide (destinations cp = []) then
                res ← on_db (get_results calls_query [VInt (campaign_id cp)]);
                match res with
                | None => mret false
                | Some rows => for_rows (pull_destination k) rows;; mret true
                end
              else mret true);
    if negb loaded then skip
    else
      flush_actions k;;
      res ← on_db (get_results actions_query [VInt (campaign_id cp)]);
      rows ← deref_opt NullDeref res;
      for_rows (pull_action k) rows;;
      modify (λ s, set_msgq (msgq s ++ [k]) s).

Fixpoint pull_services (l : list loc) : prog app unit :=
  match l with [] => skip | k :: rest => pull_service k;; pull_services rest end.

Definition pull_groups : prog app unit :=
  res ← on_db (get_results gateway_query []);
  match res with
  | None => skip
  | Some rows =>
      for_rows pull_gateway rows;;
      res ← on_db (get_results campaign_query []);
      match res with
      | None => skip
      | Some rows =>
          for_rows pull_campaign rows;;
          s ← get;
          pull_services (services s)
      end
  end.

(** One turn of [DbThread]. *)
Definition db_turn : prog app unit :=
  s ← get; if app_running s then on_db db_sync;; pull_groups else skip.

(** ** The timer of a call *)

Definition hang_up (x : call) : call := set_resp_code 1 (set_ended true (set_c_sess false x)).

(** A call that is to be joined with a second leg: the gateway and number of
    the key's action, or of the campaign's PBX. *)
Definition forward (d c : loc) (x : call) (cp : campaign) : prog app unit :=
  q ← (if event_received x then
         act ← deref (T := campaign_action) (c_action x);
         call_alloc (a_dest act) (a_gateway act) true (Some d)
       else call_alloc (pbx_number cp) (pbx_gateway cp) true (Some d));
  let '(err, p) := q in
  upd c (set_pbx_call p);;
  if bool_decide (err = 0) then
    upd_ref p (set_ispbxcall true);;
    upd c (set_forwarded true);;
    upd_ref p (set_c_dest (DestDestination d))
  else skip.

(** The first half of [on_call_end]: who is hung up. *)
Definition supervise (d : loc) : prog app unit :=
  dest ← read (T := destination) d;
  cp ← deref (T := campaign) (d_cp dest);
  c ← addr_of (d_call dest);
  x ← read (T := call) c;
  now ← time_now;
  let est := bool_decide (call_status x = CALL_ESTABLISHED) in
  if negb (ended x) then
    if bool_decide (actions cp = []) && est && bool_decide (max_play cp ≤ num_play x) then upd c hang_up
    else if est && (event_received x || join_pbx x) then
      if negb (forwarded x) then forward d c x cp
      else if bool_decide (now - establish_tm x > 30 * 60) then upd c hang_up
      else
        match pbx_call x with
        | Some p => y ← read (T := call) p; if ended y then upd c hang_up else skip
        | None => skip
        end
    else if negb (forwarded x) && est && bool_decide (max_call_duration cp > 0) &&
            bool_decide (now - establish_tm x > max_call_duration cp) then upd c hang_up
    else if bool_decide (call_status x < CALL_ESTABLISHED) && bool_decide (now - connect_tm x > 40) then upd c hang_up
    else skip
  else upd c (λ x, set_resp_code 1 (set_c_sess false x)).

Definition end_fmt : list Z := bytes_of
  "update calls set  retry_count=%d,call_status=%d,call_duration=%d,connect_time=%ld,establish_time=%ld,disconnect_time=%ld,disconnect_cause=%d,call_action_key=%d,call_action_type=%d,event_received=%d  where id = %d".
Definition forwarding_fmt : list Z := bytes_of
  "INSERT INTO call_forwarding set campaigns_id=%d, gateway_id=%d, call_from=%s, call_to=%s,call_status=%d,call_duration=%d,connect_time=%ld,establish_time=%ld,disconnect_time=%ld,disconnect_cause=%d".

(** [int] seconds since a call was established. *)
Definition call_duration (now : Z) (x : call) : Z :=
  if bool_decide (call_status x = CALL_ESTABLISHED) then s32 (now - establish_tm x) else 0.

(** The report of an ended call; the result is the duration that decides about
    another try: the second leg's when there is one. *)
Definition report (d c : loc) (duration : Z) : prog app Z :=
  upd c (set_call_status CALL_DISCONNECTED);;
  dest ← read (T := destination) d;
  x ← read (T := call) c;
  now ← time_now;
  on_db (db_exec end_fmt [VInt (try_count dest); VInt (call_status x); VInt duration; VInt (connect_tm x);
    VInt (establish_tm x); VInt now; VInt (resp_code x); VInt (action_key x); VInt (action_type x);
    VInt (b2z (event_received x)); VInt (dest_id dest)]);;
  match pbx_call x with
  | None => mret duration
  | Some p =>
      y ← read (T := call) p;
      let duration := call_duration now y in
      cp ← deref (T := campaign) (d_cp dest);
      q ← (if event_received x then
             act ← deref (T := campaign_action) (c_action x);
             g ← deref (T := gateway) (a_gateway act);
             mret (g, a_dest act)
           else g ← deref (T := gateway) (cp_gateway cp); mret (g, pbx_number cp));
      on_db (db_exec forwarding_fmt [VInt (campaign_id cp); VInt (gateway_id (fst q)); VStr (d_dest dest);
        VStr (snd q); VInt (call_status y); VInt duration; VInt (connect_tm y); VInt (establish_tm y);
        VInt now; VInt (resp_code y)]);;
      mret duration
  end.

(** The end of a destination's try: for good, or back to the waiting ones. *)
Definition retire (d : loc) (duration : Z) : prog app unit :=
  dest ← read (T := destination) d;
  cp ← deref (T := campaign) (d_cp dest);
  if bool_decide (max_try cp > 0) && bool_decide (max_try cp ≤ try_count dest) then deref_destination d
  else if bool_decide (duration > 0) then deref_destination d
  else
    deref_call (d_call dest);;
    upd d (set_d_call None);;
    list_unlink_dest d;;
    k ← addr_of (d_cp dest);
    list_append_destinations k d.

Definition tmr_start_dest (d : loc) : prog app unit :=
  s ← get; upd d (set_d_tmr (Some (clock s + 1000))).

Definition on_call_end (d : loc) : prog app unit :=
  supervise d;;
  dest ← read (T := destination) d;
  c ← addr_of (d_call dest);
  x ← read (T := call) c;
  now ← time_now;
  let duration := call_duration now x in
  if ended x then
    duration ← report d c duration;
    retire d duration
  else tmr_start_dest d.

(** ** The timer of a campaign *)

Definition destination_sort_handler (d1 d2 : loc * Z) : bool :=
  if bool_decide (snd d1 > snd d2) then false else true.

(** [list_sort] on the sequence of destinations, each with its [try_count]. *)
Fixpoint sort_loop (fuel : nat) (l : list (loc * Z)) : outcome (list (loc * Z)) :=
  match fuel, l with
  | O, _ => Fault NoFuel
  | S _, [] => Ret []
  | S fuel', x :: r =>
      let '(l', again) := bubble destination_sort_handler x r in
      if again then sort_loop fuel' l' else Ret l'
  end.

Fixpoint try_counts (l : list loc) : prog app (list (loc * Z)) :=
  match l with
  | [] => mret []
  | d :: rest =>
      x ← read (T := destination) d;
      r ← try_counts rest;
      mret ((d, try_count x) :: r)
  end.

Definition sort_destinations (k : loc) : prog app unit :=
  cp ← read (T := campaign) k;
  l ← try_counts (destinations cp);
  l' ← lift (sort_loop (S (length l * length l)) l);
  upd k (set_destinations (map fst l')).

(** The loop that moves destinations to the process list: not before the
    campaign's delay after their last try, and up to the call limit. *)
Fixpoint fill_loop (k : loc) (l : list loc) : prog app unit :=
  match l with
  | [] => skip
  | d :: rest =>
      dest ← read (T := destination) d;
      cp ← read (T := campaign) k;
      now ← time_now;
      if bool_decide (try_count dest > 0) && bool_decide (now - last_try dest < retry_delay cp) then fill_loop k rest
      else
        list_unlink_dest d;;
        list_append_processl k d;;
        cp ← read (T := campaign) k;
        if bool_decide (call_limit cp ≤ Z.of_nat (length (processl cp))) then skip else fill_loop k rest
  end.

(** The audio file of a call: the campaign's file name up to its first dot. *)
Definition call_audio (file : list Z) : prog app (list Z) :=
  s ← get;
  dot ← lift (pl_strchr (pl_set_str pl_null (Some file)) (chr "."));
  n ← deref_opt NullDeref dot;
  sdprintf (bytes_of "%s/%r.wav") [VStr (audio_path s); VPl (Some (Pl (Some file) n))].

(** What a new call is to do: play the campaign's file, or join the PBX; a call
    that can do neither is dropped. *)
Definition prepare (d c : loc) (cp : campaign) : prog app unit :=
  match file_name cp with
  | Some file =>
      path ← call_audio file;
      upd c (set_c_audio (Some path));;
      if file_exists path then skip else deref_call (Some c);; upd d (set_d_call None)
  | None =>
      match pbx_gateway cp, pbx_number cp with
      | Some _, Some _ => upd c (set_join_pbx true)
      | _, _ => deref_call (Some c);; upd d (set_d_call None)
      end
  end.

(** The body of the dialling loop. *)
Definition dial (d : loc) : prog app unit :=
  dest ← read (T := destination) d;
  match d_call dest with
  | Some _ => skip
  | None =>
      cp ← deref (T := campaign) (d_cp dest);
      match cp_gateway cp with
      | None => skip
      | Some g =>
          q ← call_alloc (d_dest dest) (Some g) false (Some d);
          let '(err, c) := q in
          upd d (set_d_call c);;
          if bool_decide (err ≠ 0) then deref_destination d
          else
            now ← time_now;
            upd d (λ x, set_last_try now (set_try_count (u8 (try_count x + 1)) x));;
            c ← addr_of c;
            prepare d c cp;;
            dest ← read (T := destination) d;
            match d_call dest with
            | Some _ => tmr_start_dest d;; update_call_status (Some d)
            | None => upd d (λ x, set_try_count (u8 (try_count x - 1)) x)
            end
      end
  end.

(** The loop reads the list element inside the destination after the body. *)
Fixpoint dial_loop (l : list loc) : prog app unit :=
  match l with
  | [] => skip
  | d :: rest => dial d;; read (T := destination) d;; dial_loop rest
  end.

(** The first half of [start_fake_calling]: which destinations are called. *)
Definition fill (k : loc) : prog app unit :=
  cp ← read (T := campaign) k;
  if bool_decide (Z.of_nat (length (processl cp)) < call_limit cp) then
    sort_destinations k;;
    cp ← read (T := campaign) k;
    fill_loop k (destinations cp)
  else skip.

Definition start_fake_calling (k : loc) : prog app unit :=
  cp ← read (T := campaign) k;
  if bool_decide (campaign_status cp ≠ 2) then upd k (set_is_running false)
  else
    fill k;;
    cp ← read (T := campaign) k;
    dial_loop (processl cp);;
    s ← get;
    upd k (set_cp_tmr (Some (clock s + 10000))).

Definition campaign_service_handler (k : loc) : prog app unit :=
  upd k (λ cp, set_cp_tmr None (set_is_running true cp));;
  start_fake_calling k.

(** ** The main loop *)

(** What the main thread reacts to: an expired timer is cleared before its
    handler runs, a message is taken from the queue. *)
Inductive event :=
  | TimerDest (d : loc)
  | TimerCampaign (k : loc)
  | Message
  | Packet (r : loc) (mb : mbuf)
  | Progress (scode : Z) (c : loc)
  | Answered (a : answer) (c : loc)
  | Closed (err : Z) (scode : option Z) (c : loc)
  | DbTurn
  | Tick (ms : Z).

Definition dispatch (e : event) : prog app unit :=
  s ← get;
  match e with
  | TimerDest d =>
      match dests s !! d ≫= d_tmr with
      | Some t => if bool_decide (t ≤ clock s) then upd d (set_d_tmr None);; on_call_end d else skip
      | None => skip
      end
  | TimerCampaign k =>
      match cps s !! k ≫= cp_tmr with
      | Some t => if bool_decide (t ≤ clock s) then upd k (set_cp_tmr None);; start_fake_calling k else skip
      | None => skip
      end
  | Message =>
      match msgq s with
      | k :: rest => modify (set_msgq rest);; campaign_service_handler k
      | [] => skip
      end
  | Packet r mb => rtp_recv_handler r mb
  | Progress scode c => progress_handler scode c
  | Answered a c => establish_handler a c
  | Closed err scode c => close_handler err scode c
  | DbTurn => db_turn
  | Tick ms => modify (set_clock (clock s + ms))
  end.

Fixpoint run (es : list event) : prog app unit :=
  match es with [] => skip | e :: rest => dispatch e;; run rest end.
End campaign.

(** ** Frames *)

Lemma after_destroy_frame s c x :
  dests (after_destroy s c x) = dests s ∧ cps (after_destroy s c x) = cps s ∧ gws (after_destroy s c x) = gws s ∧
  acts (after_destroy s c x) = acts s ∧ app_db (after_destroy s c x) = app_db s ∧
  clock (after_destroy s c x) = clock s ∧ wire (after_destroy s c x) = wire s ∧
  invites (after_destroy s c x) = invites s ∧ next (after_destroy s c x) = next s ∧
  services (after_destroy s c x) = services s ∧ msgq (after_destroy s c x) = msgq s.
Proof.
  unfold after_destroy. destruct (pbx_call x) as [p|].
  - destruct (calls s !! p ≫= c_rtp_sess), (c_rtp_sess x); by split_and!.
  - destruct (c_rtp_sess x); by split_and!.
Qed.

(** The campaign without a destination. *)
Definition drop_processl (d : loc) (cp : campaign) : campaign := set_processl (filter (λ a, a ≠ d) (processl cp)) cp.

(** A destination in a call: the campaign's process list holds it, and its call
    is nobody's leg. *)
Record in_call (s : app) (d : loc) (dest : destination) (k : loc) (cp : campaign) (c : loc) (x : call) : Prop := {
  ic_dest : dests s !! d = Some dest;
  ic_cp : d_cp dest = Some k;
  ic_campaign : cps s !! k = Some cp;
  ic_list : d_list dest = Some (InProcessl k);
  ic_dcall : d_call dest = Some c;
  ic_call : calls s !! c = Some x;
  ic_top : not_leg s c;
  ic_cok : call_ok x;
  ic_dok : dest_ok dest;
  ic_now : - 2 ^ 63 < clock s / 1000 < 2 ^ 63
}.

(** Once the call is over: the destination is freed with its call. *)
Definition destroyed (d k : loc) (cp : campaign) (s : app) : app :=
  set_dests (delete d (dests s)) (set_cps (<[k := drop_processl d cp]> (cps s)) s).

(** ... or waits for another try. *)
Definition requeued (d : loc) (dest : destination) (k : loc) (cp : campaign) (s : app) : app :=
  set_dests (<[d := set_d_list (Some (InDestinations k)) (set_d_call None dest)]> (dests s))
    (set_cps (<[k := set_destinations (destinations cp ++ [d]) (drop_processl d cp)]> (cps s)) s).

Lemma deref_destination_run s d dest k cp c x :
  calls_inv s → in_call s d dest k cp c x →
  deref_destination d s = Ret (tt, destroyed d k cp (after_destroy s c x)).
Proof.
  intros Hi []. destruct (after_destroy_frame s c x) as (Fd & Fc & _).
  unfold deref_destination. step. rewrite ic_dcall0.
  erewrite prog_bind_step by (by eapply deref_call_run). set (s1 := after_destroy s c x) in *.
  unfold list_unlink_dest.
  erewrite prog_bind_step.
  2: { erewrite prog_bind_step by (apply read_run; cbn; by rewrite Fd). rewrite ic_list0.
    erewrite prog_bind_step by (eapply upd_run; cbn; by rewrite Fc).
    eapply upd_run. cbn. by rewrite Fd. }
  erewrite free_run by heap_lookup. f_equal. f_equal. unfold destroyed. cbn. by rewrite delete_insert_eq.
Qed.

Lemma retire_requeue_run s d dest k cp c x :
  calls_inv s → in_call s d dest k cp c x →
  (deref_call (d_call dest);; upd d (set_d_call None);; list_unlink_dest d;;
   k ← addr_of (d_cp dest); list_append_destinations k d) s =
  Ret (tt, requeued d dest k cp (after_destroy s c x)).
Proof.
  intros Hi []. destruct (after_destroy_frame s c x) as (Fd & Fc & _). rewrite ic_dcall0, ic_cp0.
  erewrite prog_bind_step by (by eapply deref_call_run). set (s1 := after_destroy s c x) in *.
  erewrite prog_bind_step by (eapply upd_run; cbn; by rewrite Fd).
  unfold list_unlink_dest, list_append_destinations.
  erewrite prog_bind_step.
  2: { erewrite prog_bind_step by (apply read_run, lookup_insert_eq). cbn [d_list set_d_call]. rewrite ic_list0.
    erewrite prog_bind_step by (eapply upd_run; cbn; by rewrite Fc).
    eapply upd_run. apply lookup_insert_eq. }
  erewrite prog_bind_step by done.
  erewrite prog_bind_step by (eapply upd_run; apply lookup_insert_eq).
  erewrite upd_run by apply lookup_insert_eq. f_equal. f_equal. unfold requeued. cbn.
  rewrite !insert_insert_eq. done.
Qed.

(** ** The report of an ended call *)

Definition end_pieces (dest : destination) (x : call) (duration now : Z) : list piece :=
  [PLit (bytes_of "update calls set  retry_count="); PInt (try_count dest);
   PLit (bytes_of ",call_status="); PInt CALL_DISCONNECTED;
   PLit (bytes_of ",call_duration="); PInt duration;
   PLit (bytes_of ",connect_time="); PLong (connect_tm x);
   PLit (bytes_of ",establish_time="); PLong (establish_tm x);
   PLit (bytes_of ",disconnect_time="); PLong now;
   PLit (bytes_of ",disconnect_cause="); PInt (resp_code x);
   PLit (bytes_of ",call_action_key="); PInt (action_key x);
   PLit (bytes_of ",call_action_type="); PInt (action_type x);
   PLit (bytes_of ",event_received="); PInt (b2z (event_received x));
   PLit (bytes_of "  where id = "); PInt (dest_id dest)].

Definition forwarding_pieces (cp : campaign) (gid : Z) (from to : list Z) (y : call) (duration now : Z) : list piece :=
  [PLit (bytes_of "INSERT INTO call_forwarding set campaigns_id="); PInt (campaign_id cp);
   PLit (bytes_of ", gateway_id="); PInt gid;
   PLit (bytes_of ", call_from="); PStr from;
   PLit (bytes_of ", call_to="); PStr to;
   PLit (bytes_of ",call_status="); PInt (call_status y);
   PLit (bytes_of ",call_duration="); PInt duration;
   PLit (bytes_of ",connect_time="); PLong (connect_tm y);
   PLit (bytes_of ",establish_time="); PLong (establish_tm y);
   PLit (bytes_of ",disconnect_time="); PLong now;
   PLit (bytes_of ",disconnect_cause="); PInt (resp_code y)].

(** The second leg of a call: its object, the identifier of the gateway it went
    through, and the two numbers. *)
Record leg := Leg { l_call : call; l_gateway : Z; l_from : list Z; l_to : list Z }.

Definition leg_known (s : app) (dest : destination) (cp : campaign) (x : call) (lg : option leg) : Prop :=
  match lg with
  | None => pbx_call x = None
  | Some l =>
      (∃ p, pbx_call x = Some p ∧ calls s !! p = Some (l_call l)) ∧
      call_ok (l_call l) ∧ d_dest dest = Some (l_from l) ∧
      Z.of_nat (length (l_from l)) ≤ 4096 ∧ Z.of_nat (length (l_to l)) ≤ 4096 ∧
      0 ≤ l_gateway l < 2 ^ 31 ∧ 0 ≤ campaign_id cp < 2 ^ 31 ∧
      (∃ gl g, gws s !! gl = Some g ∧ gateway_id g = l_gateway l ∧
        if event_received x then
          ∃ a act, c_action x = Some a ∧ acts s !! a = Some act ∧ a_gateway act = Some gl ∧ a_dest act = Some (l_to l)
        else cp_gateway cp = Some gl ∧ pbx_number cp = Some (l_to l))
  end.

Definition final_duration (now : Z) (x : call) (lg : option leg) : Z :=
  match lg with None => call_duration now x | Some l => call_duration now (l_call l) end.

(** The statements queued when a call ends. *)
Definition reports (dest : destination) (cp : campaign) (x : call) (now : Z) (lg : option leg) : list (list Z) :=
  text_of (end_pieces dest x (call_duration now x) now) ::
  match lg with
  | None => []
  | Some l => [text_of (forwarding_pieces cp (l_gateway l) (l_from l) (l_to l) (l_call l) (call_duration now (l_call l)) now)]
  end.

Definition queue_all (l : list (list Z)) (s : app) : app :=
  set_app_db (set_sqllist (sqllist (app_db s) ++ l) (app_db s)) s.

Lemma queue_queue_all t l s : queue_all l (queue t s) = queue_all (t :: l) s.
Proof. unfold queue_all, queue. cbn. by rewrite <- app_assoc. Qed.

Lemma queue_all_nil s : queue_all [] s = s.
Proof. unfold queue_all. rewrite app_nil_r. by destruct s as [? ? ? ? ? ? ? ? ? []]. Qed.

Lemma s32_range z : - 2 ^ 31 ≤ s32 z < 2 ^ 31.
Proof. unfold s32. pose proof (Z.mod_pos_bound (z + 2147483648) 4294967296). lia. Qed.

Lemma call_duration_range now x : - 2 ^ 31 ≤ call_duration now x < 2 ^ 31.
Proof. unfold call_duration. case_bool_decide; [apply s32_range|lia]. Qed.

Section reports.
Context `{E : env}.

Lemma report_run s d dest k cp c x lg :
  plenty mem → calls_inv s → in_call s d dest k cp c x → leg_known s dest cp x lg →
  let now := clock s / 1000 in
  report d c (call_duration now x) s =
    Ret (final_duration now x lg, queue_all (reports dest cp x now lg)
      (set_calls (<[c := set_call_status CALL_DISCONNECTED x]> (calls s)) s)).
Proof.
  intros Hm Hi [] Hl now. destruct ic_cok0, ic_dok0. pose proof (call_duration_range now x).
  unfold report. step. step. step. erewrite prog_bind_step by done. cbn [clock]. fold now.
  set (s1 := set_heap _ s). set (x1 := set_call_status CALL_DISCONNECTED x).
  assert (Hok : Forall piece_ok (end_pieces dest x (call_duration now x) now)).
  { assert (0 ≤ b2z (event_received x) ≤ 1) by (destruct (event_received x); simpl; lia).
    unfold end_pieces, CALL_DISCONNECTED. pieces_ok. }
  erewrite prog_bind_step.
  2: { apply (db_exec_pieces (end_pieces dest x (call_duration now x) now)); try done.
    eapply Z.le_lt_trans; [by apply text_bound|]. vm_compute. done. }
  change (pbx_call x1) with (pbx_call x).
  unfold reports. destruct lg as [l|]; cbn [leg_known final_duration] in *.
  2: { rewrite Hl. unfold mret, prog_ret. by rewrite <- queue_queue_all, queue_all_nil. }
  destruct Hl as ((p & Hp & Hy) & [] & Hfrom & Hlf & Hlt & Hgid & Hcid & gl & g & Hg & Hgi & Hto).
  rewrite Hp. destruct (ci_leg _ Hi _ _ _ ic_call0 Hp) as [Hne _].
  erewrite prog_bind_step by (apply read_run; cbn; rewrite lookup_insert_ne by done; exact Hy).
  rewrite ic_cp0. erewrite prog_bind_step by (apply deref_run; exact ic_campaign0).
  change (event_received x1) with (event_received x). change (c_action x1) with (c_action x).
  match goal with |- (?q ≫= ?f) ?st = _ =>
    assert (Eq : q st = Ret ((g, Some (l_to l)), st)); [|erewrite prog_bind_step by exact Eq] end.
  { destruct (event_received x).
    - destruct Hto as (a & act & -> & Ha & Hag & Hto). erewrite prog_bind_step by (apply deref_run; exact Ha).
      rewrite Hag. erewrite prog_bind_step by (apply deref_run; exact Hg). by rewrite Hto.
    - destruct Hto as [-> ->]. by erewrite prog_bind_step by (apply deref_run; exact Hg). }
  cbn [fst snd]. rewrite Hfrom, Hgi. pose proof (call_duration_range now (l_call l)).
  set (ps := forwarding_pieces cp (l_gateway l) (l_from l) (l_to l) (l_call l) (call_duration now (l_call l)) now).
  assert (Hok2 : Forall piece_ok ps) by (unfold ps, forwarding_pieces; pieces_ok).
  erewrite prog_bind_step.
  2: { apply (db_exec_pieces ps); try done.
    eapply Z.le_lt_trans; [by apply text_bound|]. unfold ps, forwarding_pieces. cbn [pieces_bound piece_text].
    rewrite !bytes_of_length. simpl String.length. lia. }
  unfold mret, prog_ret. by rewrite <- queue_queue_all, <- queue_queue_all, queue_all_nil.
Qed.
End reports.

(** ** Supervision *)

Definition established (x : call) : bool := bool_decide (call_status x = CALL_ESTABLISHED).

(** The campaign without actions has played its file often enough. *)
Definition played_out (cp : campaign) (x : call) : bool :=
  bool_decide (actions cp = []) && established x && bool_decide (max_play cp ≤ num_play x).

Definition wants_forward (cp : campaign) (x : call) : bool :=
  negb (ended x) && negb (played_out cp x) && established x && (event_received x || join_pbx x) && negb (forwarded x).

(** When a running call is hung up: its file is played out, half an hour after a
    forwarded call was established or when its second leg is over, after the
    campaign's maximal duration, or after 40 seconds without an answer. *)
Definition over (now : Z) (cp : campaign) (x : call) (lg : option leg) : bool :=
  if played_out cp x then true
  else if established x && (event_received x || join_pbx x) then
    bool_decide (now - establish_tm x > 1800) || match lg with Some l => ended (l_call l) | None => false end
  else if negb (forwarded x) && established x && bool_decide (max_call_duration cp > 0) &&
          bool_decide (now - establish_tm x > max_call_duration cp) then true
  else bool_decide (call_status x < CALL_ESTABLISHED) && bool_decide (now - connect_tm x > 40).

Definition supervised (now : Z) (cp : campaign) (lg : option leg) (x : call) : call :=
  if ended x then set_resp_code 1 (set_c_sess false x)
  else if over now cp x lg then hang_up x else x.

(** Whether a destination is given up after a call. *)
Definition given_up (cp : campaign) (dest : destination) (duration : Z) : bool :=
  bool_decide (max_try cp > 0) && bool_decide (max_try cp ≤ try_count dest) || bool_decide (duration > 0).

Lemma supervised_same now cp lg x :
  let x' := supervised now cp lg x in
  c_rtp_sess x' = c_rtp_sess x ∧ pbx_call x' = pbx_call x ∧ event_received x' = event_received x ∧
  c_action x' = c_action x ∧ call_status x' = call_status x ∧ establish_tm x' = establish_tm x ∧
  (call_ok x → call_ok x').
Proof.
  unfold supervised. destruct (ended x); [|destruct (over now cp x lg)]; split_and!; try done;
    intros []; split; simpl; lia.
Qed.

Section supervise.
Context `{E : env}.

Lemma supervise_run s d dest k cp c x lg :
  calls_inv s → in_call s d dest k cp c x → leg_known s dest cp x lg → wants_forward cp x = false →
  supervise d s = Ret (tt, set_calls (<[c := supervised (clock s / 1000) cp lg x]> (calls s)) s).
Proof.
  intros Hi [] Hl Hw. unfold supervise. step. rewrite ic_cp0. step. rewrite ic_dcall0.
  erewrite prog_bind_step by done. step. erewrite prog_bind_step by done. cbv zeta.
  set (now := clock s / 1000).
  assert (Hskip : skip s = Ret (tt, set_calls (<[c := x]> (calls s)) s)).
  { rewrite insert_id by done. by destruct s. }
  unfold supervised. destruct (ended x) eqn:He; cbn [negb]; [by erewrite upd_run by heap_lookup|].
  unfold wants_forward in Hw. rewrite He in Hw. cbn [negb andb] in Hw.
  unfold over. fold (established x). fold (played_out cp x).
  destruct (played_out cp x) eqn:Ep; [by erewrite upd_run by heap_lookup|]. cbn [negb andb] in Hw.
  destruct (established x && (event_received x || join_pbx x)) eqn:Ef.
  - cbn [andb] in Hw. rewrite Hw. destruct (bool_decide (now - establish_tm x > 30 * 60)) eqn:Et;
      change (30 * 60) with 1800 in Et; rewrite Et; cbn [orb]; [by erewrite upd_run by heap_lookup|].
    destruct lg as [l|]; cbn [leg_known] in Hl; [|by rewrite Hl].
    destruct Hl as ((p & -> & Hy) & _). step. destruct (ended (l_call l)); [by erewrite upd_run by heap_lookup|done].
  - destruct (_ && bool_decide (now - establish_tm x > max_call_duration cp)); [by erewrite upd_run by heap_lookup|].
    destruct (_ && bool_decide (now - connect_tm x > 40)); [by erewrite upd_run by heap_lookup|done].
Qed.

(** A call's fields change under the timer. *)
Lemma in_call_set s d dest k cp c x x' db :
  in_call s d dest k cp c x → pbx_call x' = pbx_call x → call_ok x' →
  in_call (set_app_db db (set_calls (<[c := x']> (calls s)) s)) d dest k cp c x'.
Proof.
  intros [] Hp Hok. split; try done; [apply lookup_insert_eq|].
  intros c' z Hz. cbn in Hz. apply lookup_insert_Some in Hz as [[<- <-]|[Hne Hz]]; [rewrite Hp|]; by eapply ic_top0.
Qed.

Lemma leg_known_set s dest cp c x x' lg db :
  calls_inv s → calls s !! c = Some x →
  leg_known s dest cp x lg → pbx_call x' = pbx_call x → event_received x' = event_received x → c_action x' = c_action x →
  leg_known (set_app_db db (set_calls (<[c := x']> (calls s)) s)) dest cp x' lg.
Proof.
  intros Hi Hc Hl Hp He Ha. destruct lg as [l|]; simpl in *; [|congruence]. rewrite Hp, He, Ha.
  destruct Hl as ((p & Hpx & Hy) & Hl). split; [|done]. exists p. split; [done|].
  destruct (ci_leg _ Hi _ _ _ Hc Hpx) as [Hne _]. by rewrite lookup_insert_ne.
Qed.

(** The state once the call is over. *)
Definition ended_state (s : app) (d : loc) (dest : destination) (k : loc) (cp : campaign) (c : loc) (x : call)
    (lg : option leg) : app :=
  let now := clock s / 1000 in
  let x2 := set_call_status CALL_DISCONNECTED x in
  let s2 := after_destroy (queue_all (reports dest cp x now lg) (set_calls (<[c := x2]> (calls s)) s)) c x2 in
  if given_up cp dest (final_duration now x lg) then destroyed d k cp s2 else requeued d dest k cp s2.

Lemma on_call_end_run s d dest k cp c x lg :
  plenty mem → calls_inv s → in_call s d dest k cp c x → leg_known s dest cp x lg → wants_forward cp x = false →
  let x1 := supervised (clock s / 1000) cp lg x in
  on_call_end d s = Ret (tt,
    if ended x1 then ended_state s d dest k cp c x1 lg
    else set_dests (<[d := set_d_tmr (Some (clock s + 1000)) dest]> (dests s))
           (set_calls (<[c := x1]> (calls s)) s)).
Proof.
  intros Hm Hi Hic Hl Hw x1. pose proof (supervised_same (clock s / 1000) cp lg x) as (Hr & Hp & Hev & Ha & Hst & _ & Hok).
  fold x1 in Hr, Hp, Hev, Ha, Hst, Hok. unfold on_call_end.
  erewrite prog_bind_step by (by eapply supervise_run). fold x1.
  set (s1 := set_calls (<[c := x1]> (calls s)) s).
  assert (Hic1 : in_call s1 d dest k cp c x1).
  { apply (in_call_set s d dest k cp c x x1 (app_db s)); [done|done|]. apply Hok. by destruct Hic. }
  assert (Hl1 : leg_known s1 dest cp x1 lg).
  { apply (leg_known_set s dest cp c x x1 lg (app_db s)); try done. by destruct Hic. }
  assert (Hi1 : calls_inv s1) by (apply (inv_set_call s c x); [done|by destruct Hic|done|done]).
  pose proof Hic1 as []. step. rewrite ic_dcall0. erewrite prog_bind_step by done. step.
  erewrite prog_bind_step by done. cbv zeta. change (clock s1) with (clock s) in *.
  destruct (ended x1) eqn:He.
  2: { unfold tmr_start_dest. erewrite prog_bind_step by done. by erewrite upd_run by exact ic_dest0. }
  erewrite prog_bind_step by (by eapply (report_run s1 d dest k cp c x1 lg)).
  change (clock s1) with (clock s). set (now := clock s / 1000).
  set (x2 := set_call_status CALL_DISCONNECTED x1).
  assert (Ec : <[c := x2]> (calls s1) = <[c := x2]> (calls s)) by (cbn; by rewrite insert_insert_eq).
  rewrite Ec. change (set_calls (<[c := x2]> (calls s)) s1) with (set_calls (<[c := x2]> (calls s)) s).
  set (s2 := queue_all _ _).
  assert (Hic2 : in_call s2 d dest k cp c x2).
  { apply (in_call_set s d dest k cp c x x2 _ Hic); [done|]. destruct ic_cok0. split; try done. }
  assert (Hi2 : calls_inv s2).
  { apply (calls_inv_ext (set_calls (<[c := x2]> (calls s)) s)); try done. apply (inv_set_call s c x); try done. by destruct Hic. }
  unfold retire. erewrite prog_bind_step by (apply read_run; by destruct Hic2).
  rewrite ic_cp0. erewrite prog_bind_step by (apply deref_run; by destruct Hic2).
  unfold ended_state. fold now x2 s2. unfold given_up.
  destruct (bool_decide (max_try cp > 0) && bool_decide (max_try cp ≤ try_count dest)); cbn [orb];
    [by erewrite deref_destination_run|].
  destruct (bool_decide (final_duration now x1 lg > 0)); [by erewrite deref_destination_run|].
  rewrite <- (retire_requeue_run s2 d dest k cp c x2) by done. by rewrite ic_cp0.
Qed.

Lemma supervised_running now cp lg x : ended (supervised now cp lg x) = false → supervised now cp lg x = x.
Proof. unfold supervised. destruct (ended x) eqn:He; [simpl; congruence|]. by destruct (over now cp x lg). Qed.

Lemma pool_after_destroy s c x :
  rtp_sessions (after_destroy s c x) =
    rtp_sessions s ++ option_list (c_rtp_sess x) ++ option_list (pbx_call x ≫= λ p, calls s !! p ≫= c_rtp_sess).
Proof.
  unfold after_destroy, drop_call. destruct (pbx_call x) as [p|]; cbn; rewrite !pool_give_back; [|by rewrite app_nil_r].
  by rewrite <- app_assoc.
Qed.

(** C1: the timer of a running or ended call that is not about to be forwarded.
    A call that is neither over nor hung up by one of the time limits is left
    alone and looked at again in a second.  Otherwise its report is queued (and
    the one of its second leg), the call and the leg are freed, their RTP
    sessions are back in the pool, and the destination is either freed, when
    its tries are used up or somebody was reached, or goes to the end of the
    waiting destinations of its campaign.  The invariant is kept. *)
Theorem on_call_end_spec s d dest k cp c x lg :
  plenty mem → calls_inv s → in_call s d dest k cp c x → leg_known s dest cp x lg → wants_forward cp x = false →
  let now := clock s / 1000 in
  let x1 := supervised now cp lg x in
  ∃ s', on_call_end d s = Ret (tt, s') ∧ calls_inv s' ∧
    if ended x1 then
      sqllist (app_db s') = sqllist (app_db s) ++ reports dest cp x1 now lg ∧
      calls s' !! c = None ∧
      rtp_sessions s' = rtp_sessions s ++ option_list (c_rtp_sess x) ++
        option_list (pbx_call x ≫= λ p, calls s !! p ≫= c_rtp_sess) ∧
      if given_up cp dest (final_duration now x lg) then
        dests s' = delete d (dests s) ∧ cps s' = <[k := drop_processl d cp]> (cps s)
      else
        dests s' = <[d := set_d_list (Some (InDestinations k)) (set_d_call None dest)]> (dests s) ∧
        cps s' = <[k := set_destinations (destinations cp ++ [d]) (drop_processl d cp)]> (cps s)
    else
      sqllist (app_db s') = sqllist (app_db s) ∧ calls s' = calls s ∧ rtp_sessions s' = rtp_sessions s ∧
      dests s' = <[d := set_d_tmr (Some (clock s + 1000)) dest]> (dests s) ∧ cps s' = cps s.
Proof.
  intros Hm Hi Hic Hl Hw now x1. eexists. split; [by eapply on_call_end_run|]. fold now x1.
  pose proof (supervised_same now cp lg x) as (Hr & Hp & Hev & Ha & Hst & Het & Hok).
  fold x1 in Hr, Hp, Hev, Ha, Hst, Het, Hok. destruct (ended x1) eqn:He.
  2: { unfold x1 in *. rewrite (supervised_running _ _ _ _ He) in *. pose proof Hic as [].
    split; [|split_and!; try done; cbn; by rewrite insert_id].
    apply (calls_inv_ext (set_calls (<[c := x]> (calls s)) s)); try done. by apply (inv_set_call s c x). }
  assert (Hfd : final_duration now x1 lg = final_duration now x lg).
  { unfold final_duration, call_duration. by rewrite Hst, Het. }
  set (x2 := set_call_status CALL_DISCONNECTED x1).
  set (s2 := queue_all (reports dest cp x1 now lg) (set_calls (<[c := x2]> (calls s)) s)).
  pose proof Hic as [].
  assert (Hi2 : calls_inv s2).
  { apply (calls_inv_ext (set_calls (<[c := x2]> (calls s)) s)); try done. by apply (inv_set_call s c x). }
  assert (Hc2 : calls s2 !! c = Some x2) by apply lookup_insert_eq.
  assert (Hl2 : not_leg s2 c).
  { intros c' z Hz. cbn in Hz. apply lookup_insert_Some in Hz as [[<- <-]|[Hne Hz]]; [|by eapply ic_top0].
    change (pbx_call x2) with (pbx_call x1). rewrite Hp. by eapply ic_top0. }
  pose proof (inv_after_destroy s2 c x2 Hi2 Hc2 Hl2) as Hi3.
  destruct (after_destroy_frame s2 c x2) as (Fd & Fc & _ & _ & Fdb & _).
  assert (Hpool : rtp_sessions (after_destroy s2 c x2) = rtp_sessions s ++ option_list (c_rtp_sess x) ++
    option_list (pbx_call x ≫= λ p, calls s !! p ≫= c_rtp_sess)).
  { rewrite pool_after_destroy. change (c_rtp_sess x2) with (c_rtp_sess x1). change (pbx_call x2) with (pbx_call x1).
    rewrite Hr, Hp. do 3 f_equal. destruct (pbx_call x) as [p|] eqn:Epx; [|done]. cbn [mbind option_bind].
    destruct (ci_leg _ Hi _ _ _ ic_call0 Epx) as [Hne _]. cbn. by rewrite lookup_insert_ne. }
  assert (Hgone : calls (after_destroy s2 c x2) !! c = None).
  { unfold after_destroy. destruct (pbx_call x2); unfold drop_call; cbn; by rewrite lookup_delete_eq. }
  unfold ended_state. fold now x2 s2. rewrite Hfd.
  destruct (given_up cp dest (final_duration now x lg)).
  - split; [by apply (calls_inv_ext (after_destroy s2 c x2))|].
    split_and!; cbn; [by rewrite Fdb|done|done|by rewrite Fd|by rewrite Fc].
  - split; [by apply (calls_inv_ext (after_destroy s2 c x2))|].
    split_and!; cbn; [by rewrite Fdb|done|done|by rewrite Fd|by rewrite Fc].
Qed.
End supervise.

(** ** Filling the process list *)

Lemma sh_total : ∀ x y, destination_sort_handler x y = false → destination_sort_handler y x = true.
Proof. intros x y. unfold destination_sort_handler. do 2 case_bool_decide; try done. lia. Qed.

Definition fewer_tries (x y : loc * Z) : Prop := snd x ≤ snd y.

Lemma sort_handler_true x y : destination_sort_handler x y = true ↔ fewer_tries x y.
Proof. unfold destination_sort_handler, fewer_tries. case_bool_decide; split; (done || lia). Qed.

Lemma Sorted_weaken {A} (P Q : A → A → Prop) l : (∀ a b, P a b → Q a b) → Sorted P l → Sorted Q l.
Proof. intros H. induction 1 as [|a l Hs IH Hh]; constructor; [done|]. destruct Hh; constructor; auto. Qed.

(** The sort ends, with a stable ordering by the number of tries. *)
Lemma sort_loop_run fuel : ∀ l,
  (inversions destination_sort_handler l < fuel)%nat →
  ∃ l', sort_loop fuel l = Ret l' ∧ l' ≡ₚ l ∧ StronglySorted fewer_tries l' ∧
    ∀ n, filter (λ x, snd x = n) l' = filter (λ x, snd x = n) l.
Proof.
  induction fuel as [|fuel IH]; intros l Hf; [lia|]. destruct l as [|x r]; cbn [sort_loop].
  { exists []. split_and!; [done|done|constructor|done]. }
  pose proof (bubble_perm destination_sort_handler x r) as Hp.
  pose proof (bubble_inversions destination_sort_handler sh_total x r) as Hi.
  pose proof (bubble_sorted_flag destination_sort_handler x r) as Hs.
  assert (Hst : ∀ n, filter (λ x, snd x = n) (bubble destination_sort_handler x r).1 = filter (λ x, snd x = n) (x :: r)).
  { intros n. apply bubble_stable. intros a b Ha Hb. apply sort_handler_true. unfold fewer_tries. lia. }
  destruct (bubble destination_sort_handler x r) as [l' again]. cbn [fst snd] in *. destruct again.
  - destruct (IH l') as (l2 & E & Hp2 & Hs2 & Hst2); [lia|]. exists l2. split_and!; [done|by rewrite Hp2|done|].
    intros n. by rewrite Hst2.
  - destruct (Hs eq_refl) as [-> Hsort]. exists (x :: r). split_and!; [done|done| |done].
    apply Sorted_StronglySorted; [intros a b c; unfold fewer_tries; lia|].
    eapply Sorted_weaken; [|exact Hsort]. intros a b. by rewrite sort_handler_true.
Qed.

Definition tries (s : app) (d : loc) : Z := match dests s !! d with Some x => try_count x | None => 0 end.

(** A destination may be called: never tried, or not too recently. *)
Definition eligible (s : app) (cp : campaign) (d : loc) : bool :=
  match dests s !! d with
  | Some x => negb (bool_decide (try_count x > 0) && bool_decide (clock s / 1000 - last_try x < retry_delay cp))
  | None => false
  end.

(** A campaign and its waiting destinations. *)
Record waiting_ok (s : app) (k : loc) (cp : campaign) : Prop := {
  wo_cp : cps s !! k = Some cp;
  wo_nodup : NoDup (destinations cp);
  wo_dests : ∀ d, d ∈ destinations cp → ∃ x, dests s !! d = Some x ∧ d_list x = Some (InDestinations k)
}.

Lemma try_counts_run l s :
  (∀ d, d ∈ l → is_Some (dests s !! d)) → try_counts l s = Ret (map (λ d, (d, tries s d)) l, s).
Proof.
  induction l as [|d l IH]; intros Hl; [done|]. cbn [try_counts map].
  destruct (Hl d) as [x Hx]; [by left|]. step.
  erewrite prog_bind_step by (apply IH; intros e He; apply Hl; by right).
  assert (Ht : tries s d = try_count x) by (unfold tries; by rewrite Hx). by rewrite Ht.
Qed.

Lemma sort_destinations_run s k cp :
  waiting_ok s k cp →
  ∃ ys, sort_destinations k s = Ret (tt, set_cps (<[k := set_destinations ys cp]> (cps s)) s) ∧
    ys ≡ₚ destinations cp ∧ StronglySorted (λ a b, tries s a ≤ tries s b) ys ∧
    ∀ n, filter (λ d, tries s d = n) ys = filter (λ d, tries s d = n) (destinations cp).
Proof.
  intros [Hcp Hnd Hd]. set (f := λ d, (d, tries s d)). set (l := map f (destinations cp)).
  assert (Hlen : length l = length (destinations cp)) by apply length_map.
  destruct (sort_loop_run (S (length l * length l)) l) as (l' & E & Hp & Hs & Hst).
  { pose proof (inversions_bound destination_sort_handler l). lia. }
  assert (Hl' : l' = map f (map fst l')).
  { rewrite map_map. rewrite <- (map_id l') at 1. apply map_ext_in. intros [d n] Hin%list_elem_of_In.
    rewrite Hp in Hin. unfold l in Hin. apply list_elem_of_In, in_map_iff in Hin as (e & [= <- <-] & _). done. }
  set (ys := map fst l') in *. exists ys. split_and!.
  - unfold sort_destinations. step. erewrite prog_bind_step.
    2: { apply try_counts_run. intros d Hin. destruct (Hd d Hin) as (x & Hx & _). by exists x. }
    fold f l. unfold lift. erewrite prog_bind_step by (by rewrite E). by erewrite upd_run by exact Hcp.
  - unfold ys. rewrite Hp. unfold l. by rewrite map_map, map_id.
  - rewrite Hl' in Hs. clear -Hs. induction ys as [|y ys IH]; [constructor|]. simpl in Hs.
    apply StronglySorted_inv in Hs as [Hs Hy]. constructor; [auto|]. rewrite List.Forall_map in Hy. exact Hy.
  - intros n. specialize (Hst n). rewrite Hl' in Hst. unfold l in Hst.
    assert (Hf : ∀ zs, map fst (filter (λ x, snd x = n) (map f zs)) = filter (λ d, tries s d = n) zs).
    { induction zs as [|z zs IH]; [done|]. cbn [map]. rewrite !filter_cons. cbn [snd f].
      change (snd (f z)) with (tries s z). case_decide; cbn [map]; by rewrite IH. }
    by rewrite <- !Hf, Hst.
Qed.

Definition moved (k : loc) (P : list loc) (ds : gmap loc destination) : gmap loc destination :=
  map_imap (λ d x, Some (if decide (d ∈ P) then set_d_list (Some (InProcessl k)) x else x)) ds.

Lemma lookup_moved k P ds d :
  moved k P ds !! d = (λ x, if decide (d ∈ P) then set_d_list (Some (InProcessl k)) x else x) <$> ds !! d.
Proof. unfold moved. rewrite map_lookup_imap. by destruct (ds !! d). Qed.

Lemma moved_nil k ds : moved k [] ds = ds.
Proof. apply map_eq. intros d. rewrite lookup_moved. by destruct (ds !! d). Qed.

Lemma moved_cons k d x P ds :
  ds !! d = Some x → d ∉ P →
  moved k P (<[d := set_d_list (Some (InProcessl k)) x]> ds) = moved k (d :: P) ds.
Proof.
  intros Hx Hd. apply map_eq. intros e. rewrite !lookup_moved. destruct (decide (d = e)) as [<-|Hne].
  - rewrite lookup_insert_eq, Hx. simpl. by rewrite decide_False, decide_True by set_solver.
  - rewrite lookup_insert_ne by done. destruct (ds !! e); [|done]. simpl.
    destruct (decide (e ∈ P)); [rewrite decide_True by set_solver|rewrite decide_False by set_solver]; done.
Qed.

(** The campaign after the destinations [P] were moved. *)
Definition with_moved (P : list loc) (cp : campaign) : campaign :=
  set_processl (processl cp ++ P) (set_destinations (filter (λ d, d ∉ P) (destinations cp)) cp).

Definition filled (k : loc) (P : list loc) (cp : campaign) (s : app) : app :=
  set_dests (moved k P (dests s)) (set_cps (<[k := with_moved P cp]> (cps s)) s).

Lemma elem_take {A} (x : A) n l : x ∈ take n l → x ∈ l.
Proof. rewrite <- (take_drop n l) at 2. set_solver. Qed.

Lemma fill_loop_run k l : ∀ s cp,
  waiting_ok s k cp → NoDup l → (∀ d, d ∈ l → d ∈ destinations cp) →
  Z.of_nat (length (processl cp)) < call_limit cp →
  let P := take (Z.to_nat (call_limit cp) - length (processl cp)) (filter (λ d, Is_true (eligible s cp d)) l) in
  fill_loop k l s = Ret (tt, filled k P cp s).
Proof.
  induction l as [|d l IH]; intros s cp Hw Hnd Hin Hlt P.
  { unfold P. rewrite filter_nil, take_nil. cbn [fill_loop]. unfold skip, filled. do 2 f_equal.
    rewrite moved_nil. unfold with_moved. rewrite app_nil_r, (filter_all _ (destinations cp)).
    - destruct Hw as [Hcp _ _]. rewrite (insert_id (cps s)); [by destruct s|]. rewrite Hcp. by destruct cp.
    - apply Forall_forall. intros e _. apply not_elem_of_nil. }
  apply NoDup_cons in Hnd as [Hd Hnd]. pose proof Hw as [Hcp Hnodup Hds].
  destruct (Hds d) as (x & Hx & Hxl); [apply Hin; by left|].
  cbn [fill_loop]. step. step. erewrite prog_bind_step by done.
  assert (He : eligible s cp d = negb (bool_decide (try_count x > 0) && bool_decide (clock s / 1000 - last_try x < retry_delay cp)))
    by (unfold eligible; by rewrite Hx).
  destruct (bool_decide (try_count x > 0) && bool_decide (clock s / 1000 - last_try x < retry_delay cp)); cbn [negb] in He.
  { rewrite (IH s cp) by (try done; intros e Hin'; apply Hin; by right). unfold P.
    rewrite filter_cons_False by (rewrite He; by intros []). done. }
  assert (HP : P = d :: take (Z.to_nat (call_limit cp) - S (length (processl cp))) (filter (λ d, Is_true (eligible s cp d)) l)).
  { unfold P. rewrite filter_cons_True by (by rewrite He). 
    replace (Z.to_nat (call_limit cp) - length (processl cp))%nat with
      (S (Z.to_nat (call_limit cp) - S (length (processl cp)))) by lia. done. }
  set (room := (Z.to_nat (call_limit cp) - S (length (processl cp)))%nat) in *.
  set (s1 := filled k [d] cp s).
  erewrite prog_bind_step.
  2: { unfold list_unlink_dest. step. rewrite Hxl. step. eapply upd_run. exact Hx. }
  erewrite prog_bind_step.
  2: { unfold list_append_processl. erewrite prog_bind_step by (eapply upd_run; apply lookup_insert_eq).
    eapply upd_run. apply lookup_insert_eq. }
  cbn beta. match goal with |- (?m ≫= ?f) ?st = _ => replace st with s1 end.
  2: { unfold s1, filled. rewrite <- (moved_cons k d x []), moved_nil by (done || apply not_elem_of_nil). cbn.
    rewrite !insert_insert_eq. unfold with_moved.
    by rewrite (list_filter_iff (λ a, a ≠ d) (λ a, a ∉ [d])) by (intros e; set_solver). }
  set (cp1 := with_moved [d] cp).
  assert (Hcp1 : cps s1 !! k = Some cp1) by apply lookup_insert_eq.
  step. change (call_limit cp1) with (call_limit cp).
  assert (Hlen1 : length (processl cp1) = S (length (processl cp))) by (cbn; rewrite length_app; simpl; lia).
  rewrite Hlen1. case_bool_decide as Hfull.
  { replace room with O in HP by (unfold room; lia). rewrite take_0 in HP. by rewrite HP. }
  assert (Hw1 : waiting_ok s1 k cp1).
  { split; [done|by apply NoDup_filter|]. intros e He1. cbn in He1. apply list_elem_of_filter in He1 as [Hne He1].
    destruct (Hds e He1) as (z & Hz & Hzl). exists z. cbn. rewrite lookup_moved, Hz. simpl.
    by rewrite decide_False by done. }
  rewrite (IH s1 cp1); [|done|done| |rewrite Hlen1; change (call_limit cp1) with (call_limit cp); lia].
  2: { intros e Hel. cbn. apply list_elem_of_filter. split; [|apply Hin; by right]. intros ->%list_elem_of_singleton. done. }
  f_equal. f_equal. change (call_limit cp1) with (call_limit cp). rewrite Hlen1. fold room.
  assert (Hel : filter (λ e, Is_true (eligible s1 cp1 e)) l = filter (λ e, Is_true (eligible s cp e)) l).
  { apply list_filter_iff. intros e. unfold eligible. cbn. rewrite lookup_moved. destruct (dests s !! e); [|done].
    simpl. by destruct (decide (e ∈ [d])). }
  rewrite Hel. set (P1 := take room _) in *. rewrite HP. unfold filled. cbn. rewrite insert_insert_eq.
  assert (Hdp : d ∉ P1).
  { intros Hdp%elem_take%list_elem_of_filter. naive_solver. }
  assert (Em : moved k P1 (moved k [d] (dests s)) = moved k (d :: P1) (dests s)).
  { rewrite <- (moved_cons k d x []), moved_nil by (done || apply not_elem_of_nil). by apply moved_cons. }
  assert (Ew : with_moved P1 cp1 = with_moved (d :: P1) cp).
  { unfold with_moved, cp1. cbn. rewrite <- app_assoc, list_filter_filter.
    by rewrite (list_filter_iff _ (λ a, a ∉ d :: P1)) by (intros e; set_solver). }
  by rewrite Em, Ew.
Qed.

(** Whether a campaign has no room for another call. *)
Definition at_limit (cp : campaign) : bool := bool_decide (call_limit cp ≤ Z.of_nat (length (processl cp))).

Lemma take_filter_rest {A} (P : A → Prop) `{∀ a, Decision (P a)} n (l : list A) x :
  (length (take n (filter P l)) < n)%nat → x ∈ l → P x → x ∈ take n (filter P l).
Proof.
  intros Hn Hx HP. rewrite take_ge; [by apply list_elem_of_filter|]. rewrite length_take in Hn. lia.
Qed.

Lemma StronglySorted_filter {A} (R : A → A → Prop) (P : A → Prop) `{∀ a, Decision (P a)} l :
  StronglySorted R l → StronglySorted R (filter P l).
Proof.
  induction 1 as [|a l Hs IH Ha]; [constructor|]. rewrite filter_cons. case_decide; [|done].
  constructor; [done|]. rewrite Forall_forall in Ha |- *. intros b [_ Hb]%list_elem_of_filter. auto.
Qed.

Lemma StronglySorted_take_drop {A} (R : A → A → Prop) n (l : list A) x y :
  StronglySorted R l → x ∈ take n l → y ∈ drop n l → R x y.
Proof.
  rewrite <- (take_drop n l) at 1. intros Hs Hx Hy.
  by eapply StronglySorted_app_1_elem_of.
Qed.

(** The destinations left are those not moved. *)
Lemma filter_notin_perm (P l : list loc) :
  NoDup l → NoDup P → (∀ d, d ∈ P → d ∈ l) → P ++ filter (λ d, d ∉ P) l ≡ₚ l.
Proof.
  intros Hl HP Hin. apply NoDup_Permutation; [|done|].
  - apply NoDup_app. split_and!; [done| |by apply NoDup_filter].
    intros d Hd [? _]%list_elem_of_filter. done.
  - intros d. rewrite elem_of_app, list_elem_of_filter. destruct (decide (d ∈ P)); naive_solver.
Qed.

Section fill.
Context `{E : env}.

Lemma fill_run s k cp :
  waiting_ok s k cp →
  ∃ D P, let cp' := set_processl (processl cp ++ P) (set_destinations D cp) in
    fill k s = Ret (tt, set_dests (moved k P (dests s)) (set_cps (<[k := cp']> (cps s)) s)) ∧
    P ++ D ≡ₚ destinations cp ∧
    (P = [] ∨ Z.of_nat (length (processl cp')) ≤ call_limit cp) ∧
    (∀ d, d ∈ P → eligible s cp d = true) ∧
    StronglySorted (λ d e, tries s d ≤ tries s e) P ∧
    (∀ d e, d ∈ P → e ∈ D → eligible s cp e = true → tries s d ≤ tries s e) ∧
    (∀ e, e ∈ D → eligible s cp e = true → call_limit cp ≤ Z.of_nat (length (processl cp'))).
Proof.
  intros Hw. pose proof Hw as [Hcp Hnd Hd]. unfold fill. setoid_rewrite prog_bind_step; [|by apply read_run].
  case_bool_decide as Hlt.
  2: { exists (destinations cp), []. cbv zeta. rewrite moved_nil, app_nil_r.
    rewrite insert_id by (rewrite Hcp; by destruct cp).
    split_and!; [by destruct s|done|by left|set_solver|constructor|set_solver|]. intros e _ _. cbn. lia. }
  destruct (sort_destinations_run s k cp Hw) as (ys & Hsort & Hperm & Hsorted & _).
  set (s1 := set_cps (<[k := set_destinations ys cp]> (cps s)) s) in Hsort. set (cp1 := set_destinations ys cp) in *.
  assert (Hw1 : waiting_ok s1 k cp1).
  { split; [apply lookup_insert_eq|cbn; by rewrite Hperm|]. intros d Hin. apply Hd. by rewrite <- Hperm. }
  assert (Hndy : NoDup ys) by (by rewrite Hperm).
  set (room := (Z.to_nat (call_limit cp) - length (processl cp))%nat).
  set (el := filter (λ d, Is_true (eligible s cp d)) ys). set (P := take room el).
  exists (filter (λ d, d ∉ P) ys), P. cbv zeta.
  assert (HPel : ∀ d, d ∈ P → Is_true (eligible s cp d) ∧ d ∈ ys) by (intros d Hin%elem_take%list_elem_of_filter; done).
  assert (HndP : NoDup P).
  { apply (sublist_NoDup P el); [by apply NoDup_filter|apply sublist_take]. }
  assert (Hrest : ∀ e, e ∈ filter (λ d, d ∉ P) ys → e ∉ P ∧ e ∈ ys) by (intros e He%list_elem_of_filter; done).
  split_and!.
  - erewrite prog_bind_step by exact Hsort. erewrite prog_bind_step by (apply read_run; apply lookup_insert_eq).
    etransitivity; [exact (fill_loop_run k ys s1 cp1 Hw1 Hndy (λ d H, H) Hlt)|].
    unfold filled, s1. cbn. by rewrite insert_insert_eq.
  - rewrite <- Hperm. apply filter_notin_perm; [done|done|]. intros d Hin. by apply HPel.
  - right. cbn. rewrite length_app. unfold P. rewrite length_take. lia.
  - intros d Hin. by apply Is_true_true, HPel.
  - apply (StronglySorted_app_1_l _ P (drop room el)). unfold P. rewrite take_drop. by apply StronglySorted_filter.
  - intros d e HdP [HeP He]%Hrest Hel. apply (StronglySorted_take_drop (λ a b, tries s a ≤ tries s b) room el); [by apply StronglySorted_filter|done|].
    assert (Hee : e ∈ el) by (apply list_elem_of_filter; split; [by apply Is_true_true|done]).
    rewrite <- (take_drop room el), elem_of_app in Hee. destruct Hee; [done|done].
  - intros e [HeP He]%Hrest Hel. cbn. rewrite length_app.
    destruct (decide (length P < room)%nat) as [Hlp|]; [|lia]. exfalso. apply HeP.
    apply (take_filter_rest (λ d, Is_true (eligible s cp d)) room ys e Hlp He). by apply Is_true_true.
Qed.

(** C2: a campaign with free places takes on waiting destinations: none whose
    retry delay has not passed, never more than the call limit allows, those
    with the fewest tries first; it leaves room only when nobody who may be
    called is left.  No destination is lost or duplicated, and one that is taken
    on is linked in the process list. *)
Theorem fill_spec s k cp :
  waiting_ok s k cp →
  ∃ cp' P,
    fill k s = Ret (tt, set_dests (moved k P (dests s)) (set_cps (<[k := cp']> (cps s)) s)) ∧
    processl cp' = processl cp ++ P ∧
    P ++ destinations cp' ≡ₚ destinations cp ∧
    (P = [] ∨ Z.of_nat (length (processl cp')) ≤ call_limit cp) ∧
    (∀ d, d ∈ P → eligible s cp d = true) ∧
    StronglySorted (λ d e, tries s d ≤ tries s e) P ∧
    (∀ d e, d ∈ P → e ∈ destinations cp' → eligible s cp e = true → tries s d ≤ tries s e) ∧
    (∀ e, e ∈ destinations cp' → eligible s cp e = true → call_limit cp ≤ Z.of_nat (length (processl cp'))).
Proof.
  intros Hw. destruct (fill_run s k cp Hw) as (D & P & E1 & H). by exists (set_processl (processl cp ++ P) (set_destinations D cp)), P.
Qed.
End fill.

(** ** Dialling *)

(** The path of the audio file, up to its first dot: directory and stem. *)
Definition wav_path (dir stem : list Z) : list Z := dir ++ bytes_of "/" ++ stem ++ bytes_of ".wav".

Lemma find_byte_app c pre rest i :
  c ∉ pre → find_byte c (pre ++ c :: rest) i = Some (i + Z.of_nat (length pre)).
Proof.
  revert i. induction pre as [|b pre IH]; intros i Hc; cbn [find_byte Datatypes.app length].
  - rewrite bool_decide_eq_true_2 by done. f_equal. lia.
  - apply not_elem_of_cons in Hc as [Hne Hc]. rewrite bool_decide_eq_false_2, IH by done. f_equal. lia.
Qed.

(** A file name with an extension, in a known directory. *)
Record audio_ok (s : app) (file dir stem : list Z) : Prop := {
  af_file : ∃ ext, file = stem ++ chr "." :: ext;
  af_stem : chr "." ∉ stem;
  af_dir : audio_path s = Some dir;
  af_size : Z.of_nat (length file) ≤ 4096 ∧ Z.of_nat (length dir) ≤ 4096
}.

Section dial.
Context `{E : env}.

Lemma call_audio_run s file dir stem :
  plenty mem → audio_ok s file dir stem → call_audio file s = Ret (wav_path dir stem, s).
Proof.
  intros Hm [[ext ->] Hs Hd [Hf Hl]]. unfold call_audio. erewrite prog_bind_step by done.
  unfold lift, pl_strchr. cbn [pl_set_str pl_p pl_l]. rewrite Nat2Z.id, firstn_all.
  erewrite prog_bind_step by (rewrite find_byte_app by done; done). cbn [deref_opt].
  erewrite prog_bind_step by done. rewrite Hd.
  apply (sdprintf_pieces [PStr dir; PLit (bytes_of "/"); PPl stem (chr "." :: ext); PLit (bytes_of ".wav")]);
    [done|done| |done| |].
  - unfold text_of, wav_path. simpl. by rewrite ?app_nil_r.
  - rewrite length_app in Hf. repeat constructor; simpl; try lia; done.
  - rewrite length_app in Hf. unfold wav_path. rewrite !length_app. simpl. simpl in Hf. lia.
Qed.

(** What a new call is to do, or None when it is dropped again. *)
Definition prepared (cp : campaign) (path : list Z) (x : call) : option call :=
  match file_name cp with
  | Some _ => if file_exists path then Some (set_c_audio (Some path) x) else None
  | None =>
      match pbx_gateway cp, pbx_number cp with
      | Some _, Some _ => Some (set_join_pbx true x)
      | _, _ => None
      end
  end.

Lemma prepare_run s d dest c x cp dir stem :
  plenty mem → calls_inv s → dests s !! d = Some dest → calls s !! c = Some x →
  pbx_call x = None → not_leg s c →
  (∀ file, file_name cp = Some file → audio_ok s file dir stem) →
  ∃ s', prepare d c cp s = Ret (tt, s') ∧
    match prepared cp (wav_path dir stem) x with
    | Some x' => s' = set_calls (<[c := x']> (calls s)) s
    | None => s' = set_dests (<[d := set_d_call None dest]> (dests s)) (drop_call c (give_back (c_rtp_sess x) s))
    end.
Proof.
  intros Hm Hi Hd Hc Hp Hl Hf. unfold prepare, prepared.
  assert (Hdrop : ∀ x', c_rtp_sess x' = c_rtp_sess x → pbx_call x' = None →
    (deref_call (Some c);; upd d (set_d_call None)) (set_calls (<[c := x']> (calls s)) s) =
      Ret (tt, set_dests (<[d := set_d_call None dest]> (dests s)) (drop_call c (give_back (c_rtp_sess x) s)))).
  { intros x' Hr Hp'. set (s1 := set_calls (<[c := x']> (calls s)) s).
    assert (Hi1 : calls_inv s1) by (apply (inv_set_call s c x); [done|done|done|congruence]).
    assert (Hl1 : not_leg s1 c).
    { intros c' z Hz. cbn in Hz. apply lookup_insert_Some in Hz as [[<- <-]|[_ Hz]]; [congruence|by eapply Hl]. }
    assert (Hc1 : calls s1 !! c = Some x') by apply lookup_insert_eq.
    erewrite prog_bind_step by (by apply deref_call_run). unfold after_destroy. rewrite Hp', Hr.
    assert (E1 : drop_call c (give_back (c_rtp_sess x) s1) = drop_call c (give_back (c_rtp_sess x) s)).
    { unfold drop_call. rewrite !calls_give_back. cbn. rewrite delete_insert_eq. by destruct (c_rtp_sess x). }
    rewrite E1. unfold drop_call. destruct (c_rtp_sess x); by erewrite upd_run. }
  destruct (file_name cp) as [file|] eqn:Ef.
  - specialize (Hf file eq_refl). erewrite prog_bind_step by (by apply call_audio_run).
    erewrite prog_bind_step by (by eapply upd_run). destruct (file_exists (wav_path dir stem)); [by eexists|].
    eexists. split; [|done]. by apply Hdrop.
  - assert (Hid : set_calls (<[c := x]> (calls s)) s = s) by (rewrite insert_id by done; by destruct s).
    destruct (pbx_gateway cp), (pbx_number cp); [eexists; split; [by eapply upd_run|done]|..];
      (eexists; split; [|done]); rewrite <- Hid at 1; by apply Hdrop.
Qed.

(** A destination of the process list that is to be called: through the gateway
    [g], whose decoded address is [u], with the payload type [pt]. *)
Record ready (s : app) (d : loc) (dest : destination) (k : loc) (cp : campaign) (g : loc) (u : uri)
    (user host prefix tel dir stem : list Z) (pt : Z) : Prop := {
  rd_dest : dests s !! d = Some dest;
  rd_cp : d_cp dest = Some k;
  rd_campaign : cps s !! k = Some cp;
  rd_list : d_list dest = Some (InProcessl k);
  rd_idle : d_call dest = None;
  rd_gateway : cp_gateway cp = Some g;
  rd_number : d_dest dest = Some tel;
  rd_attempt : attempt_ok s tel g u user host prefix;
  rd_codec : gateway_ok u user host prefix pt;
  rd_ok : dest_ok dest;
  rd_audio : ∀ file, file_name cp = Some file → audio_ok s file dir stem;
  rd_now : - 2 ^ 63 < clock s / 1000 < 2 ^ 63
}.

(** The destination once its call is started. *)
Definition called (now : Z) (c : loc) (dest : destination) : destination :=
  set_d_tmr (Some (now + 1000)) (set_last_try (now / 1000)
    (set_try_count (u8 (try_count dest + 1)) (set_d_call (Some c) dest))).

(** The state after an attempt to call [d]. *)
Definition dialled (s s' : app) (d : loc) (dest : destination) (k : loc) (cp : campaign) (path : list Z)
    (err : Z) (pool : list loc) (x : call) : Prop :=
  if bool_decide (err = 0) then
    cps s' = cps s ∧
    match prepared cp path x with
    | Some x' =>
        calls s' = <[next s := x']> (calls s) ∧ dests s' = <[d := called (clock s) (next s) dest]> (dests s) ∧
        rtp_sessions s' = pool ∧ app_db s' = app_db (queue (update_text x' dest) s)
    | None =>
        calls s' = calls s ∧ dests s' = <[d := set_last_try (clock s / 1000) dest]> (dests s) ∧
        rtp_sessions s' = pool ++ option_list (head (rtp_sessions s)) ∧ app_db s' = app_db s
    end
  else
    cps s' = <[k := drop_processl d cp]> (cps s) ∧ calls s' = calls s ∧ dests s' = delete d (dests s) ∧
    rtp_sessions s' = pool ∧ app_db s' = app_db s.

(** What dialling leaves alone. *)
Definition same_setup (s s' : app) : Prop :=
  gws s' = gws s ∧ laddr s' = laddr s ∧ audio_path s' = audio_path s ∧ clock s' = clock s ∧ acts s' = acts s.

Lemma prepared_same cp path x x' :
  prepared cp path x = Some x' →
  call_ok x → call_ok x' ∧ c_rtp_sess x' = c_rtp_sess x ∧ pbx_call x' = pbx_call x.
Proof.
  unfold prepared. intros H []. destruct (file_name cp).
  - destruct (file_exists path); [|done]. by injection H as <-.
  - destruct (pbx_gateway cp), (pbx_number cp); try done. by injection H as <-.
Qed.

Lemma dial_failed s s1 d dest k cp :
  dests s1 = dests s → cps s1 = cps s → dests s !! d = Some dest → d_cp dest = Some k → cps s !! k = Some cp →
  d_list dest = Some (InProcessl k) → d_call dest = None →
  (upd d (set_d_call None);; deref_destination d) s1 =
    Ret (tt, set_dests (delete d (dests s)) (set_cps (<[k := drop_processl d cp]> (cps s)) s1)).
Proof.
  intros Fd Fc Hd Hk Hcp Hl Hn. assert (Hd1 : dests s1 !! d = Some dest) by (by rewrite Fd).
  erewrite prog_bind_step by (by eapply upd_run). unfold deref_destination.
  erewrite prog_bind_step by (apply read_run, lookup_insert_eq). cbn [d_call set_d_call deref_call].
  erewrite prog_bind_step by done. unfold list_unlink_dest.
  erewrite prog_bind_step.
  2: { erewrite prog_bind_step by (apply read_run, lookup_insert_eq). cbn [d_list set_d_call]. rewrite Hl.
    erewrite prog_bind_step by (eapply upd_run; cbn; rewrite Fc; exact Hcp).
    eapply upd_run. apply lookup_insert_eq. }
  erewrite free_run by apply lookup_insert_eq. f_equal. f_equal. cbn.
  by rewrite !delete_insert_eq, Fd, Fc.
Qed.

Lemma new_call_ok e now pt g d r : - 2 ^ 63 < now < 2 ^ 63 → call_ok (new_call e now pt g d r).
Proof. intros. split; cbn; unfold CALL_CONNECTING; lia. Qed.

Lemma dial_run s d dest k cp g u user host prefix tel dir stem pt :
  calls_inv s → ready s d dest k cp g u user host prefix tel dir stem pt →
  let e := call_results (next s) in
  let x := new_call e (clock s / 1000) pt (Some g) (Some d) (head (rtp_sessions s)) in
  let '(err, pool, sent) := attempt e (rtp_sessions s) in
  ∃ s', dial d s = Ret (tt, s') ∧ calls_inv s' ∧ same_setup s s' ∧ next s' = Pos.succ (next s) ∧
    dialled s s' d dest k cp (wav_path dir stem) err pool x ∧
    invites s' = invites s ++
      (if (sent : bool) && bool_decide (e_connect e = 0) then [(next s, invite_uri prefix tel host (u_port u))] else []).
Proof.
  intros Hi [] e x. pose proof rd_attempt0 as Ha. destruct Ha as [Hm _ _ _ _ _ _].
  destruct (offer_pt_run s tel g false (Some d) u user host prefix pt Hi rd_attempt0 rd_codec0) as [pl1 Ho].
  pose proof (call_alloc_run s tel g false (Some d) u user host prefix pt pl1 Hi rd_attempt0 Ho) as Hca.
  cbv zeta in Hca. fold e in Hca. fold x in Hca.
  destruct (attempt e (rtp_sessions s)) as [[err pool] sent]. destruct Hca as (s1 & Eca & Hi1 & Hl1 & Hp1 & Hn1 & Hw & Hv & Hc1).
  destruct Hw as (Wg & _ & Wc & _ & Wd & Wa & Wdb & Wl & Wap & Wk & _).
  unfold dial. step. rewrite rd_idle0, rd_cp0. step. rewrite rd_gateway0, rd_number0.
  erewrite prog_bind_step by exact Eca. cbn beta iota. unfold dialled.
  destruct (decide (err = 0)) as [->|He].
  2: { rewrite (bool_decide_eq_false_2 (err = 0)) in * by done. rewrite (bool_decide_eq_true_2 (err ≠ 0)) by done.
    eexists. split; [by eapply dial_failed|]. split; [by apply (calls_inv_ext s1)|]. by split_and!. }
  rewrite (bool_decide_eq_true_2 (0 = 0)) in * by done. rewrite (bool_decide_eq_false_2 (0 ≠ 0)) by lia.
  assert (Hd1 : dests s1 !! d = Some dest) by (by rewrite Wd).
  erewrite prog_bind_step by (by eapply upd_run). erewrite prog_bind_step by done.
  erewrite prog_bind_step by (eapply upd_run; apply lookup_insert_eq).
  erewrite prog_bind_step by done. cbn [clock set_heap store_destination set_dests heap_of].
  set (dest1 := set_last_try (clock s1 / 1000) (set_try_count (u8 (try_count dest + 1)) (set_d_call (Some (next s)) dest))).
  match goal with |- context [(prepare _ _ _ ≫= _) ?st] =>
    set (s2 := set_dests (<[d := dest1]> (dests s)) s1); replace st with s2 end.
  2: { unfold s2. cbn. by rewrite insert_insert_eq, Wd. }
  assert (Hi2 : calls_inv s2) by (by apply (calls_inv_ext s1)).
  assert (Hc2 : calls s2 !! next s = Some x) by (cbn; by rewrite Hc1, lookup_insert_eq).
  assert (Hd2 : dests s2 !! d = Some dest1) by apply lookup_insert_eq.
  destruct (prepare_run s2 d dest1 (next s) x cp dir stem Hm Hi2 Hd2 Hc2 eq_refl Hl1) as (s3 & E3 & Hs3).
  { intros file Hf. destruct (rd_audio0 file Hf). split; try done. cbn. by rewrite Wap. }
  destruct (ci_fresh _ Hi (next s) ltac:(lia)) as [Hfresh _]. erewrite prog_bind_step by exact E3. clear E3.
  destruct (prepared cp (wav_path dir stem) x) as [x'|] eqn:Epr.
  - destruct (prepared_same _ _ _ _ Epr (new_call_ok _ _ _ _ _ _ rd_now0)) as (Hok' & Hr' & Hp').
    subst s3. erewrite prog_bind_step by (apply read_run; exact Hd2).
    change (d_call dest1) with (Some (next s)). cbn iota.
    unfold tmr_start_dest. erewrite prog_bind_step.
    2: { erewrite prog_bind_step by done. eapply upd_run. exact Hd2. }
    destruct rd_ok0.
    erewrite (update_call_status_run d (set_d_tmr (Some (clock s + 1000)) dest1) (next s) x');
      [|done|cbn; rewrite lookup_insert_eq, Wk; done|done|cbn; apply lookup_insert_eq|done|].
    2: { split; cbn; [done|]. apply u8_range. }
    eexists. split; [done|]. split.
    { apply (calls_inv_ext (set_calls (<[next s := x']> (calls s2)) s2)); try done.
      apply (inv_set_call s2 (next s) x); try done. }
    split_and!; try done; cbn.
    + by rewrite Hc1, insert_insert_eq.
    + rewrite insert_insert_eq. unfold dest1. by rewrite Wk.
    + unfold queue. cbn. by rewrite Wdb.
  - subst s3. set (s3 := drop_call (next s) (give_back (c_rtp_sess x) s2)).
    erewrite prog_bind_step by (apply read_run, lookup_insert_eq). cbn [d_call set_d_call].
    erewrite upd_run by apply lookup_insert_eq.
    assert (Hi3 : calls_inv s3) by (by apply inv_drop).
    assert (Hcalls : calls s3 = calls s).
    { unfold s3, drop_call. cbn [calls set_calls]. rewrite calls_give_back. cbn [calls s2 set_dests].
      by rewrite Hc1, delete_insert_eq, delete_id. }
    assert (Hdest : set_try_count (u8 (u8 (try_count dest + 1) - 1)) (set_d_call None dest1) =
      set_last_try (clock s / 1000) dest).
    { destruct rd_ok0. unfold dest1. rewrite Wk. destruct dest as [i n lt oc kp tc tm dl]. cbn in *. subst oc.
      unfold set_try_count, set_last_try, set_d_call. cbn. f_equal. unfold u8.
      rewrite Zminus_mod_idemp_l. rewrite <- (Z.mod_small tc 256) at 2 by done. f_equal. lia. }
    change (u8 (try_count (set_d_call None dest1) - 1)) with (u8 (u8 (try_count dest + 1) - 1)). rewrite Hdest.
    eexists. split; [done|]. split; [by apply (calls_inv_ext s3)|].
    assert (Hset : same_setup s s3 ∧ next s3 = Pos.succ (next s) ∧ cps s3 = cps s ∧ app_db s3 = app_db s ∧
      invites s3 = invites s1 ∧ dests s3 = dests s2).
    { unfold s3, same_setup. destruct (c_rtp_sess x); cbn; by split_and!. }
    destruct Hset as (Hset & Hn3 & Hcp3 & Hdb3 & Hv3 & Hd3). split_and!; try done; cbn.
    + rewrite !insert_insert_eq. done.
    + unfold s3. unfold drop_call. cbn [rtp_sessions set_calls]. rewrite pool_give_back. cbn [rtp_sessions s2 set_dests].
      by rewrite Hp1.
    + change (give_back (head (rtp_sessions s)) s2) with (give_back (c_rtp_sess x) s2).
      transitivity (invites s3); [by destruct (c_rtp_sess x)|]. by rewrite Hv3.
Qed.
(** C3: one turn of the dialling loop.  When the attempt fails the destination
    is freed and leaves the process list; when there is nothing to play and
    nobody to join, or the audio file is missing, the call is dropped, its
    session goes back to the pool and the try does not count; otherwise the
    destination holds the new call, the try and its time are recorded, the timer
    is set, the status is queued for the database and the request for the prefixed
    number has been sent.  The invariant is kept. *)
Theorem dial_spec s d dest k cp g u user host prefix tel dir stem pt :
  calls_inv s → ready s d dest k cp g u user host prefix tel dir stem pt →
  let e := call_results (next s) in
  let x := new_call e (clock s / 1000) pt (Some g) (Some d) (head (rtp_sessions s)) in
  let '(err, pool, sent) := attempt e (rtp_sessions s) in
  ∃ s', dial d s = Ret (tt, s') ∧ calls_inv s' ∧ dialled s s' d dest k cp (wav_path dir stem) err pool x ∧
    invites s' = invites s ++
      (if (sent : bool) && bool_decide (e_connect e = 0) then [(next s, invite_uri prefix tel host (u_port u))] else []).
Proof.
  intros Hi Hr e x. pose proof (dial_run s d dest k cp g u user host prefix tel dir stem pt Hi Hr) as H.
  cbv zeta in H. fold e x in H. destruct (attempt e (rtp_sessions s)) as [[err pool] sent]. naive_solver.
Qed.

(** The loop stops at the first destination that is freed: it reads the next
    element inside it. *)
Lemma dial_loop_exhausted l d rest s dest k cp g u user host prefix tel dir stem pt :
  calls_inv s → ready s d dest k cp g u user host prefix tel dir stem pt → rtp_sessions s = [] →
  (∀ e, e ∈ l → ∃ x, dests s !! e = Some x ∧ is_Some (d_call x)) →
  dial_loop (l ++ d :: rest) s = Fault UseAfterFree.
Proof.
  intros Hi Hr Hp Hl. induction l as [|e l IH]; cbn [dial_loop Datatypes.app].
  - pose proof (dial_run s d dest k cp g u user host prefix tel dir stem pt Hi Hr) as H. rewrite Hp in H.
    cbn [attempt] in H. destruct H as (s' & E1 & _ & _ & _ & Hd & _). unfold dialled in Hd.
    rewrite bool_decide_eq_false_2 in Hd by done. destruct Hd as (_ & _ & Hd & _).
    erewrite prog_bind_step by exact E1. unfold read, mbind, prog_bind. cbn. by rewrite Hd, lookup_delete_eq.
  - destruct (Hl e) as (x & Hx & [c Hc]); [by left|].
    erewrite prog_bind_step; [|unfold dial; erewrite prog_bind_step by (by apply read_run); by rewrite Hc].
    erewrite prog_bind_step by (by apply read_run). apply IH. intros e' He'. apply Hl. by right.
Qed.

(** When every session of the pool is taken and the campaign still has a
    destination to call, the attempt fails, the destination is freed, and the
    loop then reads the freed list element: start_fake_calling is undefined. *)
Theorem start_fake_calling_exhausted s k cp l d rest dest g u user host prefix tel dir stem pt :
  calls_inv s → ready s d dest k cp g u user host prefix tel dir stem pt → rtp_sessions s = [] →
  campaign_status cp = 2 → at_limit cp = true → processl cp = l ++ d :: rest →
  (∀ e, e ∈ l → ∃ x, dests s !! e = Some x ∧ is_Some (d_call x)) →
  start_fake_calling k s = Fault UseAfterFree.
Proof.
  intros Hi Hr Hp Hs Hlim Hl Hin. pose proof Hr as []. unfold start_fake_calling. step.
  rewrite Hs. rewrite (bool_decide_eq_false_2 (2 ≠ 2)) by (by intros []).
  unfold at_limit in Hlim. apply bool_decide_eq_true_1 in Hlim.
  erewrite prog_bind_step.
  2: { unfold fill. step. rewrite bool_decide_eq_false_2 by lia. done. }
  step. rewrite Hl. unfold mbind, prog_bind.
  by rewrite (dial_loop_exhausted l d rest s dest k cp g u user host prefix tel dir stem pt).
Qed.

(** ** Dialling when everything works *)

(** The stack, the sockets and the memory never fail. *)
Definition works : Prop := ∀ l, let e := call_results l in
  e_zalloc e = true ∧ e_sdp_session e = 0 ∧ sdp_err e = 0 ∧ e_sdp_encode e = 0 ∧
  fst (e_rtp_alloc e) = 0 ∧ e_connect e = 0.

(** The gateway of a campaign and what it plays. *)
Record line (s : app) (cp : campaign) (g : loc) (u : uri) (user host prefix dir stem : list Z) (pt : Z) : Prop := {
  ln_mem : plenty mem;
  ln_cp : cp_gateway cp = Some g;
  ln_gateway : ∃ id str, gws s !! g = Some (Gateway id str u);
  ln_uri : gateway_ok u user host prefix pt;
  ln_laddr : laddr_ok (laddr s);
  ln_audio : ∀ file, file_name cp = Some file → audio_ok s file dir stem;
  ln_job : ∀ x, is_Some (prepared cp (wav_path dir stem) x);
  ln_now : - 2 ^ 63 < clock s / 1000 < 2 ^ 63
}.

(** A destination of the campaign [k] with a number, in a call or not. *)
Definition callee (s : app) (k d : loc) (tel : list Z) : Prop :=
  ∃ x, dests s !! d = Some x ∧ d_cp x = Some k ∧ d_dest x = Some tel ∧ Z.of_nat (length tel) ≤ 4096 ∧ dest_ok x ∧
    ∀ c, d_call x = Some c → is_Some (calls s !! c).

Definition idle (s : app) (d : loc) : bool :=
  match dests s !! d with Some x => bool_decide (d_call x = None) | None => false end.

(** A destination that holds a call. *)
Definition in_a_call (s : app) (d : loc) : Prop :=
  ∃ x c, dests s !! d = Some x ∧ d_call x = Some c ∧ is_Some (calls s !! c).

Lemma line_ready s k cp g u user host prefix dir stem pt d x tel :
  works → line s cp g u user host prefix dir stem pt → cps s !! k = Some cp →
  dests s !! d = Some x → d_cp x = Some k → d_list x = Some (InProcessl k) → d_call x = None →
  d_dest x = Some tel → Z.of_nat (length tel) ≤ 4096 → dest_ok x →
  ready s d x k cp g u user host prefix tel dir stem pt.
Proof.
  intros Hworks [] Hcp Hd Hk Hl Hn Ht Hlen Hok. destruct (Hworks (next s)) as (? & ? & _).
  split; try done. split; try done. by exists pt.
Qed.

Lemma line_same s s' cp g u user host prefix dir stem pt :
  same_setup s s' → line s cp g u user host prefix dir stem pt → line s' cp g u user host prefix dir stem pt.
Proof.
  intros (Hg & Hl & Ha & Hk & _) []. split; try done; try congruence.
  - by rewrite Hg.
  - intros file Hf. destruct (ln_audio0 file Hf). split; try done. congruence.
Qed.

(** One turn for an idle destination that nothing prevents from being called. *)
Lemma dial_works s k cp g u user host prefix dir stem pt d x tel :
  works → calls_inv s → ready s d x k cp g u user host prefix tel dir stem pt →
  (∀ x, is_Some (prepared cp (wav_path dir stem) x)) → rtp_sessions s ≠ [] →
  ∃ s' x', dial d s = Ret (tt, s') ∧ calls_inv s' ∧ same_setup s s' ∧
    cps s' = cps s ∧ calls s' = <[next s := x']> (calls s) ∧ calls s !! next s = None ∧
    dests s' = <[d := called (clock s) (next s) x]> (dests s) ∧
    rtp_sessions s' = tail (rtp_sessions s) ∧
    sqllist (app_db s') = sqllist (app_db s) ++ [update_text x' x] ∧
    invites s' = invites s ++ [(next s, invite_uri prefix tel host (u_port u))].
Proof.
  intros Hworks Hi Hr Hjob Hp. pose proof (dial_run s d x k cp g u user host prefix tel dir stem pt Hi Hr) as H.
  cbv zeta in H. destruct (rtp_sessions s) as [|r pool]; [done|]. unfold attempt in H.
  destruct (Hworks (next s)) as (_ & _ & He1 & He2 & He3 & He4). rewrite He1, He2, He3 in H. cbn in H.
  destruct H as (s' & E1 & Hi' & Hs & _ & Hd & Hv).
  unfold dialled in Hd. rewrite bool_decide_eq_true_2 in Hd by done. destruct Hd as [Hc Hd].
  match type of Hd with context [prepared cp _ ?c] => destruct (Hjob c) as [x' Hx'] end. rewrite Hx' in Hd.
  destruct Hd as (Hcalls & Hdests & Hpool & Hdb). exists s', x'. split_and!; try done.
  - by apply (ci_fresh _ Hi).
  - by rewrite Hdb.
  - by rewrite He4 in Hv.
Qed.

Lemma filter_ext_in {A} (P Q : A → Prop) `{∀ a, Decision (P a), ∀ a, Decision (Q a)} (l : list A) :
  (∀ a, a ∈ l → P a ↔ Q a) → filter P l = filter Q l.
Proof.
  induction l as [|a l IH]; intros Hl; [done|]. rewrite !filter_cons.
  assert (Ha : P a ↔ Q a) by (apply Hl; by left). rewrite IH by (intros b Hb; apply Hl; by right).
  do 2 case_decide; naive_solver.
Qed.

Definition idle_in (s : app) (l : list loc) : list loc := filter (λ d, idle s d = true) l.

Lemma dial_loop_works k cp g u user host prefix dir stem pt l : works → ∀ s,
  calls_inv s → line s cp g u user host prefix dir stem pt → cps s !! k = Some cp → NoDup l →
  (∀ d, d ∈ l → (∃ tel, callee s k d tel) ∧ ∃ x, dests s !! d = Some x ∧ d_list x = Some (InProcessl k)) →
  (length (idle_in s l) ≤ length (rtp_sessions s))%nat →
  ∃ s' new, dial_loop l s = Ret (tt, s') ∧ calls_inv s' ∧ cps s' = cps s ∧ clock s' = clock s ∧
    calls s ⊆ calls s' ∧ (∀ d, d ∉ l → dests s' !! d = dests s !! d) ∧ (∀ d, d ∈ l → in_a_call s' d) ∧
    (∀ d x, d ∈ l → dests s !! d = Some x → d_call x = None →
      ∃ c tel, dests s' !! d = Some (called (clock s) c x) ∧ d_dest x = Some tel ∧
        (c, invite_uri prefix tel host (u_port u)) ∈ new) ∧
    invites s' = invites s ++ new ∧ length new = length (idle_in s l) ∧
    rtp_sessions s' = drop (length (idle_in s l)) (rtp_sessions s).
Proof.
  intros Hworks. induction l as [|d l IH]; intros s Hi Hline Hcp Hnd Hin Hpool.
  { exists s, []. split_and!; try done; try set_solver. by rewrite app_nil_r. }
  apply NoDup_cons in Hnd as [Hd Hnd].
  destruct (Hin d) as [(tel & x & Hx & Hk & Ht & Hlen & Hok & Hcall) (x' & Hx' & Hl)]; [by left|].
  assert (x' = x) as -> by congruence. cbn [dial_loop].
  assert (Hrest : ∀ e, e ∈ l → e ≠ d) by (intros e He ->; done).
  destruct (d_call x) as [c|] eqn:Ec.
  - assert (Hni : idle_in s (d :: l) = idle_in s l).
    { unfold idle_in. rewrite filter_cons_False; [done|]. unfold idle. by rewrite Hx, Ec. }
    rewrite Hni in *. destruct (IH s) as (s' & new & E1 & Hi' & Hc' & Hk' & Hsub & Hout & Hcalled & Hnew & Hv & Hn & Hp); try done.
    { intros e He. apply Hin. by right. }
    exists s', new. split_and!; try done.
    + erewrite prog_bind_step; [|unfold dial; erewrite prog_bind_step by (by apply read_run); by rewrite Ec].
      by erewrite prog_bind_step by (by apply read_run).
    + intros e He. apply Hout. set_solver.
    + intros e [->|He]%elem_of_cons; [|by apply Hcalled]. exists x, c. rewrite Hout by done. split_and!; try done.
      destruct (Hcall c eq_refl) as [z Hz]. exists z. by eapply lookup_weaken.
    + intros e z [->|He]%elem_of_cons Hz Hzn; [congruence|by apply (Hnew e z)].
  - assert (Hni : length (idle_in s (d :: l)) = S (length (idle_in s l))).
    { unfold idle_in. rewrite filter_cons_True; [done|]. unfold idle. by rewrite Hx, Ec. }
    rewrite Hni in *.
    assert (Hr : ready s d x k cp g u user host prefix tel dir stem pt) by (by apply line_ready).
    destruct (dial_works s k cp g u user host prefix dir stem pt d x tel) as
      (s1 & xc & E1 & Hi1 & Hs1 & Hcp1 & Hc1 & Hfresh & Hd1 & Hp1 & _ & Hv1); try done.
    { by destruct Hline. } { intros E0. rewrite E0 in Hpool. simpl in Hpool. lia. }
    assert (Hd1e : ∀ e, e ∈ l → dests s1 !! e = dests s !! e).
    { intros e He. rewrite Hd1, lookup_insert_ne; [done|]. intros <-. done. }
    assert (Hidle : idle_in s1 l = idle_in s l).
    { apply filter_ext_in. intros e He. unfold idle. by rewrite Hd1e. }
    assert (Hsub1 : calls s ⊆ calls s1) by (rewrite Hc1; by apply insert_subseteq).
    destruct (IH s1) as (s' & new & E2 & Hi' & Hc' & Hk' & Hsub & Hout & Hcalled & Hnew & Hv & Hn & Hp); try done.
    { by eapply line_same. } { by rewrite Hcp1. }
    { intros e He. destruct (Hin e) as [(tel' & y & Hy & ? & ? & ? & ? & Hyc) (y' & ? & ?)]; [by right|].
      split; [|exists y'; by rewrite Hd1e]. exists tel', y. rewrite Hd1e by done. split_and!; try done.
      intros c Hc. destruct (Hyc c Hc) as [z Hz]. exists z. by eapply lookup_weaken. }
    { rewrite Hidle, Hp1. destruct (rtp_sessions s); simpl in *; lia. }
    pose proof Hs1 as (_ & _ & _ & Hclk & _).
    assert (Hdd : dests s' !! d = Some (called (clock s) (next s) x)).
    { rewrite Hout by done. by rewrite Hd1, lookup_insert_eq. }
    exists s', ((next s, invite_uri prefix tel host (u_port u)) :: new). split_and!; try congruence.
    + erewrite prog_bind_step by exact E1.
      erewrite prog_bind_step by (apply read_run; cbn; rewrite Hd1; apply lookup_insert_eq). done.
    + by transitivity (calls s1).
    + intros e He. rewrite Hout by set_solver. rewrite Hd1, lookup_insert_ne; set_solver.
    + intros e [->|He]%elem_of_cons; [|by apply Hcalled]. eexists _, (next s). split; [exact Hdd|]. split; [done|].
      exists xc. eapply lookup_weaken; [|exact Hsub]. by rewrite Hc1, lookup_insert_eq.
    + intros e z [->|He]%elem_of_cons Hz Hzn.
      * assert (z = x) as -> by congruence. exists (next s), tel. split_and!; try done. by left.
      * destruct (Hnew e z He) as (c & tel' & Hz' & Ht' & Hin'); [by rewrite Hd1e|done|].
        exists c, tel'. split_and!; [by rewrite <- Hclk|done|by right].
    + by rewrite Hv, Hv1, <- app_assoc.
    + simpl. by rewrite Hn, Hidle.
    + rewrite Hp, Hidle, Hp1. destruct (rtp_sessions s); cbn [tail]; [by rewrite !drop_nil|done].
Qed.

(** C4: the campaign timer when nothing fails: with a free session for every
    place of the campaign, after one turn every destination of the process list
    is in a call, the list is not longer than the call limit, those that were
    not in a call have been sent a request for their number, and whoever may be
    called and still waits does so because the campaign has no place left.  No
    call is lost, and the timer is set again for ten seconds later. *)
Theorem start_fake_calling_works s k cp g u user host prefix dir stem pt :
  works → calls_inv s → line s cp g u user host prefix dir stem pt → waiting_ok s k cp → campaign_status cp = 2 →
  NoDup (processl cp ++ destinations cp) →
  (∀ d, d ∈ processl cp ++ destinations cp → ∃ tel, callee s k d tel) →
  (∀ d, d ∈ processl cp → ∃ x, dests s !! d = Some x ∧ d_list x = Some (InProcessl k)) →
  Z.of_nat (length (processl cp)) ≤ call_limit cp ≤ Z.of_nat (length (rtp_sessions s)) →
  ∃ s' cp', start_fake_calling k s = Ret (tt, s') ∧ calls_inv s' ∧ calls s ⊆ calls s' ∧
    cps s' !! k = Some cp' ∧ cp_tmr cp' = Some (clock s + 10000) ∧
    Z.of_nat (length (processl cp')) ≤ call_limit cp ∧
    processl cp ⊆ processl cp' ∧ processl cp' ++ destinations cp' ≡ₚ processl cp ++ destinations cp ∧
    (∀ d, d ∈ processl cp' → in_a_call s' d) ∧
    (∀ d, d ∈ processl cp' → idle s d = true →
      ∃ c tel, callee s k d tel ∧ (c, invite_uri prefix tel host (u_port u)) ∈ invites s') ∧
    (∀ d, d ∈ destinations cp' → eligible s cp d = true → Z.of_nat (length (processl cp')) = call_limit cp).
Proof.
  intros Hworks Hi Hline Hw Hst Hnd Hcallee Hproc Hlim. pose proof Hw as [Hcp _ Hwait].
  destruct (fill_run s k cp Hw) as (D & P & E1 & Hperm & Hlen & _ & _ & _ & Hfull).
  set (cp1 := set_processl (processl cp ++ P) (set_destinations D cp)) in *.
  set (s1 := set_dests (moved k P (dests s)) (set_cps (<[k := cp1]> (cps s)) s)) in *.
  assert (Hall : (processl cp ++ P) ++ D ≡ₚ processl cp ++ destinations cp) by (by rewrite <- Hperm, app_assoc).
  assert (Hnd1 : NoDup (processl cp ++ P)).
  { rewrite <- Hall in Hnd. by apply NoDup_app in Hnd as [? _]. }
  assert (Hsub : ∀ d, d ∈ processl cp ++ P → d ∈ processl cp ++ destinations cp).
  { intros d Hd. rewrite <- Hall. set_solver. }
  assert (Hlim1 : Z.of_nat (length (processl cp ++ P)) ≤ call_limit cp).
  { destruct Hlen as [->|Hlen]; [rewrite app_nil_r; lia|exact Hlen]. }
  assert (Hlook : ∀ d x, dests s !! d = Some x → ∃ x', dests s1 !! d = Some x' ∧ d_call x' = d_call x ∧ d_cp x' = d_cp x ∧
    d_dest x' = d_dest x ∧ (dest_ok x → dest_ok x') ∧ (d ∈ P → d_list x' = Some (InProcessl k)) ∧
    (d_list x = Some (InProcessl k) → d_list x' = Some (InProcessl k))).
  { intros d x Hx. eexists. split; [cbn; rewrite lookup_moved, Hx; done|].
    destruct (decide (d ∈ P)); split_and!; try done; intros []; by split. }
  assert (Hidle : ∀ d, idle s1 d = idle s d).
  { intros d. unfold idle. cbn. rewrite lookup_moved. destruct (dests s !! d); [|done]. simpl. by destruct (decide (d ∈ P)). }
  destruct (dial_loop_works k cp1 g u user host prefix dir stem pt (processl cp1) Hworks s1) as
    (s2 & new & E2 & Hi2 & Hc2 & Hk2 & Hsub2 & _ & Hin2 & Hnew & Hv2 & _ & _).
  - by apply (calls_inv_ext s).
  - destruct Hline. split; try done. intros file Hf. destruct (ln_audio0 file Hf). by split.
  - apply lookup_insert_eq.
  - exact Hnd1.
  - intros d Hd. destruct (Hcallee d (Hsub d Hd)) as (tel & x & Hx & Hk & Ht & Htl & Hok & Hcall).
    destruct (Hlook d x Hx) as (x' & Hx' & Ec & Ek & Et & Eok & El1 & El2). split.
    + exists tel, x'. rewrite Ec, Ek, Et. split_and!; try done. by apply Eok.
    + exists x'. split; [done|]. apply elem_of_app in Hd as [Hd|Hd]; [|by apply El1].
      destruct (Hproc d Hd) as (y & Hy & Hyl). apply El2. congruence.
  - assert (length (idle_in s1 (processl cp1)) ≤ length (processl cp1))%nat by apply length_filter.
    change (processl cp1) with (processl cp ++ P) in *. change (rtp_sessions s1) with (rtp_sessions s). lia.
  - assert (Hcp2 : cps s2 !! k = Some cp1) by (rewrite Hc2; apply lookup_insert_eq).
    eexists _, (set_cp_tmr (Some (clock s2 + 10000)) cp1). split_and!.
    + unfold start_fake_calling. step. rewrite Hst, (bool_decide_eq_false_2 (2 ≠ 2)) by (by intros []).
      erewrite prog_bind_step by exact E1. erewrite prog_bind_step by (apply read_run, lookup_insert_eq).
      erewrite prog_bind_step by exact E2. erewrite prog_bind_step by done. by eapply upd_run.
    + by apply (calls_inv_ext s2).
    + done.
    + apply lookup_insert_eq.
    + cbn. by rewrite Hk2.
    + done.
    + cbn. set_solver.
    + exact Hall.
    + intros d Hd. by apply Hin2.
    + intros d Hd Hid. destruct (Hcallee d (Hsub d Hd)) as (tel & x & Hx & Hk & Ht & Htl & Hok & Hcall).
      destruct (Hlook d x Hx) as (x' & Hx' & Ec & _ & Et & _). unfold idle in Hid. rewrite Hx in Hid.
      apply bool_decide_eq_true_1 in Hid. destruct (Hnew d x' Hd Hx') as (c & tel' & _ & Ht' & Hin'); [congruence|].
      assert (tel' = tel) as -> by congruence. exists c, tel. split; [by exists x|].
      change (invites (set_heap _ s2)) with (invites s2). rewrite Hv2. apply elem_of_app. by right.
    + intros d Hd Hel. specialize (Hfull d Hd Hel). cbn in Hfull |- *. lia.
Qed.
End dial.

(** ** Forwarding *)

(** A call gets its second leg. *)
Lemma inv_join s c x x' p y :
  calls_inv s → calls s !! c = Some x → calls s !! p = Some y → c ≠ p → not_leg s c → not_leg s p →
  pbx_call y = None → c_rtp_sess x' = c_rtp_sess x → pbx_call x' = Some p →
  calls_inv (set_calls (<[c := x']> (calls s)) s).
Proof.
  intros Hi Hc Hp Hcp Hlc Hlp Hy Hr Hx'. destruct Hi as [Hpool Hidle Hheld Hinj Harg Hlisten Hremote Hleg Hli Hfresh].
  assert (Hback : ∀ c1 x1, <[c := x']> (calls s) !! c1 = Some x1 →
    ∃ x0, calls s !! c1 = Some x0 ∧ c_rtp_sess x1 = c_rtp_sess x0 ∧
      (c1 = c ∧ pbx_call x1 = Some p ∨ c1 ≠ c ∧ pbx_call x1 = pbx_call x0)).
  { intros c1 x1 H1. apply lookup_insert_Some in H1 as [[<- <-]|[Hne H1]]; eexists; split_and!; eauto. }
  split; cbn; try done.
  - intros c1 x1 r H1 Hr1. destruct (Hback _ _ H1) as (x0 & H0 & Er & _). apply (Hheld c1 x0 r); congruence.
  - intros c1 c2 x1 x2 r H1 H2 Hr1 Hr2. destruct (Hback _ _ H1) as (z1 & Hz1 & E1 & _), (Hback _ _ H2) as (z2 & Hz2 & E2 & _).
    apply (Hinj c1 c2 z1 z2 r); congruence.
  - intros r z c1 Hz Hc1. destruct (Harg _ _ _ Hz Hc1) as (x1 & H1 & Hr1). destruct (decide (c = c1)) as [<-|Hne].
    + exists x'. rewrite lookup_insert_eq. split; [done|]. congruence.
    + exists x1. by rewrite lookup_insert_ne.
  - intros c1 x1 p1 H1 Hp1. destruct (Hback _ _ H1) as (x0 & H0 & _ & [[-> E]|[Hne E]]).
    + assert (p1 = p) as -> by congruence. split; [done|]. exists y. by rewrite lookup_insert_ne.
    + rewrite E in Hp1. destruct (Hleg _ _ _ H0 Hp1) as (Hn1 & y1 & Hy1 & Hyn). split; [done|].
      destruct (decide (c = p1)) as [<-|Hne1]; [by destruct (Hlc _ _ H0)|]. exists y1. by rewrite lookup_insert_ne.
  - intros c1 c2 x1 x2 p1 H1 H2 Hp1 Hp2.
    destruct (Hback _ _ H1) as (z1 & Hz1 & _ & [[-> E1]|[Hn1 E1]]), (Hback _ _ H2) as (z2 & Hz2 & _ & [[-> E2]|[Hn2 E2]]); try done.
    + assert (p1 = p) as -> by congruence. destruct (Hlp _ _ Hz2). congruence.
    + assert (p1 = p) as -> by congruence. destruct (Hlp _ _ Hz1). congruence.
    + apply (Hli c1 c2 z1 z2 p1); congruence.
  - intros l Hl. destruct (Hfresh l Hl) as [H1 H2]. split; [|done]. rewrite lookup_insert_ne; [done|].
    intros <-. congruence.
Qed.

Section forward.
Context `{E : env}.

(** The second leg goes through the gateway of the key's action, or that of the
    campaign's PBX. *)
Definition leg_target (s : app) (cp : campaign) (x : call) (g : ref) (tel : option (list Z)) : Prop :=
  if event_received x then
    ∃ a act, c_action x = Some a ∧ acts s !! a = Some act ∧ g = a_gateway act ∧ tel = a_dest act
  else g = pbx_gateway cp ∧ tel = pbx_number cp.

(** A call once its second leg is started, and the leg. *)
Definition with_leg (p : loc) (x : call) : call := set_forwarded true (set_pbx_call (Some p) x).
Definition as_leg (d : loc) (y : call) : call := set_c_dest (DestDestination d) (set_ispbxcall true y).

Lemma wants_forward_inv cp x : wants_forward cp x = true →
  ended x = false ∧ played_out cp x = false ∧ established x = true ∧ event_received x || join_pbx x = true ∧ forwarded x = false.
Proof.
  unfold wants_forward. rewrite !andb_true_iff, !negb_true_iff. tauto.
Qed.

Lemma supervise_forward s d dest k cp c x :
  in_call s d dest k cp c x → wants_forward cp x = true → supervise d s = forward d c x cp s.
Proof.
  intros [] (He & Hp & Hs & Hj & Hf)%wants_forward_inv. unfold supervise. step. rewrite ic_cp0. step.
  rewrite ic_dcall0. erewrite prog_bind_step by done. step. erewrite prog_bind_step by done. cbv zeta.
  rewrite He. cbn [negb]. fold (established x). unfold played_out in Hp. rewrite Hp, Hs, Hj, Hf. done.
Qed.

Lemma leg_attempt s cp x g tel d : leg_target s cp x g tel →
  (if event_received x then
     act ← deref (T := campaign_action) (c_action x); call_alloc (a_dest act) (a_gateway act) true (Some d)
   else call_alloc (pbx_number cp) (pbx_gateway cp) true (Some d)) s = call_alloc tel g true (Some d) s.
Proof.
  unfold leg_target. destruct (event_received x); [|by intros [-> ->]].
  intros (a & act & -> & Ha & -> & ->). by erewrite prog_bind_step by (apply deref_run; exact Ha).
Qed.

(** C5: the timer of an answered call that is to be joined (a key with a
    forwarding action was pressed, or the campaign joins its PBX): a second call
    is made to the action's or the PBX's number, offering the first call's
    payload type.  If it starts, it becomes the call's leg and is marked as such;
    if not, the call is unchanged and the timer tries again in a second.  The
    invariant is kept. *)
Theorem forward_spec s d dest k cp c x g tel u user host prefix :
  calls_inv s → in_call s d dest k cp c x → wants_forward cp x = true → pbx_call x = None →
  leg_target s cp x (Some g) (Some tel) → attempt_ok s tel g u user host prefix →
  let e := call_results (next s) in
  let y := new_call e (clock s / 1000) (c_pt x) (Some g) (Some d) (head (rtp_sessions s)) in
  let '(err, pool, sent) := attempt e (rtp_sessions s) in
  ∃ s', on_call_end d s = Ret (tt, s') ∧ calls_inv s' ∧ rtp_sessions s' = pool ∧ cps s' = cps s ∧
    app_db s' = app_db s ∧ dests s' = <[d := set_d_tmr (Some (clock s + 1000)) dest]> (dests s) ∧
    calls s' = (if bool_decide (err = 0) then <[next s := as_leg d y]> (<[c := with_leg (next s) x]> (calls s))
                else calls s) ∧
    invites s' = invites s ++
      (if (sent : bool) && bool_decide (e_connect e = 0) then [(next s, invite_uri prefix tel host (u_port u))] else []).
Proof.
  intros Hi Hic Hw Hpn Ht Hok e y. pose proof Hic as [].
  pose proof (wants_forward_inv _ _ Hw) as (He & _).
  assert (Ho : offered s true (Some d) u user host prefix (c_pt x)) by (exists d, dest, c, x; done).
  destruct (offer_pt_run s tel g true (Some d) u user host prefix (c_pt x) Hi Hok Ho) as [pl1 Hpl].
  pose proof (call_alloc_run s tel g true (Some d) u user host prefix (c_pt x) pl1 Hi Hok Hpl) as Hca.
  cbv zeta in Hca. fold e in Hca. fold y in Hca.
  destruct (attempt e (rtp_sessions s)) as [[err pool] sent].
  destruct Hca as (s1 & Eca & Hi1 & Hl1 & Hp1 & Hn1 & Hs1 & Hv & Hc1).
  destruct Hs1 as (_ & _ & Wc & _ & Wd & _ & Wdb & _ & _ & Wk & _).
  destruct (ci_fresh _ Hi (next s) ltac:(lia)) as [Hfresh _].
  assert (Hcn : next s ≠ c) by congruence.
  set (cs := if bool_decide (err = 0) then <[next s := as_leg d y]> (<[c := with_leg (next s) x]> (calls s)) else calls s).
  set (s2 := set_calls cs s1).
  assert (Hrun : forward d c x cp s = Ret (tt, s2) ∧ calls_inv s2).
  { unfold forward. erewrite prog_bind_step by (rewrite (leg_attempt s cp x (Some g) (Some tel) d Ht); exact Eca).
    cbn beta iota. assert (Hx1 : calls s1 !! c = Some x).
    { rewrite Hc1. case_bool_decide; [by rewrite lookup_insert_ne|done]. }
    erewrite prog_bind_step by (by eapply upd_run). unfold s2, cs in *. destruct (decide (err = 0)) as [->|Hne].
    - rewrite (bool_decide_eq_true_2 (0 = 0)) in * by done.
      set (x2 := set_pbx_call (Some (next s)) x).
      erewrite prog_bind_step.
      2: { eapply (upd_ref_run (T := call)). cbn. by rewrite lookup_insert_ne, Hc1, lookup_insert_eq. }
      erewrite prog_bind_step.
      2: { eapply (upd_run (T := call)). cbn. rewrite lookup_insert_ne by done. apply lookup_insert_eq. }
      erewrite (upd_ref_run (T := call)).
      2: { cbn. rewrite lookup_insert_ne by done. apply lookup_insert_eq. }
      cbn. assert (Ecs : <[next s := set_c_dest (DestDestination d) (set_ispbxcall true y)]>
          (<[c := set_forwarded true x2]> (<[next s := set_ispbxcall true y]> (<[c := x2]> (calls s1)))) =
        <[next s := as_leg d y]> (<[c := with_leg (next s) x]> (calls s))).
      { rewrite Hc1. apply map_eq. intros l.
        destruct (decide (l = next s)) as [->|]; [by rewrite !lookup_insert_eq|].
        destruct (decide (l = c)) as [->|]; [by rewrite !(lookup_insert_ne _ (next s)), !lookup_insert_eq by done|].
        by rewrite !lookup_insert_ne by done. }
      rewrite Ecs. split; [done|].
      assert (Hlc : not_leg s1 c).
      { intros c' z Hz. rewrite Hc1 in Hz. apply lookup_insert_Some in Hz as [[<- <-]|[_ Hz]]; [done|by eapply ic_top0]. }
      pose proof (inv_join s1 c x (with_leg (next s) x) (next s) y Hi1 Hx1
        ltac:(by rewrite Hc1, lookup_insert_eq) ltac:(done) Hlc Hl1 eq_refl eq_refl eq_refl) as Hj.
      set (s3 := set_calls (<[c := with_leg (next s) x]> (calls s1)) s1) in Hj.
      apply (calls_inv_ext (set_calls (<[next s := as_leg d y]> (calls s3)) s3)); try done.
      + cbn. rewrite Hc1. apply map_eq. intros l.
        destruct (decide (l = next s)) as [->|]; [by rewrite !lookup_insert_eq|].
        rewrite !(lookup_insert_ne _ (next s)) by done.
        destruct (decide (l = c)) as [->|]; [by rewrite !lookup_insert_eq|]. by rewrite !lookup_insert_ne by done.
      + assert (Hy3 : calls s3 !! next s = Some y) by (unfold s3; cbn [calls set_calls]; by rewrite lookup_insert_ne, Hc1, lookup_insert_eq).
        clearbody y. exact (inv_set_call s3 (next s) y (as_leg d y) Hj Hy3 eq_refl eq_refl).
    - rewrite (bool_decide_eq_false_2 (err = 0)) in * by done. cbn.
      replace (set_pbx_call None x) with x by (destruct x; cbn in *; by subst).
      rewrite (insert_id (calls s1)), Hc1 by done. split; [done|].
      apply (calls_inv_ext s1); try done. }
  destruct Hrun as [Hrun Hi2]. exists (set_dests (<[d := set_d_tmr (Some (clock s + 1000)) dest]> (dests s)) s2).
  assert (Hx2 : ∃ x2, cs !! c = Some x2 ∧ ended x2 = false).
  { unfold cs. case_bool_decide; [|by exists x]. exists (with_leg (next s) x). by rewrite lookup_insert_ne, lookup_insert_eq. }
  destruct Hx2 as (x2 & Hx2 & He2). split_and!; try done.
  - unfold on_call_end. erewrite prog_bind_step by (by rewrite (supervise_forward s d dest k cp c x)).
    erewrite prog_bind_step by (apply read_run; cbn; rewrite Wd; exact ic_dest0).
    rewrite ic_dcall0. erewrite prog_bind_step by done. erewrite prog_bind_step by (by apply read_run).
    erewrite prog_bind_step by done. cbv zeta. rewrite He2. unfold tmr_start_dest. erewrite prog_bind_step by done.
    erewrite upd_run by (cbn; rewrite Wd; exact ic_dest0). cbn. by rewrite Wd, Wk.
  - by apply (calls_inv_ext s2).
Qed.

(** A call whose key selected a forwarding action without a gateway (its data
    had no comma, or named an unknown gateway) makes the timer dereference NULL. *)
Theorem forward_null_gateway s d dest k cp c x tel r rest :
  calls_inv s → in_call s d dest k cp c x → wants_forward cp x = true → leg_target s cp x None tel →
  rtp_sessions s = r :: rest →
  (let e := call_results (next s) in
   e_zalloc e = true ∧ e_sdp_session e = 0 ∧ sdp_err e = 0 ∧ e_sdp_encode e = 0) →
  on_call_end d s = Fault NullDeref.
Proof.
  intros Hi Hic Hw Ht Hp (Hz & Hs & Hse & Hen). pose proof Hic as [].
  destruct (ci_fresh _ Hi (next s) ltac:(lia)) as [Hfresh _].
  assert (Hc1 : calls (with_call s) !! c = Some x) by (cbn; rewrite lookup_insert_ne; [done|congruence]).
  destruct (inv_with_call s Hi) as [Hi1 _].
  unfold on_call_end. unfold mbind at 1, prog_bind at 1. rewrite (supervise_forward s d dest k cp c x) by done.
  unfold forward. unfold mbind at 1, prog_bind at 1. rewrite (leg_attempt s cp x None tel d Ht).
  unfold call_alloc. erewrite prog_bind_step by done. rewrite Hz. cbn [negb].
  erewrite (prog_bind_step _ _ _ (next s) (with_call s)) by done.
  erewrite prog_bind_step.
  2: { unfold offer_pt. erewrite prog_bind_step by (by apply deref_run). rewrite ic_dcall0.
    by erewrite prog_bind_step by (by apply deref_run). }
  cbn beta iota. erewrite prog_bind_step.
  2: { rewrite (sdp_sess_alloc_run (with_call s) _ Hi1 Hs). change (rtp_sessions (with_call s)) with (rtp_sessions s).
    rewrite Hp, bool_decide_eq_false_2 by (rewrite Hse; by intros []). done. }
  cbn beta iota. rewrite (bool_decide_eq_false_2 (0 ≠ 0)) by (by intros []).
  erewrite prog_bind_step by (eapply upd_run; apply lookup_insert_eq).
  by rewrite Hen, (bool_decide_eq_false_2 (0 ≠ 0)) by (by intros []).
Qed.
End forward.

(** ** Refreshing a campaign *)

(** The number in a column. *)
Definition number (v : option (list Z)) : Z :=
  match v with
  | None => 0
  | Some bs => match mapM dec_digit bs with Some ds => digits_value 10 ds `mod` 2 ^ 32 | None => 0 end
  end.

Definition col (r : row) (i : nat) : option (list Z) := default None (r !! i).

Lemma parseInt_run v : parseInt v = Ret (number v).
Proof.
  unfold parseInt, number. destruct v as [bs|]; [|done]. cbn [pl_set_str].
  pose proof (pl_num_run (2 ^ 32) 10 dec_digit bs [] ltac:(lia)) as H. by rewrite app_nil_r in H.
Qed.

Lemma column_run r i s : (i < length r)%nat → column r i s = Ret (col r i, s).
Proof.
  intros Hi. unfold column, col, row in *. destruct (lookup_lt_is_Some_2 r i Hi) as [v Hv]. by rewrite Hv.
Qed.

Lemma int_column_run r i s : (i < length r)%nat → int_column r i s = Ret (number (col r i), s).
Proof.
  intros Hi. unfold int_column. erewrite prog_bind_step by (by apply column_run). unfold lift. by rewrite parseInt_run.
Qed.

Definition gateway_with (s : app) (id : Z) : ref :=
  head (filter (λ g, gateway_id <$> gws s !! g = Some id) (gateways s)).
Definition campaign_with (s : app) (id : Z) : ref :=
  head (filter (λ k, campaign_id <$> cps s !! k = Some id) (services s)).

(** The lists hold allocated objects. *)
Record registered (s : app) : Prop := {
  rg_gateways : ∀ g, g ∈ gateways s → is_Some (gws s !! g);
  rg_services : ∀ k, k ∈ services s → is_Some (cps s !! k)
}.

Lemma find_gateway_run s id : registered s → find_gateway id (gateways s) s = Ret (gateway_with s id, s).
Proof.
  intros [Hg _]. unfold gateway_with. induction (gateways s) as [|g l IH]; [done|].
  destruct (Hg g) as [x Hx]; [by left|]. cbn [find_gateway]. erewrite prog_bind_step by (by apply read_run).
  rewrite filter_cons, Hx. case_bool_decide as H; case_decide as H'; simpl in H'; try congruence; [done|].
  apply IH. intros g' Hg'. apply Hg. by right.
Qed.

Lemma find_campaign_run s id : registered s → find_campaign id (services s) s = Ret (campaign_with s id, s).
Proof.
  intros [_ Hk]. unfold campaign_with. induction (services s) as [|k l IH]; [done|].
  destruct (Hk k) as [x Hx]; [by left|]. cbn [find_campaign]. erewrite prog_bind_step by (by apply read_run).
  rewrite filter_cons, Hx. case_bool_decide as H; case_decide as H'; simpl in H'; try congruence; [done|].
  apply IH. intros k' Hk'. apply Hk. by right.
Qed.

Lemma set_cps_insert k cp1 cp2 m s :
  cp1 = cp2 → Ret (tt, set_cps (<[k := cp1]> m) s) = Ret (tt, set_cps (<[k := cp2]> m) s).
Proof. by intros ->. Qed.

Section refresh.
Context `{E : env}.

(** The string of a column over the one a campaign holds. *)
Definition renewed (v old : option (list Z)) : option (list Z) :=
  if bool_decide (str_len v > 0) && bool_decide (str_casecmp v old ≠ 0) then replace_str v else old.

(** The settings of a campaign after a row: the part before the check for
    stopped campaigns, and all of it. *)
Definition settings (r : row) (cp : campaign) : campaign :=
  let n i := number (col r i) in
  set_campaign_status (u8 (n 6%nat))
  (set_file_name (if bool_decide (str_len (col r 5) = 0) then None else renewed (col r 5) (file_name cp))
  (set_caller_id (renewed (col r 4) (caller_id cp))
  (set_max_call_duration (Z.min (u16 (n 3%nat)) 600)
  (set_call_limit (if bool_decide (u16 (n 2%nat) = 0) then 2 else u16 (n 2%nat))
  (set_client_id (n 1%nat) (set_campaign_id (n 0%nat) cp)))))).

Definition configured (r : row) (s : app) (cp : campaign) : campaign :=
  let n i := number (col r i) in
  let cp1 := settings r cp in
  set_pbx_number (if bool_decide (str_casecmp (col r 12) (pbx_number cp) ≠ 0) then replace_str (col r 12) else pbx_number cp)
  (set_pbx_gateway (gateway_with s (n 11%nat))
  (set_cp_gateway (gateway_with s (n 10%nat))
  (set_max_play (Z.max 1 (u8 (n 9%nat)))
  (set_max_try (u8 (n 8%nat))
  (set_retry_delay (u16 (u32 (n 7%nat * 60))) cp1))))).

(** A stopped campaign without calls is freed. *)
Definition stopped (r : row) (cp : campaign) : bool :=
  bool_decide (u8 (number (col r 6)) > 3) && bool_decide (processl cp = []).

Lemma pull_settings_run r k cp s :
  length r = 13%nat → cps s !! k = Some cp →
  pull_settings r k s = Ret (tt, set_cps (<[k := settings r cp]> (cps s)) s).
Proof.
  intros Hl Hk. unfold pull_settings.
  repeat first
  [ erewrite prog_bind_step by (apply int_column_run; lia)
  | erewrite prog_bind_step by (apply column_run; lia)
  | erewrite prog_bind_step by (eapply upd_run; first [exact Hk|apply lookup_insert_eq]) ].
  erewrite upd_run by apply lookup_insert_eq. cbn. rewrite !insert_insert_eq. apply (set_cps_insert k _ _ (cps s) s).
  unfold settings, renewed. pose proof (u16_range (number (col r 3))).
  assert (Hd : (if bool_decide (600 ≤ u16 (number (col r 3))) then 600 else u16 (number (col r 3))) =
    Z.min (u16 (number (col r 3))) 600) by (case_bool_decide; lia). rewrite Hd. clear Hd.
  assert (Hlen : str_len (col r 5) = 0 → bool_decide (str_len (col r 5) > 0) = false) by (intros ->; done).
  destruct cp; cbn.
  destruct (bool_decide (str_len (col r 4) > 0) && bool_decide (str_casecmp (col r 4) caller_id ≠ 0)); cbn;
  (destruct (bool_decide (str_len (col r 5) = 0)) eqn:Ef;
    [apply bool_decide_eq_true_1 in Ef; by rewrite (Hlen Ef)|]);
  destruct (bool_decide (str_len (col r 5) > 0) && bool_decide (str_casecmp (col r 5) file_name ≠ 0)); done.
Qed.

Lemma pull_limits_run r k cp s :
  length r = 13%nat → registered s → cps s !! k = Some cp →
  pull_limits r k s = Ret (tt, set_cps (<[k :=
    set_pbx_number (if bool_decide (str_casecmp (col r 12) (pbx_number cp) ≠ 0) then replace_str (col r 12) else pbx_number cp)
    (set_pbx_gateway (gateway_with s (number (col r 11))) (set_cp_gateway (gateway_with s (number (col r 10)))
    (set_max_play (Z.max 1 (u8 (number (col r 9)))) (set_max_try (u8 (number (col r 8)))
    (set_retry_delay (u16 (u32 (number (col r 7) * 60))) cp)))))]> (cps s)) s).
Proof.
  intros Hl Hr Hk. unfold pull_limits.
  assert (Hg : ∀ id m, find_gateway id (gateways s) (set_cps m s) = Ret (gateway_with s id, set_cps m s)).
  { intros id m. pose proof Hr as [H1 _]. unfold gateway_with. induction (gateways s) as [|g l IH]; [done|].
    destruct (H1 g) as [x Hx]; [by left|]. cbn [find_gateway]. erewrite prog_bind_step by (apply read_run; exact Hx).
    rewrite filter_cons, Hx. case_bool_decide as H; case_decide as H'; simpl in H'; try congruence; [done|].
    apply IH. intros g' Hg'. apply H1. by right. }
  repeat first
  [ erewrite prog_bind_step by (apply int_column_run; lia)
  | erewrite prog_bind_step by (apply column_run; lia)
  | erewrite prog_bind_step by (eapply upd_run; first [exact Hk|apply lookup_insert_eq]) ].
  erewrite prog_bind_step by done. cbn [gateways set_heap store_campaign set_cps].
  erewrite prog_bind_step by (apply int_column_run; lia). erewrite prog_bind_step by apply Hg.
  erewrite prog_bind_step by (eapply upd_run; apply lookup_insert_eq).
  erewrite prog_bind_step by (apply int_column_run; lia). erewrite prog_bind_step by apply Hg.
  erewrite prog_bind_step by (eapply upd_run; apply lookup_insert_eq).
  erewrite prog_bind_step by (apply column_run; lia).
  erewrite upd_run by apply lookup_insert_eq. cbn. rewrite !insert_insert_eq. apply (set_cps_insert k _ _ (cps s) s).
  pose proof (u8_range (number (col r 9))).
  assert (Hd : (if bool_decide (u8 (number (col r 9)) ≤ 0) then 1 else u8 (number (col r 9))) =
    Z.max 1 (u8 (number (col r 9)))) by (case_bool_decide; lia). rewrite Hd.
  destruct cp; cbn. by destruct (bool_decide (str_casecmp (col r 12) pbx_number ≠ 0)).
Qed.
(** A new campaign enters the list of services. *)
Definition enlisted (s : app) : app :=
  set_services (services s ++ [next s]) (set_next (Pos.succ (next s)) (set_cps (<[next s := campaign_zero]> (cps s)) s)).

Lemma gateway_with_set s m l n id : gateway_with (set_services l (set_next n (set_cps m s))) id = gateway_with s id.
Proof. done. Qed.

Lemma pull_known r s k cp :
  length r = 13%nat → registered s → cps s !! k = Some cp → stopped r cp = false →
  (pull_settings r k;;
   cp ← read (T := campaign) k;
   if bool_decide (campaign_status cp > 3) && bool_decide (processl cp = []) then deref_campaign k
   else pull_limits r k) s = Ret (tt, set_cps (<[k := configured r s cp]> (cps s)) s).
Proof.
  intros Hl Hr Hk Hs. erewrite prog_bind_step by (by apply pull_settings_run).
  erewrite prog_bind_step by (apply read_run, lookup_insert_eq).
  change (campaign_status (settings r cp)) with (u8 (number (col r 6))).
  change (processl (settings r cp)) with (processl cp). fold (stopped r cp). rewrite Hs.
  rewrite (pull_limits_run r k (settings r cp)); [|done| |apply lookup_insert_eq].
  - cbn. by rewrite insert_insert_eq.
  - destruct Hr as [H1 H2]. split; cbn; [done|].
    intros k' Hk'. destruct (decide (k = k')) as [<-|]; [rewrite lookup_insert_eq; by eexists|].
    rewrite lookup_insert_ne by done. by apply H2.
Qed.

Lemma configured_bounds r s cp :
  let cp' := configured r s cp in
  1 ≤ call_limit cp' < 65536 ∧ 0 ≤ max_call_duration cp' ≤ 600 ∧ 1 ≤ max_play cp' < 256 ∧
  0 ≤ max_try cp' < 256 ∧ 0 ≤ retry_delay cp' < 65536 ∧
  destinations cp' = destinations cp ∧ processl cp' = processl cp ∧ actions cp' = actions cp ∧
  is_running cp' = is_running cp.
Proof.
  cbn. pose proof (u16_range (number (col r 2))). pose proof (u16_range (number (col r 3))).
  pose proof (u8_range (number (col r 9))). pose proof (u8_range (number (col r 8))).
  pose proof (u16_range (u32 (number (col r 7) * 60))). case_bool_decide; split_and!; (done || lia).
Qed.

(** C6: a row of the campaign table.  A campaign that is not known is created
    when its status is 2 and ignored otherwise; a known one takes its settings
    from the row, unless it is stopped and has no call left (then it is freed).
    Whatever the row holds, the call limit is at least 1, the longest call at
    most 600 seconds, the file is played between 1 and 255 times, and the lists
    of destinations and actions are kept. *)
Theorem pull_campaign_spec s r :
  length r = 13%nat → registered s →
  let id := number (col r 0) in
  match campaign_with s id with
  | Some k =>
      ∀ cp, cps s !! k = Some cp → stopped r cp = false →
        pull_campaign r s = Ret (tt, set_cps (<[k := configured r s cp]> (cps s)) s)
  | None =>
      pull_campaign r s = Ret (tt,
        if bool_decide (number (col r 6) = 2)
        then set_cps (<[next s := configured r s campaign_zero]> (cps (enlisted s))) (enlisted s) else s)
  end ∧
  ∀ cp, let cp' := configured r s cp in
    1 ≤ call_limit cp' < 65536 ∧ 0 ≤ max_call_duration cp' ≤ 600 ∧ 1 ≤ max_play cp' < 256 ∧
    0 ≤ max_try cp' < 256 ∧ 0 ≤ retry_delay cp' < 65536 ∧
    destinations cp' = destinations cp ∧ processl cp' = processl cp ∧ actions cp' = actions cp ∧
    is_running cp' = is_running cp.
Proof.
  intros Hl Hr id. split; [|intros cp; apply configured_bounds].
  unfold pull_campaign. erewrite prog_bind_step by (apply int_column_run; lia).
  erewrite prog_bind_step by (apply int_column_run; lia). erewrite prog_bind_step by done.
  erewrite prog_bind_step by (by apply find_campaign_run). fold id.
  destruct (campaign_with s id) as [k|].
  - intros cp Hk Hs. erewrite prog_bind_step by done. by apply pull_known.
  - destruct (decide (number (col r 6) = 2)) as [H2|H2].
    + rewrite (bool_decide_eq_true_2 (number (col r 6) = 2)) by done.
      rewrite (bool_decide_eq_false_2 (number (col r 6) ≠ 2)) by (by intros []).
      erewrite prog_bind_step by done. cbn beta iota.
      change (set_services _ _) with (enlisted s).
      change (configured r s campaign_zero) with (configured r (enlisted s) campaign_zero).
      apply pull_known; [done| |apply lookup_insert_eq|].
      * destruct Hr as [H1 H2']. split; cbn; [done|].
        intros k Hk. destruct (decide (next s = k)) as [<-|]; [rewrite lookup_insert_eq; by eexists|].
        rewrite lookup_insert_ne by done. apply H2'. apply elem_of_app in Hk as [Hk|Hk]; [done|].
        by apply list_elem_of_singleton in Hk as ->.
      * unfold stopped. by rewrite H2.
    + rewrite (bool_decide_eq_false_2 (number (col r 6) = 2)) by done.
      rewrite (bool_decide_eq_true_2 (number (col r 6) ≠ 2)) by done. by erewrite prog_bind_step by done.
Qed.
End refresh.

(** ** Witnesses *)

(** An answered call whose second leg never came up: reported with the duration
    of the call, and then called again. *)
Definition joined_call : call :=
  set_join_pbx true (set_forwarded true (set_call_status CALL_ESTABLISHED demo_call)).
Definition refused_leg : call := set_ended true demo_leg.
Definition pbx_campaign : campaign :=
  set_cp_gateway (Some 1%positive) (set_pbx_number (Some (bytes_of "55")) demo_campaign).
Definition joined_app : app :=
  set_cps {[ 2%positive := pbx_campaign ]} (set_calls {[ 5%positive := joined_call; 6%positive := refused_leg ]} demo_app).
Definition joined_leg : leg := Leg refused_leg 1 (bytes_of "123") (bytes_of "55").

Lemma joined_in_call : in_call joined_app 3 demo_dest 2 pbx_campaign 5 joined_call.
Proof.
  split; try reflexivity; try (vm_compute; split; congruence).
  - assert (H : map_Forall (λ _ x, pbx_call x ≠ Some 5%positive) (calls joined_app))
      by (apply (bool_decide_eq_true_1 _); vm_compute; reflexivity).
    intros c' x' Hc. exact (H c' x' Hc).
  - split; vm_compute; split; congruence.
  - split; vm_compute; split; congruence.
Qed.

Lemma joined_leg_known : leg_known joined_app demo_dest pbx_campaign joined_call (Some joined_leg).
Proof.
  split; [by exists 6%positive|]. split; [split; vm_compute; split; congruence|].
  split; [reflexivity|]. split; [vm_compute; congruence|]. split; [vm_compute; congruence|].
  split; [vm_compute; split; congruence|]. split; [vm_compute; split; congruence|].
  exists 1%positive, (Gateway 1 None demo_uri). by split_and!.
Qed.

Lemma on_call_end_spec_witness :
  ∃ s', @on_call_end demo_env 3 joined_app = Ret (tt, s') ∧ calls_inv s' ∧
    rtp_sessions s' = [12%positive; 10%positive; 11%positive] ∧
    length (sqllist (app_db s')) = (2 + length (sqllist (app_db joined_app)))%nat ∧ (destinations <$> cps s' !! 2%positive) = Some [3%positive].
Proof.
  destruct (@on_call_end_spec demo_env joined_app 3 demo_dest 2 pbx_campaign 5 joined_call (Some joined_leg))
    as (s' & E & Hi & H).
  - exact big_alloc_plenty.
  - apply calls_check_sound. vm_compute. reflexivity.
  - exact joined_in_call.
  - exact joined_leg_known.
  - reflexivity.
  - change (ended (supervised (clock joined_app / 1000) pbx_campaign (Some joined_leg) joined_call)) with true in H.
    cbv iota in H. destruct H as (Hq & _ & Hp & H).
    change (given_up pbx_campaign demo_dest (final_duration (clock joined_app / 1000) joined_call (Some joined_leg)))
      with false in H. destruct H as [_ Hcp].
    exists s'. split; [exact E|]. split; [exact Hi|]. split; [rewrite Hp; reflexivity|].
    split; [rewrite Hq, length_app, Nat.add_comm; reflexivity|]. rewrite Hcp. vm_compute. reflexivity.
Defined.

(** Two free places, and three waiting destinations of which one was tried a
    moment ago. *)
Definition waiting (n t : Z) : destination :=
  Destination n (Some (bytes_of "123")) t None (Some 2%positive) n None (Some (InDestinations 2)).
Definition waiting_campaign : campaign :=
  set_destinations [13; 14; 15]%positive (set_retry_delay 60 (set_call_limit 3 pbx_campaign)).
Definition waiting_app : app :=
  set_dests {[ 3%positive := demo_dest; 13%positive := waiting 2 (-100); 14%positive := waiting 1 4; 15%positive := waiting 0 0 ]}
    (set_cps {[ 2%positive := waiting_campaign ]} joined_app).

Lemma fill_spec_witness :
  ∃ s' cp', @fill 2 waiting_app = Ret (tt, s') ∧ cps s' !! 2%positive = Some cp' ∧
    processl cp' = [3; 15; 13]%positive ∧ destinations cp' = [14]%positive.
Proof.
  destruct (@fill_spec waiting_app 2 waiting_campaign) as (cp' & P & E & Hp & Hd & _).
  - split; [reflexivity| |].
    + apply (bool_decide_eq_true_1 _). vm_compute. reflexivity.
    + intros d Hd. assert (Hl : Forall (λ d, ∃ x, dests waiting_app !! d = Some x ∧ d_list x = Some (InDestinations 2))
        [13; 14; 15]%positive) by (repeat constructor; eexists; split; reflexivity).
      rewrite Forall_forall in Hl. by apply Hl.
  - eexists _, cp'. split; [exact E|]. split; [apply lookup_insert_eq|].
    set (lists := λ o : outcome (unit * app), match o with
      | Ret (_, s) => (λ cp, (processl cp, destinations cp)) <$> cps s !! 2%positive
      | Fault _ => None
      end).
    assert (E1 : lists (@fill 2 waiting_app) = Some ([3; 15; 13], [14])%positive) by (vm_compute; reflexivity).
    rewrite E in E1. unfold lists in E1. 
    assert (E2 : (λ cp, (processl cp, destinations cp)) <$> <[2%positive := cp']> (cps waiting_app) !! 2%positive =
      Some ([3; 15; 13], [14])%positive) by exact E1.
    rewrite lookup_insert_eq in E2. simpl in E2. split; congruence.
Defined.

(** One destination to be called, with the session 12 free, for a campaign that
    joins its PBX. *)
Definition joining_campaign : campaign :=
  set_pbx_gateway (Some 1%positive) (set_campaign_status 2 (set_call_limit 1 (set_max_play 3 (set_actions [] pbx_campaign)))).
Definition idle_dest : destination := set_d_call None demo_dest.
Definition dial_app (pool : list loc) : app :=
  set_dests {[ 3%positive := idle_dest ]} (set_cps {[ 2%positive := joining_campaign ]}
    (set_calls ∅ (set_rtps {[ 12%positive := session_at 8004 ]} (set_rtp_sessions pool demo_app)))).

Lemma dial_ready pool : @ready demo_env (dial_app pool) 3 idle_dest 2 joining_campaign 1 demo_uri
  (bytes_of "user") (bytes_of "host") (bytes_of "9") (bytes_of "123") [] [] 8.
Proof.
  split; try reflexivity.
  - split; try reflexivity.
    + exact big_alloc_plenty.
    + by exists 1, None.
    + exists 8. exact demo_gateway_ok.
    + vm_compute. congruence.
    + vm_compute. split; [congruence|split; congruence].
  - exact demo_gateway_ok.
  - split; vm_compute; split; congruence.
  - intros file Hf. discriminate Hf.
  - vm_compute. split; reflexivity.
Qed.

Lemma dial_spec_witness :
  ∃ s', @dial demo_env 3 (dial_app [12%positive]) = Ret (tt, s') ∧ calls_inv s' ∧
    invites s' = [(20%positive, bytes_of "sip:9123@host:5060")] ∧ rtp_sessions s' = [] ∧
    dests s' !! 3%positive = Some (called 5000 20 idle_dest).
Proof.
  destruct (@dial_spec demo_env (dial_app [12%positive]) 3 idle_dest 2 joining_campaign 1 demo_uri
    (bytes_of "user") (bytes_of "host") (bytes_of "9") (bytes_of "123") [] [] 8) as (s' & E & Hi & Hd & Hv).
  - apply calls_check_sound. vm_compute. reflexivity.
  - apply dial_ready.
  - exists s'. split; [exact E|]. split; [exact Hi|]. split; [rewrite Hv; vm_compute; reflexivity|].
    destruct Hd as (_ & _ & Hd & Hp & _). split; [exact Hp|]. rewrite Hd. vm_compute. reflexivity.
Defined.

Lemma start_fake_calling_exhausted_witness :
  @start_fake_calling demo_env 2 (dial_app []) = Fault UseAfterFree.
Proof.
  apply (@start_fake_calling_exhausted demo_env (dial_app []) 2 joining_campaign [] 3 [] idle_dest 1 demo_uri
    (bytes_of "user") (bytes_of "host") (bytes_of "9") (bytes_of "123") [] [] 8); try reflexivity.
  - apply calls_check_sound. vm_compute. reflexivity.
  - apply dial_ready.
  - intros e He. by apply not_elem_of_nil in He.
Defined.

Lemma demo_works : @works demo_env.
Proof. intros l. vm_compute. by split_and!. Qed.

(** A campaign with two places, one free session more than needed and two
    destinations that wait. *)
Definition busy_campaign : campaign :=
  set_call_limit 1 (set_processl [] (set_destinations [13; 15]%positive (set_retry_delay 60 joining_campaign))).
Definition busy_app : app :=
  set_dests {[ 13%positive := waiting 2 (-100); 15%positive := waiting 0 0 ]}
    (set_cps {[ 2%positive := busy_campaign ]} (dial_app [12%positive])).

Lemma busy_line : @line demo_env busy_app busy_campaign 1 demo_uri (bytes_of "user") (bytes_of "host") (bytes_of "9") [] [] 8.
Proof.
  split; try reflexivity.
  - exact big_alloc_plenty.
  - by exists 1, None.
  - exact demo_gateway_ok.
  - vm_compute. split; [congruence|split; congruence].
  - intros file Hf. discriminate Hf.
  - intros x. by eexists.
  - vm_compute. split; reflexivity.
Qed.

Lemma busy_callee d : d ∈ [13; 15]%positive → ∃ tel, callee busy_app 2 d tel.
Proof.
  intros Hd. exists (bytes_of "123").
  assert (Hl : Forall (λ d, callee busy_app 2 d (bytes_of "123")) [13; 15]%positive).
  { repeat constructor; eexists; (split; [reflexivity|]); split_and!; try reflexivity; try (vm_compute; congruence);
      try (split; vm_compute; split; congruence); intros c Hc; discriminate Hc. }
  rewrite Forall_forall in Hl. by apply Hl.
Qed.

Lemma start_fake_calling_works_witness :
  ∃ s' cp', @start_fake_calling demo_env 2 busy_app = Ret (tt, s') ∧ calls_inv s' ∧
    cps s' !! 2%positive = Some cp' ∧ (∀ d, d ∈ processl cp' → in_a_call s' d) ∧ length (processl cp') = 1%nat.
Proof.
  destruct (@start_fake_calling_works demo_env busy_app 2 busy_campaign 1 demo_uri
    (bytes_of "user") (bytes_of "host") (bytes_of "9") [] [] 8)
    as (s' & cp' & E & Hi & _ & Hcp & _ & Hlen & _ & Hperm & Hin & _ & Hfull).
  - exact demo_works.
  - apply calls_check_sound. vm_compute. reflexivity.
  - exact busy_line.
  - split; [reflexivity| |].
    + apply (bool_decide_eq_true_1 _). vm_compute. reflexivity.
    + intros d Hd. assert (Hl : Forall (λ d, ∃ x, dests busy_app !! d = Some x ∧ d_list x = Some (InDestinations 2))
        [13; 15]%positive) by (repeat constructor; eexists; split; reflexivity).
      rewrite Forall_forall in Hl. by apply Hl.
  - reflexivity.
  - apply (bool_decide_eq_true_1 _). vm_compute. reflexivity.
  - apply busy_callee.
  - intros d Hd. by apply not_elem_of_nil in Hd.
  - vm_compute. split; congruence.
  - exists s', cp'. split; [exact E|]. split; [exact Hi|]. split; [exact Hcp|]. split; [exact Hin|].
    change (call_limit busy_campaign) with 1 in Hlen, Hfull.
    destruct (destinations cp') as [|d ds] eqn:Ed.
    + apply Permutation_length in Hperm. rewrite app_nil_r in Hperm. change (length (processl cp') = 2%nat) in Hperm. lia.
    + specialize (Hfull d ltac:(by left)).
      assert (Hd : d ∈ [13; 15]%positive).
      { change [13; 15]%positive with (processl busy_campaign ++ destinations busy_campaign). rewrite <- Hperm.
        apply elem_of_app. right. by left. }
      assert (Hel : Forall (λ d, eligible busy_app busy_campaign d = true) [13; 15]%positive) by (repeat constructor).
      rewrite Forall_forall in Hel. specialize (Hfull (Hel d Hd)). lia.
Defined.

(** The call of the joining campaign has been answered. *)
Definition answered_call : call := set_pbx_call None (set_join_pbx true (set_call_status CALL_ESTABLISHED demo_call)).
Definition answered_app : app :=
  set_cps {[ 2%positive := joining_campaign ]} (set_calls {[ 5%positive := answered_call ]} demo_app).

Lemma answered_in_call cp c : pbx_call c = None → call_ok c →
  in_call (set_cps {[ 2%positive := cp ]} (set_calls {[ 5%positive := c ]} demo_app)) 3 demo_dest 2 cp 5 c.
Proof.
  intros Hp Hok. split; try reflexivity; [|exact Hok|split; vm_compute; split; congruence|vm_compute; split; congruence].
  intros c' x' Hc. cbn in Hc. apply lookup_singleton_Some in Hc as [<- <-]. by rewrite Hp.
Qed.

Lemma forward_spec_witness :
  ∃ s', @on_call_end demo_env 3 answered_app = Ret (tt, s') ∧ calls_inv s' ∧
    invites s' = [(20%positive, bytes_of "sip:955@host:5060")] ∧
    (pbx_call <$> calls s' !! 5%positive) = Some (Some 20%positive).
Proof.
  destruct (@forward_spec demo_env answered_app 3 demo_dest 2 joining_campaign 5 answered_call 1 (bytes_of "55") demo_uri
    (bytes_of "user") (bytes_of "host") (bytes_of "9")) as (s' & E & Hi & _ & _ & _ & _ & Hc & Hv).
  - apply calls_check_sound. vm_compute. reflexivity.
  - apply answered_in_call; [reflexivity|split; vm_compute; split; congruence].
  - reflexivity.
  - reflexivity.
  - by split.
  - split; try reflexivity.
    + exact big_alloc_plenty.
    + by exists 1, None.
    + exists 8. exact demo_gateway_ok.
    + vm_compute. congruence.
    + vm_compute. split; [congruence|split; congruence].
  - exists s'. split; [exact E|]. split; [exact Hi|]. split; [rewrite Hv; vm_compute; reflexivity|].
    rewrite Hc. vm_compute. reflexivity.
Defined.

(** A key that forwards nowhere. *)
Definition lost_call : call :=
  set_c_action (Some 4%positive) (set_event_received true answered_call).

Lemma forward_null_gateway_witness :
  @on_call_end demo_env 3 (set_cps {[ 2%positive := demo_campaign ]} (set_calls {[ 5%positive := lost_call ]} demo_app)) =
    Fault NullDeref.
Proof.
  eapply (@forward_null_gateway demo_env _ 3 demo_dest 2 demo_campaign 5 lost_call None 12 []).
  - apply calls_check_sound. vm_compute. reflexivity.
  - apply answered_in_call; [reflexivity|split; vm_compute; split; congruence].
  - reflexivity.
  - exists 4%positive, demo_action. by split_and!.
  - reflexivity.
  - vm_compute. by split_and!.
Defined.

(** A new running campaign with nothing but numbers out of range. *)
Definition wild_row : row :=
  [Some (bytes_of "9"); Some (bytes_of "1"); Some (bytes_of "65536"); Some (bytes_of "9999"); None; None;
   Some (bytes_of "2"); Some (bytes_of "2000"); Some (bytes_of "3"); Some (bytes_of "256"); Some (bytes_of "1"); None;
   Some (bytes_of "55")].

Lemma pull_campaign_spec_witness :
  ∃ s' cp', @pull_campaign demo_env wild_row demo_app = Ret (tt, s') ∧ cps s' !! 20%positive = Some cp' ∧
    call_limit cp' = 2 ∧ max_call_duration cp' = 600 ∧ max_play cp' = 1 ∧ cp_gateway cp' = Some 1%positive.
Proof.
  destruct (@pull_campaign_spec demo_env demo_app wild_row) as [H _].
  - reflexivity.
  - split; intros l Hl; apply list_elem_of_singleton in Hl as ->; by eexists.
  - change (campaign_with demo_app (number (col wild_row 0))) with (@None positive) in H. cbv iota in H.
    change (bool_decide (number (col wild_row 6) = 2)) with true in H. cbv iota in H.
    eexists _, _. split; [exact H|]. split; [apply lookup_insert_eq|]. by split_and!.
Defined.
