(* ===== verification/Pull.v ===== *)
(** * The gateway table (src/main.c, [pull_groups])

    What a row of the gateway table becomes: the text of a SIP URI, which the
    URI component decodes into the address every call through the gateway is
    sent to. *)
From stdpp Require Import base tactics list numbers strings option gmap fin_maps.
From S2P Require Import Prelude Mbuf Fmt Print Regex Uri Telev Rtp Db App Call Campaign.

(** [re_snprintf] of a format made of pieces. *)
Lemma snprintf_pieces ps size fmt args s :
  fmt = fmt_of ps → args = args_of ps → Forall piece_ok ps →
  Z.of_nat (length (text_of ps)) < size ≤ 2 ^ 31 →
  snprintf size fmt args s = Ret (text_of ps, s).
Proof.
  intros -> -> Hps Hsz. unfold snprintf.
  erewrite vsnprintf_run; [|by apply (re_vhprintf_pieces no_handler 0)|done|intros h; apply sim_ret].
  cbn [Datatypes.app]. by rewrite length_app, Nat.add_sub, take_app_length.
Qed.

Definition text_col (r : row) (i : nat) : list Z := default [] (col r i).

(** The URI of a row: without a user the dialer calls itself autodialer. *)
Definition row_params (r : row) : list (list Z) :=
  [bytes_of "prefix=" ++ text_col r 5; bytes_of "codec=" ++ dec_text (number (col r 6))].

Definition row_parts (r : row) : parts :=
  Parts (bytes_of "sip") (match text_col r 3 with [] => bytes_of "autodialer" | u => u end)
    (match text_col r 3 with [] => [] | _ => text_col r 4 end) (text_col r 1) (number (col r 2))
    (params_text (row_params r)) [].

(** A row whose columns can be told apart in the text. *)
Record row_ok (r : row) : Prop := {
  ro_length : length r = 7%nat;
  ro_host : col r 1 = Some (text_col r 1) ∧ Z.of_nat (length (text_col r 1)) ≤ 255;
  ro_port : 0 < number (col r 2) ∧ col r 2 = Some (dec_text (number (col r 2)));
  ro_prefix : col r 5 = Some (text_col r 5) ∧ free_of ";" (text_col r 5) = true ∧ starts_free "=" (text_col r 5) = true;
  ro_codec : number (col r 6) < 2 ^ 31;
  ro_parts : parts_ok (row_parts r);
  ro_size : Z.of_nat (length (uri_text (row_parts r))) < 1024
}.

Lemma number_range v : 0 ≤ number v < 2 ^ 32.
Proof. unfold number. destruct v as [bs|]; [|lia]. destruct (mapM dec_digit bs); [|lia]. apply Z.mod_pos_bound. lia. Qed.

Lemma int_text_dec z : 0 ≤ z → int_text z = dec_text z.
Proof. intros Hz. unfold int_text. by rewrite bool_decide_eq_false_2 by lia. Qed.

Lemma str_len_text v : str_len v = Z.of_nat (length (default [] v)).
Proof. by destruct v. Qed.

Ltac lits Hlit := repeat (apply Forall_cons_2; [first [exact I | by apply Hlit]|]); apply Forall_nil_2.

Section pull.
Context `{E : env}.

Lemma gateway_uri_run r s : row_ok r → gateway_uri r s = Ret (uri_text (row_parts r), s).
Proof.
  intros [Hl [Hh _] [Hp Ep] (Hpre & _) Hc Hok Hsz]. pose proof (number_range (col r 6)) as Hc0.
  unfold gateway_uri. do 5 erewrite prog_bind_step by (apply column_run; lia).
  erewrite prog_bind_step by (apply int_column_run; lia). rewrite !str_len_text. fold (text_col r 3) (text_col r 4).
  set (tl := [PStr (text_col r 1); PLit (bytes_of ":"); PStr (dec_text (number (col r 2))); PLit (bytes_of ";prefix=");
    PStr (text_col r 5); PLit (bytes_of ";codec="); PInt (number (col r 6))]).
  assert (Htl : Forall piece_ok tl).
  { repeat constructor; simpl; try lia; apply (bool_decide_eq_true_1 _); vm_compute; done. }
  assert (Et : text_of tl = hostport_text (row_parts r) ++ p_params (row_parts r)).
  { unfold text_of, tl, hostport_text, row_parts, port_text, params_text, row_params. cbn [map concat piece_text p_host p_port p_params].
    rewrite bool_decide_eq_false_2, int_text_dec, !app_nil_r by lia.
    destruct (digits_dec (number (col r 2)) ltac:(destruct Hok as [_ _ _ _ Hpo _ _ _ _]; cbn in Hpo; lia)) as (_ & Hd & _).
    unfold colon_text. destruct (dec_text (number (col r 2))); [done|]. by rewrite <- !app_assoc. }
  assert (Hfin : ∀ pre fmt args u, fmt = fmt_of (pre ++ tl) → args = args_of (pre ++ tl) → Forall piece_ok pre →
    uri_text (row_parts r) = text_of pre ++ text_of tl → u = uri_text (row_parts r) →
    snprintf 1024 fmt args s = Ret (u, s)).
  { intros pre fmt args u Hf Ha Hpo Eu ->. assert (Ep' : text_of (pre ++ tl) = uri_text (row_parts r)).
    { rewrite Eu. unfold text_of. by rewrite map_app, concat_app. }
    rewrite <- Ep'. apply snprintf_pieces; [done|done|by apply Forall_app|]. rewrite Ep'. lia. }
  assert (Hlit : ∀ l, forallb (λ b, negb (bool_decide (b = chr "%"))) l = true → piece_ok (PLit l)).
  { intros l Hf. apply Forall_forall. intros b Hb. apply list_elem_of_In in Hb. rewrite forallb_forall in Hf.
    apply Hf, negb_true_iff, bool_decide_eq_false in Hb. done. }
  assert (Eu : uri_text (row_parts r) = bytes_of "sip:" ++ userinfo_text (row_parts r) ++ text_of tl).
  { rewrite Et. unfold uri_text. by rewrite app_nil_r. }
  unfold text_col in Hh, Hpre. rewrite Hh, Ep, Hpre. fold (text_col r 1) (text_col r 5).
  destruct (text_col r 3) as [|c user] eqn:Euser.
  - cbn [length]. rewrite !(bool_decide_eq_false_2 (Z.of_nat 0 > 0)) by lia. cbn [andb].
    apply (Hfin [PLit (bytes_of "sip:autodialer@")]); [done|done| | |done].
    + lits Hlit.
    + rewrite Eu. unfold userinfo_text, row_parts. cbn [p_user p_pass]. by rewrite Euser.
  - assert (E3 : col r 3 = Some (c :: user)) by (unfold text_col in Euser; destruct (col r 3); cbn in Euser; congruence).
    rewrite (bool_decide_eq_true_2 (Z.of_nat (length (c :: user)) > 0)) by (cbn [length]; lia). rewrite E3. cbn [andb].
    destruct (text_col r 4) as [|d pass] eqn:Epass.
    + cbn [length]. rewrite !(bool_decide_eq_false_2 (Z.of_nat 0 > 0)) by lia.
      apply (Hfin [PLit (bytes_of "sip:"); PStr (c :: user); PLit (bytes_of "@")]); [done|done| | |done].
      * lits Hlit.
      * rewrite Eu. unfold userinfo_text, row_parts. cbn [p_user p_pass]. rewrite Euser, Epass. unfold text_of.
        cbn [map concat piece_text]. by rewrite <- !app_assoc.
    + assert (E4 : col r 4 = Some (d :: pass)) by (unfold text_col in Epass; destruct (col r 4); cbn in Epass; congruence).
      rewrite (bool_decide_eq_true_2 (Z.of_nat (length (d :: pass)) > 0)) by (cbn [length]; lia). rewrite E4.
      apply (Hfin [PLit (bytes_of "sip:"); PStr (c :: user); PLit (bytes_of ":"); PStr (d :: pass); PLit (bytes_of "@")]);
        [done|done| | |done].
      * lits Hlit.
      * rewrite Eu. unfold userinfo_text, row_parts. cbn [p_user p_pass]. rewrite Euser, Epass. unfold text_of.
        cbn [map concat piece_text]. by rewrite <- !app_assoc.
Qed.

(** What the address of a row says: the request URI and the payload type. *)
Lemma row_gateway_ok r : plenty mem → row_ok r →
  ∃ u, uri_decode (pl_set_str pl_null (Some (uri_text (row_parts r)))) = Ret (0, u) ∧
    gateway_ok u (p_user (row_parts r)) (text_col r 1) (text_col r 5) (u8 (number (col r 6))) ∧
    u_port u = number (col r 2) ∧ denotes (u_password u) (p_pass (row_parts r)).
Proof.
  intros _ [Hl [Hh Hhl] [Hp Ep] (Hpre & Hpf & Hps) Hc Hok Hsz].
  destruct (uri_decode_run (row_parts r) [] Hok) as (u & Eu & [_ Hu Hpa _Hho Hpar _ Hport _]).
  rewrite app_nil_r in Eu. exists u. split; [exact Eu|]. split; [|done].
  set (c := number (col r 6)) in *. pose proof (number_range (col r 6)) as Hc0. fold c in Hc0.
  destruct (digits_dec c ltac:(lia)) as (Hcd & Hcne & Hcv).
  assert (Hsegs : Forall (λ t, free_of ";" t = true) (row_params r)).
  { unfold row_params. fold c. apply Forall_cons_2; [by rewrite free_of_app, Hpf|].
    apply Forall_cons_2; [by rewrite free_of_app, (digits_free ";" _ eq_refl Hcd)|done]. }
  assert (Hsz' : Z.of_nat (length (uri_text (row_parts r))) < 1024) by done.
  unfold uri_text in Hsz'. rewrite !length_app in Hsz'. cbn [length] in Hsz'. rewrite !length_app in Hsz'.
  change (p_params (row_parts r)) with (params_text (row_params r)) in *.
  destruct Hpar as [rest Hpar].
  assert (Hget : ∀ name, name_ok name → ∃ err v, uri_param_get (u_params u) (pl_set_str pl_null (Some name)) = Ret (err, v) ∧
    match find (lower_prefix name) (row_params r) with
    | Some t => err = 0 ∧ ∃ p, v = Some p ∧ views p (drop_equals (drop (length name) t))
    | None => err = ENOENT
    end).
  { intros name Hn. rewrite Hpar. pose proof (uri_param_get_run name [] (row_params r) rest Hn Hsegs ltac:(lia)) as H.
    by rewrite app_nil_r in H. }
  assert (Hlen : ∀ l : list Z, l = p_user (row_parts r) ∨ l = text_col r 5 → Z.of_nat (length l) ≤ 4096).
  { intros l [->| ->].
    - assert (length (p_user (row_parts r)) ≤ length (userinfo_text (row_parts r)))%nat; [|lia].
      unfold userinfo_text. destruct (p_user (row_parts r)) eqn:Eus; [simpl; lia|]. rewrite length_app. lia.
    - unfold params_text, row_params in Hsz'. cbn [map concat] in Hsz'. rewrite length_app in Hsz'. cbn [length] in Hsz'.
      rewrite length_app in Hsz'. lia. }
  split.
  - destruct Hu as [Hu|[Hu _]]; [done|]. exfalso. revert Hu. unfold row_parts. cbn [p_user]. by destruct (text_col r 3).
  - done.
  - rewrite Hport. apply (po_port _ Hok).
  - destruct (Hget prefix_name ltac:(by split)) as (err & v & E1 & Hv). exists err, v. split; [exact E1|].
    change (find _ _) with (Some (bytes_of "prefix=" ++ text_col r 5)) in Hv. destruct Hv as (_ & p & -> & Hv).
    change (drop_equals _) with (drop_equals (text_col r 5)) in Hv.
    replace (drop_equals (text_col r 5)) with (text_col r 5) in Hv; [exact Hv|].
    destruct (text_col r 5) as [|d l]; [done|]. cbn [drop_equals]. rewrite bool_decide_eq_false_2; [done|]. intros ->. done.
  - destruct (Hget codec_name ltac:(by split)) as (err & v & E1 & Hv). exists err, v. split; [exact E1|].
    change (find _ _) with (Some (bytes_of "codec=" ++ dec_text c)) in Hv. destruct Hv as (-> & p & -> & Hv).
    rewrite bool_decide_eq_true_2 by done. exists c. split; [|done]. cbn [default from_option id].
    change (drop_equals _) with (drop_equals (dec_text c)) in Hv.
    replace (drop_equals (dec_text c)) with (dec_text c) in Hv.
    + destruct Hv as [rest' ->]. rewrite Hcv. by rewrite Z.mod_small by lia.
    + destruct (dec_text c) as [|d l]; [done|]. cbn [drop_equals]. rewrite bool_decide_eq_false_2; [done|]. intros ->. done.
  - split_and!; [apply Hlen; by left|lia|apply Hlen; by right].
Qed.

(** A row of the gateway table becomes a gateway that can be called: the
    text built from its columns is a SIP URI that uri_decode takes apart into
    the user, password and host of the row, and whose parameters give back the
    prefix and the codec, so that the gateway meets what call_alloc needs.  A new
    identifier gets a new gateway at the end of the list; a known gateway
    is updated in place, unless the text is, up to case, the one it has: then
    nothing changes. *)
Theorem pull_gateway_spec s r :
  plenty mem → registered s → row_ok r →
  let id := number (col r 0) in
  let text := uri_text (row_parts r) in
  ∃ u, gateway_ok u (p_user (row_parts r)) (text_col r 1) (text_col r 5) (u8 (number (col r 6))) ∧
    u_port u = number (col r 2) ∧ denotes (u_password u) (p_pass (row_parts r)) ∧
    match gateway_with s id with
    | Some g =>
        ∀ gt, gws s !! g = Some gt →
          pull_gateway r s = Ret (tt,
            if bool_decide (str_casecmp (Some text) (uri_str gt) = 0) then s
            else set_gws (<[g := Gateway (gateway_id gt) (Some text) u]> (gws s)) s)
    | None =>
        pull_gateway r s = Ret (tt, set_gateways (gateways s ++ [next s])
          (set_next (Pos.succ (next s)) (set_gws (<[next s := Gateway id (Some text) u]> (gws s)) s)))
    end.
Proof.
  intros Hm Hr Hok id text. pose proof (ro_length _ Hok) as Hl.
  destruct (row_gateway_ok r Hm Hok) as (u & Eu & Hu & Hport & Hpw). fold text in Eu. exists u. split; [done|]. split; [done|]. split; [done|].
  assert (Hdup : str_dup mem (Some text) = (0, Some text)).
  { unfold str_dup. rewrite Hm; [done|]. pose proof (ro_size _ Hok). subst text. lia. }
  assert (Hdec : ∀ g gt s1, gws s1 !! g = Some gt →
    (let str := snd (str_dup mem (Some text)) in
     upd g (set_uri_str str);;
     q ← lift (uri_decode (pl_set_str pl_null str));
     let '(err, u) := q in
     if bool_decide (err ≠ 0) then deref_gateway g else upd g (set_sip_uri u)) s1 =
      Ret (tt, set_gws (<[g := Gateway (gateway_id gt) (Some text) u]> (gws s1)) s1)).
  { intros g gt s1 Hg. cbv zeta. rewrite Hdup. cbn [snd].
    erewrite prog_bind_step by (by eapply upd_run). unfold lift. erewrite prog_bind_step by (by rewrite Eu).
    cbn beta iota. rewrite bool_decide_eq_false_2 by (by intros []).
    erewrite upd_run by apply lookup_insert_eq. cbn. by rewrite insert_insert_eq. }
  unfold pull_gateway. erewrite prog_bind_step by (apply int_column_run; lia). fold id.
  erewrite prog_bind_step by done. erewrite prog_bind_step by (by apply find_gateway_run).
  destruct (gateway_with s id) as [g|] eqn:Eg.
  - intros gt Hgt. erewrite prog_bind_step by done. erewrite prog_bind_step by (by apply gateway_uri_run).
    fold text. erewrite prog_bind_step by (by eapply read_run).
    destruct (bool_decide (str_casecmp (Some text) (uri_str gt) = 0)) eqn:Ec.
    + apply bool_decide_eq_true_1 in Ec. rewrite bool_decide_eq_false_2 by (by intros []). done.
    + apply bool_decide_eq_false_1 in Ec. rewrite bool_decide_eq_true_2 by done. by apply Hdec.
  - erewrite prog_bind_step by done. cbn beta iota. erewrite prog_bind_step by (by apply gateway_uri_run). fold text.
    erewrite prog_bind_step by (apply (read_run (T := gateway)); apply lookup_insert_eq). cbn [uri_str].
    rewrite bool_decide_eq_true_2 by done. erewrite Hdec by apply lookup_insert_eq. cbn. by rewrite insert_insert_eq.
Qed.
End pull.

(** ** Witness *)

Definition demo_row : row :=
  [Some (bytes_of "2"); Some (bytes_of "10.0.0.9"); Some (bytes_of "5070"); Some (bytes_of "bob"); Some (bytes_of "pw");
   Some (bytes_of "99"); Some (bytes_of "8")].

Lemma demo_row_ok : row_ok demo_row.
Proof.
  split; try (vm_compute; by split_and!).
  all: try by vm_compute.
Qed.

Lemma pull_gateway_spec_witness :
  ∃ u, gateway_ok u (bytes_of "bob") (bytes_of "10.0.0.9") (bytes_of "99") 8 ∧
    @pull_gateway demo_env demo_row demo_app = Ret (tt, set_gateways [1%positive; 20%positive]
      (set_next 21 (set_gws (<[20%positive := Gateway 2
        (Some (bytes_of "sip:bob:pw@10.0.0.9:5070;prefix=99;codec=8")) u]> (gws demo_app)) demo_app))).
Proof.
  destruct (@pull_gateway_spec demo_env demo_app demo_row) as (u & Hu & _ & _ & H).
  - exact big_alloc_plenty.
  - split; intros l Hl; apply list_elem_of_singleton in Hl as ->; by eexists.
  - exact demo_row_ok.
  - exists u. split; [exact Hu|]. exact H.
Defined.
